(* ===== verification/_CoqProject ===== *)
-Q . S2P
Prelude.v
Memory.v
Numbers.v
RecordUpdate.v
StateMonad.v
Protocol.v
FunctionChain.v
Packet.v
Input.v
Output.v
Buffers.v
DynamicBuffer.v
Connection.v
Response.v
SubdocValidators.v
Validators.v
Privileges.v
Dispatch.v
StateMachine.v
SessionCas.v
McTime.v
Buckets.v
EngineApi.v
Executors.v
ExecutorSpec.v
References.v
ExecutorRefs.v
Subdoc.v
SubdocSpec.v
SubdocRefs.v
Dcp.v
DcpSpec.v
Closing.v
EngineState.v
Assoc.v
Slabs.v
Items.v
ItemQueues.v
Cache.v
CacheOps.v
CacheCalls.v
DefaultEngine.v
EngineSpec.v
EngineFindings.v
Service.v
