(* ===== verification/Prelude.v ===== *)
(** * Verification of the memcached daemon (the Couchbase KV front end)

    The program accepts connections from clients that speak the memcached
    binary protocol.  A worker thread runs a state machine per connection
    ([daemon/statemachine_mcbp.cc]): it reads a packet header and the packet's
    body from the socket ([daemon/connection_mcbp.cc]), checks that the client
    may run the command ([daemon/mcbp_privileges.cc]) and that the packet has
    the format of the command ([daemon/mcbp_validators.cc],
    [daemon/subdocument_validators.cc]), dispatches it to an executor
    ([daemon/mcbp_executors.cc]), builds the response in the connection's
    message list ([daemon/mcbp.cc]) and transmits it.  This development models
    that path from the socket to the executor and back, the executors of the
    commands on items and on parts of JSON documents ([daemon/subdocument.cc]),
    the closing of connections, the creation and deletion of buckets
    ([daemon/buckets.h], [daemon/memcached.cc]), two small services of the
    daemon (the session token and the clock), and the engine that holds the
    items of a memcached bucket ([engines/default_engine]): its hash table, slab
    allocator, item queues and the calls the server makes on it.

    ** The files

    - [Prelude]: bytes, machine integers, loads and stores in both byte orders,
      general lemmas and tactics.  A w-bit integer is a [Z]; conversions are
      written out with [u8] .. [u64], [i32] and [i64].
    - [Memory]: byte arrays with the C functions on them ([memmove],
      [realloc]), and a heap from addresses to bytes.
    - [RecordUpdate]: update of record fields.
    - [Protocol]: opcodes, statuses, the 24-byte header
      ([include/memcached/protocol_binary.h]), engine errors, and the texts of
      opcodes ([utilities/protocol2text.cc]).
    - [FunctionChain]: [daemon/function_chain.h].
    - [Packet]: a packet as header and body, and its encoding.
    - [Input]: the read buffer and the socket; [tryReadNetwork],
      [bin_read_chunk], [conn_nread], the header part of
      [try_read_mcbp_command] and [shrinkBuffers].
    - [Output]: the vectors [iov] and [msglist]; [addMsgHdr], [addIov],
      [ensureIovSpace] and [transmit].
    - [Buffers]: the read and write buffers that a worker thread lends to its
      connections ([daemon/connections.cc]).
    - [DynamicBuffer]: [daemon/dynamic_buffer.cc].
    - [Connection]: the state of a connection (class [McbpConnection]), the
      state and exception monad the handlers run in, [setCurrentTask].
    - [Response]: all of [daemon/mcbp.cc].
    - [SubdocValidators], [Validators]: the validators and their registration.
    - [Privileges]: the privileges each opcode needs and the check of them.
    - [Dispatch]: the functions of [daemon/mcbp_executors.cc] from
      [try_read_mcbp_command] to the executors.
    - [StateMachine]: every task of [daemon/statemachine_mcbp.cc], the event
      registration, [runEventLoop] with the loan and the return of the buffers,
      and [conn_close].
    - [SessionCas], [McTime]: [daemon/session_cas.cc], [daemon/mc_time.cc].
    - [Buckets]: the buckets, the connections on them and the threads that
      create and destroy them, as steps of a shared state.
    - [StateMonad]: the state and exception monad of handlers and engine, and
      Hoare triples for it.
    - [Numbers]: numbers in text, [utilities/util.c], and the arithmetic of
      [double] that the slab classes need.
    - [EngineApi]: the functions an engine offers ([include/memcached/engine.h]),
      as the class [EngineV1].
    - [Executors]: the executors of [daemon/mcbp_executors.cc] that work on
      items, over any engine of that class, and [process_bin_packet] with them.
    - [ExecutorSpec]: what these executors answer, for every engine.
    - [References]: an engine that counts the references to items it gave out,
      and a calculus that follows them through an executor; [ExecutorRefs]: the
      references that the executors take and give back.
    - [Subdoc]: [daemon/subdocument.cc] and [daemon/subdocument_context.h];
      [SubdocSpec]: the operations of a request, what they do to the document
      and what is answered; [SubdocRefs]: their references.
    - [Dcp]: the DCP message producers, [ship_mcbp_dcp_log] and the DCP executors
      of [daemon/mcbp_executors.cc], over the engine functions of
      [include/memcached/dcp.h] as the class [DcpInterface]; [DcpSpec]: the
      messages of a stream, from the engine that sends to the engine that
      receives.
    - [Closing]: the state machine together with the executors of [Executors],
      [Subdoc] and [Dcp], and what none of them does to a connection.
    - [EngineState]: the state of the default engine with the memory it manages.
    - [Assoc]: [engines/default_engine/assoc.c] with its maintenance thread.
    - [Slabs]: [engines/default_engine/slabs.c].
    - [Items]: [engines/default_engine/items.c].
    - [ItemQueues], [Cache], [CacheOps], [CacheCalls]: doubly linked queues in
      memory, the invariant of table, queues and memory ([items_ok]), and what
      each operation of [Items] does under it.
    - [DefaultEngine]: [engines/default_engine/default_engine.c], the contents
      of the engine as a map ([view]) and what each call does to it.
    - [EngineSpec]: runs of the engine against an abstract cache.
    - [EngineFindings]: refused access and surprising behaviours.
    - [Service]: requests on the wire executed on the default engine.

    ** How the code is modelled

    A handler is a function [M A] of a connection.  Its outcome is [Done] with
    a result and the new connection, [Throw] with the connection at the time
    of a C++ exception, or [Crash] where the code asserts or reads outside of
    memory.  Calls that leave the connection (statistics, audit, the engine's
    release functions, closing the socket) are recorded in the field [trace].
    Reads of a packet are bounded loads, which are [None] outside of it.
    Addresses are [Z], 0 being the null pointer.  The host is little-endian.

    An executor is a function [X A] of a [world]: a connection, the context of
    its command and the engine behind its bucket.  The data of an item is copied
    to the memory of the connection when the engine tells where it is
    ([expose]), so that a response can point to it.

    The engine is a function [E A] of the record [default_engine], in the same
    monad.  Its memory is a map from the addresses of chunks to items; whether
    an allocation succeeds, and the address of a new page, come from scripts in
    the state, so that every theorem holds whatever the allocator does.  A step
    of the maintenance thread is what it does while it holds the lock.  The
    table of a process is shared by its engines: keys start with the number of
    the bucket, and the theorems about one engine allow any items of others in
    the table.  The growth factor of the slab classes is a [float], given by its
    numerator and denominator; the sizes of the classes are computed with
    [double] arithmetic rounded to 53 bits ([Numbers]).  Of memory that moves when
    a vector grows the model keeps which allocation a pointer is into
    ([iov_block] in [Output]): a pointer into an allocation that was given up is
    not usable.

    What is not in the sources is a parameter: [System] (settings, allocator,
    clock, libevent), [Engine] (the cluster map), [Bucket] (executors and
    engine functions, Snappy), [Process] (shipping TAP and DCP logs, the state
    of buckets, the result of SASL), [Services] (the JSON validator, inflating,
    the version text), [Subjson] (what a sub-document operation makes of a
    document), [DcpInterface] (the DCP functions of an engine, memory for the
    list of items); for the engine, the hash function, the bytes of
    uninitialised memory and the server's [realtime].  The executors that
    [Executors], [Subdoc] and [Dcp] do not model, and TAP, are under [daemon/]
    but are parameters, too.  [WellBehaved] states what the invariant of the
    state machine needs of what it calls: that it leaves the socket alone and
    does not enter the states behind [conn_closing].  [Closing] proves this of
    the modelled executors and of the shipping of the DCP log; it is assumed of
    the rest ([TameRest]) and of the engine and the extensions ([TameEngine]).

    ** What is proved

    - Requests: the validators accept exactly the packets that conform to the
      format of their command and say which status the others get
      ([validateCommand_spec], [subdoc_validator_spec],
      [subdoc_multi_validator_spec]); the first and the last compare this with
      what [docs/BinaryProtocol.md], [docs/sasl.md] and the comments in
      [protocol_binary.h] say, and name the differences; an executor runs exactly on packets that
      passed privileges and validators ([process_bin_packet_spec],
      [privilege_invoke_spec], [executors_guarded]); headers are refused or
      accepted as they should be ([try_read_mcbp_command_spec]).
    - Input: no byte of the stream is lost, repeated or reordered
      ([tryReadNetwork_stream], [packet_framing]) and a packet sent in full is
      read in full ([packet_read_completes]).
    - Output: the message list holds exactly the bytes added ([addIov_spec])
      and they are sent exactly once ([response_sent_once]); responses are
      correctly encoded ([mcbp_write_packet_error], [mcbp_write_response_spec],
      [mcbp_response_handler_spec], [not_my_vbucket_map]).
    - Life of a connection: buffers have one owner, and a buffer that counts as
      having data does not change it ([buffers_owned_once]; a response header
      that waits does not count, see [pending_header_overwritten]); the
      checks of the closing states never fail ([closing_states_sound]); a
      closing connection releases everything once ([connection_closes]).
    - Encodings are inverse to their decodings ([request_header_codec],
      [packet_roundtrip], [opcode_text_roundtrip]).
    - The session token cannot change under a running operation
      ([session_cas_refines]); the clock follows the system's
      ([clock_follows]) and expiry times keep their meaning
      ([convert_to_real_time_spec]).
    - The default engine: every run of it is a run of a map from which
      allocations throw entries out ([default_engine_refines]); references to
      items stay valid ([references_safe]); it starts with an empty cache
      ([engine_starts]); the hash table is a map at every stage of its growth
      ([assoc_refines]), which ends ([assoc_expansion_terminates]); chunks never
      overlap and lie in memory the allocator owns ([slabs_disjoint]) and are
      the smallest that fit ([slabs_clsid_first_fit]); reads, stores, deletions
      and arithmetic, but not TOUCH and its kin, are served on active virtual
      buckets only ([vbucket_guarded], [vbucket_access]).
    - Server and engine together: a request to read, store or delete an item
      that passed the checks is answered with the bytes, and leaves the cache
      with the contents, that a map from keys to entries demands
      ([get_served], [set_served], [delete_served]); with any engine, no
      executor loses or repeats a reference to an item, but for two cases of GET
      ([references_accounted], [subdoc_references]), and the loop of APPEND ends ([append_ends]).
    - Sub-documents: the executor reads the operations that the validator
      accepted ([subdoc_multi_decoded]); a mutation is stored as a whole or not
      at all ([subdoc_mutation_atomic]) and starts again when the document
      changed meanwhile ([conflict_retried]); responses are correctly encoded
      ([subdoc_response_spec]).
    - DCP: the messages an engine puts into a stream are sent as complete packets
      in order ([dcp_shipped]), and the executor of a message calls the engine
      with the arguments the producer was given, or the message is one of those
      that the validators refuse ([dcp_received]); producers
      write in the write buffer only, whatever they are given
      ([producers_in_buffer]).
    - Buckets: a bucket is never destroyed under a client, whatever threads and
      clients do ([buckets_safe]), and its deletion can end ([deletion_completes]).
    - Places where the code does not do what it means to, as theorems about
      the same definitions: [pending_header_overwritten],
      [verbose_connection_leaks], [subdoc_validator_path_outside],
      [subdoc_validator_extras_outside], [multi_minimum_length_byte_order],
      [validateCommand_in_packet], [tap_ack_key_outside],
      [transmit_reads_outside], [mcbp_write_packet_oom],
      [get_clustermap_revno_overrun], [clock_step_back_missed],
      [slabs_chunk_outside], [class_beyond_queues], [safe_strto_accepts],
      [arithmetic_leaks_reference], [references_wrap],
      [get_vbucket_state_wrong], [touch_unguarded],
      [allocate_too_big_enomem], [scrub_last_run_negative],
      [set_releases_twice], [get_leaks], [delete_own_bucket], [create_out_of_memory],
      [extras_left_behind], [deletion_outside], [mutation_outside].

    ** Bounds

    Loops that are not structural take fuel, and the theorems show that it is
    enough: [tryReadNetwork] makes at most 6 passes, since it grows the buffer
    at most 4 times; [addIov] splits a buffer into at most 3 pieces, since only
    the first message is limited in size; the growth loops of [bin_read_chunk]
    and [DynamicBuffer::grow] have fuel for 33 and 66 doublings, more than it
    takes to exceed every 32-bit and 64-bit need.  The number of tasks
    [runStateMachinery] runs is an argument, since a connection may be served
    for ever.  Read buffers are smaller than 2^32 bytes ([buf_ok]), since
    [net_buf.size] has 32 bits ([bufsize]).  Searches in chains and
    queues of items have fuel for every item in memory.  Clocks of the engine
    stay three hours below 2^32 seconds ([early]), and an item has fewer than
    65535 references ([CacheOps.counted]).  A sub-document command makes at most
    100 attempts ([MAXIMUM_ATTEMPTS], as in the code), and the operations of its
    body take four bytes at least each, which bounds the loop that reads them.
    There are fewer than 2^31 sockets.  A write buffer is smaller than 2^32 bytes;
    a producer that finds no room in it says so.

    ** What is not modelled

    The executors of STAT, SASL, TAP and administration commands, the other
    engines, the executor pool, timings and top keys, settings,
    SASL, TLS, the Greenstack protocol, the audit daemon, loggers, server
    start-up, most utilities and client programs.  Logging and DTrace probes are
    left out of the modelled functions.  Threads other than the connection's
    own appear as steps that change a connection between two runs of its state
    machine. *)

From Stdlib Require Export ZArith Lia ZifyBool.
From stdpp Require Export base option numbers strings gmap list.
Export stdpp.list_relations.list stdpp.list_basics.list.

#[export] Set Default Goal Selector "!".
#[export] Set Warnings "-clear-no-such-hyp".
Open Scope Z_scope.

(** ** Notation

    The C++ sources compare unsigned integers with [!=]; the scope keeps the
    translated guards readable. *)
Declare Scope mc_scope.
Delimit Scope mc_scope with mc.
Notation "x != y" := (negb (Z.eqb x y)) (at level 70, no associativity) : mc_scope.
Notation "x == y" := (Z.eqb x y) (at level 70, no associativity) : mc_scope.
Open Scope mc_scope.

Create HintDb mc.
Create Rewrite HintDb mc.

(** ** Bytes *)

Abbreviation byte := Byte.byte.
Abbreviation bytes := (list Byte.byte).

#[global] Instance byte_eq_dec : EqDecision byte := Byte.byte_eq_dec.
#[global] Instance byte_countable : Countable byte := inj_countable Byte.to_N Byte.of_N Byte.of_to_N.

(** The unsigned value of a byte ([uint8_t]). *)
Definition b2z (b : byte) : Z := Z.of_N (Byte.to_N b).

(** Truncation of an integer to a byte, the conversion to [uint8_t]. *)
Definition z2b (z : Z) : byte := default Byte.x00 (Byte.of_N (Z.to_N (z mod 256))).

Lemma b2z_range b : 0 <= b2z b < 256.
Proof. unfold b2z. pose proof (Byte.to_N_bounded b). lia. Qed.

Lemma z2b_b2z b : z2b (b2z b) = b.
Proof.
  unfold z2b. rewrite Z.mod_small by apply b2z_range.
  unfold b2z. by rewrite N2Z.id, Byte.of_to_N.
Qed.

Lemma b2z_z2b z : b2z (z2b z) = z mod 256.
Proof.
  unfold z2b, b2z. pose proof (Z.mod_pos_bound z 256 eq_refl) as Hm.
  destruct (Byte.of_N (Z.to_N (z mod 256))) as [b|] eqn:E; cbn.
  - apply Byte.to_of_N in E. rewrite E. lia.
  - apply Byte.of_N_None_iff in E. lia.
Qed.

Lemma b2z_inj b c : b2z b = b2z c -> b = c.
Proof. intros H. by rewrite <- (z2b_b2z b), H, z2b_b2z. Qed.

(** ** Machine integers *)

(** Conversion to an unsigned type of [w] bits. *)
Definition wrap (w z : Z) : Z := z mod 2 ^ w.
Abbreviation u8 := (wrap 8).
Abbreviation u16 := (wrap 16).
Abbreviation u32 := (wrap 32).
Abbreviation u64 := (wrap 64).

(** Conversion to a signed type of [w] bits (two's complement). *)
Definition swrap (w z : Z) : Z := (z + 2 ^ (w - 1)) mod 2 ^ w - 2 ^ (w - 1).
Abbreviation i32 := (swrap 32).
Abbreviation i64 := (swrap 64).

Lemma wrap_range w z : 0 <= w -> 0 <= wrap w z < 2 ^ w.
Proof. intros. apply Z.mod_pos_bound. lia. Qed.

Lemma wrap_small w z : 0 <= z < 2 ^ w -> wrap w z = z.
Proof. apply Z.mod_small. Qed.

Lemma wrap_idem w z : wrap w (wrap w z) = wrap w z.
Proof. unfold wrap. apply Zmod_mod. Qed.

Lemma u32_small z : 0 <= z < 4294967296 -> u32 z = z.
Proof. intros. apply (wrap_small 32). by change (2 ^ 32) with 4294967296. Qed.

Lemma u32_sub_u32 x y : u32 (u32 x - y) = u32 (x - y).
Proof. unfold u32, wrap. by rewrite Zminus_mod_idemp_l. Qed.

Lemma swrap_small w z : 0 < w -> - 2 ^ (w - 1) <= z < 2 ^ (w - 1) -> swrap w z = z.
Proof.
  intros Hw Hz. unfold swrap.
  assert (2 ^ w = 2 * 2 ^ (w - 1)) as E.
  { rewrite <- Z.pow_succ_r by lia. f_equal. lia. }
  rewrite Z.mod_small; lia.
Qed.

Lemma i32_small z : - 2147483648 <= z < 2147483648 -> i32 z = z.
Proof. intros. apply (swrap_small 32); [lia|]. by change (2 ^ (32 - 1)) with 2147483648. Qed.

#[export] Hint Resolve b2z_range : mc.
#[export] Hint Rewrite z2b_b2z b2z_z2b wrap_idem : mc.

(** Expand the powers of two that the unsigned types are bounded by. *)
Ltac pow2 :=
  change (2 ^ 8) with 256 in *; change (2 ^ 16) with 65536 in *;
  change (2 ^ 32) with 4294967296 in *;
  change (2 ^ 64) with 18446744073709551616 in *.

(** ** Memory images of integers

    The host is little endian: loading an integer from memory reads its least
    significant byte first.  The network order is big endian. *)

Fixpoint le_load (bs : bytes) : Z :=
  match bs with
  | [] => 0
  | b :: bs => b2z b + 256 * le_load bs
  end.

Fixpoint le_store (n : nat) (z : Z) : bytes :=
  match n with
  | O => []
  | S n => z2b z :: le_store n (z / 256)
  end.

Definition be_load (bs : bytes) : Z := le_load (reverse bs).
Definition be_store (n : nat) (z : Z) : bytes := reverse (le_store n z).

Lemma le_store_length n z : length (le_store n z) = n.
Proof. revert z. induction n as [|n IH]; intros; cbn; [done|]. by rewrite IH. Qed.

Lemma be_store_length n z : length (be_store n z) = n.
Proof. unfold be_store. by rewrite length_reverse, le_store_length. Qed.

Lemma pow256_succ n : 256 ^ Z.of_nat (S n) = 256 * 256 ^ Z.of_nat n.
Proof. rewrite Nat2Z.inj_succ, Z.pow_succ_r; lia. Qed.

Lemma le_load_range bs : 0 <= le_load bs < 256 ^ Z.of_nat (length bs).
Proof.
  induction bs as [|b bs IH]; [cbn; lia|].
  change (le_load (b :: bs)) with (b2z b + 256 * le_load bs).
  change (length (b :: bs)) with (S (length bs)).
  rewrite pow256_succ. pose proof (b2z_range b). lia.
Qed.

Lemma le_load_store n z : le_load (le_store n z) = z mod 256 ^ Z.of_nat n.
Proof.
  revert z. induction n as [|n IH]; intros z.
  - cbn. by rewrite Z.mod_1_r.
  - cbn [le_store le_load]. rewrite IH, b2z_z2b, pow256_succ.
    by rewrite Z.rem_mul_r by lia.
Qed.

Lemma le_store_load bs : le_store (length bs) (le_load bs) = bs.
Proof.
  induction bs as [|b bs IH]; [done|].
  cbn [length le_store le_load]. pose proof (b2z_range b).
  replace ((b2z b + 256 * le_load bs) / 256) with (le_load bs).
  - rewrite IH. f_equal. apply b2z_inj. rewrite b2z_z2b.
    rewrite (Z.mul_comm 256), Z.mod_add, Z.mod_small by lia. done.
  - rewrite (Z.mul_comm 256), Z.div_add, Z.div_small by lia. lia.
Qed.

Lemma be_load_range bs : 0 <= be_load bs < 256 ^ Z.of_nat (length bs).
Proof.
  unfold be_load. pose proof (le_load_range (reverse bs)) as H.
  by rewrite length_reverse in H.
Qed.

Lemma be_load_store n z : be_load (be_store n z) = z mod 256 ^ Z.of_nat n.
Proof. unfold be_load, be_store. by rewrite reverse_involutive, le_load_store. Qed.

Lemma be_store_load bs : be_store (length bs) (be_load bs) = bs.
Proof.
  unfold be_load, be_store.
  rewrite <- (length_reverse bs), le_store_load. apply reverse_involutive.
Qed.

(** ** Byte order conversion: [htons], [htonl], [htonll] and their inverses *)

(** The value whose memory image is the reversed image of [x]. *)
Definition bswap (n : nat) (x : Z) : Z := be_load (le_store n x).
Abbreviation ntohs := (bswap 2).
Abbreviation htons := (bswap 2).
Abbreviation ntohl := (bswap 4).
Abbreviation htonl := (bswap 4).
Abbreviation ntohll := (bswap 8).
Abbreviation htonll := (bswap 8).

Lemma bswap_le_load n bs : length bs = n -> bswap n (le_load bs) = be_load bs.
Proof. intros <-. unfold bswap. by rewrite le_store_load. Qed.

Lemma bswap_range n x : 0 <= bswap n x < 256 ^ Z.of_nat n.
Proof.
  unfold bswap. pose proof (be_load_range (le_store n x)) as H.
  by rewrite le_store_length in H.
Qed.

Lemma le_store_bswap n x : le_store n (bswap n x) = reverse (le_store n x).
Proof.
  unfold bswap, be_load.
  rewrite <- (le_store_length n x) at 1. rewrite <- length_reverse.
  apply le_store_load.
Qed.

Lemma bswap_involutive n x :
  0 <= x < 256 ^ Z.of_nat n -> bswap n (bswap n x) = x.
Proof.
  intros Hx. change (bswap n (bswap n x)) with (le_load (reverse (le_store n (bswap n x)))).
  by rewrite le_store_bswap, reverse_involutive, le_load_store, Z.mod_small.
Qed.

Lemma bswap_swap n x y :
  0 <= x < 256 ^ Z.of_nat n -> 0 <= y < 256 ^ Z.of_nat n ->
  (x = bswap n y <-> bswap n x = y).
Proof. intros. split; [intros ->|intros <-]; by rewrite bswap_involutive. Qed.

Lemma le_store_0 n : le_store n 0 = replicate n Byte.x00.
Proof. induction n as [|n IH]; [done|]. cbn. by f_equal. Qed.

Lemma bswap_0 n : bswap n 0 = 0.
Proof.
  unfold bswap, be_load. rewrite le_store_0, reverse_replicate, <- le_store_0.
  rewrite le_load_store. apply Z.mod_0_l, Z.pow_nonzero; lia.
Qed.

Lemma bswap_eq_0 n x : 0 <= x < 256 ^ Z.of_nat n -> (bswap n x = 0 <-> x = 0).
Proof.
  intros Hx. split; [|intros ->; apply bswap_0].
  intros H. rewrite <- (bswap_involutive n x Hx), H. apply bswap_0.
Qed.

(** ** Bounded loads

    A load outside the memory a component owns yields [None]. *)
Definition load (n : nat) (off : Z) (m : bytes) : option bytes :=
  if (0 <=? off) && (off + Z.of_nat n <=? Z.of_nat (length m))
  then Some (take n (drop (Z.to_nat off) m)) else None.

Lemma load_is_Some n off m :
  is_Some (load n off m) <-> 0 <= off /\ off + Z.of_nat n <= Z.of_nat (length m).
Proof.
  unfold load. destruct (_ && _) eqn:E.
  - split; [lia|eauto].
  - split; [intros [? [=]]|lia].
Qed.

Lemma load_length n off m bs : load n off m = Some bs -> length bs = n.
Proof.
  unfold load. destruct (_ && _) eqn:E; [|done]. intros [= <-].
  rewrite length_take, length_drop. lia.
Qed.

Lemma load_drop n off m bs :
  load n off m = Some bs ->
  drop (Z.to_nat off) m = bs ++ drop (Z.to_nat (off + Z.of_nat n)) m.
Proof.
  unfold load. destruct (_ && _) eqn:E; [|done]. intros [= <-].
  rewrite <- (take_drop n (drop (Z.to_nat off) m)) at 1. f_equal.
  rewrite drop_drop. f_equal. lia.
Qed.

Lemma drop_load n off m bs rest :
  (0 < n)%nat -> 0 <= off -> length bs = n -> drop (Z.to_nat off) m = bs ++ rest ->
  load n off m = Some bs.
Proof.
  intros Hn Ho Hl Hd. apply (f_equal length) in Hd as Hd'.
  rewrite length_drop, length_app in Hd'. unfold load.
  destruct (_ && _) eqn:E; [|lia].
  rewrite Hd. by rewrite take_app_length' by lia.
Qed.

(** An integer field at an offset, in host order. *)
Definition load_int (n : nat) (off : Z) (m : bytes) : option Z :=
  le_load <$> load n off m.

Lemma load_int_range n off m x :
  load_int n off m = Some x -> 0 <= x < 256 ^ Z.of_nat n.
Proof.
  unfold load_int. destruct (load n off m) as [bs|] eqn:E; [|done].
  intros [= <-]. apply load_length in E as <-. apply le_load_range.
Qed.

Lemma load_int_is_Some n off m :
  is_Some (load_int n off m) <-> 0 <= off /\ off + Z.of_nat n <= Z.of_nat (length m).
Proof. unfold load_int. rewrite fmap_is_Some. apply load_is_Some. Qed.

(** The bytes behind an integer field, in host and in network order. *)
Lemma load_int_bytes n off m x :
  load_int n off m = Some x ->
  exists bs, length bs = n /\ x = le_load bs /\ bswap n x = be_load bs /\
    drop (Z.to_nat off) m = bs ++ drop (Z.to_nat (off + Z.of_nat n)) m.
Proof.
  unfold load_int. destruct (load n off m) as [bs|] eqn:E; [|done]. intros [= <-].
  pose proof (load_length _ _ _ _ E) as Hl. exists bs.
  split_and!; [done|done|by apply bswap_le_load|by apply load_drop].
Qed.

Lemma bytes_load_int n off m bs rest :
  (0 < n)%nat -> 0 <= off -> length bs = n -> drop (Z.to_nat off) m = bs ++ rest ->
  load_int n off m = Some (le_load bs).
Proof. intros. unfold load_int. by erewrite drop_load. Qed.

(** A field stored in network order is loaded back through the byte swap. *)
Lemma load_int_be n off m x rest :
  (0 < n)%nat -> 0 <= off -> 0 <= x < 256 ^ Z.of_nat n ->
  drop (Z.to_nat off) m = be_store n x ++ rest ->
  exists y, load_int n off m = Some y /\ bswap n y = x.
Proof.
  intros Hn Ho Hx Hd. exists (le_load (be_store n x)). split.
  - by eapply bytes_load_int; [..|exact Hd]; rewrite ?be_store_length.
  - rewrite bswap_le_load by apply be_store_length. by rewrite be_load_store, Z.mod_small.
Qed.

(** Split a slice off the bytes at an offset. *)
Lemma drop_split off n (m : bytes) :
  0 <= off -> 0 <= n -> off + n <= Z.of_nat (length m) ->
  exists bs, Z.of_nat (length bs) = n /\
    drop (Z.to_nat off) m = bs ++ drop (Z.to_nat (off + n)) m.
Proof.
  intros. exists (take (Z.to_nat n) (drop (Z.to_nat off) m)). split.
  - rewrite length_take, length_drop. lia.
  - rewrite <- (take_drop (Z.to_nat n) (drop (Z.to_nat off) m)) at 1. f_equal.
    rewrite drop_drop. f_equal. lia.
Qed.

Lemma drop_next off k (m bs rest : bytes) :
  0 <= off -> Z.of_nat (length bs) = k -> drop (Z.to_nat off) m = bs ++ rest ->
  drop (Z.to_nat (off + k)) m = rest.
Proof.
  intros Ho Hk Hd. replace (Z.to_nat (off + k)) with (Z.to_nat off + length bs)%nat by lia.
  rewrite <- drop_drop, Hd. by rewrite drop_app_length.
Qed.

(** ** Reachability

    Reflexive transitive closure of a step relation, and the invariant rule
    the state machines of the development use. *)
Lemma rtc_invariant {A} (R : A -> A -> Prop) (Inv : A -> Prop) :
  (forall x y, Inv x -> R x y -> Inv y) -> forall x y, rtc R x y -> Inv x -> Inv y.
Proof. intros Hstep x y. induction 1; eauto. Qed.

(** ** Exhaustive checks

    A decidable property of every byte value is proved by evaluating it on
    the 256 of them. *)
Definition check_upto (n : nat) (P : Z -> bool) : bool :=
  forallb P (Z.of_nat <$> seq 0 n).

Lemma check_upto_sound n P :
  check_upto n P = true -> forall z, 0 <= z < Z.of_nat n -> P z = true.
Proof.
  intros H z Hz. unfold check_upto in H.
  apply (proj1 (forallb_forall _ _) H), list_elem_of_In, list_elem_of_fmap.
  exists (Z.to_nat z). rewrite elem_of_seq. lia.
Qed.

(** The arithmetic of the memory images is used through its lemmas. *)
#[global] Arguments bswap : simpl never.
#[global] Arguments be_load : simpl never.
#[global] Arguments be_store : simpl never.
#[global] Arguments load : simpl never.
#[global] Arguments load_int : simpl never.
#[global] Arguments wrap : simpl never.
#[global] Arguments swrap : simpl never.
#[global] Arguments b2z : simpl never.
#[global] Arguments z2b : simpl never.
