(* ===== verification/Memory.v ===== *)
(** * Blocks of memory

    A buffer the code allocates is a list of bytes; pointers into it are
    offsets.  [memcpy], [memmove] and the system calls that fill a buffer
    write a list of bytes at an offset; [realloc] keeps the common prefix and
    leaves the rest undefined. *)

From S2P Require Import Prelude.

(** [n] bytes at [off]. *)
Definition slice (off n : Z) (m : bytes) : bytes :=
  take (Z.to_nat n) (drop (Z.to_nat off) m).

(** Write [bs] at [off]. *)
Definition blit (off : Z) (bs m : bytes) : bytes :=
  take (Z.to_nat off) m ++ bs ++ drop (Z.to_nat off + length bs) m.

Definition size (m : bytes) : Z := Z.of_nat (length m).

(** [memmove(m + dst, m + src, n)] *)
Definition memmove (dst src n : Z) (m : bytes) : bytes := blit dst (slice src n m) m.

(** [realloc]: the bytes behind the old size are undefined; [junk] stands for
    them. *)
Definition realloc (junk : byte) (n : Z) (m : bytes) : bytes :=
  take (Z.to_nat n) m ++ replicate (Z.to_nat n - length m) junk.

Lemma size_nonneg m : 0 <= size m.
Proof. unfold size. lia. Qed.

Lemma size_app a b : size (a ++ b) = size a + size b.
Proof. unfold size. rewrite length_app. lia. Qed.

Lemma slice_size off n m :
  0 <= off -> 0 <= n -> off + n <= size m -> size (slice off n m) = n.
Proof. unfold size, slice. rewrite length_take, length_drop. lia. Qed.

Lemma slice_0 off m : slice off 0 m = [].
Proof. done. Qed.

Lemma slice_app off a b m :
  0 <= off -> 0 <= a -> 0 <= b ->
  slice off (a + b) m = slice off a m ++ slice (off + a) b m.
Proof.
  intros. unfold slice. rewrite !Z2Nat.inj_add by lia.
  rewrite <- drop_drop, <- take_take_drop. done.
Qed.


Lemma blit_size off bs m :
  0 <= off -> off + size bs <= size m -> size (blit off bs m) = size m.
Proof.
  unfold size, blit. intros. rewrite !length_app, length_take, length_drop. lia.
Qed.

Lemma slice_blit_same off bs m :
  0 <= off -> off + size bs <= size m -> slice off (size bs) (blit off bs m) = bs.
Proof.
  unfold size, blit, slice. intros.
  rewrite drop_app_length' by (rewrite length_take; lia).
  rewrite Nat2Z.id. apply take_app_length.
Qed.

Lemma slice_blit_before off bs m off' n :
  0 <= off' -> 0 <= n -> off' + n <= off -> off + size bs <= size m ->
  slice off' n (blit off bs m) = slice off' n m.
Proof.
  unfold size, blit, slice. intros.
  rewrite drop_app_le by (rewrite length_take; lia).
  rewrite take_app_le by (rewrite length_drop, length_take; lia).
  rewrite <- (take_drop (Z.to_nat off) m) at 2.
  rewrite drop_app_le by (rewrite length_take; lia).
  rewrite take_app_le by (rewrite length_drop, length_take; lia). done.
Qed.

Lemma realloc_size junk n m : 0 <= n -> size (realloc junk n m) = n.
Proof.
  unfold size, realloc. intros. rewrite length_app, length_take, length_replicate. lia.
Qed.

Lemma slice_realloc junk k m off n :
  0 <= off -> 0 <= n -> off + n <= size m -> off + n <= k ->
  slice off n (realloc junk k m) = slice off n m.
Proof.
  unfold size, realloc, slice. intros.
  rewrite drop_app_le by (rewrite length_take; lia).
  rewrite take_app_le by (rewrite length_drop, length_take; lia).
  rewrite <- (take_drop (Z.to_nat k) m) at 2.
  rewrite drop_app_le by (rewrite length_take; lia).
  rewrite take_app_le by (rewrite length_drop, length_take; lia). done.
Qed.

(** ** The heap

    Memory the connection only points to: a byte at every address. *)

Definition heap := Z -> byte.

(** The [n] bytes at address [a]. *)
Definition fetch (h : heap) (a n : Z) : bytes := map h (seqZ a n).

(** [memcpy] of [bs] to address [a]. *)
Definition put (h : heap) (a : Z) (bs : bytes) : heap :=
  fun x => if (a <=? x) && (x <? a + size bs) then nth (Z.to_nat (x - a)) bs (h x) else h x.

Lemma fetch_size h a n : 0 <= n -> size (fetch h a n) = n.
Proof. intros. unfold size, fetch. rewrite length_map, length_seqZ. lia. Qed.

Lemma fetch_app h a n k :
  0 <= n -> 0 <= k -> fetch h a (n + k) = fetch h a n ++ fetch h (a + n) k.
Proof. intros. unfold fetch. by rewrite seqZ_app, map_app by lia. Qed.

Lemma fetch_ext h h' a n :
  (forall x, a <= x < a + n -> h x = h' x) -> fetch h a n = fetch h' a n.
Proof.
  intros H. unfold fetch. apply map_ext_in. intros x Hx.
  apply list_elem_of_In, elem_of_seqZ in Hx. apply H. lia.
Qed.

Lemma fetch_put_same h a bs : fetch (put h a bs) a (size bs) = bs.
Proof.
  apply list_eq. intros i. unfold fetch.
  change (map ?f ?l) with (f <$> l). rewrite list_lookup_fmap.
  destruct (decide (i < length bs)%nat) as [Hi|Hi].
  - rewrite lookup_seqZ_lt by (unfold size; lia). cbn. unfold put.
    rewrite (proj2 (Z.leb_le _ _)), (proj2 (Z.ltb_lt _ _)) by (unfold size; lia). cbn.
    replace (Z.to_nat (a + Z.of_nat i - a)) with i by lia.
    destruct (bs !! i) as [b|] eqn:E; [|apply lookup_ge_None in E; lia].
    f_equal. by apply nth_lookup_Some.
  - rewrite lookup_seqZ_ge by (unfold size; lia). cbn. symmetry. apply lookup_ge_None. lia.
Qed.

Lemma put_other h a bs x : x < a \/ a + size bs <= x -> put h a bs x = h x.
Proof. intros Hx. unfold put. destruct ((a <=? x) && (x <? a + size bs)) eqn:E; [lia|done]. Qed.

Lemma fetch_put_other h a bs b n :
  b + n <= a \/ a + size bs <= b -> fetch (put h a bs) b n = fetch h b n.
Proof. intros H. apply fetch_ext. intros x Hx. apply put_other. lia. Qed.

(** Writing behind what is there appends. *)
Lemma fetch_put_append h b n bs :
  0 <= n -> fetch (put h (b + n) bs) b (n + size bs) = fetch h b n ++ bs.
Proof.
  intros Hn. rewrite fetch_app by (lia || apply size_nonneg).
  rewrite fetch_put_same, fetch_put_other by lia. done.
Qed.
