(* ===== verification/Numbers.v ===== *)
(** * Numbers in text

    The C library's conversions between numbers and decimal text, and the
    checked conversions of [utilities/util.c] on top of them: [safe_strtoull],
    [safe_strtoll], [safe_strtoul] and [safe_strtol].  A C string is the list
    of its bytes before the terminating zero; [long] has 64 bits.  At the end,
    the arithmetic on [double]. *)

From S2P Require Import Prelude.

Definition byte_isspace (b : byte) : bool := (b2z b =? 32) || ((9 <=? b2z b) && (b2z b <=? 13)).
Definition byte_isdigit (b : byte) : bool := (48 <=? b2z b) && (b2z b <=? 57).

Definition text (s : string) : bytes := String.list_byte_of_string s.

(** The number a list of digits denotes. *)
Definition digits_value (ds : bytes) : Z := foldl (fun acc b => 10 * acc + (b2z b - 48)) 0 ds.

(** The bytes before the first zero. *)
Fixpoint c_string (m : bytes) : bytes :=
  match m with
  | [] => []
  | b :: m => if b2z b == 0 then [] else b :: c_string m
  end.

(** The longest prefix of bytes with a property, and the rest. *)
Fixpoint span (p : byte -> bool) (s : bytes) : bytes * bytes :=
  match s with
  | [] => ([], [])
  | b :: s' => if p b then let '(l, r) := span p s' in (b :: l, r) else ([], s)
  end.

Definition MINUS : byte := z2b 45.
Definition PLUS : byte := z2b 43.

Definition take_sign (s : bytes) : bool * bytes :=
  match s with
  | b :: s' => if bool_decide (b = MINUS) then (true, s')
               else if bool_decide (b = PLUS) then (false, s') else (false, s)
  | [] => (false, s)
  end.

(** What the [strto] functions read: sign, digits and what is left of the
    string, which is all of it when there are no digits. *)
Definition scan_number (s : bytes) : bool * bytes * bytes :=
  let '(neg, r) := take_sign (span byte_isspace s).2 in
  let '(ds, r) := span byte_isdigit r in
  (neg, ds, if bool_decide (ds = []) then s else r).

(** The result, the end pointer as the rest of the string, and whether [errno]
    is [ERANGE]. *)
Definition strtoull (s : bytes) : Z * bytes * bool :=
  let '(neg, ds, r) := scan_number s in
  let v := digits_value ds in
  if 2 ^ 64 <=? v then (2 ^ 64 - 1, r, true) else ((if neg then u64 (- v) else v), r, false).

Definition strtoll (s : bytes) : Z * bytes * bool :=
  let '(neg, ds, r) := scan_number s in
  let v := if neg then - digits_value ds else digits_value ds in
  if v <? - 2 ^ 63 then (- 2 ^ 63, r, true)
  else if 2 ^ 63 <=? v then (2 ^ 63 - 1, r, true) else (v, r, false).

(** [isspace( *endptr) || ( *endptr == '\0' && endptr != str)] *)
Definition ends_well (s r : bytes) : bool :=
  match r with
  | b :: _ => byte_isspace b
  | [] => negb (bool_decide (s = []))
  end.

Definition safe_strtoull (s : bytes) : option Z :=
  let '(ull, r, erange) := strtoull s in
  if erange then None else
  if ends_well s r then
    if (i64 ull <? 0) && bool_decide (MINUS ∈ s) then None else Some ull
  else None.

Definition safe_strtoll (s : bytes) : option Z :=
  let '(ll, r, erange) := strtoll s in
  if erange then None else if ends_well s r then Some ll else None.

Definition safe_strtoul (s : bytes) : option Z :=
  let '(l, r, erange) := strtoull s in
  if erange then None else
  if ends_well s r then
    if (i64 l <? 0) && bool_decide (MINUS ∈ s) then None else Some (u32 l)
  else None.

Definition safe_strtol (s : bytes) : option Z :=
  let '(l, r, erange) := strtoll s in
  if erange then None else if ends_well s r then Some (i32 l) else None.

(** [snprintf] with ["%u"] and its variants: the digits of a number. *)
Fixpoint print_digits (fuel : nat) (n : Z) : bytes :=
  match fuel with
  | O => []
  | S fuel => (if n <? 10 then [] else print_digits fuel (n / 10)) ++ [z2b (48 + n mod 10)]
  end.
Definition print_u64 (n : Z) : bytes := print_digits 20 n.

Definition print_i64 (n : Z) : bytes := if n <? 0 then MINUS :: print_u64 (- n) else print_u64 n.

(** ** Printing and reading *)

Lemma digits_value_app ds b : digits_value (ds ++ [b]) = 10 * digits_value ds + (b2z b - 48).
Proof. unfold digits_value. by rewrite foldl_app. Qed.

Lemma digit_b2z d : 0 <= d < 10 -> b2z (z2b (48 + d)) = 48 + d.
Proof. intros. rewrite b2z_z2b. apply Z.mod_small. lia. Qed.

Lemma print_digits_spec fuel : forall n, 0 <= n < 10 ^ Z.of_nat fuel ->
  digits_value (print_digits fuel n) = n /\
  Forall (fun b => byte_isdigit b = true) (print_digits fuel n) /\
  (length (print_digits fuel n) <= fuel)%nat /\ ((0 < fuel)%nat -> print_digits fuel n <> []).
Proof.
  induction fuel as [|fuel IH]; intros n Hn; cbn [print_digits].
  { cbn in Hn. split; [cbn; lia|]. split; [by constructor|]. split; [done|lia]. }
  rewrite Nat2Z.inj_succ, Z.pow_succ_r in Hn by lia. pose proof (Z.mod_pos_bound n 10 ltac:(lia)).
  rewrite digits_value_app, digit_b2z by lia.
  assert (Forall (fun b => byte_isdigit b = true) [z2b (48 + n mod 10)]) as Hd.
  { constructor; [|done]. unfold byte_isdigit. rewrite digit_b2z by lia. lia. }
  destruct (n <? 10) eqn:E.
  - cbn [app length digits_value foldl]. split; [|split; [done|split; [cbn; lia|done]]].
    rewrite Z.mod_small by lia. cbn. lia.
  - destruct (IH (n / 10)) as (Hv & Hf & Hl & _).
    { split; [apply Z.div_pos; lia|]. apply Z.div_lt_upper_bound; lia. }
    rewrite Hv. pose proof (Z_div_mod_eq_full n 10). split; [lia|].
    split; [by apply Forall_app|]. split; [rewrite length_app; cbn; lia|]. intros _ ?%app_nil. naive_solver.
Qed.

Lemma print_u64_spec n : 0 <= n < 2 ^ 64 ->
  digits_value (print_u64 n) = n /\ Forall (fun b => byte_isdigit b = true) (print_u64 n) /\
  (length (print_u64 n) <= 20)%nat /\ print_u64 n <> [].
Proof.
  intros Hn. destruct (print_digits_spec 20 n) as (? & ? & ? & H); [|auto with lia].
  change (10 ^ Z.of_nat 20) with 100000000000000000000. lia.
Qed.

Lemma span_app p l b r :
  Forall (fun x => p x = true) l -> p b = false -> span p (l ++ b :: r) = (l, b :: r).
Proof.
  intros Hl Hb. induction Hl as [|x l Hx _ IH]; cbn; [by rewrite Hb|]. by rewrite Hx, IH.
Qed.

Lemma span_all p l : Forall (fun x => p x = true) l -> span p l = (l, []).
Proof. induction 1 as [|x l Hx _ IH]; cbn; [done|]. by rewrite Hx, IH. Qed.

Lemma span_head p l r :
  Forall (fun x => p x = true) l -> (forall b r', r = b :: r' -> p b = false) ->
  span p (l ++ r) = (l, r).
Proof.
  intros Hl Hr. destruct r as [|b r]; [rewrite app_nil_r; by apply span_all|].
  apply span_app; [done|]. by eapply Hr.
Qed.

Lemma digit_not_space b : byte_isdigit b = true -> byte_isspace b = false.
Proof. unfold byte_isdigit, byte_isspace. lia. Qed.

Lemma digit_not_sign b : byte_isdigit b = true -> b <> MINUS /\ b <> PLUS.
Proof. intros Hb. split; intros ->; by vm_compute in Hb. Qed.

Lemma space_not_minus b : byte_isspace b = true -> b <> MINUS.
Proof. intros Hb ->. by vm_compute in Hb. Qed.

(** White space, a number, and what is behind it. *)
Lemma scan_number_digits sp ds r :
  Forall (fun b => byte_isspace b = true) sp -> Forall (fun b => byte_isdigit b = true) ds ->
  ds <> [] -> (forall b r', r = b :: r' -> byte_isdigit b = false) ->
  scan_number (sp ++ ds ++ r) = (false, ds, r).
Proof.
  intros Hsp Hds Hne Hr. unfold scan_number. destruct ds as [|d ds]; [done|].
  inversion Hds as [|?? Hd Hds']; subst. cbn [app].
  rewrite span_app by (done || by apply digit_not_space). cbn [snd take_sign].
  destruct (digit_not_sign d Hd). rewrite !bool_decide_eq_false_2 by done.
  change (d :: ds ++ r) with ((d :: ds) ++ r). by rewrite span_head.
Qed.

Lemma safe_strtoull_digits sp ds r :
  Forall (fun b => byte_isspace b = true) sp -> Forall (fun b => byte_isdigit b = true) ds ->
  ds <> [] -> (forall b r', r = b :: r' -> byte_isspace b = true) -> MINUS ∉ r ->
  digits_value ds < 2 ^ 64 ->
  safe_strtoull (sp ++ ds ++ r) = Some (digits_value ds).
Proof.
  intros Hsp Hds Hne Hr Hm Hv. unfold safe_strtoull, strtoull. rewrite scan_number_digits; try done.
  - rewrite (proj2 (Z.leb_gt _ _)) by lia.
    replace (ends_well _ r) with true; cbn [negb].
    2: { destruct r as [|b r]; [|symmetry; by eapply Hr]. cbn. rewrite bool_decide_eq_false_2; [done|].
         intros [_ [? _]%app_nil]%app_nil. done. }
    rewrite (bool_decide_eq_false_2 (MINUS ∈ _)), andb_false_r; [done|].
    rewrite !elem_of_app. rewrite Forall_forall in Hsp, Hds. intros [HM|[HM|HM]]; [| |done].
    + by apply (space_not_minus MINUS); [apply Hsp|].
    + by destruct (digit_not_sign MINUS); [apply Hds|].
  - intros b r' E. specialize (Hr b r' E). destruct (byte_isdigit b) eqn:Eb; [|done].
    apply digit_not_space in Eb. congruence.
Qed.

Definition SPACE : byte := z2b 32.

(** A 64-bit number that is printed and padded with blanks, as the engine
    stores counters, reads back as itself. *)
Lemma counter_roundtrip n k :
  0 <= n < 2 ^ 64 -> safe_strtoull (print_u64 n ++ replicate k SPACE) = Some n.
Proof.
  intros Hn. destruct (print_u64_spec n Hn) as (Hv & Hd & _ & Hne).
  rewrite <- (app_nil_l (_ ++ _)), safe_strtoull_digits; try done; try (rewrite Hv; done || lia).
  - intros b r' E. destruct k; [done|]. by injection E as <- _.
  - intros HM%elem_of_replicate. destruct HM as [HM _]. by vm_compute in HM.
Qed.

Lemma c_string_all m : Forall (fun b => b2z b <> 0) m -> c_string m = m.
Proof. induction 1 as [|b m Hb _ IH]; cbn; [done|]. rewrite (proj2 (Z.eqb_neq _ _)) by done. by rewrite IH. Qed.

(** A counter holds no zero byte. *)
Lemma counter_c_string n k :
  0 <= n < 2 ^ 64 -> c_string (print_u64 n ++ replicate k SPACE) = print_u64 n ++ replicate k SPACE.
Proof.
  intros Hn. destruct (print_u64_spec n Hn) as (_ & Hd & _). apply c_string_all, Forall_app. split.
  - eapply Forall_impl; [exact Hd|]. intros b Hb E. unfold byte_isdigit in Hb. lia.
  - by apply Forall_replicate.
Qed.

Lemma span_forall p s : Forall (fun x => p x = true) (span p s).1.
Proof.
  induction s as [|b s IH]; cbn; [done|]. destruct (p b) eqn:E; [|done].
  destruct (span p s) as [l r]. by constructor.
Qed.

Lemma digits_value_nonneg ds : Forall (fun b => byte_isdigit b = true) ds -> 0 <= digits_value ds.
Proof.
  induction ds as [|b ds IH] using rev_ind; [done|]. intros [Hd [Hb _]%Forall_cons]%Forall_app.
  rewrite digits_value_app. specialize (IH Hd). unfold byte_isdigit in Hb. lia.
Qed.

Lemma scan_number_nonneg s : 0 <= digits_value (scan_number s).1.2.
Proof.
  unfold scan_number. destruct (take_sign _) as [neg r1].
  pose proof (span_forall byte_isdigit r1) as Hd. destruct (span byte_isdigit r1) as [ds r2]. cbn in Hd.
  by apply digits_value_nonneg in Hd.
Qed.

(** The numbers that are read have 64 bits. *)
Lemma safe_strtoull_range s v : safe_strtoull s = Some v -> 0 <= v < 2 ^ 64.
Proof.
  unfold safe_strtoull, strtoull. pose proof (scan_number_nonneg s) as Hn.
  destruct (scan_number s) as [[neg ds] r]. cbn [fst snd] in Hn. destruct (Z.leb_spec (2 ^ 64) (digits_value ds)) as [|Hl]; [done|].
  destruct (ends_well s r); [|done]. destruct (_ && _); [done|]. intros [= <-].
  destruct neg; [apply wrap_range; lia|lia].
Qed.

(** Text that is no number is read as one: a string that starts with white
    space and goes on with anything but a number is 0, a negative number below
    -2^63 is its complement, and the 32-bit conversions drop the upper half. *)
Theorem safe_strto_accepts :
  safe_strtoull (text " abc") = Some 0 /\
  safe_strtoull (text "-18446744073709551615") = Some 1 /\
  safe_strtoul (text "4294967296") = Some 0 /\
  safe_strtol (text "2147483648") = Some (- 2147483648).
Proof. by vm_compute. Qed.

(** ** Double precision

    A [double] that is not negative is a fraction whose denominator is a power
    of two; the results of operations are rounded to 53 significant bits, ties
    to even (numbers so large or small that the exponent does not fit are not
    used). *)

Definition round_even (a b : Z) : Z :=
  let q := a / b in
  let r := a mod b in
  if 2 * r <? b then q else
  if b <? 2 * r then q + 1 else
  if Z.even q then q else q + 1.

(** The exponent of the highest bit of [p / q]. *)
Definition magnitude (p q : Z) : Z :=
  let l := Z.log2 p - Z.log2 q in
  if q * 2 ^ Z.max l 0 <=? p * 2 ^ Z.max (- l) 0 then l else l - 1.

Definition double : Type := Z * Z.

(** The [double] nearest to [p / q]. *)
Definition nearest (p q : Z) : double :=
  let k := 52 - magnitude p q in
  (round_even (p * 2 ^ Z.max k 0) (q * 2 ^ Z.max (- k) 0) * 2 ^ Z.max (- k) 0, 2 ^ Z.max k 0).

(** Integers below 2^53 are converted exactly. *)
Definition double_of_int (n : Z) : double := (n, 1).
Definition double_mul (x y : double) : double := nearest (x.1 * y.1) (x.2 * y.2).
Definition double_div (x y : double) : double := nearest (x.1 * y.2) (x.2 * y.1).
Definition double_leb (x y : double) : bool := x.1 * y.2 <=? y.1 * x.2.
Definition truncate (x : double) : Z := x.1 / x.2.

Lemma round_even_error a b : 0 < b -> Z.abs (2 * (round_even a b * b - a)) <= b.
Proof.
  intros Hb. unfold round_even. pose proof (Z_div_mod_eq_full a b). pose proof (Z.mod_pos_bound a b Hb).
  repeat case_match; lia.
Qed.

Lemma round_even_ge m a b : 0 < b -> m * b <= a -> m <= round_even a b.
Proof.
  intros Hb Hm. pose proof (Z.div_le_lower_bound a b m Hb ltac:(lia)). unfold round_even.
  repeat case_match; lia.
Qed.

Lemma round_even_le m a b : 0 < b -> a <= m * b -> round_even a b <= m.
Proof.
  intros Hb Hm. pose proof (Z_div_mod_eq_full a b). pose proof (Z.mod_pos_bound a b Hb).
  assert (a / b <= m) by (apply Z.div_le_upper_bound; lia).
  unfold round_even. repeat case_match; try done; nia.
Qed.

Section Nearest.
Context (p q : Z) (Hq : 0 < q) (Hs : p < q * 2 ^ 52).

Lemma magnitude_small : magnitude p q <= 52.
Proof.
  assert (Z.log2 p <= 52 + Z.log2 q) as Hl.
  { rewrite <- Z.log2_mul_pow2 by lia. apply Z.log2_le_mono. lia. }
  unfold magnitude. case_match; lia.
Qed.

Lemma nearest_small :
  nearest p q = (round_even (p * 2 ^ (52 - magnitude p q)) q, 2 ^ (52 - magnitude p q)).
Proof.
  pose proof magnitude_small. unfold nearest.
  rewrite (Z.max_l (52 - _)), (Z.max_r (- _)) by lia. by rewrite !Z.mul_1_r.
Qed.

Lemma nearest_den : 0 < (nearest p q).2.
Proof. rewrite nearest_small. cbn. pose proof magnitude_small. apply Z.pow_pos_nonneg; lia. Qed.

(** Rounding does not step over an integer. *)
Lemma nearest_ge m : m * q <= p -> m * (nearest p q).2 <= (nearest p q).1.
Proof.
  intros Hm. pose proof nearest_den as Hd. rewrite nearest_small in *. cbn [fst snd] in *.
  apply round_even_ge; [done|]. nia.
Qed.

Lemma nearest_le m : p <= m * q -> (nearest p q).1 <= m * (nearest p q).2.
Proof.
  intros Hm. pose proof nearest_den as Hd. rewrite nearest_small in *. cbn [fst snd] in *.
  apply round_even_le; [done|]. nia.
Qed.
End Nearest.

(** The nearest doubles to 1/10 and to 1/3. *)
Lemma nearest_examples :
  nearest 1 10 = (7205759403792794, 2 ^ 56) /\ nearest 1 3 = (6004799503160661, 2 ^ 54).
Proof. by vm_compute. Qed.
