(* ===== verification/RecordUpdate.v ===== *)
(** * Record update

    The state of a connection is a record of many fields; a handler assigns a
    few.  [r <| field := v |>] is the record with one field replaced.  A record
    type becomes [Settable] by giving its eta expansion; the setter of a field
    is found by replacing the field's projection in it. *)

From S2P Require Import Prelude.

Class Settable (R : Type) := eta : R -> R.

Class Setter {R T} (proj : R -> T) := set_field : (T -> T) -> R -> R.

Arguments set_field {R T} proj {_} f r.

Ltac find_setter :=
  match goal with
  | |- @Setter ?R ?T ?proj =>
      let inst := constr:(_ : Settable R) in
      let e := eval red in inst in
      let e := eval pattern proj in e in
      match e with
      | ?mk proj => exact (fun f : T -> T => mk (fun r => f (proj r)))
      end
  end.

#[export] Hint Extern 1 (Setter _) => find_setter : typeclass_instances.

Declare Scope record_scope.
Notation "r <| f := v |>" := (set_field f (fun _ => v) r)
  (at level 1, left associativity, f at level 0, format "r  <| f  :=  v |>") : record_scope.
Open Scope record_scope.

(** Evaluate updates of fields. *)
Ltac fields := unfold set_field in *; cbn beta iota.
