(* ===== verification/StateMonad.v ===== *)
(** * Stateful code that may fail

    A function of the sources that works on a shared object is a function of
    the object's state.  Its outcome is a result with the new state, a C++
    exception with the state at the time it was thrown, or a crash: a failed
    assertion or an access outside of memory. *)

From S2P Require Import Prelude RecordUpdate.

Inductive outcome (S A : Type) :=
| Done (a : A) (s : S)
| Throw (s : S)
| Crash.
Arguments Done {S A} a s.
Arguments Throw {S A} s.
Arguments Crash {S A}.

Definition ST (S A : Type) : Type := S -> outcome S A.

Definition ret {S A} (a : A) : ST S A := fun s => Done a s.
Definition bind {S A B} (m : ST S A) (k : A -> ST S B) : ST S B := fun s =>
  match m s with
  | Done a s => k a s
  | Throw s => Throw s
  | Crash => Crash
  end.
Definition gets {S A} (f : S -> A) : ST S A := fun s => Done (f s) s.
Definition modify {S} (f : S -> S) : ST S unit := fun s => Done tt (f s).
Definition throw {S A} : ST S A := fun s => Throw s.
Definition crash {S A} : ST S A := fun _ => Crash.

Declare Scope state_scope.
Delimit Scope state_scope with state.
Notation "x <- m ;; k" := (bind m (fun x => k))
  (at level 100, m at next level, right associativity) : state_scope.
Notation "m ;; k" := (bind m (fun _ => k)) (at level 100, right associativity) : state_scope.
Open Scope state_scope.

Definition when {S} (b : bool) (m : ST S unit) : ST S unit := if b then m else ret tt.
Definition cb_assert {S} (b : bool) : ST S unit := if b then ret tt else crash.

(** The value of an option, where [None] is an access outside of memory. *)
Definition must {S A} (o : option A) : ST S A :=
  match o with Some a => ret a | None => crash end.

(** [f := v], with [v] computed from the state. *)
Notation "'assign' f v" := (modify (fun c => c <| f := v |>))
  (at level 10, f at level 9, v at level 9) : state_scope.

(** Running a program one statement at a time. *)
Lemma bind_done {S A B} (m : ST S A) (k : A -> ST S B) s a s' :
  m s = Done a s' -> bind m k s = k a s'.
Proof. unfold bind. by intros ->. Qed.

Lemma bind_inv {S A B} (m : ST S A) (k : A -> ST S B) s b s' :
  bind m k s = Done b s' -> exists a s1, m s = Done a s1 /\ k a s1 = Done b s'.
Proof. unfold bind. destruct (m s) as [a s1| |] eqn:E; try done. by exists a, s1. Qed.

Section Run.
Context {S A B C : Type}.
Implicit Types (m : ST S A) (k : A -> ST S B) (s : S).

Lemma bind_ret (a : A) k s : bind (ret a) k s = k a s.
Proof. done. Qed.

Lemma bind_gets (f : S -> A) k s : bind (gets f) k s = k (f s) s.
Proof. done. Qed.

Lemma bind_modify (f : S -> S) (k : unit -> ST S B) s : bind (modify f) k s = k tt (f s).
Proof. done. Qed.

Lemma bind_bind m k (h : B -> ST S C) s :
  bind (bind m k) h s = bind m (fun a => bind (k a) h) s.
Proof. unfold bind. by destruct (m s). Qed.

Lemma bind_must (a : A) k s : bind (must (Some a)) k s = k a s.
Proof. done. Qed.

Lemma bind_when (b : bool) (m : ST S unit) (k : unit -> ST S B) s :
  bind (when b m) k s = if b then bind m k s else k tt s.
Proof. by destruct b. Qed.

Lemma bind_assert (b : bool) (k : unit -> ST S B) s :
  bind (cb_assert b) k s = if b then k tt s else Crash.
Proof. by destruct b. Qed.

Lemma bind_if (b : bool) (m1 m2 : ST S A) k s :
  bind (if b then m1 else m2) k s = if b then bind m1 k s else bind m2 k s.
Proof. by destruct b. Qed.
End Run.

Create Rewrite HintDb run.
#[export] Hint Rewrite @bind_ret @bind_gets @bind_modify @bind_bind @bind_must @bind_when
  @bind_assert @bind_if : run.

(** Run the statements whose effect is known. *)
Ltac run := repeat (progress (autorewrite with run; cbn beta iota)).

(** ** Invariants

    A handler is safe for an invariant if it keeps it, whether it returns or
    throws. *)
Definition safe {S A} (I : S -> Prop) (m : ST S A) : Prop :=
  forall s, I s ->
    match m s with
    | Done _ s' | Throw s' => I s'
    | Crash => True
    end.

(** What holds after a handler, when it returns and when it throws. *)
Definition triple {S A} (P : S -> Prop) (m : ST S A) (Q : A -> S -> Prop) (T : S -> Prop) : Prop :=
  forall s, P s ->
    match m s with
    | Done a s' => Q a s'
    | Throw s' => T s'
    | Crash => True
    end.

Lemma triple_bind {S A B} P (m : ST S A) Q (k : A -> ST S B) R T :
  triple P m Q T -> (forall a, triple (Q a) (k a) R T) -> triple P (bind m k) R T.
Proof. intros Hm Hk s Hs. unfold bind. specialize (Hm s Hs). destruct (m s) as [a s1|s1|]; [|done..]. by apply Hk. Qed.

Lemma triple_assoc {S A B C} P (m : ST S A) (k : A -> ST S B) (h : B -> ST S C) Q T :
  triple P (bind m (fun a => bind (k a) h)) Q T -> triple P (bind (bind m k) h) Q T.
Proof. intros Hm s Hs. rewrite bind_bind. exact (Hm s Hs). Qed.

Lemma triple_ret_bind {S A B} P (a : A) (k : A -> ST S B) Q T : triple P (k a) Q T -> triple P (bind (ret a) k) Q T.
Proof. done. Qed.

(** A fact that does not depend on the state. *)
Lemma triple_pure {S A} (phi : Prop) P (m : ST S A) Q T :
  (phi -> triple P m Q T) -> triple (fun s => phi /\ P s) m Q T.
Proof. intros Hm s [Hphi Hs]. by apply Hm. Qed.

Lemma triple_exists {S A K} (P : K -> S -> Prop) (m : ST S A) Q T :
  (forall k, triple (P k) m Q T) -> triple (fun s => exists k, P k s) m Q T.
Proof. intros Hm s [k Hs]. by apply (Hm k). Qed.

Lemma triple_ret {S A} P (a : A) (Q : A -> S -> Prop) T : (forall s, P s -> Q a s) -> triple P (ret a) Q T.
Proof. intros HQ s Hs. by apply HQ. Qed.

Lemma triple_weaken {S A} P P' (m : ST S A) Q Q' T :
  (forall s, P' s -> P s) -> triple P m Q T -> (forall a s, Q a s -> Q' a s) -> triple P' m Q' T.
Proof. intros HP Hm HQ s Hs. specialize (Hm s (HP s Hs)). destruct (m s); [by apply HQ|done..]. Qed.

Lemma triple_safe {S A} I (m : ST S A) : safe I m -> triple I m (fun _ => I) I.
Proof. done. Qed.

Section Safe.
Context {S A B : Type} (I : S -> Prop).

Lemma safe_ret (a : A) : safe I (ret a).
Proof. by intros s Hs. Qed.

Lemma safe_throw : safe I (throw : ST S A).
Proof. by intros s Hs. Qed.

Lemma safe_crash : safe I (crash : ST S A).
Proof. by intros s Hs. Qed.

Lemma safe_gets (f : S -> A) : safe I (gets f).
Proof. by intros s Hs. Qed.

Lemma safe_bind (m : ST S A) (k : A -> ST S B) : safe I m -> (forall a, safe I (k a)) -> safe I (bind m k).
Proof.
  intros Hm Hk s Hs. unfold bind. specialize (Hm s Hs). destruct (m s) as [a s1|s1|]; [|done..]. by apply Hk.
Qed.

Lemma safe_modify (f : S -> S) : (forall s, I s -> I (f s)) -> safe I (modify f).
Proof. intros Hf s Hs. by apply Hf. Qed.

Lemma safe_must (o : option A) : safe I (must o).
Proof. destruct o; [apply safe_ret|apply safe_crash]. Qed.

Lemma safe_done (m : ST S A) s a s' : safe I m -> m s = Done a s' -> I s -> I s'.
Proof. intros Hm E Hs. specialize (Hm s Hs). by rewrite E in Hm. Qed.
End Safe.

Lemma safe_when {S} (I : S -> Prop) b m : safe I m -> safe I (when b m).
Proof. intros Hm. destruct b; [done|apply safe_ret]. Qed.

Lemma safe_assert {S} (I : S -> Prop) b : safe I (cb_assert b).
Proof. destruct b; [apply safe_ret|apply safe_crash]. Qed.

Create HintDb safe.

(** A step of the proof that a handler is safe; an assignment keeps an
    invariant that does not mention the field. *)
Ltac safe_step :=
  lazymatch goal with
  | |- safe _ (ret _) => apply safe_ret
  | |- safe _ throw => apply safe_throw
  | |- safe _ crash => apply safe_crash
  | |- safe _ (gets _) => apply safe_gets
  | |- safe _ (must _) => apply safe_must
  | |- safe _ (cb_assert _) => apply safe_assert
  | |- safe _ (when _ _) => apply safe_when
  | |- safe _ (modify _) => apply safe_modify; intros ? Hs; first [exact Hs | by (destruct Hs; split)]
  | |- safe _ (bind _ _) => apply safe_bind; [|intros ?]
  | |- safe _ (match ?x with _ => _ end) => destruct x eqn:?
  | |- safe _ (let _ := _ in _) => cbv zeta
  | |- safe _ _ => solve [eauto with safe]
  end.
Ltac safely := repeat safe_step.
