(* ===== verification/Protocol.v ===== *)
(** * The memcached binary protocol

    Constants, header layout and status conversions shared by every component
    of the daemon: [include/memcached/protocol_binary.h],
    [include/memcached/types.h], the engine-error conversion of
    [daemon/mcbp.cc] and the tables of [utilities/protocol2text.cc]. *)

From Stdlib Require Import Ascii.
From stdpp Require Import sorting.
From S2P Require Import Prelude.

(** ** Constants *)

(** Response status numbers ([protocol_binary_response_status]). *)
Inductive protocol_binary_response_status :=
| PROTOCOL_BINARY_RESPONSE_SUCCESS
| PROTOCOL_BINARY_RESPONSE_KEY_ENOENT
| PROTOCOL_BINARY_RESPONSE_KEY_EEXISTS
| PROTOCOL_BINARY_RESPONSE_E2BIG
| PROTOCOL_BINARY_RESPONSE_EINVAL
| PROTOCOL_BINARY_RESPONSE_NOT_STORED
| PROTOCOL_BINARY_RESPONSE_DELTA_BADVAL
| PROTOCOL_BINARY_RESPONSE_NOT_MY_VBUCKET
| PROTOCOL_BINARY_RESPONSE_NO_BUCKET
| PROTOCOL_BINARY_RESPONSE_AUTH_STALE
| PROTOCOL_BINARY_RESPONSE_AUTH_ERROR
| PROTOCOL_BINARY_RESPONSE_AUTH_CONTINUE
| PROTOCOL_BINARY_RESPONSE_ERANGE
| PROTOCOL_BINARY_RESPONSE_ROLLBACK
| PROTOCOL_BINARY_RESPONSE_EACCESS
| PROTOCOL_BINARY_RESPONSE_NOT_INITIALIZED
| PROTOCOL_BINARY_RESPONSE_UNKNOWN_COMMAND
| PROTOCOL_BINARY_RESPONSE_ENOMEM
| PROTOCOL_BINARY_RESPONSE_NOT_SUPPORTED
| PROTOCOL_BINARY_RESPONSE_EINTERNAL
| PROTOCOL_BINARY_RESPONSE_EBUSY
| PROTOCOL_BINARY_RESPONSE_ETMPFAIL
| PROTOCOL_BINARY_RESPONSE_SUBDOC_PATH_ENOENT
| PROTOCOL_BINARY_RESPONSE_SUBDOC_PATH_MISMATCH
| PROTOCOL_BINARY_RESPONSE_SUBDOC_PATH_EINVAL
| PROTOCOL_BINARY_RESPONSE_SUBDOC_PATH_E2BIG
| PROTOCOL_BINARY_RESPONSE_SUBDOC_DOC_E2DEEP
| PROTOCOL_BINARY_RESPONSE_SUBDOC_VALUE_CANTINSERT
| PROTOCOL_BINARY_RESPONSE_SUBDOC_DOC_NOTJSON
| PROTOCOL_BINARY_RESPONSE_SUBDOC_NUM_ERANGE
| PROTOCOL_BINARY_RESPONSE_SUBDOC_DELTA_EINVAL
| PROTOCOL_BINARY_RESPONSE_SUBDOC_PATH_EEXISTS
| PROTOCOL_BINARY_RESPONSE_SUBDOC_VALUE_ETOODEEP
| PROTOCOL_BINARY_RESPONSE_SUBDOC_INVALID_COMBO
| PROTOCOL_BINARY_RESPONSE_SUBDOC_MULTI_PATH_FAILURE.

Definition status_value (s : protocol_binary_response_status) : Z :=
  match s with
  | PROTOCOL_BINARY_RESPONSE_SUCCESS => 0x00
  | PROTOCOL_BINARY_RESPONSE_KEY_ENOENT => 0x01
  | PROTOCOL_BINARY_RESPONSE_KEY_EEXISTS => 0x02
  | PROTOCOL_BINARY_RESPONSE_E2BIG => 0x03
  | PROTOCOL_BINARY_RESPONSE_EINVAL => 0x04
  | PROTOCOL_BINARY_RESPONSE_NOT_STORED => 0x05
  | PROTOCOL_BINARY_RESPONSE_DELTA_BADVAL => 0x06
  | PROTOCOL_BINARY_RESPONSE_NOT_MY_VBUCKET => 0x07
  | PROTOCOL_BINARY_RESPONSE_NO_BUCKET => 0x08
  | PROTOCOL_BINARY_RESPONSE_AUTH_STALE => 0x1f
  | PROTOCOL_BINARY_RESPONSE_AUTH_ERROR => 0x20
  | PROTOCOL_BINARY_RESPONSE_AUTH_CONTINUE => 0x21
  | PROTOCOL_BINARY_RESPONSE_ERANGE => 0x22
  | PROTOCOL_BINARY_RESPONSE_ROLLBACK => 0x23
  | PROTOCOL_BINARY_RESPONSE_EACCESS => 0x24
  | PROTOCOL_BINARY_RESPONSE_NOT_INITIALIZED => 0x25
  | PROTOCOL_BINARY_RESPONSE_UNKNOWN_COMMAND => 0x81
  | PROTOCOL_BINARY_RESPONSE_ENOMEM => 0x82
  | PROTOCOL_BINARY_RESPONSE_NOT_SUPPORTED => 0x83
  | PROTOCOL_BINARY_RESPONSE_EINTERNAL => 0x84
  | PROTOCOL_BINARY_RESPONSE_EBUSY => 0x85
  | PROTOCOL_BINARY_RESPONSE_ETMPFAIL => 0x86
  | PROTOCOL_BINARY_RESPONSE_SUBDOC_PATH_ENOENT => 0xc0
  | PROTOCOL_BINARY_RESPONSE_SUBDOC_PATH_MISMATCH => 0xc1
  | PROTOCOL_BINARY_RESPONSE_SUBDOC_PATH_EINVAL => 0xc2
  | PROTOCOL_BINARY_RESPONSE_SUBDOC_PATH_E2BIG => 0xc3
  | PROTOCOL_BINARY_RESPONSE_SUBDOC_DOC_E2DEEP => 0xc4
  | PROTOCOL_BINARY_RESPONSE_SUBDOC_VALUE_CANTINSERT => 0xc5
  | PROTOCOL_BINARY_RESPONSE_SUBDOC_DOC_NOTJSON => 0xc6
  | PROTOCOL_BINARY_RESPONSE_SUBDOC_NUM_ERANGE => 0xc7
  | PROTOCOL_BINARY_RESPONSE_SUBDOC_DELTA_EINVAL => 0xc8
  | PROTOCOL_BINARY_RESPONSE_SUBDOC_PATH_EEXISTS => 0xc9
  | PROTOCOL_BINARY_RESPONSE_SUBDOC_VALUE_ETOODEEP => 0xca
  | PROTOCOL_BINARY_RESPONSE_SUBDOC_INVALID_COMBO => 0xcb
  | PROTOCOL_BINARY_RESPONSE_SUBDOC_MULTI_PATH_FAILURE => 0xcc
  end.

(** Command opcodes ([protocol_binary_command]). *)
Inductive protocol_binary_command :=
| PROTOCOL_BINARY_CMD_GET
| PROTOCOL_BINARY_CMD_SET
| PROTOCOL_BINARY_CMD_ADD
| PROTOCOL_BINARY_CMD_REPLACE
| PROTOCOL_BINARY_CMD_DELETE
| PROTOCOL_BINARY_CMD_INCREMENT
| PROTOCOL_BINARY_CMD_DECREMENT
| PROTOCOL_BINARY_CMD_QUIT
| PROTOCOL_BINARY_CMD_FLUSH
| PROTOCOL_BINARY_CMD_GETQ
| PROTOCOL_BINARY_CMD_NOOP
| PROTOCOL_BINARY_CMD_VERSION
| PROTOCOL_BINARY_CMD_GETK
| PROTOCOL_BINARY_CMD_GETKQ
| PROTOCOL_BINARY_CMD_APPEND
| PROTOCOL_BINARY_CMD_PREPEND
| PROTOCOL_BINARY_CMD_STAT
| PROTOCOL_BINARY_CMD_SETQ
| PROTOCOL_BINARY_CMD_ADDQ
| PROTOCOL_BINARY_CMD_REPLACEQ
| PROTOCOL_BINARY_CMD_DELETEQ
| PROTOCOL_BINARY_CMD_INCREMENTQ
| PROTOCOL_BINARY_CMD_DECREMENTQ
| PROTOCOL_BINARY_CMD_QUITQ
| PROTOCOL_BINARY_CMD_FLUSHQ
| PROTOCOL_BINARY_CMD_APPENDQ
| PROTOCOL_BINARY_CMD_PREPENDQ
| PROTOCOL_BINARY_CMD_VERBOSITY
| PROTOCOL_BINARY_CMD_TOUCH
| PROTOCOL_BINARY_CMD_GAT
| PROTOCOL_BINARY_CMD_GATQ
| PROTOCOL_BINARY_CMD_HELLO
| PROTOCOL_BINARY_CMD_SASL_LIST_MECHS
| PROTOCOL_BINARY_CMD_SASL_AUTH
| PROTOCOL_BINARY_CMD_SASL_STEP
| PROTOCOL_BINARY_CMD_IOCTL_GET
| PROTOCOL_BINARY_CMD_IOCTL_SET
| PROTOCOL_BINARY_CMD_CONFIG_VALIDATE
| PROTOCOL_BINARY_CMD_CONFIG_RELOAD
| PROTOCOL_BINARY_CMD_AUDIT_PUT
| PROTOCOL_BINARY_CMD_AUDIT_CONFIG_RELOAD
| PROTOCOL_BINARY_CMD_SHUTDOWN
| PROTOCOL_BINARY_CMD_RGET
| PROTOCOL_BINARY_CMD_RSET
| PROTOCOL_BINARY_CMD_RSETQ
| PROTOCOL_BINARY_CMD_RAPPEND
| PROTOCOL_BINARY_CMD_RAPPENDQ
| PROTOCOL_BINARY_CMD_RPREPEND
| PROTOCOL_BINARY_CMD_RPREPENDQ
| PROTOCOL_BINARY_CMD_RDELETE
| PROTOCOL_BINARY_CMD_RDELETEQ
| PROTOCOL_BINARY_CMD_RINCR
| PROTOCOL_BINARY_CMD_RINCRQ
| PROTOCOL_BINARY_CMD_RDECR
| PROTOCOL_BINARY_CMD_RDECRQ
| PROTOCOL_BINARY_CMD_SET_VBUCKET
| PROTOCOL_BINARY_CMD_GET_VBUCKET
| PROTOCOL_BINARY_CMD_DEL_VBUCKET
| PROTOCOL_BINARY_CMD_TAP_CONNECT
| PROTOCOL_BINARY_CMD_TAP_MUTATION
| PROTOCOL_BINARY_CMD_TAP_DELETE
| PROTOCOL_BINARY_CMD_TAP_FLUSH
| PROTOCOL_BINARY_CMD_TAP_OPAQUE
| PROTOCOL_BINARY_CMD_TAP_VBUCKET_SET
| PROTOCOL_BINARY_CMD_TAP_CHECKPOINT_START
| PROTOCOL_BINARY_CMD_TAP_CHECKPOINT_END
| PROTOCOL_BINARY_CMD_GET_ALL_VB_SEQNOS
| PROTOCOL_BINARY_CMD_DCP_OPEN
| PROTOCOL_BINARY_CMD_DCP_ADD_STREAM
| PROTOCOL_BINARY_CMD_DCP_CLOSE_STREAM
| PROTOCOL_BINARY_CMD_DCP_STREAM_REQ
| PROTOCOL_BINARY_CMD_DCP_GET_FAILOVER_LOG
| PROTOCOL_BINARY_CMD_DCP_STREAM_END
| PROTOCOL_BINARY_CMD_DCP_SNAPSHOT_MARKER
| PROTOCOL_BINARY_CMD_DCP_MUTATION
| PROTOCOL_BINARY_CMD_DCP_DELETION
| PROTOCOL_BINARY_CMD_DCP_EXPIRATION
| PROTOCOL_BINARY_CMD_DCP_FLUSH
| PROTOCOL_BINARY_CMD_DCP_SET_VBUCKET_STATE
| PROTOCOL_BINARY_CMD_DCP_NOOP
| PROTOCOL_BINARY_CMD_DCP_BUFFER_ACKNOWLEDGEMENT
| PROTOCOL_BINARY_CMD_DCP_CONTROL
| PROTOCOL_BINARY_CMD_DCP_RESERVED4
| PROTOCOL_BINARY_CMD_STOP_PERSISTENCE
| PROTOCOL_BINARY_CMD_START_PERSISTENCE
| PROTOCOL_BINARY_CMD_SET_PARAM
| PROTOCOL_BINARY_CMD_GET_REPLICA
| PROTOCOL_BINARY_CMD_CREATE_BUCKET
| PROTOCOL_BINARY_CMD_DELETE_BUCKET
| PROTOCOL_BINARY_CMD_LIST_BUCKETS
| PROTOCOL_BINARY_CMD_SELECT_BUCKET
| PROTOCOL_BINARY_CMD_OBSERVE_SEQNO
| PROTOCOL_BINARY_CMD_OBSERVE
| PROTOCOL_BINARY_CMD_EVICT_KEY
| PROTOCOL_BINARY_CMD_GET_LOCKED
| PROTOCOL_BINARY_CMD_UNLOCK_KEY
| PROTOCOL_BINARY_CMD_LAST_CLOSED_CHECKPOINT
| PROTOCOL_BINARY_CMD_DEREGISTER_TAP_CLIENT
| PROTOCOL_BINARY_CMD_RESET_REPLICATION_CHAIN
| PROTOCOL_BINARY_CMD_GET_META
| PROTOCOL_BINARY_CMD_GETQ_META
| PROTOCOL_BINARY_CMD_SET_WITH_META
| PROTOCOL_BINARY_CMD_SETQ_WITH_META
| PROTOCOL_BINARY_CMD_ADD_WITH_META
| PROTOCOL_BINARY_CMD_ADDQ_WITH_META
| PROTOCOL_BINARY_CMD_SNAPSHOT_VB_STATES
| PROTOCOL_BINARY_CMD_VBUCKET_BATCH_COUNT
| PROTOCOL_BINARY_CMD_DEL_WITH_META
| PROTOCOL_BINARY_CMD_DELQ_WITH_META
| PROTOCOL_BINARY_CMD_CREATE_CHECKPOINT
| PROTOCOL_BINARY_CMD_NOTIFY_VBUCKET_UPDATE
| PROTOCOL_BINARY_CMD_ENABLE_TRAFFIC
| PROTOCOL_BINARY_CMD_DISABLE_TRAFFIC
| PROTOCOL_BINARY_CMD_CHANGE_VB_FILTER
| PROTOCOL_BINARY_CMD_CHECKPOINT_PERSISTENCE
| PROTOCOL_BINARY_CMD_RETURN_META
| PROTOCOL_BINARY_CMD_COMPACT_DB
| PROTOCOL_BINARY_CMD_SET_CLUSTER_CONFIG
| PROTOCOL_BINARY_CMD_GET_CLUSTER_CONFIG
| PROTOCOL_BINARY_CMD_GET_RANDOM_KEY
| PROTOCOL_BINARY_CMD_SEQNO_PERSISTENCE
| PROTOCOL_BINARY_CMD_GET_KEYS
| PROTOCOL_BINARY_CMD_SET_DRIFT_COUNTER_STATE
| PROTOCOL_BINARY_CMD_GET_ADJUSTED_TIME
| PROTOCOL_BINARY_CMD_SUBDOC_GET
| PROTOCOL_BINARY_CMD_SUBDOC_EXISTS
| PROTOCOL_BINARY_CMD_SUBDOC_DICT_ADD
| PROTOCOL_BINARY_CMD_SUBDOC_DICT_UPSERT
| PROTOCOL_BINARY_CMD_SUBDOC_DELETE
| PROTOCOL_BINARY_CMD_SUBDOC_REPLACE
| PROTOCOL_BINARY_CMD_SUBDOC_ARRAY_PUSH_LAST
| PROTOCOL_BINARY_CMD_SUBDOC_ARRAY_PUSH_FIRST
| PROTOCOL_BINARY_CMD_SUBDOC_ARRAY_INSERT
| PROTOCOL_BINARY_CMD_SUBDOC_ARRAY_ADD_UNIQUE
| PROTOCOL_BINARY_CMD_SUBDOC_COUNTER
| PROTOCOL_BINARY_CMD_SUBDOC_MULTI_LOOKUP
| PROTOCOL_BINARY_CMD_SUBDOC_MULTI_MUTATION
| PROTOCOL_BINARY_CMD_SUBDOC_GET_COUNT
| PROTOCOL_BINARY_CMD_SCRUB
| PROTOCOL_BINARY_CMD_ISASL_REFRESH
| PROTOCOL_BINARY_CMD_SSL_CERTS_REFRESH
| PROTOCOL_BINARY_CMD_GET_CMD_TIMER
| PROTOCOL_BINARY_CMD_SET_CTRL_TOKEN
| PROTOCOL_BINARY_CMD_GET_CTRL_TOKEN
| PROTOCOL_BINARY_CMD_INIT_COMPLETE
| PROTOCOL_BINARY_CMD_INVALID.

Definition cmd_value (c : protocol_binary_command) : Z :=
  match c with
  | PROTOCOL_BINARY_CMD_GET => 0x00
  | PROTOCOL_BINARY_CMD_SET => 0x01
  | PROTOCOL_BINARY_CMD_ADD => 0x02
  | PROTOCOL_BINARY_CMD_REPLACE => 0x03
  | PROTOCOL_BINARY_CMD_DELETE => 0x04
  | PROTOCOL_BINARY_CMD_INCREMENT => 0x05
  | PROTOCOL_BINARY_CMD_DECREMENT => 0x06
  | PROTOCOL_BINARY_CMD_QUIT => 0x07
  | PROTOCOL_BINARY_CMD_FLUSH => 0x08
  | PROTOCOL_BINARY_CMD_GETQ => 0x09
  | PROTOCOL_BINARY_CMD_NOOP => 0x0a
  | PROTOCOL_BINARY_CMD_VERSION => 0x0b
  | PROTOCOL_BINARY_CMD_GETK => 0x0c
  | PROTOCOL_BINARY_CMD_GETKQ => 0x0d
  | PROTOCOL_BINARY_CMD_APPEND => 0x0e
  | PROTOCOL_BINARY_CMD_PREPEND => 0x0f
  | PROTOCOL_BINARY_CMD_STAT => 0x10
  | PROTOCOL_BINARY_CMD_SETQ => 0x11
  | PROTOCOL_BINARY_CMD_ADDQ => 0x12
  | PROTOCOL_BINARY_CMD_REPLACEQ => 0x13
  | PROTOCOL_BINARY_CMD_DELETEQ => 0x14
  | PROTOCOL_BINARY_CMD_INCREMENTQ => 0x15
  | PROTOCOL_BINARY_CMD_DECREMENTQ => 0x16
  | PROTOCOL_BINARY_CMD_QUITQ => 0x17
  | PROTOCOL_BINARY_CMD_FLUSHQ => 0x18
  | PROTOCOL_BINARY_CMD_APPENDQ => 0x19
  | PROTOCOL_BINARY_CMD_PREPENDQ => 0x1a
  | PROTOCOL_BINARY_CMD_VERBOSITY => 0x1b
  | PROTOCOL_BINARY_CMD_TOUCH => 0x1c
  | PROTOCOL_BINARY_CMD_GAT => 0x1d
  | PROTOCOL_BINARY_CMD_GATQ => 0x1e
  | PROTOCOL_BINARY_CMD_HELLO => 0x1f
  | PROTOCOL_BINARY_CMD_SASL_LIST_MECHS => 0x20
  | PROTOCOL_BINARY_CMD_SASL_AUTH => 0x21
  | PROTOCOL_BINARY_CMD_SASL_STEP => 0x22
  | PROTOCOL_BINARY_CMD_IOCTL_GET => 0x23
  | PROTOCOL_BINARY_CMD_IOCTL_SET => 0x24
  | PROTOCOL_BINARY_CMD_CONFIG_VALIDATE => 0x25
  | PROTOCOL_BINARY_CMD_CONFIG_RELOAD => 0x26
  | PROTOCOL_BINARY_CMD_AUDIT_PUT => 0x27
  | PROTOCOL_BINARY_CMD_AUDIT_CONFIG_RELOAD => 0x28
  | PROTOCOL_BINARY_CMD_SHUTDOWN => 0x29
  | PROTOCOL_BINARY_CMD_RGET => 0x30
  | PROTOCOL_BINARY_CMD_RSET => 0x31
  | PROTOCOL_BINARY_CMD_RSETQ => 0x32
  | PROTOCOL_BINARY_CMD_RAPPEND => 0x33
  | PROTOCOL_BINARY_CMD_RAPPENDQ => 0x34
  | PROTOCOL_BINARY_CMD_RPREPEND => 0x35
  | PROTOCOL_BINARY_CMD_RPREPENDQ => 0x36
  | PROTOCOL_BINARY_CMD_RDELETE => 0x37
  | PROTOCOL_BINARY_CMD_RDELETEQ => 0x38
  | PROTOCOL_BINARY_CMD_RINCR => 0x39
  | PROTOCOL_BINARY_CMD_RINCRQ => 0x3a
  | PROTOCOL_BINARY_CMD_RDECR => 0x3b
  | PROTOCOL_BINARY_CMD_RDECRQ => 0x3c
  | PROTOCOL_BINARY_CMD_SET_VBUCKET => 0x3d
  | PROTOCOL_BINARY_CMD_GET_VBUCKET => 0x3e
  | PROTOCOL_BINARY_CMD_DEL_VBUCKET => 0x3f
  | PROTOCOL_BINARY_CMD_TAP_CONNECT => 0x40
  | PROTOCOL_BINARY_CMD_TAP_MUTATION => 0x41
  | PROTOCOL_BINARY_CMD_TAP_DELETE => 0x42
  | PROTOCOL_BINARY_CMD_TAP_FLUSH => 0x43
  | PROTOCOL_BINARY_CMD_TAP_OPAQUE => 0x44
  | PROTOCOL_BINARY_CMD_TAP_VBUCKET_SET => 0x45
  | PROTOCOL_BINARY_CMD_TAP_CHECKPOINT_START => 0x46
  | PROTOCOL_BINARY_CMD_TAP_CHECKPOINT_END => 0x47
  | PROTOCOL_BINARY_CMD_GET_ALL_VB_SEQNOS => 0x48
  | PROTOCOL_BINARY_CMD_DCP_OPEN => 0x50
  | PROTOCOL_BINARY_CMD_DCP_ADD_STREAM => 0x51
  | PROTOCOL_BINARY_CMD_DCP_CLOSE_STREAM => 0x52
  | PROTOCOL_BINARY_CMD_DCP_STREAM_REQ => 0x53
  | PROTOCOL_BINARY_CMD_DCP_GET_FAILOVER_LOG => 0x54
  | PROTOCOL_BINARY_CMD_DCP_STREAM_END => 0x55
  | PROTOCOL_BINARY_CMD_DCP_SNAPSHOT_MARKER => 0x56
  | PROTOCOL_BINARY_CMD_DCP_MUTATION => 0x57
  | PROTOCOL_BINARY_CMD_DCP_DELETION => 0x58
  | PROTOCOL_BINARY_CMD_DCP_EXPIRATION => 0x59
  | PROTOCOL_BINARY_CMD_DCP_FLUSH => 0x5a
  | PROTOCOL_BINARY_CMD_DCP_SET_VBUCKET_STATE => 0x5b
  | PROTOCOL_BINARY_CMD_DCP_NOOP => 0x5c
  | PROTOCOL_BINARY_CMD_DCP_BUFFER_ACKNOWLEDGEMENT => 0x5d
  | PROTOCOL_BINARY_CMD_DCP_CONTROL => 0x5e
  | PROTOCOL_BINARY_CMD_DCP_RESERVED4 => 0x5f
  | PROTOCOL_BINARY_CMD_STOP_PERSISTENCE => 0x80
  | PROTOCOL_BINARY_CMD_START_PERSISTENCE => 0x81
  | PROTOCOL_BINARY_CMD_SET_PARAM => 0x82
  | PROTOCOL_BINARY_CMD_GET_REPLICA => 0x83
  | PROTOCOL_BINARY_CMD_CREATE_BUCKET => 0x85
  | PROTOCOL_BINARY_CMD_DELETE_BUCKET => 0x86
  | PROTOCOL_BINARY_CMD_LIST_BUCKETS => 0x87
  | PROTOCOL_BINARY_CMD_SELECT_BUCKET => 0x89
  | PROTOCOL_BINARY_CMD_OBSERVE_SEQNO => 0x91
  | PROTOCOL_BINARY_CMD_OBSERVE => 0x92
  | PROTOCOL_BINARY_CMD_EVICT_KEY => 0x93
  | PROTOCOL_BINARY_CMD_GET_LOCKED => 0x94
  | PROTOCOL_BINARY_CMD_UNLOCK_KEY => 0x95
  | PROTOCOL_BINARY_CMD_LAST_CLOSED_CHECKPOINT => 0x97
  | PROTOCOL_BINARY_CMD_DEREGISTER_TAP_CLIENT => 0x9e
  | PROTOCOL_BINARY_CMD_RESET_REPLICATION_CHAIN => 0x9f
  | PROTOCOL_BINARY_CMD_GET_META => 0xa0
  | PROTOCOL_BINARY_CMD_GETQ_META => 0xa1
  | PROTOCOL_BINARY_CMD_SET_WITH_META => 0xa2
  | PROTOCOL_BINARY_CMD_SETQ_WITH_META => 0xa3
  | PROTOCOL_BINARY_CMD_ADD_WITH_META => 0xa4
  | PROTOCOL_BINARY_CMD_ADDQ_WITH_META => 0xa5
  | PROTOCOL_BINARY_CMD_SNAPSHOT_VB_STATES => 0xa6
  | PROTOCOL_BINARY_CMD_VBUCKET_BATCH_COUNT => 0xa7
  | PROTOCOL_BINARY_CMD_DEL_WITH_META => 0xa8
  | PROTOCOL_BINARY_CMD_DELQ_WITH_META => 0xa9
  | PROTOCOL_BINARY_CMD_CREATE_CHECKPOINT => 0xaa
  | PROTOCOL_BINARY_CMD_NOTIFY_VBUCKET_UPDATE => 0xac
  | PROTOCOL_BINARY_CMD_ENABLE_TRAFFIC => 0xad
  | PROTOCOL_BINARY_CMD_DISABLE_TRAFFIC => 0xae
  | PROTOCOL_BINARY_CMD_CHANGE_VB_FILTER => 0xb0
  | PROTOCOL_BINARY_CMD_CHECKPOINT_PERSISTENCE => 0xb1
  | PROTOCOL_BINARY_CMD_RETURN_META => 0xb2
  | PROTOCOL_BINARY_CMD_COMPACT_DB => 0xb3
  | PROTOCOL_BINARY_CMD_SET_CLUSTER_CONFIG => 0xb4
  | PROTOCOL_BINARY_CMD_GET_CLUSTER_CONFIG => 0xb5
  | PROTOCOL_BINARY_CMD_GET_RANDOM_KEY => 0xb6
  | PROTOCOL_BINARY_CMD_SEQNO_PERSISTENCE => 0xb7
  | PROTOCOL_BINARY_CMD_GET_KEYS => 0xb8
  | PROTOCOL_BINARY_CMD_SET_DRIFT_COUNTER_STATE => 0xc1
  | PROTOCOL_BINARY_CMD_GET_ADJUSTED_TIME => 0xc2
  | PROTOCOL_BINARY_CMD_SUBDOC_GET => 0xc5
  | PROTOCOL_BINARY_CMD_SUBDOC_EXISTS => 0xc6
  | PROTOCOL_BINARY_CMD_SUBDOC_DICT_ADD => 0xc7
  | PROTOCOL_BINARY_CMD_SUBDOC_DICT_UPSERT => 0xc8
  | PROTOCOL_BINARY_CMD_SUBDOC_DELETE => 0xc9
  | PROTOCOL_BINARY_CMD_SUBDOC_REPLACE => 0xca
  | PROTOCOL_BINARY_CMD_SUBDOC_ARRAY_PUSH_LAST => 0xcb
  | PROTOCOL_BINARY_CMD_SUBDOC_ARRAY_PUSH_FIRST => 0xcc
  | PROTOCOL_BINARY_CMD_SUBDOC_ARRAY_INSERT => 0xcd
  | PROTOCOL_BINARY_CMD_SUBDOC_ARRAY_ADD_UNIQUE => 0xce
  | PROTOCOL_BINARY_CMD_SUBDOC_COUNTER => 0xcf
  | PROTOCOL_BINARY_CMD_SUBDOC_MULTI_LOOKUP => 0xd0
  | PROTOCOL_BINARY_CMD_SUBDOC_MULTI_MUTATION => 0xd1
  | PROTOCOL_BINARY_CMD_SUBDOC_GET_COUNT => 0xd2
  | PROTOCOL_BINARY_CMD_SCRUB => 0xf0
  | PROTOCOL_BINARY_CMD_ISASL_REFRESH => 0xf1
  | PROTOCOL_BINARY_CMD_SSL_CERTS_REFRESH => 0xf2
  | PROTOCOL_BINARY_CMD_GET_CMD_TIMER => 0xf3
  | PROTOCOL_BINARY_CMD_SET_CTRL_TOKEN => 0xf4
  | PROTOCOL_BINARY_CMD_GET_CTRL_TOKEN => 0xf5
  | PROTOCOL_BINARY_CMD_INIT_COMPLETE => 0xf6
  | PROTOCOL_BINARY_CMD_INVALID => 0xff
  end.

Definition all_commands : list protocol_binary_command :=
  [ PROTOCOL_BINARY_CMD_GET;
    PROTOCOL_BINARY_CMD_SET;
    PROTOCOL_BINARY_CMD_ADD;
    PROTOCOL_BINARY_CMD_REPLACE;
    PROTOCOL_BINARY_CMD_DELETE;
    PROTOCOL_BINARY_CMD_INCREMENT;
    PROTOCOL_BINARY_CMD_DECREMENT;
    PROTOCOL_BINARY_CMD_QUIT;
    PROTOCOL_BINARY_CMD_FLUSH;
    PROTOCOL_BINARY_CMD_GETQ;
    PROTOCOL_BINARY_CMD_NOOP;
    PROTOCOL_BINARY_CMD_VERSION;
    PROTOCOL_BINARY_CMD_GETK;
    PROTOCOL_BINARY_CMD_GETKQ;
    PROTOCOL_BINARY_CMD_APPEND;
    PROTOCOL_BINARY_CMD_PREPEND;
    PROTOCOL_BINARY_CMD_STAT;
    PROTOCOL_BINARY_CMD_SETQ;
    PROTOCOL_BINARY_CMD_ADDQ;
    PROTOCOL_BINARY_CMD_REPLACEQ;
    PROTOCOL_BINARY_CMD_DELETEQ;
    PROTOCOL_BINARY_CMD_INCREMENTQ;
    PROTOCOL_BINARY_CMD_DECREMENTQ;
    PROTOCOL_BINARY_CMD_QUITQ;
    PROTOCOL_BINARY_CMD_FLUSHQ;
    PROTOCOL_BINARY_CMD_APPENDQ;
    PROTOCOL_BINARY_CMD_PREPENDQ;
    PROTOCOL_BINARY_CMD_VERBOSITY;
    PROTOCOL_BINARY_CMD_TOUCH;
    PROTOCOL_BINARY_CMD_GAT;
    PROTOCOL_BINARY_CMD_GATQ;
    PROTOCOL_BINARY_CMD_HELLO;
    PROTOCOL_BINARY_CMD_SASL_LIST_MECHS;
    PROTOCOL_BINARY_CMD_SASL_AUTH;
    PROTOCOL_BINARY_CMD_SASL_STEP;
    PROTOCOL_BINARY_CMD_IOCTL_GET;
    PROTOCOL_BINARY_CMD_IOCTL_SET;
    PROTOCOL_BINARY_CMD_CONFIG_VALIDATE;
    PROTOCOL_BINARY_CMD_CONFIG_RELOAD;
    PROTOCOL_BINARY_CMD_AUDIT_PUT;
    PROTOCOL_BINARY_CMD_AUDIT_CONFIG_RELOAD;
    PROTOCOL_BINARY_CMD_SHUTDOWN;
    PROTOCOL_BINARY_CMD_RGET;
    PROTOCOL_BINARY_CMD_RSET;
    PROTOCOL_BINARY_CMD_RSETQ;
    PROTOCOL_BINARY_CMD_RAPPEND;
    PROTOCOL_BINARY_CMD_RAPPENDQ;
    PROTOCOL_BINARY_CMD_RPREPEND;
    PROTOCOL_BINARY_CMD_RPREPENDQ;
    PROTOCOL_BINARY_CMD_RDELETE;
    PROTOCOL_BINARY_CMD_RDELETEQ;
    PROTOCOL_BINARY_CMD_RINCR;
    PROTOCOL_BINARY_CMD_RINCRQ;
    PROTOCOL_BINARY_CMD_RDECR;
    PROTOCOL_BINARY_CMD_RDECRQ;
    PROTOCOL_BINARY_CMD_SET_VBUCKET;
    PROTOCOL_BINARY_CMD_GET_VBUCKET;
    PROTOCOL_BINARY_CMD_DEL_VBUCKET;
    PROTOCOL_BINARY_CMD_TAP_CONNECT;
    PROTOCOL_BINARY_CMD_TAP_MUTATION;
    PROTOCOL_BINARY_CMD_TAP_DELETE;
    PROTOCOL_BINARY_CMD_TAP_FLUSH;
    PROTOCOL_BINARY_CMD_TAP_OPAQUE;
    PROTOCOL_BINARY_CMD_TAP_VBUCKET_SET;
    PROTOCOL_BINARY_CMD_TAP_CHECKPOINT_START;
    PROTOCOL_BINARY_CMD_TAP_CHECKPOINT_END;
    PROTOCOL_BINARY_CMD_GET_ALL_VB_SEQNOS;
    PROTOCOL_BINARY_CMD_DCP_OPEN;
    PROTOCOL_BINARY_CMD_DCP_ADD_STREAM;
    PROTOCOL_BINARY_CMD_DCP_CLOSE_STREAM;
    PROTOCOL_BINARY_CMD_DCP_STREAM_REQ;
    PROTOCOL_BINARY_CMD_DCP_GET_FAILOVER_LOG;
    PROTOCOL_BINARY_CMD_DCP_STREAM_END;
    PROTOCOL_BINARY_CMD_DCP_SNAPSHOT_MARKER;
    PROTOCOL_BINARY_CMD_DCP_MUTATION;
    PROTOCOL_BINARY_CMD_DCP_DELETION;
    PROTOCOL_BINARY_CMD_DCP_EXPIRATION;
    PROTOCOL_BINARY_CMD_DCP_FLUSH;
    PROTOCOL_BINARY_CMD_DCP_SET_VBUCKET_STATE;
    PROTOCOL_BINARY_CMD_DCP_NOOP;
    PROTOCOL_BINARY_CMD_DCP_BUFFER_ACKNOWLEDGEMENT;
    PROTOCOL_BINARY_CMD_DCP_CONTROL;
    PROTOCOL_BINARY_CMD_DCP_RESERVED4;
    PROTOCOL_BINARY_CMD_STOP_PERSISTENCE;
    PROTOCOL_BINARY_CMD_START_PERSISTENCE;
    PROTOCOL_BINARY_CMD_SET_PARAM;
    PROTOCOL_BINARY_CMD_GET_REPLICA;
    PROTOCOL_BINARY_CMD_CREATE_BUCKET;
    PROTOCOL_BINARY_CMD_DELETE_BUCKET;
    PROTOCOL_BINARY_CMD_LIST_BUCKETS;
    PROTOCOL_BINARY_CMD_SELECT_BUCKET;
    PROTOCOL_BINARY_CMD_OBSERVE_SEQNO;
    PROTOCOL_BINARY_CMD_OBSERVE;
    PROTOCOL_BINARY_CMD_EVICT_KEY;
    PROTOCOL_BINARY_CMD_GET_LOCKED;
    PROTOCOL_BINARY_CMD_UNLOCK_KEY;
    PROTOCOL_BINARY_CMD_LAST_CLOSED_CHECKPOINT;
    PROTOCOL_BINARY_CMD_DEREGISTER_TAP_CLIENT;
    PROTOCOL_BINARY_CMD_RESET_REPLICATION_CHAIN;
    PROTOCOL_BINARY_CMD_GET_META;
    PROTOCOL_BINARY_CMD_GETQ_META;
    PROTOCOL_BINARY_CMD_SET_WITH_META;
    PROTOCOL_BINARY_CMD_SETQ_WITH_META;
    PROTOCOL_BINARY_CMD_ADD_WITH_META;
    PROTOCOL_BINARY_CMD_ADDQ_WITH_META;
    PROTOCOL_BINARY_CMD_SNAPSHOT_VB_STATES;
    PROTOCOL_BINARY_CMD_VBUCKET_BATCH_COUNT;
    PROTOCOL_BINARY_CMD_DEL_WITH_META;
    PROTOCOL_BINARY_CMD_DELQ_WITH_META;
    PROTOCOL_BINARY_CMD_CREATE_CHECKPOINT;
    PROTOCOL_BINARY_CMD_NOTIFY_VBUCKET_UPDATE;
    PROTOCOL_BINARY_CMD_ENABLE_TRAFFIC;
    PROTOCOL_BINARY_CMD_DISABLE_TRAFFIC;
    PROTOCOL_BINARY_CMD_CHANGE_VB_FILTER;
    PROTOCOL_BINARY_CMD_CHECKPOINT_PERSISTENCE;
    PROTOCOL_BINARY_CMD_RETURN_META;
    PROTOCOL_BINARY_CMD_COMPACT_DB;
    PROTOCOL_BINARY_CMD_SET_CLUSTER_CONFIG;
    PROTOCOL_BINARY_CMD_GET_CLUSTER_CONFIG;
    PROTOCOL_BINARY_CMD_GET_RANDOM_KEY;
    PROTOCOL_BINARY_CMD_SEQNO_PERSISTENCE;
    PROTOCOL_BINARY_CMD_GET_KEYS;
    PROTOCOL_BINARY_CMD_SET_DRIFT_COUNTER_STATE;
    PROTOCOL_BINARY_CMD_GET_ADJUSTED_TIME;
    PROTOCOL_BINARY_CMD_SUBDOC_GET;
    PROTOCOL_BINARY_CMD_SUBDOC_EXISTS;
    PROTOCOL_BINARY_CMD_SUBDOC_DICT_ADD;
    PROTOCOL_BINARY_CMD_SUBDOC_DICT_UPSERT;
    PROTOCOL_BINARY_CMD_SUBDOC_DELETE;
    PROTOCOL_BINARY_CMD_SUBDOC_REPLACE;
    PROTOCOL_BINARY_CMD_SUBDOC_ARRAY_PUSH_LAST;
    PROTOCOL_BINARY_CMD_SUBDOC_ARRAY_PUSH_FIRST;
    PROTOCOL_BINARY_CMD_SUBDOC_ARRAY_INSERT;
    PROTOCOL_BINARY_CMD_SUBDOC_ARRAY_ADD_UNIQUE;
    PROTOCOL_BINARY_CMD_SUBDOC_COUNTER;
    PROTOCOL_BINARY_CMD_SUBDOC_MULTI_LOOKUP;
    PROTOCOL_BINARY_CMD_SUBDOC_MULTI_MUTATION;
    PROTOCOL_BINARY_CMD_SUBDOC_GET_COUNT;
    PROTOCOL_BINARY_CMD_SCRUB;
    PROTOCOL_BINARY_CMD_ISASL_REFRESH;
    PROTOCOL_BINARY_CMD_SSL_CERTS_REFRESH;
    PROTOCOL_BINARY_CMD_GET_CMD_TIMER;
    PROTOCOL_BINARY_CMD_SET_CTRL_TOKEN;
    PROTOCOL_BINARY_CMD_GET_CTRL_TOKEN;
    PROTOCOL_BINARY_CMD_INIT_COMPLETE;
    PROTOCOL_BINARY_CMD_INVALID ].
Coercion cmd_value : protocol_binary_command >-> Z.

(** The enumerator with a given value, if any: [static_cast] accepts every
    opcode byte, known or not. *)
Definition cmd_of_value (z : Z) : option protocol_binary_command :=
  List.find (fun c => cmd_value c =? z) all_commands.

#[global] Instance status_eq_dec : EqDecision protocol_binary_response_status.
Proof. solve_decision. Defined.

Lemma cmd_of_value_value c : cmd_of_value (cmd_value c) = Some c.
Proof. destruct c; reflexivity. Qed.

Lemma cmd_value_inj c d : cmd_value c = cmd_value d -> c = d.
Proof.
  intros H. apply (f_equal cmd_of_value) in H.
  rewrite !cmd_of_value_value in H. by injection H.
Qed.

#[global] Instance cmd_eq_dec : EqDecision protocol_binary_command.
Proof.
  refine (fun c d => cast_if (decide (cmd_value c = cmd_value d)));
    [by apply cmd_value_inj | congruence].
Defined.

Lemma cmd_value_range c : 0 <= cmd_value c < 256.
Proof. destruct c; cbn; lia. Qed.

Definition PROTOCOL_BINARY_REQ : Z := 0x80.
Definition PROTOCOL_BINARY_RES : Z := 0x81.

(** ** Datatype bits ([mcbp::datatype]) *)

Definition PROTOCOL_BINARY_RAW_BYTES : Z := 0.
Definition PROTOCOL_BINARY_DATATYPE_JSON : Z := 1.
Definition PROTOCOL_BINARY_DATATYPE_COMPRESSED : Z := 2.
Definition PROTOCOL_BINARY_DATATYPE_XATTR : Z := 4.

Definition is_raw (datatype : Z) : bool := datatype == PROTOCOL_BINARY_RAW_BYTES.

Definition is_json (datatype : Z) : bool :=
  Z.land datatype PROTOCOL_BINARY_DATATYPE_JSON == PROTOCOL_BINARY_DATATYPE_JSON.

Definition is_compressed (datatype : Z) : bool :=
  Z.land datatype PROTOCOL_BINARY_DATATYPE_COMPRESSED == PROTOCOL_BINARY_DATATYPE_COMPRESSED.

Definition is_xattr (datatype : Z) : bool :=
  Z.land datatype PROTOCOL_BINARY_DATATYPE_XATTR == PROTOCOL_BINARY_DATATYPE_XATTR.

Definition is_valid_datatype (datatype : Z) : bool :=
  let highest := Z.lor (Z.lor PROTOCOL_BINARY_DATATYPE_XATTR
                              PROTOCOL_BINARY_DATATYPE_COMPRESSED)
                       PROTOCOL_BINARY_DATATYPE_JSON in
  datatype <=? highest.

(** ** Engine error codes *)

Inductive ENGINE_ERROR_CODE :=
| ENGINE_SUCCESS
| ENGINE_KEY_ENOENT
| ENGINE_KEY_EEXISTS
| ENGINE_ENOMEM
| ENGINE_NOT_STORED
| ENGINE_EINVAL
| ENGINE_ENOTSUP
| ENGINE_EWOULDBLOCK
| ENGINE_E2BIG
| ENGINE_WANT_MORE
| ENGINE_DISCONNECT
| ENGINE_EACCESS
| ENGINE_NOT_MY_VBUCKET
| ENGINE_TMPFAIL
| ENGINE_ERANGE
| ENGINE_ROLLBACK
| ENGINE_NO_BUCKET
| ENGINE_EBUSY
| ENGINE_AUTH_STALE
| ENGINE_FAILED.

#[global] Instance engine_error_eq_dec : EqDecision ENGINE_ERROR_CODE.
Proof. solve_decision. Defined.

Definition engine_error_2_mcbp_protocol_error (e : ENGINE_ERROR_CODE)
    : protocol_binary_response_status :=
  match e with
  | ENGINE_EACCESS => PROTOCOL_BINARY_RESPONSE_EACCESS
  | ENGINE_SUCCESS => PROTOCOL_BINARY_RESPONSE_SUCCESS
  | ENGINE_KEY_ENOENT => PROTOCOL_BINARY_RESPONSE_KEY_ENOENT
  | ENGINE_KEY_EEXISTS => PROTOCOL_BINARY_RESPONSE_KEY_EEXISTS
  | ENGINE_ENOMEM => PROTOCOL_BINARY_RESPONSE_ENOMEM
  | ENGINE_TMPFAIL => PROTOCOL_BINARY_RESPONSE_ETMPFAIL
  | ENGINE_NOT_STORED => PROTOCOL_BINARY_RESPONSE_NOT_STORED
  | ENGINE_EINVAL => PROTOCOL_BINARY_RESPONSE_EINVAL
  | ENGINE_ENOTSUP => PROTOCOL_BINARY_RESPONSE_NOT_SUPPORTED
  | ENGINE_E2BIG => PROTOCOL_BINARY_RESPONSE_E2BIG
  | ENGINE_NOT_MY_VBUCKET => PROTOCOL_BINARY_RESPONSE_NOT_MY_VBUCKET
  | ENGINE_ERANGE => PROTOCOL_BINARY_RESPONSE_ERANGE
  | ENGINE_ROLLBACK => PROTOCOL_BINARY_RESPONSE_ROLLBACK
  | ENGINE_NO_BUCKET => PROTOCOL_BINARY_RESPONSE_NO_BUCKET
  | ENGINE_EBUSY => PROTOCOL_BINARY_RESPONSE_EBUSY
  | ENGINE_AUTH_STALE => PROTOCOL_BINARY_RESPONSE_AUTH_STALE
  | _ => PROTOCOL_BINARY_RESPONSE_EINTERNAL
  end.

(** ** The request and response headers

    Both unions are 24 bytes; every field holds the value a little-endian
    host loads from it, that is before any [ntohs]/[ntohl]/[ntohll]. *)

Record protocol_binary_request_header := mk_request_header {
  magic : Z;
  opcode : Z;
  keylen : Z;
  extlen : Z;
  datatype : Z;
  vbucket : Z;
  bodylen : Z;
  opaque : Z;
  cas : Z;
}.

Record protocol_binary_response_header := mk_response_header {
  r_magic : Z;
  r_opcode : Z;
  r_keylen : Z;
  r_extlen : Z;
  r_datatype : Z;
  r_status : Z;
  r_bodylen : Z;
  r_opaque : Z;
  r_cas : Z;
}.

Definition HEADER_SIZE : Z := 24.

(** The nine fields, as their struct offsets place them. *)
Definition load_fields (m : bytes) : option (Z * Z * Z * Z * Z * Z * Z * Z * Z) :=
  f0 ← load_int 1 0 m; f1 ← load_int 1 1 m; f2 ← load_int 2 2 m;
  f4 ← load_int 1 4 m; f5 ← load_int 1 5 m; f6 ← load_int 2 6 m;
  f8 ← load_int 4 8 m; f12 ← load_int 4 12 m; f16 ← load_int 8 16 m;
  Some (f0, f1, f2, f4, f5, f6, f8, f12, f16).

Definition load_request_header (m : bytes) : option protocol_binary_request_header :=
  '(f0, f1, f2, f4, f5, f6, f8, f12, f16) ← load_fields m;
  Some (mk_request_header f0 f1 f2 f4 f5 f6 f8 f12 f16).

Definition load_response_header (m : bytes) : option protocol_binary_response_header :=
  '(f0, f1, f2, f4, f5, f6, f8, f12, f16) ← load_fields m;
  Some (mk_response_header f0 f1 f2 f4 f5 f6 f8 f12 f16).

Definition store_request_header (h : protocol_binary_request_header) : bytes :=
  le_store 1 (magic h) ++ le_store 1 (opcode h) ++ le_store 2 (keylen h) ++
  le_store 1 (extlen h) ++ le_store 1 (datatype h) ++ le_store 2 (vbucket h) ++
  le_store 4 (bodylen h) ++ le_store 4 (opaque h) ++ le_store 8 (cas h).

Definition store_response_header (h : protocol_binary_response_header) : bytes :=
  le_store 1 (r_magic h) ++ le_store 1 (r_opcode h) ++ le_store 2 (r_keylen h) ++
  le_store 1 (r_extlen h) ++ le_store 1 (r_datatype h) ++ le_store 2 (r_status h) ++
  le_store 4 (r_bodylen h) ++ le_store 4 (r_opaque h) ++ le_store 8 (r_cas h).

(** Each field fits its C type. *)
Record header_ok (h : protocol_binary_request_header) : Prop := {
  magic_ok : 0 <= magic h < 256;
  opcode_ok : 0 <= opcode h < 256;
  keylen_ok : 0 <= keylen h < 65536;
  extlen_ok : 0 <= extlen h < 256;
  datatype_ok : 0 <= datatype h < 256;
  vbucket_ok : 0 <= vbucket h < 65536;
  bodylen_ok : 0 <= bodylen h < 4294967296;
  opaque_ok : 0 <= opaque h < 4294967296;
  cas_ok : 0 <= cas h < 18446744073709551616;
}.

(** ** Text conversion ([utilities/protocol2text.cc]) *)

Open Scope string_scope.

(** [commandmap], the [std::map] from opcode to text. *)
Definition commandmap : list (protocol_binary_command * string) :=
  [ (PROTOCOL_BINARY_CMD_GET, "GET");
    (PROTOCOL_BINARY_CMD_SET, "SET");
    (PROTOCOL_BINARY_CMD_ADD, "ADD");
    (PROTOCOL_BINARY_CMD_REPLACE, "REPLACE");
    (PROTOCOL_BINARY_CMD_DELETE, "DELETE");
    (PROTOCOL_BINARY_CMD_INCREMENT, "INCREMENT");
    (PROTOCOL_BINARY_CMD_DECREMENT, "DECREMENT");
    (PROTOCOL_BINARY_CMD_QUIT, "QUIT");
    (PROTOCOL_BINARY_CMD_FLUSH, "FLUSH");
    (PROTOCOL_BINARY_CMD_GETQ, "GETQ");
    (PROTOCOL_BINARY_CMD_NOOP, "NOOP");
    (PROTOCOL_BINARY_CMD_VERSION, "VERSION");
    (PROTOCOL_BINARY_CMD_GETK, "GETK");
    (PROTOCOL_BINARY_CMD_GETKQ, "GETKQ");
    (PROTOCOL_BINARY_CMD_APPEND, "APPEND");
    (PROTOCOL_BINARY_CMD_PREPEND, "PREPEND");
    (PROTOCOL_BINARY_CMD_STAT, "STAT");
    (PROTOCOL_BINARY_CMD_SETQ, "SETQ");
    (PROTOCOL_BINARY_CMD_ADDQ, "ADDQ");
    (PROTOCOL_BINARY_CMD_REPLACEQ, "REPLACEQ");
    (PROTOCOL_BINARY_CMD_DELETEQ, "DELETEQ");
    (PROTOCOL_BINARY_CMD_INCREMENTQ, "INCREMENTQ");
    (PROTOCOL_BINARY_CMD_DECREMENTQ, "DECREMENTQ");
    (PROTOCOL_BINARY_CMD_QUITQ, "QUITQ");
    (PROTOCOL_BINARY_CMD_FLUSHQ, "FLUSHQ");
    (PROTOCOL_BINARY_CMD_APPENDQ, "APPENDQ");
    (PROTOCOL_BINARY_CMD_PREPENDQ, "PREPENDQ");
    (PROTOCOL_BINARY_CMD_VERBOSITY, "VERBOSITY");
    (PROTOCOL_BINARY_CMD_TOUCH, "TOUCH");
    (PROTOCOL_BINARY_CMD_GAT, "GAT");
    (PROTOCOL_BINARY_CMD_GATQ, "GATQ");
    (PROTOCOL_BINARY_CMD_HELLO, "HELLO");
    (PROTOCOL_BINARY_CMD_SASL_LIST_MECHS, "SASL_LIST_MECHS");
    (PROTOCOL_BINARY_CMD_SASL_AUTH, "SASL_AUTH");
    (PROTOCOL_BINARY_CMD_SASL_STEP, "SASL_STEP");
    (PROTOCOL_BINARY_CMD_IOCTL_GET, "IOCTL_GET");
    (PROTOCOL_BINARY_CMD_IOCTL_SET, "IOCTL_SET");
    (PROTOCOL_BINARY_CMD_CONFIG_VALIDATE, "CONFIG_VALIDATE");
    (PROTOCOL_BINARY_CMD_CONFIG_RELOAD, "CONFIG_RELOAD");
    (PROTOCOL_BINARY_CMD_SHUTDOWN, "SHUTDOWN");
    (PROTOCOL_BINARY_CMD_AUDIT_PUT, "AUDIT_PUT");
    (PROTOCOL_BINARY_CMD_AUDIT_CONFIG_RELOAD, "AUDIT_CONFIG_RELOAD");
    (PROTOCOL_BINARY_CMD_RGET, "RGET");
    (PROTOCOL_BINARY_CMD_RSET, "RSET");
    (PROTOCOL_BINARY_CMD_RSETQ, "RSETQ");
    (PROTOCOL_BINARY_CMD_RAPPEND, "RAPPEND");
    (PROTOCOL_BINARY_CMD_RAPPENDQ, "RAPPENDQ");
    (PROTOCOL_BINARY_CMD_RPREPEND, "RPREPEND");
    (PROTOCOL_BINARY_CMD_RPREPENDQ, "RPREPENDQ");
    (PROTOCOL_BINARY_CMD_RDELETE, "RDELETE");
    (PROTOCOL_BINARY_CMD_RDELETEQ, "RDELETEQ");
    (PROTOCOL_BINARY_CMD_RINCR, "RINCR");
    (PROTOCOL_BINARY_CMD_RINCRQ, "RINCRQ");
    (PROTOCOL_BINARY_CMD_RDECR, "RDECR");
    (PROTOCOL_BINARY_CMD_RDECRQ, "RDECRQ");
    (PROTOCOL_BINARY_CMD_SET_VBUCKET, "SET_VBUCKET");
    (PROTOCOL_BINARY_CMD_GET_VBUCKET, "GET_VBUCKET");
    (PROTOCOL_BINARY_CMD_DEL_VBUCKET, "DEL_VBUCKET");
    (PROTOCOL_BINARY_CMD_TAP_CONNECT, "TAP_CONNECT");
    (PROTOCOL_BINARY_CMD_TAP_MUTATION, "TAP_MUTATION");
    (PROTOCOL_BINARY_CMD_TAP_DELETE, "TAP_DELETE");
    (PROTOCOL_BINARY_CMD_TAP_FLUSH, "TAP_FLUSH");
    (PROTOCOL_BINARY_CMD_TAP_OPAQUE, "TAP_OPAQUE");
    (PROTOCOL_BINARY_CMD_TAP_VBUCKET_SET, "TAP_VBUCKET_SET");
    (PROTOCOL_BINARY_CMD_TAP_CHECKPOINT_START, "TAP_CHECKPOINT_START");
    (PROTOCOL_BINARY_CMD_TAP_CHECKPOINT_END, "TAP_CHECKPOINT_END");
    (PROTOCOL_BINARY_CMD_GET_ALL_VB_SEQNOS, "GET_ALL_VB_SEQNOS");
    (PROTOCOL_BINARY_CMD_DCP_OPEN, "DCP_OPEN");
    (PROTOCOL_BINARY_CMD_DCP_ADD_STREAM, "DCP_ADD_STREAM");
    (PROTOCOL_BINARY_CMD_DCP_CLOSE_STREAM, "DCP_CLOSE_STREAM");
    (PROTOCOL_BINARY_CMD_DCP_STREAM_REQ, "DCP_STREAM_REQ");
    (PROTOCOL_BINARY_CMD_DCP_GET_FAILOVER_LOG, "DCP_GET_FAILOVER_LOG");
    (PROTOCOL_BINARY_CMD_DCP_STREAM_END, "DCP_STREAM_END");
    (PROTOCOL_BINARY_CMD_DCP_SNAPSHOT_MARKER, "DCP_SNAPSHOT_MARKER");
    (PROTOCOL_BINARY_CMD_DCP_MUTATION, "DCP_MUTATION");
    (PROTOCOL_BINARY_CMD_DCP_DELETION, "DCP_DELETION");
    (PROTOCOL_BINARY_CMD_DCP_EXPIRATION, "DCP_EXPIRATION");
    (PROTOCOL_BINARY_CMD_DCP_FLUSH, "DCP_FLUSH");
    (PROTOCOL_BINARY_CMD_DCP_SET_VBUCKET_STATE, "DCP_SET_VBUCKET_STATE");
    (PROTOCOL_BINARY_CMD_DCP_NOOP, "DCP_NOOP");
    (PROTOCOL_BINARY_CMD_DCP_BUFFER_ACKNOWLEDGEMENT, "DCP_BUFFER_ACKNOWLEDGEMENT");
    (PROTOCOL_BINARY_CMD_DCP_CONTROL, "DCP_CONTROL");
    (PROTOCOL_BINARY_CMD_DCP_RESERVED4, "DCP_RESERVED4");
    (PROTOCOL_BINARY_CMD_STOP_PERSISTENCE, "STOP_PERSISTENCE");
    (PROTOCOL_BINARY_CMD_START_PERSISTENCE, "START_PERSISTENCE");
    (PROTOCOL_BINARY_CMD_SET_PARAM, "SET_PARAM");
    (PROTOCOL_BINARY_CMD_GET_REPLICA, "GET_REPLICA");
    (PROTOCOL_BINARY_CMD_CREATE_BUCKET, "CREATE_BUCKET");
    (PROTOCOL_BINARY_CMD_DELETE_BUCKET, "DELETE_BUCKET");
    (PROTOCOL_BINARY_CMD_LIST_BUCKETS, "LIST_BUCKETS");
    (PROTOCOL_BINARY_CMD_SELECT_BUCKET, "SELECT_BUCKET");
    (PROTOCOL_BINARY_CMD_OBSERVE, "OBSERVE");
    (PROTOCOL_BINARY_CMD_OBSERVE_SEQNO, "OBSERVE_SEQNO");
    (PROTOCOL_BINARY_CMD_EVICT_KEY, "EVICT_KEY");
    (PROTOCOL_BINARY_CMD_GET_LOCKED, "GET_LOCKED");
    (PROTOCOL_BINARY_CMD_UNLOCK_KEY, "UNLOCK_KEY");
    (PROTOCOL_BINARY_CMD_LAST_CLOSED_CHECKPOINT, "LAST_CLOSED_CHECKPOINT");
    (PROTOCOL_BINARY_CMD_DEREGISTER_TAP_CLIENT, "DEREGISTER_TAP_CLIENT");
    (PROTOCOL_BINARY_CMD_RESET_REPLICATION_CHAIN, "RESET_REPLICATION_CHAIN");
    (PROTOCOL_BINARY_CMD_GET_META, "GET_META");
    (PROTOCOL_BINARY_CMD_GETQ_META, "GETQ_META");
    (PROTOCOL_BINARY_CMD_SET_WITH_META, "SET_WITH_META");
    (PROTOCOL_BINARY_CMD_SETQ_WITH_META, "SETQ_WITH_META");
    (PROTOCOL_BINARY_CMD_ADD_WITH_META, "ADD_WITH_META");
    (PROTOCOL_BINARY_CMD_ADDQ_WITH_META, "ADDQ_WITH_META");
    (PROTOCOL_BINARY_CMD_SNAPSHOT_VB_STATES, "SNAPSHOT_VB_STATES");
    (PROTOCOL_BINARY_CMD_VBUCKET_BATCH_COUNT, "VBUCKET_BATCH_COUNT");
    (PROTOCOL_BINARY_CMD_DEL_WITH_META, "DEL_WITH_META");
    (PROTOCOL_BINARY_CMD_DELQ_WITH_META, "DELQ_WITH_META");
    (PROTOCOL_BINARY_CMD_CREATE_CHECKPOINT, "CREATE_CHECKPOINT");
    (PROTOCOL_BINARY_CMD_NOTIFY_VBUCKET_UPDATE, "NOTIFY_VBUCKET_UPDATE");
    (PROTOCOL_BINARY_CMD_ENABLE_TRAFFIC, "ENABLE_TRAFFIC");
    (PROTOCOL_BINARY_CMD_DISABLE_TRAFFIC, "DISABLE_TRAFFIC");
    (PROTOCOL_BINARY_CMD_CHANGE_VB_FILTER, "CHANGE_VB_FILTER");
    (PROTOCOL_BINARY_CMD_CHECKPOINT_PERSISTENCE, "CHECKPOINT_PERSISTENCE");
    (PROTOCOL_BINARY_CMD_RETURN_META, "RETURN_META");
    (PROTOCOL_BINARY_CMD_COMPACT_DB, "COMPACT_DB");
    (PROTOCOL_BINARY_CMD_SET_CLUSTER_CONFIG, "SET_CLUSTER_CONFIG");
    (PROTOCOL_BINARY_CMD_GET_CLUSTER_CONFIG, "GET_CLUSTER_CONFIG");
    (PROTOCOL_BINARY_CMD_GET_RANDOM_KEY, "GET_RANDOM_KEY");
    (PROTOCOL_BINARY_CMD_SEQNO_PERSISTENCE, "SEQNO_PERSISTENCE");
    (PROTOCOL_BINARY_CMD_GET_KEYS, "GET_KEYS");
    (PROTOCOL_BINARY_CMD_GET_ADJUSTED_TIME, "GET_ADJUSTED_TIME");
    (PROTOCOL_BINARY_CMD_SET_DRIFT_COUNTER_STATE, "SET_DRIFT_COUNTER_STATE");
    (PROTOCOL_BINARY_CMD_SUBDOC_GET, "SUBDOC_GET");
    (PROTOCOL_BINARY_CMD_SUBDOC_EXISTS, "SUBDOC_EXISTS");
    (PROTOCOL_BINARY_CMD_SUBDOC_DICT_ADD, "SUBDOC_DICT_ADD");
    (PROTOCOL_BINARY_CMD_SUBDOC_DICT_UPSERT, "SUBDOC_DICT_UPSERT");
    (PROTOCOL_BINARY_CMD_SUBDOC_DELETE, "SUBDOC_DELETE");
    (PROTOCOL_BINARY_CMD_SUBDOC_REPLACE, "SUBDOC_REPLACE");
    (PROTOCOL_BINARY_CMD_SUBDOC_ARRAY_PUSH_LAST, "SUBDOC_ARRAY_PUSH_LAST");
    (PROTOCOL_BINARY_CMD_SUBDOC_ARRAY_PUSH_FIRST, "SUBDOC_ARRAY_PUSH_FIRST");
    (PROTOCOL_BINARY_CMD_SUBDOC_ARRAY_INSERT, "SUBDOC_ARRAY_INSERT");
    (PROTOCOL_BINARY_CMD_SUBDOC_ARRAY_ADD_UNIQUE, "SUBDOC_ARRAY_ADD_UNIQUE");
    (PROTOCOL_BINARY_CMD_SUBDOC_COUNTER, "SUBDOC_COUNTER");
    (PROTOCOL_BINARY_CMD_SUBDOC_MULTI_LOOKUP, "SUBDOC_MULTI_LOOKUP");
    (PROTOCOL_BINARY_CMD_SUBDOC_MULTI_MUTATION, "SUBDOC_MULTI_MUTATION");
    (PROTOCOL_BINARY_CMD_SUBDOC_GET_COUNT, "SUBDOC_GET_COUNT");
    (PROTOCOL_BINARY_CMD_SCRUB, "SCRUB");
    (PROTOCOL_BINARY_CMD_ISASL_REFRESH, "ISASL_REFRESH");
    (PROTOCOL_BINARY_CMD_SSL_CERTS_REFRESH, "SSL_CERTS_REFRESH");
    (PROTOCOL_BINARY_CMD_GET_CMD_TIMER, "GET_CMD_TIMER");
    (PROTOCOL_BINARY_CMD_SET_CTRL_TOKEN, "SET_CTRL_TOKEN");
    (PROTOCOL_BINARY_CMD_GET_CTRL_TOKEN, "GET_CTRL_TOKEN");
    (PROTOCOL_BINARY_CMD_INIT_COMPLETE, "INIT_COMPLETE") ].

(** [statusmap], the [std::map] from response status to text. *)
Definition statusmap : list (protocol_binary_response_status * string) :=
  [ (PROTOCOL_BINARY_RESPONSE_SUCCESS, "Success");
    (PROTOCOL_BINARY_RESPONSE_KEY_ENOENT, "Not found");
    (PROTOCOL_BINARY_RESPONSE_KEY_EEXISTS, "Data exists for key");
    (PROTOCOL_BINARY_RESPONSE_E2BIG, "Too large");
    (PROTOCOL_BINARY_RESPONSE_EINVAL, "Invalid arguments");
    (PROTOCOL_BINARY_RESPONSE_NOT_STORED, "Not stored");
    (PROTOCOL_BINARY_RESPONSE_DELTA_BADVAL, "Non-numeric server-side value for incr or decr");
    (PROTOCOL_BINARY_RESPONSE_NOT_MY_VBUCKET, "I'm not responsible for this vbucket");
    (PROTOCOL_BINARY_RESPONSE_NO_BUCKET, "Not connected to a bucket");
    (PROTOCOL_BINARY_RESPONSE_AUTH_STALE, "Authentication stale. Please reauthenticate");
    (PROTOCOL_BINARY_RESPONSE_AUTH_ERROR, "Auth failure");
    (PROTOCOL_BINARY_RESPONSE_AUTH_CONTINUE, "Auth continue");
    (PROTOCOL_BINARY_RESPONSE_ERANGE, "Outside range");
    (PROTOCOL_BINARY_RESPONSE_ROLLBACK, "Rollback");
    (PROTOCOL_BINARY_RESPONSE_EACCESS, "No access");
    (PROTOCOL_BINARY_RESPONSE_NOT_INITIALIZED, "Node not initialized");
    (PROTOCOL_BINARY_RESPONSE_UNKNOWN_COMMAND, "Unknown command");
    (PROTOCOL_BINARY_RESPONSE_ENOMEM, "Out of memory");
    (PROTOCOL_BINARY_RESPONSE_NOT_SUPPORTED, "Not supported");
    (PROTOCOL_BINARY_RESPONSE_EINTERNAL, "Internal error");
    (PROTOCOL_BINARY_RESPONSE_EBUSY, "Server too busy");
    (PROTOCOL_BINARY_RESPONSE_ETMPFAIL, "Temporary failure");
    (PROTOCOL_BINARY_RESPONSE_SUBDOC_PATH_ENOENT, "Subdoc: Path not does not exist");
    (PROTOCOL_BINARY_RESPONSE_SUBDOC_PATH_MISMATCH, "Subdoc: Path mismatch");
    (PROTOCOL_BINARY_RESPONSE_SUBDOC_PATH_EINVAL, "Subdoc: Invalid path");
    (PROTOCOL_BINARY_RESPONSE_SUBDOC_PATH_E2BIG, "Subdoc: Path too large");
    (PROTOCOL_BINARY_RESPONSE_SUBDOC_DOC_E2DEEP, "Subdoc: Document too deep");
    (PROTOCOL_BINARY_RESPONSE_SUBDOC_VALUE_CANTINSERT, "Subdoc: Cannot insert specified value");
    (PROTOCOL_BINARY_RESPONSE_SUBDOC_DOC_NOTJSON, "Subdoc: Existing document not JSON");
    (PROTOCOL_BINARY_RESPONSE_SUBDOC_NUM_ERANGE, "Subdoc: Existing number outside valid arithmetic range");
    (PROTOCOL_BINARY_RESPONSE_SUBDOC_DELTA_EINVAL, "Subdoc: Delta is 0, not a number, or outside the valid range");
    (PROTOCOL_BINARY_RESPONSE_SUBDOC_PATH_EEXISTS, "Subdoc: Document path already exists");
    (PROTOCOL_BINARY_RESPONSE_SUBDOC_VALUE_ETOODEEP, "Subdoc: Inserting value would make document too deep");
    (PROTOCOL_BINARY_RESPONSE_SUBDOC_INVALID_COMBO, "Subdoc: Invalid combination for multi-path command");
    (PROTOCOL_BINARY_RESPONSE_SUBDOC_MULTI_PATH_FAILURE, "Subdoc: One or more paths in a multi-path command failed") ].
Close Scope string_scope.

(** [std::map::find] on an opcode byte. *)
Definition memcached_opcode_2_text (op : Z) : option string :=
  snd <$> List.find (fun p => cmd_value p.1 =? op) commandmap.

Definition memcached_status_2_text (s : protocol_binary_response_status) : string :=
  match List.find (fun p => status_value p.1 =? status_value s) statusmap with
  | Some p => p.2
  | None => "Unknown error code"%string
  end.

(** [isspace], [isdigit] and [tolower] of the C locale. *)
Definition isspace (c : Ascii.ascii) : bool :=
  let n := Z.of_nat (Ascii.nat_of_ascii c) in
  (n == 32) || ((9 <=? n) && (n <=? 13)).
Definition isdigit (c : Ascii.ascii) : bool :=
  let n := Z.of_nat (Ascii.nat_of_ascii c) in (48 <=? n) && (n <=? 57).
Definition tolower (c : Ascii.ascii) : Ascii.ascii :=
  let n := Ascii.nat_of_ascii c in
  if ((65 <=? n) && (n <=? 90))%nat then Ascii.ascii_of_nat (n + 32) else c.

Fixpoint skip_space (s : string) : string :=
  match s with
  | String c s' => if isspace c then skip_space s' else s
  | EmptyString => s
  end.

(** The digits at the head of a string, with the number of digits read. *)
Fixpoint read_digits (s : string) (acc : Z) (n : nat) : Z * nat :=
  match s with
  | String c s' =>
      if isdigit c
      then read_digits s' (10 * acc + (Z.of_nat (Ascii.nat_of_ascii c) - 48)) (S n)
      else (acc, n)
  | EmptyString => (acc, n)
  end.

(** [std::stoi]: [None] stands for the [invalid_argument] exception (no
    digits) and for [out_of_range] (the value does not fit an [int]). *)
Definition stoi (s : string) : option Z :=
  let s := skip_space s in
  let '(neg, s) :=
    match s with
    | String "-"%char s' => (true, s')
    | String "+"%char s' => (false, s')
    | _ => (false, s)
    end in
  let '(v, n) := read_digits s 0 0 in
  let v := if neg then - v else v in
  if (n =? 0)%nat || (v <? - 2 ^ 31) || (2 ^ 31 - 1 <? v) then None else Some v.

Fixpoint strcasecmp_eq (a b : string) : bool :=
  match a, b with
  | EmptyString, EmptyString => true
  | String c a, String d b => Ascii.eqb (tolower c) (tolower d) && strcasecmp_eq a b
  | _, _ => false
  end.

(** The iteration order of [std::map] is the order of its keys. *)
Definition cmd_le (p q : protocol_binary_command * string) : Prop :=
  cmd_value p.1 <= cmd_value q.1.

#[global] Instance cmd_le_dec p q : Decision (cmd_le p q).
Proof. unfold cmd_le. apply _. Defined.

Definition commandmap_in_order : list (protocol_binary_command * string) :=
  merge_sort cmd_le commandmap.

Definition memcached_text_2_opcode (cmd : string) : Z :=
  match stoi cmd with
  | Some v => u8 v
  | None =>
      match List.find (fun p => strcasecmp_eq p.2 cmd) commandmap_in_order with
      | Some p => cmd_value p.1
      | None => 0xff
      end
  end.

(** ** Lemmas on headers *)

Lemma load_fields_is_Some m :
  is_Some (load_fields m) <-> HEADER_SIZE <= Z.of_nat (length m).
Proof.
  unfold load_fields, HEADER_SIZE. split.
  - intros [x Hx]. repeat (apply bind_Some in Hx as (? & ?H & Hx)).
    assert (is_Some (load_int 8 16 m)) as [_ ?]%load_int_is_Some by eauto. lia.
  - intros Hm.
    assert (forall n off, 0 <= off -> off + Z.of_nat n <= 24 ->
              exists x, load_int n off m = Some x) as L.
    { intros n off ? ?. apply load_int_is_Some. lia. }
    repeat match goal with
      |- context [load_int ?n ?off m] =>
        destruct (L n off) as [? ->]; [lia|lia|]; cbn
    end. eauto.
Qed.

Lemma load_request_header_is_Some m :
  is_Some (load_request_header m) <-> HEADER_SIZE <= Z.of_nat (length m).
Proof.
  rewrite <- load_fields_is_Some. unfold load_request_header.
  destruct (load_fields m) as [t|]; [|split; intros [? [=]]].
  do 8 destruct t as [t ?]. cbn. split; eauto.
Qed.

Lemma load_request_header_ok m h : load_request_header m = Some h -> header_ok h.
Proof.
  unfold load_request_header, load_fields. intros H.
  apply bind_Some in H as (t & Ht & H).
  repeat (apply bind_Some in Ht as (? & ?%load_int_range & Ht)).
  injection Ht as <-. injection H as <-. by constructor; cbn.
Qed.

Lemma header_size h : length (store_request_header h) = 24%nat.
Proof. unfold store_request_header. by rewrite !length_app, !le_store_length. Qed.

Lemma load_app_l n x m : load n 0 (le_store n x ++ m) = Some (le_store n x).
Proof.
  unfold load. rewrite length_app, le_store_length.
  destruct (_ && _) eqn:E; [|lia].
  change (Z.to_nat 0) with 0%nat. rewrite drop_0.
  by rewrite take_app_length' by (by rewrite le_store_length).
Qed.

Lemma load_int_store n x m :
  0 <= x < 256 ^ Z.of_nat n -> load_int n 0 (le_store n x ++ m) = Some x.
Proof.
  intros Hx. unfold load_int. rewrite load_app_l. cbn.
  by rewrite le_load_store, Z.mod_small.
Qed.

Lemma load_int_skip n off k x m :
  Z.of_nat k <= off ->
  load_int n off (le_store k x ++ m) = load_int n (off - Z.of_nat k) m.
Proof.
  intros Hk. unfold load_int, load. f_equal.
  rewrite length_app, le_store_length.
  replace (0 <=? off) with true by lia.
  replace (0 <=? off - Z.of_nat k) with true by lia.
  replace (off + Z.of_nat n <=? Z.of_nat (k + length m))
    with (off - Z.of_nat k + Z.of_nat n <=? Z.of_nat (length m)) by lia.
  destruct (_ && _); [|done]. do 2 f_equal.
  rewrite drop_app_ge by (rewrite le_store_length; lia).
  rewrite le_store_length. f_equal. lia.
Qed.

(** Read the field at the head, skipping the fields stored before it. *)
Ltac load_store_solve :=
  repeat (rewrite load_int_skip by (cbn; lia));
  match goal with
    |- context [load_int ?n ?off (le_store _ ?x ++ _)] =>
      let o := eval cbn in off in change off with o
  end;
  rewrite load_int_store by (cbn; lia).

Lemma load_store_header h rest :
  header_ok h -> load_request_header (store_request_header h ++ rest) = Some h.
Proof.
  intros []. unfold load_request_header, load_fields, store_request_header.
  rewrite <- !app_assoc.
  do 9 (load_store_solve; cbn [mbind option_bind]).
  by destruct h.
Qed.

(** The bytes of consecutive fields are consecutive slices of the memory. *)
Lemma load_int_cut n off m x :
  load_int n off m = Some x ->
  drop (Z.to_nat off) m = le_store n x ++ drop (Z.to_nat (off + Z.of_nat n)) m.
Proof.
  unfold load_int, load. destruct (_ && _) eqn:E; [|done]. intros [= <-].
  rewrite <- (take_drop n (drop (Z.to_nat off) m)) at 1. f_equal.
  - rewrite <- (le_store_load (take n _)) at 1. f_equal.
    rewrite length_take, length_drop. lia.
  - rewrite drop_drop. f_equal. lia.
Qed.

Lemma store_load_header m h :
  load_request_header m = Some h -> m = store_request_header h ++ drop 24 m.
Proof.
  unfold load_request_header, load_fields. intros H.
  apply bind_Some in H as (t & Ht & H).
  repeat (apply bind_Some in Ht as (? & ?%load_int_cut & Ht)).
  injection Ht as <-. injection H as <-.
  unfold store_request_header; cbn [magic opcode keylen extlen datatype vbucket bodylen opaque cas].
  rewrite <- !app_assoc.
  repeat match goal with
  | H : drop (Z.to_nat ?a) m = ?l ++ drop (Z.to_nat ?b) m |- _ =>
      let a' := eval vm_compute in (Z.to_nat a) in
      let b' := eval vm_compute in (Z.to_nat b) in
      change (drop a' m = l ++ drop b' m) in H
  end.
  rewrite <- (drop_0 m) at 1. congruence.
Qed.

(** A buffer decodes to a request header exactly when the header's fields
    fit their types and the buffer starts with the header's encoding:
    decoding inverts encoding in both directions and never depends on the
    bytes that follow. *)
Theorem request_header_codec m h :
  load_request_header m = Some h <->
  header_ok h /\ exists rest, m = store_request_header h ++ rest.
Proof.
  split.
  - intros H. split; [by eapply load_request_header_ok|].
    eexists. by apply store_load_header.
  - intros [Hok [rest ->]]. by apply load_store_header.
Qed.

(** The engine error conversion reports success only for
    [ENGINE_SUCCESS], and two different engine errors get the same status only
    when both have no status of their own and are reported as an internal
    error. *)
Theorem engine_error_conversion e1 e2 :
  engine_error_2_mcbp_protocol_error e1 = engine_error_2_mcbp_protocol_error e2 ->
  e1 = e2 \/
  (engine_error_2_mcbp_protocol_error e1 = PROTOCOL_BINARY_RESPONSE_EINTERNAL /\
   e1 <> ENGINE_SUCCESS /\ e2 <> ENGINE_SUCCESS /\
   Forall (.∈ [ENGINE_EWOULDBLOCK; ENGINE_WANT_MORE; ENGINE_DISCONNECT; ENGINE_FAILED]) [e1; e2]).
Proof.
  destruct e1, e2; cbn; intros H; try discriminate H; first [by left | right];
    (split_and!; [done..|]); apply (bool_decide_unpack _); vm_compute; exact I.
Qed.

Lemma engine_error_conversion_witness :
  ENGINE_WANT_MORE = ENGINE_FAILED \/
  engine_error_2_mcbp_protocol_error ENGINE_WANT_MORE = PROTOCOL_BINARY_RESPONSE_EINTERNAL.
Proof.
  destruct (engine_error_conversion ENGINE_WANT_MORE ENGINE_FAILED eq_refl)
    as [E|[E _]]; [by left|by right].
Defined.

(** Converting an opcode to text and back is the identity for every opcode
    that has a text, and the opcodes without a text are the undefined ones and
    [PROTOCOL_BINARY_CMD_INVALID], to which unknown text is converted. *)
Theorem opcode_text_roundtrip op :
  0 <= op < 256 ->
  match memcached_opcode_2_text op with
  | Some text => memcached_text_2_opcode text = op
  | None => cmd_of_value op = None \/ op = PROTOCOL_BINARY_CMD_INVALID
  end.
Proof.
  intros Hop.
  assert (check_upto 256 (fun op =>
    match memcached_opcode_2_text op with
    | Some text => memcached_text_2_opcode text =? op
    | None => match cmd_of_value op with None => true | Some _ => op =? 0xff end
    end) = true) as C by (vm_compute; reflexivity).
  pose proof (check_upto_sound _ _ C op Hop) as H. cbn beta in H.
  destruct (memcached_opcode_2_text op); [lia|].
  destruct (cmd_of_value op); [right; cbn; lia|by left].
Qed.

Lemma opcode_text_roundtrip_witness :
  memcached_opcode_2_text 0x57 = Some "DCP_MUTATION"%string /\
  memcached_text_2_opcode "DCP_MUTATION" = 0x57.
Proof.
  split; [reflexivity|].
  assert (0 <= 0x57 < 256) as H by lia.
  exact (opcode_text_roundtrip 0x57 H).
Defined.
