(* ===== verification/FunctionChain.v ===== *)
(** * Function chains

    [daemon/function_chain.h]: a chain stores functions, ignores a function it
    already holds, and invokes them in order until one does not return the
    success value.  [daemon/mcbp_validators.h] and [daemon/mcbp_privileges.h]
    keep an array of 256 chains, indexed by opcode.

    A C++ [Function] is compared by the address of the function it stores.
    Here a function is a value of a type [F] with decidable equality (its
    address), called through [FunctionCall]. *)

From S2P Require Import Prelude.

(** What a chain needs of the functions it stores: a call operator, the value
    that means success, and a decision procedure for it. *)
Class FunctionCall (F A R : Type) := {
  call : F -> A -> R;
  Success : R;
}.

Section Chain.
Context {F A R : Type} `{EqDecision F} `{EqDecision R} `{!FunctionCall F A R}.

(** [FunctionChain::push_unique] *)
Definition push_unique (f : F) (chain : list F) : list F :=
  if decide (f ∈ chain) then chain else chain ++ [f].

(** [FunctionChain::invoke] *)
Fixpoint invoke (chain : list F) (args : A) : R :=
  match chain with
  | [] => Success
  | f :: chain =>
      let rval := call f args in
      if decide (rval = Success) then invoke chain args else rval
  end.

(** [FunctionChain::empty] *)
Definition chain_empty (chain : list F) : bool :=
  match chain with [] => true | _ => false end.

Lemma push_unique_NoDup f chain : NoDup chain -> NoDup (push_unique f chain).
Proof.
  intros H. unfold push_unique. case_decide as E; [done|].
  apply NoDup_app.
  split_and!; [done|set_solver|apply NoDup_singleton].
Qed.

Lemma elem_of_push_unique f g chain :
  g ∈ push_unique f chain <-> g = f \/ g ∈ chain.
Proof. unfold push_unique. case_decide; set_solver. Qed.

Lemma invoke_app c1 c2 args :
  invoke (c1 ++ c2) args =
  if decide (invoke c1 args = Success) then invoke c2 args else invoke c1 args.
Proof.
  induction c1 as [|f c1 IH]; cbn; [by rewrite decide_True|].
  destruct (decide (call f args = Success)) as [E|E]; [apply IH|].
  by rewrite decide_False.
Qed.

Lemma invoke_Success chain args :
  invoke chain args = Success <-> forall f, f ∈ chain -> call f args = Success.
Proof.
  induction chain as [|f chain IH]; cbn; [set_solver|].
  destruct (decide (call f args = Success)) as [E|E].
  - rewrite IH. set_solver.
  - split; [done|]. intros H. apply H. set_solver.
Qed.

(** The first failing function decides the result. *)
Lemma invoke_first_failure pre f post args :
  (forall g, g ∈ pre -> call g args = Success) -> call f args <> Success ->
  invoke (pre ++ f :: post) args = call f args.
Proof.
  intros Hpre Hf. rewrite invoke_app, decide_True by by apply invoke_Success.
  cbn. by rewrite decide_False.
Qed.

(** ** The array of chains *)

(** [commandChains], [std::array<FunctionChain, 0x100>] *)
Definition no_chains : list (list F) := replicate 0x100 [].

Definition push_command (command : Z) (f : F) (chains : list (list F)) : list (list F) :=
  alter (push_unique f) (Z.to_nat command) chains.

Definition chain_of (command : Z) (chains : list (list F)) : list F :=
  default [] (chains !! Z.to_nat command).

Definition push_all (pushes : list (Z * F)) (chains : list (list F)) : list (list F) :=
  fold_left (fun cs p => push_command p.1 p.2 cs) pushes chains.

Lemma push_command_length c f chains : length (push_command c f chains) = length chains.
Proof. apply length_alter. Qed.

Lemma chain_of_push_command c d f chains :
  0 <= c -> 0 <= d -> (Z.to_nat c < length chains)%nat ->
  chain_of c (push_command d f chains) =
  if decide (c = d) then push_unique f (chain_of c chains) else chain_of c chains.
Proof.
  intros Hc Hd Hl. unfold chain_of, push_command. case_decide as E.
  - subst d. destruct (lookup_lt_is_Some_2 chains (Z.to_nat c) Hl) as [ch Hch].
    by rewrite list_lookup_alter_eq, Hch.
  - rewrite list_lookup_alter_ne by lia. done.
Qed.

(** After any sequence of registrations the chain of a command holds
    exactly the functions registered for that command, each once, in the
    order of their first registration; other commands are untouched. *)
Theorem push_all_spec pushes chains c :
  0 <= c < Z.of_nat (length chains) -> Forall (fun p => 0 <= p.1) pushes ->
  chain_of c (push_all pushes chains) =
  fold_left (fun ch f => push_unique f ch)
    (snd <$> filter (fun p => p.1 = c) pushes) (chain_of c chains).
Proof.
  intros Hc Hp. revert chains Hc.
  induction Hp as [|[d f] ps Hd Hp IH]; intros chains Hc; [done|].
  change (push_all ((d, f) :: ps) chains) with (push_all ps (push_command d f chains)).
  cbn [fst] in Hd. rewrite IH by (rewrite push_command_length; lia).
  rewrite chain_of_push_command by lia. rewrite filter_cons.
  destruct (decide (c = d)) as [<-|Hne]; [by rewrite decide_True|].
  by rewrite decide_False by (cbn; congruence).
Qed.

Lemma chain_of_no_chains c : chain_of c no_chains = [].
Proof.
  unfold chain_of, no_chains.
  destruct (_ !! _) eqn:E; [|done]. by apply lookup_replicate_1 in E as [-> _].
Qed.
End Chain.

(** A chain of comparisons with a threshold: registering 3, 5 and again 3. *)
Definition threshold (f x : Z) : bool := f <=? x.

#[local] Instance threshold_call : FunctionCall Z Z bool := {
  call := threshold;
  Success := true;
}.

Lemma push_all_spec_witness :
  chain_of 7 (push_all [(7, 3); (9, 4); (7, 5); (7, 3)] (no_chains (F := Z))) = [3; 5].
Proof.
  rewrite (push_all_spec (F := Z));
    [reflexivity|vm_compute; split; congruence|repeat constructor; vm_compute; congruence].
Defined.
