(* ===== verification/Packet.v ===== *)
(** * Request packets

    A request as [process_bin_packet] sees it in the read buffer: the header
    ([McbpConnection::getPacket] points at it) and the [bodylen] bytes that
    follow.  Loads from the body are bounded: what lies behind the packet in
    the read buffer does not belong to it. *)

From S2P Require Import Prelude Protocol.

Record packet := mk_packet {
  header : protocol_binary_request_header;
  body : bytes;
}.

(** The lengths of a packet in host order. *)
Definition nkey (p : packet) : Z := ntohs (keylen (header p)).
Definition nbody (p : packet) : Z := ntohl (bodylen (header p)).
Definition nvalue (p : packet) : Z := nbody p - nkey p - extlen (header p).

(** The packet at the head of a buffer, once the buffer holds all of it. *)
Definition packet_of_bytes (m : bytes) : option packet :=
  h ← load_request_header m;
  let n := Z.to_nat (ntohl (bodylen h)) in
  b ← load n HEADER_SIZE m;
  Some (mk_packet h b).

Definition bytes_of_packet (p : packet) : bytes :=
  store_request_header (header p) ++ body p.

(** [validate_bin_header]: extras and key fit in the body.  The connection's
    [binary_header] is in host order; the packet's is not. *)
Definition validate_bin_header (p : packet) : protocol_binary_response_status :=
  if nkey p + extlen (header p) <=? nbody p
  then PROTOCOL_BINARY_RESPONSE_SUCCESS
  else PROTOCOL_BINARY_RESPONSE_EINVAL.

(** A packet that was read completely. *)
Record packet_complete (p : packet) : Prop := {
  pc_header : header_ok (header p);
  pc_body : Z.of_nat (length (body p)) = nbody p;
}.

(** A complete packet whose header passed [validate_bin_header]: what every
    validator may rely on. *)
Record packet_ok (p : packet) : Prop := {
  pk_complete : packet_complete p;
  pk_lengths : validate_bin_header p = PROTOCOL_BINARY_RESPONSE_SUCCESS;
}.

Lemma nkey_range p : header_ok (header p) -> 0 <= nkey p < 65536.
Proof. intros _. apply (bswap_range 2). Qed.

Lemma nbody_range p : 0 <= nbody p < 4294967296.
Proof. apply (bswap_range 4). Qed.

Lemma nvalue_nonneg p : packet_ok p -> 0 <= nvalue p.
Proof.
  intros [_ H]. unfold validate_bin_header, nvalue in *.
  destruct (_ <=? _) eqn:E; [lia|done].
Qed.

(** Raw comparisons of the length fields mean what they mean in host order. *)
Lemma keylen_eq_0 p : header_ok (header p) -> (keylen (header p) =? 0) = (nkey p =? 0).
Proof.
  intros H. pose proof (bswap_eq_0 2 (keylen (header p)) (keylen_ok _ H)).
  unfold nkey. lia.
Qed.

Lemma bodylen_eq_0 p : header_ok (header p) -> (bodylen (header p) =? 0) = (nbody p =? 0).
Proof.
  intros H. pose proof (bswap_eq_0 4 (bodylen (header p)) (bodylen_ok _ H)).
  unfold nbody. lia.
Qed.

Lemma bodylen_eq_htonl p k :
  header_ok (header p) -> 0 <= k < 4294967296 ->
  (bodylen (header p) =? htonl k) = (nbody p =? k).
Proof.
  intros H Hk.
  pose proof (bswap_swap 4 (bodylen (header p)) k (bodylen_ok _ H) Hk).
  unfold nbody. lia.
Qed.

Lemma packet_of_bytes_complete m p :
  packet_of_bytes m = Some p ->
  packet_complete p /\ exists rest, m = bytes_of_packet p ++ rest.
Proof.
  unfold packet_of_bytes. intros H.
  apply bind_Some in H as (h & Hh & H). apply bind_Some in H as (b & Hb & [= <-]).
  pose proof (load_length _ _ _ _ Hb) as Hl.
  pose proof (bswap_range 4 (bodylen h)). split.
  - split; cbn; [by eapply load_request_header_ok|]. unfold nbody; cbn. lia.
  - exists (drop (24 + length b) m). unfold bytes_of_packet; cbn [header body].
    rewrite (store_load_header m h Hh) at 1. rewrite <- app_assoc. f_equal.
    rewrite <- drop_drop. unfold load in Hb. destruct (_ && _); [|done].
    injection Hb as Hb. change (Z.to_nat HEADER_SIZE) with 24%nat in Hb.
    rewrite Hl, <- Hb. by rewrite take_drop.
Qed.

Lemma packet_of_bytes_encode p rest :
  packet_complete p -> packet_of_bytes (bytes_of_packet p ++ rest) = Some p.
Proof.
  intros [Hh Hb]. unfold packet_of_bytes, bytes_of_packet.
  rewrite <- app_assoc, load_store_header by done. cbn [mbind option_bind].
  pose proof (nbody_range p). unfold nbody in *. destruct p as [h b]; cbn [header body] in *.
  unfold load. rewrite !length_app, header_size. unfold HEADER_SIZE.
  destruct (_ && _) eqn:E; [|lia].
  rewrite drop_app_ge by (rewrite header_size; lia).
  rewrite header_size. replace (Z.to_nat 24 - 24)%nat with 0%nat by lia.
  rewrite drop_0, take_app_length' by lia. done.
Qed.

(** Decoding the packet at the head of a buffer and encoding it are
    inverse to each other: a buffer decodes to [p] exactly when [p] is complete
    and the buffer starts with its encoding, whatever follows. *)
Theorem packet_roundtrip p m :
  packet_of_bytes m = Some p <->
  packet_complete p /\ exists rest, m = bytes_of_packet p ++ rest.
Proof.
  split; [apply packet_of_bytes_complete|].
  intros [Hp [rest ->]]. by apply packet_of_bytes_encode.
Qed.

Definition get_foo : packet :=
  mk_packet (mk_request_header PROTOCOL_BINARY_REQ PROTOCOL_BINARY_CMD_GET
               (htons 3) 0 0 0 (htonl 3) 0 0) [Byte.x66; Byte.x6f; Byte.x6f].

Lemma get_foo_complete : packet_complete get_foo.
Proof. split; [by constructor|reflexivity]. Qed.
