(* ===== verification/Input.v ===== *)
(** * Reading requests

    The input side of a connection: the read buffer ([daemon/net_buf.h]),
    [McbpConnection::tryReadNetwork] and [shrinkBuffers]
    ([daemon/connection_mcbp.cc]), [bin_read_chunk] and the header of
    [try_read_mcbp_command] ([daemon/mcbp_executors.cc]) and [conn_nread]
    ([daemon/statemachine_mcbp.cc]).

    The socket is a stream of bytes to come and a script of what the next
    calls of [recv] do with it; pointers into the read buffer are offsets from
    [read.buf].  [can_alloc n] says whether [cb_realloc] to [n] bytes
    succeeds. *)

From S2P Require Import Prelude Memory Protocol Packet.

Definition DATA_BUFFER_SIZE : Z := 2048.
Definition READ_BUFFER_HIGHWAT : Z := 8192.

(** ** The socket *)

Inductive recv_event :=
| Deliver (n : Z)
| EndOfStream
| WouldBlock
| RecvError.

Record socket := mk_socket {
  incoming : bytes;
  script : list recv_event;
}.

Inductive recv_result :=
| Received (bs : bytes)
| Recv0
| RecvBlocked
| RecvFailed.

(** [recv(dest, n)]: between 1 and [n] bytes, end of stream, or an error. *)
Definition recv (n : Z) (s : socket) : recv_result * socket :=
  match script s with
  | [] => (RecvBlocked, s)
  | EndOfStream :: rest => (Recv0, mk_socket (incoming s) rest)
  | WouldBlock :: rest => (RecvBlocked, mk_socket (incoming s) rest)
  | RecvError :: rest => (RecvFailed, mk_socket (incoming s) rest)
  | Deliver k :: rest =>
      let k := Z.to_nat (Z.min k n) in
      match take k (incoming s) with
      | [] => (RecvBlocked, mk_socket (incoming s) rest)
      | bs => (Received bs, mk_socket (drop k (incoming s)) rest)
      end
  end.

(** ** The read buffer *)

(** [struct net_buf]: [mem] is the memory that was allocated for [buf], [curr]
    an offset. *)
Record net_buf := mk_net_buf {
  mem : bytes;
  curr : Z;
  nbytes : Z;
}.

(** [net_buf.size] is a [uint32_t]: what is left of the allocation's size. *)
Definition bufsize (b : net_buf) : Z := u32 (size (mem b)).

(** The data not yet consumed. *)
Definition unread (b : net_buf) : bytes := slice (curr b) (nbytes b) (mem b).

Record buf_ok (b : net_buf) : Prop := {
  bo_curr : 0 <= curr b;
  bo_bytes : 0 <= nbytes b;
  bo_room : curr b + nbytes b <= size (mem b);
  bo_size : size (mem b) < 4294967296;
}.

Lemma bufsize_ok b : size (mem b) < 4294967296 -> bufsize b = size (mem b).
Proof. intros. unfold bufsize. pose proof (size_nonneg (mem b)). by rewrite u32_small by lia. Qed.

(** [McbpConnection::TryReadResult] *)
Inductive TryReadResult :=
| DataReceived
| NoDataReceived
| SocketError
| MemoryError.

#[export] Instance TryReadResult_eq_dec : EqDecision TryReadResult.
Proof. solve_decision. Defined.

Section Input.
Context (junk : byte) (can_alloc : Z -> bool).

(** [McbpConnection::shrinkBuffers], the part for the read buffer. *)
Definition shrink_read (b : net_buf) : net_buf :=
  if (READ_BUFFER_HIGHWAT <? bufsize b) && (nbytes b <? DATA_BUFFER_SIZE) then
    let m := if curr b != 0 then memmove 0 (curr b) (nbytes b) (mem b) else mem b in
    if can_alloc DATA_BUFFER_SIZE
    then mk_net_buf (realloc junk DATA_BUFFER_SIZE m) 0 (nbytes b)
    else mk_net_buf m 0 (nbytes b)
  else b.

(** ** [McbpConnection::tryReadNetwork] *)

(** One pass of the [while (1)] loop.  [inl] leaves the function; [inr] goes
    round again, with the new [num_allocs]. *)
Definition read_pass (pipe : bool) (num_allocs : Z) (gotdata : TryReadResult)
    (b : net_buf) (s : socket)
    : (TryReadResult * net_buf * socket) + (Z * net_buf * socket) :=
  let full := bufsize b <=? nbytes b in
  if full && (num_allocs == 4) then inl (gotdata, b, s) else
  let nsize := u32 (bufsize b * 2) in
  if full && negb (can_alloc nsize)
  then inl (MemoryError, mk_net_buf (mem b) (curr b) 0, s) else
  let num_allocs := if full then num_allocs + 1 else num_allocs in
  let b := if full then mk_net_buf (realloc junk nsize (mem b)) 0 (nbytes b) else b in
  let avail := i32 (bufsize b - nbytes b) in
  match recv avail s with
  | (Received bs, s) =>
      let b := mk_net_buf (blit (nbytes b) bs (mem b)) (curr b) (nbytes b + size bs) in
      if size bs == avail then inr (num_allocs, b, s) else inl (DataReceived, b, s)
  | (Recv0, s) => inl (if pipe then NoDataReceived else SocketError, b, s)
  | (RecvBlocked, s) => inl (gotdata, b, s)
  | (RecvFailed, s) => inl (SocketError, b, s)
  end.

(** The loop; [None] when [fuel] passes are not enough. *)
Fixpoint read_loop (fuel : nat) (pipe : bool) (num_allocs : Z) (gotdata : TryReadResult)
    (b : net_buf) (s : socket) : option (TryReadResult * net_buf * socket) :=
  match fuel with
  | O => None
  | S fuel =>
      match read_pass pipe num_allocs gotdata b s with
      | inl r => Some r
      | inr (num_allocs, b, s) => read_loop fuel pipe num_allocs DataReceived b s
      end
  end.

(** Six passes are enough: one into the room there is, four after growing, and
    the one that finds the buffer full again. *)
Definition tryReadNetwork (pipe : bool) (b : net_buf) (s : socket)
    : option (TryReadResult * net_buf * socket) :=
  let b :=
    if curr b != 0
    then mk_net_buf (if nbytes b != 0 then memmove 0 (curr b) (nbytes b) (mem b) else mem b)
           0 (nbytes b)
    else b in
  read_loop 6 pipe 0 NoDataReceived b s.

(** ** Reading one packet *)

(** The connection's [read], [ritem], [rlbytes] and [binary_header]. *)
Record input := mk_input {
  read : net_buf;
  ritem : Z;
  rlbytes : Z;
  binary_header : protocol_binary_request_header;
}.

(** [while (size > nsize) nsize *= 2;] from a [uint32_t] size: 33 doublings
    exceed every request. *)
Fixpoint grow (fuel : nat) (size nsize : Z) : Z :=
  match fuel with
  | O => nsize
  | S fuel => if nsize <? size then grow fuel size (nsize * 2) else nsize
  end.

(** [bin_read_chunk]; [None] when the buffer cannot grow, and the connection
    is closed.  [c->read.size = (int)nsize] keeps the lower 32 bits of [nsize],
    which is what [bufsize] reads. *)
Definition bin_read_chunk (chunk : Z) (i : input) : option input :=
  let b := read i in
  let offset := curr b + HEADER_SIZE in
  let b' :=
    if bufsize b - offset <? chunk then
      let nsize := grow 33 (chunk + HEADER_SIZE) (bufsize b) in
      b ← (if nsize != bufsize b then
             if can_alloc nsize
             then Some (mk_net_buf (realloc junk nsize (mem b)) (offset - HEADER_SIZE) (nbytes b))
             else None
           else Some b);
      if curr b != 0
      then Some (mk_net_buf (memmove 0 (curr b) (nbytes b) (mem b)) 0 (nbytes b))
      else Some b
    else Some b in
  b ← b';
  Some (mk_input b (curr b + HEADER_SIZE) chunk (binary_header i)).

(** The header as [try_read_mcbp_command] keeps it: key length, body length,
    vbucket and cas in host order. *)
Definition host_header (h : protocol_binary_request_header) : protocol_binary_request_header :=
  mk_request_header (magic h) (opcode h) (ntohs (keylen h)) (extlen h) (datatype h)
    (ntohs (vbucket h)) (ntohl (bodylen h)) (opaque h) (ntohll (cas h)).

(** Fetch the header; [None] when it is not complete. *)
Definition fetch_header (i : input) : option input :=
  if nbytes (read i) <? HEADER_SIZE then None else
  h ← load_request_header (drop (Z.to_nat (curr (read i))) (mem (read i)));
  Some (mk_input (read i) (ritem i) (rlbytes i) (host_header h)).

(** The end of [try_read_mcbp_command]: step over the header. *)
Definition skip_header (i : input) : input :=
  let b := read i in
  mk_input (mk_net_buf (mem b) (curr b + HEADER_SIZE) (nbytes b - HEADER_SIZE))
    (ritem i) (rlbytes i) (binary_header i).

(** ** [conn_nread] *)

Inductive nread_result :=
| NreadComplete
| NreadAgain
| NreadBlocked
| NreadClosing.

(** The first half: data left in the read buffer. *)
Definition nread_leftovers (i : input) : input :=
  let b := read i in
  if 0 <? nbytes b then
    let tocopy := if rlbytes i <? nbytes b then rlbytes i else nbytes b in
    let m := if ritem i != curr b then memmove (ritem i) (curr b) tocopy (mem b) else mem b in
    mk_input (mk_net_buf m (curr b + tocopy) (nbytes b - tocopy))
      (ritem i + tocopy) (rlbytes i - tocopy) (binary_header i)
  else i.

Definition conn_nread (i : input) (s : socket) : nread_result * input * socket :=
  if rlbytes i == 0 then (NreadComplete, i, s) else
  let had := 0 <? nbytes (read i) in
  let i := nread_leftovers i in
  if had && (rlbytes i == 0) then (NreadAgain, i, s) else
  match recv (rlbytes i) s with
  | (Received bs, s) =>
      let b := read i in
      let m := blit (ritem i) bs (mem b) in
      let c := if curr b == ritem i then curr b + size bs else curr b in
      (NreadAgain,
       mk_input (mk_net_buf m c (nbytes b)) (ritem i + size bs) (rlbytes i - size bs)
         (binary_header i), s)
  | (Recv0, s) => (NreadClosing, i, s)
  | (RecvBlocked, s) => (NreadBlocked, i, s)
  | (RecvFailed, s) => (NreadClosing, i, s)
  end.

(** [McbpConnection::getPacket]: where the packet starts. *)
Definition getPacket (i : input) : Z :=
  curr (read i) - (bodylen (binary_header i) + HEADER_SIZE).

(** The packet the executors and validators see. *)
Definition current_packet (i : input) : option packet :=
  packet_of_bytes (slice (getPacket i) (bodylen (binary_header i) + HEADER_SIZE) (mem (read i))).

End Input.

(** ** Correctness of the read path *)

Lemma recv_spec n s :
  0 < n ->
  match recv n s with
  | (Received bs, s') => bs <> [] /\ size bs <= n /\ incoming s = bs ++ incoming s'
  | (_, s') => incoming s' = incoming s
  end.
Proof.
  intros Hn. unfold recv. destruct (script s) as [|[k| | |] rest]; try done.
  destruct (take _ (incoming s)) as [|b bs] eqn:E; [done|]. cbn [incoming].
  split_and!; [done| |rewrite <- E; symmetry; apply take_drop].
  rewrite <- E. unfold size. rewrite length_take. lia.
Qed.

Lemma unread_memmove b :
  0 <= curr b -> 0 <= nbytes b -> curr b + nbytes b <= size (mem b) ->
  slice 0 (nbytes b) (memmove 0 (curr b) (nbytes b) (mem b)) = unread b /\
  size (memmove 0 (curr b) (nbytes b) (mem b)) = size (mem b).
Proof.
  intros Hc Hb Hr. unfold memmove.
  pose proof (slice_size (curr b) (nbytes b) (mem b) Hc Hb Hr) as E.
  split; [|apply blit_size; lia].
  rewrite <- E at 1. unfold unread. apply slice_blit_same; lia.
Qed.

(** Appending received bytes to the data at the front of the buffer. *)
Lemma unread_append m n bs :
  0 <= n -> n + size bs <= size m ->
  slice 0 (n + size bs) (blit n bs m) = slice 0 n m ++ bs.
Proof.
  intros Hn Hr. pose proof (size_nonneg bs). rewrite slice_app by lia. f_equal.
  - apply slice_blit_before; lia.
  - apply slice_blit_same; lia.
Qed.

Section InputProofs.
Context (junk : byte) (can_alloc : Z -> bool).

Lemma shrink_read_spec b :
  buf_ok b ->
  buf_ok (shrink_read junk can_alloc b) /\ unread (shrink_read junk can_alloc b) = unread b.
Proof.
  intros Hb. unfold shrink_read, READ_BUFFER_HIGHWAT, DATA_BUFFER_SIZE.
  rewrite (bufsize_ok b (bo_size b Hb)).
  destruct (_ && _) eqn:E; [|done]. destruct Hb as [Hc Hn Hr H32] eqn:EHb.
  destruct (unread_memmove b) as [Hu Hs]; [done..|]. clear EHb.
  set (m := if curr b != 0 then _ else _).
  assert (slice 0 (nbytes b) m = unread b /\ size m = size (mem b)) as [Hm Hsm].
  { subst m. destruct (curr b == 0) eqn:Ec; cbn [negb]; [|done].
    assert (curr b = 0) as E0 by lia. unfold unread. by rewrite E0. }
  destruct (can_alloc 2048).
  - split; [split; cbn; rewrite ?realloc_size; lia|].
    unfold unread; cbn. rewrite slice_realloc by lia. done.
  - split; [split; cbn; lia|]. done.
Qed.

(** The state of the loop of [tryReadNetwork]: [stream] is what was unread or
    to come at the start. *)
Record reading (stream : bytes) (num_allocs size0 : Z) (b : net_buf) (s : socket) : Prop := {
  rd_allocs : 0 <= num_allocs <= 4;
  rd_curr : curr b = 0;
  rd_bytes : 0 <= nbytes b <= size (mem b);
  rd_size : size (mem b) = size0 * 2 ^ num_allocs;
  rd_stream : unread b ++ incoming s = stream;
}.

Lemma pow2_le_4 n : 0 <= n <= 4 -> 1 <= 2 ^ n <= 16.
Proof.
  intros Hn. split.
  - apply (Z.pow_le_mono_r 2 0 n); lia.
  - apply (Z.pow_le_mono_r 2 n 4); lia.
Qed.

(** The buffer of a pass: grown when it is full. *)
Lemma grow_pass stream num_allocs size0 b s :
  1 <= size0 -> size0 * 16 < 2147483648 -> reading stream num_allocs size0 b s ->
  (size (mem b) <=? nbytes b) && (num_allocs == 4) = false ->
  let n' := if size (mem b) <=? nbytes b then num_allocs + 1 else num_allocs in
  let b1 := if size (mem b) <=? nbytes b
            then mk_net_buf (realloc junk (size (mem b) * 2) (mem b)) 0 (nbytes b) else b in
  reading stream n' size0 b1 s /\ nbytes b1 = nbytes b /\ nbytes b1 < size (mem b1) /\
  size (mem b1) < 2147483648.
Proof.
  intros Hs0 Hs1 [Ha Hc Hb Hs Hst] E4. pose proof (pow2_le_4 num_allocs Ha) as Hp.
  assert (1 <= size (mem b) < 2147483648) as Hsz by nia.
  cbn zeta. destruct (size (mem b) <=? nbytes b) eqn:Ef.
  - cbn [mem nbytes]. rewrite realloc_size by lia.
    assert (size (mem b) * 2 = size0 * 2 ^ (num_allocs + 1)) as E2
      by (rewrite Hs, Z.pow_add_r by lia; lia).
    assert (2 ^ (num_allocs + 1) <= 16) by (apply pow2_le_4; lia).
    split_and!; [|done|lia|nia].
    split; cbn [curr mem nbytes]; [lia|done| |by rewrite realloc_size by lia|].
    + rewrite realloc_size by lia. lia.
    + unfold unread in *. cbn [curr mem nbytes]. rewrite Hc in Hst.
      rewrite slice_realloc by lia. done.
  - split_and!; [by split|done|lia|lia].
Qed.

(** What a result of the function means. *)
Definition read_result_ok (stream : bytes) (n0 : Z) (r : TryReadResult) (b : net_buf) (s : socket)
    : Prop :=
  buf_ok b /\ curr b = 0 /\
  (if decide (r = MemoryError) then nbytes b = 0 else unread b ++ incoming s = stream) /\
  (r = DataReceived -> n0 < nbytes b).

Lemma read_pass_ok pipe stream n0 num_allocs size0 got b s :
  1 <= size0 -> size0 * 16 < 2147483648 ->
  reading stream num_allocs size0 b s -> n0 <= nbytes b ->
  got = NoDataReceived \/ (got = DataReceived /\ n0 < nbytes b) ->
  match read_pass junk can_alloc pipe num_allocs got b s with
  | inl (r, b', s') => read_result_ok stream n0 r b' s'
  | inr (n', b', s') =>
      reading stream n' size0 b' s' /\ n0 < nbytes b' /\ nbytes b' = size (mem b') /\
      n' = (if size (mem b) <=? nbytes b then num_allocs + 1 else num_allocs)
  end.
Proof.
  intros Hs0 Hs1 HR0 Hn0 Hgot. pose proof HR0 as [Ha Hc Hb Hs Hst]. unfold read_pass.
  pose proof (pow2_le_4 num_allocs Ha) as Hp.
  assert (1 <= size (mem b) < 2147483648) as Hsz by nia. rewrite !(bufsize_ok b) by lia.
  destruct ((size (mem b) <=? nbytes b) && (num_allocs == 4)) eqn:E4.
  { split_and!; [split; lia|done| |].
    - destruct Hgot as [->|[-> _]]; done.
    - destruct Hgot as [->|[_ ?]]; done. }
  destruct ((size (mem b) <=? nbytes b) && negb (can_alloc _)) eqn:Ea.
  { split_and!; [split; cbn; lia|done|done|done]. }
  rewrite u32_small in * by lia.
  pose proof (grow_pass stream num_allocs size0 b s Hs0 Hs1 HR0 E4) as HG. cbn zeta in HG.
  set (n' := if size (mem b) <=? nbytes b then num_allocs + 1 else num_allocs) in *.
  set (b1 := if size (mem b) <=? nbytes b then _ else b) in *.
  destruct HG as ([Ha1 Hc1 Hb1 Hs1' Hst1] & Hnb & Hroom & Hsz1).
  rewrite (bufsize_ok b1), i32_small by lia.
  pose proof (recv_spec (size (mem b1) - nbytes b1) s ltac:(lia)) as HR.
  destruct (recv _ s) as [[bs| | |] s'].
  - destruct HR as (Hne & Hle & Hin).
    assert (1 <= size bs) by (destruct bs; [done|unfold size; cbn; lia]).
    assert (unread (mk_net_buf (blit (nbytes b1) bs (mem b1)) (curr b1) (nbytes b1 + size bs))
            ++ incoming s' = stream) as Hst2.
    { unfold unread in *. cbn [curr mem nbytes]. rewrite Hc1 in *.
      rewrite unread_append by lia. by rewrite <- app_assoc, <- Hin. }
    destruct (size bs == _) eqn:Eav.
    + split_and!; cbn [nbytes mem]; [split; cbn [nbytes mem curr]|lia| |done].
      * done. * done. * rewrite blit_size by lia. lia. * by rewrite blit_size by lia. * done.
      * rewrite blit_size by lia. lia.
    + split_and!; cbn [nbytes mem curr]; [split; cbn [nbytes mem curr]|done|done|lia].
      * lia. * lia. * rewrite blit_size by lia. lia. * rewrite blit_size by lia. lia.
  - split_and!; [split; lia|done|destruct pipe; cbn; by rewrite HR|by destruct pipe].
  - split_and!; [split; lia|done| |].
    + destruct Hgot as [->|[-> _]]; cbn; by rewrite HR.
    + destruct Hgot as [->|[_ ?]]; [done|lia].
  - split_and!; [split; lia|done|cbn; by rewrite HR|done].
Qed.

Lemma read_loop_ok fuel pipe stream n0 num_allocs size0 got b s :
  1 <= size0 -> size0 * 16 < 2147483648 ->
  reading stream num_allocs size0 b s -> n0 <= nbytes b ->
  got = NoDataReceived \/ (got = DataReceived /\ n0 < nbytes b) ->
  4 - num_allocs + (if size (mem b) <=? nbytes b then 1 else 2) <= Z.of_nat fuel ->
  exists r b' s', read_loop junk can_alloc fuel pipe num_allocs got b s = Some (r, b', s') /\
    read_result_ok stream n0 r b' s'.
Proof.
  intros Hs0 Hs1. revert num_allocs got b s.
  induction fuel as [|fuel IH]; intros num_allocs got b s HR Hn0 Hgot Hf.
  { pose proof (rd_allocs _ _ _ _ _ HR). destruct (_ <=? _); lia. }
  cbn [read_loop].
  pose proof (read_pass_ok pipe stream n0 num_allocs size0 got b s Hs0 Hs1 HR Hn0 Hgot) as HP.
  destruct (read_pass _ _ _ _ _ _ _) as [[[r b'] s']|[[n' b'] s']]; [eauto|].
  destruct HP as (HR' & Hlt & Hfull & ->).
  apply IH; [done|lia|by right|].
  rewrite Hfull. destruct (size (mem b') <=? _) eqn:E; [|lia].
  destruct (size (mem b) <=? nbytes b); lia.
Qed.

End InputProofs.

(** C33: [tryReadNetwork] returns (its loop needs at most six passes), never
    writes outside the buffer, and neither loses, repeats nor reorders a byte:
    unless an allocation failed, the unread data followed by what the socket
    still holds is what it was before, however [recv] cuts the stream up; and
    it reports new data only when there is some. *)
Theorem tryReadNetwork_stream junk can_alloc pipe b s :
  buf_ok b -> 1 <= size (mem b) -> size (mem b) * 16 < 2147483648 ->
  exists r b' s', tryReadNetwork junk can_alloc pipe b s = Some (r, b', s') /\
    buf_ok b' /\ curr b' = 0 /\
    (if decide (r = MemoryError) then nbytes b' = 0
     else unread b' ++ incoming s' = unread b ++ incoming s) /\
    (r = DataReceived -> nbytes b < nbytes b').
Proof.
  intros Hb Hs0 Hs1. unfold tryReadNetwork. pose proof Hb as [Hc Hn Hr _].
  destruct (unread_memmove b) as [Hu Hs]; [done..|].
  set (b1 := if curr b != 0 then _ else b).
  assert (curr b1 = 0 /\ nbytes b1 = nbytes b /\ size (mem b1) = size (mem b) /\
          unread b1 = unread b) as (Hc1 & Hn1 & Hsz1 & Hu1).
  { subst b1. destruct (curr b == 0) eqn:Ec; cbn [negb]; [split_and!; (done || lia)|].
    cbn [curr nbytes mem]. destruct (nbytes b == 0) eqn:En; cbn [negb].
    - split_and!; try done. unfold unread. cbn [curr nbytes mem].
      by replace (nbytes b) with 0 by lia.
    - split_and!; done. }
  destruct (read_loop_ok junk can_alloc 6 pipe (unread b ++ incoming s) (nbytes b) 0
              (size (mem b)) NoDataReceived b1 s) as (r & b' & s' & E & Hok);
    [done|done| |lia|by left|destruct (_ <=? _); lia|].
  - split; [lia|done|lia|lia|by rewrite Hu1].
  - destruct Hok as (H1 & H2 & H3 & H4). exists r, b', s'. split_and!; done.
Qed.

(** ** Framing *)

Lemma grow_spec fuel size n :
  1 <= n -> size <= n * 2 ^ Z.of_nat fuel ->
  size <= grow fuel size n /\ n <= grow fuel size n.
Proof.
  revert n. induction fuel as [|fuel IH]; intros n Hn Hs; cbn [grow].
  { change (2 ^ Z.of_nat 0) with 1 in Hs. lia. }
  destruct (n <? size) eqn:E; [|lia].
  rewrite Nat2Z.inj_succ, Z.pow_succ_r in Hs by lia.
  destruct (IH (n * 2)); [lia|lia|lia].
Qed.

Section Framing.
Context (junk : byte) (can_alloc : Z -> bool).

Lemma grow_le fuel size n m : n <= m -> size * 2 <= m -> grow fuel size n <= m.
Proof.
  revert n. induction fuel as [|fuel IH]; intros n Hn Hs; cbn [grow]; [done|].
  destruct (n <? size) eqn:E; [apply IH; lia|done].
Qed.

(** [bin_read_chunk] keeps the unread data and makes room for the body, and for
    a body below 2 GB the buffer's size is right. *)
Lemma bin_read_chunk_spec chunk i i' :
  buf_ok (read i) -> HEADER_SIZE <= nbytes (read i) -> 0 <= chunk < 4294967296 ->
  bin_read_chunk junk can_alloc chunk i = Some i' ->
  (0 <= curr (read i') /\ curr (read i') + nbytes (read i') <= size (mem (read i'))) /\
  (chunk + HEADER_SIZE < 2147483648 -> buf_ok (read i')) /\
  unread (read i') = unread (read i) /\
  nbytes (read i') = nbytes (read i) /\ ritem i' = curr (read i') + HEADER_SIZE /\
  rlbytes i' = chunk /\ curr (read i') + HEADER_SIZE + chunk <= size (mem (read i')) /\
  binary_header i' = binary_header i.
Proof.
  unfold HEADER_SIZE. intros Hb Hn Hch. destruct Hb as [Hc Hn' Hr H32] eqn:EHb. clear EHb.
  unfold bin_read_chunk, HEADER_SIZE. set (b := read i) in *. rewrite !(bufsize_ok b H32).
  destruct (_ <? chunk) eqn:E.
  2:{ intros [= <-]. cbn. split_and!; (done || lia). }
  pose proof (grow_spec 33 (chunk + 24) (size (mem b)) ltac:(lia)) as [Hg Hge].
  { change (2 ^ Z.of_nat 33) with 8589934592. nia. }
  pose proof (grow_le 33 (chunk + 24) (size (mem b)) 4294967295 ltac:(lia)) as H32'.
  set (nsize := grow 33 (chunk + 24) (size (mem b))) in *.
  intros H. apply bind_Some in H as (b2 & H & [= <-]). apply bind_Some in H as (b1 & Hb1 & H).
  assert ((0 <= curr b1 /\ curr b1 + nbytes b1 <= size (mem b1)) /\
          unread b1 = unread b /\ nbytes b1 = nbytes b /\ size (mem b1) = nsize)
    as ((Hc1 & Hr1) & Hu1 & Hn1 & Hs1).
  { destruct (nsize == size (mem b)) eqn:En; cbn [negb] in Hb1.
    - injection Hb1 as <-. split_and!; (done || lia).
    - destruct (can_alloc nsize); [|done]. injection Hb1 as <-.
      split_and!; cbn [mem curr nbytes]; [lia|rewrite realloc_size; lia| |done
        |by rewrite realloc_size by lia].
      unfold unread; cbn [mem curr nbytes]. replace (curr b + 24 - 24) with (curr b) by lia.
      by rewrite slice_realloc by lia. }
  destruct (unread_memmove b1) as [Hu2 Hs2]; [lia..|].
  destruct (curr b1 == 0) eqn:Ec; cbn [negb] in H; injection H as <-; cbn [read ritem rlbytes binary_header].
  - split_and!; try done; try lia. split; lia.
  - cbn [curr nbytes mem]. split_and!; try done; try lia.
    + split; cbn [mem curr nbytes]; lia.
    + unfold unread at 1; cbn [curr nbytes mem]. congruence.
Qed.

(** It fails only when memory for the packet cannot be allocated. *)
Lemma bin_read_chunk_none chunk i :
  buf_ok (read i) -> HEADER_SIZE <= nbytes (read i) -> 0 <= chunk < 4294967296 ->
  bin_read_chunk junk can_alloc chunk i = None ->
  exists n, chunk + HEADER_SIZE <= n /\ can_alloc n = false.
Proof.
  unfold HEADER_SIZE. intros [Hc Hn Hr H32] Hh Hch.
  unfold bin_read_chunk, HEADER_SIZE. rewrite !(bufsize_ok _ H32).
  destruct (_ <? chunk) eqn:E; [|done].
  pose proof (grow_spec 33 (chunk + 24) (size (mem (read i))) ltac:(lia)) as [Hg _].
  { change (2 ^ Z.of_nat 33) with 8589934592. nia. }
  set (nsize := grow 33 _ _) in *. intros H.
  destruct (nsize != size (mem (read i))).
  - destruct (can_alloc nsize) eqn:Ea; [|by exists nsize].
    cbn [mbind option_bind] in H. by destruct (curr _ != 0).
  - cbn [mbind option_bind] in H. by destruct (curr _ != 0).
Qed.

(** While a packet of [total] bytes is read, what is read of it ends at
    [curr], and there is room for the rest. *)
Record framing (stream : bytes) (total : Z) (hdr : protocol_binary_request_header)
    (i : input) (s : socket) : Prop := {
  fr_left : 0 <= rlbytes i <= total - HEADER_SIZE;
  fr_header : binary_header i = hdr;
  fr_ritem : ritem i = curr (read i);
  fr_start : 0 <= curr (read i) - (total - rlbytes i);
  fr_bytes : 0 <= nbytes (read i);
  fr_room : curr (read i) + Z.max (nbytes (read i)) (rlbytes i) <= size (mem (read i));
  fr_stream : slice (curr (read i) - (total - rlbytes i)) (total - rlbytes i) (mem (read i)) ++
              unread (read i) ++ incoming s = stream;
}.

Lemma nread_leftovers_framing stream total hdr i s :
  framing stream total hdr i s -> rlbytes i <> 0 ->
  framing stream total hdr (nread_leftovers i) s /\
  (nbytes (read (nread_leftovers i)) = 0 \/ rlbytes (nread_leftovers i) = 0) /\
  rlbytes (nread_leftovers i) <= rlbytes i.
Proof.
  intros [Hl Hh Hri Hst Hb Hro Hs] Hrl. unfold nread_leftovers.
  destruct (0 <? nbytes (read i)) eqn:En.
  2:{ split_and!; [by split|left; lia|lia]. }
  rewrite Hri. rewrite Z.eqb_refl. cbn [negb].
  set (tc := if rlbytes i <? nbytes (read i) then _ else _).
  assert (0 <= tc <= rlbytes i /\ tc <= nbytes (read i) /\
          (tc = rlbytes i \/ tc = nbytes (read i))) as (H1 & H2 & H3)
    by (subst tc; destruct (rlbytes i <? nbytes (read i)) eqn:Et; lia).
  split_and!; cbn [read rlbytes nbytes]; [|lia|lia].
  split; cbn [read rlbytes nbytes curr mem ritem binary_header]; try done; try lia.
  rewrite <- Hs. replace (curr (read i) + tc - (total - (rlbytes i - tc)))
    with (curr (read i) - (total - rlbytes i)) by lia.
  replace (total - (rlbytes i - tc)) with (total - rlbytes i + tc) by lia.
  rewrite slice_app by (unfold HEADER_SIZE in *; lia).
  rewrite <- !app_assoc. f_equal.
  replace (curr (read i) - (total - rlbytes i) + (total - rlbytes i)) with (curr (read i)) by lia.
  rewrite app_assoc. f_equal. unfold unread; cbn [mem curr nbytes].
  rewrite <- slice_app by (unfold HEADER_SIZE in *; lia). f_equal. lia.
Qed.

Lemma conn_nread_framing stream total hdr i s :
  framing stream total hdr i s ->
  match conn_nread i s with
  | (NreadComplete, i', s') => i' = i /\ s' = s /\ rlbytes i = 0
  | (NreadClosing, _, s') => True
  | (_, i', s') => framing stream total hdr i' s'
  end.
Proof.
  intros HF. unfold conn_nread. destruct (rlbytes i == 0) eqn:E0; [split_and!; (done || lia)|].
  destruct (nread_leftovers_framing stream total hdr i s HF) as (HF1 & Hor & Hle); [lia|].
  destruct ((0 <? nbytes (read i)) && (rlbytes (nread_leftovers i) == 0)) eqn:E1; [done|].
  assert (rlbytes (nread_leftovers i) <> 0 /\ nbytes (read (nread_leftovers i)) = 0)
    as [Hrl Hnb].
  { destruct (0 <? nbytes (read i)) eqn:En; [lia|].
    unfold nread_leftovers in *. rewrite En in *. pose proof (fr_bytes _ _ _ _ _ HF). lia. }
  set (i1 := nread_leftovers i) in *. destruct HF1 as [Hl Hh Hri Hst Hb Hro Hs].
  pose proof (recv_spec (rlbytes i1) s ltac:(lia)) as HR.
  destruct (recv (rlbytes i1) s) as [[bs| | |] s']; try done.
  2:{ split; try done; try lia. by rewrite HR. }
  destruct HR as (Hne & Hbs & Hin). pose proof (size_nonneg bs).
  assert (0 <= curr (read i1)) by (unfold HEADER_SIZE in *; lia).
  rewrite Hri, Z.eqb_refl. split; cbn [read rlbytes nbytes curr mem ritem binary_header];
    try done; try lia; try (rewrite blit_size; lia).
  rewrite <- Hs. unfold unread. cbn [read rlbytes nbytes curr mem]. rewrite Hnb, !slice_0. cbn [app].
  replace (curr (read i1) + size bs - (total - (rlbytes i1 - size bs)))
    with (curr (read i1) - (total - rlbytes i1)) by lia.
  replace (total - (rlbytes i1 - size bs)) with (total - rlbytes i1 + size bs) by lia.
  rewrite slice_app by (unfold HEADER_SIZE in *; lia).
  rewrite slice_blit_before by (unfold HEADER_SIZE in *; lia). rewrite Hin, app_assoc. do 2 f_equal.
  replace (curr (read i1) - (total - rlbytes i1) + (total - rlbytes i1)) with (curr (read i1)) by lia.
  apply slice_blit_same; lia.
Qed.

(** The steps of [conn_nread] until the body is complete; between two of them
    the connection may wait for the socket. *)
Definition nread_step (x y : input * socket) : Prop :=
  exists r, conn_nread x.1 x.2 = (r, y.1, y.2) /\ (r = NreadAgain \/ r = NreadBlocked).

Lemma nread_steps_framing stream total hdr x y :
  rtc nread_step x y -> framing stream total hdr x.1 x.2 -> framing stream total hdr y.1 y.2.
Proof.
  apply (rtc_invariant nread_step (fun x => framing stream total hdr x.1 x.2)).
  clear x y. intros x y HF (r & Hr & Hor).
  pose proof (conn_nread_framing stream total hdr _ _ HF) as HC. rewrite Hr in HC.
  by destruct Hor as [-> | ->].
Qed.

Lemma packet_start i i0 :
  buf_ok (read i) -> fetch_header i = Some i0 ->
  HEADER_SIZE <= nbytes (read i) /\ read i0 = read i /\
  exists h rest, header_ok h /\ binary_header i0 = host_header h /\
    unread (read i) = store_request_header h ++ rest.
Proof.
  intros [Hc Hn Hr _] H. unfold fetch_header in H.
  destruct (_ <? _) eqn:E; [done|]. apply bind_Some in H as (h & Hh & [= <-]).
  split_and!; [lia|done|]. pose proof (store_load_header _ _ Hh) as Hd.
  apply load_request_header_ok in Hh. unfold HEADER_SIZE in E.
  exists h, (drop 24 (unread (read i))). split_and!; [done|done|].
  rewrite <- (take_drop 24 (unread (read i))) at 1. f_equal.
  unfold unread, slice. rewrite take_take, Nat.min_l by lia.
  rewrite Hd. by rewrite take_app_length' by by rewrite header_size.
Qed.

(** Once the header is skipped the frame is set up. *)
Lemma framing_start i s n :
  0 <= curr (read i) /\ curr (read i) + nbytes (read i) <= size (mem (read i)) -> HEADER_SIZE <= nbytes (read i) -> 0 <= n ->
  ritem i = curr (read i) + HEADER_SIZE -> rlbytes i = n ->
  curr (read i) + HEADER_SIZE + n <= size (mem (read i)) ->
  framing (unread (read i) ++ incoming s) (n + HEADER_SIZE) (binary_header i)
    (skip_header i) s.
Proof.
  unfold HEADER_SIZE. intros [Hc Hr] Hh Hn0 Hri Hrl Hro. unfold skip_header, HEADER_SIZE.
  split; cbn [read rlbytes nbytes curr mem ritem binary_header]; unfold HEADER_SIZE;
    try done; try lia.
  rewrite Hrl. unfold unread; cbn [curr nbytes mem]. rewrite app_assoc. f_equal.
  replace (n + 24 - n) with 24 by lia. replace (curr (read i) + 24 - 24) with (curr (read i)) by lia.
  rewrite <- slice_app by lia. f_equal. lia.
Qed.

(** A complete frame is the next packet of the stream. *)
Lemma framing_complete stream h rest i s :
  header_ok h -> stream = store_request_header h ++ rest ->
  framing stream (ntohl (bodylen h) + HEADER_SIZE) (host_header h) i s -> rlbytes i = 0 ->
  exists p, current_packet i = Some p /\ packet_complete p /\ h = header p /\
    stream = bytes_of_packet p ++ unread (read i) ++ incoming s.
Proof.
  intros Hh -> [Hl Hbh Hri Hst Hb Hro Hs] Hrl.
  pose proof (bswap_range 4 (bodylen h)) as Hn. set (n := ntohl (bodylen h)) in *.
  unfold current_packet, getPacket. rewrite Hbh. cbn [host_header bodylen]. fold n.
  rewrite Hrl, Z.sub_0_r in *. set (Q := slice _ (n + HEADER_SIZE) _) in *.
  assert (size Q = n + HEADER_SIZE) as HQ
    by (apply slice_size; unfold HEADER_SIZE in *; lia).
  assert (Q = store_request_header h ++ drop 24 Q) as EQ.
  { rewrite <- (take_drop 24 Q) at 1. f_equal.
    apply (f_equal (take 24)) in Hs.
    rewrite take_app_le, take_app_le in Hs
      by (rewrite ?header_size; unfold size, HEADER_SIZE in HQ; lia).
    rewrite Hs. apply take_ge. by rewrite header_size. }
  set (p := mk_packet h (drop 24 Q)).
  assert (packet_complete p) as Hp.
  { split; [done|]. cbn [p body]. unfold nbody; cbn [header p]. fold n.
    rewrite length_drop. unfold size, HEADER_SIZE in HQ. lia. }
  assert (Q = bytes_of_packet p) as EQ' by exact EQ.
  exists p. split_and!; [|done|done|by rewrite <- Hs, EQ'].
  rewrite EQ', <- (app_nil_r (bytes_of_packet p)). by apply packet_of_bytes_encode.
Qed.

End Framing.

(** C17: however the socket cuts the stream up, the bytes [getPacket] points at
    when a request is complete are the next packet of the stream, with the
    header that was fetched, and what follows the packet in the stream is
    exactly what is left unread. *)
Theorem packet_framing junk can_alloc i s i0 i1 i2 s2 :
  buf_ok (read i) -> fetch_header i = Some i0 ->
  bin_read_chunk junk can_alloc (bodylen (binary_header i0)) i0 = Some i1 ->
  rtc nread_step (skip_header i1, s) (i2, s2) -> rlbytes i2 = 0 ->
  exists p, current_packet i2 = Some p /\ packet_complete p /\
    binary_header i2 = host_header (header p) /\
    unread (read i) ++ incoming s = bytes_of_packet p ++ unread (read i2) ++ incoming s2.
Proof.
  intros Hb Hf Hc Hsteps Hl.
  destruct (packet_start i i0 Hb Hf) as (Hn & Hr0 & h & rest & Hh & Hbh & Hu).
  rewrite Hbh in Hc. change (bodylen (host_header h)) with (ntohl (bodylen h)) in Hc.
  pose proof (bswap_range 4 (bodylen h)) as Hrange.
  apply bin_read_chunk_spec in Hc as (Ho1 & _ & Hu1 & Hn1 & Hri & Hrl & Hro & Hbh1);
    [|by rewrite Hr0|by rewrite Hr0|done].
  rewrite Hr0 in Hu1, Hn1. rewrite Hbh in Hbh1.
  pose proof (framing_start i1 s _ Ho1 ltac:(lia) (proj1 Hrange) Hri Hrl Hro) as HF.
  rewrite Hu1, Hbh1 in HF. apply (nread_steps_framing _ _ _ _ _ Hsteps) in HF.
  cbn [fst snd] in HF. pose proof (fr_header _ _ _ _ _ HF) as Hbh2.
  apply (framing_complete _ h (rest ++ incoming s)) in HF as (p & Hp & Hpc & -> & Hs);
    [|done|by rewrite Hu, app_assoc|done].
  exists p. split_and!; done.
Qed.

(** ** Progress *)

Definition delivers (e : recv_event) : Prop := match e with Deliver k => 1 <= k | _ => False end.

(** A call of [recv] that finds data makes progress. *)
Lemma recv_delivers n s :
  0 < n -> Forall delivers (script s) -> script s <> [] -> incoming s <> [] ->
  exists bs s', recv n s = (Received bs, s') /\ 1 <= size bs <= n /\
    incoming s = bs ++ incoming s' /\ Forall delivers (script s') /\
    length (script s) = S (length (script s')).
Proof.
  intros Hn Hd Hs Hi. unfold recv.
  destruct (script s) as [|e rest] eqn:E; [done|]. inversion_clear Hd as [|? ? Hk Hrest].
  destruct e as [k| | |]; try done. cbn in Hk.
  destruct (take _ (incoming s)) as [|b bs] eqn:Et.
  { destruct (incoming s); [done|]. destruct (Z.to_nat (Z.min k n)) eqn:Ek; [lia|done]. }
  eexists _, _. split; [done|]. rewrite <- Et. unfold size. rewrite length_take. cbn [incoming script].
  split_and!; [|lia|by rewrite take_drop|done|done].
  destruct (incoming s); [done|]. cbn [length]. lia.
Qed.

Lemma nread_progress stream total hdr i s :
  framing stream total hdr i s -> rlbytes i <= nbytes (read i) + size (incoming s) ->
  Forall delivers (script s) -> rlbytes i <= Z.of_nat (length (script s)) ->
  exists i2 s2, rtc nread_step (i, s) (i2, s2) /\ rlbytes i2 = 0.
Proof.
  intros HF. remember (Z.to_nat (rlbytes i)) as k eqn:Ek. revert i s HF Ek.
  induction (lt_wf k) as [k _ IH]. intros i s HF -> Hin Hd Hsc.
  destruct (decide (rlbytes i = 0)) as [E0|E0]; [exists i, s; by split; [apply rtc_refl|]|].
  pose proof (conn_nread_framing stream total hdr i s HF) as HF'.
  destruct (nread_leftovers_framing stream total hdr i s HF E0) as (HF1 & Hor & Hle).
  pose proof (fr_left _ _ _ _ _ HF1) as Hl1. pose proof (fr_bytes _ _ _ _ _ HF) as Hb.
  assert (rlbytes (nread_leftovers i) <= nbytes (read (nread_leftovers i)) + size (incoming s) /\
          (0 < nbytes (read i) -> rlbytes (nread_leftovers i) < rlbytes i) /\
          (nbytes (read i) <= 0 -> nread_leftovers i = i)) as (Hin1 & Hlt & Hid).
  { pose proof (fr_left _ _ _ _ _ HF). unfold nread_leftovers.
    destruct (0 <? nbytes (read i)) eqn:En; [|split_and!; (done || lia)].
    cbn [rlbytes read nbytes]. destruct (rlbytes i <? nbytes (read i)) eqn:Et; lia. }
  destruct (conn_nread i s) as [[r i'] s'] eqn:Ec. unfold conn_nread in Ec.
  destruct (rlbytes i == 0) eqn:Ez; [lia|].
  set (i1 := nread_leftovers i) in *.
  destruct ((0 <? nbytes (read i)) && (rlbytes i1 == 0)) eqn:E1.
  { injection Ec as <- <- <-. exists i1, s. split; [|lia]. apply rtc_once.
    exists NreadAgain. split; [|by left]. cbn [fst snd]. unfold conn_nread. cbv zeta. fold i1. by rewrite Ez, E1. }
  assert (nbytes (read i1) = 0 /\ rlbytes i1 <> 0) as [Hnb1 Hrl1].
  { destruct (0 <? nbytes (read i)) eqn:En; [lia|]. rewrite Hid in * by lia. lia. }
  destruct (recv_delivers (rlbytes i1) s) as (bs & s1 & Hrecv & Hbs & Hinc & Hd1 & Hlen);
    [lia|done|intros Es; rewrite Es in Hsc; cbn in Hsc; lia
    |intros Es; rewrite Es in Hin1; unfold size in Hin1; cbn in Hin1; lia|].
  rewrite Hrecv in Ec. injection Ec as <- <- <-.
  set (i2 := mk_input _ _ _ _) in HF'.
  destruct (IH (Z.to_nat (rlbytes i2))) with (i := i2) (s := s1) as (i3 & s3 & Hst & H0);
    [cbn [rlbytes i2]; lia|done|done| |done|cbn [rlbytes i2]; lia|].
  { cbn [rlbytes read nbytes i2]. rewrite Hnb1. rewrite Hinc in Hin1.
    unfold size in *. rewrite length_app in Hin1. lia. }
  exists i3, s3. split; [|done]. eapply rtc_l; [|exact Hst].
  exists NreadAgain. split; [|by left]. cbn [fst snd]. unfold conn_nread.
  cbv zeta. fold i1. by rewrite Ez, E1, Hrecv.
Qed.

(** C34: a request whose body is in the buffer or to come on the socket is
    completed: as long as [recv] delivers at least one byte per call,
    [conn_nread] needs no more calls than the body has bytes. *)
Theorem packet_read_completes junk can_alloc i s i0 i1 :
  buf_ok (read i) -> fetch_header i = Some i0 ->
  bin_read_chunk junk can_alloc (bodylen (binary_header i0)) i0 = Some i1 ->
  bodylen (binary_header i0) + HEADER_SIZE <= nbytes (read i) + size (incoming s) ->
  Forall delivers (script s) -> bodylen (binary_header i0) <= Z.of_nat (length (script s)) ->
  exists i2 s2, rtc nread_step (skip_header i1, s) (i2, s2) /\ rlbytes i2 = 0.
Proof.
  intros Hb Hf Hc Hin Hd Hsc.
  destruct (packet_start i i0 Hb Hf) as (Hn & Hr0 & h & rest & Hh & Hbh & Hu).
  rewrite Hbh in *. change (bodylen (host_header h)) with (ntohl (bodylen h)) in *.
  pose proof (bswap_range 4 (bodylen h)) as Hrange.
  apply bin_read_chunk_spec in Hc as (Ho1 & _ & Hu1 & Hn1 & Hri & Hrl & Hro & Hbh1);
    [|by rewrite Hr0|by rewrite Hr0|done].
  rewrite Hr0 in Hn1.
  pose proof (framing_start i1 s _ Ho1 ltac:(lia) (proj1 Hrange) Hri Hrl Hro) as HF.
  apply (nread_progress _ _ _ _ _ HF); [|done|].
  - unfold skip_header; cbn [rlbytes read nbytes]. lia.
  - unfold skip_header; cbn [rlbytes]. lia.
Qed.

Definition nread_next (x : input * socket) : input * socket :=
  let '(_, i, s) := conn_nread x.1 x.2 in (i, s).

(** A [GET] of key [foo] that arrives in three pieces, behind it the first byte
    of the next request. *)
Definition get_foo_input : input :=
  mk_input (mk_net_buf (bytes_of_packet get_foo ++ replicate 13 Byte.x00) 0 25) 0 0
    (header get_foo).

Definition get_foo_socket : socket :=
  mk_socket [Byte.x6f; Byte.x6f; Byte.x80] [Deliver 1; Deliver 5; Deliver 5; Deliver 1].

Definition get_foo_started : input :=
  mk_input (read get_foo_input) 24 3 (host_header (header get_foo)).

Lemma get_foo_input_ok : buf_ok (read get_foo_input).
Proof. split; vm_compute; congruence. Qed.

Lemma packet_read_completes_witness :
  exists i2 s2, rtc nread_step (skip_header get_foo_started, get_foo_socket) (i2, s2) /\
    rlbytes i2 = 0.
Proof.
  apply (packet_read_completes Byte.x00 (fun _ => true) get_foo_input get_foo_socket
           (mk_input (read get_foo_input) 0 0 (host_header (header get_foo)))).
  - exact get_foo_input_ok.
  - reflexivity.
  - reflexivity.
  - vm_compute; congruence.
  - repeat constructor; cbn; lia.
  - vm_compute; congruence.
Defined.

Definition get_foo_done : input :=
  mk_input (mk_net_buf (mem (read get_foo_input)) 27 0) 27 0 (host_header (header get_foo)).

Lemma packet_framing_witness :
  exists p, current_packet get_foo_done = Some p /\ packet_complete p /\
    binary_header get_foo_done = host_header (header p) /\
    unread (read get_foo_input) ++ incoming get_foo_socket =
    bytes_of_packet p ++ unread (read get_foo_done) ++ [Byte.x80].
Proof.
  apply (packet_framing Byte.x00 (fun _ => true) get_foo_input get_foo_socket
           (mk_input (read get_foo_input) 0 0 (host_header (header get_foo)))
           get_foo_started get_foo_done (mk_socket [Byte.x80] [Deliver 5; Deliver 1])).
  - exact get_foo_input_ok.
  - reflexivity.
  - reflexivity.
  - apply (rtc_l _ _ (nread_next (skip_header get_foo_started, get_foo_socket)));
      [exists NreadAgain; split; [vm_compute; reflexivity|by left]|].
    apply rtc_once. exists NreadAgain. split; [vm_compute; reflexivity|by left].
  - reflexivity.
Defined.

Lemma tryReadNetwork_stream_witness :
  exists r b' s',
    tryReadNetwork Byte.x00 (fun _ => true) false
      (mk_net_buf [Byte.x00; Byte.x61] 1 1) (mk_socket [Byte.x62; Byte.x63] [Deliver 9; Deliver 9])
    = Some (r, b', s') /\ buf_ok b' /\ curr b' = 0 /\
    (if decide (r = MemoryError) then nbytes b' = 0
     else unread b' ++ incoming s' = [Byte.x61; Byte.x62; Byte.x63]) /\
    (r = DataReceived -> 1 < nbytes b').
Proof.
  apply (tryReadNetwork_stream Byte.x00 (fun _ => true) false
           (mk_net_buf [Byte.x00; Byte.x61] 1 1)
           (mk_socket [Byte.x62; Byte.x63] [Deliver 9; Deliver 9]));
    [split; vm_compute; congruence|vm_compute; congruence|vm_compute; reflexivity].
Defined.
