(* ===== verification/Output.v ===== *)
(** * Sending responses

    The output side of a connection ([daemon/connection_mcbp.cc]): the list of
    messages built by [addMsgHdr], [addIov] and [ensureIovSpace], and
    [transmit], which hands it to [sendmsg] piece by piece.

    An [iovec] points at memory the connection does not own; [iov_base] is an
    address and what is sent is a list of addresses.  [msghdr.msg_iov] is a
    pointer into the connection's [iov] vector: the allocation it points into
    ([msg_block]) and an index in it.  A vector that grows moves to a new
    allocation, and pointers into the old one must not be used any more.
    [IOV_MAX] is the system's limit; [alloc_msg n] and [alloc_iov n] say whether
    a vector of [n] entries can be allocated. *)

From S2P Require Import Prelude.

Definition UDP_MAX_PAYLOAD_SIZE : Z := 1400.
Definition IOV_LIST_INITIAL : nat := 10.

Record iovec := mk_iovec {
  iov_base : Z;
  iov_len : Z;
}.

Record msghdr := mk_msghdr {
  msg_iov : Z;
  msg_iovlen : Z;
  msg_block : Z;
}.

(** The members for the [conn_mwrite] state; [iov_block] is the allocation
    [iov.data()] points to. *)
Record output := mk_output {
  iov : list iovec;
  iovused : Z;
  msglist : list msghdr;
  msgcurr : Z;
  msgbytes : Z;
  iov_block : Z;
}.

(** What the constructor sets up. *)
Definition initial_output : output :=
  mk_output (replicate IOV_LIST_INITIAL (mk_iovec 0 0)) 0 [] 0 0 0.

Section Output.
Context (IOV_MAX : Z) (alloc_msg alloc_iov : nat -> bool).

(** ** Building the list *)

(** [McbpConnection::addMsgHdr] *)
Definition addMsgHdr (reset : bool) (o : output) : bool * output :=
  let o := if reset then mk_output (iov o) 0 [] 0 (msgbytes o) (iov_block o) else o in
  if alloc_msg (S (length (msglist o)))
  then (true, mk_output (iov o) (iovused o)
                (msglist o ++ [mk_msghdr (iovused o) 0 (iov_block o)]) (msgcurr o) 0 (iov_block o))
  else (false, o).

(** Point all the msghdr structures at the new list. *)
Fixpoint repoint (block iovnum : Z) (msgs : list msghdr) : list msghdr :=
  match msgs with
  | [] => []
  | m :: msgs =>
      mk_msghdr iovnum (msg_iovlen m) block :: repoint block (iovnum + msg_iovlen m) msgs
  end.

(** [McbpConnection::ensureIovSpace]: [iov.resize] copies the entries to a new
    allocation and frees the old one. *)
Definition ensureIovSpace (o : output) : bool * output :=
  if iovused o <? Z.of_nat (length (iov o)) then (true, o) else
  if alloc_iov (length (iov o) * 2)
  then (true, mk_output (iov o ++ replicate (length (iov o)) (mk_iovec 0 0)) (iovused o)
                (repoint (iov_block o + 1) 0 (msglist o)) (msgcurr o) (msgbytes o)
                (iov_block o + 1))
  else (false, o).

(** One entry behind the last message's entries; [None] where the code would
    write outside [iov] or through a pointer into an allocation that was freed. *)
Definition push_iov (buf len : Z) (o : output) : option output :=
  m ← last (msglist o);
  let k := msg_iov m + msg_iovlen m in
  if (msg_block m == iov_block o) && ((0 <=? k) && (k <? Z.of_nat (length (iov o)))) then
    Some (mk_output (<[Z.to_nat k := mk_iovec buf len]> (iov o)) (iovused o + 1)
            (<[pred (length (msglist o)) :=
                 mk_msghdr (msg_iov m) (msg_iovlen m + 1) (msg_block m)]> (msglist o))
            (msgcurr o) (i32 (msgbytes o + len)) (iov_block o))
  else None.

(** The loop of [McbpConnection::addIov]: the first message, and the chunk
    that starts the second one, are limited to [UDP_MAX_PAYLOAD_SIZE] bytes, so
    a buffer is split into at most three pieces.  [None] also when [fuel] is
    not enough. *)
Fixpoint addIov_loop (fuel : nat) (buf len : Z) (o : output) : option (bool * output) :=
  match fuel with
  | O => None
  | S fuel =>
      m ← last (msglist o);
      let limit_to_mtu := Z.of_nat (length (msglist o)) == 1 in
      let '(ok, o) :=
        if (msg_iovlen m == IOV_MAX) ||
           (limit_to_mtu && (UDP_MAX_PAYLOAD_SIZE <=? msgbytes o))
        then addMsgHdr false o else (true, o) in
      if negb ok then Some (false, o) else
      let '(ok, o) := ensureIovSpace o in
      if negb ok then Some (false, o) else
      let leftover :=
        if limit_to_mtu && (UDP_MAX_PAYLOAD_SIZE <? len + msgbytes o)
        then len + msgbytes o - UDP_MAX_PAYLOAD_SIZE else 0 in
      let len := len - leftover in
      o ← push_iov buf len o;
      if 0 <? leftover then addIov_loop fuel (buf + len) leftover o else Some (true, o)
  end.

(** [McbpConnection::addIov] *)
Definition addIov (buf len : Z) (o : output) : option (bool * output) :=
  if len == 0 then Some (true, o) else addIov_loop 3 buf len o.

(** ** Sending *)

(** What [sendmsg] returns: a number of bytes, or an error that blocks or
    does not. *)
Inductive send_result :=
| Sent (n : Z)
| SendBlocked
| SendFailed.

Inductive TransmitResult :=
| Complete
| Incomplete
| SoftError
| HardError.

(** The state of SSL and libevent [transmit] looks at: whether SSL is enabled,
    whether output is pending in its buffers before and after sending, whether
    it has failed, and whether the event mask can be updated. *)
Record transmit_env := mk_env {
  ssl_enabled : bool;
  ssl_pending_before : bool;
  ssl_pending_after : bool;
  ssl_error : bool;
  update_event : bool;
}.

(** [HardError] and [SoftError] of the branches that wait for the socket. *)
Definition wait_for_socket (hard : bool) : TransmitResult :=
  if hard then HardError else SoftError.

(** Step over finished messages. *)
Fixpoint skip_finished (msgs : list msghdr) (msgcurr : Z) : Z :=
  match msgs with
  | m :: msgs => if msg_iovlen m == 0 then skip_finished msgs (msgcurr + 1) else msgcurr
  | [] => msgcurr
  end.

(** Remove the completed entries: the loop
    [while (m->msg_iovlen > 0 && res >= m->msg_iov->iov_len)]. *)
Fixpoint consume (iovs : list iovec) (k : Z) (rem : nat) (res : Z) : option (Z * nat * Z) :=
  match rem with
  | O => Some (k, O, res)
  | S rem' =>
      v ← iovs !! Z.to_nat k;
      if iov_len v <=? res then consume iovs (k + 1) rem' (res - iov_len v)
      else Some (k, rem, res)
  end.

(** The entry that was written only in part is adjusted. *)
Definition cut_entry (vs : list iovec) (k res : Z) : option (list iovec) :=
  if 0 <? res then
    v ← vs !! Z.to_nat k;
    Some (<[Z.to_nat k := mk_iovec (iov_base v + res) (iov_len v - res)]> vs)
  else Some vs.

(** The entries of a message. *)
Definition segment (iovs : list iovec) (m : msghdr) : list iovec :=
  take (Z.to_nat (msg_iovlen m)) (drop (Z.to_nat (msg_iov m)) iovs).

(** [McbpConnection::transmit]; the number is what was handed to the socket.
    [None] where the code would read outside [iov] (after a message is sent
    completely it looks at the entry behind it) or through a pointer into an
    allocation that was freed. *)
Definition transmit (e : transmit_env) (send : send_result) (o : output)
    : option (TransmitResult * output * Z) :=
  if ssl_enabled e && ssl_pending_before e
  then Some (wait_for_socket (ssl_error e || negb (update_event e)), o, 0) else
  let cur := skip_finished (drop (Z.to_nat (msgcurr o)) (msglist o)) (msgcurr o) in
  let o := mk_output (iov o) (iovused o) (msglist o) cur (msgbytes o) (iov_block o) in
  match msglist o !! Z.to_nat cur with
  | None => Some (Complete, o, 0)
  | Some m =>
      if msg_block m != iov_block o then None else
      match send with
      | Sent n =>
          if 0 <? n then
            '(k, rem, res) ← consume (iov o) (msg_iov m) (Z.to_nat (msg_iovlen m)) n;
            iovs ← cut_entry (iov o) k res;
            let msgs := <[Z.to_nat cur := mk_msghdr k (Z.of_nat rem) (msg_block m)]> (msglist o) in
            v ← iovs !! Z.to_nat k;
            if iov_len v == 0 then
              let o := mk_output iovs (iovused o) msgs (cur + 1) (msgbytes o) (iov_block o) in
              if cur + 1 == Z.of_nat (length msgs) then
                if ssl_enabled e && ssl_pending_after e
                then Some (wait_for_socket (ssl_error e || negb (update_event e)), o, n)
                else Some (Complete, o, n)
              else Some (Incomplete, o, n)
            else Some (Incomplete,
                       mk_output iovs (iovused o) msgs cur (msgbytes o) (iov_block o), n)
          else Some (HardError, o, 0)
      | SendBlocked => Some (wait_for_socket (negb (update_event e)), o, 0)
      | SendFailed => Some (HardError, o, 0)
      end
  end.

End Output.

(** ** What the list holds *)

(** The addresses of an entry, and of a list of entries. *)
Definition addresses (v : iovec) : list Z := seqZ (iov_base v) (iov_len v).
Definition all_addresses (vs : list iovec) : list Z := vs ≫= addresses.

(** What is still to be sent: the entries of the messages from [msgcurr]. *)
Definition pending_entries (o : output) : list iovec :=
  drop (Z.to_nat (msgcurr o)) (msglist o) ≫= segment (iov o).

Definition pending (o : output) : list Z := all_addresses (pending_entries o).

Lemma all_addresses_app vs ws :
  all_addresses (vs ++ ws) = all_addresses vs ++ all_addresses ws.
Proof. apply bind_app. Qed.

Lemma all_addresses_singleton v : all_addresses [v] = addresses v.
Proof. unfold all_addresses. cbn. apply app_nil_r. Qed.

(** A list that is being built: the messages' entries lie one behind the other
    from the start of [iov], and point into the allocation [block]. *)
Fixpoint contiguous (IOV_MAX block k : Z) (msgs : list msghdr) (e : Z) : Prop :=
  match msgs with
  | [] => k = e
  | m :: msgs =>
      msg_iov m = k /\ 0 <= msg_iovlen m <= IOV_MAX /\ msg_block m = block /\
      contiguous IOV_MAX block (k + msg_iovlen m) msgs e
  end.

(** The bytes of a list of entries. *)
Definition total_len (vs : list iovec) : Z := foldr (fun v n => iov_len v + n) 0 vs.

Record building (IOV_MAX : Z) (o : output) : Prop := {
  bd_msgs : contiguous IOV_MAX (iov_block o) 0 (msglist o) (iovused o);
  bd_some : msglist o <> [];
  bd_curr : msgcurr o = 0;
  bd_used : 0 <= iovused o <= Z.of_nat (length (iov o));
  bd_iov : (1 <= length (iov o))%nat;
  bd_pos : Forall (fun v => 0 < iov_len v) (take (Z.to_nat (iovused o)) (iov o));
  bd_first : length (msglist o) = 1%nat ->
    msgbytes o = total_len (take (Z.to_nat (iovused o)) (iov o)) /\
    0 <= msgbytes o <= UDP_MAX_PAYLOAD_SIZE;
}.

Section OutputProofs.
Context (IOV_MAX : Z) (HIOV : 1 <= IOV_MAX) (alloc_msg alloc_iov : nat -> bool).

Lemma contiguous_app blk k msgs msgs' e :
  contiguous IOV_MAX blk k (msgs ++ msgs') e <->
  exists e', contiguous IOV_MAX blk k msgs e' /\ contiguous IOV_MAX blk e' msgs' e.
Proof.
  revert k. induction msgs as [|m msgs IH]; intros k; cbn.
  - split; [intros; by exists k|]. by intros (e' & -> & ?).
  - rewrite IH. split.
    + intros (? & ? & ? & e' & ? & ?). by exists e'.
    + intros (e' & (H1 & H2 & Hb & H3) & H4).
      exact (conj H1 (conj H2 (conj Hb (ex_intro _ e' (conj H3 H4))))).
Qed.

Lemma contiguous_le blk k msgs e : contiguous IOV_MAX blk k msgs e -> k <= e.
Proof.
  revert k. induction msgs as [|m msgs IH]; intros k; cbn; [lia|].
  intros (_ & ? & _ & ?%IH). lia.
Qed.

(** Repointing keeps the messages' lengths and where they begin, and makes all
    of them point into the new allocation. *)
Lemma repoint_contiguous blk blk' k msgs e :
  contiguous IOV_MAX blk k msgs e -> contiguous IOV_MAX blk' k (repoint blk' k msgs) e.
Proof.
  revert k. induction msgs as [|m msgs IH]; intros k; cbn; [done|].
  intros (_ & ? & _ & H). split_and!; try done; try lia. by apply IH.
Qed.

Lemma repoint_lengths blk k msgs : msg_iovlen <$> repoint blk k msgs = msg_iovlen <$> msgs.
Proof. revert k. induction msgs as [|m msgs IH]; intros k; cbn; [done|]. f_equal. apply IH. Qed.

(** The entries of contiguous messages are a slice of [iov]. *)
Lemma contiguous_segments vs blk k msgs e :
  0 <= k -> contiguous IOV_MAX blk k msgs e -> e <= Z.of_nat (length vs) ->
  msgs ≫= segment vs = take (Z.to_nat (e - k)) (drop (Z.to_nat k) vs).
Proof.
  revert k. induction msgs as [|m msgs IH]; intros k Hk; cbn.
  { intros -> _. by rewrite Z.sub_diag. }
  intros (Hm & Hn & _ & H) He. pose proof (contiguous_le _ _ _ _ H).
  rewrite (IH (k + msg_iovlen m)) by (done || lia). unfold segment. rewrite Hm.
  replace (Z.to_nat (e - k)) with (Z.to_nat (msg_iovlen m) + Z.to_nat (e - (k + msg_iovlen m)))%nat by lia.
  rewrite <- take_take_drop. f_equal. rewrite drop_drop. do 2 f_equal. lia.
Qed.

Lemma building_pending o :
  building IOV_MAX o -> pending_entries o = take (Z.to_nat (iovused o)) (iov o).
Proof.
  intros [Hm _ Hc Hu _ _ _]. unfold pending_entries. rewrite Hc.
  change (drop (Z.to_nat 0) (msglist o)) with (msglist o).
  rewrite (contiguous_segments _ (iov_block o) 0 _ (iovused o)) by (done || lia).
  by rewrite Z.sub_0_r.
Qed.

Lemma building_last o :
  building IOV_MAX o ->
  exists ms m, msglist o = ms ++ [m] /\ last (msglist o) = Some m /\
    contiguous IOV_MAX (iov_block o) 0 ms (msg_iov m) /\ 0 <= msg_iovlen m <= IOV_MAX /\
    msg_block m = iov_block o /\ msg_iov m + msg_iovlen m = iovused o.
Proof.
  intros [Hm Hs _ _ _ _ _]. destruct (exists_last Hs) as (ms & m & E).
  exists ms, m. rewrite E, last_snoc. rewrite E in Hm.
  apply contiguous_app in Hm as (e & H1 & H2 & H3 & Hb & H4). rewrite <- H2 in H1.
  split_and!; try done; try lia. cbn in H4. lia.
Qed.

Lemma addMsgHdr_false_spec o :
  building IOV_MAX o ->
  let '(ok, o') := addMsgHdr alloc_msg false o in
  building IOV_MAX o' /\ iov o' = iov o /\ iovused o' = iovused o /\
  if ok then length (msglist o') = S (length (msglist o)) /\ msgbytes o' = 0 /\
             exists m, last (msglist o') = Some m /\ msg_iovlen m = 0
  else o' = o.
Proof.
  intros HB. unfold addMsgHdr. destruct (alloc_msg _); [|by split_and!].
  destruct HB as [Hm Hs Hc Hu Hi Hp Hf].
  cbn [iov iovused msglist msgbytes msgcurr iov_block]. split_and!; try done.
  - split; cbn [iov iovused msglist msgbytes msgcurr iov_block]; try done.
    + apply contiguous_app. exists (iovused o). split; [done|]. cbn. lia.
    + intros E. by destruct (msglist o).
    + rewrite length_app. cbn. destruct (msglist o); [done|cbn; lia].
  - rewrite length_app. cbn. lia.
  - eexists. by rewrite last_snoc.
Qed.

Lemma ensureIovSpace_spec o :
  building IOV_MAX o ->
  let '(ok, o') := ensureIovSpace alloc_iov o in
  building IOV_MAX o' /\ iovused o' = iovused o /\
  msg_iovlen <$> msglist o' = msg_iovlen <$> msglist o /\ msgbytes o' = msgbytes o /\
  take (Z.to_nat (iovused o)) (iov o') = take (Z.to_nat (iovused o)) (iov o) /\
  if ok then iovused o < Z.of_nat (length (iov o')) else o' = o.
Proof.
  intros HB. unfold ensureIovSpace. destruct (_ <? _) eqn:E; [split_and!; (done || lia)|].
  destruct (alloc_iov _); [|by split_and!].
  destruct HB as [Hm Hs Hc Hu Hi Hp Hf].
  cbn [iov iovused msglist msgbytes msgcurr iov_block].
  assert (take (Z.to_nat (iovused o)) (iov o ++ replicate (length (iov o)) (mk_iovec 0 0))
          = take (Z.to_nat (iovused o)) (iov o)) as Et by (apply take_app_le; lia).
  pose proof (repoint_lengths (iov_block o + 1) 0 (msglist o)) as Hl.
  split_and!; try done; [split|]; cbn [iov iovused msglist msgbytes msgcurr iov_block]; try done;
    rewrite ?Et, ?length_app, ?length_replicate; try done; try lia.
  - by eapply repoint_contiguous.
  - intros E'. apply Hs. rewrite E' in Hl. by destruct (msglist o).
  - apply (f_equal length) in Hl. rewrite !length_fmap in Hl. by rewrite Hl.
Qed.

Lemma total_len_app vs ws : total_len (vs ++ ws) = total_len vs + total_len ws.
Proof. induction vs as [|v vs IH]; cbn; [done|]. unfold total_len in *. lia. Qed.

Lemma push_iov_spec o buf len m :
  building IOV_MAX o -> last (msglist o) = Some m -> msg_iovlen m < IOV_MAX ->
  iovused o < Z.of_nat (length (iov o)) -> 0 < len ->
  (length (msglist o) = 1%nat -> msgbytes o + len <= UDP_MAX_PAYLOAD_SIZE) ->
  exists o', push_iov buf len o = Some o' /\ building IOV_MAX o' /\
    length (msglist o') = length (msglist o) /\
    take (Z.to_nat (iovused o')) (iov o') =
      take (Z.to_nat (iovused o)) (iov o) ++ [mk_iovec buf len] /\
    (length (msglist o) = 1%nat -> msgbytes o' = msgbytes o + len).
Proof.
  intros HB Hlast Hlt Hroom Hlen Hmtu.
  destruct (building_last o HB) as (ms & m' & E & El & Hms & Hmn & Hblk & Hend).
  assert (m' = m) as -> by congruence.
  destruct HB as [Hm Hs Hc Hu Hi Hp Hf]. unfold push_iov. rewrite Hlast. cbn [mbind option_bind].
  rewrite Hend, Hblk, Z.eqb_refl. destruct (_ && _) eqn:Eb; [|lia].
  eexists. split; [done|]. cbn [iov iovused msglist msgbytes msgcurr iov_block].
  assert (take (Z.to_nat (iovused o + 1)) (<[Z.to_nat (iovused o):=mk_iovec buf len]> (iov o))
          = take (Z.to_nat (iovused o)) (iov o) ++ [mk_iovec buf len]) as Et.
  { replace (Z.to_nat (iovused o + 1)) with (S (Z.to_nat (iovused o))) by lia.
    rewrite (take_S_r _ _ (mk_iovec buf len)) by (apply list_lookup_insert_eq; lia).
    by rewrite take_insert_ge by lia. }
  set (m1 := mk_msghdr (msg_iov m) (msg_iovlen m + 1) (iov_block o)).
  assert (<[Nat.pred (length (msglist o)):=m1]> (msglist o) = ms ++ [m1]) as Em.
  { rewrite E, length_app. cbn [length]. replace (Nat.pred (length ms + 1)) with (length ms + 0)%nat by lia.
    by rewrite insert_app_r. }
  assert (length (msglist o) = 1%nat -> i32 (msgbytes o + len) = msgbytes o + len) as Hi32.
  { intros L. destruct (Hf L) as [_ Hr]. specialize (Hmtu L). unfold UDP_MAX_PAYLOAD_SIZE in *.
    apply i32_small. lia. }
  split_and!; [split; cbn [iov iovused msglist msgbytes msgcurr iov_block]| |done|done].
  - rewrite Em. apply contiguous_app. exists (msg_iov m). split; [done|]. cbn. lia.
  - rewrite Em. by destruct ms.
  - done.
  - rewrite length_insert. lia.
  - by rewrite length_insert.
  - rewrite Et, Forall_app, Forall_singleton. by cbn.
  - rewrite length_insert. intros L. rewrite Et, total_len_app, Hi32 by done.
    destruct (Hf L) as [Hb Hr]. specialize (Hmtu L). cbn. unfold UDP_MAX_PAYLOAD_SIZE in *. lia.
  - by rewrite length_insert.
Qed.

(** How many pieces a buffer may be split into. *)
Definition needs_header (o : output) : bool :=
  match last (msglist o) with
  | Some m => (msg_iovlen m == IOV_MAX) ||
              ((Z.of_nat (length (msglist o)) == 1) && (UDP_MAX_PAYLOAD_SIZE <=? msgbytes o))
  | None => false
  end.

Definition pieces (o : output) : nat :=
  if Z.of_nat (length (msglist o)) == 1 then (if needs_header o then 2 else 3) else 1.

(** Before an entry is added a message is started where one is needed. *)
Lemma start_message o m ok1 o1 :
  building IOV_MAX o -> last (msglist o) = Some m -> 0 <= msg_iovlen m <= IOV_MAX ->
  (if needs_header o then addMsgHdr alloc_msg false o else (true, o)) = (ok1, o1) ->
  building IOV_MAX o1 /\ iov o1 = iov o /\ iovused o1 = iovused o /\
  (ok1 = true -> exists m1, last (msglist o1) = Some m1 /\ msg_iovlen m1 < IOV_MAX /\
     (if needs_header o then length (msglist o1) = S (length (msglist o)) /\ msgbytes o1 = 0
      else o1 = o)).
Proof.
  intros HB El Hmn E1. destruct (needs_header o) eqn:En.
  - pose proof (addMsgHdr_false_spec o HB) as HA. rewrite E1 in HA.
    destruct HA as (? & ? & ? & HA). split_and!; try done. intros ->.
    destruct HA as (HL & Hmb & m1 & Hl1 & Hn1). exists m1. split_and!; (done || lia).
  - injection E1 as <- <-. split_and!; try done. intros _. exists m.
    unfold needs_header in En. rewrite El in En. split_and!; (done || lia).
Qed.

(** Lists with the same lengths of messages have last messages of the same
    length. *)
Lemma same_last o1 o2 m1 :
  msg_iovlen <$> msglist o2 = msg_iovlen <$> msglist o1 -> last (msglist o1) = Some m1 ->
  length (msglist o2) = length (msglist o1) /\
  exists m2, last (msglist o2) = Some m2 /\ msg_iovlen m2 = msg_iovlen m1.
Proof.
  intros E El. split; [apply (f_equal length) in E; by rewrite !length_fmap in E|].
  apply (f_equal last) in E. rewrite !fmap_last, El in E.
  destruct (last (msglist o2)) as [m2|]; [|done]. exists m2. split; [done|]. by injection E.
Qed.

(** One pass of the loop: out of memory with nothing added, or a non-empty
    prefix of the buffer added. *)
Lemma addIov_pass fuel buf len o :
  building IOV_MAX o -> 0 < len ->
  (exists o', addIov_loop IOV_MAX alloc_msg alloc_iov (S fuel) buf len o = Some (false, o') /\
     building IOV_MAX o' /\
     take (Z.to_nat (iovused o')) (iov o') = take (Z.to_nat (iovused o)) (iov o)) \/
  (exists n o', 0 < n <= len /\ building IOV_MAX o' /\
     take (Z.to_nat (iovused o')) (iov o') =
       take (Z.to_nat (iovused o)) (iov o) ++ [mk_iovec buf n] /\
     addIov_loop IOV_MAX alloc_msg alloc_iov (S fuel) buf len o =
       (if n <? len then addIov_loop IOV_MAX alloc_msg alloc_iov fuel (buf + n) (len - n) o'
        else Some (true, o')) /\
     (n < len -> (pieces o' < pieces o)%nat)).
Proof.
  intros HB Hlen. destruct (building_last o HB) as (ms & m & E & El & Hms & Hmn & _ & Hend).
  cbn [addIov_loop]. rewrite El. cbn [mbind option_bind].
  set (limit := Z.of_nat (length (msglist o)) == 1).
  set (need := (msg_iovlen m == IOV_MAX) || (limit && (UDP_MAX_PAYLOAD_SIZE <=? msgbytes o))).
  assert (needs_header o = need) as Eneed by (unfold needs_header; by rewrite El).
  destruct (if need then addMsgHdr alloc_msg false o else (true, o)) as [ok1 o1] eqn:E1.
  rewrite <- Eneed in E1. destruct (start_message o m ok1 o1) as (HB1 & Hi1 & Hu1 & H1); [done..|].
  rewrite Eneed in H1, E1.
  destruct ok1; cbn [negb].
  2:{ left. exists o1. by rewrite Hi1, Hu1. }
  destruct (H1 eq_refl) as (m1 & Hl1 & Hn1 & Hneed). clear H1.
  pose proof (ensureIovSpace_spec o1 HB1) as HE.
  destruct (ensureIovSpace alloc_iov o1) as [ok2 o2].
  destruct HE as (HB2 & Hu2 & Hm2' & Hb2 & Ht2 & Hok2).
  destruct ok2; cbn [negb].
  2:{ left. exists o2. split_and!; [done|done|]. by rewrite Hu2, Ht2, Hi1, Hu1. }
  right. destruct (same_last o1 o2 m1 Hm2' Hl1) as (Hm2 & m2 & Hl2 & Hn2).
  set (leftover := if limit && _ then _ else _).
  assert (0 <= leftover < len /\ (limit = true -> leftover = 0 \/ len - leftover + msgbytes o2 = UDP_MAX_PAYLOAD_SIZE)
          /\ (0 < leftover -> limit = true)
          /\ (length (msglist o2) = 1%nat -> msgbytes o2 + (len - leftover) <= UDP_MAX_PAYLOAD_SIZE))
    as (Hlo & Hlim & Hlol & Hmtu).
  { subst leftover limit. pose proof (bd_first _ _ HB2) as Hf2. pose proof (bd_first _ _ HB) as Hf.
    rewrite Hm2, Hb2 in *. unfold UDP_MAX_PAYLOAD_SIZE in *.
    assert (length (msglist o) = 1%nat -> 0 <= msgbytes o1 < 1400) as Hr.
    { intros L. destruct (Hf L) as [_ Hr]. destruct need eqn:En; [|subst o1]; lia. }
    assert (length (msglist o1) = 1%nat -> length (msglist o) = 1%nat) as HL1.
    { destruct need; [|by subst o1]. destruct Hneed as [-> _].
      destruct (msglist o); [by destruct ms|done]. }
    lazymatch goal with |- context [if ?b then _ else 0] => destruct b eqn:El' end;
      split_and!; lia. }
  destruct (push_iov_spec o2 buf (len - leftover) m2) as (o3 & Hp & HB3 & HL3 & Ht3 & Hb3);
    [done|done|by rewrite Hn2|by rewrite Hu2|lia|done|].
  exists (len - leftover), o3. split_and!; [lia|lia|done| | |].
  - rewrite Ht3, Hu2, Ht2. by rewrite Hi1, Hu1.
  - rewrite Hp. cbn [mbind option_bind].
    destruct (0 <? leftover) eqn:Elo, (len - leftover <? len) eqn:Ell; try lia; [|done].
    f_equal. lia.
  - intros Hlt. assert (limit = true) as Hl by (apply Hlol; lia).
    unfold pieces at 2. fold limit. rewrite Hl, Eneed. rewrite Hm2 in *.
    destruct need.
    + destruct Hneed as [HL _]. unfold pieces. rewrite HL3, HL.
      destruct (Z.of_nat (S _) == 1) eqn:Ex; [subst limit; lia|lia].
    + subst o1. assert (length (msglist o) = 1%nat) as L by (subst limit; lia).
      unfold pieces. rewrite HL3, L. change (Z.of_nat 1 == 1) with true. cbv iota.
      assert (needs_header o3 = true) as ->; [|lia].
      destruct (building_last o3 HB3) as (? & ? & _ & El3 & _).
      unfold needs_header. rewrite El3, HL3, L, Hb3 by done.
      destruct (Hlim Hl) as [?|Hx]; [lia|]. lia.
Qed.

Lemma addIov_loop_spec fuel buf len o :
  building IOV_MAX o -> 0 < len -> (pieces o <= fuel)%nat ->
  exists ok n o', addIov_loop IOV_MAX alloc_msg alloc_iov fuel buf len o = Some (ok, o') /\
    building IOV_MAX o' /\ 0 <= n <= len /\ (ok = true <-> n = len) /\
    all_addresses (take (Z.to_nat (iovused o')) (iov o')) =
    all_addresses (take (Z.to_nat (iovused o)) (iov o)) ++ seqZ buf n.
Proof.
  revert buf len o. induction fuel as [|fuel IH]; intros buf len o HB Hlen Hf.
  { unfold pieces in Hf. repeat case_match; lia. }
  destruct (addIov_pass fuel buf len o HB Hlen)
    as [(o' & E & HB' & Ht)|(n & o' & Hn & HB' & Ht & E & Hp)].
  - exists false, 0, o'. rewrite Ht, app_nil_r. split_and!; (done || lia).
  - assert (all_addresses (take (Z.to_nat (iovused o')) (iov o')) =
            all_addresses (take (Z.to_nat (iovused o)) (iov o)) ++ seqZ buf n) as Ha
      by by rewrite Ht, all_addresses_app, all_addresses_singleton.
    rewrite E. destruct (n <? len) eqn:El.
    + destruct (IH (buf + n) (len - n) o') as (ok & n2 & o2 & E2 & HB2 & Hn2 & Hok & Ha2);
        [done|lia|specialize (Hp ltac:(lia)); lia|].
      exists ok, (n + n2), o2. split_and!; try done; try lia.
      rewrite Ha2, Ha, <- app_assoc. f_equal. by rewrite seqZ_app by lia.
    + exists true, n, o'. split_and!; (done || lia).
Qed.

End OutputProofs.

(** What [addIov] does to a well-formed list. *)
Lemma addIov_appends IOV_MAX alloc_msg alloc_iov buf len o :
  1 <= IOV_MAX -> building IOV_MAX o -> 0 <= len ->
  exists ok n o', addIov IOV_MAX alloc_msg alloc_iov buf len o = Some (ok, o') /\
    building IOV_MAX o' /\ 0 <= n <= len /\ (ok = true <-> n = len) /\
    pending o' = pending o ++ seqZ buf n.
Proof.
  intros HM HB Hlen. unfold pending. rewrite (building_pending IOV_MAX o HB).
  unfold addIov. destruct (len == 0) eqn:E0.
  { exists true, 0, o. rewrite (building_pending IOV_MAX o HB), app_nil_r.
    split_and!; (done || lia). }
  destruct (addIov_loop_spec IOV_MAX HM alloc_msg alloc_iov 3 buf len o)
    as (ok & n & o' & E & HB' & Hn & Hok & Ha); [done|lia| |].
  { unfold pieces. repeat case_match; lia. }
  exists ok, n, o'. rewrite (building_pending IOV_MAX o' HB'). split_and!; (done || lia).
Qed.

(** Only a failed allocation makes [addIov] fail. *)
Lemma addIov_oom IOV_MAX alloc_msg alloc_iov buf len o o' :
  addIov IOV_MAX alloc_msg alloc_iov buf len o = Some (false, o') ->
  exists k, alloc_msg k = false \/ alloc_iov k = false.
Proof.
  unfold addIov. destruct (len == 0); [congruence|].
  generalize 3%nat as fuel. intros fuel. revert buf len o.
  induction fuel as [|fuel IH]; intros buf len o; cbn [addIov_loop]; [done|].
  destruct (last (msglist o)) as [m|]; cbn [mbind option_bind]; [|done].
  destruct (if (msg_iovlen m == IOV_MAX) || _ then addMsgHdr alloc_msg false o else (true, o))
    as [[] o1] eqn:E1; cbn [negb].
  2:{ intros _. destruct (_ || _); [|done]. unfold addMsgHdr in E1.
      destruct (alloc_msg (S (length (msglist o)))) eqn:Ea; [done|]. eauto. }
  destruct (ensureIovSpace alloc_iov o1) as [[] o2] eqn:E2; cbn [negb].
  2:{ intros _. unfold ensureIovSpace in E2. destruct (_ <? _); [done|].
      destruct (alloc_iov (length (iov o1) * 2)%nat) eqn:Ea; [done|]. eauto. }
  destruct (push_iov _ _ o2) as [o3|]; cbn [mbind option_bind]; [|done].
  destruct (0 <? _); [apply IH|congruence].
Qed.

Lemma addIov_no_oom IOV_MAX alloc_msg alloc_iov buf len o ok o' :
  (forall n, alloc_msg n = true) -> (forall n, alloc_iov n = true) ->
  addIov IOV_MAX alloc_msg alloc_iov buf len o = Some (ok, o') -> ok = true.
Proof.
  intros Hm Hi E. destruct ok; [done|]. apply addIov_oom in E as (k & [Hk|Hk]).
  - by rewrite Hm in Hk.
  - by rewrite Hi in Hk.
Qed.

(** C32: [addIov] always returns (a buffer is split into at most three pieces),
    writes only inside [iov] and only through pointers into its current
    allocation, keeps the message list well formed (every message points into
    the current allocation of [iov], also after it grew; none is longer than
    [IOV_MAX] entries; the first one is not above [UDP_MAX_PAYLOAD_SIZE] bytes),
    and appends exactly the bytes it was given to what is to be sent; it fails
    only when a vector cannot be allocated, and has then appended a proper
    prefix of them. *)
Theorem addIov_spec IOV_MAX alloc_msg alloc_iov buf len o :
  1 <= IOV_MAX -> building IOV_MAX o -> 0 <= len ->
  exists ok n o', addIov IOV_MAX alloc_msg alloc_iov buf len o = Some (ok, o') /\
    building IOV_MAX o' /\ 0 <= n <= len /\ (ok = true <-> n = len) /\
    (ok = false -> exists k, alloc_msg k = false \/ alloc_iov k = false) /\
    pending o' = pending o ++ seqZ buf n.
Proof.
  intros HM HB Hlen.
  destruct (addIov_appends IOV_MAX alloc_msg alloc_iov buf len o HM HB Hlen)
    as (ok & n & o' & E & HB' & Hn & Hok & Hp).
  exists ok, n, o'. split_and!; try done; try lia. intros ->. exact (addIov_oom _ _ _ _ _ _ _ E).
Qed.

(** ** Transmission *)

(** A list that is being sent: the entries of the messages still to be sent lie
    in [iov], in order and without overlap, and none is empty. *)
Fixpoint ordered (block k : Z) (msgs : list msghdr) (e : Z) : Prop :=
  match msgs with
  | [] => k <= e
  | m :: msgs =>
      k <= msg_iov m /\ 0 <= msg_iovlen m /\ msg_block m = block /\
      ordered block (msg_iov m + msg_iovlen m) msgs e
  end.

Record sendable (o : output) : Prop := {
  sd_curr : 0 <= msgcurr o <= Z.of_nat (length (msglist o));
  sd_msgs : ordered (iov_block o) 0 (drop (Z.to_nat (msgcurr o)) (msglist o))
    (Z.of_nat (length (iov o)));
  sd_pos : Forall (fun v => 0 < iov_len v) (pending_entries o);
}.

(** The message [transmit] sends. *)
Definition current_message (o : output) : option msghdr :=
  msglist o !! Z.to_nat (skip_finished (drop (Z.to_nat (msgcurr o)) (msglist o)) (msgcurr o)).

(** What [sendmsg] guarantees: it does not send more than it is given. *)
Definition sendmsg_ok (o : output) (send : send_result) : Prop :=
  match send, current_message o with
  | Sent n, Some m => n <= total_len (segment (iov o) m)
  | _, _ => True
  end.

Lemma ordered_weaken blk k k' msgs e : k' <= k -> ordered blk k msgs e -> ordered blk k' msgs e.
Proof. destruct msgs; cbn; [lia|]. intros Hk (H1 & H2 & H3). split; [lia|by split]. Qed.

Lemma ordered_le blk k msgs e : ordered blk k msgs e -> k <= e.
Proof.
  revert k. induction msgs as [|m msgs IH]; intros k; cbn; [done|].
  intros (? & ? & _ & ?%IH). lia.
Qed.

Lemma contiguous_ordered IOV_MAX blk k msgs e e' :
  contiguous IOV_MAX blk k msgs e -> e <= e' -> ordered blk k msgs e'.
Proof.
  revert k. induction msgs as [|m msgs IH]; intros k; cbn; [lia|].
  intros (<- & H2 & Hb & H3) ?. split; [lia|]. split; [lia|]. split; [done|by apply IH].
Qed.

Lemma building_sendable IOV_MAX o : building IOV_MAX o -> sendable o.
Proof.
  intros HB. split.
  - rewrite (bd_curr _ _ HB). lia.
  - rewrite (bd_curr _ _ HB). change (drop (Z.to_nat 0) (msglist o)) with (msglist o).
    eapply contiguous_ordered; [apply (bd_msgs _ _ HB)|apply (bd_used _ _ HB)].
  - rewrite (building_pending IOV_MAX o HB). apply (bd_pos _ _ HB).
Qed.

(** Changing an entry in front of some messages does not change theirs. *)
Lemma segments_insert vs j v blk k msgs e :
  0 <= j < k -> ordered blk k msgs e ->
  msgs ≫= segment (<[Z.to_nat j := v]> vs) = msgs ≫= segment vs.
Proof.
  intros Hj. revert k Hj. induction msgs as [|m msgs IH]; intros k Hj; cbn; [done|].
  intros (Hm & Hn & _ & HO). rewrite (IH (msg_iov m + msg_iovlen m) ltac:(lia) HO). f_equal. unfold segment.
  by rewrite drop_insert_lt by lia.
Qed.

Lemma skip_finished_spec vs l c blk k e :
  ordered blk k l e ->
  exists j, skip_finished l c = c + Z.of_nat j /\ (j <= length l)%nat /\
    l ≫= segment vs = drop j l ≫= segment vs /\ ordered blk k (drop j l) e /\
    match drop j l with m :: _ => msg_iovlen m <> 0 | [] => True end.
Proof.
  revert c k. induction l as [|m l IH]; intros c k; cbn [skip_finished].
  { intros. exists 0%nat. cbn. split_and!; (done || lia). }
  intros (Hk & Hn & Hb & HO). destruct (msg_iovlen m == 0) eqn:E.
  - destruct (IH (c + 1) _ HO) as (j & -> & Hj & Hs & HO' & Hd).
    exists (S j). cbn [drop length]. split_and!; [lia|lia| |eapply ordered_weaken; [|done]; lia|done].
    rewrite <- Hs. cbn. unfold segment at 1. by replace (Z.to_nat (msg_iovlen m)) with 0%nat by lia.
  - exists 0%nat. cbn. split_and!; try done; lia.
Qed.

Lemma total_len_nonneg vs : Forall (fun v => 0 < iov_len v) vs -> 0 <= total_len vs.
Proof. induction 1; cbn; [done|]. unfold total_len in *. lia. Qed.

Lemma length_all_addresses vs :
  Forall (fun v => 0 < iov_len v) vs -> Z.of_nat (length (all_addresses vs)) = total_len vs.
Proof.
  induction 1 as [|v vs Hv Hvs IH]; [done|]. change (v :: vs) with ([v] ++ vs).
  rewrite all_addresses_app, all_addresses_singleton, total_len_app, length_app.
  unfold addresses. rewrite length_seqZ. cbn. lia.
Qed.

(** The loop that removes the completed entries. *)
Lemma consume_spec vs k rem res :
  0 <= k -> k + Z.of_nat rem <= Z.of_nat (length vs) ->
  let es := take rem (drop (Z.to_nat k) vs) in
  Forall (fun v => 0 < iov_len v) es -> 0 <= res <= total_len es ->
  exists k' rem' res', consume vs k rem res = Some (k', rem', res') /\
    k <= k' /\ k' + Z.of_nat rem' = k + Z.of_nat rem /\ 0 <= res' <= res /\
    let es' := take rem' (drop (Z.to_nat k') vs) in
    Forall (fun v => 0 < iov_len v) es' /\
    drop (Z.to_nat res) (all_addresses es) = drop (Z.to_nat res') (all_addresses es') /\
    res - res' = total_len es - total_len es' /\
    match es' with [] => res' = 0 | v :: _ => res' < iov_len v end.
Proof.
  revert k res. induction rem as [|rem IH]; intros k res Hk Hl es Hp Hr.
  { change es with (@nil iovec) in *. change (total_len []) with 0 in Hr.
    exists k, 0%nat, res. cbn zeta. change (take 0 _) with (@nil iovec).
    split_and!; (done || lia). }
  cbn [consume]. destruct (lookup_lt_is_Some_2 vs (Z.to_nat k)) as [v Hv]; [lia|].
  assert (es = v :: take rem (drop (Z.to_nat (k + 1)) vs)) as Ees.
  { subst es. rewrite (drop_S _ _ _ Hv). cbn [take]. do 2 f_equal.
    replace (Z.to_nat (k + 1)) with (S (Z.to_nat k)) by lia. done. }
  rewrite Hv. cbn [mbind option_bind]. rewrite Ees in Hp, Hr.
  inversion_clear Hp as [|? ? Hv0 Hp'].
  destruct (iov_len v <=? res) eqn:E.
  - destruct (IH (k + 1) (res - iov_len v)) as (k' & rem' & res' & Ec & H1 & H2 & H3 & H4 & H5 & H6 & H7);
      [lia|lia|done|cbn in Hr; unfold total_len in *; lia|].
    exists k', rem', res'. split_and!; try done; try lia.
    + rewrite <- H5, Ees. change (v :: ?l) with ([v] ++ l).
      rewrite all_addresses_app, all_addresses_singleton.
      rewrite drop_app_ge by (unfold addresses; rewrite length_seqZ; lia).
      f_equal. unfold addresses. rewrite length_seqZ. lia.
    + rewrite Ees. cbn. unfold total_len in *. lia.
  - exists k, (S rem), res. fold es. rewrite Ees. split_and!; try done; try lia.
    by constructor.
Qed.

Lemma cut_entry_spec vs blk k (rem : nat) res rest :
  0 <= k -> k + Z.of_nat rem <= Z.of_nat (length vs) ->
  ordered blk (k + Z.of_nat rem) rest (Z.of_nat (length vs)) ->
  let es := take rem (drop (Z.to_nat k) vs) in
  Forall (fun v => 0 < iov_len v) es -> 0 <= res ->
  match es with [] => res = 0 | v :: _ => res < iov_len v end ->
  exists vs', cut_entry vs k res = Some vs' /\ length vs' = length vs /\
    rest ≫= segment vs' = rest ≫= segment vs /\
    Forall (fun v => 0 < iov_len v) (take rem (drop (Z.to_nat k) vs')) /\
    all_addresses (take rem (drop (Z.to_nat k) vs')) = drop (Z.to_nat res) (all_addresses es) /\
    if decide (rem = 0%nat) then vs' = vs
    else exists v, vs' !! Z.to_nat k = Some v /\ 0 < iov_len v.
Proof.
  intros Hk Hl HO es Hp Hr Hhd. unfold cut_entry. destruct rem as [|rem].
  { change es with (@nil iovec) in *. cbv iota in Hhd. subst res. exists vs. by split_and!. }
  destruct (lookup_lt_is_Some_2 vs (Z.to_nat k)) as [v Hv]; [lia|].
  assert (es = v :: take rem (drop (S (Z.to_nat k)) vs)) as Ees
    by (subst es; by rewrite (drop_S _ _ _ Hv)).
  rewrite Ees in Hp, Hhd. inversion_clear Hp as [|? ? Hv0 Hp'].
  destruct (0 <? res) eqn:E.
  2:{ exists vs. fold es. rewrite Ees. replace (Z.to_nat res) with 0%nat by lia.
      split_and!; try done; [by constructor|]. case_decide; [done|]. by exists v. }
  rewrite Hv. cbn [mbind option_bind].
  set (w := mk_iovec (iov_base v + res) (iov_len v - res)).
  set (vs' := <[Z.to_nat k:=w]> vs).
  assert (vs' !! Z.to_nat k = Some w) as Hw by (apply list_lookup_insert_eq; lia).
  assert (take (S rem) (drop (Z.to_nat k) vs') = w :: take rem (drop (S (Z.to_nat k)) vs)) as Et.
  { rewrite (drop_S _ _ _ Hw). cbn [take]. do 2 f_equal. apply drop_insert_lt. lia. }
  exists vs'. rewrite Et. split_and!.
  - done.
  - apply length_insert.
  - eapply segments_insert; [|exact HO]. lia.
  - constructor; [|done]. cbn. lia.
  - rewrite Ees. change (?x :: ?l) with ([x] ++ l).
    rewrite !all_addresses_app, !all_addresses_singleton. unfold addresses.
    rewrite drop_app_le by (rewrite length_seqZ; lia). f_equal. cbn [w iov_base iov_len].
    replace (iov_len v) with (res + (iov_len v - res)) at 2 by lia.
    rewrite seqZ_app by lia. rewrite drop_app_length' by (rewrite length_seqZ; lia). done.
  - case_decide; [done|]. exists w. split; [done|]. cbn. lia.
Qed.

(** Stepping over the finished messages changes nothing that is pending. *)
Lemma current_message_spec o :
  sendable o ->
  let cur := skip_finished (drop (Z.to_nat (msgcurr o)) (msglist o)) (msgcurr o) in
  let o1 := mk_output (iov o) (iovused o) (msglist o) cur (msgbytes o) (iov_block o) in
  sendable o1 /\ pending_entries o1 = pending_entries o /\
  match msglist o !! Z.to_nat cur with
  | None => pending_entries o = []
  | Some m =>
      msg_iovlen m <> 0 /\ msg_block m = iov_block o /\
      exists rest, drop (Z.to_nat cur) (msglist o) = m :: rest
  end.
Proof.
  intros [Hc HO Hp] cur o1.
  destruct (skip_finished_spec (iov o) _ (msgcurr o) _ _ _ HO) as (j & Ej & Hj & Hs & HO' & Hd).
  rewrite drop_drop in *. rewrite length_drop in Hj.
  assert (Z.to_nat cur = Z.to_nat (msgcurr o) + j)%nat as Ecur by (subst cur; lia).
  assert (pending_entries o1 = pending_entries o) as Epe.
  { unfold pending_entries. cbn [o1 msgcurr msglist iov iov_block]. by rewrite Ecur, Hs. }
  split_and!; [split; cbn [o1 msgcurr msglist iov iov_block]|done|].
  - subst cur. lia.
  - by rewrite Ecur.
  - by rewrite Epe.
  - rewrite Ecur. destruct (msglist o !! _) as [m|] eqn:Em.
    + rewrite (drop_S _ _ _ Em) in Hd, HO'. split; [done|]. split; [apply HO'|].
      eexists. by apply drop_S.
    + rewrite <- Epe. unfold pending_entries. cbn [o1 msgcurr msglist iov iov_block]. rewrite Ecur.
      by rewrite drop_ge by by apply lookup_ge_None.
Qed.

(** All of a message is consumed exactly when no entry remains. *)
Lemma consumed_all vs k rem res n total :
  (rem <= length vs - Z.to_nat k)%nat ->
  let es := take rem (drop (Z.to_nat k) vs) in
  Forall (fun v => 0 < iov_len v) es -> n - res = total - total_len es ->
  match es with [] => res = 0 | v :: _ => res < iov_len v end ->
  rem = 0%nat <-> n = total.
Proof.
  intros Hrem es Hp Hn Hres. split.
  - intros ->. subst es. change (take 0 _) with (@nil iovec) in *.
    change (total_len []) with 0 in Hn. cbn in Hres. lia.
  - intros En. destruct rem as [|rem]; [done|]. exfalso. destruct es as [|v es'] eqn:Ees.
    + apply (f_equal length) in Ees. unfold es in Ees. rewrite length_take, length_drop in Ees.
      cbn [length] in Ees. lia.
    + inversion_clear Hp as [|? ? Hv0 Hes]. pose proof (total_len_nonneg _ Hes).
      cbn in Hn. unfold total_len in *. lia.
Qed.

(** A message list whose current message was replaced. *)
Lemma drop_replaced (ms : list msghdr) i m m' rest :
  drop i ms = m :: rest -> drop i (<[i := m']> ms) = m' :: rest.
Proof.
  intros Hd. assert (i < length ms)%nat.
  { apply (f_equal length) in Hd. rewrite length_drop in Hd. cbn in Hd. lia. }
  rewrite (drop_S _ m') by (by apply list_lookup_insert_eq).
  f_equal. rewrite drop_insert_lt by lia.
  apply (f_equal (drop 1)) in Hd. rewrite drop_drop, Nat.add_1_r in Hd. done.
Qed.

(** What sending [n] bytes of the current message leaves. *)
Lemma send_step o m rest cur n :
  sendable o -> msgcurr o = cur -> drop (Z.to_nat cur) (msglist o) = m :: rest ->
  msg_iovlen m <> 0 -> 0 < n <= total_len (segment (iov o) m) ->
  exists k rem res vs,
    consume (iov o) (msg_iov m) (Z.to_nat (msg_iovlen m)) n = Some (k, rem, res) /\
    cut_entry (iov o) k res = Some vs /\ length vs = length (iov o) /\ 0 <= k /\
    k + Z.of_nat rem = msg_iov m + msg_iovlen m /\
    (rem = 0%nat <-> n = total_len (segment (iov o) m)) /\
    (if decide (rem = 0%nat) then vs = iov o
     else exists v, vs !! Z.to_nat k = Some v /\ 0 < iov_len v) /\
    forall c, c = cur \/ (c = cur + 1 /\ rem = 0%nat) ->
      let o' := mk_output vs (iovused o)
                  (<[Z.to_nat cur := mk_msghdr k (Z.of_nat rem) (msg_block m)]> (msglist o))
                  c (msgbytes o) (iov_block o) in
      sendable o' /\ pending o' = drop (Z.to_nat n) (pending o) /\
      take (Z.to_nat n) (pending o) = take (Z.to_nat n) (all_addresses (segment (iov o) m)).
Proof.
  intros [Hc HO Hp] <- Hd Hm Hn. rewrite Hd in HO.
  destruct HO as (Hk & Hl & Hb & HO).
  assert (pending_entries o = segment (iov o) m ++ (rest ≫= segment (iov o))) as Epe
    by (unfold pending_entries; by rewrite Hd).
  rewrite Epe in Hp. apply Forall_app in Hp as [Hp1 Hp2].
  pose proof (ordered_le _ _ _ _ HO) as Hle.
  destruct (consume_spec (iov o) (msg_iov m) (Z.to_nat (msg_iovlen m)) n)
    as (k & rem & res & Ec & H1 & H2 & H3 & H4 & H5 & H6 & H7);
    [lia|lia|done|unfold segment in Hn; lia|].
  rewrite Z2Nat.id in H2 by lia. fold (segment (iov o) m) in H5, H6.
  destruct (cut_entry_spec (iov o) (iov_block o) k rem res rest)
    as (vs & Ecut & HL & Hrest & Hpos & Ha & Hv); [lia|lia|by rewrite H2|done|lia|done|].
  assert (rem = 0%nat <-> n = total_len (segment (iov o) m)) as Hrem.
  { eapply consumed_all; [|exact H4|exact H6|exact H7]. lia. }
  exists k, rem, res, vs. do 7 (split; [done || lia|]).
  intros c Hcc. cbn zeta.
  assert (Z.to_nat (msgcurr o) < length (msglist o))%nat as Hcl.
  { apply (f_equal length) in Hd. rewrite length_drop in Hd. cbn in Hd. lia. }
  set (m' := mk_msghdr k (Z.of_nat rem) (msg_block m)).
  assert (drop (Z.to_nat (msgcurr o)) (<[Z.to_nat (msgcurr o) := m']> (msglist o)) = m' :: rest) as Ed
    by (by eapply drop_replaced).
  assert (segment vs m' = take rem (drop (Z.to_nat k) vs)) as Eseg
    by (unfold segment; cbn [m' msg_iov msg_iovlen]; by rewrite Nat2Z.id).
  set (o' := mk_output _ _ _ _ _ _).
  assert (pending_entries o' = take rem (drop (Z.to_nat k) vs) ++ (rest ≫= segment (iov o)) /\
          ordered (iov_block o) 0 (drop (Z.to_nat c) (msglist o')) (Z.of_nat (length vs))) as [Epe' HO'].
  { unfold pending_entries. cbn [o' msgcurr msglist iov iov_block]. destruct Hcc as [->|[-> ->]].
    - rewrite Ed. cbn [mbind list_bind]. rewrite Eseg. split; [by rewrite Hrest|].
      cbn [m' ordered msg_iov msg_iovlen msg_block]. rewrite H2, HL. split_and!; (done || lia).
    - replace (Z.to_nat (msgcurr o + 1)) with (Z.to_nat (msgcurr o) + 1)%nat by lia.
      rewrite <- drop_drop, Ed. cbn [drop take app]. split; [done|].
      rewrite HL. eapply ordered_weaken; [|exact HO]. lia. }
  split_and!.
  - split; cbn [o' msgcurr msglist iov iov_block]; [|done|].
    + rewrite length_insert. lia.
    + rewrite Epe', Forall_app. done.
  - unfold pending. rewrite Epe', Epe, !all_addresses_app, Ha.
    rewrite drop_app_le; [by rewrite H5|]. pose proof (length_all_addresses _ Hp1). lia.
  - unfold pending. rewrite Epe, all_addresses_app, take_app_le; [done|].
    pose proof (length_all_addresses _ Hp1). lia.
Qed.

(** The bytes [transmit] hands to the socket when [sendmsg] takes [n]. *)
Definition handed (o : output) (n : Z) : list Z :=
  match current_message o with
  | Some m => take (Z.to_nat n) (all_addresses (segment (iov o) m))
  | None => []
  end.

(** [transmit] sends from the front of what is pending: the bytes handed to
    [sendmsg] are the first [n] pending ones, exactly the others are pending
    afterwards; nothing is reported complete while anything is pending. *)
(** The bytes of a message that are taken are not none. *)
Lemma sent_nonempty o m rest cur k :
  sendable o -> msgcurr o = cur -> drop (Z.to_nat cur) (msglist o) = m :: rest ->
  0 < k <= total_len (segment (iov o) m) ->
  take (Z.to_nat k) (all_addresses (segment (iov o) m)) <> [].
Proof.
  intros [_ _ Hp1] <- Hd Hk. unfold pending_entries in Hp1. rewrite Hd in Hp1. cbn in Hp1.
  apply Forall_app in Hp1 as [Hpos _].
  intros En. apply (f_equal length) in En. rewrite length_take in En. cbn [length] in En.
  pose proof (length_all_addresses _ Hpos). lia.
Qed.

(** Nothing is pending behind the last message. *)
Lemma pending_at_end vs used ms cur n blk :
  Z.of_nat (length ms) <= cur -> pending (mk_output vs used ms cur n blk) = [].
Proof.
  intros. unfold pending, pending_entries. cbn [msgcurr msglist iov iov_block]. by rewrite drop_ge by lia.
Qed.

Lemma transmit_step e send o r o' n :
  sendable o -> sendmsg_ok o send -> transmit e send o = Some (r, o', n) ->
  sendable o' /\ pending o = handed o n ++ pending o' /\
  (r = Complete -> pending o' = []) /\ (r = Incomplete -> handed o n <> []).
Proof.
  intros Ho Hsend. assert (handed o 0 = []) as H0 by (unfold handed; by case_match).
  destruct (current_message_spec o Ho) as (Ho1 & Epe & Hcur). unfold transmit.
  destruct (ssl_enabled e && ssl_pending_before e).
  { intros [= <- <- <-]. rewrite H0. unfold wait_for_socket.
    split_and!; try done; by destruct (_ || _). }
  unfold sendmsg_ok, handed in *. unfold current_message in *. revert Hsend Hcur Ho1 Epe H0.
  set (cur := skip_finished _ _). set (o1 := mk_output _ _ _ cur _ _). intros Hsend Hcur Ho1 Epe H0.
  assert (pending o1 = pending o) as Epend by (unfold pending; by rewrite Epe).
  change (msglist o1) with (msglist o). change (iov o1) with (iov o).
  destruct (msglist o !! Z.to_nat cur) as [m|].
  2:{ intros [= <- <- <-]. rewrite Epend. split_and!; try done.
      intros _. unfold pending. by rewrite Hcur. }
  destruct Hcur as (Hm & Hblk & rest & Hd).
  change (iov_block o1) with (iov_block o). rewrite Hblk, Z.eqb_refl. cbn [negb].
  destruct send as [k| |].
  2:{ intros [= <- <- <-]. rewrite Epend, H0. unfold wait_for_socket.
      split_and!; try done; by destruct (negb _). }
  2:{ intros [= <- <- <-]. rewrite Epend, H0. by split_and!. }
  destruct (0 <? k) eqn:Ek.
  2:{ intros [= <- <- <-]. rewrite Epend, H0. by split_and!. }
  destruct (send_step o1 m rest cur k Ho1 eq_refl Hd Hm) as
    (k' & rem & res & vs & Ec & Ecut & HL & Hk' & Hend & Hfull & Hv & Hpost); [cbn; lia|].
  rewrite Epend, Hblk in Hpost.
  change (iov o1) with (iov o) in *. change (iov_block o1) with (iov_block o) in *.
  rewrite Ec. cbn [mbind option_bind]. rewrite Ecut. cbn [mbind option_bind].
  assert (take (Z.to_nat k) (all_addresses (segment (iov o) m)) <> []) as Hne.
  { apply (sent_nonempty o1 m rest cur k Ho1 eq_refl Hd). cbn. lia. }
  intros H. apply bind_Some in H as (v & Hvk & H).
  assert (forall c, c = cur \/ c = cur + 1 /\ rem = 0%nat ->
    let o' := mk_output vs (iovused o1)
      (<[Z.to_nat cur:=mk_msghdr k' (Z.of_nat rem) (iov_block o)]> (msglist o1)) c (msgbytes o1)
      (iov_block o) in
    sendable o' /\ pending o = take (Z.to_nat k) (all_addresses (segment (iov o) m)) ++ pending o')
    as Hpost'.
  { intros c Hc. destruct (Hpost c Hc) as (Hs & Hp & Ht). split; [done|].
    rewrite Hp, <- Ht. by rewrite take_drop. }
  destruct (iov_len v == 0) eqn:Ev.
  - assert (rem = 0%nat) as Hrem.
    { destruct (decide (rem = 0%nat)) as [|Hnr]; [done|].
      destruct Hv as (w & Hw & Hw0). rewrite Hw in Hvk. injection Hvk as ->. lia. }
    destruct (Hpost' (cur + 1)) as (Hs' & Hp'); [by right|].
    destruct (cur + 1 == _) eqn:Eend.
    + assert (pending (mk_output vs (iovused o1)
          (<[Z.to_nat cur:=mk_msghdr k' (Z.of_nat rem) (iov_block o)]> (msglist o1)) (cur + 1)
          (msgbytes o1) (iov_block o)) = [])
        as Hnil by (apply pending_at_end; rewrite length_insert in *; cbn [o1 msglist]; lia).
      destruct (ssl_enabled e && ssl_pending_after e); injection H as <- <- <-;
        split_and!; try done; unfold wait_for_socket; by destruct (_ || _).
    + injection H as <- <- <-. by split_and!.
  - destruct (Hpost' cur) as (Hs' & Hp'); [by left|].
    injection H as <- <- <-. by split_and!.
Qed.

(** A run of [transmit] calls, and the bytes it handed to the socket. *)
Inductive sending : output -> list Z -> output -> Prop :=
| sending_refl o : sending o [] o
| sending_step o e send r o1 n bs o2 :
    sendmsg_ok o send -> transmit e send o = Some (r, o1, n) -> sending o1 bs o2 ->
    sending o (handed o n ++ bs) o2.

Lemma sending_pending o bs o' :
  sending o bs o' -> sendable o -> sendable o' /\ pending o = bs ++ pending o'.
Proof.
  induction 1 as [o|o e send r o1 n bs o2 Hok Ht _ IH]; intros Ho; [done|].
  destruct (transmit_step _ _ _ _ _ _ Ho Hok Ht) as (Ho1 & -> & _).
  destruct (IH Ho1) as [Ho2 ->]. by rewrite app_assoc.
Qed.

(** C16: a response is sent completely, in order and once: after any number of
    [transmit] calls, whatever part of a message the socket takes each time,
    the bytes handed to it followed by the pending ones are the bytes that were
    added; and when a call reports completion there are none pending. *)
Theorem response_sent_once IOV_MAX o bs o' e send r o'' n :
  building IOV_MAX o -> sending o bs o' ->
  sendmsg_ok o' send -> transmit e send o' = Some (r, o'', n) ->
  pending o = bs ++ handed o' n ++ pending o'' /\
  (r = Complete -> bs ++ handed o' n = pending o) /\
  (r = Incomplete -> handed o' n <> []).
Proof.
  intros HB Hs Hok Ht. apply building_sendable in HB.
  destruct (sending_pending _ _ _ Hs HB) as [Ho' Hp].
  destruct (transmit_step _ _ _ _ _ _ Ho' Hok Ht) as (_ & Hp' & Hc & Hi).
  rewrite Hp, Hp'. split_and!; [done| |done].
  intros ->. by rewrite (Hc eq_refl), app_nil_r.
Qed.

(** After [sendmsg] took a whole message, [transmit] looks at the entry
    behind it: exactly when that message ends at the end of the [iov] vector it
    reads outside the vector. *)
Theorem transmit_reads_outside e send o :
  sendable o -> sendmsg_ok o send ->
  transmit e send o = None <->
  ssl_enabled e && ssl_pending_before e = false /\
  exists m n, current_message o = Some m /\ send = Sent n /\
    0 < n /\ n = total_len (segment (iov o) m) /\
    msg_iov m + msg_iovlen m = Z.of_nat (length (iov o)).
Proof.
  intros Ho Hsend. destruct (current_message_spec o Ho) as (Ho1 & Epe & Hcur).
  unfold transmit. destruct (ssl_enabled e && ssl_pending_before e); [split; [done|by intros []]|].
  unfold sendmsg_ok, current_message in *. revert Hsend Hcur Ho1 Epe.
  set (cur := skip_finished _ _). set (o1 := mk_output _ _ _ cur _ _). intros Hsend Hcur Ho1 Epe.
  change (msglist o1) with (msglist o). change (iov o1) with (iov o).
  destruct (msglist o !! Z.to_nat cur) as [m|].
  2:{ split; [done|]. by intros (_ & m & n & ? & _). }
  destruct Hcur as (Hm & Hblk & rest & Hd).
  change (iov_block o1) with (iov_block o). rewrite Hblk, Z.eqb_refl. cbn [negb].
  destruct send as [k| |].
  2:{ split; [done|]. by intros (_ & ? & n & _ & ? & _). }
  2:{ split; [done|]. by intros (_ & ? & n & _ & ? & _). }
  destruct (0 <? k) eqn:Ek.
  2:{ split; [done|]. intros (_ & ? & n & _ & [= <-] & ? & _). lia. }
  destruct (send_step o1 m rest cur k Ho1 eq_refl Hd Hm) as
    (k' & rem & res & vs & Ec & Ecut & HL & Hk' & Hend & Hfull & Hv & _); [cbn; lia|].
  change (iov o1) with (iov o) in *.
  rewrite Ec. cbn [mbind option_bind]. rewrite Ecut. cbn [mbind option_bind].
  destruct (vs !! Z.to_nat k') as [v|] eqn:Evk; cbn [mbind option_bind].
  - split; [intros H; repeat case_match; discriminate H|].
    intros (_ & ? & n & [= <-] & [= <-] & _ & Hn & Hl). exfalso.
    apply Hfull in Hn. apply lookup_lt_Some in Evk. lia.
  - split; [|done]. intros _. split; [done|]. exists m, k. apply lookup_ge_None in Evk.
    destruct (decide (rem = 0%nat)) as [->|Hnr].
    + split_and!; try done; [lia|by apply Hfull|].
      destruct Ho1 as [_ HO _]. cbn [o1 msgcurr msglist iov iov_block] in HO. rewrite Hd in HO.
      destruct HO as (_ & _ & _ & HO). apply ordered_le in HO. cbn [Z.of_nat] in Hend. lia.
    + by destruct Hv as (w & Hw & _).
Qed.

(** ** Examples *)

(** Starting a message list on a connection without one. *)
Lemma addMsgHdr_true_building IOV_MAX alloc_msg o o' :
  0 <= IOV_MAX -> (1 <= length (iov o))%nat -> addMsgHdr alloc_msg true o = (true, o') ->
  building IOV_MAX o' /\ pending o' = [].
Proof.
  intros HM Hi. unfold addMsgHdr. cbn [iov iovused msglist msgcurr msgbytes app].
  destruct (alloc_msg _); [|done]. intros [= <-]. split; [|done].
  split; cbn [iov iovused msglist msgcurr msgbytes]; try done; try lia.
Qed.

Definition always (n : nat) : bool := true.

(** A message list with nothing to send. *)
Definition started : output := (addMsgHdr always true initial_output).2.

Lemma started_building : building 1024 started.
Proof.
  apply (addMsgHdr_true_building 1024 always initial_output started); [lia|cbn; lia|done].
Qed.

(** A message that fills the ten entries a connection starts with. *)
Definition full : output :=
  mk_output ((fun k => mk_iovec (1000 * k) 24) <$> seqZ 1 10) 10 [mk_msghdr 0 10 0] 0 240 0.

Lemma full_building : building 1024 full.
Proof. split; cbn; try done; try lia; by repeat constructor. Qed.

(** A value of 3000 bytes at address 50000 is added to it: the vector grows and
    moves, and the value is added in pieces of 1160, 1400 and 440 bytes. *)
Lemma addIov_spec_witness :
  exists o', addIov 1024 always always 50000 3000 full = Some (true, o') /\
    building 1024 o' /\ iov_block o' = 1 /\ pending o' = pending full ++ seqZ 50000 3000.
Proof.
  destruct (addIov_spec 1024 always always 50000 3000 full)
    as (ok & n & o' & E & HB & Hn & Hok & Hf & Hp); [lia|exact full_building|lia|].
  destruct ok.
  - exists o'. rewrite (proj1 Hok eq_refl) in Hp. split_and!; [done|done| |done].
    vm_compute in E. injection E as <-. reflexivity.
  - destruct (Hf eq_refl) as (k & [Hk|Hk]); discriminate Hk.
Defined.

(** A response of one entry of 24 bytes of which [sendmsg] takes 10 and then
    the rest. *)
Definition one_entry : output :=
  mk_output (mk_iovec 1000 24 :: replicate 9 (mk_iovec 0 0)) 1 [mk_msghdr 0 1 0] 0 24 0.

Definition one_entry_left : output :=
  mk_output (mk_iovec 1010 14 :: replicate 9 (mk_iovec 0 0)) 1 [mk_msghdr 0 1 0] 0 24 0.

Definition one_entry_sent : output :=
  mk_output (mk_iovec 1010 14 :: replicate 9 (mk_iovec 0 0)) 1 [mk_msghdr 1 0 0] 1 24 0.

Definition plain : transmit_env := mk_env false false false false true.

Lemma one_entry_building : building 1024 one_entry.
Proof.
  split; cbn; try done; try lia.
  by repeat constructor.
Qed.

Lemma response_sent_once_witness :
  handed one_entry 10 ++ handed one_entry_left 14 = pending one_entry.
Proof.
  apply (response_sent_once 1024 one_entry (handed one_entry 10 ++ []) one_entry_left plain (Sent 14)
           Complete one_entry_sent 14).
  - exact one_entry_building.
  - apply (sending_step one_entry plain (Sent 10) Incomplete one_entry_left 10);
      [vm_compute; congruence|reflexivity|apply sending_refl].
  - vm_compute; congruence.
  - reflexivity.
  - reflexivity.
Defined.

(** A response that uses all ten entries a connection starts with. *)
Definition all_entries : output :=
  mk_output ((fun k => mk_iovec (1000 * k) 100) <$> seqZ 1 10) 10 [mk_msghdr 0 10 0] 0 1000 0.

Lemma transmit_reads_outside_witness : transmit plain (Sent 1000) all_entries = None.
Proof.
  apply (transmit_reads_outside plain (Sent 1000) all_entries).
  - split; [vm_compute; split; congruence|vm_compute; split_and!; congruence|].
    vm_compute. repeat constructor.
  - vm_compute; congruence.
  - split; [reflexivity|]. exists (mk_msghdr 0 10 0), 1000. by split_and!.
Defined.
