(* ===== verification/Buffers.v ===== *)
(** * The buffers a worker thread shares among its connections

    [daemon/connections.cc]: a worker thread keeps one read and one write
    buffer, loans them to the connection that runs and takes them back when the
    run ends ([conn_loan_buffers], [conn_return_buffers], called by
    [McbpConnection::runEventLoop]); [conn_cleanup] and the destructor give up
    what a connection still has.

    Pointers are addresses, 0 is [NULL].  [live] is the set of allocated
    buffers; freeing an address that is not in it fails, and so does an
    assertion of the code: both are [None].  The results of [cb_malloc] and
    [cb_realloc] are arguments (0 when they fail). *)

From stdpp Require Import gmap.
From S2P Require Import Prelude Input.

(** [struct net_buf] with its pointers. *)
Record shared_buf := mk_shared {
  buf : Z;
  bcurr : Z;
  bsize : Z;
  bbytes : Z;
}.

Definition no_buf : shared_buf := mk_shared 0 0 0 0.

(** What the loan and return functions use of a connection: whether it has a
    thread, a TAP iterator, is a DCP connection, and whether its state was set
    to [conn_closing]. *)
Record conn_bufs := mk_conn {
  has_thread : bool;
  isTAP : bool;
  isDCP : bool;
  closing : bool;
  cread : shared_buf;
  cwrite : shared_buf;
}.

Record thread_stats := mk_stats {
  rbufs_allocated : Z;
  rbufs_loaned : Z;
  rbufs_existing : Z;
  wbufs_allocated : Z;
  wbufs_loaned : Z;
}.

Record worker := mk_worker {
  tread : shared_buf;
  twrite : shared_buf;
  stats : thread_stats;
  live : gset Z;
  conns : gmap nat conn_bufs;
}.

Inductive BufferLoan :=
| Existing
| Loaned
| Allocated.

Definition cb_free (p : Z) (l : gset Z) : option (gset Z) :=
  if p == 0 then Some l else if decide (p ∈ l) then Some (l ∖ {[p]}) else None.

(** [conn_loan_single_buffer]; the flag says that the connection is to close. *)
Definition conn_loan_single_buffer (malloc : Z) (l : gset Z) (t c : shared_buf)
    : BufferLoan * bool * gset Z * shared_buf * shared_buf :=
  if buf c != 0 then (Existing, false, l, t, c) else
  if buf t != 0 then (Loaned, false, l, mk_shared 0 (bcurr t) 0 (bbytes t), t) else
  if malloc == 0 then (Existing, true, l, t, mk_shared 0 (bcurr c) (bsize c) (bbytes c))
  else (Allocated, false, {[malloc]} ∪ l, t, mk_shared malloc malloc DATA_BUFFER_SIZE 0).

(** [conn_return_single_buffer] *)
Definition conn_return_single_buffer (l : gset Z) (t c : shared_buf)
    : option (gset Z * shared_buf * shared_buf) :=
  if buf c == 0 then Some (l, t, c) else
  if (bcurr c == buf c) && (bbytes c == 0) then
    if buf t == 0 then Some (l, c, mk_shared 0 0 0 (bbytes c))
    else l ← cb_free (buf c) l; Some (l, t, mk_shared 0 0 0 (bbytes c))
  else Some (l, t, c).

Definition count_read (r : BufferLoan) (s : thread_stats) : thread_stats :=
  match s with
  | mk_stats ra rl re wa wl =>
      match r with
      | Allocated => mk_stats (ra + 1) rl re wa wl
      | Loaned => mk_stats ra (rl + 1) re wa wl
      | Existing => mk_stats ra rl (re + 1) wa wl
      end
  end.

Definition count_write (r : BufferLoan) (s : thread_stats) : thread_stats :=
  match s with
  | mk_stats ra rl re wa wl =>
      match r with
      | Allocated => mk_stats ra rl re (wa + 1) wl
      | Loaned => mk_stats ra rl re wa (wl + 1)
      | Existing => s
      end
  end.

(** [conn_loan_buffers]; [pr] and [pw] are what the two calls of [cb_malloc]
    return.  A connection without a thread would be a [NULL] dereference. *)
Definition conn_loan_buffers (pr pw : Z) (id : nat) (w : worker) : option worker :=
  c ← conns w !! id;
  if negb (has_thread c) then None else
  let '(res, close1, l, t, r) := conn_loan_single_buffer pr (live w) (tread w) (cread c) in
  let s := count_read res (stats w) in
  let '(res, close2, l, t', r') := conn_loan_single_buffer pw l (twrite w) (cwrite c) in
  let s := count_write res s in
  Some (mk_worker t t' s l
          (<[id := mk_conn true (isTAP c) (isDCP c) (closing c || close1 || close2) r r']>
             (conns w))).

(** [conn_return_buffers] *)
Definition conn_return_buffers (id : nat) (w : worker) : option worker :=
  c ← conns w !! id;
  if negb (has_thread c) then
    if (buf (cread c) == 0) && (buf (cwrite c) == 0) then Some w else None
  else if isTAP c || isDCP c then Some w else
  '(l, t, r) ← conn_return_single_buffer (live w) (tread w) (cread c);
  '(l, t', r') ← conn_return_single_buffer l (twrite w) (cwrite c);
  Some (mk_worker t t' (stats w) l
          (<[id := mk_conn true (isTAP c) (isDCP c) (closing c) r r']> (conns w))).

Definition set_conn (id : nat) (c : conn_bufs) (w : worker) : worker :=
  mk_worker (tread w) (twrite w) (stats w) (live w) (<[id := c]> (conns w)).

(** Empty the buffer: [curr = buf], [bytes = 0]. *)
Definition clean (b : shared_buf) : shared_buf := mk_shared (buf b) (buf b) (bsize b) 0.

(** [conn_cleanup], for the buffers. *)
Definition conn_cleanup (id : nat) (w : worker) : option worker :=
  c ← conns w !! id;
  let c := mk_conn (has_thread c) false false (closing c) (clean (cread c)) (clean (cwrite c)) in
  w ← conn_return_buffers id (set_conn id c w);
  c ← conns w !! id;
  Some (set_conn id (mk_conn false (isTAP c) (isDCP c) (closing c) (cread c) (cwrite c)) w).

(** [release_connection] and the destructor of [McbpConnection]. *)
Definition release_connection (id : nat) (w : worker) : option worker :=
  c ← conns w !! id;
  l ← cb_free (buf (cread c)) (live w);
  l ← cb_free (buf (cwrite c)) l;
  Some (mk_worker (tread w) (twrite w) (stats w) l (delete id (conns w))).

(** [cb_realloc] of the read buffer by the functions that read
    ([tryReadNetwork], [bin_read_chunk], [shrinkBuffers]): the buffer moves to
    [p], or stays where it is when [p] is its address or 0. *)
Definition realloc_read (p size : Z) (id : nat) (w : worker) : option worker :=
  c ← conns w !! id;
  if (p == 0) || (p == buf (cread c)) then Some w else
  l ← cb_free (buf (cread c)) (live w);
  let r := mk_shared p p size (bbytes (cread c)) in
  Some (mk_worker (tread w) (twrite w) (stats w) ({[p]} ∪ l)
          (<[id := mk_conn (has_thread c) (isTAP c) (isDCP c) (closing c) r (cwrite c)]> (conns w))).

(** ** Every buffer has exactly one owner *)

(** The places that hold a pointer to a buffer. *)
Inductive slot :=
| TRead
| TWrite
| CRead (id : nat)
| CWrite (id : nat).

#[export] Instance slot_eq_dec : EqDecision slot.
Proof. solve_decision. Defined.

Definition held (w : worker) (s : slot) : Z :=
  match s with
  | TRead => buf (tread w)
  | TWrite => buf (twrite w)
  | CRead id => from_option (fun c => buf (cread c)) 0 (conns w !! id)
  | CWrite id => from_option (fun c => buf (cwrite c)) 0 (conns w !! id)
  end.

(** No two places hold the same buffer, and the buffers held are the allocated
    ones: no place is left with a freed buffer, and none is lost. *)
Record owned (l : gset Z) (at_ : slot -> Z) : Prop := {
  own_once : forall s s', at_ s = at_ s' -> at_ s <> 0 -> s = s';
  own_live : forall p, p ∈ l <-> p <> 0 /\ exists s, at_ s = p;
}.

Definition upd (f : slot -> Z) (s : slot) (p : Z) : slot -> Z :=
  fun s' => if decide (s' = s) then p else f s'.

Lemma owned_ext l f g : (forall s, f s = g s) -> owned l f -> owned l g.
Proof.
  intros E [H1 H2]. split.
  - intros s s'. rewrite <- !E. apply H1.
  - intros p. rewrite H2. split; intros (Hp & s & <-); (split; [done|]); exists s; by rewrite E.
Qed.

Ltac upd_cases := unfold upd in *; repeat (case_decide; subst); try done.

Lemma owned_move l f s s' :
  owned l f -> s <> s' -> f s = 0 -> owned l (upd (upd f s (f s')) s' 0).
Proof.
  intros [H1 H2] Hne H0. split.
  - intros a b. upd_cases; intros E Hn; try congruence.
    + exfalso. by apply H1 in E; [|congruence].
    + exfalso. symmetry in E. apply H1 in E; congruence.
    + by apply H1.
  - intros p. rewrite H2. split; intros (Hp & a & Ha); (split; [done|]).
    + destruct (decide (a = s')) as [->|Ha']; [exists s; upd_cases; congruence|].
      exists a. upd_cases; congruence.
    + revert Ha. upd_cases; intros Ha; eauto; congruence.
Qed.

Lemma owned_alloc l f s p :
  owned l f -> f s = 0 -> p <> 0 -> p ∉ l -> owned ({[p]} ∪ l) (upd f s p).
Proof.
  intros [H1 H2] H0 Hp Hl.
  assert (forall a, f a <> p) as Hf by (intros a <-; apply Hl, H2; eauto).
  split.
  - intros a b. upd_cases; intros E Hn; [by destruct (Hf b)|by destruct (Hf a)|by apply H1].
  - intros q. rewrite elem_of_union, elem_of_singleton, H2. split.
    + intros [->|(Hq & a & Ha)]; (split; [done|]); [exists s; upd_cases|].
      exists a. upd_cases; congruence.
    + intros (Hq & a & Ha). revert Ha. upd_cases; [by left|]. right. eauto.
Qed.

Lemma owned_free l f s :
  owned l f ->
  exists l', cb_free (f s) l = Some l' /\ owned l' (upd f s 0) /\ l' ⊆ l.
Proof.
  intros Ho. pose proof Ho as [H1 H2]. unfold cb_free.
  destruct (f s == 0) eqn:E.
  { exists l. split_and!; [done| |done]. apply (owned_ext l f); [|done].
    intros a. upd_cases; lia. }
  assert (f s ∈ l) as Hin by (apply H2; split; [lia|eauto]).
  rewrite decide_True by done. eexists; split_and!; [done| |set_solver].
  split.
  - intros a b. upd_cases. by apply H1.
  - intros p. rewrite elem_of_difference, elem_of_singleton, H2. split.
    + intros [(Hp & a & <-) Hne]. split; [done|]. exists a. upd_cases.
    + intros (Hp & a & Ha). revert Ha. upd_cases. intros <-. split; [eauto|].
      intros Hx. apply H1 in Hx; congruence.
Qed.

(** The two single-buffer functions keep ownership, whatever two places they
    work on. *)
Lemma loan_owned p l t c f st sc r cl l' t' c' :
  owned l f -> st <> sc -> f st = buf t -> f sc = buf c -> (p = 0 \/ p ∉ l) ->
  conn_loan_single_buffer p l t c = (r, cl, l', t', c') ->
  owned l' (upd (upd f st (buf t')) sc (buf c')) /\ l' ⊆ {[p]} ∪ l.
Proof.
  intros Ho Hne Ht Hc Hp. unfold conn_loan_single_buffer.
  destruct (buf c == 0) eqn:Ec; cbn [negb].
  2: { intros [= <- <- <- <- <-]. split; [|set_solver]. eapply owned_ext, Ho.
       intros a. upd_cases. }
  destruct (buf t == 0) eqn:Et; cbn [negb].
  2: { intros [= <- <- <- <- <-]. split; [|set_solver]. cbn [buf].
       eapply owned_ext, (owned_move l f sc st); [|done|done|lia].
       intros a. upd_cases; congruence. }
  destruct (p == 0) eqn:E0; intros [= <- <- <- <- <-]; cbn [buf].
  - split; [|set_solver]. eapply owned_ext, Ho. intros a. upd_cases; lia.
  - split; [|set_solver]. eapply owned_ext, (owned_alloc l f sc p); [|done|lia|lia|].
    + intros a. upd_cases.
    + destruct Hp; [lia|done].
Qed.

Lemma return_owned l t c f st sc :
  owned l f -> st <> sc -> f st = buf t -> f sc = buf c ->
  exists l' t' c', conn_return_single_buffer l t c = Some (l', t', c') /\
    owned l' (upd (upd f st (buf t')) sc (buf c')) /\
    (bcurr c = buf c -> bbytes c = 0 -> buf c' = 0).
Proof.
  intros Ho Hne Ht Hc. unfold conn_return_single_buffer.
  assert (owned l (upd (upd f st (buf t)) sc (buf c))) as Hsame.
  { eapply owned_ext, Ho. intros a. upd_cases. }
  destruct (buf c == 0) eqn:Ec.
  { eexists _, _, _. split_and!; [done|done|lia]. }
  destruct ((bcurr c == buf c) && (bbytes c == 0)) eqn:E.
  2: { eexists _, _, _. split_and!; [done|done|lia]. }
  destruct (buf t == 0) eqn:Et.
  - eexists _, _, _. split_and!; [done| |done]. cbn [buf].
    eapply owned_ext, (owned_move l f st sc); [|done|done|lia].
    intros a. upd_cases; congruence.
  - destruct (owned_free l f sc Ho) as (l' & E1 & Ho' & _).
    rewrite <- Hc, E1. eexists _, _, _. split_and!; [done| |done]. cbn [buf].
    eapply owned_ext, Ho'. intros a. upd_cases.
Qed.

(** A buffer without data, or none. *)
Definition idle (b : shared_buf) : Prop := bbytes b = 0 /\ (buf b <> 0 -> bcurr b = buf b).

(** What a connection has after a loan: what it had, or an empty buffer, or
    none and it is to close. *)
Definition borrowed (b b' : shared_buf) (closing : bool) : Prop :=
  if buf b != 0 then b' = b
  else (buf b' <> 0 /\ idle b') \/ (buf b' = 0 /\ closing = true).

(** What a connection has after it returned its buffer: a buffer with data
    stays as it is. *)
Definition kept (b b' : shared_buf) : Prop := bcurr b <> buf b \/ bbytes b <> 0 -> b' = b.

Lemma loan_borrows p l t c r cl l' t' c' :
  idle t -> conn_loan_single_buffer p l t c = (r, cl, l', t', c') -> idle t' /\ borrowed c c' cl.
Proof.
  intros [Hb Hc]. unfold conn_loan_single_buffer, borrowed, idle.
  destruct (buf c == 0) eqn:Ec; cbn [negb]; [|by intros [= <- <- <- <- <-]].
  destruct (buf t == 0) eqn:Et; cbn [negb].
  - destruct (p == 0) eqn:Ep; intros [= <- <- <- <- <-]; cbn; (split; [done|]); [by right|left].
    split; [lia|done].
  - intros [= <- <- <- <- <-]. cbn. split; [done|]. left. split; [lia|]. split; [done|]. intros _. apply Hc. lia.
Qed.

Lemma return_keeps l t c l' t' c' :
  idle t -> conn_return_single_buffer l t c = Some (l', t', c') -> idle t' /\ kept c c'.
Proof.
  intros Ht. unfold conn_return_single_buffer, kept.
  destruct (buf c == 0) eqn:Ec; [by intros [= <- <- <-]|].
  destruct ((bcurr c == buf c) && (bbytes c == 0)) eqn:E; [|by intros [= <- <- <-]].
  destruct (buf t == 0).
  - intros [= <- <- <-]. split; [split; lia|]. intros []; lia.
  - destruct (cb_free (buf c) l) as [l1|]; [|done]. intros [= <- <- <-]. split; [done|]. intros []; lia.
Qed.

Record worker_ok (w : worker) : Prop := {
  wo_owned : owned (live w) (held w);
  wo_idle : idle (tread w) /\ idle (twrite w);
  wo_detached : forall id c, conns w !! id = Some c -> has_thread c = false ->
    buf (cread c) = 0 /\ buf (cwrite c) = 0;
}.

(** A connection with other buffers in its place: what the places hold. *)
Lemma held_update w t t' s l id c r r' :
  conns w !! id = Some c ->
  forall ht ta dc cl sl,
  held (mk_worker t t' s l (<[id := mk_conn ht ta dc cl r r']> (conns w))) sl =
  upd (upd (upd (upd (held w) TRead (buf t)) (CRead id) (buf r)) TWrite (buf t'))
    (CWrite id) (buf r') sl.
Proof.
  intros Hc ht ta dc cl sl. unfold upd. destruct sl as [| |i|i]; cbn.
  1-2: done.
  all: destruct (decide (i = id)) as [->|Hne];
    [rewrite lookup_insert|rewrite lookup_insert_ne by congruence];
    repeat case_decide; cbn; congruence.
Qed.

Lemma detached_insert w t t' s l id c' :
  worker_ok w -> idle t -> idle t' -> (has_thread c' = false -> buf (cread c') = 0 /\ buf (cwrite c') = 0) ->
  owned l (held (mk_worker t t' s l (<[id := c']> (conns w)))) ->
  worker_ok (mk_worker t t' s l (<[id := c']> (conns w))).
Proof.
  intros [_ _ Hd] Ht Ht' Hc' Ho. split; [done|done|]. cbn [conns]. intros i c Hi.
  destruct (decide (i = id)) as [->|Hne].
  - rewrite lookup_insert, decide_True in Hi by done. by injection Hi as <-.
  - rewrite lookup_insert_ne in Hi by done. eauto.
Qed.

Lemma upd_other f s p s' : s' <> s -> upd f s p s' = f s'.
Proof. intros. unfold upd. by rewrite decide_False. Qed.

Definition malloc_ok (p : Z) (l : gset Z) : Prop := p = 0 \/ p ∉ l.

Lemma conn_loan_buffers_ok pr pw id c w :
  worker_ok w -> conns w !! id = Some c -> has_thread c = true ->
  malloc_ok pr (live w) -> malloc_ok pw ({[pr]} ∪ live w) ->
  exists w' c', conn_loan_buffers pr pw id w = Some w' /\ worker_ok w' /\ conns w' !! id = Some c' /\
    has_thread c' = true /\ borrowed (cread c) (cread c') (closing c') /\ borrowed (cwrite c) (cwrite c') (closing c').
Proof.
  intros Hw Hc Ht Hr Hwr. pose proof (wo_owned w Hw) as Ho. destruct (wo_idle w Hw) as [Hi1 Hi2].
  unfold conn_loan_buffers. rewrite Hc. cbn -[conn_loan_single_buffer]. rewrite Ht. cbn [negb].
  destruct (conn_loan_single_buffer pr _ _ _) as [[[[r1 c1] l1] t1] b1] eqn:E1.
  destruct (loan_borrows _ _ _ _ _ _ _ _ _ Hi1 E1) as [Ht1 Hb1].
  eapply (loan_owned _ _ _ _ _ TRead (CRead id)) in E1 as [Ho1 Hs1];
    [|done|done|done|cbn; by rewrite Hc|done].
  destruct (conn_loan_single_buffer pw _ _ _) as [[[[r2 c2] l2] t2] b2] eqn:E2.
  destruct (loan_borrows _ _ _ _ _ _ _ _ _ Hi2 E2) as [Ht2 Hb2].
  eapply (loan_owned _ _ _ _ _ TWrite (CWrite id)) in E2 as [Ho2 _]; [|exact Ho1|done| | |].
  - eexists _, _. split; [done|]. split.
    { apply detached_insert; [done..|]. eapply owned_ext, Ho2. intros sl. symmetry. by apply held_update with (c := c). }
    split; [cbn; by rewrite lookup_insert, decide_True|]. cbn. split; [done|]. unfold borrowed in *.
    repeat case_match; split; intuition (subst; rewrite ?orb_true_r; auto).
  - by rewrite !upd_other.
  - rewrite !upd_other by done. cbn. by rewrite Hc.
  - destruct Hwr as [->|Hwr]; [by left|right]. set_solver.
Qed.

Lemma conn_return_buffers_ok id c w :
  worker_ok w -> conns w !! id = Some c ->
  exists w' c', conn_return_buffers id w = Some w' /\ worker_ok w' /\
    conns w' !! id = Some c' /\ has_thread c' = has_thread c /\
    kept (cread c) (cread c') /\ kept (cwrite c) (cwrite c') /\
    (has_thread c = true -> isTAP c = false -> isDCP c = false ->
     cread c = clean (cread c) -> cwrite c = clean (cwrite c) ->
     buf (cread c') = 0 /\ buf (cwrite c') = 0).
Proof.
  intros Hw Hc. pose proof (wo_owned w Hw) as Ho. destruct (wo_idle w Hw) as [Hi1 Hi2].
  unfold conn_return_buffers. rewrite Hc. cbn -[conn_return_single_buffer].
  destruct (has_thread c) eqn:Ht; cbn [negb].
  2: { destruct (wo_detached w Hw id c Hc Ht) as [-> ->]. cbn.
       exists w, c. rewrite Ht. unfold kept. by split_and!. }
  destruct (isTAP c || isDCP c) eqn:Etd.
  { exists w, c. unfold kept. split_and!; try done. by destruct (isTAP c), (isDCP c). }
  destruct (return_owned (live w) (tread w) (cread c) (held w) TRead (CRead id))
    as (l1 & t1 & b1 & E1 & Ho1 & Hz1); [done|done|done|cbn; by rewrite Hc|].
  destruct (return_keeps _ _ _ _ _ _ Hi1 E1) as [Ht1 Hk1]. rewrite E1.
  cbn -[conn_return_single_buffer].
  destruct (return_owned l1 (twrite w) (cwrite c) _ TWrite (CWrite id) Ho1)
    as (l2 & t2 & b2 & E2 & Ho2 & Hz2); [done|by rewrite !upd_other| |].
  { rewrite !upd_other by done. cbn. by rewrite Hc. }
  destruct (return_keeps _ _ _ _ _ _ Hi2 E2) as [Ht2 Hk2]. rewrite E2.
  cbn. eexists _, _. split_and!; [done| |cbn; by rewrite lookup_insert, decide_True|done|done|done|].
  - apply detached_insert; [done..|]. eapply owned_ext, Ho2.
    intros sl. symmetry. by apply held_update with (c := c).
  - cbn. intros _ _ _ Hcr Hcw.
    apply (f_equal bcurr) in Hcr as Hcr1. apply (f_equal bcurr) in Hcw as Hcw1.
    apply (f_equal bbytes) in Hcr. apply (f_equal bbytes) in Hcw.
    cbn [clean bcurr bbytes] in *. auto.
Qed.

(** Changing fields other than the pointers to buffers. *)
Lemma set_conn_ok id c c' w :
  worker_ok w -> conns w !! id = Some c ->
  buf (cread c') = buf (cread c) -> buf (cwrite c') = buf (cwrite c) ->
  (has_thread c' = false -> buf (cread c) = 0 /\ buf (cwrite c) = 0) ->
  worker_ok (set_conn id c' w).
Proof.
  intros Hw Hc Hr Hwr Hd. destruct (wo_idle w Hw). apply detached_insert; [done..|by rewrite Hr, Hwr|].
  eapply owned_ext, (wo_owned w Hw). intros sl. destruct sl as [| |i|i]; cbn; try done.
  all: destruct (decide (i = id)) as [->|Hne];
    [by rewrite lookup_insert, decide_True, Hc by done|by rewrite lookup_insert_ne].
Qed.

Lemma conn_cleanup_ok id c w :
  worker_ok w -> conns w !! id = Some c ->
  exists w' c', conn_cleanup id w = Some w' /\ worker_ok w' /\ conns w' !! id = Some c' /\
    has_thread c' = false /\ buf (cread c') = 0 /\ buf (cwrite c') = 0.
Proof.
  intros Hw Hc. unfold conn_cleanup. rewrite Hc. cbn -[conn_return_buffers].
  set (c0 := mk_conn _ _ _ _ _ _).
  assert (worker_ok (set_conn id c0 w)) as Hw0.
  { apply (set_conn_ok id c); [done..|]. apply (wo_detached w Hw id c Hc). }
  destruct (conn_return_buffers_ok id c0 (set_conn id c0 w)) as (w1 & c1 & -> & Hw1 & Hc1 & Ht1 & _ & _ & Hz);
    [done|cbn; by rewrite lookup_insert, decide_True|].
  cbn. rewrite Hc1. cbn.
  assert (buf (cread c1) = 0 /\ buf (cwrite c1) = 0) as [H1 H2].
  { destruct (has_thread c0) eqn:E; [by apply Hz|]. by eapply wo_detached. }
  eexists _, _. split_and!; [done| |cbn; by rewrite lookup_insert, decide_True|done|done|done].
  by eapply set_conn_ok.
Qed.

Lemma release_connection_ok id c w :
  worker_ok w -> conns w !! id = Some c ->
  exists w', release_connection id w = Some w' /\ worker_ok w'.
Proof.
  intros Hw Hc. pose proof (wo_owned w Hw) as Ho.
  unfold release_connection. rewrite Hc. cbn -[cb_free].
  destruct (owned_free _ _ (CRead id) Ho) as (l1 & E1 & Ho1 & _).
  destruct (owned_free _ _ (CWrite id) Ho1) as (l2 & E2 & Ho2 & _).
  rewrite upd_other in E2 by done. cbn -[cb_free] in E1, E2. rewrite Hc in E1, E2.
  cbn -[cb_free] in E1, E2. rewrite E1. cbn -[cb_free]. rewrite E2.
  eexists; split; [done|]. split; cbn [live conns]; [|exact (wo_idle w Hw)|].
  - eapply owned_ext, Ho2. unfold upd. intros sl. destruct sl as [| |i|i]; cbn; try done.
    all: destruct (decide (i = id)) as [->|Hne];
      [rewrite lookup_delete|rewrite lookup_delete_ne by congruence];
      repeat case_decide; cbn; congruence.
  - intros i c' [_ Hi]%lookup_delete_Some. by apply (wo_detached w Hw i c').
Qed.

Lemma realloc_read_ok p n id c w :
  worker_ok w -> conns w !! id = Some c -> has_thread c = true ->
  (p = buf (cread c) \/ malloc_ok p (live w)) ->
  exists w', realloc_read p n id w = Some w' /\ worker_ok w'.
Proof.
  intros Hw Hc Ht Hp. pose proof (wo_owned w Hw) as Ho.
  unfold realloc_read. rewrite Hc. cbn -[cb_free].
  destruct ((p == 0) || (p == buf (cread c))) eqn:E; [by exists w|].
  destruct Hp as [Hp|[Hp|Hp]]; [lia..|].
  destruct (owned_free _ _ (CRead id) Ho) as (l1 & E1 & Ho1 & Hs).
  cbn -[cb_free] in E1. rewrite Hc in E1. cbn -[cb_free] in E1. rewrite E1.
  destruct (wo_idle w Hw) as [Hi1 Hi2]. eexists; split; [done|]. apply detached_insert; [done..|cbn; by rewrite Ht|].
  eapply owned_ext, (owned_alloc _ _ (CRead id) p Ho1);
    [|by unfold upd; rewrite decide_True|lia|set_solver].
  intros sl. symmetry. etrans; [by apply held_update with (c := c)|].
  destruct sl as [| |i|i]; upd_cases; cbn; try congruence.
  injection H as ->. by rewrite Hc.
Qed.

(** What happens to the buffers of a worker thread. *)
Inductive buffer_step : worker -> worker -> Prop :=
| step_new id w :
    conns w !! id = None ->
    buffer_step w (set_conn id (mk_conn true false false false no_buf no_buf) w)
| step_loan pr pw id c w w' :
    conns w !! id = Some c -> has_thread c = true ->
    malloc_ok pr (live w) -> malloc_ok pw ({[pr]} ∪ live w) ->
    conn_loan_buffers pr pw id w = Some w' -> buffer_step w w'
| step_use id c c' w :
    (** reading, writing, TAP and DCP commands *)
    conns w !! id = Some c -> has_thread c' = has_thread c ->
    buf (cread c') = buf (cread c) -> buf (cwrite c') = buf (cwrite c) ->
    buffer_step w (set_conn id c' w)
| step_realloc p n id c w w' :
    conns w !! id = Some c -> has_thread c = true ->
    (p = buf (cread c) \/ malloc_ok p (live w)) ->
    realloc_read p n id w = Some w' -> buffer_step w w'
| step_return id w w' : conn_return_buffers id w = Some w' -> buffer_step w w'
| step_cleanup id w w' : conn_cleanup id w = Some w' -> buffer_step w w'
| step_release id w w' : release_connection id w = Some w' -> buffer_step w w'.

Definition initial_worker : worker := mk_worker no_buf no_buf (mk_stats 0 0 0 0 0) ∅ ∅.

Lemma initial_worker_ok : worker_ok initial_worker.
Proof.
  split; [|by repeat split|by intros]. split; [by intros [| | |]|].
  intros p. split; [set_solver|]. by intros (Hp & [| | |] & <-).
Qed.

Lemma new_conn_ok id w :
  worker_ok w -> conns w !! id = None ->
  worker_ok (set_conn id (mk_conn true false false false no_buf no_buf) w).
Proof.
  intros Hw Hc. destruct (wo_idle w Hw). apply detached_insert; [done..|]. eapply owned_ext, (wo_owned w Hw).
  intros [| |i|i]; cbn; try done.
  all: destruct (decide (i = id)) as [->|Hne];
    [by rewrite lookup_insert, decide_True, Hc|by rewrite lookup_insert_ne].
Qed.

Lemma op_conn {A} id (w : worker) (f : conn_bufs -> option A) x :
  (c ← conns w !! id; f c) = Some x -> exists c, conns w !! id = Some c.
Proof. destruct (conns w !! id); eauto. done. Qed.

Lemma buffer_step_ok w w' : worker_ok w -> buffer_step w w' -> worker_ok w'.
Proof.
  intros Hw Hs. destruct Hs as [id w Hc|pr pw id c w w' Hc Ht Hr Hp E|id c c' w Hc Ht Hr Hwr
    |p n id c w w' Hc Ht Hp E|id w w' E|id w w' E|id w w' E].
  - by apply new_conn_ok.
  - edestruct conn_loan_buffers_ok as (w1 & c1 & E1 & Hw1 & _); [done..|]. congruence.
  - eapply set_conn_ok; eauto. intros Hf. apply (wo_detached w Hw id c Hc). congruence.
  - destruct (realloc_read_ok p n id c w) as (w1 & E1 & Hw1); [done..|]. congruence.
  - destruct (op_conn id w _ _ E) as [c Hc].
    edestruct conn_return_buffers_ok as (w1 & c1 & E1 & Hw1 & _); [done..|]. congruence.
  - destruct (op_conn id w _ _ E) as [c Hc].
    edestruct conn_cleanup_ok as (w1 & c1 & E1 & Hw1 & _); [done..|]. congruence.
  - destruct (op_conn id w _ _ E) as [c Hc].
    edestruct release_connection_ok as (w1 & E1 & Hw1); [done..|]. congruence.
Qed.

(** C23: whatever the connections of a worker thread do, every allocated buffer
    is held by exactly one of the thread's and the connections' places and
    every place holds an allocated buffer or none: no buffer is given to two
    connections, freed twice or lost.  A connection that borrows keeps the
    buffer it has, gets an empty one, or is closed; one that returns its buffers
    keeps those that [curr] and [bytes] say have data.  Returning the buffers of
    a connection, cleaning it up and releasing it never run into an assertion
    or free a buffer twice, and a connection that was cleaned up holds none.

    Data is what [curr] and [bytes] count.  The header of a response that waits
    in a write buffer is not counted there, and this buffer does change hands:
    [pending_header_overwritten] in [Response]. *)
Theorem buffers_owned_once w :
  rtc buffer_step initial_worker w ->
  owned (live w) (held w) /\
  forall id c, conns w !! id = Some c ->
    (forall pr pw, has_thread c = true -> malloc_ok pr (live w) -> malloc_ok pw ({[pr]} ∪ live w) ->
       exists w' c', conn_loan_buffers pr pw id w = Some w' /\ conns w' !! id = Some c' /\
         borrowed (cread c) (cread c') (closing c') /\ borrowed (cwrite c) (cwrite c') (closing c')) /\
    (exists w' c', conn_return_buffers id w = Some w' /\ conns w' !! id = Some c' /\
       kept (cread c) (cread c') /\ kept (cwrite c) (cwrite c')) /\
    is_Some (release_connection id w) /\
    exists w' c', conn_cleanup id w = Some w' /\ conns w' !! id = Some c' /\
      has_thread c' = false /\ buf (cread c') = 0 /\ buf (cwrite c') = 0.
Proof.
  intros Hs. assert (worker_ok w) as Hw.
  { eapply (rtc_invariant _ _ buffer_step_ok); [exact Hs|exact initial_worker_ok]. }
  split; [apply (wo_owned w Hw)|]. intros id c Hc. split_and!.
  - intros pr pw Ht Hr Hp. destruct (conn_loan_buffers_ok pr pw id c w) as (w' & c' & H1 & _ & H2 & _ & H3); [done..|].
    eauto 8.
  - destruct (conn_return_buffers_ok id c w) as (w' & c' & H1 & _ & H2 & _ & H3 & H4 & _); [done..|]. eauto 8.
  - destruct (release_connection_ok id c w) as (? & -> & _); done.
  - destruct (conn_cleanup_ok id c w) as (w' & c' & H1 & _ & H2); [done..|]. eauto 8.
Qed.

(** A connection borrowed buffers and was cleaned up; the next one borrows the
    same buffers. *)
Definition loan_history : option worker :=
  w ← conn_loan_buffers 4096 8192 0
        (set_conn 0 (mk_conn true false false false no_buf no_buf) initial_worker);
  w ← conn_cleanup 0 w;
  Some (set_conn 1 (mk_conn true false false false no_buf no_buf) w).

Definition loan_history_end : worker := default initial_worker loan_history.

Lemma buffers_owned_once_witness :
  rtc buffer_step initial_worker loan_history_end /\ held loan_history_end TWrite = 8192 /\
  exists w' c', conn_loan_buffers 0 0 1 loan_history_end = Some w' /\ conns w' !! 1%nat = Some c' /\
    borrowed no_buf (cwrite c') (closing c').
Proof.
  assert (rtc buffer_step initial_worker loan_history_end) as Hs.
  { eapply rtc_l; [apply (step_new 0); reflexivity|].
    eapply rtc_l; [eapply (step_loan 4096 8192 0); [reflexivity|reflexivity|by right|right; set_solver|reflexivity]|].
    eapply rtc_l; [eapply (step_cleanup 0); reflexivity|].
    apply rtc_once. apply (step_new 1). vm_compute. reflexivity. }
  split; [exact Hs|]. split; [vm_compute; reflexivity|].
  destruct (proj2 (buffers_owned_once loan_history_end Hs) 1%nat (mk_conn true false false false no_buf no_buf))
    as (Hl & _); [vm_compute; reflexivity|].
  destruct (Hl 0 0 eq_refl) as (w' & c' & E & Hc & _ & Hb); [by left|by left|]. by exists w', c'.
Defined.
