(* ===== verification/DynamicBuffer.v ===== *)
(** * The dynamic buffer

    [daemon/dynamic_buffer.h] and [daemon/dynamic_buffer.cc]: the growing
    buffer in which responses are collected.  Sizes are [size_t], 64 bits wide.
    [realloc_at n] is what [cb_realloc] to [n] bytes returns, 0 when it fails. *)

From S2P Require Import Prelude Memory.

Record DynamicBuffer := mk_dynamic {
  dbuffer : Z;
  doffset : Z;
  dsize : Z;
}.

Definition empty_dynamic : DynamicBuffer := mk_dynamic 0 0 0.

(** [while (needed > available)]: [None] when the assertion fails, because the
    size has become 0 by overflow; that takes at most 64 doublings. *)
Fixpoint grow_loop (fuel : nat) (needed offset nsize available : Z) : option Z :=
  match fuel with
  | O => None
  | S fuel =>
      if available <? needed then
        if nsize == 0 then None else
        let nsize := u64 (Z.shiftl nsize 1) in
        grow_loop fuel needed offset nsize (u64 (nsize - offset))
      else Some nsize
  end.

Section Grow.
Context (realloc_at : Z -> Z).

(** [DynamicBuffer::grow] *)
Definition dynamic_grow (needed : Z) (h : heap) (d : DynamicBuffer)
    : option (bool * heap * DynamicBuffer) :=
  let fresh := dbuffer d == 0 in
  let nsize := if fresh then 1024 else dsize d in
  let available := if fresh then 0 else u64 (dsize d - doffset d) in
  let d := if fresh then mk_dynamic 0 0 0 else d in
  nsize ← grow_loop 66 needed (doffset d) nsize available;
  if nsize != dsize d then
    let p := realloc_at nsize in
    if p != 0
    then Some (true, put h p (fetch h (dbuffer d) (Z.min (dsize d) nsize)),
               mk_dynamic p (doffset d) nsize)
    else Some (false, h, d)
  else Some (true, h, d).

End Grow.

(** [clear] and [takeOwnership]; the first also frees the memory. *)
Definition dynamic_clear (d : DynamicBuffer) : DynamicBuffer := mk_dynamic 0 0 0.

Definition takeOwnership (d : DynamicBuffer) : DynamicBuffer := mk_dynamic 0 0 0.

Definition getCurrent (d : DynamicBuffer) : Z := dbuffer d + doffset d.

(** [moveOffset]: the object with its new offset, and whether it throws. *)
Definition moveOffset (num : Z) (d : DynamicBuffer) : bool * DynamicBuffer :=
  let offset := u64 (doffset d + num) in
  (dsize d <? offset, mk_dynamic (dbuffer d) offset (dsize d)).

(** ** Correctness *)

Record dynamic_ok (d : DynamicBuffer) : Prop := {
  do_null : dbuffer d = 0 -> doffset d = 0 /\ dsize d = 0;
  do_offset : 0 <= doffset d <= dsize d;
  do_alloc : dbuffer d <> 0 -> 0 < dsize d;
  do_address : 0 <= dbuffer d;
}.

(** What has been collected. *)
Definition collected (h : heap) (d : DynamicBuffer) : bytes := fetch h (dbuffer d) (doffset d).

Lemma u64_small z : 0 <= z < 18446744073709551616 -> u64 z = z.
Proof. intros. apply wrap_small. lia. Qed.

(** As long as what is needed is far from the range of [size_t], the loop ends
    without overflow and gives enough room. *)
Lemma grow_loop_spec fuel needed offset nsize :
  0 <= offset <= nsize -> 0 < nsize -> 0 <= needed ->
  offset + needed <= 2 ^ 62 -> nsize <= 2 ^ 63 ->
  offset + needed <= nsize * 2 ^ Z.of_nat fuel ->
  exists n, grow_loop (S fuel) needed offset nsize (nsize - offset) = Some n /\
    nsize <= n <= 2 ^ 63 /\ offset + needed <= n.
Proof.
  revert nsize. induction fuel as [|fuel IH]; intros nsize Ho Hn Hneed Hmax Hsz Hfuel.
  - change (2 ^ Z.of_nat 0) with 1 in Hfuel. cbn [grow_loop].
    rewrite (proj2 (Z.ltb_ge _ _)) by lia. exists nsize. split; [done|lia].
  - cbn [grow_loop]. destruct (nsize - offset <? needed) eqn:E; [|exists nsize; split; [done|lia]].
    rewrite (proj2 (Z.eqb_neq nsize 0)) by lia.
    rewrite Z.shiftl_mul_pow2 by lia. change (2 ^ 1) with 2.
    rewrite (u64_small (nsize * 2)) by lia. rewrite u64_small by lia.
    rewrite Nat2Z.inj_succ, Z.pow_succ_r in Hfuel by lia.
    destruct (IH (nsize * 2)) as (n & En & Hr); [nia..|]. exists n. split; [exact En|lia].
Qed.

(** A copy has the prefixes of the original. *)
Lemma fetch_copy h a b n k :
  0 <= k <= n -> fetch (put h b (fetch h a n)) b k = fetch h a k.
Proof.
  intros Hk. pose proof (fetch_put_same h b (fetch h a n)) as E.
  rewrite fetch_size in E by lia. replace n with (k + (n - k)) in E by lia.
  rewrite (fetch_app _ b), (fetch_app h a) in E by lia.
  apply app_inj_1 in E as [E _]; [|unfold fetch; by rewrite !length_map, !length_seqZ].
  rewrite <- (fetch_app h a) in E by lia. by replace (k + (n - k)) with n in E by lia.
Qed.

Section GrowProofs.
Context (realloc_at : Z -> Z) (Hrealloc : forall n, 0 <= realloc_at n).

(** For any request that keeps the buffer below 2^62 bytes, [grow]
    returns; on success there is room for the bytes asked for and what was
    collected is preserved, although the buffer may have moved; on failure,
    which only a failed reallocation causes, nothing has changed. *)
Lemma dynamic_grow_ok needed h d :
  dynamic_ok d -> 0 <= needed -> doffset d + needed <= 2 ^ 62 -> dsize d <= 2 ^ 63 ->
  exists ok h' d', dynamic_grow realloc_at needed h d = Some (ok, h', d') /\
    dynamic_ok d' /\ collected h' d' = collected h d /\ doffset d' = doffset d /\
    (if ok then doffset d' + needed <= dsize d' /\ dsize d' <= 2 ^ 63 /\ dbuffer d' <> 0
     else h' = h /\ d' = d /\ exists n, realloc_at n = 0).
Proof.
  intros [Hnull Hoff Halloc Haddr] Hn Hmax Hsz. unfold dynamic_grow.
  destruct (dbuffer d == 0) eqn:Eb.
  - destruct Hnull as [Ho Hs]; [lia|]. destruct d as [b o s]. cbn in Ho, Hs, Eb. subst o s.
    assert (b = 0) as -> by lia.  cbn [dbuffer doffset dsize].
    assert (exists n, grow_loop 66 needed 0 1024 0 = Some n /\ 1024 <= n <= 2 ^ 63 /\ needed <= n)
      as (n & -> & Hn1 & Hn2).
    { change 66%nat with (S (S 64)). cbn [grow_loop].
      destruct (0 <? needed) eqn:E; [|exists 1024; split; [done|lia]].
      destruct (grow_loop_spec 64 needed 0 2048) as (n & En & Hr); [lia..|cbn in Hmax |- *; lia|].
      exists n. split; [exact En|lia]. }
    cbn -[put fetch]. rewrite (proj2 (Z.eqb_neq n 0)) by lia. cbn [negb].
    pose proof (Hrealloc n). destruct (realloc_at n == 0) eqn:Ep; cbn [negb]; eexists _, _, _;
      (split; [reflexivity|]); cbn [doffset dsize dbuffer].
    + split_and!; try done. exists n. lia.
    + split_and!; try (done || lia). split; cbn; lia.
  - destruct (grow_loop_spec 65 needed (doffset d) (dsize d)) as (n & En & Hr1 & Hr2);
      [lia|lia|lia|lia|lia| |].
    { assert (1 <= dsize d) by lia. nia. }
    rewrite (u64_small (dsize d - doffset d)) by lia. rewrite En. cbn -[put fetch].
    destruct (n == dsize d) eqn:Es; cbn [negb].
    { eexists _, _, _. split; [reflexivity|]. split_and!; (done || lia). }
    pose proof (Hrealloc n). destruct (realloc_at n == 0) eqn:Ep; cbn [negb]; eexists _, _, _; (split; [reflexivity|]).
    + split_and!; try done. exists n. lia.
    + cbn [doffset dsize dbuffer]. split_and!; try (done || lia); [split; cbn; lia|].
      unfold collected; cbn [dbuffer doffset]. rewrite Z.min_l by lia. apply fetch_copy; lia.
Qed.

End GrowProofs.
