(* ===== verification/Connection.v ===== *)
(** * The state of a connection

    The members of [McbpConnection] ([daemon/connection_mcbp.h]) that the
    response, dispatch and state machine code assigns, the states of the state
    machine ([daemon/statemachine_mcbp.h]) and the monad in which that code is
    written: it changes the connection, may throw an exception (which
    [runEventLoop] catches) and may crash (a failed assertion or an access
    outside an object).

    [sock] and [sends] are what the next calls of [recv] and [sendmsg] do.

    What the code asks of the system around it is the class [System]. *)

From S2P Require Import Prelude Memory Protocol Input Output Buffers DynamicBuffer RecordUpdate StateMonad.

(** The task functions. *)
Inductive task :=
| conn_new_cmd
| conn_waiting
| conn_read
| conn_parse_cmd
| conn_write
| conn_nread
| conn_pending_close
| conn_immediate_close
| conn_closing
| conn_destroyed
| conn_mwrite
| conn_ship_log
| conn_setup_tap_stream
| conn_refresh_cbsasl
| conn_refresh_ssl_certs
| conn_flush
| conn_audit_configuring
| conn_create_bucket
| conn_delete_bucket
| conn_sasl_auth.

#[export] Instance task_eq_dec : EqDecision task.
Proof. solve_decision. Defined.

(** Calls that leave the connection: statistics, the audit log, the engine. *)
Inductive effect :=
| CollectTimings (cmd start : Z)
| AuditAccessFailed
| AuditInvalidPacket
| AuthFailureAudited
| AuthCommand
| AuthErrorCounted
| BucketFlushAudited
| ConnYield
| UpdateTopkeys (key : bytes)
| ReleaseItem (it : Z)
| ReleaseReservedItems (its : list Z)
| ReleaseContext
| CloseSocket
| CurrConnsDecremented
| DisconnectCallbacks
| DisassociateBucket
| RemovePendingIo
| ReturnBuffers
| Free (p : Z).

(** What the code uses of the settings, the allocator, the clock and the
    system.  [status_text s] is the address of the static text of a status;
    [ssl_peek] says that SSL is enabled and connected and holds input. *)
Class System := {
  verbose : Z;
  iov_max : Z;
  alloc_msg : nat -> bool;
  alloc_iov : nat -> bool;
  realloc_at : Z -> Z;
  realloc_ok : Z -> bool;
  junk : byte;
  push_temp : bool;
  status_text : protocol_binary_response_status -> Z;
  dedupe_nmvb_maps : bool;
  require_sasl : bool;
  server_initialized : bool;
  max_packet_size : Z;
  gethrtime : Z;
  current_time : Z;
  connection_idle_time : Z;
  event_add_ok : bool;
  event_del_ok : bool;
  event_assign_ok : bool;
  ssl_peek : bool;
}.

Record connection := mk_connection {
  memory : heap;
  currentTask : task;
  write_and_go : task;
  inp : input;
  out : output;
  write : shared_buf;
  dynamicBuffer : DynamicBuffer;
  temp_alloc : list Z;
  cmd : Z;
  response_cas : Z;
  noreply : bool;
  supports_datatype : bool;
  supports_mutation_extras : bool;
  start : Z;
  clustermap_revno : Z;
  ewouldblock : bool;
  aiostat : ENGINE_ERROR_CODE;
  tap_iterator : bool;
  dcp : bool;
  admin : bool;
  authenticated_flag : bool;
  item : Z;
  reserved_items : list Z;
  command_context : bool;
  thread : bool;
  socket_open : bool;
  registered_in_libevent : bool;
  ev_flags : Z;
  ev_timeout_enabled : bool;
  ev_timeout : Z;
  ev_insert_time : Z;
  currentEvent : Z;
  numEvents : Z;
  max_reqs_per_event : Z;
  refcount : Z;
  sock : socket;
  sends : list (transmit_env * send_result);
  trace : list effect;
}.

#[export] Instance connection_settable : Settable connection := fun c =>
  mk_connection (memory c) (currentTask c) (write_and_go c) (inp c) (out c) (write c)
    (dynamicBuffer c) (temp_alloc c) (cmd c) (response_cas c) (noreply c) (supports_datatype c) (supports_mutation_extras c)
    (start c) (clustermap_revno c) (ewouldblock c) (aiostat c) (tap_iterator c) (dcp c) (admin c)
    (authenticated_flag c) (item c) (reserved_items c) (command_context c) (thread c) (socket_open c)
    (registered_in_libevent c) (ev_flags c) (ev_timeout_enabled c) (ev_timeout c)
    (ev_insert_time c) (currentEvent c) (numEvents c) (max_reqs_per_event c) (refcount c) (sock c) (sends c) (trace c).

(** The header of the request being processed, in host order. *)
Definition bheader (c : connection) : protocol_binary_request_header := binary_header (inp c).

(** ** Handlers *)

Definition M (A : Type) : Type := ST connection A.

Definition emit (e : effect) : M unit := modify (fun c => c <| trace := trace c ++ [e] |>).

(** ** Changing state *)

(** libevent's flags. *)
Definition EV_TIMEOUT : Z := 1.
Definition EV_READ : Z := 2.
Definition EV_WRITE : Z := 4.
Definition EV_PERSIST : Z := 16.

(** [McbpStateMachine::getTaskName]; [None] where it throws. *)
Definition getTaskName (t : task) : option string :=
  match t with
  | conn_new_cmd => Some "conn_new_cmd"
  | conn_waiting => Some "conn_waiting"
  | conn_read => Some "conn_read"
  | conn_parse_cmd => Some "conn_parse_cmd"
  | conn_write => Some "conn_write"
  | conn_nread => Some "conn_nread"
  | conn_closing => Some "conn_closing"
  | conn_mwrite => Some "conn_mwrite"
  | conn_ship_log => Some "conn_ship_log"
  | conn_setup_tap_stream => Some "conn_setup_tap_stream"
  | conn_pending_close => Some "conn_pending_close"
  | conn_immediate_close => Some "conn_immediate_close"
  | conn_refresh_cbsasl => Some "conn_refresh_cbsasl"
  | conn_refresh_ssl_certs => Some "conn_refresh_ssl_cert"
  | conn_flush => Some "conn_flush"
  | conn_audit_configuring => Some "conn_audit_configuring"
  | conn_create_bucket => Some "conn_create_bucket"
  | conn_delete_bucket => Some "conn_delete_bucket"
  | conn_sasl_auth => Some "conn_sasl_auth"
  | conn_destroyed => None
  end%string.

Section SetState.
Context `{System}.

(** [mcbp_collect_timings] *)
Definition mcbp_collect_timings : M unit :=
  cmd <- gets cmd;; start <- gets start;; emit (CollectTimings cmd start).

(** The timings of the command end when its response is written. *)
Definition collect_started : M unit :=
  s <- gets start;;
  when (s != 0) (mcbp_collect_timings;; assign start 0).

(** [McbpConnection::setState], that is [McbpStateMachine::setCurrentTask]. *)
Definition setState (t : task) : M unit :=
  current <- gets currentTask;;
  if decide (t = current) then ret tt else
  duplex <- gets (fun c => tap_iterator c || dcp c);;
  t <- (if duplex && bool_decide (t = conn_waiting)
        then assign currentEvent EV_WRITE;; ret conn_ship_log else ret t);;
  when (duplex && bool_decide (t = conn_read)) (assign start 0);;
  when ((2 <? verbose) || bool_decide (t = conn_closing) ||
        bool_decide (t = conn_setup_tap_stream))
    (if bool_decide (is_Some (getTaskName current)) && bool_decide (is_Some (getTaskName t))
     then ret tt else throw);;
  when (bool_decide (t = conn_write) || bool_decide (t = conn_mwrite)) collect_started;;
  assign currentTask t.

Definition setWriteAndGo (t : task) : M unit := assign write_and_go t.

End SetState.
