(* ===== verification/Response.v ===== *)
(** * Building responses

    [daemon/mcbp.cc]: the header of a response ([mcbp_add_header]), responses
    without and with an error text ([mcbp_write_response],
    [mcbp_write_packet]), the responses that carry a cluster map
    ([get_vb_map_cb], [mcbp_write_and_free]) and those collected by the engine
    in the dynamic buffer ([mcbp_response_handler]); and
    [McbpConnection::includeErrorStringInResponseBody].

    The engine is the class [Engine]: whether it has a [get_engine_vb_map]
    function and what that does with its callback.  Snappy is a parameter of
    [mcbp_response_handler]. *)

From S2P Require Import Prelude Memory Numbers Protocol Input Output.
From S2P Require Import Buffers DynamicBuffer RecordUpdate StateMonad Connection.

(** [bucket_get_engine_vb_map] calls the engine's function with a callback
    that gets the map. *)
Class Engine := {
  get_engine_vb_map : option ((bytes -> M ENGINE_ERROR_CODE) -> M ENGINE_ERROR_CODE);
}.

Section Response.
Context `{System} `{Engine}.

(** [addMsgHdr] and [addIov] of the connection. *)
Definition add_msghdr (reset : bool) : M bool := fun c =>
  let '(ok, o) := addMsgHdr alloc_msg reset (out c) in Done ok (c <| out := o |>).

Definition add_iov (buf len : Z) : M bool := fun c =>
  match addIov iov_max alloc_msg alloc_iov buf len (out c) with
  | Some (ok, o) => Done ok (c <| out := o |>)
  | None => Crash
  end.

(** Write to memory; [NULL] crashes. *)
Definition store (a : Z) (bs : bytes) : M unit :=
  if a == 0 then crash else modify (fun c => c <| memory := put (memory c) a bs |>).

(** [grow] and [moveOffset] of the connection's dynamic buffer. *)
Definition grow_dynamic (needed : Z) : M bool := fun c =>
  match dynamic_grow realloc_at needed (memory c) (dynamicBuffer c) with
  | Some (ok, h, d) => Done ok (c <| memory := h |> <| dynamicBuffer := d |>)
  | None => Crash
  end.

Definition move_offset (num : Z) : M unit := fun c =>
  let '(out_of_range, d) := moveOffset num (dynamicBuffer c) in
  let c := c <| dynamicBuffer := d |> in
  if out_of_range then Throw c else Done tt c.

(** [mcbp_add_header]; the result is 0 or -1. *)
Definition mcbp_add_header (err ext_len key_len body_len datatype : Z) : M Z :=
  ok <- add_msghdr true;;
  if negb ok then ret (-1) else
  buf <- gets (fun c => buf (write c));;
  header <- gets (fun c =>
    mk_response_header PROTOCOL_BINARY_RES (opcode (bheader c)) (htons (u16 key_len))
      (u8 ext_len) (u8 datatype) (htons (u16 err)) (htonl (u32 body_len))
      (opaque (bheader c)) (htonll (response_cas c)));;
  store buf (store_response_header header);;
  ok <- add_iov buf HEADER_SIZE;;
  ret (if ok then 0 else -1).

Definition GET : Z := cmd_value PROTOCOL_BINARY_CMD_GET.
Definition GETK : Z := cmd_value PROTOCOL_BINARY_CMD_GETK.

(** [mcbp_write_response]; [d] is the address of the body. *)
Definition mcbp_write_response (d extlen keylen dlen : Z) : M unit :=
  noreply <- gets noreply;;
  cmd <- gets cmd;;
  if negb noreply || (cmd == GET) || (cmd == GETK) then
    r <- mcbp_add_header 0 extlen keylen dlen PROTOCOL_BINARY_RAW_BYTES;;
    if r == -1 then setState conn_closing else
    add_iov d (u64 dlen);;
    setState conn_mwrite;;
    setWriteAndGo conn_new_cmd
  else
    collect_started;;
    setState conn_new_cmd.

(** [mcbp_write_and_free], for the connection's own dynamic buffer. *)
Definition mcbp_write_and_free : M unit :=
  d <- gets dynamicBuffer;;
  if dbuffer d == 0 then setState conn_closing else
  if negb push_temp then setState conn_closing else
  modify (fun c => c <| temp_alloc := temp_alloc c ++ [dbuffer d] |>);;
  modify (fun c => c <| write := mk_shared (buf (write c)) (dbuffer d) (bsize (write c))
                                   (u32 (doffset d)) |>);;
  setState conn_write;;
  setWriteAndGo conn_new_cmd;;
  modify (fun c => c <| dynamicBuffer := takeOwnership (dynamicBuffer c) |>).

(** ** The revision of a cluster map *)

(** The text ["rev":], quotes included. *)
Definition rev_prefix : bytes := z2b <$> [34; 114; 101; 118; 34; 58].

(** [while (isspace(map[index]))]; [None] when it runs past the map. *)
Fixpoint skip_isspace (m : bytes) : option bytes :=
  match m with
  | [] => None
  | b :: m' => if byte_isspace b then skip_isspace m' else Some m
  end.

(** [atoi]: [strtol] stops at a byte that is no digit, so it too can run past
    the map; it saturates, and the result is converted to [int]. *)
Fixpoint atoi_digits (m : bytes) (acc : Z) : option Z :=
  match m with
  | [] => None
  | b :: m' => if byte_isdigit b then atoi_digits m' (10 * acc + (b2z b - 48)) else Some acc
  end.
Definition atoi (m : bytes) : option Z :=
  v ← atoi_digits m 0; Some (i32 (Z.min v (2 ^ 63 - 1))).

(** The search, from [index] on: [m] is the rest of the map, [n] the number of
    positions left. *)
Fixpoint find_rev (n : nat) (m : bytes) : option Z :=
  match n with
  | O => Some (-1)
  | S n =>
      if bool_decide (take 6 m = rev_prefix) then
        m ← skip_isspace (drop 6 m);
        b ← head m;
        if byte_isdigit b then atoi m else Some (-1)
      else find_rev n (drop 1 m)
  end.

(** [get_clustermap_revno]; [None] when the code would read outside the map. *)
Definition get_clustermap_revno (map : bytes) : option Z :=
  match map with
  | [] => Some (-1)
  | b :: rest =>
      if (b2z b != 123) || (size map <? 7) then Some (-1)
      else find_rev (length map - 7) rest
  end.

(** [get_vb_map_cb] *)
Definition get_vb_map_cb (map : bytes) : M ENGINE_ERROR_CODE :=
  map <- (if dedupe_nmvb_maps then
            match get_clustermap_revno map with
            | None => crash
            | Some revno =>
                current <- gets clustermap_revno;;
                if revno == current then ret [] else
                when (revno != -1) (assign clustermap_revno revno);;
                ret map
            end
          else ret map);;
  let needed := HEADER_SIZE + size map in
  g <- grow_dynamic needed;;
  if negb g then ret ENGINE_ENOMEM else
  cur <- gets (fun c => getCurrent (dynamicBuffer c));;
  header <- gets (fun c =>
    mk_response_header PROTOCOL_BINARY_RES (opcode (bheader c)) 0 0 0
      (htons (status_value PROTOCOL_BINARY_RESPONSE_NOT_MY_VBUCKET)) (htonl (u32 (size map)))
      (opaque (bheader c)) 0);;
  store cur (store_response_header header);;
  store (cur + HEADER_SIZE) map;;
  move_offset needed;;
  ret ENGINE_SUCCESS.

(** ** Errors *)

(** [McbpConnection::includeErrorStringInResponseBody] *)
Definition includeErrorStringInResponseBody (op : Z) (err : protocol_binary_response_status)
    : bool :=
  match cmd_of_value op with
  | Some (PROTOCOL_BINARY_CMD_SUBDOC_GET | PROTOCOL_BINARY_CMD_SUBDOC_EXISTS
    | PROTOCOL_BINARY_CMD_SUBDOC_DICT_ADD | PROTOCOL_BINARY_CMD_SUBDOC_DICT_UPSERT
    | PROTOCOL_BINARY_CMD_SUBDOC_DELETE | PROTOCOL_BINARY_CMD_SUBDOC_REPLACE
    | PROTOCOL_BINARY_CMD_SUBDOC_ARRAY_PUSH_LAST | PROTOCOL_BINARY_CMD_SUBDOC_ARRAY_PUSH_FIRST
    | PROTOCOL_BINARY_CMD_SUBDOC_ARRAY_INSERT | PROTOCOL_BINARY_CMD_SUBDOC_ARRAY_ADD_UNIQUE
    | PROTOCOL_BINARY_CMD_SUBDOC_COUNTER | PROTOCOL_BINARY_CMD_SUBDOC_MULTI_LOOKUP
    | PROTOCOL_BINARY_CMD_SUBDOC_MULTI_MUTATION) => false
  | _ =>
      match err with
      | PROTOCOL_BINARY_RESPONSE_SUCCESS | PROTOCOL_BINARY_RESPONSE_NOT_INITIALIZED
      | PROTOCOL_BINARY_RESPONSE_AUTH_STALE | PROTOCOL_BINARY_RESPONSE_NO_BUCKET => false
      | _ => true
      end
  end.

(** The error text of a response; [memcached_status_2_text] never returns
    [NULL]. *)
Definition error_text (op : Z) (err : protocol_binary_response_status) : option string :=
  if includeErrorStringInResponseBody op err then Some (memcached_status_2_text err) else None.

(** [mcbp_write_packet].  The results of [mcbp_add_header] and [addIov] are
    ignored on the last branch. *)
Definition mcbp_write_packet (err : protocol_binary_response_status) : M unit :=
  match err, get_engine_vb_map with
  | PROTOCOL_BINARY_RESPONSE_SUCCESS, _ => mcbp_write_response 0 0 0 0
  | PROTOCOL_BINARY_RESPONSE_NOT_MY_VBUCKET, Some engine =>
      ret <- engine get_vb_map_cb;;
      if decide (ret = ENGINE_SUCCESS) then mcbp_write_and_free else setState conn_closing
  | _, _ =>
      errtext <- gets (fun c => error_text (opcode (bheader c)) err);;
      let len := from_option (fun s => Z.of_nat (String.length s)) 0 errtext in
      mcbp_add_header (status_value err) 0 0 len PROTOCOL_BINARY_RAW_BYTES;;
      (match errtext with
       | Some _ => add_iov (status_text err) len;; ret tt
       | None => ret tt
       end);;
      setState conn_mwrite;;
      setWriteAndGo conn_new_cmd
  end.

(** ** Responses the engine sends *)

Section ResponseHandler.
(** [snappy_uncompressed_length] and [snappy_uncompress]; the latter returns
    the bytes it wrote, also when it fails. *)
Context (snappy_uncompressed_length : bytes -> option Z)
        (snappy_uncompress : bytes -> bool * bytes).

(** [mcbp_response_handler] *)
Definition mcbp_response_handler (key ext body : bytes) (datatype status cas : Z) : M bool :=
  supports <- gets supports_datatype;;
  let need_inflate := negb supports && is_compressed datatype in
  let datatype := if supports then datatype else PROTOCOL_BINARY_RAW_BYTES in
  match (if need_inflate then snappy_uncompressed_length body else Some (size body)) with
  | None => ret false
  | Some len =>
      let needed := size key + size ext + HEADER_SIZE + len in
      g <- grow_dynamic needed;;
      if negb g then ret false else
      cur <- gets (fun c => getCurrent (dynamicBuffer c));;
      header <- gets (fun c =>
        mk_response_header PROTOCOL_BINARY_RES (opcode (bheader c)) (htons (size key))
          (size ext) datatype (htons status) (htonl (u32 (len + size key + size ext)))
          (opaque (bheader c)) (htonll cas));;
      store cur (store_response_header header);;
      when (0 <? size ext) (store (cur + HEADER_SIZE) ext);;
      when (0 <? size key) (store (cur + HEADER_SIZE + size ext) key);;
      let at_ := cur + HEADER_SIZE + size ext + size key in
      ok <- (if 0 <? size body then
               if need_inflate then
                 let '(ok, bs) := snappy_uncompress body in store at_ bs;; ret ok
               else store at_ body;; ret true
             else ret true);;
      if negb ok then ret false else
      move_offset needed;;
      ret true
  end.

End ResponseHandler.
End Response.

(** ** What is sent *)

(** The header of a response on the wire: network order, the opaque value as
    the client sent it. *)
Definition response_wire (op key_len ext_len datatype status body_len opq cas : Z) : bytes :=
  be_store 1 PROTOCOL_BINARY_RES ++ be_store 1 op ++ be_store 2 key_len ++
  be_store 1 ext_len ++ be_store 1 datatype ++ be_store 2 status ++
  be_store 4 body_len ++ le_store 4 opq ++ be_store 8 cas.

Lemma be_store_1 x : be_store 1 x = le_store 1 x.
Proof. done. Qed.

Lemma le_store_mod n x : le_store n (x mod 256 ^ Z.of_nat n) = le_store n x.
Proof.
  rewrite <- le_load_store. pose proof (le_store_load (le_store n x)) as E.
  by rewrite le_store_length in E.
Qed.

Lemma le_store_hton n x : le_store n (bswap n (x mod 256 ^ Z.of_nat n)) = be_store n x.
Proof. by rewrite le_store_bswap, le_store_mod. Qed.

Lemma response_header_wire op key_len ext_len datatype status body_len opq cas :
  store_response_header
    (mk_response_header PROTOCOL_BINARY_RES op (htons (u16 key_len)) (u8 ext_len) (u8 datatype)
       (htons (u16 status)) (htonl (u32 body_len)) opq (htonll cas)) =
  response_wire op key_len ext_len datatype status body_len opq cas.
Proof.
  unfold store_response_header, response_wire.
  cbn [r_magic r_opcode r_keylen r_extlen r_datatype r_status r_bodylen r_opaque r_cas].
  pose proof (le_store_hton 2 key_len) as E1. pose proof (le_store_hton 2 status) as E2.
  pose proof (le_store_hton 4 body_len) as E3. pose proof (le_store_mod 1 ext_len) as E4.
  pose proof (le_store_mod 1 datatype) as E5.
  change (256 ^ Z.of_nat 2) with (2 ^ 16) in *. change (256 ^ Z.of_nat 4) with (2 ^ 32) in *.
  change (256 ^ Z.of_nat 1) with (2 ^ 8) in *. fold (u16 key_len) (u16 status) (u32 body_len) in *.
  fold (u8 ext_len) (u8 datatype) in *. unfold wrap in *.
  by rewrite E1, E2, E3, E4, E5, le_store_bswap.
Qed.

Lemma response_wire_size op key_len ext_len datatype status body_len opq cas :
  size (response_wire op key_len ext_len datatype status body_len opq cas) = HEADER_SIZE.
Proof.
  unfold size, response_wire. rewrite !length_app, !be_store_length, le_store_length. done.
Qed.

(** The bytes a connection is to send. *)
Definition to_send (c : connection) : bytes := map (memory c) (pending (out c)).

(** The fields [setState] leaves alone. *)
Record same_io (c c' : connection) : Prop := {
  si_memory : memory c' = memory c;
  si_out : out c' = out c;
  si_write : write c' = write c;
  si_inp : inp c' = inp c;
  si_dynamic : dynamicBuffer c' = dynamicBuffer c;
  si_temp : temp_alloc c' = temp_alloc c;
  si_go : write_and_go c' = write_and_go c;
  si_revno : clustermap_revno c' = clustermap_revno c;
}.

Section ResponseProofs.
Context `{System} `{Engine}.

Lemma same_io_trans c c1 c2 : same_io c c1 -> same_io c1 c2 -> same_io c c2.
Proof. intros [] []. split; congruence. Qed.

Lemma collect_started_io c :
  exists c', collect_started c = Done tt c' /\ currentTask c' = currentTask c /\ same_io c c'.
Proof.
  unfold collect_started, mcbp_collect_timings, emit, when, bind, gets, modify, ret. cbn.
  destruct (start c == 0); cbn; (eexists; split; [reflexivity|]; by split).
Qed.

Lemma setState_to t c :
  currentTask c <> conn_destroyed -> t <> conn_destroyed -> t <> conn_waiting ->
  exists c', setState t c = Done tt c' /\ currentTask c' = t /\ same_io c c'.
Proof.
  intros Hc Ht Hw. unfold setState, bind, gets. destruct (decide (t = currentTask c)) as [->|Hne].
  { by exists c. }
  rewrite (bool_decide_eq_false_2 (t = conn_waiting)), andb_false_r by done.
  cbn beta iota delta [ret].
  assert (forall u, u <> conn_destroyed -> bool_decide (is_Some (getTaskName u)) = true) as Hn.
  { intros u Hu. apply bool_decide_eq_true_2. by destruct u. }
  rewrite (Hn (currentTask c) Hc), (Hn t Ht). cbn [andb]. unfold when, ret, modify.
  set (c1 := if (tap_iterator c || dcp c) && bool_decide (t = conn_read)
             then c <| start := 0 |> else c).
  assert (same_io c c1) as H1 by (subst c1; by destruct (_ && _)).
  replace ((if (tap_iterator c || dcp c) && bool_decide (t = conn_read) then _ else _) c)
    with (Done tt c1) by (subst c1; by destruct (_ && _)).
  destruct ((2 <? verbose) || _ || _);
    (destruct (bool_decide (t = conn_write) || bool_decide (t = conn_mwrite));
     [destruct (collect_started_io c1) as (c2 & -> & _ & H2)|];
     (eexists; split; [reflexivity|]; split; [done|]);
     [apply (same_io_trans c c1); [done|]; by destruct H2|by destruct H1]).
Qed.

Context (Hmax : 1 <= iov_max).

Lemma add_iov_ok buf len c :
  building iov_max (out c) -> 0 <= len ->
  exists ok n o, add_iov buf len c = Done ok (c <| out := o |>) /\ building iov_max o /\
    0 <= n <= len /\ pending o = pending (out c) ++ seqZ buf n /\
    ((forall n, alloc_msg n = true) -> (forall n, alloc_iov n = true) -> ok = true /\ n = len).
Proof.
  intros HB Hl. unfold add_iov.
  destruct (addIov_appends iov_max alloc_msg alloc_iov buf len (out c))
    as (ok & n & o & E & HB' & Hn & Hok & Hp); [done..|].
  rewrite E. exists ok, n, o. split_and!; try (done || lia).
  intros Hm Hi. assert (ok = true) as Ho by (eapply addIov_no_oom; [exact Hm|exact Hi|exact E]).
  split; [done|by apply Hok].
Qed.

(** Memory for the lists of messages and entries can be allocated. *)
Definition memory_available : Prop :=
  (forall n, alloc_msg n = true) /\ (forall n, alloc_iov n = true).

(** A connection that can send: it has a write buffer and an entry list, and
    is not yet destroyed. *)
Record can_respond (c : connection) : Prop := {
  cr_iov : (1 <= length (iov (out c)))%nat;
  cr_buf : buf (write c) <> 0;
  cr_task : currentTask c <> conn_destroyed;
}.

Lemma map_fetch h a n : map h (seqZ a n) = fetch h a n.
Proof. done. Qed.

(** The header is written to the start of the write buffer and is all there is
    to send. *)
Lemma mcbp_add_header_ok err e k b d c :
  memory_available -> can_respond c ->
  exists o, let wire := response_wire (opcode (bheader c)) k e d err b (opaque (bheader c))
                          (response_cas c) in
    mcbp_add_header err e k b d c =
      Done 0 (c <| out := o |> <| memory := put (memory c) (buf (write c)) wire |>) /\
    building iov_max o /\ pending o = seqZ (buf (write c)) HEADER_SIZE.
Proof.
  intros [Hm Hi] [Hl Hb Ht]. unfold mcbp_add_header, add_msghdr, bind at 1.
  destruct (addMsgHdr alloc_msg true (out c)) as [ok o1] eqn:E1.
  assert (ok = true) as ->.
  { unfold addMsgHdr in E1. rewrite Hm in E1. by injection E1. }
  apply (addMsgHdr_true_building iov_max) in E1 as [HB1 Hp1]; [|lia|done].
  cbn [negb]. unfold bind, gets, store. cbn [write inp set_field memory out response_cas bheader].
  rewrite (proj2 (Z.eqb_neq _ _) Hb). unfold modify, ret.
  cbn beta iota. rewrite response_header_wire.
  set (c1 := _ <| memory := _ |>).
  destruct (add_iov_ok (buf (write c)) HEADER_SIZE c1) as (ok & n & o & -> & HB & Hn & Hp & Hlen);
    [done|done|].
  exists o. destruct Hlen as [-> ->]; [done..|]. change (out c1) with o1 in Hp.
  rewrite Hp1 in Hp. by split_and!.
Qed.

(** The end of the functions that send a response. *)
Lemma finish_response c :
  currentTask c <> conn_destroyed ->
  exists c', (setState conn_mwrite;; setWriteAndGo conn_new_cmd) c = Done tt c' /\
    currentTask c' = conn_mwrite /\ write_and_go c' = conn_new_cmd /\
    out c' = out c /\ memory c' = memory c.
Proof.
  intros Hc. unfold bind.
  destruct (setState_to conn_mwrite c) as (c1 & -> & Ht & [Hm Ho _ _ _ _ _ _]); [done..|].
  eexists. split; [reflexivity|]. by rewrite <- Hm, <- Ho.
Qed.

Lemma fetch_disjoint h a bs b n :
  n = 0 \/ b + n <= a \/ a + size bs <= b -> fetch (put h a bs) b n = fetch h b n.
Proof. intros [->|Hd]; [done|by apply fetch_put_other]. Qed.

(** What the message list holds when a response is complete. *)
Record response_ready (bs : bytes) (c : connection) : Prop := {
  rr_task : currentTask c = conn_mwrite;
  rr_go : write_and_go c = conn_new_cmd;
  rr_building : building iov_max (out c);
  rr_bytes : to_send c = bs;
}.

(** A header followed by [n] bytes at [a]. *)
Lemma header_and_body err e k b d a n c :
  memory_available -> can_respond c -> 0 <= n ->
  n = 0 \/ a + n <= buf (write c) \/ buf (write c) + HEADER_SIZE <= a ->
  exists c1 c2, mcbp_add_header err e k b d c = Done 0 c1 /\
    add_iov a n c1 = Done true c2 /\
    exists c', (setState conn_mwrite;; setWriteAndGo conn_new_cmd) c2 = Done tt c' /\
    response_ready (response_wire (opcode (bheader c)) k e d err b (opaque (bheader c))
                      (response_cas c) ++ fetch (memory c) a n) c'.
Proof.
  intros [Hm Hi] Hc Hn Hd. set (wire := response_wire _ _ _ _ _ _ _ _).
  destruct (mcbp_add_header_ok err e k b d c) as (o & E & HB & Hp); [done..|].
  fold wire in E. rewrite E. set (c1 := c <| out := _ |> <| memory := _ |>). exists c1.
  destruct (add_iov_ok a n c1) as (ok & m & o2 & E2 & HB2 & _ & Hp2 & Hok); [done..|].
  destruct Hok as [-> ->]; [done..|]. rewrite E2. eexists. split; [done|]. split; [done|].
  destruct (finish_response (c1 <| out := o2 |>)) as (c' & -> & Ht & Hg & Ho & Hm');
    [apply (cr_task c Hc)|].
  exists c'. split; [done|]. split; [done|done|by rewrite Ho|].
  unfold to_send. rewrite Ho, Hm'. change (out (c1 <| out := o2 |>)) with o2.
  change (out c1) with o in Hp2. rewrite Hp2, Hp, map_app, !map_fetch.
  change (memory (c1 <| out := o2 |>)) with (put (memory c) (buf (write c)) wire).
  pose proof (fetch_put_same (memory c) (buf (write c)) wire) as Ew.
  unfold wire in Ew at 2. rewrite response_wire_size in Ew. rewrite Ew. f_equal.
  apply fetch_disjoint. unfold wire. by rewrite response_wire_size.
Qed.

Lemma length_text s : Z.of_nat (String.length s) = size (String.list_byte_of_string s).
Proof.
  unfold size. f_equal. induction s as [|a s IH]; [done|]. cbn. by rewrite IH.
Qed.

(** The static text of a status lies at [status_text], outside the write
    buffer's header. *)
Definition text_in_memory (err : protocol_binary_response_status) (c : connection) : Prop :=
  let n := Z.of_nat (String.length (memcached_status_2_text err)) in
  fetch (memory c) (status_text err) n = String.list_byte_of_string (memcached_status_2_text err) /\
  (status_text err + n <= buf (write c) \/ buf (write c) + HEADER_SIZE <= status_text err).

(** The body of an error response. *)
Definition error_body (op : Z) (err : protocol_binary_response_status) : bytes :=
  from_option String.list_byte_of_string [] (error_text op err).

(** The response an error is answered with. *)
Lemma write_packet_error err c :
  memory_available -> can_respond c -> text_in_memory err c ->
  err <> PROTOCOL_BINARY_RESPONSE_SUCCESS ->
  (err = PROTOCOL_BINARY_RESPONSE_NOT_MY_VBUCKET -> get_engine_vb_map = None) ->
  exists c', mcbp_write_packet err c = Done tt c' /\
    let body := error_body (opcode (bheader c)) err in
    response_ready
      (response_wire (opcode (bheader c)) 0 0 0 (status_value err) (size body)
         (opaque (bheader c)) (response_cas c) ++ body) c'.
Proof.
  intros Hm Hc [Htext Hdis] Hs Hv. set (body := error_body _ _).
  set (a := if includeErrorStringInResponseBody (opcode (bheader c)) err
            then status_text err else 0).
  assert (fetch (memory c) a (size body) = body /\
          (size body = 0 \/ a + size body <= buf (write c) \/ buf (write c) + HEADER_SIZE <= a))
    as [Hf Hd].
  { subst a body. unfold error_body, error_text. destruct (includeErrorStringInResponseBody _ _).
    - cbn [from_option]. rewrite <- length_text. auto.
    - by split; [|left]. }
  destruct (header_and_body (status_value err) 0 0 (size body) PROTOCOL_BINARY_RAW_BYTES
              a (size body) c) as (c1 & c2 & E1 & E2 & c' & E3 & HR); [done..| |done|].
  { apply size_nonneg. }
  exists c'. rewrite Hf in HR. split; [|exact HR].
  assert (mcbp_write_packet err c =
    (errtext <- gets (fun c => error_text (opcode (bheader c)) err);;
      let len := from_option (fun s => Z.of_nat (String.length s)) 0 errtext in
      mcbp_add_header (status_value err) 0 0 len PROTOCOL_BINARY_RAW_BYTES;;
      (match errtext with
       | Some _ => add_iov (status_text err) len;; ret tt
       | None => ret tt
       end);;
      setState conn_mwrite;;
      setWriteAndGo conn_new_cmd) c) as ->.
  { unfold mcbp_write_packet. destruct err; try done. by rewrite (Hv eq_refl). }
  unfold bind at 1, gets at 1.
  replace (from_option (fun s => Z.of_nat (String.length s)) 0 (error_text (opcode (bheader c)) err))
    with (size body)
    by (subst body; unfold error_body; destruct (error_text _ _); cbn; [by rewrite length_text|done]).
  unfold bind at 1. rewrite E1. unfold bind at 1.
  replace (error_text (opcode (bheader c)) err) with
    (if includeErrorStringInResponseBody (opcode (bheader c)) err
     then Some (memcached_status_2_text err) else None) by done.
  destruct (includeErrorStringInResponseBody _ _) eqn:Ei.
  - unfold bind at 1. subst a. rewrite E2. exact E3.
  - assert (size body = 0) as E0.
    { subst body. unfold error_body, error_text. by rewrite Ei. }
    rewrite E0 in E2. cbn in E2. injection E2 as <-. cbn. rewrite <- E3. f_equal.
    by destruct c1.
Qed.

(** C25: an error response is the header with the status, the length of the
    body, the request's opcode and opaque value and the connection's CAS, in
    network order, followed by the error text where the opcode and the status
    ask for it; the connection goes on to send it and then to the next
    command.  (A "not my vbucket" error with an engine that has a cluster map
    is answered with the map instead.) *)
Theorem mcbp_write_packet_error err c :
  memory_available -> can_respond c -> text_in_memory err c ->
  err <> PROTOCOL_BINARY_RESPONSE_SUCCESS ->
  (err = PROTOCOL_BINARY_RESPONSE_NOT_MY_VBUCKET -> get_engine_vb_map = None) ->
  exists c', mcbp_write_packet err c = Done tt c' /\
    let body := error_body (opcode (bheader c)) err in
    response_ready
      (response_wire (opcode (bheader c)) 0 0 0 (status_value err) (size body)
         (opaque (bheader c)) (response_cas c) ++ body) c'.
Proof. apply write_packet_error. Qed.

(** The response to a command that succeeded. *)
Lemma write_response_ok d extlen keylen dlen c :
  memory_available -> can_respond c -> 0 <= dlen < 2147483648 ->
  dlen = 0 \/ d + dlen <= buf (write c) \/ buf (write c) + HEADER_SIZE <= d ->
  exists c', mcbp_write_response d extlen keylen dlen c = Done tt c' /\
    if noreply c && (cmd c != GET) && (cmd c != GETK) then
      currentTask c' = conn_new_cmd /\ out c' = out c /\ memory c' = memory c
    else response_ready
      (response_wire (opcode (bheader c)) keylen extlen 0 0 dlen (opaque (bheader c))
         (response_cas c) ++ fetch (memory c) d dlen) c'.
Proof.
  intros Hm Hc Hlen Hd. unfold mcbp_write_response, bind at 1 2, gets at 1 2.
  replace (noreply c && (cmd c != GET) && (cmd c != GETK)) with
    (negb (negb (noreply c) || (cmd c == GET) || (cmd c == GETK)))
    by (by destruct (noreply c), (cmd c == GET), (cmd c == GETK)).
  destruct (negb (noreply c) || (cmd c == GET) || (cmd c == GETK)); cbn [negb].
  - destruct (header_and_body 0 extlen keylen dlen PROTOCOL_BINARY_RAW_BYTES d dlen c)
      as (c1 & c2 & E1 & E2 & c' & E3 & HR); [done..|lia|done|].
    exists c'. split; [|exact HR]. unfold bind at 1. rewrite E1. cbn [Z.eqb].
    rewrite u64_small by lia. unfold bind at 1. rewrite E2. exact E3.
  - unfold bind. destruct (collect_started_io c) as (c1 & -> & Ht & S1).
    destruct (setState_to conn_new_cmd c1) as (c2 & -> & Ht2 & S2); [|done..|].
    { rewrite Ht. apply (cr_task c Hc). }
    pose proof (same_io_trans _ _ _ S1 S2) as [Hmem Ho _ _ _ _ _ _]. eauto.
Qed.

(** C35: a successful response is the header followed by the body, exactly once,
    unless the command asked for no reply and is not a GET or GETK; then the
    message list is left alone and the connection goes on with the next
    command. *)
Theorem mcbp_write_response_spec d extlen keylen dlen c :
  memory_available -> can_respond c -> 0 <= dlen < 2147483648 ->
  dlen = 0 \/ d + dlen <= buf (write c) \/ buf (write c) + HEADER_SIZE <= d ->
  exists c', mcbp_write_response d extlen keylen dlen c = Done tt c' /\
    if noreply c && (cmd c != GET) && (cmd c != GETK) then
      currentTask c' = conn_new_cmd /\ out c' = out c /\ memory c' = memory c
    else response_ready
      (response_wire (opcode (bheader c)) keylen extlen 0 0 dlen (opaque (bheader c))
         (response_cas c) ++ fetch (memory c) d dlen) c'.
Proof. apply write_response_ok. Qed.

(** [mcbp_write_packet] ignores that [mcbp_add_header] failed: when there
    is no memory for a message and the response has an error text, it goes on
    to add the text to a message list that is empty. *)
Theorem mcbp_write_packet_oom err c :
  alloc_msg 1 = false -> error_body (opcode (bheader c)) err <> [] ->
  err <> PROTOCOL_BINARY_RESPONSE_NOT_MY_VBUCKET ->
  mcbp_write_packet err c = Crash.
Proof.
  intros Hm Hb Hv. unfold error_body in Hb.
  assert (mcbp_add_header (status_value err) 0 0
            (from_option (fun s => Z.of_nat (String.length s)) 0
               (error_text (opcode (bheader c)) err)) PROTOCOL_BINARY_RAW_BYTES c =
          Done (-1) (c <| out := mk_output (iov (out c)) 0 [] 0 (msgbytes (out c)) (iov_block (out c)) |>)) as E.
  { unfold mcbp_add_header, add_msghdr, bind, addMsgHdr. cbn [msglist length]. by rewrite Hm. }
  destruct (error_text (opcode (bheader c)) err) as [s|] eqn:Et; [|done].
  assert (err <> PROTOCOL_BINARY_RESPONSE_SUCCESS) as Hs.
  { intros ->. unfold error_text, includeErrorStringInResponseBody in Et.
    by destruct (cmd_of_value _) as [[]|]. }
  assert (add_iov (status_text err) (Z.of_nat (String.length s))
            (c <| out := mk_output (iov (out c)) 0 [] 0 (msgbytes (out c)) (iov_block (out c)) |>) = Crash) as E2.
  { unfold add_iov, addIov. cbn [from_option] in Hb. destruct s as [|ch s]; [done|]. done. }
  unfold mcbp_write_packet. destruct err; try done;
    unfold bind, gets; rewrite Et; cbn [from_option] in *; rewrite E, E2; reflexivity.
Qed.

Context (Hrealloc : forall n, 0 <= realloc_at n).

(** A dynamic buffer that can take [n] more bytes. *)
Definition dynamic_room (n : Z) (c : connection) : Prop :=
  dynamic_ok (dynamicBuffer c) /\ dsize (dynamicBuffer c) <= 2 ^ 63 /\
  doffset (dynamicBuffer c) + n <= 2 ^ 62.

Definition gathered (c : connection) : bytes := collected (memory c) (dynamicBuffer c).

(** A connection that differs in its memory and its dynamic buffer only. *)
Definition with_dynamic (h : heap) (d : DynamicBuffer) (c : connection) : connection :=
  c <| memory := h |> <| dynamicBuffer := d |>.

Lemma grow_dynamic_ok needed c :
  0 <= needed -> dynamic_room needed c ->
  exists ok h d, grow_dynamic needed c = Done ok (with_dynamic h d c) /\
    dynamic_ok d /\ collected h d = gathered c /\ doffset d = doffset (dynamicBuffer c) /\
    if ok then doffset d + needed <= dsize d /\ dsize d <= 2 ^ 63 /\ 0 < dbuffer d
    else exists n, realloc_at n = 0.
Proof.
  intros Hn (Hok & Hs & Hr). unfold grow_dynamic.
  destruct (dynamic_grow_ok realloc_at Hrealloc needed (memory c) (dynamicBuffer c))
    as (ok & h & d & -> & Hd & Hc & Ho & Hcase); [done..|].
  exists ok, h, d. split_and!; [done|done|done|done|]. destruct ok; [|by destruct Hcase as (_ & _ & ?)].
  destruct Hcase as (H1 & H2 & H3). pose proof (do_address d Hd). lia.
Qed.

Lemma store_append bs n c h d :
  0 < dbuffer d -> 0 <= n ->
  exists h', store (dbuffer d + n) bs (with_dynamic h d c) = Done tt (with_dynamic h' d c) /\
    fetch h' (dbuffer d) (n + size bs) = fetch h (dbuffer d) n ++ bs.
Proof.
  intros Hd Hn. unfold store. rewrite (proj2 (Z.eqb_neq (dbuffer d + n) 0)) by lia.
  exists (put h (dbuffer d + n) bs). split; [done|]. by apply fetch_put_append.
Qed.

Lemma when_store_append bs n c h d :
  0 < dbuffer d -> 0 <= n ->
  exists h', when (0 <? size bs) (store (dbuffer d + n) bs) (with_dynamic h d c) =
      Done tt (with_dynamic h' d c) /\
    fetch h' (dbuffer d) (n + size bs) = fetch h (dbuffer d) n ++ bs.
Proof.
  intros Hd Hn. destruct bs as [|b bs].
  - exists h. split; [done|]. change (size []) with 0. by rewrite Z.add_0_r, app_nil_r.
  - by apply store_append.
Qed.

Lemma move_offset_ok n c h d :
  dynamic_ok d -> 0 <= n -> doffset d + n <= dsize d -> dsize d <= 2 ^ 63 ->
  move_offset n (with_dynamic h d c) =
    Done tt (with_dynamic h (mk_dynamic (dbuffer d) (doffset d + n) (dsize d)) c) /\
  dynamic_ok (mk_dynamic (dbuffer d) (doffset d + n) (dsize d)).
Proof.
  intros [Hnull Hoff Hall Haddr] Hn Hr Hs. unfold move_offset, moveOffset.
  change (dynamicBuffer (with_dynamic h d c)) with d. rewrite u64_small by lia.
  rewrite (proj2 (Z.ltb_ge _ _)) by lia. split; [done|].
  split; cbn [dbuffer doffset dsize]; lia.
Qed.

Section Handler.
Context (snappy_uncompressed_length : bytes -> option Z)
        (snappy_uncompress : bytes -> bool * bytes).

(** What snappy documents: uncompressing writes as many bytes as the length it
    announced, and an empty input has no length. *)
Record snappy_ok : Prop := {
  sn_length : forall b d, snappy_uncompress b = (true, d) ->
    snappy_uncompressed_length b = Some (size d);
  sn_empty : snappy_uncompressed_length [] = None;
}.

Definition inflates (c : connection) (datatype : Z) : bool :=
  negb (supports_datatype c) && is_compressed datatype.

(** The value the client gets. *)
Definition client_value (c : connection) (datatype : Z) (body : bytes) : bytes :=
  if inflates c datatype then (snappy_uncompress body).2 else body.

Definition client_datatype (c : connection) (datatype : Z) : Z :=
  if supports_datatype c then datatype else PROTOCOL_BINARY_RAW_BYTES.

Lemma response_header_wire_small op key_len ext_len datatype status body_len opq cas :
  0 <= key_len < 65536 -> 0 <= ext_len < 256 -> 0 <= datatype < 256 -> 0 <= status < 65536 ->
  store_response_header
    (mk_response_header PROTOCOL_BINARY_RES op (htons key_len) ext_len datatype
       (htons status) (htonl (u32 body_len)) opq (htonll cas)) =
  response_wire op key_len ext_len datatype status body_len opq cas.
Proof.
  intros Hk He Hd Hs. rewrite <- response_header_wire.
  by rewrite (wrap_small 16 key_len), (wrap_small 8 ext_len), (wrap_small 8 datatype),
    (wrap_small 16 status).
Qed.

(** The part of [mcbp_response_handler] after the buffer has grown: header,
    extras, key. *)
Lemma response_prefix key ext hdr c h d :
  0 < dbuffer d -> dynamic_ok d -> size hdr = HEADER_SIZE ->
  exists h', (store (getCurrent d) hdr;;
     when (0 <? size ext) (store (getCurrent d + HEADER_SIZE) ext);;
     when (0 <? size key) (store (getCurrent d + HEADER_SIZE + size ext) key))
       (with_dynamic h d c) = Done tt (with_dynamic h' d c) /\
    fetch h' (dbuffer d) (doffset d + HEADER_SIZE + size ext + size key) =
      collected h d ++ hdr ++ ext ++ key.
Proof.
  intros Hb Hd Hh. pose proof (do_offset d Hd) as Ho. unfold getCurrent.
  pose proof (size_nonneg ext). pose proof (size_nonneg key). unfold HEADER_SIZE in *.
  destruct (store_append hdr (doffset d) c h d) as (h1 & E1 & F1); [lia..|].
  destruct (when_store_append ext (doffset d + 24) c h1 d) as (h2 & E2 & F2); [lia..|].
  destruct (when_store_append key (doffset d + 24 + size ext) c h2 d) as (h3 & E3 & F3); [lia..|].
  exists h3. rewrite Hh in F1. unfold bind. rewrite E1.
  replace (dbuffer d + doffset d + 24) with (dbuffer d + (doffset d + 24)) by lia. rewrite E2.
  replace (dbuffer d + (doffset d + 24) + size ext)
    with (dbuffer d + (doffset d + 24 + size ext)) by lia. rewrite E3.
  split; [done|]. unfold collected. by rewrite F3, F2, F1, <- !app_assoc.
Qed.

(** The value, behind the prefix. *)
Lemma response_value inflate body at_ c h d :
  0 < dbuffer d -> 0 <= at_ ->
  (inflate = true -> body <> []) ->
  let value := if inflate then (snappy_uncompress body).2 else body in
  exists h', (if 0 <? size body then
      if inflate then
        let '(ok, bs) := snappy_uncompress body in store (dbuffer d + at_) bs;; ret ok
      else store (dbuffer d + at_) body;; ret true
    else ret true) (with_dynamic h d c) =
      Done (if inflate then (snappy_uncompress body).1 else true) (with_dynamic h' d c) /\
    fetch h' (dbuffer d) (at_ + size value) = fetch h (dbuffer d) at_ ++ value.
Proof.
  intros Hb Ha Hne value. destruct body as [|b body].
  { destruct inflate; [by destruct (Hne eq_refl)|]. exists h. split; [done|].
    cbn [value]. subst value. change (size []) with 0. by rewrite Z.add_0_r, app_nil_r. }
  replace (0 <? size (b :: body)) with true by (symmetry; apply Z.ltb_lt; unfold size; cbn; lia).
  subst value. destruct inflate.
  - destruct (snappy_uncompress (b :: body)) as [ok bs] eqn:E.
    destruct (store_append bs at_ c h d) as (h' & E1 & F1); [done..|].
    exists h'. unfold bind. rewrite E1. split; [done|exact F1].
  - destruct (store_append (b :: body) at_ c h d) as (h' & E1 & F1); [done..|].
    exists h'. unfold bind. rewrite E1. split; [done|exact F1].
Qed.

Lemma bind_prefix {A} (s w1 w2 : M unit) (k : M A) c c' :
  (s;; w1;; w2) c = Done tt c' -> (s;; w1;; w2;; k) c = k c'.
Proof.
  unfold bind. destruct (s c) as [[] c1| |]; [|done..]. destruct (w1 c1) as [[] c2| |]; [|done..].
  by destruct (w2 c2) as [[] c3| |]; [intros [= ->]|..].
Qed.

Lemma fetch_prefix h b n k p q :
  0 <= n -> 0 <= k -> size p = n -> fetch h b (n + k) = p ++ q -> fetch h b n = p.
Proof.
  intros Hn Hk Hp E. rewrite fetch_app in E by done. apply app_inj_1 in E as [E _]; [done|].
  pose proof (fetch_size h b n Hn). unfold size in *. lia.
Qed.

(** The length the handler announces. *)
Definition announced (c : connection) (datatype : Z) (body : bytes) : option Z :=
  if inflates c datatype then snappy_uncompressed_length body else Some (size body).

(** Whether the value can be given to the client: it need not be inflated, or
    it can be. *)
Definition presentable (c : connection) (datatype : Z) (body : bytes) : bool :=
  if inflates c datatype
  then bool_decide (is_Some (snappy_uncompressed_length body)) && (snappy_uncompress body).1
  else true.

(** The announced length is that of a value that could be inflated. *)
Lemma announced_length c datatype body len :
  snappy_ok -> announced c datatype body = Some len -> presentable c datatype body = true ->
  len = size (client_value c datatype body).
Proof.
  unfold client_value, announced, presentable. intros Hsn Ea Hp.
  destruct (inflates c datatype); [|congruence]. rewrite Ea in Hp.
  destruct (snappy_uncompress body) as [o bs] eqn:Es. cbn in Hp. subst o.
  apply (sn_length Hsn) in Es. cbn. congruence.
Qed.

Lemma presentable_announced c datatype body len :
  announced c datatype body = Some len ->
  presentable c datatype body = if inflates c datatype then (snappy_uncompress body).1 else true.
Proof.
  unfold announced, presentable. destruct (inflates c datatype); [|done]. by intros ->.
Qed.

Lemma not_announced c datatype body :
  announced c datatype body = None -> presentable c datatype body = false.
Proof.
  unfold announced, presentable. destruct (inflates c datatype); [|done]. by intros ->.
Qed.

(** The end of the handler: the packet counts, or it does not. *)
Lemma response_end (ok : bool) needed all h h2 d c :
  dynamic_ok d -> 0 <= needed -> doffset d + needed <= dsize d -> dsize d <= 2 ^ 63 -> 0 <= doffset d ->
  fetch h2 (dbuffer d) (doffset d + size all) = collected h d ++ all -> (ok = true -> size all = needed) ->
  exists c', (if negb ok then ret false else move_offset needed;; ret true) (with_dynamic h2 d c) = Done ok c' /\
    dynamic_ok (dynamicBuffer c') /\ gathered c' = collected h d ++ (if ok then all else []).
Proof.
  intros Hd Hn Hfit Hmax63 Ho F Hall. destruct ok; cbn [negb].
  - destruct (move_offset_ok needed c h2 d) as [E3 Hd3]; [done..|].
    rewrite (bind_done _ _ _ _ _ E3). eexists. split; [reflexivity|]. split; [done|].
    unfold gathered, collected. cbn -[fetch]. rewrite <- (Hall eq_refl). exact F.
  - eexists. split; [reflexivity|]. split; [done|]. rewrite app_nil_r. unfold gathered, collected in *. cbn -[fetch].
    pose proof (size_nonneg all). eapply (fetch_prefix _ _ _ (size all)); [lia|lia|apply fetch_size; lia|exact F].
Qed.

(** C24: the handler the engine sends responses through adds exactly one
    complete packet to what is collected (header in network order with the
    length of what follows, extras, key and value; a compressed value is
    inflated, and the datatype dropped, for a client that does not support
    datatypes) and reports success, whenever the value can be presented to the
    client and the buffer can be allocated; a value that cannot be inflated is
    always reported as a failure, and after a failure nothing has been added. *)
Theorem mcbp_response_handler_spec key ext body datatype status cas c :
  snappy_ok -> size key < 65536 -> size ext < 256 -> 0 <= datatype < 256 ->
  0 <= status < 65536 ->
  dynamic_room 0 c ->
  (forall len, announced c datatype body = Some len ->
     0 <= len /\ dynamic_room (size key + size ext + HEADER_SIZE + len) c) ->
  let value := client_value c datatype body in
  exists ok c',
    mcbp_response_handler snappy_uncompressed_length snappy_uncompress key ext body datatype
      status cas c = Done ok c' /\
    dynamic_ok (dynamicBuffer c') /\
    (presentable c datatype body = false -> ok = false) /\
    (ok = false -> presentable c datatype body = false \/ exists n, realloc_at n = 0) /\
    gathered c' = gathered c ++
      (if ok then
         response_wire (opcode (bheader c)) (size key) (size ext) (client_datatype c datatype)
           status (size value + size key + size ext) (opaque (bheader c)) cas ++
         ext ++ key ++ value
       else []).
Proof.
  intros Hsn Hk He Hdt Hst [Hd0 _] Hroom value. unfold mcbp_response_handler, bind at 1, gets at 1.
  fold (inflates c datatype) (client_datatype c datatype) (announced c datatype body).
  pose proof (size_nonneg key). pose proof (size_nonneg ext). pose proof (size_nonneg value).
  destruct (announced c datatype body) as [len|] eqn:Ea; 
    [|exists false, c; rewrite app_nil_r; split_and!; [done..| |done]; intros _; left;
      by apply not_announced].
  destruct (Hroom len eq_refl) as [Hlen Hr]. clear Hroom.
  destruct (grow_dynamic_ok (size key + size ext + HEADER_SIZE + len) c)
    as (ok & h & d & Eg & Hd & Hcol & _ & Hok); [unfold HEADER_SIZE; lia|done|].
  rewrite (bind_done _ _ _ _ _ Eg). destruct ok; cbn [negb].
  2: { eexists false, _. split; [reflexivity|]. rewrite app_nil_r. split_and!; auto. }
  destruct Hok as (Hfit & Hmax63 & Hb). unfold bind at 1 2, gets at 1 2.
  change (dynamicBuffer (with_dynamic h d c)) with d.
  change (bheader (with_dynamic h d c)) with (bheader c).
  rewrite response_header_wire_small;
    [|lia|lia|unfold client_datatype; destruct (supports_datatype c); done|lia].
  set (wire := response_wire _ _ _ _ _ _ _ _).
  destruct (response_prefix key ext wire c h d) as (h1 & E1 & F1); [done..|apply response_wire_size|].
  rewrite (bind_prefix _ _ _ _ _ _ E1).
  replace (getCurrent d + HEADER_SIZE + size ext + size key)
    with (dbuffer d + (doffset d + HEADER_SIZE + size ext + size key)) by (unfold getCurrent; lia).
  pose proof (do_offset d Hd) as Ho.
  destruct (response_value (inflates c datatype) body
              (doffset d + HEADER_SIZE + size ext + size key) c h1 d)
    as (h2 & E2 & F2); [done|unfold HEADER_SIZE; lia| |].
  { intros Hi ->. unfold announced in Ea. rewrite Hi, (sn_empty Hsn) in Ea. done. }
  rewrite (bind_done _ _ _ _ _ E2). fold (client_value c datatype body) in F2. fold value in F2.
  rewrite F1 in F2. rewrite <- (presentable_announced _ _ _ _ Ea).
  destruct (response_end (presentable c datatype body) (size key + size ext + HEADER_SIZE + len)
              (wire ++ ext ++ key ++ value) h h2 d c) as (c' & E3 & Hd3 & G3); [done|unfold HEADER_SIZE; lia|done|done|lia| | |].
  { rewrite !size_app. unfold wire at 1. rewrite response_wire_size. rewrite !Z.add_assoc, F2. by rewrite <- !app_assoc. }
  { intros Hp. rewrite !size_app. unfold wire at 1. rewrite response_wire_size, (announced_length _ _ _ _ Hsn Ea Hp). fold value. lia. }
  exists (presentable c datatype body), c'. split_and!; [exact E3|done|done|by left|]. rewrite G3, Hcol.
  destruct (presentable c datatype body) eqn:Ep; [|done].
  unfold wire. by rewrite (announced_length _ _ _ _ Hsn Ea Ep).
Qed.

End Handler.

(** ** Responses that carry the cluster map *)

(** What the client gets of the map: nothing when it already has it. *)
Definition sent_map (c : connection) (m : bytes) : bytes :=
  if dedupe_nmvb_maps && bool_decide (get_clustermap_revno m = Some (clustermap_revno c))
  then [] else m.

(** The revision the connection remembers. *)
Definition new_revno (c : connection) (m : bytes) : Z :=
  match get_clustermap_revno m with
  | Some r => if dedupe_nmvb_maps && (r != -1) then r else clustermap_revno c
  | None => clustermap_revno c
  end.

Lemma dedupe_map m c :
  (dedupe_nmvb_maps = true -> get_clustermap_revno m <> None) ->
  (if dedupe_nmvb_maps then
     match get_clustermap_revno m with
     | None => crash
     | Some revno =>
         current <- gets clustermap_revno;;
         if revno == current then ret [] else
         when (revno != -1) (assign clustermap_revno revno);;
         ret m
     end
   else ret m) c = Done (sent_map c m) (c <| clustermap_revno := new_revno c m |>).
Proof.
  intros Hm. assert (forall c : connection, c = c <| clustermap_revno := clustermap_revno c |>) as Heta
    by (by intros []).
  unfold sent_map, new_revno. destruct dedupe_nmvb_maps; cbn [andb].
  2: { unfold ret. rewrite (Heta c) at 1. by destruct (get_clustermap_revno m). }
  destruct (get_clustermap_revno m) as [r|]; [|by destruct Hm]. unfold bind, gets, ret, when, modify.
  destruct (r == clustermap_revno c) eqn:E.
  - assert (r = clustermap_revno c) as -> by lia. rewrite bool_decide_eq_true_2 by done.
    rewrite (Heta c) at 1. by destruct (clustermap_revno c == -1).
  - rewrite bool_decide_eq_false_2 by (intros [= ->]; lia).
    destruct (r == -1); cbn [negb ret]; [unfold ret; by rewrite <- Heta|done].
Qed.

(** The callback adds one packet with the map to what is collected. *)
Lemma get_vb_map_cb_ok m c :
  (dedupe_nmvb_maps = true -> get_clustermap_revno m <> None) ->
  (forall n, realloc_at n <> 0) -> dynamic_room (HEADER_SIZE + size (sent_map c m)) c ->
  exists h d, get_vb_map_cb m c =
      Done ENGINE_SUCCESS (with_dynamic h d (c <| clustermap_revno := new_revno c m |>)) /\
    dynamic_ok d /\ 0 < dbuffer d /\
    doffset d = doffset (dynamicBuffer c) + HEADER_SIZE + size (sent_map c m) /\
    collected h d = gathered c ++
      response_wire (opcode (bheader c)) 0 0 0
        (status_value PROTOCOL_BINARY_RESPONSE_NOT_MY_VBUCKET) (size (sent_map c m))
        (opaque (bheader c)) 0 ++ sent_map c m.
Proof.
  intros Hrev Hre Hroom. set (m' := sent_map c m) in *. pose proof (size_nonneg m') as Hm'.
  unfold get_vb_map_cb. rewrite (bind_done _ _ _ _ _ (dedupe_map m c Hrev)). fold m'.
  set (c1 := c <| clustermap_revno := _ |>).
  destruct (grow_dynamic_ok (HEADER_SIZE + size m') c1) as (ok & h & d & Eg & Hd & Hcol & Ho & Hok);
    [unfold HEADER_SIZE; lia|done|].
  rewrite (bind_done _ _ _ _ _ Eg). destruct ok; [|by destruct Hok as [n Hn]; destruct (Hre n)].
  destruct Hok as (Hfit & H63 & Hb). cbn [negb]. unfold bind at 1 2, gets at 1 2.
  change (dynamicBuffer (with_dynamic h d c1)) with d. pose proof (do_offset d Hd) as Hoff.
  change (bheader (with_dynamic h d c1)) with (bheader c).
  pose proof (response_header_wire_small (opcode (bheader c)) 0 0 0
    (status_value PROTOCOL_BINARY_RESPONSE_NOT_MY_VBUCKET) (size m') (opaque (bheader c)) 0) as Hw.
  rewrite !bswap_0 in Hw. rewrite Hw by done. set (wire := response_wire _ _ _ _ _ _ _ _).
  unfold getCurrent.
  destruct (store_append wire (doffset d) c1 h d) as (h1 & E1 & F1); [lia..|].
  rewrite (bind_done _ _ _ _ _ E1). unfold wire in F1 at 1. rewrite response_wire_size in F1.
  replace (dbuffer d + doffset d + HEADER_SIZE) with (dbuffer d + (doffset d + HEADER_SIZE)) by lia.
  destruct (store_append m' (doffset d + HEADER_SIZE) c1 h1 d) as (h2 & E2 & F2);
    [lia|unfold HEADER_SIZE; lia|].
  rewrite (bind_done _ _ _ _ _ E2).
  destruct (move_offset_ok (HEADER_SIZE + size m') c1 h2 d) as [E3 Hd3];
    [done|unfold HEADER_SIZE; lia|done|done|].
  rewrite (bind_done _ _ _ _ _ E3). eexists h2, _. split; [reflexivity|]. cbn [dbuffer doffset].
  split_and!; [done|done|rewrite Ho; change (dynamicBuffer c1) with (dynamicBuffer c); lia|].
  unfold collected. cbn [dbuffer doffset]. rewrite Z.add_assoc, F2, F1.
  change (gathered c) with (gathered c1). rewrite <- Hcol. by rewrite <- app_assoc.
Qed.

(** A "not my vbucket" error is answered with a packet that carries the
    cluster map the engine supplies, or an empty body when the client already
    has the map of that revision; the connection remembers the revision, and
    the buffer of the response is handed over to be sent and then freed. *)
Theorem not_my_vbucket_map engine m c :
  get_engine_vb_map = Some engine -> (forall cb, engine cb = cb m) ->
  (dedupe_nmvb_maps = true -> get_clustermap_revno m <> None) ->
  push_temp = true -> (forall n, realloc_at n <> 0) -> currentTask c <> conn_destroyed ->
  dynamic_room (HEADER_SIZE + size (sent_map c m)) c ->
  doffset (dynamicBuffer c) + HEADER_SIZE + size (sent_map c m) < 4294967296 ->
  exists c', mcbp_write_packet PROTOCOL_BINARY_RESPONSE_NOT_MY_VBUCKET c = Done tt c' /\
    currentTask c' = conn_write /\ write_and_go c' = conn_new_cmd /\
    fetch (memory c') (bcurr (write c')) (bbytes (write c')) =
      gathered c ++
      response_wire (opcode (bheader c)) 0 0 0
        (status_value PROTOCOL_BINARY_RESPONSE_NOT_MY_VBUCKET) (size (sent_map c m))
        (opaque (bheader c)) 0 ++ sent_map c m /\
    temp_alloc c' = temp_alloc c ++ [bcurr (write c')] /\
    dynamicBuffer c' = empty_dynamic /\ clustermap_revno c' = new_revno c m.
Proof.
  intros He Hcb Hrev Hpush Hre Ht Hroom H32. cbn [mcbp_write_packet]. rewrite He, Hcb.
  destruct (get_vb_map_cb_ok m c) as (h & d & E & Hd & Hb & Ho & Hcol); [done..|].
  rewrite (bind_done _ _ _ _ _ E). rewrite decide_True by done.
  set (c1 := with_dynamic _ _ _). unfold mcbp_write_and_free, bind at 1, gets at 1.
  change (dynamicBuffer c1) with d. rewrite (proj2 (Z.eqb_neq (dbuffer d) 0)) by lia.
  rewrite Hpush. cbn [negb]. unfold bind at 1 2, modify at 1 2.
  set (c2 := _ <| write := _ |>).
  destruct (setState_to conn_write c2) as (c3 & E3 & Ht3 & S3); [done..|].
  rewrite (bind_done _ _ _ _ _ E3). eexists. split; [reflexivity|].
  destruct S3 as [Hm3 _ Hw3 _ _ Htmp _ Hr3]. cbn -[fetch].
  rewrite Ht3, Hm3, Hw3, Htmp, Hr3. split_and!; try done.
  cbn -[fetch]. pose proof (do_offset d Hd). rewrite u32_small by (rewrite Ho; lia). exact Hcol.
Qed.

End ResponseProofs.

(** ** The revision of a cluster map *)

Lemma skip_isspace_app sp b rest :
  Forall (fun x => byte_isspace x = true) sp -> byte_isspace b = false ->
  skip_isspace (sp ++ b :: rest) = Some (b :: rest).
Proof.
  intros Hsp Hb. induction Hsp as [|x sp Hx _ IH]; cbn; [by rewrite Hb|by rewrite Hx].
Qed.

Lemma atoi_digits_app ds b rest acc :
  Forall (fun x => byte_isdigit x = true) ds -> byte_isdigit b = false ->
  atoi_digits (ds ++ b :: rest) acc =
  Some (foldl (fun acc b => 10 * acc + (b2z b - 48)) acc ds).
Proof.
  intros Hds Hb. revert acc.
  induction Hds as [|x ds Hx _ IH]; intros acc; cbn; [by rewrite Hb|by rewrite Hx, IH].
Qed.

(** The search finds the first occurrence. *)
Lemma get_clustermap_revno_found pre t :
  (forall k, (k < length pre)%nat -> take 6 (drop k (pre ++ rev_prefix ++ t)) <> rev_prefix) ->
  t <> [] ->
  get_clustermap_revno (z2b 123 :: pre ++ rev_prefix ++ t) =
    (m ← skip_isspace t; b ← head m; if byte_isdigit b then atoi m else Some (-1)).
Proof.
  intros Hpre Ht. unfold get_clustermap_revno.
  assert (exists extra, length t = S extra) as [extra He] by (destruct t; [done|eexists; done]).
  replace (size (z2b 123 :: pre ++ rev_prefix ++ t) <? 7) with false
    by (symmetry; apply Z.ltb_ge; unfold size; cbn [length]; rewrite !length_app; cbn; lia).
  change (b2z (z2b 123) != 123) with false. cbn [orb length].
  replace (S (length (pre ++ rev_prefix ++ t)) - 7)%nat with (S (length pre + extra))%nat
    by (rewrite !length_app; cbn; lia).
  induction pre as [|x pre IH]; cbn [length Nat.add app].
  - cbn [find_rev]. by rewrite bool_decide_eq_true_2.
  - cbn [find_rev]. rewrite bool_decide_eq_false_2 by (apply (Hpre 0%nat); cbn; lia).
    change (drop 1 (x :: pre ++ rev_prefix ++ t)) with (pre ++ rev_prefix ++ t). apply IH.
    intros k Hk. apply (Hpre (S k)). cbn. lia.
Qed.

(** In a map that starts with a brace, the revision is the number behind
    the first occurrence of the text ["rev":], whatever white space lies
    between, as a signed 32-bit integer. *)
Theorem get_clustermap_revno_spec pre sp d ds e rest :
  let tail := rev_prefix ++ sp ++ (d :: ds) ++ e :: rest in
  (forall k, (k < length pre)%nat -> take 6 (drop k (pre ++ tail)) <> rev_prefix) ->
  Forall (fun x => byte_isspace x = true) sp ->
  Forall (fun x => byte_isdigit x = true) (d :: ds) -> byte_isdigit e = false ->
  get_clustermap_revno (z2b 123 :: pre ++ tail) =
    Some (i32 (Z.min (digits_value (d :: ds)) (2 ^ 63 - 1))).
Proof.
  intros tail Hpre Hsp Hds He. unfold tail.
  rewrite get_clustermap_revno_found; [|done|by destruct sp].
  change ((d :: ds) ++ e :: rest) with (d :: ds ++ e :: rest).
  inversion Hds as [|?? Hd _]; subst.
  rewrite skip_isspace_app by (done || by apply digit_not_space).
  cbn [mbind option_bind head]. rewrite Hd. unfold atoi.
  change (d :: ds ++ e :: rest) with ((d :: ds) ++ e :: rest). by rewrite atoi_digits_app.
Qed.


Lemma get_clustermap_revno_spec_witness :
  get_clustermap_revno (z2b 123 :: (text " " ++ rev_prefix ++ text " " ++ text "72" ++ text ",x")) =
    Some 72.
Proof.
  refine (get_clustermap_revno_spec (text " ") (text " ") Byte.x37 (text "2") Byte.x2c (text "x")
            _ _ _ _).
  - intros k Hk. destruct k as [|k]; [vm_compute; discriminate|cbn in Hk; lia].
  - repeat constructor.
  - repeat constructor.
  - reflexivity.
Defined.

(** A map that ends in the revision, or in the white space before it, is
    read past its end: neither loop looks at the size of the map. *)
Theorem get_clustermap_revno_overrun pre sp ds :
  let tail := rev_prefix ++ sp ++ ds in
  (forall k, (k < length pre)%nat -> take 6 (drop k (pre ++ tail)) <> rev_prefix) ->
  Forall (fun x => byte_isspace x = true) sp ->
  Forall (fun x => byte_isdigit x = true) ds -> sp ++ ds <> [] ->
  get_clustermap_revno (z2b 123 :: pre ++ tail) = None.
Proof.
  intros tail Hpre Hsp Hds Hne. unfold tail. rewrite get_clustermap_revno_found by done.
  clear tail Hpre Hne. induction Hsp as [|x sp Hx _ IHs]; cbn [app skip_isspace]; [|by rewrite Hx].
  assert (atoi_digits ds 0 = None) as Ha.
  { generalize 0. induction Hds as [|y ds Hy _ IHd]; intros acc; cbn; [done|by rewrite Hy]. }
  destruct Hds as [|y ds Hy Hds]; [done|]. cbn [skip_isspace].
  rewrite (digit_not_space y Hy). cbn [mbind option_bind head]. rewrite Hy.
  unfold atoi. by rewrite Ha.
Qed.

Lemma get_clustermap_revno_overrun_witness :
  get_clustermap_revno (z2b 123 :: ([] ++ rev_prefix ++ text " " ++ text "72")) = None.
Proof.
  refine (get_clustermap_revno_overrun [] (text " ") (text "72") _ _ _ _).
  - intros k Hk. cbn in Hk. lia.
  - repeat constructor.
  - repeat constructor.
  - discriminate.
Defined.

(** ** The shared write buffer *)

Lemma return_clean_write id c w w1 :
  conns w !! id = Some c -> has_thread c = true -> isTAP c = false -> isDCP c = false ->
  buf (cwrite c) <> 0 -> bcurr (cwrite c) = buf (cwrite c) -> bbytes (cwrite c) = 0 ->
  buf (twrite w) = 0 -> conn_return_buffers id w = Some w1 ->
  twrite w1 = cwrite c /\ forall id', id' <> id -> conns w1 !! id' = conns w !! id'.
Proof.
  intros Hc Ht Htap Hdcp Hb Hcu Hby Htw. unfold conn_return_buffers. rewrite Hc.
  cbn -[conn_return_single_buffer]. rewrite Ht, Htap, Hdcp. cbn [negb orb].
  destruct (conn_return_single_buffer (live w) (tread w) (cread c)) as [[[l t] r]|]; [|done].
  cbn -[conn_return_single_buffer]. unfold conn_return_single_buffer.
  rewrite (proj2 (Z.eqb_neq _ _) Hb), Hcu, Z.eqb_refl, Hby, Htw. cbn.
  intros [= <-]. cbn. split; [done|]. intros id' Hne. by rewrite lookup_insert_ne.
Qed.

Lemma loan_thread_write pr pw id c w w2 c2 :
  conns w !! id = Some c -> has_thread c = true -> buf (cwrite c) = 0 -> buf (twrite w) <> 0 ->
  conn_loan_buffers pr pw id w = Some w2 -> conns w2 !! id = Some c2 ->
  cwrite c2 = twrite w.
Proof.
  intros Hc Ht Hb Htw. unfold conn_loan_buffers. rewrite Hc. cbn -[conn_loan_single_buffer].
  rewrite Ht. cbn [negb].
  destruct (conn_loan_single_buffer pr _ _ _) as [[[[r1 cl1] l1] t1] b1].
  unfold conn_loan_single_buffer. rewrite Hb, (proj2 (Z.eqb_neq _ _) Htw). cbn.
  intros [= <-]. cbn. rewrite lookup_insert, decide_True by done. by intros [= <-].
Qed.

(** A response header waits in the connection's write buffer while
    [write.curr] and [write.bytes] say that the buffer is empty.  When the
    socket is full, the run of the connection ends and [conn_return_buffers]
    gives that buffer to the thread; the next connection borrows it and its
    response header overwrites the one that is still to be sent. *)
Theorem pending_header_overwritten `{System} err e k b dt c c1 w w1 w2 cb db db2
    pr pw err' e' k' b' dt' d d1 :
  1 <= iov_max -> memory_available -> can_respond c -> can_respond d ->
  mcbp_add_header err e k b dt c = Done 0 c1 ->
  (* connection 1 runs with an empty write buffer, as far as it knows *)
  conns w !! 1%nat = Some cb -> cwrite cb = write c1 -> has_thread cb = true ->
  isTAP cb = false -> isDCP cb = false ->
  bcurr (write c) = buf (write c) -> bbytes (write c) = 0 -> buf (twrite w) = 0 ->
  conn_return_buffers 1 w = Some w1 ->
  (* connection 2 has no write buffer, borrows one and responds *)
  conns w !! 2%nat = Some db -> has_thread db = true -> buf (cwrite db) = 0 ->
  conn_loan_buffers pr pw 2 w1 = Some w2 -> conns w2 !! 2%nat = Some db2 ->
  write d = cwrite db2 -> memory d = memory c1 ->
  mcbp_add_header err' e' k' b' dt' d = Done 0 d1 ->
  map (memory d1) (pending (out c1)) =
    response_wire (opcode (bheader d)) k' e' dt' err' b' (opaque (bheader d)) (response_cas d).
Proof.
  intros Hmax Hm Hc Hd E1 Hcb Hwr Hth Htap Hdcp Hcu Hby Htw Hret Hdb Hdth Hdw Hloan Hdb2 Hwd Hmem E2.
  destruct (mcbp_add_header_ok Hmax err e k b dt c Hm Hc) as (o1 & Eh & _ & Hp1).
  rewrite Eh in E1. injection E1 as <-. cbn in Hwr.
  destruct (return_clean_write 1 cb w w1) as [Htw1 Hoth]; try done.
  1-3: rewrite Hwr; (apply (cr_buf c Hc) || done).
  assert (cwrite db2 = write c) as Hw2.
  { rewrite <- Hwr, <- Htw1. eapply loan_thread_write; [|exact Hdth|done| |exact Hloan|exact Hdb2].
    - by rewrite Hoth.
    - rewrite Htw1, Hwr. apply (cr_buf c Hc). }
  destruct (mcbp_add_header_ok Hmax err' e' k' b' dt' d Hm Hd) as (o2 & Eh2 & _ & _).
  rewrite Eh2 in E2. injection E2 as <-.
  match goal with |- context [pending ?o] => change o with o1 end.
  rewrite Hp1, map_fetch. cbn -[fetch put response_wire]. rewrite Hwd, Hw2.
  set (wire := response_wire _ _ _ _ _ _ _ _).
  replace HEADER_SIZE with (size wire) by apply response_wire_size. apply fetch_put_same.
Qed.

(** ** Witnesses *)

Definition demo_system : System := {|
  verbose := 0; iov_max := 1024; alloc_msg := always; alloc_iov := always;
  realloc_at := fun _ => 65536; realloc_ok := fun _ => true; junk := Byte.x00;
  push_temp := true; status_text := fun _ => 1000000; dedupe_nmvb_maps := true;
  require_sasl := true; server_initialized := true; max_packet_size := 31457280;
  gethrtime := 1; current_time := 0; connection_idle_time := 0; event_add_ok := true;
  event_del_ok := true; event_assign_ok := true; ssl_peek := false |}.

(** A system without memory for messages. *)
Definition starved_system : System := {|
  verbose := 0; iov_max := 1024; alloc_msg := fun _ => false; alloc_iov := always;
  realloc_at := fun _ => 65536; realloc_ok := fun _ => true; junk := Byte.x00;
  push_temp := true; status_text := fun _ => 1000000; dedupe_nmvb_maps := true;
  require_sasl := true; server_initialized := true; max_packet_size := 31457280;
  gethrtime := 1; current_time := 0; connection_idle_time := 0; event_add_ok := true;
  event_del_ok := true; event_assign_ok := true; ssl_peek := false |}.

Definition plain_engine : Engine := {| get_engine_vb_map := None |}.

Definition demo_map : bytes := z2b 123 :: (text " " ++ rev_prefix ++ text " " ++ text "72" ++ text ",x").

Definition map_engine : Engine := {| get_engine_vb_map := Some (fun cb => cb demo_map) |}.

(** A GET with opaque value 7. *)
Definition demo_header : protocol_binary_request_header := mk_request_header 128 0 3 0 0 0 3 7 0.

Definition demo_connection (h : heap) : connection := {|
  memory := h; currentTask := conn_nread; write_and_go := conn_new_cmd;
  inp := mk_input (mk_net_buf [] 0 0) 0 0 demo_header; out := initial_output;
  write := mk_shared 4096 4096 2048 0; dynamicBuffer := empty_dynamic; temp_alloc := [];
  cmd := 0; response_cas := 0; noreply := false; supports_datatype := false; supports_mutation_extras := false; start := 0;
  clustermap_revno := -1; ewouldblock := false; aiostat := ENGINE_SUCCESS;
  tap_iterator := false; dcp := false; admin := false; authenticated_flag := true;
  item := 0; reserved_items := []; command_context := false; thread := true; socket_open := true;
  registered_in_libevent := true; ev_flags := 18; ev_timeout_enabled := false;
  ev_timeout := 0; ev_insert_time := 0; currentEvent := 2; numEvents := 20;
  max_reqs_per_event := 20; refcount := 1; sock := mk_socket [] []; sends := []; trace := [] |}.

Definition blank : heap := fun _ => Byte.x00.

Lemma demo_can_respond h : can_respond (demo_connection h).
Proof. split; cbn; (lia || done). Qed.

Lemma demo_available : @memory_available demo_system.
Proof. split; reflexivity. Qed.

Definition demo_texts : heap :=
  put blank 1000000 (text (memcached_status_2_text PROTOCOL_BINARY_RESPONSE_KEY_ENOENT)).

Lemma mcbp_write_packet_error_witness :
  exists c', @mcbp_write_packet demo_system plain_engine PROTOCOL_BINARY_RESPONSE_KEY_ENOENT
      (demo_connection demo_texts) = Done tt c' /\
    take 2 (to_send c') = [Byte.x81; Byte.x00] /\ drop 24 (to_send c') = text "Not found".
Proof.
  destruct (@mcbp_write_packet_error demo_system plain_engine ltac:(cbn; lia)
    PROTOCOL_BINARY_RESPONSE_KEY_ENOENT (demo_connection demo_texts)) as (c' & E & HR).
  - exact demo_available.
  - exact (demo_can_respond demo_texts).
  - split; [vm_compute; reflexivity|right; vm_compute; discriminate].
  - discriminate.
  - discriminate.
  - exists c'. split; [exact E|]. rewrite (rr_bytes _ _ HR). vm_compute. split; reflexivity.
Defined.

Lemma mcbp_write_response_spec_witness :
  exists c', @mcbp_write_response demo_system 0 0 0 0 (demo_connection blank) = Done tt c' /\
    take 2 (to_send c') = [Byte.x81; Byte.x00].
Proof.
  destruct (@mcbp_write_response_spec demo_system ltac:(cbn; lia) 0 0 0 0 (demo_connection blank))
    as (c' & E & HR).
  - exact demo_available.
  - exact (demo_can_respond blank).
  - lia.
  - by left.
  - exists c'. split; [exact E|]. rewrite (rr_bytes _ _ HR). vm_compute. reflexivity.
Defined.

Lemma mcbp_write_packet_oom_witness :
  @mcbp_write_packet starved_system plain_engine PROTOCOL_BINARY_RESPONSE_KEY_ENOENT
    (demo_connection blank) = Crash.
Proof.
  apply (@mcbp_write_packet_oom starved_system plain_engine); [reflexivity|discriminate|discriminate].
Defined.

(** A "compression" that drops the first byte. *)
Definition toy_length (b : bytes) : option Z :=
  match b with [] => None | _ :: b => Some (size b) end.
Definition toy_uncompress (b : bytes) : bool * bytes :=
  match b with [] => (false, []) | _ :: b => (true, b) end.

Lemma mcbp_response_handler_spec_witness :
  exists c', @mcbp_response_handler demo_system toy_length toy_uncompress (text "key") []
      (text "zvalue") 2 0 5 (demo_connection blank) = Done true c' /\
    drop 24 (gathered c') = text "keyvalue".
Proof.
  destruct (@mcbp_response_handler_spec demo_system ltac:(intros; cbn; lia)
    toy_length toy_uncompress (text "key") [] (text "zvalue") 2 0 5 (demo_connection blank))
    as (ok & c' & E & _ & _ & Hf & HG).
  - split; [by intros [|? ?] d; [|intros [= <-]]|reflexivity].
  - vm_compute. reflexivity.
  - vm_compute. reflexivity.
  - lia.
  - lia.
  - split; [split; cbn; lia|]. split; vm_compute; discriminate.
  - intros len [= <-]. split; [vm_compute; discriminate|]. split; [split; cbn; lia|].
    split; vm_compute; discriminate.
  - destruct ok.
    + exists c'. split; [exact E|]. rewrite HG. vm_compute. reflexivity.
    + destruct (Hf eq_refl) as [H|[n H]]; discriminate H.
Defined.

Lemma not_my_vbucket_map_witness :
  exists c', @mcbp_write_packet demo_system map_engine PROTOCOL_BINARY_RESPONSE_NOT_MY_VBUCKET
      (demo_connection blank) = Done tt c' /\
    clustermap_revno c' = 72.
Proof.
  destruct (@not_my_vbucket_map demo_system map_engine ltac:(intros; cbn; lia) _ demo_map
    (demo_connection blank) eq_refl) as (c' & E & _ & _ & _ & _ & _ & Hr).
  - reflexivity.
  - intros _. vm_compute. discriminate.
  - reflexivity.
  - intros n. cbn. lia.
  - discriminate.
  - split; [split; cbn; lia|]. split; vm_compute; discriminate.
  - vm_compute. reflexivity.
  - exists c'. split; [exact E|]. rewrite Hr. vm_compute. reflexivity.
Defined.

(** Two connections of one thread: the first has a response pending, the
    second responds to a SET with opaque value 99. *)
Definition outcome_state {A} (c : connection) (o : outcome connection A) : connection :=
  match o with Done _ c' => c' | Throw c' => c' | Crash => c end.

Definition first_pending : connection :=
  outcome_state (demo_connection blank)
    (@mcbp_add_header demo_system 0 0 0 0 0 (demo_connection blank)).

Definition second : connection :=
  (demo_connection (memory first_pending))
    <| inp := mk_input (mk_net_buf [] 0 0) 0 0 (mk_request_header 128 1 3 0 0 0 3 99 0) |>.

Definition second_pending : connection :=
  outcome_state second (@mcbp_add_header demo_system 0 0 0 0 0 second).

Definition two_connections : worker :=
  mk_worker no_buf no_buf (mk_stats 0 0 0 0 0) {[4096]}
    (<[1%nat := mk_conn true false false false no_buf (mk_shared 4096 4096 2048 0)]>
     (<[2%nat := mk_conn true false false false no_buf no_buf]> ∅)).

Definition after_return : worker := default two_connections (conn_return_buffers 1 two_connections).
Definition after_loan : worker := default two_connections (conn_loan_buffers 0 0 2 after_return).

Lemma pending_header_overwritten_witness :
  map (memory first_pending) (pending (out first_pending)) <>
  map (memory second_pending) (pending (out first_pending)).
Proof.
  rewrite (@pending_header_overwritten demo_system 0 0 0 0 0 (demo_connection blank) first_pending
    two_connections after_return after_loan
    (mk_conn true false false false no_buf (mk_shared 4096 4096 2048 0))
    (mk_conn true false false false no_buf no_buf)
    (mk_conn true false false true no_buf (mk_shared 4096 4096 2048 0)) 0 0 0 0 0 0 0
    second second_pending); try reflexivity.
  - vm_compute. discriminate.
  - vm_compute. discriminate.
  - exact demo_available.
  - exact (demo_can_respond blank).
  - split; cbn; (lia || done).
Defined.
