(* ===== verification/SubdocValidators.v ===== *)
(** * Sub-document commands: traits and validators

    [daemon/subdocument_traits.h], [daemon/subdocument_traits.cc] and
    [daemon/subdocument_validators.cc].  [Subdoc::Command] comes from the
    subjson library; only the enumerators the traits name appear here. *)

From S2P Require Import Prelude Protocol Packet.

Abbreviation status := protocol_binary_response_status.
Abbreviation EINVAL := (Some PROTOCOL_BINARY_RESPONSE_EINVAL).
Abbreviation SUCCESS := (Some PROTOCOL_BINARY_RESPONSE_SUCCESS).

(** ** Constants *)

Definition SUBDOC_PATH_MAX_LENGTH : Z := 1024.
Definition SUBDOC_BASIC_EXTRAS_LEN : Z := 2 + 1.
Definition SUBDOC_EXPIRY_EXTRAS_LEN : Z := SUBDOC_BASIC_EXTRAS_LEN + 4.
Definition PROTOCOL_BINARY_SUBDOC_MULTI_MAX_PATHS : nat := 16.

Definition SUBDOC_FLAG_NONE : Z := 0x0.
Definition SUBDOC_FLAG_MKDIR_P : Z := 0x01.
Definition SUBDOC_FLAG_MKDOC : Z := 0x02.

(** [sizeof(protocol_binary_subdoc_multi_lookup_spec)] and
    [sizeof(protocol_binary_subdoc_multi_mutation_spec)] *)
Definition LOOKUP_SPEC_SIZE : Z := 4.
Definition MUTATION_SPEC_SIZE : Z := 8.

(** ** Traits *)

Inductive Subdoc_Command :=
| Command_GET | Command_EXISTS | Command_DICT_ADD | Command_DICT_UPSERT
| Command_REMOVE | Command_REPLACE | Command_ARRAY_APPEND | Command_ARRAY_PREPEND
| Command_ARRAY_INSERT | Command_ARRAY_ADD_UNIQUE | Command_COUNTER
| Command_GET_COUNT | Command_INVALID.

#[global] Instance Subdoc_Command_eq_dec : EqDecision Subdoc_Command.
Proof. solve_decision. Defined.

Inductive SubdocPath := SINGLE | MULTI.

Record SubdocCmdTraits := mk_traits {
  command : Subdoc_Command;
  valid_flags : Z;
  request_has_value : bool;
  allow_empty_path : bool;
  response_has_value : bool;
  is_mutator : bool;
  path : SubdocPath;
}.

Record SubdocMultiCmdTraits := mk_multi_traits {
  min_value_len : Z;
  multi_is_mutator : bool;
}.

Definition get_traits_GET : SubdocCmdTraits :=
  mk_traits Command_GET SUBDOC_FLAG_NONE
    (*request_has_value*) false (*allow_empty_path*) false (*response_has_value*) true (*is_mutator*) false SINGLE.

Definition get_traits_EXISTS : SubdocCmdTraits :=
  mk_traits Command_EXISTS SUBDOC_FLAG_NONE
    (*request_has_value*) false (*allow_empty_path*) false (*response_has_value*) false (*is_mutator*) false SINGLE.

Definition get_traits_DICT_ADD : SubdocCmdTraits :=
  mk_traits Command_DICT_ADD (Z.lor SUBDOC_FLAG_MKDIR_P SUBDOC_FLAG_MKDOC)
    (*request_has_value*) true (*allow_empty_path*) false (*response_has_value*) false (*is_mutator*) true SINGLE.

Definition get_traits_DICT_UPSERT : SubdocCmdTraits :=
  mk_traits Command_DICT_UPSERT (Z.lor SUBDOC_FLAG_MKDIR_P SUBDOC_FLAG_MKDOC)
    (*request_has_value*) true (*allow_empty_path*) false (*response_has_value*) false (*is_mutator*) true SINGLE.

Definition get_traits_DELETE : SubdocCmdTraits :=
  mk_traits Command_REMOVE SUBDOC_FLAG_NONE
    (*request_has_value*) false (*allow_empty_path*) false (*response_has_value*) false (*is_mutator*) true SINGLE.

Definition get_traits_REPLACE : SubdocCmdTraits :=
  mk_traits Command_REPLACE SUBDOC_FLAG_NONE
    (*request_has_value*) true (*allow_empty_path*) false (*response_has_value*) false (*is_mutator*) true SINGLE.

Definition get_traits_ARRAY_PUSH_LAST : SubdocCmdTraits :=
  mk_traits Command_ARRAY_APPEND (Z.lor SUBDOC_FLAG_MKDIR_P SUBDOC_FLAG_MKDOC)
    (*request_has_value*) true (*allow_empty_path*) true (*response_has_value*) false (*is_mutator*) true SINGLE.

Definition get_traits_ARRAY_PUSH_FIRST : SubdocCmdTraits :=
  mk_traits Command_ARRAY_PREPEND (Z.lor SUBDOC_FLAG_MKDIR_P SUBDOC_FLAG_MKDOC)
    (*request_has_value*) true (*allow_empty_path*) true (*response_has_value*) false (*is_mutator*) true SINGLE.

Definition get_traits_ARRAY_INSERT : SubdocCmdTraits :=
  mk_traits Command_ARRAY_INSERT SUBDOC_FLAG_NONE
    (*request_has_value*) true (*allow_empty_path*) false (*response_has_value*) false (*is_mutator*) true SINGLE.

Definition get_traits_ARRAY_ADD_UNIQUE : SubdocCmdTraits :=
  mk_traits Command_ARRAY_ADD_UNIQUE (Z.lor SUBDOC_FLAG_MKDIR_P SUBDOC_FLAG_MKDOC)
    (*request_has_value*) true (*allow_empty_path*) true (*response_has_value*) false (*is_mutator*) true SINGLE.

Definition get_traits_COUNTER : SubdocCmdTraits :=
  mk_traits Command_COUNTER (Z.lor SUBDOC_FLAG_MKDIR_P SUBDOC_FLAG_MKDOC)
    (*request_has_value*) true (*allow_empty_path*) false (*response_has_value*) true (*is_mutator*) true SINGLE.

Definition get_traits_GET_COUNT : SubdocCmdTraits :=
  mk_traits Command_GET_COUNT SUBDOC_FLAG_NONE
    (*request_has_value*) false (*allow_empty_path*) true (*response_has_value*) true (*is_mutator*) false SINGLE.

Definition get_traits_MULTI_LOOKUP : SubdocCmdTraits :=
  mk_traits Command_INVALID SUBDOC_FLAG_NONE
    (*request_has_value*) true (*allow_empty_path*) true (*response_has_value*) true (*is_mutator*) false MULTI.

Definition get_traits_MULTI_MUTATION : SubdocCmdTraits :=
  mk_traits Command_INVALID SUBDOC_FLAG_NONE
    (*request_has_value*) true (*allow_empty_path*) true (*response_has_value*) true (*is_mutator*) true MULTI.

Definition get_multi_traits_MULTI_LOOKUP : SubdocMultiCmdTraits :=
  mk_multi_traits (LOOKUP_SPEC_SIZE + 1) (*is_mutator*) false.

Definition get_multi_traits_MULTI_MUTATION : SubdocMultiCmdTraits :=
  mk_multi_traits (MUTATION_SPEC_SIZE + 1) (*is_mutator*) true.

Definition get_subdoc_cmd_traits (cmd : Z) : SubdocCmdTraits :=
  match cmd_of_value cmd with
  | Some PROTOCOL_BINARY_CMD_SUBDOC_GET => get_traits_GET
  | Some PROTOCOL_BINARY_CMD_SUBDOC_EXISTS => get_traits_EXISTS
  | Some PROTOCOL_BINARY_CMD_SUBDOC_DICT_ADD => get_traits_DICT_ADD
  | Some PROTOCOL_BINARY_CMD_SUBDOC_DICT_UPSERT => get_traits_DICT_UPSERT
  | Some PROTOCOL_BINARY_CMD_SUBDOC_DELETE => get_traits_DELETE
  | Some PROTOCOL_BINARY_CMD_SUBDOC_REPLACE => get_traits_REPLACE
  | Some PROTOCOL_BINARY_CMD_SUBDOC_ARRAY_PUSH_LAST => get_traits_ARRAY_PUSH_LAST
  | Some PROTOCOL_BINARY_CMD_SUBDOC_ARRAY_PUSH_FIRST => get_traits_ARRAY_PUSH_FIRST
  | Some PROTOCOL_BINARY_CMD_SUBDOC_ARRAY_INSERT => get_traits_ARRAY_INSERT
  | Some PROTOCOL_BINARY_CMD_SUBDOC_ARRAY_ADD_UNIQUE => get_traits_ARRAY_ADD_UNIQUE
  | Some PROTOCOL_BINARY_CMD_SUBDOC_COUNTER => get_traits_COUNTER
  | Some PROTOCOL_BINARY_CMD_SUBDOC_GET_COUNT => get_traits_GET_COUNT
  | _ => mk_traits Command_INVALID SUBDOC_FLAG_NONE false false false false SINGLE
  end.

(** ** Single-path validators

    [pathlen] (two bytes) and [subdoc_flags] (one byte) are the first extras;
    the code loads both before it looks at [extlen]. *)
Definition subdoc_validator (pkt : packet) (traits : SubdocCmdTraits) : option status :=
  let req := header pkt in
  let keylen := ntohs (keylen req) in
  let extlen := extlen req in
  let bodylen := ntohl (bodylen req) in
  subdoc_flags ← load_int 1 2 (body pkt);
  raw_pathlen ← load_int 2 0 (body pkt);
  let pathlen := ntohs raw_pathlen in
  let valuelen := u32 (bodylen - keylen - extlen - pathlen) in
  if (magic req != PROTOCOL_BINARY_REQ) ||
     (keylen == 0) ||
     (SUBDOC_PATH_MAX_LENGTH <? pathlen) ||
     (datatype req != PROTOCOL_BINARY_RAW_BYTES)
  then EINVAL else
  if (if request_has_value traits then valuelen == 0 else valuelen != 0)
  then EINVAL else
  if Z.land subdoc_flags (Z.lnot (valid_flags traits)) != 0
  then EINVAL else
  if negb (allow_empty_path traits) && (pathlen == 0)
  then EINVAL else
  if (if is_mutator traits
      then (extlen != SUBDOC_BASIC_EXTRAS_LEN) && (extlen != SUBDOC_EXPIRY_EXTRAS_LEN)
      else extlen != SUBDOC_BASIC_EXTRAS_LEN)
  then EINVAL else
  SUCCESS.

Definition subdoc_get_validator (pkt : packet) : option status :=
  subdoc_validator pkt get_traits_GET.

Definition subdoc_exists_validator (pkt : packet) : option status :=
  subdoc_validator pkt get_traits_EXISTS.

Definition subdoc_dict_add_validator (pkt : packet) : option status :=
  subdoc_validator pkt get_traits_DICT_ADD.

Definition subdoc_dict_upsert_validator (pkt : packet) : option status :=
  subdoc_validator pkt get_traits_DICT_UPSERT.

Definition subdoc_delete_validator (pkt : packet) : option status :=
  subdoc_validator pkt get_traits_DELETE.

Definition subdoc_replace_validator (pkt : packet) : option status :=
  subdoc_validator pkt get_traits_REPLACE.

Definition subdoc_array_push_last_validator (pkt : packet) : option status :=
  subdoc_validator pkt get_traits_ARRAY_PUSH_LAST.

Definition subdoc_array_push_first_validator (pkt : packet) : option status :=
  subdoc_validator pkt get_traits_ARRAY_PUSH_FIRST.

Definition subdoc_array_insert_validator (pkt : packet) : option status :=
  subdoc_validator pkt get_traits_ARRAY_INSERT.

Definition subdoc_array_add_unique_validator (pkt : packet) : option status :=
  subdoc_validator pkt get_traits_ARRAY_ADD_UNIQUE.

Definition subdoc_counter_validator (pkt : packet) : option status :=
  subdoc_validator pkt get_traits_COUNTER.

Definition subdoc_get_count_validator (pkt : packet) : option status :=
  subdoc_validator pkt get_traits_GET_COUNT.

(** ** Multi-path validators *)

(** Decode and check the operation spec at an offset of the body; the second
    component is [spec_len], which stays 0 on failure.  All lengths are
    [size_t] sums of values below 2^33: they do not wrap. *)
Definition is_valid_multipath_spec (m : bytes) (ptr : Z) (traits : SubdocMultiCmdTraits)
    : option (status * Z) :=
  opcode ← load_int 1 ptr m;
  flags ← load_int 1 (ptr + 1) m;
  raw_pathlen ← load_int 2 (ptr + 2) m;
  let pathlen := ntohs raw_pathlen in
  valuelen ← (if multi_is_mutator traits
              then ntohl <$> load_int 4 (ptr + 4) m else Some 0);
  let headerlen := if multi_is_mutator traits then MUTATION_SPEC_SIZE else LOOKUP_SPEC_SIZE in
  let op_traits := get_subdoc_cmd_traits opcode in
  if decide (command op_traits = Command_INVALID)
  then Some (PROTOCOL_BINARY_RESPONSE_SUBDOC_INVALID_COMBO, 0) else
  if negb (Bool.eqb (multi_is_mutator traits) (is_mutator op_traits))
  then Some (PROTOCOL_BINARY_RESPONSE_SUBDOC_INVALID_COMBO, 0) else
  if Z.land flags (Z.lnot (valid_flags op_traits)) != 0
  then Some (PROTOCOL_BINARY_RESPONSE_EINVAL, 0) else
  if SUBDOC_PATH_MAX_LENGTH <? pathlen
  then Some (PROTOCOL_BINARY_RESPONSE_EINVAL, 0) else
  if negb (allow_empty_path op_traits) && (pathlen == 0)
  then Some (PROTOCOL_BINARY_RESPONSE_EINVAL, 0) else
  if (if request_has_value op_traits then valuelen == 0 else valuelen != 0)
  then Some (PROTOCOL_BINARY_RESPONSE_EINVAL, 0) else
  Some (PROTOCOL_BINARY_RESPONSE_SUCCESS, headerlen + pathlen + valuelen).

(** The loop over the operation specs: [fuel] is the number of paths still
    allowed ([PROTOCOL_BINARY_SUBDOC_MULTI_MAX_PATHS - path_index]).  The
    result is the status it stopped with, [path_index] and
    [body_validated]. *)
Fixpoint multi_paths (fuel : nat) (m : bytes) (bodylen : Z) (traits : SubdocMultiCmdTraits)
    (path_index body_validated : Z) : option (status * Z * Z) :=
  match fuel with
  | O => Some (PROTOCOL_BINARY_RESPONSE_SUCCESS, path_index, body_validated)
  | S fuel =>
      if body_validated <? bodylen then
        '(st, spec_len) ← is_valid_multipath_spec m body_validated traits;
        let body_validated := body_validated + spec_len in
        if decide (st = PROTOCOL_BINARY_RESPONSE_SUCCESS)
        then multi_paths fuel m bodylen traits (path_index + 1) body_validated
        else Some (st, path_index, body_validated)
      else Some (PROTOCOL_BINARY_RESPONSE_SUCCESS, path_index, body_validated)
  end.

(** The first check compares [bodylen] as it is in the packet, in network
    order, with a length in host order. *)
Definition multi_static_check (req : protocol_binary_request_header)
    (traits : SubdocMultiCmdTraits) : bool :=
  let minimum_body_len := ntohs (keylen req) + extlen req + min_value_len traits in
  (magic req != PROTOCOL_BINARY_REQ) ||
  (keylen req == 0) ||
  (bodylen req <? minimum_body_len) ||
  (datatype req != PROTOCOL_BINARY_RAW_BYTES).

Definition subdoc_multi_validator (pkt : packet) (traits : SubdocMultiCmdTraits)
    : option status :=
  let req := header pkt in
  if multi_static_check req traits
  then EINVAL else
  if (if multi_is_mutator traits
      then (extlen req != 0) && (extlen req != 4)
      else extlen req != 0)
  then EINVAL else
  let keylen := ntohs (keylen req) in
  let bodylen := ntohl (bodylen req) in
  '(st, path_index, body_validated) ←
    multi_paths PROTOCOL_BINARY_SUBDOC_MULTI_MAX_PATHS (body pkt) bodylen traits
      0 (keylen + extlen req);
  if decide (st = PROTOCOL_BINARY_RESPONSE_SUCCESS) then
    if (path_index == 0) || (body_validated != bodylen)
    then Some PROTOCOL_BINARY_RESPONSE_SUBDOC_INVALID_COMBO
    else SUCCESS
  else Some st.

Definition subdoc_multi_lookup_validator (pkt : packet) : option status :=
  subdoc_multi_validator pkt get_multi_traits_MULTI_LOOKUP.

Definition subdoc_multi_mutation_validator (pkt : packet) : option status :=
  subdoc_multi_validator pkt get_multi_traits_MULTI_MUTATION.

(** ** Operation specs

    The format of an operation in a multi-path body, as the structs
    [protocol_binary_subdoc_multi_lookup_spec] and
    [protocol_binary_subdoc_multi_mutation_spec] of [protocol_binary.h] have it:
    opcode, flags, path length, for mutations the value length, the path and
    the value. *)

Record op_spec := mk_op {
  os_opcode : byte;
  os_flags : byte;
  os_path : bytes;
  os_value : bytes;
}.

Definition encode_op (mutation : bool) (s : op_spec) : bytes :=
  [os_opcode s] ++ [os_flags s] ++ be_store 2 (Z.of_nat (length (os_path s))) ++
  (if mutation then be_store 4 (Z.of_nat (length (os_value s))) else []) ++
  os_path s ++ os_value s.

Definition op_size (mutation : bool) (s : op_spec) : Z :=
  (if mutation then MUTATION_SPEC_SIZE else LOOKUP_SPEC_SIZE) +
  Z.of_nat (length (os_path s)) + Z.of_nat (length (os_value s)).

(** An operation the multi-path command may carry. *)
Definition op_ok (mutation : bool) (s : op_spec) : Prop :=
  let t := get_subdoc_cmd_traits (b2z (os_opcode s)) in
  command t <> Command_INVALID /\ is_mutator t = mutation /\
  Z.land (b2z (os_flags s)) (Z.lnot (valid_flags t)) = 0 /\
  Z.of_nat (length (os_path s)) <= SUBDOC_PATH_MAX_LENGTH /\
  (allow_empty_path t = true \/ os_path s <> []) /\
  (if request_has_value t then os_value s <> [] else os_value s = []) /\
  Z.of_nat (length (os_value s)) < 4294967296.

Lemma encode_op_length mutation s :
  Z.of_nat (length (encode_op mutation s)) = op_size mutation s.
Proof.
  unfold encode_op, op_size, MUTATION_SPEC_SIZE, LOOKUP_SPEC_SIZE.
  destruct mutation; rewrite !length_app, ?be_store_length; cbn; lia.
Qed.

(** A request without a value is a lookup or a delete; lookups never have
    one. *)
Lemma lookup_has_no_value op :
  is_mutator (get_subdoc_cmd_traits op) = false ->
  request_has_value (get_subdoc_cmd_traits op) = false.
Proof.
  unfold get_subdoc_cmd_traits. destruct (cmd_of_value op) as [c|]; [|done].
  by destruct c.
Qed.

Lemma length_zero_iff_nil {A} (l : list A) : Z.of_nat (length l) = 0 <-> l = [].
Proof. destruct l; cbn; split; intros; [done|done|lia|done]. Qed.

(** The checks on a decoded spec, all passed. *)
Lemma is_valid_multipath_spec_inv m ptr t n :
  is_valid_multipath_spec m ptr t = Some (PROTOCOL_BINARY_RESPONSE_SUCCESS, n) ->
  exists op fl pl vl,
    load_int 1 ptr m = Some op /\ load_int 1 (ptr + 1) m = Some fl /\
    load_int 2 (ptr + 2) m = Some pl /\
    (if multi_is_mutator t then ntohl <$> load_int 4 (ptr + 4) m else Some 0) = Some vl /\
    n = (if multi_is_mutator t then MUTATION_SPEC_SIZE else LOOKUP_SPEC_SIZE) + ntohs pl + vl /\
    let tr := get_subdoc_cmd_traits op in
    command tr <> Command_INVALID /\ is_mutator tr = multi_is_mutator t /\
    Z.land fl (Z.lnot (valid_flags tr)) = 0 /\ ntohs pl <= SUBDOC_PATH_MAX_LENGTH /\
    (allow_empty_path tr = true \/ ntohs pl <> 0) /\
    (if request_has_value tr then vl <> 0 else vl = 0).
Proof.
  unfold is_valid_multipath_spec. intros H.
  apply bind_Some in H as (op & Hop & H). apply bind_Some in H as (fl & Hfl & H).
  apply bind_Some in H as (pl & Hpl & H). apply bind_Some in H as (vl & Hvl & H).
  exists op, fl, pl, vl. cbv zeta in H |- *.
  set (tr := get_subdoc_cmd_traits op) in *.
  destruct (decide (command tr = Command_INVALID)) as [|Hc]; [discriminate H|].
  destruct (negb (Bool.eqb _ _)) eqn:Hm; [discriminate H|].
  destruct (_ != 0) eqn:Hf; [discriminate H|].
  destruct (_ <? _) eqn:Hl; [discriminate H|].
  destruct (negb (allow_empty_path tr) && _) eqn:He; [discriminate H|].
  destruct (if request_has_value tr then _ else _) eqn:Hr; [discriminate H|].
  injection H as <-. apply negb_false_iff, eqb_prop in Hm.
  split_and!; try done; try lia.
  destruct (request_has_value tr); lia.
Qed.

Lemma is_valid_multipath_spec_sound m ptr t n :
  0 <= ptr ->
  is_valid_multipath_spec m ptr t = Some (PROTOCOL_BINARY_RESPONSE_SUCCESS, n) ->
  ptr + n <= Z.of_nat (length m) ->
  exists s, op_ok (multi_is_mutator t) s /\ op_size (multi_is_mutator t) s = n /\
    drop (Z.to_nat ptr) m =
      encode_op (multi_is_mutator t) s ++ drop (Z.to_nat (ptr + n)) m.
Proof.
  intros Hp H Hn.
  apply is_valid_multipath_spec_inv in H
    as (op & fl & pl & vl & Hop & Hfl & Hpl & Hvl & -> & Hc & Hm & Hf & Hl & He & Hr).
  apply load_int_bytes in Hop as (b0 & L0 & -> & _ & D0).
  apply load_int_bytes in Hfl as (b1 & L1 & -> & _ & D1).
  apply load_int_bytes in Hpl as (b2 & L2 & _ & E2 & D2). rewrite E2 in *.
  destruct b0 as [|o []]; [done| |done]. destruct b1 as [|f []]; [done| |done].
  assert (le_load [o] = b2z o) as Eo by (cbn; lia).
  assert (le_load [f] = b2z f) as Ef by (cbn; lia). rewrite Eo, Ef in *.
  pose proof (be_load_range b2) as Hr2. rewrite L2 in Hr2.
  set (mu := multi_is_mutator t) in *.
  set (hl := if mu then MUTATION_SPEC_SIZE else LOOKUP_SPEC_SIZE) in *.
  assert (0 <= vl < 4294967296 /\ 4 <= hl /\
          drop (Z.to_nat (ptr + 4)) m =
          (if mu then be_store 4 vl else []) ++ drop (Z.to_nat (ptr + hl)) m)
    as (Hvr & Hhl & D3).
  { unfold hl. destruct mu; cbn in Hvl |- *.
    - apply fmap_Some in Hvl as (x & (b3 & L3 & _ & E3 & D3)%load_int_bytes & ->).
      rewrite E3. pose proof (be_load_range b3) as Hr3. rewrite L3 in Hr3.
      unfold MUTATION_SPEC_SIZE. split_and!; [lia|lia|lia|].
      rewrite D3. f_equal; [by rewrite <- L3, be_store_load|]. do 2 f_equal. lia.
    - injection Hvl as <-. unfold LOOKUP_SPEC_SIZE. split_and!; [lia|lia|lia|done]. }
  destruct (drop_split (ptr + hl) (be_load b2) m) as (pa & Lpa & D4); [lia..|].
  destruct (drop_split (ptr + hl + be_load b2) vl m) as (va & Lva & D5); [lia..|].
  exists (mk_op o f pa va). split_and!.
  - unfold op_ok; cbn. split_and!; try done; try lia.
    + destruct He as [?|He]; [by left|right]. intros ->. cbn in Lpa. lia.
    + pose proof (length_zero_iff_nil va). destruct (request_has_value _); [|by apply H; lia].
      intros ->. cbn in Lva. lia.
  - unfold op_size; cbn. fold hl. lia.
  - unfold encode_op; cbn [os_opcode os_flags os_path os_value].
    rewrite <- !app_assoc, D0. f_equal. replace (ptr + Z.of_nat 1) with (ptr + 1) by lia.
    rewrite D1. f_equal. replace (ptr + 1 + Z.of_nat 1) with (ptr + 2) by lia.
    rewrite D2, Lpa. f_equal; [by rewrite <- L2, be_store_load|].
    replace (ptr + 2 + Z.of_nat 2) with (ptr + 4) by lia.
    rewrite D3, Lva. f_equal. rewrite D4. f_equal. rewrite D5. f_equal. do 2 f_equal. lia.
Qed.

Lemma is_valid_multipath_spec_complete m ptr t s rest :
  0 <= ptr -> op_ok (multi_is_mutator t) s ->
  drop (Z.to_nat ptr) m = encode_op (multi_is_mutator t) s ++ rest ->
  is_valid_multipath_spec m ptr t =
    Some (PROTOCOL_BINARY_RESPONSE_SUCCESS, op_size (multi_is_mutator t) s).
Proof.
  intros Hp (Hc & Hm & Hf & Hl & He & Hr & Hv) HD.
  unfold encode_op in HD. rewrite <- !app_assoc in HD.
  apply (drop_next _ 1) in HD as HD1; [|lia|done].
  apply (drop_next _ 1) in HD1 as HD2; [|lia|done].
  apply (drop_next _ 2) in HD2 as HD4; [|lia|by rewrite be_store_length].
  replace (ptr + 1 + 1) with (ptr + 2) in * by lia.
  replace (ptr + 2 + 2) with (ptr + 4) in * by lia.
  unfold SUBDOC_PATH_MAX_LENGTH in *.
  pose proof (length_zero_iff_nil (os_path s)) as Np.
  pose proof (length_zero_iff_nil (os_value s)) as Nv.
  unfold is_valid_multipath_spec.
  rewrite (bytes_load_int 1 ptr m [os_opcode s] _ ltac:(lia) Hp eq_refl HD).
  rewrite (bytes_load_int 1 (ptr + 1) m [os_flags s] _ ltac:(lia) ltac:(lia) eq_refl HD1).
  assert (exists y, load_int 2 (ptr + 2) m = Some y /\ ntohs y = Z.of_nat (length (os_path s)))
    as (pl & -> & Epl) by (eapply load_int_be; [..|exact HD2]; lia).
  assert ((if multi_is_mutator t then ntohl <$> load_int 4 (ptr + 4) m else Some 0)
          = Some (Z.of_nat (length (os_value s)))) as ->.
  { destruct (multi_is_mutator t).
    - assert (exists y, load_int 4 (ptr + 4) m = Some y /\ ntohl y = Z.of_nat (length (os_value s)))
        as (vl & -> & <-) by (eapply load_int_be; [..|exact HD4]; lia). done.
    - rewrite lookup_has_no_value in Hr by done. by rewrite Hr. }
  cbn [mbind option_bind]. rewrite Epl.
  replace (le_load [os_opcode s]) with (b2z (os_opcode s)) by (cbn; lia).
  replace (le_load [os_flags s]) with (b2z (os_flags s)) by (cbn; lia).
  cbv zeta. rewrite decide_False by done.
  rewrite Hm, Bool.eqb_reflx, Hf. cbn [negb].
  destruct (_ <? _) eqn:E1; [unfold SUBDOC_PATH_MAX_LENGTH in E1; lia|].
  destruct (negb _ && _) eqn:E2; [destruct He as [He|He]; [by rewrite He in E2|]; exfalso; apply He, Np; lia|].
  destruct (if request_has_value _ then _ else _) eqn:E3.
  { destruct (request_has_value _); [|by rewrite Hr in E3]. exfalso. apply Hr, Nv. lia. }
  unfold op_size. done.
Qed.

(** ** The loop over the specs *)

Definition specs_bytes (mutation : bool) (ops : list op_spec) : bytes :=
  concat (encode_op mutation <$> ops).

Lemma op_size_pos mutation s : 4 <= op_size mutation s.
Proof. unfold op_size, MUTATION_SPEC_SIZE, LOOKUP_SPEC_SIZE. destruct mutation; lia. Qed.

Lemma is_valid_multipath_spec_size m ptr t n :
  is_valid_multipath_spec m ptr t = Some (PROTOCOL_BINARY_RESPONSE_SUCCESS, n) -> 4 <= n.
Proof.
  intros H. apply is_valid_multipath_spec_inv in H
    as (op & fl & pl & vl & _ & _ & _ & Hvl & -> & _).
  pose proof (bswap_range 2 pl). unfold MUTATION_SPEC_SIZE, LOOKUP_SPEC_SIZE.
  destruct (multi_is_mutator t).
  - apply fmap_Some in Hvl as (x & _ & ->). pose proof (bswap_range 4 x). lia.
  - injection Hvl as <-. lia.
Qed.

Lemma multi_paths_monotone fuel m n t i off i' off' :
  multi_paths fuel m n t i off = Some (PROTOCOL_BINARY_RESPONSE_SUCCESS, i', off') ->
  off <= off'.
Proof.
  revert i off. induction fuel as [|fuel IH]; intros i off H; cbn in H.
  { injection H as _ <-. lia. }
  destruct (_ <? _); [|injection H as _ <-; lia].
  apply bind_Some in H as ([st1 n1] & H1 & H). case_decide as E; [|congruence].
  subst st1. apply is_valid_multipath_spec_size in H1. apply IH in H. lia.
Qed.

Lemma multi_paths_sound fuel m t i off i' :
  0 <= off ->
  multi_paths fuel m (Z.of_nat (length m)) t i off =
    Some (PROTOCOL_BINARY_RESPONSE_SUCCESS, i', Z.of_nat (length m)) ->
  exists ops, Forall (op_ok (multi_is_mutator t)) ops /\ i' = i + Z.of_nat (length ops) /\
    (length ops <= fuel)%nat /\
    drop (Z.to_nat off) m = specs_bytes (multi_is_mutator t) ops.
Proof.
  assert (drop (Z.to_nat (Z.of_nat (length m))) m = []) as Hend by (apply drop_ge; lia).
  revert i off. induction fuel as [|fuel IH]; intros i off Ho H; cbn in H.
  { injection H as <- ->. exists []. split_and!; cbn; [done|lia|lia|apply Hend]. }
  destruct (_ <? _) eqn:E.
  2:{ injection H as <- ->. exists []. split_and!; cbn; [done|lia|lia|apply Hend]. }
  apply bind_Some in H as ([st1 n1] & H1 & H). case_decide as Est; [|congruence].
  subst st1. pose proof (is_valid_multipath_spec_size _ _ _ _ H1).
  pose proof (multi_paths_monotone _ _ _ _ _ _ _ _ H).
  apply is_valid_multipath_spec_sound in H1 as (s & Hs & Hsz & HD); [|lia..].
  apply IH in H as (ops & Hops & -> & Hf & HD'); [|lia].
  exists (s :: ops). split_and!; [by constructor|cbn; lia|cbn; lia|].
  by rewrite HD, HD'.
Qed.

Lemma multi_paths_complete fuel m t i off ops :
  0 <= off -> Forall (op_ok (multi_is_mutator t)) ops -> (length ops <= fuel)%nat ->
  off <= Z.of_nat (length m) ->
  drop (Z.to_nat off) m = specs_bytes (multi_is_mutator t) ops ->
  multi_paths fuel m (Z.of_nat (length m)) t i off =
    Some (PROTOCOL_BINARY_RESPONSE_SUCCESS, i + Z.of_nat (length ops), Z.of_nat (length m)).
Proof.
  intros Ho Hops. revert fuel i off Ho.
  induction Hops as [|s ops Hs Hops IH]; intros fuel i off Ho Hf Hle HD.
  - assert (off = Z.of_nat (length m)) as ->.
    { apply (f_equal length) in HD. rewrite length_drop in HD. cbn in HD. lia. }
    cbn [length]. rewrite Z.add_0_r. destruct fuel; cbn; [done|].
    by rewrite (proj2 (Z.ltb_ge _ _)).
  - destruct fuel as [|fuel]; [cbn in Hf; lia|].
    change (specs_bytes ?mu (s :: ops)) with (encode_op mu s ++ specs_bytes mu ops) in HD.
    apply (f_equal length) in HD as HL. rewrite length_drop, length_app in HL.
    pose proof (encode_op_length (multi_is_mutator t) s) as Hsz.
    pose proof (op_size_pos (multi_is_mutator t) s).
    cbn [multi_paths]. rewrite (proj2 (Z.ltb_lt _ _)) by lia.
    rewrite (is_valid_multipath_spec_complete _ _ _ _ _ Ho Hs HD).
    cbn [mbind option_bind]. rewrite decide_True by done.
    rewrite (IH fuel); [do 3 f_equal; cbn; lia|lia|cbn in Hf; lia|lia|].
    by eapply drop_next.
Qed.

Lemma multi_static_check_false p t :
  header_ok (header p) ->
  multi_static_check (header p) t = false <->
  magic (header p) = PROTOCOL_BINARY_REQ /\ nkey p <> 0 /\
  datatype (header p) = PROTOCOL_BINARY_RAW_BYTES /\
  nkey p + extlen (header p) + min_value_len t <= bodylen (header p).
Proof.
  intros Hh. pose proof (keylen_eq_0 p Hh). unfold multi_static_check. fold (nkey p). lia.
Qed.

(** A packet the validator accepts is the encoding of operations. *)
Lemma subdoc_multi_accepted p t :
  packet_ok p ->
  subdoc_multi_validator p t = SUCCESS <->
  (magic (header p) = PROTOCOL_BINARY_REQ /\ nkey p <> 0 /\
   datatype (header p) = PROTOCOL_BINARY_RAW_BYTES /\
   nkey p + extlen (header p) + min_value_len t <= bodylen (header p)) /\
  (extlen (header p) = 0 \/ (multi_is_mutator t = true /\ extlen (header p) = 4)) /\
  exists ops, (1 <= length ops <= PROTOCOL_BINARY_SUBDOC_MULTI_MAX_PATHS)%nat /\
    Forall (op_ok (multi_is_mutator t)) ops /\
    drop (Z.to_nat (nkey p + extlen (header p))) (body p) =
      specs_bytes (multi_is_mutator t) ops.
Proof.
  intros [[Hh Hb] Hlen]. pose proof (nkey_range p Hh) as Hk.
  pose proof (extlen_ok _ Hh) as He.
  assert (nkey p + extlen (header p) <= nbody p) as Hle.
  { unfold validate_bin_header in Hlen. destruct (_ <=? _) eqn:E; [lia|done]. }
  rewrite <- multi_static_check_false by done.
  unfold subdoc_multi_validator. fold (nkey p) (nbody p). rewrite <- Hb.
  destruct (multi_static_check (header p) t); [split; [discriminate|by intros []]|].
  destruct (if multi_is_mutator t then _ else _) eqn:Ex.
  { split; [discriminate|]. intros (_ & Hx & _). destruct (multi_is_mutator t); lia. }
  assert (extlen (header p) = 0 \/ (multi_is_mutator t = true /\ extlen (header p) = 4)) as Hx
    by (destruct (multi_is_mutator t); lia).
  split.
  - intros H. apply bind_Some in H as ([[st i] off] & H & H').
    case_decide as E; [|congruence]. subst st.
    destruct (_ || _) eqn:Eo; [discriminate H'|].
    assert (off = Z.of_nat (length (body p))) as -> by lia.
    apply multi_paths_sound in H as (ops & Hops & -> & Hf & HD); [|lia].
    split_and!; [done|done|]. exists ops. split_and!; [lia|lia|done|done].
  - intros (_ & _ & ops & Hn & Hops & HD).
    rewrite (multi_paths_complete _ _ _ _ _ ops) by (lia || done).
    cbn [mbind option_bind]. rewrite decide_True by done.
    destruct (_ || _) eqn:Eo; [lia|done].
Qed.

(** The operations that the comment on the multi-path requests in
    [protocol_binary.h] allows in a lookup and in a mutation. *)
Definition commented_op (mutation : bool) (c : protocol_binary_command) : bool :=
  match c with
  | PROTOCOL_BINARY_CMD_SUBDOC_GET | PROTOCOL_BINARY_CMD_SUBDOC_EXISTS => negb mutation
  | PROTOCOL_BINARY_CMD_SUBDOC_DICT_ADD | PROTOCOL_BINARY_CMD_SUBDOC_DICT_UPSERT | PROTOCOL_BINARY_CMD_SUBDOC_DELETE
  | PROTOCOL_BINARY_CMD_SUBDOC_REPLACE | PROTOCOL_BINARY_CMD_SUBDOC_ARRAY_PUSH_LAST
  | PROTOCOL_BINARY_CMD_SUBDOC_ARRAY_PUSH_FIRST | PROTOCOL_BINARY_CMD_SUBDOC_ARRAY_INSERT
  | PROTOCOL_BINARY_CMD_SUBDOC_ARRAY_ADD_UNIQUE | PROTOCOL_BINARY_CMD_SUBDOC_COUNTER
  | PROTOCOL_BINARY_CMD_SUBDOC_GET_COUNT => mutation
  | _ => false
  end.

(** What is accepted instead: GET_COUNT counts as a lookup. *)
Definition accepted_op (mutation : bool) (c : protocol_binary_command) : bool :=
  if decide (c = PROTOCOL_BINARY_CMD_SUBDOC_GET_COUNT) then negb mutation else commented_op mutation c.

Lemma op_kind mutation v :
  (command (get_subdoc_cmd_traits v) <> Command_INVALID /\ is_mutator (get_subdoc_cmd_traits v) = mutation) <->
  exists c, cmd_of_value v = Some c /\ accepted_op mutation c = true.
Proof.
  unfold get_subdoc_cmd_traits. destruct (cmd_of_value v) as [c|]; [|split; [by intros [[] _]|by intros (? & [=] & _)]].
  split.
  - intros [Hc <-]. exists c. split; [done|]. destruct c; done.
  - intros (c' & [= <-] & Ha). destruct c, mutation; done.
Qed.

(** C26: the multi-path validator accepts a packet exactly when it is a raw
    request with a key, [bodylen] (in network order, as the code compares it)
    is not below the minimum, the extras are empty or a mutation's expiry time,
    and the body behind extras and key is the encoding of between one
    and [PROTOCOL_BINARY_SUBDOC_MULTI_MAX_PATHS] operations, each known, of
    the command's kind (lookup or mutation), with valid flags, a path length
    in range, and a value exactly when its command takes one.  The operations
    of each kind are those that the comment in [protocol_binary.h] lists, but
    for GET_COUNT: the code takes it for a lookup, the comment for a mutation. *)
Theorem subdoc_multi_validator_spec p t :
  packet_ok p ->
  (subdoc_multi_validator p t = SUCCESS <->
   (magic (header p) = PROTOCOL_BINARY_REQ /\ nkey p <> 0 /\
    datatype (header p) = PROTOCOL_BINARY_RAW_BYTES /\
    nkey p + extlen (header p) + min_value_len t <= bodylen (header p)) /\
   (extlen (header p) = 0 \/ (multi_is_mutator t = true /\ extlen (header p) = 4)) /\
   exists ops, (1 <= length ops <= PROTOCOL_BINARY_SUBDOC_MULTI_MAX_PATHS)%nat /\
     Forall (op_ok (multi_is_mutator t)) ops /\
     drop (Z.to_nat (nkey p + extlen (header p))) (body p) =
       specs_bytes (multi_is_mutator t) ops) /\
  (forall opcode,
     command (get_subdoc_cmd_traits opcode) <> Command_INVALID /\
       is_mutator (get_subdoc_cmd_traits opcode) = multi_is_mutator t <->
     exists c, cmd_of_value opcode = Some c /\ accepted_op (multi_is_mutator t) c = true).
Proof. intros Hok. split; [by apply subdoc_multi_accepted|]. intros opcode. apply op_kind. Qed.

Definition lookup_packet : packet :=
  let b := [Byte.x6b] ++ encode_op false (mk_op Byte.xc5 Byte.x00 [Byte.x61] [])
                      ++ encode_op false (mk_op Byte.xc6 Byte.x00 [Byte.x62; Byte.x63] []) in
  mk_packet (mk_request_header PROTOCOL_BINARY_REQ PROTOCOL_BINARY_CMD_SUBDOC_MULTI_LOOKUP
               (htons 1) 0 0 0 (htonl (Z.of_nat (length b))) 0 0) b.

Lemma lookup_packet_ok : packet_ok lookup_packet.
Proof. split; [split; [by constructor|reflexivity]|reflexivity]. Qed.

Lemma subdoc_multi_validator_spec_witness :
  subdoc_multi_validator lookup_packet get_multi_traits_MULTI_LOOKUP = SUCCESS.
Proof.
  apply (proj1 (subdoc_multi_validator_spec lookup_packet get_multi_traits_MULTI_LOOKUP lookup_packet_ok)).
  split_and!; [reflexivity|discriminate|reflexivity|vm_compute; discriminate|by left|].
  exists [mk_op Byte.xc5 Byte.x00 [Byte.x61] []; mk_op Byte.xc6 Byte.x00 [Byte.x62; Byte.x63] []].
  split_and!; [cbn; lia|cbn; unfold PROTOCOL_BINARY_SUBDOC_MULTI_MAX_PATHS; lia| |reflexivity].
  repeat constructor; cbn; try (lia || discriminate || reflexivity); right; discriminate.
Defined.

(** ** Single-path requests

    The body that the struct [protocol_binary_request_subdocument] lays out: path
    length and flags, for mutations an optional expiry time, the key, the path
    and the value.  The comment on the struct has the flags before the path
    length. *)

Record single_spec := mk_single {
  ss_flags : byte;
  ss_expiry : bytes;
  ss_key : bytes;
  ss_path : bytes;
  ss_value : bytes;
}.

Definition encode_single (s : single_spec) : bytes :=
  be_store 2 (Z.of_nat (length (ss_path s))) ++ [ss_flags s] ++ ss_expiry s ++
  ss_key s ++ ss_path s ++ ss_value s.

Definition single_ok (t : SubdocCmdTraits) (h : protocol_binary_request_header)
    (s : single_spec) : Prop :=
  magic h = PROTOCOL_BINARY_REQ /\ datatype h = PROTOCOL_BINARY_RAW_BYTES /\
  extlen h = SUBDOC_BASIC_EXTRAS_LEN + Z.of_nat (length (ss_expiry s)) /\
  (ss_expiry s = [] \/ (is_mutator t = true /\ length (ss_expiry s) = 4%nat)) /\
  ntohs (keylen h) = Z.of_nat (length (ss_key s)) /\ ss_key s <> [] /\
  Z.of_nat (length (ss_path s)) <= SUBDOC_PATH_MAX_LENGTH /\
  (allow_empty_path t = true \/ ss_path s <> []) /\
  (if request_has_value t then ss_value s <> [] else ss_value s = []) /\
  Z.land (b2z (ss_flags s)) (Z.lnot (valid_flags t)) = 0.

(** The path the extras announce lies inside the packet. *)
Definition path_in_body (p : packet) : bool :=
  match load_int 2 0 (body p) with
  | Some raw_pathlen => ntohs raw_pathlen <=? nvalue p
  | None => false
  end.

(** The checks of an accepted request. *)
Lemma subdoc_validator_inv p t :
  subdoc_validator p t = SUCCESS ->
  exists fl pl,
    load_int 1 2 (body p) = Some fl /\ load_int 2 0 (body p) = Some pl /\
    magic (header p) = PROTOCOL_BINARY_REQ /\ nkey p <> 0 /\
    ntohs pl <= SUBDOC_PATH_MAX_LENGTH /\ datatype (header p) = PROTOCOL_BINARY_RAW_BYTES /\
    (u32 (nvalue p - ntohs pl) =? 0) = negb (request_has_value t) /\
    Z.land fl (Z.lnot (valid_flags t)) = 0 /\
    (allow_empty_path t = true \/ ntohs pl <> 0) /\
    (extlen (header p) = SUBDOC_BASIC_EXTRAS_LEN \/
     (is_mutator t = true /\ extlen (header p) = SUBDOC_EXPIRY_EXTRAS_LEN)).
Proof.
  unfold subdoc_validator. fold (nkey p) (nbody p). intros H.
  apply bind_Some in H as (fl & Hfl & H). apply bind_Some in H as (pl & Hpl & H).
  fold (nvalue p) in H. exists fl, pl. cbv zeta in H.
  destruct (_ || _) eqn:E1; [discriminate H|].
  destruct (if request_has_value t then _ else _) eqn:E2; [discriminate H|].
  destruct (Z.land _ _ != 0) eqn:E3; [discriminate H|].
  destruct (negb (allow_empty_path t) && _) eqn:E4; [discriminate H|].
  destruct (if is_mutator t then _ else _) eqn:E5; [discriminate H|].
  split_and!; try done; try lia.
Qed.

Lemma u32_eq_0 z : - 65536 < z < 4294967296 -> (u32 z =? 0) = (z =? 0).
Proof.
  intros Hz. unfold u32, wrap. pow2.
  destruct (decide (z < 0)).
  - replace z with (z + 4294967296 + (-1) * 4294967296) at 1 by lia.
    rewrite Z.mod_add, Z.mod_small by lia. lia.
  - rewrite Z.mod_small by lia. done.
Qed.

Lemma subdoc_validator_sound p t :
  packet_ok p -> request_has_value t = false \/ path_in_body p = true ->
  subdoc_validator p t = SUCCESS ->
  exists s, single_ok t (header p) s /\ body p = encode_single s.
Proof.
  intros Hok Hin H. pose proof (nvalue_nonneg p Hok) as Hv. pose proof (nbody_range p) as Hb.
  destruct Hok as [[Hh Hlen] _]. pose proof (nkey_range p Hh) as Hk.
  pose proof (extlen_ok _ Hh) as He.
  apply subdoc_validator_inv in H
    as (fl & pl & Hfl & Hpl & Hm & Hk0 & Hmax & Hdt & Hval & Hf & Hemp & Hext).
  unfold path_in_body in Hin. rewrite Hpl in Hin. pose proof (bswap_range 2 pl) as Hp.
  unfold SUBDOC_PATH_MAX_LENGTH, SUBDOC_EXPIRY_EXTRAS_LEN, SUBDOC_BASIC_EXTRAS_LEN in *.
  rewrite u32_eq_0 in Hval by (unfold nvalue in *; lia).
  assert (ntohs pl <= nvalue p) as Hin'
    by (destruct Hin as [E|E]; [rewrite E in Hval; cbn in Hval; lia|lia]).
  apply load_int_bytes in Hfl as (b1 & L1 & -> & _ & D1).
  apply load_int_bytes in Hpl as (b2 & L2 & _ & E2 & D2). rewrite E2 in *.
  destruct b1 as [|f []]; [done| |done].
  assert (le_load [f] = b2z f) as Ef by (cbn; lia). rewrite Ef in *.
  unfold nvalue in *. set (m := body p) in *. set (x := extlen (header p)) in *.
  destruct (drop_split 3 (x - 3) m) as (ex & Lex & D3); [lia..|].
  destruct (drop_split x (nkey p) m) as (ke & Lke & D4); [lia..|].
  destruct (drop_split (x + nkey p) (be_load b2) m) as (pa & Lpa & D5); [lia..|].
  exists (mk_single f ex ke pa (drop (Z.to_nat (x + nkey p + be_load b2)) m)).
  split.
  - unfold single_ok; cbn [ss_flags ss_expiry ss_key ss_path ss_value]. fold (nkey p).
    unfold SUBDOC_PATH_MAX_LENGTH, SUBDOC_BASIC_EXTRAS_LEN.
    pose proof (length_zero_iff_nil ex). pose proof (length_zero_iff_nil ke).
    pose proof (length_zero_iff_nil pa).
    split_and!; try done; try (fold x; lia); try (intros ?; lia).
    + destruct Hext as [E|[? E]]; [left|right; split; [done|]]; fold x in E; [apply H|]; lia.
    + intros E. apply Hk0. rewrite <- Lke. by apply H0.
    + destruct Hemp as [?|Hemp]; [by left|right]. intros E. apply Hemp.
      rewrite <- Lpa. by apply H1.
    + pose proof (length_zero_iff_nil (drop (Z.to_nat (x + nkey p + be_load b2)) m)) as N.
      rewrite length_drop in N. destruct (request_has_value t); cbn in Hval.
      * intros E%N. lia.
      * apply N. lia.
  - unfold encode_single; cbn [ss_flags ss_expiry ss_key ss_path ss_value].
    change m with (drop (Z.to_nat 0) m) at 1. rewrite D2, Lpa.
    f_equal; [by rewrite <- L2, be_store_load|].
    change (Z.to_nat (0 + Z.of_nat 2)) with (Z.to_nat 2). rewrite D1. f_equal.
    change (Z.to_nat (2 + Z.of_nat 1)) with (Z.to_nat 3). rewrite D3. f_equal.
    replace (3 + (x - 3)) with x by lia. rewrite D4. f_equal. by rewrite D5.
Qed.

Lemma subdoc_validator_complete p t s :
  packet_ok p -> single_ok t (header p) s -> body p = encode_single s ->
  subdoc_validator p t = SUCCESS /\ path_in_body p = true.
Proof.
  intros [[Hh Hlen] _] (Hm & Hdt & Hx & Hex & Hke & Hk0 & Hmax & Hemp & Hval & Hf) HB.
  pose proof (length_zero_iff_nil (ss_key s)) as Nk.
  pose proof (length_zero_iff_nil (ss_path s)) as Np.
  pose proof (length_zero_iff_nil (ss_value s)) as Nv.
  unfold SUBDOC_PATH_MAX_LENGTH, SUBDOC_BASIC_EXTRAS_LEN in *.
  assert (nbody p = nkey p + extlen (header p) + Z.of_nat (length (ss_path s))
                    + Z.of_nat (length (ss_value s))) as Hnb.
  { rewrite <- Hlen, HB. unfold encode_single, nkey.
    rewrite !length_app, be_store_length. cbn [length]. lia. }
  pose proof (nbody_range p) as Hb.
  assert (drop (Z.to_nat 0) (body p) = encode_single s) as D0 by done.
  apply (drop_next _ 2) in D0 as D2; [|lia|by rewrite be_store_length].
  unfold subdoc_validator, path_in_body. fold (nkey p) (nbody p).
  rewrite (bytes_load_int 1 2 _ [ss_flags s] _ ltac:(lia) ltac:(lia) eq_refl D2).
  assert (exists y, load_int 2 0 (body p) = Some y /\ ntohs y = Z.of_nat (length (ss_path s)))
    as (pl & -> & Epl) by (eapply load_int_be; [..|exact D0]; lia).
  cbn [mbind option_bind]. cbv zeta. rewrite Epl. fold (nvalue p).
  assert (nvalue p = Z.of_nat (length (ss_path s)) + Z.of_nat (length (ss_value s))) as Env
    by (unfold nvalue; lia).
  replace (le_load [ss_flags s]) with (b2z (ss_flags s)) by (cbn; lia).
  pose proof (nkey_range p Hh). split; [|lia]. rewrite !u32_eq_0, Hf by lia.
  assert (nkey p <> 0) by (unfold nkey; rewrite Hke; intros E%Nk; done).
  unfold SUBDOC_PATH_MAX_LENGTH, SUBDOC_EXPIRY_EXTRAS_LEN, SUBDOC_BASIC_EXTRAS_LEN.
  destruct (_ || _) eqn:E1; [lia|].
  destruct (if request_has_value t then _ else _) eqn:E2.
  { destruct (request_has_value t); [|by subst; rewrite Hval in *; cbn in *; lia].
    exfalso. apply Hval, Nv. lia. }
  cbn [negb Z.eqb]. destruct (negb (allow_empty_path t) && _) eqn:E4.
  { destruct Hemp as [Hemp|Hemp]; [by rewrite Hemp in E4|]. exfalso. apply Hemp, Np. lia. }
  destruct (if is_mutator t then _ else _) eqn:E5; [|done].
  exfalso. destruct Hex as [Ex|[Hmu Ex]]; rewrite Ex in Hx; cbn in Hx.
  - destruct (is_mutator t); lia.
  - rewrite Hmu in E5. lia.
Qed.

(** C27: a single-path subdocument request whose announced path lies inside
    the packet (always so for a command without a value) is accepted exactly
    when its body is the encoding of the struct
    [protocol_binary_request_subdocument]: path length, flags the command
    allows, an expiry time only for mutations, a non-empty key, a path of at
    most 1024 bytes, empty only where the command allows it, and a value
    exactly when the command takes one.  This is not what the comment on the
    struct says: there the flags come first and the path is always required. *)
Theorem subdoc_validator_spec p t :
  packet_ok p -> request_has_value t = false \/ path_in_body p = true ->
  (subdoc_validator p t = SUCCESS <->
   exists s, single_ok t (header p) s /\ body p = encode_single s).
Proof.
  intros Hok Hin. split; [by apply subdoc_validator_sound|].
  intros (s & Hs & HB). by apply (subdoc_validator_complete p t s).
Qed.

(** [SUBDOC_GET] of path [ab] in document [k]. *)
Definition subdoc_get_packet : packet :=
  let b := encode_single (mk_single Byte.x00 [] [Byte.x6b] [Byte.x61; Byte.x62] []) in
  mk_packet (mk_request_header PROTOCOL_BINARY_REQ PROTOCOL_BINARY_CMD_SUBDOC_GET
               (htons 1) 3 0 0 (htonl (Z.of_nat (length b))) 0 0) b.

Lemma subdoc_get_packet_ok : packet_ok subdoc_get_packet.
Proof. split; [split; [by constructor|reflexivity]|reflexivity]. Qed.

Lemma subdoc_validator_spec_witness : subdoc_get_validator subdoc_get_packet = SUCCESS.
Proof.
  apply (subdoc_validator_spec subdoc_get_packet get_traits_GET subdoc_get_packet_ok);
    [by left|].
  exists (mk_single Byte.x00 [] [Byte.x6b] [Byte.x61; Byte.x62] []).
  split; [|reflexivity].
  split_and!; try reflexivity; cbn; (lia || discriminate || (by left) || (by right)).
Defined.

(** ** Requests the validators mishandle *)

(** The value length is a 32-bit difference that wraps, so a command that
    takes a value is accepted although the path its extras announce does not
    lie inside the packet: every such request passes whose other fields are in
    order. *)
Theorem subdoc_validator_path_outside p t pl fl :
  packet_ok p -> load_int 2 0 (body p) = Some pl -> load_int 1 2 (body p) = Some fl ->
  magic (header p) = PROTOCOL_BINARY_REQ -> datatype (header p) = PROTOCOL_BINARY_RAW_BYTES ->
  extlen (header p) = SUBDOC_BASIC_EXTRAS_LEN -> nkey p <> 0 ->
  request_has_value t = true -> Z.land fl (Z.lnot (valid_flags t)) = 0 ->
  nvalue p < ntohs pl <= SUBDOC_PATH_MAX_LENGTH ->
  path_in_body p = false /\ subdoc_validator p t = SUCCESS.
Proof.
  intros Hok Hpl Hfl Hm Hdt Hx Hk Hv Hf Hp. pose proof (nvalue_nonneg p Hok) as Hn.
  unfold path_in_body, subdoc_validator. rewrite Hpl, Hfl. cbn [mbind option_bind].
  fold (nkey p) (nbody p). cbv zeta. fold (nvalue p). rewrite Hm, Hdt, Hx, Hv, Hf.
  split; [lia|]. unfold SUBDOC_PATH_MAX_LENGTH in *. rewrite u32_eq_0 by lia.
  destruct (_ || _) eqn:E1; [unfold SUBDOC_PATH_MAX_LENGTH in *; lia|].
  destruct (nvalue p - ntohs pl == 0) eqn:E2; [lia|].
  destruct (negb (allow_empty_path t) && _) eqn:E4; [lia|].
  by destruct (is_mutator t).
Qed.

(** [SUBDOC_DICT_UPSERT] of document [k]: the packet ends behind the key, the
    extras announce a path of 1000 bytes. *)
Definition subdoc_outside_packet : packet :=
  let b := be_store 2 1000 ++ [Byte.x00] ++ [Byte.x6b] in
  mk_packet (mk_request_header PROTOCOL_BINARY_REQ PROTOCOL_BINARY_CMD_SUBDOC_DICT_UPSERT
               (htons 1) 3 0 0 (htonl (Z.of_nat (length b))) 0 0) b.

Lemma subdoc_outside_packet_ok : packet_ok subdoc_outside_packet.
Proof. split; [split; [by constructor|reflexivity]|reflexivity]. Qed.

Lemma subdoc_validator_path_outside_witness :
  subdoc_dict_upsert_validator subdoc_outside_packet = SUCCESS.
Proof.
  apply (subdoc_validator_path_outside subdoc_outside_packet get_traits_DICT_UPSERT
           (le_load (be_store 2 1000)) 0 subdoc_outside_packet_ok);
    try reflexivity; [discriminate|vm_compute; split; congruence].
Defined.

(** A length whose last byte in the packet is [b3] compares, unconverted, as
    at least [2^24 * b3]. *)
Lemma raw_bodylen h :
  header_ok h ->
  exists b0 b1 b2 b3,
    bodylen h = b2z b0 + 256 * b2z b1 + 65536 * b2z b2 + 16777216 * b2z b3 /\
    ntohl (bodylen h) = 16777216 * b2z b0 + 65536 * b2z b1 + 256 * b2z b2 + b2z b3.
Proof.
  intros H. pose proof (bodylen_ok _ H) as Hb.
  pose proof (le_store_length 4 (bodylen h)) as L.
  pose proof (le_load_store 4 (bodylen h)) as E. rewrite Z.mod_small in E by (cbn; lia).
  remember (le_store 4 (bodylen h)) as bs.
  destruct bs as [|b0 [|b1 [|b2 [|b3 []]]]]; try discriminate L.
  exists b0, b1, b2, b3. rewrite <- E, (bswap_le_load 4) by done.
  unfold be_load. cbn [reverse rev_append le_load]. lia.
Qed.

(** The minimum-length check of the multi-path validators, which compares
    [bodylen] unconverted, never fires when the last byte of the length is
    non-zero; and it fires for a length of [2^24], however long that is. *)
Lemma multi_static_check_low_byte h t :
  header_ok h -> ntohl (bodylen h) mod 256 <> 0 -> min_value_len t <= 9 ->
  multi_static_check h t =
  ((magic h != PROTOCOL_BINARY_REQ) || (keylen h == 0) ||
   (datatype h != PROTOCOL_BINARY_RAW_BYTES)).
Proof.
  intros Hh Hlow Ht. destruct (raw_bodylen h Hh) as (b0 & b1 & b2 & b3 & E & En).
  pose proof (b2z_range b0). pose proof (b2z_range b1). pose proof (b2z_range b2).
  pose proof (b2z_range b3). pose proof (bswap_range 2 (keylen h)) as Hk.
  pose proof (extlen_ok _ Hh). change (256 ^ Z.of_nat 2) with 65536 in Hk.
  assert (1 <= b2z b3).
  { destruct (decide (b2z b3 = 0)) as [E3|]; [|lia]. exfalso. apply Hlow. rewrite En, E3.
    replace (_ + 0) with ((65536 * b2z b0 + 256 * b2z b1 + b2z b2) * 256) by lia.
    by apply Z.mod_mul. }
  unfold multi_static_check. destruct (bodylen h <? _) eqn:El; [lia|].
  by rewrite orb_false_r.
Qed.

(** [SUBDOC_MULTI_LOOKUP] with key [k] and one stray byte behind it. *)
Definition multi_short_packet : packet :=
  let b := [Byte.x6b; Byte.xc5] in
  mk_packet (mk_request_header PROTOCOL_BINARY_REQ PROTOCOL_BINARY_CMD_SUBDOC_MULTI_LOOKUP
               (htons 1) 0 0 0 (htonl (Z.of_nat (length b))) 0 0) b.

(** The multi-path validators compare the body length in network order
    with a minimum in host order.  A packet shorter than the minimum is not
    refused and its operation spec is read outside the packet; whenever the
    last byte of the length is non-zero the check does not look at the length
    at all; and every packet of [2^24] bytes is refused. *)
Theorem multi_minimum_length_byte_order :
  (packet_ok multi_short_packet /\
   nbody multi_short_packet <
     nkey multi_short_packet + min_value_len get_multi_traits_MULTI_LOOKUP /\
   subdoc_multi_lookup_validator multi_short_packet = None) /\
  (forall p t, packet_ok p -> nbody p mod 256 <> 0 -> min_value_len t <= 9 ->
   multi_static_check (header p) t =
   ((magic (header p) != PROTOCOL_BINARY_REQ) || (keylen (header p) == 0) ||
    (datatype (header p) != PROTOCOL_BINARY_RAW_BYTES))) /\
  forall p, packet_ok p -> nbody p = 16777216 -> subdoc_multi_lookup_validator p = EINVAL /\
    subdoc_multi_mutation_validator p = EINVAL.
Proof.
  split; [|split].
  - split_and!; [|reflexivity|reflexivity].
    split; [split; [by constructor|reflexivity]|reflexivity].
  - intros p t [[Hh _] _]. apply (multi_static_check_low_byte _ t Hh).
  - intros p [[Hh _] _] Hn. destruct (raw_bodylen _ Hh) as (b0 & b1 & b2 & b3 & E & En).
    fold (nbody p) in En. rewrite Hn in En.
    pose proof (b2z_range b0). pose proof (b2z_range b1). pose proof (b2z_range b2).
    pose proof (b2z_range b3). pose proof (bswap_range 2 (keylen (header p))).
    pose proof (extlen_ok _ Hh). pose proof (keylen_eq_0 p Hh).
    assert (forall t, 5 <= min_value_len t -> multi_static_check (header p) t = true) as Hc.
    { intros t Ht. unfold multi_static_check. destruct (_ <? _) eqn:El; [|lia].
      by rewrite orb_true_r. }
    unfold subdoc_multi_lookup_validator, subdoc_multi_mutation_validator,
      subdoc_multi_validator.
    rewrite !Hc by done. done.
Qed.

(** The single-path validators load the extras before they check that
    there are any: a request with neither extras nor value, which
    [validate_bin_header] lets through, is read outside the packet. *)
Theorem subdoc_validator_extras_outside p t :
  packet_ok p -> nbody p < SUBDOC_BASIC_EXTRAS_LEN -> subdoc_validator p t = None.
Proof.
  intros [[Hh Hl] _] Hn. unfold subdoc_validator.
  destruct (load_int 1 2 (body p)) eqn:E; [|done]. exfalso.
  assert (is_Some (load_int 1 2 (body p))) as HS by (rewrite E; eauto).
  apply load_int_is_Some in HS. unfold SUBDOC_BASIC_EXTRAS_LEN in Hn. lia.
Qed.

Definition subdoc_bare_packet : packet :=
  mk_packet (mk_request_header PROTOCOL_BINARY_REQ PROTOCOL_BINARY_CMD_SUBDOC_GET
               (htons 1) 0 0 0 (htonl 1) 0 0) [Byte.x6b].

Lemma subdoc_validator_extras_outside_witness :
  packet_ok subdoc_bare_packet /\ subdoc_get_validator subdoc_bare_packet = None.
Proof.
  assert (packet_ok subdoc_bare_packet) as H
    by (split; [split; [by constructor|reflexivity]|reflexivity]).
  split; [exact H|].
  apply (subdoc_validator_extras_outside subdoc_bare_packet get_traits_GET H). reflexivity.
Defined.
