(* ===== verification/Validators.v ===== *)
(** * Packet validators

    [daemon/mcbp_validators.cc]: the checks a request passes before its
    executor runs, and the table that gives each opcode its chain of
    validators ([McbpValidatorChains]).

    A validator returns [None] where the code would read outside the packet.
    [keylen], [bodylen] and the extras are compared in the byte order the
    source compares them in. *)

From S2P Require Import Prelude Protocol FunctionChain Packet SubdocValidators.

Definition IOCTL_KEY_LENGTH : Z := 128.
Definition IOCTL_VAL_LENGTH : Z := 128.
Definition MAX_BUCKET_NAME_LENGTH : Z := 100.

(** [is_valid_vbucket_state_t]: active, replica, pending or dead. *)
Definition is_valid_vbucket_state_t (state : Z) : bool :=
  (state == 1) || (state == 2) || (state == 3) || (state == 4).

(** [dcp_open_validator] *)
Definition dcp_open_validator (pkt : packet) : option status :=
  let req := header pkt in
  if (magic req != PROTOCOL_BINARY_REQ) ||
     (extlen req != 8) ||
     (keylen req == 0) ||
     (datatype req != PROTOCOL_BINARY_RAW_BYTES)
  then EINVAL else
  SUCCESS.

(** [dcp_add_stream_validator] *)
Definition dcp_add_stream_validator (pkt : packet) : option status :=
  let req := header pkt in
  if (magic req != PROTOCOL_BINARY_REQ) ||
     (extlen req != 4) ||
     (keylen req != 0) ||
     (bodylen req != htonl 4) ||
     (datatype req != PROTOCOL_BINARY_RAW_BYTES)
  then EINVAL else
  SUCCESS.

(** [dcp_close_stream_validator] *)
Definition dcp_close_stream_validator (pkt : packet) : option status :=
  let req := header pkt in
  if (magic req != PROTOCOL_BINARY_REQ) ||
     (extlen req != 0) ||
     (keylen req != 0) ||
     (bodylen req != 0) ||
     (datatype req != PROTOCOL_BINARY_RAW_BYTES)
  then EINVAL else
  SUCCESS.

(** [dcp_get_failover_log_validator] *)
Definition dcp_get_failover_log_validator (pkt : packet) : option status :=
  let req := header pkt in
  if (magic req != PROTOCOL_BINARY_REQ) ||
     (extlen req != 0) ||
     (keylen req != 0) ||
     (bodylen req != 0) ||
     (datatype req != PROTOCOL_BINARY_RAW_BYTES)
  then EINVAL else
  SUCCESS.

(** [dcp_stream_req_validator] *)
Definition dcp_stream_req_validator (pkt : packet) : option status :=
  let req := header pkt in
  if (magic req != PROTOCOL_BINARY_REQ) ||
     (extlen req != 5 * 8 + 2 * 4) ||
     (keylen req != 0) ||
     (datatype req != PROTOCOL_BINARY_RAW_BYTES)
  then EINVAL else
  SUCCESS.

(** [dcp_stream_end_validator] *)
Definition dcp_stream_end_validator (pkt : packet) : option status :=
  let req := header pkt in
  if (magic req != PROTOCOL_BINARY_REQ) ||
     (extlen req != 4) ||
     (keylen req != 0) ||
     (bodylen req != htonl 4) ||
     (datatype req != PROTOCOL_BINARY_RAW_BYTES)
  then EINVAL else
  SUCCESS.

(** [dcp_snapshot_marker_validator] *)
Definition dcp_snapshot_marker_validator (pkt : packet) : option status :=
  let req := header pkt in
  if (magic req != PROTOCOL_BINARY_REQ) ||
     (extlen req != 20) ||
     (keylen req != 0) ||
     (bodylen req != htonl 20) ||
     (datatype req != PROTOCOL_BINARY_RAW_BYTES)
  then EINVAL else
  SUCCESS.

(** [dcp_mutation_validator] *)
Definition dcp_mutation_validator (pkt : packet) : option status :=
  let req := header pkt in
  if (magic req != PROTOCOL_BINARY_REQ) ||
     (extlen req != (2 * 8 + 3 * 4 + 2) + 1) ||
     (keylen req == 0) ||
     (bodylen req == 0)
  then EINVAL else
  SUCCESS.

(** [dcp_deletion_validator] *)
Definition dcp_deletion_validator (pkt : packet) : option status :=
  let req := header pkt in
  if (magic req != PROTOCOL_BINARY_REQ) ||
     (extlen req != (2 * 8 + 2)) ||
     (keylen req == 0)
  then EINVAL else
  SUCCESS.

(** [dcp_expiration_validator] *)
Definition dcp_expiration_validator (pkt : packet) : option status :=
  let req := header pkt in
  let klen := ntohs (keylen req) in
  let bodylen := u32 (ntohl (bodylen req) - klen) in
  let bodylen := u32 (bodylen - extlen req) in
  if (magic req != PROTOCOL_BINARY_REQ) ||
     (extlen req != (2 * 8 + 2)) ||
     (keylen req == 0) ||
     (bodylen != 0)
  then EINVAL else
  SUCCESS.

(** [dcp_flush_validator] *)
Definition dcp_flush_validator (pkt : packet) : option status :=
  let req := header pkt in
  if (magic req != PROTOCOL_BINARY_REQ) ||
     (extlen req != 0) ||
     (keylen req != 0) ||
     (bodylen req != 0) ||
     (datatype req != PROTOCOL_BINARY_RAW_BYTES)
  then EINVAL else
  SUCCESS.

(** [dcp_set_vbucket_state_validator] *)
Definition dcp_set_vbucket_state_validator (pkt : packet) : option status :=
  let req := header pkt in
  if (magic req != PROTOCOL_BINARY_REQ) ||
     (extlen req != 1) ||
     (keylen req != 0) ||
     (ntohl (bodylen req) != 1) ||
     (datatype req != PROTOCOL_BINARY_RAW_BYTES)
  then EINVAL else
  state ← load_int 1 0 (body pkt);
  if (state <? 1) || (4 <? state)
  then EINVAL else
  SUCCESS.

(** [dcp_noop_validator] *)
Definition dcp_noop_validator (pkt : packet) : option status :=
  let req := header pkt in
  if (magic req != PROTOCOL_BINARY_REQ) ||
     (extlen req != 0) ||
     (keylen req != 0) ||
     (bodylen req != 0) ||
     (datatype req != PROTOCOL_BINARY_RAW_BYTES)
  then EINVAL else
  SUCCESS.

(** [dcp_buffer_acknowledgement_validator] *)
Definition dcp_buffer_acknowledgement_validator (pkt : packet) : option status :=
  let req := header pkt in
  if (magic req != PROTOCOL_BINARY_REQ) ||
     (extlen req != 4) ||
     (keylen req != 0) ||
     (bodylen req != ntohl 4) ||
     (datatype req != PROTOCOL_BINARY_RAW_BYTES)
  then EINVAL else
  SUCCESS.

(** [dcp_control_validator] *)
Definition dcp_control_validator (pkt : packet) : option status :=
  let req := header pkt in
  let nkey := ntohs (keylen req) in
  let nval := u32 (ntohl (bodylen req) - nkey) in
  if (magic req != PROTOCOL_BINARY_REQ) ||
     (extlen req != 0) ||
     (nkey == 0) ||
     (nval == 0) ||
     (datatype req != PROTOCOL_BINARY_RAW_BYTES)
  then EINVAL else
  SUCCESS.

(** [isasl_refresh_validator] *)
Definition isasl_refresh_validator (pkt : packet) : option status :=
  let req := header pkt in
  if (magic req != PROTOCOL_BINARY_REQ) ||
     (extlen req != 0) ||
     (keylen req != 0) ||
     (bodylen req != 0) ||
     (cas req != 0) ||
     (datatype req != PROTOCOL_BINARY_RAW_BYTES)
  then EINVAL else
  SUCCESS.

(** [ssl_certs_refresh_validator] *)
Definition ssl_certs_refresh_validator (pkt : packet) : option status :=
  let req := header pkt in
  if (magic req != PROTOCOL_BINARY_REQ) ||
     (extlen req != 0) ||
     (keylen req != 0) ||
     (bodylen req != 0) ||
     (cas req != 0) ||
     (datatype req != PROTOCOL_BINARY_RAW_BYTES)
  then EINVAL else
  SUCCESS.

(** [verbosity_validator] *)
Definition verbosity_validator (pkt : packet) : option status :=
  let req := header pkt in
  if (magic req != PROTOCOL_BINARY_REQ) ||
     (extlen req != 4) ||
     (keylen req != 0) ||
     (cas req != 0) ||
     (ntohl (bodylen req) != 4) ||
     (datatype req != PROTOCOL_BINARY_RAW_BYTES)
  then EINVAL else
  SUCCESS.

(** [hello_validator] *)
Definition hello_validator (pkt : packet) : option status :=
  let req := header pkt in
  let len := ntohl (bodylen req) in
  let len := u32 (len - ntohs (keylen req)) in
  if (magic req != PROTOCOL_BINARY_REQ) ||
     (extlen req != 0) ||
     ((len mod 2) != 0) ||
     (cas req != 0) ||
     (datatype req != PROTOCOL_BINARY_RAW_BYTES)
  then EINVAL else
  SUCCESS.

(** [version_validator] *)
Definition version_validator (pkt : packet) : option status :=
  let req := header pkt in
  if (magic req != PROTOCOL_BINARY_REQ) ||
     (extlen req != 0) ||
     (keylen req != 0) ||
     (bodylen req != 0) ||
     (cas req != 0) ||
     (datatype req != PROTOCOL_BINARY_RAW_BYTES)
  then EINVAL else
  SUCCESS.

(** [quit_validator] *)
Definition quit_validator (pkt : packet) : option status :=
  let req := header pkt in
  if (magic req != PROTOCOL_BINARY_REQ) ||
     (extlen req != 0) ||
     (keylen req != 0) ||
     (bodylen req != 0) ||
     (datatype req != PROTOCOL_BINARY_RAW_BYTES) ||
     (cas req != 0)
  then EINVAL else
  SUCCESS.

(** [sasl_list_mech_validator] *)
Definition sasl_list_mech_validator (pkt : packet) : option status :=
  let req := header pkt in
  if (magic req != PROTOCOL_BINARY_REQ) ||
     (extlen req != 0) ||
     (keylen req != 0) ||
     (bodylen req != 0) ||
     (cas req != 0) ||
     (datatype req != PROTOCOL_BINARY_RAW_BYTES)
  then EINVAL else
  SUCCESS.

(** [sasl_auth_validator] *)
Definition sasl_auth_validator (pkt : packet) : option status :=
  let req := header pkt in
  if (magic req != PROTOCOL_BINARY_REQ) ||
     (extlen req != 0) ||
     (keylen req == 0) ||
     (cas req != 0) ||
     (datatype req != PROTOCOL_BINARY_RAW_BYTES)
  then EINVAL else
  SUCCESS.

(** [noop_validator] *)
Definition noop_validator (pkt : packet) : option status :=
  let req := header pkt in
  if (magic req != PROTOCOL_BINARY_REQ) ||
     (extlen req != 0) ||
     (keylen req != 0) ||
     (bodylen req != 0) ||
     (datatype req != PROTOCOL_BINARY_RAW_BYTES) ||
     (cas req != 0)
  then EINVAL else
  SUCCESS.

(** [flush_validator] *)
Definition flush_validator (pkt : packet) : option status :=
  let req := header pkt in
  let extlen := extlen req in
  let bodylen := ntohl (bodylen req) in
  if (extlen != 0) && (extlen != 4)
  then EINVAL else
  if bodylen != extlen
  then EINVAL else
  expiration ← (if extlen == 4 then load_int 4 0 (body pkt) else Some 0);
  if (extlen == 4) && (expiration != 0)
  then Some PROTOCOL_BINARY_RESPONSE_NOT_SUPPORTED else
  if (magic req != PROTOCOL_BINARY_REQ) ||
     (keylen req != 0) ||
     (datatype req != PROTOCOL_BINARY_RAW_BYTES) ||
     (cas req != 0)
  then EINVAL else
  SUCCESS.

(** [add_validator] *)
Definition add_validator (pkt : packet) : option status :=
  let req := header pkt in
  if (magic req != PROTOCOL_BINARY_REQ) ||
     (extlen req != 8) ||
     (keylen req == 0) ||
     (cas req != 0)
  then EINVAL else
  SUCCESS.

(** [set_replace_validator] *)
Definition set_replace_validator (pkt : packet) : option status :=
  let req := header pkt in
  if (magic req != PROTOCOL_BINARY_REQ) ||
     (extlen req != 8) ||
     (keylen req == 0)
  then EINVAL else
  SUCCESS.

(** [append_prepend_validator] *)
Definition append_prepend_validator (pkt : packet) : option status :=
  let req := header pkt in
  if (magic req != PROTOCOL_BINARY_REQ) ||
     (extlen req != 0) ||
     (keylen req == 0)
  then EINVAL else
  SUCCESS.

(** [get_validator] *)
Definition get_validator (pkt : packet) : option status :=
  let req := header pkt in
  let klen := ntohs (keylen req) in
  let blen := ntohl (bodylen req) in
  if (magic req != PROTOCOL_BINARY_REQ) ||
     (extlen req != 0) ||
     (klen == 0) ||
     (klen != blen) ||
     (datatype req != PROTOCOL_BINARY_RAW_BYTES) ||
     (cas req != 0)
  then EINVAL else
  SUCCESS.

(** [delete_validator] *)
Definition delete_validator (pkt : packet) : option status :=
  let req := header pkt in
  let klen := ntohs (keylen req) in
  let blen := ntohl (bodylen req) in
  if (magic req != PROTOCOL_BINARY_REQ) ||
     (extlen req != 0) ||
     (klen == 0) ||
     (klen != blen) ||
     (datatype req != PROTOCOL_BINARY_RAW_BYTES)
  then EINVAL else
  SUCCESS.

(** [stat_validator] *)
Definition stat_validator (pkt : packet) : option status :=
  let req := header pkt in
  let klen := ntohs (keylen req) in
  let blen := ntohl (bodylen req) in
  if (magic req != PROTOCOL_BINARY_REQ) ||
     (extlen req != 0) ||
     (klen != blen) ||
     (cas req != 0) ||
     (datatype req != PROTOCOL_BINARY_RAW_BYTES)
  then EINVAL else
  SUCCESS.

(** [arithmetic_validator] *)
Definition arithmetic_validator (pkt : packet) : option status :=
  let req := header pkt in
  let klen := ntohs (keylen req) in
  let blen := ntohl (bodylen req) in
  let extlen := extlen req in
  if (magic req != PROTOCOL_BINARY_REQ) ||
     (extlen != 20) ||
     (klen == 0) ||
     ((klen + extlen) != blen) ||
     (datatype req != PROTOCOL_BINARY_RAW_BYTES)
  then EINVAL else
  SUCCESS.

(** [get_cmd_timer_validator] *)
Definition get_cmd_timer_validator (pkt : packet) : option status :=
  let req := header pkt in
  let klen := ntohs (keylen req) in
  let blen := ntohl (bodylen req) in
  let extlen := extlen req in
  if (magic req != PROTOCOL_BINARY_REQ) ||
     (extlen != 1) ||
     ((klen + extlen) != blen) ||
     (cas req != 0) ||
     (datatype req != PROTOCOL_BINARY_RAW_BYTES)
  then EINVAL else
  SUCCESS.

(** [set_ctrl_token_validator] *)
Definition set_ctrl_token_validator (pkt : packet) : option status :=
  let req := header pkt in
  if (magic req != PROTOCOL_BINARY_REQ) ||
     (extlen req != 8) ||
     (keylen req != 0) ||
     (ntohl (bodylen req) != 8) ||
     (datatype req != PROTOCOL_BINARY_RAW_BYTES)
  then EINVAL else
  new_cas ← load_int 8 0 (body pkt);
  if new_cas == 0
  then EINVAL else
  SUCCESS.

(** [get_ctrl_token_validator] *)
Definition get_ctrl_token_validator (pkt : packet) : option status :=
  let req := header pkt in
  if (magic req != PROTOCOL_BINARY_REQ) ||
     (extlen req != 0) ||
     (keylen req != 0) ||
     (bodylen req != 0) ||
     (cas req != 0) ||
     (datatype req != PROTOCOL_BINARY_RAW_BYTES)
  then EINVAL else
  SUCCESS.

(** [init_complete_validator] *)
Definition init_complete_validator (pkt : packet) : option status :=
  let req := header pkt in
  if (magic req != PROTOCOL_BINARY_REQ) ||
     (extlen req != 0) ||
     (keylen req != 0) ||
     (bodylen req != 0) ||
     (datatype req != PROTOCOL_BINARY_RAW_BYTES)
  then EINVAL else
  SUCCESS.

(** [ioctl_get_validator] *)
Definition ioctl_get_validator (pkt : packet) : option status :=
  let req := header pkt in
  let klen := ntohs (keylen req) in
  let blen := ntohl (bodylen req) in
  if (magic req != PROTOCOL_BINARY_REQ) ||
     (extlen req != 0) ||
     (klen == 0) ||
     (klen != blen) ||
     (IOCTL_KEY_LENGTH <? klen) ||
     (cas req != 0) ||
     (datatype req != PROTOCOL_BINARY_RAW_BYTES)
  then EINVAL else
  SUCCESS.

(** [ioctl_set_validator] *)
Definition ioctl_set_validator (pkt : packet) : option status :=
  let req := header pkt in
  let klen := ntohs (keylen req) in
  let vallen := u32 (ntohl (bodylen req) - klen) in
  if (magic req != PROTOCOL_BINARY_REQ) ||
     (extlen req != 0) ||
     (cas req != 0) ||
     (klen == 0) ||
     (IOCTL_KEY_LENGTH <? klen) ||
     (IOCTL_VAL_LENGTH <? vallen) ||
     (datatype req != PROTOCOL_BINARY_RAW_BYTES)
  then EINVAL else
  SUCCESS.

(** [audit_put_validator] *)
Definition audit_put_validator (pkt : packet) : option status :=
  let req := header pkt in
  if (magic req != PROTOCOL_BINARY_REQ) ||
     (extlen req != 4) ||
     (keylen req != 0) ||
     (cas req != 0) ||
     (ntohl (bodylen req) <=? 4) ||
     (datatype req != PROTOCOL_BINARY_RAW_BYTES)
  then EINVAL else
  SUCCESS.

(** [audit_config_reload_validator] *)
Definition audit_config_reload_validator (pkt : packet) : option status :=
  let req := header pkt in
  if (magic req != PROTOCOL_BINARY_REQ) ||
     (extlen req != 0) ||
     (keylen req != 0) ||
     (bodylen req != 0) ||
     (cas req != 0) ||
     (datatype req != PROTOCOL_BINARY_RAW_BYTES)
  then EINVAL else
  SUCCESS.

(** [observe_seqno_validator] *)
Definition observe_seqno_validator (pkt : packet) : option status :=
  let req := header pkt in
  let bodylen := ntohl (bodylen req) in
  if (magic req != PROTOCOL_BINARY_REQ) ||
     (extlen req != 0) ||
     (keylen req != 0) ||
     (bodylen != 8) ||
     (datatype req != PROTOCOL_BINARY_RAW_BYTES)
  then EINVAL else
  SUCCESS.

(** [get_adjusted_time_validator] *)
Definition get_adjusted_time_validator (pkt : packet) : option status :=
  let req := header pkt in
  if (magic req != PROTOCOL_BINARY_REQ) ||
     (extlen req != 0) ||
     (keylen req != 0) ||
     (bodylen req != 0) ||
     (cas req != 0) ||
     (datatype req != PROTOCOL_BINARY_RAW_BYTES)
  then EINVAL else
  SUCCESS.

(** [set_drift_counter_state_validator] *)
Definition set_drift_counter_state_validator (pkt : packet) : option status :=
  let req := header pkt in
  if (magic req != PROTOCOL_BINARY_REQ) ||
     (extlen req != 1 + 8) ||
     (keylen req != 0) ||
     (ntohl (bodylen req) != 1 + 8) ||
     (datatype req != PROTOCOL_BINARY_RAW_BYTES)
  then EINVAL else
  SUCCESS.

(** [create_bucket_validator] *)
Definition create_bucket_validator (pkt : packet) : option status :=
  let req := header pkt in
  let klen := ntohs (keylen req) in
  let blen := ntohl (bodylen req) in
  let extlen := extlen req in
  if (magic req != PROTOCOL_BINARY_REQ) ||
     (extlen != 0) ||
     (klen == 0) ||
     (MAX_BUCKET_NAME_LENGTH <? klen) ||
     (u32 (blen - klen) == 0) ||
     (datatype req != PROTOCOL_BINARY_RAW_BYTES)
  then EINVAL else
  SUCCESS.

(** [list_bucket_validator] *)
Definition list_bucket_validator (pkt : packet) : option status :=
  let req := header pkt in
  if (magic req != PROTOCOL_BINARY_REQ) ||
     (keylen req != 0) ||
     (extlen req != 0) ||
     (bodylen req != 0) ||
     (datatype req != PROTOCOL_BINARY_RAW_BYTES)
  then EINVAL else
  SUCCESS.

(** [delete_bucket_validator] *)
Definition delete_bucket_validator (pkt : packet) : option status :=
  let req := header pkt in
  if (magic req != PROTOCOL_BINARY_REQ) ||
     (keylen req == 0) ||
     (extlen req != 0) ||
     (bodylen req == 0) ||
     (datatype req != PROTOCOL_BINARY_RAW_BYTES)
  then EINVAL else
  SUCCESS.

(** [select_bucket_validator] *)
Definition select_bucket_validator (pkt : packet) : option status :=
  let req := header pkt in
  let klen := ntohs (keylen req) in
  let blen := ntohl (bodylen req) in
  if (magic req != PROTOCOL_BINARY_REQ) ||
     (klen != blen) ||
     (extlen req != 0) ||
     (1023 <? klen) ||
     (datatype req != PROTOCOL_BINARY_RAW_BYTES)
  then EINVAL else
  SUCCESS.

(** [get_all_vb_seqnos_validator] *)
Definition get_all_vb_seqnos_validator (pkt : packet) : option status :=
  let req := header pkt in
  let klen := ntohs (keylen req) in
  let blen := ntohl (bodylen req) in
  let extlen := extlen req in
  if (magic req != PROTOCOL_BINARY_REQ) ||
     (klen != 0) ||
     (extlen != blen) ||
     (cas req != 0) ||
     (datatype req != PROTOCOL_BINARY_RAW_BYTES)
  then EINVAL else
  if extlen != 0
  then
    if extlen != 4
    then EINVAL else
    state ← load_int 4 0 (body pkt);
    if negb (is_valid_vbucket_state_t (ntohl state))
    then EINVAL else
    SUCCESS
  else
  SUCCESS.

(** [shutdown_validator] *)
Definition shutdown_validator (pkt : packet) : option status :=
  let req := header pkt in
  if (magic req != PROTOCOL_BINARY_REQ) ||
     (extlen req != 0) ||
     (keylen req != 0) ||
     (bodylen req != 0) ||
     (cas req == 0) ||
     (datatype req != PROTOCOL_BINARY_RAW_BYTES)
  then EINVAL else
  SUCCESS.

(** [tap_validator]; [sizeof(req->message.body)] is 8 *)
Definition tap_validator (pkt : packet) : option status :=
  let req := header pkt in
  let bodylen := ntohl (bodylen req) in
  enginespecific_length ← load_int 2 0 (body pkt);
  let enginelen := ntohs enginespecific_length in
  if (bodylen <? 8) ||
     (bodylen <? enginelen)
  then EINVAL else
  SUCCESS.

(** [get_collections_validator] *)
Definition get_collections_validator (pkt : packet) : option status :=
  SUCCESS.

(** ** Validator functions

    The functions the chains store, by name; two are the same function when
    their names are equal. *)
Inductive validator :=
| V_dcp_open
| V_dcp_add_stream
| V_dcp_close_stream
| V_dcp_get_failover_log
| V_dcp_stream_req
| V_dcp_stream_end
| V_dcp_snapshot_marker
| V_dcp_mutation
| V_dcp_deletion
| V_dcp_expiration
| V_dcp_flush
| V_dcp_set_vbucket_state
| V_dcp_noop
| V_dcp_buffer_acknowledgement
| V_dcp_control
| V_isasl_refresh
| V_ssl_certs_refresh
| V_verbosity
| V_hello
| V_version
| V_quit
| V_sasl_list_mech
| V_sasl_auth
| V_noop
| V_flush
| V_add
| V_set_replace
| V_append_prepend
| V_get
| V_delete
| V_stat
| V_arithmetic
| V_get_cmd_timer
| V_set_ctrl_token
| V_get_ctrl_token
| V_init_complete
| V_ioctl_get
| V_ioctl_set
| V_audit_put
| V_audit_config_reload
| V_observe_seqno
| V_get_adjusted_time
| V_set_drift_counter_state
| V_create_bucket
| V_list_bucket
| V_delete_bucket
| V_select_bucket
| V_get_all_vb_seqnos
| V_shutdown
| V_tap
| V_get_collections
| V_subdoc_get
| V_subdoc_exists
| V_subdoc_dict_add
| V_subdoc_dict_upsert
| V_subdoc_delete
| V_subdoc_replace
| V_subdoc_array_push_last
| V_subdoc_array_push_first
| V_subdoc_array_insert
| V_subdoc_array_add_unique
| V_subdoc_counter
| V_subdoc_multi_lookup
| V_subdoc_multi_mutation
| V_subdoc_get_count.

#[export] Instance validator_eq_dec : EqDecision validator.
Proof. solve_decision. Defined.

Definition run_validator (f : validator) : packet -> option status :=
  match f with
  | V_dcp_open => dcp_open_validator
  | V_dcp_add_stream => dcp_add_stream_validator
  | V_dcp_close_stream => dcp_close_stream_validator
  | V_dcp_get_failover_log => dcp_get_failover_log_validator
  | V_dcp_stream_req => dcp_stream_req_validator
  | V_dcp_stream_end => dcp_stream_end_validator
  | V_dcp_snapshot_marker => dcp_snapshot_marker_validator
  | V_dcp_mutation => dcp_mutation_validator
  | V_dcp_deletion => dcp_deletion_validator
  | V_dcp_expiration => dcp_expiration_validator
  | V_dcp_flush => dcp_flush_validator
  | V_dcp_set_vbucket_state => dcp_set_vbucket_state_validator
  | V_dcp_noop => dcp_noop_validator
  | V_dcp_buffer_acknowledgement => dcp_buffer_acknowledgement_validator
  | V_dcp_control => dcp_control_validator
  | V_isasl_refresh => isasl_refresh_validator
  | V_ssl_certs_refresh => ssl_certs_refresh_validator
  | V_verbosity => verbosity_validator
  | V_hello => hello_validator
  | V_version => version_validator
  | V_quit => quit_validator
  | V_sasl_list_mech => sasl_list_mech_validator
  | V_sasl_auth => sasl_auth_validator
  | V_noop => noop_validator
  | V_flush => flush_validator
  | V_add => add_validator
  | V_set_replace => set_replace_validator
  | V_append_prepend => append_prepend_validator
  | V_get => get_validator
  | V_delete => delete_validator
  | V_stat => stat_validator
  | V_arithmetic => arithmetic_validator
  | V_get_cmd_timer => get_cmd_timer_validator
  | V_set_ctrl_token => set_ctrl_token_validator
  | V_get_ctrl_token => get_ctrl_token_validator
  | V_init_complete => init_complete_validator
  | V_ioctl_get => ioctl_get_validator
  | V_ioctl_set => ioctl_set_validator
  | V_audit_put => audit_put_validator
  | V_audit_config_reload => audit_config_reload_validator
  | V_observe_seqno => observe_seqno_validator
  | V_get_adjusted_time => get_adjusted_time_validator
  | V_set_drift_counter_state => set_drift_counter_state_validator
  | V_create_bucket => create_bucket_validator
  | V_list_bucket => list_bucket_validator
  | V_delete_bucket => delete_bucket_validator
  | V_select_bucket => select_bucket_validator
  | V_get_all_vb_seqnos => get_all_vb_seqnos_validator
  | V_shutdown => shutdown_validator
  | V_tap => tap_validator
  | V_get_collections => get_collections_validator
  | V_subdoc_get => subdoc_get_validator
  | V_subdoc_exists => subdoc_exists_validator
  | V_subdoc_dict_add => subdoc_dict_add_validator
  | V_subdoc_dict_upsert => subdoc_dict_upsert_validator
  | V_subdoc_delete => subdoc_delete_validator
  | V_subdoc_replace => subdoc_replace_validator
  | V_subdoc_array_push_last => subdoc_array_push_last_validator
  | V_subdoc_array_push_first => subdoc_array_push_first_validator
  | V_subdoc_array_insert => subdoc_array_insert_validator
  | V_subdoc_array_add_unique => subdoc_array_add_unique_validator
  | V_subdoc_counter => subdoc_counter_validator
  | V_subdoc_multi_lookup => subdoc_multi_lookup_validator
  | V_subdoc_multi_mutation => subdoc_multi_mutation_validator
  | V_subdoc_get_count => subdoc_get_count_validator
  end.

#[export] Instance validator_call : FunctionCall validator packet (option status) := {
  call := run_validator;
  Success := SUCCESS;
}.

(** [McbpValidatorChains::initializeMcbpValidatorChains] *)
Definition initializeMcbpValidatorChains : list (list validator) -> list (list validator) :=
  push_all [
    (cmd_value PROTOCOL_BINARY_CMD_DCP_OPEN, V_dcp_open);
    (cmd_value PROTOCOL_BINARY_CMD_DCP_ADD_STREAM, V_dcp_add_stream);
    (cmd_value PROTOCOL_BINARY_CMD_DCP_CLOSE_STREAM, V_dcp_close_stream);
    (cmd_value PROTOCOL_BINARY_CMD_DCP_SNAPSHOT_MARKER, V_dcp_snapshot_marker);
    (cmd_value PROTOCOL_BINARY_CMD_DCP_DELETION, V_dcp_deletion);
    (cmd_value PROTOCOL_BINARY_CMD_DCP_EXPIRATION, V_dcp_expiration);
    (cmd_value PROTOCOL_BINARY_CMD_DCP_FLUSH, V_dcp_flush);
    (cmd_value PROTOCOL_BINARY_CMD_DCP_GET_FAILOVER_LOG, V_dcp_get_failover_log);
    (cmd_value PROTOCOL_BINARY_CMD_DCP_MUTATION, V_dcp_mutation);
    (cmd_value PROTOCOL_BINARY_CMD_DCP_SET_VBUCKET_STATE, V_dcp_set_vbucket_state);
    (cmd_value PROTOCOL_BINARY_CMD_DCP_NOOP, V_dcp_noop);
    (cmd_value PROTOCOL_BINARY_CMD_DCP_BUFFER_ACKNOWLEDGEMENT, V_dcp_buffer_acknowledgement);
    (cmd_value PROTOCOL_BINARY_CMD_DCP_CONTROL, V_dcp_control);
    (cmd_value PROTOCOL_BINARY_CMD_DCP_STREAM_END, V_dcp_stream_end);
    (cmd_value PROTOCOL_BINARY_CMD_DCP_STREAM_REQ, V_dcp_stream_req);
    (cmd_value PROTOCOL_BINARY_CMD_ISASL_REFRESH, V_isasl_refresh);
    (cmd_value PROTOCOL_BINARY_CMD_SSL_CERTS_REFRESH, V_ssl_certs_refresh);
    (cmd_value PROTOCOL_BINARY_CMD_VERBOSITY, V_verbosity);
    (cmd_value PROTOCOL_BINARY_CMD_HELLO, V_hello);
    (cmd_value PROTOCOL_BINARY_CMD_VERSION, V_version);
    (cmd_value PROTOCOL_BINARY_CMD_QUIT, V_quit);
    (cmd_value PROTOCOL_BINARY_CMD_QUITQ, V_quit);
    (cmd_value PROTOCOL_BINARY_CMD_SASL_LIST_MECHS, V_sasl_list_mech);
    (cmd_value PROTOCOL_BINARY_CMD_SASL_AUTH, V_sasl_auth);
    (cmd_value PROTOCOL_BINARY_CMD_SASL_STEP, V_sasl_auth);
    (cmd_value PROTOCOL_BINARY_CMD_NOOP, V_noop);
    (cmd_value PROTOCOL_BINARY_CMD_FLUSH, V_flush);
    (cmd_value PROTOCOL_BINARY_CMD_FLUSHQ, V_flush);
    (cmd_value PROTOCOL_BINARY_CMD_GET, V_get);
    (cmd_value PROTOCOL_BINARY_CMD_GETQ, V_get);
    (cmd_value PROTOCOL_BINARY_CMD_GETK, V_get);
    (cmd_value PROTOCOL_BINARY_CMD_GETKQ, V_get);
    (cmd_value PROTOCOL_BINARY_CMD_DELETE, V_delete);
    (cmd_value PROTOCOL_BINARY_CMD_DELETEQ, V_delete);
    (cmd_value PROTOCOL_BINARY_CMD_STAT, V_stat);
    (cmd_value PROTOCOL_BINARY_CMD_INCREMENT, V_arithmetic);
    (cmd_value PROTOCOL_BINARY_CMD_INCREMENTQ, V_arithmetic);
    (cmd_value PROTOCOL_BINARY_CMD_DECREMENT, V_arithmetic);
    (cmd_value PROTOCOL_BINARY_CMD_DECREMENTQ, V_arithmetic);
    (cmd_value PROTOCOL_BINARY_CMD_GET_CMD_TIMER, V_get_cmd_timer);
    (cmd_value PROTOCOL_BINARY_CMD_SET_CTRL_TOKEN, V_set_ctrl_token);
    (cmd_value PROTOCOL_BINARY_CMD_GET_CTRL_TOKEN, V_get_ctrl_token);
    (cmd_value PROTOCOL_BINARY_CMD_INIT_COMPLETE, V_init_complete);
    (cmd_value PROTOCOL_BINARY_CMD_IOCTL_GET, V_ioctl_get);
    (cmd_value PROTOCOL_BINARY_CMD_IOCTL_SET, V_ioctl_set);
    (cmd_value PROTOCOL_BINARY_CMD_AUDIT_PUT, V_audit_put);
    (cmd_value PROTOCOL_BINARY_CMD_AUDIT_CONFIG_RELOAD, V_audit_config_reload);
    (cmd_value PROTOCOL_BINARY_CMD_SHUTDOWN, V_shutdown);
    (cmd_value PROTOCOL_BINARY_CMD_OBSERVE_SEQNO, V_observe_seqno);
    (cmd_value PROTOCOL_BINARY_CMD_GET_ADJUSTED_TIME, V_get_adjusted_time);
    (cmd_value PROTOCOL_BINARY_CMD_SET_DRIFT_COUNTER_STATE, V_set_drift_counter_state);
    (cmd_value PROTOCOL_BINARY_CMD_SUBDOC_GET, V_subdoc_get);
    (cmd_value PROTOCOL_BINARY_CMD_SUBDOC_EXISTS, V_subdoc_exists);
    (cmd_value PROTOCOL_BINARY_CMD_SUBDOC_DICT_ADD, V_subdoc_dict_add);
    (cmd_value PROTOCOL_BINARY_CMD_SUBDOC_DICT_UPSERT, V_subdoc_dict_upsert);
    (cmd_value PROTOCOL_BINARY_CMD_SUBDOC_DELETE, V_subdoc_delete);
    (cmd_value PROTOCOL_BINARY_CMD_SUBDOC_REPLACE, V_subdoc_replace);
    (cmd_value PROTOCOL_BINARY_CMD_SUBDOC_ARRAY_PUSH_LAST, V_subdoc_array_push_last);
    (cmd_value PROTOCOL_BINARY_CMD_SUBDOC_ARRAY_PUSH_FIRST, V_subdoc_array_push_first);
    (cmd_value PROTOCOL_BINARY_CMD_SUBDOC_ARRAY_INSERT, V_subdoc_array_insert);
    (cmd_value PROTOCOL_BINARY_CMD_SUBDOC_ARRAY_ADD_UNIQUE, V_subdoc_array_add_unique);
    (cmd_value PROTOCOL_BINARY_CMD_SUBDOC_COUNTER, V_subdoc_counter);
    (cmd_value PROTOCOL_BINARY_CMD_SUBDOC_MULTI_LOOKUP, V_subdoc_multi_lookup);
    (cmd_value PROTOCOL_BINARY_CMD_SUBDOC_MULTI_MUTATION, V_subdoc_multi_mutation);
    (cmd_value PROTOCOL_BINARY_CMD_SUBDOC_GET_COUNT, V_subdoc_get_count);
    (cmd_value PROTOCOL_BINARY_CMD_SETQ, V_set_replace);
    (cmd_value PROTOCOL_BINARY_CMD_SET, V_set_replace);
    (cmd_value PROTOCOL_BINARY_CMD_ADDQ, V_add);
    (cmd_value PROTOCOL_BINARY_CMD_ADD, V_add);
    (cmd_value PROTOCOL_BINARY_CMD_REPLACEQ, V_set_replace);
    (cmd_value PROTOCOL_BINARY_CMD_REPLACE, V_set_replace);
    (cmd_value PROTOCOL_BINARY_CMD_APPENDQ, V_append_prepend);
    (cmd_value PROTOCOL_BINARY_CMD_APPEND, V_append_prepend);
    (cmd_value PROTOCOL_BINARY_CMD_PREPENDQ, V_append_prepend);
    (cmd_value PROTOCOL_BINARY_CMD_PREPEND, V_append_prepend);
    (cmd_value PROTOCOL_BINARY_CMD_CREATE_BUCKET, V_create_bucket);
    (cmd_value PROTOCOL_BINARY_CMD_LIST_BUCKETS, V_list_bucket);
    (cmd_value PROTOCOL_BINARY_CMD_DELETE_BUCKET, V_delete_bucket);
    (cmd_value PROTOCOL_BINARY_CMD_SELECT_BUCKET, V_select_bucket);
    (cmd_value PROTOCOL_BINARY_CMD_GET_ALL_VB_SEQNOS, V_get_all_vb_seqnos);
    (cmd_value PROTOCOL_BINARY_CMD_TAP_MUTATION, V_tap);
    (cmd_value PROTOCOL_BINARY_CMD_TAP_CHECKPOINT_END, V_tap);
    (cmd_value PROTOCOL_BINARY_CMD_TAP_CHECKPOINT_START, V_tap);
    (cmd_value PROTOCOL_BINARY_CMD_TAP_DELETE, V_tap);
    (cmd_value PROTOCOL_BINARY_CMD_TAP_FLUSH, V_tap);
    (cmd_value PROTOCOL_BINARY_CMD_TAP_OPAQUE, V_tap);
    (cmd_value PROTOCOL_BINARY_CMD_TAP_VBUCKET_SET, V_tap)
  ].

(** [McbpValidatorChains::enableCollections] *)
Definition enableCollections : list (list validator) -> list (list validator) :=
  push_all [
    (cmd_value PROTOCOL_BINARY_CMD_GET, V_get_collections);
    (cmd_value PROTOCOL_BINARY_CMD_GETQ, V_get_collections);
    (cmd_value PROTOCOL_BINARY_CMD_GETK, V_get_collections);
    (cmd_value PROTOCOL_BINARY_CMD_GETKQ, V_get_collections)
  ].

(** The chains of a bucket, before and after [Bucket::enableCollections]. *)
Definition validatorChains (collections : bool) : list (list validator) :=
  let chains := initializeMcbpValidatorChains no_chains in
  if collections then enableCollections chains else chains.

(** [McbpConnection::validateCommand], [McbpValidatorChains::invoke] *)
Definition validateCommand (collections : bool) (command : Z) (pkt : packet) : option status :=
  invoke (chain_of command (validatorChains collections)) pkt.

(** ** Formats

    What the validators are to accept, as the formats of the commands: the length of
    the extras, whether key, value and cas are present, whether the datatype
    must be raw, and what the extras or the lengths must satisfy beyond
    that.  All lengths are in host order. *)

Inductive presence := Must | MustNot | May.

Record format := mk_format {
  fm_extras : list Z;
  fm_key : presence;
  fm_value : presence;
  fm_cas : presence;
  fm_raw : bool;
  fm_more : packet -> bool;
}.

Definition present (r : presence) (n : Z) : bool :=
  match r with Must => n != 0 | MustNot => n == 0 | May => true end.

Definition conforms (fm : format) (p : packet) : bool :=
  (magic (header p) == PROTOCOL_BINARY_REQ) &&
  existsb (Z.eqb (extlen (header p))) (fm_extras fm) &&
  present (fm_key fm) (nkey p) && present (fm_value fm) (nvalue p) &&
  present (fm_cas fm) (cas (header p)) &&
  (negb (fm_raw fm) || (datatype (header p) == PROTOCOL_BINARY_RAW_BYTES)) &&
  fm_more fm p.

(** The extras as one number in network order. *)
Definition extras_value (p : packet) : Z :=
  be_load (take (Z.to_nat (extlen (header p))) (body p)).

Definition anything (p : packet) : bool := true.

(** The format of each command with a validator of its own; [None] for the
    sub-document and tap commands and for the commands without validator. *)
Definition command_format (c : protocol_binary_command) : option format :=
  match c with
  | PROTOCOL_BINARY_CMD_DCP_CLOSE_STREAM | PROTOCOL_BINARY_CMD_DCP_GET_FAILOVER_LOG
  | PROTOCOL_BINARY_CMD_DCP_FLUSH | PROTOCOL_BINARY_CMD_DCP_NOOP
  | PROTOCOL_BINARY_CMD_INIT_COMPLETE | PROTOCOL_BINARY_CMD_LIST_BUCKETS =>
      Some (mk_format [0] MustNot MustNot May true anything)
  | PROTOCOL_BINARY_CMD_ISASL_REFRESH | PROTOCOL_BINARY_CMD_SSL_CERTS_REFRESH
  | PROTOCOL_BINARY_CMD_VERSION | PROTOCOL_BINARY_CMD_QUIT | PROTOCOL_BINARY_CMD_QUITQ
  | PROTOCOL_BINARY_CMD_SASL_LIST_MECHS | PROTOCOL_BINARY_CMD_NOOP
  | PROTOCOL_BINARY_CMD_GET_CTRL_TOKEN | PROTOCOL_BINARY_CMD_AUDIT_CONFIG_RELOAD
  | PROTOCOL_BINARY_CMD_GET_ADJUSTED_TIME =>
      Some (mk_format [0] MustNot MustNot MustNot true anything)
  | PROTOCOL_BINARY_CMD_SHUTDOWN =>
      Some (mk_format [0] MustNot MustNot Must true anything)
  | PROTOCOL_BINARY_CMD_GET | PROTOCOL_BINARY_CMD_GETQ
  | PROTOCOL_BINARY_CMD_GETK | PROTOCOL_BINARY_CMD_GETKQ =>
      Some (mk_format [0] Must MustNot MustNot true anything)
  | PROTOCOL_BINARY_CMD_DELETE | PROTOCOL_BINARY_CMD_DELETEQ =>
      Some (mk_format [0] Must MustNot May true anything)
  | PROTOCOL_BINARY_CMD_STAT =>
      Some (mk_format [0] May MustNot MustNot true anything)
  | PROTOCOL_BINARY_CMD_SET | PROTOCOL_BINARY_CMD_SETQ
  | PROTOCOL_BINARY_CMD_REPLACE | PROTOCOL_BINARY_CMD_REPLACEQ =>
      Some (mk_format [8] Must May May false anything)
  | PROTOCOL_BINARY_CMD_ADD | PROTOCOL_BINARY_CMD_ADDQ =>
      Some (mk_format [8] Must May MustNot false anything)
  | PROTOCOL_BINARY_CMD_APPEND | PROTOCOL_BINARY_CMD_APPENDQ
  | PROTOCOL_BINARY_CMD_PREPEND | PROTOCOL_BINARY_CMD_PREPENDQ =>
      Some (mk_format [0] Must May May false anything)
  | PROTOCOL_BINARY_CMD_INCREMENT | PROTOCOL_BINARY_CMD_INCREMENTQ
  | PROTOCOL_BINARY_CMD_DECREMENT | PROTOCOL_BINARY_CMD_DECREMENTQ =>
      Some (mk_format [20] Must MustNot May true anything)
  | PROTOCOL_BINARY_CMD_FLUSH | PROTOCOL_BINARY_CMD_FLUSHQ =>
      Some (mk_format [0; 4] MustNot MustNot MustNot true (fun p => extras_value p == 0))
  | PROTOCOL_BINARY_CMD_HELLO =>
      Some (mk_format [0] May May MustNot true (fun p => Z.even (nvalue p)))
  | PROTOCOL_BINARY_CMD_SASL_AUTH | PROTOCOL_BINARY_CMD_SASL_STEP =>
      Some (mk_format [0] Must May MustNot true anything)
  | PROTOCOL_BINARY_CMD_VERBOSITY =>
      Some (mk_format [4] MustNot MustNot MustNot true anything)
  | PROTOCOL_BINARY_CMD_GET_CMD_TIMER =>
      Some (mk_format [1] May MustNot MustNot true anything)
  | PROTOCOL_BINARY_CMD_SET_CTRL_TOKEN =>
      Some (mk_format [8] MustNot MustNot May true (fun p => extras_value p != 0))
  | PROTOCOL_BINARY_CMD_IOCTL_GET =>
      Some (mk_format [0] Must MustNot MustNot true (fun p => nkey p <=? IOCTL_KEY_LENGTH))
  | PROTOCOL_BINARY_CMD_IOCTL_SET =>
      Some (mk_format [0] Must May MustNot true
              (fun p => (nkey p <=? IOCTL_KEY_LENGTH) && (nvalue p <=? IOCTL_VAL_LENGTH)))
  | PROTOCOL_BINARY_CMD_AUDIT_PUT =>
      Some (mk_format [4] MustNot Must MustNot true anything)
  | PROTOCOL_BINARY_CMD_OBSERVE_SEQNO =>
      Some (mk_format [0] MustNot Must May true (fun p => nvalue p == 8))
  | PROTOCOL_BINARY_CMD_SET_DRIFT_COUNTER_STATE =>
      Some (mk_format [9] MustNot MustNot May true anything)
  | PROTOCOL_BINARY_CMD_CREATE_BUCKET =>
      Some (mk_format [0] Must Must May true (fun p => nkey p <=? MAX_BUCKET_NAME_LENGTH))
  | PROTOCOL_BINARY_CMD_DELETE_BUCKET =>
      Some (mk_format [0] Must May May true anything)
  | PROTOCOL_BINARY_CMD_SELECT_BUCKET =>
      Some (mk_format [0] May MustNot May true (fun p => nkey p <=? 1023))
  | PROTOCOL_BINARY_CMD_GET_ALL_VB_SEQNOS =>
      Some (mk_format [0; 4] MustNot MustNot MustNot true
              (fun p => (extlen (header p) == 0) || is_valid_vbucket_state_t (extras_value p)))
  | PROTOCOL_BINARY_CMD_DCP_OPEN =>
      Some (mk_format [8] Must May May true anything)
  | PROTOCOL_BINARY_CMD_DCP_ADD_STREAM | PROTOCOL_BINARY_CMD_DCP_STREAM_END
  | PROTOCOL_BINARY_CMD_DCP_BUFFER_ACKNOWLEDGEMENT =>
      Some (mk_format [4] MustNot MustNot May true anything)
  | PROTOCOL_BINARY_CMD_DCP_STREAM_REQ =>
      Some (mk_format [48] MustNot May May true anything)
  | PROTOCOL_BINARY_CMD_DCP_SNAPSHOT_MARKER =>
      Some (mk_format [20] MustNot MustNot May true anything)
  | PROTOCOL_BINARY_CMD_DCP_MUTATION =>
      Some (mk_format [31] Must May May false anything)
  | PROTOCOL_BINARY_CMD_DCP_DELETION =>
      Some (mk_format [18] Must May May false anything)
  | PROTOCOL_BINARY_CMD_DCP_EXPIRATION =>
      Some (mk_format [18] Must MustNot May false anything)
  | PROTOCOL_BINARY_CMD_DCP_SET_VBUCKET_STATE =>
      Some (mk_format [1] MustNot MustNot May true
              (fun p => is_valid_vbucket_state_t (extras_value p)))
  | PROTOCOL_BINARY_CMD_DCP_CONTROL =>
      Some (mk_format [0] Must Must May true anything)
  | _ => None
  end.

(** A flush with a delay is refused as not supported, everything else that
    does not conform as invalid. *)
Definition refusal (c : protocol_binary_command) (p : packet) : status :=
  match c with
  | PROTOCOL_BINARY_CMD_FLUSH | PROTOCOL_BINARY_CMD_FLUSHQ =>
      if (extlen (header p) == 4) && (nbody p == 4) && (extras_value p != 0)
      then PROTOCOL_BINARY_RESPONSE_NOT_SUPPORTED
      else PROTOCOL_BINARY_RESPONSE_EINVAL
  | _ => PROTOCOL_BINARY_RESPONSE_EINVAL
  end.

(** ** Correctness of the validators *)

Lemma load_extras p n :
  packet_ok p -> (0 < n)%nat -> extlen (header p) = Z.of_nat n ->
  exists x, load_int n 0 (body p) = Some x /\ bswap n x = extras_value p /\
    0 <= x < 256 ^ Z.of_nat n.
Proof.
  intros [[Hh Hl] Hlen] Hn E.
  assert (is_Some (load_int n 0 (body p))) as [x Hx].
  { apply load_int_is_Some. unfold validate_bin_header in Hlen.
    destruct (_ <=? _) eqn:El; [|done]. pose proof (nkey_range p Hh). lia. }
  exists x. split; [done|]. split; [|by eapply load_int_range].
  apply load_int_bytes in Hx as (bs & L & _ & -> & HD).
  unfold extras_value. rewrite E, Nat2Z.id. f_equal.
  change (drop (Z.to_nat 0) (body p)) with (body p) in HD.
  rewrite HD, take_app_length' by done. done.
Qed.

Lemma extras_value_0 p : extlen (header p) = 0 -> extras_value p = 0.
Proof. intros E. unfold extras_value. by rewrite E. Qed.

(** What the validators of a command must compute. *)
Definition verdict (c : protocol_binary_command) (fm : format) (p : packet) : option status :=
  if conforms fm p then SUCCESS else Some (refusal c p).

Lemma invoke_one f p : invoke [f] p = run_validator f p.
Proof. cbn. case_decide as E; [by rewrite E|done]. Qed.

Lemma invoke_collections f p : invoke [f; V_get_collections] p = run_validator f p.
Proof. cbn. case_decide as E; [by rewrite E|done]. Qed.

(** Unfold a validator and its verdict and bring both to host order. *)
Ltac host_order :=
  repeat match goal with
  | H : header_ok (header ?p) |- context [keylen (header ?p) =? 0] =>
      rewrite (keylen_eq_0 p H)
  | H : header_ok (header ?p) |- context [bodylen (header ?p) =? 0] =>
      rewrite (bodylen_eq_0 p H)
  | H : header_ok (header ?p) |- context [bodylen (header ?p) =? htonl ?k] =>
      rewrite (bodylen_eq_htonl p k H) by lia
  end.

Ltac open_validator :=
  unfold verdict, conforms, anything, refusal, IOCTL_KEY_LENGTH, IOCTL_VAL_LENGTH,
    MAX_BUCKET_NAME_LENGTH;
  cbn [fm_extras fm_key fm_value fm_cas fm_raw fm_more existsb present];
  cbv zeta; host_order;
  repeat match goal with
  | p : packet |- _ =>
      progress (fold (nkey p); fold (nbody p))
  end;
  unfold nvalue in *.

Ltac decide_validator :=
  repeat rewrite u32_sub_u32; repeat rewrite u32_small by lia;
  repeat (case_match; try reflexivity; try lia).

Lemma packet_bounds p :
  packet_ok p ->
  header_ok (header p) /\ 0 <= nbody p - nkey p - extlen (header p) /\
  0 <= nkey p < 65536 /\ nbody p < 4294967296 /\ 0 <= extlen (header p) < 256.
Proof.
  intros Hok. pose proof (nvalue_nonneg p Hok) as Hv. pose proof (nbody_range p).
  destruct Hok as [[Hh _] _]. pose proof (nkey_range p Hh). pose proof (extlen_ok _ Hh).
  unfold nvalue in Hv. split_and!; (done || lia).
Qed.

Lemma set_vbucket_state_verdict p :
  packet_ok p ->
  dcp_set_vbucket_state_validator p =
  verdict PROTOCOL_BINARY_CMD_DCP_SET_VBUCKET_STATE
    (mk_format [1] MustNot MustNot May true (fun p => is_valid_vbucket_state_t (extras_value p))) p.
Proof.
  intros Hok. destruct (packet_bounds p Hok) as (Hh & Hv & Hk & Hb & He).
  unfold dcp_set_vbucket_state_validator, is_valid_vbucket_state_t. open_validator.
  destruct (decide (extlen (header p) = 1)) as [E|E]; [|decide_validator].
  destruct (load_extras p 1 Hok) as (x & -> & Hx & Hr); [lia..|].
  change (bswap 1 x) with (le_load (reverse (le_store 1 x))) in Hx.
  change (reverse (le_store 1 x)) with (le_store 1 x) in Hx.
  rewrite le_load_store, Z.mod_small in Hx by done. cbn [mbind option_bind].
  decide_validator.
Qed.

Lemma set_ctrl_token_verdict p :
  packet_ok p ->
  set_ctrl_token_validator p =
  verdict PROTOCOL_BINARY_CMD_SET_CTRL_TOKEN
    (mk_format [8] MustNot MustNot May true (fun p => extras_value p != 0)) p.
Proof.
  intros Hok. destruct (packet_bounds p Hok) as (Hh & Hv & Hk & Hb & He).
  unfold set_ctrl_token_validator. open_validator.
  destruct (decide (extlen (header p) = 8)) as [E|E]; [|decide_validator].
  destruct (load_extras p 8 Hok) as (x & -> & Hx & Hr); [lia..|].
  pose proof (bswap_eq_0 8 x Hr). cbn [mbind option_bind]. decide_validator.
Qed.

Lemma get_all_vb_seqnos_verdict p :
  packet_ok p ->
  get_all_vb_seqnos_validator p =
  verdict PROTOCOL_BINARY_CMD_GET_ALL_VB_SEQNOS
    (mk_format [0; 4] MustNot MustNot MustNot true
       (fun p => (extlen (header p) == 0) || is_valid_vbucket_state_t (extras_value p))) p.
Proof.
  intros Hok. destruct (packet_bounds p Hok) as (Hh & Hv & Hk & Hb & He).
  unfold get_all_vb_seqnos_validator. open_validator.
  destruct (decide (extlen (header p) = 4)) as [E|E]; [|decide_validator].
  destruct (load_extras p 4 Hok) as (x & -> & Hx & Hr); [lia..|].
  cbn [mbind option_bind]. rewrite Hx. decide_validator.
Qed.

Lemma flush_verdict c p :
  packet_ok p -> c = PROTOCOL_BINARY_CMD_FLUSH \/ c = PROTOCOL_BINARY_CMD_FLUSHQ ->
  flush_validator p =
  verdict c (mk_format [0; 4] MustNot MustNot MustNot true (fun p => extras_value p == 0)) p.
Proof.
  intros Hok Hc. destruct (packet_bounds p Hok) as (Hh & Hv & Hk & Hb & He).
  assert (refusal c p = refusal PROTOCOL_BINARY_CMD_FLUSH p) as Er
    by by destruct Hc as [-> | ->].
  unfold flush_validator, verdict. rewrite Er. fold (verdict PROTOCOL_BINARY_CMD_FLUSH
    (mk_format [0; 4] MustNot MustNot MustNot true (fun p => extras_value p == 0)) p).
  open_validator. pose proof (extras_value_0 p).
  destruct (decide (extlen (header p) = 4)) as [E|E].
  - destruct (load_extras p 4 Hok) as (x & -> & Hx & Hr); [lia..|].
    pose proof (bswap_eq_0 4 x Hr). rewrite E. cbn [mbind option_bind Z.eqb Pos.eqb].
    decide_validator.
  - destruct (extlen (header p) == 4) eqn:E4; [lia|]. cbn [mbind option_bind].
    decide_validator.
Qed.

Lemma hello_verdict p :
  packet_ok p ->
  hello_validator p =
  verdict PROTOCOL_BINARY_CMD_HELLO
    (mk_format [0] May May MustNot true (fun p => Z.even (nvalue p))) p.
Proof.
  intros Hok. destruct (packet_bounds p Hok) as (Hh & Hv & Hk & Hb & He).
  unfold hello_validator. open_validator. rewrite u32_small, Zmod_even by lia.
  destruct (decide (extlen (header p) = 0)) as [E|E]; [|decide_validator].
  rewrite E, Z.sub_0_r. destruct (Z.even _); decide_validator.
Qed.

Lemma validate_verdict collections c fm p :
  packet_ok p -> command_format c = Some fm ->
  validateCommand collections (cmd_value c) p = verdict c fm p.
Proof.
  intros Hok Hf. pose proof (packet_bounds p Hok) as (Hh & Hv & Hk & Hb & He).
  unfold validateCommand.
  destruct c; try discriminate Hf; injection Hf as <-; destruct collections;
    lazymatch goal with |- invoke ?ch p = _ =>
      let ch' := eval vm_compute in ch in
      replace ch with ch' by (vm_compute; reflexivity) end;
    rewrite ?invoke_one, ?invoke_collections; cbn [run_validator].
  all: try (by apply set_vbucket_state_verdict).
  all: try (by apply set_ctrl_token_verdict).
  all: try (by apply get_all_vb_seqnos_verdict).
  all: try (by apply hello_verdict).
  all: try (apply flush_verdict; [done|by (left + right)]).
  all: lazymatch goal with |- ?f _ = _ => unfold f end; open_validator.
  all: decide_validator.
Qed.

(** ** The protocol document

    What [docs/BinaryProtocol.md] and [docs/sasl.md] say of the requests they
    describe: the length of the extras, and whether key and value must be there.
    They say nothing of the CAS value and of the datatype. *)
Definition documented_format (c : protocol_binary_command) : option format :=
  match c with
  | PROTOCOL_BINARY_CMD_GET | PROTOCOL_BINARY_CMD_GETQ | PROTOCOL_BINARY_CMD_GETK | PROTOCOL_BINARY_CMD_GETKQ
  | PROTOCOL_BINARY_CMD_DELETE | PROTOCOL_BINARY_CMD_DELETEQ =>
      Some (mk_format [0] Must MustNot May false anything)
  | PROTOCOL_BINARY_CMD_SET | PROTOCOL_BINARY_CMD_SETQ | PROTOCOL_BINARY_CMD_ADD | PROTOCOL_BINARY_CMD_ADDQ
  | PROTOCOL_BINARY_CMD_REPLACE | PROTOCOL_BINARY_CMD_REPLACEQ =>
      Some (mk_format [8] Must May May false anything)
  | PROTOCOL_BINARY_CMD_INCREMENT | PROTOCOL_BINARY_CMD_INCREMENTQ
  | PROTOCOL_BINARY_CMD_DECREMENT | PROTOCOL_BINARY_CMD_DECREMENTQ =>
      Some (mk_format [20] Must MustNot May false anything)
  | PROTOCOL_BINARY_CMD_QUIT | PROTOCOL_BINARY_CMD_QUITQ | PROTOCOL_BINARY_CMD_NOOP | PROTOCOL_BINARY_CMD_VERSION
  | PROTOCOL_BINARY_CMD_SASL_LIST_MECHS =>
      Some (mk_format [0] MustNot MustNot May false anything)
  | PROTOCOL_BINARY_CMD_SASL_AUTH | PROTOCOL_BINARY_CMD_SASL_STEP =>
      Some (mk_format [0] Must May May false anything)
  | PROTOCOL_BINARY_CMD_FLUSH | PROTOCOL_BINARY_CMD_FLUSHQ =>
      Some (mk_format [0; 4] MustNot MustNot May false anything)
  | PROTOCOL_BINARY_CMD_APPEND | PROTOCOL_BINARY_CMD_APPENDQ
  | PROTOCOL_BINARY_CMD_PREPEND | PROTOCOL_BINARY_CMD_PREPENDQ =>
      Some (mk_format [0] Must Must May false anything)
  | PROTOCOL_BINARY_CMD_STAT => Some (mk_format [0] May MustNot May false anything)
  | PROTOCOL_BINARY_CMD_VERBOSITY => Some (mk_format [4] MustNot MustNot May false anything)
  | PROTOCOL_BINARY_CMD_HELLO => Some (mk_format [0] May May May false anything)
  | _ => None
  end.

(** The commands that are accepted without the value the document demands. *)
Definition value_optional (c : protocol_binary_command) : bool :=
  match c with
  | PROTOCOL_BINARY_CMD_APPEND | PROTOCOL_BINARY_CMD_APPENDQ
  | PROTOCOL_BINARY_CMD_PREPEND | PROTOCOL_BINARY_CMD_PREPENDQ => true
  | _ => false
  end.

Definition without_value (fm : format) : format :=
  mk_format (fm_extras fm) (fm_key fm) MustNot (fm_cas fm) (fm_raw fm) (fm_more fm).

(** What the validators ask beyond the document: no CAS value, raw data, no
    delay of a flush, an even number of bytes of features. *)
Definition stricter (fm : format) (p : packet) : bool :=
  present (fm_cas fm) (cas (header p)) && (negb (fm_raw fm) || (datatype (header p) == PROTOCOL_BINARY_RAW_BYTES)) &&
  fm_more fm p.

Lemma documented_verdict c fm d p :
  command_format c = Some fm -> documented_format c = Some d ->
  conforms fm p = (conforms d p || value_optional c && conforms (without_value d) p) && stricter fm p.
Proof.
  destruct c; try discriminate; intros [= <-] [= <-].
  all: unfold conforms, stricter, without_value, anything; cbn [value_optional fm_extras fm_key fm_value fm_cas fm_raw fm_more
    present negb orb andb]; rewrite ?andb_true_r, ?orb_false_r.
  all: destruct (magic (header p) == PROTOCOL_BINARY_REQ), (existsb _ _), (nkey p == 0), (nvalue p == 0); cbn [negb andb orb]; try done.
  all: by rewrite ?andb_true_r.
Qed.



(** ** Reads outside the packet *)

Definition tap_commands : list protocol_binary_command := [
  PROTOCOL_BINARY_CMD_TAP_MUTATION; PROTOCOL_BINARY_CMD_TAP_DELETE;
  PROTOCOL_BINARY_CMD_TAP_FLUSH; PROTOCOL_BINARY_CMD_TAP_OPAQUE;
  PROTOCOL_BINARY_CMD_TAP_VBUCKET_SET; PROTOCOL_BINARY_CMD_TAP_CHECKPOINT_START;
  PROTOCOL_BINARY_CMD_TAP_CHECKPOINT_END].

Definition subdoc_single_commands : list protocol_binary_command := [
  PROTOCOL_BINARY_CMD_SUBDOC_GET; PROTOCOL_BINARY_CMD_SUBDOC_EXISTS;
  PROTOCOL_BINARY_CMD_SUBDOC_DICT_ADD; PROTOCOL_BINARY_CMD_SUBDOC_DICT_UPSERT;
  PROTOCOL_BINARY_CMD_SUBDOC_DELETE; PROTOCOL_BINARY_CMD_SUBDOC_REPLACE;
  PROTOCOL_BINARY_CMD_SUBDOC_ARRAY_PUSH_LAST; PROTOCOL_BINARY_CMD_SUBDOC_ARRAY_PUSH_FIRST;
  PROTOCOL_BINARY_CMD_SUBDOC_ARRAY_INSERT; PROTOCOL_BINARY_CMD_SUBDOC_ARRAY_ADD_UNIQUE;
  PROTOCOL_BINARY_CMD_SUBDOC_COUNTER; PROTOCOL_BINARY_CMD_SUBDOC_GET_COUNT].

Definition subdoc_multi_commands : list protocol_binary_command := [
  PROTOCOL_BINARY_CMD_SUBDOC_MULTI_LOOKUP; PROTOCOL_BINARY_CMD_SUBDOC_MULTI_MUTATION].

(** The bytes behind the header that validating a command reads in any case. *)
Definition bytes_read (c : protocol_binary_command) : Z :=
  if decide (c ∈ tap_commands) then 2
  else if decide (c ∈ subdoc_single_commands) then 3 else 0.

Lemma tap_validator_None p :
  packet_complete p -> tap_validator p = None <-> nbody p < 2.
Proof.
  intros [_ Hl]. unfold tap_validator.
  pose proof (load_int_is_Some 2 0 (body p)) as HS. split; intros H.
  - destruct (load_int 2 0 (body p)) eqn:E; cbn in H; [by case_match|].
    destruct (decide (nbody p < 2)) as [|Hn]; [done|].
    destruct (proj2 HS) as [x Hx]; [lia|congruence].
  - destruct (load_int 2 0 (body p)) eqn:E; [|done].
    destruct (proj1 HS) as [_ ?]; [eauto|]. lia.
Qed.

Lemma subdoc_validator_None p t :
  packet_complete p -> subdoc_validator p t = None <-> nbody p < 3.
Proof.
  intros [_ Hl]. unfold subdoc_validator.
  pose proof (load_int_is_Some 2 0 (body p)) as H2.
  pose proof (load_int_is_Some 1 2 (body p)) as H1. split; intros H.
  - destruct (decide (nbody p < 3)) as [|Hn]; [done|].
    destruct (proj2 H1) as [x Hx]; [lia|]. destruct (proj2 H2) as [y Hy]; [lia|].
    rewrite Hx, Hy in H. cbn [mbind option_bind] in H. cbv zeta in H.
    repeat case_match; discriminate H.
  - destruct (load_int 1 2 (body p)) eqn:E; [|done].
    destruct (proj1 H1) as [_ ?]; [eauto|]. lia.
Qed.

(** The only commands whose validation reads outside the packet are the
    tap commands with a body of less than 2 bytes, the single-path
    sub-document commands with a body of less than 3 bytes and, for some
    bodies, the two multi-path commands; an opcode that is no command has no
    validator. *)
Theorem validateCommand_in_packet collections c p :
  packet_ok p -> c ∉ subdoc_multi_commands ->
  validateCommand collections (cmd_value c) p = None <-> nbody p < bytes_read c.
Proof.
  intros Hok Hc. pose proof (nbody_range p). pose proof (pk_complete _ Hok) as Hcomp.
  destruct (command_format c) as [fm|] eqn:Hf.
  - assert (bytes_read c = 0) as -> by by destruct c.
    rewrite (validate_verdict _ _ fm) by done. unfold verdict.
    destruct (conforms fm p); (split; [discriminate|lia]).
  - unfold validateCommand.
    destruct c; try discriminate Hf; try (exfalso; apply Hc; solve [repeat constructor]); clear Hf Hc;
      lazymatch goal with |- context [bytes_read ?c] =>
        let n := eval vm_compute in (bytes_read c) in change (bytes_read c) with n end;
      destruct collections;
      lazymatch goal with |- invoke ?ch p = _ <-> _ =>
        let ch' := eval vm_compute in ch in
        replace ch with ch' by (vm_compute; reflexivity) end;
      rewrite ?invoke_one; cbn [run_validator];
      first [apply (tap_validator_None p Hcomp)|apply (subdoc_validator_None p _ Hcomp)
            |split; [discriminate|lia]].
Qed.

Lemma validateCommand_in_packet_witness :
  validateCommand false (cmd_value PROTOCOL_BINARY_CMD_SUBDOC_GET) subdoc_bare_packet = None.
Proof.
  apply (validateCommand_in_packet false PROTOCOL_BINARY_CMD_SUBDOC_GET subdoc_bare_packet);
    [|vm_compute; intros H; repeat (inversion H as [|? ? ? H']; subst; clear H; rename H' into H)
     |reflexivity].
  split; [split; [by constructor|reflexivity]|reflexivity].
Defined.
