(* ===== verification/Privileges.v ===== *)
(** * Privileges

    [daemon/mcbp_privileges.cc] and [daemon/mcbp_privileges.h]: the privileges
    a command needs, checked before its packet is looked at; and
    [Connection::checkPrivilege] of [daemon/connection.cc], which decides what
    a connection holds. *)

From S2P Require Import Prelude Protocol FunctionChain.

(** [enum class Privilege] *)
Inductive Privilege :=
| Read
| Write
| SimpleStats
| Stats
| BucketManagement
| NodeManagement
| SessionManagement
| Audit
| AuditManagement
| DcpConsumer
| DcpProducer
| TapProducer
| TapConsumer
| MetaRead
| MetaWrite
| IdleConnection
| XattrRead
| XattrWrite
| CollectionManagement.

#[export] Instance Privilege_eq_dec : EqDecision Privilege.
Proof. solve_decision. Defined.

Inductive PrivilegeAccess := Ok | Fail | Stale.

#[export] Instance PrivilegeAccess_eq_dec : EqDecision PrivilegeAccess.
Proof. solve_decision. Defined.

(** [Connection::checkPrivilege]; [testing] is whether the environment sets
    [MEMCACHED_UNIT_TESTS]. *)
Definition checkPrivilege (testing admin : bool) (privilege : Privilege) : PrivilegeAccess :=
  if admin || testing then Ok else
  match privilege with
  | Read => Ok
  | Write => Ok
  | SimpleStats => Ok
  | Stats => Fail
  | BucketManagement => Fail
  | NodeManagement => Ok
  | SessionManagement => Fail
  | Audit => Fail
  | AuditManagement => Fail
  | DcpConsumer => Ok
  | DcpProducer => Ok
  | TapProducer => Ok
  | TapConsumer => Ok
  | MetaRead => Ok
  | MetaWrite => Ok
  | IdleConnection => Ok
  | XattrRead | XattrWrite => Fail
  | CollectionManagement => Fail
  end.

(** What the chains use of a cookie: the connection's [checkPrivilege], or
    nothing when [cookie.connection] is null. *)
Definition cookie_connection : Type := option (Privilege -> PrivilegeAccess).

(** The functions the chains store, [require<T>] and [empty]. *)
Inductive privilege_function := require (T : Privilege) | empty_.

#[export] Instance privilege_function_eq_dec : EqDecision privilege_function.
Proof. solve_decision. Defined.

(** [None] is the exception [require] throws without a connection. *)
Definition run_privilege_function (f : privilege_function) (cookie : cookie_connection)
    : option PrivilegeAccess :=
  match f with
  | require T => match cookie with None => None | Some check => Some (check T) end
  | empty_ => Some Ok
  end.

#[export] Instance privilege_call
  : FunctionCall privilege_function cookie_connection (option PrivilegeAccess) := {
  call := run_privilege_function;
  Success := Some Ok;
}.

(** [McbpPrivilegeChains::McbpPrivilegeChains] *)
Definition setup_rules : list (Z * privilege_function) := [
    (cmd_value PROTOCOL_BINARY_CMD_GET, require Read);
    (cmd_value PROTOCOL_BINARY_CMD_GETQ, require Read);
    (cmd_value PROTOCOL_BINARY_CMD_GETK, require Read);
    (cmd_value PROTOCOL_BINARY_CMD_GETKQ, require Read);
    (cmd_value PROTOCOL_BINARY_CMD_SET, require Write);
    (cmd_value PROTOCOL_BINARY_CMD_SETQ, require Write);
    (cmd_value PROTOCOL_BINARY_CMD_ADD, require Write);
    (cmd_value PROTOCOL_BINARY_CMD_ADDQ, require Write);
    (cmd_value PROTOCOL_BINARY_CMD_REPLACE, require Write);
    (cmd_value PROTOCOL_BINARY_CMD_REPLACEQ, require Write);
    (cmd_value PROTOCOL_BINARY_CMD_DELETE, require Write);
    (cmd_value PROTOCOL_BINARY_CMD_DELETEQ, require Write);
    (cmd_value PROTOCOL_BINARY_CMD_APPEND, require Write);
    (cmd_value PROTOCOL_BINARY_CMD_APPENDQ, require Write);
    (cmd_value PROTOCOL_BINARY_CMD_PREPEND, require Write);
    (cmd_value PROTOCOL_BINARY_CMD_PREPENDQ, require Write);
    (cmd_value PROTOCOL_BINARY_CMD_INCREMENT, require Read);
    (cmd_value PROTOCOL_BINARY_CMD_INCREMENT, require Write);
    (cmd_value PROTOCOL_BINARY_CMD_INCREMENTQ, require Read);
    (cmd_value PROTOCOL_BINARY_CMD_INCREMENTQ, require Write);
    (cmd_value PROTOCOL_BINARY_CMD_DECREMENT, require Read);
    (cmd_value PROTOCOL_BINARY_CMD_DECREMENT, require Write);
    (cmd_value PROTOCOL_BINARY_CMD_DECREMENTQ, require Read);
    (cmd_value PROTOCOL_BINARY_CMD_DECREMENTQ, require Write);
    (cmd_value PROTOCOL_BINARY_CMD_QUIT, empty_);
    (cmd_value PROTOCOL_BINARY_CMD_QUITQ, empty_);
    (cmd_value PROTOCOL_BINARY_CMD_FLUSH, require Write);
    (cmd_value PROTOCOL_BINARY_CMD_FLUSHQ, require Write);
    (cmd_value PROTOCOL_BINARY_CMD_NOOP, empty_);
    (cmd_value PROTOCOL_BINARY_CMD_VERSION, empty_);
    (cmd_value PROTOCOL_BINARY_CMD_STAT, require SimpleStats);
    (cmd_value PROTOCOL_BINARY_CMD_VERBOSITY, require NodeManagement);
    (cmd_value PROTOCOL_BINARY_CMD_TOUCH, require Write);
    (cmd_value PROTOCOL_BINARY_CMD_GAT, require Read);
    (cmd_value PROTOCOL_BINARY_CMD_GAT, require Write);
    (cmd_value PROTOCOL_BINARY_CMD_GATQ, require Read);
    (cmd_value PROTOCOL_BINARY_CMD_GATQ, require Write);
    (cmd_value PROTOCOL_BINARY_CMD_HELLO, empty_);
    (cmd_value PROTOCOL_BINARY_CMD_SASL_LIST_MECHS, empty_);
    (cmd_value PROTOCOL_BINARY_CMD_SASL_AUTH, empty_);
    (cmd_value PROTOCOL_BINARY_CMD_SASL_STEP, empty_);
    (cmd_value PROTOCOL_BINARY_CMD_IOCTL_GET, require NodeManagement);
    (cmd_value PROTOCOL_BINARY_CMD_IOCTL_SET, require NodeManagement);
    (cmd_value PROTOCOL_BINARY_CMD_CONFIG_VALIDATE, require NodeManagement);
    (cmd_value PROTOCOL_BINARY_CMD_CONFIG_RELOAD, require NodeManagement);
    (cmd_value PROTOCOL_BINARY_CMD_AUDIT_PUT, require Audit);
    (cmd_value PROTOCOL_BINARY_CMD_AUDIT_CONFIG_RELOAD, require NodeManagement);
    (cmd_value PROTOCOL_BINARY_CMD_SHUTDOWN, require NodeManagement);
    (cmd_value PROTOCOL_BINARY_CMD_SET_VBUCKET, require BucketManagement);
    (cmd_value PROTOCOL_BINARY_CMD_GET_VBUCKET, require NodeManagement);
    (cmd_value PROTOCOL_BINARY_CMD_DEL_VBUCKET, require BucketManagement);
    (cmd_value PROTOCOL_BINARY_CMD_TAP_CONNECT, require TapProducer);
    (cmd_value PROTOCOL_BINARY_CMD_TAP_MUTATION, require TapConsumer);
    (cmd_value PROTOCOL_BINARY_CMD_TAP_DELETE, require TapConsumer);
    (cmd_value PROTOCOL_BINARY_CMD_TAP_FLUSH, require TapConsumer);
    (cmd_value PROTOCOL_BINARY_CMD_TAP_OPAQUE, empty_);
    (cmd_value PROTOCOL_BINARY_CMD_TAP_VBUCKET_SET, require TapConsumer);
    (cmd_value PROTOCOL_BINARY_CMD_TAP_CHECKPOINT_START, require TapConsumer);
    (cmd_value PROTOCOL_BINARY_CMD_TAP_CHECKPOINT_END, require TapConsumer);
    (cmd_value PROTOCOL_BINARY_CMD_GET_ALL_VB_SEQNOS, require MetaRead);
    (cmd_value PROTOCOL_BINARY_CMD_DCP_OPEN, empty_);
    (cmd_value PROTOCOL_BINARY_CMD_DCP_ADD_STREAM, require DcpProducer);
    (cmd_value PROTOCOL_BINARY_CMD_DCP_CLOSE_STREAM, require DcpProducer);
    (cmd_value PROTOCOL_BINARY_CMD_DCP_STREAM_REQ, require DcpProducer);
    (cmd_value PROTOCOL_BINARY_CMD_DCP_GET_FAILOVER_LOG, require DcpProducer);
    (cmd_value PROTOCOL_BINARY_CMD_DCP_STREAM_END, require DcpConsumer);
    (cmd_value PROTOCOL_BINARY_CMD_DCP_SNAPSHOT_MARKER, require DcpConsumer);
    (cmd_value PROTOCOL_BINARY_CMD_DCP_MUTATION, require DcpConsumer);
    (cmd_value PROTOCOL_BINARY_CMD_DCP_DELETION, require DcpConsumer);
    (cmd_value PROTOCOL_BINARY_CMD_DCP_EXPIRATION, require DcpConsumer);
    (cmd_value PROTOCOL_BINARY_CMD_DCP_FLUSH, require DcpConsumer);
    (cmd_value PROTOCOL_BINARY_CMD_DCP_SET_VBUCKET_STATE, require DcpConsumer);
    (cmd_value PROTOCOL_BINARY_CMD_DCP_NOOP, empty_);
    (cmd_value PROTOCOL_BINARY_CMD_DCP_BUFFER_ACKNOWLEDGEMENT, empty_);
    (cmd_value PROTOCOL_BINARY_CMD_DCP_CONTROL, empty_);
    (cmd_value PROTOCOL_BINARY_CMD_STOP_PERSISTENCE, require NodeManagement);
    (cmd_value PROTOCOL_BINARY_CMD_START_PERSISTENCE, require NodeManagement);
    (cmd_value PROTOCOL_BINARY_CMD_SET_PARAM, require NodeManagement);
    (cmd_value PROTOCOL_BINARY_CMD_GET_REPLICA, require Read);
    (cmd_value PROTOCOL_BINARY_CMD_CREATE_BUCKET, require BucketManagement);
    (cmd_value PROTOCOL_BINARY_CMD_DELETE_BUCKET, require BucketManagement);
    (cmd_value PROTOCOL_BINARY_CMD_LIST_BUCKETS, empty_);
    (cmd_value PROTOCOL_BINARY_CMD_SELECT_BUCKET, empty_);
    (cmd_value PROTOCOL_BINARY_CMD_OBSERVE_SEQNO, require MetaRead);
    (cmd_value PROTOCOL_BINARY_CMD_OBSERVE, require MetaRead);
    (cmd_value PROTOCOL_BINARY_CMD_EVICT_KEY, require NodeManagement);
    (cmd_value PROTOCOL_BINARY_CMD_GET_LOCKED, require Read);
    (cmd_value PROTOCOL_BINARY_CMD_UNLOCK_KEY, require Read);
    (cmd_value PROTOCOL_BINARY_CMD_LAST_CLOSED_CHECKPOINT, require MetaRead);
    (cmd_value PROTOCOL_BINARY_CMD_DEREGISTER_TAP_CLIENT, require TapProducer);
    (cmd_value PROTOCOL_BINARY_CMD_RESET_REPLICATION_CHAIN, require NodeManagement);
    (cmd_value PROTOCOL_BINARY_CMD_GET_META, require MetaRead);
    (cmd_value PROTOCOL_BINARY_CMD_GETQ_META, require MetaRead);
    (cmd_value PROTOCOL_BINARY_CMD_SET_WITH_META, require MetaWrite);
    (cmd_value PROTOCOL_BINARY_CMD_SETQ_WITH_META, require MetaWrite);
    (cmd_value PROTOCOL_BINARY_CMD_ADD_WITH_META, require MetaWrite);
    (cmd_value PROTOCOL_BINARY_CMD_ADDQ_WITH_META, require MetaWrite);
    (cmd_value PROTOCOL_BINARY_CMD_SNAPSHOT_VB_STATES, require MetaWrite);
    (cmd_value PROTOCOL_BINARY_CMD_VBUCKET_BATCH_COUNT, require MetaWrite);
    (cmd_value PROTOCOL_BINARY_CMD_DEL_WITH_META, require MetaWrite);
    (cmd_value PROTOCOL_BINARY_CMD_DELQ_WITH_META, require MetaWrite);
    (cmd_value PROTOCOL_BINARY_CMD_CREATE_CHECKPOINT, require NodeManagement);
    (cmd_value PROTOCOL_BINARY_CMD_NOTIFY_VBUCKET_UPDATE, require MetaWrite);
    (cmd_value PROTOCOL_BINARY_CMD_ENABLE_TRAFFIC, require MetaWrite);
    (cmd_value PROTOCOL_BINARY_CMD_DISABLE_TRAFFIC, require MetaWrite);
    (cmd_value PROTOCOL_BINARY_CMD_CHANGE_VB_FILTER, require TapProducer);
    (cmd_value PROTOCOL_BINARY_CMD_CHECKPOINT_PERSISTENCE, require NodeManagement);
    (cmd_value PROTOCOL_BINARY_CMD_RETURN_META, require MetaRead);
    (cmd_value PROTOCOL_BINARY_CMD_RETURN_META, require MetaWrite);
    (cmd_value PROTOCOL_BINARY_CMD_COMPACT_DB, require NodeManagement);
    (cmd_value PROTOCOL_BINARY_CMD_SET_CLUSTER_CONFIG, require NodeManagement);
    (cmd_value PROTOCOL_BINARY_CMD_GET_CLUSTER_CONFIG, empty_);
    (cmd_value PROTOCOL_BINARY_CMD_GET_RANDOM_KEY, require Read);
    (cmd_value PROTOCOL_BINARY_CMD_SEQNO_PERSISTENCE, require NodeManagement);
    (cmd_value PROTOCOL_BINARY_CMD_GET_KEYS, require Read);
    (cmd_value PROTOCOL_BINARY_CMD_SET_DRIFT_COUNTER_STATE, require NodeManagement);
    (cmd_value PROTOCOL_BINARY_CMD_GET_ADJUSTED_TIME, require NodeManagement);
    (cmd_value PROTOCOL_BINARY_CMD_SUBDOC_GET, require Read);
    (cmd_value PROTOCOL_BINARY_CMD_SUBDOC_EXISTS, require Read);
    (cmd_value PROTOCOL_BINARY_CMD_SUBDOC_DICT_ADD, require Write);
    (cmd_value PROTOCOL_BINARY_CMD_SUBDOC_DICT_UPSERT, require Write);
    (cmd_value PROTOCOL_BINARY_CMD_SUBDOC_DELETE, require Write);
    (cmd_value PROTOCOL_BINARY_CMD_SUBDOC_REPLACE, require Write);
    (cmd_value PROTOCOL_BINARY_CMD_SUBDOC_ARRAY_PUSH_LAST, require Write);
    (cmd_value PROTOCOL_BINARY_CMD_SUBDOC_ARRAY_PUSH_FIRST, require Write);
    (cmd_value PROTOCOL_BINARY_CMD_SUBDOC_ARRAY_INSERT, require Write);
    (cmd_value PROTOCOL_BINARY_CMD_SUBDOC_ARRAY_ADD_UNIQUE, require Write);
    (cmd_value PROTOCOL_BINARY_CMD_SUBDOC_GET_COUNT, require Read);
    (cmd_value PROTOCOL_BINARY_CMD_SUBDOC_COUNTER, require Read);
    (cmd_value PROTOCOL_BINARY_CMD_SUBDOC_COUNTER, require Write);
    (cmd_value PROTOCOL_BINARY_CMD_SUBDOC_MULTI_LOOKUP, require Read);
    (cmd_value PROTOCOL_BINARY_CMD_SUBDOC_MULTI_MUTATION, require Read);
    (cmd_value PROTOCOL_BINARY_CMD_SUBDOC_MULTI_MUTATION, require Write);
    (cmd_value PROTOCOL_BINARY_CMD_SCRUB, require NodeManagement);
    (cmd_value PROTOCOL_BINARY_CMD_ISASL_REFRESH, require NodeManagement);
    (cmd_value PROTOCOL_BINARY_CMD_SSL_CERTS_REFRESH, require NodeManagement);
    (cmd_value PROTOCOL_BINARY_CMD_GET_CMD_TIMER, require NodeManagement);
    (cmd_value PROTOCOL_BINARY_CMD_SET_CTRL_TOKEN, require SessionManagement);
    (cmd_value PROTOCOL_BINARY_CMD_GET_CTRL_TOKEN, require SessionManagement);
    (cmd_value PROTOCOL_BINARY_CMD_INIT_COMPLETE, require NodeManagement)
  ].

Definition setup_testing_rules : list (Z * privilege_function) :=
  [(0xe3, empty_); (0xeb, empty_); (0xff, empty_)].

Definition McbpPrivilegeChains (testing : bool) : list (list privilege_function) :=
  let chains := push_all setup_rules no_chains in
  if testing then push_all setup_testing_rules chains else chains.

(** [McbpPrivilegeChains::invoke] *)
Definition privilege_invoke (testing : bool) (command : Z) (cookie : cookie_connection)
    : option PrivilegeAccess :=
  let chain := chain_of command (McbpPrivilegeChains testing) in
  if chain_empty chain then Some Fail else invoke chain cookie.

(** ** What a command needs

    The privileges of each command; [None] for a command nobody may run. *)
Definition command_privileges (c : protocol_binary_command) : option (list Privilege) :=
  match c with
  | PROTOCOL_BINARY_CMD_QUIT | PROTOCOL_BINARY_CMD_QUITQ | PROTOCOL_BINARY_CMD_NOOP
  | PROTOCOL_BINARY_CMD_VERSION | PROTOCOL_BINARY_CMD_HELLO
  | PROTOCOL_BINARY_CMD_SASL_LIST_MECHS | PROTOCOL_BINARY_CMD_SASL_AUTH
  | PROTOCOL_BINARY_CMD_SASL_STEP | PROTOCOL_BINARY_CMD_TAP_OPAQUE
  | PROTOCOL_BINARY_CMD_DCP_OPEN | PROTOCOL_BINARY_CMD_DCP_NOOP
  | PROTOCOL_BINARY_CMD_DCP_BUFFER_ACKNOWLEDGEMENT | PROTOCOL_BINARY_CMD_DCP_CONTROL
  | PROTOCOL_BINARY_CMD_LIST_BUCKETS | PROTOCOL_BINARY_CMD_SELECT_BUCKET
  | PROTOCOL_BINARY_CMD_GET_CLUSTER_CONFIG =>
      Some []
  | PROTOCOL_BINARY_CMD_GET | PROTOCOL_BINARY_CMD_GETQ | PROTOCOL_BINARY_CMD_GETK
  | PROTOCOL_BINARY_CMD_GETKQ | PROTOCOL_BINARY_CMD_GET_REPLICA
  | PROTOCOL_BINARY_CMD_GET_LOCKED | PROTOCOL_BINARY_CMD_UNLOCK_KEY
  | PROTOCOL_BINARY_CMD_GET_RANDOM_KEY | PROTOCOL_BINARY_CMD_GET_KEYS
  | PROTOCOL_BINARY_CMD_SUBDOC_GET | PROTOCOL_BINARY_CMD_SUBDOC_EXISTS
  | PROTOCOL_BINARY_CMD_SUBDOC_GET_COUNT | PROTOCOL_BINARY_CMD_SUBDOC_MULTI_LOOKUP =>
      Some [Read]
  | PROTOCOL_BINARY_CMD_INCREMENT | PROTOCOL_BINARY_CMD_INCREMENTQ
  | PROTOCOL_BINARY_CMD_DECREMENT | PROTOCOL_BINARY_CMD_DECREMENTQ | PROTOCOL_BINARY_CMD_GAT
  | PROTOCOL_BINARY_CMD_GATQ | PROTOCOL_BINARY_CMD_SUBDOC_COUNTER
  | PROTOCOL_BINARY_CMD_SUBDOC_MULTI_MUTATION =>
      Some [Read; Write]
  | PROTOCOL_BINARY_CMD_SET | PROTOCOL_BINARY_CMD_SETQ | PROTOCOL_BINARY_CMD_ADD
  | PROTOCOL_BINARY_CMD_ADDQ | PROTOCOL_BINARY_CMD_REPLACE | PROTOCOL_BINARY_CMD_REPLACEQ
  | PROTOCOL_BINARY_CMD_DELETE | PROTOCOL_BINARY_CMD_DELETEQ | PROTOCOL_BINARY_CMD_APPEND
  | PROTOCOL_BINARY_CMD_APPENDQ | PROTOCOL_BINARY_CMD_PREPEND | PROTOCOL_BINARY_CMD_PREPENDQ
  | PROTOCOL_BINARY_CMD_FLUSH | PROTOCOL_BINARY_CMD_FLUSHQ | PROTOCOL_BINARY_CMD_TOUCH
  | PROTOCOL_BINARY_CMD_SUBDOC_DICT_ADD | PROTOCOL_BINARY_CMD_SUBDOC_DICT_UPSERT
  | PROTOCOL_BINARY_CMD_SUBDOC_DELETE | PROTOCOL_BINARY_CMD_SUBDOC_REPLACE
  | PROTOCOL_BINARY_CMD_SUBDOC_ARRAY_PUSH_LAST | PROTOCOL_BINARY_CMD_SUBDOC_ARRAY_PUSH_FIRST
  | PROTOCOL_BINARY_CMD_SUBDOC_ARRAY_INSERT | PROTOCOL_BINARY_CMD_SUBDOC_ARRAY_ADD_UNIQUE =>
      Some [Write]
  | PROTOCOL_BINARY_CMD_STAT =>
      Some [SimpleStats]
  | PROTOCOL_BINARY_CMD_SET_VBUCKET | PROTOCOL_BINARY_CMD_DEL_VBUCKET
  | PROTOCOL_BINARY_CMD_CREATE_BUCKET | PROTOCOL_BINARY_CMD_DELETE_BUCKET =>
      Some [BucketManagement]
  | PROTOCOL_BINARY_CMD_VERBOSITY | PROTOCOL_BINARY_CMD_IOCTL_GET
  | PROTOCOL_BINARY_CMD_IOCTL_SET | PROTOCOL_BINARY_CMD_CONFIG_VALIDATE
  | PROTOCOL_BINARY_CMD_CONFIG_RELOAD | PROTOCOL_BINARY_CMD_AUDIT_CONFIG_RELOAD
  | PROTOCOL_BINARY_CMD_SHUTDOWN | PROTOCOL_BINARY_CMD_GET_VBUCKET
  | PROTOCOL_BINARY_CMD_STOP_PERSISTENCE | PROTOCOL_BINARY_CMD_START_PERSISTENCE
  | PROTOCOL_BINARY_CMD_SET_PARAM | PROTOCOL_BINARY_CMD_EVICT_KEY
  | PROTOCOL_BINARY_CMD_RESET_REPLICATION_CHAIN | PROTOCOL_BINARY_CMD_CREATE_CHECKPOINT
  | PROTOCOL_BINARY_CMD_CHECKPOINT_PERSISTENCE | PROTOCOL_BINARY_CMD_COMPACT_DB
  | PROTOCOL_BINARY_CMD_SET_CLUSTER_CONFIG | PROTOCOL_BINARY_CMD_SEQNO_PERSISTENCE
  | PROTOCOL_BINARY_CMD_SET_DRIFT_COUNTER_STATE | PROTOCOL_BINARY_CMD_GET_ADJUSTED_TIME
  | PROTOCOL_BINARY_CMD_SCRUB | PROTOCOL_BINARY_CMD_ISASL_REFRESH
  | PROTOCOL_BINARY_CMD_SSL_CERTS_REFRESH | PROTOCOL_BINARY_CMD_GET_CMD_TIMER
  | PROTOCOL_BINARY_CMD_INIT_COMPLETE =>
      Some [NodeManagement]
  | PROTOCOL_BINARY_CMD_SET_CTRL_TOKEN | PROTOCOL_BINARY_CMD_GET_CTRL_TOKEN =>
      Some [SessionManagement]
  | PROTOCOL_BINARY_CMD_AUDIT_PUT =>
      Some [Audit]
  | PROTOCOL_BINARY_CMD_DCP_STREAM_END | PROTOCOL_BINARY_CMD_DCP_SNAPSHOT_MARKER
  | PROTOCOL_BINARY_CMD_DCP_MUTATION | PROTOCOL_BINARY_CMD_DCP_DELETION
  | PROTOCOL_BINARY_CMD_DCP_EXPIRATION | PROTOCOL_BINARY_CMD_DCP_FLUSH
  | PROTOCOL_BINARY_CMD_DCP_SET_VBUCKET_STATE =>
      Some [DcpConsumer]
  | PROTOCOL_BINARY_CMD_DCP_ADD_STREAM | PROTOCOL_BINARY_CMD_DCP_CLOSE_STREAM
  | PROTOCOL_BINARY_CMD_DCP_STREAM_REQ | PROTOCOL_BINARY_CMD_DCP_GET_FAILOVER_LOG =>
      Some [DcpProducer]
  | PROTOCOL_BINARY_CMD_TAP_CONNECT | PROTOCOL_BINARY_CMD_DEREGISTER_TAP_CLIENT
  | PROTOCOL_BINARY_CMD_CHANGE_VB_FILTER =>
      Some [TapProducer]
  | PROTOCOL_BINARY_CMD_TAP_MUTATION | PROTOCOL_BINARY_CMD_TAP_DELETE
  | PROTOCOL_BINARY_CMD_TAP_FLUSH | PROTOCOL_BINARY_CMD_TAP_VBUCKET_SET
  | PROTOCOL_BINARY_CMD_TAP_CHECKPOINT_START | PROTOCOL_BINARY_CMD_TAP_CHECKPOINT_END =>
      Some [TapConsumer]
  | PROTOCOL_BINARY_CMD_GET_ALL_VB_SEQNOS | PROTOCOL_BINARY_CMD_OBSERVE_SEQNO
  | PROTOCOL_BINARY_CMD_OBSERVE | PROTOCOL_BINARY_CMD_LAST_CLOSED_CHECKPOINT
  | PROTOCOL_BINARY_CMD_GET_META | PROTOCOL_BINARY_CMD_GETQ_META =>
      Some [MetaRead]
  | PROTOCOL_BINARY_CMD_RETURN_META =>
      Some [MetaRead; MetaWrite]
  | PROTOCOL_BINARY_CMD_SET_WITH_META | PROTOCOL_BINARY_CMD_SETQ_WITH_META
  | PROTOCOL_BINARY_CMD_ADD_WITH_META | PROTOCOL_BINARY_CMD_ADDQ_WITH_META
  | PROTOCOL_BINARY_CMD_SNAPSHOT_VB_STATES | PROTOCOL_BINARY_CMD_VBUCKET_BATCH_COUNT
  | PROTOCOL_BINARY_CMD_DEL_WITH_META | PROTOCOL_BINARY_CMD_DELQ_WITH_META
  | PROTOCOL_BINARY_CMD_NOTIFY_VBUCKET_UPDATE | PROTOCOL_BINARY_CMD_ENABLE_TRAFFIC
  | PROTOCOL_BINARY_CMD_DISABLE_TRAFFIC =>
      Some [MetaWrite]
  | _ => None
  end.

(** The privileges of an opcode; the test suite may also use three opcodes of
    its own. *)
Definition opcode_privileges (testing : bool) (op : Z) : option (list Privilege) :=
  if testing && bool_decide (op ∈ setup_testing_rules.*1) then Some []
  else cmd_of_value op ≫= command_privileges.

(** The answer of the first check that is not passed. *)
Fixpoint first_refusal (check : Privilege -> PrivilegeAccess) (ps : list Privilege)
    : PrivilegeAccess :=
  match ps with
  | [] => Ok
  | p :: ps => if decide (check p = Ok) then first_refusal check ps else check p
  end.

Lemma first_refusal_Ok check ps :
  first_refusal check ps = Ok <-> forall p, p ∈ ps -> check p = Ok.
Proof.
  induction ps as [|p ps IH]; cbn; [set_solver|].
  case_decide as E; [rewrite IH; set_solver|].
  split; [done|]. intros H. apply H. set_solver.
Qed.

(** A chain is its list of privileges, or [empty]. *)
Definition chain_privileges (chain : list privilege_function) : list Privilege :=
  omap (fun f => match f with require T => Some T | empty_ => None end) chain.

Lemma invoke_privileges chain check :
  invoke chain (Some check) = Some (first_refusal check (chain_privileges chain)).
Proof.
  induction chain as [|f chain IH]; [done|].
  cbn [invoke]. destruct f as [T|]; cbn.
  - destruct (decide (check T = Ok)) as [E|E].
    + rewrite decide_True by by rewrite E. apply IH.
    + by rewrite decide_False by congruence.
  - apply IH.
Qed.

(** The table of chains against the table of privileges, opcode by opcode. *)
Definition chain_privileges_ok (testing : bool) (op : Z) : bool :=
  let chain := chain_of op (McbpPrivilegeChains testing) in
  bool_decide ((if chain_empty chain then None else Some (chain_privileges chain))
               = opcode_privileges testing op).

Lemma chain_privileges_spec testing op :
  0 <= op < 256 ->
  (let chain := chain_of op (McbpPrivilegeChains testing) in
   if chain_empty chain then None else Some (chain_privileges chain))
  = opcode_privileges testing op.
Proof.
  intros H. apply (bool_decide_eq_true_1 _).
  apply (check_upto_sound 256 (chain_privileges_ok testing)); [|lia].
  destruct testing; vm_compute; reflexivity.
Qed.

(** The answer of the privilege check, by the privileges of the opcode. *)
Lemma privilege_access testing op check :
  0 <= op < 256 ->
  privilege_invoke testing op (Some check) =
  Some (match opcode_privileges testing op with
        | Some ps => first_refusal check ps
        | None => Fail
        end).
Proof.
  intros Hop. rewrite <- (chain_privileges_spec testing op Hop).
  unfold privilege_invoke. destruct (chain_empty _); [done|]. apply invoke_privileges.
Qed.

(** C31: an opcode without rule is refused, whatever the connection holds; any
    other opcode is granted exactly when the connection passes the check of
    every privilege the command needs, and the first check it does not pass
    gives the answer. *)
Theorem privilege_invoke_spec testing op check :
  0 <= op < 256 ->
  privilege_invoke testing op (Some check) =
  Some (match opcode_privileges testing op with
        | Some ps => first_refusal check ps
        | None => Fail
        end).
Proof. apply privilege_access. Qed.

Lemma privilege_invoke_spec_witness :
  privilege_invoke false (cmd_value PROTOCOL_BINARY_CMD_INCREMENT)
    (Some (fun p => if decide (p = Write) then Stale else Ok)) = Some Stale.
Proof.
  rewrite (privilege_invoke_spec false (cmd_value PROTOCOL_BINARY_CMD_INCREMENT));
    [reflexivity|vm_compute; split; congruence].
Defined.

(** The commands only an administrator may run. *)
Definition admin_commands : list protocol_binary_command := [
  PROTOCOL_BINARY_CMD_SET_VBUCKET; PROTOCOL_BINARY_CMD_DEL_VBUCKET;
  PROTOCOL_BINARY_CMD_CREATE_BUCKET; PROTOCOL_BINARY_CMD_DELETE_BUCKET;
  PROTOCOL_BINARY_CMD_SET_CTRL_TOKEN; PROTOCOL_BINARY_CMD_GET_CTRL_TOKEN;
  PROTOCOL_BINARY_CMD_AUDIT_PUT].

Definition access_ok (admin : bool) (op : Z) : bool :=
  bool_decide (privilege_invoke false op (Some (checkPrivilege false admin)) =
    Some (match cmd_of_value op with
          | None => Fail
          | Some c =>
              match command_privileges c with
              | None => Fail
              | Some _ => if negb admin && bool_decide (c ∈ admin_commands) then Fail else Ok
              end
          end)).

(** Outside the test suite, an administrator may run every command that
    has a rule; any other connection all of these but the seven
    [admin_commands] (so also every command that needs [NodeManagement]); no
    connection any other opcode. *)
Theorem connection_privileges admin op :
  0 <= op < 256 ->
  privilege_invoke false op (Some (checkPrivilege false admin)) =
  Some (match cmd_of_value op with
        | None => Fail
        | Some c =>
            match command_privileges c with
            | None => Fail
            | Some _ => if negb admin && bool_decide (c ∈ admin_commands) then Fail else Ok
            end
        end).
Proof.
  intros Hop. eapply bool_decide_eq_true_1, (check_upto_sound 256 (access_ok admin)); [|lia].
  destruct admin; vm_compute; reflexivity.
Qed.

Lemma connection_privileges_witness :
  privilege_invoke false (cmd_value PROTOCOL_BINARY_CMD_CREATE_BUCKET)
    (Some (checkPrivilege false false)) = Some Fail.
Proof.
  rewrite (connection_privileges false (cmd_value PROTOCOL_BINARY_CMD_CREATE_BUCKET));
    [reflexivity|vm_compute; split; congruence].
Defined.
