(* ===== verification/Dispatch.v ===== *)
(** * Dispatching requests

    [daemon/mcbp_executors.cc]: from the header of a request to its executor.
    [try_read_mcbp_command] and [dispatch_bin_command] look at the header and
    start to read the body; when it is complete, [mcbp_complete_nread] and
    [process_bin_packet] check the privileges of the connection, validate the
    packet and run the executor of its opcode, or answer with an error.

    The executors themselves, the functions of the engine, the commands that
    extensions register and snappy are the class [Bucket]. *)

From S2P Require Import Prelude Memory Numbers Protocol FunctionChain Packet Input Output Buffers.
From S2P Require Import DynamicBuffer RecordUpdate StateMonad Connection Response SubdocValidators Validators Privileges.

Inductive mcbp_executor :=
| dcp_open_executor
| dcp_add_stream_executor
| dcp_close_stream_executor
| dcp_snapshot_marker_executor
| tap_checkpoint_end_executor
| tap_checkpoint_start_executor
| tap_connect_executor
| tap_delete_executor
| tap_flush_executor
| tap_mutation_executor
| tap_opaque_executor
| tap_vbucket_set_executor
| dcp_deletion_executor
| dcp_expiration_executor
| dcp_flush_executor
| dcp_get_failover_log_executor
| dcp_mutation_executor
| dcp_set_vbucket_state_executor
| dcp_noop_executor
| dcp_buffer_acknowledgement_executor
| dcp_control_executor
| dcp_stream_end_executor
| dcp_stream_req_executor
| isasl_refresh_executor
| ssl_certs_refresh_executor
| verbosity_executor
| process_hello_packet_executor
| version_executor
| quit_executor
| quitq_executor
| sasl_list_mech_executor
| sasl_auth_executor
| noop_executor
| flush_executor
| setq_executor
| set_executor
| addq_executor
| add_executor
| replaceq_executor
| replace_executor
| appendq_executor
| append_executor
| prependq_executor
| prepend_executor
| get_executor
| delete_executor
| stat_executor
| arithmetic_executor
| get_cmd_timer_executor
| set_ctrl_token_executor
| get_ctrl_token_executor
| init_complete_executor
| ioctl_get_executor
| ioctl_set_executor
| config_validate_executor
| config_reload_executor
| audit_put_executor
| audit_config_reload_executor
| shutdown_executor
| subdoc_get_executor
| subdoc_exists_executor
| subdoc_dict_add_executor
| subdoc_dict_upsert_executor
| subdoc_delete_executor
| subdoc_replace_executor
| subdoc_array_push_last_executor
| subdoc_array_push_first_executor
| subdoc_array_insert_executor
| subdoc_array_add_unique_executor
| subdoc_counter_executor
| subdoc_multi_lookup_executor
| subdoc_multi_mutation_executor
| subdoc_get_count_executor
| create_bucket_executor
| list_bucket_executor
| delete_bucket_executor
| select_bucket_executor.

Inductive response_kind :=
| noop_response
| tap_ack
| dcp_response.

(** The functions behind a bucket: [tap_notify] gets status, sequence number
    and key of an ack, the others the packet. *)
Class Bucket := {
  testing : bool;
  collections : bool;
  run_executor : mcbp_executor -> bytes -> M unit;
  tap_notify : option (Z -> Z -> bytes -> M ENGINE_ERROR_CODE);
  dcp_response_handler : option (bytes -> M ENGINE_ERROR_CODE);
  unknown_command : bytes -> M ENGINE_ERROR_CODE;
  extension_command : Z -> option (bytes -> M ENGINE_ERROR_CODE);
  snappy_uncompressed_length : bytes -> option Z;
  snappy_uncompress : bytes -> bool * bytes;
  topkey_command : Z -> bool;
}.

(** ** The tables *)

(** [get_mcbp_executors] *)
Definition executor_table : list (protocol_binary_command * mcbp_executor) := [
  (PROTOCOL_BINARY_CMD_DCP_OPEN, dcp_open_executor);
  (PROTOCOL_BINARY_CMD_DCP_ADD_STREAM, dcp_add_stream_executor);
  (PROTOCOL_BINARY_CMD_DCP_CLOSE_STREAM, dcp_close_stream_executor);
  (PROTOCOL_BINARY_CMD_DCP_SNAPSHOT_MARKER, dcp_snapshot_marker_executor);
  (PROTOCOL_BINARY_CMD_TAP_CHECKPOINT_END, tap_checkpoint_end_executor);
  (PROTOCOL_BINARY_CMD_TAP_CHECKPOINT_START, tap_checkpoint_start_executor);
  (PROTOCOL_BINARY_CMD_TAP_CONNECT, tap_connect_executor);
  (PROTOCOL_BINARY_CMD_TAP_DELETE, tap_delete_executor);
  (PROTOCOL_BINARY_CMD_TAP_FLUSH, tap_flush_executor);
  (PROTOCOL_BINARY_CMD_TAP_MUTATION, tap_mutation_executor);
  (PROTOCOL_BINARY_CMD_TAP_OPAQUE, tap_opaque_executor);
  (PROTOCOL_BINARY_CMD_TAP_VBUCKET_SET, tap_vbucket_set_executor);
  (PROTOCOL_BINARY_CMD_DCP_DELETION, dcp_deletion_executor);
  (PROTOCOL_BINARY_CMD_DCP_EXPIRATION, dcp_expiration_executor);
  (PROTOCOL_BINARY_CMD_DCP_FLUSH, dcp_flush_executor);
  (PROTOCOL_BINARY_CMD_DCP_GET_FAILOVER_LOG, dcp_get_failover_log_executor);
  (PROTOCOL_BINARY_CMD_DCP_MUTATION, dcp_mutation_executor);
  (PROTOCOL_BINARY_CMD_DCP_SET_VBUCKET_STATE, dcp_set_vbucket_state_executor);
  (PROTOCOL_BINARY_CMD_DCP_NOOP, dcp_noop_executor);
  (PROTOCOL_BINARY_CMD_DCP_BUFFER_ACKNOWLEDGEMENT, dcp_buffer_acknowledgement_executor);
  (PROTOCOL_BINARY_CMD_DCP_CONTROL, dcp_control_executor);
  (PROTOCOL_BINARY_CMD_DCP_STREAM_END, dcp_stream_end_executor);
  (PROTOCOL_BINARY_CMD_DCP_STREAM_REQ, dcp_stream_req_executor);
  (PROTOCOL_BINARY_CMD_ISASL_REFRESH, isasl_refresh_executor);
  (PROTOCOL_BINARY_CMD_SSL_CERTS_REFRESH, ssl_certs_refresh_executor);
  (PROTOCOL_BINARY_CMD_VERBOSITY, verbosity_executor);
  (PROTOCOL_BINARY_CMD_HELLO, process_hello_packet_executor);
  (PROTOCOL_BINARY_CMD_VERSION, version_executor);
  (PROTOCOL_BINARY_CMD_QUIT, quit_executor);
  (PROTOCOL_BINARY_CMD_QUITQ, quitq_executor);
  (PROTOCOL_BINARY_CMD_SASL_LIST_MECHS, sasl_list_mech_executor);
  (PROTOCOL_BINARY_CMD_SASL_AUTH, sasl_auth_executor);
  (PROTOCOL_BINARY_CMD_SASL_STEP, sasl_auth_executor);
  (PROTOCOL_BINARY_CMD_NOOP, noop_executor);
  (PROTOCOL_BINARY_CMD_FLUSH, flush_executor);
  (PROTOCOL_BINARY_CMD_FLUSHQ, flush_executor);
  (PROTOCOL_BINARY_CMD_SETQ, setq_executor);
  (PROTOCOL_BINARY_CMD_SET, set_executor);
  (PROTOCOL_BINARY_CMD_ADDQ, addq_executor);
  (PROTOCOL_BINARY_CMD_ADD, add_executor);
  (PROTOCOL_BINARY_CMD_REPLACEQ, replaceq_executor);
  (PROTOCOL_BINARY_CMD_REPLACE, replace_executor);
  (PROTOCOL_BINARY_CMD_APPENDQ, appendq_executor);
  (PROTOCOL_BINARY_CMD_APPEND, append_executor);
  (PROTOCOL_BINARY_CMD_PREPENDQ, prependq_executor);
  (PROTOCOL_BINARY_CMD_PREPEND, prepend_executor);
  (PROTOCOL_BINARY_CMD_GET, get_executor);
  (PROTOCOL_BINARY_CMD_GETQ, get_executor);
  (PROTOCOL_BINARY_CMD_GETK, get_executor);
  (PROTOCOL_BINARY_CMD_GETKQ, get_executor);
  (PROTOCOL_BINARY_CMD_DELETE, delete_executor);
  (PROTOCOL_BINARY_CMD_DELETEQ, delete_executor);
  (PROTOCOL_BINARY_CMD_STAT, stat_executor);
  (PROTOCOL_BINARY_CMD_INCREMENT, arithmetic_executor);
  (PROTOCOL_BINARY_CMD_INCREMENTQ, arithmetic_executor);
  (PROTOCOL_BINARY_CMD_DECREMENT, arithmetic_executor);
  (PROTOCOL_BINARY_CMD_DECREMENTQ, arithmetic_executor);
  (PROTOCOL_BINARY_CMD_GET_CMD_TIMER, get_cmd_timer_executor);
  (PROTOCOL_BINARY_CMD_SET_CTRL_TOKEN, set_ctrl_token_executor);
  (PROTOCOL_BINARY_CMD_GET_CTRL_TOKEN, get_ctrl_token_executor);
  (PROTOCOL_BINARY_CMD_INIT_COMPLETE, init_complete_executor);
  (PROTOCOL_BINARY_CMD_IOCTL_GET, ioctl_get_executor);
  (PROTOCOL_BINARY_CMD_IOCTL_SET, ioctl_set_executor);
  (PROTOCOL_BINARY_CMD_CONFIG_VALIDATE, config_validate_executor);
  (PROTOCOL_BINARY_CMD_CONFIG_RELOAD, config_reload_executor);
  (PROTOCOL_BINARY_CMD_AUDIT_PUT, audit_put_executor);
  (PROTOCOL_BINARY_CMD_AUDIT_CONFIG_RELOAD, audit_config_reload_executor);
  (PROTOCOL_BINARY_CMD_SHUTDOWN, shutdown_executor);
  (PROTOCOL_BINARY_CMD_SUBDOC_GET, subdoc_get_executor);
  (PROTOCOL_BINARY_CMD_SUBDOC_EXISTS, subdoc_exists_executor);
  (PROTOCOL_BINARY_CMD_SUBDOC_DICT_ADD, subdoc_dict_add_executor);
  (PROTOCOL_BINARY_CMD_SUBDOC_DICT_UPSERT, subdoc_dict_upsert_executor);
  (PROTOCOL_BINARY_CMD_SUBDOC_DELETE, subdoc_delete_executor);
  (PROTOCOL_BINARY_CMD_SUBDOC_REPLACE, subdoc_replace_executor);
  (PROTOCOL_BINARY_CMD_SUBDOC_ARRAY_PUSH_LAST, subdoc_array_push_last_executor);
  (PROTOCOL_BINARY_CMD_SUBDOC_ARRAY_PUSH_FIRST, subdoc_array_push_first_executor);
  (PROTOCOL_BINARY_CMD_SUBDOC_ARRAY_INSERT, subdoc_array_insert_executor);
  (PROTOCOL_BINARY_CMD_SUBDOC_ARRAY_ADD_UNIQUE, subdoc_array_add_unique_executor);
  (PROTOCOL_BINARY_CMD_SUBDOC_COUNTER, subdoc_counter_executor);
  (PROTOCOL_BINARY_CMD_SUBDOC_MULTI_LOOKUP, subdoc_multi_lookup_executor);
  (PROTOCOL_BINARY_CMD_SUBDOC_MULTI_MUTATION, subdoc_multi_mutation_executor);
  (PROTOCOL_BINARY_CMD_SUBDOC_GET_COUNT, subdoc_get_count_executor);
  (PROTOCOL_BINARY_CMD_CREATE_BUCKET, create_bucket_executor);
  (PROTOCOL_BINARY_CMD_LIST_BUCKETS, list_bucket_executor);
  (PROTOCOL_BINARY_CMD_DELETE_BUCKET, delete_bucket_executor);
  (PROTOCOL_BINARY_CMD_SELECT_BUCKET, select_bucket_executor)].

Definition executors (op : Z) : option mcbp_executor :=
  snd <$> List.find (fun p => cmd_value p.1 =? op) executor_table.

(** [initialize_mbcp_lookup_map] *)
Definition response_table : list (protocol_binary_command * response_kind) := [
  (PROTOCOL_BINARY_CMD_NOOP, noop_response);
  (PROTOCOL_BINARY_CMD_TAP_MUTATION, tap_ack);
  (PROTOCOL_BINARY_CMD_TAP_DELETE, tap_ack);
  (PROTOCOL_BINARY_CMD_TAP_FLUSH, tap_ack);
  (PROTOCOL_BINARY_CMD_TAP_OPAQUE, tap_ack);
  (PROTOCOL_BINARY_CMD_TAP_VBUCKET_SET, tap_ack);
  (PROTOCOL_BINARY_CMD_TAP_CHECKPOINT_START, tap_ack);
  (PROTOCOL_BINARY_CMD_TAP_CHECKPOINT_END, tap_ack);
  (PROTOCOL_BINARY_CMD_DCP_OPEN, dcp_response);
  (PROTOCOL_BINARY_CMD_DCP_ADD_STREAM, dcp_response);
  (PROTOCOL_BINARY_CMD_DCP_CLOSE_STREAM, dcp_response);
  (PROTOCOL_BINARY_CMD_DCP_STREAM_REQ, dcp_response);
  (PROTOCOL_BINARY_CMD_DCP_GET_FAILOVER_LOG, dcp_response);
  (PROTOCOL_BINARY_CMD_DCP_STREAM_END, dcp_response);
  (PROTOCOL_BINARY_CMD_DCP_SNAPSHOT_MARKER, dcp_response);
  (PROTOCOL_BINARY_CMD_DCP_MUTATION, dcp_response);
  (PROTOCOL_BINARY_CMD_DCP_DELETION, dcp_response);
  (PROTOCOL_BINARY_CMD_DCP_EXPIRATION, dcp_response);
  (PROTOCOL_BINARY_CMD_DCP_FLUSH, dcp_response);
  (PROTOCOL_BINARY_CMD_DCP_SET_VBUCKET_STATE, dcp_response);
  (PROTOCOL_BINARY_CMD_DCP_NOOP, dcp_response);
  (PROTOCOL_BINARY_CMD_DCP_BUFFER_ACKNOWLEDGEMENT, dcp_response);
  (PROTOCOL_BINARY_CMD_DCP_CONTROL, dcp_response);
  (PROTOCOL_BINARY_CMD_DCP_RESERVED4, dcp_response)].

Definition response_handlers (op : Z) : option response_kind :=
  snd <$> List.find (fun p => cmd_value p.1 =? op) response_table.

Section Dispatch.
Context `{System} `{Engine} `{Bucket}.

(** ** Checks on the header *)

(** [authenticated] *)
Definition authenticated (c : connection) : bool :=
  match cmd_of_value (cmd c) with
  | Some (PROTOCOL_BINARY_CMD_SASL_LIST_MECHS | PROTOCOL_BINARY_CMD_SASL_AUTH
    | PROTOCOL_BINARY_CMD_SASL_STEP | PROTOCOL_BINARY_CMD_VERSION
    | PROTOCOL_BINARY_CMD_HELLO) => true
  | _ => authenticated_flag c
  end.

(** [is_initialized] *)
Definition is_initialized (op : Z) (c : connection) : bool :=
  if admin c || server_initialized then true else
  match cmd_of_value op with
  | Some (PROTOCOL_BINARY_CMD_SASL_LIST_MECHS | PROTOCOL_BINARY_CMD_SASL_AUTH
    | PROTOCOL_BINARY_CMD_SASL_STEP) => true
  | _ => false
  end.

(** [invalid_datatype] *)
Definition invalid_datatype (c : connection) : bool :=
  let dt := datatype (bheader c) in
  if is_raw dt || supports_datatype c then negb (is_valid_datatype dt) else true.

(** [validate_bin_header], on the header in host order. *)
Definition bin_header_fits (c : connection) : bool :=
  keylen (bheader c) + extlen (bheader c) <=? bodylen (bheader c).

(** Answer with an error and close the connection once it is sent. *)
Definition refuse (err : protocol_binary_response_status) : M unit :=
  mcbp_write_packet err;; setWriteAndGo conn_closing.

(** [handle_binary_protocol_error] *)
Definition handle_binary_protocol_error : M unit := refuse PROTOCOL_BINARY_RESPONSE_EINVAL.

(** ** Executing a packet *)

(** The bytes of the packet in the read buffer; outside of it is a crash. *)
Definition packet_bytes : M bytes := fun c =>
  match load (Z.to_nat (bodylen (bheader c) + HEADER_SIZE)) (getPacket (inp c))
          (mem (read (inp c))) with
  | Some bs => Done bs c
  | None => Crash
  end.

(** [default_unknown_command] *)
Definition default_unknown_command (pkt : bytes) : M ENGINE_ERROR_CODE :=
  supports <- gets supports_datatype;;
  dt <- gets (fun c => datatype (bheader c));;
  if negb supports && (dt != PROTOCOL_BINARY_RAW_BYTES) then
    ok <- mcbp_response_handler snappy_uncompressed_length snappy_uncompress [] [] []
            PROTOCOL_BINARY_RAW_BYTES (status_value PROTOCOL_BINARY_RESPONSE_EINVAL) 0;;
    ret (if ok then ENGINE_SUCCESS else ENGINE_DISCONNECT)
  else unknown_command pkt.

(** [update_topkeys] *)
Definition update_topkeys (key : bytes) : M unit :=
  op <- gets (fun c => opcode (bheader c));;
  when (topkey_command op) (emit (UpdateTopkeys key)).

(** [process_bin_unknown_packet] *)
Definition process_bin_unknown_packet : M unit :=
  pkt <- packet_bytes;;
  stat <- gets aiostat;;
  assign aiostat ENGINE_SUCCESS;;
  assign ewouldblock false;;
  r <- (if decide (stat = ENGINE_SUCCESS) then
          op <- gets (fun c => opcode (bheader c));;
          match extension_command op with
          | Some callback => callback pkt
          | None => default_unknown_command pkt
          end
        else ret stat);;
  match r with
  | ENGINE_SUCCESS =>
      root <- gets (fun c => dbuffer (dynamicBuffer c));;
      (if root != 0 then mcbp_write_and_free else setState conn_new_cmd);;
      h <- gets bheader;;
      update_topkeys (slice (HEADER_SIZE + extlen h) (keylen h) pkt)
  | ENGINE_EWOULDBLOCK => assign ewouldblock true
  | ENGINE_DISCONNECT => setState conn_closing
  | _ =>
      modify (fun c => c <| dynamicBuffer := dynamic_clear (dynamicBuffer c) |>);;
      mcbp_write_packet (engine_error_2_mcbp_protocol_error r)
  end.

(** [process_bin_packet] up to the executor: the executor of a packet that
    passes the checks, if it has one; every other packet is answered.  The
    privilege chain throws for a cookie without connection only; a validator
    that reads outside the packet is a crash. *)
Definition choose_executor : M (option (mcbp_executor * bytes)) :=
  pkt <- packet_bytes;;
  c <- gets id;;
  let op := opcode (bheader c) in
  match privilege_invoke testing op (Some (checkPrivilege testing (admin c))) with
  | None => throw
  | Some Fail =>
      emit AuditAccessFailed;;
      mcbp_write_packet PROTOCOL_BINARY_RESPONSE_EACCESS;;
      ret None
  | Some Stale => mcbp_write_packet PROTOCOL_BINARY_RESPONSE_AUTH_STALE;; ret None
  | Some Ok =>
      match (if bin_header_fits c
             then packet_of_bytes pkt ≫= validateCommand collections op
             else Some PROTOCOL_BINARY_RESPONSE_EINVAL) with
      | None => crash
      | Some PROTOCOL_BINARY_RESPONSE_SUCCESS =>
          match executors op with
          | Some executor => ret (Some (executor, pkt))
          | None => process_bin_unknown_packet;; ret None
          end
      | Some result =>
          emit AuditInvalidPacket;;
          refuse result;;
          ret None
      end
  end.

Definition process_bin_packet : M unit :=
  ex <- choose_executor;;
  match ex with
  | Some (executor, pkt) => run_executor executor pkt
  | None => ret tt
  end.

(** ** Responses from the other side *)

(** [process_bin_dcp_response] *)
Definition process_bin_dcp_response : M unit :=
  assign supports_datatype true;;
  r <- match dcp_response_handler with
       | Some f => pkt <- packet_bytes;; f pkt
       | None => ret ENGINE_DISCONNECT
       end;;
  if decide (r = ENGINE_DISCONNECT) then setState conn_closing else setState conn_ship_log.

(** [process_bin_tap_ack]; the key is what follows the header in the buffer. *)
Definition process_bin_tap_ack : M unit :=
  pkt <- packet_bytes;;
  match load_response_header pkt with
  | None => crash
  | Some rsp =>
      key <- gets (fun c => load (Z.to_nat (keylen (bheader c))) (getPacket (inp c) + HEADER_SIZE)
                              (mem (read (inp c))));;
      r <- match tap_notify, key with
           | Some f, Some key => f (ntohs (r_status rsp)) (ntohl (r_opaque rsp)) key
           | Some f, None => crash
           | None, _ => ret ENGINE_DISCONNECT
           end;;
      if decide (r = ENGINE_DISCONNECT) then setState conn_closing else setState conn_ship_log
  end.

(** [mcbp_complete_nread] *)
Definition mcbp_complete_nread : M unit :=
  h <- gets bheader;;
  if magic h == PROTOCOL_BINARY_RES then
    match response_handlers (opcode h) with
    | Some noop_response => setState conn_new_cmd
    | Some tap_ack => process_bin_tap_ack
    | Some dcp_response => process_bin_dcp_response
    | None => setState conn_closing
    end
  else process_bin_packet.

(** ** Reading a request *)

Definition KEY_MAX_LENGTH : Z := 250.

(** [bin_read_chunk] of the connection. *)
Definition read_chunk (chunk : Z) : M unit := fun c =>
  match bin_read_chunk junk realloc_ok chunk (inp c) with
  | Some i => setState conn_nread (c <| inp := i |>)
  | None =>
      let i := inp c in
      setState conn_closing (c <| inp := mk_input (read i) (ritem i) chunk (binary_header i) |>)
  end.

(** [dispatch_bin_command] *)
Definition dispatch_bin_command : M unit :=
  c <- gets id;;
  let h := bheader c in
  if negb (is_initialized (opcode h) c) then refuse PROTOCOL_BINARY_RESPONSE_NOT_INITIALIZED else
  if require_sasl && negb (authenticated c) then refuse PROTOCOL_BINARY_RESPONSE_AUTH_ERROR else
  if invalid_datatype c then refuse PROTOCOL_BINARY_RESPONSE_EINVAL else
  when (start c == 0) (assign start gethrtime);;
  if KEY_MAX_LENGTH <? keylen h then handle_binary_protocol_error else
  assign noreply false;;
  if max_packet_size <? bodylen h then refuse PROTOCOL_BINARY_RESPONSE_EINVAL
  else read_chunk (bodylen h).

(** [try_read_mcbp_command] *)
Definition try_read_mcbp_command : M Z :=
  b <- gets (fun c => read (inp c));;
  cb_assert (curr b <=? size (mem b));;
  cb_assert (0 <? nbytes b);;
  if nbytes b <? HEADER_SIZE then ret 0 else
  (fun c => match fetch_header (inp c) with
            | Some i => Done tt (c <| inp := i |>)
            | None => Crash
            end);;
  h <- gets bheader;;
  if (magic h != PROTOCOL_BINARY_REQ) &&
     negb ((magic h == PROTOCOL_BINARY_RES) &&
           bool_decide (is_Some (response_handlers (opcode h))))
  then setState conn_closing;; ret (-1) else
  ok <- add_msghdr true;;
  if negb ok then setState conn_closing;; ret (-1) else
  assign cmd (opcode h);;
  assign response_cas 0;;
  dispatch_bin_command;;
  modify (fun c => c <| inp := skip_header (inp c) |>);;
  ret 1.

End Dispatch.

(** ** The tables fit together *)

(** Commands whose executors check their packets themselves. *)
Definition unvalidated : list protocol_binary_command := [
  PROTOCOL_BINARY_CMD_CONFIG_VALIDATE; PROTOCOL_BINARY_CMD_CONFIG_RELOAD;
  PROTOCOL_BINARY_CMD_TAP_CONNECT].

Definition guarded (c : protocol_binary_command) : bool :=
  negb (bool_decide (is_Some (executors (cmd_value c)))) ||
  (negb (chain_empty (chain_of (cmd_value c) (McbpPrivilegeChains false))) &&
   Bool.eqb (chain_empty (chain_of (cmd_value c) (validatorChains false)))
     (bool_decide (c ∈ unvalidated)) &&
   (length (filter (fun p => p.1 = c) executor_table) =? 1)%nat).

Lemma all_guarded : forallb guarded all_commands = true.
Proof. vm_compute. reflexivity. Qed.

(** No opcode has two executors; every command with an executor has a
    privilege rule, so that no executor runs unchecked, and all but three have
    a validator. *)
Theorem executors_guarded c :
  is_Some (executors (cmd_value c)) ->
  chain_empty (chain_of (cmd_value c) (McbpPrivilegeChains false)) = false /\
  (chain_empty (chain_of (cmd_value c) (validatorChains false)) = true <-> c ∈ unvalidated) /\
  length (filter (fun p => p.1 = c) executor_table) = 1%nat.
Proof.
  intros Hc. pose proof (cmd_of_value_value c) as Hin. apply find_some in Hin as [Hin _].
  pose proof (proj1 (forallb_forall _ _) all_guarded c Hin) as Hg. unfold guarded in Hg.
  rewrite bool_decide_eq_true_2 in Hg by done. cbn [negb orb] in Hg.
  apply andb_true_iff in Hg as [[Hp Hv]%andb_true_iff Hl].
  apply eqb_prop in Hv. rewrite Hv, bool_decide_eq_true. apply negb_true_iff in Hp.
  apply Nat.eqb_eq in Hl. by split_and!.
Qed.

Lemma executors_guarded_witness :
  chain_empty (chain_of (cmd_value PROTOCOL_BINARY_CMD_SET) (McbpPrivilegeChains false)) = false.
Proof. apply (executors_guarded PROTOCOL_BINARY_CMD_SET). vm_compute. eauto. Defined.

Section DispatchProofs.
Context `{System} `{Engine} `{Bucket}.

(** ** Which packets are executed *)

(** A complete request in the read buffer. *)
Record request_in_buffer (p : packet) (c : connection) : Prop := {
  rb_bytes : packet_bytes c = Done (bytes_of_packet p) c;
  rb_header : bheader c = host_header (header p);
  rb_complete : packet_complete p;
}.

Lemma bin_header_fits_packet p c :
  request_in_buffer p c -> bin_header_fits c = (nkey p + extlen (header p) <=? nbody p).
Proof. intros [_ Hh _]. unfold bin_header_fits. by rewrite Hh. Qed.

Lemma packet_of_request p c :
  request_in_buffer p c -> packet_of_bytes (bytes_of_packet p) = Some p.
Proof.
  intros [_ _ Hp]. rewrite <- (app_nil_r (bytes_of_packet p)). by apply packet_of_bytes_encode.
Qed.

(** The answer of the privilege check. *)
Definition access (cm : protocol_binary_command) (c : connection) : PrivilegeAccess :=
  match opcode_privileges testing (cmd_value cm) with
  | Some ps => first_refusal (checkPrivilege testing (admin c)) ps
  | None => Fail
  end.

(** The executor of a request. *)
Lemma choose_executor_spec p cm fm c :
  request_in_buffer p c -> opcode (header p) = cmd_value cm -> command_format cm = Some fm ->
  choose_executor c =
  match access cm c with
  | Fail => (emit AuditAccessFailed;; mcbp_write_packet PROTOCOL_BINARY_RESPONSE_EACCESS;; ret None) c
  | Stale => (mcbp_write_packet PROTOCOL_BINARY_RESPONSE_AUTH_STALE;; ret None) c
  | Ok =>
      if nkey p + extlen (header p) <=? nbody p then
        if conforms fm p then
          match executors (cmd_value cm) with
          | Some executor => Done (Some (executor, bytes_of_packet p)) c
          | None => (process_bin_unknown_packet;; ret None) c
          end
        else (emit AuditInvalidPacket;; refuse (refusal cm p);; ret None) c
      else (emit AuditInvalidPacket;; refuse PROTOCOL_BINARY_RESPONSE_EINVAL;; ret None) c
  end.
Proof.
  intros Hr Hop Hf. unfold choose_executor. rewrite (bind_done _ _ _ _ _ (rb_bytes p c Hr)).
  unfold bind at 1, gets at 1. cbn [id]. rewrite (rb_header p c Hr).
  change (opcode (host_header (header p))) with (opcode (header p)). rewrite Hop.
  rewrite privilege_access by apply cmd_value_range. fold (access cm c).
  destruct (access cm c); [|done..].
  rewrite (bin_header_fits_packet p c Hr). destruct (nkey p + extlen (header p) <=? nbody p) eqn:Efit.
  2: done.
  rewrite (packet_of_request p c Hr). cbn [mbind option_bind].
  rewrite (validate_verdict collections cm fm p); [|split; [apply Hr|unfold validate_bin_header; by rewrite Efit]|done].
  unfold verdict. destruct (conforms fm p); [by destruct (executors _)|].
  assert (refusal cm p <> PROTOCOL_BINARY_RESPONSE_SUCCESS) by (unfold refusal; by repeat case_match).
  by destruct (refusal cm p).
Qed.

(** A packet that is answered has no executor to run. *)
Lemma run_answered (m : M unit) (k : option (mcbp_executor * bytes) -> M unit) c :
  (forall c', k None c' = ret tt c') ->
  match (m;; ret None) c with Done a s => k a s | Throw s => Throw s | Crash => Crash end = m c.
Proof. intros Hk. unfold bind, ret. destruct (m c) as [[] c'| |]; [by rewrite Hk|done..]. Qed.

(** C2: a request is executed exactly when the connection has every privilege
    its command needs and the packet, key and extras fitting in the body,
    conforms to the format of the command; then the executor of the opcode
    gets the packet.  Every other request is answered: with "access denied" or
    "stale authentication", or, being malformed, with the status of the
    validators and the end of the connection. *)
Theorem process_bin_packet_spec p cm fm c :
  request_in_buffer p c -> opcode (header p) = cmd_value cm -> command_format cm = Some fm ->
  process_bin_packet c =
  match access cm c with
  | Fail => (emit AuditAccessFailed;; mcbp_write_packet PROTOCOL_BINARY_RESPONSE_EACCESS) c
  | Stale => mcbp_write_packet PROTOCOL_BINARY_RESPONSE_AUTH_STALE c
  | Ok =>
      if nkey p + extlen (header p) <=? nbody p then
        if conforms fm p then
          match executors (cmd_value cm) with
          | Some executor => run_executor executor (bytes_of_packet p) c
          | None => process_bin_unknown_packet c
          end
        else (emit AuditInvalidPacket;; refuse (refusal cm p)) c
      else (emit AuditInvalidPacket;; refuse PROTOCOL_BINARY_RESPONSE_EINVAL) c
  end.
Proof.
  intros Hr Hop Hf. unfold process_bin_packet, bind at 1. rewrite (choose_executor_spec p cm fm c Hr Hop Hf).
  destruct (access cm c); [|by rewrite <- (bind_bind (emit _)), run_answered|by rewrite run_answered].
  destruct (_ <=? _); [|by rewrite <- (bind_bind (emit _)), run_answered].
  destruct (conforms fm p); [|by rewrite <- (bind_bind (emit _)), run_answered].
  destruct (executors _); [done|by rewrite run_answered].
Qed.

(** ** Which headers are accepted *)

Context (Hmax : 1 <= iov_max).

(** The connection sends an error and closes. *)
Record refused (err : protocol_binary_response_status) (h : protocol_binary_request_header)
    (c' : connection) : Prop := {
  rf_task : currentTask c' = conn_mwrite;
  rf_go : write_and_go c' = conn_closing;
  rf_building : building iov_max (out c');
  rf_bytes :
    let body := error_body (opcode h) err in
    to_send c' = response_wire (opcode h) 0 0 0 (status_value err) (size body) (opaque h) 0 ++ body;
}.

Lemma refuse_ok err c :
  memory_available -> can_respond c -> text_in_memory err c -> response_cas c = 0 ->
  err <> PROTOCOL_BINARY_RESPONSE_SUCCESS -> err <> PROTOCOL_BINARY_RESPONSE_NOT_MY_VBUCKET ->
  exists c', refuse err c = Done tt c' /\ refused err (bheader c) c'.
Proof.
  intros Hm Hc Ht Hcas Hs Hv.
  destruct (write_packet_error Hmax err c) as (c1 & E & [Ha Hb Hd He]); [done..|].
  unfold refuse. rewrite (bind_done _ _ _ _ _ E). eexists. split; [reflexivity|].
  rewrite Hcas in He. by split.
Qed.

(** Why a header is refused; [c] is the connection with the header and the
    command set. *)
Definition header_refusal (c : connection) : option protocol_binary_response_status :=
  let h := bheader c in
  if negb (is_initialized (opcode h) c) then Some PROTOCOL_BINARY_RESPONSE_NOT_INITIALIZED else
  if require_sasl && negb (authenticated c) then Some PROTOCOL_BINARY_RESPONSE_AUTH_ERROR else
  if invalid_datatype c || (KEY_MAX_LENGTH <? keylen h) || (max_packet_size <? bodylen h)
  then Some PROTOCOL_BINARY_RESPONSE_EINVAL else None.

(** A request, or a response there is a handler for. *)
Definition known_magic (h : protocol_binary_request_header) : bool :=
  (magic h == PROTOCOL_BINARY_REQ) ||
  ((magic h == PROTOCOL_BINARY_RES) && bool_decide (is_Some (response_handlers (opcode h)))).

Definition texts_in_memory (c : connection) : Prop := forall err, text_in_memory err c.

(** A complete header was fetched from the read buffer. *)
Record header_fetched (i : input) : Prop := {
  hf_buffer : buf_ok (read i);
  hf_complete : HEADER_SIZE <= nbytes (read i);
  hf_bodylen : 0 <= bodylen (binary_header i) < 4294967296;
}.

(** The connection is set up to read the body of [h]: nothing that was read is
    lost, all of the body is still to be read, behind the header, and the buffer
    has room for it. *)
Record reads_body (h : protocol_binary_request_header) (i i1 : input) : Prop := {
  nb_header : binary_header i1 = h;
  nb_unread : unread (read i1) = unread (read i);
  nb_ritem : ritem i1 = curr (read i1) + HEADER_SIZE;
  nb_left : rlbytes i1 = bodylen h;
  nb_start : 0 <= curr (read i1);
  nb_room : ritem i1 + bodylen h <= size (mem (read i1));
}.

(** The state after the header was accepted: the body is read next, or there is
    no memory for the packet. *)
Inductive accepted (h : protocol_binary_request_header) (i : input) (c' : connection) : Prop :=
| accepted_reading :
    bin_read_chunk junk realloc_ok (bodylen h) i = Some (inp c') ->
    currentTask c' = conn_nread -> reads_body h i (inp c') -> accepted h i c'
| accepted_no_memory n :
    bin_read_chunk junk realloc_ok (bodylen h) i = None ->
    currentTask c' = conn_closing ->
    bodylen h + HEADER_SIZE <= n -> realloc_ok n = false -> accepted h i c'.

Lemma read_chunk_ok c :
  currentTask c <> conn_destroyed -> header_fetched (inp c) ->
  exists c', read_chunk (bodylen (bheader c)) c = Done tt c' /\ accepted (bheader c) (inp c) c'.
Proof.
  intros Hc [Hb Hn Hl]. unfold read_chunk.
  destruct (bin_read_chunk junk realloc_ok (bodylen (bheader c)) (inp c)) as [i1|] eqn:E.
  - destruct (setState_to conn_nread (c <| inp := i1 |>)) as (c' & -> & Ht & S); [done..|].
    exists c'. split; [done|]. pose proof (si_inp _ _ S) as Hi. cbn in Hi.
    apply accepted_reading; rewrite ?Hi; [done|done|].
    apply bin_read_chunk_spec in E as ((Hcu & _) & _ & Hu & _ & Hri & Hrl & Hro & Hbh); [|done..].
    split; try done. by rewrite Hri.
  - edestruct (setState_to conn_closing) as (c' & -> & Ht & S); [| | |]; try done.
    destruct (bin_read_chunk_none junk realloc_ok (bodylen (bheader c)) (inp c) Hb Hn Hl E) as (n & Hn1 & Hn2).
    exists c'. split; [done|]. by apply (accepted_no_memory _ _ _ n).
Qed.

Lemma dispatch_bin_command_ok c :
  memory_available -> can_respond c -> texts_in_memory c -> response_cas c = 0 ->
  header_fetched (inp c) ->
  exists c', dispatch_bin_command c = Done tt c' /\
    match header_refusal c with
    | Some err => refused err (bheader c) c'
    | None => accepted (bheader c) (inp c) c'
    end.
Proof.
  intros Hm Hc Ht Hcas Hf. unfold dispatch_bin_command, header_refusal, bind at 1, gets at 1, id.
  destruct (negb (is_initialized (opcode (bheader c)) c)); [by apply refuse_ok|].
  destruct (require_sasl && negb (authenticated c)); [by apply refuse_ok|].
  destruct (invalid_datatype c); [by apply refuse_ok|]. cbn [orb].
  set (c1 := if start c == 0 then c <| start := gethrtime |> else c).
  assert (when (start c == 0) (assign start gethrtime) c = Done tt c1) as E1
    by (subst c1; by destruct (start c == 0)).
  assert (can_respond c1 /\ texts_in_memory c1 /\ response_cas c1 = 0 /\ inp c1 = inp c)
    as (Hc1 & Ht1 & Hcas1 & Hi1).
  { subst c1. destruct (start c == 0); [|done].
    split_and!; [by destruct Hc; split|exact Ht|done|done]. }
  assert (bheader c1 = bheader c) as Hb1 by (unfold bheader; by rewrite Hi1).
  rewrite (bind_done _ _ _ _ _ E1), <- Hb1, <- Hi1. rewrite <- Hi1 in Hf. clearbody c1.
  destruct (KEY_MAX_LENGTH <? keylen (bheader c1)); [by apply refuse_ok|]. cbn [orb].
  unfold bind at 1, modify at 1. set (c2 := c1 <| noreply := false |>).
  change (bheader c1) with (bheader c2). change (inp c1) with (inp c2).
  destruct (max_packet_size <? bodylen (bheader c2)); 
    [apply (refuse_ok _ c2); [done|by destruct Hc1; split|apply Ht1|done..]|].
  apply read_chunk_ok; [apply (cr_task c1 Hc1)|exact Hf].
Qed.

Lemma fetch_header_some i :
  buf_ok (read i) -> HEADER_SIZE <= nbytes (read i) ->
  exists i0, fetch_header i = Some i0 /\ header_fetched i0.
Proof.
  intros Hb Hh. pose proof Hb as [Hc Hn Hr _].
  unfold fetch_header. rewrite (proj2 (Z.ltb_ge _ _)) by done.
  destruct (load_request_header (drop (Z.to_nat (curr (read i))) (mem (read i)))) as [h|] eqn:E.
  { eexists. split; [done|]. split; [done|done|]. apply (bswap_range 4). }
  exfalso. apply eq_None_not_Some in E. apply E, load_request_header_is_Some.
  unfold HEADER_SIZE, size in *. rewrite length_drop. lia.
Qed.

(** The function after a complete header was fetched. *)
Lemma try_read_header c i0 :
  buf_ok (read (inp c)) -> HEADER_SIZE <= nbytes (read (inp c)) ->
  fetch_header (inp c) = Some i0 ->
  let h := binary_header i0 in
  try_read_mcbp_command c =
  (if known_magic h then
     ok <- add_msghdr true;;
     if negb ok then setState conn_closing;; ret (-1) else
     assign cmd (opcode h);;
     assign response_cas 0;;
     dispatch_bin_command;;
     modify (fun c => c <| inp := skip_header (inp c) |>);;
     ret 1
   else setState conn_closing;; ret (-1)) (c <| inp := i0 |>).
Proof.
  intros [Hc Hn Hr _] Hh Ef h. unfold try_read_mcbp_command, bind at 1, gets at 1, cb_assert.
  unfold HEADER_SIZE in *.
  rewrite (proj2 (Z.leb_le (curr (read (inp c))) (size (mem (read (inp c)))))) by lia.
  rewrite (proj2 (Z.ltb_lt 0 (nbytes (read (inp c))))) by lia. unfold bind at 1 2, ret at 1 2.
  rewrite (proj2 (Z.ltb_ge _ _)) by lia. unfold bind at 1. rewrite Ef.
  unfold bind at 1, gets at 1. change (bheader (c <| inp := i0 |>)) with h.
  unfold known_magic. rewrite <- negb_orb. by destruct (_ || _).
Qed.

(** C18: a header that is not complete is left alone; a header with an unknown
    magic closes the connection; any other is either accepted, and the
    connection is set up to read the whole body behind the header, into a buffer
    that has room for it and with nothing lost of what was read before (it is
    closed only when the memory for the packet cannot be allocated), or refused
    with the right error, which is sent before the connection closes:
    "not initialized" before the server is initialized, "authentication error"
    for a client that did not authenticate, and "invalid" for a datatype, key
    or body the server does not accept. *)
Theorem try_read_mcbp_command_spec c :
  memory_available -> can_respond c -> texts_in_memory c -> buf_ok (read (inp c)) ->
  0 < nbytes (read (inp c)) ->
  if nbytes (read (inp c)) <? HEADER_SIZE then try_read_mcbp_command c = Done 0 c
  else exists i0 c', fetch_header (inp c) = Some i0 /\
    let h := binary_header i0 in
    if known_magic h then
      exists c1, try_read_mcbp_command c = Done 1 c' /\ c' = c1 <| inp := skip_header (inp c1) |> /\
        match header_refusal (c <| inp := i0 |> <| cmd := opcode h |>) with
        | Some err => refused err h c1
        | None => accepted h i0 c1
        end
    else try_read_mcbp_command c = Done (-1) c' /\ currentTask c' = conn_closing.
Proof.
  intros [Hm Hi] Hc Ht Hbuf Hpos. destruct (nbytes (read (inp c)) <? HEADER_SIZE) eqn:Eh.
  { destruct Hbuf as [Hc0 Hn Hr _]. unfold try_read_mcbp_command, bind, gets, cb_assert.
    rewrite (proj2 (Z.leb_le (curr (read (inp c))) (size (mem (read (inp c)))))) by lia.
    rewrite (proj2 (Z.ltb_lt 0 (nbytes (read (inp c))))) by lia. unfold ret. by rewrite Eh. }
  destruct (fetch_header_some (inp c)) as (i0 & Ef & Hi0); [done|lia|].
  exists i0. pose proof (try_read_header c i0 Hbuf ltac:(lia) Ef) as E. cbv zeta in E.
  set (h := binary_header i0) in *. set (c1 := c <| inp := i0 |>) in *.
  assert (currentTask c1 <> conn_destroyed) as Hd by apply Hc.
  destruct (known_magic h) eqn:Ek.
  2: { destruct (setState_to conn_closing c1) as (c' & Es & Ht' & _); [done..|].
       exists c'. cbv zeta. fold h. by rewrite Ek, E, (bind_done _ _ _ _ _ Es). }
  destruct (addMsgHdr alloc_msg true (out c1)) as [ok o1] eqn:E1.
  assert (ok = true) as -> by (unfold addMsgHdr in E1; rewrite Hm in E1; by injection E1).
  assert (add_msghdr true c1 = Done true (c1 <| out := o1 |>)) as Ea
    by (unfold add_msghdr; by rewrite E1).
  apply (addMsgHdr_true_building iov_max) in E1 as [HB1 _]; [|lia|apply Hc].
  rewrite (bind_done _ _ _ _ _ Ea) in E. cbn [negb] in E. unfold bind at 1 2, modify at 1 2 in E.
  set (c2 := _ <| response_cas := 0 |>) in E.
  destruct (dispatch_bin_command_ok c2) as (c3 & E3 & H3);
    [done|split; [apply HB1|apply Hc|done]|exact Ht|done|exact Hi0|].
  rewrite (bind_done _ _ _ _ _ E3) in E. eexists. split; [done|]. cbv zeta. fold h. rewrite Ek.
  exists c3. split; [exact E|]. split; [reflexivity|exact H3].
Qed.

(** ** Response packets are not checked *)

Lemma load_longer n k off m bs :
  (n <= k)%nat -> load n off m = Some bs -> is_Some (load k off m) ->
  exists rest, load k off m = Some (bs ++ rest) /\ length rest = (k - n)%nat.
Proof.
  intros Hk Hn [bs' Hk']. rewrite Hk'. pose proof (load_length _ _ _ _ Hn) as Ln.
  pose proof (load_length _ _ _ _ Hk') as Lk.
  apply load_drop in Hn as E1. apply load_drop in Hk' as E2.
  exists (drop n bs'). rewrite length_drop, Lk. split; [|done]. f_equal.
  rewrite <- (take_drop n bs') at 1. f_equal.
  rewrite E1 in E2. apply (f_equal (take n)) in E2.
  rewrite !take_app_le in E2 by lia. rewrite <- Ln in E2 at 1. by rewrite firstn_all in E2.
Qed.

Lemma load_skip_prefix a k off m bs :
  0 <= off -> load (a + k) off m = Some bs -> load k (off + Z.of_nat a) m = Some (drop a bs).
Proof.
  intros Ho E. assert (is_Some (load (a + k) off m)) as Hs by eauto.
  apply load_is_Some in Hs. apply load_length in E as L. apply load_drop in E.
  assert (is_Some (load k (off + Z.of_nat a) m)) as [bs' E'] by (apply load_is_Some; lia).
  rewrite E'. f_equal. apply load_length in E' as L'. apply load_drop in E'.
  replace (Z.to_nat (off + Z.of_nat a)) with (Z.to_nat off + a)%nat in E' by lia.
  rewrite <- drop_drop, E, drop_app_le in E' by lia.
  apply (f_equal (take k)) in E'. rewrite !take_app_le in E' by (rewrite ?length_drop; lia).
  rewrite !take_ge in E' by (rewrite ?length_drop; lia). done.
Qed.

(** A packet marked as a response is handled without any check of
    privileges or of its lengths; the handler of TAP acks passes a key of the
    announced length to the engine although it is longer than the body, so
    that the engine gets bytes behind the packet. *)
Theorem tap_ack_key_outside f pkt c :
  magic (bheader c) = PROTOCOL_BINARY_RES ->
  response_handlers (opcode (bheader c)) = Some tap_ack -> tap_notify = Some f ->
  packet_bytes c = Done pkt c -> 0 <= bodylen (bheader c) < keylen (bheader c) ->
  is_Some (load (Z.to_nat (keylen (bheader c) + HEADER_SIZE)) (getPacket (inp c))
             (mem (read (inp c)))) ->
  exists status seqno beyond, beyond <> [] /\
    mcbp_complete_nread c =
      (r <- f status seqno (drop 24 pkt ++ beyond);;
       if decide (r = ENGINE_DISCONNECT) then setState conn_closing else setState conn_ship_log) c.
Proof.
  intros Hmag Hop Hf Hpkt Hlen Hin. unfold mcbp_complete_nread, bind at 1, gets at 1.
  rewrite Hmag, Hop. cbn [Z.eqb]. change (PROTOCOL_BINARY_RES == PROTOCOL_BINARY_RES) with true.
  cbv iota. unfold process_bin_tap_ack. rewrite (bind_done _ _ _ _ _ Hpkt).
  unfold packet_bytes in Hpkt.
  destruct (load _ (getPacket (inp c)) _) as [bs|] eqn:Eb in Hpkt; [|done]. injection Hpkt as ->.
  pose proof (load_length _ _ _ _ Eb) as Lp. unfold HEADER_SIZE in *.
  destruct (load_response_header pkt) as [rsp|] eqn:Er.
  2: { exfalso. unfold load_response_header in Er.
       assert (is_Some (load_fields pkt)) as [[[[[[[[[? ?] ?] ?] ?] ?] ?] ?] ?] E]
         by (apply load_fields_is_Some; unfold HEADER_SIZE; lia). by rewrite E in Er. }
  destruct (load_longer (Z.to_nat (bodylen (bheader c) + 24)) (Z.to_nat (keylen (bheader c) + 24))
              _ _ _ ltac:(lia) Eb Hin)
    as (rest & El & Lr).
  exists (ntohs (r_status rsp)), (ntohl (r_opaque rsp)), rest.
  split; [intros ->; cbn in Lr; lia|].
  unfold bind at 1, gets at 1.
  pose proof (load_skip_prefix 24 (Z.to_nat (keylen (bheader c))) (getPacket (inp c))
    (mem (read (inp c))) (pkt ++ rest)) as Hk. change (Z.of_nat 24) with 24 in Hk. rewrite Hk.
  - rewrite Hf. by rewrite drop_app_le by lia.
  - apply load_is_Some in Hin. lia.
  - replace (24 + Z.to_nat (keylen (bheader c)))%nat
      with (Z.to_nat (keylen (bheader c) + 24)) by lia. exact El.
Qed.

End DispatchProofs.

(** ** Witnesses *)

(** Executors that only record the packet; a TAP producer that accepts acks. *)
Definition demo_bucket : Bucket := {|
  testing := false; collections := false;
  run_executor := fun _ pkt => emit (UpdateTopkeys pkt);
  tap_notify := Some (fun _ _ key => emit (UpdateTopkeys key);; ret ENGINE_SUCCESS);
  dcp_response_handler := None; unknown_command := fun _ => ret ENGINE_ENOTSUP;
  extension_command := fun _ => None; snappy_uncompressed_length := toy_length;
  snappy_uncompress := toy_uncompress; topkey_command := fun _ => false |}.

(** The demo connection with a packet, read or still to be read. *)
Definition with_input (i : input) (h : heap) : connection := (demo_connection h) <| inp := i |>.

Definition get_foo_read : connection :=
  with_input (mk_input (mk_net_buf (bytes_of_packet get_foo) 27 0) 27 0
                (host_header (header get_foo))) blank.

Lemma process_bin_packet_spec_witness :
  @process_bin_packet demo_system plain_engine demo_bucket get_foo_read =
  Done tt (get_foo_read <| trace := [UpdateTopkeys (bytes_of_packet get_foo)] |>).
Proof.
  rewrite (@process_bin_packet_spec demo_system plain_engine demo_bucket get_foo
    PROTOCOL_BINARY_CMD_GET (mk_format [0] Must MustNot MustNot true anything) get_foo_read).
  - reflexivity.
  - split; [vm_compute; reflexivity|vm_compute; reflexivity|exact get_foo_complete].
  - reflexivity.
  - reflexivity.
Defined.

(** Static texts: that of the status with value [v] at 1000000 + 1000 v. *)
Definition static_text (v : Z) : string :=
  match List.find (fun p => status_value p.1 =? v) statusmap with
  | Some p => p.2
  | None => "Unknown error code"%string
  end.

Definition static_texts : heap := fun a =>
  nth (Z.to_nat ((a - 1000000) mod 1000)) (text (static_text ((a - 1000000) / 1000))) Byte.x00.

Definition text_system : System := {|
  verbose := 0; iov_max := 1024; alloc_msg := always; alloc_iov := always;
  realloc_at := fun _ => 65536; realloc_ok := fun _ => true; junk := Byte.x00;
  push_temp := true; status_text := fun s => 1000000 + 1000 * status_value s;
  dedupe_nmvb_maps := true; require_sasl := true; server_initialized := true;
  max_packet_size := 31457280; gethrtime := 1; current_time := 0; connection_idle_time := 0;
  event_add_ok := true; event_del_ok := true; event_assign_ok := true; ssl_peek := false |}.

Definition get_foo_unread : connection :=
  (with_input (mk_input (mk_net_buf (bytes_of_packet get_foo) 0 27) 0 0
                (host_header (header get_foo))) static_texts)
    <| currentTask := conn_parse_cmd |>.

Lemma try_read_mcbp_command_spec_witness :
  exists c', @try_read_mcbp_command text_system plain_engine get_foo_unread = Done 1 c' /\
    currentTask c' = conn_nread /\ rlbytes (inp c') = 3 /\
    ritem (inp c') + 3 <= size (mem (read (inp c'))).
Proof.
  pose proof (@try_read_mcbp_command_spec text_system plain_engine ltac:(cbn; lia)
                get_foo_unread) as W.
  assert (@memory_available text_system) as Hm by (split; reflexivity).
  assert (can_respond get_foo_unread) as Hc by (split; cbn; (lia || done)).
  assert (@texts_in_memory text_system get_foo_unread) as Ht.
  { intros err. destruct err; (split; [vm_compute; reflexivity|right; vm_compute; discriminate]). }
  assert (buf_ok (read (inp get_foo_unread))) as Hb by (split; vm_compute; (reflexivity || discriminate)).
  specialize (W Hm Hc Ht Hb ltac:(reflexivity)).
  destruct W as (i0 & c' & Ef & W). vm_compute in Ef. injection Ef as <-.
  destruct W as (c1 & E & -> & [Er Hn Hr|n _ _ _ Hn]); [|discriminate Hn].
  eexists. split; [exact E|]. split; [exact Hn|].
  pose proof (nb_left _ _ _ Hr) as Hl. pose proof (nb_room _ _ _ Hr) as Ho.
  cbn in Hl, Ho |- *. rewrite Hl. split; [reflexivity|exact Ho].
Defined.

(** A TAP ack with a key of 5 bytes and no body, with other bytes behind it. *)
Definition ack_header : protocol_binary_request_header :=
  mk_request_header 129 (cmd_value PROTOCOL_BINARY_CMD_TAP_MUTATION) (htons 5) 0 0 0 0 0 0.

Definition ack_read : connection :=
  with_input (mk_input (mk_net_buf (store_request_header ack_header ++ text "other") 24 5) 24 0
                (host_header ack_header)) blank.

Lemma tap_ack_key_outside_witness :
  exists beyond, beyond <> [] /\
    @mcbp_complete_nread demo_system plain_engine demo_bucket ack_read =
    (r <- (emit (UpdateTopkeys beyond);; ret ENGINE_SUCCESS);;
     if decide (r = ENGINE_DISCONNECT) then @setState demo_system conn_closing
     else @setState demo_system conn_ship_log) ack_read.
Proof.
  destruct (@tap_ack_key_outside demo_system plain_engine demo_bucket
    (fun _ _ key => emit (UpdateTopkeys key);; ret ENGINE_SUCCESS)
    (store_request_header ack_header) ack_read) as (st & sq & beyond & Hne & E).
  - reflexivity.
  - reflexivity.
  - reflexivity.
  - vm_compute. reflexivity.
  - vm_compute. split; [discriminate|reflexivity].
  - vm_compute. eauto.
  - exists beyond. split; [exact Hne|exact E].
Defined.
