(* ===== verification/StateMachine.v ===== *)
(** * The state machine of a connection

    [daemon/statemachine_mcbp.cc], every task function; the registration with
    libevent ([updateEvent] and its kin in [daemon/connection_mcbp.cc]);
    [conn_close] and [conn_cleanup] ([daemon/connections.cc]); and the loop
    that drives the machine ([runStateMachinery], [runEventLoop]).

    Shipping the TAP and DCP logs, connecting a TAP stream and the result of a
    SASL task are the class [Process], with the rest the machine asks of the
    process: whether the bucket is dying, whether the listening port is
    known. *)

From S2P Require Import Prelude Memory Protocol FunctionChain Packet Input Output Buffers.
From S2P Require Import DynamicBuffer RecordUpdate StateMonad Connection Response SubdocValidators Validators Privileges Dispatch.

Inductive cbsasl_error :=
| CBSASL_OK
| CBSASL_CONTINUE
| CBSASL_BADPARAM
| CBSASL_NOUSER
| CBSASL_PWERR
| CBSASL_OTHER.

#[export] Instance TransmitResult_eq_dec : EqDecision TransmitResult.
Proof. solve_decision. Defined.

Class Process := {
  bucket_dying : bool;
  exit_on_connection_close : bool;
  port_instance : bool;
  pipe_connection : bool;
  ssl_more_input : bool;
  ship_dcp_log : M unit;
  ship_tap_log : M unit;
  tap_connect : M unit;
  sasl_error : cbsasl_error;
  sasl_response : Z;
  sasl_response_length : Z;
}.

Section StateMachine.
Context `{System} `{Engine} `{Bucket} `{Process}.

(** ** libevent *)

(** [McbpConnection::unregisterEvent] *)
Definition unregisterEvent : M bool :=
  registered <- gets registered_in_libevent;;
  if negb registered then ret false else
  is_open <- gets socket_open;;
  cb_assert is_open;;
  if negb event_del_ok then ret false else
  assign registered_in_libevent false;;
  ret true.

(** [McbpConnection::registerEvent] *)
Definition registerEvent : M bool :=
  registered <- gets registered_in_libevent;;
  if (registered : bool) then ret false else
  untimed <- gets (fun c => (connection_idle_time == 0) || admin c || dcp c || tap_iterator c);;
  (if (untimed : bool) then assign ev_timeout_enabled false
   else assign ev_timeout_enabled true;; assign ev_timeout connection_idle_time);;
  assign ev_insert_time current_time;;
  if negb event_add_ok then ret false else
  assign registered_in_libevent true;;
  ret true.

(** [McbpConnection::updateEvent] *)
Definition updateEvent (new_flags : Z) : M bool :=
  if ssl_peek && (Z.land new_flags EV_READ != 0) then ret true else
  c <- gets id;;
  if (ev_flags c == new_flags) &&
     negb (ev_timeout_enabled c && (admin c || dcp c || tap_iterator c)) &&
     (current_time <? u32 (ev_insert_time c + connection_idle_time / 2))
  then ret true else
  ok <- unregisterEvent;;
  if negb ok then ret false else
  if negb event_assign_ok then ret false else
  assign ev_flags new_flags;;
  registerEvent.

(** ** Helpers *)

(** [is_bucket_dying] *)
Definition is_bucket_dying : M bool :=
  if bucket_dying then setState conn_closing;; ret true else ret false.

(** [McbpConnection::shrinkBuffers] *)
Definition MSG_LIST_INITIAL : nat := 5.
Definition MSG_LIST_HIGHWAT : nat := 20.
Definition IOV_LIST_HIGHWAT : nat := 50.

Definition shrink_output (o : output) : output :=
  mk_output
    (if (IOV_LIST_HIGHWAT <? length (iov o))%nat then take IOV_LIST_INITIAL (iov o) else iov o)
    (iovused o)
    (if (MSG_LIST_HIGHWAT <? length (msglist o))%nat
     then take MSG_LIST_INITIAL (msglist o) else msglist o)
    (msgcurr o) (msgbytes o)
    (if (IOV_LIST_HIGHWAT <? length (iov o))%nat then iov_block o + 1 else iov_block o).

Definition set_read (f : net_buf -> net_buf) (i : input) : input :=
  mk_input (f (read i)) (ritem i) (rlbytes i) (binary_header i).

Definition shrinkBuffers : M unit :=
  modify (fun c => c <| inp := set_read (shrink_read junk realloc_ok) (inp c) |>);;
  modify (fun c => c <| out := shrink_output (out c) |>);;
  modify (fun c => c <| dynamicBuffer := dynamic_clear (dynamicBuffer c) |>).

(** [releaseTempAlloc] *)
Definition releaseTempAlloc : M unit :=
  ptrs <- gets temp_alloc;;
  modify (fun c => c <| trace := trace c ++ (Free <$> ptrs) |>);;
  assign temp_alloc [].

(** [releaseReservedItems] *)
Definition releaseReservedItems : M unit :=
  its <- gets reserved_items;;
  emit (ReleaseReservedItems its);;
  assign reserved_items [].

(** [reset_cmd_handler]; [setCmd(-1)] stores a byte. *)
Definition reset_cmd_handler : M unit :=
  assign cmd 255;;
  it <- gets item;;
  when (it != 0) (emit (ReleaseItem it);; assign item 0);;
  has_context <- gets command_context;;
  when has_context (emit ReleaseContext;; assign command_context false);;
  modify (fun c => c <| inp := set_read (fun b => if nbytes b == 0
                       then mk_net_buf (mem b) 0 (nbytes b) else b) (inp c) |>);;
  shrinkBuffers;;
  n <- gets (fun c => nbytes (read (inp c)));;
  if 0 <? n then setState conn_parse_cmd else setState conn_waiting.

(** ** Reading *)

(** [tryReadNetwork] of the connection; out of memory it also closes. *)
Definition try_read_network : M TryReadResult := fun c =>
  match tryReadNetwork junk realloc_ok pipe_connection (read (inp c)) (sock c) with
  | None => Crash
  | Some (r, b, s) =>
      let c := c <| inp := set_read (fun _ => b) (inp c) |> <| sock := s |> in
      if decide (r = MemoryError)
      then bind (setState conn_closing) (fun _ => ret r) c
      else Done r c
  end.

Definition task_waiting : M bool :=
  dying <- is_bucket_dying;;
  if (dying : bool) then ret true else
  ok <- updateEvent (Z.lor EV_READ EV_PERSIST);;
  if negb ok then setState conn_closing;; ret true else
  setState conn_read;;
  ret false.

Definition task_read : M bool :=
  dying <- is_bucket_dying;;
  if (dying : bool) then ret true else
  r <- try_read_network;;
  (match r with
   | NoDataReceived =>
       if exit_on_connection_close then setState conn_closing else setState conn_waiting
   | DataReceived => setState conn_parse_cmd
   | SocketError => setState conn_closing
   | MemoryError => ret tt
   end);;
  ret true.

Definition task_parse_cmd : M bool :=
  r <- try_read_mcbp_command;;
  when (r == 0) (setState conn_waiting);;
  block <- gets ewouldblock;;
  ret (negb block).

(** [havePendingInputData] *)
Definition havePendingInputData (c : connection) : bool :=
  (0 <? nbytes (read (inp c))) || ssl_more_input.

Definition decrementNumEvents : M Z :=
  modify (fun c => c <| numEvents := numEvents c - 1 |>);;
  gets numEvents.

Definition task_new_cmd : M bool :=
  dying <- is_bucket_dying;;
  if (dying : bool) then ret true else
  assign start 0;;
  n <- decrementNumEvents;;
  if 0 <=? n then reset_cmd_handler;; ret true else
  emit ConnYield;;
  more <- gets (fun c => havePendingInputData c || dcp c || tap_iterator c);;
  if (more : bool) then
    let flags := Z.lor EV_WRITE EV_PERSIST in
    ok <- updateEvent (if pipe_connection then Z.lor flags EV_READ else flags);;
    if negb ok then setState conn_closing;; ret true else ret false
  else ret false.

(** [conn_nread]: reading is [Input.conn_nread], a complete packet is
    executed. *)
Definition task_nread : M bool :=
  dying <- is_bucket_dying;;
  if (dying : bool) then ret true else
  r <- (fun c => let '(r, i, s) := Input.conn_nread (inp c) (sock c) in
                 Done r (c <| inp := i |> <| sock := s |>));;
  match r with
  | NreadComplete =>
      assign ewouldblock false;;
      mcbp_complete_nread;;
      block <- gets ewouldblock;;
      when block (unregisterEvent;; ret tt);;
      ret (negb block)
  | NreadAgain => ret true
  | NreadBlocked =>
      ok <- updateEvent (Z.lor EV_READ EV_PERSIST);;
      if negb ok then setState conn_closing;; ret true else ret false
  | NreadClosing => setState conn_closing;; ret true
  end.

(** ** Writing *)

(** Whether [transmit] asked for the event mask to be changed. *)
Definition update_called (e : transmit_env) (send : send_result) : bool :=
  if ssl_enabled e && ssl_pending_before e then negb (ssl_error e) else
  match send with
  | SendBlocked => true
  | Sent n => (0 <? n) && negb (ssl_error e)
  | SendFailed => false
  end.

(** [transmit] of the connection: what [sendmsg] and SSL do is the next entry
    of [sends]. *)
Definition transmit_connection : M TransmitResult := fun c =>
  let '((e, send), rest) :=
    match sends c with
    | [] => (mk_env false false false false true, SendBlocked, [])
    | x :: rest => (x, rest)
    end in
  let c := c <| sends := rest |> in
  let update := updateEvent (Z.lor EV_WRITE EV_PERSIST) c in
  let ok := match update with Done ok _ => ok | _ => false end in
  let e := mk_env (ssl_enabled e) (ssl_pending_before e) (ssl_pending_after e) (ssl_error e) ok in
  match transmit e send (out c) with
  | None => Crash
  | Some (r, o, _) =>
      let waited := bool_decide (r = SoftError \/ r = HardError) && update_called e send in
      match (if waited then update else Done ok c) with
      | Done _ c =>
          let c := c <| out := o |> in
          if decide (r = HardError) then bind (setState conn_closing) (fun _ => ret r) c
          else Done r c
      | Throw c => Throw c
      | Crash => Crash
      end
  end.

Definition task_mwrite : M bool :=
  r <- transmit_connection;;
  match r with
  | Complete =>
      releaseTempAlloc;;
      state <- gets currentTask;;
      if decide (state = conn_mwrite \/ state = conn_write) then
        when (bool_decide (state = conn_mwrite)) releaseReservedItems;;
        go <- gets write_and_go;;
        setState go;;
        is_bucket_dying;;
        ret true
      else setState conn_closing;; ret true
  | Incomplete | HardError => is_bucket_dying;; ret true
  | SoftError => is_bucket_dying
  end.

Definition task_write : M bool :=
  used <- gets (fun c => iovused (out c));;
  ok <- (if used == 0 then
           w <- gets write;; add_iov (bcurr w) (bbytes w)
         else ret true);;
  if negb ok then setState conn_closing;; ret true else task_mwrite.

(** ** Closing *)

(** [conn_cleanup_engine_allocations] *)
Definition conn_cleanup_engine_allocations : M unit :=
  it <- gets item;;
  when (it != 0) (emit (ReleaseItem it);; assign item 0);;
  releaseReservedItems.

Definition task_closing : M bool :=
  unregisterEvent;;
  emit CloseSocket;;
  assign socket_open false;;
  conn_cleanup_engine_allocations;;
  pending <- gets (fun c => (1 <? refcount c) || ewouldblock c);;
  (if (pending : bool) then setState conn_pending_close else setState conn_immediate_close);;
  ret true.

Definition task_pending_close : M bool :=
  is_open <- gets socket_open;;
  if (is_open : bool) then throw else
  emit DisconnectCallbacks;;
  refs <- gets refcount;;
  if 1 <? refs then ret false else
  setState conn_immediate_close;;
  ret true.

(** [conn_cleanup] *)
Definition conn_cleanup_connection : M unit :=
  assign admin false;;
  releaseTempAlloc;;
  modify (fun c => c <| inp := set_read (fun b => mk_net_buf (mem b) 0 0) (inp c) |>);;
  modify (fun c => c <| write := clean (write c) |>);;
  assign tap_iterator false;;
  assign dcp false;;
  emit ReturnBuffers;;
  modify (fun c => c <| inp := set_read (fun b => mk_net_buf [] 0 0) (inp c) |>);;
  assign write no_buf;;
  modify (fun c => c <| dynamicBuffer := dynamic_clear (dynamicBuffer c) |>);;
  assign thread false;;
  assign socket_open false;;
  assign start 0.

(** [conn_close] *)
Definition conn_close : M unit :=
  c <- gets id;;
  if socket_open c then throw else
  if negb (bool_decide (currentTask c = conn_immediate_close)) then throw else
  if negb (thread c) then throw else
  emit RemovePendingIo;;
  conn_cleanup_connection;;
  setState conn_destroyed.

Definition task_immediate_close : M bool :=
  is_open <- gets socket_open;;
  if (is_open : bool) then throw else
  (if port_instance then emit CurrConnsDecremented
   else if pipe_connection then ret tt else throw);;
  emit DisconnectCallbacks;;
  emit DisassociateBucket;;
  conn_close;;
  ret false.

(** ** Continuing after a background task *)

(** The result of a task that ran elsewhere, taken over by the connection. *)
Definition take_aiostat : M ENGINE_ERROR_CODE :=
  r <- gets aiostat;;
  assign aiostat ENGINE_SUCCESS;;
  assign ewouldblock false;;
  ret r.

Definition error_of (r : ENGINE_ERROR_CODE) : M unit :=
  mcbp_write_packet (engine_error_2_mcbp_protocol_error r).

Definition task_refresh_cbsasl : M bool :=
  r <- take_aiostat;;
  (match r with
   | ENGINE_EWOULDBLOCK => setState conn_closing
   | ENGINE_SUCCESS => mcbp_write_response 0 0 0 0
   | ENGINE_DISCONNECT => setState conn_closing
   | _ => error_of r
   end);;
  ret true.

Definition task_refresh_ssl_certs : M bool :=
  r <- take_aiostat;;
  (match r with
   | ENGINE_EWOULDBLOCK => setState conn_closing
   | ENGINE_SUCCESS => mcbp_write_response 0 0 0 0
   | ENGINE_DISCONNECT => setState conn_closing
   | _ => error_of r
   end);;
  ret true.

Definition task_flush : M bool :=
  r <- take_aiostat;;
  (match r with
   | ENGINE_SUCCESS => mcbp_write_response 0 0 0 0
   | ENGINE_DISCONNECT => setState conn_closing
   | _ => error_of r
   end);;
  ret true.

Definition task_audit_configuring : M bool :=
  r <- take_aiostat;;
  (match r with
   | ENGINE_SUCCESS => mcbp_write_packet PROTOCOL_BINARY_RESPONSE_SUCCESS
   | _ => mcbp_write_packet PROTOCOL_BINARY_RESPONSE_EINTERNAL
   end);;
  ret true.

(** [conn_create_bucket] and [conn_delete_bucket] *)
Definition task_create_bucket : M bool :=
  r <- take_aiostat;;
  (match r with
   | ENGINE_EWOULDBLOCK => setState conn_closing
   | ENGINE_DISCONNECT => setState conn_closing
   | _ => error_of r
   end);;
  ret true.

Definition task_delete_bucket : M bool :=
  r <- take_aiostat;;
  (match r with
   | ENGINE_EWOULDBLOCK => setState conn_closing
   | ENGINE_DISCONNECT => setState conn_closing
   | _ => error_of r
   end);;
  ret true.

Definition task_sasl_auth : M bool :=
  assign aiostat ENGINE_SUCCESS;;
  assign ewouldblock false;;
  (match sasl_error with
   | CBSASL_OK =>
       mcbp_write_response sasl_response 0 0 sasl_response_length;;
       emit AuthCommand
   | CBSASL_CONTINUE =>
       r <- mcbp_add_header (status_value PROTOCOL_BINARY_RESPONSE_AUTH_CONTINUE) 0 0
              sasl_response_length PROTOCOL_BINARY_RAW_BYTES;;
       if r == -1 then setState conn_closing else
       add_iov sasl_response sasl_response_length;;
       setState conn_mwrite;;
       setWriteAndGo conn_new_cmd
   | CBSASL_BADPARAM =>
       mcbp_write_packet PROTOCOL_BINARY_RESPONSE_EINVAL;;
       emit AuthCommand;;
       emit AuthErrorCounted
   | e =>
       if negb server_initialized then
         mcbp_write_packet PROTOCOL_BINARY_RESPONSE_NOT_INITIALIZED;;
         setWriteAndGo conn_closing
       else
         when (match e with CBSASL_NOUSER | CBSASL_PWERR => true | _ => false end)
           (emit AuthFailureAudited);;
         mcbp_write_packet PROTOCOL_BINARY_RESPONSE_AUTH_ERROR;;
         emit AuthCommand;;
         emit AuthErrorCounted
   end);;
  ret true.

(** ** TAP and DCP *)

Definition task_ship_log : M bool :=
  dying <- is_bucket_dying;;
  if (dying : bool) then ret true else
  c <- gets id;;
  if negb (socket_open c) then ret false else
  r <- (if (Z.land (currentEvent c) EV_READ != 0) || (0 <? nbytes (read (inp c))) then
          (if 0 <? nbytes (read (inp c)) then
             r <- try_read_mcbp_command;; when (r == 0) (setState conn_read)
           else setState conn_read);;
          modify (fun c => c <| numEvents := max_reqs_per_event c |>);;
          ret (true, Z.lor (Z.lor EV_READ EV_PERSIST) EV_WRITE)
        else if Z.land (currentEvent c) EV_WRITE != 0 then
          n <- decrementNumEvents;;
          if 0 <=? n then
            assign ewouldblock false;;
            (if dcp c then ship_dcp_log else ship_tap_log);;
            block <- gets ewouldblock;;
            ret (if (block : bool) then (false, Z.lor EV_READ EV_PERSIST)
                 else (true, Z.lor (Z.lor EV_READ EV_PERSIST) EV_WRITE))
          else ret (false, Z.lor (Z.lor EV_READ EV_PERSIST) EV_WRITE)
        else ret (false, Z.lor (Z.lor EV_READ EV_PERSIST) EV_WRITE));;
  let '(cont, mask) := r in
  ok <- updateEvent mask;;
  when (negb ok) (setState conn_closing);;
  ret cont.

(** ** Running the machine *)

Definition execute : M bool :=
  t <- gets currentTask;;
  match t with
  | conn_new_cmd => task_new_cmd
  | conn_waiting => task_waiting
  | conn_read => task_read
  | conn_parse_cmd => task_parse_cmd
  | conn_write => task_write
  | conn_nread => task_nread
  | conn_pending_close => task_pending_close
  | conn_immediate_close => task_immediate_close
  | conn_closing => task_closing
  | conn_destroyed => ret false
  | conn_mwrite => task_mwrite
  | conn_ship_log => task_ship_log
  | conn_setup_tap_stream => tap_connect;; ret true
  | conn_refresh_cbsasl => task_refresh_cbsasl
  | conn_refresh_ssl_certs => task_refresh_ssl_certs
  | conn_flush => task_flush
  | conn_audit_configuring => task_audit_configuring
  | conn_create_bucket => task_create_bucket
  | conn_delete_bucket => task_delete_bucket
  | conn_sasl_auth => task_sasl_auth
  end.

(** [runStateMachinery]: [None] when [fuel] tasks are not enough. *)
Fixpoint runStateMachinery (fuel : nat) (c : connection) : option (outcome connection unit) :=
  match fuel with
  | O => None
  | S fuel =>
      match execute c with
      | Done true c => runStateMachinery fuel c
      | Done false c => Some (Done tt c)
      | Throw c => Some (Throw c)
      | Crash => Some Crash
      end
  end.

(** The machine runs; an exception closes the connection, and the machine runs
    on to close it. *)
Definition run_caught (fuel : nat) (which : Z) (c : connection) : option (outcome connection unit) :=
  let c := c <| currentEvent := which |> <| numEvents := max_reqs_per_event c |> in
  r ← runStateMachinery fuel c;
  match r with
  | Throw c =>
      match setState conn_closing c with
      | Done _ c =>
          r ← runStateMachinery fuel c;
          Some (match r with Throw c => Done tt c | r => r end)
      | r => Some r
      end
  | r => Some r
  end.

(** The buffers of a connection as the worker thread has them; [rb] is the
    address of the read buffer. *)
Definition bufs_of (rb : Z) (c : connection) : conn_bufs :=
  mk_conn (thread c) (tap_iterator c) (dcp c) (bool_decide (currentTask c = conn_closing))
    (mk_shared rb (if rb == 0 then 0 else rb + curr (read (inp c))) (bufsize (read (inp c))) (nbytes (read (inp c))))
    (write c).

Definition note_bufs (id : nat) (c : connection) (w : worker) : worker := set_conn id (bufs_of (held w (CRead id)) c) w.

(** The connection with the buffers it has after a loan or a return: another
    read buffer is one without data, or none. *)
Definition set_bufs (rb : Z) (b : conn_bufs) (c : connection) : connection :=
  c <| write := cwrite b |>
    <| inp := set_read (fun r =>
         if buf (cread b) == rb then r
         else mk_net_buf (map (fun i => memory c (buf (cread b) + Z.of_nat i)) (seq 0 (Z.to_nat (bsize (cread b))))) 0 0) (inp c) |>.

(** [conn_loan_buffers] on the connection: [setState] is called when there is
    no memory. *)
Definition borrow (pr pw : Z) (id : nat) (w : worker) (c : connection) : outcome (worker * connection) unit :=
  let rb := held w (CRead id) in
  match conn_loan_buffers pr pw id (note_bufs id c w) with
  | None => Crash
  | Some w =>
      match conns w !! id with
      | None => Crash
      | Some b =>
          match when (closing b) (setState conn_closing) (set_bufs rb b c) with
          | Done _ c => Done tt (w, c)
          | Throw c => Throw (w, c)
          | Crash => Crash
          end
      end
  end.

(** [conn_return_buffers] on the connection, after a run in which the read
    buffer may have moved to [moved] (0: it did not).  A connection that was
    cleaned up has given its buffers back already. *)
Definition give_back (moved : Z) (id : nat) (w : worker) (c : connection) : option (worker * connection) :=
  w ← realloc_read moved (bufsize (read (inp c))) id w;
  w ← (if thread c then Some (note_bufs id c w) else conn_cleanup id w);
  let rb := held w (CRead id) in
  w ← conn_return_buffers id w;
  b ← conns w !! id;
  Some (w, set_bufs rb b c).

(** [runEventLoop] of connection [id] of the worker [w]; [pr], [pw] and [moved]
    are where the allocator puts buffers. *)
Definition runEventLoop (fuel : nat) (pr pw moved which : Z) (id : nat) (w : worker) (c : connection)
    : option (outcome (worker * connection) unit) :=
  match borrow pr pw id w c with
  | Done _ (w, c) =>
      r ← run_caught fuel which c;
      Some (match r with
            | Done _ c => match give_back moved id w c with Some wc => Done tt wc | None => Crash end
            | Throw c => Throw (w, c)
            | Crash => Crash
            end)
  | Throw wc => Some (Throw wc)
  | Crash => Some Crash
  end.

(** [shouldDelete] *)
Definition shouldDelete (c : connection) : bool := bool_decide (currentTask c = conn_destroyed).

End StateMachine.

(** ** Closing a connection *)

Section Closing.
Context `{System} `{Engine} `{Bucket} `{Process}.

(** A connection about to close that nobody else refers to. *)
Record closing_alone (c : connection) : Prop := {
  ca_task : currentTask c = conn_closing;
  ca_thread : thread c = true;
  ca_refs : refcount c <= 1;
  ca_block : ewouldblock c = false;
  ca_event : registered_in_libevent c = true -> socket_open c = true;
  ca_port : port_instance || pipe_connection = true;
}.

(** What releasing a connection does outside of it, in order. *)
Definition release_engine (c : connection) : list effect :=
  [CloseSocket] ++ (if item c != 0 then [ReleaseItem (item c)] else []) ++ [ReleaseReservedItems (reserved_items c)].

Definition release_port : list effect :=
  (if port_instance then [CurrConnsDecremented] else []) ++
  [DisconnectCallbacks; DisassociateBucket].

Definition release_resources (c : connection) : list effect :=
  [RemovePendingIo] ++ (Free <$> temp_alloc c) ++ [ReturnBuffers].

Lemma unregisterEvent_runs c :
  (registered_in_libevent c = true -> socket_open c = true) ->
  exists b r, unregisterEvent c = Done b (c <| registered_in_libevent := r |>) /\
    (event_del_ok = true -> r = false).
Proof.
  intros Hr. unfold unregisterEvent, bind, gets, cb_assert, ret.
  assert (forall v, registered_in_libevent c = v -> c = c <| registered_in_libevent := v |>) as Heta
    by (intros v <-; by destruct c).
  destruct (registered_in_libevent c) eqn:Er; cbn [negb].
  - rewrite Hr by done. destruct event_del_ok; cbn [negb].
    + by eexists true, false.
    + exists false, true. by rewrite <- Heta.
  - exists false, false. by rewrite <- Heta.
Qed.

Lemma same_trace_setState t c c' :
  setState t c = Done tt c' -> t <> conn_write -> t <> conn_mwrite -> t <> conn_waiting ->
  t <> conn_read -> c' = c <| currentTask := t |>.
Proof.
  intros E Hw Hm Hwt Hrd. unfold setState, bind, gets in E.
  destruct (decide (t = currentTask c)) as [->|Hne].
  { injection E as <-. by destruct c. }
  rewrite (bool_decide_eq_false_2 (t = conn_waiting)), andb_false_r in E by done.
  cbn beta iota delta [ret] in E.
  rewrite (bool_decide_eq_false_2 (t = conn_read)), andb_false_r in E by done.
  rewrite (bool_decide_eq_false_2 (t = conn_write)), (bool_decide_eq_false_2 (t = conn_mwrite)) in E
    by done.
  unfold when, ret, throw, modify in E. cbn [orb] in E.
  destruct (_ || _ || _); [destruct (_ && _)|]; by simplify_eq.
Qed.

Lemma setState_plain t c :
  currentTask c <> conn_destroyed -> t <> conn_destroyed ->
  t <> conn_write -> t <> conn_mwrite -> t <> conn_waiting -> t <> conn_read ->
  setState t c = Done tt (c <| currentTask := t |>).
Proof.
  intros Hc Ht Hw Hm Hwt Hrd. destruct (setState_to t c) as (c' & E & _); [done..|].
  rewrite E. f_equal. by apply same_trace_setState.
Qed.

(** The first task: the socket is closed and the engine's objects released. *)
Lemma task_closing_runs c :
  currentTask c = conn_closing -> refcount c <= 1 -> ewouldblock c = false ->
  (registered_in_libevent c = true -> socket_open c = true) ->
  exists r, (event_del_ok = true -> r = false) /\ task_closing c = Done true
    (c <| registered_in_libevent := r |> <| socket_open := false |> <| item := 0 |> <| reserved_items := [] |>
       <| trace := trace c ++ release_engine c |> <| currentTask := conn_immediate_close |>).
Proof.
  intros Ht Hre Hbl Hev. destruct (unregisterEvent_runs c Hev) as (b & r & E & Hr).
  exists r. split; [done|]. unfold task_closing. rewrite (bind_done _ _ _ _ _ E).
  unfold conn_cleanup_engine_allocations, emit, release_engine, bind, modify, gets, when, ret.
  cbn -[setState app]. destruct (Z.eqb_spec (item c) 0) as [Ei|Ei]; cbn -[setState app].
  all: rewrite (proj2 (Z.ltb_ge 1 (refcount c))), Hbl by done; cbn [orb].
  all: rewrite setState_plain by (cbn; congruence).
  all: rewrite <- ?app_assoc; cbn [app].
  - destruct c; cbn in *; by subst.
  - reflexivity.
Qed.

(** What is left of a connection after [conn_cleanup]. *)
Definition cleaned (c : connection) : connection :=
  c <| admin := false |> <| temp_alloc := [] |>
    <| inp := mk_input (mk_net_buf [] 0 0) (ritem (inp c)) (rlbytes (inp c)) (binary_header (inp c)) |>
    <| write := no_buf |> <| tap_iterator := false |> <| dcp := false |>
    <| dynamicBuffer := empty_dynamic |> <| thread := false |> <| socket_open := false |>
    <| start := 0 |> <| trace := trace c ++ release_resources c |>.

Lemma conn_close_runs c :
  currentTask c = conn_immediate_close -> socket_open c = false -> thread c = true ->
  conn_close c = setState conn_destroyed (cleaned c).
Proof.
  intros Ht Hs Hth. unfold conn_close, bind at 1, gets at 1, id.
  rewrite Hs, Ht, Hth, bool_decide_eq_true_2 by done. cbn [negb].
  assert (emit RemovePendingIo c = Done tt (c <| trace := trace c ++ [RemovePendingIo] |>)) as E1
    by done.
  rewrite (bind_done _ _ _ _ _ E1).
  assert (conn_cleanup_connection (c <| trace := trace c ++ [RemovePendingIo] |>) =
          Done tt (cleaned c)) as E2.
  { unfold conn_cleanup_connection, releaseTempAlloc, emit, bind, modify, gets.
    unfold cleaned, release_resources. rewrite !app_assoc. reflexivity. }
  by rewrite (bind_done _ _ _ _ _ E2).
Qed.

Lemma task_immediate_close_runs c :
  currentTask c = conn_immediate_close -> socket_open c = false ->
  port_instance || pipe_connection = true ->
  task_immediate_close c = (conn_close;; ret false) (c <| trace := trace c ++ release_port |>).
Proof.
  intros Ht Hs Hp. unfold task_immediate_close, bind at 1, gets at 1. rewrite Hs.
  assert ((if port_instance then emit CurrConnsDecremented
           else if pipe_connection then ret tt else throw) c =
          Done tt (c <| trace := trace c ++ (if port_instance then [CurrConnsDecremented] else []) |>))
    as E.
  { destruct port_instance; [done|]. cbn in Hp. rewrite Hp, app_nil_r. by destruct c. }
  rewrite (bind_done _ _ _ _ _ E). unfold release_port. rewrite app_assoc.
  unfold emit, bind at 1 2, modify. cbn -[app conn_close bind].
  by rewrite <- (app_assoc _ [DisconnectCallbacks]).
Qed.

Lemma setState_destroyed c :
  currentTask c = conn_immediate_close ->
  setState conn_destroyed c =
    if 2 <? verbose then Throw c else Done tt (c <| currentTask := conn_destroyed |>).
Proof.
  intros Ht. unfold setState, bind, gets. rewrite Ht, decide_False by done.
  change (bool_decide (conn_destroyed = conn_waiting)) with false. rewrite andb_false_r.
  cbn beta iota delta [ret]. change (bool_decide (conn_destroyed = conn_read)) with false.
  rewrite andb_false_r. unfold when, ret, throw, modify.
  change (bool_decide (is_Some (getTaskName conn_destroyed))) with false. rewrite andb_false_r.
  change (bool_decide (conn_destroyed = conn_closing)) with false.
  change (bool_decide (conn_destroyed = conn_setup_tap_stream)) with false. rewrite !orb_false_r.
  by destruct (2 <? verbose).
Qed.

(** The connection when it is gone. *)
Definition destroyed (c : connection) : Prop :=
  currentTask c = conn_destroyed /\ socket_open c = false /\ thread c = false /\
  write c = no_buf /\ mem (read (inp c)) = [] /\ dynamicBuffer c = empty_dynamic /\
  temp_alloc c = [] /\ item c = 0.

(** C30: a connection that closes and that nobody else refers to is released
    completely in two tasks: the socket is closed once, the engine's objects,
    the port's connection count, the disconnect callbacks, the bucket, the
    pending-io list, the temporary allocations and the shared buffers are
    released exactly once each and in that order, and the connection ends in
    the state in which it is deleted. *)
Theorem connection_closes c fuel :
  verbose <= 2 -> closing_alone c -> (2 <= fuel)%nat ->
  exists c', runStateMachinery fuel c = Some (Done tt c') /\ destroyed c' /\
    trace c' = trace c ++ release_engine c ++ release_port ++ release_resources c.
Proof.
  intros Hv Hc Hf. destruct fuel as [|[|fuel]]; [lia..|].
  destruct Hc as [Ht Hth Hre Hbl Hev Hp]. destruct (task_closing_runs c Ht Hre Hbl Hev) as (r & _ & E).
  cbn [runStateMachinery]. unfold execute at 1, bind at 1, gets at 1. rewrite Ht, E.
  set (c1 := _ <| currentTask := conn_immediate_close |>). cbn [runStateMachinery].
  unfold execute, bind, gets. change (currentTask c1) with conn_immediate_close. cbv iota.
  rewrite (task_immediate_close_runs c1) by done. unfold bind. rewrite conn_close_runs by done.
  rewrite setState_destroyed by done. rewrite (proj2 (Z.ltb_ge 2 verbose)) by done.
  eexists. split; [reflexivity|]. split; [done|]. cbn -[app fmap].
  by rewrite <- !app_assoc.
Qed.

(** One pass of the machine over the last two tasks. *)
Lemma run_closing c fuel :
  currentTask c = conn_closing -> refcount c <= 1 -> ewouldblock c = false ->
  (registered_in_libevent c = true -> socket_open c = true) ->
  port_instance || pipe_connection = true -> event_del_ok = true ->
  runStateMachinery (S (S fuel)) c =
    match conn_close
      (c <| registered_in_libevent := false |> <| socket_open := false |> <| item := 0 |> <| reserved_items := [] |>
         <| currentTask := conn_immediate_close |>
         <| trace := trace c ++ release_engine c ++ release_port |>) with
    | Done _ c' => Some (Done tt c')
    | Throw c' => Some (Throw c')
    | Crash => Some Crash
    end.
Proof.
  intros Ht Hre Hbl Hev Hp Hd. destruct (task_closing_runs c Ht Hre Hbl Hev) as (r & Hr & E).
  rewrite (Hr Hd) in E. cbn [runStateMachinery]. unfold execute at 1, bind at 1, gets at 1.
  rewrite Ht, E. set (c1 := _ <| currentTask := conn_immediate_close |>).
  unfold execute at 1, bind at 1, gets at 1.
  change (currentTask c1) with conn_immediate_close. cbv iota.
  rewrite (task_immediate_close_runs c1) by done. rewrite (app_assoc (trace c)).
  change (c1 <| trace := trace c1 ++ release_port |>) with
    (c <| registered_in_libevent := false |> <| socket_open := false |> <| item := 0 |> <| reserved_items := [] |>
       <| currentTask := conn_immediate_close |>
       <| trace := (trace c ++ release_engine c) ++ release_port |>).
  unfold bind. by destruct (conn_close _).
Qed.

Lemma run_caught_verbose which c fuel :
  2 < verbose -> event_del_ok = true -> closing_alone c -> (2 <= fuel)%nat ->
  exists c', run_caught fuel which c = Some (Done tt c') /\ shouldDelete c' = false /\ thread c' = false /\
    trace c' = trace c ++ release_engine c ++ release_port ++ release_resources c ++
               [CloseSocket; ReleaseReservedItems []] ++ release_port.
Proof.
  intros Hv Hd [Ht Hth Hre Hbl Hev Hp] Hf. destruct fuel as [|[|fuel]]; [lia..|].
  unfold run_caught. set (c0 := c <| currentEvent := which |> <| numEvents := _ |>).
  rewrite (run_closing c0) by done. rewrite conn_close_runs by done.
  rewrite setState_destroyed by done. rewrite (proj2 (Z.ltb_lt 2 verbose)) by done.
  cbn [mbind option_bind]. set (c2 := cleaned _).
  rewrite (setState_plain conn_closing c2) by done.
  rewrite run_closing by done. set (c3 := _ <| trace := _ |>).
  assert (conn_close c3 = Throw c3) as -> by done. cbn [mbind option_bind].
  exists c3. split; [done|]. split; [done|]. split; [done|]. cbn -[app fmap]. unfold release_resources.
  rewrite <- !app_assoc. reflexivity.
Qed.

(** A worker thread that has the buffers of a connection right. *)
Record in_worker (id : nat) (w : worker) (c : connection) : Prop := {
  iw_ok : worker_ok w;
  iw_conn : is_Some (conns w !! id);
  iw_write : held w (CWrite id) = buf (write c);
}.

Lemma note_bufs_ok id w c : in_worker id w c -> thread c = true -> worker_ok (note_bufs id c w).
Proof.
  intros [Hw [b Hb] Hwr] Ht. apply (set_conn_ok id b); [done|done| | |cbn; congruence]; cbn.
  - by rewrite Hb.
  - rewrite <- Hwr. cbn. by rewrite Hb.
Qed.

(** A closing connection borrows: nothing but its buffers changes. *)
Lemma borrow_closing pr pw id w c :
  in_worker id w c -> closing_alone c -> malloc_ok pr (live w) -> malloc_ok pw ({[pr]} ∪ live w) ->
  exists w' c', borrow pr pw id w c = Done tt (w', c') /\ worker_ok w' /\ is_Some (conns w' !! id) /\ closing_alone c' /\
    trace c' = trace c /\ item c' = item c /\ reserved_items c' = reserved_items c /\ temp_alloc c' = temp_alloc c.
Proof.
  intros Hi Ha Hr Hp. pose proof Ha as [Ht Hth Hre Hbl Hev Hpo]. unfold borrow.
  destruct (conn_loan_buffers_ok pr pw id (bufs_of (held w (CRead id)) c) (note_bufs id c w))
    as (w' & b & -> & Hw' & Hb & _); [by apply note_bufs_ok|cbn; by rewrite lookup_insert, decide_True|done..|].
  rewrite Hb. set (c' := set_bufs _ b c).
  assert (when (closing b) (setState conn_closing) c' = Done tt c') as ->.
  { unfold when, setState, bind at 1, gets at 1. destruct (closing b); [|done]. by rewrite decide_True by (by cbn). }
  exists w', c'. split; [done|]. split; [done|]. split; [by eexists|]. split; [by split|done].
Qed.

(** With a verbosity above 2, [setState] logs the names of the states, and
    [conn_destroyed] has none: the exception it throws is caught by the event
    loop, which closes the connection a second time.  The port's connection
    count is decremented twice, the disconnect callbacks run twice, and the
    connection never reaches the state in which it is deleted.  Its buffers are
    given back all the same. *)
Theorem verbose_connection_leaks pr pw which id w c fuel :
  2 < verbose -> event_del_ok = true -> closing_alone c -> (2 <= fuel)%nat ->
  in_worker id w c -> malloc_ok pr (live w) -> malloc_ok pw ({[pr]} ∪ live w) ->
  exists w' c', runEventLoop fuel pr pw 0 which id w c = Some (Done tt (w', c')) /\ shouldDelete c' = false /\
    worker_ok w' /\ held w' (CRead id) = 0 /\ held w' (CWrite id) = 0 /\
    trace c' = trace c ++ release_engine c ++ release_port ++ release_resources c ++
               [CloseSocket; ReleaseReservedItems []] ++ release_port.
Proof.
  intros Hv Hd Ha Hf Hi Hr Hp.
  destruct (borrow_closing pr pw id w c Hi Ha Hr Hp) as (w1 & c1 & E1 & Hw1 & [b Hb] & Ha1 & Et & Ei & Er & Em).
  destruct (run_caught_verbose which c1 fuel Hv Hd Ha1 Hf) as (c2 & E2 & Hdel & Hth & Htr).
  unfold runEventLoop. rewrite E1, E2. cbn [mbind option_bind]. unfold give_back, realloc_read.
  rewrite Hb. cbn [mbind option_bind Z.eqb orb]. rewrite Hth.
  destruct (conn_cleanup_ok id b w1 Hw1 Hb) as (w2 & b2 & -> & Hw2 & Hb2 & Ht2 & _). cbn [mbind option_bind].
  destruct (conn_return_buffers_ok id b2 w2 Hw2 Hb2) as (w3 & b3 & -> & Hw3 & Hb3 & Ht3 & _). cbn [mbind option_bind].
  rewrite Hb3. cbn [mbind option_bind]. destruct (wo_detached w3 Hw3 id b3 Hb3) as [Z1 Z2]; [congruence|].
  eexists w3, _. split; [done|]. split; [done|]. split; [done|]. cbn. rewrite Hb3. cbn. split; [done|]. split; [done|].
  rewrite Htr. unfold release_engine, release_resources. by rewrite Et, Ei, Er, Em.
Qed.

End Closing.

(** ** The socket of a closed connection *)

Section Invariant.
Context `{System} `{Engine} `{Bucket} `{Process}.

(** The states behind [conn_closing]. *)
Definition after_closing (t : task) : bool :=
  match t with
  | conn_pending_close | conn_immediate_close | conn_destroyed => true
  | _ => false
  end.

(** A connection behind [conn_closing] has no socket, and no response leads
    there. *)
Record socket_inv (c : connection) : Prop := {
  sk_closed : after_closing (currentTask c) = true -> socket_open c = false;
  sk_go : after_closing (write_and_go c) = false;
}.

Abbreviation preserves := (safe socket_inv).

(** The socket is as it was, and the task and the task after the response are
    as they were or not behind [conn_closing]. *)
Record undisturbed (b : bool) (t g : task) (c : connection) : Prop := {
  ud_socket : socket_open c = b;
  ud_task : currentTask c = t \/ after_closing (currentTask c) = false;
  ud_go : write_and_go c = g \/ after_closing (write_and_go c) = false;
}.

(** Code that neither opens or closes the socket nor enters the states behind
    [conn_closing]. *)
Definition discreet {A} (m : M A) : Prop := forall b t g, safe (undisturbed b t g) m.

Lemma discreet_preserves {A} (m : M A) : discreet m -> preserves m.
Proof.
  intros Hm c [Hc Hg]. specialize (Hm (socket_open c) (currentTask c) (write_and_go c) c).
  destruct (m c) as [a c'|c'|]; [| |done].
  all: destruct Hm as [Hs Ht Hw]; [by split; auto|].
  all: split; [rewrite Hs; destruct Ht as [->| ->]; done|by destruct Hw as [->| ->]].
Qed.

Lemma d_modify f :
  (forall c, currentTask (f c) = currentTask c) -> (forall c, socket_open (f c) = socket_open c) ->
  (forall c, write_and_go (f c) = write_and_go c) -> discreet (modify f).
Proof. intros Ht Hs Hw b t g c [Hc Hk Hg]. split; [by rewrite Hs|by rewrite Ht|by rewrite Hw]. Qed.

Lemma d_setWriteAndGo t : after_closing t = false -> discreet (setWriteAndGo t).
Proof. intros Ht b k g c [Hc Hk Hg]. split; auto. Qed.

Lemma d_emit ef : discreet (emit ef).
Proof. by apply d_modify. Qed.

Lemma d_collect_started : discreet collect_started.
Proof.
  intros b t g. unfold collect_started, mcbp_collect_timings. safely; apply d_emit.
Qed.

(** [setState] goes to the state asked for, or to [conn_ship_log]. *)
Lemma setState_effect t c :
  match setState t c with
  | Done _ c' | Throw c' =>
      socket_open c' = socket_open c /\ write_and_go c' = write_and_go c /\
      (currentTask c' = currentTask c \/ currentTask c' = t \/ currentTask c' = conn_ship_log)
  | Crash => False
  end.
Proof.
  unfold setState, bind, gets. case_decide as E; [cbn; auto|].
  destruct ((tap_iterator c || dcp c) && bool_decide (t = conn_waiting)).
  all: cbn beta iota delta [ret modify when].
  all: destruct ((tap_iterator c || dcp c) && _).
  all: destruct ((2 <? verbose) || _ || _); [destruct (_ && _); [|by cbn; auto]|].
  all: destruct (bool_decide (_ = conn_write) || _); [|by cbn; auto].
  all: unfold collect_started, mcbp_collect_timings, emit, bind, gets, when, modify, ret.
  all: cbn; destruct (start c == 0); cbn; auto.
Qed.

Lemma d_setState t : after_closing t = false -> discreet (setState t).
Proof.
  intros Ht b k g c [Hc Hk Hg]. pose proof (setState_effect t c) as E.
  destruct (setState t c) as [a c'|c'|]; [| |done]; destruct E as (Es & Ew & E).
  all: split; [congruence| |by rewrite Ew]; destruct E as [->|[->| ->]]; auto.
Qed.

Lemma p_setState t : after_closing t = false -> preserves (setState t).
Proof. intros Ht. by apply discreet_preserves, d_setState. Qed.

(** The engine's function for the cluster map, which calls back. *)
Definition vb_map_discreet : Prop := forall f cb,
  get_engine_vb_map = Some f -> (forall m, discreet (cb m)) -> discreet (f cb).

(** What the machine relies on of the code it calls. *)
Class WellBehaved := {
  wb_executor : forall e pkt, discreet (run_executor e pkt);
  wb_tap_notify : forall f st sq key, tap_notify = Some f -> discreet (f st sq key);
  wb_dcp_response : forall f pkt, dcp_response_handler = Some f -> discreet (f pkt);
  wb_unknown : forall pkt, discreet (unknown_command pkt);
  wb_extension : forall op f pkt, extension_command op = Some f -> discreet (f pkt);
  wb_vb_map : vb_map_discreet;
  wb_dcp_log : discreet ship_dcp_log;
  wb_tap_log : discreet ship_tap_log;
  wb_tap_connect : discreet tap_connect;
}.

Hint Extern 1 (after_closing _ = false) => reflexivity : safe.
Hint Resolve discreet_preserves d_setState d_setWriteAndGo d_emit : safe.
Hint Extern 1 (safe (undisturbed ?b ?t ?g) ?m) =>
  (let Hd := fresh in assert (discreet m) as Hd by (eauto with safe nocore); exact (Hd b t g)) : safe.

(** Functions written on the connection directly. *)
Ltac discreet_fields :=
  intros b t g c [Hc Hk Hg]; unfold add_msghdr, add_iov, store, grow_dynamic, move_offset, packet_bytes;
  repeat case_match; simplify_eq; try done; by split.

Lemma d_add_msghdr reset : discreet (add_msghdr reset).
Proof. discreet_fields. Qed.

Lemma d_add_iov a n : discreet (add_iov a n).
Proof. discreet_fields. Qed.

Lemma d_store a bs : discreet (store a bs).
Proof. intros b t g. unfold store. safely. Qed.

Lemma d_grow_dynamic n : discreet (grow_dynamic n).
Proof. discreet_fields. Qed.

Lemma d_move_offset n : discreet (move_offset n).
Proof. discreet_fields. Qed.

Lemma d_packet_bytes : discreet packet_bytes.
Proof. discreet_fields. Qed.

Hint Resolve d_add_msghdr d_add_iov d_store d_grow_dynamic d_move_offset d_packet_bytes
  d_collect_started : safe.

Lemma d_add_header err e k n d : discreet (mcbp_add_header err e k n d).
Proof. intros b t g. unfold mcbp_add_header. safely. Qed.
Hint Resolve d_add_header : safe.

Lemma d_write_response d e k n : discreet (mcbp_write_response d e k n).
Proof. intros b t g. unfold mcbp_write_response. safely. Qed.

Lemma d_write_and_free : discreet mcbp_write_and_free.
Proof. intros b t g. unfold mcbp_write_and_free. safely. Qed.

Lemma d_vb_map_cb m : discreet (get_vb_map_cb m).
Proof. intros b t g. unfold get_vb_map_cb. safely. Qed.

Lemma d_response_handler l u key ext body dt st cas :
  discreet (mcbp_response_handler l u key ext body dt st cas).
Proof. intros b t g. unfold mcbp_response_handler. safely. Qed.
Hint Resolve d_write_response d_write_and_free d_vb_map_cb d_response_handler : safe.

Lemma d_write_packet err : vb_map_discreet -> discreet (mcbp_write_packet err).
Proof. intros Hmap b t g. unfold mcbp_write_packet. safely. Qed.

Lemma d_take_aiostat : discreet take_aiostat.
Proof. intros b t g. unfold take_aiostat. safely. Qed.

Context `{!WellBehaved}.
Hint Resolve wb_executor wb_tap_notify wb_dcp_response wb_unknown wb_extension wb_vb_map
  wb_dcp_log wb_tap_log wb_tap_connect : safe.
Hint Resolve d_write_packet d_take_aiostat : safe.

Lemma p_refuse err : preserves (refuse err).
Proof. unfold refuse. safely. Qed.
Hint Resolve p_refuse : safe.

Lemma p_complete_nread : preserves mcbp_complete_nread.
Proof.
  unfold mcbp_complete_nread, process_bin_tap_ack, process_bin_dcp_response, process_bin_packet, choose_executor,
    process_bin_unknown_packet, default_unknown_command, update_topkeys.
  safely.
Qed.

Lemma p_read_chunk n : preserves (read_chunk n).
Proof.
  intros c [Hc Hg]. unfold read_chunk. destruct (bin_read_chunk _ _ _ _) as [i|].
  - apply (p_setState conn_nread eq_refl (c <| inp := i |>)). by split.
  - apply (p_setState conn_closing eq_refl). by split.
Qed.
Hint Resolve p_complete_nread p_read_chunk : safe.

Lemma p_fetch_header : preserves (fun c => match fetch_header (inp c) with
  | Some i => Done tt (c <| inp := i |>) | None => Crash end).
Proof. intros c [Hc Hg]. destruct (fetch_header (inp c)); [by split|done]. Qed.

Lemma p_try_read_command : preserves try_read_mcbp_command.
Proof.
  unfold try_read_mcbp_command, dispatch_bin_command, handle_binary_protocol_error.
  safely; try apply p_fetch_header. 
Qed.
Hint Resolve p_try_read_command : safe.

Lemma p_unregisterEvent : preserves unregisterEvent.
Proof. unfold unregisterEvent. safely. Qed.
Hint Resolve p_unregisterEvent : safe.

Lemma p_updateEvent flags : preserves (updateEvent flags).
Proof. unfold updateEvent, registerEvent. safely. Qed.

Lemma p_is_bucket_dying : preserves is_bucket_dying.
Proof. unfold is_bucket_dying. safely. Qed.

Lemma p_releaseTempAlloc : preserves releaseTempAlloc.
Proof. unfold releaseTempAlloc. safely. Qed.

Lemma p_reset_cmd_handler : preserves reset_cmd_handler.
Proof. unfold reset_cmd_handler, shrinkBuffers. safely. Qed.
Hint Resolve p_updateEvent p_is_bucket_dying p_releaseTempAlloc p_reset_cmd_handler : safe.

Lemma p_close_with {A} (r : A) : preserves (setState conn_closing;; ret r).
Proof. safely. Qed.

Lemma p_try_read_network : preserves try_read_network.
Proof.
  intros c Hc. unfold try_read_network. destruct (tryReadNetwork _ _ _ _ _) as [[[r b] s]|]; [|done].
  assert (socket_inv (c <| inp := set_read (fun _ => b) (inp c) |> <| sock := s |>)) as Hc'
    by (destruct Hc; by split).
  case_decide; [by apply p_close_with|done].
Qed.

Lemma p_transmit_connection : preserves transmit_connection.
Proof.
  intros c Hc. unfold transmit_connection.
  destruct (match sends c with [] => _ | _ :: _ => _ end) as [[e send] rest].
  assert (socket_inv (c <| sends := rest |>)) as Hc1 by (destruct Hc; by split).
  set (c1 := c <| sends := rest |>) in *. pose proof (p_updateEvent (Z.lor EV_WRITE EV_PERSIST) c1 Hc1) as Hu.
  destruct (updateEvent (Z.lor EV_WRITE EV_PERSIST) c1) as [ok c2|c2|]; cbv zeta.
  all: destruct (transmit _ send (out c1)) as [[[r o] n]|]; [|done].
  all: assert (forall c', socket_inv c' -> socket_inv (c' <| out := o |>)) as Ho
    by (intros c' []; by split).
  all: destruct (bool_decide _ && _); try done.
  all: case_decide; [by apply p_close_with; apply Ho|by apply Ho].
Qed.
Hint Resolve p_try_read_network p_transmit_connection : safe.

Lemma p_releaseReservedItems : preserves releaseReservedItems.
Proof. unfold releaseReservedItems. safely. Qed.
Hint Resolve p_releaseReservedItems : safe.

Lemma p_write_go {A} (k : M A) :
  preserves k -> preserves (go <- gets write_and_go;; setState go;; k).
Proof.
  intros Hk c Hc. unfold bind at 1, gets at 1. apply safe_bind; [apply p_setState, Hc|by intros _|done].
Qed.

Lemma p_task_mwrite : preserves task_mwrite.
Proof. unfold task_mwrite. repeat (apply p_write_go || safe_step). Qed.
Hint Resolve p_task_mwrite : safe.

Lemma p_nread_input : preserves (fun c => let '(r, i, s) := Input.conn_nread (inp c) (sock c) in
  Done r (c <| inp := i |> <| sock := s |>)).
Proof.
  intros c [Hc Hg]. destruct (Input.conn_nread (inp c) (sock c)) as [[r i] s]. by split.
Qed.
Hint Resolve p_nread_input : safe.

Lemma p_error_of r : preserves (error_of r).
Proof. unfold error_of. safely. Qed.
Hint Resolve p_error_of : safe.

Lemma p_task_new_cmd : preserves task_new_cmd.
Proof. unfold task_new_cmd, decrementNumEvents. safely. Qed.

Lemma p_task_waiting : preserves task_waiting.
Proof. unfold task_waiting. safely. Qed.

Lemma p_task_read : preserves task_read.
Proof. unfold task_read. safely. Qed.

Lemma p_task_parse_cmd : preserves task_parse_cmd.
Proof. unfold task_parse_cmd. safely. Qed.

Lemma p_task_write : preserves task_write.
Proof. unfold task_write. safely. Qed.

Lemma p_task_nread : preserves task_nread.
Proof. unfold task_nread. safely. Qed.

Lemma p_task_ship_log : preserves task_ship_log.
Proof. unfold task_ship_log, decrementNumEvents. safely. Qed.

Lemma p_task_sasl_auth : preserves task_sasl_auth.
Proof. unfold task_sasl_auth. safely. Qed.

Lemma p_background :
  preserves task_refresh_cbsasl /\ preserves task_refresh_ssl_certs /\ preserves task_flush /\
  preserves task_audit_configuring /\ preserves task_create_bucket /\ preserves task_delete_bucket.
Proof.
  unfold task_refresh_cbsasl, task_refresh_ssl_certs, task_flush, task_audit_configuring,
    task_create_bucket, task_delete_bucket.
  split_and!; safely.
Qed.

Lemma p_task_closing : preserves task_closing.
Proof.
  unfold task_closing. apply safe_bind; [apply p_unregisterEvent|intros _]. intros c [Hc Hg].
  unfold conn_cleanup_engine_allocations, emit, bind, modify, gets, when, ret.
  cbn -[setState]. destruct (item c == 0); cbn -[setState].
  all: destruct ((1 <? refcount c) || ewouldblock c).
  all: match goal with |- context [setState ?t ?x] => pose proof (setState_effect t x) as E;
         destruct (setState t x) end; [| |done].
  all: destruct E as (Es & Ew & _); split; [by rewrite Es|by rewrite Ew].
Qed.

Lemma p_task_pending_close : preserves task_pending_close.
Proof.
  intros c Hi. unfold task_pending_close, emit, bind, modify, gets, ret, throw.
  destruct (socket_open c) eqn:Eo; [exact Hi|]. destruct Hi as [Hc Hg]. cbn -[setState].
  destruct (1 <? refcount c); [by split|].
  match goal with |- context [setState ?t ?x] => pose proof (setState_effect t x) as E;
    destruct (setState t x) end; [| |done].
  all: destruct E as (Es & Ew & _); split; [by rewrite Es|by rewrite Ew].
Qed.

Lemma p_task_immediate_close c :
  currentTask c = conn_immediate_close -> socket_inv c ->
  match task_immediate_close c with
  | Done _ c' | Throw c' => socket_inv c'
  | Crash => True
  end.
Proof.
  intros Ht [Hc Hg]. rewrite Ht in Hc. specialize (Hc eq_refl).
  destruct (port_instance || pipe_connection) eqn:Ep.
  2: { unfold task_immediate_close, bind, gets, ret, throw. rewrite Hc.
       apply orb_false_iff in Ep as [-> ->]. by split. }
  rewrite task_immediate_close_runs by done. set (c1 := c <| trace := _ |>).
  unfold bind. destruct (thread c) eqn:Eth.
  - rewrite conn_close_runs by done. pose proof (setState_effect conn_destroyed (cleaned c1)) as E.
    destruct (setState conn_destroyed (cleaned c1)); [| |done].
    all: destruct E as (Es & Ew & _); split; [by rewrite Es|by rewrite Ew].
  - unfold conn_close, bind, gets, id, throw. change (socket_open c1) with (socket_open c).
    change (currentTask c1) with (currentTask c). change (thread c1) with (thread c).
    rewrite Hc, Ht, Eth. by split.
Qed.

Lemma p_execute : preserves execute.
Proof.
  destruct p_background as (B1 & B2 & B3 & B4 & B5 & B6).
  intros c Hc. unfold execute, bind at 1, gets at 1. destruct (currentTask c) eqn:Et.
  - by apply p_task_new_cmd.
  - by apply p_task_waiting.
  - by apply p_task_read.
  - by apply p_task_parse_cmd.
  - by apply p_task_write.
  - by apply p_task_nread.
  - by apply p_task_pending_close.
  - by apply p_task_immediate_close.
  - by apply p_task_closing.
  - done.
  - by apply p_task_mwrite.
  - by apply p_task_ship_log.
  - apply safe_bind; [apply discreet_preserves, wb_tap_connect|intros _; apply safe_ret|done].
  - by apply B1.
  - by apply B2.
  - by apply B3.
  - by apply B4.
  - by apply B5.
  - by apply B6.
  - by apply p_task_sasl_auth.
Qed.

(** What happens to a connection: it runs a task, an exception closes it,
    another thread completes its operation, holds or drops a reference or
    shuts it down, and libevent reports an event. *)
Inductive machine_step : connection -> connection -> Prop :=
| step_task b c c' : execute c = Done b c' -> machine_step c c'
| step_throw c c1 c' :
    execute c = Throw c1 -> setState conn_closing c1 = Done tt c' -> machine_step c c'
| step_shutdown c c' : setState conn_closing c = Done tt c' -> machine_step c c'
| step_notify r block c :
    machine_step c (c <| aiostat := r |> <| ewouldblock := block |>)
| step_reference n c : machine_step c (c <| refcount := n |>)
| step_event which n c : machine_step c (c <| currentEvent := which |> <| numEvents := n |>).

Lemma machine_step_inv c c' : socket_inv c -> machine_step c c' -> socket_inv c'.
Proof.
  intros Hc Hs. destruct Hs as [b c c' E|c c1 c' E E'|c c' E|r blk c|n c|which n c].
  - pose proof (p_execute c Hc) as P. by rewrite E in P.
  - pose proof (p_execute c Hc) as P. rewrite E in P.
    pose proof (p_setState conn_closing eq_refl c1 P) as P'. by rewrite E' in P'.
  - pose proof (p_setState conn_closing eq_refl c Hc) as P'. by rewrite E in P'.
  - destruct Hc; by split.
  - destruct Hc; by split.
  - destruct Hc; by split.
Qed.

(** What the invariant gives in the states behind [conn_closing]: their tasks
    run through. *)
Lemma closed_runs c :
  socket_inv c ->
  (after_closing (currentTask c) = true -> socket_open c = false) /\
  (currentTask c = conn_pending_close -> refcount c <= 1 ->
     exists c', execute c = Done true c' /\ currentTask c' = conn_immediate_close) /\
  (currentTask c = conn_immediate_close -> thread c = true ->
     port_instance || pipe_connection = true -> verbose <= 2 ->
     exists c', execute c = Done false c' /\ currentTask c' = conn_destroyed).
Proof.
  intros [Hc Hg]. split; [exact Hc|]. split.
  - intros Ht Hr. unfold execute, bind at 1, gets at 1. rewrite Ht in Hc |- *.
    specialize (Hc eq_refl). unfold task_pending_close, emit, bind, modify, gets. rewrite Hc.
    cbn -[setState]. rewrite (proj2 (Z.ltb_ge 1 (refcount c))) by done.
    rewrite setState_plain by (cbn; congruence). eexists. by split.
  - intros Ht Hth Hp Hv. unfold execute, bind at 1, gets at 1. rewrite Ht in Hc |- *.
    specialize (Hc eq_refl). rewrite task_immediate_close_runs by done.
    unfold bind. rewrite conn_close_runs by done. rewrite setState_destroyed by done.
    rewrite (proj2 (Z.ltb_ge 2 verbose)) by done. eexists. by split.
Qed.

End Invariant.

(** ** Witnesses *)

Definition demo_process : Process := {|
  bucket_dying := false; exit_on_connection_close := false; port_instance := true;
  pipe_connection := false; ssl_more_input := false; ship_dcp_log := ret tt;
  ship_tap_log := ret tt; tap_connect := ret tt; sasl_error := CBSASL_OK;
  sasl_response := 0; sasl_response_length := 0 |}.

Definition closing_connection : connection :=
  (demo_connection blank) <| currentTask := conn_closing |> <| item := 65536 |>.

Lemma closing_connection_alone : @closing_alone demo_process closing_connection.
Proof. by split. Qed.

Lemma connection_closes_witness :
  exists c', @runStateMachinery demo_system plain_engine demo_bucket demo_process 2
      closing_connection = Some (Done tt c') /\ currentTask c' = conn_destroyed.
Proof.
  destruct (@connection_closes demo_system plain_engine demo_bucket demo_process
    closing_connection 2) as (c' & E & Hd & _).
  - vm_compute. discriminate.
  - exact closing_connection_alone.
  - lia.
  - exists c'. split; [exact E|apply Hd].
Defined.

(** The demo system with every state change logged. *)
Definition loud_system : System := {|
  verbose := 3; iov_max := 1024; alloc_msg := always; alloc_iov := always;
  realloc_at := fun _ => 65536; realloc_ok := fun _ => true; junk := Byte.x00;
  push_temp := true; status_text := fun _ => 1000000; dedupe_nmvb_maps := true;
  require_sasl := true; server_initialized := true; max_packet_size := 31457280;
  gethrtime := 1; current_time := 0; connection_idle_time := 0; event_add_ok := true;
  event_del_ok := true; event_assign_ok := true; ssl_peek := false |}.

(** A worker thread with the connection, whose write buffer is at 4096. *)
Definition demo_worker : worker :=
  mk_worker no_buf no_buf (mk_stats 0 0 0 0 0) {[4096]} {[0%nat := bufs_of 0 closing_connection]}.

Lemma demo_held s : held demo_worker s = if decide (s = CWrite 0) then 4096 else 0.
Proof.
  destruct s as [| |[|i]|[|i]]; try reflexivity.
  all: unfold held, demo_worker, conns; rewrite lookup_singleton_ne by done; cbn; by rewrite decide_False.
Qed.

Lemma demo_in_worker : in_worker 0 demo_worker closing_connection.
Proof.
  split; [|by eexists|reflexivity]. split; [split|by repeat split|].
  - intros s s'. rewrite !demo_held. repeat case_decide; congruence.
  - intros p. cbn [live demo_worker]. rewrite elem_of_singleton. split.
    + intros ->. split; [done|]. by exists (CWrite 0).
    + intros (Hp & s & Hs). rewrite demo_held in Hs. case_decide; congruence.
  - intros i b Hi. cbn [conns demo_worker] in Hi. apply lookup_singleton_Some in Hi as [<- <-]. done.
Qed.

Lemma verbose_connection_leaks_witness :
  exists w' c', @runEventLoop loud_system plain_engine demo_bucket demo_process 2 8192 0 0 EV_READ 0 demo_worker
      closing_connection = Some (Done tt (w', c')) /\ shouldDelete c' = false.
Proof.
  destruct (@verbose_connection_leaks loud_system plain_engine demo_bucket demo_process 8192 0 EV_READ 0 demo_worker
    closing_connection 2) as (w' & c' & E & Hd & _).
  - vm_compute. reflexivity.
  - reflexivity.
  - exact closing_connection_alone.
  - lia.
  - exact demo_in_worker.
  - right. set_solver.
  - by left.
  - exists w', c'. split; [exact E|exact Hd].
Defined.
