(* ===== verification/SessionCas.v ===== *)
(** * The session token

    [daemon/session_cas.h] and [daemon/session_cas.cc]: the token with which
    the cluster manager protects its operations.  An operation that takes long
    increments a counter for as long as it runs, and the token cannot be
    changed while the counter is not 0.  Every function holds the object's
    mutex, so the functions are atomic steps. *)

From stdpp Require Import gmap.
From S2P Require Import Prelude Protocol.

Record SessionCas := mk_session {
  value : Z;
  counter : Z;
}.

(** The constructor, and the object [session_cas]. *)
Definition initial_session : SessionCas := mk_session 0xdeadbeef 0.

(** [SessionCas::cas]; it looks at the counter of the global object, which is
    [global].  The results are the error code and [currentValue]. *)
Definition cas (global self : SessionCas) (newValue casval : Z)
    : ENGINE_ERROR_CODE * Z * SessionCas :=
  if 0 <? counter global then (ENGINE_EBUSY, value self, self) else
  if (casval == 0) || (casval == value self)
  then (ENGINE_SUCCESS, newValue, mk_session newValue (counter self))
  else (ENGINE_KEY_EEXISTS, value self, self).

Definition getCasValue (s : SessionCas) : Z := value s.

(** [decrement_session_counter]; [None] where it throws. *)
Definition decrement_session_counter (s : SessionCas) : option SessionCas :=
  if counter s == 0 then None else Some (mk_session (value s) (u64 (counter s - 1))).

(** [increment_session_counter] *)
Definition increment_session_counter (c : Z) (s : SessionCas) : bool * SessionCas :=
  if c != 0 then
    if value s != c then (false, s) else (true, mk_session (value s) (u64 (counter s + 1)))
  else (true, mk_session (value s) (u64 (counter s + 1))).

(** ** Operations protected by the token *)

(** Clients that begin and end operations, and that set the token. *)
Inductive session_op :=
| Begin (client : nat) (c : Z)
| End_ (client : nat)
| SetToken (newValue casval : Z).

(** What a client sees of an operation. *)
Inductive session_answer :=
| Began (ok : bool)
| Ended
| TokenSet (r : ENGINE_ERROR_CODE) (current : Z).

(** The implementation. *)
Definition session_step (op : session_op) (s : SessionCas) : option (session_answer * SessionCas) :=
  match op with
  | Begin _ c => let '(ok, s) := increment_session_counter c s in Some (Began ok, s)
  | End_ _ => s ← decrement_session_counter s; Some (Ended, s)
  | SetToken n c => let '(r, v, s) := cas s s n c in Some (TokenSet r v, s)
  end.

(** The specification: a token and the clients that run an operation. *)
Record session_spec := mk_spec {
  token : Z;
  running : gset nat;
}.

(** A client ends what it began and does not begin twice. *)
Definition legal (op : session_op) (a : session_spec) : Prop :=
  match op with
  | Begin client _ => client ∉ running a
  | End_ client => client ∈ running a
  | SetToken _ _ => True
  end.

Definition spec_step (op : session_op) (a : session_spec) : session_answer * session_spec :=
  match op with
  | Begin client c =>
      if decide (c = 0 \/ c = token a)
      then (Began true, mk_spec (token a) ({[client]} ∪ running a))
      else (Began false, a)
  | End_ client => (Ended, mk_spec (token a) (running a ∖ {[client]}))
  | SetToken n c =>
      if decide (running a = ∅) then
        if decide (c = 0 \/ c = token a) then (TokenSet ENGINE_SUCCESS n, mk_spec n (running a))
        else (TokenSet ENGINE_KEY_EEXISTS (token a), a)
      else (TokenSet ENGINE_EBUSY (token a), a)
  end.

(** The counter is the number of running operations; there are fewer than
    2^64 of them. *)
Record session_rel (a : session_spec) (s : SessionCas) : Prop := {
  sr_value : value s = token a;
  sr_counter : counter s = Z.of_nat (size (running a));
}.

Definition few (a : session_spec) : Prop := Z.of_nat (size (running a)) < 2 ^ 64 - 1.

(** C36: the counter implements the specification: whatever clients do in
    whatever order, each gets the answer of the specification, in which the
    token changes only when no operation is running, and the counter is never
    decremented below 0. *)
Theorem session_cas_refines op a s :
  session_rel a s -> legal op a -> few a ->
  exists s', session_step op s = Some ((spec_step op a).1, s') /\
    session_rel (spec_step op a).2 s'.
Proof.
  intros [Hv Hc] Hl Hf. unfold few in Hf. destruct op as [client c|client|n c]; cbn in Hl |- *.
  - unfold increment_session_counter. rewrite Hv.
    assert (session_rel (mk_spec (token a) ({[client]} ∪ running a))
              (mk_session (token a) (u64 (counter s + 1)))) as Hr.
    { split; cbn; [done|].
      rewrite size_union by set_solver. rewrite size_singleton, wrap_small by lia. lia. }
    destruct (c == 0) eqn:E0; cbn [negb].
    + rewrite decide_True by (left; lia). eexists. split; [done|]. exact Hr.
    + destruct (token a == c) eqn:E; cbn [negb].
      * rewrite decide_True by (right; lia). eexists. split; [done|]. exact Hr.
      * rewrite decide_False by lia. eexists. split; [done|]. by split.
  - unfold decrement_session_counter.
    assert (size (running a) = S (size (running a ∖ {[client]}))) as Hs.
    { rewrite (union_difference_singleton_L client (running a)) at 1 by done.
      rewrite size_union by set_solver. rewrite size_singleton. lia. }
    rewrite (proj2 (Z.eqb_neq (counter s) 0)) by lia. eexists. split; [done|].
    split; cbn; [done|]. rewrite wrap_small by lia. lia.
  - unfold cas. destruct (decide (running a = ∅)) as [He|He].
    + rewrite Hc, He, size_empty. cbn. rewrite Hv.
      destruct (decide (c = 0 \/ c = token a)) as [Ht|Ht].
      * replace ((c == 0) || (c == token a)) with true by lia. eexists. split; [done|].
        split; cbn; [done|]. by rewrite ?Hc, ?He.
      * replace ((c == 0) || (c == token a)) with false by lia. eexists. split; [done|]. by split.
    + assert (size (running a) <> 0%nat) as Hne
        by (intros Hz; apply He; apply size_empty_inv in Hz; by apply leibniz_equiv).
      rewrite (proj2 (Z.ltb_lt 0 (counter s))) by lia. rewrite Hv. eexists. split; [done|]. by split.
Qed.

Lemma session_cas_refines_witness :
  exists s', session_step (SetToken 7 0) (mk_session 5 1) =
      Some ((spec_step (SetToken 7 0) (mk_spec 5 {[3%nat]})).1, s') /\
    session_rel (spec_step (SetToken 7 0) (mk_spec 5 {[3%nat]})).2 s'.
Proof.
  apply (session_cas_refines (SetToken 7 0) (mk_spec 5 {[3%nat]}) (mk_session 5 1)).
  - by split.
  - done.
  - by vm_compute.
Defined.
