(* ===== verification/McTime.v ===== *)
(** * The server's clock

    [daemon/mc_time.cc]: the uptime in seconds, the time of day at which the
    server started (the "epoch"), which follows changes of the system's clock,
    and the conversions between the expiry times of the protocol and the
    relative times the engines keep. *)

From S2P Require Import Prelude RecordUpdate.

Definition memcached_check_system_time : Z := 60.
Definition memcached_maximum_relative_time : Z := 60 * 60 * 24 * 30.

(** The file's variables and the static variables of [mc_time_clock_tick]. *)
Record mc_time := mk_time {
  memcached_uptime : Z;
  memcached_epoch : Z;
  memcached_monotonic_start : Z;
  check_system_time : Z;
  previous_time_valid : bool;
  previous_time : Z;
}.

#[export] Instance mc_time_settable : Settable mc_time := fun s =>
  mk_time (memcached_uptime s) (memcached_epoch s) (memcached_monotonic_start s)
    (check_system_time s) (previous_time_valid s) (previous_time s).

(** Static initialisation. *)
Definition initial_time : mc_time := mk_time 0 0 0 0 false 0.

(** What [cb_get_monotonic_seconds] and [cb_get_timeofday] return. *)
Record clocks := mk_clocks {
  monotonic_seconds : Z;
  timeofday : Z;
}.

(** [mc_time_init_epoch] *)
Definition mc_time_init_epoch (now : clocks) (s : mc_time) : mc_time :=
  let s := s <| memcached_uptime := 0 |> in
  let s := s <| memcached_monotonic_start := monotonic_seconds now |> in
  s <| memcached_epoch := timeofday now |>.

Definition mc_time_get_current_time (s : mc_time) : Z := memcached_uptime s.

(** [mc_time_convert_to_real_time]; [t] is a signed 64-bit number. *)
Definition mc_time_convert_to_real_time (s : mc_time) (t : Z) : Z :=
  if memcached_maximum_relative_time <? t then
    if t <=? memcached_epoch s then 1 else u32 (i64 (t - memcached_epoch s))
  else if t != 0 then u32 (i64 (t + memcached_uptime s))
  else 0.

(** [mc_time_convert_to_abs_time] *)
Definition mc_time_convert_to_abs_time (s : mc_time) (rel_time : Z) : Z :=
  i64 (memcached_epoch s + rel_time).

(** [mc_time_clock_tick], without the log message. *)
Definition mc_time_clock_tick (now : clocks) (s : mc_time) : mc_time :=
  let s := s <| memcached_uptime :=
    u32 (u64 (monotonic_seconds now - memcached_monotonic_start s)) |> in
  if check_system_time s <=? memcached_uptime s then
    let difference := Z.abs (i64 (timeofday now - previous_time s)) in
    let s :=
      if previous_time_valid s &&
         ((memcached_check_system_time + 1 <? difference) ||
          (difference <? memcached_check_system_time - 1))
      then s <| memcached_epoch := i64 (timeofday now - memcached_uptime s) |>
      else s in
    let s := s <| check_system_time := u64 (check_system_time s + memcached_check_system_time) |> in
    let s := s <| previous_time_valid := true |> in
    s <| previous_time := timeofday now |>
  else s.

(** [mc_time_clock_event_handler]: arms the timer again and ticks, unless the
    server shuts down. *)
Definition mc_time_clock_event_handler (memcached_shutdown : bool) (now : clocks) (s : mc_time)
    : mc_time :=
  if memcached_shutdown then s else mc_time_clock_tick now s.

(** [mc_time_init]; the clocks are read three times. *)
Definition mc_time_init (now now' now'' : clocks) (s : mc_time) : mc_time :=
  let s := mc_time_init_epoch now s in
  let s := mc_time_clock_tick now' s in
  mc_time_clock_event_handler false now'' s.

(** The server's clock after the events of the timer. *)
Definition run_clock (events : list clocks) (s : mc_time) : mc_time :=
  fold_left (fun s now => mc_time_clock_event_handler false now s) events s.

(** ** Expiry times *)

(** A server that runs for less than a hundred years. *)
Record sane (s : mc_time) : Prop := {
  sane_uptime : 0 <= memcached_uptime s < 3153600000;
  sane_epoch : 0 <= memcached_epoch s < 2 ^ 40;
}.

Lemma i64_small z : - 2 ^ 63 <= z < 2 ^ 63 -> i64 z = z.
Proof. intros. apply swrap_small; [lia|]. done. Qed.

(** An expiry time of the protocol keeps its meaning: 0 is never and the
    only time that is never; up to 30 days it counts from now; above, it is
    the time of day, and a time before the start of the server is the first
    second after it. *)
Theorem convert_to_real_time_spec s t :
  sane s -> 0 <= t < 2 ^ 32 ->
  let rel := mc_time_convert_to_real_time s t in
  (rel = 0 <-> t = 0) /\
  (0 < t <= 2592000 ->
    mc_time_convert_to_abs_time s rel =
    mc_time_convert_to_abs_time s (mc_time_get_current_time s) + t) /\
  (2592000 < t -> memcached_epoch s < t -> mc_time_convert_to_abs_time s rel = t) /\
  (2592000 < t <= memcached_epoch s -> rel = 1).
Proof.
  intros [Hu He] Ht. cbn zeta.
  unfold mc_time_convert_to_real_time, mc_time_convert_to_abs_time, mc_time_get_current_time.
  change memcached_maximum_relative_time with 2592000.
  destruct (2592000 <? t) eqn:E1; [destruct (t <=? memcached_epoch s) eqn:E2|
    destruct (t == 0) eqn:E2; cbn [negb]]; rewrite ?(i64_small (_ - _)), ?(i64_small (t + _)), ?u32_small by lia;
    repeat split; intros; rewrite ?i64_small by lia; lia.
Qed.

Definition running : mc_time := mk_time 100 1500000000 7 120 true 1500000060.

Lemma convert_to_real_time_spec_witness :
  mc_time_convert_to_abs_time running (mc_time_convert_to_real_time running 60) = 1500000160 /\
  mc_time_convert_to_abs_time running (mc_time_convert_to_real_time running 1600000000) = 1600000000.
Proof.
  split.
  - apply (convert_to_real_time_spec running 60); [split; cbn; lia|lia|lia].
  - apply (convert_to_real_time_spec running 1600000000); [split; cbn; lia|lia|lia|cbn; lia].
Defined.

(** ** Following the clocks *)

(** The time of day and the monotonic clock run side by side: they stay within
    [d] seconds of a distance [k]; [start] is where the monotonic clock was. *)
Definition steady (k d start : Z) (now : clocks) : Prop :=
  k <= timeofday now - monotonic_seconds now <= k + d /\
  0 <= start <= monotonic_seconds now /\
  monotonic_seconds now - start < 2 ^ 32 /\
  0 <= timeofday now < 2 ^ 40.

(** The epoch is where the clocks were at the start. *)
Definition synchronized (k d start : Z) (s : mc_time) : Prop :=
  memcached_monotonic_start s = start /\ k <= memcached_epoch s - start <= k + d.

Lemma tick_uptime now s :
  memcached_uptime (mc_time_clock_tick now s) =
  u32 (u64 (monotonic_seconds now - memcached_monotonic_start s)).
Proof. unfold mc_time_clock_tick. repeat case_match; done. Qed.

Lemma tick_start now s :
  memcached_monotonic_start (mc_time_clock_tick now s) = memcached_monotonic_start s.
Proof. unfold mc_time_clock_tick. repeat case_match; done. Qed.

Lemma uptime_steady k d start now :
  steady k d start now ->
  u32 (u64 (monotonic_seconds now - start)) = monotonic_seconds now - start.
Proof. intros (_ & ? & ? & _). rewrite (wrap_small 64) by lia. apply wrap_small. lia. Qed.

(** A tick keeps the epoch or takes it from the clocks. *)
Lemma tick_epoch now s :
  let s' := mc_time_clock_tick now s in
  memcached_epoch s' = memcached_epoch s \/
  memcached_epoch s' = i64 (timeofday now - memcached_uptime s').
Proof. cbn zeta. unfold mc_time_clock_tick. repeat case_match; auto. Qed.

Lemma tick_synchronized k d start now s :
  steady k d start now -> synchronized k d start s ->
  synchronized k d start (mc_time_clock_tick now s).
Proof.
  intros Hn [Hs He]. pose proof (uptime_steady _ _ _ _ Hn) as Hu. destruct Hn as (? & ? & ? & ?).
  split; [by rewrite tick_start|].
  destruct (tick_epoch now s) as [->| ->]; [done|].
  rewrite tick_uptime, Hs, Hu, i64_small by lia. lia.
Qed.

Lemma run_synchronized k d start events s :
  Forall (steady k d start) events -> synchronized k d start s ->
  synchronized k d start (run_clock events s).
Proof.
  intros H. revert s. induction H; cbn; [done|]. intros s Hs.
  apply IHForall. by apply tick_synchronized.
Qed.

(** C40: while the system's clock runs steadily, the server's time of day is
    the system's, within the jitter of the two clocks, after every event of
    the timer and however late the events come, and the uptime is the time
    since the start. *)
Theorem clock_follows k d now now' now'' events last :
  d < 2 ^ 40 ->
  let start := monotonic_seconds now in
  Forall (steady k d start) (now :: now' :: now'' :: events ++ [last]) ->
  let s := run_clock (events ++ [last]) (mc_time_init now now' now'' initial_time) in
  mc_time_get_current_time s = monotonic_seconds last - start /\
  Z.abs (mc_time_convert_to_abs_time s (mc_time_get_current_time s) - timeofday last) <= d.
Proof.
  intros Hd. cbn zeta. set (start := monotonic_seconds now). intros H.
  rewrite !Forall_cons, Forall_app, Forall_singleton in H.
  destruct H as (H0 & H1 & H2 & Hev & Hl).
  set (i := mc_time_init _ _ _ _).
  assert (synchronized k d start (mc_time_init_epoch now initial_time)) as Hi.
  { destruct H0 as (? & ? & ? & ?). split; [done|]. cbn. subst start. lia. }
  assert (synchronized k d start i) as Hi' by (by apply tick_synchronized, tick_synchronized).
  unfold run_clock. rewrite fold_left_app. fold (run_clock events i).
  cbn [fold_left mc_time_clock_event_handler].
  pose proof (run_synchronized _ _ _ _ _ Hev Hi') as Hr.
  pose proof (tick_synchronized _ _ _ _ _ Hl Hr) as [_ He].
  assert (mc_time_get_current_time (mc_time_clock_tick last (run_clock events i)) =
    monotonic_seconds last - start) as Hu.
  { unfold mc_time_get_current_time. rewrite tick_uptime, (proj1 Hr). by eapply uptime_steady. }
  split; [done|]. rewrite Hu. unfold mc_time_convert_to_abs_time.
  destruct Hl as (? & ? & ? & ?). rewrite i64_small by lia. lia.
Qed.

Lemma clock_follows_witness :
  let s := run_clock ([] ++ [mk_clocks 190 1500000181])
             (mc_time_init (mk_clocks 10 1500000000) (mk_clocks 10 1500000000)
                (mk_clocks 10 1500000000) initial_time) in
  mc_time_get_current_time s = 180 /\
  Z.abs (mc_time_convert_to_abs_time s 180 - 1500000181) <= 1.
Proof.
  apply (clock_follows 1499999990 1 (mk_clocks 10 1500000000) (mk_clocks 10 1500000000)
    (mk_clocks 10 1500000000) [] (mk_clocks 190 1500000181)); [lia|].
  repeat (constructor; [unfold steady; cbn; lia|]). constructor.
Defined.

(** A step of the system's clock is noticed only by the distance of two
    readings: a clock that was right and is set back so that it shows a minute
    before the last reading is taken as running steadily, and the server's
    time of day stays two minutes ahead. *)
Theorem clock_step_back_missed s now :
  sane s -> previous_time_valid s = true ->
  memcached_epoch s + (check_system_time s - 60) = previous_time s ->
  0 <= memcached_monotonic_start s -> 60 <= check_system_time s < 2 ^ 31 ->
  monotonic_seconds now = memcached_monotonic_start s + check_system_time s ->
  timeofday now = previous_time s - 60 ->
  let s' := mc_time_clock_tick now s in
  mc_time_convert_to_abs_time s' (mc_time_get_current_time s') = timeofday now + 120 /\
  memcached_epoch s' = memcached_epoch s.
Proof.
  intros [Hu He] Hv Hp Hm Hc Hmono Htod. cbn zeta.
  assert (memcached_epoch (mc_time_clock_tick now s) = memcached_epoch s) as Hk.
  { unfold mc_time_clock_tick. fields. cbn. rewrite Hv, Htod.
    replace (previous_time s - 60 - previous_time s) with (-60) by lia.
    change (Z.abs (i64 (-60))) with 60. cbn. by case_match. }
  split; [|done]. unfold mc_time_convert_to_abs_time, mc_time_get_current_time.
  rewrite Hk, tick_uptime, Hmono.
  replace (memcached_monotonic_start s + check_system_time s - memcached_monotonic_start s)
    with (check_system_time s) by lia.
  rewrite (wrap_small 64), (wrap_small 32), i64_small by lia. lia.
Qed.

Lemma clock_step_back_missed_witness :
  let s' := mc_time_clock_tick (mk_clocks 127 1500000000) running in
  mc_time_convert_to_abs_time s' (mc_time_get_current_time s') = 1500000120 /\
  memcached_epoch s' = 1500000000.
Proof.
  apply (clock_step_back_missed running (mk_clocks 127 1500000000)); try done; cbn; lia.
Defined.
