(* ===== verification/Buckets.v ===== *)
(** * Buckets

    The buckets of the server ([daemon/buckets.h], [daemon/buckets.cc]), the
    connections that use them, and the threads that create and destroy them
    ([daemon/memcached.cc]).

    The threads run side by side.  A step is what one of them does while it
    holds the mutex of a bucket, or between two such sections; [buckets_lock],
    which is held over several of them, is part of the state.  What the engines
    answer and whether memory can be had is part of the event. *)

From S2P Require Import Prelude Numbers RecordUpdate Protocol.

(** ** Data *)

Module BucketState.
Inductive t :=
| None
| Creating
| Initializing
| Ready
| Stopping
| Destroying.

#[global] Instance eq_dec : EqDecision t.
Proof. solve_decision. Defined.
End BucketState.

Inductive BucketType :=
| Unknown
| NoBucket
| Memcached
| Couchstore
| EWouldBlock.

#[export] Instance bucket_type_eq_dec : EqDecision BucketType.
Proof. solve_decision. Defined.

(** [Bucket]: [engine] is 0 for the null pointer; [topkeys] says whether there
    are any. *)
Record bucket := mk_bucket {
  clients : Z;
  state : BucketState.t;
  type : BucketType;
  bname : bytes;
  engine : Z;
  topkeys : bool;
}.

#[export] Instance bucket_settable : Settable bucket := fun b =>
  mk_bucket (clients b) (state b) (type b) (bname b) (engine b) (topkeys b).

(** What a connection does with buckets: nothing, on its way out of its bucket
    ([associate_bucket] begins), looking for a bucket, or waiting for a thread
    that it started. *)
Inductive doing :=
| Idle
| Leaving (name : bytes)
| Selecting (name : bytes) (ii : nat)
| Blocked.

Record association := mk_association {
  bucketIndex : nat;
  bucketEngine : Z;
  c_doing : doing;
}.

#[export] Instance association_settable : Settable association := fun a =>
  mk_association (bucketIndex a) (bucketEngine a) (c_doing a).

(** Where [CreateBucketThread::create] and [DestroyBucketThread::destroy] are. *)
Inductive program_counter :=
| CreateStart
| CreateScan (ii : nat) (first_free : option nat)
| CreateEngine (ii : nat)
| CreateInitializing (ii : nat)
| CreateInitialize (ii : nat)
| CreateUndo (ii : nat)
| CreateCleanup (ii : nat)
| DestroyStart
| DestroyScan (ii : nat)
| DestroyLeave (idx : nat)
| DestroyWait (idx : nat)
| DestroyEngine (idx : nat)
| DestroyCleanup (idx : nat)
| Finished (result : ENGINE_ERROR_CODE).

Record bucket_thread := mk_thread {
  t_name : bytes;
  t_type : BucketType;
  t_connection : option nat;
  t_pc : program_counter;
}.

#[export] Instance bucket_thread_settable : Settable bucket_thread := fun t =>
  mk_thread (t_name t) (t_type t) (t_connection t) (t_pc t).

(** [all_buckets], the holder of [buckets_lock], the connections and the threads;
    [live] are the engines that exist, with the bucket they were made for, and
    [deleting_buckets] is the counter the worker threads have. *)
Record server := mk_server {
  all_buckets : list bucket;
  buckets_lock : option nat;
  conns : gmap nat association;
  threads : gmap nat bucket_thread;
  live : gmap Z nat;
  deleting_buckets : Z;
}.

#[export] Instance server_settable : Settable server := fun s =>
  mk_server (all_buckets s) (buckets_lock s) (conns s) (threads s) (live s) (deleting_buckets s).

(** ** Checks *)

Definition MAX_BUCKET_NAME_LENGTH : Z := 100.

(** The characters of a name: upper and lower case letters, digits and [_-.%]. *)
Definition legal_character (b : byte) : bool :=
  let ii := b2z b in
  ((65 <=? ii) && (ii <=? 90)) || ((97 <=? ii) && (ii <=? 122)) || ((48 <=? ii) && (ii <=? 57)) ||
  (ii =? 95) || (ii =? 45) || (ii =? 46) || (ii =? 37).

Definition validateBucketName (name : bytes) : bool :=
  negb (bool_decide (name = [])) && (Z.of_nat (length name) <=? MAX_BUCKET_NAME_LENGTH) && forallb legal_character name.

Definition validateBucketType (t : BucketType) : bool := negb (bool_decide (t = Unknown)).

(** ** Connections *)

Definition set_bucket (i : nat) (f : bucket -> bucket) (s : server) : server :=
  s <| all_buckets := alter f i (all_buckets s) |>.

Definition set_conn (c : nat) (a : association) (s : server) : server :=
  s <| conns := <[c := a]> (conns s) |>.

Definition set_thread (t : nat) (th : bucket_thread) (pc : program_counter) (s : server) : server :=
  s <| threads := <[t := th <| t_pc := pc |>]> (threads s) |>.

(** [disassociate_bucket], the signal to a waiting thread apart; the connection
    goes on with [d]. *)
Definition disassociate_bucket (c : nat) (a : association) (d : doing) (s : server) : server :=
  set_conn c (mk_association 0 0 d)
    (set_bucket (bucketIndex a) (fun b => b <| clients := u32 (clients b - 1) |>) s).

(** A connection joins bucket [i]. *)
Definition join (c i : nat) (d : doing) (s : server) : option server :=
  b ← all_buckets s !! i;
  Some (set_conn c (mk_association i (engine b) d) (set_bucket i (fun b => b <| clients := u32 (clients b + 1) |>) s)).

(** A step of [associate_bucket]: leaving, one turn of the loop, and the
    connection to "no bucket" behind it. *)
Definition select_step (c : nat) (a : association) (s : server) : option server :=
  match c_doing a with
  | Leaving name => Some (disassociate_bucket c a (Selecting name 1) s)
  | Selecting name ii =>
      match all_buckets s !! ii with
      | Some b =>
          if bool_decide (state b = BucketState.Ready) && bool_decide (bname b = name)
          then join c ii Idle s
          else Some (set_conn c (a <| c_doing := Selecting name (S ii) |>) s)
      | None => join c 0 Idle s
      end
  | _ => None
  end.

(** ** The threads *)

(** What happens outside: is there memory for the top keys, the engine that is
    made (0 if none), and what its initialisation returns. *)
Record choice := mk_choice {
  topkeys_ok : bool;
  new_engine : Z;
  init_result : ENGINE_ERROR_CODE;
}.

Definition unlock (s : server) : server := s <| buckets_lock := None |>.

(** A bucket is given up. *)
Definition clear_bucket (b : bucket) : bucket :=
  b <| state := BucketState.None |> <| bname := [] |> <| engine := 0 |> <| topkeys := false |>.

Definition create_step (t : nat) (th : bucket_thread) (ch : choice) (s : server) : option server :=
  let goto := set_thread t th in
  match t_pc th with
  | CreateStart =>
      if negb (validateBucketName (t_name th)) || negb (validateBucketType (t_type th))
      then Some (goto (Finished ENGINE_EINVAL) s)
      else match buckets_lock s with
           | None => Some (goto (CreateScan 0 None) (s <| buckets_lock := Some t |>))
           | Some _ => None
           end
  | CreateScan ii first_free =>
      match all_buckets s !! ii with
      | Some b =>
          let first_free :=
            if bool_decide (first_free = None) && bool_decide (state b = BucketState.None) then Some ii else first_free in
          if bool_decide (t_name th = bname b) then Some (goto (Finished ENGINE_KEY_EEXISTS) (unlock s))
          else Some (goto (CreateScan (S ii) first_free) s)
      | None =>
          match first_free with
          | None => Some (goto (Finished ENGINE_E2BIG) (unlock s))
          | Some ii =>
              let s := set_bucket ii (fun b => b <| state := BucketState.Creating |> <| type := t_type th |>
                                                <| bname := t_name th |> <| topkeys := topkeys_ok ch |>) s in
              Some (goto (if topkeys_ok ch then CreateEngine ii else Finished ENGINE_ENOMEM) (unlock s))
          end
      end
  | CreateEngine ii =>
      let e := new_engine ch in
      if e == 0 then Some (goto (Finished ENGINE_FAILED) (set_bucket ii clear_bucket s))
      else match live s !! e with
           | Some _ => None
           | None =>
               Some (goto (CreateInitializing ii)
                 (set_bucket ii (fun b => b <| engine := e |>) (s <| live := <[e := ii]> (live s) |>)))
           end
  | CreateInitializing ii =>
      Some (goto (CreateInitialize ii) (set_bucket ii (fun b => b <| state := BucketState.Initializing |>) s))
  | CreateInitialize ii =>
      if bool_decide (init_result ch = ENGINE_SUCCESS)
      then Some (goto (Finished ENGINE_SUCCESS) (set_bucket ii (fun b => b <| state := BucketState.Ready |>) s))
      else Some (goto (CreateUndo ii) (set_bucket ii (fun b => b <| state := BucketState.Destroying |>) s))
  | CreateUndo ii =>
      b ← all_buckets s !! ii;
      Some (goto (CreateCleanup ii) (s <| live := delete (engine b) (live s) |>))
  | CreateCleanup ii => Some (goto (Finished ENGINE_NOT_STORED) (set_bucket ii clear_bucket s))
  | _ => None
  end.

Definition destroy_step (t : nat) (th : bucket_thread) (s : server) : option server :=
  let goto := set_thread t th in
  match t_pc th with
  | DestroyStart =>
      match buckets_lock s with
      | None => Some (goto (DestroyScan 0) (s <| buckets_lock := Some t |>))
      | Some _ => None
      end
  | DestroyScan ii =>
      match all_buckets s !! ii with
      | Some b =>
          if bool_decide (t_name th = bname b) then
            if bool_decide (state b = BucketState.Ready)
            then Some (goto (DestroyLeave ii) (unlock (set_bucket ii (fun b => b <| state := BucketState.Destroying |>) s)))
            else Some (goto (Finished ENGINE_KEY_EEXISTS) (unlock s))
          else Some (goto (DestroyScan (S ii)) s)
      | None => Some (goto (Finished ENGINE_KEY_ENOENT) (unlock s))
      end
  | DestroyLeave idx =>
      let s' := match t_connection th with
                | Some c =>
                    match conns s !! c with
                    | Some a => if bool_decide (bucketIndex a = idx) then disassociate_bucket c a (c_doing a) s else s
                    | None => s
                    end
                | None => s
                end in
      Some (goto (DestroyWait idx) (s' <| deleting_buckets := deleting_buckets s + 1 |>))
  | DestroyWait idx =>
      b ← all_buckets s !! idx;
      if clients b == 0 then Some (goto (DestroyEngine idx) (s <| deleting_buckets := deleting_buckets s - 1 |>))
      else Some s
  | DestroyEngine idx =>
      b ← all_buckets s !! idx;
      Some (goto (DestroyCleanup idx) (s <| live := delete (engine b) (live s) |>))
  | DestroyCleanup idx => Some (goto (Finished ENGINE_SUCCESS) (set_bucket idx clear_bucket s))
  | _ => None
  end.

(** ** Events *)

Inductive event :=
(** A client connects ([associate_initial_bucket]), selects a bucket, does the
    next step of it, or its connection is closed. *)
| Connect (c : nat)
| Select (c : nat) (name : bytes)
| Continue (c : nat)
| Disconnect (c : nat)
(** A client asks for a bucket to be created or deleted, or the server is shut
    down and deletes one. *)
| Create (t c : nat) (name : bytes) (ty : BucketType)
| Delete (t : nat) (c : option nat) (name : bytes)
(** A thread runs, or is over and its client is told. *)
| Run (t : nat) (ch : choice)
| Complete (t : nat).

(** Sockets are numbered below 2^31, so that there are fewer connections. *)
Definition MAX_CONNECTIONS : Z := 2147483648.

Definition idle (a : association) : bool := match c_doing a with Idle => true | _ => false end.

Definition start_thread (t : nat) (c : option nat) (name : bytes) (ty : BucketType) (pc : program_counter) (s : server) : option server :=
  match threads s !! t with
  | Some _ => None
  | None =>
      let s' := s <| threads := <[t := mk_thread name ty c pc]> (threads s) |> in
      match c with
      | None => Some s'
      | Some c =>
          a ← conns s !! c;
          if idle a then Some (set_conn c (a <| c_doing := Blocked |>) s') else None
      end
  end.

Definition occurs (ev : event) (s : server) : option server :=
  match ev with
  | Connect c =>
      match conns s !! c with
      | Some _ => None
      | None => if Z.of_nat (size (conns s)) <? MAX_CONNECTIONS then join c 0 (Leaving (text "default")) s else None
      end
  | Select c name =>
      a ← conns s !! c;
      if idle a then Some (set_conn c (a <| c_doing := Leaving name |>) s) else None
  | Continue c => a ← conns s !! c; select_step c a s
  | Disconnect c =>
      a ← conns s !! c;
      if idle a then
        let s' := disassociate_bucket c a Idle s in Some (s' <| conns := delete c (conns s') |>)
      else None
  | Create t c name ty => start_thread t (Some c) name ty CreateStart s
  | Delete t c name => if bool_decide (name = []) then None else start_thread t c name Unknown DestroyStart s
  | Run t ch => th ← threads s !! t; match create_step t th ch s with Some s' => Some s' | None => destroy_step t th s end
  | Complete t =>
      th ← threads s !! t;
      match t_pc th with
      | Finished _ =>
          let s' := s <| threads := delete t (threads s) |> in
          match t_connection th with
          | Some c => a ← conns s !! c; Some (set_conn c (a <| c_doing := Idle |>) s')
          | None => Some s'
          end
      | _ => None
      end
  end.

(** [initialize_buckets]: bucket 0 is "no bucket", with the engine [e]. *)
Definition empty_bucket : bucket := mk_bucket 0 BucketState.None Unknown [] 0 false.

Definition initialize_buckets (max : nat) (e : Z) : server :=
  mk_server (mk_bucket 0 BucketState.Ready NoBucket [] e false :: replicate max empty_bucket) None ∅ ∅ {[e := 0%nat]} 0.

(** [cleanup_buckets] waits for a bucket in one of these states. *)
Definition cleanup_waits (b : bucket) : bool :=
  match state b with
  | BucketState.Stopping | BucketState.Destroying | BucketState.Creating | BucketState.Initializing => true
  | _ => false
  end.

(** [is_bucket_dying]: whether the connection is to be shut down. *)
Definition bucket_dying (shutdown : bool) (a : association) (s : server) : bool :=
  shutdown || match all_buckets s !! bucketIndex a with Some b => negb (bool_decide (state b = BucketState.Ready)) | None => true end.

(** The body of the response to LIST_BUCKETS. *)
Definition list_buckets (s : server) : bytes :=
  let blob := concat (map (fun b => bname b ++ text " ") (filter (fun b => state b = BucketState.Ready) (all_buckets s))) in
  take (length blob - 1) blob.

(** ** The invariant *)

(** The bucket a thread works on, and what it knows of it. *)
Definition slot (pc : program_counter) : option nat :=
  match pc with
  | CreateEngine i | CreateInitializing i | CreateInitialize i | CreateUndo i | CreateCleanup i
  | DestroyLeave i | DestroyWait i | DestroyEngine i | DestroyCleanup i => Some i
  | _ => None
  end.

Definition slot_state (pc : program_counter) : BucketState.t :=
  match pc with
  | CreateEngine _ | CreateInitializing _ => BucketState.Creating
  | CreateInitialize _ => BucketState.Initializing
  | _ => BucketState.Destroying
  end.

Definition engine_made (pc : program_counter) : bool :=
  match pc with
  | CreateInitializing _ | CreateInitialize _ | CreateUndo _ | DestroyLeave _ | DestroyWait _ | DestroyEngine _ => true
  | _ => false
  end.

(** The thread may find connections on its bucket. *)
Definition may_have_clients (pc : program_counter) : bool :=
  match pc with DestroyLeave _ | DestroyWait _ => true | _ => false end.

Definition scanning (pc : program_counter) : bool :=
  match pc with CreateScan _ _ | DestroyScan _ => true | _ => false end.

(** The number of connections on a bucket. *)
Definition number (i : nat) (cs : gmap nat association) : Z :=
  Z.of_nat (size (filter (fun p => bucketIndex p.2 = i) cs)).

(** A connection is on "no bucket", or on a bucket whose engine it knows and
    that exists. *)
Definition conn_ok (e0 : Z) (bs : list bucket) (lv : gmap Z nat) (a : association) : Prop :=
  if decide (bucketIndex a = 0%nat) then bucketEngine a = 0 \/ bucketEngine a = e0
  else (exists b, bs !! bucketIndex a = Some b /\ engine b = bucketEngine a /\
          (state b = BucketState.Ready \/ state b = BucketState.Destroying)) /\
       bucketEngine a <> 0 /\ lv !! bucketEngine a = Some (bucketIndex a) /\
       match c_doing a with Selecting _ _ => False | _ => True end.

(** A thread has its bucket in the right state. *)
Definition slot_ok (bs : list bucket) (cs : gmap nat association) (lv : gmap Z nat) (pc : program_counter) (i : nat) : Prop :=
  i <> 0%nat /\
  (exists b, bs !! i = Some b /\ state b = slot_state pc /\
     (engine_made pc = true -> engine b <> 0 /\ lv !! engine b = Some i)) /\
  (may_have_clients pc = false -> forall c a, cs !! c = Some a -> bucketIndex a <> i).

Definition scan_ok (bs : list bucket) (th : bucket_thread) : Prop :=
  match t_pc th with
  | CreateScan ii first_free =>
      t_name th <> [] /\
      (forall j b, (j < ii)%nat -> bs !! j = Some b -> bname b <> t_name th) /\
      (forall f, first_free = Some f -> exists b, bs !! f = Some b /\ state b = BucketState.None)
  | DestroyStart | DestroyScan _ => t_name th <> []
  | _ => True
  end.

(** No two threads work on the same bucket, and a scan has the lock. *)
Definition slots_apart (ts : gmap nat bucket_thread) : Prop :=
  forall t u th uh i, ts !! t = Some th -> ts !! u = Some uh -> slot (t_pc th) = Some i -> slot (t_pc uh) = Some i -> t = u.

Definition scans_locked (lock : option nat) (ts : gmap nat bucket_thread) : Prop :=
  forall t th, ts !! t = Some th -> scanning (t_pc th) = true -> lock = Some t.

Record buckets_ok (e0 : Z) (bs : list bucket) (lock : option nat) (cs : gmap nat association)
    (ts : gmap nat bucket_thread) (lv : gmap Z nat) : Prop := {
  bo_no_bucket : exists b, bs !! 0%nat = Some b /\ state b = BucketState.Ready /\ bname b = [] /\ engine b = e0;
  bo_conn : forall c a, cs !! c = Some a -> conn_ok e0 bs lv a;
  bo_ready : forall i b, bs !! i = Some b -> state b = BucketState.Ready -> engine b <> 0 /\ lv !! engine b = Some i;
  bo_clients : forall i b, i <> 0%nat -> bs !! i = Some b -> clients b = number i cs;
  bo_slot : forall t th i, ts !! t = Some th -> slot (t_pc th) = Some i -> slot_ok bs cs lv (t_pc th) i;
  bo_apart : slots_apart ts;
  bo_lock : scans_locked lock ts;
  bo_scan : forall t th, ts !! t = Some th -> scan_ok bs th;
  bo_named : forall i b, i <> 0%nat -> bs !! i = Some b -> (state b = BucketState.None <-> bname b = []);
  bo_unique : forall i j b b', bs !! i = Some b -> bs !! j = Some b' -> bname b = bname b' -> bname b <> [] -> i = j;
  bo_few : Z.of_nat (size cs) <= MAX_CONNECTIONS;
}.

Definition server_ok (e0 : Z) (s : server) : Prop :=
  buckets_ok e0 (all_buckets s) (buckets_lock s) (conns s) (threads s) (live s).

(** ** Counting connections *)

Definition here (i : nat) (o : option association) : Z :=
  match o with Some a => if decide (bucketIndex a = i) then 1 else 0 | None => 0 end.

Lemma number_new i c a cs : cs !! c = None -> number i (<[c := a]> cs) = number i cs + here i (Some a).
Proof.
  intros Hc. unfold number, here. rewrite map_filter_insert. cbn [snd]. rewrite delete_id by done. case_decide; [|lia].
  rewrite map_size_insert_None; [lia|]. apply map_lookup_filter_None. by left.
Qed.

Lemma number_delete i c cs : number i (delete c cs) = number i cs - here i (cs !! c).
Proof.
  destruct (cs !! c) as [a|] eqn:Hc; [|rewrite delete_id by done; cbn; lia].
  rewrite <- (insert_delete_id cs c a Hc) at 2. rewrite number_new by apply lookup_delete_eq. lia.
Qed.

Lemma number_insert i c a cs : number i (<[c := a]> cs) = number i cs - here i (cs !! c) + here i (Some a).
Proof. rewrite <- insert_delete_eq, number_new by apply lookup_delete_eq. by rewrite number_delete. Qed.

Lemma number_bound i cs : 0 <= number i cs <= Z.of_nat (size cs).
Proof.
  unfold number. split; [lia|]. apply inj_le. rewrite <- !size_dom. apply subseteq_size. apply dom_filter_subseteq.
Qed.

Lemma number_none i cs : number i cs = 0 -> forall c a, cs !! c = Some a -> bucketIndex a <> i.
Proof.
  intros Hn c a Hc Hi. pose proof (number_delete i c cs) as Hd. rewrite Hc in Hd. cbn in Hd. rewrite decide_True in Hd by done.
  pose proof (number_bound i (delete c cs)). lia.
Qed.

(** ** One bucket changes *)

Definition replaced (i : nat) (b' : bucket) (bs bs' : list bucket) : Prop :=
  bs' !! i = Some b' /\ forall j, j <> i -> bs' !! j = bs !! j.

Lemma replaced_alter i f b bs : bs !! i = Some b -> replaced i (f b) bs (alter f i bs).
Proof. intros Hb. split; [by rewrite list_lookup_alter_eq, Hb|]. intros j Hj. by rewrite list_lookup_alter_ne. Qed.

(** A lookup in the new buckets is one in the old ones, or of the new bucket. *)
Ltac cases_at R j :=
  let Hne := fresh "Hne" in
  match type of R with
  | replaced ?i _ _ _ =>
      destruct (decide (j = i)) as [->|Hne];
      [ repeat match goal with H : _ !! i = Some _ |- _ => rewrite (proj1 R) in H; apply (inj Some) in H; subst end
      | repeat match goal with H : _ !! j = Some _ |- _ => rewrite (proj2 R j Hne) in H end ]
  end.

Lemma slots_apart_goes ts t th pc :
  slots_apart ts -> ts !! t = Some th -> (forall i, slot pc = Some i -> slot (t_pc th) = Some i) ->
  slots_apart (<[t := th <| t_pc := pc |>]> ts).
Proof.
  intros Ha Ht Hs u w uh wh i Hu Hw Hi Hj. apply lookup_insert_Some in Hu as [[-> <-]|[Hne Hu]], Hw as [[-> <-]|[Hne' Hw]];
    [done|by eapply (Ha u w); eauto|by eapply (Ha u w); eauto|by eapply Ha].
Qed.

Lemma scans_locked_goes lock lock' ts t th pc :
  scans_locked lock ts -> (scanning pc = true -> lock' = Some t) -> lock' = lock \/ lock = Some t \/ lock = None ->
  scans_locked lock' (<[t := th <| t_pc := pc |>]> ts).
Proof.
  intros Hl Hs Hk u uh Hu Hsc. apply lookup_insert_Some in Hu as [[-> <-]|[Hne Hu]]; [by apply Hs|].
  pose proof (Hl u uh Hu Hsc). destruct Hk as [->|[?|?]]; congruence.
Qed.

Section Steps.
Context (e0 : Z).
Abbreviation ok := (buckets_ok e0).

(** *** The thread alone moves on *)

Lemma thread_goes bs lock lock' cs ts lv t th pc :
  ok bs lock cs ts lv -> ts !! t = Some th ->
  (forall i, slot pc = Some i -> slot (t_pc th) = Some i /\ slot_ok bs cs lv pc i) ->
  (scanning pc = true -> lock' = Some t) -> scan_ok bs (th <| t_pc := pc |>) ->
  lock' = lock \/ lock = Some t \/ lock = None ->
  ok bs lock' cs (<[t := th <| t_pc := pc |>]> ts) lv.
Proof.
  intros Hok Ht Hslot Hscan Hs Hlock. destruct Hok. split; try done.
  - intros u uh i Hu Hi. apply lookup_insert_Some in Hu as [[-> <-]|[Hne Hu]]; [by apply Hslot|by eapply bo_slot0].
  - apply slots_apart_goes; [done..|]. intros i Hi. by apply Hslot.
  - by eapply scans_locked_goes.
  - intros u uh Hu. apply lookup_insert_Some in Hu as [[-> <-]|[Hne Hu]]; [done|by eapply bo_scan0].
Qed.

(** A bucket that is in use may lose its name under a scan. *)
Lemma scan_kept bs bs' i b b' th :
  scan_ok bs th -> bs !! i = Some b -> replaced i b' bs bs' -> state b <> BucketState.None -> bname b' = bname b \/ bname b' = [] -> scan_ok bs' th.
Proof.
  unfold scan_ok. intros Hs Hb R Hst Hn. destruct (t_pc th); try done. destruct Hs as (Hne & Hj & Hf). split; [done|]. split.
  - intros j bj Hlt Hbj. cases_at R j; [|by eapply Hj]. destruct Hn as [->| ->]; [by eapply Hj|done].
  - intros f Hff. destruct (Hf f Hff) as (bf & Hbf & Hsf). exists bf. assert (f <> i) by congruence. by rewrite (proj2 R).
Qed.

(** *** A thread changes its bucket, which nobody uses *)

Lemma owner_changes bs bs' lock cs ts lv lv' t th pc i b b' :
  ok bs lock cs ts lv -> ts !! t = Some th -> slot (t_pc th) = Some i -> may_have_clients (t_pc th) = false ->
  bs !! i = Some b -> replaced i b' bs bs' -> (forall e j, lv !! e = Some j -> lv' !! e = Some j) ->
  clients b' = clients b -> bname b' = bname b \/ bname b' = [] -> (state b' = BucketState.None <-> bname b' = []) ->
  (state b' = BucketState.Ready -> engine b' <> 0 /\ lv' !! engine b' = Some i) ->
  (forall j, slot pc = Some j -> j = i /\ state b' = slot_state pc /\ (engine_made pc = true -> engine b' <> 0 /\ lv' !! engine b' = Some i)) ->
  scanning pc = false -> pc <> DestroyStart ->
  ok bs' lock cs (<[t := th <| t_pc := pc |>]> ts) lv'.
Proof.
  intros Hok Ht Hi Hc Hb R Hlv Hcl Hn Hnn Hr Hpc Hsc Hds. pose proof Hok as Hok'. destruct Hok.
  destruct (bo_slot0 t th i Ht Hi) as (Hi0 & (b1 & Hb1 & Hst1 & _) & Hno). specialize (Hno Hc).
  assert (state b <> BucketState.None) as Hused by (replace b with b1 by congruence; rewrite Hst1; by destruct (t_pc th)).
  assert (forall u uh j, u <> t -> ts !! u = Some uh -> slot (t_pc uh) = Some j -> j <> i) as Hothers.
  { intros u uh j Hu Hut Hj ->. apply Hu. by eapply bo_apart0. }
  split.
  - destruct bo_no_bucket0 as (b0 & H0 & ?). exists b0. by rewrite (proj2 R) by done.
  - intros c a Ha. pose proof (bo_conn0 c a Ha) as Hca. pose proof (Hno c a Ha) as Hni. unfold conn_ok in *. case_decide; [done|].
    rewrite (proj2 R) by done. destruct Hca as (? & ? & ? & ?). eauto.
  - intros j bj Hj Hs. cases_at R j; [by apply Hr|]. destruct (bo_ready0 j bj Hj Hs). eauto.
  - intros j bj Hj0 Hj. cases_at R j; [rewrite Hcl; by apply bo_clients0|by apply bo_clients0].
  - intros u uh j Hu Hj. apply lookup_insert_Some in Hu as [[-> <-]|[Hne Hu]].
    + destruct (Hpc j Hj) as (-> & Hst & He). split; [done|]. split; [|done]. exists b'. split; [apply R|done].
    + assert (j <> i) as Hji by (by eapply (Hothers u)). destruct (bo_slot0 u uh j Hu Hj) as (? & (bj & Hbj & Hst & He) & ?). split; [done|]. split; [|done].
      exists bj. rewrite (proj2 R) by done. split; [done|]. split; [done|]. intros Hm. destruct (He Hm). eauto.
  - apply slots_apart_goes; [done..|]. intros j Hj. by destruct (Hpc j Hj) as [-> _].
  - eapply scans_locked_goes; [done|congruence|by left].
  - intros u uh Hu. apply lookup_insert_Some in Hu as [[-> <-]|[Hne Hu]]; [by destruct pc|]. exact (scan_kept bs bs' i b b' uh (bo_scan0 u uh Hu) Hb R Hused Hn).
  - intros j bj Hj0 Hj. cases_at R j; [done|by apply (bo_named0 j)].
  - intros j k bj bk Hj Hk Hnm Hne. cases_at R j; cases_at R k; try done.
    + destruct Hn as [Hn|Hn]; [|congruence]. apply (bo_unique0 i k b bk); congruence.
    + destruct Hn as [Hn|Hn]; [|congruence]. apply (bo_unique0 j i bj b); congruence.
    + by apply (bo_unique0 j k bj bk).
  - done.
Qed.

(** *** The engine of a bucket nobody uses is destroyed *)

Lemma engine_gone bs lock cs ts lv t th pc i b :
  ok bs lock cs ts lv -> ts !! t = Some th -> slot (t_pc th) = Some i -> may_have_clients (t_pc th) = false ->
  engine_made (t_pc th) = true -> bs !! i = Some b ->
  slot pc = Some i -> slot_state pc = slot_state (t_pc th) -> engine_made pc = false -> may_have_clients pc = false ->
  scanning pc = false ->
  ok bs lock cs (<[t := th <| t_pc := pc |>]> ts) (delete (engine b) lv).
Proof.
  intros Hok Ht Hi Hc Hm Hb Hi' Hst Hm' Hc' Hsc. pose proof Hok as Hok'. destruct Hok.
  destruct (bo_slot0 t th i Ht Hi) as (Hi0 & (b1 & Hb1 & Hst1 & He) & Hno). specialize (Hno Hc). destruct (He Hm) as [_ Hl].
  assert (b1 = b) as -> by congruence.
  assert (forall e j, j <> i -> lv !! e = Some j -> delete (engine b) lv !! e = Some j) as Hkeep.
  { intros e j Hj Hlj. rewrite lookup_delete_ne; [done|]. intros <-. congruence. }
  split; try done.
  - intros c a Ha. pose proof (bo_conn0 c a Ha) as Hca. pose proof (Hno c a Ha) as Hni. unfold conn_ok in *. case_decide; [done|].
    destruct Hca as (? & ? & ? & ?). eauto.
  - intros j bj Hj Hs. destruct (bo_ready0 j bj Hj Hs) as [? Hlj]. split; [done|]. apply Hkeep; [|done]. intros ->.
    assert (bj = b) as -> by congruence. rewrite Hst1 in Hs. by destruct (t_pc th).
  - intros u uh j Hu Hj. apply lookup_insert_Some in Hu as [[-> <-]|[Hne Hu]].
    + cbn in *. assert (j = i) as -> by congruence. split; [done|]. split; [|done]. exists b. split; [done|]. split; [congruence|]. cbn. congruence.
    + destruct (bo_slot0 u uh j Hu Hj) as (? & (bj & Hbj & Hstj & Hej) & ?). split; [done|]. split; [|done]. exists bj. split; [done|]. split; [done|].
      intros Hmj. destruct (Hej Hmj) as [? Hlj]. split; [done|]. apply Hkeep; [|done]. intros ->. apply Hne. by eapply bo_apart0.
  - apply slots_apart_goes; [done..|]. intros j Hj. congruence.
  - eapply scans_locked_goes; [done|congruence|by left].
  - intros u uh Hu. apply lookup_insert_Some in Hu as [[-> <-]|[Hne Hu]]; [by destruct pc|by eapply bo_scan0].
Qed.

(** Nobody is on a bucket that is neither ready nor being destroyed. *)
Lemma nobody_on bs lock cs ts lv i b :
  ok bs lock cs ts lv -> i <> 0%nat -> bs !! i = Some b -> state b <> BucketState.Ready -> state b <> BucketState.Destroying ->
  forall c a, cs !! c = Some a -> bucketIndex a <> i.
Proof.
  intros Hok Hi Hb H1 H2 c a Ha <-. pose proof (bo_conn _ _ _ _ _ _ Hok c a Ha) as Hc. unfold conn_ok in Hc. case_decide; [done|].
  destruct Hc as ((b' & Hb' & _ & Hs) & _). assert (b' = b) as -> by congruence. by destruct Hs.
Qed.

Lemma unowned bs lock cs ts lv t th i b :
  ok bs lock cs ts lv -> bs !! i = Some b -> state b = BucketState.None \/ state b = BucketState.Ready ->
  ts !! t = Some th -> slot (t_pc th) <> Some i.
Proof.
  intros Hok Hb Hs Ht Hi. destruct (bo_slot _ _ _ _ _ _ Hok t th i Ht Hi) as (_ & (b' & Hb' & Hst & _) & _).
  assert (b' = b) as -> by congruence. rewrite Hst in Hs. by destruct (t_pc th), Hs.
Qed.

(** *** A thread takes a free bucket for a new name *)

Lemma bucket_claimed bs bs' cs ts lv t th pc f b b' :
  ok bs (Some t) cs ts lv -> ts !! t = Some th -> scanning (t_pc th) = true ->
  bs !! f = Some b -> state b = BucketState.None -> replaced f b' bs bs' ->
  clients b' = clients b -> state b' = BucketState.Creating -> bname b' <> [] ->
  (forall j bj, bs !! j = Some bj -> bname bj <> bname b') ->
  pc = CreateEngine f \/ (exists r, pc = Finished r) ->
  ok bs' None cs (<[t := th <| t_pc := pc |>]> ts) lv.
Proof.
  intros Hok Ht Hsc Hb Hs R Hcl Hst Hn Hfresh Hpc. pose proof Hok as Hok'. destruct Hok.
  assert (f <> 0%nat) as Hf0. { intros ->. destruct bo_no_bucket0 as (b0 & ? & Hr & _). congruence. }
  pose proof (nobody_on bs _ cs ts lv f b Hok' Hf0 Hb ltac:(congruence) ltac:(congruence)) as Hno.
  assert (forall u uh, ts !! u = Some uh -> slot (t_pc uh) <> Some f) as Hun by (intros u uh Hu; by eapply unowned; eauto).
  split.
  - destruct bo_no_bucket0 as (b0 & ? & ?). exists b0. by rewrite (proj2 R).
  - intros c a Ha. pose proof (bo_conn0 c a Ha) as Hca. pose proof (Hno c a Ha). unfold conn_ok in *. case_decide; [done|].
    by rewrite (proj2 R).
  - intros j bj Hj Hr. cases_at R j; [congruence|]. by apply bo_ready0.
  - intros j bj Hj0 Hj. cases_at R j; [rewrite Hcl; by apply bo_clients0|by apply bo_clients0].
  - intros u uh j Hu Hj. apply lookup_insert_Some in Hu as [[-> <-]|[Hne Hu]].
    + destruct Hpc as [->|[r ->]]; [|done]. cbn in Hj. injection Hj as <-. split; [done|]. split; [|done]. exists b'. split; [apply R|done].
    + destruct (bo_slot0 u uh j Hu Hj) as (? & (bj & ? & ?) & ?). split; [done|]. split; [|done]. exists bj.
      rewrite (proj2 R); [done|]. intros ->. by eapply Hun.
  - intros u w uh wh j Hu Hw Hj Hk. apply lookup_insert_Some in Hu as [[-> <-]|[Hne Hu]], Hw as [[-> <-]|[Hne' Hw]]; [done| | |by eapply bo_apart0].
    + destruct Hpc as [->|[r ->]]; [|done]. cbn in Hj. injection Hj as <-. by destruct (Hun w wh Hw).
    + destruct Hpc as [->|[r ->]]; [|done]. cbn in Hk. injection Hk as <-. by destruct (Hun u uh Hu).
  - eapply scans_locked_goes; [done| |by right; left]. by destruct Hpc as [->|[r ->]].
  - intros u uh Hu. apply lookup_insert_Some in Hu as [[-> <-]|[Hne Hu]]; [by destruct Hpc as [->|[r ->]]|].
    pose proof (bo_scan0 u uh Hu) as Hsu. unfold scan_ok in *. destruct (t_pc uh) eqn:E; try done.
    assert (Some t = Some u) as [=] by (apply (bo_lock0 u uh Hu); by rewrite E). congruence.
  - intros j bj Hj0 Hj. cases_at R j; [by split; congruence|by apply (bo_named0 j)].
  - intros j k bj bk Hj Hk Hnm Hne. cases_at R j; cases_at R k; try done.
    + by destruct (Hfresh k bk Hk).
    + by destruct (Hfresh j bj Hj).
    + by apply (bo_unique0 j k bj bk).
  - done.
Qed.

(** *** A bucket that is ready is to be destroyed *)

Lemma bucket_marked bs bs' cs ts lv t th i b :
  ok bs (Some t) cs ts lv -> ts !! t = Some th -> scanning (t_pc th) = true -> i <> 0%nat ->
  bs !! i = Some b -> state b = BucketState.Ready -> replaced i (b <| state := BucketState.Destroying |>) bs bs' ->
  ok bs' None cs (<[t := th <| t_pc := DestroyLeave i |>]> ts) lv.
Proof.
  intros Hok Ht Hsc Hi0 Hb Hs R. pose proof Hok as Hok'. destruct Hok.
  assert (forall u uh, ts !! u = Some uh -> slot (t_pc uh) <> Some i) as Hun by (intros u uh Hu; by eapply unowned; eauto).
  destruct (bo_ready0 i b Hb Hs) as [He Hl].
  split.
  - destruct bo_no_bucket0 as (b0 & ? & ?). exists b0. by rewrite (proj2 R).
  - intros c a Ha. pose proof (bo_conn0 c a Ha) as Hca. unfold conn_ok in *. case_decide; [done|]. destruct Hca as ((b1 & Hb1 & Heng & Hst) & ?).
    split; [|done]. destruct (decide (bucketIndex a = i)) as [E|Hne]; [rewrite E in *|by rewrite (proj2 R); eauto].
    eexists. split; [apply R|]. cbn. split; [congruence|by right].
  - intros j bj Hj Hr. cases_at R j; [done|]. by apply bo_ready0.
  - intros j bj Hj0 Hj. cases_at R j; [exact (bo_clients0 i b Hj0 Hb)|by apply bo_clients0].
  - intros u uh j Hu Hj. apply lookup_insert_Some in Hu as [[-> <-]|[Hne Hu]].
    + cbn in Hj. injection Hj as <-. split; [done|]. split; [|done]. eexists. split; [apply R|done].
    + destruct (bo_slot0 u uh j Hu Hj) as (? & (bj & ? & ?) & ?). split; [done|]. split; [|done]. exists bj.
      rewrite (proj2 R); [done|]. intros ->. by eapply Hun.
  - intros u w uh wh j Hu Hw Hj Hk. apply lookup_insert_Some in Hu as [[-> <-]|[Hne Hu]], Hw as [[-> <-]|[Hne' Hw]]; [done| | |by eapply bo_apart0].
    + cbn in Hj. injection Hj as <-. by destruct (Hun w wh Hw).
    + cbn in Hk. injection Hk as <-. by destruct (Hun u uh Hu).
  - by eapply scans_locked_goes; [done| |by right; left].
  - intros u uh Hu. apply lookup_insert_Some in Hu as [[-> <-]|[Hne Hu]]; [done|].
    eapply scan_kept; [by eapply bo_scan0|done|exact R|congruence|by left].
  - intros j bj Hj0 Hj. cases_at R j; [|by apply (bo_named0 j)]. cbn. destruct (bo_named0 i b Hj0 Hb) as [_ Hn]. split; [done|]. intros E. specialize (Hn E). congruence.
  - intros j k bj bk Hj Hk Hnm Hnn. cases_at R j; cases_at R k; try done.
    + exact (bo_unique0 i k b bk Hb Hk Hnm Hnn).
    + exact (bo_unique0 j i bj b Hj Hb Hnm Hnn).
    + exact (bo_unique0 j k bj bk Hj Hk Hnm Hnn).
  - done.
Qed.

(** *** Connections come and go *)

(** All but the number of clients. *)
Definition look (b : bucket) := (state b, bname b, engine b).

Lemma same_look (bs bs' : list bucket) (i : nat) b' : look <$> bs' = look <$> bs -> bs' !! i = Some b' -> exists b, bs !! i = Some b /\ look b = look b'.
Proof.
  intros E Hb. assert ((look <$> bs) !! i = Some (look b')) as Hl by (by rewrite <- E, list_lookup_fmap, Hb).
  rewrite list_lookup_fmap in Hl. destruct (bs !! i) as [b|]; [|done]. injection Hl as Hl. exists b. unfold look in *. split; [done|congruence].
Qed.

Lemma alter_look (i : nat) f (bs : list bucket) : (forall b, look (f b) = look b) -> look <$> alter f i bs = look <$> bs.
Proof.
  intros Hf. apply list_eq. intros j. rewrite !list_lookup_fmap, list_lookup_alter. case_decide; [subst|done].
  destruct (bs !! j); cbn; [by rewrite Hf|done].
Qed.

Lemma connections_change bs bs' lock cs cs' ts lv :
  ok bs lock cs ts lv -> look <$> bs' = look <$> bs ->
  (forall c a, cs' !! c = Some a -> conn_ok e0 bs lv a) ->
  (forall i b, i <> 0%nat -> bs' !! i = Some b -> clients b = number i cs') ->
  (forall c a, cs' !! c = Some a -> bucketIndex a = 0%nat \/ (exists c' a', cs !! c' = Some a' /\ bucketIndex a' = bucketIndex a) \/
     exists b, bs !! bucketIndex a = Some b /\ state b = BucketState.Ready) ->
  Z.of_nat (size cs') <= MAX_CONNECTIONS ->
  ok bs' lock cs' ts lv.
Proof.
  intros Hok E Hc Hn Hfrom Hsz. pose proof Hok as Hok'. destruct Hok. symmetry in E.
  assert (forall i b, bs !! i = Some b -> exists b', bs' !! i = Some b' /\ state b' = state b /\ bname b' = bname b /\ engine b' = engine b) as Hl.
  { intros i b Hb. destruct (same_look bs' bs i b E Hb) as (b' & ? & [=]). eauto 10. }
  assert (forall i b', bs' !! i = Some b' -> exists b, bs !! i = Some b /\ state b' = state b /\ bname b' = bname b /\ engine b' = engine b) as Hr.
  { intros i b' Hb. destruct (same_look bs bs' i b' (eq_sym E) Hb) as (b & ? & [=]). eauto 10. }
  split; try done.
  - destruct bo_no_bucket0 as (b & Hb & ? & ? & ?). destruct (Hl _ _ Hb) as (b' & ? & E1 & E2 & E3). exists b'. rewrite E1, E2, E3. done.
  - intros c a Ha. pose proof (Hc c a Ha) as Hca. unfold conn_ok in *. case_decide; [done|]. destruct Hca as ((b & Hb & ? & ?) & ?). split; [|done].
    destruct (Hl _ _ Hb) as (b' & ? & E1 & E2 & E3). exists b'. by rewrite E1, E3.
  - intros i b Hb Hs. destruct (Hr _ _ Hb) as (b1 & Hb1 & E1 & E2 & E3). rewrite E3. rewrite E1 in Hs. by apply bo_ready0.
  - intros t th i Ht Hi. destruct (bo_slot0 t th i Ht Hi) as (Hi0 & (b & Hb & Hst & He) & Hno). split; [done|]. split.
    + destruct (Hl _ _ Hb) as (b' & ? & E1 & E2 & E3). exists b'. by rewrite E1, E3.
    + intros Hm c a Ha Hai. destruct (Hfrom c a Ha) as [?|[(c' & a' & Ha' & Hi')|(b1 & Hb1 & Hr1)]]; [congruence| |].
      * apply (Hno Hm c' a' Ha'). congruence.
      * rewrite Hai in Hb1. assert (b1 = b) as -> by congruence. rewrite Hst in Hr1. by destruct (t_pc th).
  - intros t th Ht. pose proof (bo_scan0 t th Ht) as Hs. unfold scan_ok in *. destruct (t_pc th); try done. destruct Hs as (? & Hj & Hf).
    split; [done|]. split.
    + intros j b Hlt Hb. destruct (Hr _ _ Hb) as (b1 & Hb1 & _ & E2 & _). rewrite E2. by eapply Hj.
    + intros f Hff. destruct (Hf f Hff) as (b & Hb & Hsb). destruct (Hl _ _ Hb) as (b' & ? & E1 & _). exists b'. by rewrite E1.
  - intros i b Hi Hb. destruct (Hr _ _ Hb) as (b1 & Hb1 & E1 & E2 & _). rewrite E1, E2. by apply (bo_named0 i).
  - intros i j b b' Hi Hj Hnm Hne. destruct (Hr _ _ Hi) as (b1 & Hb1 & _ & E1 & _), (Hr _ _ Hj) as (b2 & Hb2 & _ & E2 & _).
    rewrite E1, E2 in *. by eapply bo_unique0.
Qed.

Lemma here_none i (cs : gmap nat association) c a : cs !! c = Some a -> bucketIndex a <> i -> here i (cs !! c) = 0.
Proof. intros -> Hi. cbn. by case_decide. Qed.

Lemma index_number (cs : gmap nat association) c a : cs !! c = Some a -> 1 <= number (bucketIndex a) cs.
Proof.
  intros Ha. pose proof (number_delete (bucketIndex a) c cs) as Hd. rewrite Ha in Hd. cbn in Hd. rewrite decide_True in Hd by done.
  pose proof (number_bound (bucketIndex a) (delete c cs)). lia.
Qed.

Lemma leave_ok c a d s : server_ok e0 s -> conns s !! c = Some a -> server_ok e0 (disassociate_bucket c a d s).
Proof.
  intros Hok Ha. unfold server_ok, disassociate_bucket, set_conn, set_bucket. cbn. apply (connections_change (all_buckets s) _ (buckets_lock s) (conns s)); [done|by apply alter_look| | | |].
  - intros c' a' Ha'. apply lookup_insert_Some in Ha' as [[-> <-]|[Hne Ha']]; [by left|by eapply bo_conn].
  - intros i b Hi Hb. cbn in Hb |- *. rewrite number_insert, Ha. cbn [here bucketIndex]. rewrite (decide_False (P := 0%nat = i)) by done.
    rewrite list_lookup_alter in Hb. pose proof (bo_clients _ _ _ _ _ _ Hok) as Hcl. case_decide as E.
    + subst i. destruct (all_buckets s !! bucketIndex a) as [b1|] eqn:Hb1; [|done]. injection Hb as <-. cbn.
      rewrite (Hcl _ _ Hi Hb1). pose proof (index_number _ _ _ Ha). pose proof (number_bound (bucketIndex a) (conns s)).
      pose proof (bo_few _ _ _ _ _ _ Hok). unfold MAX_CONNECTIONS in *. rewrite u32_small; lia.
    + rewrite (Hcl i b Hi Hb). lia.
  - intros c' a' Ha'. apply lookup_insert_Some in Ha' as [[-> <-]|[Hne Ha']]; [by left|]. right. left. eauto.
  - cbn. rewrite map_size_insert_Some by eauto. by eapply bo_few.
Qed.

Lemma join_ok c i b d s s' :
  server_ok e0 s -> join c i d s = Some s' -> all_buckets s !! i = Some b -> state b = BucketState.Ready ->
  (forall a, conns s !! c = Some a -> bucketIndex a = 0%nat) ->
  (conns s !! c = None -> Z.of_nat (size (conns s)) < MAX_CONNECTIONS) ->
  match d with Selecting _ _ => False | _ => True end -> server_ok e0 s'.
Proof.
  intros Hok Hj Hb Hr Hfrom Hroom Hd. unfold join in Hj. rewrite Hb in Hj. injection Hj as <-.
  pose proof (bo_few _ _ _ _ _ _ Hok) as Hfew. unfold server_ok, set_conn, set_bucket. cbn.
  apply (connections_change (all_buckets s) _ (buckets_lock s) (conns s)); [done|by apply alter_look| | | |].
  - intros c' a' Ha'. apply lookup_insert_Some in Ha' as [[-> <-]|[Hne Ha']]; [|by eapply bo_conn]. unfold conn_ok. cbn.
    case_decide as E; [|destruct (bo_ready _ _ _ _ _ _ Hok i b Hb Hr); split; [by eauto|done]]. subst i. right.
    destruct (bo_no_bucket _ _ _ _ _ _ Hok) as (b0 & Hb0 & _ & _ & <-). congruence.
  - intros j bj Hj Hbj. cbn in Hbj |- *. rewrite number_insert. assert (here j (conns s !! c) = 0) as ->.
    { destruct (conns s !! c) as [a|] eqn:Ha; [|done]. cbn. rewrite (Hfrom a eq_refl). by rewrite decide_False. }
    cbn [here bucketIndex]. rewrite list_lookup_alter in Hbj. pose proof (bo_clients _ _ _ _ _ _ Hok) as Hcl. case_decide as E.
    + subst j. rewrite Hb in Hbj. injection Hbj as <-. cbn. rewrite (Hcl _ _ Hj Hb).
      pose proof (number_bound i (conns s)). unfold MAX_CONNECTIONS in *. rewrite u32_small; lia.
    + rewrite (Hcl j bj Hj Hbj). lia.
  - intros c' a' Ha'. apply lookup_insert_Some in Ha' as [[-> <-]|[Hne Ha']]; [|right; left; eauto]. right. right. by exists b.
  - cbn. destruct (conns s !! c) as [a|] eqn:Ha; [rewrite map_size_insert_Some by eauto|rewrite map_size_insert_None by done]; [done|].
    specialize (Hroom eq_refl). lia.
Qed.

Lemma doing_ok c a d s :
  server_ok e0 s -> conns s !! c = Some a -> match d with Selecting _ _ => bucketIndex a = 0%nat | _ => True end ->
  server_ok e0 (set_conn c (a <| c_doing := d |>) s).
Proof.
  intros Hok Ha Hd. unfold server_ok, set_conn. cbn. apply (connections_change (all_buckets s) _ (buckets_lock s) (conns s)); [done..| | | |].
  - intros c' a' Ha'. apply lookup_insert_Some in Ha' as [[-> <-]|[Hne Ha']]; [|by eapply bo_conn].
    pose proof (bo_conn _ _ _ _ _ _ Hok c' a Ha) as Hc. unfold conn_ok in *. cbn. case_decide; [done|]. destruct Hc as (? & ? & ? & ?).
    do 3 (split; [done|]). by destruct d.
  - intros i b Hi Hb. rewrite number_insert, Ha. rewrite (bo_clients _ _ _ _ _ _ Hok i b Hi Hb). cbn. lia.
  - intros c' a' Ha'. right. left. apply lookup_insert_Some in Ha' as [[-> <-]|[Hne Ha']]; eauto.
  - cbn. rewrite map_size_insert_Some by eauto. by eapply bo_few.
Qed.

Lemma gone_ok c a s :
  server_ok e0 s -> conns s !! c = Some a -> bucketIndex a = 0%nat -> server_ok e0 (s <| conns := delete c (conns s) |>).
Proof.
  intros Hok Ha Hi. unfold server_ok. cbn. apply (connections_change (all_buckets s) _ (buckets_lock s) (conns s)); [done..| | | |].
  - intros c' a' Ha'. apply lookup_delete_Some in Ha' as [Hne Ha']. by eapply bo_conn.
  - intros i b Hi' Hb. rewrite number_delete, (here_none i _ c a Ha), (bo_clients _ _ _ _ _ _ Hok i b Hi' Hb); [lia|congruence].
  - intros c' a' Ha'. apply lookup_delete_Some in Ha' as [Hne Ha']. right. left. eauto.
  - cbn. rewrite map_size_delete, Ha. pose proof (bo_few _ _ _ _ _ _ Hok). cbn in *. lia.
Qed.

(** *** The threads *)

Lemma scan_lock s t th : server_ok e0 s -> threads s !! t = Some th -> scanning (t_pc th) = true -> buckets_lock s = Some t.
Proof. intros Hok. apply (bo_lock _ _ _ _ _ _ Hok). Qed.

(** A thread that has no bucket afterwards, and had none or finishes. *)
Lemma thread_ends s s' t th r :
  server_ok e0 s -> threads s !! t = Some th ->
  s' = set_thread t th (Finished r) (if scanning (t_pc th) then unlock s else s) -> server_ok e0 s'.
Proof.
  intros Hok Ht ->. pose proof (scan_lock s t th Hok Ht) as Hl. unfold server_ok. destruct (scanning (t_pc th)); cbn.
  - apply (thread_goes _ (buckets_lock s) None); try done. right. left. auto.
  - apply (thread_goes _ (buckets_lock s)); try done. by left.
Qed.

Lemma validated_nonempty name : validateBucketName name = true -> name <> [].
Proof. unfold validateBucketName. intros H ->. done. Qed.

Lemma create_scan_ok s s' t th ch ii ff :
  server_ok e0 s -> threads s !! t = Some th -> t_pc th = CreateScan ii ff -> create_step t th ch s = Some s' -> server_ok e0 s'.
Proof.
  intros Hok Ht Hpc Hs. unfold create_step in Hs. rewrite Hpc in Hs. pose proof (scan_lock s t th Hok Ht ltac:(by rewrite Hpc)) as Hl.
  pose proof (bo_scan _ _ _ _ _ _ Hok t th Ht) as Hsc. unfold scan_ok in Hsc. rewrite Hpc in Hsc. destruct Hsc as (Hn & Hj & Hf).
  destruct (all_buckets s !! ii) as [b|] eqn:Hb.
  - case_bool_decide as E; injection Hs as <-.
    + eapply thread_ends; [done..|by rewrite Hpc].
    + unfold server_ok. cbn. apply (thread_goes _ (buckets_lock s)); try done; [|by left]. unfold scan_ok. cbn. split; [done|]. split.
      * intros j bj Hlt Hbj. destruct (decide (j = ii)) as [->|]; [congruence|]. apply (Hj j bj); [lia|done].
      * intros f Hff. destruct (bool_decide (ff = None) && _) eqn:Ec; [|by apply Hf].
        apply andb_true_iff in Ec as [_ Ec%bool_decide_eq_true]. injection Hff as <-. eauto.
  - destruct ff as [f|]; injection Hs as <-; [|eapply thread_ends; [done..|by rewrite Hpc]].
    destruct (Hf f eq_refl) as (b & Hbf & Hsb). pose proof Hok as Hok'. unfold server_ok in Hok |- *. rewrite Hl in Hok. cbn.
    eapply (bucket_claimed (all_buckets s)); [exact Hok|done|by rewrite Hpc|exact Hbf|done|by apply replaced_alter|done|done|done| |].
    + intros j bj Hbj. apply (Hj j bj); [|done]. apply lookup_lt_Some in Hbj. apply lookup_ge_None in Hb. lia.
    + destruct (topkeys_ok ch); eauto.
Qed.

Lemma slot_named s t th i b :
  server_ok e0 s -> threads s !! t = Some th -> slot (t_pc th) = Some i -> all_buckets s !! i = Some b -> bname b <> [].
Proof.
  intros Hok Ht Hi Hb. destruct (bo_slot _ _ _ _ _ _ Hok t th i Ht Hi) as (Hi0 & (b' & Hb' & Hst & _) & _).
  rewrite Hb in Hb'. injection Hb' as <-. intros Hn. apply (bo_named _ _ _ _ _ _ Hok i b Hi0 Hb) in Hn. rewrite Hst in Hn. by destruct (t_pc th).
Qed.

(** What a thread finds of its bucket. *)
Lemma slot_bucket s t th i :
  server_ok e0 s -> threads s !! t = Some th -> slot (t_pc th) = Some i ->
  exists b, all_buckets s !! i = Some b /\ state b = slot_state (t_pc th) /\ bname b <> [] /\
    (engine_made (t_pc th) = true -> engine b <> 0 /\ live s !! engine b = Some i).
Proof.
  intros Hok Ht Hi. destruct (bo_slot _ _ _ _ _ _ Hok t th i Ht Hi) as (Hi0 & (b & Hb & Hst & He) & Hno).
  exists b. do 2 (split; [done|]). split; [by eapply slot_named|done].
Qed.

Lemma owner_sets s t th pc i b f lv' :
  server_ok e0 s -> threads s !! t = Some th -> slot (t_pc th) = Some i -> may_have_clients (t_pc th) = false ->
  all_buckets s !! i = Some b -> (forall e j, live s !! e = Some j -> lv' !! e = Some j) -> clients (f b) = clients b ->
  (bname (f b) = bname b /\ state (f b) <> BucketState.None) \/ (bname (f b) = [] /\ state (f b) = BucketState.None) ->
  (engine_made pc = true \/ state (f b) = BucketState.Ready -> engine (f b) <> 0 /\ lv' !! engine (f b) = Some i) ->
  (exists r, pc = Finished r) \/ (slot pc = Some i /\ state (f b) = slot_state pc) ->
  buckets_ok e0 (alter f i (all_buckets s)) (buckets_lock s) (conns s) (<[t := th <| t_pc := pc |>]> (threads s)) lv'.
Proof.
  intros Hok Ht Hi Hc Hb Hlv Hcl Hn Hr Hpc. pose proof (slot_named s t th i b Hok Ht Hi Hb) as Hnm.
  eapply (owner_changes (all_buckets s)); [exact Hok|done|exact Hi|done|exact Hb|by apply replaced_alter|done|done| | | | | |].
  - destruct Hn as [[? _]|[? _]]; auto.
  - destruct Hn as [[-> ?]|[-> ->]]; done.
  - intros Hrr. apply Hr. by right.
  - intros j Hj. destruct Hpc as [[r ->]|[Hs Hst]]; [done|]. split; [congruence|]. split; [done|]. intros Hm. apply Hr. by left.
  - destruct Hpc as [[r ->]|[Hs _]]; [done|]. by destruct pc.
  - destruct Hpc as [[r ->]|[Hs _]]; [done|]. by destruct pc.
Qed.

Lemma create_step_ok s s' t th ch :
  server_ok e0 s -> threads s !! t = Some th -> create_step t th ch s = Some s' -> server_ok e0 s'.
Proof.
  intros Hok Ht Hs. destruct (t_pc th) eqn:Hpc; try (unfold create_step in Hs; rewrite Hpc in Hs; done);
    [|by eapply create_scan_ok; eauto|..].
  2-6: assert (slot (t_pc th) = Some ii) as Hsl by (by rewrite Hpc);
    destruct (slot_bucket s t th ii Hok Ht Hsl) as (b & Hb & Hst & Hnm & He); rewrite Hpc in Hst, He; cbn in Hst, He;
    assert (may_have_clients (t_pc th) = false) as Hm by (by rewrite Hpc).
  all: unfold create_step in Hs; rewrite Hpc in Hs.
  - destruct (negb (validateBucketName _) || _) eqn:Hv; [injection Hs as <-; by eapply thread_ends; [..|rewrite Hpc]|].
    destruct (buckets_lock s) eqn:Hl; [done|]. injection Hs as <-. unfold server_ok. cbn.
    apply (thread_goes _ (buckets_lock s)); try done; [|by right; right]. unfold scan_ok. cbn.
    apply orb_false_iff in Hv as [Hv _]. apply negb_false_iff, validated_nonempty in Hv. split; [done|]. split; [lia|done].
  - destruct (Z.eqb_spec (new_engine ch) 0) as [|Hne].
    + injection Hs as <-. apply (owner_sets s t th _ ii b clear_bucket); try done; [by right|by intros [?|?]|by eauto].
    + destruct (live s !! new_engine ch) eqn:Hl; [done|]. injection Hs as <-.
      apply (owner_sets s t th (CreateInitializing ii) ii b (fun b => b <| engine := new_engine ch |>) (<[new_engine ch := ii]> (live s))); try done; [|by left; cbn; rewrite Hst| |by right; cbn].
      * intros e j Hj. rewrite lookup_insert_ne; [done|congruence].
      * intros _. cbn. split; [done|apply lookup_insert_eq].
  - injection Hs as <-. apply (owner_sets s t th _ ii b); try done; [by left|by auto|by right].
  - case_bool_decide; injection Hs as <-.
    + apply (owner_sets s t th _ ii b); try done; [by left|by auto|by eauto].
    + apply (owner_sets s t th _ ii b); try done; [by left|by auto|by right].
  - rewrite Hb in Hs. injection Hs as <-. eapply (engine_gone (all_buckets s)); [exact Hok|exact Ht|exact Hsl|done|by rewrite Hpc|exact Hb|..]; try done.
    by rewrite Hpc.
  - injection Hs as <-. apply (owner_sets s t th _ ii b clear_bucket); try done; [by right|by intros [?|?]|by eauto].
Qed.

Lemma destroy_scan_ok s s' t th ii :
  server_ok e0 s -> threads s !! t = Some th -> t_pc th = DestroyScan ii -> destroy_step t th s = Some s' -> server_ok e0 s'.
Proof.
  intros Hok Ht Hpc Hs. unfold destroy_step in Hs. rewrite Hpc in Hs. pose proof (scan_lock s t th Hok Ht ltac:(by rewrite Hpc)) as Hl.
  pose proof (bo_scan _ _ _ _ _ _ Hok t th Ht) as Hn. unfold scan_ok in Hn. rewrite Hpc in Hn.
  destruct (all_buckets s !! ii) as [b|] eqn:Hb; [|injection Hs as <-; by eapply thread_ends; [..|rewrite Hpc]].
  case_bool_decide as E; [case_bool_decide as Hr|]; injection Hs as <-.
  - unfold server_ok in Hok |- *. rewrite Hl in Hok. cbn.
    apply (bucket_marked (all_buckets s) _ _ (threads s) _ t th ii b); [done..| | |done|done|by apply replaced_alter]; [by rewrite Hpc|].
    intros ->. destruct (bo_no_bucket _ _ _ _ _ _ Hok) as (b0 & Hb0 & _ & Hn0 & _). congruence.
  - by eapply thread_ends; [..|rewrite Hpc].
  - unfold server_ok. cbn. apply (thread_goes _ (buckets_lock s)); try done. by left.
Qed.

(** The thread that deletes a bucket goes on to wait for its clients. *)
Lemma wait_ok s t th idx n :
  server_ok e0 s -> threads s !! t = Some th -> t_pc th = DestroyLeave idx ->
  server_ok e0 (set_thread t th (DestroyWait idx) (s <| deleting_buckets := n |>)).
Proof.
  intros Hok Ht Hpc. unfold server_ok. cbn. apply (thread_goes _ (buckets_lock s)); try done; [|by left]. intros i [= <-].
  rewrite Hpc. split; [done|]. pose proof (bo_slot _ _ _ _ _ _ Hok t th idx Ht) as Hs. rewrite Hpc in Hs. by apply Hs.
Qed.

Lemma destroy_step_ok s s' t th :
  server_ok e0 s -> threads s !! t = Some th -> destroy_step t th s = Some s' -> server_ok e0 s'.
Proof.
  intros Hok Ht Hs. destruct (t_pc th) eqn:Hpc; try (unfold destroy_step in Hs; rewrite Hpc in Hs; done);
    [|by eapply destroy_scan_ok; eauto|..].
  2-5: assert (slot (t_pc th) = Some idx) as Hsl by (by rewrite Hpc);
    destruct (slot_bucket s t th idx Hok Ht Hsl) as (b & Hb & Hst & Hnm & He); rewrite Hpc in Hst, He; cbn in Hst, He.
  all: unfold destroy_step in Hs; rewrite Hpc in Hs.
  - destruct (buckets_lock s) eqn:Hl; [done|]. injection Hs as <-. unfold server_ok. cbn.
    apply (thread_goes _ (buckets_lock s)); try done; [|by right; right].
    pose proof (bo_scan _ _ _ _ _ _ Hok t th Ht) as Hn. unfold scan_ok in *. cbn. by rewrite Hpc in Hn.
  - injection Hs as <-. apply wait_ok; [|by repeat case_match|done]. repeat case_match; try done. by apply leave_ok.
  - rewrite Hb in Hs. cbn in Hs. destruct (Z.eqb_spec (clients b) 0) as [Hc|]; injection Hs as <-; [|done].
    destruct (bo_slot _ _ _ _ _ _ Hok t th idx Ht Hsl) as (Hi0 & Hbk & _). rewrite Hpc in Hbk.
    rewrite (bo_clients _ _ _ _ _ _ Hok idx b Hi0 Hb) in Hc. unfold server_ok. cbn.
    apply (thread_goes _ (buckets_lock s)); try done; [|by left]. intros i [= <-]. split; [done|]. split; [done|].
    split; [exact Hbk|]. intros _. by apply number_none.
  - rewrite Hb in Hs. injection Hs as <-. eapply (engine_gone (all_buckets s)); [exact Hok|exact Ht|exact Hsl|by rewrite Hpc|by rewrite Hpc|exact Hb|..]; try done.
    by rewrite Hpc.
  - injection Hs as <-. apply (owner_sets s t th _ idx b clear_bucket); try done; [by rewrite Hpc|by right|by intros [?|?]|by eauto].
Qed.

(** *** Events *)

Lemma threads_new s t th : server_ok e0 s -> threads s !! t = None -> slot (t_pc th) = None -> scanning (t_pc th) = false ->
  scan_ok (all_buckets s) th -> server_ok e0 (s <| threads := <[t := th]> (threads s) |>).
Proof.
  intros Hok Ht Hs Hsc Hn. pose proof Hok as Hok'. destruct Hok. split; try done; cbn.
  - intros u uh i Hu Hi. apply lookup_insert_Some in Hu as [[-> <-]|[Hne Hu]]; [congruence|by eapply bo_slot0].
  - intros u w uh wh i Hu Hw Hi Hj. apply lookup_insert_Some in Hu as [[-> <-]|[Hne Hu]], Hw as [[-> <-]|[Hne' Hw]]; try congruence.
    by eapply bo_apart0.
  - intros u uh Hu Hu'. apply lookup_insert_Some in Hu as [[-> <-]|[Hne Hu]]; [congruence|by eapply bo_lock0].
  - intros u uh Hu. apply lookup_insert_Some in Hu as [[-> <-]|[Hne Hu]]; [done|by eapply bo_scan0].
Qed.

Lemma threads_gone s t : server_ok e0 s -> server_ok e0 (s <| threads := delete t (threads s) |>).
Proof.
  intros Hok. destruct Hok. split; try done; cbn.
  - intros u uh i Hu. apply lookup_delete_Some in Hu as [_ Hu]. by eapply bo_slot0.
  - intros u w uh wh i Hu Hw. apply lookup_delete_Some in Hu as [_ Hu], Hw as [_ Hw]. by eapply bo_apart0.
  - intros u uh Hu. apply lookup_delete_Some in Hu as [_ Hu]. by eapply bo_lock0.
  - intros u uh Hu. apply lookup_delete_Some in Hu as [_ Hu]. by eapply bo_scan0.
Qed.

Lemma selecting_out s c a name ii : server_ok e0 s -> conns s !! c = Some a -> c_doing a = Selecting name ii -> bucketIndex a = 0%nat.
Proof.
  intros Hok Ha Hd. pose proof (bo_conn _ _ _ _ _ _ Hok c a Ha) as Hc. unfold conn_ok in Hc. case_decide; [done|].
  destruct Hc as (_ & _ & _ & Hc). by rewrite Hd in Hc.
Qed.

Lemma no_bucket_ready s : server_ok e0 s -> exists b, all_buckets s !! 0%nat = Some b /\ state b = BucketState.Ready.
Proof. intros Hok. destruct (bo_no_bucket _ _ _ _ _ _ Hok) as (b & ? & ? & _). eauto. Qed.

Lemma select_step_ok s s' c a : server_ok e0 s -> conns s !! c = Some a -> select_step c a s = Some s' -> server_ok e0 s'.
Proof.
  intros Hok Ha Hs. unfold select_step in Hs. destruct (c_doing a) as [|name|name ii|] eqn:Hd; try done; [injection Hs as <-; by apply leave_ok|].
  pose proof (selecting_out s c a name ii Hok Ha Hd) as H0.
  assert (forall a', conns s !! c = Some a' -> bucketIndex a' = 0%nat) as Hfrom by congruence.
  destruct (all_buckets s !! ii) as [b|] eqn:Hb.
  - destruct (bool_decide _ && _) eqn:Hr; [|injection Hs as <-; by apply doing_ok].
    apply andb_true_iff in Hr as [Hr%bool_decide_eq_true _]. apply (join_ok c ii b Idle s s'); try done. by rewrite Ha.
  - destruct (no_bucket_ready s Hok) as (b & Hb0 & Hr). apply (join_ok c 0 b Idle s s'); try done. by rewrite Ha.
Qed.

Lemma start_thread_ok s s' t c name ty pc :
  server_ok e0 s -> start_thread t c name ty pc s = Some s' -> pc = CreateStart \/ (pc = DestroyStart /\ name <> []) -> server_ok e0 s'.
Proof.
  intros Hok Hs Hpc. unfold start_thread in Hs. destruct (threads s !! t) eqn:Ht; [done|].
  assert (server_ok e0 (s <| threads := <[t := mk_thread name ty c pc]> (threads s) |>)) as Hok'
    by (apply threads_new; try done; by destruct Hpc as [->|[-> ?]]).
  destruct c as [c|]; [|by injection Hs as <-]. destruct (conns s !! c) as [a|] eqn:Ha; [|done]. cbn in Hs.
  destruct (idle a); [|done]. injection Hs as <-. by apply doing_ok.
Qed.

Lemma occurs_ok ev s s' : server_ok e0 s -> occurs ev s = Some s' -> server_ok e0 s'.
Proof.
  intros Hok Hs. destruct ev as [c|c name|c|c|t c name ty|t c name|t ch|t]; cbn in Hs.
  - destruct (conns s !! c) eqn:Hc; [done|]. destruct (Z.ltb_spec (Z.of_nat (size (conns s))) MAX_CONNECTIONS); [|done].
    destruct (no_bucket_ready s Hok) as (b & Hb & Hr). by apply (join_ok c 0 b (Leaving (text "default")) s s'); try done; rewrite Hc.
  - apply bind_Some in Hs as (a & Ha & Hs). destruct (idle a); [|done]. injection Hs as <-. by apply doing_ok.
  - apply bind_Some in Hs as (a & Ha & Hs). by eapply select_step_ok.
  - apply bind_Some in Hs as (a & Ha & Hs). destruct (idle a); [|done]. injection Hs as <-.
    eapply (gone_ok c (mk_association 0 0 Idle)); [by apply leave_ok|by apply lookup_insert_eq|done].
  - eapply start_thread_ok; [done|exact Hs|by left].
  - case_bool_decide; [done|]. eapply start_thread_ok; [done|exact Hs|by right].
  - apply bind_Some in Hs as (th & Ht & Hs). destruct (create_step t th ch s) as [s1|] eqn:Hc.
    + injection Hs as <-. by eapply create_step_ok.
    + by eapply destroy_step_ok.
  - apply bind_Some in Hs as (th & Ht & Hs). destruct (t_pc th); try done. pose proof (threads_gone s t Hok) as Hok'.
    destruct (t_connection th) as [c|]; [|by injection Hs as <-]. apply bind_Some in Hs as (a & Ha & Hs). injection Hs as <-.
    by apply doing_ok.
Qed.

Lemma initialize_ok max : e0 <> 0 -> server_ok e0 (initialize_buckets max e0).
Proof.
  intros He. assert (forall i b, all_buckets (initialize_buckets max e0) !! i = Some b -> i <> 0%nat -> b = empty_bucket) as Hb.
  { intros [|i] b Hb Hi; [done|]. cbn in Hb. by apply lookup_replicate in Hb as [-> _]. }
  split; try done; cbn -[lookup].
  - eexists. split; [reflexivity|done].
  - intros i b Hi Hr. destruct (decide (i = 0%nat)) as [->|Hne]; [|by rewrite (Hb i b Hi Hne) in Hr].
    injection Hi as <-. cbn. split; [done|apply lookup_insert_eq].
  - intros i b Hi0 Hi. by rewrite (Hb i b Hi Hi0).
  - intros i b Hi0 Hi. by rewrite (Hb i b Hi Hi0).
  - intros i j b b' Hi Hj Hn Hne. destruct (decide (i = 0%nat)) as [->|Hi0]; [by injection Hi as <-|]. by rewrite (Hb i b Hi Hi0) in Hne.
Qed.
End Steps.

(** ** What is reached *)

Definition happens (s s' : server) : Prop := exists ev, occurs ev s = Some s'.

Lemma reachable_ok max e0 s : e0 <> 0 -> rtc happens (initialize_buckets max e0) s -> server_ok e0 s.
Proof.
  intros He Hr. refine (rtc_invariant happens (server_ok e0) _ _ _ Hr (initialize_ok e0 max He)).
  intros s1 s2 Hok [ev Hev]. by eapply occurs_ok.
Qed.

Lemma engine_exists e0 s c a :
  server_ok e0 s -> conns s !! c = Some a -> bucketEngine a <> 0 -> live s !! bucketEngine a = Some (bucketIndex a).
Proof.
  intros Hok Ha Hz. pose proof (bo_conn _ _ _ _ _ _ Hok c a Ha) as Hc. unfold conn_ok in Hc. case_decide as Hi; [|by destruct Hc as (_ & _ & ? & _)].
  destruct Hc as [?| ->]; [done|]. rewrite Hi. destruct (bo_no_bucket _ _ _ _ _ _ Hok) as (b & Hb & Hr & _ & <-).
  by apply (bo_ready _ _ _ _ _ _ Hok).
Qed.

(** C14: However clients connect, select buckets and leave, and threads create
    and destroy buckets at the same time: the engine a connection uses exists
    and is that of its bucket; the number of clients of a bucket is right; no
    two buckets have the same name; and an engine is destroyed once, when it
    exists and no connection uses it. *)
Theorem buckets_safe max e0 s :
  e0 <> 0 -> rtc happens (initialize_buckets max e0) s ->
  (forall c a, conns s !! c = Some a -> bucketEngine a <> 0 -> live s !! bucketEngine a = Some (bucketIndex a)) /\
  (forall i b, i <> 0%nat -> all_buckets s !! i = Some b -> clients b = number i (conns s)) /\
  (forall i j b b', all_buckets s !! i = Some b -> all_buckets s !! j = Some b' -> bname b = bname b' -> bname b <> [] -> i = j) /\
  (forall t th i, threads s !! t = Some th -> t_pc th = CreateUndo i \/ t_pc th = DestroyEngine i ->
     exists b, all_buckets s !! i = Some b /\ live s !! engine b = Some i /\
       forall c a, conns s !! c = Some a -> bucketEngine a <> engine b).
Proof.
  intros He Hr. pose proof (reachable_ok max e0 s He Hr) as Hok. clear Hr. assert (forall c a, conns s !! c = Some a -> bucketEngine a <> 0 -> live s !! bucketEngine a = Some (bucketIndex a)) as Hex
    by (intros c a; by apply (engine_exists e0)).
  split; [done|]. split; [apply Hok|]. split; [apply Hok|]. intros t th i Ht Hpc.
  assert (slot (t_pc th) = Some i) as Hsl by (by destruct Hpc as [->| ->]).
  assert (engine_made (t_pc th) = true) as Hm by (by destruct Hpc as [->| ->]).
  assert (may_have_clients (t_pc th) = false) as Hc by (by destruct Hpc as [->| ->]).
  destruct (bo_slot _ _ _ _ _ _ Hok t th i Ht Hsl) as (_ & (b & Hb & _ & Hl) & Hno). destruct (Hl Hm) as [Hb0 Hlb].
  exists b. do 2 (split; [done|]). intros c a Ha E. apply (Hno Hc c a Ha). rewrite <- E in Hlb, Hb0. pose proof (Hex c a Ha Hb0). congruence.
Qed.

(** ** A deletion completes *)

Fixpoint happen_all (evs : list event) (s : server) : option server :=
  match evs with
  | [] => Some s
  | ev :: evs => s' ← occurs ev s; happen_all evs s'
  end.

(** Clients leave, and the thread runs. *)
Definition leaving_or_running (t : nat) (ev : event) : Prop :=
  match ev with
  | Disconnect _ | Continue _ => True
  | Run u _ => u = t
  | _ => False
  end.

Section Deletion.
Context (e0 : Z) (t idx : nat).

Definition any_choice : choice := mk_choice true 0 ENGINE_SUCCESS.

Lemma run_destroys s th :
  threads s !! t = Some th -> create_step t th any_choice s = None -> occurs (Run t any_choice) s = destroy_step t th s.
Proof. intros Ht Hc. cbn [occurs]. rewrite Ht. cbn [mbind option_bind]. by rewrite Hc. Qed.

(** Without clients the thread needs three more steps. *)
Lemma deletion_ends s th b :
  threads s !! t = Some th -> t_pc th = DestroyWait idx -> all_buckets s !! idx = Some b -> clients b = 0 ->
  exists s' b', happen_all (replicate 3 (Run t any_choice)) s = Some s' /\
    threads s' !! t = Some (th <| t_pc := Finished ENGINE_SUCCESS |>) /\
    all_buckets s' !! idx = Some b' /\ state b' = BucketState.None /\ bname b' = [].
Proof.
  intros Ht Hpc Hb Hc. set (th1 := th <| t_pc := DestroyEngine idx |>). set (th2 := th1 <| t_pc := DestroyCleanup idx |>).
  set (s1 := set_thread t th (DestroyEngine idx) (s <| deleting_buckets := deleting_buckets s - 1 |>)).
  set (s2 := set_thread t th1 (DestroyCleanup idx) (s1 <| live := delete (engine b) (live s1) |>)).
  assert (threads s1 !! t = Some th1) as Ht1 by apply lookup_insert_eq.
  assert (threads s2 !! t = Some th2) as Ht2 by apply lookup_insert_eq.
  exists (set_thread t th2 (Finished ENGINE_SUCCESS) (set_bucket idx clear_bucket s2)), (clear_bucket b).
  split; [|split; [by apply lookup_insert_eq|split; [|done]]].
  - cbn [replicate happen_all]. rewrite (run_destroys s th Ht) by (unfold create_step; by rewrite Hpc). unfold destroy_step. rewrite Hpc, Hb. cbn [mbind option_bind].
    rewrite Hc. cbn [Z.eqb mbind option_bind]. change (set_thread t th _ _) with s1.
    rewrite (run_destroys s1 th1 Ht1) by done.
    change (destroy_step t th1 s1) with (b ← all_buckets s !! idx; Some (set_thread t th1 (DestroyCleanup idx) (s1 <| live := delete (engine b) (live s1) |>))).
    rewrite Hb. cbn [mbind option_bind]. change (set_thread t th1 _ _) with s2.
    rewrite (run_destroys s2 th2 Ht2) by done. done.
  - cbn. by rewrite list_lookup_alter_eq, Hb.
Qed.

Lemma some_client i cs : 0 < number i cs -> exists c a, cs !! c = Some a /\ bucketIndex a = i.
Proof.
  unfold number. intros Hn. destruct (map_choose (filter (fun p => bucketIndex p.2 = i) cs)) as (c & a & Ha).
  - intros E. rewrite E, map_size_empty in Hn. lia.
  - apply map_lookup_filter_Some in Ha as [Ha Hi]. eauto.
Qed.

(** A client of the bucket leaves; the thread and the other clients stay. *)
Lemma client_leaves s c a :
  server_ok e0 s -> conns s !! c = Some a -> bucketIndex a = idx -> idx <> 0%nat -> c_doing a <> Blocked ->
  exists ev s', occurs ev s = Some s' /\ leaving_or_running t ev /\ threads s' = threads s /\
    number idx (conns s') = number idx (conns s) - 1 /\
    forall c' a', conns s' !! c' = Some a' -> bucketIndex a' = idx -> conns s !! c' = Some a'.
Proof.
  intros Hok Ha Hi Hi0 Hd.
  assert (forall d, number idx (<[c := mk_association 0 0 d]> (conns s)) = number idx (conns s) - 1) as Hn.
  { intros d. rewrite number_insert, Ha. cbn. rewrite decide_True, decide_False by done. lia. }
  assert (forall d c' a', <[c := mk_association 0 0 d]> (conns s) !! c' = Some a' -> bucketIndex a' = idx -> conns s !! c' = Some a') as Hkeep.
  { intros d c' a' Hc'. by apply lookup_insert_Some in Hc' as [[-> <-]|[_ ?]]; [intros; cbn in *; congruence|]. }
  destruct (c_doing a) as [|name|name ii|] eqn:Ed; try done.
  - eexists (Disconnect c), _. cbn [occurs]. rewrite Ha. cbn [mbind option_bind]. unfold idle. rewrite Ed. split; [reflexivity|].
    split; [done|]. split; [done|]. cbn -[lookup insert delete number]. split.
    + rewrite number_delete, lookup_insert_eq, Hn. cbn. rewrite decide_False by done. lia.
    + intros c' a' Hc'. apply lookup_delete_Some in Hc' as [_ Hc']. by eapply Hkeep.
  - eexists (Continue c), _. cbn [occurs]. rewrite Ha. cbn [mbind option_bind]. unfold select_step. rewrite Ed. split; [reflexivity|].
    split; [done|]. split; [done|]. cbn -[lookup insert number]. split; [apply Hn|by eapply Hkeep].
  - by rewrite (selecting_out e0 s c a name ii Hok Ha Ed) in Hi.
Qed.

Lemma clients_leave s th :
  server_ok e0 s -> threads s !! t = Some th -> t_pc th = DestroyWait idx ->
  (forall c a, conns s !! c = Some a -> bucketIndex a = idx -> c_doing a <> Blocked) ->
  exists evs s' b, Forall (leaving_or_running t) evs /\ happen_all evs s = Some s' /\
    threads s' !! t = Some (th <| t_pc := Finished ENGINE_SUCCESS |>) /\
    all_buckets s' !! idx = Some b /\ state b = BucketState.None /\ bname b = [].
Proof.
  remember (Z.to_nat (number idx (conns s))) as n eqn:Hn. revert s Hn. induction n as [|n IH]; intros s Hn Hok Ht Hpc Hd;
    destruct (bo_slot _ _ _ _ _ _ Hok t th idx Ht ltac:(by rewrite Hpc)) as (Hi0 & (b & Hb & _) & _); pose proof (number_bound idx (conns s)).
  - destruct (deletion_ends s th b Ht Hpc Hb) as (s' & b' & Hrun & Hend); [rewrite (bo_clients _ _ _ _ _ _ Hok idx b Hi0 Hb); lia|].
    exists (replicate 3 (Run t any_choice)), s', b'. by split; [repeat constructor|].
  - destruct (some_client idx (conns s)) as (c & a & Ha & Hi); [lia|].
    destruct (client_leaves s c a Hok Ha Hi Hi0 (Hd c a Ha Hi)) as (ev & s1 & Hev & Hl & Hth & Hn1 & Hkeep).
    destruct (IH s1) as (evs & s' & b' & Hevs & Hrun & Hend); [lia|by eapply occurs_ok|by rewrite Hth|done|by eauto|].
    exists (ev :: evs), s', b'. split; [by constructor|]. cbn [happen_all]. by rewrite Hev.
Qed.

(** The state machine of a client of the bucket notices. *)
Lemma dying_noticed s th c a :
  server_ok e0 s -> threads s !! t = Some th -> slot (t_pc th) = Some idx -> conns s !! c = Some a -> bucketIndex a = idx ->
  bucket_dying false a s = true.
Proof.
  intros Hok Ht Hs Ha Hi. destruct (slot_bucket e0 s t th idx Hok Ht Hs) as (b & Hb & Hst & _). unfold bucket_dying. rewrite Hi, Hb, Hst. cbn.
  by destruct (t_pc th).
Qed.

(** C15: A deletion completes: when the thread that deletes a bucket waits for
    its clients and none of these waits for a thread itself, they can leave one
    after the other, none comes in their place, and then the thread ends with
    success and the bucket is free. *)
Theorem deletion_completes max s th :
  e0 <> 0 -> rtc happens (initialize_buckets max e0) s ->
  threads s !! t = Some th -> t_pc th = DestroyWait idx ->
  (forall c a, conns s !! c = Some a -> bucketIndex a = idx -> c_doing a <> Blocked) ->
  exists evs s' b, Forall (leaving_or_running t) evs /\ happen_all evs s = Some s' /\
    threads s' !! t = Some (th <| t_pc := Finished ENGINE_SUCCESS |>) /\
    all_buckets s' !! idx = Some b /\ state b = BucketState.None /\ bname b = [].
Proof.
  intros He Hr. pose proof (reachable_ok max e0 s He Hr) as Hok. clear Hr He. by apply clients_leave.
Qed.
End Deletion.

(** ** Runs *)

Lemma happen_all_reachable evs s s' : happen_all evs s = Some s' -> rtc happens s s'.
Proof.
  revert s. induction evs as [|ev evs IH]; intros s Hs; cbn in Hs; [by injection Hs as ->|].
  apply bind_Some in Hs as (s1 & Hev & Hs). eapply rtc_l; [by exists ev|by apply IH].
Qed.

Definition start : server := initialize_buckets 2 7.
Definition after (evs : list event) : server := default start (happen_all evs start).
Definition makes (e : Z) : choice := mk_choice true e ENGINE_SUCCESS.

(** A client connects and creates the bucket "b" in thread 0. *)
Definition create_b : list event :=
  Connect 5 :: replicate 4 (Continue 5) ++ Create 0 5 (text "b") Memcached :: replicate 8 (Run 0 (makes 8)) ++ [Complete 0].

(** It selects "b", and another client has the bucket deleted by thread 1. *)
Definition delete_b : list event :=
  create_b ++ Select 5 (text "b") :: replicate 2 (Continue 5) ++ Connect 6 :: replicate 4 (Continue 6) ++
  Delete 1 (Some 6%nat) (text "b") :: replicate 4 (Run 1 (makes 0)).

Lemma delete_b_run : happen_all delete_b start = Some (after delete_b).
Proof. by vm_compute. Qed.

Lemma buckets_safe_witness :
  (exists a, conns (after delete_b) !! 5%nat = Some a /\ bucketIndex a = 1%nat /\ live (after delete_b) !! bucketEngine a = Some 1%nat) /\
  (exists b, all_buckets (after delete_b) !! 1%nat = Some b /\ state b = BucketState.Destroying /\ clients b = number 1 (conns (after delete_b))).
Proof.
  destruct (buckets_safe 2 7 (after delete_b)) as (Hc & Hn & _); [done|by eapply happen_all_reachable, delete_b_run|].
  split; eexists; split; [vm_compute; reflexivity| |vm_compute; reflexivity|].
  - split; [done|]. eapply (Hc 5%nat); [vm_compute; reflexivity|done].
  - split; [done|]. by eapply (Hn 1%nat); [|vm_compute; reflexivity].
Defined.

Lemma deletion_completes_witness :
  exists evs s' b, happen_all evs (after delete_b) = Some s' /\ all_buckets s' !! 1%nat = Some b /\ state b = BucketState.None.
Proof.
  destruct (deletion_completes 7 1 1 2 (after delete_b) (mk_thread (text "b") Unknown (Some 6%nat) (DestroyWait 1)))
    as (evs & s' & b & _ & Hrun & _ & Hb & Hs & _); [done|by eapply happen_all_reachable, delete_b_run|by vm_compute|done| |by exists evs, s', b].
  assert (conns (after delete_b) = <[5%nat := mk_association 1 8 Idle]> (<[6%nat := mk_association 0 7 Blocked]> ∅)) as E by (by vm_compute).
  intros c a Ha Hi. rewrite E in Ha. apply lookup_insert_Some in Ha as [[_ <-]|[_ Ha]]; [done|].
  by apply lookup_insert_Some in Ha as [[_ <-]|[_ Ha]].
Defined.

(** ** Where it goes wrong *)

(** A client that deletes the bucket it is on: the thread takes the connection
    off the bucket without putting it on "no bucket".  The connection is left
    without an engine, and the number of clients of "no bucket" is one too low:
    when the connection is closed it wraps. *)
Definition delete_own : list event :=
  create_b ++ Select 5 (text "b") :: replicate 2 (Continue 5) ++ Delete 1 (Some 5%nat) (text "b") :: replicate 7 (Run 1 (makes 0)) ++ [Complete 1].

Theorem delete_own_bucket :
  conns (after delete_own) !! 5%nat = Some (mk_association 0 0 Idle) /\
  clients <$> all_buckets (after delete_own) !! 0%nat = Some 0 /\
  clients <$> all_buckets (after (delete_own ++ [Disconnect 5])) !! 0%nat = Some 4294967295.
Proof. by vm_compute. Qed.

(** There is no memory for the top keys of a new bucket: the thread gives up and
    leaves the bucket in the state Creating.  It can neither be created again
    nor deleted, and [cleanup_buckets] waits for it for ever. *)
Definition create_fails : list event :=
  Connect 5 :: replicate 4 (Continue 5) ++ Create 0 5 (text "b") Memcached :: replicate 5 (Run 0 (mk_choice false 0 ENGINE_SUCCESS)) ++ [Complete 0].

Definition result_of (t : nat) (s : server) : option ENGINE_ERROR_CODE :=
  th ← threads s !! t; match t_pc th with Finished r => Some r | _ => None end.

Theorem create_out_of_memory :
  threads (after create_fails) = ∅ /\
  cleanup_waits <$> all_buckets (after create_fails) !! 1%nat = Some true /\
  result_of 1 (after (create_fails ++ Create 1 5 (text "b") Memcached :: replicate 3 (Run 1 (makes 8)))) = Some ENGINE_KEY_EEXISTS /\
  result_of 1 (after (create_fails ++ Delete 1 (Some 5%nat) (text "b") :: replicate 3 (Run 1 (makes 8)))) = Some ENGINE_KEY_EEXISTS.
Proof. by vm_compute. Qed.
