(* ===== verification/EngineApi.v ===== *)
(** * The engine interface

    What the server calls of the engine behind a bucket
    ([include/memcached/engine.h], [include/memcached/types.h]).  The engine
    has a state of its own; the calls are functions of it. *)

From S2P Require Import Prelude RecordUpdate StateMonad Protocol.

Inductive ENGINE_STORE_OPERATION :=
| OPERATION_ADD
| OPERATION_SET
| OPERATION_REPLACE
| OPERATION_CAS.

#[export] Instance store_operation_eq_dec : EqDecision ENGINE_STORE_OPERATION.
Proof. solve_decision. Defined.

(** Which mutation it was. *)
Record mutation_descr_t := mk_mutation {
  vbucket_uuid : Z;
  seqno : Z;
}.

(** [item_info]: a pointer is the address and the bytes that are there. *)
Record item_info := mk_item_info {
  inf_cas : Z;
  inf_mutation : mutation_descr_t;
  inf_exptime : Z;
  inf_nbytes : Z;
  inf_flags : Z;
  inf_clsid : Z;
  inf_datatype : Z;
  inf_key : Z * bytes;
  inf_value : list (Z * bytes);
}.

(** The members of [ENGINE_HANDLE_V1] that the executors call.  [copy_value]
    is [memcpy] to an offset in the first piece of the value of an item. *)
Class EngineV1 (ES : Type) := {
  engine_allocate (key : bytes) (nbytes flags exptime datatype : Z) : ST ES (ENGINE_ERROR_CODE * Z);
  engine_remove (key : bytes) (cas vbucket : Z) : ST ES (ENGINE_ERROR_CODE * Z * mutation_descr_t);
  engine_release (it : Z) : ST ES unit;
  engine_get (key : bytes) (vbucket : Z) : ST ES (ENGINE_ERROR_CODE * Z);
  engine_store (it cas : Z) (operation : ENGINE_STORE_OPERATION) (vbucket : Z) : ST ES (ENGINE_ERROR_CODE * Z);
  engine_arithmetic (key : bytes) (increment create : bool) (delta initial exptime datatype vbucket : Z)
    : ST ES (ENGINE_ERROR_CODE * Z * Z);
  engine_flush : ST ES ENGINE_ERROR_CODE;
  engine_item_set_cas (it cas : Z) : ST ES unit;
  engine_get_item_info (it nvalue : Z) : ST ES (option item_info);
  engine_set_item_info (it datatype : Z) : ST ES bool;
  copy_value (it off : Z) (data : bytes) : ST ES unit;
}.
