(* ===== verification/Executors.v ===== *)
(** * Executing commands on items

    The executors of [daemon/mcbp_executors.cc] that read, store, change and
    remove items, over any engine: GET and its variants, ADD, SET and REPLACE,
    APPEND and PREPEND, DELETE, arithmetic, FLUSH, and the commands without an
    engine.  They work on a connection and on the engine behind its bucket.

    An engine answers at once, or asks with [ENGINE_EWOULDBLOCK] to be called
    again: the executor then runs a second time with the answer in [aiostat].
    Logging and the counters of the threads are left out. *)

From S2P Require Import Prelude Memory Numbers Protocol Packet Input Output Buffers DynamicBuffer RecordUpdate StateMonad.
From S2P Require Import Connection Response Dispatch EngineApi.

(** ** Connection and engine *)

(** [AppendPrependCommandContext] *)
Inductive append_state :=
| InflateInputData
| GetItem
| AllocateNewItem
| StoreItem
| Reset
| AppendDone.

Inductive append_mode :=
| Append
| Prepend.

#[export] Instance append_state_eq_dec : EqDecision append_state.
Proof. solve_decision. Defined.

#[export] Instance append_mode_eq_dec : EqDecision append_mode.
Proof. solve_decision. Defined.

Record append_context := mk_append {
  ap_mode : append_mode;
  ap_key : bytes;
  ap_value : bytes;
  ap_vbucket : Z;
  ap_cas : Z;
  olditem : Z;
  oldItemInfo : option item_info;
  newitem : Z;
  newItemInfo : option item_info;
  ap_buffer : bytes;
  ap_state : append_state;
}.

#[export] Instance append_context_settable : Settable append_context := fun a =>
  mk_append (ap_mode a) (ap_key a) (ap_value a) (ap_vbucket a) (ap_cas a) (olditem a) (oldItemInfo a)
    (newitem a) (newItemInfo a) (ap_buffer a) (ap_state a).

(** A connection, the context of its command and the engine of its bucket; the
    type of the context depends on the command. *)
Record command_world (K ES : Type) := mk_world {
  conn : connection;
  context : option K;
  eng : ES;
}.
Arguments mk_world {K ES} _ _ _.
Arguments conn {K ES} _.
Arguments context {K ES} _.
Arguments eng {K ES} _.

Section World.
Context {K ES : Type}.

Definition on_conn {A} (m : M A) : ST (command_world K ES) A := fun w =>
  match m (conn w) with
  | Done a c => Done a (mk_world c (context w) (eng w))
  | Throw c => Throw (mk_world c (context w) (eng w))
  | Crash => Crash
  end.

Definition on_eng {A} (m : ST ES A) : ST (command_world K ES) A := fun w =>
  match m (eng w) with
  | Done a e => Done a (mk_world (conn w) (context w) e)
  | Throw e => Throw (mk_world (conn w) (context w) e)
  | Crash => Crash
  end.

Definition set_context (k : option K) : ST (command_world K ES) unit := modify (fun w => mk_world (conn w) k (eng w)).

(** The members of the context, on a context that is there. *)
Definition the_context : ST (command_world K ES) K :=
  k <- gets context;; must k.

Definition update_context (f : K -> K) : ST (command_world K ES) unit :=
  k <- the_context;; set_context (Some (f k)).
End World.

Abbreviation world := (command_world append_context).
Definition X {ES : Type} (A : Type) : Type := ST (world ES) A.

(** What the executors use of the server: the JSON validator of a thread
    ([None] when it is out of memory), decompression ([None] out of memory,
    [Some None] when the data is not compressed), and the address of the
    version text. *)
Class Services := {
  json_validate : bytes -> option bool;
  inflate : bytes -> option (option bytes);
  version_at : Z;
  version_text : bytes;
}.

Section Executors.
Context {ES : Type} `{EngineV1 ES} `{System} `{Engine} `{Bucket} `{Services}.

(** ** Access to the request *)

(** [binary_get_request]: the header of the request, behind which key and
    extras end at the position of the read buffer. *)
Definition request_at (i : input) : Z :=
  curr (read i) - (HEADER_SIZE + keylen (binary_header i) + extlen (binary_header i)).

Definition binary_get_request : M protocol_binary_request_header :=
  i <- gets inp;;
  cb_assert (0 <=? request_at i);;
  m <- must (load (Z.to_nat HEADER_SIZE) (request_at i) (mem (read i)));;
  must (load_request_header m).

(** [binary_get_key] *)
Definition binary_get_key : M bytes :=
  i <- gets inp;;
  must (load (Z.to_nat (keylen (binary_header i))) (curr (read i) - keylen (binary_header i)) (mem (read i))).

(** The answer of a blocked engine is taken. *)
Definition take_aiostat : M ENGINE_ERROR_CODE :=
  r <- gets aiostat;; assign aiostat ENGINE_SUCCESS;; ret r.

(** What an address in an item shows is in the memory of the connection. *)
Definition expose (p : Z * bytes) : M unit := modify (fun c => c <| memory := put (memory c) p.1 p.2 |>).

Fixpoint expose_all (l : list (Z * bytes)) : M unit :=
  match l with
  | [] => ret tt
  | p :: l => expose p;; expose_all l
  end.

Definition bucket_get_item_info {K} (it nvalue : Z) : ST (command_world K ES) (option item_info) :=
  info <- on_eng (engine_get_item_info it nvalue);;
  match info with
  | Some i => on_conn (expose_all (inf_key i :: inf_value i))
  | None => ret tt
  end;;
  ret info.

Definition bucket_release_item {K} (it : Z) : ST (command_world K ES) unit := on_eng (engine_release it).

(** ** GET *)

Fixpoint add_values (l : list (Z * bytes)) : M unit :=
  match l with
  | [] => ret tt
  | p :: l => add_iov p.1 (size p.2);; add_values l
  end.

Definition wants_key (cmd : Z) : bool :=
  (cmd == cmd_value PROTOCOL_BINARY_CMD_GETK) || (cmd == cmd_value PROTOCOL_BINARY_CMD_GETKQ).

(** The response to a hit: header, flags, key and value. *)
Definition get_response (nkey it : Z) (i : item_info) (datatype : Z) : M bool :=
  cmd <- gets cmd;;
  let keylen := if wants_key cmd then u16 nkey else 0 in
  let bodylen := u32 (4 + inf_nbytes i + (if wants_key cmd then u32 nkey else 0)) in
  r <- mcbp_add_header 0 4 keylen bodylen datatype;;
  if r == -1 then setState conn_closing;; ret false else
  rsp <- gets (fun c => buf (write c));;
  store (rsp + 16) (le_store 8 (htonll (inf_cas i)));;
  store (rsp + HEADER_SIZE) (le_store 4 (inf_flags i));;
  add_iov (rsp + HEADER_SIZE) 4;;
  when (wants_key cmd) (add_iov (inf_key i).1 nkey;; ret tt);;
  add_values (inf_value i);;
  setState conn_mwrite;;
  assign item it;;
  ret true.

(** The response to a client that cannot inflate a compressed value. *)
Definition get_inflated (key : bytes) (it : Z) (i : item_info) : X (ES := ES) unit :=
  cmd <- on_conn (gets cmd);;
  match inf_value i with
  | [(_, v)] =>
      ok <- on_conn (mcbp_response_handler snappy_uncompressed_length snappy_uncompress
                       (if wants_key cmd then key else []) (le_store 4 (inf_flags i)) v (inf_datatype i)
                       (status_value PROTOCOL_BINARY_RESPONSE_SUCCESS) (inf_cas i));;
      if ok then on_conn mcbp_write_and_free;; bucket_release_item it
      else on_conn (mcbp_write_packet PROTOCOL_BINARY_RESPONSE_EINTERNAL)
  | _ => on_conn (mcbp_write_packet PROTOCOL_BINARY_RESPONSE_EINTERNAL)
  end.

Definition get_hit (key : bytes) (it : Z) : X (ES := ES) unit :=
  info <- bucket_get_item_info it iov_max;;
  match info with
  | None => bucket_release_item it;; on_conn (mcbp_write_packet PROTOCOL_BINARY_RESPONSE_EINTERNAL)
  | Some i =>
      supports <- on_conn (gets supports_datatype);;
      topkeys <- (if negb supports && is_compressed (inf_datatype i) then get_inflated key it i;; ret true
                  else on_conn (get_response (size key) it i
                         (if negb supports then PROTOCOL_BINARY_RAW_BYTES else inf_datatype i)));;
      when topkeys (on_conn (update_topkeys key))
  end.

Definition get_miss (key : bytes) : M unit :=
  noreply <- gets noreply;;
  cmd <- gets cmd;;
  if (noreply : bool) then setState conn_new_cmd else
  if wants_key cmd then
    ofs <- gets (fun c => buf (write c) + HEADER_SIZE);;
    r <- mcbp_add_header (status_value PROTOCOL_BINARY_RESPONSE_KEY_ENOENT) 0 (size key) (size key)
           PROTOCOL_BINARY_RAW_BYTES;;
    if r == -1 then setState conn_closing else
    store ofs key;;
    add_iov ofs (size key);;
    setState conn_mwrite
  else mcbp_write_packet PROTOCOL_BINARY_RESPONSE_KEY_ENOENT.

Definition process_bin_get : X (ES := ES) unit :=
  key <- on_conn binary_get_key;;
  r <- on_conn take_aiostat;;
  vb <- on_conn (gets (fun c => vbucket (bheader c)));;
  got <- (if decide (r = ENGINE_SUCCESS) then on_eng (engine_get key vb) else ret (r, 0));;
  let '(r, it) := got in
  match r with
  | ENGINE_SUCCESS => get_hit key it
  | ENGINE_KEY_ENOENT => on_conn (get_miss key)
  | ENGINE_EWOULDBLOCK => on_conn (assign ewouldblock true)
  | ENGINE_DISCONNECT => on_conn (setState conn_closing)
  | _ => on_conn (mcbp_write_packet (engine_error_2_mcbp_protocol_error r))
  end.

Definition get_executor : X (ES := ES) unit :=
  cmd <- on_conn (gets cmd);;
  match cmd_of_value cmd with
  | Some (PROTOCOL_BINARY_CMD_GETQ | PROTOCOL_BINARY_CMD_GETKQ) => on_conn (assign noreply true);; process_bin_get
  | Some (PROTOCOL_BINARY_CMD_GET | PROTOCOL_BINARY_CMD_GETK) => on_conn (assign noreply false);; process_bin_get
  | _ => on_conn (setState conn_closing)
  end.

(** ** ADD, SET and REPLACE *)

(** The mutation as the extras of a response, in the write buffer. *)
Definition store_extras (at_ : Z) (d : mutation_descr_t) : M unit :=
  store at_ (le_store 8 (htonll (vbucket_uuid d)));;
  store (at_ + 8) (le_store 8 (htonll (seqno d))).

Definition write_mutation (d : mutation_descr_t) : M unit :=
  extras <- gets (fun c => buf (write c) + HEADER_SIZE);;
  store_extras extras d;;
  mcbp_write_response extras 16 0 16.

(** The client's value is recognised as JSON; whether there was memory. *)
Definition mark_json (it : Z) (value : bytes) : X (ES := ES) bool :=
  supports <- on_conn (gets supports_datatype);;
  if (supports : bool) then ret true else
  match json_validate value with
  | None => ret false
  | Some json => when json (on_eng (engine_set_item_info it PROTOCOL_BINARY_DATATYPE_JSON);; ret tt);; ret true
  end.

(** A new item with the value of the request, as the connection's item; [None]
    when the executor is done. *)
Definition allocate_item (r : ENGINE_ERROR_CODE) (req : protocol_binary_request_header) (pkt : bytes)
    : X (ES := ES) (option ENGINE_ERROR_CODE) :=
  let nkey := ntohs (keylen req) in
  let vlen := u32 (ntohl (bodylen req) - nkey - extlen req) in
  key <- must (load (Z.to_nat nkey) 32 pkt);;
  flags <- must (load_int 4 HEADER_SIZE pkt);;
  expiration <- must (load_int 4 (HEADER_SIZE + 4) pkt);;
  got <- (if decide (r = ENGINE_SUCCESS)
          then on_eng (engine_allocate key vlen flags (ntohl expiration) (datatype req)) else ret (r, 0));;
  let '(r, it) := got in
  match r with
  | ENGINE_SUCCESS =>
      on_conn (update_topkeys key);;
      on_eng (engine_item_set_cas it (ntohll (cas req)));;
      info <- bucket_get_item_info it 1;;
      match info with
      | None =>
          bucket_release_item it;;
          on_conn (mcbp_write_packet PROTOCOL_BINARY_RESPONSE_EINTERNAL);;
          ret None
      | Some i =>
          on_conn (assign item it);;
          v <- must (head (inf_value i));;
          cb_assert (size v.2 == vlen);;
          value <- must (load (Z.to_nat vlen) (32 + nkey) pkt);;
          on_eng (copy_value it 0 value);;
          ok <- mark_json it value;;
          if ok then ret (Some ENGINE_SUCCESS) else
          it <- on_conn (gets item);;
          bucket_release_item it;;
          on_conn (assign item 0);;
          on_conn (setState conn_closing);;
          ret None
      end
  | ENGINE_EWOULDBLOCK => on_conn (assign ewouldblock true);; ret None
  | ENGINE_DISCONNECT => on_conn (setState conn_closing);; ret None
  | _ => on_conn (mcbp_write_packet (engine_error_2_mcbp_protocol_error r));; ret None
  end.

(** The response to a value that was stored; whether the executor goes on. *)
Definition respond_stored : X (ES := ES) bool :=
  extras <- on_conn (gets supports_mutation_extras);;
  if (extras : bool) then
    it <- on_conn (gets item);;
    info <- bucket_get_item_info it 1;;
    match info with
    | None =>
        bucket_release_item it;;
        on_conn (mcbp_write_packet PROTOCOL_BINARY_RESPONSE_EINTERNAL);;
        ret false
    | Some i => on_conn (write_mutation (inf_mutation i));; ret true
    end
  else on_conn (mcbp_write_response 0 0 0 0);; ret true.

Definition respond_store (store_op : ENGINE_STORE_OPERATION) (r : ENGINE_ERROR_CODE) : X (ES := ES) bool :=
  match r with
  | ENGINE_SUCCESS => respond_stored
  | ENGINE_EWOULDBLOCK => on_conn (assign ewouldblock true);; ret true
  | ENGINE_DISCONNECT => on_conn (setState conn_closing);; ret true
  | ENGINE_NOT_STORED =>
      on_conn (mcbp_write_packet (match store_op with
        | OPERATION_ADD => PROTOCOL_BINARY_RESPONSE_KEY_EEXISTS
        | OPERATION_REPLACE => PROTOCOL_BINARY_RESPONSE_KEY_ENOENT
        | _ => PROTOCOL_BINARY_RESPONSE_NOT_STORED
        end));;
      ret true
  | _ => on_conn (mcbp_write_packet (engine_error_2_mcbp_protocol_error r));; ret true
  end.

Definition add_set_replace_executor (store_op : ENGINE_STORE_OPERATION) (pkt : bytes) : X (ES := ES) unit :=
  r <- on_conn take_aiostat;;
  on_conn (assign ewouldblock false);;
  req <- must (load_request_header pkt);;
  let store_op := if cas req != 0 then OPERATION_CAS else store_op in
  it <- on_conn (gets item);;
  r <- (if it == 0 then allocate_item r req pkt else ret (Some r));;
  match r with
  | None => ret tt
  | Some r =>
      r <- (if decide (r = ENGINE_SUCCESS) then
              cas <- on_conn (gets response_cas);;
              it <- on_conn (gets item);;
              s <- on_eng (engine_store it cas store_op (ntohs (vbucket req)));;
              when (bool_decide (s.1 = ENGINE_SUCCESS)) (on_conn (assign response_cas (s.2)));;
              ret s.1
            else ret r);;
      more <- respond_store store_op r;;
      blocked <- on_conn (gets ewouldblock);;
      when (more && negb blocked)
        (it <- on_conn (gets item);;
         bucket_release_item it;;
         on_conn (assign item 0))
  end.

(** The executors of the variants; those with a Q answer errors only. *)
Definition store_executor (quiet : bool) (store_op : ENGINE_STORE_OPERATION) (pkt : bytes) : X (ES := ES) unit :=
  on_conn (assign noreply quiet);; add_set_replace_executor store_op pkt.

(** ** APPEND and PREPEND *)

Definition new_append_context (mode : append_mode) (pkt : bytes) : option append_context :=
  req ← load_request_header pkt;
  let nkey := ntohs (keylen req) in
  let vlen := ntohl (bodylen req) - nkey in
  key ← load (Z.to_nat nkey) HEADER_SIZE pkt;
  value ← load (Z.to_nat vlen) (HEADER_SIZE + nkey) pkt;
  Some (mk_append mode key value (ntohs (vbucket req)) (ntohll (cas req)) 0 None 0 None []
    (if is_compressed (datatype req) then InflateInputData else GetItem)).

Definition inflateInputData : X (ES := ES) ENGINE_ERROR_CODE :=
  k <- the_context;;
  match inflate (ap_value k) with
  | None => ret ENGINE_ENOMEM
  | Some None => ret ENGINE_EINVAL
  | Some (Some v) =>
      update_context (fun k => (k <| ap_value := v |>) <| ap_state := GetItem |>);;
      ret ENGINE_SUCCESS
  end.

Definition getItem : X (ES := ES) ENGINE_ERROR_CODE :=
  k <- the_context;;
  got <- on_eng (engine_get (ap_key k) (ap_vbucket k));;
  let '(r, it) := got in
  if negb (bool_decide (r = ENGINE_SUCCESS)) then ret r else
  update_context (fun k => k <| olditem := it |>);;
  info <- bucket_get_item_info it 1;;
  match info with
  | None => ret ENGINE_FAILED
  | Some i =>
      update_context (fun k => k <| oldItemInfo := Some i |>);;
      if (ap_cas k != 0) && (ap_cas k != inf_cas i) then ret ENGINE_KEY_EEXISTS else
      v <- must (head (inf_value i));;
      match (if is_compressed (inf_datatype i) then inflate v.2 else Some (Some [])) with
      | None => ret ENGINE_ENOMEM
      | Some None => ret ENGINE_FAILED
      | Some (Some b) =>
          update_context (fun k => (k <| ap_buffer := b |>) <| ap_state := AllocateNewItem |>);;
          ret ENGINE_SUCCESS
      end
  end.

(** The value the document has before the operation: the inflated one, if
    there is any. *)
Definition old_value (buffer : bytes) (v : bytes) : bytes := if size buffer != 0 then buffer else v.

Definition allocateNewItem : X (ES := ES) ENGINE_ERROR_CODE :=
  k <- the_context;;
  old <- must (oldItemInfo k);;
  let oldsize := if size (ap_buffer k) != 0 then size (ap_buffer k) else inf_nbytes old in
  got <- on_eng (engine_allocate (ap_key k) (oldsize + size (ap_value k)) (inf_flags old) 0
                   PROTOCOL_BINARY_RAW_BYTES);;
  let '(r, it) := got in
  if negb (bool_decide (r = ENGINE_SUCCESS)) then ret r else
  update_context (fun k => k <| newitem := it |>);;
  info <- bucket_get_item_info it 1;;
  match info with
  | None => ret ENGINE_FAILED
  | Some i =>
      update_context (fun k => k <| newItemInfo := Some i |>);;
      v <- must (head (inf_value old));;
      let src := old_value (ap_buffer k) v.2 in
      match ap_mode k with
      | Append => on_eng (copy_value it 0 src);; on_eng (copy_value it (size src) (ap_value k))
      | Prepend => on_eng (copy_value it 0 (ap_value k));; on_eng (copy_value it (size (ap_value k)) src)
      end;;
      on_eng (engine_item_set_cas it (inf_cas old));;
      update_context (fun k => k <| ap_state := StoreItem |>);;
      ret ENGINE_SUCCESS
  end.

Definition storeItem : X (ES := ES) ENGINE_ERROR_CODE :=
  k <- the_context;;
  got <- on_eng (engine_store (newitem k) (ap_cas k) OPERATION_CAS (ap_vbucket k));;
  let '(r, ncas) := got in
  match r with
  | ENGINE_SUCCESS =>
      on_conn (update_topkeys (ap_key k));;
      on_conn (assign response_cas ncas);;
      extras <- on_conn (gets supports_mutation_extras);;
      if (extras : bool) then
        info <- bucket_get_item_info (newitem k) 1;;
        match info with
        | None => ret ENGINE_FAILED
        | Some i =>
            on_conn (write_mutation (inf_mutation i));;
            update_context (fun k => k <| ap_state := AppendDone |>);;
            ret ENGINE_SUCCESS
        end
      else
        on_conn (mcbp_write_packet PROTOCOL_BINARY_RESPONSE_SUCCESS);;
        update_context (fun k => k <| ap_state := AppendDone |>);;
        ret ENGINE_SUCCESS
  | ENGINE_KEY_EEXISTS =>
      when (ap_cas k == 0) (update_context (fun k => k <| ap_state := Reset |>));;
      ret r
  | _ => ret r
  end.

Definition append_reset : X (ES := ES) ENGINE_ERROR_CODE :=
  k <- the_context;;
  when (olditem k != 0)
    (bucket_release_item (olditem k);; update_context (fun k => k <| olditem := 0 |>));;
  when (newitem k != 0)
    (bucket_release_item (newitem k);; update_context (fun k => k <| newitem := 0 |>));;
  update_context (fun k => (k <| ap_buffer := [] |>) <| ap_state := GetItem |>);;
  ret ENGINE_SUCCESS.

(** The loop of [step]; [fuel] is the number of states it passes. *)
Fixpoint append_step (fuel : nat) : X (ES := ES) ENGINE_ERROR_CODE :=
  match fuel with
  | O => crash
  | S fuel =>
      k <- the_context;;
      match ap_state k with
      | AppendDone => ret ENGINE_SUCCESS
      | s =>
          r <- match s with
               | InflateInputData => inflateInputData
               | GetItem => getItem
               | AllocateNewItem => allocateNewItem
               | StoreItem => storeItem
               | _ => append_reset
               end;;
          if bool_decide (r = ENGINE_SUCCESS) then append_step fuel else ret r
      end
  end.

Definition append_prepend_executor (mode : append_mode) (pkt : bytes) : X (ES := ES) unit :=
  k <- gets context;;
  match k with
  | None =>
      k <- must (new_append_context mode pkt);;
      set_context (Some k);;
      on_conn (assign command_context true)
  | Some _ => ret tt
  end;;
  r <- on_conn take_aiostat;;
  on_conn (assign ewouldblock false);;
  r <- (if decide (r = ENGINE_SUCCESS) then append_step 6 else ret r);;
  match r with
  | ENGINE_SUCCESS => ret tt
  | ENGINE_EWOULDBLOCK => on_conn (assign aiostat ENGINE_EWOULDBLOCK);; on_conn (assign ewouldblock true)
  | ENGINE_DISCONNECT => on_conn (setState conn_closing)
  | ENGINE_KEY_ENOENT =>
      on_conn (mcbp_write_packet (engine_error_2_mcbp_protocol_error ENGINE_NOT_STORED))
  | _ => on_conn (mcbp_write_packet (engine_error_2_mcbp_protocol_error r))
  end.

Definition append_executor (quiet : bool) (mode : append_mode) (pkt : bytes) : X (ES := ES) unit :=
  on_conn (assign noreply quiet);; append_prepend_executor mode pkt.

(** [McbpConnection::resetCommandContext]: the context releases its items. *)
Definition resetCommandContext : X (ES := ES) unit :=
  k <- gets context;;
  match k with
  | Some _ => append_reset;; set_context None
  | None => ret tt
  end;;
  on_conn (assign command_context false).

(** ** DELETE *)

Definition delete_executor : X (ES := ES) unit :=
  cmd <- on_conn (gets cmd);;
  on_conn (when (cmd == cmd_value PROTOCOL_BINARY_CMD_DELETEQ) (assign noreply true));;
  req <- on_conn binary_get_request;;
  key <- on_conn binary_get_key;;
  r <- on_conn take_aiostat;;
  on_conn (assign ewouldblock false);;
  vb <- on_conn (gets (fun c => vbucket (bheader c)));;
  let cas0 := ntohll (cas req) in
  got <- (if decide (r = ENGINE_SUCCESS) then on_eng (engine_remove key cas0 vb) else ret (r, cas0, mk_mutation 0 0));;
  let '(r, cas, mut_info) := got in
  match r with
  | ENGINE_SUCCESS =>
      on_conn (assign response_cas cas);;
      extras <- on_conn (gets supports_mutation_extras);;
      on_conn (if (extras : bool) then write_mutation mut_info else mcbp_write_response 0 0 0 0);;
      on_conn (update_topkeys key)
  | ENGINE_KEY_EEXISTS => on_conn (mcbp_write_packet PROTOCOL_BINARY_RESPONSE_KEY_EEXISTS)
  | ENGINE_KEY_ENOENT => on_conn (mcbp_write_packet PROTOCOL_BINARY_RESPONSE_KEY_ENOENT)
  | ENGINE_NOT_MY_VBUCKET => on_conn (mcbp_write_packet PROTOCOL_BINARY_RESPONSE_NOT_MY_VBUCKET)
  | ENGINE_TMPFAIL => on_conn (mcbp_write_packet PROTOCOL_BINARY_RESPONSE_ETMPFAIL)
  | ENGINE_EWOULDBLOCK => on_conn (assign ewouldblock true)
  | _ => on_conn (mcbp_write_packet PROTOCOL_BINARY_RESPONSE_EINVAL)
  end.

(** ** Arithmetic *)

(** What a result other than success is answered with; [None] closes the
    connection. *)
Definition arithmetic_error (r : ENGINE_ERROR_CODE) : option protocol_binary_response_status :=
  match r with
  | ENGINE_KEY_EEXISTS => Some PROTOCOL_BINARY_RESPONSE_KEY_EEXISTS
  | ENGINE_KEY_ENOENT => Some PROTOCOL_BINARY_RESPONSE_KEY_ENOENT
  | ENGINE_ENOMEM => Some PROTOCOL_BINARY_RESPONSE_ENOMEM
  | ENGINE_TMPFAIL => Some PROTOCOL_BINARY_RESPONSE_ETMPFAIL
  | ENGINE_EINVAL => Some PROTOCOL_BINARY_RESPONSE_DELTA_BADVAL
  | ENGINE_NOT_STORED => Some PROTOCOL_BINARY_RESPONSE_NOT_STORED
  | ENGINE_ENOTSUP => Some PROTOCOL_BINARY_RESPONSE_NOT_SUPPORTED
  | ENGINE_NOT_MY_VBUCKET => Some PROTOCOL_BINARY_RESPONSE_NOT_MY_VBUCKET
  | _ => None
  end.

Definition arithmetic_result (key : bytes) (it result : Z) : X (ES := ES) unit :=
  info <- bucket_get_item_info it 1;;
  match info with
  | None => bucket_release_item it;; on_conn (mcbp_write_packet PROTOCOL_BINARY_RESPONSE_EINTERNAL)
  | Some i =>
      on_conn (assign response_cas (inf_cas i));;
      body_buf <- on_conn (gets (fun c => buf (write c) + (HEADER_SIZE + 8)));;
      extras <- on_conn (gets supports_mutation_extras);;
      on_conn (if (extras : bool) then
                 store_extras body_buf (inf_mutation i);;
                 store (body_buf + 16) (le_store 8 (htonll result));;
                 mcbp_write_response body_buf 16 0 24
               else
                 store body_buf (le_store 8 (htonll result));;
                 mcbp_write_response body_buf 0 0 8);;
      bucket_release_item it;;
      on_conn (update_topkeys key)
  end.

Definition arithmetic_request (incr : bool) : X (ES := ES) unit :=
  req <- on_conn binary_get_request;;
  if cas req != 0 then on_conn (mcbp_write_packet PROTOCOL_BINARY_RESPONSE_EINVAL) else
  i <- on_conn (gets inp);;
  extras <- must (load 20 (request_at i + HEADER_SIZE) (mem (read i)));;
  delta <- must (load_int 8 0 extras);;
  initial <- must (load_int 8 8 extras);;
  expiration <- must (load_int 4 16 extras);;
  key <- on_conn binary_get_key;;
  r <- on_conn take_aiostat;;
  got <- (if decide (r = ENGINE_SUCCESS) then
            on_eng (engine_arithmetic key incr (expiration != 0xffffffff) (ntohll delta) (ntohll initial)
                      (ntohl expiration) (datatype (binary_header i)) (vbucket (binary_header i)))
          else ret (r, 0, 0));;
  let '(r, it, result) := got in
  match r with
  | ENGINE_SUCCESS => arithmetic_result key it result
  | ENGINE_EWOULDBLOCK => on_conn (assign ewouldblock true)
  | _ =>
      match arithmetic_error r with
      | Some status => on_conn (mcbp_write_packet status)
      | None => on_conn (setState conn_closing)
      end
  end.

Definition arithmetic_executor : X (ES := ES) unit :=
  cmd <- on_conn (gets cmd);;
  match cmd_of_value cmd with
  | Some PROTOCOL_BINARY_CMD_INCREMENTQ => on_conn (assign noreply true);; arithmetic_request true
  | Some PROTOCOL_BINARY_CMD_INCREMENT => on_conn (assign noreply false);; arithmetic_request true
  | Some PROTOCOL_BINARY_CMD_DECREMENTQ => on_conn (assign noreply true);; arithmetic_request false
  | Some PROTOCOL_BINARY_CMD_DECREMENT => on_conn (assign noreply false);; arithmetic_request false
  | _ => on_conn (setState conn_closing)
  end.

(** ** FLUSH and commands without an engine *)

Definition flush_executor : X (ES := ES) unit :=
  cmd <- on_conn (gets cmd);;
  on_conn (when (cmd == cmd_value PROTOCOL_BINARY_CMD_FLUSHQ) (assign noreply true));;
  r <- on_eng engine_flush;;
  match r with
  | ENGINE_SUCCESS => on_conn (emit BucketFlushAudited);; on_conn (mcbp_write_response 0 0 0 0)
  | ENGINE_EWOULDBLOCK => on_conn (assign ewouldblock true);; on_conn (setState conn_flush)
  | ENGINE_DISCONNECT => on_conn (setState conn_closing)
  | _ => on_conn (mcbp_write_packet (engine_error_2_mcbp_protocol_error r))
  end.

Definition noop_executor : M unit := mcbp_write_response 0 0 0 0.

Definition version_executor : M unit := mcbp_write_response version_at 0 0 (size version_text).

Definition quit_executor : M unit := mcbp_write_response 0 0 0 0;; setWriteAndGo conn_closing.

Definition quitq_executor : M unit := setState conn_closing.

(** The executor of a command, for those that are modelled. *)
Definition run_executor_of (ex : mcbp_executor) (pkt : bytes) : option (X (ES := ES) unit) :=
  match ex with
  | Dispatch.get_executor => Some get_executor
  | Dispatch.set_executor => Some (store_executor false OPERATION_SET pkt)
  | Dispatch.setq_executor => Some (store_executor true OPERATION_SET pkt)
  | Dispatch.add_executor => Some (store_executor false OPERATION_ADD pkt)
  | Dispatch.addq_executor => Some (store_executor true OPERATION_ADD pkt)
  | Dispatch.replace_executor => Some (store_executor false OPERATION_REPLACE pkt)
  | Dispatch.replaceq_executor => Some (store_executor true OPERATION_REPLACE pkt)
  | Dispatch.append_executor => Some (append_executor false Append pkt)
  | Dispatch.appendq_executor => Some (append_executor true Append pkt)
  | Dispatch.prepend_executor => Some (append_executor false Prepend pkt)
  | Dispatch.prependq_executor => Some (append_executor true Prepend pkt)
  | Dispatch.delete_executor => Some delete_executor
  | Dispatch.arithmetic_executor => Some arithmetic_executor
  | Dispatch.flush_executor => Some flush_executor
  | Dispatch.noop_executor => Some (on_conn noop_executor)
  | Dispatch.version_executor => Some (on_conn version_executor)
  | Dispatch.quit_executor => Some (on_conn quit_executor)
  | Dispatch.quitq_executor => Some (on_conn quitq_executor)
  | _ => None
  end.

(** [process_bin_packet] with the executors above. *)
Definition process_packet : X (ES := ES) unit :=
  ex <- on_conn choose_executor;;
  match ex with
  | Some (ex, pkt) =>
      match run_executor_of ex pkt with
      | Some m => m
      | None => on_conn (run_executor ex pkt)
      end
  | None => ret tt
  end.
End Executors.
