(* ===== verification/ExecutorSpec.v ===== *)
(** * What the executors answer

    The responses of the executors of [Executors] for every answer of the
    engine, and with the default engine the requests as operations of a cache. *)

From S2P Require Import Prelude Memory Numbers Protocol Packet Input Output Buffers DynamicBuffer RecordUpdate StateMonad.
From S2P Require Import Connection Response Dispatch EngineApi Executors.

(** ** What responses leave alone *)

(** The fields of a connection that have nothing to do with its output. *)
Definition beside (c : connection) :=
  (inp c, cmd c, response_cas c, noreply c, supports_datatype c, supports_mutation_extras c,
   ewouldblock c, aiostat c, (item c, reserved_items c, command_context c)).

Definition beside_is v (c : connection) : Prop := beside c = v.

Abbreviation quiet m := (forall v, safe (beside_is v) m).

Lemma quiet_done {A} (m : M A) c a c' : quiet m -> m c = Done a c' -> beside c' = beside c.
Proof. intros Hq E. exact (safe_done _ m c a c' (Hq (beside c)) E eq_refl). Qed.

Section Quiet.
Context `{System} `{Engine}.

Lemma q_emit ef : quiet (emit ef).
Proof. intros v. unfold emit. safely. Qed.

Lemma q_setWriteAndGo t : quiet (setWriteAndGo t).
Proof. intros v. unfold setWriteAndGo. safely. Qed.

Ltac quiet_fields :=
  intros v c Hc; unfold add_msghdr, add_iov, grow_dynamic, move_offset; repeat case_match; by simplify_eq.

Lemma q_add_msghdr reset : quiet (add_msghdr reset).
Proof. quiet_fields. Qed.

Lemma q_add_iov a n : quiet (add_iov a n).
Proof. quiet_fields. Qed.

Lemma q_grow_dynamic n : quiet (grow_dynamic n).
Proof. quiet_fields. Qed.

Lemma q_move_offset n : quiet (move_offset n).
Proof. quiet_fields. Qed.
Hint Resolve q_emit q_setWriteAndGo q_add_msghdr q_add_iov q_grow_dynamic q_move_offset : safe.

Lemma q_setState t : quiet (setState t).
Proof. intros v. unfold setState, collect_started, mcbp_collect_timings. case_decide; safely. Qed.

Lemma q_store a bs : quiet (store a bs).
Proof. intros v. unfold store. safely. Qed.
Hint Resolve q_setState q_store : safe.

Lemma q_add_header err e k b d : quiet (mcbp_add_header err e k b d).
Proof. intros v. unfold mcbp_add_header. safely. Qed.
Hint Resolve q_add_header : safe.

Lemma q_write_response d e k n : quiet (mcbp_write_response d e k n).
Proof. intros v. unfold mcbp_write_response, collect_started, mcbp_collect_timings. safely. Qed.

Lemma q_write_and_free : quiet mcbp_write_and_free.
Proof. intros v. unfold mcbp_write_and_free. safely. Qed.

Lemma q_response_handler l u key ext body d st cas : quiet (mcbp_response_handler l u key ext body d st cas).
Proof. intros v. unfold mcbp_response_handler. safely. Qed.

Lemma q_vb_map_cb m : quiet (get_vb_map_cb m).
Proof. intros v. unfold get_vb_map_cb. safely. Qed.
Hint Resolve q_write_response q_write_and_free q_vb_map_cb : safe.

(** The engine that supplies the cluster map calls back with it and leaves
    the connection alone otherwise. *)
Definition map_engine_quiet : Prop :=
  forall f cb, get_engine_vb_map = Some f -> (forall m, quiet (cb m)) -> quiet (f cb).

Lemma q_write_packet err : map_engine_quiet -> quiet (mcbp_write_packet err).
Proof. intros Hv v. unfold mcbp_write_packet. safely. all: eapply Hv; eauto with safe. Qed.
End Quiet.

(** ** Requests in the read buffer *)

Section Requests.
Implicit Types (p : packet) (c : connection).

(** A request without value: the read buffer ends with its extras and key. *)
Definition no_value p : Prop := nbody p = extlen (header p) + nkey p.

Lemma request_loads p c :
  request_in_buffer p c ->
  load (24 + length (body p)) (getPacket (inp c)) (mem (read (inp c))) = Some (bytes_of_packet p) /\
  keylen (bheader c) = nkey p /\ extlen (bheader c) = extlen (header p) /\ bodylen (bheader c) = nbody p.
Proof.
  intros [Hb Hh [_ Hl]]. rewrite Hh. split; [|done]. unfold packet_bytes in Hb.
  rewrite Hh in Hb. change (bodylen (host_header (header p))) with (nbody p) in Hb.
  rewrite <- Hl in Hb. unfold HEADER_SIZE in Hb.
  replace (Z.to_nat (Z.of_nat (length (body p)) + 24)) with (24 + length (body p))%nat in Hb by lia.
  destruct (load _ _ _) as [bs|]; [by injection Hb as ->|done].
Qed.

Lemma request_lengths p c :
  request_in_buffer p c -> no_value p -> 0 <= nkey p /\ 0 <= extlen (header p) /\ 0 <= getPacket (inp c) /\
  getPacket (inp c) = curr (read (inp c)) - nkey p - extlen (header p) - 24.
Proof.
  intros Hr Hn. destruct (request_loads p c Hr) as (E & _ & _ & Hbl).
  assert (0 <= getPacket (inp c)) by (eapply proj1, load_is_Some; eauto).
  pose proof (nkey_range p (pc_header p (rb_complete p c Hr))).
  pose proof (extlen_ok _ (pc_header p (rb_complete p c Hr))).
  unfold no_value in Hn. unfold getPacket in *. unfold bheader in Hbl. rewrite Hbl, Hn in *. unfold HEADER_SIZE in *. lia.
Qed.

Lemma binary_get_key_ok p c :
  request_in_buffer p c -> no_value p ->
  binary_get_key c = Done (drop (Z.to_nat (extlen (header p))) (body p)) c.
Proof.
  intros Hr Hn. destruct (request_loads p c Hr) as (E & Hk & _ & _).
  destruct (request_lengths p c Hr Hn) as (H1 & H2 & H3 & H4).
  pose proof (pc_body p (rb_complete p c Hr)) as Hl. unfold no_value in Hn.
  unfold binary_get_key. run. change (binary_header (inp c)) with (bheader c). rewrite Hk.
  replace (curr (read (inp c)) - nkey p) with (getPacket (inp c) + Z.of_nat (24 + Z.to_nat (extlen (header p)))) by lia.
  rewrite (load_skip_prefix _ _ _ _ (bytes_of_packet p)); [|done|rewrite <- E; f_equal; lia].
  cbn [must]. unfold bytes_of_packet.
  by rewrite <- drop_drop, (drop_app_length' (store_request_header (header p)) (body p) 24) by (symmetry; apply header_size).
Qed.

Lemma binary_get_request_ok p c :
  request_in_buffer p c -> no_value p -> binary_get_request c = Done (header p) c.
Proof.
  intros Hr Hn. destruct (request_loads p c Hr) as (E & Hk & He & _).
  destruct (request_lengths p c Hr Hn) as (H1 & H2 & H3 & H4).
  unfold binary_get_request. run. unfold request_at. change (binary_header (inp c)) with (bheader c). rewrite Hk, He.
  replace (curr (read (inp c)) - _) with (getPacket (inp c)) by (unfold HEADER_SIZE; lia).
  rewrite (proj2 (Z.leb_le _ _)) by done. cbn iota.
  assert (is_Some (load (Z.to_nat HEADER_SIZE) (getPacket (inp c)) (mem (read (inp c))))) as [bs Eh].
  { assert (is_Some (load (24 + length (body p)) (getPacket (inp c)) (mem (read (inp c))))) as Hs by eauto.
    apply load_is_Some in Hs. apply load_is_Some. change (Z.to_nat HEADER_SIZE) with 24%nat. lia. }
  rewrite Eh. run. destruct (load_longer (Z.to_nat HEADER_SIZE) (24 + length (body p)) _ _ _
    ltac:(change (Z.to_nat HEADER_SIZE) with 24%nat; lia) Eh ltac:(eauto)) as (rest & E' & _).
  rewrite E in E'. injection E' as E'. apply load_length in Eh. change (Z.to_nat HEADER_SIZE) with 24%nat in Eh.
  unfold bytes_of_packet in E'. apply app_inj_1 in E' as [E' _]; [|by rewrite header_size].
  rewrite <- E', <- (app_nil_r (store_request_header _)), load_store_header by apply Hr. done.
Qed.
End Requests.

(** ** Data of items in memory *)

Definition apart_from (a n : Z) (p : Z * bytes) : Prop := p.1 + size p.2 <= a \/ a + n <= p.1.

Definition in_memory (h : heap) (p : Z * bytes) : Prop := fetch h p.1 (size p.2) = p.2.

(** Regions of which no two overlap. *)
Fixpoint regions_apart (l : list (Z * bytes)) : Prop :=
  match l with
  | [] => True
  | p :: l => Forall (apart_from p.1 (size p.2)) l /\ regions_apart l
  end.

Lemma expose_all_ok l c :
  exists h, expose_all l c = Done tt (c <| memory := h |>) /\
    (forall a n, Forall (apart_from a n) l -> fetch h a n = fetch (memory c) a n) /\
    (regions_apart l -> Forall (in_memory h) l).
Proof.
  revert c. induction l as [|p l IH]; intros c.
  { exists (memory c). split; [by destruct c|]. by split. }
  cbn [expose_all]. unfold expose. run. set (c1 := c <| memory := _ |>).
  destruct (IH c1) as (h & E & Hf & Hs). exists h. split; [exact E|]. split.
  - intros a n [Hp Hl]%Forall_cons. rewrite Hf by done. apply fetch_put_other. destruct Hp; lia.
  - intros [Hp Hl]. constructor; [|by apply Hs]. unfold in_memory. rewrite Hf by done. apply fetch_put_same.
Qed.

Definition with_io (o : output) (h : heap) (c : connection) : connection := c <| out := o |> <| memory := h |>.

Section Sending.
Context `{System} (Hmax : 1 <= iov_max) (Hm : memory_available).

Lemma add_iov_io a n o h c :
  building iov_max o -> 0 <= n ->
  exists o', add_iov a n (with_io o h c) = Done true (with_io o' h c) /\ building iov_max o' /\
    pending o' = pending o ++ seqZ a n.
Proof.
  intros Hb Hn. destruct (add_iov_ok Hmax a n (with_io o h c)) as (ok & m & o' & E & Hb' & _ & Hp & Hok); [done..|].
  destruct (Hok (proj1 Hm) (proj2 Hm)) as [-> ->]. by exists o'.
Qed.

Lemma store_io a bs o h c : 0 < a -> store a bs (with_io o h c) = Done tt (with_io o (put h a bs) c).
Proof. intros Ha. unfold store. by rewrite (proj2 (Z.eqb_neq a 0)) by lia. Qed.

Definition addresses (l : list (Z * bytes)) : list Z := concat (map (fun p => seqZ p.1 (size p.2)) l).

Lemma add_values_io l o h c :
  building iov_max o ->
  exists o', add_values l (with_io o h c) = Done tt (with_io o' h c) /\ building iov_max o' /\
    pending o' = pending o ++ addresses l.
Proof.
  revert o. induction l as [|p l IH]; intros o Hb.
  { exists o. by rewrite app_nil_r. }
  destruct (add_iov_io p.1 (size p.2) o h c Hb (size_nonneg _)) as (o1 & E & Hb1 & Hp1).
  destruct (IH o1 Hb1) as (o2 & E2 & Hb2 & Hp2). exists o2. split; [|split; [done|]].
  - cbn [add_values]. by erewrite bind_done by exact E.
  - by rewrite Hp2, Hp1, <- app_assoc.
Qed.

Lemma map_addresses h l : Forall (in_memory h) l -> map h (addresses l) = concat (map snd l).
Proof.
  induction 1 as [|p l Hp _ IH]; [done|]. unfold addresses in *. cbn [map concat]. by rewrite map_app, IH, map_fetch, Hp.
Qed.
End Sending.

Lemma be_store_u32 x : be_store 4 (u32 x) = be_store 4 x.
Proof. unfold be_store. f_equal. apply (le_store_mod 4). Qed.

Lemma be_store_u16 x : be_store 2 (u16 x) = be_store 2 x.
Proof. unfold be_store. f_equal. apply (le_store_mod 2). Qed.

(** The CAS of a response header is overwritten in place. *)
Lemma wire_cas op k e d st b opq cas cas' h a :
  fetch (put (put h a (response_wire op k e d st b opq cas)) (a + 16) (be_store 8 cas')) a HEADER_SIZE =
  response_wire op k e d st b opq cas'.
Proof.
  set (front := be_store 1 PROTOCOL_BINARY_RES ++ be_store 1 op ++ be_store 2 k ++ be_store 1 e ++ be_store 1 d ++
                be_store 2 st ++ be_store 4 b ++ le_store 4 opq).
  assert (forall x, response_wire op k e d st b opq x = front ++ be_store 8 x) as Ef.
  { intros x. unfold response_wire, front. by rewrite <- !app_assoc. }
  assert (size front = 16) as Hf by (unfold size, front; rewrite !length_app, !be_store_length, le_store_length; done).
  assert (forall x, size (be_store 8 x) = 8) as H8 by (intros x; unfold size; by rewrite be_store_length).
  change HEADER_SIZE with (16 + 8). rewrite fetch_app by lia. rewrite fetch_put_other by (left; lia).
  rewrite (Ef cas'). f_equal.
  - pose proof (fetch_put_same h a (response_wire op k e d st b opq cas)) as E.
    rewrite response_wire_size in E. change HEADER_SIZE with (16 + 8) in E. rewrite fetch_app, (Ef cas) in E by lia.
    apply app_inj_1 in E as [E _]; [by rewrite (Ef cas)|].
    pose proof (fetch_size (put h a (front ++ be_store 8 cas)) a 16 ltac:(lia)). unfold size in *. lia.
  - pose proof (fetch_put_same (put h a (response_wire op k e d st b opq cas)) (a + 16) (be_store 8 cas')) as E.
    by rewrite H8 in E.
Qed.

(** ** GET *)

(** The body of the response to a hit: the flags, the key where it was asked
    for, and the value. *)
Definition get_body (cmd : Z) (key : bytes) (i : item_info) : bytes :=
  le_store 4 (inf_flags i) ++ (if wants_key cmd then key else []) ++ concat (map snd (inf_value i)).

(** What an engine says of an item: the key is the one asked for, and the
    length that of the value. *)
Record describes (key : bytes) (i : item_info) : Prop := {
  ds_key : (inf_key i).2 = key;
  ds_size : inf_nbytes i = size (concat (map snd (inf_value i)));
}.

(** The response is ready to be sent, and the item is kept until it is. *)
Record get_sent `{System} (it : Z) (bs : bytes) (c c' : connection) : Prop := {
  gs_task : currentTask c' = conn_mwrite;
  gs_building : building iov_max (out c');
  gs_bytes : to_send c' = bs;
  gs_beside : beside c' = beside (c <| item := it |>);
  gs_go : write_and_go c' = write_and_go c;
}.

Section Get.
Context `{System} `{Engine} (Hmax : 1 <= iov_max) (Hm : memory_available).

Lemma send_item c0 it o h c :
  currentTask c <> conn_destroyed -> building iov_max o -> beside c = beside c0 -> write_and_go c = write_and_go c0 ->
  exists c', (setState conn_mwrite;; assign item it;; ret true) (with_io o h c) = Done true c' /\
    get_sent it (map h (pending o)) c0 c'.
Proof.
  intros Hc Hb Hs Hg. destruct (setState_to conn_mwrite (with_io o h c)) as (c1 & E & Ht & Hio); [done..|].
  pose proof (quiet_done _ _ _ _ (q_setState conn_mwrite) E) as Hq. eexists. erewrite bind_done by exact E. split; [done|].
  destruct Hio as [Hme Ho _ _ _ _ Hgo _]. split.
  - exact Ht.
  - cbn. by rewrite Ho.
  - unfold to_send. cbn. by rewrite Hme, Ho.
  - change (beside c) with (beside (with_io o h c)) in Hs. rewrite <- Hq in Hs. unfold beside in *. cbn.
    injection Hs as -> -> -> -> -> -> -> -> _ -> ->. done.
  - cbn. by rewrite Hgo.
Qed.

(** The lengths of the header are truncated to the width of their fields
    anyway. *)
Lemma wire_lengths op k n e d st opq cas (w : bool) :
  response_wire op (if w then u16 k else 0) e d st (u32 (4 + n + (if w then u32 k else 0))) opq cas =
  response_wire op (if w then k else 0) e d st (4 + n + (if w then k else 0)) opq cas.
Proof.
  unfold response_wire. destruct w; [|by rewrite be_store_u32]. rewrite be_store_u16.
  replace (u32 (4 + n + u32 k)) with (u32 (4 + n + k)) by (unfold wrap; by rewrite Zplus_mod_idemp_r).
  by rewrite be_store_u32.
Qed.

(** The bytes of the response, from the write buffer and the item. *)
Lemma get_bytes_ok h b op opq cas w key i d :
  describes key i -> Forall (in_memory h) (inf_key i :: inf_value i) -> Forall (apart_from b 28) (inf_key i :: inf_value i) ->
  let kl := if (w : bool) then u16 (size key) else 0 in
  let bl := u32 (4 + inf_nbytes i + (if w then u32 (size key) else 0)) in
  let h' := put (put (put h b (response_wire op kl 4 d 0 bl opq cas)) (b + 16) (le_store 8 (htonll (inf_cas i))))
              (b + HEADER_SIZE) (le_store 4 (inf_flags i)) in
  let body := le_store 4 (inf_flags i) ++ (if w then key else []) ++ concat (map snd (inf_value i)) in
  map h' (seqZ b HEADER_SIZE ++ seqZ (b + HEADER_SIZE) 4 ++ (if w then addresses [inf_key i] else []) ++ addresses (inf_value i)) =
  response_wire op (if w then size key else 0) 4 d 0 (size body) opq (inf_cas i) ++ body.
Proof.
  intros [Hk Hn] Hsh Hap kl bl h' body. assert (size (le_store 4 (inf_flags i)) = 4) as H4 by (unfold size; by rewrite le_store_length).
  assert (size (le_store 8 (htonll (inf_cas i))) = 8) as H8 by (unfold size; by rewrite le_store_length).
  assert (Forall (in_memory h') (inf_key i :: inf_value i)) as Hsh'.
  { apply Forall_forall. intros p Hin. pose proof (proj1 (Forall_forall _ _) Hap p Hin) as Ha.
    unfold apart_from, in_memory, h' in *. rewrite !fetch_put_other; [exact (proj1 (Forall_forall _ _) Hsh p Hin)|..];
      rewrite ?response_wire_size, ?H4, ?H8; unfold HEADER_SIZE; lia. }
  apply Forall_cons in Hsh' as [Hshk Hshv]. rewrite !map_app, (map_addresses h' _ Hshv), !map_fetch.
  replace (map h' (if w then addresses [inf_key i] else [])) with (if w then key else []).
  2: { destruct w; [|done]. rewrite map_addresses by (by constructor). cbn. by rewrite app_nil_r. }
  subst body. f_equal; [|f_equal].
  - unfold h'. rewrite fetch_put_other by (unfold HEADER_SIZE; lia). rewrite le_store_bswap.
    fold (be_store 8 (inf_cas i)). rewrite wire_cas. subst kl bl. rewrite wire_lengths, Hn.
    f_equal. unfold size in *. rewrite !length_app. destruct w; cbn [length]; lia.
  - unfold h'. pose proof (fetch_put_same (put (put h b (response_wire op kl 4 d 0 bl opq cas)) (b + 16) (le_store 8 (htonll (inf_cas i))))
      (b + HEADER_SIZE) (le_store 4 (inf_flags i))) as E. by rewrite H4 in E.
Qed.

Lemma get_response_ok key it i d c :
  can_respond c -> 0 < buf (write c) -> describes key i ->
  Forall (in_memory (memory c)) (inf_key i :: inf_value i) ->
  Forall (apart_from (buf (write c)) 28) (inf_key i :: inf_value i) ->
  exists c', get_response (size key) it i d c = Done true c' /\
    let body := get_body (cmd c) key i in
    get_sent it (response_wire (opcode (bheader c)) (if wants_key (cmd c) then size key else 0) 4 d 0 (size body)
                   (opaque (bheader c)) (inf_cas i) ++ body) c c'.
Proof.
  intros Hc Hw [Hk Hn] Hsh Hap. unfold get_response. run. set (b := buf (write c)) in *.
  set (kl := if wants_key (cmd c) then u16 (size key) else 0). set (bl := u32 _).
  destruct (mcbp_add_header_ok Hmax 0 4 kl bl d c Hm Hc) as (o & E & Hb & Hp). fold b in E, Hp.
  erewrite bind_done by exact E. set (wire := response_wire _ _ _ _ _ _ _ _). cbn [Z.eqb]. run.
  fold (with_io o (put (memory c) b wire) c). change (buf (write (with_io _ _ c))) with b.
  erewrite bind_done by (apply store_io; lia). erewrite bind_done by (apply store_io; unfold HEADER_SIZE; lia).
  set (h := put (put _ _ _) _ _).
  destruct (add_iov_io Hmax Hm (b + HEADER_SIZE) 4 o h c Hb ltac:(lia)) as (o1 & E1 & Hb1 & Hp1).
  erewrite bind_done by exact E1.
  assert (exists o2, (when (wants_key (cmd c)) (add_iov (inf_key i).1 (size key);; ret tt)) (with_io o1 h c) =
      Done tt (with_io o2 h c) /\ building iov_max o2 /\
      pending o2 = pending o1 ++ (if wants_key (cmd c) then addresses [inf_key i] else [])) as (o2 & E2 & Hb2 & Hp2).
  { destruct (wants_key (cmd c)); [|exists o1; by rewrite app_nil_r].
    destruct (add_iov_io Hmax Hm (inf_key i).1 (size key) o1 h c Hb1 (size_nonneg _)) as (o2 & E2 & Hb2 & Hp2).
    exists o2. cbn [when]. erewrite bind_done by exact E2. split; [done|]. split; [done|].
    unfold addresses. cbn [map concat]. by rewrite app_nil_r, Hk. }
  erewrite bind_done by exact E2.
  destruct (add_values_io Hmax Hm (inf_value i) o2 h c Hb2) as (o3 & E3 & Hb3 & Hp3). erewrite bind_done by exact E3.
  destruct (send_item c it o3 h c (cr_task c Hc) Hb3 eq_refl eq_refl) as (c' & E4 & Hs). exists c'. split; [exact E4|].
  cbv zeta. replace (response_wire _ _ _ _ _ _ _ _ ++ _) with (map h (pending o3)); [exact Hs|].
  rewrite Hp3, Hp2, Hp1, Hp, <- !app_assoc. by apply (get_bytes_ok (memory c) b).
Qed.

(** How a request was answered: with these bytes, or, quietly, not at all. *)
Record answered (reply : option bytes) (c c' : connection) : Prop := {
  an_beside : beside c' = beside c;
  an_reply :
    match reply with
    | Some bs => currentTask c' = conn_mwrite /\ building iov_max (out c') /\ to_send c' = bs
    | None => currentTask c' = conn_new_cmd /\ out c' = out c
    end;
}.

Lemma answered_from c0 c reply c' :
  beside c0 = beside c -> out c0 = out c -> answered reply c0 c' -> answered reply c c'.
Proof. intros Hb Ho [H1 H2]. split; [congruence|]. destruct reply; [done|]. by rewrite <- Ho. Qed.

(** The reply to a request for a key that is not there. *)
Definition miss_reply (c : connection) (key : bytes) : option bytes :=
  let wire k b := response_wire (opcode (bheader c)) k 0 0 (status_value PROTOCOL_BINARY_RESPONSE_KEY_ENOENT) b
                    (opaque (bheader c)) (response_cas c) in
  if noreply c then None
  else if wants_key (cmd c) then Some (wire (size key) (size key) ++ key)
  else let body := error_body (opcode (bheader c)) PROTOCOL_BINARY_RESPONSE_KEY_ENOENT in
       Some (wire 0 (size body) ++ body).

Lemma get_miss_ok key c :
  map_engine_quiet -> can_respond c -> 0 < buf (write c) ->
  text_in_memory PROTOCOL_BINARY_RESPONSE_KEY_ENOENT c ->
  exists c', get_miss key c = Done tt c' /\ answered (miss_reply c key) c c'.
Proof.
  intros Hq Hc Hw Ht. unfold get_miss, miss_reply. run. destruct (noreply c) eqn:En.
  { destruct (setState_to conn_new_cmd c) as (c' & E & Hs & Hio); [apply Hc|done..|]. exists c'. split; [done|].
    split; [by eapply quiet_done, E; apply q_setState|]. split; [done|apply Hio]. }
  destruct (wants_key (cmd c)) eqn:Ek.
  - run. set (st := status_value _). destruct (mcbp_add_header_ok Hmax st 0 (size key) (size key) PROTOCOL_BINARY_RAW_BYTES c Hm Hc)
      as (o & E & Hb & Hp). erewrite bind_done by exact E. cbn [Z.eqb]. set (wire := response_wire _ _ _ _ _ _ _ _) in *.
    change (-1 =? 0) with false. cbn iota. set (b := buf (write c)) in *. fold (with_io o (put (memory c) b wire) c).
    erewrite bind_done by (apply store_io; unfold HEADER_SIZE; lia). set (h := put (put _ _ _) _ _).
    destruct (add_iov_io Hmax Hm (b + HEADER_SIZE) (size key) o h c Hb (size_nonneg _)) as (o1 & E1 & Hb1 & Hp1).
    erewrite bind_done by exact E1.
    destruct (setState_to conn_mwrite (with_io o1 h c)) as (c' & E2 & Hs & Hio); [apply Hc|done..|]. exists c'. split; [done|].
    split; [by rewrite (quiet_done _ _ _ _ (q_setState _) E2)|]. destruct Hio as [Hme Ho _ _ _ _ _ _].
    split; [done|]. split; [by rewrite Ho|]. unfold to_send. rewrite Hme, Ho. cbn [memory out with_io set_field].
    change (out (with_io o1 h c)) with o1. change (memory (with_io o1 h c)) with h. rewrite Hp1, Hp, map_app, !map_fetch.
    f_equal; [|apply fetch_put_same]. unfold h. rewrite fetch_put_other by (unfold HEADER_SIZE; lia).
    pose proof (fetch_put_same (memory c) b wire) as Ew. unfold wire in Ew at 2. by rewrite response_wire_size in Ew.
  - destruct (write_packet_error Hmax PROTOCOL_BINARY_RESPONSE_KEY_ENOENT c) as (c' & E & [Ha _ Hb Hd]); [done..|].
    exists c'. split; [done|]. split; [|by rewrite Hd]. by eapply quiet_done, E; apply q_write_packet.
Qed.
End Get.

(** ** Running executors *)

Section Worlds.
Context {K ES A B : Type}.
Implicit Types (c : connection) (x : option K) (e : ES).

Lemma on_conn_done (m : M A) c x e a c' :
  m c = Done a c' -> on_conn m (mk_world c x e) = Done a (mk_world c' x e).
Proof. unfold on_conn. cbn. by intros ->. Qed.

Lemma on_eng_done (m : ST ES A) c x e a e' :
  m e = Done a e' -> on_eng m (mk_world c x e) = Done a (mk_world c x e').
Proof. unfold on_eng. cbn. by intros ->. Qed.

Lemma bind_conn_gets (f : connection -> A) (k : A -> ST (command_world K ES) B) c x e :
  bind (on_conn (gets f)) k (mk_world c x e) = k (f c) (mk_world c x e).
Proof. done. Qed.

Lemma bind_conn_modify f (k : unit -> ST (command_world K ES) B) c x e :
  bind (on_conn (modify f)) k (mk_world c x e) = k tt (mk_world (f c) x e).
Proof. done. Qed.

Lemma bind_conn_ret (a : A) (k : A -> ST (command_world K ES) B) c x e :
  bind (on_conn (ret a)) k (mk_world c x e) = k a (mk_world c x e).
Proof. done. Qed.

Lemma on_conn_bind {C} (m : M A) (f : A -> M C) (k : C -> ST (command_world K ES) B) c x e :
  bind (on_conn (bind m f)) k (mk_world c x e) = bind (on_conn m) (fun a => bind (on_conn (f a)) k) (mk_world c x e).
Proof. unfold bind, on_conn. cbn. by destruct (m c). Qed.

Lemma bind_conn_when (b : bool) (m : M unit) (k : unit -> ST (command_world K ES) B) c x e :
  bind (on_conn (when b m)) k (mk_world c x e) = if b then bind (on_conn m) k (mk_world c x e) else k tt (mk_world c x e).
Proof. by destruct b. Qed.
End Worlds.
#[export] Hint Rewrite @bind_conn_gets @bind_conn_modify @bind_conn_ret @on_conn_bind @bind_conn_when : run.

(** Run the next statement on the connection or the engine. *)
Ltac next E :=
  first [ erewrite bind_done by (apply on_conn_done; exact E)
        | erewrite bind_done by (apply on_eng_done; exact E)
        | erewrite bind_done by exact E ].

Lemma take_aiostat_ok c : aiostat c = ENGINE_SUCCESS -> take_aiostat c = Done ENGINE_SUCCESS c.
Proof. intros Ha. unfold take_aiostat. run. rewrite Ha. by destruct c; cbn in *; subst. Qed.

Lemma unblocked c : ewouldblock c = false -> c <| ewouldblock := false |> = c.
Proof. intros Hb. by destruct c; cbn in *; subst. Qed.

(** The reply to a request for a key that is there. *)
Definition hit_reply (c : connection) (key : bytes) (i : item_info) : bytes :=
  let body := get_body (cmd c) key i in
  response_wire (opcode (bheader c)) (if wants_key (cmd c) then size key else 0) 4
    (if supports_datatype c then inf_datatype i else PROTOCOL_BINARY_RAW_BYTES) 0 (size body)
    (opaque (bheader c)) (inf_cas i) ++ body.

Section OnEngine.
Context {ES : Type} `{EngineV1 ES} `{System} `{Engine} `{Bucket} `{Services}.
Context (Hmax : 1 <= iov_max) (Hm : memory_available).

Lemma info_shown {K} it n e i e' c (x : option K) :
  engine_get_item_info it n e = Done (Some i) e' -> regions_apart (inf_key i :: inf_value i) ->
  exists h, bucket_get_item_info it n (mk_world c x e) = Done (Some i) (mk_world (c <| memory := h |>) x e') /\
    Forall (in_memory h) (inf_key i :: inf_value i) /\
    forall a n, Forall (apart_from a n) (inf_key i :: inf_value i) -> fetch h a n = fetch (memory c) a n.
Proof.
  intros E Hr. destruct (expose_all_ok (inf_key i :: inf_value i) c) as (h & Ee & Hf & Hs). exists h.
  unfold bucket_get_item_info. next E. next Ee. split; [done|]. split; [by apply Hs|done].
Qed.

Lemma update_topkeys_ok key c : exists t, update_topkeys key c = Done tt (c <| trace := t |>).
Proof.
  unfold update_topkeys, emit. run. destruct (topkey_command _); [by eexists|]. exists (trace c). by destruct c.
Qed.

Lemma process_bin_get_hit c x e key it i e1 e2 :
  binary_get_key c = Done key c -> aiostat c = ENGINE_SUCCESS -> can_respond c -> 0 < buf (write c) ->
  engine_get key (vbucket (bheader c)) e = Done (ENGINE_SUCCESS, it) e1 ->
  engine_get_item_info it iov_max e1 = Done (Some i) e2 ->
  describes key i -> regions_apart (inf_key i :: inf_value i) ->
  Forall (apart_from (buf (write c)) 28) (inf_key i :: inf_value i) ->
  supports_datatype c = true \/ is_compressed (inf_datatype i) = false ->
  exists c', process_bin_get (mk_world c x e) = Done tt (mk_world c' x e2) /\ get_sent it (hit_reply c key i) c c'.
Proof.
  intros Hkey Ha Hc Hw Eg Ei Hd Hr Hap Hsup. unfold process_bin_get. next Hkey. next (take_aiostat_ok c Ha). run.
  rewrite decide_True by done. next Eg. unfold get_hit.
  destruct (info_shown it iov_max e1 i e2 c x Ei Hr) as (h & Ein & Hsh & _). next Ein. run.
  set (c1 := c <| memory := h |>).
  change (supports_datatype c1) with (supports_datatype c).
  replace (negb (supports_datatype c) && is_compressed (inf_datatype i)) with false by (destruct Hsup as [->| ->]; by rewrite ?andb_false_r).
  assert (can_respond c1) as Hc1 by (by destruct Hc; split).
  destruct (get_response_ok Hmax Hm key it i (if negb (supports_datatype c) then PROTOCOL_BINARY_RAW_BYTES else inf_datatype i) c1)
    as (c2 & E2 & Hs); [done..|]. cbn iota. next E2. cbn [when].
  destruct (update_topkeys_ok key c2) as (t & Et). eexists. split; [by apply on_conn_done|].
  destruct Hs as [H1s H2s H3s H4s H5s]. split; [done|done| |done|done].
  change (to_send (c2 <| trace := t |>)) with (to_send c2). rewrite H3s. unfold hit_reply. by destruct (supports_datatype c).
Qed.

Lemma process_bin_get_miss c x e key it e1 :
  binary_get_key c = Done key c -> aiostat c = ENGINE_SUCCESS -> can_respond c -> 0 < buf (write c) ->
  map_engine_quiet -> text_in_memory PROTOCOL_BINARY_RESPONSE_KEY_ENOENT c ->
  engine_get key (vbucket (bheader c)) e = Done (ENGINE_KEY_ENOENT, it) e1 ->
  exists c', process_bin_get (mk_world c x e) = Done tt (mk_world c' x e1) /\ answered (miss_reply c key) c c'.
Proof.
  intros Hkey Ha Hc Hw Hq Ht Eg. unfold process_bin_get. next Hkey. next (take_aiostat_ok c Ha). run.
  rewrite decide_True by done. next Eg. destruct (get_miss_ok Hmax Hm key c) as (c' & E & Hs); [done..|].
  exists c'. split; [by apply on_conn_done|done].
Qed.
End OnEngine.

(** ** Storing *)

(** The parts of a request that stores a value: flags, expiration, key and
    value. *)
Definition set_flags (p : packet) : Z := le_load (take 4 (body p)).
Definition set_expiration (p : packet) : Z := ntohl (le_load (take 4 (drop 4 (body p)))).
Definition set_key (p : packet) : bytes := take (Z.to_nat (nkey p)) (drop 8 (body p)).
Definition set_value (p : packet) : bytes := drop (Z.to_nat (8 + nkey p)) (body p).

Lemma load_in n off m : 0 <= off -> off + Z.of_nat n <= size m -> load n off m = Some (take n (drop (Z.to_nat off) m)).
Proof. intros H1 H2. unfold load, size in *. by rewrite (proj2 (Z.leb_le _ _)), (proj2 (Z.leb_le _ _)) by lia. Qed.

Lemma drop_packet p off : 24 <= off -> drop (Z.to_nat off) (bytes_of_packet p) = drop (Z.to_nat (off - 24)) (body p).
Proof.
  intros Ho. unfold bytes_of_packet. replace (Z.to_nat off) with (24 + Z.to_nat (off - 24))%nat by lia.
  by rewrite <- drop_drop, (drop_app_length' (store_request_header (header p)) (body p) 24) by (symmetry; apply header_size).
Qed.

Lemma packet_size p : packet_complete p -> size (bytes_of_packet p) = 24 + nbody p.
Proof. intros [_ Hb]. unfold size, bytes_of_packet. rewrite length_app, header_size. lia. Qed.

(** What the executors load from such a request. *)
Lemma set_loads p :
  packet_complete p -> extlen (header p) = 8 -> nkey p + 8 <= nbody p ->
  let pkt := bytes_of_packet p in
  load_request_header pkt = Some (header p) /\
  load (Z.to_nat (nkey p)) 32 pkt = Some (set_key p) /\
  load_int 4 HEADER_SIZE pkt = Some (set_flags p) /\
  (ntohl <$> load_int 4 (HEADER_SIZE + 4) pkt) = Some (set_expiration p) /\
  u32 (ntohl (bodylen (header p)) - ntohs (keylen (header p)) - extlen (header p)) = size (set_value p) /\
  load (Z.to_nat (size (set_value p))) (32 + nkey p) pkt = Some (set_value p).
Proof.
  intros Hp He Hf pkt. pose proof (packet_size p Hp) as Hs. fold pkt in Hs.
  pose proof (nkey_range p (pc_header p Hp)) as Hk. pose proof (nbody_range p) as Hb. pose proof (pc_body p Hp) as Hl.
  assert (size (set_value p) = nbody p - nkey p - 8) as Hv.
  { unfold size, set_value. rewrite length_drop. lia. }
  assert (forall n off, 24 <= off -> off + Z.of_nat n <= 24 + nbody p ->
    load n off pkt = Some (take n (drop (Z.to_nat (off - 24)) (body p)))) as Hld.
  { intros n off H1 H2. rewrite load_in by lia. unfold pkt. by rewrite drop_packet. }
  split; [apply load_store_header, Hp|]. split; [by rewrite Hld by lia|].
  unfold load_int. rewrite !Hld by (unfold HEADER_SIZE; lia). split; [done|]. split; [done|]. split.
  - fold (nbody p) (nkey p). rewrite He, Hv. apply u32_small. lia.
  - rewrite Hv. f_equal. unfold set_value. replace (32 + nkey p - 24) with (8 + nkey p) by lia.
    apply take_ge. rewrite length_drop. lia.
Qed.

(** The replies: success with the CAS value and perhaps the mutation, or an
    error. *)
Definition success_reply (c : connection) (cas : Z) (extras : bytes) : option bytes :=
  if noreply c && (cmd c != GET) && (cmd c != GETK) then None
  else Some (response_wire (opcode (bheader c)) 0 (size extras) 0 0 (size extras) (opaque (bheader c)) cas ++ extras).

Definition error_reply (c : connection) (err : protocol_binary_response_status) : option bytes :=
  let body := error_body (opcode (bheader c)) err in
  Some (response_wire (opcode (bheader c)) 0 0 0 (status_value err) (size body) (opaque (bheader c)) (response_cas c) ++ body).

Definition mutation_bytes (d : mutation_descr_t) : bytes := be_store 8 (vbucket_uuid d) ++ be_store 8 (seqno d).

Lemma put_mutation h a d :
  fetch (put (put h a (le_store 8 (htonll (vbucket_uuid d)))) (a + 8) (le_store 8 (htonll (seqno d)))) a 16 = mutation_bytes d.
Proof.
  rewrite !le_store_bswap. fold (be_store 8 (vbucket_uuid d)) (be_store 8 (seqno d)).
  assert (forall x, size (be_store 8 x) = 8) as H8 by (intros x; unfold size; by rewrite be_store_length).
  replace 16 with (8 + size (be_store 8 (seqno d))) by (by rewrite H8). rewrite fetch_put_append by lia.
  unfold mutation_bytes. f_equal. rewrite <- (H8 (vbucket_uuid d)). apply fetch_put_same.
Qed.

Lemma store_ok a bs c : 0 < a -> store a bs c = Done tt (c <| memory := put (memory c) a bs |>).
Proof. intros Ha. unfold store. by rewrite (proj2 (Z.eqb_neq a 0)) by lia. Qed.

Section Replies.
Context `{System} `{Engine} (Hmax : 1 <= iov_max) (Hm : memory_available).

Lemma error_replied err c :
  map_engine_quiet -> can_respond c -> text_in_memory err c -> err <> PROTOCOL_BINARY_RESPONSE_SUCCESS ->
  (err = PROTOCOL_BINARY_RESPONSE_NOT_MY_VBUCKET -> get_engine_vb_map = None) ->
  exists c', mcbp_write_packet err c = Done tt c' /\ answered (error_reply c err) c c'.
Proof.
  intros Hq Hc Ht Hs Hv. destruct (write_packet_error Hmax err c) as (c' & E & [Ha _ Hb Hd]); [done..|].
  exists c'. split; [done|]. split; [by eapply quiet_done, E; apply q_write_packet|done].
Qed.

Lemma response_replied d n c :
  can_respond c -> 0 <= n < 2147483648 ->
  n = 0 \/ d + n <= buf (write c) \/ buf (write c) + HEADER_SIZE <= d ->
  exists c', mcbp_write_response d n 0 n c = Done tt c' /\
    answered (success_reply c (response_cas c) (fetch (memory c) d n)) c c'.
Proof.
  intros Hc Hn Hd. destruct (write_response_ok Hmax d n 0 n c) as (c' & E & Hr); [done..|]. exists c'. split; [done|].
  split; [by eapply quiet_done, E; apply q_write_response|]. unfold success_reply.
  destruct (_ && _ && _); [by destruct Hr as (? & ? & ?)|]. destruct Hr as [H1 _ H2 H3]. rewrite fetch_size by lia. by split_and!.
Qed.

(** The mutation goes behind the header. *)
Lemma mutation_replied d c :
  can_respond c -> 0 < buf (write c) ->
  exists c', write_mutation d c = Done tt c' /\ answered (success_reply c (response_cas c) (mutation_bytes d)) c c'.
Proof.
  intros Hc Hw. unfold write_mutation, store_extras. run. set (a := buf (write c) + HEADER_SIZE).
  assert (0 < a) as Ha by (unfold a, HEADER_SIZE; lia).
  erewrite bind_done by (by apply store_ok). set (c1 := c <| memory := _ |>).
  erewrite bind_done by (apply store_ok; lia). set (c2 := c1 <| memory := _ |>).
  assert (can_respond c2) as Hc2 by (by destruct Hc; split).
  destruct (response_replied a 16 c2 Hc2) as (c' & E & Hr); [lia|right; right; unfold a; cbn; lia|].
  exists c'. split; [exact E|]. replace (fetch (memory c2) a 16) with (mutation_bytes d) in Hr; [by apply (answered_from c2)|].
  symmetry. apply put_mutation.
Qed.
End Replies.

Section Storing.
Context {ES : Type} `{EngineV1 ES} `{System} `{Engine} `{Bucket} `{Services}.
Context (Hmax : 1 <= iov_max) (Hm : memory_available).

Definition with_item (it : Z) (h : heap) (t : list effect) (c : connection) : connection :=
  c <| trace := t |> <| memory := h |> <| item := it |>.

(** How the datatype of a new value is found. *)
Definition marked (c : connection) (it : Z) (value : bytes) (e e' : ES) : Prop :=
  if supports_datatype c then e' = e
  else exists json, json_validate value = Some json /\
    if (json : bool) then exists b, engine_set_item_info it PROTOCOL_BINARY_DATATYPE_JSON e = Done b e' else e' = e.

Lemma mark_json_ok it value c x e e' :
  marked c it value e e' -> mark_json it value (mk_world c x e) = Done true (mk_world c x e').
Proof.
  unfold marked, mark_json. intros Hk. run. destruct (supports_datatype c); [by subst|].
  destruct Hk as (json & -> & Hk). destruct json; [|by subst]. destruct Hk as (b & E). cbn [when]. run. by next E.
Qed.

(** A new item is given the value of the request. *)
Lemma allocate_item_ok p c x e it i v e1 e2 e3 e4 e5 :
  packet_complete p -> extlen (header p) = 8 -> nkey p + 8 <= nbody p ->
  engine_allocate (set_key p) (size (set_value p)) (set_flags p) (set_expiration p) (datatype (header p)) e =
    Done (ENGINE_SUCCESS, it) e1 ->
  engine_item_set_cas it (ntohll (cas (header p))) e1 = Done tt e2 ->
  engine_get_item_info it 1 e2 = Done (Some i) e3 -> regions_apart (inf_key i :: inf_value i) ->
  head (inf_value i) = Some v -> size v.2 = size (set_value p) ->
  copy_value it 0 (set_value p) e3 = Done tt e4 -> marked c it (set_value p) e4 e5 ->
  exists h t, allocate_item ENGINE_SUCCESS (header p) (bytes_of_packet p) (mk_world c x e) =
      Done (Some ENGINE_SUCCESS) (mk_world (with_item it h t c) x e5) /\
    forall a n, Forall (apart_from a n) (inf_key i :: inf_value i) -> fetch h a n = fetch (memory c) a n.
Proof.
  intros Hp He Hf E1 E2 E3 Hr Hv Hvs E4 Hk. destruct (set_loads p Hp He Hf) as (_ & Lk & Lf & Le & Hvl & Lv).
  unfold allocate_item. rewrite Hvl. fold (nkey p). rewrite Lk, Lf.
  destruct (load_int 4 (HEADER_SIZE + 4) _) as [ex|]; [|done]. injection Le as Le. run. rewrite Le, decide_True by done. next E1.
  destruct (update_topkeys_ok (set_key p) c) as (t & Et). next Et. next E2. set (c1 := c <| trace := t |>).
  destruct (info_shown it 1 e2 i e3 c1 x E3 Hr) as (h & Ei & _ & Hh). next Ei. run. rewrite Hv. run.
  rewrite (proj2 (Z.eqb_eq _ _) Hvs). run. rewrite Lv. run. next E4. exists h, t. split; [|exact Hh].
  fold (with_item it h t c). by erewrite bind_done by (by apply mark_json_ok).
Qed.

(** *** The reply *)

Definition store_status (op : ENGINE_STORE_OPERATION) (r : ENGINE_ERROR_CODE) : protocol_binary_response_status :=
  match r, op with
  | ENGINE_NOT_STORED, OPERATION_ADD => PROTOCOL_BINARY_RESPONSE_KEY_EEXISTS
  | ENGINE_NOT_STORED, OPERATION_REPLACE => PROTOCOL_BINARY_RESPONSE_KEY_ENOENT
  | ENGINE_NOT_STORED, _ => PROTOCOL_BINARY_RESPONSE_NOT_STORED
  | _, _ => engine_error_2_mcbp_protocol_error r
  end.

(** An error the client is told. *)
Definition told (r : ENGINE_ERROR_CODE) : Prop :=
  r <> ENGINE_SUCCESS /\ r <> ENGINE_EWOULDBLOCK /\ r <> ENGINE_DISCONNECT /\ r <> ENGINE_NOT_MY_VBUCKET.

Lemma store_status_error op r :
  told r -> store_status op r <> PROTOCOL_BINARY_RESPONSE_SUCCESS /\ store_status op r <> PROTOCOL_BINARY_RESPONSE_NOT_MY_VBUCKET.
Proof. intros (? & ? & ? & ?). by destruct r, op. Qed.

Lemma respond_error op r c x e :
  map_engine_quiet -> can_respond c -> told r -> text_in_memory (store_status op r) c ->
  exists c', respond_store op r (mk_world c x e) = Done true (mk_world c' x e) /\ answered (error_reply c (store_status op r)) c c'.
Proof.
  intros Hq Hc Hr Ht. destruct (store_status_error op r Hr) as [Hs Hv].
  destruct (error_replied Hmax Hm (store_status op r) c Hq Hc Ht Hs) as (c' & E & Ha); [done|]. exists c'. split; [|done].
  destruct Hr as (? & ? & ? & ?). unfold respond_store.
  destruct r; try done; try (erewrite bind_done by (apply on_conn_done, E); done).
Qed.

Lemma respond_success op c x e :
  can_respond c -> supports_mutation_extras c = false ->
  exists c', respond_store op ENGINE_SUCCESS (mk_world c x e) = Done true (mk_world c' x e) /\
    answered (success_reply c (response_cas c) []) c c'.
Proof.
  intros Hc Hx. unfold respond_store, respond_stored. run. rewrite Hx.
  destruct (response_replied Hmax Hm 0 0 c Hc) as (c' & E & Ha); [lia|by left|]. exists c'. by next E.
Qed.

Lemma respond_mutation op c x e i e' :
  can_respond c -> 0 < buf (write c) -> supports_mutation_extras c = true ->
  engine_get_item_info (item c) 1 e = Done (Some i) e' -> regions_apart (inf_key i :: inf_value i) ->
  exists c', respond_store op ENGINE_SUCCESS (mk_world c x e) = Done true (mk_world c' x e') /\
    answered (success_reply c (response_cas c) (mutation_bytes (inf_mutation i))) c c'.
Proof.
  intros Hc Hw Hx Ei Hr. unfold respond_store, respond_stored. run. rewrite Hx. run.
  destruct (info_shown (item c) 1 e i e' c x Ei Hr) as (h & Ei' & _ & _). next Ei'. set (c1 := c <| memory := h |>).
  assert (can_respond c1) as Hc1 by (by destruct Hc; split).
  destruct (mutation_replied Hmax Hm (inf_mutation i) c1 Hc1 Hw) as (c' & E & Ha). exists c'. next E. split; [done|].
  by apply (answered_from c1).
Qed.

(** *** The executor *)

Definition operation_of (p : packet) (op : ENGINE_STORE_OPERATION) : ENGINE_STORE_OPERATION :=
  if cas (header p) != 0 then OPERATION_CAS else op.

(** Without an item yet, the executor allocates one; what the engine refuses
    is told to the client. *)
Lemma store_refused_alloc p op c x e r it e1 :
  packet_complete p -> extlen (header p) = 8 -> nkey p + 8 <= nbody p ->
  aiostat c = ENGINE_SUCCESS -> ewouldblock c = false -> item c = 0 -> map_engine_quiet -> can_respond c -> told r ->
  text_in_memory (engine_error_2_mcbp_protocol_error r) c ->
  engine_allocate (set_key p) (size (set_value p)) (set_flags p) (set_expiration p) (datatype (header p)) e = Done (r, it) e1 ->
  exists c', add_set_replace_executor op (bytes_of_packet p) (mk_world c x e) = Done tt (mk_world c' x e1) /\
    answered (error_reply c (engine_error_2_mcbp_protocol_error r)) c c'.
Proof.
  intros Hp He Hf Ha Hew Hi Hq Hc Hr Ht E1. destruct (set_loads p Hp He Hf) as (Lh & Lk & Lf & Le & Hvl & Lv).
  unfold add_set_replace_executor. next (take_aiostat_ok c Ha). run. rewrite (unblocked c Hew), Lh. run. rewrite Hi. cbn [Z.eqb]. unfold allocate_item. rewrite Hvl. fold (nkey p). rewrite Lk, Lf.
  destruct (load_int 4 (HEADER_SIZE + 4) _) as [ex|]; [|done]. injection Le as Le. run. rewrite Le, decide_True by done. next E1.
  assert (engine_error_2_mcbp_protocol_error r <> PROTOCOL_BINARY_RESPONSE_SUCCESS /\
    engine_error_2_mcbp_protocol_error r <> PROTOCOL_BINARY_RESPONSE_NOT_MY_VBUCKET) as [Hs Hv].
  { destruct Hr as (? & ? & ? & ?). by destruct r. }
  destruct (error_replied Hmax Hm _ c Hq Hc Ht Hs) as (c' & E & Han); [done|]. exists c'. split; [|exact Han].
  destruct Hr as (? & ? & ? & ?). destruct r; try done; run; by next E.
Qed.

(** With the item filled, it is stored, the client gets its reply, and the
    reference is given back. *)
Lemma store_item_done p op c x e it h t r cas e5 e6 e7 e8 reply :
  packet_complete p -> extlen (header p) = 8 -> nkey p + 8 <= nbody p ->
  aiostat c = ENGINE_SUCCESS -> ewouldblock c = false -> item c = 0 ->
  let c1 := with_item it h t c in
  let c2 := if bool_decide (r = ENGINE_SUCCESS) then c1 <| response_cas := cas |> else c1 in
  allocate_item ENGINE_SUCCESS (header p) (bytes_of_packet p) (mk_world c x e) = Done (Some ENGINE_SUCCESS) (mk_world c1 x e5) ->
  engine_store it (response_cas c) (operation_of p op) (ntohs (vbucket (header p))) e5 = Done (r, cas) e6 ->
  (exists c', respond_store (operation_of p op) r (mk_world c2 x e6) = Done true (mk_world c' x e7) /\ answered reply c2 c') ->
  engine_release it e7 = Done tt e8 ->
  exists c', add_set_replace_executor op (bytes_of_packet p) (mk_world c x e) = Done tt (mk_world c' x e8) /\
    item c' = 0 /\ answered reply (c2 <| item := 0 |>) c'.
Proof.
  intros Hp He Hf Ha Hew0 Hi c1 c2 Eal Est (c3 & Ere & Hans) Erl.
  destruct (set_loads p Hp He Hf) as (Lh & _). unfold add_set_replace_executor. next (take_aiostat_ok c Ha). run.
  rewrite (unblocked c Hew0), Lh. run. rewrite Hi. cbn [Z.eqb]. erewrite bind_done by exact Eal. cbn beta iota.
  rewrite decide_True by done. run. change (item c1) with it. change (response_cas c1) with (response_cas c).
  fold (operation_of p op). next Est. run. cbn [fst snd].
  pose proof (an_beside _ _ _ Hans) as Hb. unfold beside in Hb.
  assert (item c2 = it /\ ewouldblock c2 = false) as [Hit Hew] by (subst c2; by destruct (bool_decide _)).
  injection Hb as B1 B2 B3 B4 B5 B6 B7 B8 B9 B10 B11.
  exists (c3 <| item := 0 |>). split.
  - transitivity ((more <- respond_store (operation_of p op) r;; blocked <- on_conn (gets ewouldblock);;
        when (more && negb blocked) (it <- on_conn (gets item);; bucket_release_item it;; on_conn (assign item 0)))
       (mk_world c2 x e6)); [subst c2; by destruct (bool_decide _)|].
    next Ere. run. rewrite B7, Hew. cbn [negb andb when]. run. rewrite B9, Hit. unfold bucket_release_item. by next Erl.
  - split; [done|]. destruct Hans as [_ Han]. split; [|destruct reply; exact Han].
    unfold beside. cbn. by rewrite B1, B2, B3, B4, B5, B6, B7, B8, B10, B11.
Qed.
End Storing.

(** ** Deleting *)

Section Deleting.
Context {ES : Type} `{EngineV1 ES} `{System} `{Engine} `{Bucket} `{Services}.
Context (Hmax : 1 <= iov_max) (Hm : memory_available).

(** What a deletion that failed is answered with. *)
Definition delete_status (r : ENGINE_ERROR_CODE) : protocol_binary_response_status :=
  match r with
  | ENGINE_KEY_EEXISTS => PROTOCOL_BINARY_RESPONSE_KEY_EEXISTS
  | ENGINE_KEY_ENOENT => PROTOCOL_BINARY_RESPONSE_KEY_ENOENT
  | ENGINE_NOT_MY_VBUCKET => PROTOCOL_BINARY_RESPONSE_NOT_MY_VBUCKET
  | ENGINE_TMPFAIL => PROTOCOL_BINARY_RESPONSE_ETMPFAIL
  | _ => PROTOCOL_BINARY_RESPONSE_EINVAL
  end.

(** The mutation in a response, for clients that know about it. *)
Definition extras_of (c : connection) (d : mutation_descr_t) : bytes :=
  if supports_mutation_extras c then mutation_bytes d else [].

Lemma mutation_or_not d c :
  can_respond c -> 0 < buf (write c) ->
  exists c', (if supports_mutation_extras c then write_mutation d else mcbp_write_response 0 0 0 0) c = Done tt c' /\
    answered (success_reply c (response_cas c) (extras_of c d)) c c'.
Proof.
  intros Hc Hw. unfold extras_of. destruct (supports_mutation_extras c); [by apply mutation_replied|].
  apply (response_replied Hmax Hm 0 0 c Hc); [lia|by left].
Qed.

Lemma delete_executor_ok p key c x e r cas' d e' :
  binary_get_request c = Done (header p) c -> binary_get_key c = Done key c -> aiostat c = ENGINE_SUCCESS ->
  ewouldblock c = false -> (cmd c = cmd_value PROTOCOL_BINARY_CMD_DELETEQ -> noreply c = true) ->
  map_engine_quiet -> can_respond c -> 0 < buf (write c) -> text_in_memory (delete_status r) c ->
  r <> ENGINE_EWOULDBLOCK -> r <> ENGINE_NOT_MY_VBUCKET ->
  engine_remove key (ntohll (cas (header p))) (vbucket (bheader c)) e = Done (r, cas', d) e' ->
  exists c', delete_executor (mk_world c x e) = Done tt (mk_world c' x e') /\
    if bool_decide (r = ENGINE_SUCCESS) then answered (success_reply c cas' (extras_of c d)) (c <| response_cas := cas' |>) c'
    else answered (error_reply c (delete_status r)) c c'.
Proof.
  intros Erq Eky Ha Hew Hq Hv Hc Hw Ht Hb Hvb Erm. unfold delete_executor. rewrite bind_conn_gets.
  assert (when (cmd c == cmd_value PROTOCOL_BINARY_CMD_DELETEQ) (assign noreply true) c = Done tt c) as En.
  { destruct (Z.eqb_spec (cmd c) (cmd_value PROTOCOL_BINARY_CMD_DELETEQ)) as [E|E]; [|done]. specialize (Hq E). cbn.
    unfold modify. do 2 f_equal. by destruct c; cbn in *; subst. }
  next En. next Erq. next Eky. next (take_aiostat_ok c Ha). run. rewrite (unblocked c Hew), decide_True by done. next Erm.
  destruct (decide (r = ENGINE_SUCCESS)) as [->|Hr].
  - rewrite bool_decide_eq_true_2 by done. run. set (c1 := c <| response_cas := cas' |>).
    assert (can_respond c1) as Hc1 by (by destruct Hc; split).
    destruct (mutation_or_not d c1 Hc1 Hw) as (c2 & E2 & Han). change (supports_mutation_extras c1) with (supports_mutation_extras c) in *.
    next E2. destruct (update_topkeys_ok key c2) as (t & Et). eexists. split; [by apply on_conn_done|]. by destruct Han; split.
  - rewrite bool_decide_eq_false_2 by done.
    destruct (error_replied Hmax Hm (delete_status r) c Hv Hc Ht) as (c' & E & Han); [by destruct r|by destruct r|].
    exists c'. split; [|done]. by destruct r; try done; apply on_conn_done.
Qed.
End Deleting.

(** ** APPEND ends *)

Section AppendEnds.
Context {ES : Type} `{EngineV1 ES} `{System} `{Engine} `{Bucket} `{Services}.
Abbreviation X := (Executors.X (ES := ES)).

(** How many states the loop of [step] still passes. *)
Definition states_left (s : append_state) : nat :=
  match s with
  | AppendDone => 1
  | StoreItem => 2
  | AllocateNewItem => 3
  | GetItem => 4
  | InflateInputData | Reset => 5
  end.

Definition with_context (k : append_context) (w : world ES) : Prop := context w = Some k.
Abbreviation after_context k m Q := (triple (with_context k) m Q (fun _ => True)).

(** A step that goes well comes nearer to the end. *)
Definition nearer (n : nat) (r : ENGINE_ERROR_CODE) (w : world ES) : Prop :=
  r = ENGINE_SUCCESS -> exists k, with_context k w /\ (states_left (ap_state k) < n)%nat.

Lemma k_conn {A} k (m : M A) : after_context k (on_conn m) (fun _ => with_context k).
Proof. intros w Hw. unfold on_conn. by destruct (m (conn w)). Qed.

Lemma k_eng {A} k (m : ST ES A) : after_context k (on_eng m) (fun _ => with_context k).
Proof. intros w Hw. unfold on_eng. by destruct (m (eng w)). Qed.

Lemma k_must {A} k (o : option A) : after_context k (must o) (fun _ => with_context k).
Proof. intros w Hw. by destruct o. Qed.

Lemma k_info k q n : after_context k (bucket_get_item_info q n) (fun _ => with_context k).
Proof.
  unfold bucket_get_item_info. eapply triple_bind; [apply k_eng|]. intros i.
  eapply (triple_bind _ _ (fun _ => with_context k)); [destruct i; [apply k_conn|by apply triple_ret]|]. intros ?. by apply triple_ret.
Qed.

Lemma k_the_context k : after_context k the_context (fun a w => a = k /\ with_context k w).
Proof. intros w Hw. unfold the_context, bind, gets. rewrite Hw. by split. Qed.

Lemma k_update k f : after_context k (update_context f) (fun _ => with_context (f k)).
Proof. unfold update_context. eapply triple_bind; [apply k_the_context|]. intros a. by apply triple_pure; intros ->. Qed.

Ltac k_one := first [apply k_conn | apply k_eng | apply k_must | apply k_info | apply k_update].
Ltac k_step :=
  lazymatch goal with
  | |- triple _ (bind (bind _ _) _) _ _ => apply triple_assoc
  | |- triple _ (bind the_context _) _ _ => eapply triple_bind; [apply k_the_context|]; intros ?; apply triple_pure; intros ->
  | |- triple _ (bind (when ?b _) _) _ _ => destruct b; cbn [when]
  | |- triple _ (bind (ret _) _) _ _ => apply triple_ret_bind
  | |- triple _ (bind (match ?x with _ => _ end) _) _ _ => destruct x
  | |- triple _ (bind _ _) _ _ => eapply triple_bind; [k_one|intros ?; cbn beta]
  | |- triple _ (if negb (bool_decide _) then _ else _) _ _ => case_bool_decide; cbn [negb]
  | |- triple _ (match ?x with _ => _ end) _ _ => destruct x eqn:?; cbn beta iota
  | |- triple _ (ret _) _ _ => apply triple_ret; intros ? ? ?; first [congruence | eexists; split; [eassumption|cbn; lia]]
  end.

Lemma append_nearer k (m : X ENGINE_ERROR_CODE) :
  ap_state k <> AppendDone ->
  m = match ap_state k with
      | InflateInputData => inflateInputData
      | GetItem => getItem
      | AllocateNewItem => allocateNewItem
      | StoreItem => storeItem
      | _ => append_reset
      end -> after_context k m (nearer (states_left (ap_state k))).
Proof.
  intros Hd ->. destruct (ap_state k); try done; cbn [states_left].
  - unfold inflateInputData. repeat k_step.
  - unfold getItem. repeat k_step.
  - unfold allocateNewItem. repeat k_step.
  - unfold storeItem. repeat k_step.
  - unfold append_reset. repeat k_step.
Qed.

(** More fuel than there are states left makes no difference. *)
Lemma append_step_fuel n m k w :
  context w = Some k -> (states_left (ap_state k) <= n)%nat -> (n <= m)%nat -> append_step m w = append_step n w.
Proof.
  revert m k w. induction n as [|n IH]; intros m k w Hk Hn Hm; [destruct (ap_state k); cbn in Hn; lia|].
  destruct m as [|m]; [lia|]. cbn [append_step]. unfold the_context. rewrite !bind_bind, !bind_gets, Hk, !bind_must.
  destruct (decide (ap_state k = AppendDone)) as [->|Hd]; [done|].
  pose proof (append_nearer k _ Hd eq_refl w Hk) as Hs.
  assert (forall s : X ENGINE_ERROR_CODE, match s w with Done r w' => nearer (states_left (ap_state k)) r w' | _ => True end ->
    (r <- s;; if bool_decide (r = ENGINE_SUCCESS) then append_step m else ret r) w =
    (r <- s;; if bool_decide (r = ENGINE_SUCCESS) then append_step n else ret r) w) as Hloop.
  { intros s Hs'. unfold bind. destruct (s w) as [r w'|w'|]; [|done..]. case_bool_decide as Hr; [|done].
    destruct (Hs' Hr) as (k' & Hk' & Hlt). apply (IH m k'); [done|lia|lia]. }
  destruct (ap_state k); try done; apply Hloop; exact Hs.
Qed.

(** The loop of APPEND and PREPEND ends: it passes five states at most,
    whatever the engine answers, so that the fuel of the executor is more than
    any run needs. *)
Theorem append_ends n w : (5 <= n)%nat -> append_step n w = append_step 5 w.
Proof.
  intros Hn. destruct (context w) as [k|] eqn:Hk.
  - apply (append_step_fuel 5 n k w Hk); [destruct (ap_state k); cbn; lia|done].
  - destruct n as [|n]; [lia|]. cbn [append_step]. unfold the_context. by rewrite !bind_bind, !bind_gets, Hk.
Qed.
End AppendEnds.

(** ** Services for examples *)

Definition small_services : Services := {|
  json_validate := fun _ => Some false; inflate := fun bs => Some (Some bs); version_at := 900000; version_text := text "1.0" |}.

Lemma plain_quiet : @map_engine_quiet plain_engine.
Proof. by intros f cb Hf. Qed.
