(* ===== verification/References.v ===== *)
(** * References to items

    An engine gives references to items out and expects each back once.  Here is
    an engine that counts them, and a calculus that follows them through an
    executor: they are with the connection, as its item, in the context of the
    command, or for the moment with the executor itself. *)

From S2P Require Import Prelude Memory Numbers Protocol Packet Input Output Buffers DynamicBuffer RecordUpdate StateMonad.
From S2P Require Import Connection Response Dispatch EngineApi Executors ExecutorSpec.

(** ** An engine that counts *)

Definition ind (p q : Z) : Z := if p == q then 1 else 0.

Lemma ind_0 p : p <> 0 -> ind p 0 = 0.
Proof. unfold ind. destruct (Z.eqb_spec p 0); [done|lia]. Qed.

(** The engine's state, and how often each item is in use. *)
Definition counted_state (ES : Type) : Type := ES * (Z -> Z).

Section Counting.
Context {ES : Type} `{EngineV1 ES}.

Definition lifted {A} (m : ST ES A) : ST (counted_state ES) A := fun s =>
  match m s.1 with
  | Done a e => Done a (e, s.2)
  | Throw e => Throw (e, s.2)
  | Crash => Crash
  end.

Definition add_ref (it n : Z) : ST (counted_state ES) unit := modify (fun s => (s.1, fun p => s.2 p + n * ind p it)).

(** A call that gives out an item when it succeeds. *)
Definition gives {A} (code : A -> ENGINE_ERROR_CODE) (it : A -> Z) (m : ST ES A) : ST (counted_state ES) A :=
  r <- lifted m;; when (bool_decide (code r = ENGINE_SUCCESS)) (add_ref (it r) 1);; ret r.

Definition counting : EngineV1 (counted_state ES) := {|
  engine_allocate key nbytes flags exptime datatype := gives fst snd (engine_allocate key nbytes flags exptime datatype);
  engine_remove key cas vb := lifted (engine_remove key cas vb);
  engine_release it := lifted (engine_release it);; add_ref it (-1);
  engine_get key vb := gives fst snd (engine_get key vb);
  engine_store it cas op vb := lifted (engine_store it cas op vb);
  engine_arithmetic key increment create delta initial exptime datatype vb :=
    gives (fun r => r.1.1) (fun r => r.1.2) (engine_arithmetic key increment create delta initial exptime datatype vb);
  engine_flush := lifted engine_flush;
  engine_item_set_cas it cas := lifted (engine_item_set_cas it cas);
  engine_get_item_info it nvalue := lifted (engine_get_item_info it nvalue);
  engine_set_item_info it datatype := lifted (engine_set_item_info it datatype);
  copy_value it off data := lifted (copy_value it off data);
|}.
End Counting.

Abbreviation ensures P m Q := (triple P m Q (fun _ => True)).

(** ** The balance *)

(** How often a context holds an item. *)
Class Holder (K : Type) := held : Z -> K -> Z.

Section Balance.
Context {K ES : Type} `{Holder K} `{EngineV1 ES} `{System} `{Engine}.
#[local] Instance counting_engine : EngineV1 (counted_state ES) := counting.
(** The references that others hold. *)
Context {B : Z -> Z}.
Implicit Types (v : Z * bool * bool) (x : option K) (ex : Z -> Z).

Definition in_context (p : Z) (x : option K) : Z :=
  match x with Some k => held p k | None => 0 end.

(** Every reference is with the connection, in the context or with others. *)
Definition balanced (w : command_world K (counted_state ES)) : Prop :=
  forall p, p <> 0 -> (eng w).2 p = B p + ind p (item (conn w)) + in_context p (context w).

Definition settled (x : option K) (w : command_world K (counted_state ES)) : Prop := balanced w /\ context w = x.

(** What the executors follow of the connection. *)
Definition seen (c : connection) : Z * bool * bool := (item c, ewouldblock c, supports_datatype c).
Definition seen_is v (c : connection) : Prop := seen c = v.

(** In the midst of an executor: what is seen of the connection is [v], the
    context is [x], and the executor itself holds [ex]. *)
Definition holding v x ex (w : command_world K (counted_state ES)) : Prop :=
  seen (conn w) = v /\ context w = x /\
  forall p, p <> 0 -> (eng w).2 p = B p + ind p v.1.1 + in_context p x + ex p.

Abbreviation X := (ST (command_world K (counted_state ES))).

Lemma holding_settled v x ex w : holding v x ex w -> (forall p, p <> 0 -> ex p = 0) -> settled x w.
Proof. intros (Hi & Hx & Hr) Hz. split; [|done]. intros p Hp. rewrite (Hr p Hp), Hx, (Hz p Hp), <- Hi. cbn. lia. Qed.

Lemma balanced_holding w : balanced w -> holding (seen (conn w)) (context w) (fun _ => 0) w.
Proof. intros Hb. split; [done|]. split; [done|]. intros p Hp. rewrite (Hb p Hp). cbn. lia. Qed.

(** Code that leaves the item alone. *)
Lemma quiet_seen {A} (m : M A) v : quiet m -> safe (seen_is v) m.
Proof.
  intros Hq c Hc. specialize (Hq (beside c) c eq_refl). unfold seen_is, seen in *. destruct (m c) as [a c'|c'|]; [| |done];
    unfold beside_is, beside in Hq; injection Hq as _ _ _ _ E1 _ E2 _ E3 _ _; congruence.
Qed.

Lemma h_conn {A} v x ex (m : M A) :
  (forall v, safe (seen_is v) m) -> ensures (holding v x ex) (on_conn m) (fun _ => holding v x ex).
Proof.
  intros Hm w (Hi & Hx & Hr). unfold on_conn. specialize (Hm v (conn w) Hi). destruct (m (conn w)) as [a c|c|]; [|done..].
  by split.
Qed.

(** An assignment. *)
Lemma h_modify v x ex f v' : (forall c, seen c = v -> seen (f c) = v') ->
  ensures (holding v x ex) (on_conn (modify f)) (fun _ => holding v' x (fun p => ex p + ind p v.1.1 - ind p v'.1.1)).
Proof. intros Hf w (Hi & Hx & Hr). split; [by apply Hf|]. split; [done|]. intros p Hp. cbn. rewrite (Hr p Hp). lia. Qed.

Lemma h_keep v x ex f : (forall c, seen (f c) = seen c) ->
  ensures (holding v x ex) (on_conn (modify f)) (fun _ => holding v x ex).
Proof. intros Hf w (Hi & Hx & Hr). split; [cbn; by rewrite Hf|done]. Qed.

Lemma h_block v x ex b :
  ensures (holding v x ex) (on_conn (assign ewouldblock b)) (fun _ => holding (v.1.1, b, v.2) x ex).
Proof. intros w (Hi & Hx & Hr). split; [|done]. unfold seen in *. cbn. by simplify_eq. Qed.

Lemma h_item v x ex it :
  ensures (holding v x ex) (on_conn (assign item it)) (fun _ => holding (it, v.1.2, v.2) x (fun p => ex p + ind p v.1.1 - ind p it)).
Proof. apply (h_modify v). by intros c <-. Qed.

Lemma h_lifted {A} v x ex (m : ST ES A) :
  ensures (holding v x ex) (on_eng (lifted m)) (fun _ => holding v x ex).
Proof.
  intros w (Hi & Hx & Hr). unfold on_eng, lifted. destruct (m (eng w).1) as [a e|e|]; [|done..]. by split.
Qed.

Lemma h_gives {A} v x ex code ptr (m : ST ES A) :
  ensures (holding v x ex) (on_eng (gives code ptr m))
    (fun r => holding v x (fun p => ex p + if bool_decide (code r = ENGINE_SUCCESS) then ind p (ptr r) else 0)).
Proof.
  intros w (Hi & Hx & Hr). unfold on_eng, gives, lifted, bind. destruct (m (eng w).1) as [r e|e|]; [|done..].
  destruct (bool_decide _) eqn:Hc; cbn -[ind Z.mul Z.add]; (split; [done|]; split; [done|]; intros p Hp; cbn -[ind Z.mul Z.add]; rewrite (Hr p Hp), ?Hc; lia).
Qed.

Lemma h_release v x ex q :
  ensures (holding v x ex) (bucket_release_item q) (fun _ => holding v x (fun p => ex p - ind p q)).
Proof.
  intros w (Hi & Hx & Hr). unfold bucket_release_item, on_eng. cbn. unfold lifted, bind, add_ref.
  destruct (engine_release q (eng w).1) as [r e|e|]; [|done..]. split; [done|]. split; [done|]. intros p Hp. cbn -[ind Z.mul Z.add].
  rewrite (Hr p Hp). lia.
Qed.

Lemma h_context v x ex x' :
  ensures (holding v x ex) (set_context x') (fun _ => holding v x' (fun p => ex p + in_context p x - in_context p x')).
Proof. intros w (Hi & Hx & Hr). split; [done|]. split; [done|]. intros p Hp. cbn. rewrite (Hr p Hp). lia. Qed.

Lemma q_expose_all l : quiet (expose_all l).
Proof.
  intros v c Hc. destruct (expose_all_ok l c) as (h & -> & _). exact Hc.
Qed.

Lemma h_info v x ex q n :
  ensures (holding v x ex) (bucket_get_item_info q n) (fun _ => holding v x ex).
Proof.
  unfold bucket_get_item_info. eapply triple_bind; [apply h_lifted|]. intros info.
  eapply (triple_bind _ _ (fun _ => holding v x ex)); [|intros ?; by intros w Hw].
  destruct info; [apply h_conn; intros v'; apply quiet_seen, q_expose_all|by intros w Hw].
Qed.

(** An engine that always knows the item it was asked about. *)
Definition info_total : Prop := forall it n (e e' : ES), 1 <= n -> engine_get_item_info it n e <> Done None e'.

(** What the engine says of an item. *)
Definition reported (q : Z) (i : item_info) : Prop := exists n (e e' : ES), engine_get_item_info q n e = Done (Some i) e'.

Lemma h_info_reported v x ex q n :
  ensures (holding v x ex) (bucket_get_item_info q n) (fun r w => (forall i, r = Some i -> reported q i) /\ holding v x ex w).
Proof.
  intros w Hw. pose proof (h_info v x ex q n w Hw) as Hi. destruct (bucket_get_item_info q n w) as [r w'|w'|] eqn:E; [|done..].
  split; [|done]. intros i ->. unfold bucket_get_item_info, on_eng, bind in E. cbn in E. unfold lifted in E.
  destruct w as [c k [e f]]. cbn in E. destruct (engine_get_item_info q n e) as [[j|] e1|e1|] eqn:E1; try done.
  exists n, e, e1. rewrite E1. destruct (on_conn _ _); [|done..]. by injection E as -> _.
Qed.

Lemma h_info_total v x ex q :
  info_total -> ensures (holding v x ex) (bucket_get_item_info q 1) (fun r w => is_Some r /\ holding v x ex w).
Proof.
  intros Ht. eapply triple_weaken with (Q := fun r w => (r <> None) /\ holding v x ex w); [done| |].
  2:{ intros [i|] w [Hr Hw]; [by split; eauto|done]. }
  intros w Hw. pose proof (h_info v x ex q 1 w Hw) as Hi. destruct (bucket_get_item_info q 1 w) as [r w'|w'|] eqn:E; [|done..].
  split; [|done]. intros ->. unfold bucket_get_item_info, on_eng in E. cbn in E. unfold lifted in E.
  destruct w as [c k [e f]]. unfold bind in E. cbn in E.
  destruct (engine_get_item_info q 1 e) as [[i|] e1|e1|] eqn:E1; try done.
  - by destruct (on_conn _ _).
  - by apply (Ht q 1 e e1).
Qed.

(** ** The calculus *)

Lemma h_get_item v x ex : ensures (holding v x ex) (on_conn (gets item)) (fun a w => a = v.1.1 /\ holding v x ex w).
Proof. intros w Hw. split; [by destruct Hw as [<- _]|by destruct w]. Qed.

Lemma h_the_context v x ex :
  ensures (holding v x ex) the_context (fun k w => x = Some k /\ holding v x ex w).
Proof.
  intros w (Hi & Hx & Hr). unfold the_context, bind, gets. rewrite Hx. by destruct x.
Qed.

Lemma h_update_context v k ex f :
  ensures (holding v (Some k) ex) (update_context f)
    (fun _ => holding v (Some (f k)) (fun p => ex p + in_context p (Some k) - in_context p (Some (f k)))).
Proof.
  unfold update_context. eapply triple_bind; [apply h_the_context|]. intros k'. apply triple_pure. intros [= ->]. apply h_context.
Qed.

Lemma h_must {A} v x ex (o : option A) :
  ensures (holding v x ex) (must o) (fun a w => o = Some a /\ holding v x ex w).
Proof. intros w Hw. by destruct o. Qed.

Lemma h_assert v x ex b : ensures (holding v x ex) (cb_assert b) (fun _ => holding v x ex).
Proof. intros w Hw. by destruct b. Qed.

Lemma h_take_aiostat v x ex : ensures (holding v x ex) (on_conn take_aiostat) (fun _ => holding v x ex).
Proof. by intros w (Hi & Hx & Hr). Qed.

Lemma h_get_context v x ex : ensures (holding v x ex) (gets context) (fun a w => a = x /\ holding v x ex w).
Proof. intros w Hw. split; [apply Hw|done]. Qed.

Lemma h_look {A} v x ex (f : connection -> A) : ensures (holding v x ex) (on_conn (gets f)) (fun _ => holding v x ex).
Proof. intros w Hw. by destruct w. Qed.

(** A call that is left out when an earlier one failed. *)
Lemma h_call {A} v x ex code ptr (m : ST ES A) d (r : ENGINE_ERROR_CODE) :
  code d = r ->
  ensures (holding v x ex) (if decide (r = ENGINE_SUCCESS) then on_eng (gives code ptr m) else ret d)
    (fun r => holding v x (fun p => ex p + if bool_decide (code r = ENGINE_SUCCESS) then ind p (ptr r) else 0)).
Proof.
  intros Hd. case_decide as Hr; [apply h_gives|]. apply triple_ret. intros w (Hi & Hx & Hh). split; [done|]. split; [done|].
  intros p Hp. rewrite (Hh p Hp), bool_decide_false by congruence. lia.
Qed.

Lemma h_bind {A C} v x ex (m : X A) R (k : A -> X C) Q :
  ensures (holding v x ex) m R -> (forall a, ensures (R a) (k a) Q) -> ensures (holding v x ex) (bind m k) Q.
Proof. apply triple_bind. Qed.

Lemma h_when v x ex b (m : X unit) :
  ensures (holding v x ex) m (fun _ => holding v x ex) -> ensures (holding v x ex) (when b m) (fun _ => holding v x ex).
Proof. intros Hm. destruct b; [exact Hm|by apply triple_ret]. Qed.

(** An executor is done. *)
Lemma h_settled {A} v x ex (m : X A) v' x' ex' :
  ensures (holding v x ex) m (fun _ => holding v' x' ex') -> (forall p, p <> 0 -> ex' p = 0) ->
  ensures (holding v x ex) m (fun _ => settled x').
Proof. intros Hm Hz. eapply triple_weaken; [done|exact Hm|]. intros a w Hw. exact (holding_settled _ _ _ _ Hw Hz). Qed.

Lemma h_end {A} v x ex (a : A) : (forall p, p <> 0 -> ex p = 0) -> ensures (holding v x ex) (ret a) (fun _ => settled x).
Proof. intros Hz. apply triple_ret. intros w Hw. exact (holding_settled _ _ _ _ Hw Hz). Qed.

Lemma h_from {A} x (m : X A) Q : (forall v, ensures (holding v x (fun _ => 0)) m Q) -> ensures (settled x) m Q.
Proof. intros Hm w [Hw <-]. exact (Hm _ w (balanced_holding w Hw)). Qed.

(** A call without an item. *)
Lemma h_call_lifted {A} v x ex (m : ST ES A) d (r : ENGINE_ERROR_CODE) :
  ensures (holding v x ex) (if decide (r = ENGINE_SUCCESS) then on_eng (lifted m) else ret d) (fun _ => holding v x ex).
Proof. case_decide; [apply h_lifted|by apply triple_ret]. Qed.

(** Where it does not matter what became of the context. *)
Lemma b_from {A} (m : X A) Q : (forall v x, ensures (holding v x (fun _ => 0)) m Q) -> ensures balanced m Q.
Proof. intros Hm w Hw. exact (Hm _ _ w (balanced_holding w Hw)). Qed.

Lemma b_leaf {A} v x ex (m : X A) v' x' ex' :
  ensures (holding v x ex) m (fun _ => holding v' x' ex') -> (forall p, p <> 0 -> ex' p = 0) -> ensures (holding v x ex) m (fun _ => balanced).
Proof. intros Hm Hz. eapply triple_weaken; [done|exact Hm|]. intros a w Hw. exact (proj1 (holding_settled _ _ _ _ Hw Hz)). Qed.

Lemma b_ret {A} v x ex (a : A) : (forall p, p <> 0 -> ex p = 0) -> ensures (holding v x ex) (ret a) (fun _ => balanced).
Proof. intros Hz. apply triple_ret. intros w Hw. exact (proj1 (holding_settled _ _ _ _ Hw Hz)). Qed.

(** A phase that has been shown to keep the balance. *)
Lemma b_bind {A C} v x ex (m : X A) (k : A -> X C) :
  (forall p, p <> 0 -> ex p = 0) -> ensures balanced m (fun _ => balanced) -> (forall a, ensures balanced (k a) (fun _ => balanced)) ->
  ensures (holding v x ex) (bind m k) (fun _ => balanced).
Proof.
  intros Hz Hm Hk. eapply triple_weaken with (P := balanced); [|eapply triple_bind; [exact Hm|exact Hk]|done].
  intros w Hw. exact (proj1 (holding_settled _ _ _ _ Hw Hz)).
Qed.

Lemma b_call {A} v x ex (m : X A) :
  (forall p, p <> 0 -> ex p = 0) -> ensures balanced m (fun _ => balanced) -> ensures (holding v x ex) m (fun _ => balanced).
Proof. intros Hz Hm. eapply triple_weaken; [|exact Hm|done]. intros w Hw. exact (proj1 (holding_settled _ _ _ _ Hw Hz)). Qed.
End Balance.

#[global] Arguments balanced {K ES _} B w.
#[global] Arguments settled {K ES _} B x w.
#[global] Arguments holding {K ES _} B v x ex w.

(** ** Automation *)

Create HintDb refs.
#[export] Hint Unfold in_context held ind : refs.

(** The references add up. *)
Ltac refs :=
  intros ? ?; autounfold with refs in *; cbn -[Z.eqb bool_decide]; repeat match goal with H : forall p, p <> 0 -> _ = _ |- _ => rewrite H by done; autounfold with refs end;
  repeat case_bool_decide; simplify_eq;
  repeat match goal with |- context [Z.eqb ?a ?b] => destruct (Z.eqb_spec a b) end; simplify_eq; try done; lia.


(** One statement. *)
Ltac h_one :=
  lazymatch goal with
  | |- triple _ (on_conn (gets item)) _ _ => apply h_get_item
  | |- triple _ (on_conn (gets _)) _ _ => apply h_look
  | |- triple _ (on_conn take_aiostat) _ _ => apply h_take_aiostat
  | |- triple _ (on_conn (modify _)) _ _ => first [apply h_keep; reflexivity | apply h_block | apply h_item]
  | |- triple _ (on_conn _) _ _ => apply h_conn; intros ?; unfold update_topkeys, write_mutation, store_extras, binary_get_request, binary_get_key; safely
  | |- triple _ (on_eng _) _ _ => first [apply h_gives | apply h_lifted]
  | |- triple _ (if decide _ then on_eng _ else _) _ _ => first [apply h_call; reflexivity | apply h_call_lifted]
  | |- triple _ (bucket_get_item_info _ _) _ _ => first [apply h_info_total; assumption | apply h_info]
  | |- triple _ (bucket_release_item _) _ _ => apply h_release
  | |- triple _ (when _ _) _ _ => apply h_when; h_one
  | |- triple _ (must _) _ _ => apply h_must
  | |- triple _ (cb_assert _) _ _ => apply h_assert
  | |- triple _ (gets context) _ _ => apply h_get_context
  | |- triple _ the_context _ _ => apply h_the_context
  | |- triple _ (update_context _) _ _ => apply h_update_context
  | |- triple _ (set_context _) _ _ => apply h_context
  | |- triple _ _ _ _ => solve [eauto 1 with refs]
  end.

Ltac h_step :=
  lazymatch goal with
  | H : is_Some ?i, E : ?i = None |- _ => by rewrite E in H; destruct H
  | |- triple (fun _ => _ /\ _) _ _ _ => apply triple_pure; intros ?; simplify_eq
  | |- triple _ (bind (bind _ _) _) _ _ => apply triple_assoc
  | |- triple _ (bind ?m _) _ _ =>
      first [ eapply h_bind; [h_one|intros ?; cbn beta]
            | lazymatch m with match ?x with _ => _ end => destruct x eqn:? 
              | when (negb (?a =? ?b)) _ => destruct (Z.eqb_spec a b); cbn [negb when]
              | when ?b _ => destruct b eqn:?; cbn [when]
              | ret _ => apply triple_ret_bind end ]
  | |- triple _ (when ?b _) _ _ => destruct b eqn:?; cbn [when]
  | |- triple _ (if negb (bool_decide _) then _ else _) _ _ => case_bool_decide; cbn [negb]
  | |- triple _ (let '(_, _) := ?x in _) _ _ => destruct x; cbn beta iota
  | |- triple _ (match ?x with _ => _ end) _ _ => destruct x eqn:?; cbn beta iota
  | |- triple _ (ret _) _ _ => apply h_end; refs
  | |- triple _ _ _ _ => eapply h_settled; [h_one|refs]
  end.

(** One statement, where the context does not matter. *)
Ltac b_step :=
  lazymatch goal with
  | |- triple _ (ret _) _ _ => apply b_ret; refs
  | |- _ => first [h_step | eapply b_leaf; [h_one|refs]]
  end.

