(* ===== verification/ExecutorRefs.v ===== *)
(** * References of the executors

    The references an executor takes are given back, or kept where the
    connection finds them again: as its item, or in the context of the
    command. *)

From S2P Require Import Prelude Memory Numbers Protocol Packet Input Output Buffers DynamicBuffer RecordUpdate StateMonad.
From S2P Require Import Connection Response Dispatch EngineApi Executors ExecutorSpec References.

(** APPEND and PREPEND hold the item they got and the one they made. *)
#[export] Instance append_holder : Holder append_context := fun p k => ind p (olditem k) + ind p (newitem k).
#[export] Hint Unfold append_holder : refs.

Section Balance.
Context {ES : Type} `{EngineV1 ES} `{System} `{Engine} `{Bucket} `{Services} (Hmap : map_engine_quiet).
#[local] Existing Instance counting_engine.
(** The references that others hold. *)
Context (B : Z -> Z).
Implicit Types (v : Z * bool * bool) (x : option append_context) (ex : Z -> Z).

Abbreviation balanced := (balanced (K := append_context) (ES := ES) B).
Abbreviation settled := (settled (K := append_context) (ES := ES) B).
Abbreviation holding := (holding (K := append_context) (ES := ES) B).
Abbreviation X := (Executors.X (ES := counted_state ES)).

Hint Resolve q_emit q_setState q_store q_write_response q_write_and_free q_response_handler q_add_iov q_add_header
  q_setWriteAndGo : safe.
Hint Extern 1 (safe (beside_is _) (mcbp_write_packet _)) => apply q_write_packet; exact Hmap : safe.
Hint Extern 2 (safe (seen_is _) _) => apply quiet_seen; intros ?; eauto 1 with safe; fail : safe.

(** ** DELETE, FLUSH and arithmetic *)

Lemma delete_balanced v x : ensures (holding v x (fun _ => 0)) delete_executor (fun _ => settled x).
Proof. unfold delete_executor. repeat h_step. Qed.

Lemma flush_balanced v x : ensures (holding v x (fun _ => 0)) flush_executor (fun _ => settled x).
Proof. unfold flush_executor. repeat h_step. Qed.

Lemma arithmetic_result_balanced v x ex key q result :
  (forall p, p <> 0 -> ex p = ind p q) -> ensures (holding v x ex) (arithmetic_result key q result) (fun _ => settled x).
Proof. intros Hex. unfold arithmetic_result. repeat h_step. Qed.

Lemma arithmetic_request_balanced v x incr : ensures (holding v x (fun _ => 0)) (arithmetic_request incr) (fun _ => settled x).
Proof. unfold arithmetic_request. repeat h_step. apply arithmetic_result_balanced. refs. Qed.

Lemma arithmetic_balanced v x : ensures (holding v x (fun _ => 0)) arithmetic_executor (fun _ => settled x).
Proof. unfold arithmetic_executor. repeat h_step. all: apply arithmetic_request_balanced. Qed.

(** ** ADD, SET and REPLACE *)

Lemma mark_json_held v x ex it value : ensures (holding v x ex) (mark_json it value) (fun _ => holding v x ex).
Proof.
  unfold mark_json. eapply triple_bind; [apply h_look|]. intros [|]; [by apply triple_ret|].
  destruct (json_validate value) as [json|]; [|by apply triple_ret].
  eapply (triple_bind _ _ (fun _ => holding v x ex)); [|intros ?; by apply triple_ret].
  destruct json; [|by apply triple_ret]. eapply triple_bind; [apply h_lifted|]. intros ?. by apply triple_ret.
Qed.

Hint Resolve mark_json_held : refs.

Lemma allocate_item_balanced v x r req pkt :
  v.1.1 = 0 -> ensures (holding v x (fun _ => 0)) (allocate_item r req pkt) (fun _ => settled x).
Proof. destruct v as [[it k] s]. cbn. intros ->. unfold allocate_item. repeat h_step. Qed.

Lemma respond_store_held v x op r :
  info_total -> ensures (holding v x (fun _ => 0)) (respond_store op r) (fun _ => settled x).
Proof.
  intros Ht. unfold respond_store, respond_stored. destruct r; repeat h_step.
Qed.

Lemma store_balanced v x op pkt :
  info_total -> ensures (holding v x (fun _ => 0)) (add_set_replace_executor op pkt) (fun _ => settled x).
Proof.
  intros Ht. unfold add_set_replace_executor. do 4 h_step. h_step. h_step.
  eapply (triple_bind _ _ (fun _ => settled x)).
  { case_match eqn:E; [apply allocate_item_balanced; cbn in *; lia|by h_step]. }
  clear dependent v. intros r'. apply h_from. intros v. h_step; [|by h_step].
  eapply (triple_bind _ _ (fun _ => settled x)).
  { case_decide; [|by h_step]. repeat h_step. }
  intros r2. apply h_from. clear v. intros v. eapply triple_bind; [by apply respond_store_held|]. intros more.
  apply h_from. clear v. intros v. repeat h_step.
Qed.
(** ** APPEND and PREPEND *)

(** The items a context has, by its state. *)
Definition context_ok (k : append_context) : Prop :=
  match ap_state k with
  | InflateInputData | GetItem => olditem k = 0 /\ newitem k = 0
  | AllocateNewItem => newitem k = 0
  | _ => True
  end.

(** A step of the state machine of the context went well, or comes again. *)
Definition stepped v (r : ENGINE_ERROR_CODE) (w : world (counted_state ES)) : Prop :=
  exists k, holding v (Some k) (fun _ => 0) w /\ (r = ENGINE_SUCCESS \/ r = ENGINE_EWOULDBLOCK -> context_ok k).

Lemma h_stepped v k ex r :
  (forall p, p <> 0 -> ex p = 0) -> (r = ENGINE_SUCCESS \/ r = ENGINE_EWOULDBLOCK -> context_ok k) ->
  ensures (holding v (Some k) ex) (ret r) (stepped v).
Proof.
  intros Hz Hk. apply triple_ret. intros w (Hi & Hx & Hr). exists k. split; [|done]. split; [done|]. split; [done|].
  intros p Hp. rewrite (Hr p Hp), (Hz p Hp). lia.
Qed.

(** What the items are before a step, and that they are right after it. *)
Ltac step_start Hs Hk := intros Hs Hk; unfold context_ok in Hk; rewrite Hs in Hk.
Ltac step_done := simplify_eq; (apply h_stepped; [refs|unfold context_ok; cbn; repeat case_match; intuition congruence]).

Lemma inflate_stepped v k :
  ap_state k = InflateInputData -> context_ok k -> ensures (holding v (Some k) (fun _ => 0)) inflateInputData (stepped v).
Proof. step_start Hs Hk. destruct Hk as [Ho Hn]. unfold inflateInputData. repeat h_step. all: step_done. Qed.

Lemma getItem_stepped v k :
  ap_state k = GetItem -> context_ok k -> ensures (holding v (Some k) (fun _ => 0)) getItem (stepped v).
Proof. step_start Hs Hk. destruct Hk as [Ho Hn]. unfold getItem. repeat h_step. all: step_done. Qed.

Lemma allocateNewItem_stepped v k :
  ap_state k = AllocateNewItem -> context_ok k -> ensures (holding v (Some k) (fun _ => 0)) allocateNewItem (stepped v).
Proof. step_start Hs Hk. unfold allocateNewItem. repeat h_step. all: step_done. Qed.

Lemma storeItem_stepped v k :
  ap_state k = StoreItem -> context_ok k -> ensures (holding v (Some k) (fun _ => 0)) storeItem (stepped v).
Proof. step_start Hs Hk. unfold storeItem. repeat h_step. all: step_done. Qed.

(** The context without its items. *)
Definition emptied v (w : world (counted_state ES)) : Prop :=
  exists k, (ap_state k = GetItem /\ olditem k = 0 /\ newitem k = 0) /\ holding v (Some k) (fun _ => 0) w.

Lemma h_emptied v k ex (r : ENGINE_ERROR_CODE) :
  (forall p, p <> 0 -> ex p = 0) -> ap_state k = GetItem -> olditem k = 0 -> newitem k = 0 ->
  ensures (holding v (Some k) ex) (ret r) (fun a w => a = r /\ emptied v w).
Proof.
  intros Hz Hs Ho Hn. apply triple_ret. intros w (Hi & Hx & Hr). split; [done|]. exists k. do 2 (split; [done|]). split; [done|].
  intros p Hp. rewrite (Hr p Hp), (Hz p Hp). lia.
Qed.

Lemma append_reset_emptied v k :
  ensures (holding v (Some k) (fun _ => 0)) append_reset (fun r w => r = ENGINE_SUCCESS /\ emptied v w).
Proof. unfold append_reset. repeat h_step. all: simplify_eq; (apply h_emptied; [refs|done..]). Qed.

Lemma append_reset_stepped v k : ensures (holding v (Some k) (fun _ => 0)) append_reset (stepped v).
Proof.
  eapply triple_weaken; [done|apply append_reset_emptied|]. intros r w [-> (k' & (Hs & Ho & Hn) & Hw)].
  exists k'. split; [done|]. intros _. unfold context_ok. by rewrite Hs.
Qed.

(** The end of a command gives back what the context had. *)
Lemma reset_settled v x : ensures (holding v x (fun _ => 0)) resetCommandContext (fun _ => settled None).
Proof.
  unfold resetCommandContext. eapply triple_bind; [apply h_get_context|]. intros k. apply triple_pure. intros ->.
  eapply (triple_bind _ _ (fun _ => settled None)).
  - destruct x as [k|]; [|by h_step]. eapply triple_bind; [apply append_reset_emptied|]. intros r. apply triple_pure. intros _.
    apply triple_exists. intros k'. apply triple_pure. intros (_ & Ho & Hn). repeat h_step.
  - intros _. apply h_from. intros v'. repeat h_step.
Qed.

Lemma append_step_held fuel v k : context_ok k -> ensures (holding v (Some k) (fun _ => 0)) (append_step fuel) (stepped v).
Proof.
  revert k. induction fuel as [|fuel IH]; intros k Hk; [by intros w Hw|]. cbn [append_step].
  eapply triple_bind; [apply h_the_context|]. intros k'. apply triple_pure. intros [= <-].
  assert (forall (m : X ENGINE_ERROR_CODE), ensures (holding v (Some k) (fun _ => 0)) m (stepped v) ->
    ensures (holding v (Some k) (fun _ => 0))
      (r <- m;; if bool_decide (r = ENGINE_SUCCESS) then append_step fuel else ret r) (stepped v)) as Hloop.
  { intros m Hm. eapply triple_bind; [exact Hm|]. intros r w (k' & Hw & Hr). case_bool_decide as E; [exact (IH k' (Hr (or_introl E)) w Hw)|by exists k']. }
  destruct (ap_state k) eqn:Hs; try apply Hloop; [by apply inflate_stepped|by apply getItem_stepped|by apply allocateNewItem_stepped|
    by apply storeItem_stepped|by apply append_reset_stepped|]. by apply h_stepped.
Qed.

Lemma new_append_ok mode pkt k : new_append_context mode pkt = Some k -> context_ok k /\ olditem k = 0 /\ newitem k = 0.
Proof.
  unfold new_append_context, context_ok. intros E. apply bind_Some in E as (req & _ & E). apply bind_Some in E as (key & _ & E).
  apply bind_Some in E as (value & _ & [= <-]). cbn. by case_match.
Qed.
(** What an executor leaves: the references are accounted for, and the context
    of a command that is blocked can go on. *)
Definition startable (w : world (counted_state ES)) : Prop :=
  balanced w /\ forall k, context w = Some k -> context_ok k.

Definition accounted (w : world (counted_state ES)) : Prop :=
  balanced w /\ (ewouldblock (conn w) = true -> forall k, context w = Some k -> context_ok k).

Lemma settled_accounted x w : (forall k, x = Some k -> context_ok k) -> settled x w -> accounted w.
Proof. intros Hx [Hb <-]. by split. Qed.

Lemma unblocked_accounted it s x w : holding (it, false, s) x (fun _ => 0) w -> accounted w.
Proof. intros Hw. split; [exact (proj1 (holding_settled _ _ _ _ Hw (fun _ _ => eq_refl)))|]. destruct Hw as ([= _ E _] & _). rewrite E. done. Qed.

Lemma append_finish it s x r :
  (r = ENGINE_SUCCESS \/ r = ENGINE_EWOULDBLOCK -> forall k, x = Some k -> context_ok k) ->
  ensures (holding (it, false, s) x (fun _ => 0))
    (match r with
     | ENGINE_SUCCESS => ret tt
     | ENGINE_EWOULDBLOCK => on_conn (assign aiostat ENGINE_EWOULDBLOCK);; on_conn (assign ewouldblock true)
     | ENGINE_DISCONNECT => on_conn (setState conn_closing)
     | ENGINE_KEY_ENOENT => on_conn (mcbp_write_packet (engine_error_2_mcbp_protocol_error ENGINE_NOT_STORED))
     | _ => on_conn (mcbp_write_packet (engine_error_2_mcbp_protocol_error r))
     end) (fun _ => accounted).
Proof.
  intros Hx. assert (forall m : X unit, ensures (holding (it, false, s) x (fun _ => 0)) m (fun _ => holding (it, false, s) x (fun _ => 0)) ->
    ensures (holding (it, false, s) x (fun _ => 0)) m (fun _ => accounted)) as Hdone.
  { intros m Hm. eapply triple_weaken; [done|exact Hm|]. intros ? w. apply unblocked_accounted. }
  destruct r; try (apply Hdone; h_one). 
  - apply Hdone. by apply triple_ret.
  - h_step. eapply triple_weaken; [done|apply (h_block (it, false, s))|]. intros ? w Hw. apply (settled_accounted x); [by auto|].
    exact (holding_settled _ _ _ _ Hw (fun _ _ => eq_refl)).
Qed.

Lemma append_held it b s x mode pkt : (forall k, x = Some k -> context_ok k) ->
  ensures (holding (it, b, s) x (fun _ => 0)) (append_prepend_executor mode pkt) (fun _ => accounted).
Proof.
  intros Hk. unfold append_prepend_executor. eapply triple_bind; [apply h_get_context|]. intros k. apply triple_pure. intros ->.
  eapply (triple_bind _ _ (fun _ w => exists k, context_ok k /\ holding (it, b, s) (Some k) (fun _ => 0) w)).
  { destruct x as [k|]; [apply triple_ret; eauto|]. do 3 h_step. apply new_append_ok in H4 as (Hok & Ho & Hn).
    eapply triple_weaken; [done|h_one|]. intros ? w (Hi & Hx & Hr). exists a. split; [done|]. split; [done|]. split; [done|].
    intros p Hp. rewrite (Hr p Hp). unfold in_context, held, append_holder. rewrite Ho, Hn, (ind_0 p Hp). lia. }
  intros ?. apply triple_exists. intros k. apply triple_pure. intros Hok. do 2 h_step.
  eapply (triple_bind _ _ (stepped (it, false, s))).
  { case_decide; [by apply append_step_held|]. by apply h_stepped. }
  intros r w (k' & Hw & Hr). refine (append_finish it s (Some k') r _ w Hw). intros Hr' ? [= <-]. by apply Hr.
Qed.

Lemma h_start {A} (m : X A) Q :
  (forall it b s x, (forall k, x = Some k -> context_ok k) -> ensures (holding (it, b, s) x (fun _ => 0)) m Q) -> ensures startable m Q.
Proof. intros Hm w [Hb Hk]. exact (Hm _ _ _ _ Hk w (balanced_holding w Hb)). Qed.

Lemma append_accounted q mode pkt : ensures startable (append_executor q mode pkt) (fun _ => accounted).
Proof. apply h_start. intros it b s x Hk. unfold append_executor. h_step. by apply append_held. Qed.

(** ** GET *)

Definition closing (w : world (counted_state ES)) : Prop := currentTask (conn w) = conn_closing.

Lemma setState_closes v :
  triple (seen_is v) (setState conn_closing) (fun _ c => seen c = v /\ currentTask c = conn_closing) (fun _ => True).
Proof.
  intros c Hc. pose proof (quiet_seen _ v (q_setState conn_closing) c Hc) as Hs.
  destruct (setState conn_closing c) as [? c'|c'|] eqn:E; [|done..]. split; [exact Hs|]. revert E. unfold setState, bind, gets, ret, when, modify.
  case_decide as Ht; [intros E; simplify_eq; congruence|]. rewrite (bool_decide_false (conn_closing = conn_waiting)) by done. rewrite andb_false_r.
  repeat case_match; intros E; by simplify_eq.
Qed.

Lemma kept_seen {A} v (m : M A) : (forall v, safe (seen_is v) m) -> triple (seen_is v) m (fun _ => seen_is v) (fun _ => True).
Proof. intros Hm c Hc. specialize (Hm v c Hc). by destruct (m c). Qed.

Lemma q_add_values l : quiet (add_values l).
Proof. intros u. induction l as [|p l IH]; cbn [add_values]; safely. Qed.
Hint Resolve q_add_values : safe.

Lemma get_response_seen v q nkey i d :
  triple (seen_is v) (get_response nkey q i d)
    (fun (ok : bool) c => if ok then seen c = (q, v.1.2, v.2) else seen c = v /\ currentTask c = conn_closing) (fun _ => True).
Proof.
  unfold get_response. do 2 (eapply triple_bind; [apply kept_seen; intros ?; safely|intros ?]). case_match.
  - eapply triple_bind; [apply setState_closes|]. intros ?. by apply triple_ret.
  - do 7 (eapply triple_bind; [apply kept_seen; intros ?; safely|intros ?]).
    intros c Hc. cbn. by rewrite <- Hc.
Qed.

Lemma h_supports v x ex : ensures (holding v x ex) (on_conn (gets supports_datatype)) (fun a w => a = v.2 /\ holding v x ex w).
Proof. intros w Hw. split; [by destruct Hw as [<- _]|by destruct w]. Qed.

(** One reference too many, to a compressed item, of a client that does not
    understand datatypes. *)
Definition leaked (w : world (counted_state ES)) : Prop :=
  supports_datatype (conn w) = false /\
  exists q, (exists i, reported q i /\ is_compressed (inf_datatype i) = true) /\
    forall p, p <> 0 -> (eng w).2 p = B p + ind p (item (conn w)) + in_context p (context w) + ind p q.

Definition got x w : Prop := settled x w \/ closing w \/ leaked w.

Lemma settled_weaken {A} P (m : X A) x : ensures P m (fun _ => settled x) -> ensures P m (fun _ => got x).
Proof. intros Hm. eapply triple_weaken; [done|exact Hm|]. by left. Qed.

Lemma holding_leaked k x ex q i w :
  reported q i -> is_compressed (inf_datatype i) = true -> (forall p, p <> 0 -> ex p = ind p q) ->
  holding (0, k, false) x ex w -> leaked w.
Proof.
  intros Hi Hc Hex (Hs & Hx & Hr). unfold seen in Hs. injection Hs as Hit _ Hsd. split; [done|]. exists q. split; [eauto|].
  intros p Hp. rewrite (Hr p Hp), (Hex p Hp), Hx, Hit. done.
Qed.

(** A value that is not inflated is answered with an error; the item is kept. *)
Lemma get_inflated_held k x ex key q i :
  reported q i -> is_compressed (inf_datatype i) = true -> (forall p, p <> 0 -> ex p = ind p q) ->
  ensures (holding (0, k, false) x ex) (get_inflated key q i) (fun _ w => settled x w \/ leaked w).
Proof.
  intros Hi Hc Hex.
  assert (forall m : M unit, (forall v, safe (seen_is v) m) ->
    ensures (holding (0, k, false) x ex) (on_conn m) (fun _ w => settled x w \/ leaked w)) as Hleak.
  { intros m Hm. eapply triple_weaken; [done|by apply h_conn|]. intros ? w Hw. right.
    exact (holding_leaked k x ex q i w Hi Hc Hex Hw). }
  unfold get_inflated. h_step. destruct (inf_value i) as [|[a1 v1] [|p2 vs]]; [apply Hleak; intros ?; safely| |apply Hleak; intros ?; safely].
  h_step. case_match; [|apply Hleak; intros ?; safely]. h_step.
  eapply triple_weaken; [done|eapply h_settled; [h_one|refs]|]. intros ? w Hw. by left.
Qed.

(** Code on the connection that leaves the item alone changes none of this. *)
Lemma got_kept (m : M unit) q k s x :
  (forall v, safe (seen_is v) m) ->
  ensures (fun w => holding (q, k, s) x (fun _ => 0) w \/ settled x w \/ leaked w) (on_conn m) (fun _ => got x).
Proof.
  intros Hm w Hw. assert (settled x w \/ leaked w) as Hw'.
  { destruct Hw as [Hw|Hw]; [left|exact Hw]. exact (holding_settled _ _ _ _ Hw (fun _ _ => eq_refl)). }
  unfold on_conn. specialize (Hm (seen (conn w)) (conn w) eq_refl). destruct (m (conn w)) as [a c|c|]; [|done..].
  unfold seen_is, seen in Hm. injection Hm as E1 E2 E3. destruct Hw' as [[Hb Hx]|[Hs Hl]].
  - left. split; [|done]. intros p Hp. cbn. rewrite E1. by apply Hb.
  - right. right. split; [cbn; congruence|]. cbn. by rewrite E1.
Qed.

(** A connection gets the item, or is closed; a compressed item that is not
    inflated for it stays in use. *)
Lemma get_hit_held k s x ex key q :
  (forall p, p <> 0 -> ex p = ind p q) ->
  ensures (holding (0, k, s) x ex) (get_hit key q) (fun _ => got x).
Proof.
  intros Hex. unfold get_hit. eapply triple_bind; [apply h_info_reported|]. intros info. apply triple_pure. intros Hi.
  destruct info as [i|]; [|apply settled_weaken; repeat h_step]. specialize (Hi i eq_refl).
  eapply triple_bind; [apply h_supports|]. intros ?. apply triple_pure. intros ->. cbn [snd].
  eapply (triple_bind _ _ (fun (ok : bool) w => if ok then holding (q, k, s) x (fun _ => 0) w \/ settled x w \/ leaked w else closing w)).
  - destruct (negb s && is_compressed (inf_datatype i)) eqn:Ec.
    + apply andb_true_iff in Ec as [Es Ec]. destruct s; [done|].
      eapply triple_bind; [by apply get_inflated_held|]. intros ?. apply triple_ret. auto.
    + intros w (Hv & Hx & Hr). unfold on_conn.
      pose proof (get_response_seen (0, k, s) q (size key) i (if negb s then PROTOCOL_BINARY_RAW_BYTES else inf_datatype i) (conn w) Hv) as Hg.
      destruct (get_response _ _ _ _ (conn w)) as [[|] c'|c'|]; [|by apply Hg|done..]. left.
      split; [done|]. split; [done|]. intros p Hp. cbn -[ind]. rewrite (Hr p Hp), (Hex p Hp). cbn -[ind]. rewrite (ind_0 p Hp). lia.
  - intros [|]; [|apply triple_ret; unfold got; auto].
    cbn [when]. apply got_kept. intros v. unfold update_topkeys. safely.
Qed.
Lemma process_get_held k s x :
  ensures (holding (0, k, s) x (fun _ => 0)) process_bin_get (fun _ => got x).
Proof.
  unfold process_bin_get. do 5 h_step. h_step; try (apply settled_weaken; repeat h_step; fail).
  - apply get_hit_held. refs.
  - apply settled_weaken. unfold get_miss. repeat h_step.
Qed.

Lemma get_held k s x :
  ensures (holding (0, k, s) x (fun _ => 0)) get_executor (fun _ => got x).
Proof.
  unfold get_executor. h_step. repeat case_match; try (h_step; apply process_get_held). all: apply settled_weaken; repeat h_step.
Qed.

(** ** Every executor *)

(** What a command finds: the references add up, and if the command was blocked
    its context can go on.  GET starts without an item of the connection. *)
Definition startable_for (ex : mcbp_executor) (w : world (counted_state ES)) : Prop :=
  startable w /\ (ex = Dispatch.get_executor -> item (conn w) = 0).

(** What it leaves: the references add up, or it was GET, which closes the
    connection when there is no memory for the response, and keeps a compressed
    item that it cannot inflate. *)
Definition left_by (ex : mcbp_executor) (w : world (counted_state ES)) : Prop :=
  accounted w \/ (ex = Dispatch.get_executor /\ (closing w \/ leaked w)).

Lemma settles (m : X unit) w :
  startable w -> (forall v x, ensures (holding v x (fun _ => 0)) m (fun _ => settled x)) ->
  match m w with Done _ w' => accounted w' | _ => True end.
Proof.
  intros [Hb Hk] Hm. specialize (Hm _ _ w (balanced_holding w Hb)). destruct (m w) as [a w'|w'|]; [|done..].
  by eapply settled_accounted.
Qed.

Lemma quiet_settles v x (m : M unit) : quiet m -> ensures (holding v x (fun _ => 0)) (on_conn m) (fun _ => settled x).
Proof. intros Hm. eapply h_settled; [apply h_conn; intros ?; by apply quiet_seen|done]. Qed.

Lemma executor_accounted (ex : mcbp_executor) pkt m w :
  info_total -> run_executor_of ex pkt = Some m -> ex <> Dispatch.get_executor -> startable w ->
  match m w with Done _ w' => accounted w' | _ => True end.
Proof.
  intros Ht Em Hg Hw. destruct ex; try done; injection Em as <-.
  all: first
    [ by apply append_accounted
    | apply settles; [done|]; intros v x;
      first [ unfold store_executor; h_step; by apply store_balanced
            | apply delete_balanced | apply flush_balanced | apply arithmetic_balanced
            | apply quiet_settles; unfold noop_executor, version_executor, quit_executor, quitq_executor; intros ?; safely ] ].
Qed.

Lemma get_left w : startable_for Dispatch.get_executor w ->
  match get_executor w with Done _ w' => left_by Dispatch.get_executor w' | _ => True end.
Proof.
  intros [[Hb Hk] Hg]. specialize (Hg eq_refl). pose proof (balanced_holding w Hb) as Hw.
  unfold seen in Hw. rewrite Hg in Hw. pose proof (get_held _ _ _ w Hw) as Hr. destruct (get_executor w) as [a w'|w'|]; [|done..].
  destruct Hr as [Hr|Hr]; [left; by eapply settled_accounted|by right].
Qed.

(** C8: the executors keep the references to items in balance, with any
    engine: whatever the engine answers, every reference that an executor took
    is given back, or is the connection's item, or is in the context of the
    command; a command that was blocked can be run again from what it left;
    and when the command is over its context gives back what it had.  There are
    two exceptions, both of GET: when there is no memory for the response it
    closes the connection with the item in use; and for a client that does not
    understand datatypes it keeps a compressed item that it cannot inflate, one
    reference that nobody has any more.  The engine must know the items it gave
    out ([info_total]), and GET starts without an item of the connection. *)
Theorem references_accounted (ex : mcbp_executor) pkt m w :
  info_total -> run_executor_of ex pkt = Some m -> startable_for ex w ->
  match m w with
  | Done _ w' =>
      left_by ex w' /\
      (balanced w' ->
       match resetCommandContext w' with
       | Done _ w2 => balanced w2 /\ context w2 = None
       | _ => True
       end)
  | _ => True
  end.
Proof.
  intros Ht Em [Hw Hg]. assert (match m w with Done _ w' => left_by ex w' | _ => True end) as Hm.
  { assert (ex = Dispatch.get_executor \/ ex <> Dispatch.get_executor) as [->|Hne] by (destruct ex; (by left) || by right).
    - injection Em as <-. by apply get_left.
    - pose proof (executor_accounted ex pkt m w Ht Em Hne Hw) as Ha. destruct (m w); by try left. }
  destruct (m w) as [a w'|w'|]; [|done..]. split; [done|]. intros Hb. by apply (reset_settled _ _ w' (balanced_holding w' Hb)).
Qed.
End Balance.

(** ** An engine with one item

    The state says whether the engine knows what it was asked about. *)

Definition one_item : item_info := mk_item_info 0 (mk_mutation 0 0) 0 0 0 0 0 (16, []) [(16, [])].

Definition one_item_engine (knows : bool) : EngineV1 unit := {|
  engine_allocate _ _ _ _ _ := ret (ENGINE_SUCCESS, 8);
  engine_remove _ cas _ := ret (ENGINE_SUCCESS, cas, mk_mutation 0 0);
  engine_release _ := ret tt;
  engine_get _ _ := ret (ENGINE_SUCCESS, 8);
  engine_store _ _ _ _ := ret (ENGINE_SUCCESS, 1);
  engine_arithmetic _ _ _ _ _ _ _ _ := ret (ENGINE_SUCCESS, 8, 0);
  engine_flush := ret ENGINE_SUCCESS;
  engine_item_set_cas _ _ := ret tt;
  engine_get_item_info _ _ := ret (if knows then Some one_item else None);
  engine_set_item_info _ _ := ret true;
  copy_value _ _ _ := ret tt;
|}.

(** A SET without a value that was blocked in the engine's store. *)
Definition set_nothing : bytes := store_request_header
  (mk_request_header PROTOCOL_BINARY_REQ PROTOCOL_BINARY_CMD_SET 0 8 0 0 (htonl 8) 0 0) ++ replicate 8 Byte.x00.

Definition blocked_set : world (counted_state unit) :=
  mk_world ((demo_connection blank) <| item := 8 |> <| supports_mutation_extras := true |>) None (tt, fun p => ind p 8).

Abbreviation set_of knows := (@store_executor _ (@counting _ (one_item_engine knows)) demo_system plain_engine demo_bucket small_services
  false OPERATION_SET set_nothing).

(** How often the item is in use afterwards, and the connection's item. *)
Definition use_after (r : outcome (world (counted_state unit)) unit) : option (Z * Z) :=
  match r with Done _ w => Some ((eng w).2 8, item (conn w)) | _ => None end.

Lemma references_accounted_witness :
  exists w', set_of true blocked_set = Done tt w' /\ (eng w').2 8 = 0 /\ balanced (fun _ => 0) w'.
Proof.
  pose proof (@references_accounted unit (one_item_engine true) demo_system plain_engine demo_bucket small_services plain_quiet
    (fun _ => 0) Dispatch.set_executor set_nothing (set_of true) blocked_set) as W.
  assert (use_after (set_of true blocked_set) = Some (0, 0)) as E by (by vm_compute).
  destruct (set_of true blocked_set) as [[] w'|w'|]; [|done..]. exists w'. split; [done|]. injection E as E _. split; [exact E|].
  destruct W as [[[Hb _]|[? _]] _]; [by intros ? ? [] []| reflexivity| |exact Hb|done].
  split; [|done]. split; [|done]. intros p _. cbn. lia.
Defined.

(** An engine that does not know the item it just stored: the item is given
    back and stays the connection's, which gives it back again. *)
Lemma set_releases_twice : use_after (set_of false blocked_set) = Some (0, 8).
Proof. by vm_compute. Qed.

(** An item in two pieces, and a client that does not understand that it is
    compressed: the answer is an error, the connection stays open, and the item
    is in use ever after. *)
Definition compressed_engine : EngineV1 unit := {|
  engine_allocate _ _ _ _ _ := ret (ENGINE_ENOMEM, 0);
  engine_remove _ cas _ := ret (ENGINE_KEY_ENOENT, cas, mk_mutation 0 0);
  engine_release _ := ret tt;
  engine_get _ _ := ret (ENGINE_SUCCESS, 8);
  engine_store _ _ _ _ := ret (ENGINE_NOT_STORED, 0);
  engine_arithmetic _ _ _ _ _ _ _ _ := ret (ENGINE_KEY_ENOENT, 0, 0);
  engine_flush := ret ENGINE_SUCCESS;
  engine_item_set_cas _ _ := ret tt;
  engine_get_item_info _ _ := ret (Some (mk_item_info 0 (mk_mutation 0 0) 0 2 0 0 PROTOCOL_BINARY_DATATYPE_COMPRESSED (16, [])
    [(16, [Byte.x00]); (17, [Byte.x00])]));
  engine_set_item_info _ _ := ret true;
  copy_value _ _ _ := ret tt;
|}.

Lemma get_leaks :
  match @get_executor _ (@counting _ compressed_engine) demo_system plain_engine demo_bucket
          (mk_world (get_foo_read <| supports_datatype := false |>) None (tt, fun _ => 0)) with
  | Done _ w => Some ((eng w).2 8, item (conn w), currentTask (conn w))
  | _ => None
  end = Some (1, 0, conn_mwrite).
Proof. by vm_compute. Qed.
