(* ===== verification/Subdoc.v ===== *)
(** * Sub-document commands: execution

    [daemon/subdocument.cc] and [daemon/subdocument_context.h]: a command
    fetches a document from the engine, applies operations on paths in it, stores
    the result and answers.  What an operation does to a document is decided by
    the subjson library, a parameter here ([Subjson]).

    The counters of the threads and the output for debugging are left out. *)

From S2P Require Import Prelude Memory Numbers Protocol Packet Input Output Buffers DynamicBuffer RecordUpdate StateMonad.
From S2P Require Import Connection Response SubdocValidators Dispatch EngineApi Executors.

(** ** The library *)

(** [Subdoc::Error]; [OTHER_ERROR] is any value the code does not name. *)
Inductive Subdoc_Error :=
| Error_SUCCESS | Error_PATH_ENOENT | Error_PATH_MISMATCH | Error_DOC_ETOODEEP | Error_PATH_EINVAL
| Error_DOC_NOTJSON | Error_DOC_EEXISTS | Error_PATH_E2BIG | Error_NUM_E2BIG | Error_DELTA_EINVAL
| Error_VALUE_CANTINSERT | Error_DELTA_OVERFLOW | Error_VALUE_ETOODEEP | OTHER_ERROR.

(** The type of the root of a document, of [jsonsl_type_t]. *)
Inductive root_type :=
| JSONSL_T_ROOT
| JSONSL_T_LIST
| JSONSL_T_OBJECT.

#[export] Instance root_type_eq_dec : EqDecision root_type.
Proof. solve_decision. Defined.

(** [Subdoc::Result]: the pieces of the new document, and where the value that
    was found is, with its bytes. *)
Record subdoc_result := mk_result {
  newdoc : list bytes;
  matchloc : Z * bytes;
}.

Definition no_result : subdoc_result := mk_result [] (0, []).

(** What the code uses of subjson and of the allocator: [op_exec] works on a
    document at an address; the texts of the empty list and object are static;
    [new_chars n] is the address of [n] new bytes and 0 when there is no memory;
    [new_context] says whether there is memory for a context. *)
Class Subjson := {
  op_exec : Subdoc_Command -> bool -> Z * bytes -> bytes -> bytes -> Subdoc_Error * subdoc_result;
  get_root_type : Subdoc_Command -> bytes -> root_type;
  empty_list_at : Z;
  empty_object_at : Z;
  new_chars : Z -> Z;
  new_context : bool;
}.

(** ** The context of a command *)

(** [SubdocCmdContext::OperationSpec]; [op_mkdir] is the flag MKDIR_P of the
    command. *)
Record operation := mk_operation {
  op_traits : SubdocCmdTraits;
  op_mkdir : bool;
  op_path : bytes;
  op_value : bytes;
  op_status : protocol_binary_response_status;
  op_result : subdoc_result;
}.

#[export] Instance operation_settable : Settable operation := fun o =>
  mk_operation (op_traits o) (op_mkdir o) (op_path o) (op_value o) (op_status o) (op_result o).

(** The constructor; a move leaves the status out, which is set before it is
    read. *)
Definition OperationSpec (traits : SubdocCmdTraits) (flags : Z) (path value : bytes) : operation :=
  mk_operation traits (Z.land flags (Z.lor SUBDOC_FLAG_MKDIR_P SUBDOC_FLAG_MKDOC) != 0) path value
    PROTOCOL_BINARY_RESPONSE_EINTERNAL no_result.

(** [SubdocCmdContext], without what is for statistics only; [in_doc] is the
    document's address and bytes, [None] for the null pointer. *)
Record subdoc_context := mk_subdoc {
  sc_traits : SubdocCmdTraits;
  ops : list operation;
  in_doc : option (Z * bytes);
  in_cas : Z;
  in_flags : Z;
  executed : bool;
  jroot_type : root_type;
  needs_new_doc : bool;
  overall_status : protocol_binary_response_status;
  sc_mutation : mutation_descr_t;
  out_doc_len : Z;
  out_doc : Z;
}.

#[export] Instance subdoc_context_settable : Settable subdoc_context := fun k =>
  mk_subdoc (sc_traits k) (ops k) (in_doc k) (in_cas k) (in_flags k) (executed k) (jroot_type k) (needs_new_doc k)
    (overall_status k) (sc_mutation k) (out_doc_len k) (out_doc k).

(** The constructor; what it leaves uninitialised is set before it is used. *)
Definition SubdocCmdContext (traits : SubdocCmdTraits) : subdoc_context :=
  mk_subdoc traits [] None 0 0 false JSONSL_T_ROOT false PROTOCOL_BINARY_RESPONSE_EINTERNAL (mk_mutation 0 0) 0 0.

Section Subdoc.
Context {ES : Type} `{EngineV1 ES} `{System} `{Engine} `{Bucket} `{Subjson}.

Abbreviation X := (ST (command_world subdoc_context ES)).

(** ** Decoding the request *)

(** One operation of a multi-path request at the start of [m], with the bytes
    it takes. *)
Definition decode_spec (mutator : bool) (m : bytes) : option (Z * Z * bytes * bytes * Z) :=
  opcode ← load_int 1 0 m;
  flags ← load_int 1 1 m;
  raw_pathlen ← load_int 2 2 m;
  let pathlen := ntohs raw_pathlen in
  valuelen ← (if mutator then ntohl <$> load_int 4 4 m else Some 0);
  let headerlen := if mutator then MUTATION_SPEC_SIZE else LOOKUP_SPEC_SIZE in
  path ← load (Z.to_nat pathlen) headerlen m;
  value ← load (Z.to_nat valuelen) (headerlen + pathlen) m;
  Some (opcode, flags, path, value, headerlen + pathlen + valuelen).

(** The loop over the operations; each takes four bytes at least. *)
Fixpoint decode_multi (fuel : nat) (mutator : bool) (m : bytes) (k : subdoc_context) : option subdoc_context :=
  match fuel with
  | O => None
  | S fuel =>
      if bool_decide (m = []) then Some k else
      '(opcode, flags, path, value, len) ← decode_spec mutator m;
      let traits := get_subdoc_cmd_traits opcode in
      let k := if (Z.land flags SUBDOC_FLAG_MKDOC != 0) && bool_decide (jroot_type k = JSONSL_T_ROOT)
               then k <| jroot_type := get_root_type (command traits) path |> else k in
      decode_multi fuel mutator (drop (Z.to_nat len) m) (k <| ops := ops k ++ [OperationSpec traits flags path value] |>)
  end.

(** [subdoc_create_context]: [None] when the packet is too short for what it
    announces. *)
Definition subdoc_create_context (traits : SubdocCmdTraits) (pkt value : bytes) : option subdoc_context :=
  let k := SubdocCmdContext traits in
  match path traits with
  | SINGLE =>
      raw_pathlen ← load_int 2 HEADER_SIZE pkt;
      flags ← load_int 1 (HEADER_SIZE + 2) pkt;
      let pathlen := ntohs raw_pathlen in
      path ← load (Z.to_nat pathlen) 0 value;
      let op := OperationSpec traits flags path (if request_has_value traits then drop (Z.to_nat pathlen) value else []) in
      let k := k <| ops := [op] |> in
      Some (if Z.land flags SUBDOC_FLAG_MKDOC != 0 then k <| jroot_type := get_root_type (command traits) path |> else k)
  | MULTI => decode_multi (S (length value)) (is_mutator traits) value k
  end.

Definition subdoc_decode_expiration (header : protocol_binary_request_header) (traits : SubdocCmdTraits) (pkt : bytes) : option Z :=
  match path traits with
  | SINGLE =>
      if extlen header == SUBDOC_EXPIRY_EXTRAS_LEN
      then ntohl <$> load_int 4 (HEADER_SIZE + SUBDOC_BASIC_EXTRAS_LEN) pkt else Some 0
  | MULTI => if extlen header == 4 then ntohl <$> load_int 4 HEADER_SIZE pkt else Some 0
  end.

(** ** Fetching the document *)

(** [get_document_for_searching]: the document with its CAS value and flags, or
    the status of the failure. *)
Definition get_document_for_searching (it in_cas : Z)
    : X (protocol_binary_response_status + (Z * bytes) * Z * Z) :=
  info <- bucket_get_item_info it iov_max;;
  match info with
  | None => ret (inl PROTOCOL_BINARY_RESPONSE_EINTERNAL)
  | Some i =>
      match inf_value i with
      | [(at_, v)] =>
          if (in_cas != 0) && (in_cas != inf_cas i) then ret (inl PROTOCOL_BINARY_RESPONSE_KEY_EEXISTS) else
          if negb (is_json (inf_datatype i)) then ret (inl PROTOCOL_BINARY_RESPONSE_SUBDOC_DOC_NOTJSON) else
          if negb (is_compressed (inf_datatype i)) then ret (inr ((at_, v), inf_cas i, inf_flags i)) else
          match snappy_uncompressed_length v with
          | None => ret (inl PROTOCOL_BINARY_RESPONSE_EINTERNAL)
          | Some len =>
              g <- on_conn (grow_dynamic len);;
              if negb g then ret (inl PROTOCOL_BINARY_RESPONSE_E2BIG) else
              buffer <- on_conn (gets (fun c => getCurrent (dynamicBuffer c)));;
              let '(ok, bs) := snappy_uncompress v in
              on_conn (store buffer bs);;
              if negb ok then ret (inl PROTOCOL_BINARY_RESPONSE_EINTERNAL) else
              on_conn (move_offset len);;
              ret (inr ((buffer, bs), inf_cas i, inf_flags i))
          end
      | _ => ret (inl PROTOCOL_BINARY_RESPONSE_EINTERNAL)
      end
  end.

(** The second half of [subdoc_fetch]: the document is taken from the item. *)
Definition fetch_document (cas : Z) : X bool :=
  k <- the_context;;
  match in_doc k with
  | Some _ => ret true
  | None =>
      it <- on_conn (gets item);;
      doc <- get_document_for_searching it cas;;
      match doc with
      | inl status => on_conn (mcbp_write_packet status);; ret false
      | inr (doc, cas, flags) =>
          update_context (fun k => k <| in_doc := Some doc |> <| in_cas := cas |> <| in_flags := flags |>);;
          ret true
      end
  end.

Definition subdoc_fetch (r : ENGINE_ERROR_CODE) (key : bytes) (vbucket cas : Z) : X bool :=
  k <- the_context;;
  it <- on_conn (gets item);;
  if (it == 0) && negb (needs_new_doc k) then
    got <- (if decide (r = ENGINE_SUCCESS) then on_eng (engine_get key vbucket) else ret (r, 0));;
    let '(r, initial_item) := got in
    match r with
    | ENGINE_SUCCESS =>
        on_conn (assign item initial_item);;
        update_context (fun k => k <| needs_new_doc := false |>);;
        fetch_document cas
    | ENGINE_KEY_ENOENT =>
        match jroot_type k with
        | JSONSL_T_LIST =>
            update_context (fun k => k <| in_doc := Some (empty_list_at, text "[]") |> <| needs_new_doc := true |>);; ret true
        | JSONSL_T_OBJECT =>
            update_context (fun k => k <| in_doc := Some (empty_object_at, text "{}") |> <| needs_new_doc := true |>);; ret true
        | JSONSL_T_ROOT => on_conn (mcbp_write_packet (engine_error_2_mcbp_protocol_error r));; ret false
        end
    | ENGINE_EWOULDBLOCK => on_conn (assign ewouldblock true);; ret false
    | ENGINE_DISCONNECT => on_conn (setState conn_closing);; ret false
    | _ => on_conn (mcbp_write_packet (engine_error_2_mcbp_protocol_error r));; ret false
    end
  else fetch_document cas.

(** ** Operating on it *)

Definition subdoc_status (e : Subdoc_Error) : protocol_binary_response_status :=
  match e with
  | Error_SUCCESS => PROTOCOL_BINARY_RESPONSE_SUCCESS
  | Error_PATH_ENOENT => PROTOCOL_BINARY_RESPONSE_SUBDOC_PATH_ENOENT
  | Error_PATH_MISMATCH => PROTOCOL_BINARY_RESPONSE_SUBDOC_PATH_MISMATCH
  | Error_DOC_ETOODEEP => PROTOCOL_BINARY_RESPONSE_SUBDOC_DOC_E2DEEP
  | Error_PATH_EINVAL => PROTOCOL_BINARY_RESPONSE_SUBDOC_PATH_EINVAL
  | Error_DOC_NOTJSON => PROTOCOL_BINARY_RESPONSE_SUBDOC_DOC_NOTJSON
  | Error_DOC_EEXISTS => PROTOCOL_BINARY_RESPONSE_SUBDOC_PATH_EEXISTS
  | Error_PATH_E2BIG => PROTOCOL_BINARY_RESPONSE_SUBDOC_PATH_E2BIG
  | Error_NUM_E2BIG => PROTOCOL_BINARY_RESPONSE_SUBDOC_NUM_ERANGE
  | Error_DELTA_EINVAL => PROTOCOL_BINARY_RESPONSE_SUBDOC_DELTA_EINVAL
  | Error_VALUE_CANTINSERT => PROTOCOL_BINARY_RESPONSE_SUBDOC_VALUE_CANTINSERT
  | Error_DELTA_OVERFLOW => PROTOCOL_BINARY_RESPONSE_SUBDOC_VALUE_CANTINSERT
  | Error_VALUE_ETOODEEP => PROTOCOL_BINARY_RESPONSE_SUBDOC_VALUE_ETOODEEP
  | OTHER_ERROR => PROTOCOL_BINARY_RESPONSE_EINTERNAL
  end.

(** [subdoc_operate_one_path]: the operation with its status and result. *)
Definition subdoc_operate_one_path (doc : Z * bytes) (op : operation) : operation :=
  let '(e, r) := op_exec (command (op_traits op)) (op_mkdir op) doc (op_value op) (op_path op) in
  op <| op_status := subdoc_status e |> <| op_result := r |>.

Definition succeeded (op : operation) : bool := bool_decide (op_status op = PROTOCOL_BINARY_RESPONSE_SUCCESS).

(** The new document in one piece. *)
Definition joined (r : subdoc_result) : bytes := concat (newdoc r).

(** How the loop of [subdoc_operate] ends: with a response to the client, with a
    mutation that failed on a path, or behind the last operation. *)
Inductive operated :=
| Answered
| PathFailed
| AllDone.

(** The loop; [before] are the operations that were done.  The value an
    operation found is in memory where its result says. *)
Fixpoint operate_all (before after : list operation) : X operated :=
  match after with
  | [] => ret AllDone
  | op :: after =>
      k <- the_context;;
      doc <- must (in_doc k);;
      let op := subdoc_operate_one_path doc op in
      on_conn (expose (matchloc (op_result op)));;
      update_context (fun k => k <| ops := before ++ op :: after |>);;
      match path (sc_traits k) with
      | SINGLE =>
          if negb (succeeded op) then on_conn (mcbp_write_packet (op_status op));; ret Answered
          else operate_all (before ++ [op]) after
      | MULTI =>
          if succeeded op then
            if is_mutator (sc_traits k) && negb (bool_decide (length after = 0%nat)) then
              let at_ := new_chars (size (joined (op_result op))) in
              if at_ == 0 then on_conn (mcbp_write_packet PROTOCOL_BINARY_RESPONSE_ENOMEM);; ret Answered else
              on_conn (store at_ (joined (op_result op)));;
              update_context (fun k => k <| in_doc := Some (at_, joined (op_result op)) |>);;
              operate_all (before ++ [op]) after
            else operate_all (before ++ [op]) after
          else
            update_context (fun k => k <| overall_status := PROTOCOL_BINARY_RESPONSE_SUBDOC_MULTI_PATH_FAILURE |>);;
            if is_mutator (sc_traits k) then ret PathFailed
            else operate_all (before ++ [op]) after
      end
  end.

Definition subdoc_operate : X bool :=
  k <- the_context;;
  if executed k then ret true else
  update_context (fun k => k <| overall_status := PROTOCOL_BINARY_RESPONSE_SUCCESS |>);;
  r <- operate_all [] (ops k);;
  match r with
  | Answered => ret false
  | PathFailed => ret true
  | AllDone => update_context (fun k => k <| executed := true |>);; ret true
  end.

(** ** Storing the result *)

(** The document that is stored: that of the last operation. *)
Definition result_document (k : subdoc_context) : option bytes := joined ∘ op_result <$> last (ops k).

(** A new item with the document; the result is as that of [subdoc_update] when
    it is not [ENGINE_SUCCESS]. *)
Definition allocate_document (r : ENGINE_ERROR_CODE) (key : bytes) (expiration : Z) : X ENGINE_ERROR_CODE :=
  k <- the_context;;
  if out_doc k != 0 then ret ENGINE_SUCCESS else
  got <- (if decide (r = ENGINE_SUCCESS)
          then on_eng (engine_allocate key (out_doc_len k) (in_flags k) expiration PROTOCOL_BINARY_DATATYPE_JSON) else ret (r, 0));;
  let '(r, new_doc) := got in
  match r with
  | ENGINE_SUCCESS =>
      update_context (fun k => k <| out_doc := new_doc |>);;
      on_eng (engine_item_set_cas new_doc (in_cas k));;
      info <- bucket_get_item_info new_doc iov_max;;
      match info with
      | None => on_conn (mcbp_write_packet PROTOCOL_BINARY_RESPONSE_EINTERNAL);; ret ENGINE_FAILED
      | Some i =>
          must (head (inf_value i));;
          doc <- must (result_document k);;
          on_eng (copy_value new_doc 0 doc);;
          ret ENGINE_SUCCESS
      end
  | ENGINE_EWOULDBLOCK => on_conn (assign ewouldblock true);; ret r
  | ENGINE_DISCONNECT => on_conn (setState conn_closing);; ret r
  | _ => on_conn (mcbp_write_packet (engine_error_2_mcbp_protocol_error r));; ret r
  end.

Definition store_document (vbucket : Z) : X ENGINE_ERROR_CODE :=
  k <- the_context;;
  got <- on_eng (engine_store (out_doc k) 0 (if needs_new_doc k then OPERATION_ADD else OPERATION_REPLACE) vbucket);;
  let '(r, new_cas) := got in
  match r with
  | ENGINE_SUCCESS =>
      extras <- on_conn (gets supports_mutation_extras);;
      if (extras : bool) then
        info <- bucket_get_item_info (out_doc k) 1;;
        match info with
        | None => on_conn (mcbp_write_packet PROTOCOL_BINARY_RESPONSE_EINTERNAL);; ret ENGINE_FAILED
        | Some i =>
            update_context (fun k => k <| sc_mutation := inf_mutation i |>);;
            on_conn (assign response_cas new_cas);; ret r
        end
      else on_conn (assign response_cas new_cas);; ret r
  | ENGINE_KEY_EEXISTS => ret r
  | ENGINE_EWOULDBLOCK => on_conn (assign ewouldblock true);; ret r
  | ENGINE_DISCONNECT => on_conn (setState conn_closing);; ret r
  | _ => on_conn (mcbp_write_packet (engine_error_2_mcbp_protocol_error r));; ret r
  end.

Definition subdoc_update (r : ENGINE_ERROR_CODE) (key : bytes) (vbucket expiration : Z) : X ENGINE_ERROR_CODE :=
  k <- the_context;;
  if negb (is_mutator (sc_traits k)) then on_conn (assign response_cas (in_cas k));; ret ENGINE_SUCCESS else
  if negb (bool_decide (overall_status k = PROTOCOL_BINARY_RESPONSE_SUCCESS)) then ret ENGINE_SUCCESS else
  doc <- must (result_document k);;
  update_context (fun k => k <| out_doc_len := size doc |>);;
  r <- allocate_document r key expiration;;
  if negb (bool_decide (r = ENGINE_SUCCESS)) then ret r else store_document vbucket.

(** ** The responses *)

(** [encode_mutation_descr]: the UUID first, as in [mutation_descr_t]. *)
Definition encode_mutation_descr (d : mutation_descr_t) : bytes :=
  le_store 8 (htonll (vbucket_uuid d)) ++ le_store 8 (htonll (seqno d)).

(** [encode_multi_mutation_result_spec] *)
Definition encode_multi_mutation_result_spec (index : Z) (op : operation) : bytes :=
  le_store 1 (u8 index) ++ le_store 2 (htons (status_value (op_status op))) ++
  (if succeeded op then le_store 4 (htonl (u32 (size (matchloc (op_result op)).2))) else []).

(** A piece of the response in the dynamic buffer, behind what is there. *)
Definition buffer_piece (bs : bytes) : M unit :=
  at_ <- gets (fun c => getCurrent (dynamicBuffer c));;
  store at_ bs;;
  add_iov at_ (size bs);;
  move_offset (size bs).

Definition set_cas : M unit :=
  rsp <- gets (fun c => buf (write c));;
  cas <- gets response_cas;;
  store (rsp + 16) (le_store 8 (htonll cas)).

Definition subdoc_single_response (k : subdoc_context) : M unit :=
  extras <- gets supports_mutation_extras;;
  let include_mutation_dscr := extras && is_mutator (sc_traits k) in
  let extlen := if include_mutation_dscr then 16 else 0 in
  op <- must (head (ops k));;
  let value := matchloc (op_result op) in
  let len := if response_has_value (sc_traits k) then size value.2 else 0 in
  r <- mcbp_add_header (status_value PROTOCOL_BINARY_RESPONSE_SUCCESS) extlen 0 (u32 (extlen + len)) PROTOCOL_BINARY_RAW_BYTES;;
  if r == -1 then setState conn_closing else
  set_cas;;
  g <- (if include_mutation_dscr then grow_dynamic extlen else ret true);;
  if negb g then mcbp_write_packet PROTOCOL_BINARY_RESPONSE_ENOMEM else
  when include_mutation_dscr
    (at_ <- gets (fun c => getCurrent (dynamicBuffer c));;
     store at_ (encode_mutation_descr (sc_mutation k));;
     move_offset extlen;;
     add_iov at_ extlen;; ret tt);;
  when (response_has_value (sc_traits k)) (add_iov value.1 (size value.2);; ret tt);;
  setState conn_mwrite.

(** The value of an operation that is part of the response. *)
Definition answers (op : operation) : bool := response_has_value (op_traits op) && (0 <? size (matchloc (op_result op)).2).

Fixpoint sum (l : list Z) : Z :=
  match l with
  | [] => 0
  | z :: l => z + sum l
  end.

(** The results of a successful multi-path mutation, from number [ii] on. *)
Fixpoint mutation_results (ii : Z) (l : list operation) : M unit :=
  match l with
  | [] => ret tt
  | op :: l =>
      when (answers op)
        (let header := encode_multi_mutation_result_spec ii op in
         at_ <- gets (fun c => getCurrent (dynamicBuffer c));;
         store at_ header;;
         add_iov at_ (size header);;
         add_iov (matchloc (op_result op)).1 (size (matchloc (op_result op)).2);;
         move_offset (size header));;
      mutation_results (ii + 1) l
  end.

(** The first operation that failed. *)
Fixpoint first_failure (ii : Z) (l : list operation) : M unit :=
  match l with
  | [] => ret tt
  | op :: l =>
      if succeeded op then first_failure (ii + 1) l
      else buffer_piece (encode_multi_mutation_result_spec ii op)
  end.

Definition subdoc_multi_mutation_response (k : subdoc_context) : M unit :=
  extras <- gets supports_mutation_extras;;
  let success := bool_decide (overall_status k = PROTOCOL_BINARY_RESPONSE_SUCCESS) in
  let extlen := if success && extras then 16 else 0 in
  g <- (if success && extras then grow_dynamic extlen else ret true);;
  if negb g then mcbp_write_packet PROTOCOL_BINARY_RESPONSE_ENOMEM else
  extras_ptr <- gets (fun c => getCurrent (dynamicBuffer c));;
  when (success && extras) (store extras_ptr (encode_mutation_descr (sc_mutation k));; move_offset extlen);;
  let answering := List.filter answers (ops k) in
  let needed := if success then 7 * Z.of_nat (length answering) else 3 in
  let iov_len := if success then sum (map (fun op => size (matchloc (op_result op)).2) answering) else 0 in
  g <- grow_dynamic needed;;
  if negb g then mcbp_write_packet PROTOCOL_BINARY_RESPONSE_ENOMEM else
  r <- mcbp_add_header (status_value (overall_status k)) extlen 0 (u32 (extlen + needed + iov_len)) PROTOCOL_BINARY_RAW_BYTES;;
  if r == -1 then setState conn_closing else
  set_cas;;
  when (0 <? extlen) (add_iov extras_ptr extlen;; ret tt);;
  (if success then mutation_results 0 (ops k) else first_failure 0 (ops k));;
  setState conn_mwrite.

(** The length of the result of an operation of a multi-path lookup. *)
Definition result_len (op : operation) : Z :=
  if response_has_value (op_traits op) then size (matchloc (op_result op)).2 else 0.

Fixpoint lookup_results (l : list operation) : M unit :=
  match l with
  | [] => ret tt
  | op :: l =>
      at_ <- gets (fun c => getCurrent (dynamicBuffer c));;
      store at_ (le_store 2 (htons (status_value (op_status op))) ++ le_store 4 (htonl (u32 (result_len op))));;
      add_iov at_ 6;;
      when (htonl (u32 (result_len op)) != 0) (add_iov (matchloc (op_result op)).1 (size (matchloc (op_result op)).2);; ret tt);;
      move_offset 6;;
      lookup_results l
  end.

Definition subdoc_multi_lookup_response (k : subdoc_context) : M unit :=
  let len := sum (map (fun op => 6 + result_len op) (ops k)) in
  g <- grow_dynamic (6 * Z.of_nat (length (ops k)));;
  if negb g then mcbp_write_packet PROTOCOL_BINARY_RESPONSE_ENOMEM else
  r <- mcbp_add_header (status_value (overall_status k)) 0 0 (u32 len) PROTOCOL_BINARY_RAW_BYTES;;
  if r == -1 then setState conn_closing else
  set_cas;;
  lookup_results (ops k);;
  setState conn_mwrite.

Definition subdoc_response (k : subdoc_context) : M unit :=
  match path (sc_traits k) with
  | SINGLE => subdoc_single_response k
  | MULTI => if is_mutator (sc_traits k) then subdoc_multi_mutation_response k else subdoc_multi_lookup_response k
  end.

(** ** The executor *)

(** [resetCommandContext]: the destructor of the context releases its item. *)
Definition subdoc_reset : X unit :=
  k <- gets context;;
  match k with
  | Some k => when (out_doc k != 0) (bucket_release_item (out_doc k));; set_context None
  | None => ret tt
  end;;
  on_conn (assign command_context false).

Definition MAXIMUM_ATTEMPTS : nat := 100.

(** What the executor reads from the packet. *)
Record subdoc_request := mk_subdoc_request {
  sr_key : bytes;
  sr_value : bytes;
  sr_vbucket : Z;
  sr_cas : Z;
  sr_expiration : Z;
}.

Definition parse_subdoc (traits : SubdocCmdTraits) (pkt : bytes) : option subdoc_request :=
  header ← load_request_header pkt;
  let keylen := ntohs (keylen header) in
  let vallen := u32 (ntohl (bodylen header) - keylen - extlen header) in
  key ← load (Z.to_nat keylen) (HEADER_SIZE + extlen header) pkt;
  value ← load (Z.to_nat vallen) (HEADER_SIZE + extlen header + keylen) pkt;
  expiration ← subdoc_decode_expiration header traits pkt;
  Some (mk_subdoc_request key value (ntohs (vbucket header)) (ntohll (cas header)) expiration).

(** The context, made unless there is one; without memory for it the code goes
    on with a null pointer. *)
Definition subdoc_start (traits : SubdocCmdTraits) (pkt value : bytes) : X unit :=
  k <- gets context;;
  match k with
  | Some _ => ret tt
  | None =>
      if negb new_context then crash else
      k <- must (subdoc_create_context traits pkt value);;
      set_context (Some k);;
      on_conn (assign command_context true)
  end.

(** The loop; [attempts] are those still allowed. *)
Fixpoint subdoc_attempt (attempts : nat) (traits : SubdocCmdTraits) (pkt : bytes) (req : subdoc_request) (r : ENGINE_ERROR_CODE) : X unit :=
  match attempts with
  | O => on_conn (mcbp_write_packet (engine_error_2_mcbp_protocol_error ENGINE_TMPFAIL))
  | S attempts =>
      subdoc_start traits pkt (sr_value req);;
      ok <- subdoc_fetch r (sr_key req) (sr_vbucket req) (sr_cas req);;
      if negb ok then ret tt else
      ok <- subdoc_operate;;
      if negb ok then ret tt else
      r <- subdoc_update r (sr_key req) (sr_vbucket req) (sr_expiration req);;
      match r with
      | ENGINE_KEY_EEXISTS =>
          if sr_cas req == 0 then
            it <- on_conn (gets item);;
            when (it != 0) (bucket_release_item it;; on_conn (assign item 0));;
            subdoc_reset;;
            subdoc_attempt attempts traits pkt req ENGINE_SUCCESS
          else on_conn (mcbp_write_packet (engine_error_2_mcbp_protocol_error r))
      | ENGINE_SUCCESS =>
          k <- the_context;;
          on_conn (subdoc_response k);;
          on_conn (update_topkeys (sr_key req))
      | _ => ret tt
      end
  end.

Definition subdoc_executor (traits : SubdocCmdTraits) (pkt : bytes) : X unit :=
  req <- must (parse_subdoc traits pkt);;
  r <- on_conn take_aiostat;;
  subdoc_attempt MAXIMUM_ATTEMPTS traits pkt req r.

(** The traits of the executors. *)
Definition subdoc_traits_of (ex : mcbp_executor) : option SubdocCmdTraits :=
  match ex with
  | subdoc_get_executor => Some get_traits_GET
  | subdoc_exists_executor => Some get_traits_EXISTS
  | subdoc_dict_add_executor => Some get_traits_DICT_ADD
  | subdoc_dict_upsert_executor => Some get_traits_DICT_UPSERT
  | subdoc_delete_executor => Some get_traits_DELETE
  | subdoc_replace_executor => Some get_traits_REPLACE
  | subdoc_array_push_last_executor => Some get_traits_ARRAY_PUSH_LAST
  | subdoc_array_push_first_executor => Some get_traits_ARRAY_PUSH_FIRST
  | subdoc_array_insert_executor => Some get_traits_ARRAY_INSERT
  | subdoc_array_add_unique_executor => Some get_traits_ARRAY_ADD_UNIQUE
  | subdoc_counter_executor => Some get_traits_COUNTER
  | subdoc_get_count_executor => Some get_traits_GET_COUNT
  | subdoc_multi_lookup_executor => Some get_traits_MULTI_LOOKUP
  | subdoc_multi_mutation_executor => Some get_traits_MULTI_MUTATION
  | _ => None
  end.
End Subdoc.
