(* ===== verification/SubdocSpec.v ===== *)
(** * What the sub-document commands do

    The responses of [Subdoc] byte by byte, the operations of a request as the
    validators of [SubdocValidators] accept it, and what a command does to the
    document, for any engine and any library. *)

From S2P Require Import Prelude Memory Numbers Protocol Packet Input Output Buffers DynamicBuffer RecordUpdate StateMonad.
From S2P Require Import Connection Response SubdocValidators Dispatch EngineApi Executors ExecutorSpec Subdoc.

(** ** Responses in pieces *)

(** A piece of a response: bytes in the dynamic buffer, and values that are
    elsewhere. *)
Definition piece : Type := bytes * list (Z * bytes).

Definition piece_bytes (p : piece) : bytes := p.1 ++ concat (map snd p.2).

(** What the pieces take in the dynamic buffer. *)
Definition room (l : list piece) : Z := sum (map (fun p => size p.1) l).

Lemma room_nonneg l : 0 <= room l.
Proof. induction l as [|p l IH]; [done|]. unfold room in *. cbn. pose proof (size_nonneg p.1). lia. Qed.

Definition with_reply (o : output) (h : heap) (d : DynamicBuffer) (c : connection) : connection :=
  c <| out := o |> <| memory := h |> <| dynamicBuffer := d |>.

(** A buffer with room for [n] more bytes. *)
Record roomy (n : Z) (d : DynamicBuffer) : Prop := {
  ro_ok : dynamic_ok d;
  ro_here : 0 < dbuffer d;
  ro_room : doffset d + n <= dsize d;
  ro_size : dsize d <= 2 ^ 63;
}.

Definition moved (n : Z) (d : DynamicBuffer) : DynamicBuffer := mk_dynamic (dbuffer d) (doffset d + n) (dsize d).

Section Pieces.
Context `{System} `{Engine} (Hmax : 1 <= iov_max) (Hm : memory_available).

Fixpoint write_pieces (l : list piece) : M unit :=
  match l with
  | [] => ret tt
  | p :: l =>
      at_ <- gets (fun c => getCurrent (dynamicBuffer c));;
      store at_ p.1;;
      add_iov at_ (size p.1);;
      add_values p.2;;
      move_offset (size p.1);;
      write_pieces l
  end.

Lemma move_roomy n m o h d c :
  0 <= n -> 0 <= m -> roomy (n + m) d -> move_offset n (with_reply o h d c) = Done tt (with_reply o h (moved n d) c) /\ roomy m (moved n d).
Proof.
  intros Hn Hm' [Hd Hh Hr Hs]. destruct (move_offset_ok n (c <| out := o |>) h d) as [E Ho]; [done|lia|lia|done|].
  split; [exact E|]. split; [exact Ho|exact Hh|unfold moved; cbn; lia|exact Hs].
Qed.

Lemma write_pieces_ok l o h d c :
  building iov_max o -> roomy (room l) d ->
  Forall (fun p => Forall (in_memory h) p.2 /\ Forall (apart_from (getCurrent d) (room l)) p.2) l ->
  exists o' h' d' addrs, write_pieces l (with_reply o h d c) = Done tt (with_reply o' h' d' c) /\ building iov_max o' /\
    pending o' = pending o ++ addrs /\ map h' addrs = concat (map piece_bytes l) /\
    forall a n, a + n <= getCurrent d \/ getCurrent d + room l <= a -> fetch h' a n = fetch h a n.
Proof.
  revert o h d. induction l as [|p l IH]; intros o h d Hb Hr Hl.
  { exists o, h, d, []. rewrite app_nil_r. by split_and!. }
  apply Forall_cons in Hl as [[Hin Hap] Hl]. cbn [write_pieces]. run. change (dynamicBuffer (with_reply o h d c)) with d.
  pose proof (room_nonneg l) as Hn. pose proof (size_nonneg p.1) as Hp. change (room (p :: l)) with (size p.1 + room l) in *.
  set (a := getCurrent d) in *. assert (0 < a) as Ha by (destruct Hr as [[] ? ? ?]; unfold a, getCurrent; lia).
  erewrite bind_done by (apply store_ok; exact Ha). change (with_reply o h d c <| memory := _ |>) with (with_io o (put h a p.1) (with_reply o h d c)).
  destruct (add_iov_io Hmax Hm a (size p.1) o (put h a p.1) (with_reply o h d c) Hb Hp) as (o1 & E1 & Hb1 & Hp1). erewrite bind_done by exact E1.
  destruct (add_values_io Hmax Hm p.2 o1 (put h a p.1) (with_reply o h d c) Hb1) as (o2 & E2 & Hb2 & Hp2). erewrite bind_done by exact E2.
  change (with_io o2 _ _) with (with_reply o2 (put h a p.1) d c).
  destruct (move_roomy (size p.1) (room l) o2 (put h a p.1) d c Hp Hn Hr) as [E3 Hr3]. erewrite bind_done by exact E3.
  assert (forall q, apart_from a (size p.1 + room l) q -> in_memory h q -> in_memory (put h a p.1) q) as Hkeep.
  { intros q Hq. unfold in_memory. intros Hi. rewrite fetch_put_other; [done|]. destruct Hq; lia. }
  assert (getCurrent (moved (size p.1) d) = a + size p.1) as Hcur by (unfold a, getCurrent, moved; cbn; lia).
  destruct (IH o2 (put h a p.1) (moved (size p.1) d) Hb2 Hr3) as (o' & h' & d' & addrs & E & Hb' & Hpe & Hbs & Hf).
  { eapply Forall_impl; [exact Hl|]. intros q [Hq1 Hq2]. rewrite Hcur. split.
    - apply Forall_forall. intros x Hx. apply Hkeep; [exact (proj1 (Forall_forall _ _) Hq2 x Hx)|exact (proj1 (Forall_forall _ _) Hq1 x Hx)].
    - eapply Forall_impl; [exact Hq2|]. intros x Hx. unfold apart_from in *. lia. }
  rewrite Hcur in Hf. exists o', h', d', (seqZ a (size p.1) ++ addresses p.2 ++ addrs). split; [exact E|]. split; [done|].
  split; [by rewrite Hpe, Hp2, Hp1, <- !app_assoc|]. split.
  - assert (Forall (in_memory h') p.2) as Hin'.
    { apply Forall_forall. intros x Hx. pose proof (proj1 (Forall_forall _ _) Hap x Hx) as Hxa. unfold in_memory.
      rewrite Hf by (unfold apart_from in Hxa; lia). apply Hkeep; [done|exact (proj1 (Forall_forall _ _) Hin x Hx)]. }
    rewrite !map_app, (map_addresses h' _ Hin'), Hbs, map_fetch, Hf by lia.
    change (concat (map piece_bytes (p :: l))) with ((p.1 ++ concat (map snd p.2)) ++ concat (map piece_bytes l)).
    rewrite <- app_assoc. f_equal. apply fetch_put_same.
  - intros x n Hx. rewrite Hf by lia. apply fetch_put_other. lia.
Qed.

(** All that is to be sent is in memory. *)
Lemma regions_sent L o h d c :
  building iov_max o -> currentTask c <> conn_destroyed -> pending o = addresses L -> Forall (in_memory h) L ->
  exists c', setState conn_mwrite (with_reply o h d c) = Done tt c' /\ answered (Some (concat (map snd L))) c c'.
Proof.
  intros Hb Hc Hp Hin. destruct (setState_to conn_mwrite (with_reply o h d c)) as (c' & E' & Ht & Hio); [done..|].
  exists c'. split; [exact E'|]. pose proof (quiet_done _ _ _ _ (q_setState conn_mwrite) E') as Hq.
  destruct Hio as [Hme Ho _ _ _ _ _ _]. split; [exact Hq|]. split; [exact Ht|]. rewrite Ho. split; [exact Hb|].
  unfold to_send. rewrite Hme, Ho. change (map h (pending o) = concat (map snd L)). by rewrite Hp, map_addresses.
Qed.

(** What is to be sent already is not touched by the pieces. *)
Lemma pieces_sent l L o h d c :
  building iov_max o -> currentTask c <> conn_destroyed -> pending o = addresses L ->
  Forall (in_memory h) L -> Forall (apart_from (getCurrent d) (room l)) L -> roomy (room l) d ->
  Forall (fun p => Forall (in_memory h) p.2 /\ Forall (apart_from (getCurrent d) (room l)) p.2) l ->
  exists c', (write_pieces l;; setState conn_mwrite) (with_reply o h d c) = Done tt c' /\
    answered (Some (concat (map snd L) ++ concat (map piece_bytes l))) c c'.
Proof.
  intros Hb Hc Hp Hin Hap Hr Hl. destruct (write_pieces_ok l o h d c Hb Hr Hl) as (o' & h' & d' & addrs & E & Hb' & Hp' & Hbs & Hf).
  erewrite bind_done by exact E. destruct (setState_to conn_mwrite (with_reply o' h' d' c)) as (c' & E' & Ht & Hio); [done..|].
  exists c'. split; [exact E'|]. pose proof (quiet_done _ _ _ _ (q_setState conn_mwrite) E') as Hq.
  destruct Hio as [Hme Ho _ _ _ _ _ _]. split; [exact Hq|]. split; [exact Ht|]. rewrite Ho. split; [exact Hb'|].
  unfold to_send. rewrite Hme, Ho. change (map h' (pending o') = concat (map snd L) ++ concat (map piece_bytes l)).
  rewrite Hp', map_app, Hbs, Hp, map_addresses; [done|]. apply Forall_forall. intros x Hx.
  pose proof (proj1 (Forall_forall _ _) Hap x Hx) as Hxa. pose proof (proj1 (Forall_forall _ _) Hin x Hx) as Hxi.
  unfold in_memory. rewrite Hf; [exact Hxi|]. unfold apart_from in Hxa. lia.
Qed.

(** The header with the CAS value of the response. *)
Lemma header_sent st e b d c :
  can_respond c -> 0 < buf (write c) ->
  exists o h0 h, mcbp_add_header st e 0 b d c = Done 0 (with_io o h0 c) /\ set_cas (with_io o h0 c) = Done tt (with_io o h c) /\
    let wire := response_wire (opcode (bheader c)) 0 e d st b (opaque (bheader c)) (response_cas c) in
    building iov_max o /\ pending o = addresses [(buf (write c), wire)] /\ in_memory h (buf (write c), wire) /\
    forall p, apart_from (buf (write c)) HEADER_SIZE p -> in_memory (memory c) p -> in_memory h p.
Proof.
  intros Hc Hw. destruct (mcbp_add_header_ok Hmax st e 0 b d c Hm Hc) as (o & E & Hb & Hp). set (wire := response_wire _ _ _ _ _ _ _ _) in *.
  set (a := buf (write c)) in *. set (h0 := put (memory c) a wire) in *.
  exists o, h0, (put h0 (a + 16) (le_store 8 (htonll (response_cas c)))). split; [exact E|]. split.
  { unfold set_cas. run. change (buf (write (with_io o h0 c))) with a. by rewrite store_io by lia. }
  cbv zeta. split; [done|]. assert (size wire = HEADER_SIZE) as Hs by apply response_wire_size.
  assert (size (le_store 8 (htonll (response_cas c))) = 8) as H8 by (unfold size; by rewrite le_store_length).
  split; [unfold addresses; cbn [map concat]; by rewrite app_nil_r, Hp; cbn [fst snd]; rewrite Hs|]. split.
  - unfold in_memory. cbn [fst snd]. rewrite Hs, le_store_bswap. fold (be_store 8 (response_cas c)). apply wire_cas.
  - intros p Hap Hi. unfold in_memory, apart_from, h0 in *. rewrite !fetch_put_other; [done|..]; unfold HEADER_SIZE in *; lia.
Qed.

(** ** Growing *)

Context (Hreal : forall n, 0 < realloc_at n).

(** A region of memory that no growing of the buffer touches. *)
Definition outside (d : DynamicBuffer) (a n : Z) : Prop :=
  (a + n <= dbuffer d \/ dbuffer d + dsize d <= a) /\ forall m, a + n <= realloc_at m \/ realloc_at m + m <= a.

Lemma outside_apart d n a m : roomy n d -> outside d a m -> a + m <= getCurrent d \/ getCurrent d + n <= a.
Proof. intros [[] ? ? ?] [Ho _]. unfold getCurrent. lia. Qed.

Lemma outside_moved n d a m : outside d a m -> outside (moved n d) a m.
Proof. done. Qed.

Lemma grow_outside n c :
  0 <= n -> dynamic_room n c ->
  exists h d, grow_dynamic n c = Done true (with_dynamic h d c) /\ roomy n d /\ doffset d = doffset (dynamicBuffer c) /\
    forall a m, outside (dynamicBuffer c) a m -> outside d a m /\ fetch h a m = fetch (memory c) a m.
Proof.
  intros Hn Hr. destruct (grow_dynamic_ok (fun n => Z.lt_le_incl _ _ (Hreal n)) n c Hn Hr) as (ok & h & d & E & Hd & _ & Ho & Hk).
  destruct ok; [|destruct Hk as [m Hm0]; specialize (Hreal m); lia]. destruct Hk as (H1 & H2 & H3).
  exists h, d. split; [exact E|]. split; [by split|]. split; [exact Ho|]. intros a m [Hout Hal].
  unfold grow_dynamic in E. destruct (dynamic_grow realloc_at n (memory c) (dynamicBuffer c)) as [[[ok h'] d']|] eqn:Eg; [|done].
  assert (h' = h /\ d' = d) as [-> ->].
  { apply (f_equal (fun r => match r with Done _ c => (memory c, dynamicBuffer c) | _ => (h, d) end)) in E. by injection E as -> ->. }
  unfold dynamic_grow in Eg. set (d0 := if dbuffer (dynamicBuffer c) == 0 then _ else _) in Eg.
  apply bind_Some in Eg as (nsize & _ & Eg). pose proof (do_offset d Hd) as Hoff. specialize (Hreal nsize) as Hns.
  destruct (nsize != dsize d0).
  - rewrite (proj2 (Z.eqb_neq (realloc_at nsize) 0)) in Eg by lia. cbn [negb] in Eg. injection Eg as _ <- <-. cbn in Hoff.
    specialize (Hal nsize) as Hn1. split; [by split|]. apply fetch_put_other.
    destruct (Z.le_gt_cases 0 (Z.min (dsize d0) nsize)) as [Hle|Hgt]; [rewrite fetch_size by done; lia|].
    destruct Hr as [[_ Ho' _ _] _]. subst d0. destruct (dbuffer (dynamicBuffer c) == 0); cbn in *; lia.
  - injection Eg as _ <- <-. subst d0. destruct (dbuffer (dynamicBuffer c) == 0); [by cbn in H3|]. by split.
Qed.
End Pieces.

(** ** What is answered *)

(** The result of one operation of a lookup: status, length and value. *)
Definition lookup_piece (op : operation) : piece :=
  (be_store 2 (status_value (op_status op)) ++ be_store 4 (result_len op),
   if 0 <? result_len op then [matchloc (op_result op)] else []).

(** Those of a mutation that have a value: number, status, length and value. *)
Fixpoint mutation_pieces (ii : Z) (l : list operation) : list piece :=
  match l with
  | [] => []
  | op :: l =>
      let value := matchloc (op_result op) in
      (if answers op
       then [(be_store 1 ii ++ be_store 2 (status_value PROTOCOL_BINARY_RESPONSE_SUCCESS) ++ be_store 4 (size value.2), [value])]
       else []) ++ mutation_pieces (ii + 1) l
  end.

(** The first operation that failed: number and status. *)
Fixpoint failure_pieces (ii : Z) (l : list operation) : list piece :=
  match l with
  | [] => []
  | op :: l =>
      if succeeded op then failure_pieces (ii + 1) l
      else [(be_store 1 ii ++ be_store 2 (status_value (op_status op)), [])]
  end.

Definition all_well (k : subdoc_context) : bool := bool_decide (overall_status k = PROTOCOL_BINARY_RESPONSE_SUCCESS).

Definition reply_pieces (k : subdoc_context) : list piece :=
  match path (sc_traits k) with
  | SINGLE =>
      if response_has_value (sc_traits k)
      then match ops k with op :: _ => [([], [matchloc (op_result op)])] | [] => [] end
      else []
  | MULTI =>
      if negb (is_mutator (sc_traits k)) then map lookup_piece (ops k)
      else if all_well k then mutation_pieces 0 (ops k) else failure_pieces 0 (ops k)
  end.

(** Mutations that succeed are described where the client asked for it. *)
Definition describes_mutation (c : connection) (k : subdoc_context) : bool :=
  supports_mutation_extras c && is_mutator (sc_traits k) && all_well k.

Definition reply_extras (c : connection) (k : subdoc_context) : bytes :=
  if describes_mutation c k then mutation_bytes (sc_mutation k) else [].

Definition reply_body (k : subdoc_context) : bytes := concat (map piece_bytes (reply_pieces k)).

(** The response: a header with the lengths of what follows, extras and body. *)
Definition subdoc_reply (c : connection) (k : subdoc_context) : bytes :=
  let extras := reply_extras c k in
  response_wire (opcode (bheader c)) 0 (size extras) 0 (status_value (overall_status k)) (size extras + size (reply_body k))
    (opaque (bheader c)) (response_cas c) ++ extras ++ reply_body k.

Lemma le_htons x : le_store 2 (htons x) = be_store 2 x.
Proof. apply le_store_bswap. Qed.

Lemma le_htonl x : le_store 4 (htonl (u32 x)) = be_store 4 x.
Proof. rewrite le_store_bswap. apply be_store_u32. Qed.

Lemma le_store_u8 x : le_store 1 (u8 x) = be_store 1 x.
Proof. change (u8 x) with (x mod 256 ^ Z.of_nat 1). rewrite le_store_mod. unfold be_store. by destruct (le_store 1 x) as [|b [|]] eqn:E. Qed.

Lemma bind_ext {S A B} (m : ST S A) (k k' : A -> ST S B) s : (forall a s, k a s = k' a s) -> bind m k s = bind m k' s.
Proof. intros Hk. unfold bind. by destruct (m s). Qed.

Lemma lookup_header_size op : size (lookup_piece op).1 = 6.
Proof. unfold size. cbn [lookup_piece fst]. by rewrite length_app, !be_store_length. Qed.

Section Loops.
Context `{System} `{Engine}.

Lemma lookup_results_pieces l c :
  Forall (fun op => result_len op < 2 ^ 32) l ->
  lookup_results l c = write_pieces (map lookup_piece l) c.
Proof.
  intros Hl. revert c. induction Hl as [|op l Hop _ IH]; intros c; [done|]. cbn [lookup_results map write_pieces].
  rewrite lookup_header_size. cbn [lookup_piece fst snd]. rewrite le_htons, le_htonl.
  assert ((htonl (u32 (result_len op)) != 0) = (0 <? result_len op)) as ->.
  { assert (0 <= result_len op < 2 ^ 32) as Hr.
    { split; [|done]. unfold result_len. pose proof (size_nonneg (matchloc (op_result op)).2). destruct (response_has_value _); lia. }
    rewrite u32_small by lia. pose proof (bswap_eq_0 4 (result_len op) ltac:(change (256 ^ _) with (2 ^ 32); lia)).
    destruct (Z.eqb_spec (htonl (result_len op)) 0); destruct (Z.ltb_spec 0 (result_len op)); cbn; (done || lia). }
  run. apply bind_ext. intros [] c1. apply bind_ext. intros ok c2. destruct (0 <? result_len op); cbn [when add_values]; run.
  - apply bind_ext. intros ok' c3. run. apply bind_ext. intros [] c4. apply IH.
  - apply bind_ext. intros [] c4. apply IH.
Qed.

Lemma mutation_results_pieces l ii c :
  forallb succeeded l = true -> mutation_results ii l c = write_pieces (mutation_pieces ii l) c.
Proof.
  revert ii c. induction l as [|op l IH]; intros ii c Hl; [done|]. cbn [forallb] in Hl. apply andb_prop in Hl as [Hs Hl].
  cbn [mutation_results mutation_pieces]. destruct (answers op) eqn:Ha; cbn [when]; [|run; by apply IH].
  unfold encode_multi_mutation_result_spec. rewrite Hs, le_htons, le_htonl, le_store_u8.
  unfold succeeded in Hs. apply bool_decide_eq_true in Hs. rewrite Hs. cbn [app write_pieces fst snd add_values]. run.
  apply bind_ext. intros [] c1. run. apply bind_ext. intros ok c2. run. apply bind_ext. intros ok' c3. run.
  apply bind_ext. intros [] c4. by apply IH.
Qed.

Lemma first_failure_pieces l ii c : first_failure ii l c = write_pieces (failure_pieces ii l) c.
Proof.
  revert ii c. induction l as [|op l IH]; intros ii c; [done|]. cbn [first_failure failure_pieces]. destruct (succeeded op) eqn:Hs; [apply IH|].
  unfold buffer_piece, encode_multi_mutation_result_spec. rewrite Hs, le_htons, le_store_u8, app_nil_r. cbn [write_pieces fst snd add_values].
  run. apply bind_ext. intros [] c1. apply bind_ext. intros ok c2. run. unfold bind, ret. by destruct (move_offset _ _) as [[]| |].
Qed.
End Loops.

Lemma lookup_sizes l :
  room (map lookup_piece l) = 6 * Z.of_nat (length l) /\
  size (concat (map piece_bytes (map lookup_piece l))) = sum (map (fun op => 6 + result_len op) l).
Proof.
  induction l as [|op l [IH1 IH2]]; [done|]. unfold room in *. cbn [map sum length concat]. rewrite IH1, lookup_header_size.
  split; [lia|]. unfold piece_bytes at 1. rewrite !size_app, IH2, lookup_header_size. f_equal. f_equal. cbn [lookup_piece snd].
  unfold result_len. destruct (response_has_value (op_traits op)) eqn:E; [|done]. pose proof (size_nonneg (matchloc (op_result op)).2).
  destruct (Z.ltb_spec 0 (size (matchloc (op_result op)).2)); cbn; [by rewrite app_nil_r|change (size []) with 0; lia].
Qed.

Lemma mutation_sizes l ii :
  room (mutation_pieces ii l) = 7 * Z.of_nat (length (List.filter answers l)) /\
  size (concat (map piece_bytes (mutation_pieces ii l))) =
    7 * Z.of_nat (length (List.filter answers l)) + sum (map (fun op => size (matchloc (op_result op)).2) (List.filter answers l)).
Proof.
  revert ii. induction l as [|op l IH]; intros ii; [done|]. destruct (IH (ii + 1)) as [IH1 IH2]. unfold room in *.
  cbn [mutation_pieces List.filter]. destruct (answers op); [|done]. set (hd := be_store 1 ii ++ _).
  assert (size hd = 7) as Hh by (unfold size, hd; by rewrite !length_app, !be_store_length).
  set (v := matchloc (op_result op)). cbn [app map sum length concat fst].
  change (piece_bytes (hd, [v])) with (hd ++ v.2 ++ []). rewrite app_nil_r, !size_app, IH1, IH2, Hh. fold v. lia.
Qed.

Lemma failure_sizes l ii :
  forallb succeeded l = false ->
  room (failure_pieces ii l) = 3 /\ size (concat (map piece_bytes (failure_pieces ii l))) = 3.
Proof.
  revert ii. induction l as [|op l IH]; intros ii; [done|]. cbn [forallb failure_pieces]. destruct (succeeded op); [apply IH|]. intros _.
  unfold room, piece_bytes. cbn [map sum concat fst snd]. rewrite !app_nil_r. unfold size. by rewrite length_app, !be_store_length.
Qed.

(** What the operations have left: one that succeeded, or the overall status
    says whether all did. *)
Definition finished (k : subdoc_context) : Prop :=
  match path (sc_traits k) with
  | SINGLE => all_well k = true /\ ops k <> []
  | MULTI => if is_mutator (sc_traits k) then all_well k = forallb succeeded (ops k) else True
  end.

Section Replies.
Context `{System} `{Engine} (Hmax : 1 <= iov_max) (Hm : memory_available) (Hreal : forall n, 0 < realloc_at n).

(** A value is where growing the dynamic buffer and writing the header leave
    it alone. *)
Record value_kept (c : connection) (v : Z * bytes) : Prop := {
  vk_memory : in_memory (memory c) v;
  vk_outside : outside (dynamicBuffer c) v.1 (size v.2);
  vk_apart : apart_from (buf (write c)) HEADER_SIZE v;
  vk_small : size v.2 < 2 ^ 32;
}.

(** A multi-path mutation takes the address of its extras before the buffer grows
    for the results: once the buffer has grown for the extras it must have room
    for the results too, or it moves. *)
Definition steady (c : connection) (k : subdoc_context) : Prop :=
  describes_mutation c k = true -> path (sc_traits k) = MULTI ->
  forall h d, dynamic_grow realloc_at 16 (memory c) (dynamicBuffer c) = Some (true, h, d) ->
    doffset d + 16 + room (reply_pieces k) <= dsize d.

(** The buffer [shrinkBuffers] leaves before a command is empty: it has room for
    the results of as many operations as a request can have. *)
Lemma cleared_steady c k :
  dbuffer (dynamicBuffer c) = 0 -> (length (ops k) <= PROTOCOL_BINARY_SUBDOC_MULTI_MAX_PATHS)%nat -> steady c k.
Proof.
  intros Hc Hl Hde Hp h d. unfold describes_mutation in Hde. apply andb_prop in Hde as [Hmu Hw]. apply andb_prop in Hmu as [_ Hmu].
  unfold reply_pieces. rewrite Hp, Hmu, Hw. cbn [negb]. rewrite (proj1 (mutation_sizes (ops k) 0)).
  pose proof (List.filter_length_le answers (ops k)). unfold PROTOCOL_BINARY_SUBDOC_MULTI_MAX_PATHS in Hl.
  unfold dynamic_grow. rewrite Hc. change (0 == 0) with true. cbn iota. cbn [dbuffer doffset dsize].
  change (grow_loop 66 16 0 1024 0) with (Some 2048). cbn [mbind option_bind]. change (2048 != 0) with true. cbn iota.
  destruct (realloc_at 2048 != 0); [|done]. intros [= <- <-]. cbn [doffset dsize]. lia.
Qed.

(** When a response can be made. *)
Record can_reply (c : connection) (k : subdoc_context) : Prop := {
  rp_respond : can_respond c;
  rp_write : 0 < buf (write c);
  rp_room : dynamic_room (16 + room (reply_pieces k)) c;
  rp_header : outside (dynamicBuffer c) (buf (write c)) HEADER_SIZE;
  rp_values : Forall (fun p => Forall (value_kept c) p.2) (reply_pieces k);
  rp_steady : steady c k;
}.

Lemma wire_u32 op k e d st n opq cas : response_wire op k e d st (u32 n) opq cas = response_wire op k e d st n opq cas.
Proof. unfold response_wire. by rewrite be_store_u32. Qed.

Lemma values_kept_in c c1 (l : list piece) :
  (forall v, value_kept c v -> value_kept c1 v) -> Forall (fun p => Forall (value_kept c) p.2) l -> Forall (fun p => Forall (value_kept c1) p.2) l.
Proof. intros Hk Hl. eapply Forall_impl; [exact Hl|]. intros p Hp. eapply Forall_impl; [exact Hp|exact Hk]. Qed.

Lemma nothing_apart a n : 0 <= a -> apart_from a n (0, []).
Proof. by left. Qed.

Lemma roomy_current n d : roomy n d -> 0 < getCurrent d.
Proof. intros [[] ? ? ?]. unfold getCurrent. lia. Qed.

(** Header, extras and pieces, when the buffer has room for the pieces. *)
Lemma body_sent st extras E l c :
  can_respond c -> 0 < buf (write c) -> roomy (room l) (dynamicBuffer c) -> outside (dynamicBuffer c) (buf (write c)) HEADER_SIZE ->
  Forall (fun p => Forall (value_kept c) p.2) l ->
  in_memory (memory c) (E, extras) -> apart_from (buf (write c)) HEADER_SIZE (E, extras) ->
  apart_from (getCurrent (dynamicBuffer c)) (room l) (E, extras) ->
  let body := concat (map piece_bytes l) in
  exists c', (r <- mcbp_add_header st (size extras) 0 (u32 (size extras + size body)) PROTOCOL_BINARY_RAW_BYTES;;
              if r == -1 then setState conn_closing else
              set_cas;; when (0 <? size extras) (add_iov E (size extras);; ret tt);; write_pieces l;; setState conn_mwrite) c = Done tt c' /\
    answered (Some (response_wire (opcode (bheader c)) 0 (size extras) 0 st (size extras + size body) (opaque (bheader c)) (response_cas c)
                    ++ extras ++ body)) c c'.
Proof.
  intros Hc Hw Hr Hout Hv He1 He2 He3 body.
  destruct (header_sent Hmax Hm st (size extras) (u32 (size extras + size body)) PROTOCOL_BINARY_RAW_BYTES c Hc Hw) as (o & h0 & h & E1 & E2 & Hb & Hp & Hin & Hkeep).
  erewrite bind_done by exact E1. change (0 =? -1) with false. cbn iota. erewrite bind_done by exact E2. rewrite wire_u32 in Hp, Hin.
  set (wire := response_wire _ _ _ _ _ _ _ _) in *.
  assert (exists o', (when (0 <? size extras) (add_iov E (size extras);; ret tt)) (with_io o h c) = Done tt (with_io o' h c) /\ building iov_max o' /\
    pending o' = addresses [(buf (write c), wire); (E, extras)]) as (o' & E3 & Hb' & Hp').
  { destruct (Z.ltb_spec 0 (size extras)) as [Hs|Hs]; cbn [when].
    - destruct (add_iov_io Hmax Hm E (size extras) o h c Hb ltac:(lia)) as (o' & E3 & Hb' & Hp'). exists o'. erewrite bind_done by exact E3.
      split; [done|]. split; [done|]. rewrite Hp', Hp. unfold addresses. cbn [map concat fst snd]. by rewrite !app_nil_r.
    - exists o. split; [done|]. split; [done|]. pose proof (size_nonneg extras). rewrite Hp. unfold addresses. cbn [map concat fst snd].
      replace (size extras) with 0 by lia. by rewrite !app_nil_r. }
  erewrite bind_done by exact E3. change (with_io o' h c) with (with_reply o' h (dynamicBuffer c) c).
  assert (size wire = HEADER_SIZE) as Hsw by apply response_wire_size.
  destruct (pieces_sent Hmax Hm l [(buf (write c), wire); (E, extras)] o' h (dynamicBuffer c) c) as (c' & E4 & Ha); [done|apply Hc|done| | |done| |].
  - constructor; [exact Hin|]. constructor; [by apply Hkeep|done].
  - constructor; [|by constructor]. unfold apart_from. cbn [fst snd]. rewrite Hsw. by apply outside_apart.
  - eapply Forall_impl; [exact Hv|]. intros p Hpv. split; (eapply Forall_impl; [exact Hpv|]); intros v [V1 V2 V3 _].
    + by apply Hkeep.
    + unfold apart_from. by apply outside_apart.
  - exists c'. split; [exact E4|]. cbn [map concat snd] in Ha. by rewrite app_nil_r, <- app_assoc in Ha.
Qed.

(** Growing keeps what a response needs. *)
Lemma grown n c :
  0 <= n -> dynamic_room n c -> can_respond c -> outside (dynamicBuffer c) (buf (write c)) HEADER_SIZE ->
  exists c1, grow_dynamic n c = Done true c1 /\ roomy n (dynamicBuffer c1) /\ outside (dynamicBuffer c1) (buf (write c1)) HEADER_SIZE /\
    (forall v, value_kept c v -> value_kept c1 v) /\ doffset (dynamicBuffer c1) = doffset (dynamicBuffer c) /\
    exists h d, c1 = with_dynamic h d c.
Proof.
  intros Hn Hr Hc Ho. destruct (grow_outside Hreal n c Hn Hr) as (h & d & E & Hro & Hdo & Hk).
  exists (with_dynamic h d c). split; [exact E|]. split; [exact Hro|]. split; [by apply Hk|]. split; [|split; [exact Hdo|by exists h, d]].
  intros v [V1 V2 V3 V4]. destruct (Hk _ _ V2) as [V2' Vf]. split; [|done..]. unfold in_memory in *. by rewrite <- V1 at 2.
Qed.

Lemma answered_with reply h d c c' : answered reply (with_dynamic h d c) c' -> answered reply c c'.
Proof. by apply answered_from. Qed.

Lemma lookup_replied k c :
  path (sc_traits k) = MULTI -> is_mutator (sc_traits k) = false -> can_reply c k ->
  exists c', subdoc_multi_lookup_response k c = Done tt c' /\ answered (Some (subdoc_reply c k)) c c'.
Proof.
  intros Hpath Hmut [Hc Hw Hr Ho Hv _]. unfold subdoc_multi_lookup_response.
  assert (reply_pieces k = map lookup_piece (ops k)) as Ep by (unfold reply_pieces; by rewrite Hpath, Hmut).
  destruct (lookup_sizes (ops k)) as [Hroom Hsize]. rewrite <- Ep in Hroom, Hsize.
  destruct (grown (6 * Z.of_nat (length (ops k))) c) as (c1 & E1 & Hro & Hout & Hk & _ & h & d & ->); [lia| |done|done|].
  { destruct Hr as (R1 & R2 & R3). split; [done|]. split; [done|]. lia. }
  erewrite bind_done by exact E1. cbn [negb]. set (c1 := with_dynamic h d c) in *. rewrite <- Hroom in Hro.
  destruct (body_sent (status_value (overall_status k)) [] 0 (reply_pieces k) c1) as (c' & E2 & Ha); [by destruct Hc|done..| | | | |].
  { by eapply values_kept_in. }
  { done. }
  { apply nothing_apart. change (write c1) with (write c). lia. }
  { apply nothing_apart. by eapply Z.lt_le_incl, roomy_current. }
  exists c'. split; [|apply (answered_with _ h d)].
  - rewrite <- E2. change (size []) with 0. rewrite Hsize, Z.add_0_l. apply bind_ext. intros r c2. destruct (r == -1); [done|].
    apply bind_ext. intros [] c3. change (0 <? 0) with false. cbn [when]. run. unfold bind at 1 2. rewrite Ep, lookup_results_pieces; [done|].
    rewrite Ep in Hv. apply (Forall_map lookup_piece) in Hv. eapply Forall_impl; [exact Hv|]. intros op Hop. cbn [lookup_piece snd] in Hop.
    destruct (Z.ltb_spec 0 (result_len op)) as [Hl|Hl]; [|lia]. apply Forall_cons in Hop as [[_ _ _ Hsm] _].
    unfold result_len in *. by destruct (response_has_value _).
  - unfold subdoc_reply, reply_extras, describes_mutation. rewrite Hmut, andb_false_r. cbn [andb]. exact Ha.
Qed.

(** A buffer that has the room already stays as it is. *)
Lemma grow_steady n c : roomy n (dynamicBuffer c) -> 0 <= n -> grow_dynamic n c = Done true c.
Proof.
  intros [Hd Hh Hr Hs] Hn. unfold grow_dynamic, dynamic_grow. pose proof (do_offset _ Hd). rewrite (proj2 (Z.eqb_neq (dbuffer _) 0)) by lia.
  cbn [grow_loop]. rewrite u64_small by lia. rewrite (proj2 (Z.ltb_ge _ _)) by lia. cbn [mbind option_bind]. rewrite Z.eqb_refl.
  cbn [negb]. by destruct c.
Qed.

Lemma roomy_less n m d : roomy m d -> n <= m -> roomy n d.
Proof. intros [? ? ? ?] Hn. split; [done..|lia|done]. Qed.

Lemma mutation_size d : size (encode_mutation_descr d) = 16.
Proof. unfold size, encode_mutation_descr. by rewrite length_app, !le_store_length. Qed.

Lemma encoded_mutation d : encode_mutation_descr d = mutation_bytes d.
Proof. unfold encode_mutation_descr. by rewrite !le_store_bswap. Qed.

(** The extras in the buffer, which has the room for all. *)
Definition with_extras (d : mutation_descr_t) (c : connection) : connection :=
  with_dynamic (put (memory c) (getCurrent (dynamicBuffer c)) (encode_mutation_descr d)) (moved 16 (dynamicBuffer c)) c.

Lemma extras_written n d c :
  0 <= n -> roomy (16 + n) (dynamicBuffer c) ->
  (store (getCurrent (dynamicBuffer c)) (encode_mutation_descr d);; move_offset 16) c = Done tt (with_extras d c) /\
  roomy n (dynamicBuffer (with_extras d c)) /\ (forall v, value_kept c v -> value_kept (with_extras d c) v) /\
  in_memory (memory (with_extras d c)) (getCurrent (dynamicBuffer c), mutation_bytes d).
Proof.
  intros Hn Hr. set (a := getCurrent (dynamicBuffer c)). pose proof (roomy_current _ _ Hr) as Ha. fold a in Ha.
  erewrite bind_done by (by apply store_ok). pose proof (mutation_size d) as H16.
  destruct (move_roomy 16 n (out c) (put (memory c) a (encode_mutation_descr d)) (dynamicBuffer c) c ltac:(lia) Hn Hr) as [E Hr'].
  split; [destruct c; exact E|]. split; [exact Hr'|]. split.
  - intros v [V1 V2 V3 V4]. split; [|done..]. unfold in_memory in *. cbn [with_extras with_dynamic memory]. rewrite <- V1 at 2.
    apply fetch_put_other. rewrite H16. pose proof (outside_apart _ 16 _ _ (roomy_less 16 _ _ Hr ltac:(lia)) V2). fold a in H1. lia.
  - rewrite <- encoded_mutation. unfold in_memory. cbn [fst snd]. apply fetch_put_same.
Qed.

Lemma mutation_size' d : size (mutation_bytes d) = 16.
Proof. rewrite <- encoded_mutation. apply mutation_size. Qed.

(** The results of a multi-path mutation. *)
Definition mutation_needed (k : subdoc_context) : Z :=
  if all_well k then 7 * Z.of_nat (length (List.filter answers (ops k))) else 3.

Definition mutation_values (k : subdoc_context) : Z :=
  if all_well k then sum (map (fun op => size (matchloc (op_result op)).2) (List.filter answers (ops k))) else 0.

Lemma multi_mutation_sizes k :
  path (sc_traits k) = MULTI -> is_mutator (sc_traits k) = true -> finished k ->
  room (reply_pieces k) = mutation_needed k /\ size (reply_body k) = mutation_needed k + mutation_values k /\
  forall c, (if all_well k then mutation_results 0 (ops k) else first_failure 0 (ops k)) c = write_pieces (reply_pieces k) c.
Proof.
  intros Hp Hmu Hf. unfold finished in Hf. rewrite Hp, Hmu in Hf. unfold reply_body, reply_pieces, mutation_needed, mutation_values. rewrite Hp, Hmu.
  cbn [negb]. destruct (all_well k).
  - destruct (mutation_sizes (ops k) 0) as [H1s H2s]. split; [done|]. split; [done|]. intros c. by apply mutation_results_pieces.
  - destruct (failure_sizes (ops k) 0 (eq_sym Hf)) as [H1s H2s]. split; [done|]. split; [done|]. intros c. apply first_failure_pieces.
Qed.

(** The code behind the second growth. *)
Definition mutation_rest (k : subdoc_context) (extras_ptr extlen : Z) : M unit :=
  r <- mcbp_add_header (status_value (overall_status k)) extlen 0 (u32 (extlen + mutation_needed k + mutation_values k)) PROTOCOL_BINARY_RAW_BYTES;;
  if r == -1 then setState conn_closing else
  set_cas;;
  when (0 <? extlen) (add_iov extras_ptr extlen;; ret tt);;
  (if all_well k then mutation_results 0 (ops k) else first_failure 0 (ops k));;
  setState conn_mwrite.

Lemma mutation_rest_sent k extras E c :
  path (sc_traits k) = MULTI -> is_mutator (sc_traits k) = true -> finished k ->
  can_respond c -> 0 < buf (write c) -> roomy (room (reply_pieces k)) (dynamicBuffer c) -> outside (dynamicBuffer c) (buf (write c)) HEADER_SIZE ->
  Forall (fun p => Forall (value_kept c) p.2) (reply_pieces k) ->
  in_memory (memory c) (E, extras) -> apart_from (buf (write c)) HEADER_SIZE (E, extras) ->
  apart_from (getCurrent (dynamicBuffer c)) (room (reply_pieces k)) (E, extras) ->
  exists c', mutation_rest k E (size extras) c = Done tt c' /\
    answered (Some (response_wire (opcode (bheader c)) 0 (size extras) 0 (status_value (overall_status k)) (size extras + size (reply_body k))
                      (opaque (bheader c)) (response_cas c) ++ extras ++ reply_body k)) c c'.
Proof.
  intros Hp Hmu Hf Hc Hw Hr Ho Hv He1 He2 He3. destruct (multi_mutation_sizes k Hp Hmu Hf) as (_ & Hsize & Heq).
  destruct (body_sent (status_value (overall_status k)) extras E (reply_pieces k) c) as (c' & E1 & Ha); [done..|].
  fold (reply_body k) in E1, Ha. exists c'. split; [|exact Ha]. rewrite <- E1. unfold mutation_rest. rewrite Hsize, Z.add_assoc. apply bind_ext. intros r c1.
  destruct (r == -1); [done|]. apply bind_ext. intros [] c2. apply bind_ext. intros [] c3. unfold bind at 1 2. by rewrite Heq.
Qed.

(** What a steady buffer has room for once it has grown for the extras. *)
Lemma grown_steady h d c k :
  steady c k -> grow_dynamic 16 c = Done true (with_dynamic h d c) -> describes_mutation c k = true -> path (sc_traits k) = MULTI ->
  doffset d + 16 + room (reply_pieces k) <= dsize d.
Proof.
  intros Hst E Hd Hp. unfold grow_dynamic in E. destruct (dynamic_grow _ _ _ _) as [[[ok h'] d']|] eqn:Eg; [|done].
  pose proof (f_equal (fun r => match r with Done _ c => dynamicBuffer c | _ => d end) E) as Ed. cbn in Ed. subst d'.
  destruct ok; [|done]. by apply (Hst Hd Hp h').
Qed.

Lemma multi_mutation_replied k c :
  path (sc_traits k) = MULTI -> is_mutator (sc_traits k) = true -> finished k -> can_reply c k ->
  exists c', subdoc_multi_mutation_response k c = Done tt c' /\ answered (Some (subdoc_reply c k)) c c'.
Proof.
  intros Hp Hmu Hf [Hc Hw Hr Ho Hv Hst]. destruct (multi_mutation_sizes k Hp Hmu Hf) as (Hroom & _). pose proof (room_nonneg (reply_pieces k)) as Hn.
  unfold subdoc_multi_mutation_response. run. fold (all_well k) (mutation_needed k) (mutation_values k).
  unfold subdoc_reply, reply_extras, describes_mutation in *. rewrite Hmu, andb_true_r in *.
  rewrite (andb_comm (supports_mutation_extras c)) in *. destruct (all_well k && supports_mutation_extras c) eqn:Eas.
  - set (m := sc_mutation k). destruct (grown 16 c) as (c0 & E0 & Hro0 & Ho0 & Hk0 & _ & h & d & ->); [lia| |done|done|].
    { destruct Hr as (R1 & R2 & R3). split; [done|]. split; [done|]. lia. }
    pose proof (grown_steady h d c k Hst E0) as Hfit. set (c0 := with_dynamic h d c) in *.
    assert (roomy (16 + room (reply_pieces k)) (dynamicBuffer c0)) as Hro.
    { destruct Hro0. split; [done..| |done]. rewrite Z.add_assoc. apply Hfit; [|done].
      unfold describes_mutation. by rewrite Hmu, andb_true_r, andb_comm. }
    erewrite bind_done by exact E0. cbn [negb when]. run.
    destruct (extras_written (room (reply_pieces k)) m c0 Hn Hro) as (E1 & Hro1 & Hk & Hex).
    rewrite <- (bind_bind (store _ _) (fun _ => move_offset 16)). erewrite bind_done by exact E1.
    set (c1 := with_extras m c0) in *. erewrite bind_done by (apply grow_steady; [by rewrite <- Hroom|lia]). cbn [negb].
    destruct (mutation_rest_sent k (mutation_bytes m) (getCurrent (dynamicBuffer c0)) c1) as (c' & E2 & Ha); [done|done|done|by destruct Hc|done|done|done| |done| | |].
    + eapply values_kept_in, values_kept_in, Hv; [exact Hk|exact Hk0].
    + pose proof (outside_apart _ 16 _ _ (roomy_less 16 _ _ Hro ltac:(lia)) Ho0) as Hap. change (write c1) with (write c0).
      unfold apart_from. cbn [fst snd]. rewrite mutation_size'. lia.
    + left. cbn [fst snd]. rewrite mutation_size'. change (dynamicBuffer c1) with (moved 16 (dynamicBuffer c0)). unfold getCurrent, moved. cbn. lia.
    + exists c'. rewrite mutation_size' in E2. split; [exact E2|]. by eapply answered_from, Ha.
  - cbn [negb when]. run. destruct (grown (mutation_needed k) c) as (c1 & E1 & Hro & Hout & Hk & _ & h & d & ->); [lia| |done|done|].
    { destruct Hr as (R1 & R2 & R3). split; [done|]. split; [done|]. lia. }
    erewrite bind_done by exact E1. cbn [negb]. set (c1 := with_dynamic h d c) in *.
    destruct (mutation_rest_sent k [] 0 c1) as (c' & E2 & Ha); [done|done|done|by destruct Hc|done|by rewrite Hroom|done| |done| | |].
    + by eapply values_kept_in.
    + apply nothing_apart. change (write c1) with (write c). lia.
    + apply nothing_apart. by eapply Z.lt_le_incl, roomy_current.
    + exists c'. split; [exact E2|]. by apply (answered_with _ h d).
Qed.

Lemma addresses_app L L' : addresses (L ++ L') = addresses L ++ addresses L'.
Proof. unfold addresses. by rewrite map_app, concat_app. Qed.

(** One more region to send. *)
Lemma region_added (b : bool) v L o h c :
  building iov_max o -> pending o = addresses L ->
  exists o', when b (add_iov v.1 (size v.2);; ret tt) (with_io o h c) = Done tt (with_io o' h c) /\ building iov_max o' /\
    pending o' = addresses (L ++ if b then [v] else []).
Proof.
  intros Hb Hp. destruct b; cbn [when]; [|exists o; by rewrite app_nil_r].
  destruct (add_iov_io Hmax Hm v.1 (size v.2) o h c Hb (size_nonneg _)) as (o' & E & Hb' & Hp'). exists o'. erewrite bind_done by exact E.
  split; [done|]. split; [done|]. rewrite Hp', Hp, addresses_app. f_equal. unfold addresses. cbn [map concat]. by rewrite app_nil_r.
Qed.

(** The end of a single-path response. *)
Lemma value_sent (b : bool) v L o h d c :
  building iov_max o -> currentTask c <> conn_destroyed -> pending o = addresses L -> Forall (in_memory h) L -> Forall (in_memory h) (if b then [v] else []) ->
  exists c', (when b (add_iov v.1 (size v.2);; ret tt);; setState conn_mwrite) (with_reply o h d c) = Done tt c' /\
    answered (Some (concat (map snd L) ++ if b then v.2 else [])) c c'.
Proof.
  intros Hb Hc Hp HL Hv. change (with_reply o h d c) with (with_io o h (with_reply o h d c)).
  destruct (region_added b v L o h (with_reply o h d c) Hb Hp) as (o' & E & Hb' & Hp'). erewrite bind_done by exact E.
  change (with_io o' h _) with (with_reply o' h d c).
  destruct (regions_sent (L ++ if b then [v] else []) o' h d c Hb' Hc Hp') as (c' & E' & Ha).
  { by apply Forall_app. }
  exists c'. split; [exact E'|]. rewrite map_app, concat_app in Ha. destruct b; cbn [map concat] in Ha; by rewrite ?app_nil_r in *.
Qed.

(** The extras of a single-path response. *)
Lemma extras_added m L o h c vs :
  building iov_max o -> pending o = addresses L -> dynamic_room 16 c -> can_respond c ->
  outside (dynamicBuffer c) (buf (write c)) HEADER_SIZE -> Forall (value_kept (with_io o h c)) vs ->
  Forall (fun p => in_memory h p /\ outside (dynamicBuffer c) p.1 (size p.2)) L ->
  exists c2 o' h' d' a, grow_dynamic 16 (with_io o h c) = Done true c2 /\
    (at_ <- gets (fun c => getCurrent (dynamicBuffer c));; store at_ (encode_mutation_descr m);; move_offset 16;; add_iov at_ 16;; ret tt) c2 =
      Done tt (with_reply o' h' d' c) /\
    building iov_max o' /\ pending o' = addresses (L ++ [(a, mutation_bytes m)]) /\
    Forall (in_memory h') (L ++ [(a, mutation_bytes m)]) /\ Forall (in_memory h') vs.
Proof.
  intros Hb Hp Hr Hc Ho Hv HL. destruct (grow_outside Hreal 16 (with_io o h c) ltac:(lia) Hr) as (h2 & d2 & E & Hro & _ & Hk).
  set (c2 := with_dynamic h2 d2 (with_io o h c)) in *. set (a := getCurrent d2).
  destruct (extras_written 0 m c2 ltac:(lia) Hro) as (E2 & _ & _ & Hin). set (h' := put h2 a (encode_mutation_descr m)).
  assert (forall p, in_memory h p -> outside (dynamicBuffer c) p.1 (size p.2) -> in_memory h' p) as Hkeep.
  { intros p Hp1 Hp2. destruct (Hk _ _ Hp2) as [Hout Hf]. unfold in_memory in *. unfold h'. rewrite fetch_put_other.
    - by rewrite <- Hp1 at 2.
    - rewrite mutation_size. pose proof (outside_apart _ _ _ _ Hro Hout). fold a in H1. lia. }
  destruct (add_iov_io Hmax Hm a 16 o h' (with_extras m c2) Hb ltac:(lia)) as (o' & E3 & Hb' & Hp').
  exists c2, o', h', (moved 16 d2), a. split; [exact E|]. split.
  { run. rewrite <- (bind_bind (store _ _) (fun _ => move_offset 16)). erewrite bind_done by exact E2.
    change (with_extras m c2) with (with_io o h' (with_extras m c2)). by erewrite bind_done by exact E3. }
  split; [done|]. split; [rewrite Hp', Hp, addresses_app; unfold addresses at 3; cbn [map concat fst snd]; by rewrite app_nil_r, mutation_size'|].
  split; [|eapply Forall_impl; [exact Hv|]; intros v [V1 V2 _ _]; by apply Hkeep]. apply Forall_app. split; [|by repeat constructor].
  eapply Forall_impl; [exact HL|]. intros p [Hp1 Hp2]. by apply Hkeep.
Qed.

Lemma single_replied k c :
  path (sc_traits k) = SINGLE -> finished k -> can_reply c k ->
  exists c', subdoc_single_response k c = Done tt c' /\ answered (Some (subdoc_reply c k)) c c'.
Proof.
  intros Hp Hf [Hc Hw Hr Ho Hv _]. unfold finished in Hf. rewrite Hp in Hf. destruct Hf as [Hwell Hne].
  destruct (ops k) as [|op l] eqn:Eops; [done|]. set (v := matchloc (op_result op)) in *.
  unfold subdoc_single_response. run. rewrite Eops. cbn [head must]. run. fold v. set (has := response_has_value (sc_traits k)).
  assert (Forall (value_kept c) (if has then [v] else [])) as Hvs.
  { unfold reply_pieces in Hv. rewrite Hp, Eops in Hv. fold has v in Hv. destruct has; [|done]. by apply Forall_cons in Hv as [Hv _]. }
  assert (reply_body k = if has then v.2 else []) as Ebody.
  { unfold reply_body, reply_pieces. rewrite Hp, Eops. fold has v. destruct has; [|done]. cbn. by rewrite !app_nil_r. }
  unfold subdoc_reply, reply_extras, describes_mutation. rewrite Hwell, andb_true_r, Ebody.
  apply bool_decide_eq_true in Hwell. rewrite Hwell.
  set (inc := supports_mutation_extras c && is_mutator (sc_traits k)).
  set (m := sc_mutation k). set (extlen := if inc then 16 else 0).
  replace (if has then size v.2 else 0) with (size (if has then v.2 else [])) by (by destruct has).
  set (st := status_value PROTOCOL_BINARY_RESPONSE_SUCCESS).
  destruct (header_sent Hmax Hm st extlen (u32 (extlen + size (if has then v.2 else []))) PROTOCOL_BINARY_RAW_BYTES c Hc Hw) as (o & h0 & h & E1 & E2 & Hb & Hpe & Hin & Hkeep).
  erewrite bind_done by exact E1. change (0 =? -1) with false. cbn iota. erewrite bind_done by exact E2. rewrite wire_u32 in Hpe, Hin.
  replace (size (if inc then mutation_bytes m else [])) with extlen by (unfold extlen; destruct inc; by rewrite ?mutation_size').
  set (wire := response_wire _ _ _ _ _ _ _ _) in *. set (c1 := with_io o h c). assert (Forall (value_kept c1) (if has then [v] else [])) as Hv1.
  { eapply Forall_impl; [exact Hvs|]. intros u [V1 V2 V3 V4]. split; [by apply Hkeep|done..]. }
  destruct inc; cbn [when].
  - destruct (extras_added m [(buf (write c), wire)] o h c (if has then [v] else [])) as (c2 & o' & h' & d' & a & E3 & E4 & Hb' & Hpe' & HL & Hv2); [done|done| |done|done|done| |].
    { destruct Hr as (R1 & R2 & R3). split; [done|]. split; [done|]. pose proof (room_nonneg (reply_pieces k)). lia. }
    { constructor; [|done]. split; [done|]. cbn [fst snd]. unfold wire. by rewrite response_wire_size. }
    erewrite bind_done by exact E3. cbn [negb]. erewrite bind_done by exact E4.
    destruct (value_sent has v _ o' h' d' c Hb' (cr_task c Hc) Hpe' HL Hv2) as (c' & E5 & Ha). exists c'. split; [exact E5|].
    cbn [app map concat snd] in Ha. by rewrite app_nil_r, <- app_assoc in Ha.
  - run. cbn [negb]. change c1 with (with_reply o h (dynamicBuffer c) c).
    destruct (value_sent has v _ o h (dynamicBuffer c) c Hb (cr_task c Hc) Hpe) as (c' & E5 & Ha); [by repeat constructor|eapply Forall_impl; [exact Hv1|]; by intros u []|].
    exists c'. split; [exact E5|]. cbn [map concat snd] in Ha. by rewrite app_nil_r in Ha.
Qed.

(** C28: the response to a sub-document command, single or multi-path, lookup or
    mutation, is the header with the overall status, the CAS value and the
    lengths of what follows; the description of the mutation where the client
    asked for it; and, for a lookup of one path, the value that was found, for a
    lookup of several paths, status, length and value of each, for a mutation
    that succeeded, number, status, length and value of each operation that has
    one, and for a mutation of several paths that failed, number and status of
    the first operation that did.  The dynamic buffer is as [shrinkBuffers] leaves
    it before a command, empty ([cleared_steady]), or in any other state in which
    growing for the results does not move it away from the extras. *)
Theorem subdoc_response_spec k c :
  finished k -> can_reply c k ->
  exists c', subdoc_response k c = Done tt c' /\ answered (Some (subdoc_reply c k)) c c'.
Proof.
  intros Hf Hr. unfold subdoc_response. destruct (path (sc_traits k)) eqn:Hp; [by apply single_replied|].
  destruct (is_mutator (sc_traits k)) eqn:Hmu; [by apply multi_mutation_replied|by apply lookup_replied].
Qed.
End Replies.

(** ** What a mutation does *)

Section Contexts.
Context {ES K A : Type}.
Implicit Types (c : connection) (k : K) (e : ES).

Lemma bind_the_context (f : K -> ST (command_world K ES) A) c k e :
  bind the_context f (mk_world c (Some k) e) = f k (mk_world c (Some k) e).
Proof. done. Qed.

Lemma bind_update_context g (f : unit -> ST (command_world K ES) A) c k e :
  bind (update_context g) f (mk_world c (Some k) e) = f tt (mk_world c (Some (g k)) e).
Proof. done. Qed.

Lemma bind_set_context x' (f : unit -> ST (command_world K ES) A) c x e :
  bind (set_context x') f (mk_world c x e) = f tt (mk_world c x' e).
Proof. done. Qed.

Lemma bind_conn_expose p (f : unit -> ST (command_world K ES) A) c x e :
  bind (on_conn (expose p)) f (mk_world c x e) = f tt (mk_world (c <| memory := put (memory c) p.1 p.2 |>) x e).
Proof. done. Qed.
End Contexts.
#[export] Hint Rewrite @bind_the_context @bind_update_context @bind_set_context @bind_conn_expose : run.

(** The operations of a mutation on the bytes of a document, from number [ii] on:
    the new document, or number and status of the first one that fails. *)
Fixpoint apply_ops `{Subjson} (ii : Z) (doc : bytes) (l : list operation) : bytes + Z * protocol_binary_response_status :=
  match l with
  | [] => inl doc
  | op :: l =>
      let op := subdoc_operate_one_path (0, doc) op in
      if succeeded op then apply_ops (ii + 1) (joined (op_result op)) l else inr (ii, op_status op)
  end.

(** What the library makes of a document does not depend on where it is. *)
Definition document_only `{Subjson} : Prop :=
  forall cmd mkdir a b d v p,
    let '(r, s) := (op_exec cmd mkdir (a, d) v p, op_exec cmd mkdir (b, d) v p) in r.1 = s.1 /\ newdoc r.2 = newdoc s.2.

Section Mutation.
Context {ES : Type} `{EngineV1 ES} `{System} `{Engine} `{Bucket} `{Subjson}.
Context (Hdoc : document_only) (Hnew : forall n, 0 < new_chars n).

Lemma operate_anywhere a d op :
  op_status (subdoc_operate_one_path (a, d) op) = op_status (subdoc_operate_one_path (0, d) op) /\
  joined (op_result (subdoc_operate_one_path (a, d) op)) = joined (op_result (subdoc_operate_one_path (0, d) op)).
Proof.
  unfold subdoc_operate_one_path. destruct (Hdoc (command (op_traits op)) (op_mkdir op) a 0 d (op_value op) (op_path op)) as [H1s H2s].
  destruct (op_exec _ _ (a, d) _ _) as [e r], (op_exec _ _ (0, d) _ _) as [e' r']. cbn in *. unfold joined. by rewrite H1s, H2s.
Qed.

(** A context that differs in its operations and documents only. *)
Definition with_ops (l : list operation) (doc : option (Z * bytes)) (st : protocol_binary_response_status) (k : subdoc_context) : subdoc_context :=
  k <| ops := l |> <| in_doc := doc |> <| overall_status := st |>.

(** How the loop ends for a mutation. *)
Definition mutated (a : list operation) (r : bytes + Z * protocol_binary_response_status) (k : subdoc_context) (c : connection) (e : ES)
    (res : outcome (command_world subdoc_context ES) operated) : Prop :=
  exists h l doc,
  match r with
  | inl d =>
      res = Done AllDone (mk_world (c <| memory := h |>) (Some (with_ops l doc (overall_status k) k)) e) /\
      forallb succeeded l = true /\ (a <> [] -> result_document (with_ops l doc (overall_status k) k) = Some d)
  | inr (ii, st) =>
      match path (sc_traits k) with
      | MULTI =>
          res = Done PathFailed (mk_world (c <| memory := h |>) (Some (with_ops l doc PROTOCOL_BINARY_RESPONSE_SUBDOC_MULTI_PATH_FAILURE k)) e) /\
          forallb succeeded l = false /\ failure_pieces 0 l = [(be_store 1 ii ++ be_store 2 (status_value st), [])]
      | SINGLE =>
          res = (on_conn (mcbp_write_packet st);; ret Answered) (mk_world (c <| memory := h |>) (Some (with_ops l doc (overall_status k) k)) e)
      end
  end.

Lemma failure_pieces_first before op after ii :
  forallb succeeded before = true -> succeeded op = false ->
  failure_pieces ii (before ++ op :: after) =
    [(be_store 1 (ii + Z.of_nat (length before)) ++ be_store 2 (status_value (op_status op)), [])] /\
  forallb succeeded (before ++ op :: after) = false.
Proof.
  intros Hb Ho. split; [|rewrite forallb_app; cbn; by rewrite Ho, andb_false_r].
  revert ii. induction before as [|x before IH]; intros ii; cbn [app failure_pieces length].
  - by rewrite Ho, Z.add_0_r.
  - cbn in Hb. apply andb_prop in Hb as [-> Hb]. rewrite (IH Hb).
    by replace (ii + 1 + Z.of_nat (length before)) with (ii + Z.of_nat (S (length before))) by lia.
Qed.

Lemma mutated_from after k c c' h0 l0 doc0 op r e res :
  c' = c <| memory := h0 |> -> after <> [] -> mutated after r (with_ops l0 doc0 (overall_status k) k) c' e res -> mutated (op :: after) r k c e res.
Proof.
  intros -> Ha (h & l & doc & Hr). exists h, l, doc. destruct r as [d|[ii st]]; [|exact Hr]. destruct Hr as (H1s & H2s & H3s).
  split; [exact H1s|]. split; [exact H2s|]. intros _. exact (H3s Ha).
Qed.

(** The loop over the operations of a mutation is [apply_ops]. *)
Lemma operate_all_mutation after before k c e a d :
  is_mutator (sc_traits k) = true -> (path (sc_traits k) = SINGLE -> length (before ++ after) = 1%nat) ->
  ops k = before ++ after -> in_doc k = Some (a, d) -> forallb succeeded before = true ->
  mutated after (apply_ops (Z.of_nat (length before)) d after) k c e (operate_all before after (mk_world c (Some k) e)).
Proof.
  intros Hmu. revert before k c a d Hmu. induction after as [|op after IH]; intros before k c a d Hmu Hone Hops Hin Hb.
  { exists (memory c), before, (in_doc k). cbn. rewrite app_nil_r in Hops. split; [|done]. destruct k, c; cbn in *. by subst. }
  cbn [operate_all apply_ops]. run. rewrite Hin. cbn [must]. run. destruct (operate_anywhere a d op) as [Hst Hjo].
  set (op1 := subdoc_operate_one_path (a, d) op) in *. set (op0 := subdoc_operate_one_path (0, d) op) in *.
  assert (succeeded op0 = succeeded op1) as -> by (unfold succeeded; by rewrite Hst). rewrite <- Hjo, <- Hst.
  set (c1 := c <| memory := _ |>). set (k1 := k <| ops := _ |>).
  assert (k1 = with_ops (before ++ op1 :: after) (in_doc k) (overall_status k) k) as Ek by (by destruct k).
  destruct (succeeded op1) eqn:Hs.
  2:{ exists (memory c1), (before ++ op1 :: after), (in_doc k). destruct (failure_pieces_first before op1 after 0 Hb Hs) as [Hf1 Hf2].
      cbn [negb]. destruct (path (sc_traits k)); [by rewrite Ek|]. run. rewrite Hmu, Ek. by split_and!. }
  assert (forallb succeeded (before ++ [op1]) = true) as Hb1 by (rewrite forallb_app, Hb; cbn; by rewrite Hs).
  destruct after as [|op' after].
  - exists (memory c1), (before ++ [op1]), (in_doc k). cbn [apply_ops]. split; [|split; [done|intros _; cbn; unfold result_document; cbn; by rewrite last_snoc]].
    rewrite Ek, andb_false_r. by destruct (path (sc_traits k)).
  - assert (path (sc_traits k) = MULTI) as Hp.
    { destruct (path (sc_traits k)); [|done]. specialize (Hone eq_refl). rewrite length_app in Hone. cbn in Hone. lia. }
    rewrite Hp, Hmu. cbn [length andb negb]. rewrite bool_decide_false by done. cbn [negb].
    set (j := joined (op_result op1)). pose proof (Hnew (size j)) as Hn. rewrite (proj2 (Z.eqb_neq (new_chars (size j)) 0)) by lia.
    erewrite bind_done by (apply on_conn_done, store_ok; exact Hn). run. set (c2 := c1 <| memory := _ |>).
    set (k2 := k1 <| in_doc := _ |>). apply (mutated_from (op' :: after) k c c2 (put (memory c1) (new_chars (size j)) j) (before ++ op1 :: op' :: after) (Some (new_chars (size j), j)));
      [done|done|]. replace (Z.of_nat (length before) + 1) with (Z.of_nat (length (before ++ [op1]))) by (rewrite length_app; cbn; lia).
    apply (IH (before ++ [op1]) k2 c2 (new_chars (size j))); [done| |cbn; by rewrite <- app_assoc|done|done].
    change (path (sc_traits k2)) with (path (sc_traits k)). by rewrite Hp.
Qed.

(** How the engine supplies the document: an item with JSON that is not
    compressed and has the CAS value the client asked for, or none, when the
    command may make a new document. *)
Inductive fetched (key : bytes) (vb cas : Z) (root : root_type) (e : ES) : Z -> Z * bytes -> Z -> Z -> bool -> ES -> Prop :=
| fetched_item it i doc e1 e2 :
    engine_get key vb e = Done (ENGINE_SUCCESS, it) e1 -> engine_get_item_info it iov_max e1 = Done (Some i) e2 ->
    inf_value i = [doc] -> cas = 0 \/ cas = inf_cas i -> is_json (inf_datatype i) = true -> is_compressed (inf_datatype i) = false ->
    fetched key vb cas root e it doc (inf_cas i) (inf_flags i) false e2
| fetched_list it e1 :
    engine_get key vb e = Done (ENGINE_KEY_ENOENT, it) e1 -> root = JSONSL_T_LIST ->
    fetched key vb cas root e 0 (empty_list_at, text "[]") 0 0 true e1
| fetched_object it e1 :
    engine_get key vb e = Done (ENGINE_KEY_ENOENT, it) e1 -> root = JSONSL_T_OBJECT ->
    fetched key vb cas root e 0 (empty_object_at, text "{}") 0 0 true e1.

(** A context before the document is fetched. *)
Definition fresh (traits : SubdocCmdTraits) (l : list operation) (root : root_type) : subdoc_context :=
  (SubdocCmdContext traits) <| ops := l |> <| jroot_type := root |>.

Definition with_doc (doc : Z * bytes) (cas flags : Z) (new : bool) (k : subdoc_context) : subdoc_context :=
  k <| in_doc := Some doc |> <| in_cas := cas |> <| in_flags := flags |> <| needs_new_doc := new |>.

Lemma info_given {K} it n i c (x : option K) e e' :
  engine_get_item_info it n e = Done (Some i) e' ->
  exists h, bucket_get_item_info it n (mk_world c x e) = Done (Some i) (mk_world (c <| memory := h |>) x e').
Proof.
  intros E. destruct (expose_all_ok (inf_key i :: inf_value i) c) as (h & Ee & _). exists h. unfold bucket_get_item_info. next E. by next Ee.
Qed.

Lemma subdoc_fetch_ok key vb cas traits l root c e it doc cas' flags new e' :
  item c = 0 -> fetched key vb cas root e it doc cas' flags new e' ->
  exists h, subdoc_fetch ENGINE_SUCCESS key vb cas (mk_world c (Some (fresh traits l root)) e) =
    Done true (mk_world (c <| item := it |> <| memory := h |>) (Some (with_doc doc cas' flags new (fresh traits l root))) e').
Proof.
  intros Hi Hf. unfold subdoc_fetch. run. rewrite Hi. change ((0 =? 0) && negb (needs_new_doc (fresh traits l root))) with true. cbn iota.
  change (jroot_type (fresh traits l root)) with root.
  destruct Hf as [it i doc e1 e2 Eg Ei Ev Hcas Hj Hc|it e1 Eg ->|it e1 Eg ->]; rewrite decide_True by done; next Eg; cbn iota.
  - unfold fetch_document, get_document_for_searching. run. set (k1 := (fresh traits l root) <| needs_new_doc := false |>).
    change (in_doc k1) with (@None (Z * bytes)). cbn iota. run.
    destruct (info_given it iov_max i (c <| item := it |>) (Some k1) e1 e2 Ei) as (h & Ee). next Ee. run. rewrite Ev. destruct doc as [a d]. cbn iota.
    replace ((cas != 0) && (cas != inf_cas i)) with false by (destruct Hcas as [-> | ->]; [done|by rewrite Z.eqb_refl, andb_false_r]).
    rewrite Hj, Hc. cbn [negb]. run. exists h. done.
  - exists (memory c). run. destruct c. cbn in Hi. by subst.
  - exists (memory c). run. destruct c. cbn in Hi. by subst.
Qed.

(** A new item with the document, and its CAS value. *)
Definition prepared (key d : bytes) (flags exp cas : Z) (e : ES) (nd : Z) (e' : ES) : Prop :=
  exists e1 e2 j e3,
    engine_allocate key (size d) flags exp PROTOCOL_BINARY_DATATYPE_JSON e = Done (ENGINE_SUCCESS, nd) e1 /\
    engine_item_set_cas nd cas e1 = Done tt e2 /\ engine_get_item_info nd iov_max e2 = Done (Some j) e3 /\
    inf_value j <> [] /\ copy_value nd 0 d e3 = Done tt e'.

Definition with_out (nd len : Z) (k : subdoc_context) : subdoc_context := k <| out_doc_len := len |> <| out_doc := nd |>.

Lemma subdoc_update_ok key vb exp k c e d nd e' :
  is_mutator (sc_traits k) = true -> overall_status k = PROTOCOL_BINARY_RESPONSE_SUCCESS -> out_doc k = 0 -> result_document k = Some d ->
  prepared key d (in_flags k) exp (in_cas k) e nd e' ->
  exists h, subdoc_update ENGINE_SUCCESS key vb exp (mk_world c (Some k) e) =
    store_document vb (mk_world (c <| memory := h |>) (Some (with_out nd (size d) k)) e').
Proof.
  intros Hmu Hov Ho Hd (e1 & e2 & j & e3 & Ea & Es & Ei & Hv & Ec). unfold subdoc_update. run. rewrite Hmu. cbn [negb].
  rewrite bool_decide_true by done. cbn [negb]. rewrite Hd. cbn [must]. run. unfold allocate_document. run. cbn [out_doc set_field].
  rewrite Ho. change (0 != 0) with false. cbn iota. run. rewrite decide_True by done. next Ea. cbn iota. run. next Es. run.
  match goal with |- context [mk_world c ?x e2] => destruct (info_given nd iov_max j c x e2 e3 Ei) as (h & Ee) end. next Ee. run.
  destruct (inf_value j) as [|v vs]; [done|]. cbn [head must]. run. change (result_document (k <| out_doc_len := size d |>)) with (result_document k). rewrite Hd.
  cbn [must]. run. next Ec. run.
  rewrite bool_decide_true by done. cbn [negb]. exists h. done.
Qed.

(** The item is stored, and the mutation described where it is asked for. *)
Definition stored (nd : Z) (new : bool) (vb : Z) (extras : bool) (e : ES) (cas : Z) (m : mutation_descr_t) (e' : ES) : Prop :=
  exists e1, engine_store nd 0 (if new then OPERATION_ADD else OPERATION_REPLACE) vb e = Done (ENGINE_SUCCESS, cas) e1 /\
  if extras then exists j, engine_get_item_info nd 1 e1 = Done (Some j) e' /\ m = inf_mutation j else e' = e1 /\ m = mk_mutation 0 0.

Lemma store_document_ok vb k c e cas m e' :
  stored (out_doc k) (needs_new_doc k) vb (supports_mutation_extras c) e cas m e' -> sc_mutation k = mk_mutation 0 0 ->
  exists h, store_document vb (mk_world c (Some k) e) =
    Done ENGINE_SUCCESS (mk_world (c <| memory := h |> <| response_cas := cas |>) (Some (k <| sc_mutation := m |>)) e').
Proof.
  intros (e1 & Es & Hx) Hm0. unfold store_document. run. next Es. cbn iota. run. destruct (supports_mutation_extras c) eqn:Ex.
  - destruct Hx as (j & Ei & ->). destruct (info_given (out_doc k) 1 j c (Some k) e1 e' Ei) as (h & Ee). exists h. next Ee. by run.
  - destruct Hx as [-> ->]. exists (memory c). run. rewrite <- Hm0. by destruct c, k.
Qed.

Lemma decode_multi_fresh fuel mutator m traits l root k :
  decode_multi fuel mutator m (fresh traits l root) = Some k -> exists l' root', k = fresh traits l' root'.
Proof.
  revert m l root. induction fuel as [|fuel IH]; intros m l root; [done|]. cbn [decode_multi]. case_bool_decide.
  { intros [= <-]. by exists l, root. }
  intros E. apply bind_Some in E as ([[[[op fl] p] v] len] & _ & E). cbn beta iota in E.
  destruct (_ && _) in E; eapply IH; exact E.
Qed.

Lemma created_fresh traits pkt value k :
  subdoc_create_context traits pkt value = Some k ->
  exists l root, k = fresh traits l root /\ (path traits = SINGLE -> length l = 1%nat).
Proof.
  unfold subdoc_create_context. destruct (path traits).
  - intros E. apply bind_Some in E as (pl & _ & E). apply bind_Some in E as (fl & _ & E). apply bind_Some in E as (p & _ & E).
    injection E as <-. destruct (_ != 0); [exists [OperationSpec traits fl p (if request_has_value traits then drop (Z.to_nat (ntohs pl)) value else [])], (get_root_type (command traits) p)|
      exists [OperationSpec traits fl p (if request_has_value traits then drop (Z.to_nat (ntohs pl)) value else [])], JSONSL_T_ROOT]; by split.
  - intros E. apply (decode_multi_fresh _ _ _ _ [] JSONSL_T_ROOT) in E as (l & root & ->). by exists l, root.
Qed.

Lemma subdoc_operate_mutation traits l root a d cas flags new c e :
  is_mutator traits = true -> (path traits = SINGLE -> length l = 1%nat) ->
  let k := (with_doc (a, d) cas flags new (fresh traits l root)) <| overall_status := PROTOCOL_BINARY_RESPONSE_SUCCESS |> in
  mutated l (apply_ops 0 d l) k c e (operate_all [] l (mk_world c (Some k) e)).
Proof. intros Hmu Hone k. by apply (operate_all_mutation l [] k c e a d). Qed.

(** The connection while a command is executed. *)
Definition during (it : Z) (h : heap) (c : connection) : connection :=
  c <| command_context := true |> <| item := it |> <| memory := h |>.

(** The end of the executor. *)
Definition responds (k : subdoc_context) (key : bytes) : ST (command_world subdoc_context ES) unit :=
  on_conn (subdoc_response k);; on_conn (update_topkeys key).

(** The part of an attempt behind the operations. *)
Definition attempt_rest (attempts : nat) (traits : SubdocCmdTraits) (pkt : bytes) (req : subdoc_request) (ok : bool)
    : ST (command_world subdoc_context ES) unit :=
  if negb ok then ret tt else
  r <- subdoc_update ENGINE_SUCCESS (sr_key req) (sr_vbucket req) (sr_expiration req);;
  match r with
  | ENGINE_KEY_EEXISTS =>
      if sr_cas req == 0 then
        it <- on_conn (gets item);;
        when (it != 0) (bucket_release_item it;; on_conn (assign item 0));;
        subdoc_reset;;
        subdoc_attempt attempts traits pkt req ENGINE_SUCCESS
      else on_conn (mcbp_write_packet (engine_error_2_mcbp_protocol_error r))
  | ENGINE_SUCCESS => k <- the_context;; responds k (sr_key req)
  | _ => ret tt
  end.

(** An attempt up to the operations. *)
Lemma attempt_fetched n traits pkt req c e k it doc cas flags new e2 :
  item c = 0 -> new_context = true -> subdoc_create_context traits pkt (sr_value req) = Some k ->
  fetched (sr_key req) (sr_vbucket req) (sr_cas req) (jroot_type k) e it doc cas flags new e2 ->
  exists h, subdoc_attempt (S n) traits pkt req ENGINE_SUCCESS (mk_world c None e) =
    (r <- operate_all [] (ops k);;
     match r with
     | Answered => ret tt
     | PathFailed => attempt_rest n traits pkt req true
     | AllDone => update_context (fun k => k <| executed := true |>);; attempt_rest n traits pkt req true
     end) (mk_world (during it h c) (Some ((with_doc doc cas flags new k) <| overall_status := PROTOCOL_BINARY_RESPONSE_SUCCESS |>)) e2).
Proof.
  intros Hi Hn Hk Hf. destruct (created_fresh _ _ _ _ Hk) as (l & root & -> & _).
  cbn [subdoc_attempt]. unfold subdoc_start. run. cbn [context]. rewrite Hn, Hk. cbn [negb must]. run.
  match goal with |- context [mk_world ?x (Some (fresh _ _ _)) e] =>
    destruct (subdoc_fetch_ok _ _ _ traits l root x _ _ _ _ _ _ _ Hi Hf) as (h & E) end.
  exists h. next E. cbn [negb]. unfold subdoc_operate. run.
  change (executed (with_doc doc cas flags new (fresh traits l root))) with false. cbn iota. run.
  change (ops (with_doc doc cas flags new (fresh traits l root))) with l. change (ops (fresh traits l root)) with l.
  apply bind_ext. intros [] w; [by run|by run|]. by run.
Qed.

(** All operations succeeded: an item with the new document is prepared. *)
Lemma attempt_prepared n traits pkt req c e k it a d cas flags new e2 d' nd e3 :
  item c = 0 -> new_context = true -> subdoc_create_context traits pkt (sr_value req) = Some k -> is_mutator traits = true -> ops k <> [] ->
  fetched (sr_key req) (sr_vbucket req) (sr_cas req) (jroot_type k) e it (a, d) cas flags new e2 ->
  apply_ops 0 d (ops k) = inl d' -> prepared (sr_key req) d' flags (sr_expiration req) cas e2 nd e3 ->
  exists h k', subdoc_attempt (S n) traits pkt req ENGINE_SUCCESS (mk_world c None e) =
    (r <- store_document (sr_vbucket req);;
     match r with
     | ENGINE_KEY_EEXISTS =>
         if sr_cas req == 0 then
           it <- on_conn (gets item);;
           when (it != 0) (bucket_release_item it;; on_conn (assign item 0));;
           subdoc_reset;;
           subdoc_attempt n traits pkt req ENGINE_SUCCESS
         else on_conn (mcbp_write_packet (engine_error_2_mcbp_protocol_error r))
     | ENGINE_SUCCESS => k <- the_context;; responds k (sr_key req)
     | _ => ret tt
     end) (mk_world (during it h c) (Some k') e3) /\
    sc_traits k' = traits /\ forallb succeeded (ops k') = true /\ ops k' <> [] /\ overall_status k' = PROTOCOL_BINARY_RESPONSE_SUCCESS /\
    out_doc k' = nd /\ needs_new_doc k' = new /\ sc_mutation k' = mk_mutation 0 0.
Proof.
  intros Hi Hn Hk Hmu Hne Hf Ha Hp. destruct (attempt_fetched n _ _ _ c e k it (a, d) cas flags new e2 Hi Hn Hk Hf) as (h & ->).
  destruct (created_fresh _ _ _ _ Hk) as (l & root & -> & Hone). change (ops (fresh traits l root)) with l in *.
  pose proof (subdoc_operate_mutation traits l root a d cas flags new (during it h c) e2 Hmu Hone) as Hr. rewrite Ha in Hr.
  cbv zeta in Hr.
  set (k1 := (with_doc (a, d) cas flags new (fresh traits l root)) <| overall_status := PROTOCOL_BINARY_RESPONSE_SUCCESS |>) in *. destruct Hr as (h1 & l1 & doc & E & Hall & Hres). specialize (Hres Hne).
  erewrite bind_done by exact E. run. set (k2 := (with_ops l1 doc (overall_status k1) k1) <| executed := true |>).
  destruct (subdoc_update_ok (sr_key req) (sr_vbucket req) (sr_expiration req) k2 ((during it h c) <| memory := h1 |>) e2 d' nd e3) as (h2 & E2); [done..|].
  exists h2, (with_out nd (size d') k2). split; [unfold attempt_rest; cbn [negb]; unfold bind at 1; rewrite E2; reflexivity|].
  split; [done|]. split; [exact Hall|]. split; [|done]. intros El. change (l1 = []) in El. subst l1. done.
Qed.

(** C9: a mutation of a document is all or nothing.  The operations are applied one
    after the other, each to the result of the one before.  If all of them
    succeed the engine stores the resulting document, with the flags of the one
    that was fetched and under its CAS value, and nothing else, before the
    response is made.  If one fails the engine has done no more than supply the
    document, and the response says which operation failed and why, or only why
    for a request with a single path. *)
Theorem subdoc_mutation_atomic traits pkt req c e k it a d cas flags new e2 :
  parse_subdoc traits pkt = Some req -> aiostat c = ENGINE_SUCCESS -> item c = 0 -> new_context = true ->
  subdoc_create_context traits pkt (sr_value req) = Some k -> is_mutator traits = true -> ops k <> [] ->
  fetched (sr_key req) (sr_vbucket req) (sr_cas req) (jroot_type k) e it (a, d) cas flags new e2 ->
  let result := subdoc_executor traits pkt (mk_world c None e) in
  match apply_ops 0 d (ops k) with
  | inl d' =>
      forall nd e3 ncas m e4, prepared (sr_key req) d' flags (sr_expiration req) cas e2 nd e3 ->
        stored nd new (sr_vbucket req) (supports_mutation_extras c) e3 ncas m e4 ->
        exists h k', result = responds k' (sr_key req) (mk_world ((during it h c) <| response_cas := ncas |>) (Some k') e4) /\
          finished k' /\ all_well k' = true /\ out_doc k' = nd /\ sc_mutation k' = m
  | inr (ii, st) =>
      exists h k',
        match path traits with
        | SINGLE => result = on_conn (mcbp_write_packet st) (mk_world (during it h c) (Some k') e2)
        | MULTI =>
            result = responds k' (sr_key req) (mk_world (during it h c) (Some k') e2) /\ finished k' /\
            overall_status k' = PROTOCOL_BINARY_RESPONSE_SUBDOC_MULTI_PATH_FAILURE /\
            reply_pieces k' = [(be_store 1 ii ++ be_store 2 (status_value st), [])] /\ out_doc k' = 0
        end
  end.
Proof.
  intros Hparse Hai Hi Hn Hk Hmu Hne Hf result. unfold subdoc_executor in result. subst result. rewrite Hparse. cbn [must]. run.
  next (take_aiostat_ok c Hai). change MAXIMUM_ATTEMPTS with (S 99). destruct (apply_ops 0 d (ops k)) as [d'|[ii st]] eqn:Ea.
  - intros nd e3 ncas m e4 Hp Hs.
    destruct (attempt_prepared 99 _ _ _ c e k it a d cas flags new e2 d' nd e3 Hi Hn Hk Hmu Hne Hf Ea Hp) as (h & k' & -> & Ht & Hall & Hnil & Hov & Ho & Hnw & Hm0).
    rewrite <- Ho, <- Hnw in Hs. destruct (store_document_ok (sr_vbucket req) k' (during it h c) e3 ncas m e4 Hs Hm0) as (h2 & E2).
    erewrite bind_done by exact E2. run. exists h2, (k' <| sc_mutation := m |>). split; [done|].
    assert (all_well k' = true) as Hw by (by apply bool_decide_eq_true). split; [|done].
    unfold finished. cbn [sc_traits ops set_field]. change (all_well (k' <| sc_mutation := m |>)) with (all_well k').
    change (sc_traits (k' <| sc_mutation := m |>)) with (sc_traits k'). rewrite Ht, Hw, Hmu. by destruct (path traits).
  - destruct (attempt_fetched 99 _ _ _ c e k it (a, d) cas flags new e2 Hi Hn Hk Hf) as (h & ->).
    destruct (created_fresh _ _ _ _ Hk) as (l & root & -> & Hone). change (ops (fresh traits l root)) with l in *.
    pose proof (subdoc_operate_mutation traits l root a d cas flags new (during it h c) e2 Hmu Hone) as Hr. rewrite Ea in Hr.
    cbv zeta in Hr.
  set (k1 := (with_doc (a, d) cas flags new (fresh traits l root)) <| overall_status := PROTOCOL_BINARY_RESPONSE_SUCCESS |>) in *. destruct Hr as (h1 & l1 & doc & Hr). exists h1.
    change (path (sc_traits k1)) with (path traits) in Hr. destruct (path traits) eqn:Hp.
    + exists (with_ops l1 doc (overall_status k1) k1). unfold bind at 1. rewrite Hr. unfold bind, ret.
      change ((during it h c) <| memory := h1 |>) with (during it h1 c). by destruct (on_conn _ _) as [[]| |].
    + destruct Hr as (E & Hall & Hfp). erewrite bind_done by exact E. set (k2 := with_ops _ _ _ _).
      exists k2. unfold attempt_rest, subdoc_update. cbn [negb]. run. change (sc_traits k2) with traits. rewrite Hmu. cbn [negb].
      rewrite bool_decide_false by done. cbn [negb]. run. split; [done|]. unfold finished, reply_pieces.
      change (sc_traits k2) with traits. change (all_well k2) with false. rewrite Hp, Hmu. cbn [negb]. by split_and!.
Qed.

(** An item that is there is given back. *)
Definition released (it : Z) (e e' : ES) : Prop := if it == 0 then e' = e else engine_release it e = Done tt e'.

Lemma subdoc_reset_ok {A} c k e e' (m : ST (command_world subdoc_context ES) A) :
  released (out_doc k) e e' ->
  (subdoc_reset;; m) (mk_world c (Some k) e) = m (mk_world (c <| command_context := false |>) None e').
Proof.
  unfold released, subdoc_reset. intros Hr. run. cbn [context]. destruct (Z.eqb_spec (out_doc k) 0); cbn [negb]; run; [by rewrite Hr|].
  unfold bucket_release_item. next Hr. by run.
Qed.

(** When the document was changed meanwhile and the client gave no CAS value, both
    items are given back and the command starts again, with one attempt less. *)
Theorem conflict_retried n traits pkt req c e k it a d cas flags new e2 d' nd e3 cas' e4 e5 e6 :
  item c = 0 -> new_context = true -> subdoc_create_context traits pkt (sr_value req) = Some k -> is_mutator traits = true -> ops k <> [] ->
  fetched (sr_key req) (sr_vbucket req) (sr_cas req) (jroot_type k) e it (a, d) cas flags new e2 ->
  apply_ops 0 d (ops k) = inl d' -> prepared (sr_key req) d' flags (sr_expiration req) cas e2 nd e3 -> sr_cas req = 0 ->
  engine_store nd 0 (if new then OPERATION_ADD else OPERATION_REPLACE) (sr_vbucket req) e3 = Done (ENGINE_KEY_EEXISTS, cas') e4 ->
  released it e4 e5 -> released nd e5 e6 ->
  exists h, subdoc_attempt (S n) traits pkt req ENGINE_SUCCESS (mk_world c None e) =
    subdoc_attempt n traits pkt req ENGINE_SUCCESS (mk_world ((during 0 h c) <| command_context := false |>) None e6).
Proof.
  intros Hi Hn Hk Hmu Hne Hf Ha Hp Hc Es Hr1 Hr2.
  destruct (attempt_prepared n _ _ _ c e k it a d cas flags new e2 d' nd e3 Hi Hn Hk Hmu Hne Hf Ha Hp) as (h & k' & -> & _ & _ & _ & _ & Ho & Hnw & _).
  exists h. rewrite <- Ho, <- Hnw in Es. unfold store_document. run. next Es. cbn iota. run. rewrite Hc. change (0 =? 0) with true. cbn iota. run.
  change (item (during it h c)) with it. unfold released in Hr1.
  rewrite <- Ho in Hr2. destruct (Z.eqb_spec it 0) as [->|Hit]; cbn [negb].
  - subst e5. by rewrite (subdoc_reset_ok _ _ _ _ _ Hr2).
  - unfold bucket_release_item. run. next Hr1. run. by rewrite (subdoc_reset_ok _ _ _ _ _ Hr2).
Qed.
End Mutation.

(** ** The operations of a request *)

(** The operation of a spec of [SubdocValidators]. *)
Definition spec_operation (s : op_spec) : operation :=
  OperationSpec (get_subdoc_cmd_traits (b2z (os_opcode s))) (b2z (os_flags s)) (os_path s) (os_value s).

(** The type of the document to make: that of the first operation which may make
    one and whose path has a type. *)
Definition specs_root `{Subjson} (root : root_type) (l : list op_spec) : root_type :=
  fold_left (fun root s =>
    if (Z.land (b2z (os_flags s)) SUBDOC_FLAG_MKDOC != 0) && bool_decide (root = JSONSL_T_ROOT)
    then get_root_type (command (get_subdoc_cmd_traits (b2z (os_opcode s)))) (os_path s) else root) l root.

Section Decoding.
Context `{Subjson}.

Lemma load_next n off m bs rest : 0 <= off <= size m -> length bs = n -> drop (Z.to_nat off) m = bs ++ rest -> load n off m = Some bs.
Proof.
  intros Ho Hn Hd. rewrite load_in; [by rewrite Hd, take_app_length'|lia|]. apply (f_equal length) in Hd.
  rewrite length_drop, length_app in Hd. unfold size in *. lia.
Qed.

Lemma decode_spec_encoded mutator s rest :
  op_ok mutator s ->
  decode_spec mutator (encode_op mutator s ++ rest) =
    Some (b2z (os_opcode s), b2z (os_flags s), os_path s, os_value s, op_size mutator s).
Proof.
  intros (_ & Hm & _ & Hl & _ & Hr & Hv). set (m := _ ++ rest). assert (drop (Z.to_nat 0) m = encode_op mutator s ++ rest) as HD by done.
  unfold encode_op in HD. rewrite <- !app_assoc in HD.
  apply (drop_next _ 1) in HD as HD1; [|lia|done]. apply (drop_next _ 1) in HD1 as HD2; [|lia|done].
  apply (drop_next _ 2) in HD2 as HD4; [|lia|by rewrite be_store_length].
  change (0 + 1 + 1) with 2 in *. change (2 + 2) with 4 in *. unfold SUBDOC_PATH_MAX_LENGTH in *. unfold decode_spec.
  rewrite (bytes_load_int 1 0 m [os_opcode s] _ ltac:(lia) ltac:(lia) eq_refl HD).
  rewrite (bytes_load_int 1 1 m [os_flags s] _ ltac:(lia) ltac:(lia) eq_refl HD1).
  assert (exists y, load_int 2 2 m = Some y /\ ntohs y = Z.of_nat (length (os_path s)))
    as (pl & -> & Epl) by (eapply load_int_be; [..|exact HD2]; lia).
  set (hl := if mutator then MUTATION_SPEC_SIZE else LOOKUP_SPEC_SIZE).
  assert ((if mutator then ntohl <$> load_int 4 4 m else Some 0) = Some (Z.of_nat (length (os_value s))) /\
    drop (Z.to_nat hl) m = os_path s ++ os_value s ++ rest) as [-> HP].
  { destruct mutator.
    - assert (exists y, load_int 4 4 m = Some y /\ ntohl y = Z.of_nat (length (os_value s)))
        as (vl & -> & <-) by (eapply load_int_be; [..|exact HD4]; lia). split; [done|].
      by apply (drop_next _ 4) in HD4; [|lia|by rewrite be_store_length].
    - rewrite lookup_has_no_value in Hr by done. by rewrite Hr in *. }
  cbn [mbind option_bind]. rewrite Epl. assert (0 <= hl) as Hh by (unfold hl, MUTATION_SPEC_SIZE, LOOKUP_SPEC_SIZE; destruct mutator; lia).
  assert (size m = op_size mutator s + size rest) as Hsz by (unfold m, size; rewrite length_app, Nat2Z.inj_add, encode_op_length; lia).
  unfold op_size in Hsz. fold hl in Hsz. pose proof (size_nonneg rest).
  rewrite (load_next (Z.to_nat (Z.of_nat (length (os_path s)))) hl m (os_path s) (os_value s ++ rest)) by (done || lia). cbn [mbind option_bind].
  apply (drop_next _ (Z.of_nat (length (os_path s)))) in HP; [|done|done].
  rewrite (load_next _ _ m (os_value s) rest); [|lia|lia|by rewrite <- HP]. cbn [mbind option_bind].
  by replace (le_load [os_opcode s]) with (b2z (os_opcode s)) by (cbn; lia); replace (le_load [os_flags s]) with (b2z (os_flags s)) by (cbn; lia).
Qed.

Lemma decode_multi_encoded specs fuel mutator traits l root :
  Forall (op_ok mutator) specs -> (length specs < fuel)%nat ->
  decode_multi fuel mutator (specs_bytes mutator specs) (fresh traits l root) =
    Some (fresh traits (l ++ map spec_operation specs) (specs_root root specs)).
Proof.
  intros Hs. revert fuel l root. induction Hs as [|s specs Hok _ IH]; intros fuel l root Hf; (destruct fuel as [|fuel]; [lia|]); cbn [decode_multi].
  { rewrite bool_decide_true by done. cbn. by rewrite app_nil_r. }
  change (specs_bytes mutator (s :: specs)) with (encode_op mutator s ++ specs_bytes mutator specs).
  pose proof (encode_op_length mutator s) as Hlen. pose proof (op_size_pos mutator s) as Hpos.
  rewrite bool_decide_false by (intros E%app_eq_nil; destruct E as [E _]; rewrite E in Hlen; cbn in Hlen; lia).
  rewrite decode_spec_encoded by done. cbn [mbind option_bind]. rewrite <- Hlen, Nat2Z.id, drop_app_length.
  change (jroot_type (fresh traits l root)) with root. cbn [specs_root fold_left map].
  assert (forall root', decode_multi fuel mutator (specs_bytes mutator specs) (fresh traits (l ++ [spec_operation s]) root') =
    Some (fresh traits (l ++ spec_operation s :: map spec_operation specs) (specs_root root' specs))) as IH'.
  { intros root'. rewrite IH by (cbn in Hf; lia). by rewrite <- app_assoc. }
  destruct (_ && _); apply IH'.
Qed.

Lemma specs_length mutator specs : (length specs <= length (specs_bytes mutator specs))%nat.
Proof.
  induction specs as [|s specs IH]; [done|]. change (specs_bytes mutator (s :: specs)) with (encode_op mutator s ++ specs_bytes mutator specs).
  rewrite length_app. pose proof (encode_op_length mutator s). pose proof (op_size_pos mutator s). cbn. lia.
Qed.

(** C29: the executor of a multi-path command reads a request as the validator
    did: from every packet that the validator accepts it makes a context whose
    operations are those the body encodes, in their order, with opcode, flags,
    path and value of each; the type of a document to be made is that of the
    first operation that may make one. *)
Theorem subdoc_multi_decoded p t traits :
  packet_ok p -> subdoc_multi_validator p t = Some PROTOCOL_BINARY_RESPONSE_SUCCESS -> path traits = MULTI -> is_mutator traits = multi_is_mutator t ->
  let value := drop (Z.to_nat (nkey p + extlen (header p))) (body p) in
  exists specs, (1 <= length specs <= PROTOCOL_BINARY_SUBDOC_MULTI_MAX_PATHS)%nat /\ Forall (op_ok (is_mutator traits)) specs /\
    value = specs_bytes (is_mutator traits) specs /\
    subdoc_create_context traits (bytes_of_packet p) value = Some (fresh traits (map spec_operation specs) (specs_root JSONSL_T_ROOT specs)).
Proof.
  intros Hp Hv Hpath Hmu value. apply (subdoc_multi_accepted p t Hp) in Hv as (_ & _ & specs & Hl & Hok & Hb). rewrite <- Hmu in Hok, Hb. fold value in Hb.
  exists specs. split; [done|]. split; [done|]. split; [done|]. unfold subdoc_create_context. rewrite Hpath, Hb.
  pose proof (specs_length (is_mutator traits) specs). apply (decode_multi_encoded specs _ _ traits [] JSONSL_T_ROOT); [done|lia].
Qed.
End Decoding.

(** ** Examples *)

(** A library that knows how to append: to every path but [x]. *)
Definition appending_subjson : Subjson := {|
  op_exec _ _ doc value path :=
    if bool_decide (path = text "x") then (Error_PATH_ENOENT, no_result) else (Error_SUCCESS, mk_result [doc.2; value] (0, []));
  get_root_type _ _ := JSONSL_T_ROOT;
  empty_list_at := 20000;
  empty_object_at := 20010;
  new_chars _ := 30000;
  new_context := true;
|}.

Lemma appending_document_only : @document_only appending_subjson.
Proof. intros cmd mkdir a b d v p. cbn. by case_bool_decide. Qed.

(** An engine with one document, item 8, and a draft of it, item 16. *)
Definition document_info (at_ : Z) (doc : bytes) : item_info :=
  mk_item_info 7 (mk_mutation 0 0) 0 (size doc) 0 0 PROTOCOL_BINARY_DATATYPE_JSON (at_ - 16, text "k") [(at_, doc)].

Definition document_engine : EngineV1 (bytes * bytes) := {|
  engine_allocate _ _ _ _ _ := ret (ENGINE_SUCCESS, 16);
  engine_remove _ cas _ := ret (ENGINE_SUCCESS, cas, mk_mutation 0 0);
  engine_release _ := ret tt;
  engine_get _ _ := ret (ENGINE_SUCCESS, 8);
  engine_store _ _ _ _ := modify (fun e => (e.2, []));; ret (ENGINE_SUCCESS, 9);
  engine_arithmetic _ _ _ _ _ _ _ _ := ret (ENGINE_ENOTSUP, 0, 0);
  engine_flush := ret ENGINE_SUCCESS;
  engine_item_set_cas _ _ := ret tt;
  engine_get_item_info it _ := gets (fun e => Some (if it == 8 then document_info 9000 e.1 else document_info 10000 e.2));
  engine_set_item_info _ _ := ret true;
  copy_value _ _ data := modify (fun e => (e.1, data));
|}.

(** A multi-path mutation of the document [k]. *)
Definition mutation_packet (specs : list op_spec) : bytes :=
  let b := text "k" ++ specs_bytes true specs in
  store_request_header (mk_request_header PROTOCOL_BINARY_REQ PROTOCOL_BINARY_CMD_SUBDOC_MULTI_MUTATION (htons 1) 0 0 0 (htonl (size b)) 0 0) ++ b.

Definition push (path value : bytes) : op_spec := mk_op Byte.xcb Byte.x00 path value.

Definition mutation_of (specs : list op_spec) (e : bytes * bytes) : outcome (command_world subdoc_context (bytes * bytes)) unit :=
  @subdoc_executor _ document_engine demo_system plain_engine demo_bucket appending_subjson get_traits_MULTI_MUTATION (mutation_packet specs)
    (mk_world (demo_connection blank) None e).

Definition mutation_request (specs : list op_spec) : subdoc_request := mk_subdoc_request (text "k") (specs_bytes true specs) 0 0 0.

Definition mutation_context (specs : list op_spec) : subdoc_context :=
  fresh get_traits_MULTI_MUTATION (map spec_operation specs) JSONSL_T_ROOT.

Lemma document_fetched root doc :
  @fetched _ document_engine demo_system appending_subjson (text "k") 0 0 root (doc, []) 8 (9000, doc) 7 0 false (doc, []).
Proof. eapply (fetched_item (text "k") 0 0 root (doc, []) 8 (document_info 9000 doc)); try reflexivity. by left. Qed.

Definition both_pushed : list op_spec := [push (text "a") (text "1"); push (text "b") (text "2")].
Definition second_fails : list op_spec := [push (text "a") (text "1"); push (text "x") (text "2")].

Lemma subdoc_mutation_atomic_witness :
  (exists h k', mutation_of both_pushed (text "0", []) =
     @responds _ demo_system plain_engine demo_bucket k' (text "k")
       (mk_world ((during 8 h (demo_connection blank)) <| response_cas := 9 |>) (Some k') (text "012", []))) /\
  (exists h k', mutation_of second_fails (text "0", []) =
     @responds _ demo_system plain_engine demo_bucket k' (text "k") (mk_world (during 8 h (demo_connection blank)) (Some k') (text "0", [])) /\
     reply_pieces k' = [(be_store 1 1 ++ be_store 2 (status_value PROTOCOL_BINARY_RESPONSE_SUBDOC_PATH_ENOENT), [])]).
Proof.
  assert (forall specs : list op_spec, @document_only appending_subjson) as Hdoc by (intros _; exact appending_document_only).
  pose proof (fun specs => @subdoc_mutation_atomic (bytes * bytes) document_engine demo_system plain_engine demo_bucket appending_subjson
    (Hdoc specs) ltac:(cbn; lia) get_traits_MULTI_MUTATION (mutation_packet specs) (mutation_request specs) (demo_connection blank) (text "0", [])
    (mutation_context specs) 8 9000 (text "0") 7 0 false (text "0", [])) as W.
  split.
  - specialize (W both_pushed). assert (parse_subdoc get_traits_MULTI_MUTATION (mutation_packet both_pushed) = Some (mutation_request both_pushed)) as E1 by (by vm_compute).
    specialize (W E1 eq_refl eq_refl eq_refl).
    assert (@subdoc_create_context appending_subjson get_traits_MULTI_MUTATION (mutation_packet both_pushed) (sr_value (mutation_request both_pushed)) =
      Some (mutation_context both_pushed)) as E2 by (by vm_compute).
    specialize (W E2 eq_refl ltac:(done) (document_fetched _ _)). cbv zeta in W.
    assert (@apply_ops appending_subjson 0 (text "0") (ops (mutation_context both_pushed)) = inl (text "012")) as E3 by (by vm_compute).
    rewrite E3 in W. destruct (W 16 (text "0", text "012") 9 (mk_mutation 0 0) (text "012", [])) as (h & k' & E & _).
    + exists (text "0", []), (text "0", []), (document_info 10000 []), (text "0", []). by split_and!.
    + exists (text "012", []). split; [reflexivity|split; reflexivity].
    + exists h, k'. exact E.
  - specialize (W second_fails). assert (parse_subdoc get_traits_MULTI_MUTATION (mutation_packet second_fails) = Some (mutation_request second_fails)) as E1 by (by vm_compute).
    specialize (W E1 eq_refl eq_refl eq_refl).
    assert (@subdoc_create_context appending_subjson get_traits_MULTI_MUTATION (mutation_packet second_fails) (sr_value (mutation_request second_fails)) =
      Some (mutation_context second_fails)) as E2 by (by vm_compute).
    specialize (W E2 eq_refl ltac:(done) (document_fetched _ _)). cbv zeta in W.
    assert (@apply_ops appending_subjson 0 (text "0") (ops (mutation_context second_fails)) = inr (1, PROTOCOL_BINARY_RESPONSE_SUBDOC_PATH_ENOENT)) as E3 by (by vm_compute).
    rewrite E3 in W. destruct W as (h & k' & E & _ & _ & Hp & _). exists h, k'. split; [exact E|exact Hp].
Defined.

(** A lookup of two paths, of which one was found. *)
Definition found (status : protocol_binary_response_status) (value : Z * bytes) : operation :=
  mk_operation get_traits_GET false (text "p") [] status (mk_result [] value).

Definition looked_up : subdoc_context :=
  (SubdocCmdContext get_traits_MULTI_LOOKUP)
    <| ops := [found PROTOCOL_BINARY_RESPONSE_SUCCESS (9000, text "12"); found PROTOCOL_BINARY_RESPONSE_SUBDOC_PATH_ENOENT (0, [])] |>
    <| overall_status := PROTOCOL_BINARY_RESPONSE_SUBDOC_MULTI_PATH_FAILURE |>.

Definition with_value : connection := demo_connection (put blank 9000 (text "12")).

Lemma below_realloc a n : a + n <= 65536 -> 0 <= a -> @outside demo_system empty_dynamic a n.
Proof. intros Hn Ha. split; [right; cbn; lia|]. intros m. left. exact Hn. Qed.

(** A successful mutation of one path, for a client that asked for its
    description, with the dynamic buffer as it is before a command. *)
Definition counter_done : subdoc_context :=
  (SubdocCmdContext get_traits_MULTI_MUTATION)
    <| ops := [mk_operation get_traits_COUNTER false (text "p") (text "1") PROTOCOL_BINARY_RESPONSE_SUCCESS (mk_result [] (9000, text "12"))] |>
    <| overall_status := PROTOCOL_BINARY_RESPONSE_SUCCESS |>.

Abbreviation described := (with_value <| supports_mutation_extras := true |>).

Lemma demo_can_reply k (extras : bool) :
  let c := if extras then described else with_value in
  dynamic_room (16 + room (reply_pieces k)) c -> (length (ops k) <= PROTOCOL_BINARY_SUBDOC_MULTI_MAX_PATHS)%nat ->
  Forall (fun p : piece => Forall (fun v => v = (9000, text "12")) p.2) (reply_pieces k) -> @can_reply demo_system c k.
Proof.
  intros c Hr Hl Hv. split.
  - destruct (demo_can_respond (put blank 9000 (text "12"))). by destruct extras; split.
  - by destruct extras.
  - exact Hr.
  - subst c. destruct extras; apply below_realloc; vm_compute; discriminate.
  - eapply Forall_impl; [exact Hv|]. intros p Hp. eapply Forall_impl; [exact Hp|]. intros v ->. subst c. split.
    + by destruct extras; vm_compute.
    + destruct extras; apply below_realloc; vm_compute; discriminate.
    + right. by destruct extras; vm_compute.
    + done.
  - apply cleared_steady; [by destruct extras|exact Hl].
Qed.

Lemma subdoc_response_spec_witness :
  (exists c', @subdoc_response demo_system plain_engine looked_up with_value = Done tt c' /\
    to_send c' = subdoc_reply with_value looked_up /\
    reply_body looked_up =
      be_store 2 0 ++ be_store 4 2 ++ text "12" ++
      be_store 2 (status_value PROTOCOL_BINARY_RESPONSE_SUBDOC_PATH_ENOENT) ++ be_store 4 0) /\
  (exists c', @subdoc_response demo_system plain_engine counter_done described = Done tt c' /\
    to_send c' = subdoc_reply described counter_done /\
    size (reply_extras described counter_done) = 16 /\
    reply_body counter_done = be_store 1 0 ++ be_store 2 0 ++ be_store 4 2 ++ text "12").
Proof.
  pose proof (@subdoc_response_spec demo_system plain_engine ltac:(cbn; lia) demo_available ltac:(cbn; lia)) as W. split.
  - destruct (W looked_up with_value) as (c' & E & [_ (_ & _ & Hs)]).
    + exact I.
    + apply (demo_can_reply looked_up false); [|cbn; unfold PROTOCOL_BINARY_SUBDOC_MULTI_MAX_PATHS; lia|by repeat constructor].
      split; [split; cbn; lia|]. split; vm_compute; discriminate.
    + exists c'. split; [exact E|]. split; [exact Hs|]. vm_compute. reflexivity.
  - destruct (W counter_done described) as (c' & E & [_ (_ & _ & Hs)]).
    + vm_compute. reflexivity.
    + apply (demo_can_reply counter_done true); [|cbn; unfold PROTOCOL_BINARY_SUBDOC_MULTI_MAX_PATHS; lia|by repeat constructor].
      split; [split; cbn; lia|]. split; vm_compute; discriminate.
    + exists c'. split; [exact E|]. split; [exact Hs|]. vm_compute. split; reflexivity.
Defined.

Lemma subdoc_multi_decoded_witness :
  exists specs, Forall (op_ok false) specs /\
    @subdoc_create_context appending_subjson get_traits_MULTI_LOOKUP (bytes_of_packet lookup_packet) (drop 1 (body lookup_packet)) =
      Some (fresh get_traits_MULTI_LOOKUP (map spec_operation specs) JSONSL_T_ROOT).
Proof.
  destruct (@subdoc_multi_decoded appending_subjson lookup_packet get_multi_traits_MULTI_LOOKUP get_traits_MULTI_LOOKUP lookup_packet_ok)
    as (specs & _ & Hok & _ & E).
  - vm_compute. reflexivity.
  - reflexivity.
  - reflexivity.
  - exists specs. split; [exact Hok|]. replace JSONSL_T_ROOT with (@specs_root appending_subjson JSONSL_T_ROOT specs); [exact E|].
    clear. induction specs as [|s specs IH]; [reflexivity|]. cbn. by destruct (_ && _).
Defined.

(** A successful mutation whose result does not fit in a dynamic buffer that was
    not empty, behind the extras: the buffer moves, and the response takes the extras from where it
    was. *)
Definition crowded : connection :=
  with_value <| dynamicBuffer := mk_dynamic 50000 8 24 |> <| supports_mutation_extras := true |>.

Lemma extras_left_behind :
  match @subdoc_multi_mutation_response demo_system plain_engine counter_done crowded with
  | Done _ c => dbuffer (dynamicBuffer c) = 65536 /\ take 16 (drop 24 (pending (out c))) = seqZ 50008 16
  | _ => False
  end.
Proof. vm_compute. split; reflexivity. Qed.
