(* ===== verification/SubdocRefs.v ===== *)
(** * References of the sub-document commands

    The item a command fetched is the connection's, the one it makes is in the
    context of the command: with any engine and any library, through any number
    of attempts and repetitions, no reference is lost and none given back
    twice. *)

From S2P Require Import Prelude Memory Numbers Protocol Packet Input Output Buffers DynamicBuffer RecordUpdate StateMonad.
From S2P Require Import Connection Response SubdocValidators Dispatch EngineApi Executors ExecutorSpec References Subdoc SubdocSpec.

(** The context holds the item with the new document. *)
#[export] Instance subdoc_holder : Holder subdoc_context := fun p k => ind p (out_doc k).
#[export] Hint Unfold subdoc_holder : refs.

Section SubdocRefs.
Context {ES : Type} `{EngineV1 ES} `{System} `{Engine} `{Bucket} `{Subjson} (Hmap : map_engine_quiet).
#[local] Existing Instance counting_engine.
Context (B : Z -> Z).
Implicit Types (v : Z * bool * bool) (x : option subdoc_context) (ex : Z -> Z).

Abbreviation balanced := (balanced (K := subdoc_context) (ES := ES) B).
Abbreviation settled := (settled (K := subdoc_context) (ES := ES) B).
Abbreviation holding := (holding (K := subdoc_context) (ES := ES) B).
Abbreviation X := (ST (command_world subdoc_context (counted_state ES))).

(** ** The responses *)

Hint Resolve q_emit q_setState q_store q_write_response q_write_and_free q_add_iov q_add_header q_setWriteAndGo q_grow_dynamic q_move_offset : safe.
Hint Extern 1 (safe (beside_is _) (mcbp_write_packet _)) => apply q_write_packet; exact Hmap : safe.
Hint Extern 2 (safe (seen_is _) _) => apply quiet_seen; intros ?; eauto 1 with safe; fail : safe.

Lemma q_mutation_results l ii : quiet (mutation_results ii l).
Proof. intros v. revert ii. induction l as [|op l IH]; intros ii; cbn [mutation_results]; safely. Qed.

Lemma q_first_failure l ii : quiet (first_failure ii l).
Proof. intros v. revert ii. induction l as [|op l IH]; intros ii; cbn [first_failure]; unfold buffer_piece; safely. Qed.

Lemma q_lookup_results l : quiet (lookup_results l).
Proof. intros v. induction l as [|op l IH]; cbn [lookup_results]; safely. Qed.

Lemma q_expose p : quiet (expose p).
Proof. intros v. unfold expose. safely. Qed.
Hint Resolve q_expose q_mutation_results q_first_failure q_lookup_results : safe.

Lemma q_subdoc_response k : quiet (subdoc_response k).
Proof.
  intros v. unfold subdoc_response, subdoc_single_response, subdoc_multi_mutation_response, subdoc_multi_lookup_response, set_cas. safely.
Qed.
Hint Resolve q_subdoc_response : safe.

(** ** The phases *)

Lemma get_document_held v x it cas :
  ensures (holding v x (fun _ => 0)) (get_document_for_searching it cas) (fun _ => holding v x (fun _ => 0)).
Proof. unfold get_document_for_searching. repeat h_step. all: by apply triple_ret. Qed.
Hint Resolve get_document_held : refs.

Lemma fetch_document_balanced cas : ensures balanced (fetch_document cas) (fun _ => balanced).
Proof. apply b_from. intros v x. unfold fetch_document. repeat b_step. Qed.

Lemma fetch_balanced r key vb cas : ensures balanced (subdoc_fetch r key vb cas) (fun _ => balanced).
Proof.
  apply b_from. intros v x. unfold subdoc_fetch. repeat b_step. all: apply b_call; [refs|apply fetch_document_balanced].
Qed.

Lemma operate_all_balanced after before : ensures balanced (operate_all before after) (fun _ => balanced).
Proof.
  revert before. induction after as [|op after IH]; intros before; apply b_from; intros v x; cbn [operate_all]; repeat b_step.
  all: apply b_call; [refs|apply IH].
Qed.

Lemma operate_balanced : ensures balanced subdoc_operate (fun _ => balanced).
Proof.
  apply b_from. intros v x. unfold subdoc_operate. do 3 b_step; [b_step|]. b_step. apply b_bind; [refs|apply operate_all_balanced|].
  intros r. apply b_from. clear. intros v x. destruct r; [b_step..|]. destruct x as [k|]; [repeat b_step|].
  intros w (_ & Hx & _). unfold update_context, the_context, bind, gets. by rewrite Hx.
Qed.

Lemma allocate_balanced r key exp : ensures balanced (allocate_document r key exp) (fun _ => balanced).
Proof. apply b_from. intros v x. unfold allocate_document. repeat b_step. Qed.

Lemma store_document_balanced vb : ensures balanced (store_document vb) (fun _ => balanced).
Proof. apply b_from. intros v x. unfold store_document. repeat b_step. Qed.

Lemma update_balanced r key vb exp : ensures balanced (subdoc_update r key vb exp) (fun _ => balanced).
Proof.
  apply b_from. intros v x. unfold subdoc_update. do 3 b_step; [repeat b_step|]. b_step; [|b_step]. do 3 b_step.
  apply b_bind; [refs|apply allocate_balanced|]. intros r'. apply b_from. intros v' x'. b_step; [|b_step].
  apply b_call; [refs|apply store_document_balanced].
Qed.

(** The end of a command gives back the item of the context. *)
Lemma reset_balanced : ensures balanced subdoc_reset (fun _ w => balanced w /\ context w = None).
Proof.
  apply b_from. intros v x. eapply triple_weaken with (Q := fun _ => settled None); [done| |by intros ? w []].
  unfold subdoc_reset. do 2 h_step. eapply (triple_bind _ _ (fun _ => settled None)); [|intros ?; apply h_from; intros ?; repeat h_step].
  destruct x as [k|]; [|by h_step]. destruct (Z.eqb_spec (out_doc k) 0); cbn [negb when]; repeat h_step.
Qed.

Lemma start_balanced traits pkt value : ensures balanced (subdoc_start traits pkt value) (fun _ => balanced).
Proof.
  apply b_from. intros v x. unfold subdoc_start. do 2 b_step. destruct x as [k|]; [by b_step|]. b_step; [by intros w|]. do 2 b_step.
  match goal with E : subdoc_create_context _ _ _ = Some _ |- _ => apply created_fresh in E as (l & root & -> & _) end. repeat b_step.
Qed.

Lemma attempt_balanced n traits pkt req r : ensures balanced (subdoc_attempt n traits pkt req r) (fun _ => balanced).
Proof.
  revert r. induction n as [|n IH]; intros r; apply b_from; intros v x; cbn [subdoc_attempt]; [b_step|].
  apply b_bind; [refs|apply start_balanced|]. intros _. apply b_from. intros v1 x1.
  apply b_bind; [refs|apply fetch_balanced|]. intros ok. apply b_from. intros v2 x2. b_step; [b_step|].
  apply b_bind; [refs|apply operate_balanced|]. intros ok'. apply b_from. intros v3 x3. b_step; [b_step|].
  apply b_bind; [refs|apply update_balanced|]. intros r'. apply b_from. intros v4 x4. destruct r'; try b_step.
  - repeat b_step.
  - do 2 b_step. destruct v4 as [[it b] sd]. cbn [fst snd] in *.
    eapply (triple_bind _ _ (fun _ => balanced)).
    { destruct (Z.eqb_spec it 0); cbn [negb when]; repeat b_step. }
    intros _. eapply triple_bind; [apply reset_balanced|]. intros ?. eapply triple_weaken; [|apply IH|done]. by intros w [].
  - b_step.
Qed.

(** C10: the sub-document executors keep the references to items in balance, with
    any engine and any library: whatever the engine answers, and however often
    the command is repeated or starts again, every reference that was taken is
    given back, or is the connection's item, or the new document in the context,
    which is given back when the command is over. *)
Theorem subdoc_references traits pkt w :
  balanced w ->
  match subdoc_executor traits pkt w with
  | Done _ w' =>
      balanced w' /\
      match subdoc_reset w' with
      | Done _ w2 => balanced w2 /\ context w2 = None
      | _ => True
      end
  | _ => True
  end.
Proof.
  intros Hw. assert (ensures balanced (subdoc_executor traits pkt) (fun _ => balanced)) as He.
  { apply b_from. intros v x. unfold subdoc_executor. do 3 b_step. apply b_call; [refs|apply attempt_balanced]. }
  specialize (He w Hw). destruct (subdoc_executor traits pkt w) as [a w'|w'|]; [|done..]. split; [exact He|exact (reset_balanced w' He)].
Qed.
End SubdocRefs.

(** The example of [SubdocSpec] on an engine that counts. *)
Definition counted_start : command_world subdoc_context (counted_state (bytes * bytes)) :=
  mk_world (demo_connection blank) None ((text "0", []), fun _ => 0).

Abbreviation mutation_counted := (@subdoc_executor _ (@counting_engine _ document_engine) demo_system plain_engine demo_bucket appending_subjson
  get_traits_MULTI_MUTATION (mutation_packet both_pushed) counted_start).

(** How often the items are in use afterwards. *)
Definition uses (r : outcome (command_world subdoc_context (counted_state (bytes * bytes))) unit) : option (Z * Z * Z) :=
  match r with Done _ w => Some ((eng w).2 8, (eng w).2 16, item (conn w)) | _ => None end.

Lemma subdoc_references_witness :
  exists w', mutation_counted = Done tt w' /\ balanced (fun _ => 0) w' /\ uses (Done tt w') = Some (1, 1, 8).
Proof.
  pose proof (@subdoc_references (bytes * bytes) document_engine demo_system plain_engine demo_bucket appending_subjson plain_quiet
    (fun _ => 0) get_traits_MULTI_MUTATION (mutation_packet both_pushed) counted_start) as W.
  assert (balanced (fun _ => 0) counted_start) as Hb.
  { intros p Hp. cbn. unfold ind. destruct (Z.eqb_spec p 0); [contradiction|reflexivity]. }
  specialize (W Hb). assert (uses mutation_counted = Some (1, 1, 8)) as E by (vm_compute; reflexivity).
  destruct mutation_counted as [[] w'|w'|]; [|discriminate E..]. exists w'. split; [reflexivity|]. split; [exact (proj1 W)|exact E].
Defined.
