(* ===== verification/Dcp.v ===== *)
(** * The DCP protocol

    The parts of [daemon/mcbp_executors.cc] for DCP, by which servers replicate
    their data: the functions an engine calls to put messages into a stream
    ([dcp_message_...]), the loop that sends them ([ship_mcbp_dcp_log]), and the
    executors that pass received messages on to the engine.

    An engine's functions for DCP are the class [DcpInterface].  They run on the
    whole world, as they call back to the connection. *)

From S2P Require Import Prelude Memory Numbers Protocol Packet Input Output Buffers DynamicBuffer RecordUpdate StateMonad.
From S2P Require Import Connection Response Validators Dispatch EngineApi Executors.

Section Dcp.
Context {K ES : Type}.

Abbreviation X := (ST (command_world K ES)).

(** [vbucket_failover_t] *)
Record vbucket_failover_t := mk_failover {
  fo_uuid : Z;
  fo_seqno : Z;
}.

(** [struct dcp_message_producers] *)
Record dcp_message_producers := mk_producers {
  p_get_failover_log : Z -> Z -> X ENGINE_ERROR_CODE;
  p_stream_req : Z -> Z -> Z -> Z -> Z -> Z -> Z -> Z -> X ENGINE_ERROR_CODE;
  p_add_stream_rsp : Z -> Z -> Z -> X ENGINE_ERROR_CODE;
  p_marker_rsp : Z -> Z -> X ENGINE_ERROR_CODE;
  p_set_vbucket_state_rsp : Z -> Z -> X ENGINE_ERROR_CODE;
  p_stream_end : Z -> Z -> Z -> X ENGINE_ERROR_CODE;
  p_marker : Z -> Z -> Z -> Z -> Z -> X ENGINE_ERROR_CODE;
  p_mutation : Z -> Z -> Z -> Z -> Z -> Z -> bytes -> Z -> X ENGINE_ERROR_CODE;
  p_deletion : Z -> bytes -> Z -> Z -> Z -> Z -> bytes -> X ENGINE_ERROR_CODE;
  p_expiration : Z -> bytes -> Z -> Z -> Z -> Z -> bytes -> X ENGINE_ERROR_CODE;
  p_flush : Z -> Z -> X ENGINE_ERROR_CODE;
  p_set_vbucket_state : Z -> Z -> Z -> X ENGINE_ERROR_CODE;
  p_noop : Z -> X ENGINE_ERROR_CODE;
  p_buffer_acknowledgement : Z -> Z -> Z -> X ENGINE_ERROR_CODE;
  p_control : Z -> bytes -> bytes -> X ENGINE_ERROR_CODE;
}.

(** [struct dcp_interface]; a member an engine does not have is [None].  The last
    two are of the server: whether there is memory to note an item, and the
    requests per event of a connection with medium priority. *)
Class DcpInterface := {
  dcp_step : dcp_message_producers -> X ENGINE_ERROR_CODE;
  dcp_open : option (forall (opaque seqno flags : Z) (name : bytes), X ENGINE_ERROR_CODE);
  dcp_add_stream : option (forall opaque vbucket flags : Z, X ENGINE_ERROR_CODE);
  dcp_close_stream : option (forall opaque vbucket : Z, X ENGINE_ERROR_CODE);
  dcp_stream_req : option (forall (flags opaque vbucket start_seqno end_seqno vbucket_uuid snap_start_seqno snap_end_seqno : Z)
    (callback : list vbucket_failover_t -> X ENGINE_ERROR_CODE), X (ENGINE_ERROR_CODE * Z));
  dcp_get_failover_log : option (forall (opaque vbucket : Z)
    (callback : list vbucket_failover_t -> X ENGINE_ERROR_CODE), X ENGINE_ERROR_CODE);
  dcp_stream_end : option (forall opaque vbucket flags : Z, X ENGINE_ERROR_CODE);
  dcp_snapshot_marker : option (forall opaque vbucket start_seqno end_seqno flags : Z, X ENGINE_ERROR_CODE);
  dcp_mutation : option (forall (opaque : Z) (key value : bytes)
    (cas vbucket flags datatype by_seqno rev_seqno expiration lock_time : Z) (meta : bytes) (nru : Z), X ENGINE_ERROR_CODE);
  dcp_deletion : option (forall (opaque : Z) (key : bytes) (cas vbucket by_seqno rev_seqno : Z) (meta : bytes), X ENGINE_ERROR_CODE);
  dcp_expiration : option (forall (opaque : Z) (key : bytes) (cas vbucket by_seqno rev_seqno : Z) (meta : bytes), X ENGINE_ERROR_CODE);
  dcp_flush : option (forall opaque vbucket : Z, X ENGINE_ERROR_CODE);
  dcp_set_vbucket_state : option (forall opaque vbucket state : Z, X ENGINE_ERROR_CODE);
  dcp_noop : option (forall opaque : Z, X ENGINE_ERROR_CODE);
  dcp_buffer_acknowledgement : option (forall opaque vbucket buffer_bytes : Z, X ENGINE_ERROR_CODE);
  dcp_control : option (forall (opaque : Z) (key value : bytes), X ENGINE_ERROR_CODE);
  reserve_ok : bool;
  medium_priority_requests : Z;
}.
End Dcp.
Arguments dcp_message_producers K ES : clear implicits.
Arguments DcpInterface K ES : clear implicits.

Section Producers.
Context {K ES : Type} `{EngineV1 ES} `{System} `{Engine} `{Bucket} `{DcpInterface K ES}.

Abbreviation X := (ST (command_world K ES)).

(** ** Message producers *)

(** Whether [n] bytes fit in the write buffer. *)
Definition has_room (n : Z) : M bool := gets (fun c => bbytes (write c) + n <? bsize (write c)).

(** Data is written behind what the write buffer has. *)
Definition write_curr (bs : bytes) : M unit := at_ <- gets (fun c => bcurr (write c));; store at_ bs.

Definition advance (n : Z) : M unit :=
  modify (fun c => c <| write := mk_shared (buf (write c)) (bcurr (write c) + n) (bsize (write c)) (u32 (bbytes (write c) + n)) |>).

Definition add_curr (n : Z) : M unit := at_ <- gets (fun c => bcurr (write c));; add_iov at_ n;; ret tt.

(** The end of most of the producers: a packet without key and value. *)
Definition put_packet (packet : bytes) : X ENGINE_ERROR_CODE :=
  on_conn (write_curr packet);;
  on_conn (add_curr (size packet));;
  on_conn (advance (size packet));;
  ret ENGINE_SUCCESS.

(** A packet that fits, or not. *)
Definition produce (c : protocol_binary_command) (packet : bytes) : X ENGINE_ERROR_CODE :=
  on_conn (assign cmd (cmd_value c));;
  room <- on_conn (has_room (size packet));;
  if negb room then ret ENGINE_E2BIG else put_packet packet.

(** A request of a producer: what it does not set is 0. *)
Definition request (c : protocol_binary_command) (keylen extlen datatype vbucket bodylen opaque cas : Z) : bytes :=
  store_request_header (mk_request_header PROTOCOL_BINARY_REQ (cmd_value c) keylen extlen datatype vbucket bodylen opaque cas).

Definition dcp_message_get_failover_log (opaque vbucket : Z) : X ENGINE_ERROR_CODE :=
  let c := PROTOCOL_BINARY_CMD_DCP_GET_FAILOVER_LOG in
  produce c (request c 0 0 0 (htons vbucket) 0 opaque 0).

Definition dcp_message_stream_req (opaque vbucket flags start_seqno end_seqno vbucket_uuid snap_start_seqno snap_end_seqno : Z)
    : X ENGINE_ERROR_CODE :=
  let c := PROTOCOL_BINARY_CMD_DCP_STREAM_REQ in
  produce c
    (request c 0 48 0 (htons vbucket) (htonl 48) opaque 0 ++
     le_store 4 (ntohl flags) ++ le_store 4 0 ++ le_store 8 (ntohll start_seqno) ++ le_store 8 (ntohll end_seqno) ++
     le_store 8 (ntohll vbucket_uuid) ++ le_store 8 (ntohll snap_start_seqno) ++ le_store 8 (ntohll snap_end_seqno)).

Definition response (c : protocol_binary_command) (extlen status bodylen opaque : Z) : bytes :=
  store_response_header (mk_response_header PROTOCOL_BINARY_RES (cmd_value c) 0 extlen 0 (htons status) bodylen opaque 0).

Definition dcp_message_add_stream_response (opaque dialogopaque status : Z) : X ENGINE_ERROR_CODE :=
  let c := PROTOCOL_BINARY_CMD_DCP_ADD_STREAM in
  produce c (response c 4 status (htonl 4) opaque ++ le_store 4 (ntohl dialogopaque)).

Definition dcp_message_marker_response (opaque status : Z) : X ENGINE_ERROR_CODE :=
  let c := PROTOCOL_BINARY_CMD_DCP_SNAPSHOT_MARKER in
  produce c (response c 0 status 0 opaque).

Definition dcp_message_set_vbucket_state_response (opaque status : Z) : X ENGINE_ERROR_CODE :=
  let c := PROTOCOL_BINARY_CMD_DCP_SET_VBUCKET_STATE in
  produce c (response c 0 status 0 opaque).

Definition dcp_message_stream_end (opaque vbucket flags : Z) : X ENGINE_ERROR_CODE :=
  let c := PROTOCOL_BINARY_CMD_DCP_STREAM_END in
  produce c (request c 0 4 0 (htons vbucket) (htonl 4) opaque 0 ++ le_store 4 (ntohl flags)).

Definition dcp_message_marker (opaque vbucket start_seqno end_seqno flags : Z) : X ENGINE_ERROR_CODE :=
  let c := PROTOCOL_BINARY_CMD_DCP_SNAPSHOT_MARKER in
  produce c
    (request c 0 20 0 (htons vbucket) (htonl 20) opaque 0 ++
     le_store 8 (htonll start_seqno) ++ le_store 8 (htonll end_seqno) ++ le_store 4 (htonl flags)).

(** [reserveItem] *)
Definition reserveItem (it : Z) : X bool :=
  if reserve_ok then on_conn (modify (fun c => c <| reserved_items := reserved_items c ++ [it] |>));; ret true else ret false.

(** The fixed part of a mutation. *)
Definition mutation_head (opaque vbucket by_seqno rev_seqno lock_time nmeta nru : Z) (i : item_info) : bytes :=
  request PROTOCOL_BINARY_CMD_DCP_MUTATION (htons (size (inf_key i).2)) 31 (inf_datatype i) (htons vbucket)
    (ntohl (u32 (31 + size (inf_key i).2 + inf_nbytes i + nmeta))) opaque (htonll (inf_cas i)) ++
  le_store 8 (htonll by_seqno) ++ le_store 8 (htonll rev_seqno) ++ le_store 4 (inf_flags i) ++
  le_store 4 (htonl (inf_exptime i)) ++ le_store 4 (htonl lock_time) ++ le_store 2 (htons nmeta) ++ le_store 1 nru.

Definition dcp_message_mutation (opaque it vbucket by_seqno rev_seqno lock_time : Z) (meta : bytes) (nru : Z) : X ENGINE_ERROR_CODE :=
  on_conn (assign cmd (cmd_value PROTOCOL_BINARY_CMD_DCP_MUTATION));;
  room <- on_conn (has_room (HEADER_SIZE + 31 + size meta));;
  if negb room then ret ENGINE_E2BIG else
  info <- bucket_get_item_info it iov_max;;
  match info with
  | None => bucket_release_item it;; ret ENGINE_FAILED
  | Some i =>
      reserved <- reserveItem it;;
      if negb reserved then bucket_release_item it;; ret ENGINE_FAILED else
      let packet := mutation_head opaque vbucket by_seqno rev_seqno lock_time (size meta) nru i in
      on_conn (write_curr packet);;
      on_conn (add_curr (size packet));;
      on_conn (advance (size packet));;
      on_conn (add_iov (inf_key i).1 (size (inf_key i).2));;
      on_conn (add_values (inf_value i));;
      on_conn (write_curr meta);;
      on_conn (add_curr (size meta));;
      on_conn (advance (size meta));;
      ret ENGINE_SUCCESS
  end.

(** A packet with key and more behind it, all in the write buffer. *)
Definition produce_with (c : protocol_binary_command) (packet key more : bytes) : X ENGINE_ERROR_CODE :=
  on_conn (assign cmd (cmd_value c));;
  room <- on_conn (has_room (size packet + size key + size more));;
  if negb room then ret ENGINE_E2BIG else
  on_conn (add_curr (size packet + size key + size more));;
  on_conn (write_curr packet);;
  on_conn (advance (size packet));;
  on_conn (write_curr key);;
  on_conn (advance (size key));;
  on_conn (write_curr more);;
  on_conn (advance (size more));;
  ret ENGINE_SUCCESS.

Definition deletion_head (c : protocol_binary_command) (opaque nkey cas vbucket by_seqno rev_seqno nmeta : Z) : bytes :=
  request c (htons nkey) 18 0 (htons vbucket) (ntohl (18 + nkey + nmeta)) opaque (htonll cas) ++
  le_store 8 (htonll by_seqno) ++ le_store 8 (htonll rev_seqno) ++ le_store 2 (htons nmeta).

Definition dcp_message_deletion (opaque : Z) (key : bytes) (cas vbucket by_seqno rev_seqno : Z) (meta : bytes) : X ENGINE_ERROR_CODE :=
  let c := PROTOCOL_BINARY_CMD_DCP_DELETION in
  produce_with c (deletion_head c opaque (size key) cas vbucket by_seqno rev_seqno (size meta)) key meta.

Definition dcp_message_expiration (opaque : Z) (key : bytes) (cas vbucket by_seqno rev_seqno : Z) (meta : bytes) : X ENGINE_ERROR_CODE :=
  let c := PROTOCOL_BINARY_CMD_DCP_EXPIRATION in
  produce_with c (deletion_head c opaque (size key) cas vbucket by_seqno rev_seqno (size meta)) key meta.

Definition dcp_message_flush (opaque vbucket : Z) : X ENGINE_ERROR_CODE :=
  let c := PROTOCOL_BINARY_CMD_DCP_FLUSH in
  produce c (request c 0 0 0 (htons vbucket) 0 opaque 0).

Definition dcp_message_set_vbucket_state (opaque vbucket state : Z) : X ENGINE_ERROR_CODE :=
  let c := PROTOCOL_BINARY_CMD_DCP_SET_VBUCKET_STATE in
  on_conn (assign cmd (cmd_value c));;
  room <- on_conn (has_room (HEADER_SIZE + 1));;
  if negb room then ret ENGINE_E2BIG else
  if negb (is_valid_vbucket_state_t state) then ret ENGINE_EINVAL else
  put_packet (request c 0 1 0 (htons vbucket) (htonl 1) opaque 0 ++ le_store 1 (u8 state)).

Definition dcp_message_noop (opaque : Z) : X ENGINE_ERROR_CODE :=
  let c := PROTOCOL_BINARY_CMD_DCP_NOOP in
  produce c (request c 0 0 0 0 0 opaque 0).

Definition dcp_message_buffer_acknowledgement (opaque vbucket buffer_bytes : Z) : X ENGINE_ERROR_CODE :=
  let c := PROTOCOL_BINARY_CMD_DCP_BUFFER_ACKNOWLEDGEMENT in
  produce c (request c 0 4 0 (htons vbucket) (ntohl 4) opaque 0 ++ le_store 4 (ntohl buffer_bytes)).

Definition dcp_message_control (opaque : Z) (key value : bytes) : X ENGINE_ERROR_CODE :=
  let c := PROTOCOL_BINARY_CMD_DCP_CONTROL in
  produce_with c (request c (ntohs (size key)) 0 0 0 (ntohl (u32 (size value + size key))) opaque 0) key value.

(** ** Sending *)

Definition producers : dcp_message_producers K ES := mk_producers
  dcp_message_get_failover_log dcp_message_stream_req dcp_message_add_stream_response dcp_message_marker_response
  dcp_message_set_vbucket_state_response dcp_message_stream_end dcp_message_marker dcp_message_mutation dcp_message_deletion
  dcp_message_expiration dcp_message_flush dcp_message_set_vbucket_state dcp_message_noop dcp_message_buffer_acknowledgement
  dcp_message_control.

Definition ship_mcbp_dcp_log : X unit :=
  on_conn (assign start gethrtime);;
  ok <- on_conn (add_msghdr true);;
  if negb ok then on_conn (setState conn_closing) else
  on_conn (modify (fun c => c <| write := mk_shared (buf (write c)) (buf (write c)) (bsize (write c)) 0 |>));;
  on_conn (assign ewouldblock false);;
  r <- dcp_step producers;;
  match r with
  | ENGINE_SUCCESS => on_conn (assign ewouldblock true)
  | ENGINE_WANT_MORE => on_conn (setState conn_mwrite);; on_conn (setWriteAndGo conn_ship_log)
  | _ => on_conn (setState conn_closing)
  end.
End Producers.

Section DcpExecutors.
Context {K ES : Type} `{System} `{Engine} `{Bucket} `{DcpInterface K ES}.

Abbreviation X := (ST (command_world K ES)).

(** ** Executors *)

(** The answer to most requests: [success] says what follows a call that
    succeeded. *)
Definition dcp_answer (success : X unit) (r : ENGINE_ERROR_CODE) : X unit :=
  match r with
  | ENGINE_SUCCESS => success
  | ENGINE_DISCONNECT => on_conn (setState conn_closing)
  | ENGINE_EWOULDBLOCK => on_conn (assign ewouldblock true)
  | _ => on_conn (mcbp_write_packet (engine_error_2_mcbp_protocol_error r))
  end.

(** The call of the engine, unless it answers a call it blocked on. *)
Definition dcp_call (call : X ENGINE_ERROR_CODE) : X ENGINE_ERROR_CODE :=
  r <- on_conn take_aiostat;;
  on_conn (assign ewouldblock false);;
  if decide (r = ENGINE_SUCCESS) then call else ret r.

Definition dcp_execute {F : Type} (f : option F) (call : F -> X ENGINE_ERROR_CODE) (success : X unit) : X unit :=
  match f with
  | None => on_conn (mcbp_write_packet PROTOCOL_BINARY_RESPONSE_NOT_SUPPORTED)
  | Some f => r <- dcp_call (call f);; dcp_answer success r
  end.

Definition answer_success : X unit := on_conn (mcbp_write_packet PROTOCOL_BINARY_RESPONSE_SUCCESS).

(** A member of a request of [n] bytes at [off]. *)
Definition member (n : nat) (off : Z) (pkt : bytes) : X Z := must (load_int n off pkt).

Definition data (off n : Z) (pkt : bytes) : X bytes := must (load (Z.to_nat n) off pkt).

Definition req_header (pkt : bytes) : X protocol_binary_request_header := must (load_request_header pkt).

(** The call is noted in the audit log, which is not modelled. *)
Definition dcp_open_executor (pkt : bytes) : X unit :=
  match dcp_open with
  | None => on_conn (mcbp_write_packet PROTOCOL_BINARY_RESPONSE_NOT_SUPPORTED)
  | Some f =>
      r <- on_conn take_aiostat;;
      on_conn (assign ewouldblock false);;
      on_conn (assign supports_datatype true);;
      r <- (if decide (r = ENGINE_SUCCESS) then
              req <- req_header pkt;;
              seqno <- member 4 24 pkt;;
              flags <- member 4 28 pkt;;
              name <- data 32 (ntohs (keylen req)) pkt;;
              f (opaque req) (ntohl seqno) (ntohl flags) name
            else ret r);;
      dcp_answer answer_success r
  end.

Definition dcp_add_stream_executor (pkt : bytes) : X unit :=
  dcp_execute dcp_add_stream (fun f =>
    req <- req_header pkt;;
    flags <- member 4 24 pkt;;
    f (opaque req) (ntohs (vbucket req)) (ntohl flags))
  (on_conn (assign dcp true);; on_conn (setState conn_ship_log)).

Definition dcp_close_stream_executor (pkt : bytes) : X unit :=
  dcp_execute dcp_close_stream (fun f =>
    req <- req_header pkt;;
    f (ntohl (opaque req)) (ntohs (vbucket req)))
  answer_success.

(** The callback of the engine that adds the failover log to the response; the
    entries are put in host order again afterwards. *)
Definition failover_entry (e : vbucket_failover_t) : bytes := le_store 8 (htonll (fo_uuid e)) ++ le_store 8 (htonll (fo_seqno e)).

Definition add_failover_log (entries : list vbucket_failover_t) : X ENGINE_ERROR_CODE :=
  ok <- on_conn (mcbp_response_handler snappy_uncompressed_length snappy_uncompress [] []
                   (concat (map failover_entry entries)) 0 (status_value PROTOCOL_BINARY_RESPONSE_SUCCESS) 0);;
  ret (if (ok : bool) then ENGINE_SUCCESS else ENGINE_ENOMEM).

(** The response the engine built, or an empty one. *)
Definition answer_built : X unit :=
  root <- on_conn (gets (fun c => dbuffer (dynamicBuffer c)));;
  if root != 0 then on_conn mcbp_write_and_free else answer_success.

Definition dcp_get_failover_log_executor (pkt : bytes) : X unit :=
  dcp_execute dcp_get_failover_log (fun f =>
    req <- req_header pkt;;
    f (opaque req) (ntohs (vbucket req)) add_failover_log)
  answer_built.

Definition answer_rollback (rollback_seqno : Z) : X unit :=
  ok <- on_conn (mcbp_response_handler snappy_uncompressed_length snappy_uncompress [] []
                   (le_store 8 (htonll rollback_seqno)) 0 (status_value PROTOCOL_BINARY_RESPONSE_ROLLBACK) 0);;
  if (ok : bool) then on_conn mcbp_write_and_free else on_conn (mcbp_write_packet PROTOCOL_BINARY_RESPONSE_ENOMEM).

(** The call of the engine and the answer.  A blocked call must not end with a
    rollback. *)
Definition execute_stream_req (call : X (ENGINE_ERROR_CODE * Z)) : X unit :=
  r <- on_conn take_aiostat;;
  on_conn (assign ewouldblock false);;
  if decide (r = ENGINE_ROLLBACK) then on_conn (setState conn_closing) else
  r <- (if decide (r = ENGINE_SUCCESS) then call else ret (r, 0));;
  match r with
  | (ENGINE_ROLLBACK, rollback_seqno) => answer_rollback rollback_seqno
  | (r, _) =>
      dcp_answer
        (on_conn (assign dcp true);;
         on_conn (assign max_reqs_per_event medium_priority_requests);;
         answer_built) r
  end.

Definition dcp_stream_req_executor (pkt : bytes) : X unit :=
  match dcp_stream_req with
  | None => on_conn (mcbp_write_packet PROTOCOL_BINARY_RESPONSE_NOT_SUPPORTED)
  | Some f =>
      flags <- member 4 24 pkt;;
      start_seqno <- member 8 32 pkt;;
      end_seqno <- member 8 40 pkt;;
      vbucket_uuid <- member 8 48 pkt;;
      snap_start_seqno <- member 8 56 pkt;;
      snap_end_seqno <- member 8 64 pkt;;
      execute_stream_req
        (h <- on_conn (gets bheader);;
         f (ntohl flags) (opaque h) (vbucket h) (ntohll start_seqno) (ntohll end_seqno) (ntohll vbucket_uuid)
           (ntohll snap_start_seqno) (ntohll snap_end_seqno) add_failover_log)
  end.

Definition ship : X unit := on_conn (setState conn_ship_log).
Definition next_command : X unit := on_conn (setState conn_new_cmd).

Definition dcp_stream_end_executor (pkt : bytes) : X unit :=
  dcp_execute dcp_stream_end (fun f =>
    req <- req_header pkt;;
    flags <- member 4 24 pkt;;
    f (opaque req) (ntohs (vbucket req)) (ntohl flags))
  ship.

Definition dcp_snapshot_marker_executor (pkt : bytes) : X unit :=
  dcp_execute dcp_snapshot_marker (fun f =>
    req <- req_header pkt;;
    flags <- member 4 40 pkt;;
    start_seqno <- member 8 24 pkt;;
    end_seqno <- member 8 32 pkt;;
    f (opaque req) (ntohs (vbucket req)) (ntohll start_seqno) (ntohll end_seqno) (ntohl flags))
  ship.

Definition dcp_mutation_executor (pkt : bytes) : X unit :=
  dcp_execute dcp_mutation (fun f =>
    req <- req_header pkt;;
    flags <- member 4 40 pkt;;
    by_seqno <- member 8 24 pkt;;
    rev_seqno <- member 8 32 pkt;;
    expiration <- member 4 44 pkt;;
    lock_time <- member 4 48 pkt;;
    nmeta <- member 2 52 pkt;;
    nru <- member 1 54 pkt;;
    let nkey := ntohs (keylen req) in
    let nmeta := ntohs nmeta in
    let nvalue := u32 (ntohl (bodylen req) - nkey - extlen req - nmeta) in
    key <- data 55 nkey pkt;;
    value <- data (55 + nkey) nvalue pkt;;
    meta <- data (55 + nkey + nvalue) nmeta pkt;;
    f (opaque req) key value (ntohll (cas req)) (ntohs (vbucket req)) flags (datatype req) (ntohll by_seqno)
      (ntohll rev_seqno) (ntohl expiration) (ntohl lock_time) meta nru)
  next_command.

(** What a deletion and an expiration hand to the engine. *)
Definition call_deletion (f : Z -> bytes -> Z -> Z -> Z -> Z -> bytes -> X ENGINE_ERROR_CODE) (pkt : bytes)
    : X ENGINE_ERROR_CODE :=
  req <- req_header pkt;;
  by_seqno <- member 8 24 pkt;;
  rev_seqno <- member 8 32 pkt;;
  nmeta <- member 2 40 pkt;;
  let nkey := ntohs (keylen req) in
  key <- data 42 nkey pkt;;
  meta <- data (42 + nkey) (ntohs nmeta) pkt;;
  f (opaque req) key (ntohll (cas req)) (ntohs (vbucket req)) (ntohll by_seqno) (ntohll rev_seqno) meta.

Definition dcp_deletion_executor (pkt : bytes) : X unit :=
  dcp_execute dcp_deletion (fun f => call_deletion f pkt) next_command.

Definition dcp_expiration_executor (pkt : bytes) : X unit :=
  dcp_execute dcp_expiration (fun f => call_deletion f pkt) next_command.

Definition dcp_flush_executor (pkt : bytes) : X unit :=
  dcp_execute dcp_flush (fun f =>
    req <- req_header pkt;;
    f (opaque req) (ntohs (vbucket req)))
  next_command.

(** Any error closes the connection. *)
Definition execute_set_vbucket_state (call : X ENGINE_ERROR_CODE) : X unit :=
  r <- dcp_call call;;
  match r with
  | ENGINE_SUCCESS => ship
  | ENGINE_EWOULDBLOCK => on_conn (assign ewouldblock true)
  | _ => on_conn (setState conn_closing)
  end.

Definition dcp_set_vbucket_state_executor (pkt : bytes) : X unit :=
  match dcp_set_vbucket_state with
  | None => on_conn (mcbp_write_packet PROTOCOL_BINARY_RESPONSE_NOT_SUPPORTED)
  | Some f =>
      execute_set_vbucket_state
        (state <- member 1 24 pkt;;
         h <- on_conn (gets bheader);;
         f (opaque h) (vbucket h) state)
  end.

Definition dcp_noop_executor (pkt : bytes) : X unit :=
  dcp_execute dcp_noop (fun f => h <- on_conn (gets bheader);; f (opaque h)) answer_success.

Definition dcp_buffer_acknowledgement_executor (pkt : bytes) : X unit :=
  dcp_execute dcp_buffer_acknowledgement (fun f =>
    buffer_bytes <- member 4 24 pkt;;
    h <- on_conn (gets bheader);;
    f (opaque h) (vbucket h) (ntohl buffer_bytes))
  next_command.

Definition dcp_control_executor (pkt : bytes) : X unit :=
  dcp_execute dcp_control (fun f =>
    req <- req_header pkt;;
    let nkey := ntohs (keylen req) in
    let nvalue := u32 (ntohl (bodylen req) - nkey) in
    key <- data 24 nkey pkt;;
    value <- data (24 + nkey) nvalue pkt;;
    h <- on_conn (gets bheader);;
    f (opaque h) key value)
  answer_success.

(** The executor of a request. *)
Definition dcp_executor (e : mcbp_executor) : option (bytes -> X unit) :=
  match e with
  | Dispatch.dcp_open_executor => Some dcp_open_executor
  | Dispatch.dcp_add_stream_executor => Some dcp_add_stream_executor
  | Dispatch.dcp_close_stream_executor => Some dcp_close_stream_executor
  | Dispatch.dcp_snapshot_marker_executor => Some dcp_snapshot_marker_executor
  | Dispatch.dcp_deletion_executor => Some dcp_deletion_executor
  | Dispatch.dcp_expiration_executor => Some dcp_expiration_executor
  | Dispatch.dcp_flush_executor => Some dcp_flush_executor
  | Dispatch.dcp_get_failover_log_executor => Some dcp_get_failover_log_executor
  | Dispatch.dcp_mutation_executor => Some dcp_mutation_executor
  | Dispatch.dcp_set_vbucket_state_executor => Some dcp_set_vbucket_state_executor
  | Dispatch.dcp_noop_executor => Some dcp_noop_executor
  | Dispatch.dcp_buffer_acknowledgement_executor => Some dcp_buffer_acknowledgement_executor
  | Dispatch.dcp_control_executor => Some dcp_control_executor
  | Dispatch.dcp_stream_end_executor => Some dcp_stream_end_executor
  | Dispatch.dcp_stream_req_executor => Some dcp_stream_req_executor
  | _ => None
  end.
End DcpExecutors.
