(* ===== verification/DcpSpec.v ===== *)
(** * Properties of the DCP protocol

    A message an engine puts into a stream arrives: it is sent as one complete
    packet behind those before it, the receiver's validators accept the packet,
    and the executor of its opcode calls the engine of the receiver with the
    arguments the sender was given. *)

From S2P Require Import Prelude Memory Numbers Protocol FunctionChain Packet Input Output Buffers DynamicBuffer RecordUpdate StateMonad.
From S2P Require Import Connection Response Validators Dispatch EngineApi Executors ExecutorSpec Dcp.

(** ** Messages *)

(** The messages of a stream, with the arguments of the producer; a mutation
    comes with what the engine says of the item. *)
Inductive dcp_message :=
| GetFailoverLog (opaque vbucket : Z)
| StreamReq (opaque vbucket flags start_seqno end_seqno uuid snap_start_seqno snap_end_seqno : Z)
| StreamEnd (opaque vbucket flags : Z)
| Marker (opaque vbucket start_seqno end_seqno flags : Z)
| Mutation (opaque it vbucket by_seqno rev_seqno lock_time : Z) (meta : bytes) (nru : Z) (i : item_info)
| Deletion (opaque : Z) (key : bytes) (cas vbucket by_seqno rev_seqno : Z) (meta : bytes)
| Expiration (opaque : Z) (key : bytes) (cas vbucket by_seqno rev_seqno : Z) (meta : bytes)
| Flush (opaque vbucket : Z)
| SetVBucketState (opaque vbucket state : Z)
| Noop (opaque : Z)
| BufferAcknowledgement (opaque vbucket buffer_bytes : Z)
| Control (opaque : Z) (key value : bytes).

Definition value_of (i : item_info) : bytes := concat (map snd (inf_value i)).

Definition command_of (m : dcp_message) : protocol_binary_command :=
  match m with
  | GetFailoverLog _ _ => PROTOCOL_BINARY_CMD_DCP_GET_FAILOVER_LOG
  | StreamReq _ _ _ _ _ _ _ _ => PROTOCOL_BINARY_CMD_DCP_STREAM_REQ
  | StreamEnd _ _ _ => PROTOCOL_BINARY_CMD_DCP_STREAM_END
  | Marker _ _ _ _ _ => PROTOCOL_BINARY_CMD_DCP_SNAPSHOT_MARKER
  | Mutation _ _ _ _ _ _ _ _ _ => PROTOCOL_BINARY_CMD_DCP_MUTATION
  | Deletion _ _ _ _ _ _ _ => PROTOCOL_BINARY_CMD_DCP_DELETION
  | Expiration _ _ _ _ _ _ _ => PROTOCOL_BINARY_CMD_DCP_EXPIRATION
  | Flush _ _ => PROTOCOL_BINARY_CMD_DCP_FLUSH
  | SetVBucketState _ _ _ => PROTOCOL_BINARY_CMD_DCP_SET_VBUCKET_STATE
  | Noop _ => PROTOCOL_BINARY_CMD_DCP_NOOP
  | BufferAcknowledgement _ _ _ => PROTOCOL_BINARY_CMD_DCP_BUFFER_ACKNOWLEDGEMENT
  | Control _ _ _ => PROTOCOL_BINARY_CMD_DCP_CONTROL
  end.

(** The packet of a request, in network order but for the opaque value. *)
Definition frame (c : protocol_binary_command) (opaque vbucket cas datatype : Z) (extras key tail : bytes) : packet :=
  mk_packet
    (mk_request_header PROTOCOL_BINARY_REQ (cmd_value c) (htons (size key)) (size extras) datatype (htons vbucket)
       (htonl (size extras + size key + size tail)) opaque (htonll cas))
    (extras ++ key ++ tail).

Definition packet_of (m : dcp_message) : packet :=
  let frame := frame (command_of m) in
  match m with
  | GetFailoverLog o v | Flush o v => frame o v 0 0 [] [] []
  | StreamReq o v flags s e uuid ss se =>
      frame o v 0 0 (be_store 4 flags ++ be_store 4 0 ++ be_store 8 s ++ be_store 8 e ++ be_store 8 uuid ++
                     be_store 8 ss ++ be_store 8 se) [] []
  | StreamEnd o v flags => frame o v 0 0 (be_store 4 flags) [] []
  | Marker o v s e flags => frame o v 0 0 (be_store 8 s ++ be_store 8 e ++ be_store 4 flags) [] []
  | Mutation o _ v b r l meta nru i =>
      frame o v (inf_cas i) (inf_datatype i)
        (be_store 8 b ++ be_store 8 r ++ le_store 4 (inf_flags i) ++ be_store 4 (inf_exptime i) ++ be_store 4 l ++
         be_store 2 (size meta) ++ be_store 1 nru) (inf_key i).2 (value_of i ++ meta)
  | Deletion o key cas v b r meta | Expiration o key cas v b r meta =>
      frame o v cas 0 (be_store 8 b ++ be_store 8 r ++ be_store 2 (size meta)) key meta
  | SetVBucketState o v st => frame o v 0 0 (be_store 1 st) [] []
  | Noop o => frame o 0 0 0 [] [] []
  | BufferAcknowledgement o v n => frame o v 0 0 (be_store 4 n) [] []
  | Control o key value => frame o 0 0 0 [] key value
  end.

(** Arguments in the range of their types (a vbucket state is one of the four of
    [vbucket_state_t]), the item described as it is, and a body whose length can
    be written.  Nothing is asked of what the receiver checks. *)
Definition is_u8 (x : Z) : Prop := 0 <= x < 2 ^ 8.
Definition is_u16 (x : Z) : Prop := 0 <= x < 2 ^ 16.
Definition is_u32 (x : Z) : Prop := 0 <= x < 2 ^ 32.
Definition is_u64 (x : Z) : Prop := 0 <= x < 2 ^ 64.
Definition a_key (key : bytes) : Prop := is_u16 (size key).

Definition item_ok (i : item_info) : Prop :=
  a_key (inf_key i).2 /\ inf_nbytes i = size (value_of i) /\ is_u64 (inf_cas i) /\ is_u32 (inf_flags i) /\
  is_u32 (inf_exptime i) /\ is_u8 (inf_datatype i).

Definition message_ok (m : dcp_message) : Prop :=
  match m with
  | GetFailoverLog o v | Flush o v => is_u32 o /\ is_u16 v
  | StreamReq o v flags s e uuid ss se =>
      is_u32 o /\ is_u16 v /\ is_u32 flags /\ is_u64 s /\ is_u64 e /\ is_u64 uuid /\ is_u64 ss /\ is_u64 se
  | StreamEnd o v n | BufferAcknowledgement o v n => is_u32 o /\ is_u16 v /\ is_u32 n
  | Marker o v s e flags => is_u32 o /\ is_u16 v /\ is_u64 s /\ is_u64 e /\ is_u32 flags
  | Mutation o _ v b r l meta nru i =>
      is_u32 o /\ is_u16 v /\ is_u64 b /\ is_u64 r /\ is_u32 l /\ is_u16 (size meta) /\ is_u8 nru /\ item_ok i /\
      is_u32 (31 + size (inf_key i).2 + size (value_of i) + size meta)
  | Deletion o key cas v b r meta | Expiration o key cas v b r meta =>
      is_u32 o /\ a_key key /\ is_u64 cas /\ is_u16 v /\ is_u64 b /\ is_u64 r /\ is_u16 (size meta)
  | SetVBucketState o v st => is_u32 o /\ is_u16 v /\ 1 <= st <= 4
  | Noop o => is_u32 o
  | Control o key value => is_u32 o /\ a_key key /\ is_u32 (size key + size value)
  end.

Ltac ranges := unfold message_ok, item_ok, a_key, is_u8, is_u16, is_u32, is_u64 in *; destruct_and?.

(** ** Packets *)

Lemma bswap1_small x : is_u8 x -> bswap 1 x = x.
Proof. intros Hx. unfold bswap. change (le_store 1 x) with (be_store 1 x). rewrite be_load_store. by apply Z.mod_small. Qed.

Lemma bswap2_small x : is_u16 x -> ntohs (htons x) = x.
Proof. apply (bswap_involutive 2). Qed.

Lemma bswap4_small x : is_u32 x -> ntohl (htonl x) = x.
Proof. apply (bswap_involutive 4). Qed.

Lemma bswap8_small x : is_u64 x -> ntohll (htonll x) = x.
Proof. apply (bswap_involutive 8). Qed.

Lemma be_store_swap n x : be_store n x = le_store n (bswap n x).
Proof. by rewrite le_store_bswap. Qed.

Lemma size_be_store n x : size (be_store n x) = Z.of_nat n.
Proof. unfold size. by rewrite be_store_length. Qed.

Lemma size_le_store n x : size (le_store n x) = Z.of_nat n.
Proof. unfold size. by rewrite le_store_length. Qed.

Lemma size_nil : size [] = 0.
Proof. done. Qed.

Create Rewrite HintDb sizes.
#[export] Hint Rewrite size_app size_be_store size_le_store size_nil : sizes.

(** Ranges of what a message is made of. *)
Record frame_ok (opaque vbucket cas datatype : Z) (extras key tail : bytes) : Prop := {
  fk_opaque : is_u32 opaque;
  fk_vbucket : is_u16 vbucket;
  fk_cas : is_u64 cas;
  fk_datatype : is_u8 datatype;
  fk_extras : is_u8 (size extras);
  fk_key : is_u16 (size key);
  fk_body : is_u32 (size extras + size key + size tail);
}.

Section Frame.
Context (c : protocol_binary_command) (o v cas d : Z) (ex key tail : bytes).
Context (Hf : frame_ok o v cas d ex key tail).
Local Abbreviation p := (frame c o v cas d ex key tail).

Lemma frame_nkey : nkey p = size key.
Proof. apply (bswap_involutive 2), Hf. Qed.

Lemma frame_nbody : nbody p = size ex + size key + size tail.
Proof. apply (bswap_involutive 4), Hf. Qed.

Lemma frame_packet_ok : packet_ok p.
Proof.
  pose proof Hf as [? ? ? ? ? ? ?]. pose proof (cmd_value_range c). ranges. split; [split|].
  - pose proof (bswap_range 2 (size key)). pose proof (bswap_range 2 v). pose proof (bswap_range 8 cas).
    pose proof (bswap_range 4 (size ex + size key + size tail)). constructor; [by split|..]; cbn -[bswap size] in *; lia.
  - rewrite frame_nbody. cbn [body frame]. rewrite !length_app. unfold size. lia.
  - unfold validate_bin_header. rewrite frame_nkey, frame_nbody. cbn [header frame extlen].
    pose proof (size_nonneg tail). by rewrite (proj2 (Z.leb_le _ _)) by lia.
Qed.

Lemma frame_header : load_request_header (bytes_of_packet p) = Some (header p).
Proof. apply load_store_header, frame_packet_ok. Qed.

(** A member of the extras. *)
Lemma frame_member n off : 24 <= off -> load_int n off (bytes_of_packet p) = load_int n (off - 24) (ex ++ key ++ tail).
Proof.
  intros Ho. unfold load_int, load, bytes_of_packet. f_equal. rewrite length_app, header_size.
  rewrite (drop_app_ge (store_request_header (header p))) by (rewrite header_size; lia). rewrite header_size.
  replace (Z.to_nat off - 24)%nat with (Z.to_nat (off - 24)) by lia.
  replace (0 <=? off) with true by lia. replace (0 <=? off - 24) with true by lia.
  by replace (off + Z.of_nat n <=? Z.of_nat (24 + length (body p))) with (off - 24 + Z.of_nat n <=? Z.of_nat (length (ex ++ key ++ tail)))
    by (cbn [body frame]; lia).
Qed.

(** Data behind the extras. *)
Lemma frame_data off n front bs rest :
  bytes_of_packet p = front ++ bs ++ rest -> off = size front -> n = size bs ->
  load (Z.to_nat n) off (bytes_of_packet p) = Some bs.
Proof.
  intros E -> ->. rewrite load_in by (rewrite ?E; autorewrite with sizes; unfold size; lia).
  rewrite E. unfold size. rewrite !Nat2Z.id. f_equal. by rewrite drop_app_length, take_app_length.
Qed.

Lemma frame_split : bytes_of_packet p = (store_request_header (header p) ++ ex) ++ key ++ tail.
Proof. unfold bytes_of_packet. cbn [body frame]. by rewrite <- app_assoc. Qed.

Lemma frame_front : size (store_request_header (header p) ++ ex) = 24 + size ex.
Proof. rewrite size_app. unfold size at 1. by rewrite header_size. Qed.

Lemma frame_key off : off = 24 + size ex -> load (Z.to_nat (nkey p)) off (bytes_of_packet p) = Some key.
Proof. intros ->. rewrite frame_nkey. by eapply frame_data; [apply frame_split|symmetry; apply frame_front|]. Qed.

(** Data behind the key. *)
Lemma frame_tail off n front bs rest :
  tail = front ++ bs ++ rest -> off = 24 + size ex + size key + size front -> n = size bs ->
  load (Z.to_nat n) off (bytes_of_packet p) = Some bs.
Proof.
  intros Et -> ->. apply (frame_data _ _ ((store_request_header (header p) ++ ex) ++ key ++ front) bs rest); [|..|done].
  - rewrite frame_split, <- !app_assoc. by do 3 f_equal.
  - by rewrite size_app, frame_front, size_app, Z.add_assoc.
Qed.
End Frame.

(** The frame of a message. *)
Lemma message_framed m : message_ok m ->
  exists o v cas d ex key tail, packet_of m = frame (command_of m) o v cas d ex key tail /\ frame_ok o v cas d ex key tail.
Proof.
  intros Hm. destruct m; cbn [packet_of]; do 7 eexists; (split; [reflexivity|]);
    ranges; split; unfold is_u8, is_u16, is_u32, is_u64; autorewrite with sizes; cbn; try lia.
Qed.

Lemma message_packet_ok m : message_ok m -> packet_ok (packet_of m).
Proof. intros (? & ? & ? & ? & ? & ? & ? & -> & Hf)%message_framed. by apply frame_packet_ok. Qed.

(** ** Validation *)

(** What the receiver accepts of what a producer sends: mutations, deletions and
    expirations must have a key, an expiration no metadata, and a control message
    a key and a value. *)
Definition acceptable (m : dcp_message) : bool :=
  match m with
  | Mutation _ _ _ _ _ _ _ _ i => size (inf_key i).2 != 0
  | Deletion _ key _ _ _ _ _ => size key != 0
  | Expiration _ key _ _ _ _ meta => (size key != 0) && (size meta == 0)
  | Control _ key value => (size key != 0) && (size value != 0)
  | _ => true
  end.

Definition dcp_validator (c : protocol_binary_command) : packet -> option protocol_binary_response_status :=
  match c with
  | PROTOCOL_BINARY_CMD_DCP_GET_FAILOVER_LOG => dcp_get_failover_log_validator
  | PROTOCOL_BINARY_CMD_DCP_STREAM_REQ => dcp_stream_req_validator
  | PROTOCOL_BINARY_CMD_DCP_STREAM_END => dcp_stream_end_validator
  | PROTOCOL_BINARY_CMD_DCP_SNAPSHOT_MARKER => dcp_snapshot_marker_validator
  | PROTOCOL_BINARY_CMD_DCP_MUTATION => dcp_mutation_validator
  | PROTOCOL_BINARY_CMD_DCP_DELETION => dcp_deletion_validator
  | PROTOCOL_BINARY_CMD_DCP_EXPIRATION => dcp_expiration_validator
  | PROTOCOL_BINARY_CMD_DCP_FLUSH => dcp_flush_validator
  | PROTOCOL_BINARY_CMD_DCP_SET_VBUCKET_STATE => dcp_set_vbucket_state_validator
  | PROTOCOL_BINARY_CMD_DCP_NOOP => dcp_noop_validator
  | PROTOCOL_BINARY_CMD_DCP_BUFFER_ACKNOWLEDGEMENT => dcp_buffer_acknowledgement_validator
  | _ => dcp_control_validator
  end.

Lemma message_validator collections m p :
  validateCommand collections (cmd_value (command_of m)) p = dcp_validator (command_of m) p.
Proof.
  unfold validateCommand. destruct m, collections; cbn [command_of];
    lazymatch goal with |- invoke ?ch p = _ =>
      let ch' := eval vm_compute in ch in
      replace ch with ch' by (vm_compute; reflexivity) end; by rewrite invoke_one.
Qed.

Lemma htons_zero x : is_u16 x -> (htons x == 0) = (x == 0).
Proof.
  intros Hx. unfold is_u16 in Hx. pose proof (bswap_eq_0 2 x) as H. change (256 ^ Z.of_nat 2) with (2 ^ 16) in H.
  specialize (H Hx). destruct (Z.eqb_spec x 0), (Z.eqb_spec (htons x) 0); by intuition.
Qed.

Lemma htons_positive x : 0 < x < 2 ^ 16 -> (htons x == 0) = false.
Proof. intros Hx. apply Z.eqb_neq. rewrite (bswap_eq_0 2); [lia|]. change (256 ^ Z.of_nat 2) with (2 ^ 16). lia. Qed.

Lemma htonl_positive x : 0 < x < 2 ^ 32 -> (htonl x == 0) = false.
Proof. intros Hx. apply Z.eqb_neq. rewrite (bswap_eq_0 4); [lia|]. change (256 ^ Z.of_nat 4) with (2 ^ 32). lia. Qed.

Lemma message_validated collections m : message_ok m ->
  validateCommand collections (cmd_value (command_of m)) (packet_of m) =
  Some (if acceptable m then PROTOCOL_BINARY_RESPONSE_SUCCESS else PROTOCOL_BINARY_RESPONSE_EINVAL).
Proof.
  intros Hm. rewrite message_validator. destruct m; cbn [command_of dcp_validator packet_of acceptable]; try reflexivity; ranges.
  - unfold dcp_mutation_validator. cbn [header frame magic extlen keylen bodylen]. autorewrite with sizes.
    pose proof (size_nonneg (value_of i)). rewrite htons_zero, htonl_positive by (unfold is_u16; lia). by destruct (_ == 0).
  - unfold dcp_deletion_validator. cbn [header frame magic extlen keylen bodylen]. autorewrite with sizes.
    rewrite htons_zero by done. by destruct (_ == 0).
  - unfold dcp_expiration_validator. cbn [header frame magic extlen keylen bodylen]. autorewrite with sizes.
    rewrite htons_zero, bswap2_small, bswap4_small by (unfold is_u16, is_u32; lia).
    rewrite u32_sub_u32, u32_small by lia.
    replace (Z.of_nat 8 + (Z.of_nat 8 + Z.of_nat 2) + size key + size meta - size key - (Z.of_nat 8 + (Z.of_nat 8 + Z.of_nat 2)))
      with (size meta) by lia. by destruct (size key == 0), (size meta == 0).
  - unfold dcp_set_vbucket_state_validator. cbn [body frame]. rewrite app_nil_r, be_store_1.
    rewrite <- (app_nil_r (le_store 1 state)), load_int_store by (cbn; lia). cbn [mbind option_bind].
    by rewrite (proj2 (Z.ltb_ge state 1)), (proj2 (Z.ltb_ge 4 state)) by lia.
  - unfold dcp_control_validator. cbn [header frame magic extlen keylen bodylen datatype]. autorewrite with sizes.
    pose proof (size_nonneg value). rewrite bswap2_small, bswap4_small by (unfold is_u16, is_u32; lia).
    rewrite u32_small by lia. replace (0 + size key + size value - size key) with (size value) by lia.
    by destruct (size key == 0), (size value == 0).
Qed.

(** ** Reception *)

Lemma load_int_be_at n x off m : off = 0 -> load_int n off (be_store n x ++ m) = Some (bswap n x).
Proof. intros ->. rewrite be_store_swap. apply load_int_store, bswap_range. Qed.

Lemma load_int_le_at n x off m : off = 0 -> 0 <= x < 256 ^ Z.of_nat n -> load_int n off (le_store n x ++ m) = Some x.
Proof. intros ->. apply load_int_store. Qed.

Lemma load_int_be_skip n off k x m : Z.of_nat k <= off -> load_int n off (be_store k x ++ m) = load_int n (off - Z.of_nat k) m.
Proof. rewrite be_store_swap. apply load_int_skip. Qed.

(** Load the next member of the extras. *)
Ltac member_step :=
  unfold member at 1; rewrite frame_member by lia; rewrite <- ?app_assoc;
  repeat first [rewrite load_int_be_skip by lia | rewrite load_int_skip by lia];
  first [rewrite load_int_be_at by lia | rewrite load_int_le_at by (cbn; lia)];
  rewrite bind_must.

Ltac host := rewrite ?bswap2_small, ?bswap4_small, ?bswap8_small by (unfold is_u16, is_u32, is_u64; autorewrite with sizes; lia).

Section Receiving.
Context {K ES : Type} `{System} `{Engine} `{Bucket} `{DcpInterface K ES}.

Abbreviation X := (ST (command_world K ES)).

(** What the executor of a message is to do: call the engine with the arguments
    of the message, and answer. *)
Definition handled (m : dcp_message) : X unit :=
  match m with
  | GetFailoverLog o v => dcp_execute dcp_get_failover_log (fun f => f o v add_failover_log) answer_built
  | StreamReq o v flags s e uuid ss se =>
      match dcp_stream_req with
      | None => on_conn (mcbp_write_packet PROTOCOL_BINARY_RESPONSE_NOT_SUPPORTED)
      | Some f => execute_stream_req (f flags o v s e uuid ss se add_failover_log)
      end
  | StreamEnd o v flags => dcp_execute dcp_stream_end (fun f => f o v flags) ship
  | Marker o v s e flags => dcp_execute dcp_snapshot_marker (fun f => f o v s e flags) ship
  | Mutation o _ v b r l meta nru i =>
      dcp_execute dcp_mutation (fun f =>
        f o (inf_key i).2 (value_of i) (inf_cas i) v (inf_flags i) (inf_datatype i) b r (inf_exptime i) l meta nru) next_command
  | Deletion o key cas v b r meta => dcp_execute dcp_deletion (fun f => f o key cas v b r meta) next_command
  | Expiration o key cas v b r meta => dcp_execute dcp_expiration (fun f => f o key cas v b r meta) next_command
  | Flush o v => dcp_execute dcp_flush (fun f => f o v) next_command
  | SetVBucketState o v st =>
      match dcp_set_vbucket_state with
      | None => on_conn (mcbp_write_packet PROTOCOL_BINARY_RESPONSE_NOT_SUPPORTED)
      | Some f => execute_set_vbucket_state (f o v st)
      end
  | Noop o => dcp_execute dcp_noop (fun f => f o) answer_success
  | BufferAcknowledgement o v n => dcp_execute dcp_buffer_acknowledgement (fun f => f o v n) next_command
  | Control o key value => dcp_execute dcp_control (fun f => f o key value) answer_success
  end.

(** Calls that agree while the header of the request is there. *)
Definition same_call {A} (w : command_world K ES) (a b : X A) : Prop :=
  forall w', bheader (conn w') = bheader (conn w) -> a w' = b w'.

Lemma dcp_call_same w (a b : X ENGINE_ERROR_CODE) : same_call w a b -> dcp_call a w = dcp_call b w.
Proof.
  intros Hs. destruct w as [c x e]. unfold dcp_call, take_aiostat. run. case_decide; [|done]. by apply Hs.
Qed.

Lemma dcp_execute_same {F} w (f : option F) a b success :
  (forall g, same_call w (a g) (b g)) -> dcp_execute f a success w = dcp_execute f b success w.
Proof.
  intros Hs. destruct f as [g|]; [|done]. unfold dcp_execute, bind. by rewrite (dcp_call_same w _ _ (Hs g)).
Qed.

Lemma execute_state_same w a b : same_call w a b -> execute_set_vbucket_state a w = execute_set_vbucket_state b w.
Proof. intros Hs. unfold execute_set_vbucket_state, bind. by rewrite (dcp_call_same w _ _ Hs). Qed.

Lemma execute_stream_same w a b : same_call w a b -> execute_stream_req a w = execute_stream_req b w.
Proof.
  intros Hs. destruct w as [c x e]. unfold execute_stream_req, take_aiostat. run. case_decide; [done|].
  case_decide; [|done]. unfold bind. by rewrite Hs.
Qed.

Lemma header_step p (k : protocol_binary_request_header -> X ENGINE_ERROR_CODE) w :
  packet_ok p -> bind (req_header (bytes_of_packet p)) k w = k (header p) w.
Proof. intros Hp. unfold req_header, bytes_of_packet. by rewrite load_store_header by apply Hp. Qed.

(** The executor for the opcode of a message. *)
Definition executor_for (m : dcp_message) : mcbp_executor :=
  match m with
  | GetFailoverLog _ _ => Dispatch.dcp_get_failover_log_executor
  | StreamReq _ _ _ _ _ _ _ _ => Dispatch.dcp_stream_req_executor
  | StreamEnd _ _ _ => Dispatch.dcp_stream_end_executor
  | Marker _ _ _ _ _ => Dispatch.dcp_snapshot_marker_executor
  | Mutation _ _ _ _ _ _ _ _ _ => Dispatch.dcp_mutation_executor
  | Deletion _ _ _ _ _ _ _ => Dispatch.dcp_deletion_executor
  | Expiration _ _ _ _ _ _ _ => Dispatch.dcp_expiration_executor
  | Flush _ _ => Dispatch.dcp_flush_executor
  | SetVBucketState _ _ _ => Dispatch.dcp_set_vbucket_state_executor
  | Noop _ => Dispatch.dcp_noop_executor
  | BufferAcknowledgement _ _ _ => Dispatch.dcp_buffer_acknowledgement_executor
  | Control _ _ _ => Dispatch.dcp_control_executor
  end.

Lemma executor_registered m : executors (cmd_value (command_of m)) = Some (executor_for m).
Proof. by destruct m. Qed.

(** Deletions and expirations carry the same arguments. *)
Lemma call_deletion_ok cm (f : Z -> bytes -> Z -> Z -> Z -> Z -> bytes -> X ENGINE_ERROR_CODE) o key ca v b r meta
    (w : command_world K ES) :
  message_ok (Deletion o key ca v b r meta) ->
  call_deletion f (bytes_of_packet (frame cm o v ca 0 (be_store 8 b ++ be_store 8 r ++ be_store 2 (size meta)) key meta)) w =
  f o key ca v b r meta w.
Proof.
  intros Hm. ranges.
  assert (frame_ok o v ca 0 (be_store 8 b ++ be_store 8 r ++ be_store 2 (size meta)) key meta) as Hf
    by (split; unfold is_u8, is_u16, is_u32, is_u64; autorewrite with sizes; lia).
  unfold call_deletion. rewrite header_step by (by apply frame_packet_ok). do 3 member_step.
  unfold data. cbn [header frame opaque keylen cas vbucket]. host.
  pose proof (frame_nkey cm o v ca 0 _ key meta Hf) as Hk.
  rewrite <- Hk at 1. rewrite (frame_key cm) by (done || by autorewrite with sizes). rewrite bind_must.
  rewrite (frame_tail cm _ _ _ _ _ _ _ _ _ [] meta []); [done|by rewrite app_nil_r|by autorewrite with sizes; rewrite Z.add_0_r|done].
Qed.

Lemma mutation_handled o it v b r l meta nru i (w : command_world K ES) :
  let m := Mutation o it v b r l meta nru i in
  message_ok m -> dcp_mutation_executor (bytes_of_packet (packet_of m)) w = handled m w.
Proof.
  intros m Hm. pose proof (message_packet_ok m Hm) as Hp. subst m. ranges. apply dcp_execute_same. intros f w' _.
  rewrite header_step by done. cbn [packet_of command_of]. do 7 member_step.
  set (ex := be_store 8 b ++ be_store 8 r ++ _). set (key := (inf_key i).2) in *. cbv zeta.
  assert (size ex = 31) as Hx by (unfold ex; by autorewrite with sizes).
  assert (frame_ok o v (inf_cas i) (inf_datatype i) ex key (value_of i ++ meta)) as Hf
    by (split; unfold is_u8, is_u16, is_u32, is_u64; rewrite ?Hx; autorewrite with sizes; lia).
  pose proof (size_nonneg (value_of i)) as Hv. pose proof (frame_nkey PROTOCOL_BINARY_CMD_DCP_MUTATION _ _ _ _ _ _ _ Hf) as Hk.
  pose proof (frame_nbody PROTOCOL_BINARY_CMD_DCP_MUTATION _ _ _ _ _ _ _ Hf) as Hb. rewrite size_app, Hx in Hb.
  set (p := frame PROTOCOL_BINARY_CMD_DCP_MUTATION _ _ _ _ _ _ _) in *. fold (nkey p) (nbody p).
  change (extlen (header p)) with (size ex). rewrite Hx, Hb, Hk, bswap2_small by (unfold is_u16; lia).
  replace (31 + size key + (size (value_of i) + size meta) - size key - 31 - size meta) with (size (value_of i)) by lia.
  rewrite u32_small by lia. unfold data. rewrite <- Hk at 1. unfold p at 1 2.
  rewrite (frame_key _ _ _ _ _ _ _ _ Hf), bind_must by (by rewrite Hx).
  unfold p at 1. rewrite (frame_tail _ _ _ _ _ _ _ _ _ _ [] (value_of i) meta), bind_must by (rewrite ?Hx, ?size_nil; done || lia).
  unfold p at 1. rewrite (frame_tail _ _ _ _ _ _ _ _ _ _ (value_of i) meta []), bind_must by (rewrite ?Hx, ?app_nil_r; done || lia).
  unfold p. cbn [header frame opaque cas vbucket datatype]. by rewrite bswap1_small, bswap2_small, !bswap8_small, !bswap4_small.
Qed.

Lemma control_handled o key value (w : command_world K ES) :
  let m := Control o key value in
  message_ok m -> bheader (conn w) = host_header (header (packet_of m)) ->
  dcp_control_executor (bytes_of_packet (packet_of m)) w = handled m w.
Proof.
  intros m Hm Hh. pose proof (message_packet_ok m Hm) as Hp. subst m. ranges. apply dcp_execute_same. intros f [c x e] Hw.
  rewrite header_step by done. cbn [packet_of command_of] in *. cbv zeta.
  assert (frame_ok o 0 0 0 [] key value) as Hf
    by (split; unfold is_u8, is_u16, is_u32, is_u64; autorewrite with sizes; lia).
  pose proof (frame_nkey PROTOCOL_BINARY_CMD_DCP_CONTROL _ _ _ _ _ _ _ Hf) as Hk.
  pose proof (frame_nbody PROTOCOL_BINARY_CMD_DCP_CONTROL _ _ _ _ _ _ _ Hf) as Hb. rewrite size_nil in Hb.
  set (p := frame PROTOCOL_BINARY_CMD_DCP_CONTROL _ _ _ _ _ _ _) in *. fold (nkey p) (nbody p). rewrite Hk, Hb.
  replace (0 + size key + size value - size key) with (size value) by lia. pose proof (size_nonneg value). rewrite u32_small by lia.
  unfold data. rewrite <- Hk at 1. unfold p at 1 2. rewrite (frame_key _ _ _ _ _ _ _ _ Hf), bind_must by done.
  unfold p at 1. rewrite (frame_tail _ _ _ _ _ _ _ _ _ _ [] value []), bind_must by (rewrite ?app_nil_r, ?size_nil; done || lia).
  run. cbn [conn] in *. by rewrite Hw, Hh.
Qed.

(** The executor of a message calls the engine with the message's arguments. *)
Lemma message_handled m (w : command_world K ES) :
  message_ok m -> bheader (conn w) = host_header (header (packet_of m)) ->
  exists run, dcp_executor (executor_for m) = Some run /\ run (bytes_of_packet (packet_of m)) w = handled m w.
Proof.
  intros Hm Hh. pose proof (message_packet_ok m Hm) as Hp. destruct m; cbn [executor_for dcp_executor];
    (eexists; split; [reflexivity|]);
    lazymatch goal with
    | |- dcp_mutation_executor _ _ = _ => by apply mutation_handled
    | |- dcp_control_executor _ _ = _ => by apply control_handled
    | |- dcp_deletion_executor _ _ = _ => apply dcp_execute_same; intros f w' _; by apply call_deletion_ok
    | |- dcp_expiration_executor _ _ = _ => apply dcp_execute_same; intros f w' _; by apply call_deletion_ok
    | |- dcp_stream_req_executor _ _ = _ => idtac
    | |- dcp_set_vbucket_state_executor _ _ = _ => idtac
    | _ => apply dcp_execute_same; intros f [c x e] Hw; cbn [conn] in Hw; rewrite Hh in Hw;
           rewrite ?header_step by done; cbn [packet_of command_of] in *; repeat member_step; run; rewrite ?Hw;
           cbn [header frame host_header Protocol.opaque Protocol.vbucket]; ranges; by host
    end.
  - unfold dcp_stream_req_executor. cbn [handled]. destruct dcp_stream_req as [f|]; [|done]. cbn [packet_of command_of] in *.
    do 6 member_step. apply execute_stream_same. intros [c x e] Hw. run. cbn [conn] in *. rewrite Hw, Hh.
    cbn [header frame host_header Protocol.opaque Protocol.vbucket]. ranges. by host.
  - unfold dcp_set_vbucket_state_executor. cbn [handled]. destruct dcp_set_vbucket_state as [f|]; [|done].
    apply execute_state_same. intros [c x e] Hw. cbn [packet_of command_of] in *. member_step. run. cbn [conn] in *.
    rewrite Hw, Hh. cbn [header frame host_header Protocol.opaque Protocol.vbucket]. ranges. host. by rewrite bswap1_small by (unfold is_u8; lia).
Qed.
End Receiving.

(** ** Transmission *)

(** A connection while messages are put into its stream: the write buffer has
    [n] bytes. *)
Definition streaming (o : output) (h : heap) (n k : Z) (r : list Z) (c : connection) : connection :=
  (((with_io o h c) <| write := mk_shared (buf (write c)) (buf (write c) + n) (bsize (write c)) n |>) <| cmd := k |>)
    <| reserved_items := r |>.

(** What is to be sent is in the used part of the write buffer and outside of
    it, where memory does not change. *)
Record stream_ok `{System} (b s : Z) (h0 : heap) (o : output) (h : heap) (n : Z) (sent : bytes) : Prop := {
  sm_building : building iov_max o;
  sm_buffer : 0 < b /\ 0 <= n /\ s < 2 ^ 32;
  sm_apart : Forall (fun a => a < b + n \/ b + s <= a) (pending o);
  sm_memory : forall a, a < b \/ b + s <= a -> h a = h0 a;
  sm_sent : map h (pending o) = sent;
}.

Section StreamOk.
Context `{System} (b s : Z) (h0 : heap).

Lemma stream_ext o h h' n sent : (forall a, h' a = h a) -> stream_ok b s h0 o h n sent -> stream_ok b s h0 o h' n sent.
Proof.
  intros He [? ? ? Hm <-]. split; [done..| |by apply map_ext]. intros a Ha. rewrite He. by apply Hm.
Qed.

Lemma map_put_other h a bs l : Forall (fun x => x < a \/ a + size bs <= x) l -> map (put h a bs) l = map h l.
Proof. induction 1 as [|x l Hx _ IH]; [done|]. cbn. by rewrite IH, put_other. Qed.

(** Data is put behind what the write buffer has. *)
Lemma stream_put o o' h n sent bs :
  stream_ok b s h0 o h n sent -> n + size bs < s -> building iov_max o' ->
  pending o' = pending o ++ seqZ (b + n) (size bs) ->
  stream_ok b s h0 o' (put h (b + n) bs) (n + size bs) (sent ++ bs).
Proof.
  intros [Hb Hn Ha Hm <-] Hfit Hb' Hp. pose proof (size_nonneg bs). split; [done|lia| | |].
  - rewrite Hp. apply Forall_app. split; [eapply Forall_impl; [exact Ha|]; cbn; lia|].
    apply Forall_forall. intros x Hx%elem_of_seqZ. lia.
  - intros a Hout. rewrite put_other by lia. by apply Hm.
  - rewrite Hp, map_app, map_fetch, fetch_put_same. f_equal. apply map_put_other.
    eapply Forall_impl; [exact Ha|]. cbn. lia.
Qed.

(** Data elsewhere is referred to. *)
Lemma stream_refer o o' h n sent l :
  stream_ok b s h0 o h n sent -> building iov_max o' -> pending o' = pending o ++ addresses l -> n <= s ->
  Forall (in_memory h0) l -> Forall (apart_from b s) l ->
  stream_ok b s h0 o' h n (sent ++ concat (map snd l)).
Proof.
  intros [Hb Hn Ha Hm <-] Hb' Hp Hns Hin Hap.
  assert (Forall (fun a => a < b \/ b + s <= a) (addresses l)) as Hout.
  { clear -Hap. induction Hap as [|p l Hp _ IH]; [constructor|]. apply Forall_app. split; [|exact IH].
    apply Forall_forall. intros x Hx%elem_of_seqZ. destruct Hp; lia. }
  split; [done..| |done|].
  - rewrite Hp. apply Forall_app. split; [done|]. eapply Forall_impl; [exact Hout|]. cbn. lia.
  - rewrite Hp, map_app. f_equal. rewrite <- (map_addresses h0 l Hin). clear -Hout Hm.
    induction Hout as [|x l' Hx _ IH]; [done|]. cbn. by rewrite IH, Hm.
Qed.
End StreamOk.

Lemma put_put h a u v x : put (put h a u) (a + size u) v x = put h a (u ++ v) x.
Proof.
  unfold put. rewrite size_app. pose proof (size_nonneg u). pose proof (size_nonneg v).
  destruct (decide (a + size u <= x)).
  - replace (a <=? x) with true by lia. replace (a + size u <=? x) with true by lia. cbn [andb].
    replace (x <? a + size u) with false by lia. replace (x <? a + (size u + size v)) with (x <? a + size u + size v) by lia.
    destruct (_ <? _) eqn:E; [|done]. rewrite app_nth2 by (unfold size in *; lia). f_equal. unfold size in *. lia.
  - replace (a + size u <=? x) with false by lia. cbn [andb].
    destruct (a <=? x) eqn:E1; [|done]. replace (x <? a + size u) with true by lia.
    replace (x <? a + (size u + size v)) with true by lia. cbn [andb]. by rewrite app_nth1 by (unfold size in *; lia).
Qed.

(** Data of an item put where it is. *)
Lemma put_item h0 h p a : in_memory h0 p ->
  put h p.1 p.2 a = if (p.1 <=? a) && (a <? p.1 + size p.2) then h0 a else h a.
Proof.
  intros Hin. unfold put. destruct (_ && _) eqn:E; [|done]. unfold in_memory, fetch in Hin. rewrite <- Hin at 1.
  rewrite nth_indep with (d' := h0 0) by (rewrite length_map, length_seqZ; lia). rewrite map_nth. f_equal.
  apply nth_lookup_Some with (d := 0). rewrite lookup_seqZ. split; lia.
Qed.

Lemma put_ext h h' a bs x : (forall y, h y = h' y) -> put h a bs x = put h' a bs x.
Proof. intros He. unfold put. rewrite He. done. Qed.

Section Sending.
Context {K ES : Type} `{EngineV1 ES} `{System} `{Engine} `{Bucket} `{DcpInterface K ES}.
Context (Hmax : 1 <= iov_max) (Hm : memory_available).

Abbreviation X := (ST (command_world K ES)).

(** The producer of a message. *)
Definition send (p : dcp_message_producers K ES) (m : dcp_message) : X ENGINE_ERROR_CODE :=
  match m with
  | GetFailoverLog o v => p_get_failover_log p o v
  | StreamReq o v flags s e uuid ss se => p_stream_req p o v flags s e uuid ss se
  | StreamEnd o v flags => p_stream_end p o v flags
  | Marker o v s e flags => p_marker p o v s e flags
  | Mutation o it v b r l meta nru _ => p_mutation p o it v b r l meta nru
  | Deletion o key cas v b r meta => p_deletion p o key cas v b r meta
  | Expiration o key cas v b r meta => p_expiration p o key cas v b r meta
  | Flush o v => p_flush p o v
  | SetVBucketState o v st => p_set_vbucket_state p o v st
  | Noop o => p_noop p o
  | BufferAcknowledgement o v n => p_buffer_acknowledgement p o v n
  | Control o key value => p_control p o key value
  end.

(** What a message takes of the write buffer; key and value of an item stay
    where they are. *)
Definition used (m : dcp_message) : Z :=
  match m with
  | Mutation _ _ _ _ _ _ meta _ _ => 55 + size meta
  | _ => size (bytes_of_packet (packet_of m))
  end.

(** The items whose reference the connection holds until the message is sent. *)
Definition items_of (m : dcp_message) : list Z :=
  match m with Mutation _ it _ _ _ _ _ _ _ => [it] | _ => [] end.

(** The engine describes the item of a mutation, which is not in the write
    buffer. *)
Definition supplied (c : connection) (m : dcp_message) (e e' : ES) : Prop :=
  match m with
  | Mutation _ it _ _ _ _ _ _ i =>
      engine_get_item_info it iov_max e = Done (Some i) e' /\
      Forall (in_memory (memory c)) (inf_key i :: inf_value i) /\
      Forall (apart_from (buf (write c)) (bsize (write c))) (inf_key i :: inf_value i)
  | _ => e' = e
  end.

Implicit Types (c : connection) (o : output) (h : heap).

Lemma stream_iov a z o h n k r c :
  building iov_max o -> 0 <= z ->
  exists o', add_iov a z (streaming o h n k r c) = Done true (streaming o' h n k r c) /\ building iov_max o' /\
    pending o' = pending o ++ seqZ a z.
Proof. intros Hb Hz. apply (add_iov_io Hmax Hm a z o h (streaming o h n k r c) Hb Hz). Qed.

Lemma stream_values l o h n k r c :
  building iov_max o ->
  exists o', add_values l (streaming o h n k r c) = Done tt (streaming o' h n k r c) /\ building iov_max o' /\
    pending o' = pending o ++ addresses l.
Proof. intros Hb. apply (add_values_io Hmax Hm l o h (streaming o h n k r c) Hb). Qed.

Lemma stream_add_curr z o h n k r c :
  building iov_max o -> 0 <= z ->
  exists o', add_curr z (streaming o h n k r c) = Done tt (streaming o' h n k r c) /\ building iov_max o' /\
    pending o' = pending o ++ seqZ (buf (write c) + n) z.
Proof.
  intros Hb Hz. destruct (stream_iov (buf (write c) + n) z o h n k r c Hb Hz) as (o' & E & Hb' & Hp).
  exists o'. split; [|done]. unfold add_curr. run. by erewrite bind_done by exact E.
Qed.

Lemma stream_write bs o h n k r c :
  0 < buf (write c) + n ->
  write_curr bs (streaming o h n k r c) = Done tt (streaming o (put h (buf (write c) + n) bs) n k r c).
Proof. intros Hn. unfold write_curr. run. apply (store_ok _ _ (streaming o h n k r c) Hn). Qed.

Lemma stream_advance z o h n k r c :
  0 <= n + z < 2 ^ 32 -> advance z (streaming o h n k r c) = Done tt (streaming o h (n + z) k r c).
Proof.
  intros Hz. unfold advance, modify. f_equal. unfold streaming. cbn [write set_field with_io buf bcurr bsize bbytes].
  by rewrite u32_small, <- Z.add_assoc by lia.
Qed.

Lemma stream_room z o h n k r c (x : option K) (e : ES) {A} (f : bool -> X A) :
  bind (on_conn (has_room z)) f (mk_world (streaming o h n k r c) x e) =
  f (n + z <? bsize (write c)) (mk_world (streaming o h n k r c) x e).
Proof. done. Qed.

Section Stream.
Context (c : connection).
Local Abbreviation b := (buf (write c)).
Local Abbreviation s := (bsize (write c)).
Local Abbreviation ok := (stream_ok b s (memory c)).

(** Bytes are put into the write buffer and sent from there. *)
Lemma stream_piece p o h n k r sent (x : option K) (e : ES) :
  ok o h n sent -> n + size p < s ->
  exists o' h', ok o' h' (n + size p) (sent ++ p) /\ forall A (f : X A),
    (on_conn (write_curr p);; on_conn (add_curr (size p));; on_conn (advance (size p));; f) (mk_world (streaming o h n k r c) x e) =
      f (mk_world (streaming o' h' (n + size p) k r c) x e).
Proof.
  intros Hs Hfit. pose proof (sm_buffer _ _ _ _ _ _ _ Hs). pose proof (size_nonneg p).
  destruct (stream_add_curr (size p) o (put h (b + n) p) n k r c (sm_building _ _ _ _ _ _ _ Hs)) as (o' & E & Hb & Hp); [lia|].
  exists o', (put h (b + n) p). split; [by apply (stream_put _ _ _ o)|]. intros A f.
  next (stream_write p o h n k r c ltac:(lia)). next E. by next (stream_advance (size p) o' (put h (b + n) p) n k r c ltac:(lia)).
Qed.

Lemma produce_ok cm p o h n k r sent (x : option K) (e : ES) :
  ok o h n sent ->
  if n + size p <? s then
    exists o' h', produce cm p (mk_world (streaming o h n k r c) x e) =
      Done ENGINE_SUCCESS (mk_world (streaming o' h' (n + size p) (cmd_value cm) r c) x e) /\ ok o' h' (n + size p) (sent ++ p)
  else produce cm p (mk_world (streaming o h n k r c) x e) = Done ENGINE_E2BIG (mk_world (streaming o h n (cmd_value cm) r c) x e).
Proof.
  intros Hs. unfold produce. run.
  change ((streaming o h n k r c) <| cmd := cmd_value cm |>) with (streaming o h n (cmd_value cm) r c).
  rewrite stream_room. destruct (n + size p <? s) eqn:E; cbn [negb]; [|done].
  destruct (stream_piece p o h n (cmd_value cm) r sent x e Hs ltac:(lia)) as (o' & h' & Hs' & Ep). exists o', h'.
  split; [apply Ep|done].
Qed.

Lemma produce_with_ok cm p key more o h n k r sent (x : option K) (e : ES) :
  let all := p ++ key ++ more in
  ok o h n sent ->
  if n + size all <? s then
    exists o' h', produce_with cm p key more (mk_world (streaming o h n k r c) x e) =
      Done ENGINE_SUCCESS (mk_world (streaming o' h' (n + size all) (cmd_value cm) r c) x e) /\ ok o' h' (n + size all) (sent ++ all)
  else produce_with cm p key more (mk_world (streaming o h n k r c) x e) =
    Done ENGINE_E2BIG (mk_world (streaming o h n (cmd_value cm) r c) x e).
Proof.
  intros all Hs. pose proof (sm_buffer _ _ _ _ _ _ _ Hs). unfold produce_with. run.
  change ((streaming o h n k r c) <| cmd := cmd_value cm |>) with (streaming o h n (cmd_value cm) r c).
  assert (size all = size p + size key + size more) as Ha by (unfold all; autorewrite with sizes; lia).
  pose proof (size_nonneg p). pose proof (size_nonneg key). pose proof (size_nonneg more).
  rewrite stream_room, Ha. destruct (_ <? s) eqn:E; cbn [negb]; [|done].
  destruct (stream_add_curr (size p + size key + size more) o h n (cmd_value cm) r c (sm_building _ _ _ _ _ _ _ Hs))
    as (o' & Ei & Hb & Hp); [lia|]. next Ei.
  do 2 (erewrite bind_done by (apply on_conn_done, stream_write; lia); erewrite bind_done by (apply on_conn_done, stream_advance; lia)).
  erewrite bind_done by (apply on_conn_done, stream_write; lia). erewrite bind_done by (apply on_conn_done, stream_advance; lia).
  exists o'. eexists. split; [by rewrite (Z.add_assoc n), (Z.add_assoc n)|]. rewrite <- Ha in *.
  eapply stream_ext; [|apply (stream_put _ _ _ o); [done|lia|done|done]].
  intros a. unfold all. rewrite app_assoc, <- put_put. rewrite size_app, !Z.add_assoc. apply put_ext. intros a'. apply put_put.
Qed.

(** What an item shows was there before. *)
Lemma expose_same l h c' :
  memory c' = h -> Forall (in_memory h) l ->
  exists h', expose_all l c' = Done tt (c' <| memory := h' |>) /\ forall a, h' a = h a.
Proof.
  intros Hh Hin. cut (exists h', expose_all l c' = Done tt (c' <| memory := h' |>) /\ forall a, h' a = memory c' a).
  { intros (h' & E & Hs). exists h'. split; [exact E|]. intros a. by rewrite Hs, Hh. }
  rewrite <- Hh in Hin. clear h Hh. revert c' Hin. induction l as [|p l IH]; intros c' Hin.
  { exists (memory c'). split; [by destruct c'|done]. }
  apply Forall_cons in Hin as [Hp Hl]. cbn [expose_all]. unfold expose. run.
  assert (forall a, put (memory c') p.1 p.2 a = memory c' a) as Hput.
  { intros a. rewrite (put_item (memory c')) by done. by destruct (_ && _). }
  destruct (IH (c' <| memory := put (memory c') p.1 p.2 |>)) as (h' & E & Hs).
  - eapply Forall_impl; [exact Hl|]. intros q Hq. unfold in_memory in *. rewrite <- Hq at 2. apply fetch_ext. intros a _. apply Hput.
  - exists h'. split; [exact E|]. intros a. rewrite Hs. apply Hput.
Qed.

Lemma mutation_head_ok oq it v bs rs l meta nru i :
  let m := Mutation oq it v bs rs l meta nru i in
  message_ok m ->
  bytes_of_packet (packet_of m) = mutation_head oq v bs rs l (size meta) nru i ++ (inf_key i).2 ++ value_of i ++ meta /\
  size (mutation_head oq v bs rs l (size meta) nru i) = 55.
Proof.
  intros m Hok. subst m. ranges. unfold mutation_head, request. split.
  - cbn [packet_of command_of]. rewrite frame_split. f_equal. unfold frame. cbn [header]. f_equal.
    + rewrite u32_small by lia. autorewrite with sizes.
      replace (31 + size (inf_key i).2 + inf_nbytes i + size meta) with (31 + size (inf_key i).2 + (size (value_of i) + size meta)) by lia.
      done.
    + by rewrite !be_store_swap, bswap1_small.
  - rewrite size_app. unfold size at 1. rewrite header_size. by autorewrite with sizes.
Qed.

(** The reference to the item is kept, and key and value are sent from it. *)
Lemma mutation_sent oq it v bs rs l meta nru i o h n k r sent (x : option K) (e e' : ES) :
  let m := Mutation oq it v bs rs l meta nru i in
  let cm := cmd_value PROTOCOL_BINARY_CMD_DCP_MUTATION in
  message_ok m -> supplied c m e e' -> reserve_ok = true -> ok o h n sent ->
  if n + used m <? s then
    exists o' h', dcp_message_mutation oq it v bs rs l meta nru (mk_world (streaming o h n k r c) x e) =
      Done ENGINE_SUCCESS (mk_world (streaming o' h' (n + used m) cm (r ++ [it]) c) x e') /\
      ok o' h' (n + used m) (sent ++ bytes_of_packet (packet_of m))
  else dcp_message_mutation oq it v bs rs l meta nru (mk_world (streaming o h n k r c) x e) =
    Done ENGINE_E2BIG (mk_world (streaming o h n cm r c) x e).
Proof.
  intros m cm Hok (Ei & Hin & Hap) Hr Hs. pose proof (sm_buffer _ _ _ _ _ _ _ Hs). pose proof (size_nonneg meta).
  destruct (mutation_head_ok oq it v bs rs l meta nru i Hok) as [Hbytes Hsize]. fold m in Hbytes. change (used m) with (55 + size meta).
  unfold dcp_message_mutation. fold cm. run. change ((streaming o h n k r c) <| cmd := cm |>) with (streaming o h n cm r c). clearbody cm.
  rewrite stream_room. change (HEADER_SIZE + 31 + size meta) with (55 + size meta).
  destruct (_ <? s) eqn:E; cbn [negb]; [|done].
  assert (Forall (in_memory h) (inf_key i :: inf_value i)) as Hin'.
  { apply Forall_forall. intros p Hp. rewrite Forall_forall in Hin, Hap. unfold in_memory. rewrite <- (Hin p Hp) at 2.
    apply fetch_ext. intros a Ha. apply (sm_memory _ _ _ _ _ _ _ Hs). destruct (Hap p Hp); lia. }
  destruct (expose_same (inf_key i :: inf_value i) h (streaming o h n cm r c) eq_refl Hin') as (h1 & Ee & Hsame).
  unfold bucket_get_item_info. run. next Ei. run. next Ee. run. unfold reserveItem. rewrite Hr. run. cbn [negb].
  change (((streaming o h n cm r c) <| memory := h1 |>) <| reserved_items := _ |>) with (streaming o h1 n cm (r ++ [it]) c).
  apply (stream_ext _ _ _ o h h1 n sent Hsame) in Hs. set (head := mutation_head _ _ _ _ _ _ _ _) in *.
  destruct (stream_piece head o h1 n cm (r ++ [it]) sent x e' Hs ltac:(lia)) as (o1 & h2 & Hs1 & E1). rewrite E1. rewrite Hsize in *.
  destruct (stream_iov (inf_key i).1 (size (inf_key i).2) o1 h2 (n + 55) cm (r ++ [it]) c (sm_building _ _ _ _ _ _ _ Hs1) (size_nonneg _))
    as (o2 & E2 & Hb2 & Hp2). next E2.
  destruct (stream_values (inf_value i) o2 h2 (n + 55) cm (r ++ [it]) c Hb2) as (o3 & E3 & Hb3 & Hp3). next E3.
  rewrite Hp2, <- app_assoc in Hp3.
  apply (stream_refer _ _ _ _ o3 _ _ _ (inf_key i :: inf_value i)) in Hs1; [|done|exact Hp3|lia|done|done].
  destruct (stream_piece meta o3 h2 (n + 55) cm (r ++ [it]) _ x e' Hs1 ltac:(lia)) as (o4 & h4 & Hs4 & E4). rewrite E4. exists o4, h4.
  rewrite Z.add_assoc. split; [done|]. rewrite Hbytes. cbn [map concat] in Hs4. by rewrite <- !app_assoc in Hs4.
Qed.

Definition sent_as (m : dcp_message) (run : X ENGINE_ERROR_CODE) o h n k r sent (x : option K) (e e' : ES) : Prop :=
  let cm := cmd_value (command_of m) in
  if n + used m <? s then
    exists o' h', run (mk_world (streaming o h n k r c) x e) =
      Done ENGINE_SUCCESS (mk_world (streaming o' h' (n + used m) cm (r ++ items_of m) c) x e') /\
      ok o' h' (n + used m) (sent ++ bytes_of_packet (packet_of m))
  else run (mk_world (streaming o h n k r c) x e) = Done ENGINE_E2BIG (mk_world (streaming o h n cm r c) x e).

Lemma sent_by_produce m p o h n k r sent x e :
  bytes_of_packet (packet_of m) = p -> used m = size (bytes_of_packet (packet_of m)) -> items_of m = [] -> ok o h n sent ->
  sent_as m (produce (command_of m) p) o h n k r sent x e e.
Proof. intros <- Hu Hi Hs. unfold sent_as. rewrite Hu, Hi, app_nil_r. by apply produce_ok. Qed.

Lemma sent_by_produce_with m p key more o h n k r sent x e :
  bytes_of_packet (packet_of m) = p ++ key ++ more -> used m = size (bytes_of_packet (packet_of m)) -> items_of m = [] ->
  ok o h n sent -> sent_as m (produce_with (command_of m) p key more) o h n k r sent x e e.
Proof. intros Hp Hu Hi Hs. unfold sent_as. rewrite Hu, Hi, app_nil_r, Hp. by apply produce_with_ok. Qed.

Lemma set_state_sent oq v st o h n k r sent x e :
  let m := SetVBucketState oq v st in
  message_ok m -> ok o h n sent -> sent_as m (dcp_message_set_vbucket_state oq v st) o h n k r sent x e e.
Proof.
  intros m (_ & _ & Hst) Hs. assert (is_valid_vbucket_state_t st = true) as Hv by (unfold is_valid_vbucket_state_t; lia).
  pose proof (sent_by_produce m _ o h n k r sent x e eq_refl eq_refl eq_refl Hs) as Hp. unfold sent_as in *.
  replace (dcp_message_set_vbucket_state oq v st (mk_world (streaming o h n k r c) x e))
    with (produce (command_of m) (bytes_of_packet (packet_of m)) (mk_world (streaming o h n k r c) x e)); [done|].
  unfold dcp_message_set_vbucket_state, produce. rewrite Hv. cbn [negb].
  replace (request _ _ _ _ _ _ _ _ ++ le_store 1 (u8 st)) with (bytes_of_packet (packet_of m)).
  - by run.
  - unfold m, u8, wrap. rewrite Z.mod_small by lia. reflexivity.
Qed.

(** Every producer. *)
Lemma message_sent m o h n k r sent x e e' :
  message_ok m -> supplied c m e e' -> reserve_ok = true -> ok o h n sent ->
  sent_as m (send producers m) o h n k r sent x e e'.
Proof.
  intros Hok Hsup Hr Hs. destruct m; cbn [supplied] in Hsup; subst; cbn [send producers];
    lazymatch goal with
    | |- sent_as (Mutation _ _ _ _ _ _ _ _ _) _ _ _ _ _ _ _ _ _ _ => by apply mutation_sent
    | |- sent_as (SetVBucketState _ _ _) _ _ _ _ _ _ _ _ _ _ => by apply set_state_sent
    | |- sent_as (Control _ _ _) _ _ _ _ _ _ _ _ _ _ => idtac
    | |- sent_as (Deletion _ _ _ _ _ _ _) _ _ _ _ _ _ _ _ _ _ => idtac
    | |- sent_as (Expiration _ _ _ _ _ _ _) _ _ _ _ _ _ _ _ _ _ => idtac
    | |- _ => apply sent_by_produce; [|done|done|done]; cbn [packet_of command_of]; rewrite frame_split, ?be_store_swap; reflexivity
    end.
  - apply sent_by_produce_with; [|done..]. cbn [packet_of command_of]. rewrite frame_split, !be_store_swap. reflexivity.
  - apply sent_by_produce_with; [|done..]. cbn [packet_of command_of]. rewrite frame_split, !be_store_swap. reflexivity.
  - apply sent_by_produce_with; [|done..]. cbn [packet_of command_of]. rewrite frame_split, app_nil_r. ranges.
    rewrite u32_small, (Z.add_comm (size value)) by lia. reflexivity.
Qed.

(** Messages one after the other, until one is refused. *)
Fixpoint send_all (p : dcp_message_producers K ES) (ms : list dcp_message) : X ENGINE_ERROR_CODE :=
  match ms with
  | [] => ret ENGINE_SUCCESS
  | m :: ms => r <- send p m;; if decide (r = ENGINE_SUCCESS) then send_all p ms else ret r
  end.

Fixpoint supplied_all (ms : list dcp_message) (e e' : ES) : Prop :=
  match ms with
  | [] => e' = e
  | m :: ms => exists e1, supplied c m e e1 /\ supplied_all ms e1 e'
  end.

Fixpoint total_used (ms : list dcp_message) : Z :=
  match ms with [] => 0 | m :: ms => used m + total_used ms end.

Lemma used_nonneg m : 0 <= used m.
Proof. destruct m; cbn [used]; try apply size_nonneg. match goal with |- context [size ?l] => pose proof (size_nonneg l) end. lia. Qed.

Lemma total_used_nonneg ms : 0 <= total_used ms.
Proof. induction ms as [|m ms IH]; cbn; [done|]. pose proof (used_nonneg m). lia. Qed.

Definition stream_bytes (ms : list dcp_message) : bytes := concat (map bytes_of_packet (map packet_of ms)).

Lemma all_sent ms o h n k r sent x e e' :
  Forall message_ok ms -> supplied_all ms e e' -> reserve_ok = true -> ok o h n sent -> n + total_used ms < s ->
  exists o' h' k', send_all producers ms (mk_world (streaming o h n k r c) x e) =
      Done ENGINE_SUCCESS (mk_world (streaming o' h' (n + total_used ms) k' (r ++ concat (map items_of ms)) c) x e') /\
      ok o' h' (n + total_used ms) (sent ++ stream_bytes ms).
Proof.
  intros Hok. revert o h n k r sent e. induction Hok as [|m ms Hm1 _ IH]; intros o h n k r sent e Hsup Hr Hs Hfit.
  { cbn in Hsup. subst e'. exists o, h, k. cbn [total_used map concat send_all]. unfold stream_bytes. cbn [map concat].
    rewrite Z.add_0_r, !app_nil_r. done. }
  destruct Hsup as (e1 & Hsup1 & Hms). cbn [total_used map concat send_all] in *. pose proof (total_used_nonneg ms).
  pose proof (message_sent m o h n k r sent x e e1 Hm1 Hsup1 Hr Hs) as Hone. unfold sent_as in Hone.
  rewrite (proj2 (Z.ltb_lt _ _)) in Hone by lia. destruct Hone as (o1 & h1 & E1 & Hs1).
  erewrite bind_done by exact E1. rewrite decide_True by done.
  destruct (IH o1 h1 (n + used m) (cmd_value (command_of m)) (r ++ items_of m) _ e1 Hms Hr Hs1 ltac:(lia)) as (o2 & h2 & k2 & E2 & Hs2).
  exists o2, h2, k2. rewrite Z.add_assoc, app_assoc. split; [exact E2|].
  unfold stream_bytes. cbn [map concat]. by rewrite app_assoc.
Qed.
End Stream.

(** A connection whose log is to be shipped. *)
Record can_ship (c : connection) : Prop := {
  cs_respond : can_respond c;
  cs_buffer : 0 < buf (write c);
  cs_size : bsize (write c) < 2 ^ 32;
}.

(** What is shipped. *)
Record shipped (ms : list dcp_message) (c c' : connection) : Prop := {
  sp_task : currentTask c' = conn_mwrite;
  sp_next : write_and_go c' = conn_ship_log;
  sp_building : building iov_max (out c');
  sp_bytes : to_send c' = stream_bytes ms;
  sp_items : reserved_items c' = reserved_items c ++ concat (map items_of ms);
}.

Lemma ship_mcbp_dcp_log_ok ms c x e e' :
  can_ship c -> reserve_ok = true ->
  (forall w, dcp_step producers w =
    (r <- send_all producers ms;; ret (if decide (r = ENGINE_SUCCESS) then ENGINE_WANT_MORE else r)) w) ->
  Forall message_ok ms -> supplied_all c ms e e' -> total_used ms < bsize (write c) ->
  exists c', ship_mcbp_dcp_log (mk_world c x e) = Done tt (mk_world c' x e') /\ shipped ms c c'.
Proof.
  intros [Hc Hb Hsz] Hr Hstep Hok Hsup Hfit. unfold ship_mcbp_dcp_log. run.
  destruct (addMsgHdr alloc_msg true (out c)) as [ok0 o1] eqn:Eh.
  assert (ok0 = true) as -> by (unfold addMsgHdr in Eh; rewrite (proj1 Hm) in Eh; by injection Eh).
  apply (addMsgHdr_true_building iov_max) in Eh as Ho; [|lia|apply Hc]. destruct Ho as [Hb1 Hp1].
  set (c1 := (c <| start := gethrtime |>) <| ewouldblock := false |>).
  assert (add_msghdr true (c <| start := gethrtime |>) = Done true ((c <| start := gethrtime |>) <| out := o1 |>)) as E1
    by (unfold add_msghdr; change (out (c <| start := gethrtime |>)) with (out c); by rewrite Eh).
  next E1. cbn [negb]. run.
  match goal with |- context [mk_world ?z x e] =>
    assert (z = streaming o1 (memory c) 0 (cmd c) (reserved_items c) c1) as -> by (unfold streaming; rewrite Z.add_0_r; reflexivity) end.
  assert (stream_ok (buf (write c)) (bsize (write c)) (memory c) o1 (memory c) 0 []) as Hs
    by (split; rewrite ?Hp1; [done|lia|constructor|done|done]).
  destruct (all_sent c1 ms o1 (memory c) 0 (cmd c) (reserved_items c) [] x e e' Hok Hsup Hr Hs Hfit) as (o2 & h2 & k2 & E2 & Hs2).
  set (c2 := streaming o2 h2 _ k2 _ c1) in E2.
  assert (dcp_step producers (mk_world (streaming o1 (memory c) 0 (cmd c) (reserved_items c) c1) x e) =
    Done ENGINE_WANT_MORE (mk_world c2 x e')) as Estep.
  { rewrite Hstep. erewrite bind_done by exact E2. by rewrite decide_True. }
  erewrite bind_done by exact Estep.
  destruct (setState_to conn_mwrite c2 (cr_task c Hc)) as (c3 & E3 & Ht & Si); [done..|].
  next E3. exists (c3 <| write_and_go := conn_ship_log |>). split; [done|].
  pose proof (quiet_done _ _ _ _ (q_setState conn_mwrite) E3) as Hq. destruct Hs2 as [Hb2 _ _ _ Hsent].
  split; [exact Ht|done| | |].
  - change (building iov_max (out c3)). by rewrite (si_out _ _ Si).
  - change (map (memory c3) (pending (out c3)) = stream_bytes ms). rewrite (si_memory _ _ Si), (si_out _ _ Si). exact Hsent.
  - change (reserved_items c3 = reserved_items c ++ concat (map items_of ms)).
    unfold beside in Hq. by injection Hq.
Qed.
End Sending.

(** ** The write buffer *)

(** The write buffer of a connection has [n] bytes; outside of it memory is as
    it was. *)
Record buffered (b s : Z) (h0 : heap) (n : Z) (c : connection) : Prop := {
  bf_write : write c = mk_shared b (b + n) s n;
  bf_memory : forall a, a < b \/ b + s <= a -> memory c a = h0 a;
}.

(** A write buffer whose contents are in it. *)
Definition write_ok {K ES} (b s : Z) (h0 : heap) (w : command_world K ES) : Prop :=
  exists n, (0 <= n <= s) /\ buffered b s h0 n (conn w).

Section WriteBuffer.
Context {K ES : Type} `{EngineV1 ES} `{System} `{Engine} `{Bucket} `{DcpInterface K ES}.
Context (b s : Z) (h0 : heap) (Hsize : s < 2 ^ 32).

(** The data of items is in memory, and not in the write buffer. *)
Context (Hitems : forall it n (e : ES) i e', engine_get_item_info it n e = Done (Some i) e' ->
  Forall (fun p => in_memory h0 p /\ apart_from b s p) (inf_key i :: inf_value i)).

Abbreviation X := (ST (command_world K ES)).
Abbreviation ok := (write_ok b s h0).
Definition having (n : Z) (w : command_world K ES) : Prop := buffered b s h0 n (conn w).
Abbreviation keeps n m := (triple (having n) m (fun _ => having n) ok).

Lemma having_ok n w : 0 <= n <= s -> having n w -> ok w.
Proof. intros Hn Hw. by exists n. Qed.

(** Functions of the connection that leave memory and write buffer alone. *)
Lemma keeps_conn {A} n (m : M A) :
  0 <= n <= s -> (forall c, match m c with Done _ c' | Throw c' => write c' = write c /\ memory c' = memory c | Crash => True end) ->
  keeps n (on_conn m).
Proof.
  intros Hn Hq [c x e] [Hw Hmem]. unfold on_conn. cbn [conn context eng] in *. specialize (Hq c).
  destruct (m c) as [a c'|c'|]; [| |done]; destruct Hq as [Ew Em];
    first [apply (having_ok n); [done|]|idtac]; split; cbn [conn]; rewrite ?Ew, ?Em; done.
Qed.

Lemma keeps_iov n a z : 0 <= n <= s -> keeps n (on_conn (add_iov a z)).
Proof. intros Hn. apply keeps_conn; [done|]. intros c. unfold add_iov. by repeat case_match; simplify_eq. Qed.

Lemma keeps_values n l : 0 <= n <= s -> keeps n (on_conn (add_values l)).
Proof.
  intros Hn. apply keeps_conn; [done|]. induction l as [|p l IH]; intros c; [done|]. cbn [add_values]. unfold bind, add_iov at 1.
  destruct (addIov _ _ _ _ _ _) as [[ok0 o]|]; [|done]. specialize (IH (c <| out := o |>)). by destruct (add_values l _).
Qed.

Lemma keeps_add_curr n z : 0 <= n <= s -> keeps n (on_conn (add_curr z)).
Proof.
  intros Hn. apply keeps_conn; [done|]. intros c. unfold add_curr, bind, gets, add_iov.
  by destruct (addIov _ _ _ _ _ _) as [[ok0 o]|].
Qed.

Lemma keeps_write n bs : 0 <= n -> n + size bs <= s -> keeps n (on_conn (write_curr bs)).
Proof.
  intros Hn Hfit [c x e] [Hw Hmem]. cbn [conn] in *. unfold on_conn, write_curr, bind, gets, store. cbn [conn context eng].
  destruct (_ == _); [done|]. split; [done|]. cbn [conn]. intros a Ha. rewrite <- Hmem by done. apply put_other.
  rewrite Hw. cbn [bcurr]. pose proof (size_nonneg bs). lia.
Qed.

Lemma keeps_advance n z : 0 <= n -> 0 <= z -> n + z <= s -> triple (having n) (on_conn (advance z)) (fun _ => having (n + z)) ok.
Proof.
  intros Hn Hz Hfit [c x e] [Hw Hmem]. split; [|done]. cbn [conn] in *. unfold on_conn, advance, modify. cbn.
  rewrite Hw. cbn [buf bcurr bsize bbytes]. by rewrite u32_small, Z.add_assoc by lia.
Qed.

Lemma keeps_room {A} n z (k : bool -> X A) Q :
  (n + z < s -> triple (having n) (k true) Q ok) -> triple (having n) (k false) Q ok ->
  triple (having n) (bind (on_conn (has_room z)) k) Q ok.
Proof.
  intros Ht Hf [c x e] Hw. run. unfold has_room. run. pose proof (bf_write _ _ _ _ _ Hw) as E. cbn [conn] in E. rewrite E.
  cbn [bbytes bsize]. destruct (_ <? _) eqn:El; [apply Ht; [lia|done]|by apply Hf].
Qed.

Lemma ends n (a : ENGINE_ERROR_CODE) : 0 <= n <= s -> triple (having n) (ret a : X _) (fun _ => ok) ok.
Proof. intros Hn. apply triple_ret. intros w. by apply having_ok. Qed.

Lemma keeps_cmd n v : 0 <= n <= s -> keeps n (on_conn (assign cmd v)).
Proof. intros Hn. by apply keeps_conn. Qed.

(** One statement of a producer. *)
Ltac buffer_step :=
  match goal with
  | |- triple (having ?n) (bind (on_conn (advance ?z)) _) _ _ =>
      apply (triple_bind _ _ (fun _ => having (n + z))); [apply keeps_advance; lia|intros _]
  | |- triple (having ?n) (bind (on_conn _) _) _ _ =>
      apply (triple_bind _ _ (fun _ => having n));
        [first [apply keeps_write; lia | apply keeps_add_curr; lia | apply keeps_iov; lia | apply keeps_values; lia | apply keeps_cmd; lia]
        |intros _]
  | |- triple _ (ret _) _ _ => apply ends; lia
  end.

Lemma in_put_packet n p : 0 <= n -> n + size p < s -> triple (having n) (put_packet p) (fun _ => ok) ok.
Proof. intros Hn Hfit. pose proof (size_nonneg p). unfold put_packet. repeat buffer_step. Qed.

Lemma in_produce n cm p : 0 <= n <= s -> triple (having n) (produce cm p) (fun _ => ok) ok.
Proof.
  intros Hn. unfold produce. buffer_step. apply keeps_room; cbn [negb].
  - intros Hfit. apply in_put_packet; lia.
  - buffer_step.
Qed.

Lemma in_produce_with n cm p key more : 0 <= n <= s -> triple (having n) (produce_with cm p key more) (fun _ => ok) ok.
Proof.
  intros Hn. pose proof (size_nonneg p). pose proof (size_nonneg key). pose proof (size_nonneg more).
  unfold produce_with. buffer_step. apply keeps_room; cbn [negb]; [intros Hfit|]; repeat buffer_step.
Qed.

Lemma in_set_state n o v st : 0 <= n <= s -> triple (having n) (dcp_message_set_vbucket_state o v st) (fun _ => ok) ok.
Proof.
  intros Hn. unfold dcp_message_set_vbucket_state. buffer_step. apply keeps_room; cbn [negb]; [|buffer_step].
  intros Hfit. destruct (negb _); [buffer_step|]. apply in_put_packet; [lia|].
  unfold request. rewrite size_app. unfold size at 1. rewrite header_size. autorewrite with sizes. unfold HEADER_SIZE in Hfit. lia.
Qed.

(** Looking at an item leaves memory as it is. *)
Lemma keeps_expose n l : 0 <= n <= s -> Forall (fun p => in_memory h0 p /\ apart_from b s p) l -> keeps n (on_conn (expose_all l)).
Proof.
  intros Hn Hl [c x e] Hw. revert c Hw. induction Hl as [|p l [Hin Hap] _ IH]; intros c [Hw Hmem]; [done|].
  cbn [expose_all]. unfold expose. unfold on_conn, bind, modify. cbn [conn context eng] in *.
  specialize (IH (c <| memory := put (memory c) p.1 p.2 |>)). unfold on_conn in IH. cbn [conn context eng] in IH. apply IH.
  split; [done|]. cbn [conn]. intros a Ha. change (put (memory c) p.1 p.2 a = h0 a).
  rewrite (put_item h0) by done. destruct (_ && _); [done|by apply Hmem].
Qed.

Lemma keeps_engine {A} n (m : ST ES A) : 0 <= n <= s -> keeps n (on_eng m).
Proof.
  intros Hn [c x e] Hw. unfold on_eng. cbn [eng conn context]. destruct (m e); [done|by apply (having_ok n)|done].
Qed.

Lemma in_info {A} n it v (k : option item_info -> X A) Q :
  0 <= n <= s -> (forall i, triple (having n) (k i) Q ok) -> triple (having n) (bind (bucket_get_item_info it v) k) Q ok.
Proof.
  intros Hn Hk. unfold bucket_get_item_info. apply (triple_bind _ _ (fun _ => having n)); [|done].
  intros [c x e] Hw. unfold bind at 1, on_eng. cbn [eng conn context].
  destruct (engine_get_item_info it v e) as [[i|] e'|e'|] eqn:E; [| |by apply (having_ok n)|done]; [|by run].
  pose proof (keeps_expose n _ Hn (Hitems it v e i e' E) (mk_world c x e') Hw) as He. unfold bind.
  by destruct (on_conn _ _).
Qed.

Lemma in_mutation n o it v bs rs l meta nru : 0 <= n <= s ->
  triple (having n) (dcp_message_mutation o it v bs rs l meta nru) (fun _ => ok) ok.
Proof.
  intros Hn. pose proof (size_nonneg meta). unfold dcp_message_mutation. buffer_step. apply keeps_room; cbn [negb]; [|buffer_step].
  intros Hfit. apply in_info; [done|]. intros [i|].
  2: { apply (triple_bind _ _ (fun _ => having n)); [by apply keeps_engine|intros _; buffer_step]. }
  assert (size (mutation_head o v bs rs l (size meta) nru i) = 55) as Hh.
  { unfold mutation_head, request. rewrite size_app. unfold size at 1. rewrite header_size. by autorewrite with sizes. }
  unfold HEADER_SIZE in Hfit. apply (triple_bind _ _ (fun _ => having n)).
  { unfold reserveItem. destruct reserve_ok; [|by apply triple_ret]. apply (triple_bind _ _ (fun _ => having n)); [|by intros; apply triple_ret].
    by apply keeps_conn. }
  intros [|]; cbn [negb]; [repeat buffer_step|].
  apply (triple_bind _ _ (fun _ => having n)); [by apply keeps_engine|intros _; buffer_step].
Qed.

Lemma buffer_safe (m : X ENGINE_ERROR_CODE) :
  (forall n, 0 <= n <= s -> triple (having n) m (fun _ => ok) ok) -> safe ok m.
Proof. intros Ht w (n & Hn & Hw). exact (Ht n Hn w Hw). Qed.

(** C13: whatever a producer is called with and however it ends, the write buffer
    of the connection stays well formed: its position is behind the bytes it
    has, which are no more than fit, and no byte of memory outside of the
    buffer has changed. *)
Theorem producers_in_buffer :
  (forall m, safe (write_ok b s h0) (send producers m)) /\
  (forall opaque dialogopaque status, safe (write_ok b s h0) (p_add_stream_rsp producers opaque dialogopaque status)) /\
  (forall opaque status, safe (write_ok b s h0) (p_marker_rsp producers opaque status)) /\
  (forall opaque status, safe (write_ok b s h0) (p_set_vbucket_state_rsp producers opaque status)).
Proof.
  split; [|split; [|split]]; intros; [|apply buffer_safe; intros; by apply in_produce..].
  apply buffer_safe. intros n Hn.
  destruct m; cbn [send producers p_get_failover_log p_stream_req p_stream_end p_marker p_mutation p_deletion p_expiration
    p_flush p_set_vbucket_state p_noop p_buffer_acknowledgement p_control];
    first [by apply in_produce | by apply in_produce_with | by apply in_set_state | by apply in_mutation].
Qed.
End WriteBuffer.

(** ** Streams *)

(** The packets at the head of a buffer, one after the other. *)
Fixpoint split_packets (n : nat) (m : bytes) : option (list packet) :=
  match n with
  | O => if decide (m = []) then Some [] else None
  | S n => p ← packet_of_bytes m; ps ← split_packets n (drop (length (bytes_of_packet p)) m); Some (p :: ps)
  end.

Lemma split_stream ms : Forall message_ok ms -> split_packets (length ms) (stream_bytes ms) = Some (map packet_of ms).
Proof.
  induction 1 as [|m ms Hm _ IH]; [done|]. unfold stream_bytes in *. cbn [map concat length split_packets].
  rewrite packet_of_bytes_encode by apply (message_packet_ok m Hm). cbn [mbind option_bind]. by rewrite drop_app_length, IH.
Qed.

Section Shipping.
Context {K ES : Type} `{EngineV1 ES} `{System} `{Engine} `{Bucket} `{DcpInterface K ES}.

(** C12: what an engine puts into a stream is what is sent.  An engine that
    calls the producers with messages that fit in the write buffer leaves the
    connection sending, for each message, one complete packet with its
    arguments, in the order of the calls and with nothing in between, after
    which the stream goes on; the connection keeps the references to the items
    of mutations until then. *)
Theorem dcp_shipped ms c (x : option K) (e e' : ES) :
  1 <= iov_max -> memory_available -> can_ship c -> reserve_ok = true ->
  (forall w, dcp_step producers w =
    (r <- send_all producers ms;; ret (if decide (r = ENGINE_SUCCESS) then ENGINE_WANT_MORE else r)) w) ->
  Forall message_ok ms -> supplied_all c ms e e' -> total_used ms < bsize (write c) ->
  exists c', ship_mcbp_dcp_log (mk_world c x e) = Done tt (mk_world c' x e') /\ shipped ms c c' /\
    split_packets (length ms) (to_send c') = Some (map packet_of ms).
Proof.
  intros Hmax Hm Hc Hr Hstep Hok Hsup Hfit.
  destruct (ship_mcbp_dcp_log_ok Hmax Hm ms c x e e' Hc Hr Hstep Hok Hsup Hfit) as (c' & E & Hs).
  exists c'. split; [done|]. split; [done|]. rewrite (sp_bytes _ _ _ Hs). by apply split_stream.
Qed.

Lemma message_format m : exists fm, command_format (command_of m) = Some fm.
Proof. destruct m; by eexists. Qed.

(** C11: what arrives is what was sent.  The packet of a message, in the read
    buffer of a connection that may use the command, passes the checks, and its
    executor calls the engine with exactly the arguments the producer was
    called with.  Refused as invalid are exactly the mutations, deletions and
    expirations without a key, the expirations with metadata and the control
    messages without a key or a value; the producers send them all the same. *)
Theorem dcp_received m c (x : option K) (e : ES) :
  message_ok m -> request_in_buffer (packet_of m) c -> access (command_of m) c = Privileges.Ok ->
  if acceptable m then
    exists run, choose_executor c = Done (Some (executor_for m, bytes_of_packet (packet_of m))) c /\
      dcp_executor (executor_for m) = Some run /\
      run (bytes_of_packet (packet_of m)) (mk_world c x e) = handled m (mk_world c x e)
  else choose_executor c = (emit AuditInvalidPacket;; refuse PROTOCOL_BINARY_RESPONSE_EINVAL;; ret None) c.
Proof.
  intros Hm Hb Ha. destruct (message_format m) as [fm Hf]. pose proof (message_packet_ok m Hm) as Hp.
  assert (opcode (header (packet_of m)) = cmd_value (command_of m)) as Hop by (by destruct m).
  pose proof (message_validated false m Hm) as Hv. rewrite (validate_verdict false _ fm) in Hv by done. unfold verdict in Hv.
  rewrite (choose_executor_spec _ _ fm c Hb Hop Hf), Ha, executor_registered.
  pose proof (pk_lengths _ Hp) as Hl. unfold validate_bin_header in Hl. destruct (_ <=? _) in Hl |- *; [|done].
  destruct (message_handled m (mk_world c x e) Hm (rb_header _ _ Hb)) as (run & Er & Eh).
  assert (refusal (command_of m) (packet_of m) <> PROTOCOL_BINARY_RESPONSE_SUCCESS) by (unfold refusal; by repeat case_match).
  destruct (conforms fm (packet_of m)), (acceptable m); try done; [by exists run|by injection Hv|by injection Hv as ->].
Qed.
End Shipping.

(** ** Metadata that is not there

    The validators do not compare the length of the metadata with what the
    packet has. *)

Lemma load_outside n off m : size m < off + n -> 0 <= n -> load (Z.to_nat n) off m = None.
Proof.
  intros Ho Hn. apply eq_None_not_Some. rewrite load_is_Some. intros [_ Hi]. unfold size in *. lia.
Qed.

Section Outside.
Context {K ES : Type} `{System} `{Engine} `{Bucket} `{DcpInterface K ES}.
Abbreviation X := (ST (command_world K ES)).

Lemma frame_size c o v ca d ex key tail : size (bytes_of_packet (frame c o v ca d ex key tail)) = 24 + size ex + size key + size tail.
Proof. rewrite frame_split, size_app, frame_front, size_app. lia. Qed.

(** A deletion that claims more metadata than it has is accepted, and the engine
    is given what lies behind the packet. *)
Lemma deletion_outside collections f o v ca b r key tail z (w : command_world K ES) :
  let ex := be_store 8 b ++ be_store 8 r ++ be_store 2 z in
  let p := frame PROTOCOL_BINARY_CMD_DCP_DELETION o v ca 0 ex key tail in
  frame_ok o v ca 0 ex key tail -> 0 < size key -> size tail < z < 2 ^ 16 ->
  validateCommand collections (cmd_value PROTOCOL_BINARY_CMD_DCP_DELETION) p = Some PROTOCOL_BINARY_RESPONSE_SUCCESS /\
  call_deletion f (bytes_of_packet p) w = Crash.
Proof.
  intros ex p Hf Hk Hz. pose proof (fk_key _ _ _ _ _ _ _ Hf) as Hk16. ranges. split.
  - rewrite (message_validator collections (Deletion 0 [] 0 0 0 0 [])). cbn [command_of dcp_validator].
    unfold dcp_deletion_validator, p, ex. cbn [header frame magic extlen keylen bodylen]. autorewrite with sizes.
    by rewrite htons_positive by lia.
  - pose proof (frame_packet_ok PROTOCOL_BINARY_CMD_DCP_DELETION _ _ _ _ _ _ _ Hf) as Hp.
    pose proof (frame_nkey PROTOCOL_BINARY_CMD_DCP_DELETION _ _ _ _ _ _ _ Hf) as Hn.
    pose proof (frame_size PROTOCOL_BINARY_CMD_DCP_DELETION o v ca 0 ex key tail) as Hs.
    assert (size ex = 18) as Hx by (unfold ex; by autorewrite with sizes). fold p in Hp, Hn, Hs.
    unfold call_deletion. rewrite header_step by done. unfold p, ex. do 3 member_step. fold ex p. cbv zeta. fold (nkey p).
    unfold data. unfold p at 1 2. rewrite (frame_key _ _ _ _ _ _ _ _ Hf), bind_must by (by rewrite Hx).
    rewrite bswap2_small by (unfold is_u16; pose proof (size_nonneg tail); lia).
    rewrite load_outside by (rewrite ?Hs, ?Hn; pose proof (size_nonneg tail); lia). done.
Qed.

(** A mutation that does so is accepted too; the length of its value wraps
    around. *)
Lemma mutation_outside collections g o v ca d b r fl ex l nru key tail z (c : connection) (x : option K) (e : ES) :
  let extras := be_store 8 b ++ be_store 8 r ++ le_store 4 fl ++ be_store 4 ex ++ be_store 4 l ++ be_store 2 z ++ be_store 1 nru in
  let p := frame PROTOCOL_BINARY_CMD_DCP_MUTATION o v ca d extras key tail in
  frame_ok o v ca d extras key tail -> 0 < size key -> is_u32 fl -> size tail < z < 2 ^ 16 ->
  dcp_mutation = Some g -> aiostat c = ENGINE_SUCCESS ->
  validateCommand collections (cmd_value PROTOCOL_BINARY_CMD_DCP_MUTATION) p = Some PROTOCOL_BINARY_RESPONSE_SUCCESS /\
  dcp_mutation_executor (bytes_of_packet p) (mk_world c x e) = Crash.
Proof.
  intros extras p Hf Hk Hfl Hz Hg Ha. pose proof (fk_key _ _ _ _ _ _ _ Hf) as Hk16. pose proof (fk_body _ _ _ _ _ _ _ Hf) as Hb32.
  pose proof (size_nonneg tail). assert (size extras = 31) as Hx by (unfold extras; by autorewrite with sizes). rewrite Hx in Hb32.
  ranges. split.
  - rewrite (message_validator collections (Mutation 0 0 0 0 0 0 [] 0 (mk_item_info 0 (mk_mutation 0 0) 0 0 0 0 0 (0, []) []))).
    cbn [command_of dcp_validator]. unfold dcp_mutation_validator, p. cbn [header frame magic extlen keylen bodylen].
    rewrite Hx. by rewrite htons_positive, htonl_positive by lia.
  - pose proof (frame_packet_ok PROTOCOL_BINARY_CMD_DCP_MUTATION _ _ _ _ _ _ _ Hf) as Hp.
    pose proof (frame_nkey PROTOCOL_BINARY_CMD_DCP_MUTATION _ _ _ _ _ _ _ Hf) as Hn.
    pose proof (frame_nbody PROTOCOL_BINARY_CMD_DCP_MUTATION _ _ _ _ _ _ _ Hf) as Hb. rewrite Hx in Hb.
    pose proof (frame_size PROTOCOL_BINARY_CMD_DCP_MUTATION o v ca d extras key tail) as Hs. fold p in Hp, Hn, Hs, Hb.
    unfold dcp_mutation_executor, dcp_execute, dcp_call. rewrite Hg. run. next (take_aiostat_ok c Ha). run. rewrite decide_True by done.
    unfold bind at 1. rewrite header_step by done. unfold p, extras. do 7 member_step. fold extras p. cbv zeta. fold (nkey p) (nbody p).
    change (extlen (header p)) with (size extras). rewrite Hx, Hb, bswap2_small by (unfold is_u16; lia).
    unfold data. unfold p at 1 2. rewrite (frame_key _ _ _ _ _ _ _ _ Hf), bind_must by (by rewrite Hx). rewrite Hn.
    replace (31 + size key + size tail - size key - 31 - z) with (size tail - z) by lia.
    assert (u32 (size tail - z) = size tail - z + 2 ^ 32) as Hw
      by (unfold u32, wrap; rewrite <- (Z.mod_add _ 1) by lia; rewrite Z.mod_small; lia).
    rewrite Hw, load_outside by (rewrite ?Hs; lia). done.
Qed.
End Outside.

(** ** A small stream

    An engine with one item, at 8192 and 8200, that notes the mutations it is
    given. *)

Definition small_item : item_info :=
  mk_item_info 5 (mk_mutation 0 0) 0 1 0 0 0 (8192, text "k") [(8200, text "v")].
Definition small_heap : heap := put (put blank 8192 (text "k")) 8200 (text "v").
Definition small_mutation : dcp_message := Mutation 7 9 1 2 3 0 [] 0 small_item.
Definition small_stream : list dcp_message := [Marker 7 1 2 2 0; small_mutation; StreamEnd 7 1 0].

Definition noting : Type := list (bytes * bytes).

Definition small_engine : EngineV1 noting := {|
  engine_allocate := fun _ _ _ _ _ => ret (ENGINE_ENOMEM, 0);
  engine_remove := fun _ _ _ => ret (ENGINE_KEY_ENOENT, 0, mk_mutation 0 0);
  engine_release := fun _ => ret tt;
  engine_get := fun _ _ => ret (ENGINE_SUCCESS, 9);
  engine_store := fun _ _ _ _ => ret (ENGINE_NOT_STORED, 0);
  engine_arithmetic := fun _ _ _ _ _ _ _ _ => ret (ENGINE_KEY_ENOENT, 0, 0);
  engine_flush := ret ENGINE_SUCCESS;
  engine_item_set_cas := fun _ _ => ret tt;
  engine_get_item_info := fun _ _ => ret (Some small_item);
  engine_set_item_info := fun _ _ => ret true;
  copy_value := fun _ _ _ => ret tt |}.

Definition small_dcp : DcpInterface unit noting := {|
  dcp_step := fun p => r <- send_all p small_stream;; ret (if decide (r = ENGINE_SUCCESS) then ENGINE_WANT_MORE else r);
  dcp_open := None; dcp_add_stream := None; dcp_close_stream := None; dcp_stream_req := None; dcp_get_failover_log := None;
  dcp_stream_end := None; dcp_snapshot_marker := None;
  dcp_mutation := Some (fun _ key value _ _ _ _ _ _ _ _ _ _ => on_eng (modify (cons (key, value)));; ret ENGINE_SUCCESS);
  dcp_deletion := None; dcp_expiration := None; dcp_flush := None; dcp_set_vbucket_state := None; dcp_noop := None;
  dcp_buffer_acknowledgement := None; dcp_control := None; reserve_ok := true; medium_priority_requests := 5 |}.

Lemma small_stream_ok : Forall message_ok small_stream.
Proof. repeat constructor; by vm_compute. Qed.

Lemma small_item_there : Forall (fun p => in_memory small_heap p /\ apart_from 4096 2048 p) (inf_key small_item :: inf_value small_item).
Proof. repeat constructor; first [by vm_compute | right; by vm_compute]. Qed.

Lemma dcp_shipped_witness :
  exists c', @ship_mcbp_dcp_log unit noting small_engine demo_system small_dcp (mk_world (demo_connection small_heap) None []) =
      Done tt (mk_world c' None []) /\
    split_packets 3 (to_send c') = Some (map packet_of small_stream) /\ reserved_items c' = [9].
Proof.
  pose proof (@dcp_shipped unit noting small_engine demo_system small_dcp small_stream (demo_connection small_heap) None [] []) as W.
  specialize (W ltac:(cbn; lia) demo_available).
  assert (can_ship (demo_connection small_heap)) as Hc by (split; [apply demo_can_respond|reflexivity|reflexivity]).
  specialize (W Hc eq_refl (fun w => eq_refl) small_stream_ok).
  assert (@supplied_all noting small_engine demo_system (demo_connection small_heap) small_stream [] []) as Hs.
  { exists []. split; [reflexivity|]. exists []. split; [|exists []; split; reflexivity]. split; [reflexivity|].
    pose proof small_item_there as Hi. split; (eapply Forall_impl; [exact Hi|]); intros p Hp; apply Hp. }
  specialize (W Hs eq_refl). destruct W as (c' & E & Hsh & Hp). exists c'. split; [exact E|]. split; [exact Hp|].
  exact (sp_items _ _ _ Hsh).
Defined.

Lemma producers_in_buffer_witness :
  safe (@write_ok unit noting 4096 2048 small_heap)
    (@send unit noting (@producers unit noting small_engine demo_system small_dcp) small_mutation).
Proof.
  pose proof (@producers_in_buffer unit noting small_engine demo_system small_dcp 4096 2048 small_heap eq_refl) as W.
  refine (proj1 (W _) small_mutation). intros it n e i e' E. injection E as <- _. exact small_item_there.
Defined.

(** The connection that receives the mutation. *)
Definition receiving (p : packet) : connection :=
  let n := size (bytes_of_packet p) in
  (with_input (mk_input (mk_net_buf (bytes_of_packet p) n 0) n 0 (host_header (header p))) blank) <| admin := true |>.

Lemma dcp_received_witness :
  exists run c', @dcp_executor unit noting demo_system plain_engine demo_bucket small_dcp Dispatch.dcp_mutation_executor = Some run /\
    run (bytes_of_packet (packet_of small_mutation)) (mk_world (receiving (packet_of small_mutation)) None []) =
      Done tt (mk_world c' None [(text "k", text "v")]).
Proof.
  pose proof (@dcp_received unit noting demo_system plain_engine demo_bucket small_dcp small_mutation
    (receiving (packet_of small_mutation)) None []) as W.
  assert (message_ok small_mutation) as Hm by (by vm_compute).
  assert (request_in_buffer (packet_of small_mutation) (receiving (packet_of small_mutation))) as Hb
    by (split; [vm_compute; reflexivity|vm_compute; reflexivity|apply (message_packet_ok _ Hm)]).
  specialize (W Hm Hb ltac:(vm_compute; reflexivity)). change (acceptable small_mutation) with true in W. cbn iota in W.
  destruct W as (run & _ & Er & Eh). exists run. eexists. split; [exact Er|]. refine (eq_trans Eh _). vm_compute. reflexivity.
Defined.
