(* ===== verification/Closing.v ===== *)
(** * Closing a connection, with the executors

    The states behind [conn_closing] are entered with a closed socket only,
    because nothing a command runs enters them: the executors of [Executors],
    [Subdoc] and [Dcp], the log of a DCP connection and the functions that
    answer go to other states.  The state machine of [StateMachine] is put
    together with these executors here.

    What remains assumed is about code that is not modelled: the engine and the
    extensions, TAP, and the executors of the other commands. *)

From S2P Require Import Prelude Memory Numbers Protocol Packet Input Output Buffers DynamicBuffer RecordUpdate StateMonad.
From S2P Require Import Connection Response SubdocValidators Dispatch StateMachine EngineApi Executors ExecutorSpec Subdoc SubdocSpec.
From S2P Require Import Dcp DcpSpec.

(** ** Code on a connection and an engine *)

(** [discreet], for code that works on an engine too. *)
Definition tame {K ES A} (m : ST (command_world K ES) A) : Prop :=
  forall b t g, safe (fun w => undisturbed b t g (conn w)) m.

Section Tame.
Context {K ES A : Type}.

Lemma safe_on_conn (I : connection -> Prop) (m : M A) :
  safe I m -> safe (fun w : command_world K ES => I (conn w)) (on_conn m).
Proof. intros Hm [c k e] Hc. unfold on_conn. specialize (Hm c Hc). cbn. by destruct (m c). Qed.

Lemma safe_on_eng (I : connection -> Prop) (m : ST ES A) :
  safe (fun w : command_world K ES => I (conn w)) (on_eng m).
Proof. intros [c k e] Hc. unfold on_eng. cbn. by destruct (m e). Qed.

Lemma safe_the_context (I : connection -> Prop) :
  safe (fun w : command_world K ES => I (conn w)) the_context.
Proof. intros [c k e] Hc. unfold the_context, bind, gets, must. by destruct k. Qed.

Lemma safe_update_context (I : connection -> Prop) f :
  safe (fun w : command_world K ES => I (conn w)) (update_context f).
Proof. intros [c k e] Hc. unfold update_context, the_context, set_context, bind, gets, must, modify. by destruct k. Qed.

(** What code on a connection and an engine does to the connection. *)
Definition projected (m : ST (command_world K ES) A) (k : option K) (e : ES) : M A := fun c =>
  match m (mk_world c k e) with
  | Done a w => Done a (conn w)
  | Throw w => Throw (conn w)
  | Crash => Crash
  end.

Lemma projected_discreet (m : ST (command_world K ES) A) k e : tame m -> discreet (projected m k e).
Proof.
  intros Hm b t g c Hc. specialize (Hm b t g (mk_world c k e) Hc). unfold projected.
  by destruct (m (mk_world c k e)).
Qed.
End Tame.

#[export] Hint Resolve d_setState d_setWriteAndGo d_emit d_add_msghdr d_add_iov d_store d_grow_dynamic
  d_move_offset d_packet_bytes d_add_header d_write_response d_write_and_free d_vb_map_cb
  d_response_handler d_write_packet : safe.
#[export] Hint Extern 1 (after_closing _ = false) => reflexivity : safe.
#[export] Hint Extern 1 (safe (undisturbed ?b ?t ?g) ?m) =>
  (let Hd := fresh in assert (discreet m) as Hd by (eauto with safe nocore); exact (Hd b t g)) : safe.
#[export] Hint Extern 1 (safe (fun _ => undisturbed ?b ?t ?g _) ?m) =>
  (let Hd := fresh in assert (tame m) as Hd by (eauto with safe nocore); exact (Hd b t g)) : safe.

(** A step of the proof that code is [tame] or [discreet]. *)
Ltac tame_step :=
  lazymatch goal with
  | |- tame _ => intros ? ? ?
  | |- discreet _ => intros ? ? ?
  | |- safe _ (on_conn _) => apply safe_on_conn
  | |- safe _ (on_eng _) => apply safe_on_eng
  | |- safe _ the_context => apply safe_the_context
  | |- safe _ (update_context _) => apply safe_update_context
  | |- safe _ (if _ then _ else _) => case_match
  | |- _ => safe_step
  end.
Ltac tamely := repeat tame_step.

(** ** The executors on items *)

Section Items.
Context {ES : Type} `{EngineV1 ES} `{System} `{Engine} `{Bucket} `{Services}.
Hypothesis Hmap : vb_map_discreet.

Lemma t_take_aiostat : discreet Executors.take_aiostat.
Proof. unfold Executors.take_aiostat. tamely. Qed.

Lemma t_expose p : discreet (expose p).
Proof. unfold expose. tamely. Qed.
Hint Resolve t_expose : safe.

Lemma t_expose_all l : discreet (expose_all l).
Proof. induction l as [|p l IH]; cbn [expose_all]; tamely. Qed.

Lemma t_add_values l : discreet (add_values l).
Proof. induction l as [|p l IH]; cbn [add_values]; tamely. Qed.

Lemma t_update_topkeys key : discreet (update_topkeys key).
Proof. unfold update_topkeys. tamely. Qed.

Lemma t_binary_get_key : discreet binary_get_key.
Proof. unfold binary_get_key. tamely. Qed.

Lemma t_binary_get_request : discreet binary_get_request.
Proof. unfold binary_get_request. tamely. Qed.
Hint Resolve t_take_aiostat t_expose_all t_add_values t_update_topkeys t_binary_get_key t_binary_get_request : safe.

Lemma t_get_item_info {K} it n : tame (bucket_get_item_info (K := K) it n).
Proof. unfold bucket_get_item_info. tamely. Qed.

Lemma t_release_item {K} it : tame (bucket_release_item (K := K) it).
Proof. unfold bucket_release_item. tamely. Qed.
Hint Resolve t_get_item_info t_release_item : safe.

Lemma t_get_response nkey it i d : discreet (get_response nkey it i d).
Proof. unfold get_response. tamely. Qed.

Lemma t_get_miss key : discreet (get_miss key).
Proof. unfold get_miss. tamely. Qed.

Lemma t_get_inflated key it i : tame (get_inflated key it i).
Proof. unfold get_inflated. tamely. Qed.
Hint Resolve t_get_response t_get_miss t_get_inflated : safe.

Lemma t_get_hit key it : tame (get_hit key it).
Proof. unfold get_hit. tamely. Qed.
Hint Resolve t_get_hit : safe.

Lemma t_get_executor : tame get_executor.
Proof. unfold get_executor, process_bin_get. tamely. Qed.
Lemma t_write_mutation d : discreet (write_mutation d).
Proof. unfold write_mutation, store_extras. tamely. Qed.
Hint Resolve t_get_executor t_write_mutation : safe.

Lemma t_allocate_item r req pkt : tame (allocate_item r req pkt).
Proof. unfold allocate_item, mark_json. tamely. Qed.

Lemma t_respond_store op r : tame (respond_store op r).
Proof. unfold respond_store, respond_stored. tamely. Qed.
Hint Resolve t_allocate_item t_respond_store : safe.

Lemma t_store_executor q op pkt : tame (store_executor q op pkt).
Proof. unfold store_executor, add_set_replace_executor. tamely. Qed.

Lemma t_inflateInputData : tame (inflateInputData (ES := ES)).
Proof. unfold inflateInputData. tamely. Qed.

Lemma t_getItem : tame getItem.
Proof. unfold getItem. tamely. Qed.

Lemma t_allocateNewItem : tame allocateNewItem.
Proof. unfold allocateNewItem. tamely. Qed.

Lemma t_storeItem : tame storeItem.
Proof. unfold storeItem. tamely. Qed.

Lemma t_append_reset : tame append_reset.
Proof. unfold append_reset. tamely. Qed.
Hint Resolve t_store_executor t_inflateInputData t_getItem t_allocateNewItem t_storeItem t_append_reset : safe.

Lemma t_append_step fuel : tame (append_step fuel).
Proof. induction fuel as [|fuel IH]; cbn [append_step]; tamely. Qed.
Hint Resolve t_append_step : safe.

Lemma t_append_executor q mode pkt : tame (append_executor q mode pkt).
Proof. unfold append_executor, append_prepend_executor, set_context. tamely. Qed.

Lemma t_delete_executor : tame delete_executor.
Proof. unfold delete_executor. tamely. Qed.

Lemma t_arithmetic_result key it r : tame (arithmetic_result key it r).
Proof. unfold arithmetic_result, store_extras. tamely. Qed.
Hint Resolve t_append_executor t_delete_executor t_arithmetic_result : safe.

Lemma t_arithmetic_executor : tame arithmetic_executor.
Proof. unfold arithmetic_executor, arithmetic_request. tamely. Qed.

Lemma t_flush_executor : tame flush_executor.
Proof. unfold flush_executor. tamely. Qed.
Hint Resolve t_arithmetic_executor t_flush_executor : safe.

Lemma executor_tame ex pkt m : run_executor_of ex pkt = Some m -> tame m.
Proof.
  destruct ex; intros [= <-]; auto with safe nocore;
    unfold noop_executor, version_executor, quit_executor, quitq_executor; tamely.
Qed.
End Items.

(** ** Sub-document commands *)

Section Documents.
Context {ES : Type} `{EngineV1 ES} `{System} `{Engine} `{Bucket} `{Subjson}.
Hypothesis Hmap : vb_map_discreet.
Hint Resolve t_take_aiostat t_expose t_expose_all t_add_values t_update_topkeys t_binary_get_key t_binary_get_request
  t_get_item_info t_release_item t_write_mutation : safe.

Lemma t_fetch_document cas : tame (fetch_document cas).
Proof. unfold fetch_document, get_document_for_searching. tamely. Qed.
Hint Resolve t_fetch_document : safe.

Lemma t_subdoc_fetch r key vb cas : tame (subdoc_fetch r key vb cas).
Proof. unfold subdoc_fetch. tamely. Qed.

Lemma t_operate_all before after : tame (operate_all (ES := ES) before after).
Proof. revert before. induction after as [|op after IH]; intros before; cbn [operate_all]; tamely. Qed.
Hint Resolve t_subdoc_fetch t_operate_all : safe.

Lemma t_subdoc_operate : tame (subdoc_operate (ES := ES)).
Proof. unfold subdoc_operate. tamely. Qed.

Lemma t_subdoc_update r key vb e : tame (subdoc_update r key vb e).
Proof. unfold subdoc_update, allocate_document, store_document. tamely. Qed.
Hint Resolve t_subdoc_operate t_subdoc_update : safe.

Lemma t_mutation_results ii l : discreet (mutation_results ii l).
Proof. revert ii. induction l as [|op l IH]; intros ii; cbn [mutation_results]; unfold buffer_piece; tamely. Qed.

Lemma t_first_failure ii l : discreet (first_failure ii l).
Proof. revert ii. induction l as [|op l IH]; intros ii; cbn [first_failure]; unfold buffer_piece; tamely. Qed.

Lemma t_lookup_results l : discreet (lookup_results l).
Proof. induction l as [|op l IH]; cbn [lookup_results]; unfold buffer_piece; tamely. Qed.
Hint Resolve t_mutation_results t_first_failure t_lookup_results : safe.

Lemma t_subdoc_response k : discreet (subdoc_response k).
Proof.
  unfold subdoc_response, subdoc_single_response, subdoc_multi_mutation_response, subdoc_multi_lookup_response, set_cas.
  tamely.
Qed.

Lemma t_subdoc_start traits pkt value : tame (subdoc_start (ES := ES) traits pkt value).
Proof. unfold subdoc_start, subdoc_reset, set_context. tamely. Qed.
Hint Resolve t_subdoc_response t_subdoc_start : safe.

Lemma t_subdoc_attempt n traits pkt req r : tame (subdoc_attempt n traits pkt req r).
Proof. revert r. induction n as [|n IH]; intros r; cbn [subdoc_attempt]; unfold subdoc_reset, set_context; tamely. Qed.
Hint Resolve t_subdoc_attempt : safe.

Lemma t_subdoc_executor traits pkt : tame (subdoc_executor traits pkt).
Proof. unfold subdoc_executor. tamely. Qed.
End Documents.

(** ** DCP *)

(** Producers an engine may call. *)
Record tame_producers {K ES} (p : dcp_message_producers K ES) : Prop := {
  tp_failover : forall o v, tame (p_get_failover_log p o v);
  tp_stream_req : forall o v f s e u ss se, tame (p_stream_req p o v f s e u ss se);
  tp_add_stream_rsp : forall o d s, tame (p_add_stream_rsp p o d s);
  tp_marker_rsp : forall o s, tame (p_marker_rsp p o s);
  tp_state_rsp : forall o s, tame (p_set_vbucket_state_rsp p o s);
  tp_stream_end : forall o v f, tame (p_stream_end p o v f);
  tp_marker : forall o v s e f, tame (p_marker p o v s e f);
  tp_mutation : forall o it v bs rs l m n, tame (p_mutation p o it v bs rs l m n);
  tp_deletion : forall o k c v bs rs m, tame (p_deletion p o k c v bs rs m);
  tp_expiration : forall o k c v bs rs m, tame (p_expiration p o k c v bs rs m);
  tp_flush : forall o v, tame (p_flush p o v);
  tp_state : forall o v s, tame (p_set_vbucket_state p o v s);
  tp_noop : forall o, tame (p_noop p o);
  tp_ack : forall o v n, tame (p_buffer_acknowledgement p o v n);
  tp_control : forall o k v, tame (p_control p o k v);
}.

(** Engines and extensions: their functions do not know the states of the
    connection; they reach it through what they are given to call back. *)
Class TameEngine {K ES} `{Engine} `{Bucket} `{DcpInterface K ES} := {
  te_vb_map : vb_map_discreet;
  te_tap_notify : forall f st sq key, tap_notify = Some f -> discreet (f st sq key);
  te_dcp_response : forall f pkt, dcp_response_handler = Some f -> discreet (f pkt);
  te_unknown : forall pkt, discreet (unknown_command pkt);
  te_extension : forall op f pkt, extension_command op = Some f -> discreet (f pkt);
  te_step : forall p, tame_producers p -> tame (dcp_step p);
  te_open : forall f, dcp_open = Some f -> forall o s g n, tame (f o s g n);
  te_add_stream : forall f, dcp_add_stream = Some f -> forall o v g, tame (f o v g);
  te_close_stream : forall f, dcp_close_stream = Some f -> forall o v, tame (f o v);
  te_stream_req : forall f, dcp_stream_req = Some f -> forall g o v s e u ss se cb,
    (forall l, tame (cb l)) -> tame (f g o v s e u ss se cb);
  te_failover : forall f, dcp_get_failover_log = Some f -> forall o v cb, (forall l, tame (cb l)) -> tame (f o v cb);
  te_stream_end : forall f, dcp_stream_end = Some f -> forall o v g, tame (f o v g);
  te_marker : forall f, dcp_snapshot_marker = Some f -> forall o v s e g, tame (f o v s e g);
  te_mutation : forall f, dcp_mutation = Some f -> forall o k v c b g d bs rs e l m n, tame (f o k v c b g d bs rs e l m n);
  te_deletion : forall f, dcp_deletion = Some f -> forall o k c v bs rs m, tame (f o k c v bs rs m);
  te_expiration : forall f, dcp_expiration = Some f -> forall o k c v bs rs m, tame (f o k c v bs rs m);
  te_flush : forall f, dcp_flush = Some f -> forall o v, tame (f o v);
  te_state : forall f, dcp_set_vbucket_state = Some f -> forall o v s, tame (f o v s);
  te_noop : forall f, dcp_noop = Some f -> forall o, tame (f o);
  te_ack : forall f, dcp_buffer_acknowledgement = Some f -> forall o v n, tame (f o v n);
  te_control : forall f, dcp_control = Some f -> forall o k v, tame (f o k v);
}.

Section Streams.
Context {K ES : Type} `{EngineV1 ES} `{System} `{Engine} `{Bucket} `{DcpInterface K ES} `{!TameEngine}.
Hint Resolve te_vb_map t_take_aiostat t_add_values t_get_item_info t_release_item : safe.

Lemma t_write_curr bs : discreet (write_curr bs).
Proof. unfold write_curr. tamely. Qed.

Lemma t_advance n : discreet (advance n).
Proof. unfold advance. tamely. Qed.

Lemma t_add_curr n : discreet (add_curr n).
Proof. unfold add_curr. tamely. Qed.

Lemma t_has_room n : discreet (has_room n).
Proof. unfold has_room. tamely. Qed.
Hint Resolve t_write_curr t_advance t_add_curr t_has_room : safe.

Lemma t_produce c packet : tame (produce (K := K) (ES := ES) c packet).
Proof. unfold produce, put_packet. tamely. Qed.

Lemma t_produce_with c packet key more : tame (produce_with (K := K) (ES := ES) c packet key more).
Proof. unfold produce_with. tamely. Qed.
Hint Resolve t_produce t_produce_with : safe.

Lemma producers_tame : tame_producers producers.
Proof.
  split; intros; cbn [producers p_get_failover_log p_stream_req p_add_stream_rsp p_marker_rsp p_set_vbucket_state_rsp
    p_stream_end p_marker p_mutation p_deletion p_expiration p_flush p_set_vbucket_state p_noop
    p_buffer_acknowledgement p_control].
  8: unfold dcp_message_mutation, reserveItem; tamely.
  11: unfold dcp_message_set_vbucket_state, put_packet; tamely.
  all: apply t_produce || apply t_produce_with.
Qed.

Lemma t_ship_mcbp_dcp_log : tame ship_mcbp_dcp_log.
Proof. unfold ship_mcbp_dcp_log. tamely. apply te_step, producers_tame. Qed.

Lemma t_dcp_answer success r : tame success -> tame (dcp_answer (K := K) (ES := ES) success r).
Proof. intros Hok. unfold dcp_answer. tamely. Qed.

Lemma t_dcp_call call : tame call -> tame (dcp_call (K := K) (ES := ES) call).
Proof. intros Hok. unfold dcp_call. tamely. Qed.

Lemma t_dcp_execute {F} (o : option F) call success :
  (forall f, o = Some f -> tame (call f)) -> tame success -> tame (dcp_execute (K := K) (ES := ES) o call success).
Proof.
  intros Hc Hok. destruct o as [f|]; cbn [dcp_execute]; [|tamely].
  intros b t g. apply safe_bind; [by apply t_dcp_call, Hc|]. intros r. by apply t_dcp_answer.
Qed.

Lemma t_answers : tame (answer_success (K := K) (ES := ES)) /\ tame (answer_built (K := K) (ES := ES)) /\
  tame (ship (K := K) (ES := ES)) /\ tame (next_command (K := K) (ES := ES)).
Proof. unfold answer_built, answer_success, ship, next_command. split_and!; tamely. Qed.

Lemma t_add_failover_log l : tame (add_failover_log (K := K) (ES := ES) l).
Proof. unfold add_failover_log. tamely. Qed.
Hint Resolve t_add_failover_log : safe.

Lemma t_execute_stream_req call : tame call -> tame (execute_stream_req (K := K) (ES := ES) call).
Proof.
  intros Hc. destruct t_answers as (_ & Hb & _). unfold execute_stream_req, answer_rollback.
  tamely; apply t_dcp_answer; tamely.
Qed.

Hint Resolve te_open te_add_stream te_close_stream te_stream_req te_failover te_stream_end te_marker te_mutation
  te_deletion te_expiration te_flush te_state te_noop te_ack te_control t_dcp_answer t_dcp_call : safe.

Lemma dcp_executor_tame ex m pkt : dcp_executor ex = Some m -> tame (m pkt).
Proof.
  destruct t_answers as (Ha & Hb & Hc & Hd).
  destruct ex; intros [= <-].
  all: try (apply t_dcp_execute;
    [intros f Hf b t g; unfold call_deletion, req_header, member, data; tamely|tamely]).
  - unfold Dcp.dcp_open_executor, req_header, member, data. destruct dcp_open as [f|] eqn:Hf; tamely.
  - unfold Dcp.dcp_set_vbucket_state_executor, execute_set_vbucket_state, dcp_call, member.
    destruct dcp_set_vbucket_state as [f|] eqn:Hf; tamely.
  - unfold Dcp.dcp_stream_req_executor, member. destruct dcp_stream_req as [f|] eqn:Hf; tamely.
    apply t_execute_stream_req; tamely.
Qed.
End Streams.

(** ** The machine with the executors *)

Section Machine.
Context {K ES : Type} `{EngineV1 ES} `{System} `{Engine} `{Bucket} `{Process} `{Services} `{Subjson} `{DcpInterface K ES}.

(** What is there beside the connection when a task starts: the engine and the
    context of the command that runs. *)
Record surroundings := mk_surroundings {
  s_append : option append_context;
  s_subdoc : option subdoc_context;
  s_dcp : option K;
  s_engine : ES;
}.

(** The executor of a command; [run_executor] is left for those that are not
    modelled. *)
Definition serve (s : surroundings) (ex : mcbp_executor) (pkt : bytes) : M unit :=
  match run_executor_of ex pkt with
  | Some m => projected m (s_append s) (s_engine s)
  | None =>
      match subdoc_traits_of ex with
      | Some traits => projected (subdoc_executor traits pkt) (s_subdoc s) (s_engine s)
      | None =>
          match dcp_executor ex with
          | Some m => projected (m pkt) (s_dcp s) (s_engine s)
          | None => run_executor ex pkt
          end
      end
  end.

Definition serving_bucket (s : surroundings) : Bucket := {|
  testing := testing; collections := collections; run_executor := serve s; tap_notify := tap_notify;
  dcp_response_handler := dcp_response_handler; unknown_command := unknown_command;
  extension_command := extension_command; snappy_uncompressed_length := snappy_uncompressed_length;
  snappy_uncompress := snappy_uncompress; topkey_command := topkey_command |}.

Definition serving_process (s : surroundings) : Process := {|
  bucket_dying := bucket_dying; exit_on_connection_close := exit_on_connection_close;
  port_instance := port_instance; pipe_connection := pipe_connection; ssl_more_input := ssl_more_input;
  ship_dcp_log := projected ship_mcbp_dcp_log (s_dcp s) (s_engine s); ship_tap_log := ship_tap_log;
  tap_connect := tap_connect; sasl_error := sasl_error; sasl_response := sasl_response;
  sasl_response_length := sasl_response_length |}.

Definition run_task (s : surroundings) : M bool :=
  @execute _ _ (serving_bucket s) (serving_process s).

(** A step of the machine, whatever engine and context are at the time. *)
Definition served_step (c c' : connection) : Prop :=
  exists s, @machine_step _ _ (serving_bucket s) (serving_process s) c c'.

(** The code of the server that is not modelled: the executors of TAP, of
    authentication, statistics and administration, and the TAP log. *)
Class TameRest := {
  tr_executor : forall ex pkt, run_executor_of ex pkt = None -> subdoc_traits_of ex = None -> dcp_executor ex = None ->
    discreet (run_executor ex pkt);
  tr_tap_log : discreet ship_tap_log;
  tr_tap_connect : discreet tap_connect;
}.

Context `{!TameEngine} `{!TameRest}.

Lemma serve_discreet s ex pkt : discreet (serve s ex pkt).
Proof.
  unfold serve. destruct (run_executor_of ex pkt) as [m|] eqn:E.
  { apply projected_discreet, (executor_tame te_vb_map ex pkt), E. }
  destruct (subdoc_traits_of ex) as [traits|] eqn:Et; [apply projected_discreet, (t_subdoc_executor te_vb_map)|].
  destruct (dcp_executor ex) as [m|] eqn:Ed; [by apply projected_discreet, (dcp_executor_tame ex)|].
  by apply tr_executor.
Qed.

Lemma serving_well_behaved s : @WellBehaved _ (serving_bucket s) (serving_process s).
Proof.
  split; cbn.
  - apply serve_discreet.
  - apply te_tap_notify.
  - apply te_dcp_response.
  - apply te_unknown.
  - apply te_extension.
  - apply te_vb_map.
  - apply projected_discreet, t_ship_mcbp_dcp_log.
  - apply tr_tap_log.
  - apply tr_tap_connect.
Qed.

Lemma served_step_inv c c' : socket_inv c -> served_step c c' -> socket_inv c'.
Proof.
  intros Hc [s Hs]. by eapply (@machine_step_inv _ _ _ _ (serving_well_behaved s)).
Qed.

(** C19: however peers, other threads and the engine drive a connection, the
    states behind [conn_closing] are entered with the socket closed only: the
    checks of [conn_pending_close] and [conn_immediate_close] never throw, a
    connection that nobody refers to any more leaves the first, and the second
    destroys it.  The executors that are modelled, for items, sub-documents and
    DCP, and the shipping of the DCP log run as part of the machine; of the
    others, of TAP and of the engine it is assumed that they leave the socket
    alone and do not enter those states ([TameRest], [TameEngine]). *)
Theorem closing_states_sound s c0 c :
  socket_inv c0 -> rtc served_step c0 c ->
  (after_closing (currentTask c) = true -> socket_open c = false) /\
  (currentTask c = conn_pending_close -> refcount c <= 1 ->
     exists c', run_task s c = Done true c' /\ currentTask c' = conn_immediate_close) /\
  (currentTask c = conn_immediate_close -> thread c = true ->
     port_instance || pipe_connection = true -> verbose <= 2 ->
     exists c', run_task s c = Done false c' /\ currentTask c' = conn_destroyed).
Proof.
  intros H0' Hs. apply (@closed_runs _ _ (serving_bucket s) (serving_process s)).
  eapply (rtc_invariant _ _ served_step_inv); [exact Hs|exact H0'].
Qed.
End Machine.

(** ** Witness *)

Lemma send_all_tame {K ES} (p : dcp_message_producers K ES) ms : tame_producers p -> tame (send_all p ms).
Proof.
  intros Hp. induction ms as [|m ms IH]; cbn [send_all]; [tamely|]. intros b t g. apply safe_bind.
  - destruct m; cbn [send]; by apply Hp.
  - intros r. case_match; [apply IH|apply safe_ret].
Qed.

Lemma small_engine_tame : @TameEngine unit noting plain_engine demo_bucket small_dcp.
Proof.
  split; try by intros.
  - intros f st sq key [= <-]. tamely.
  - intros pkt. cbn. tamely.
  - intros p Hp b t g. cbn [dcp_step small_dcp]. apply safe_bind; [by apply send_all_tame|]. intros r. apply safe_ret.
  - intros f [= <-]. intros. tamely.
Qed.

Lemma demo_rest_tame : @TameRest unit noting small_engine demo_system plain_engine demo_bucket demo_process small_services small_dcp.
Proof. split; cbn; intros; tamely. Qed.

(** A client says goodbye. *)
Definition quitq : packet :=
  mk_packet (mk_request_header PROTOCOL_BINARY_REQ (cmd_value PROTOCOL_BINARY_CMD_QUITQ) 0 0 0 0 0 0 0) [].

Definition quitq_read : connection :=
  with_input (mk_input (mk_net_buf (bytes_of_packet quitq) 24 0) 24 0 (host_header (header quitq))) blank.

Definition demo_surroundings : @surroundings unit noting := mk_surroundings None None None [].

Definition demo_task : M bool :=
  @run_task unit noting small_engine demo_system plain_engine demo_bucket demo_process small_services appending_subjson
    small_dcp demo_surroundings.

(** The connection after the executor of the command, and after closing. *)
Definition quitting : connection := outcome_state quitq_read (demo_task quitq_read).
Definition quitted : connection := outcome_state quitting (demo_task quitting).

Lemma closing_states_sound_witness :
  currentTask quitting = conn_closing /\ currentTask quitted = conn_immediate_close /\
  exists c', demo_task quitted = Done false c' /\ currentTask c' = conn_destroyed.
Proof.
  assert (socket_inv quitq_read) as Hi by (split; [discriminate|reflexivity]).
  pose (step := @served_step unit noting small_engine demo_system plain_engine demo_bucket demo_process small_services
    appending_subjson small_dcp).
  assert (step quitq_read quitting) as H1 by (exists demo_surroundings; apply (step_task true); vm_compute; reflexivity).
  assert (step quitting quitted) as H2 by (exists demo_surroundings; apply (step_task true); vm_compute; reflexivity).
  destruct (@closing_states_sound unit noting small_engine demo_system plain_engine demo_bucket demo_process
    small_services appending_subjson small_dcp small_engine_tame demo_rest_tame demo_surroundings quitq_read quitted Hi
    (rtc_l _ _ _ _ H1 (rtc_once _ _ H2))) as (_ & _ & H3).
  split; [vm_compute; reflexivity|]. split; [vm_compute; reflexivity|].
  apply H3; [vm_compute; reflexivity|vm_compute; reflexivity|reflexivity|vm_compute; discriminate].
Defined.
