(* ===== verification/EngineState.v ===== *)
(** * The state of the default engine

    The structures of [engines/default_engine]: items ([items.h]), the hash
    table ([assoc.h]), the slab allocator ([slabs.h]) and the engine itself
    ([default_engine_internal.h]).  Items live in memory, a map from addresses
    to items, and point to each other; 0 is the null pointer.  An item's
    header, CAS value, key and data are one chunk of memory in the code and
    one record here.  The functions of the engine run while they hold the
    engine's locks, so they are atomic. *)

From S2P Require Import Prelude RecordUpdate StateMonad.

Definition POWER_SMALLEST : Z := 1.
Definition POWER_LARGEST : Z := 200.
Definition CHUNK_ALIGN_BYTES : Z := 8.
Definition MAX_NUMBER_OF_SLAB_CLASSES : Z := POWER_LARGEST + 1.
Definition TAIL_REPAIR_TIME : Z := 3 * 3600.
Definition ITEM_WITH_CAS : Z := 1.
Definition ITEM_LINKED : Z := Z.shiftl 1 8.
Definition ITEM_SLABBED : Z := Z.shiftl 2 8.
Definition NUM_VBUCKETS : Z := 65536.

(** [sizeof(hash_item)] and [offsetof(hash_key, key_storage)]. *)
Definition SIZEOF_HASH_ITEM : Z := 48.
Definition OFFSETOF_KEY_STORAGE : Z := 16.

(** [hash_item], with the CAS value, the key (bucket index and client key)
    and the data that follow it. *)
Record hash_item := mk_item {
  i_next : Z;
  i_prev : Z;
  h_next : Z;
  i_time : Z;
  i_exptime : Z;
  i_nbytes : Z;
  i_flags : Z;
  iflag : Z;
  i_refcount : Z;
  slabs_clsid : Z;
  i_datatype : Z;
  i_cas : Z;
  i_key : bytes;
  i_data : bytes;
}.

#[export] Instance hash_item_settable : Settable hash_item := fun i =>
  mk_item (i_next i) (i_prev i) (h_next i) (i_time i) (i_exptime i) (i_nbytes i) (i_flags i)
    (iflag i) (i_refcount i) (slabs_clsid i) (i_datatype i) (i_cas i) (i_key i) (i_data i).

(** A chunk of a page that was cleared with [memset]. *)
Definition zero_item : hash_item := mk_item 0 0 0 0 0 0 0 0 0 0 0 0 [] [].

(** Whether a flag is set in [iflag]. *)
Definition has_flag (f : Z) (i : hash_item) : bool := negb (Z.land (iflag i) f =? 0).

(** [struct assoc] *)
Record assoc := mk_assoc {
  hashpower : Z;
  primary_hashtable : list Z;
  old_hashtable : list Z;
  hash_items : Z;
  expanding : bool;
  expand_bucket : Z;
}.

#[export] Instance assoc_settable : Settable assoc := fun a =>
  mk_assoc (hashpower a) (primary_hashtable a) (old_hashtable a) (hash_items a) (expanding a)
    (expand_bucket a).

(** [slabclass_t]; the free list [slots] holds [sl_curr] pointers. *)
Record slabclass_t := mk_slabclass {
  sc_size : Z;
  perslab : Z;
  slots : list Z;
  sl_total : Z;
  end_page_ptr : Z;
  end_page_free : Z;
  slab_list : list Z;
  list_size : Z;
  requested : Z;
}.

#[export] Instance slabclass_settable : Settable slabclass_t := fun p =>
  mk_slabclass (sc_size p) (perslab p) (slots p) (sl_total p) (end_page_ptr p) (end_page_free p)
    (slab_list p) (list_size p) (requested p).

(** [struct slabs] *)
Record slabs := mk_slabs {
  slabclass : list slabclass_t;
  mem_limit : Z;
  mem_malloced : Z;
  power_largest : Z;
  mem_base : Z;
  mem_current : Z;
  mem_avail : Z;
  allocs_ptrs : list Z;
  allocs_size : Z;
}.

#[export] Instance slabs_settable : Settable slabs := fun s =>
  mk_slabs (slabclass s) (mem_limit s) (mem_malloced s) (power_largest s) (mem_base s)
    (mem_current s) (mem_avail s) (allocs_ptrs s) (allocs_size s).

(** [itemstats_t] *)
Record itemstats_t := mk_itemstats {
  evicted : Z;
  evicted_nonzero : Z;
  evicted_time : Z;
  outofmemory : Z;
  tailrepairs : Z;
  reclaimed : Z;
}.

#[export] Instance itemstats_settable : Settable itemstats_t := fun s =>
  mk_itemstats (evicted s) (evicted_nonzero s) (evicted_time s) (outofmemory s) (tailrepairs s)
    (reclaimed s).

(** [struct items] *)
Record items := mk_items {
  heads : list Z;
  tails : list Z;
  itemstats : list itemstats_t;
  sizes : list Z;
}.

#[export] Instance items_settable : Settable items := fun s =>
  mk_items (heads s) (tails s) (itemstats s) (sizes s).

(** [struct config]; the value of the [float] that is the growth factor of the
    slab classes is [factor_num / factor_den]. *)
Record config := mk_config {
  use_cas : bool;
  oldest_live : Z;
  evict_to_free : bool;
  maxbytes : Z;
  preallocate : bool;
  factor_num : Z;
  factor_den : Z;
  chunk_size : Z;
  item_size_max : Z;
  ignore_vbucket : bool;
  vb0 : bool;
  verbose : Z;
  uuid : option bytes;
}.

#[export] Instance config_settable : Settable config := fun s =>
  mk_config (use_cas s) (oldest_live s) (evict_to_free s) (maxbytes s) (preallocate s)
    (factor_num s) (factor_den s) (chunk_size s) (item_size_max s) (ignore_vbucket s) (vb0 s)
    (verbose s) (uuid s).

(** [struct engine_stats] *)
Record engine_stats := mk_engine_stats {
  st_evictions : Z;
  st_reclaimed : Z;
  curr_bytes : Z;
  curr_items : Z;
  total_items : Z;
}.

#[export] Instance engine_stats_settable : Settable engine_stats := fun s =>
  mk_engine_stats (st_evictions s) (st_reclaimed s) (curr_bytes s) (curr_items s) (total_items s).

(** [struct engine_scrubber] *)
Record engine_scrubber := mk_scrubber {
  visited : Z;
  cleaned : Z;
  scrub_started : Z;
  scrub_stopped : Z;
  scrub_running : bool;
  force_delete : bool;
}.

#[export] Instance scrubber_settable : Settable engine_scrubber := fun s =>
  mk_scrubber (visited s) (cleaned s) (scrub_started s) (scrub_stopped s) (scrub_running s)
    (force_delete s).

(** [struct default_engine], the memory of the items, the static CAS counter,
    and the world around: the server's clock, what the next calls of the
    allocator and of the thread library return ([e_pages]: the addresses of
    new pages, 0 for none; [e_grants]: whether tables and threads can be had;
    nothing more can be had when a list is used up), and the keys the server
    was told are evicted. *)
Record default_engine := mk_engine {
  e_mem : gmap Z hash_item;
  e_assoc : assoc;
  e_slabs : slabs;
  e_items : items;
  e_config : config;
  e_stats : engine_stats;
  e_scrubber : engine_scrubber;
  vbucket_infos : Z -> Z;
  bucket_id : Z;
  cas_id : Z;
  e_now : Z;
  e_pages : list Z;
  e_grants : list bool;
  e_evicting : list bytes;
}.

#[export] Instance engine_settable : Settable default_engine := fun e =>
  mk_engine (e_mem e) (e_assoc e) (e_slabs e) (e_items e) (e_config e) (e_stats e) (e_scrubber e)
    (vbucket_infos e) (bucket_id e) (cas_id e) (e_now e) (e_pages e) (e_grants e) (e_evicting e).

Definition E (A : Type) : Type := ST default_engine A.

(** ** Access to items *)

Definition deref (p : Z) : E hash_item :=
  m <- gets e_mem;; must (m !! p).

Definition write_item (p : Z) (f : hash_item -> hash_item) : E unit :=
  i <- deref p;; modify (fun e => e <| e_mem := <[p := f i]> (e_mem e) |>).

(** The next answer of the allocator for a table or a thread. *)
Definition granted : E bool :=
  g <- gets e_grants;;
  assign e_grants (tail g);;
  ret (default false (head g)).

Definition the_assoc : E assoc := gets e_assoc.
Definition set_assoc (f : assoc -> assoc) : E unit :=
  modify (fun e => e <| e_assoc := f (e_assoc e) |>).

(** What an operation on memory keeps: two memories hold the same items, up to
    what [f] forgets. *)
Definition same_items {A} (f : hash_item -> A) (m m' : gmap Z hash_item) : Prop :=
  forall p, f <$> m !! p = f <$> m' !! p.

Section SameItems.
Context {A : Type} (f : hash_item -> A).

Lemma same_items_refl m : same_items f m m.
Proof. done. Qed.

Lemma same_items_trans m1 m2 m3 :
  same_items f m1 m2 -> same_items f m2 m3 -> same_items f m1 m3.
Proof. intros H1 H2 p. by rewrite H1. Qed.

Lemma same_items_insert m p i i' :
  m !! p = Some i -> f i = f i' -> same_items f m (<[p := i']> m).
Proof.
  intros Hp Hf q. destruct (decide (p = q)) as [<-|].
  - by rewrite lookup_insert_eq, Hp; cbn; f_equal.
  - by rewrite lookup_insert_ne.
Qed.

Lemma same_items_lookup m m' p i :
  same_items f m m' -> m !! p = Some i -> exists i', m' !! p = Some i' /\ f i = f i'.
Proof.
  intros H Hp. specialize (H p). rewrite Hp in H. cbn in H.
  destruct (m' !! p) as [i'|]; [|done]. exists i'. split; [done|]. by injection H.
Qed.

Lemma same_items_lookup' m m' p i :
  same_items f m m' -> m' !! p = Some i -> exists i', m !! p = Some i' /\ f i' = f i.
Proof.
  intros H Hp. specialize (H p). rewrite Hp in H. cbn in H.
  destruct (m !! p) as [i'|]; [|done]. exists i'. split; [done|]. by injection H.
Qed.
End SameItems.

Lemma write_item_done p f i e :
  e_mem e !! p = Some i ->
  write_item p f e = Done tt (e <| e_mem := <[p := f i]> (e_mem e) |>).
Proof. intros H. unfold write_item, deref, bind, gets, must. by rewrite H. Qed.

Lemma deref_done p i e : e_mem e !! p = Some i -> deref p e = Done i e.
Proof. intros H. unfold deref, bind, gets, must. by rewrite H. Qed.

(** Evaluate accesses to updated fields. *)
Ltac is_field p :=
  lazymatch p with
  | i_next => idtac | i_prev => idtac | h_next => idtac | i_time => idtac | i_exptime => idtac
  | i_nbytes => idtac | i_flags => idtac | iflag => idtac | i_refcount => idtac
  | slabs_clsid => idtac | i_datatype => idtac | i_cas => idtac | i_key => idtac
  | i_data => idtac | hashpower => idtac | primary_hashtable => idtac | old_hashtable => idtac
  | hash_items => idtac | expanding => idtac | expand_bucket => idtac | sc_size => idtac
  | perslab => idtac | slots => idtac | sl_total => idtac | end_page_ptr => idtac
  | end_page_free => idtac | slab_list => idtac | list_size => idtac | requested => idtac
  | slabclass => idtac | mem_limit => idtac | mem_malloced => idtac | power_largest => idtac
  | mem_base => idtac | mem_current => idtac | mem_avail => idtac | allocs_ptrs => idtac
  | allocs_size => idtac | heads => idtac | tails => idtac | itemstats => idtac | sizes => idtac
  | use_cas => idtac | oldest_live => idtac | evict_to_free => idtac | item_size_max => idtac
  | ignore_vbucket => idtac | force_delete => idtac | scrub_running => idtac
  | e_mem => idtac | e_assoc => idtac | e_slabs => idtac | e_items => idtac | e_config => idtac
  | e_stats => idtac | e_scrubber => idtac | vbucket_infos => idtac | bucket_id => idtac
  | cas_id => idtac | e_now => idtac | e_pages => idtac | e_grants => idtac
  | e_evicting => idtac
  end.

Ltac esimpl := repeat
  match goal with
  | |- context [?p (@set_field ?R ?T ?f ?I ?g ?r)] =>
      is_field p;
      first
        [ constr_eq p f; change (p (@set_field R T f I g r)) with (g (p r)); cbn beta
        | change (p (@set_field R T f I g r)) with (p r) ]
  end.
