(* ===== verification/Assoc.v ===== *)
(** * The hash table of the default engine

    [engines/default_engine/assoc.c]: chained buckets whose number doubles.
    While the table grows, items move from the old table to the new one
    bucket by bucket, in a thread of its own that takes the lock for one
    bucket at a time; [expand_bucket] says how far it is.  [crc32c] is the
    hash function of the platform library.

    The theorems relate the pointers to an abstract map from keys to items:
    searching, inserting and deleting are the operations of the map, at every
    stage of an expansion, and a step of the maintenance thread does not change
    the map. *)

From S2P Require Import Prelude RecordUpdate StateMonad Protocol EngineState.

Definition hashsize (n : Z) : Z := Z.shiftl 1 n.
Definition hashmask (n : Z) : Z := hashsize n - 1.

(** The bucket of a hash value: whether it is in the old table, and its index. *)
Definition bucket_of (a : assoc) (hash : Z) : bool * Z :=
  let oldbucket := Z.land hash (hashmask (hashpower a - 1)) in
  if expanding a && (expand_bucket a <=? oldbucket) then (true, oldbucket)
  else (false, Z.land hash (hashmask (hashpower a))).

Definition table (a : assoc) (old : bool) : list Z :=
  if old then old_hashtable a else primary_hashtable a.

Definition set_slot (old : bool) (i p : Z) (a : assoc) : assoc :=
  if old then a <| old_hashtable := <[Z.to_nat i := p]> (old_hashtable a) |>
  else a <| primary_hashtable := <[Z.to_nat i := p]> (primary_hashtable a) |>.

Definition slot (a : assoc) (old : bool) (i : Z) : E Z := must (table a old !! Z.to_nat i).

(** ** The operations *)

Section Assoc.
Context (crc32c : bytes -> Z).

(** [assoc_consruct] and [assoc_init]; [global_assoc] is the table all engines
    share. *)
Definition assoc_consruct (power : Z) : E (option assoc) :=
  a <- granted;;
  if negb a then ret None else
  t <- granted;;
  ret (if t then Some (mk_assoc power (replicate (Z.to_nat (hashsize power)) 0) [] 0 false 0)
       else None).

Definition assoc_init (global_assoc : option assoc) : E (ENGINE_ERROR_CODE * option assoc) :=
  g <- match global_assoc with Some a => ret (Some a) | None => assoc_consruct 16 end;;
  match g with
  | Some a => set_assoc (fun _ => a);; ret (ENGINE_SUCCESS, Some a)
  | None => ret (ENGINE_ENOMEM, None)
  end.

(** The loop of [assoc_find]; [None] when a pointer is wild or [fuel] items
    are not enough. *)
Fixpoint find_in (fuel : nat) (m : gmap Z hash_item) (it : Z) (key : bytes) : option Z :=
  match fuel with
  | O => None
  | S fuel =>
      if it == 0 then Some 0 else
      i ← m !! it;
      if decide (i_key i = key) then Some it else find_in fuel m (h_next i) key
  end.

Definition assoc_find (hash : Z) (key : bytes) : E Z :=
  a <- the_assoc;;
  let '(old, i) := bucket_of a hash in
  it <- slot a old i;;
  m <- gets e_mem;;
  must (find_in (S (size m)) m it key).

(** The address of a pointer to an item: a bucket or a link. *)
Inductive position :=
| Slot (old : bool) (i : Z)
| NextOf (p : Z).

Definition read_pos (pos : position) : E Z :=
  match pos with
  | Slot old i => a <- the_assoc;; slot a old i
  | NextOf p => i <- deref p;; ret (h_next i)
  end.

Definition write_pos (pos : position) (q : Z) : E unit :=
  match pos with
  | Slot old i => set_assoc (set_slot old i q)
  | NextOf p => write_item p (fun i => i <| h_next := q |>)
  end.

(** [_hashitem_before]; [it] is what [pos] points to. *)
Fixpoint before_in (fuel : nat) (m : gmap Z hash_item) (pos : position) (it : Z) (key : bytes)
    : option position :=
  match fuel with
  | O => None
  | S fuel =>
      if it == 0 then Some pos else
      i ← m !! it;
      if decide (i_key i = key) then Some pos else before_in fuel m (NextOf it) (h_next i) key
  end.

Definition hashitem_before (hash : Z) (key : bytes) : E position :=
  a <- the_assoc;;
  let '(old, i) := bucket_of a hash in
  it <- slot a old i;;
  m <- gets e_mem;;
  must (before_in (S (size m)) m (Slot old i) it key).

Definition assoc_expand : E unit :=
  a <- the_assoc;;
  set_assoc (fun a => a <| old_hashtable := primary_hashtable a |>);;
  ok <- granted;;
  if negb ok then ret tt else
  set_assoc (fun a => a <| primary_hashtable :=
    replicate (Z.to_nat (hashsize (hashpower a + 1))) 0 |>);;
  set_assoc (fun a => a <| hashpower := hashpower a + 1 |>);;
  set_assoc (fun a => a <| expanding := true |>);;
  set_assoc (fun a => a <| expand_bucket := 0 |>);;
  started <- granted;;
  when (negb started)
    (set_assoc (fun a => a <| hashpower := hashpower a - 1 |>);;
     set_assoc (fun a => a <| expanding := false |>);;
     set_assoc (fun a => a <| primary_hashtable := old_hashtable a |>)).

Definition assoc_insert (hash it : Z) : E Z :=
  i <- deref it;;
  found <- assoc_find hash (i_key i);;
  cb_assert (found == 0);;
  a <- the_assoc;;
  let '(old, b) := bucket_of a hash in
  head <- slot a old b;;
  write_item it (fun i => i <| h_next := head |>);;
  set_assoc (set_slot old b it);;
  set_assoc (fun a => a <| hash_items := u32 (hash_items a + 1) |>);;
  a <- the_assoc;;
  when (negb (expanding a) && (hashsize (hashpower a) * 3 / 2 <? hash_items a)) assoc_expand;;
  ret 1.

Definition assoc_delete (hash : Z) (key : bytes) : E unit :=
  before <- hashitem_before hash key;;
  it <- read_pos before;;
  if it != 0 then
    set_assoc (fun a => a <| hash_items := u32 (hash_items a - 1) |>);;
    i <- deref it;;
    write_item it (fun i => i <| h_next := 0 |>);;
    write_pos before (h_next i)
  else cb_assert false.

(** The loop of the maintenance thread over the items of a bucket. *)
Fixpoint move_chain (fuel : nat) (it : Z) : E unit :=
  match fuel with
  | O => crash
  | S fuel =>
      if it == 0 then ret tt else
      i <- deref it;;
      a <- the_assoc;;
      let bucket := Z.land (crc32c (i_key i)) (hashmask (hashpower a)) in
      head <- slot a false bucket;;
      write_item it (fun i => i <| h_next := head |>);;
      set_assoc (set_slot false bucket it);;
      move_chain fuel (h_next i)
  end.

(** What [assoc_maintenance_thread] does while it holds the lock
    ([hash_bulk_move] is 1); whether it is done. *)
Definition assoc_maintenance_step : E bool :=
  a <- the_assoc;;
  when (expanding a)
    (it <- slot a true (expand_bucket a);;
     m <- gets e_mem;;
     move_chain (S (size m)) it;;
     set_assoc (set_slot true (expand_bucket a) 0);;
     set_assoc (fun a => a <| expand_bucket := expand_bucket a + 1 |>);;
     a <- the_assoc;;
     when (expand_bucket a == hashsize (hashpower a - 1))
       (set_assoc (fun a => a <| expanding := false |>);;
        set_assoc (fun a => a <| old_hashtable := [] |>)));;
  a <- the_assoc;;
  ret (negb (expanding a)).

(** [assoc_maintenance_thread] on its own; [None] when [fuel] turns are not
    enough. *)
Fixpoint assoc_maintenance_thread (fuel : nat) : E (option unit) :=
  match fuel with
  | O => ret None
  | S fuel =>
      done <- assoc_maintenance_step;;
      if (done : bool) then ret (Some tt) else assoc_maintenance_thread fuel
  end.

(** ** Chains of items *)

Fixpoint chain (m : gmap Z hash_item) (p : Z) (l : list Z) : Prop :=
  match l with
  | [] => p = 0
  | q :: l => p = q /\ q <> 0 /\ exists i, m !! q = Some i /\ chain m (h_next i) l
  end.

Lemma chain_frame m m' p l :
  (forall q, q ∈ l -> h_next <$> m !! q = h_next <$> m' !! q) -> chain m p l -> chain m' p l.
Proof.
  revert p. induction l as [|q l IH]; intros p Hf; cbn; [done|].
  intros (-> & Hq & i & Hi & Hc). split; [done|]. split; [done|].
  specialize (Hf q ltac:(set_solver)) as Hfq. rewrite Hi in Hfq. cbn in Hfq.
  destruct (m' !! q) as [i'|]; [|done]. injection Hfq as Hfq. exists i'. split; [done|].
  rewrite <- Hfq. apply IH; [set_solver|done].
Qed.

(** Writing to an item that is not in a chain. *)
Lemma chain_insert m p l q i : q ∉ l -> chain m p l -> chain (<[q := i]> m) p l.
Proof.
  intros Hq. apply chain_frame. intros r Hr. rewrite lookup_insert_ne; [done|set_solver].
Qed.

Lemma chain_dom m p l q : chain m p l -> q ∈ l -> q <> 0 /\ is_Some (m !! q).
Proof.
  revert p. induction l as [|r l IH]; intros p; cbn; [set_solver|].
  intros (-> & Hr & i & Hi & Hc) [->|Hq]%elem_of_cons; [by eauto|]. by eapply IH.
Qed.

Lemma chain_length m p l : NoDup l -> chain m p l -> (length l <= size m)%nat.
Proof.
  intros Hn Hc. rewrite <- (size_dom (D := gset Z) m), <- (size_list_to_set (C := gset Z)) by done.
  apply subseteq_size. intros q Hq. apply elem_of_dom. eapply chain_dom; [done|]. set_solver.
Qed.

Lemma find_in_chain fuel m p l key :
  chain m p l -> (length l < fuel)%nat ->
  exists r, find_in fuel m p key = Some r /\
    ((r = 0 /\ forall q i, q ∈ l -> m !! q = Some i -> i_key i <> key) \/
     (r ∈ l /\ exists i, m !! r = Some i /\ i_key i = key)).
Proof.
  revert p fuel. induction l as [|q l IH]; intros p fuel Hc Hl; destruct fuel as [|fuel];
    cbn in Hl; try lia; cbn in Hc |- *.
  - subst p. exists 0. cbn. split; [done|]. left. set_solver.
  - destruct Hc as (-> & Hq & i & Hi & Hc). rewrite (proj2 (Z.eqb_neq q 0) Hq), Hi. cbn.
    case_decide as Ek.
    + exists q. split; [done|]. right. split; [set_solver|eauto].
    + destruct (IH _ fuel Hc ltac:(lia)) as (r & -> & Hr). exists r. split; [done|].
      destruct Hr as [[-> Hr]|[Hr Hri]]; [left|right; split; [set_solver|done]].
      split; [done|]. intros r i' [->|Hr']%elem_of_cons Hi'; [|by eapply Hr].
      congruence.
Qed.

(** The position behind a list of items that starts at [pos]. *)
Definition pos_after (pos : position) (l : list Z) : position :=
  match last l with Some q => NextOf q | None => pos end.

Lemma before_in_chain fuel m pos p l key :
  chain m p l -> (length l < fuel)%nat ->
  exists l1 l2, l = l1 ++ l2 /\ before_in fuel m pos p key = Some (pos_after pos l1) /\
    (forall q i, q ∈ l1 -> m !! q = Some i -> i_key i <> key) /\
    (forall q l', l2 = q :: l' -> exists i, m !! q = Some i /\ i_key i = key).
Proof.
  revert pos p fuel. induction l as [|q l IH]; intros pos p fuel Hc Hl; destruct fuel as [|fuel];
    cbn in Hl; try lia; cbn in Hc |- *.
  - subst p. exists [], []. cbn. split_and!; [done|done|set_solver|by intros].
  - destruct Hc as (-> & Hq & i & Hi & Hc). rewrite (proj2 (Z.eqb_neq q 0) Hq), Hi. cbn.
    case_decide as Ek.
    + exists [], (q :: l). cbn. split_and!; [done|done|set_solver|].
      intros ? ? [= <- <-]. eauto.
    + destruct (IH (NextOf q) _ fuel Hc ltac:(lia)) as (l1 & l2 & -> & -> & Hn & Hy).
      exists (q :: l1), l2. split_and!; [done| |intros r i' [->|Hr]%elem_of_cons Hi'; [congruence|by eapply Hn]|done].
      unfold pos_after. destruct l1 as [|r l1]; [done|].
      change (last (q :: r :: l1)) with (last (r :: l1)).
      destruct (last (r :: l1)) eqn:E; [done|by apply last_None in E].
Qed.

(** A chain without one of its items: its predecessor points past it. *)
Lemma chain_remove m p l1 q i l2 :
  NoDup (l1 ++ q :: l2) -> chain m p (l1 ++ q :: l2) -> m !! q = Some i ->
  let m' := <[q := i <| h_next := 0 |>]> m in
  match last l1 with
  | None => p = q /\ chain m' (h_next i) l2
  | Some r => exists j, m' !! r = Some j /\ chain (<[r := j <| h_next := h_next i |>]> m') p (l1 ++ l2)
  end.
Proof.
  cbn zeta. intros Hn Hc Hq. revert p Hn Hc. induction l1 as [|r l1 IH]; intros p Hn Hc; cbn in Hc.
  - destruct Hc as (-> & Hq0 & i' & Hi' & Hc). cbn. split; [done|].
    apply NoDup_cons in Hn as [Hn _]. apply chain_insert; [done|]. congruence.
  - destruct Hc as (-> & Hr0 & j & Hj & Hc). apply NoDup_cons in Hn as [Hrn Hn].
    specialize (IH _ Hn Hc). assert (q <> r) as Hqr by set_solver.
    destruct l1 as [|s l1].
    + cbn in IH |- *. destruct IH as [Hjq Hc2]. exists j. rewrite lookup_insert_ne by done.
      split; [done|]. split; [done|]. split; [done|]. rewrite lookup_insert_eq. eexists. split; [done|].
      cbn. apply chain_insert; [set_solver|done].
    + change (last (r :: s :: l1)) with (last (s :: l1)).
      destruct (last (s :: l1)) as [t|] eqn:El; [|by apply last_None in El].
      destruct IH as (k & Hk & Hc2). exists k. split; [done|].
      assert (t ∈ s :: l1) as Ht by (by apply last_Some_elem_of).
      split; [done|]. split; [done|]. exists j. rewrite !lookup_insert_ne by set_solver.
      split; [done|]. exact Hc2.
Qed.
(** ** The table as a map

    [C old i] are the items in a bucket; [M] is the map the table stands for. *)
Record table_ok (m : gmap Z hash_item) (a : assoc) (C : bool -> Z -> list Z) (M : gmap bytes Z)
    : Prop := {
  to_power : 1 <= hashpower a;
  to_primary : forall i, 0 <= i < hashsize (hashpower a) ->
    exists p, primary_hashtable a !! Z.to_nat i = Some p /\ chain m p (C false i);
  to_old : expanding a = true -> forall i, 0 <= i < hashsize (hashpower a - 1) ->
    exists p, old_hashtable a !! Z.to_nat i = Some p /\ chain m p (C true i);
  to_bucket : expanding a = true -> 0 <= expand_bucket a < hashsize (hashpower a - 1);
  to_nodup : forall t i, NoDup (C t i);
  to_place : forall t i p, p ∈ C t i -> exists it, m !! p = Some it /\
    bucket_of a (crc32c (i_key it)) = (t, i) /\ M !! i_key it = Some p;
  to_map : forall k p, M !! k = Some p -> exists it, m !! p = Some it /\ i_key it = k /\
    p ∈ C (bucket_of a (crc32c k)).1 (bucket_of a (crc32c k)).2;
  to_items : hash_items a = u32 (Z.of_nat (size M));
}.

Definition represents (e : default_engine) (M : gmap bytes Z) : Prop :=
  exists C, table_ok (e_mem e) (e_assoc e) C M.

Lemma hashmask_range hash n : 0 <= n -> 0 <= Z.land hash (hashmask n) < hashsize n.
Proof.
  intros Hn. unfold hashmask, hashsize. rewrite Z.shiftl_1_l.
  replace (2 ^ n - 1) with (Z.ones n) by (rewrite Z.ones_equiv; lia).
  rewrite Z.land_ones by done. apply Z.mod_pos_bound. lia.
Qed.

Lemma bucket_of_range a hash t i :
  1 <= hashpower a -> bucket_of a hash = (t, i) ->
  0 <= i < hashsize (hashpower a - (if t then 1 else 0)) /\ (t = true -> expanding a = true).
Proof.
  intros Hp. unfold bucket_of. destruct (expanding a && _) eqn:E; intros [= <- <-].
  - split; [apply hashmask_range; lia|]. intros _. by destruct (expanding a).
  - rewrite Z.sub_0_r. split; [apply hashmask_range; lia|done].
Qed.

(** Every bucket that [bucket_of] chooses is a chain. *)
Lemma bucket_chain m a C M hash t i :
  table_ok m a C M -> bucket_of a hash = (t, i) ->
  exists p, table a t !! Z.to_nat i = Some p /\ chain m p (C t i).
Proof.
  intros HT Hb. destruct (bucket_of_range a hash t i (to_power _ _ _ _ HT) Hb) as [Hi Ht].
  destruct t; [apply (to_old _ _ _ _ HT); auto|].
  apply (to_primary _ _ _ _ HT). by rewrite Z.sub_0_r in Hi.
Qed.

(** An item's place is determined by its key. *)
Lemma place_unique m a C M p t i t' i' :
  table_ok m a C M -> p ∈ C t i -> p ∈ C t' i' -> (t, i) = (t', i').
Proof.
  intros HT H1 H2. destruct (to_place _ _ _ _ HT _ _ _ H1) as (x & Hx & Hb & _).
  destruct (to_place _ _ _ _ HT _ _ _ H2) as (y & Hy & Hb' & _). congruence.
Qed.

Lemma place_not_null m a C M k p : table_ok m a C M -> M !! k = Some p -> p <> 0.
Proof.
  intros HT Hk. destruct (to_map _ _ _ _ HT _ _ Hk) as (x & Hx & <- & Hin).
  destruct (bucket_of a (crc32c (i_key x))) as [t i] eqn:Hb.
  destruct (bucket_chain _ _ _ _ _ _ _ HT Hb) as (q & _ & Hc). by eapply chain_dom.
Qed.

(** [assoc_find] is lookup. *)
Lemma assoc_find_ok e M key :
  represents e M ->
  assoc_find (crc32c key) key e = Done (default 0 (M !! key)) e.
Proof.
  intros [C HT]. unfold assoc_find, the_assoc.
  rewrite (bind_done _ _ e (e_assoc e) e) by done.
  destruct (bucket_of (e_assoc e) (crc32c key)) as [t i] eqn:Hb.
  destruct (bucket_chain _ _ _ _ _ _ _ HT Hb) as (p & Hp & Hc).
  unfold slot. rewrite Hp. cbn [must].
  rewrite (bind_done _ _ e p e), (bind_done _ _ e (e_mem e) e) by done.
  pose proof (chain_length _ _ _ (to_nodup _ _ _ _ HT t i) Hc).
  destruct (find_in_chain (S (size (e_mem e))) _ _ _ key Hc ltac:(lia))
    as (r & -> & [[-> Hn]|[Hr (x & Hx & <-)]]).
  - cbn. destruct (M !! key) as [q|] eqn:Hq; [|done].
    destruct (to_map _ _ _ _ HT _ _ Hq) as (x & Hx & Hkey & Hin).
    rewrite Hb in Hin. by destruct (Hn q x).
  - destruct (to_place _ _ _ _ HT _ _ _ Hr) as (y & Hy & _ & HM).
    assert (x = y) as -> by congruence. by rewrite HM.
Qed.

(** The table does not depend on the other fields of the items. *)
Lemma table_frame m m' a C M :
  (forall k p, M !! k = Some p ->
     (fun i => (i_key i, h_next i)) <$> m !! p = (fun i => (i_key i, h_next i)) <$> m' !! p) ->
  table_ok m a C M -> table_ok m' a C M.
Proof.
  intros Hf HT.
  assert (forall p i, m !! p = Some i -> (exists k, M !! k = Some p) ->
    exists i', m' !! p = Some i' /\ i_key i' = i_key i /\ h_next i' = h_next i) as Hl.
  { intros p i Hi [k Hk]. specialize (Hf k p Hk). rewrite Hi in Hf. cbn in Hf.
    destruct (m' !! p) as [i'|]; [|done]. injection Hf as Hkey Hnext. by exists i'. }
  assert (forall t i p, p ∈ C t i -> h_next <$> m !! p = h_next <$> m' !! p) as Hc.
  { intros t i p Hp. destruct (to_place _ _ _ _ HT _ _ _ Hp) as (x & Hx & _ & Hk).
    destruct (Hl p x Hx ltac:(eauto)) as (y & Hy & _ & Hn). rewrite Hx, Hy. cbn. by f_equal. }
  split; try apply HT.
  - intros i Hi. destruct (to_primary _ _ _ _ HT i Hi) as (p & Hp & Hch).
    exists p. split; [done|]. eapply chain_frame; [|done]. eauto.
  - intros He i Hi. destruct (to_old _ _ _ _ HT He i Hi) as (p & Hp & Hch).
    exists p. split; [done|]. eapply chain_frame; [|done]. eauto.
  - intros t i p Hp. destruct (to_place _ _ _ _ HT _ _ _ Hp) as (x & Hx & Hb & Hk).
    destruct (Hl p x Hx ltac:(eauto)) as (y & Hy & Hyk & _). exists y. rewrite Hyk. by split_and!.
  - intros k p Hk. destruct (to_map _ _ _ _ HT _ _ Hk) as (x & Hx & <- & Hin).
    destruct (Hl p x Hx ltac:(eauto)) as (y & Hy & Hyk & _). by exists y.
Qed.
(** ** Changing one bucket *)

Definition upd_bucket (t : bool) (i : Z) (l : list Z) (C : bool -> Z -> list Z)
    : bool -> Z -> list Z :=
  fun t' i' => if decide (t' = t /\ i' = i) then l else C t' i'.

Lemma upd_bucket_eq t i l C : upd_bucket t i l C t i = l.
Proof. unfold upd_bucket. by rewrite decide_True. Qed.

Lemma bucket_of_ext a a' hash :
  hashpower a' = hashpower a -> expanding a' = expanding a -> expand_bucket a' = expand_bucket a ->
  bucket_of a' hash = bucket_of a hash.
Proof. intros H1 H2 H3. unfold bucket_of. by rewrite H1, H2, H3. Qed.

(** Replace the chain of one bucket: [m] keeps the chains of the others, the
    new chain is in the new slot, and the items and the map agree. *)
Lemma table_change m m' a a' C M M' t b p l :
  table_ok m a C M ->
  hashpower a' = hashpower a -> expanding a' = expanding a -> expand_bucket a' = expand_bucket a ->
  (forall t', table a' t' = if decide (t' = t) then <[Z.to_nat b := p]> (table a t') else table a t') ->
  0 <= b < hashsize (hashpower a - (if t then 1 else 0)) ->
  hash_items a' = u32 (Z.of_nat (size M')) ->
  chain m' p l -> NoDup l ->
  (forall t' i q, ~ (t' = t /\ i = b) -> q ∈ C t' i -> h_next <$> m !! q = h_next <$> m' !! q) ->
  (forall t' i q, q ∈ upd_bucket t b l C t' i -> exists it, m' !! q = Some it /\
     bucket_of a (crc32c (i_key it)) = (t', i) /\ M' !! i_key it = Some q) ->
  (forall k q, M' !! k = Some q -> exists it, m' !! q = Some it /\ i_key it = k /\
     q ∈ upd_bucket t b l C (bucket_of a (crc32c k)).1 (bucket_of a (crc32c k)).2) ->
  table_ok m' a' (upd_bucket t b l C) M'.
Proof.
  intros HT Hpow Hexp Hebk Htab Hb Hitems Hc Hnd Hf Hplace Hmap.
  assert (forall t' i q, table a t' !! Z.to_nat i = Some q -> 0 <= i -> chain m q (C t' i) ->
    exists r, table a' t' !! Z.to_nat i = Some r /\ chain m' r (upd_bucket t b l C t' i)) as Hch.
  { intros t' i q Hq Hi Hcq. rewrite Htab. unfold upd_bucket.
    destruct (decide (t' = t /\ i = b)) as [[-> ->]|Hne].
    - rewrite decide_True by done. exists p. split; [|done].
      apply list_lookup_insert_eq. by eapply lookup_lt_Some.
    - exists q. split; [|eapply chain_frame; [|done]; by eauto].
      destruct (decide (t' = t)) as [->|]; [|done].
      rewrite list_lookup_insert_ne; [done|]. intros Heq. apply Hne. split; [done|]. lia. }
  split; rewrite ?Hpow, ?Hexp, ?Hebk; try apply HT; try done.
  - intros i Hi. destruct (to_primary _ _ _ _ HT i Hi) as (q & Hq & Hcq).
    apply (Hch false i q); [done|lia|done].
  - intros He i Hi. destruct (to_old _ _ _ _ HT He i Hi) as (q & Hq & Hcq).
    apply (Hch true i q); [done|lia|done].
  - intros t' i. unfold upd_bucket. case_decide; [done|]. apply HT.
  - intros t' i q Hq. destruct (Hplace t' i q Hq) as (x & Hx & Hbx & HM). exists x.
    rewrite (bucket_of_ext a a') by done. by split_and!.
  - intros k q Hk. rewrite (bucket_of_ext a a') by done. by apply Hmap.
Qed.

Lemma table_insert m a C M t b p it head :
  table_ok m a C M -> M !! i_key it = None -> m !! p = Some it -> p <> 0 ->
  bucket_of a (crc32c (i_key it)) = (t, b) -> table a t !! Z.to_nat b = Some head ->
  table_ok (<[p := it <| h_next := head |>]> m)
    ((set_slot t b p a) <| hash_items := u32 (hash_items (set_slot t b p a) + 1) |>)
    (upd_bucket t b (p :: C t b) C) (<[i_key it := p]> M).
Proof.
  intros HT HN Hp Hp0 Hb Hhead.
  assert (forall t' i, p ∉ C t' i) as Hnot.
  { intros t' i Hin. destruct (to_place _ _ _ _ HT _ _ _ Hin) as (x & Hx & _ & HM). congruence. }
  destruct (bucket_of_range a _ t b (to_power _ _ _ _ HT) Hb) as [Hr _].
  destruct (bucket_chain _ _ _ _ _ _ _ HT Hb) as (q & Hq & Hcq).
  assert (q = head) as -> by congruence.
  eapply (table_change m _ a _ C M _ t b p); try done; try (by destruct t).
  - intros t'. destruct t, t'; done.
  - esimpl. replace (hash_items (set_slot t b p a)) with (hash_items a) by (by destruct t).
    rewrite (to_items _ _ _ _ HT), map_size_insert_None by done.
    unfold wrap. rewrite Zplus_mod_idemp_l. f_equal. lia.
  - cbn. split; [done|]. split; [done|]. rewrite lookup_insert_eq. eexists. split; [done|].
    cbn. by apply chain_insert.
  - constructor; [done|]. apply HT.
  - intros t' i r _ Hr'. rewrite lookup_insert_ne; [done|]. intros ->. by apply (Hnot t' i).
  - intros t' i r Hr'. unfold upd_bucket in Hr'.
    assert ((r = p /\ t' = t /\ i = b) \/ r ∈ C t' i) as [(-> & -> & ->)|Hin].
    { case_decide as Hd; [|by right]. destruct Hd as [-> ->]. apply elem_of_cons in Hr'. naive_solver. }
    + rewrite lookup_insert_eq. eexists. split; [done|]. cbn. split; [done|]. apply lookup_insert_eq.
    + destruct (to_place _ _ _ _ HT _ _ _ Hin) as (x & Hx & Hbx & HM). exists x.
      assert (r <> p) by (intros ->; by apply (Hnot t' i)).
      rewrite !lookup_insert_ne; [done|congruence|done].
  - intros k r. destruct (decide (k = i_key it)) as [->|Hk].
    + rewrite lookup_insert_eq. intros [= <-]. rewrite lookup_insert_eq. eexists. split; [done|].
      split; [done|]. rewrite Hb. cbn. rewrite upd_bucket_eq. set_solver.
    + rewrite lookup_insert_ne by done. intros Hr'.
      destruct (to_map _ _ _ _ HT _ _ Hr') as (x & Hx & Hkx & Hin). exists x.
      assert (r <> p) by (intros ->; by eapply Hnot). rewrite lookup_insert_ne by done.
      split; [done|]. split; [done|]. unfold upd_bucket. case_decide as Hd; [|done].
      destruct Hd as [Hd1 Hd2]. rewrite Hd1, Hd2 in Hin. set_solver.
Qed.

(** What remains of the table when one item leaves its bucket. *)
Lemma table_delete m m' a a' C M t b p it head l1 l2 :
  table_ok m a C M -> m !! p = Some it -> C t b = l1 ++ p :: l2 ->
  hashpower a' = hashpower a -> expanding a' = expanding a -> expand_bucket a' = expand_bucket a ->
  (forall t', table a' t' =
     if decide (t' = t) then <[Z.to_nat b := head]> (table a t') else table a t') ->
  hash_items a' = u32 (hash_items a - 1) ->
  chain m' head (l1 ++ l2) -> same_items (fun i => i <| h_next := 0 |>) m m' ->
  (forall q, q ∉ C t b -> m' !! q = m !! q) ->
  table_ok m' a' (upd_bucket t b (l1 ++ l2) C) (delete (i_key it) M).
Proof.
  intros HT Hp HC Hpow Hexp Hebk Htab Hitems Hc Hsame Hout.
  pose proof (to_nodup _ _ _ _ HT t b) as Hnd. rewrite HC in Hnd.
  assert (p ∈ C t b) as Hin by (rewrite HC; set_solver).
  assert (p ∉ l1 ++ l2) as Hpl.
  { apply NoDup_app in Hnd as (_ & Hd & Hn2). apply NoDup_cons in Hn2. set_solver. }
  destruct (to_place _ _ _ _ HT _ _ _ Hin) as (x & Hx & Hb & HM). assert (x = it) as -> by congruence.
  destruct (bucket_of_range a _ t b (to_power _ _ _ _ HT) Hb) as [Hr _].
  assert (forall q i, m !! q = Some i -> exists i', m' !! q = Some i' /\ i_key i' = i_key i) as Hkey.
  { intros q i Hi. destruct (same_items_lookup _ _ _ _ _ Hsame Hi) as (i' & Hi' & E).
    exists i'. split; [done|]. by apply (f_equal i_key) in E. }
  eapply (table_change m m' a a' C M _ t b head); try done.
  - rewrite Hitems, (to_items _ _ _ _ HT).
    assert (size M <> 0%nat) by (apply map_size_ne_0_lookup; eauto).
    rewrite map_size_delete_Some by eauto. unfold wrap. rewrite Zminus_mod_idemp_l. f_equal. lia.
  - apply NoDup_app in Hnd as (? & Hd & Hn2). apply NoDup_cons in Hn2 as [? ?].
    apply NoDup_app. set_solver.
  - intros t' i q Hne Hq. rewrite Hout; [done|]. intros Hq'.
    pose proof (place_unique _ _ _ _ _ _ _ _ _ HT Hq Hq') as [= -> ->]. by apply Hne.
  - intros t' i q Hq. unfold upd_bucket in Hq.
    assert (q ∈ C t' i /\ q <> p) as [Hq' Hqp].
    { case_decide as Hd; [destruct Hd as [-> ->]; rewrite HC; set_solver|]. split; [done|].
      intros ->. pose proof (place_unique _ _ _ _ _ _ _ _ _ HT Hq Hin) as [= -> ->]. by apply Hd. }
    destruct (to_place _ _ _ _ HT _ _ _ Hq') as (y & Hy & Hby & HMy).
    destruct (Hkey q y Hy) as (y' & Hy' & Hk). exists y'. rewrite Hk. split; [done|]. split; [done|].
    rewrite lookup_delete_ne; [done|]. intros Heq. rewrite Heq in HM. congruence.
  - intros k q [Hk Hq]%lookup_delete_Some.
    destruct (to_map _ _ _ _ HT _ _ Hq) as (y & Hy & <- & Hiny).
    destruct (Hkey q y Hy) as (y' & Hy' & Hky). exists y'. split; [done|]. split; [done|].
    unfold upd_bucket. case_decide as Hd; [|done]. destruct Hd as [Hd1 Hd2].
    rewrite Hd1, Hd2, HC in Hiny.
    assert (q <> p) by (intros ->; congruence). set_solver.
Qed.

(** Starting an expansion: all items are in the old table. *)
Lemma table_expand m a C M :
  table_ok m a C M -> expanding a = false ->
  table_ok m (mk_assoc (hashpower a + 1) (replicate (Z.to_nat (hashsize (hashpower a + 1))) 0)
      (primary_hashtable a) (hash_items a) true 0)
    (fun t i => if t then if decide (0 <= i < hashsize (hashpower a)) then C false i else [] else []) M.
Proof.
  intros HT He. pose proof (to_power _ _ _ _ HT) as Hp.
  set (a' := mk_assoc _ _ _ _ _ _).
  assert (forall hash, bucket_of a hash = (false, Z.land hash (hashmask (hashpower a)))) as Hb
    by (intros; unfold bucket_of; by rewrite He).
  assert (forall hash, bucket_of a' hash = (true, Z.land hash (hashmask (hashpower a)))) as Hb'.
  { intros hash. unfold bucket_of, a'. cbn [hashpower expanding expand_bucket].
    replace (hashpower a + 1 - 1) with (hashpower a) by lia.
    pose proof (hashmask_range hash (hashpower a) ltac:(lia)).
    by rewrite (proj2 (Z.leb_le 0 _)) by lia. }
  split; cbn [a' hashpower primary_hashtable old_hashtable hash_items expanding expand_bucket].
  - lia.
  - intros i Hi. exists 0. split; [|done]. apply lookup_replicate. split; [done|]. lia.
  - intros _ i Hi. replace (hashpower a + 1 - 1) with (hashpower a) in Hi by lia.
    rewrite decide_True by done. by apply HT.
  - intros _. unfold hashsize. rewrite Z.shiftl_1_l. replace (hashpower a + 1 - 1) with (hashpower a) by lia. lia.
  - intros [] i; [case_decide; [apply HT|]|]; constructor.
  - intros [] i p Hi; [|set_solver]. case_decide; [|set_solver].
    destruct (to_place _ _ _ _ HT _ _ _ Hi) as (x & Hx & Hbx & HM). exists x.
    fold a'. rewrite Hb'. rewrite Hb in Hbx. split; [done|]. split; [congruence|done].
  - intros k p Hk. destruct (to_map _ _ _ _ HT _ _ Hk) as (x & Hx & Hkx & Hin). exists x.
    fold a'. rewrite Hb' in *. rewrite Hb in Hin. cbn in Hin |- *. split; [done|]. split; [done|].
    by rewrite decide_True by (apply hashmask_range; lia).
  - apply HT.
Qed.

(** ** The operations on the map *)

(** What the operations change: the table, links of items, and the answers of
    the allocator that are used up. *)
Definition unhash (i : hash_item) : hash_item := i <| h_next := 0 |>.

Definition beside_table (e : default_engine) :=
  (e_slabs e, e_items e, e_config e, e_stats e, e_scrubber e, vbucket_infos e, bucket_id e,
   cas_id e, e_now e, e_pages e, e_evicting e).

Definition table_step (e e' : default_engine) : Prop :=
  beside_table e' = beside_table e /\ same_items unhash (e_mem e) (e_mem e').

Lemma table_step_refl e : table_step e e.
Proof. done. Qed.

Lemma table_step_trans e1 e2 e3 : table_step e1 e2 -> table_step e2 e3 -> table_step e1 e3.
Proof. intros [H1 Hm1] [H2 Hm2]. split; [congruence|]. by eapply same_items_trans. Qed.

Lemma assoc_expand_ok e M :
  represents e M -> expanding (e_assoc e) = false ->
  exists e', assoc_expand e = Done tt e' /\ represents e' M /\ table_step e e' /\
    e_mem e' = e_mem e.
Proof.
  intros [C HT] He. unfold assoc_expand, the_assoc, set_assoc, granted. run.
  assert (forall e', e_mem e' = e_mem e -> hashpower (e_assoc e') = hashpower (e_assoc e) ->
    primary_hashtable (e_assoc e') = primary_hashtable (e_assoc e) ->
    hash_items (e_assoc e') = hash_items (e_assoc e) -> expanding (e_assoc e') = false ->
    represents e' M) as Hsame.
  { intros e' H0 H1 H2 H3 H4. exists C. rewrite H0. destruct HT.
    split; rewrite ?H1, ?H2, ?H3, ?H4; try done.
    - intros t i p Hi. destruct (to_place0 t i p Hi) as (x & Hx & Hb & HM). exists x.
      unfold bucket_of in *. rewrite H1, H4. rewrite He in Hb. done.
    - intros k p Hk. destruct (to_map0 k p Hk) as (x & Hx & Hkx & Hin). exists x.
      unfold bucket_of in *. rewrite H1, H4. rewrite He in Hin. done. }
  esimpl. destruct (default false (head (e_grants e))); cbn [negb].
  2: { eexists. split; [reflexivity|]. split; [by apply Hsame|]. done. }
  run. esimpl. destruct (default false (head (tail (e_grants e)))); cbn [negb]; run; unfold when, ret, modify; run.
  - eexists. split; [reflexivity|]. split.
    + eexists. exact (table_expand _ _ C M HT He).
    + done.
  - eexists. split; [reflexivity|]. split; [|done].
    apply Hsame; esimpl; (done || lia).
Qed.

Lemma unhash_insert m p i q : m !! p = Some i -> same_items unhash m (<[p := i <| h_next := q |>]> m).
Proof. intros. by apply (same_items_insert _ _ _ i). Qed.

Lemma assoc_insert_ok e M p it :
  represents e M -> e_mem e !! p = Some it -> M !! i_key it = None -> p <> 0 ->
  exists e', assoc_insert (crc32c (i_key it)) p e = Done 1 e' /\
    represents e' (<[i_key it := p]> M) /\ table_step e e'.
Proof.
  intros HR Hp HN Hp0. unfold assoc_insert.
  rewrite (bind_done _ _ _ _ _ (deref_done p it e Hp)).
  rewrite (bind_done _ _ _ _ _ (assoc_find_ok e M (i_key it) HR)), HN. cbn [default].
  unfold the_assoc. run. change (id 0 == 0) with true. cbv iota.
  destruct HR as [C HT].
  destruct (bucket_of (e_assoc e) (crc32c (i_key it))) as [t b] eqn:Hb.
  destruct (bucket_chain _ _ _ _ _ _ _ HT Hb) as (head & Hh & _).
  unfold slot. rewrite Hh. cbn [must].
  rewrite bind_ret, (bind_done _ _ _ _ _ (write_item_done p _ it e Hp)).
  unfold set_assoc. run.
  set (e1 := set_field e_assoc _ _).
  assert (represents e1 (<[i_key it := p]> M)) as HR1.
  { eexists. exact (table_insert _ _ C M t b p it head HT HN Hp Hp0 Hb Hh). }
  assert (table_step e e1) as HS by (split; [done|]; by apply unhash_insert).
  clearbody e1. destruct (negb (expanding (e_assoc e1)) && _) eqn:Ex.
  - destruct (assoc_expand_ok e1 _ HR1) as (e2 & E2 & HR2 & HS2 & _); [by destruct (expanding _)|].
    rewrite (bind_done _ _ _ _ _ E2). eexists. split; [reflexivity|]. split; [done|].
    by eapply table_step_trans.
  - eexists. split; [reflexivity|]. by split.
Qed.

Lemma assoc_delete_ok e M k p :
  represents e M -> M !! k = Some p ->
  exists e', assoc_delete (crc32c k) k e = Done tt e' /\
    represents e' (delete k M) /\ table_step e e'.
Proof.
  intros [C HT] Hk. destruct (to_map _ _ _ _ HT _ _ Hk) as (it & Hp & <- & Hin).
  unfold assoc_delete, hashitem_before, the_assoc. run.
  destruct (bucket_of (e_assoc e) (crc32c (i_key it))) as [t b] eqn:Hb. cbn in Hin.
  destruct (bucket_chain _ _ _ _ _ _ _ HT Hb) as (head & Hh & Hc).
  pose proof (to_nodup _ _ _ _ HT t b) as Hnd. pose proof (chain_length _ _ _ Hnd Hc).
  unfold slot. rewrite Hh. cbn [must]. run.
  destruct (before_in_chain (S (size (e_mem e))) _ (Slot t b) _ _ (i_key it) Hc ltac:(lia))
    as (l1 & l2 & HC & -> & Hno & Hyes).
  assert (exists l2', l2 = p :: l2') as [l2' ->].
  { destruct l2 as [|q l2].
    - destruct (Hno p it); [|done..]. rewrite HC, app_nil_r in Hin. done.
    - destruct (Hyes q l2 eq_refl) as (x & Hx & Hkx).
      destruct (to_place _ _ _ _ HT t b q) as (y & Hy & _ & HM); [rewrite HC; set_solver|].
      assert (y = x) as -> by congruence. rewrite Hkx, Hk in HM. injection HM as ->. eauto. }
  rewrite bind_must. rewrite HC in Hnd, Hc.
  pose proof (chain_remove _ _ l1 p it l2' Hnd Hc Hp) as Hrem. cbn zeta in Hrem.
  assert (p <> 0) as Hp0 by (by eapply place_not_null).
  assert (read_pos (pos_after (Slot t b) l1) e = Done p e) as Hread.
  { unfold pos_after. destruct (last l1) as [r|] eqn:El; cbn [read_pos].
    - apply last_Some in El as [l0 ->]. rewrite <- app_assoc in Hc. cbn in Hc. clear -Hc Hp.
      revert head Hc. induction l0 as [|q l0 IH]; intros head; cbn.
      + intros (-> & _ & j & Hj & Hn & _). rewrite (bind_done _ _ _ _ _ (deref_done _ _ _ Hj)).
        by rewrite Hn.
      + intros (_ & _ & j & _ & Hc). by eapply IH.
    - unfold the_assoc. run. unfold slot. rewrite Hh. destruct Hrem as [-> _]. done. }
  rewrite (bind_done _ _ _ _ _ Hread), (proj2 (Z.eqb_neq p 0) Hp0). cbn [negb].
  unfold set_assoc. run. erewrite bind_done by (apply deref_done; exact Hp).
  erewrite bind_done by (apply write_item_done; exact Hp). esimpl.
  unfold pos_after. destruct (last l1) as [r|] eqn:El; cbn [write_pos].
  - destruct Hrem as (j & Hj & Hc'). rewrite (write_item_done r _ j) by done.
    assert (same_items unhash (e_mem e)
      (<[r:=j <|h_next := h_next it|>]> (<[p:=it <|h_next := 0|>]> (e_mem e)))) as Hs
      by (eapply same_items_trans; by apply unhash_insert).
    eexists. split; [reflexivity|]. split; [|by split].
    eexists. eapply (table_delete _ _ _ _ C M t b p it head); try done.
    + intros t'. esimpl. change (table _ t') with (table (e_assoc e) t').
      case_decide as Ht; [|done]. subst t'. by rewrite list_insert_id.
    + intros q Hq. rewrite HC in Hq. apply last_Some in El as [l0 ->].
      esimpl. rewrite !lookup_insert_ne by set_solver. done.
  - unfold set_assoc, modify. destruct Hrem as [-> Hc'].
    assert (l1 = []) as -> by (by apply last_None).
    eexists. split; [reflexivity|]. split; [|split; [done|by apply unhash_insert]].
    eexists. eapply (table_delete _ _ _ _ C M t b p it (h_next it) [] l2'); try done;
      try (by destruct t).
    + intros t'. by destruct t, t'.
    + by apply unhash_insert.
    + intros q Hq. rewrite HC in Hq. esimpl. rewrite lookup_insert_ne by set_solver. done.
Qed.

(** ** Moving a bucket *)

(** The chains of the new table while the items [l] of an old bucket are moved
    there. *)
Lemma move_chain_ok l : forall fuel it e C,
  chain (e_mem e) it l -> NoDup l -> (length l < fuel)%nat -> 1 <= hashpower (e_assoc e) ->
  (forall i, 0 <= i < hashsize (hashpower (e_assoc e)) -> exists p,
     primary_hashtable (e_assoc e) !! Z.to_nat i = Some p /\ chain (e_mem e) p (C i)) ->
  (forall i, NoDup (C i)) -> (forall i q, q ∈ l -> q ∉ C i) ->
  exists m prim C', 
    let e' := e <| e_mem := m |> <| e_assoc := (e_assoc e) <| primary_hashtable := prim |> |> in
    move_chain fuel it e = Done tt e' /\
    same_items unhash (e_mem e) m /\ (forall q, q ∉ l -> m !! q = e_mem e !! q) /\
    (forall i, 0 <= i < hashsize (hashpower (e_assoc e)) -> exists p,
       prim !! Z.to_nat i = Some p /\ chain m p (C' i)) /\
    (forall i, NoDup (C' i)) /\
    (forall i q, q ∈ C' i <-> q ∈ C i \/ (q ∈ l /\ exists x, e_mem e !! q = Some x /\
       i = Z.land (crc32c (i_key x)) (hashmask (hashpower (e_assoc e))))).
Proof.
  induction l as [|q l IH]; intros fuel it e C Hc Hnd Hf Hpow Hprim HC Hdisj;
    (destruct fuel as [|fuel]; [cbn in Hf; lia|]); cbn [move_chain].
  - cbn in Hc. subst it. exists (e_mem e), (primary_hashtable (e_assoc e)), C. cbn zeta.
    split; [by destruct e as [? []]|]. split_and!; try done. set_solver.
  - destruct Hc as (-> & Hq0 & x & Hx & Hc). rewrite (proj2 (Z.eqb_neq q 0) Hq0).
    erewrite bind_done by (apply deref_done; exact Hx). unfold the_assoc, set_assoc. run.
    set (b := Z.land _ _).
    assert (0 <= b < hashsize (hashpower (e_assoc e))) as Hb by (apply hashmask_range; lia).
    destruct (Hprim b Hb) as (head & Hhead & Hch). unfold slot. cbn [table]. rewrite Hhead. run.
    erewrite bind_done by (apply write_item_done; exact Hx). run.
    apply NoDup_cons in Hnd as [Hql Hnd].
    set (m1 := <[q := x <| h_next := head |>]> (e_mem e)).
    set (prim1 := <[Z.to_nat b := q]> (primary_hashtable (e_assoc e))).
    set (C1 := fun i => if decide (i = b) then q :: C i else C i).
    set (e1 := e <| e_mem := m1 |> <| e_assoc := (e_assoc e) <| primary_hashtable := prim1 |> |>).
    match goal with |- context [move_chain fuel (h_next x) ?s] => change s with e1 end.
    destruct (IH fuel (h_next x) e1 C1) as (m & prim & C' & E & Hs & Hout & Hpr & Hn & Hmem).
    + by apply chain_insert.
    + done.
    + cbn in Hf. lia.
    + done.
    + intros i Hi. destruct (Hprim i Hi) as (r & Hr & Hcr).
      unfold e1, C1, prim1. esimpl.
      case_decide as Hib.
      * subst i. exists q. split; [apply list_lookup_insert_eq; by eapply lookup_lt_Some|].
        cbn. unfold m1. split; [done|]. split; [done|]. rewrite lookup_insert_eq. eexists. split; [done|].
        esimpl. assert (r = head) as -> by congruence. apply chain_insert; [set_solver|done].
      * exists r. rewrite list_lookup_insert_ne by lia. split; [done|].
        apply chain_insert; [set_solver|done].
    + intros i. subst C1. cbn. case_decide; [|done]. constructor; [set_solver|done].
    + intros i r Hr. subst C1. cbn. case_decide; set_solver.
    + exists m, prim, C'. cbn zeta. split; [exact E|]. split.
      { eapply same_items_trans; [|exact Hs]. by apply unhash_insert. }
      split.
      { intros r Hr. rewrite Hout by set_solver. cbn. unfold m1. apply lookup_insert_ne. set_solver. }
      split; [done|]. split; [done|]. intros i r. rewrite Hmem. subst C1. cbn beta.
      assert (forall y, e_mem e1 !! r = Some y -> r ∈ l -> e_mem e !! r = Some y) as Hsame.
      { intros y Hy Hr. cbn in Hy. unfold m1 in Hy. rewrite lookup_insert_ne in Hy; [done|set_solver]. }
      split.
      * intros [Hr|(Hr & y & Hy & ->)].
        -- case_decide as Hib; [|by left]. apply elem_of_cons in Hr as [->|Hr]; [|by left].
           right. split; [set_solver|]. exists x. by subst.
        -- right. split; [set_solver|]. exists y. eauto.
      * intros [Hr|(Hr & y & Hy & ->)]; [left; case_decide; set_solver|].
        apply elem_of_cons in Hr as [->|Hr].
        -- left. assert (y = x) as -> by congruence. fold b. rewrite decide_True by done. set_solver.
        -- right. split; [done|]. exists y. split; [|done].
           cbn. unfold m1. rewrite lookup_insert_ne; [done|set_solver].
Qed.

(** The buckets that are still to be moved. *)
Definition buckets_left (a : assoc) : Z :=
  if expanding a then hashsize (hashpower a - 1) - expand_bucket a else 0.

(** The table after the bucket [expand_bucket] was moved. *)
Lemma table_moved m m' a a' C C' M :
  table_ok m a C M -> expanding a = true ->
  hashpower a' = hashpower a -> hash_items a' = hash_items a ->
  (forall hash, let o := Z.land hash (hashmask (hashpower a - 1)) in
     bucket_of a' hash = if o <=? expand_bucket a
       then (false, Z.land hash (hashmask (hashpower a))) else (true, o)) ->
  (expanding a' = true -> 0 <= expand_bucket a' < hashsize (hashpower a - 1) /\
     old_hashtable a' = <[Z.to_nat (expand_bucket a) := 0]> (old_hashtable a)) ->
  same_items unhash m m' -> (forall q, q ∉ C true (expand_bucket a) -> m' !! q = m !! q) ->
  (forall i, 0 <= i < hashsize (hashpower a) -> exists p,
     primary_hashtable a' !! Z.to_nat i = Some p /\ chain m' p (C' i)) ->
  (forall i, NoDup (C' i)) ->
  (forall i q, q ∈ C' i <-> q ∈ C false i \/ (q ∈ C true (expand_bucket a) /\
     exists x, m !! q = Some x /\ i = Z.land (crc32c (i_key x)) (hashmask (hashpower a)))) ->
  table_ok m' a' (fun t i => if t then if decide (i = expand_bucket a) then [] else C true i
                             else C' i) M.
Proof.
  intros HT He Hpow Hit Hbk Hold Hs Hout Hprim Hnd Hmem. set (eb := expand_bucket a) in *.
  assert (forall q i, m !! q = Some i -> exists i', m' !! q = Some i' /\ i_key i' = i_key i) as Hkey.
  { intros q i Hi. destruct (same_items_lookup _ _ _ _ _ Hs Hi) as (i' & Hi' & E).
    exists i'. split; [done|]. by apply (f_equal i_key) in E. }
  assert (forall hash t i, bucket_of a hash = (t, i) -> bucket_of a' hash =
    if t then if decide (i = eb) then (false, Z.land hash (hashmask (hashpower a))) else (t, i)
    else (t, i)) as Hb.
  { intros hash t i. rewrite Hbk. unfold bucket_of. rewrite He. cbn [andb]. fold eb.
    destruct (eb <=? _) eqn:E1; intros [= <- <-]; [case_decide|];
      destruct (_ <=? eb) eqn:E2; first [done|lia]. }
  split; rewrite ?Hpow, ?Hit; try apply HT.
  - done.
  - intros He' i Hi. destruct (Hold He') as [_ ->].
    destruct (to_old _ _ _ _ HT He i Hi) as (p & Hp & Hc). case_decide as Hi'.
    + subst i. exists 0. split; [|done]. apply list_lookup_insert_eq. by eapply lookup_lt_Some.
    + exists p. pose proof (to_bucket _ _ _ _ HT He). rewrite list_lookup_insert_ne by lia.
      split; [done|]. eapply chain_frame; [|exact Hc]. intros q Hq. rewrite Hout; [done|].
      intros Hq'. by pose proof (place_unique _ _ _ _ _ _ _ _ _ HT Hq Hq') as [= ->].
  - intros He'. by apply Hold.
  - intros [] i; [case_decide; [constructor|apply HT]|done].
  - intros t i p Hp.
    assert (exists t0 i0, p ∈ C t0 i0) as (t0 & i0 & Hp0).
    { destruct t; [case_decide; [set_solver|eauto]|]. apply Hmem in Hp as [|[]]; eauto. }
    destruct (to_place _ _ _ _ HT _ _ _ Hp0) as (x & Hx & Hbx & HM).
    destruct (Hkey p x Hx) as (y & Hy & Hk). exists y. rewrite Hk. split; [done|].
    split; [|done]. rewrite (Hb _ _ _ Hbx). destruct t.
    + case_decide as Hi; [set_solver|].
      pose proof (place_unique _ _ _ _ _ _ _ _ _ HT Hp Hp0) as [= <- <-]. by rewrite decide_False.
    + apply Hmem in Hp as [Hp|(Hp & z & Hz & ->)];
        pose proof (place_unique _ _ _ _ _ _ _ _ _ HT Hp Hp0) as [= <- <-]; [done|].
      rewrite decide_True by done. by assert (z = x) as -> by congruence.
  - intros k p Hk. destruct (to_map _ _ _ _ HT _ _ Hk) as (x & Hx & <- & Hin).
    destruct (Hkey p x Hx) as (y & Hy & Hky). exists y. split; [done|]. split; [done|].
    destruct (bucket_of a (crc32c (i_key x))) as [t i] eqn:Hbx. rewrite (Hb _ _ _ Hbx). cbn in Hin.
    destruct t; [case_decide as Hi|]; cbn.
    + subst i. apply Hmem. right. eauto.
    + by rewrite decide_False.
    + apply Hmem. by left.
Qed.

Lemma assoc_maintenance_ok e M :
  represents e M ->
  exists d e', assoc_maintenance_step e = Done d e' /\ d = negb (expanding (e_assoc e')) /\
    represents e' M /\ table_step e e' /\
    buckets_left (e_assoc e') = Z.max 0 (buckets_left (e_assoc e) - 1).
Proof.
  intros [C HT]. unfold assoc_maintenance_step, the_assoc. run. unfold buckets_left at 2.
  destruct (expanding (e_assoc e)) eqn:He.
  2: { exists true, e. unfold ret. rewrite He. unfold buckets_left. rewrite He.
       split; [done|]. split; [done|]. split; [by exists C|]. by split. }
  pose proof (to_bucket _ _ _ _ HT He) as Heb. pose proof (to_power _ _ _ _ HT) as Hpow.
  destruct (to_old _ _ _ _ HT He _ Heb) as (it & Hit & Hc).
  unfold slot. cbn [table]. rewrite Hit. run.
  pose proof (chain_length _ _ _ (to_nodup _ _ _ _ HT _ _) Hc).
  destruct (move_chain_ok (C true (expand_bucket (e_assoc e))) (S (size (e_mem e))) it e (C false))
    as (m & prim & C' & E & Hs & Hout & Hprim & Hnd & Hmem);
    [done|apply HT|lia|done|apply HT|apply HT| |].
  { intros i q Hq Hq'. by pose proof (place_unique _ _ _ _ _ _ _ _ _ HT Hq Hq'). }
  cbn zeta in E. rewrite (bind_done _ _ _ _ _ E). unfold set_assoc. run.
  esimpl. set (a := e_assoc e) in *.
  assert (forall hash o, Z.land hash (hashmask (hashpower a - 1)) = o ->
    0 <= o < hashsize (hashpower a - 1)) as Ho by (intros ? ? <-; apply hashmask_range; lia).
  cbn [set_slot]. esimpl.
  destruct (expand_bucket a + 1 == hashsize (hashpower a - 1)) eqn:Elast; run; unfold ret;
    eexists _, _; (split; [reflexivity|]); esimpl; (split; [by rewrite ?He|]);
    (split; [|split; [by split|]]).
  - eexists. eapply (table_moved _ _ _ _ C C'); try done; esimpl.
    intros hash. cbn zeta. unfold bucket_of. esimpl. cbn [andb].
    specialize (Ho hash _ eq_refl). by rewrite (proj2 (Z.leb_le _ _)) by lia.
  - unfold buckets_left. esimpl. lia.
  - eexists. eapply (table_moved _ _ _ _ C C'); try done; esimpl.
    + intros hash. cbn zeta. unfold bucket_of. esimpl. rewrite He. cbn [andb].
      destruct (_ <=? Z.land _ _) eqn:E1, (Z.land _ _ <=? _) eqn:E2; first [done|lia].
    + intros _. split; [lia|done].
  - unfold buckets_left. esimpl. rewrite He. lia.
Qed.

(** The thread ends when the buckets that are left have been moved. *)
Lemma assoc_maintenance_thread_ok fuel : forall e M,
  represents e M -> buckets_left (e_assoc e) <= Z.of_nat fuel -> (0 < fuel)%nat ->
  exists e', assoc_maintenance_thread fuel e = Done (Some tt) e' /\ represents e' M /\
    table_step e e' /\ expanding (e_assoc e') = false.
Proof.
  induction fuel as [|fuel IH]; intros e M HR Hl Hf; [lia|]. cbn [assoc_maintenance_thread].
  destruct (assoc_maintenance_ok e M HR) as (d & e1 & E1 & -> & HR1 & HS1 & HL1).
  rewrite (bind_done _ _ _ _ _ E1). destruct (expanding (e_assoc e1)) eqn:He; cbn [negb].
  - pose proof HR1 as [C HT]. pose proof (to_bucket _ _ _ _ HT He).
    assert (0 < buckets_left (e_assoc e1)) by (unfold buckets_left; rewrite He; lia).
    destruct (IH e1 M HR1) as (e2 & E2 & HR2 & HS2 & He2); [lia|lia|].
    exists e2. split_and!; try done. by eapply table_step_trans.
  - exists e1. by split_and!.
Qed.

(** Until then it goes on. *)
Lemma assoc_maintenance_thread_early fuel : forall e M,
  represents e M -> Z.of_nat fuel < buckets_left (e_assoc e) ->
  exists e', assoc_maintenance_thread fuel e = Done None e' /\ represents e' M /\
    buckets_left (e_assoc e') = buckets_left (e_assoc e) - Z.of_nat fuel.
Proof.
  induction fuel as [|fuel IH]; intros e M HR Hl; cbn [assoc_maintenance_thread].
  { exists e. split_and!; (done || lia). }
  destruct (assoc_maintenance_ok e M HR) as (d & e1 & E1 & -> & HR1 & HS1 & HL1).
  rewrite (bind_done _ _ _ _ _ E1). destruct (expanding (e_assoc e1)) eqn:He; cbn [negb].
  - destruct (IH e1 M HR1) as (e2 & E2 & HR2 & HL2); [lia|]. exists e2. split_and!; (done || lia).
  - unfold buckets_left at 1 in HL1. rewrite He in HL1. lia.
Qed.

(** A new table stands for the empty map. *)
(** A table stands for one map. *)
Lemma represents_unique e M M' : represents e M -> represents e M' -> M = M'.
Proof.
  intros H H'. apply map_eq. intros k. pose proof (assoc_find_ok e M k H) as E. rewrite (assoc_find_ok e M' k H') in E. injection E as E.
  destruct H as [C HT], H' as [C' HT']. destruct (M !! k) as [p|] eqn:Ep, (M' !! k) as [q|] eqn:Eq; cbn in E; try congruence.
  - by destruct (place_not_null _ _ _ _ _ _ HT Ep).
  - by destruct (place_not_null _ _ _ _ _ _ HT' Eq).
Qed.

Lemma represents_new e power :
  0 < power -> e_assoc e = mk_assoc power (replicate (Z.to_nat (hashsize power)) 0) [] 0 false 0 -> represents e ∅.
Proof.
  intros Hp Ha. exists (fun _ _ => []). rewrite Ha. split; cbn [hashpower primary_hashtable expanding hash_items].
  - lia.
  - intros i Hi. exists 0. split; [|done]. apply lookup_replicate. split; [done|lia].
  - done.
  - done.
  - constructor.
  - intros t i p Hp'. by apply not_elem_of_nil in Hp'.
  - intros k p Hp'. by rewrite lookup_empty in Hp'.
  - done.
Qed.

(** Whether the table and its buckets can be allocated. *)
Definition table_granted (e : default_engine) : bool :=
  default false (head (e_grants e)) && default false (head (tail (e_grants e))).

Lemma assoc_init_ok e :
  exists g e', assoc_init None e = Done (if table_granted e then ENGINE_SUCCESS else ENGINE_ENOMEM, g) e' /\
    (if table_granted e then represents e' ∅ else g = None).
Proof.
  unfold assoc_init, assoc_consruct, granted, table_granted. run.
  destruct (default false (head (e_grants e))); cbn [negb andb]; [|run; by eexists _, _].
  run. esimpl. destruct (default false (head (tail (e_grants e)))); [|run; by eexists _, _].
  unfold set_assoc. run. eexists _, _. split; [reflexivity|]. by apply (represents_new _ 16).
Qed.

(** ** Refinement *)

(** What the threads of the engine do with the table. *)
Inductive assoc_op :=
| Find (key : bytes)
| Insert (p : Z) (it : hash_item)
| Delete (key : bytes)
| Maintain.

Definition assoc_run (op : assoc_op) : E Z :=
  match op with
  | Find key => assoc_find (crc32c key) key
  | Insert p it => assoc_insert (crc32c (i_key it)) p
  | Delete key => assoc_delete (crc32c key) key;; ret 0
  | Maintain => assoc_maintenance_step;; ret 0
  end.

(** Items are inserted under a new key, and only what is there is deleted. *)
Definition assoc_legal (op : assoc_op) (m : gmap Z hash_item) (M : gmap bytes Z) : Prop :=
  match op with
  | Insert p it => p <> 0 /\ m !! p = Some it /\ M !! i_key it = None
  | Delete key => is_Some (M !! key)
  | _ => True
  end.

Definition assoc_spec (op : assoc_op) (M : gmap bytes Z) : Z * gmap bytes Z :=
  match op with
  | Find key => (default 0 (M !! key), M)
  | Insert p it => (1, <[i_key it := p]> M)
  | Delete key => (0, delete key M)
  | Maintain => (0, M)
  end.

(** C20: the table implements a map from keys to items: at any stage of an
    expansion, searching, inserting and deleting answer and act like lookup,
    insertion and deletion in the map, a turn of the maintenance thread does
    not change the map, and none of them changes anything of an item but its
    link. *)
Theorem assoc_refines op e M :
  represents e M -> assoc_legal op (e_mem e) M ->
  exists e', assoc_run op e = Done (assoc_spec op M).1 e' /\
    represents e' (assoc_spec op M).2 /\ table_step e e'.
Proof.
  intros HR HL. destruct op as [key|p it|key|];
    cbn [assoc_legal assoc_run assoc_spec fst snd] in HL |- *.
  - exists e. by rewrite assoc_find_ok with (M := M).
  - destruct HL as (Hp0 & Hp & HN). by apply assoc_insert_ok.
  - destruct HL as [p Hp]. destruct (assoc_delete_ok e M key p HR Hp) as (e' & E & H).
    exists e'. by rewrite (bind_done _ _ _ _ _ E).
  - destruct (assoc_maintenance_ok e M HR) as (d & e' & E & _ & HR' & HS & _).
    exists e'. by rewrite (bind_done _ _ _ _ _ E).
Qed.

(** C37: an expansion ends: the maintenance thread stops after exactly as many
    turns as there are buckets left to move ([hashsize (hashpower - 1)] less
    [expand_bucket]), not earlier, the old table is given up, and the map is
    what it was at every turn. *)
Theorem assoc_expansion_terminates e M fuel :
  represents e M -> expanding (e_assoc e) = true ->
  let left := hashsize (hashpower (e_assoc e) - 1) - expand_bucket (e_assoc e) in
  exists r e', assoc_maintenance_thread fuel e = Done r e' /\ represents e' M /\
    if left <=? Z.of_nat fuel then r = Some tt /\ expanding (e_assoc e') = false
    else r = None /\ buckets_left (e_assoc e') = left - Z.of_nat fuel.
Proof.
  intros HR He left. pose proof HR as [C HT]. pose proof (to_bucket _ _ _ _ HT He).
  assert (buckets_left (e_assoc e) = left) as Hl by (unfold buckets_left; by rewrite He).
  destruct (Z.leb_spec left (Z.of_nat fuel)).
  - destruct (assoc_maintenance_thread_ok fuel e M HR) as (e' & ? & ? & _ & ?); [lia|lia|].
    exists (Some tt), e'. by split_and!.
  - destruct (assoc_maintenance_thread_early fuel e M HR) as (e' & ? & ? & ?); [lia|].
    exists None, e'. split_and!; (done || lia).
Qed.
End Assoc.

(** A table of two old buckets, of which one has been moved, with two items. *)
Definition toy_crc (key : bytes) : Z := Z.of_nat (length key).
Definition key_a : bytes := [Byte.x61].
Definition key_bb : bytes := [Byte.x62; Byte.x62].

Definition toy_config : config := mk_config true 0 true 0 false 5 4 48 1048576 false true 0 None.

Definition toy_engine : default_engine :=
  mk_engine {[ 16 := mk_item 0 0 0 0 0 0 0 256 0 1 0 0 key_a [];
               80 := mk_item 0 0 0 0 0 0 0 256 0 1 0 0 key_bb [] ]}
    (mk_assoc 2 [0; 0; 80; 0] [0; 16] 2 true 1)
    (mk_slabs [] 0 0 0 0 0 0 [] 0) (mk_items [] [] [] []) toy_config
    (mk_engine_stats 0 0 0 0 0) (mk_scrubber 0 0 0 0 false false) (fun _ => 0) 0 0 0 [] [] [].

Definition toy_map : gmap bytes Z := {[ key_a := 16; key_bb := 80 ]}.

Definition toy_chains (old : bool) (i : Z) : list Z :=
  if old then if i == 1 then [16] else [] else if i == 2 then [80] else [].

Lemma toy_represents : represents toy_crc toy_engine toy_map.
Proof.
  exists toy_chains. split; cbn [toy_engine e_mem e_assoc].
  - done.
  - intros i Hi. change (hashsize _) with 4 in Hi. assert (i = 0 \/ i = 1 \/ i = 2 \/ i = 3) as [->|[->|[->| ->]]] by lia;
      eexists; (split; [reflexivity|]); cbn; [done|done| |done].
    split; [done|]. split; [done|]. eexists. by split.
  - intros _ i Hi. change (hashsize _) with 2 in Hi. assert (i = 0 \/ i = 1) as [->| ->] by lia;
      eexists; (split; [reflexivity|]); cbn; [done|].
    split; [done|]. split; [done|]. eexists. by split.
  - done.
  - intros t i. unfold toy_chains. destruct t, (i == _); repeat constructor; set_solver.
  - intros t i p. unfold toy_chains. destruct t; case_match eqn:E; try set_solver;
      intros ->%list_elem_of_singleton; apply Z.eqb_eq in E as ->; eexists; by split_and!.
  - intros k p. unfold toy_map. rewrite lookup_insert_Some, lookup_singleton_Some.
    intros [[<- <-]|(_ & <- & <-)]; eexists; (split; [reflexivity|]); (split; [done|]); cbn; set_solver.
  - done.
Qed.

Lemma assoc_refines_witness :
  exists e', assoc_run toy_crc (Delete key_a) toy_engine = Done 0 e' /\
    represents toy_crc e' (delete key_a toy_map) /\ table_step toy_engine e'.
Proof.
  apply (assoc_refines toy_crc (Delete key_a) toy_engine toy_map toy_represents).
  by exists 16.
Defined.

Lemma assoc_expansion_terminates_witness :
  exists e', assoc_maintenance_thread toy_crc 1 toy_engine = Done (Some tt) e' /\
    represents toy_crc e' toy_map /\ expanding (e_assoc e') = false.
Proof.
  destruct (assoc_expansion_terminates toy_crc toy_engine toy_map 1 toy_represents eq_refl) as (r & e' & E & HR & -> & He).
  by exists e'.
Defined.
