(* ===== verification/Slabs.v ===== *)
(** * The slab allocator of the default engine

    [engines/default_engine/slabs.c]: memory for items comes in pages that are
    cut into chunks of the sizes of the slab classes.  A class hands out the
    chunks of its free list first, then the rest of its last page, then those
    of a new page.  [slots] has the chunk that was freed last at its head;
    [sl_curr] is its length, [slabs] the length of [slab_list] and
    [allocs.next] that of [allocs_ptrs].  Statistics are the list of what
    [add_stats] is called with. *)

From S2P Require Import Prelude Numbers RecordUpdate StateMonad Protocol EngineState.

(** Access to a slab class by number. *)
Definition get_class (id : Z) : E slabclass_t :=
  s <- gets e_slabs;; must (slabclass s !! Z.to_nat id).

Definition set_slabs (f : slabs -> slabs) : E unit :=
  modify (fun e => e <| e_slabs := f (e_slabs e) |>).

Definition put_class (id : Z) (p : slabclass_t) : E unit :=
  set_slabs (fun s => s <| slabclass := <[Z.to_nat id := p]> (slabclass s) |>).

(** What [cb_malloc] returns for a page. *)
Definition cb_malloc_page : E Z :=
  p <- gets e_pages;;
  assign e_pages (tail p);;
  ret (default 0 (head p)).

(** The loop of [slabs_clsid]. *)
Fixpoint clsid_loop (fuel : nat) (s : slabs) (n res : Z) : option Z :=
  match fuel with
  | O => None
  | S fuel =>
      p ← slabclass s !! Z.to_nat res;
      if sc_size p <? n then
        if res == power_largest s then Some 0 else clsid_loop fuel s n (res + 1)
      else Some res
  end.

Definition slabs_clsid_of (n : Z) : E Z :=
  if n == 0 then ret 0 else
  s <- gets e_slabs;;
  must (clsid_loop (Z.to_nat MAX_NUMBER_OF_SLAB_CLASSES) s n POWER_SMALLEST).

Definition my_allocate (n : Z) : E Z :=
  s <- gets e_slabs;;
  room <- (if Z.of_nat (length (allocs_ptrs s)) == allocs_size s then
             ok <- granted;;
             when ok (set_slabs (fun s => s <| allocs_size := allocs_size s + 1024 |>));;
             ret ok
           else ret true);;
  if negb room then ret 0 else
  ptr <- cb_malloc_page;;
  when (ptr != 0) (set_slabs (fun s => s <| allocs_ptrs := allocs_ptrs s ++ [ptr] |>));;
  ret ptr.

(** The next multiple of [CHUNK_ALIGN_BYTES]. *)
Definition align (n : Z) : Z :=
  if n mod CHUNK_ALIGN_BYTES != 0 then n + (CHUNK_ALIGN_BYTES - n mod CHUNK_ALIGN_BYTES) else n.

Definition memory_allocate (n : Z) : E Z :=
  s <- gets e_slabs;;
  if mem_base s == 0 then my_allocate n else
  if mem_avail s <? n then ret 0 else
  let n := align n in
  set_slabs (fun s => s <| mem_current := mem_current s + n |>);;
  set_slabs (fun s => s <| mem_avail := if n <? mem_avail s then mem_avail s - n else 0 |>);;
  ret (mem_current s).

Definition grow_slab_list (id : Z) : E bool :=
  p <- get_class id;;
  if Z.of_nat (length (slab_list p)) == list_size p then
    let new_size := if list_size p != 0 then u32 (list_size p * 2) else 16 in
    ok <- granted;;
    when ok (put_class id (p <| list_size := new_size |>));;
    ret ok
  else ret true.

(** The addresses of [n] chunks of a size, one behind the other. *)
Definition chunks_at (ptr csize n : Z) : list Z :=
  (fun k => ptr + Z.of_nat k * csize) <$> seq 0 (Z.to_nat n).

(** [memset] of a new page to 0. *)
Definition clear_page (ptr csize n : Z) (m : gmap Z hash_item) : gmap Z hash_item :=
  fold_right (fun c m => <[c := zero_item]> m) m (chunks_at ptr csize n).

Definition do_slabs_newslab (id : Z) : E bool :=
  p <- get_class id;;
  s <- gets e_slabs;;
  let len := i32 (u32 (sc_size p * perslab p)) in
  if (mem_limit s != 0) && (mem_limit s <? u64 (mem_malloced s + len)) &&
     (0 <? Z.of_nat (length (slab_list p)))
  then ret false else
  ok <- grow_slab_list id;;
  if negb ok then ret false else
  ptr <- memory_allocate (u64 len);;
  if ptr == 0 then ret false else
  modify (fun e => e <| e_mem := clear_page ptr (sc_size p) (perslab p) (e_mem e) |>);;
  p <- get_class id;;
  put_class id ((p <| end_page_ptr := ptr |>) <| end_page_free := perslab p |>
                  <| slab_list := slab_list p ++ [ptr] |>);;
  set_slabs (fun s => s <| mem_malloced := u64 (mem_malloced s + len) |>);;
  ret true.

(** The chunk [slabs_alloc] takes when the class has one: from the free list,
    or from the last page. *)
Definition take_chunk (id : Z) : E Z :=
  p <- get_class id;;
  match slots p with
  | c :: rest => put_class id (p <| slots := rest |>);; ret c
  | [] =>
      cb_assert (end_page_ptr p != 0);;
      let left := u32 (end_page_free p - 1) in
      put_class id ((p <| end_page_free := left |>) <| end_page_ptr :=
        if left != 0 then end_page_ptr p + sc_size p else 0 |>);;
      ret (end_page_ptr p)
  end.

Definition slabs_alloc (n id : Z) : E Z :=
  s <- gets e_slabs;;
  if (id <? POWER_SMALLEST) || (power_largest s <? id) then ret 0 else
  p <- get_class id;;
  room <- (if (end_page_ptr p != 0) || negb (length (slots p) =? 0)%nat then ret true
           else do_slabs_newslab id);;
  r <- (if negb room then ret 0 else take_chunk id);;
  when (r != 0)
    (p <- get_class id;; put_class id (p <| requested := u64 (requested p + n) |>));;
  ret r.

Definition slabs_free (ptr n id : Z) : E unit :=
  s <- gets e_slabs;;
  if (id <? POWER_SMALLEST) || (power_largest s <? id) then ret tt else
  p <- get_class id;;
  room <- (if Z.of_nat (length (slots p)) == sl_total p then
             let new_size := if sl_total p != 0 then u32 (sl_total p * 2) else 16 in
             ok <- granted;;
             when ok (put_class id (p <| sl_total := new_size |>));;
             ret ok
           else ret true);;
  if negb room then ret tt else
  p <- get_class id;;
  put_class id ((p <| slots := ptr :: slots p |>) <| requested := u64 (requested p - n) |>).

Definition slabs_adjust_mem_requested (id old ntotal : Z) : E unit :=
  s <- gets e_slabs;;
  cb_assert (negb ((id <? POWER_SMALLEST) || (power_largest s <? id)));;
  p <- get_class id;;
  put_class id (p <| requested := u64 (requested p - old + ntotal) |>).

(** The loop of [slabs_init]: class [i] gets chunks of [n] bytes; the result
    is the class of the largest items and the classes.  Quotient and product
    are those of [double]. *)
Definition growth (c : config) : double := (factor_num c, factor_den c).

Fixpoint init_classes (fuel : nat) (c : config) (i n : Z) (cs : list slabclass_t)
    : option (Z * list slabclass_t) :=
  match fuel with
  | O => None
  | S fuel =>
      if (i <? POWER_LARGEST) &&
         double_leb (double_of_int n) (double_div (double_of_int (item_size_max c)) (growth c)) then
        let n := u32 (align n) in
        let p := mk_slabclass n (u32 (item_size_max c) / n) [] 0 0 0 [] 0 0 in
        init_classes fuel c (i + 1) (u32 (truncate (double_mul (double_of_int n) (growth c))))
          (<[Z.to_nat i := p]> cs)
      else Some (i, cs)
  end.

Definition no_class : slabclass_t := mk_slabclass 0 0 [] 0 0 0 [] 0 0.

(** [slabs_init]; [initial_malloc] is the value of the environment variable
    [T_MEMD_INITIAL_MALLOC]. *)
Definition slabs_init (initial_malloc : option Z) (limit : Z) (prealloc : bool)
    : E ENGINE_ERROR_CODE :=
  c <- gets e_config;;
  set_slabs (fun s => s <| mem_limit := limit |>);;
  ok <- (if prealloc then
           base <- my_allocate limit;;
           set_slabs (fun s => s <| mem_base := base |>);;
           if base != 0 then
             set_slabs (fun s => (s <| mem_current := base |>) <| mem_avail := limit |>);;
             ret true
           else ret false
         else ret true);;
  if negb ok then ret ENGINE_ENOMEM else
  r <- must (init_classes (Z.to_nat POWER_LARGEST) c POWER_SMALLEST
                (u32 (SIZEOF_HASH_ITEM + chunk_size c))
                (replicate (Z.to_nat MAX_NUMBER_OF_SLAB_CLASSES) no_class));;
  let '(largest, cs) := r in
  let cs := <[Z.to_nat largest :=
    mk_slabclass (u32 (item_size_max c)) 1 [] 0 0 0 [] 0 0]> cs in
  set_slabs (fun s => (s <| slabclass := cs |>) <| power_largest := largest |>);;
  match initial_malloc with
  | Some n => set_slabs (fun s => s <| mem_malloced := u64 n |>)
  | None => ret tt
  end;;
  ret ENGINE_SUCCESS.

(** [slabs_destroy]: the blocks that are given back. *)
Definition slabs_destroy : E (list Z) :=
  s <- gets e_slabs;; ret (allocs_ptrs s).

(** ** Chunks *)

Lemma elem_of_chunks_at c a n k :
  c ∈ chunks_at a n k <-> exists i, 0 <= i < k /\ c = a + i * n.
Proof.
  unfold chunks_at. rewrite list_elem_of_fmap. split.
  - intros (i & -> & Hi%elem_of_seq). exists (Z.of_nat i). split; [lia|done].
  - intros (i & Hi & ->). exists (Z.to_nat i). rewrite elem_of_seq. split; [by rewrite Z2Nat.id by lia|lia].
Qed.

Lemma chunks_at_NoDup a n k : 0 < n -> NoDup (chunks_at a n k).
Proof. intros. unfold chunks_at. apply NoDup_fmap_2; [intros i j ?; nia|apply NoDup_seq]. Qed.

Lemma chunks_at_cons a n k :
  0 < k -> chunks_at a n k = a :: chunks_at (a + n) n (k - 1).
Proof.
  intros Hk. unfold chunks_at. replace (Z.to_nat k) with (S (Z.to_nat (k - 1))) by lia.
  cbn [seq fmap list_fmap]. f_equal; [lia|]. rewrite <- fmap_S_seq, <- list_fmap_compose.
  apply list_fmap_ext. intros. cbn. lia.
Qed.

Lemma clear_page_lookup a n k m c :
  clear_page a n k m !! c = if decide (c ∈ chunks_at a n k) then Some zero_item else m !! c.
Proof.
  unfold clear_page. induction (chunks_at a n k) as [|d l IH]; cbn [fold_right].
  - by rewrite decide_False by set_solver.
  - destruct (decide (c = d)) as [->|Hne].
    + rewrite lookup_insert_eq, decide_True by set_solver. done.
    + rewrite lookup_insert_ne, IH by done. case_decide; case_decide; set_solver.
Qed.

(** Two intervals, given by start and length, have nothing in common. *)
Definition apart (x y : Z * Z) : Prop := x.1 + x.2 <= y.1 \/ y.1 + y.2 <= x.1.

Fixpoint all_apart (l : list (Z * Z)) : Prop :=
  match l with
  | [] => True
  | x :: l => Forall (apart x) l /\ all_apart l
  end.

(** The chunks of a class, and those it can hand out. *)
Definition class_chunks (p : slabclass_t) : list Z :=
  page ← slab_list p; chunks_at page (sc_size p) (perslab p).

Definition free_chunks (p : slabclass_t) : list Z :=
  slots p ++ chunks_at (end_page_ptr p) (sc_size p) (end_page_free p).

Definition page_len (p : slabclass_t) : Z := sc_size p * perslab p.

(** Memory that pages will be taken from: what is left of the preallocated
    block, and the answers of [cb_malloc]. *)
Definition preallocated (s : slabs) : list (Z * Z) :=
  if (mem_base s == 0) || (mem_avail s == 0) then [] else [(mem_current s, mem_avail s)].

Definition malloc_blocks (len : Z) (pages : list Z) : list (Z * Z) :=
  (fun p => (p, len)) <$> filter (fun p => p <> 0) pages.

Definition reserve (e : default_engine) : list (Z * Z) :=
  preallocated (e_slabs e) ++ malloc_blocks (item_size_max (e_config e)) (e_pages e).

Definition class_of (e : default_engine) (id : Z) (p : slabclass_t) : Prop :=
  POWER_SMALLEST <= id <= power_largest (e_slabs e) /\
  slabclass (e_slabs e) !! Z.to_nat id = Some p.

Record class_ok (limit : Z) (p : slabclass_t) : Prop := {
  co_size : 0 < sc_size p;
  co_perslab : 0 < perslab p;
  co_len : page_len p <= limit;
  co_page : 0 <= end_page_free p <= perslab p;
  co_end : end_page_ptr p = 0 <-> end_page_free p = 0;
  co_nodup : NoDup (free_chunks p);
  co_free : forall c, c ∈ free_chunks p -> c ∈ class_chunks p;
  co_pages : forall a, a ∈ slab_list p -> 0 < a;
}.

Record slabs_ok (e : default_engine) : Prop := {
  so_limit : 0 < item_size_max (e_config e) < 2147483648;
  so_class : forall id p, class_of e id p -> class_ok (item_size_max (e_config e)) p;
  so_len : power_largest (e_slabs e) < Z.of_nat (length (slabclass (e_slabs e)));
  so_pages : forall id p a id' p' a', class_of e id p -> class_of e id' p' ->
    a ∈ slab_list p -> a' ∈ slab_list p' ->
    (id = id' /\ a = a') \/ apart (a, page_len p) (a', page_len p');
  so_reserve : all_apart (reserve e);
  so_fresh : forall r, r ∈ reserve e -> (0 < r.1 /\ 0 <= r.2) /\
    (forall a, r.1 <= a < r.1 + r.2 -> e_mem e !! a = None) /\
    (forall id p a, class_of e id p -> a ∈ slab_list p -> apart r (a, page_len p));
  so_chunks : forall id p c, class_of e id p -> c ∈ class_chunks p -> is_Some (e_mem e !! c);
  so_free : forall id p c i, class_of e id p -> c ∈ free_chunks p -> e_mem e !! c = Some i ->
    slabs_clsid i = 0 /\ has_flag ITEM_LINKED i = false;
}.

(** A chunk that no item uses. *)
Definition is_free (e : default_engine) (c : Z) : Prop :=
  exists id p, class_of e id p /\ c ∈ free_chunks p.

Lemma class_of_unique e id p p' : class_of e id p -> class_of e id p' -> p = p'.
Proof. intros [_ H1] [_ H2]. congruence. Qed.

Lemma class_of_exists e id :
  slabs_ok e -> POWER_SMALLEST <= id <= power_largest (e_slabs e) -> exists p, class_of e id p.
Proof.
  intros Hok Hid. pose proof (so_len e Hok). unfold POWER_SMALLEST in Hid.
  destruct (lookup_lt_is_Some_2 (slabclass (e_slabs e)) (Z.to_nat id)) as [p Hp]; [lia|].
  by exists p.
Qed.

Lemma get_class_done id p e : class_of e id p -> get_class id e = Done p e.
Proof. intros [_ H]. unfold get_class. run. by rewrite H. Qed.

(** Different chunks do not overlap. *)
Lemma chunks_apart e id p c id' p' c' :
  slabs_ok e -> class_of e id p -> class_of e id' p' -> c ∈ class_chunks p -> c' ∈ class_chunks p' ->
  (id = id' /\ c = c') \/ apart (c, sc_size p) (c', sc_size p').
Proof.
  intros Hok Hp Hp' Hc Hc'. pose proof (so_class e Hok _ _ Hp) as Ho. pose proof (so_class e Hok _ _ Hp') as Ho'.
  apply list_elem_of_bind in Hc as (a & (i & Hi & ->)%elem_of_chunks_at & Ha).
  apply list_elem_of_bind in Hc' as (a' & (j & Hj & ->)%elem_of_chunks_at & Ha').
  pose proof (co_size _ _ Ho). pose proof (co_size _ _ Ho').
  destruct (so_pages e Hok _ _ _ _ _ _ Hp Hp' Ha Ha') as [[<- <-]|Hap].
  - assert (p' = p) as -> by (by eapply class_of_unique).
    destruct (Z.lt_trichotomy i j) as [?|[->|?]]; [right; left; cbn; nia|by left|right; right; cbn; nia].
  - right. unfold apart, page_len in *. cbn in *. nia.
Qed.

Lemma free_in_memory e c : slabs_ok e -> is_free e c -> exists i, e_mem e !! c = Some i /\
  slabs_clsid i = 0 /\ has_flag ITEM_LINKED i = false.
Proof.
  intros Hok (id & p & Hp & Hc).
  destruct (so_chunks e Hok id p c Hp) as [i Hi]; [by apply (co_free _ _ (so_class e Hok _ _ Hp))|].
  exists i. split; [done|]. by eapply so_free.
Qed.

(** ** Steps of the allocator *)

Lemma all_apart_app l1 l2 :
  all_apart (l1 ++ l2) <->
  all_apart l1 /\ all_apart l2 /\ forall x y, x ∈ l1 -> y ∈ l2 -> apart x y.
Proof.
  induction l1 as [|x l1 IH]; cbn [app all_apart].
  - split; [intros; split_and!; [done|done|set_solver]|by intros (_ & ? & _)].
  - rewrite IH, Forall_app, !Forall_forall. set_solver.
Qed.

(** What the allocator does not touch. *)
Definition beside_slabs (e : default_engine) :=
  (e_assoc e, e_items e, e_config e, e_stats e, e_scrubber e, vbucket_infos e, bucket_id e,
   cas_id e, e_now e, e_evicting e).

Definition chunk_of (e : default_engine) (id c : Z) : Prop :=
  exists p, class_of e id p /\ c ∈ class_chunks p.

(** Memory the allocator owns: a block [cb_malloc] returned, or a part of the
    block that was allocated at the start. *)
Definition owned (s : slabs) (b : Z * Z) : Prop :=
  if decide (mem_base s = 0) then b.1 ∈ allocs_ptrs s
  else mem_base s <= b.1 /\ b.1 + b.2 <= mem_base s + mem_limit s.

(** What is left of the block lies in it, and every page is owned. *)
Definition block_ok (s : slabs) : Prop :=
  mem_base s <> 0 -> 0 < mem_avail s ->
  mem_base s <= mem_current s /\ mem_current s + mem_avail s <= mem_base s + mem_limit s.

Definition backed (e : default_engine) : Prop :=
  block_ok (e_slabs e) /\
  forall id p a, class_of e id p -> a ∈ slab_list p -> owned (e_slabs e) (a, page_len p).

(** A step of the allocator keeps the memory there is, the number and the
    chunk sizes of the classes, and their chunks; and pages stay in memory the
    allocator owns. *)
Record chunk_step (e e' : default_engine) : Prop := {
  st_beside : beside_slabs e' = beside_slabs e;
  st_mem : forall q i, e_mem e !! q = Some i -> e_mem e' !! q = Some i;
  st_largest : power_largest (e_slabs e') = power_largest (e_slabs e);
  st_size : sc_size <$> slabclass (e_slabs e') = sc_size <$> slabclass (e_slabs e);
  st_chunks : forall id c, chunk_of e id c -> chunk_of e' id c;
  st_new : forall id c, chunk_of e' id c -> chunk_of e id c \/ e_mem e !! c = None;
}.

Record slab_step (e e' : default_engine) : Prop := {
  st_step :> chunk_step e e';
  st_backed : backed e -> backed e';
}.

Lemma slab_step_refl e : slab_step e e.
Proof. split; [|done]. split; try done. by left. Qed.

(** The fields that say where the memory is. *)
Definition memory_fields (s : slabs) :=
  (mem_base s, mem_limit s, mem_current s, mem_avail s, allocs_ptrs s).

Lemma backed_same e e' :
  slabclass (e_slabs e') = slabclass (e_slabs e) -> power_largest (e_slabs e') = power_largest (e_slabs e) ->
  memory_fields (e_slabs e') = memory_fields (e_slabs e) -> backed e -> backed e'.
Proof.
  intros Hs Hl Hf [Hb Hp]. injection Hf as H1 H2 H3 H4 H5. split.
  - unfold block_ok. by rewrite H1, H2, H3, H4.
  - intros id p a Hc Ha. unfold owned. rewrite H1, H2, H5. apply (Hp id); [|done].
    unfold class_of in *. by rewrite <- Hs, <- Hl.
Qed.

Lemma chunk_step_trans e1 e2 e3 : chunk_step e1 e2 -> chunk_step e2 e3 -> chunk_step e1 e3.
Proof.
  intros H1 H2. split.
  - by rewrite (st_beside _ _ H2), (st_beside _ _ H1).
  - intros q i Hi. by apply (st_mem _ _ H2), (st_mem _ _ H1).
  - by rewrite (st_largest _ _ H2), (st_largest _ _ H1).
  - by rewrite (st_size _ _ H2), (st_size _ _ H1).
  - intros id c Hc. by apply (st_chunks _ _ H2), (st_chunks _ _ H1).
  - intros id c [Hc|Hn]%(st_new _ _ H2); [by apply (st_new _ _ H1)|]. right.
    destruct (e_mem e1 !! c) as [i|] eqn:E; [|done]. apply (st_mem _ _ H1) in E. congruence.
Qed.

Lemma slab_step_trans e1 e2 e3 : slab_step e1 e2 -> slab_step e2 e3 -> slab_step e1 e3.
Proof. intros [H1 B1] [H2 B2]. split; [by eapply chunk_step_trans|auto]. Qed.

(** A class is replaced. *)
Definition put (id : Z) (p : slabclass_t) (e : default_engine) : default_engine :=
  e <| e_slabs := (e_slabs e) <| slabclass := <[Z.to_nat id := p]> (slabclass (e_slabs e)) |> |>.

Lemma put_class_put id p e : put_class id p e = Done tt (put id p e).
Proof. done. Qed.

Lemma class_of_put e id p p' id' q :
  class_of e id p -> class_of (put id p' e) id' q <->
    (id' = id /\ q = p') \/ (id' <> id /\ class_of e id' q).
Proof.
  intros [Hid Hp]. unfold class_of, put. esimpl. cbn beta. esimpl. unfold POWER_SMALLEST in *.
  pose proof (lookup_lt_Some _ _ _ Hp).
  destruct (decide (id' = id)) as [->|Hne].
  - rewrite list_lookup_insert_eq by done. intuition congruence.
  - destruct (decide (Z.to_nat id' = Z.to_nat id)) as [E|?]; [|rewrite list_lookup_insert_ne by done; tauto].
    split; [intros []; lia|intros [?|[? []]]; [tauto|lia]].
Qed.

Lemma reserve_put e id p : reserve (put id p e) = reserve e.
Proof. unfold reserve, preallocated, put. by esimpl. Qed.

(** Nobody owns the block, and nobody will. *)
Definition fresh_block (e : default_engine) (b : Z * Z) : Prop :=
  0 < b.1 /\ (forall a, b.1 <= a < b.1 + b.2 -> e_mem e !! a = None) /\
  (forall id p a, class_of e id p -> a ∈ slab_list p -> apart b (a, page_len p)) /\
  (forall r, r ∈ reserve e -> apart b r).

(** A class whose pages stay may be replaced by one with other free chunks. *)
Lemma slabs_ok_put e id p p' :
  slabs_ok e -> class_of e id p ->
  sc_size p' = sc_size p -> perslab p' = perslab p -> slab_list p' = slab_list p ->
  0 <= end_page_free p' <= perslab p' -> (end_page_ptr p' = 0 <-> end_page_free p' = 0) ->
  NoDup (free_chunks p') ->
  (forall c, c ∈ free_chunks p' -> c ∈ class_chunks p /\
     forall i, e_mem e !! c = Some i -> slabs_clsid i = 0 /\ has_flag ITEM_LINKED i = false) ->
  slabs_ok (put id p' e).
Proof.
  intros Hok Hp Hs Hn Hl Hf He Hd Hc. pose proof (so_class e Hok _ _ Hp) as Ho.
  assert (page_len p' = page_len p) as Hlen by (unfold page_len; congruence).
  assert (class_chunks p' = class_chunks p) as Hch by (unfold class_chunks; by rewrite Hs, Hn, Hl).
  assert (forall i q a, class_of (put id p' e) i q -> a ∈ slab_list q ->
    exists q0, class_of e i q0 /\ a ∈ slab_list q0 /\ page_len q = page_len q0) as Hold.
  { intros i q a [[-> ->]|[_ Hq]]%(class_of_put _ _ p) Ha; [|by exists q|done].
    exists p. by rewrite <- Hl. }
  split.
  - apply (so_limit e Hok).
  - intros i q [[-> ->]|[_ Hq]]%(class_of_put _ _ p); [|by apply (so_class e Hok) in Hq|done].
    destruct Ho. split; [..|by rewrite Hl]; rewrite ?Hs, ?Hlen, ?Hch; try first [done|lia].
    intros c ?. by apply Hc.
  - unfold put. esimpl. cbn beta. rewrite length_insert. apply (so_len e Hok).
  - intros i q a i' q' a' Hq Hq' Ha Ha'.
    destruct (Hold _ _ _ Hq Ha) as (r & Hr & Ha1 & ->), (Hold _ _ _ Hq' Ha') as (r' & Hr' & Ha1' & ->).
    by apply (so_pages e Hok).
  - rewrite reserve_put. apply (so_reserve e Hok).
  - intros r. rewrite reserve_put. intros Hr.
    destruct (so_fresh e Hok r Hr) as (H1 & H2 & H3). split; [done|]. split; [exact H2|].
    intros i q a Hq Ha. destruct (Hold _ _ _ Hq Ha) as (r0 & ? & ? & ->). by eapply H3.
  - intros i q c [[-> ->]|[_ Hq]]%(class_of_put _ _ p) Hin; [|by eapply (so_chunks e Hok)|done].
    rewrite Hch in Hin. by apply (so_chunks e Hok id p).
  - intros i q c it [[-> ->]|[_ Hq]]%(class_of_put _ _ p) Hin Hit; [|by eapply (so_free e Hok)|done].
    by apply (proj2 (Hc c Hin)).
Qed.

Lemma chunk_of_put e id p p' id' c :
  class_of e id p -> sc_size p' = sc_size p -> perslab p' = perslab p -> slab_list p' = slab_list p ->
  chunk_of (put id p' e) id' c <-> chunk_of e id' c.
Proof.
  intros Hp Hs Hn Hl.
  assert (class_chunks p' = class_chunks p) as Hcc by (unfold class_chunks; by rewrite Hs, Hn, Hl).
  split; intros (q & Hq & Hc).
  - apply (class_of_put e id p) in Hq as [[-> ->]|[_ Hq]]; [|by exists q|done].
    exists p. by rewrite <- Hcc.
  - destruct (decide (id' = id)) as [->|].
    + exists p'. split; [by apply (class_of_put _ _ p); [|left]|].
      rewrite Hcc. by rewrite (class_of_unique e id p q Hp Hq).
    + exists q. split; [|done]. apply (class_of_put _ _ p); [done|]. by right.
Qed.

Lemma slab_step_put e id p p' :
  class_of e id p -> sc_size p' = sc_size p -> perslab p' = perslab p -> slab_list p' = slab_list p ->
  slab_step e (put id p' e).
Proof.
  intros Hp Hs Hn Hl. split; [split; try done|].
  - unfold put. esimpl. cbn beta. rewrite list_fmap_insert, Hs.
    apply list_insert_id. rewrite list_lookup_fmap. by rewrite (proj2 Hp).
  - intros i c. by apply (chunk_of_put e id p).
  - intros i c Hc. left. by apply (chunk_of_put e id p) in Hc.
  - intros [Hb Ho]. split; [exact Hb|]. intros i q a [[-> ->]|[_ Hq]]%(class_of_put _ _ p) Ha; [|by apply (Ho i)|done].
    unfold page_len. rewrite Hs, Hn. rewrite Hl in Ha. by apply (Ho id p).
Qed.

(** The reserve may shrink. *)
Lemma slabs_ok_reserve e e' :
  slabs_ok e -> e_mem e' = e_mem e -> e_config e' = e_config e ->
  slabclass (e_slabs e') = slabclass (e_slabs e) ->
  power_largest (e_slabs e') = power_largest (e_slabs e) ->
  all_apart (reserve e') ->
  (forall r', r' ∈ reserve e' -> exists r, r ∈ reserve e /\ r.1 <= r'.1 /\ 0 <= r'.2 /\
     r'.1 + r'.2 <= r.1 + r.2) ->
  slabs_ok e'.
Proof.
  intros Hok Hm Hcf Hs Hl Ha Hr.
  assert (forall id p, class_of e' id p <-> class_of e id p) as Hc
    by (intros; unfold class_of; by rewrite Hs, Hl).
  split; rewrite ?Hm, ?Hcf, ?Hs, ?Hl.
  - apply (so_limit e Hok).
  - intros id p Hp%Hc. by apply (so_class e Hok id p).
  - apply (so_len e Hok).
  - intros id p a id' p' a' Hp%Hc Hp'%Hc. by apply (so_pages e Hok).
  - done.
  - intros r' Hin. destruct (Hr r' Hin) as (r & Hin' & Ha1 & Ha2 & Ha3).
    destruct (so_fresh e Hok r Hin') as (H1 & H2 & H3). split; [lia|]. split.
    + intros a ?. apply H2. lia.
    + intros id p a Hp%Hc Hin2. specialize (H3 _ _ _ Hp Hin2). unfold apart in *. cbn in *. lia.
  - intros id p c Hp%Hc. by eapply (so_chunks e Hok).
  - intros id p c i Hp%Hc. by eapply (so_free e Hok).
Qed.

(** A step that takes from the reserve and leaves classes and memory alone. *)
Definition takes (n : Z) (e : default_engine) (r : Z) (e' : default_engine) : Prop :=
  slabs_ok e' /\ beside_slabs e' = beside_slabs e /\ e_mem e' = e_mem e /\
  slabclass (e_slabs e') = slabclass (e_slabs e) /\
  power_largest (e_slabs e') = power_largest (e_slabs e) /\
  (r <> 0 -> fresh_block e' (r, n)) /\
  (backed e -> backed e' /\ (r <> 0 -> owned (e_slabs e') (r, n))).

Lemma beside_slabs_config e e' : beside_slabs e' = beside_slabs e -> e_config e' = e_config e.
Proof. unfold beside_slabs. congruence. Qed.

Lemma takes_intro e e' r n b :
  slabs_ok e -> beside_slabs e' = beside_slabs e -> e_mem e' = e_mem e ->
  slabclass (e_slabs e') = slabclass (e_slabs e) ->
  power_largest (e_slabs e') = power_largest (e_slabs e) ->
  all_apart (reserve e') ->
  (forall r', r' ∈ reserve e' -> exists r, r ∈ reserve e /\ r.1 <= r'.1 /\ 0 <= r'.2 /\
     r'.1 + r'.2 <= r.1 + r.2) ->
  b ∈ reserve e -> r = b.1 -> n <= b.2 -> (forall r', r' ∈ reserve e' -> apart (r, n) r') ->
  (backed e -> backed e' /\ (r <> 0 -> owned (e_slabs e') (r, n))) ->
  takes n e r e'.
Proof.
  intros Hok Hb Hm Hs Hl Ha Hr Hbin -> Hn Hf Hbk. split.
  { eapply slabs_ok_reserve; try done. by apply beside_slabs_config. }
  split_and!; try done. intros _.
  destruct (so_fresh e Hok b Hbin) as ([H1 _] & H2 & H3). split; [done|]. cbn. split; [|split]; [| |done].
  - intros a ?. rewrite Hm. apply H2. lia.
  - intros id p a [Hid Hp] Hin. rewrite Hs in Hp. rewrite Hl in Hid.
    specialize (H3 _ _ _ (conj Hid Hp) Hin). unfold apart in *. cbn in *. lia.
Qed.

Lemma malloc_blocks_cons len a l :
  malloc_blocks len (a :: l) = if decide (a = 0) then malloc_blocks len l
                               else (a, len) :: malloc_blocks len l.
Proof.
  unfold malloc_blocks. rewrite filter_cons. repeat case_decide; first [done|congruence].
Qed.

Lemma all_apart_drop_mid l1 x l2 : all_apart (l1 ++ x :: l2) -> all_apart (l1 ++ l2).
Proof. rewrite !all_apart_app. cbn. set_solver. Qed.

Lemma slabs_ok_same e e' :
  slabs_ok e -> e_mem e' = e_mem e -> e_config e' = e_config e ->
  slabclass (e_slabs e') = slabclass (e_slabs e) ->
  power_largest (e_slabs e') = power_largest (e_slabs e) ->
  reserve e' = reserve e -> slabs_ok e'.
Proof.
  intros Hok Hm Hc Hs Hl Hr. eapply slabs_ok_reserve; try done; rewrite Hr; [apply (so_reserve e Hok)|].
  intros r Hin. exists r. destruct (so_fresh e Hok r Hin) as ([] & _). split; [done|]. lia.
Qed.

(** ** Getting a page *)

(** A state that differs in nothing that the allocator's invariant is about. *)
Definition alike (e e' : default_engine) : Prop :=
  beside_slabs e' = beside_slabs e /\ e_mem e' = e_mem e /\
  slabclass (e_slabs e') = slabclass (e_slabs e) /\
  power_largest (e_slabs e') = power_largest (e_slabs e) /\
  preallocated (e_slabs e') = preallocated (e_slabs e).

Lemma alike_trans e1 e2 e3 : alike e1 e2 -> alike e2 e3 -> alike e1 e3.
Proof. intros (?&?&?&?&?) (?&?&?&?&?). repeat split; congruence. Qed.

Lemma slabs_ok_alike e e' :
  alike e e' -> e_pages e' = e_pages e -> slabs_ok e -> slabs_ok e'.
Proof.
  intros (Hb & Hm & Hs & Hl & Hp) Hg Hok. pose proof (beside_slabs_config _ _ Hb) as Hc.
  apply (slabs_ok_same e); try done. unfold reserve. by rewrite Hp, Hg, Hc.
Qed.

Lemma takes_null n e e' :
  alike e e' -> e_pages e' = e_pages e -> slabs_ok e -> (backed e -> backed e') -> takes n e 0 e'.
Proof.
  intros H Hg Hok Hbk. pose proof (slabs_ok_alike _ _ H Hg Hok). destruct H as (?&?&?&?&?).
  split_and!; try done. intros Hb. by split; [apply Hbk|].
Qed.

Lemma takes_page n e e' a :
  alike e e' -> e_pages e = a :: e_pages e' -> slabs_ok e -> n <= item_size_max (e_config e) ->
  (backed e -> backed e' /\ (a <> 0 -> owned (e_slabs e') (a, n))) ->
  takes n e a e'.
Proof.
  intros (Hb & Hm & Hs & Hl & Hp) Hg Hok Hn Hbk. pose proof (beside_slabs_config _ _ Hb) as Hc.
  pose proof (so_reserve e Hok) as Ha.
  assert (forall r, r ∈ reserve e' -> r ∈ reserve e) as Hsub.
  { intros r. unfold reserve. rewrite Hp, Hg, Hc, malloc_blocks_cons, !elem_of_app.
    case_decide; set_solver. }
  assert (forall r', r' ∈ reserve e' -> exists r, r ∈ reserve e /\ r.1 <= r'.1 /\ 0 <= r'.2 /\
     r'.1 + r'.2 <= r.1 + r.2) as Hin.
  { intros r' ?%Hsub. exists r'. split; [done|]. destruct (so_fresh e Hok r') as ([] & _); [done|lia]. }
  unfold reserve in Ha. rewrite Hg, malloc_blocks_cons in Ha. destruct (decide (a = 0)) as [->|Hne].
  - assert (slabs_ok e'); [|by split_and!].
    clear Hbk. eapply slabs_ok_reserve; try done. unfold reserve. by rewrite Hp, Hc.
  - eapply (takes_intro _ _ _ _ (a, item_size_max (e_config e))); try done.
    + unfold reserve. rewrite Hp, Hc. by apply all_apart_drop_mid in Ha.
    + unfold reserve. rewrite Hg, malloc_blocks_cons, decide_False by done. set_solver.
    + intros r. unfold reserve. rewrite Hp, Hc. apply all_apart_app in Ha as (_ & [Ha1 _] & Ha2).
      rewrite Forall_forall in Ha1. intros [Hr|Hr]%elem_of_app.
      * specialize (Ha2 r (a, item_size_max (e_config e)) Hr ltac:(set_solver)).
        unfold apart in *. cbn in *. lia.
      * specialize (Ha1 r Hr). unfold apart in *. cbn in *. lia.
Qed.

Lemma granted_done e :
  granted e = Done (default false (head (e_grants e))) (e <| e_grants := tail (e_grants e) |>).
Proof. done. Qed.

Lemma cb_malloc_page_done e :
  cb_malloc_page e = Done (default 0 (head (e_pages e))) (e <| e_pages := tail (e_pages e) |>).
Proof. done. Qed.

Definition block_fields (s : slabs) :=
  (mem_limit s, mem_malloced s, mem_base s, mem_current s, mem_avail s).

(** [my_allocate] takes the next page, or nothing. *)
Lemma my_allocate_done n e :
  exists r e', my_allocate n e = Done r e' /\ alike e e' /\
    block_fields (e_slabs e') = block_fields (e_slabs e) /\
    allocs_ptrs (e_slabs e') = allocs_ptrs (e_slabs e) ++ (if r == 0 then [] else [r]) /\
    ((r = 0 /\ e_pages e' = e_pages e) \/ e_pages e = r :: e_pages e').
Proof.
  assert (forall e1, alike e e1 -> e_pages e1 = e_pages e ->
    block_fields (e_slabs e1) = block_fields (e_slabs e) ->
    allocs_ptrs (e_slabs e1) = allocs_ptrs (e_slabs e) ->
    exists r e', (ptr <- cb_malloc_page;;
      when (ptr != 0) (set_slabs (fun s => s <| allocs_ptrs := allocs_ptrs s ++ [ptr] |>));;
      ret ptr) e1 = Done r e' /\ alike e e' /\
    block_fields (e_slabs e') = block_fields (e_slabs e) /\
    allocs_ptrs (e_slabs e') = allocs_ptrs (e_slabs e) ++ (if r == 0 then [] else [r]) /\
    ((r = 0 /\ e_pages e' = e_pages e) \/ e_pages e = r :: e_pages e')) as Hgot.
  { intros e1 Ha Hg Hb Hal. erewrite bind_done by apply cb_malloc_page_done. unfold set_slabs. run.
    destruct (e_pages e1) as [|a l] eqn:Hp; cbn [default head tail from_option id].
    - eexists 0, _. split; [done|]. split; [by eapply alike_trans; [exact Ha|]|]. split; [done|].
      split; [by rewrite app_nil_r|]. left. by rewrite <- Hg.
    - destruct (a == 0) eqn:E0; cbn [negb]; eexists a, _; (split; [done|]);
        (split; [by eapply alike_trans; [exact Ha|]|]); (split; [done|]); rewrite E0; (split; [|right; by rewrite <- Hg]).
      + rewrite app_nil_r. exact Hal.
      + esimpl. cbn beta. esimpl. by rewrite Hal. }
  unfold my_allocate. run. case_match; [|run; by apply Hgot].
  run. erewrite bind_done by apply granted_done. unfold set_slabs. run.
  destruct (default false (head (e_grants e))); cbn [negb]; [by apply Hgot|].
  eexists 0, _. split; [done|]. split; [done|]. split; [done|]. split; [by rewrite app_nil_r|]. by left.
Qed.

(** Memory that was owned is owned when there are more blocks. *)
Lemma backed_more e e' l :
  slabclass (e_slabs e') = slabclass (e_slabs e) -> power_largest (e_slabs e') = power_largest (e_slabs e) ->
  block_fields (e_slabs e') = block_fields (e_slabs e) ->
  allocs_ptrs (e_slabs e') = allocs_ptrs (e_slabs e) ++ l -> backed e -> backed e'.
Proof.
  intros Hs Hl Hf Hal [Hb Hp]. injection Hf as H1 _ H3 H4 H5. split.
  - unfold block_ok. by rewrite H1, H3, H4, H5.
  - intros id p a Hc Ha. unfold owned. rewrite H1, H3, Hal.
    assert (class_of e id p) as Hc' by (unfold class_of in *; by rewrite <- Hs, <- Hl).
    specialize (Hp id p a Hc' Ha). unfold owned in Hp. case_decide; [|done]. apply elem_of_app. by left.
Qed.

Lemma my_allocate_ok n e :
  slabs_ok e -> n <= item_size_max (e_config e) -> mem_base (e_slabs e) = 0 ->
  exists r e', my_allocate n e = Done r e' /\ takes n e r e'.
Proof.
  intros Hok Hn H0. destruct (my_allocate_done n e) as (r & e' & -> & Ha & Hf & Hal & Hr).
  exists r, e'. split; [done|]. pose proof Ha as (_ & _ & Hs & Hl & _).
  assert (backed e -> backed e') as Hbk by (by apply (backed_more e e' _ Hs Hl Hf Hal)).
  destruct Hr as [[-> Hg]|Hg]; [by apply takes_null|]. apply takes_page; try done.
  intros Hb. split; [by apply Hbk|]. intros Hne. injection Hf as _ _ H3 _ _. unfold owned.
  rewrite decide_True, Hal, (proj2 (Z.eqb_neq r 0)) by congruence. apply elem_of_app. right. by left.
Qed.

Lemma takes_block n e e' :
  beside_slabs e' = beside_slabs e -> e_mem e' = e_mem e ->
  slabclass (e_slabs e') = slabclass (e_slabs e) ->
  power_largest (e_slabs e') = power_largest (e_slabs e) -> e_pages e' = e_pages e ->
  preallocated (e_slabs e) = [(mem_current (e_slabs e), mem_avail (e_slabs e))] ->
  n <= mem_avail (e_slabs e) ->
  (forall r, r ∈ preallocated (e_slabs e') -> preallocated (e_slabs e') = [r] /\
     mem_current (e_slabs e) + n <= r.1 /\ 0 <= r.2 /\
     r.1 + r.2 <= mem_current (e_slabs e) + mem_avail (e_slabs e)) ->
  slabs_ok e -> 0 <= n ->
  (backed e -> backed e' /\ (mem_current (e_slabs e) <> 0 -> owned (e_slabs e') (mem_current (e_slabs e), n))) ->
  takes n e (mem_current (e_slabs e)) e'.
Proof.
  intros Hb Hm Hs Hl Hg Hp Hn Hp' Hok Hn0 Hbk. pose proof (beside_slabs_config _ _ Hb) as Hc.
  pose proof (so_reserve e Hok) as Ha. unfold reserve in Ha. rewrite Hp in Ha.
  apply all_apart_app in Ha as (_ & Ha2 & Ha3).
  assert (forall r y, r ∈ preallocated (e_slabs e') ->
    y ∈ malloc_blocks (item_size_max (e_config e)) (e_pages e) -> apart r y) as Hr.
  { intros r y Hr Hy. specialize (Ha3 _ y ltac:(left) Hy). destruct (Hp' r Hr) as (_ & ?).
    unfold apart in *. cbn in *. lia. }
  assert ((mem_current (e_slabs e), mem_avail (e_slabs e)) ∈ reserve e) as Hin
    by (unfold reserve; rewrite Hp; set_solver).
  eapply (takes_intro _ _ _ _ _ Hok); try done; unfold reserve; rewrite ?Hc, ?Hg.
  - apply all_apart_app. split_and!; [|done|done].
    destruct (preallocated (e_slabs e')) as [|r l] eqn:E; [done|].
    destruct (Hp' r) as (E' & _); [set_solver|]. injection E' as ->. by split.
  - intros r' [H|H]%elem_of_app.
    + eexists. split; [rewrite Hp; left|]. cbn. destruct (Hp' r' H) as (_ & ?). lia.
    + exists r'. split; [by apply elem_of_app; right|].
      destruct (so_fresh e Hok r') as ([] & _); [|lia]. unfold reserve. by apply elem_of_app; right.
  - intros r' [H|H]%elem_of_app.
    + destruct (Hp' r' H) as (_ & ?). unfold apart. cbn. lia.
    + specialize (Ha3 _ r' ltac:(left) H). unfold apart in *. cbn in *. lia.
Qed.

Lemma align_bounds n : 0 <= n -> n <= align n < n + CHUNK_ALIGN_BYTES.
Proof. intros. unfold align, CHUNK_ALIGN_BYTES. case_match; pose proof (Z.mod_pos_bound n 8); lia. Qed.

Lemma preallocated_base e :
  mem_base (e_slabs e) <> 0 -> 0 < mem_avail (e_slabs e) ->
  preallocated (e_slabs e) = [(mem_current (e_slabs e), mem_avail (e_slabs e))].
Proof.
  intros. unfold preallocated. by rewrite (proj2 (Z.eqb_neq _ _)), (proj2 (Z.eqb_neq _ _)) by lia.
Qed.

Lemma memory_allocate_ok n e :
  slabs_ok e -> 0 < n <= item_size_max (e_config e) ->
  exists r e', memory_allocate n e = Done r e' /\ takes n e r e'.
Proof.
  intros Hok Hn. unfold memory_allocate. run. destruct (mem_base (e_slabs e) == 0) eqn:Hb.
  { apply my_allocate_ok; [done|lia|lia]. }
  destruct (mem_avail (e_slabs e) <? n) eqn:Ha.
  { eexists 0, e. split; [done|]. by apply takes_null. }
  unfold set_slabs. run. eexists _, _. split; [done|]. apply Z.eqb_neq in Hb.
  pose proof (align_bounds n ltac:(lia)).
  apply takes_block; try done; [by apply preallocated_base; lia|lia| |lia|].
  2: { intros [Hblk Ho]. destruct (Hblk Hb ltac:(lia)) as [Hb1 Hb2]. split; [split|].
       - unfold block_ok. esimpl. cbn beta. esimpl. cbn beta. esimpl. intros _. case_match; lia.
       - exact Ho.
       - intros _. unfold owned. esimpl. cbn beta. esimpl. cbn beta. esimpl. rewrite decide_False by done. cbn. lia. }
  intros r. unfold preallocated. esimpl. cbn beta. esimpl. cbn beta. esimpl.
  destruct (align n <? mem_avail (e_slabs e)) eqn:El; [|by rewrite orb_true_r; intros ?%not_elem_of_nil].
  case_match; [by intros ?%not_elem_of_nil|]. intros ->%list_elem_of_singleton. cbn. split; [done|]. lia.
Qed.

(** A class gets a page. *)
Section NewPage.
Context (e : default_engine) (id a : Z) (p p' : slabclass_t).
Hypotheses (Hok : slabs_ok e) (Hp : class_of e id p) (Hempty : free_chunks p = [])
  (Hfresh : fresh_block e (a, page_len p))
  (Hsize : sc_size p' = sc_size p) (Hper : perslab p' = perslab p) (Hslots : slots p' = [])
  (Hptr : end_page_ptr p' = a) (Hfree : end_page_free p' = perslab p)
  (Hlist : slab_list p' = slab_list p ++ [a]).

Let m := clear_page a (sc_size p) (perslab p) (e_mem e).
Let e0 := e <| e_mem := m |>.
Let e' := put id p' e0.

Lemma page_chunk_range c : c ∈ chunks_at a (sc_size p) (perslab p) -> a <= c < a + page_len p.
Proof.
  intros (i & Hi & ->)%elem_of_chunks_at. pose proof (co_size _ _ (so_class e Hok _ _ Hp)).
  unfold page_len. nia.
Qed.

Lemma page_mem q i : e_mem e !! q = Some i -> m !! q = Some i.
Proof.
  intros Hq. unfold m. rewrite clear_page_lookup. case_decide as Hd; [|done].
  apply page_chunk_range in Hd. destruct Hfresh as (_ & Hn & _). cbn in Hn. by rewrite Hn in Hq.
Qed.

Lemma page_class i q :
  class_of e' i q <-> (i = id /\ q = p') \/ (i <> id /\ class_of e i q).
Proof. exact (class_of_put e0 id p p' i q Hp). Qed.

Lemma page_class_chunks c :
  c ∈ class_chunks p' <-> c ∈ class_chunks p \/ c ∈ chunks_at a (sc_size p) (perslab p).
Proof. unfold class_chunks. rewrite Hlist, Hsize, Hper, bind_app, elem_of_app. cbn. by rewrite app_nil_r. Qed.

Lemma page_free_chunks : free_chunks p' = chunks_at a (sc_size p) (perslab p).
Proof. unfold free_chunks. by rewrite Hslots, Hptr, Hfree, Hsize. Qed.

Lemma page_old i q b : class_of e' i q -> b ∈ slab_list q ->
  (i = id /\ q = p' /\ b = a) \/ exists q0, class_of e i q0 /\ b ∈ slab_list q0 /\ page_len q = page_len q0.
Proof.
  intros [[-> ->]|[_ Hq]]%page_class Hb; [|by right; exists q].
  rewrite Hlist in Hb. apply elem_of_app in Hb as [Hb|Hb]; [|left; set_solver].
  right. exists p. split; [done|]. split; [done|]. unfold page_len. by rewrite Hsize, Hper.
Qed.

Lemma page_free_old i q c : class_of e' i q -> c ∈ free_chunks q ->
  (i = id /\ q = p' /\ c ∈ chunks_at a (sc_size p) (perslab p)) \/ class_of e i q.
Proof.
  intros [[-> ->]|[_ Hq]]%page_class Hc; [|by right]. left. by rewrite page_free_chunks in Hc.
Qed.

Lemma page_pages i q b i' q' b' : class_of e' i q -> class_of e' i' q' ->
  b ∈ slab_list q -> b' ∈ slab_list q' ->
  (i = i' /\ b = b') \/ apart (b, page_len q) (b', page_len q').
Proof.
  intros Hq Hq' Hb Hb'. assert (page_len p' = page_len p) as Hl by (unfold page_len; by rewrite Hsize, Hper).
  destruct Hfresh as (_ & _ & Hap & _).
  destruct (page_old _ _ _ Hq Hb) as [(-> & -> & ->)|(q0 & H0 & Hb0 & ->)],
    (page_old _ _ _ Hq' Hb') as [(-> & -> & ->)|(q0' & H0' & Hb0' & ->)]; rewrite ?Hl.
  - by left.
  - right. by eapply Hap.
  - right. specialize (Hap _ _ _ H0 Hb0). unfold apart in *. cbn in *. lia.
  - by apply (so_pages e Hok).
Qed.

Lemma slabs_ok_page : slabs_ok e'.
Proof.
  pose proof (so_class e Hok _ _ Hp) as Ho. pose proof (co_perslab _ _ Ho) as Hpos.
  destruct Hfresh as (Ha & Hn & Hap & Hre). cbn [fst snd] in *. split.
  - apply (so_limit e Hok).
  - intros i q [[-> ->]|[_ Hq]]%page_class; [|by apply (so_class e Hok) in Hq].
    destruct Ho. split; unfold page_len in *; rewrite ?Hsize, ?Hper, ?Hfree, ?Hptr, ?page_free_chunks; try first [done|lia].
    + by apply chunks_at_NoDup.
    + intros c ?. apply page_class_chunks. by right.
    + rewrite Hlist. intros b [?|?]%elem_of_app; [auto|set_solver].
  - unfold e', put. esimpl. cbn beta. rewrite length_insert. apply (so_len e Hok).
  - apply page_pages.
  - unfold e'. rewrite reserve_put. apply (so_reserve e Hok).
  - intros r. unfold e'. rewrite reserve_put. intros Hr.
    destruct (so_fresh e Hok r Hr) as (H1 & H2 & H3). split; [done|]. split.
    + intros x Hx. change (m !! x = None). unfold m. rewrite clear_page_lookup, decide_False; [by apply H2|].
      intros Hc%page_chunk_range. specialize (Hre r Hr). unfold apart in *. cbn in *. lia.
    + intros i q b Hq Hb. destruct (page_old _ _ _ Hq Hb) as [(-> & -> & ->)|(q0 & ? & ? & ->)]; [|by eapply H3].
      specialize (Hre r Hr). unfold apart, page_len in *. rewrite Hsize, Hper. cbn in *. lia.
  - intros i q c [[-> ->]|[_ Hq]]%page_class Hc; change (is_Some (m !! c)).
    + apply page_class_chunks in Hc as [Hc|Hc].
      * destruct (so_chunks e Hok id p c Hp Hc) as [x Hx]. exists x. by apply page_mem.
      * unfold m. by rewrite clear_page_lookup, decide_True.
    + destruct (so_chunks e Hok i q c Hq Hc) as [x Hx]. exists x. by apply page_mem.
  - intros i q c x Hq Hc Hx. change (m !! c = Some x) in Hx.
    destruct (page_free_old _ _ _ Hq Hc) as [(-> & -> & Hd)|H0].
    + unfold m in Hx. rewrite clear_page_lookup, decide_True in Hx by done. by injection Hx as <-.
    + destruct (so_chunks e Hok i q c H0) as [y Hy]; [by apply (co_free _ _ (so_class e Hok _ _ H0))|].
      pose proof (page_mem _ _ Hy) as Hy'. rewrite Hx in Hy'. injection Hy' as ->. by eapply (so_free e Hok).
Qed.

Lemma chunk_step_page : chunk_step e e'.
Proof.
  split; try done.
  - intros q i. apply page_mem.
  - unfold e', put. esimpl. cbn beta. rewrite list_fmap_insert, Hsize.
    apply list_insert_id. rewrite list_lookup_fmap. by rewrite (proj2 Hp).
  - intros i c (q & Hq & Hc). destruct (decide (i = id)) as [->|].
    + exists p'. split; [by apply page_class; left|]. apply page_class_chunks. left.
      by rewrite (class_of_unique e id p q Hp Hq).
    + exists q. split; [|done]. apply page_class. by right.
  - intros i c (q & [[-> ->]|[_ Hq]]%page_class & Hc); [|left; by exists q].
    apply page_class_chunks in Hc as [Hc|Hc]; [left; by exists p|]. right.
    apply page_chunk_range in Hc. by apply Hfresh.
Qed.

Lemma slab_step_page d :
  slab_step d e -> (backed d -> owned (e_slabs e) (a, page_len p)) -> slab_step d e'.
Proof.
  intros [Hst Hbk] Howned. split; [eapply chunk_step_trans; [exact Hst|apply chunk_step_page]|].
  intros Hd. pose proof (Howned Hd) as Hown. destruct (Hbk Hd) as [Hb Ho]. split; [exact Hb|].
  intros i q b Hq Hin.
    assert (page_len p' = page_len p) as Hl by (unfold page_len; by rewrite Hsize, Hper).
    destruct (page_old _ _ _ Hq Hin) as [(-> & -> & ->)|(q0 & H0 & Hb0 & ->)]; [rewrite Hl; exact Hown|by apply (Ho i q0)].
Qed.
End NewPage.

(** ** Allocating and freeing *)

(** Chunks become free by being freed, or are new. *)
Definition frees (e e' : default_engine) : Prop :=
  forall c, is_free e' c -> is_free e c \/ e_mem e !! c = None.

Lemma page_len_width e id p :
  slabs_ok e -> class_of e id p ->
  0 < page_len p <= item_size_max (e_config e) /\
  i32 (u32 (sc_size p * perslab p)) = page_len p /\ u64 (page_len p) = page_len p.
Proof.
  intros Hok Hp. pose proof (so_class e Hok _ _ Hp) as []. pose proof (so_limit e Hok).
  unfold page_len in *. split; [nia|]. assert (0 < sc_size p * perslab p) by nia.
  split; [|apply wrap_small; lia]. rewrite (wrap_small 32) by lia. apply swrap_small; lia.
Qed.

Lemma is_free_put e id p p' c :
  class_of e id p -> is_free (put id p' e) c ->
  c ∈ free_chunks p' \/ (exists id' q, id' <> id /\ class_of e id' q /\ c ∈ free_chunks q).
Proof.
  intros Hp (i & q & [[-> ->]|[Hne Hq]]%(class_of_put _ _ p) & Hc); [by left| |done].
  right. by exists i, q.
Qed.

Lemma slab_step_same e e' :
  beside_slabs e' = beside_slabs e -> e_mem e' = e_mem e ->
  slabclass (e_slabs e') = slabclass (e_slabs e) ->
  power_largest (e_slabs e') = power_largest (e_slabs e) -> (backed e -> backed e') -> slab_step e e'.
Proof.
  intros Hb Hm Hs Hl Hbk. split; [|done]. split; rewrite ?Hm, ?Hs; try done; intros i c (q & Hq & Hc); [|left];
    exists q; (split; [|done]); revert Hq; unfold class_of; by rewrite Hs, Hl.
Qed.

(** What says where a class has its chunks, and which are free. *)
Definition chunk_fields (p : slabclass_t) :=
  (sc_size p, perslab p, slab_list p, slots p, end_page_ptr p, end_page_free p).

Lemma put_same_ok e id p p' :
  slabs_ok e -> class_of e id p -> chunk_fields p' = chunk_fields p ->
  let e' := put id p' e in
  slabs_ok e' /\ slab_step e e' /\ class_of e' id p' /\ (forall c, is_free e' c <-> is_free e c).
Proof.
  intros Hok Hp Heq e'. injection Heq as Hs Hn Hl Hsl Hep Hef.
  assert (free_chunks p' = free_chunks p) as Hfc by (unfold free_chunks; by rewrite Hs, Hsl, Hep, Hef).
  pose proof (so_class e Hok _ _ Hp) as []. split; [|split; [|split]].
  - apply (slabs_ok_put _ _ p); rewrite ?Hn, ?Hep, ?Hef, ?Hfc; try done. intros c Hc.
    split; [by apply co_free0|]. intros i. by apply (so_free e Hok id p).
  - by apply (slab_step_put e id p).
  - apply (class_of_put e id p); [done|]. by left.
  - intros c. split.
    + intros [Hc|(i & q & _ & Hq & Hc)]%(is_free_put e id p); [|by exists i, q|done].
      rewrite Hfc in Hc. by exists id, p.
    + intros (i & q & Hq & Hc). destruct (decide (i = id)) as [->|Hne].
      * exists id, p'. split; [by apply (class_of_put e id p); [|left]|].
        rewrite Hfc. by rewrite (class_of_unique e id p q Hp Hq).
      * exists i, q. split; [|done]. apply (class_of_put e id p); [done|]. by right.
Qed.

(** Asking for a table changes nothing else. *)
Lemma ask_ok e : slabs_ok e ->
  let e' := e <| e_grants := tail (e_grants e) |> in
  slabs_ok e' /\ slab_step e e'.
Proof. intros Hok e'. split; [by apply (slabs_ok_alike e)|by apply slab_step_same]. Qed.

Lemma grow_slab_list_ok e id p :
  slabs_ok e -> class_of e id p ->
  exists b e' p', grow_slab_list id e = Done b e' /\ slabs_ok e' /\ slab_step e e' /\
    class_of e' id p' /\ chunk_fields p' = chunk_fields p /\
    e_mem e' = e_mem e /\ (forall c, is_free e' c -> is_free e c).
Proof.
  intros Hok Hp. unfold grow_slab_list. erewrite bind_done by (by apply get_class_done).
  case_match.
  2: { exists true, e, p. split; [done|]. split; [done|]. split; [apply slab_step_refl|]. by split_and!. }
  run. erewrite bind_done by apply granted_done.
  destruct (ask_ok e Hok) as [Hok1 Hst1]. set (e1 := e <| e_grants := tail (e_grants e) |>) in *.
  unfold put_class, set_slabs. run. destruct (default false (head (e_grants e))).
  - set (p' := p <| list_size := if list_size p != 0 then u32 (list_size p * 2) else 16 |>).
    destruct (put_same_ok e1 id p p' Hok1 Hp eq_refl) as (Hok2 & Hst2 & Hp2 & Hf2).
    exists true, (put id p' e1), p'. split; [done|]. split; [done|].
    split; [by eapply slab_step_trans|]. split; [done|]. split; [done|]. split; [done|].
    intros c. by rewrite Hf2.
  - exists false, e1, p. split; [done|]. split; [done|]. split; [done|]. by split_and!.
Qed.

Lemma free_chunks_empty limit p :
  class_ok limit p -> end_page_ptr p = 0 -> slots p = [] -> free_chunks p = [].
Proof.
  intros Ho He Hs. unfold free_chunks. rewrite Hs. apply (co_end _ _ Ho) in He. by rewrite He.
Qed.

Lemma do_slabs_newslab_ok e id p :
  slabs_ok e -> class_of e id p -> end_page_ptr p = 0 -> slots p = [] ->
  exists b e', do_slabs_newslab id e = Done b e' /\ slabs_ok e' /\ slab_step e e' /\ frees e e' /\
    (b = true -> exists p', class_of e' id p' /\ slots p' = [] /\ end_page_ptr p' <> 0).
Proof.
  intros Hok Hp He Hs. destruct (page_len_width e id p Hok Hp) as (Hlen & Hi & Hu).
  unfold do_slabs_newslab. erewrite bind_done by (by apply get_class_done). run. rewrite Hi, Hu.
  case_match. { exists false, e. split; [done|]. split; [done|]. split; [apply slab_step_refl|]. by split; [left|]. }
  destruct (grow_slab_list_ok e id p Hok Hp) as (b & e1 & p1 & Hg & Hok1 & Hst1 & Hp1 & Heq & Hm1 & Hf1).
  erewrite bind_done by exact Hg. destruct b; cbn [negb].
  2: { exists false, e1. split; [done|]. split; [done|]. split; [done|]. split; [by left; auto|done]. }
  pose proof (beside_slabs_config _ _ (st_beside _ _ Hst1)) as Hc1.
  destruct (memory_allocate_ok (page_len p) e1 Hok1)
    as (a & e2 & Hma & Hok2 & Hb2 & Hm2 & Hs2 & Hl2 & Hfr & Hbk); [by rewrite Hc1|].
  erewrite bind_done by exact Hma.
  assert (forall i q, class_of e2 i q <-> class_of e1 i q) as Hcl by (intros; unfold class_of; by rewrite Hs2, Hl2).
  assert (slab_step e1 e2) as Hst2 by (apply slab_step_same; [done..|]; by intros []%Hbk).
  destruct (a == 0) eqn:Ea.
  { exists false, e2. split; [done|]. split; [done|]. split; [by eapply slab_step_trans|]. split; [|done].
    intros c (i & q & Hq%Hcl & Hc). left. apply Hf1. by exists i, q. }
  injection Heq as Es Eper Elist Eslots Eptr Efree. apply Z.eqb_neq in Ea. run.
  rewrite <- Es, <- Eper.
  set (e3 := e2 <| e_mem := clear_page a (sc_size p1) (perslab p1) (e_mem e2) |>).
  apply Hcl in Hp1. assert (class_of e3 id p1) as Hp3 by exact Hp1.
  erewrite bind_done by (by apply get_class_done).
  rewrite (bind_done _ _ _ _ _ (put_class_put id _ e3)). unfold set_slabs. run.
  set (p2 := (p1 <| end_page_ptr := a |>) <| end_page_free := perslab p1 |> <| slab_list := slab_list p1 ++ [a] |>).
  assert (fresh_block e2 (a, page_len p1)) as Hfb by (unfold page_len; rewrite Es, Eper; auto).
  assert (slots p1 = []) as Hs1 by congruence. assert (free_chunks p1 = []) as Hf0.
  { eapply free_chunks_empty; [by apply (so_class e2 Hok2 id)|congruence|congruence]. }
  assert (slabs_ok (put id p2 e3)) as Hok3 by (by apply (slabs_ok_page e2 id a p1 p2)).
  eexists true, _. split; [done|]. split; [by apply (slabs_ok_alike (put id p2 e3))|]. split; [|split].
  - apply (slab_step_trans _ _ _ Hst1), (slab_step_trans _ (put id p2 e3)); [|by apply slab_step_same].
    apply (slab_step_page e2 id a p1 p2); [done..|exact Hst2|]. intros Hb. unfold page_len. rewrite Es, Eper.
    by apply Hbk.
  - intros c Hc. change (is_free (put id p2 e3) c) in Hc.
    apply (is_free_put e3 id p1) in Hc as [Hc|(i & q & _ & Hq & Hc)]; [| |done].
    + right. rewrite (page_free_chunks a p1 p2) in Hc by done.
      apply (page_chunk_range e2 id a p1) in Hc; [|done|done].
      rewrite <- Hm1, <- Hm2. by apply Hfb.
    + left. apply Hf1. exists i, q. split; [by apply Hcl|done].
  - intros _. exists p2. split; [|split; [by cbn; congruence|done]].
    change (class_of (put id p2 e3) id p2). apply (class_of_put e3 id p1); [done|]. by left.
Qed.

Lemma chunk_pos e id c : slabs_ok e -> chunk_of e id c -> 0 < c.
Proof.
  intros Hok (p & Hp & (a & (i & Hi & ->)%elem_of_chunks_at & Ha)%list_elem_of_bind).
  pose proof (so_class e Hok _ _ Hp) as []. specialize (co_pages0 a Ha). nia.
Qed.

Lemma chunk_class e id id' c : slabs_ok e -> chunk_of e id c -> chunk_of e id' c -> id = id'.
Proof.
  intros Hok (p & Hp & Hc) (p' & Hp' & Hc').
  destruct (chunks_apart e id p c id' p' c Hok Hp Hp' Hc Hc') as [[? _]|Ha]; [done|].
  pose proof (so_class e Hok _ _ Hp) as []. pose proof (so_class e Hok _ _ Hp') as [].
  unfold apart in Ha. cbn in Ha. lia.
Qed.

Lemma is_free_chunk e c : slabs_ok e -> is_free e c -> exists id, chunk_of e id c.
Proof.
  intros Hok (id & p & Hp & Hc). exists id, p. split; [done|].
  by apply (co_free _ _ (so_class e Hok _ _ Hp)).
Qed.

(** A class hands out its next free chunk. *)
Lemma take_chunk_ok e id p p' r :
  slabs_ok e -> class_of e id p ->
  sc_size p' = sc_size p -> perslab p' = perslab p -> slab_list p' = slab_list p ->
  0 <= end_page_free p' <= perslab p' -> (end_page_ptr p' = 0 <-> end_page_free p' = 0) ->
  free_chunks p ≡ₚ r :: free_chunks p' ->
  let e' := put id p' e in
  slabs_ok e' /\ slab_step e e' /\ (forall c, is_free e' c -> is_free e c) /\
  chunk_of e' id r /\ ~ is_free e' r /\ is_free e r.
Proof.
  intros Hok Hp Hs Hn Hl Hf He Hperm e'. pose proof (so_class e Hok _ _ Hp) as Ho.
  pose proof (co_nodup _ _ Ho) as Hnd. rewrite Hperm in Hnd. apply NoDup_cons in Hnd as [Hr Hnd].
  assert (forall c, c ∈ free_chunks p' -> c ∈ free_chunks p) as Hsub
    by (intros c Hc; rewrite Hperm; by right).
  assert (r ∈ free_chunks p) as Hrp by (rewrite Hperm; left).
  assert (slabs_ok e') as Hok'.
  { apply (slabs_ok_put _ _ p); try done. intros c Hc%Hsub. split; [by apply (co_free _ _ Ho)|].
    intros i. by apply (so_free e Hok id p). }
  assert (slab_step e e') as Hst by (by apply (slab_step_put e id p)).
  assert (chunk_of e id r) as Hch by (exists p; split; [done|]; by apply (co_free _ _ Ho)).
  split; [done|]. split; [done|]. split.
  { intros c [Hc%Hsub|(i & q & _ & Hq & Hc)]%(is_free_put e id p); [by exists id, p|by exists i, q|done]. }
  split; [by apply Hst|]. split; [|by exists id, p].
  intros [Hc|(i & q & Hne & Hq & Hc)]%(is_free_put e id p); [done| |done].
  apply Hne, (chunk_class e i id r); [done| |done]. exists q. split; [done|].
  by apply (co_free _ _ (so_class e Hok _ _ Hq)).
Qed.

(** What [slabs_alloc] promises. *)
Definition allocated (id : Z) (e : default_engine) (r : Z) (e' : default_engine) : Prop :=
  slabs_ok e' /\ slab_step e e' /\ frees e e' /\
  (r <> 0 -> chunk_of e' id r /\ ~ is_free e' r /\ (is_free e r \/ e_mem e !! r = None) /\
     exists i, e_mem e' !! r = Some i /\ slabs_clsid i = 0 /\ has_flag ITEM_LINKED i = false).

Lemma take_chunk_done e id p :
  slabs_ok e -> class_of e id p -> slots p <> [] \/ end_page_ptr p <> 0 ->
  exists r p', take_chunk id e = Done r (put id p' e) /\
    sc_size p' = sc_size p /\ perslab p' = perslab p /\ slab_list p' = slab_list p /\
    0 <= end_page_free p' <= perslab p' /\ (end_page_ptr p' = 0 <-> end_page_free p' = 0) /\
    free_chunks p ≡ₚ r :: free_chunks p'.
Proof.
  intros Hok Hp Hav. pose proof (so_class e Hok _ _ Hp) as []. pose proof (so_limit e Hok).
  unfold take_chunk. erewrite bind_done by (by apply get_class_done).
  destruct (slots p) as [|c rest] eqn:Es.
  - destruct Hav as [?|Hav]; [done|]. rewrite (proj2 (Z.eqb_neq _ _)) by done. cbn [negb]. run.
    assert (0 < end_page_free p) as Hpos by lia.
    assert (u32 (end_page_free p - 1) = end_page_free p - 1) as Hu
      by (apply u32_small; unfold page_len in *; nia).
    assert (free_chunks p = end_page_ptr p :: chunks_at (end_page_ptr p + sc_size p) (sc_size p) (end_page_free p - 1)) as Hfc
      by (unfold free_chunks; by rewrite Es, chunks_at_cons by lia).
    assert (0 < end_page_ptr p).
    { apply (chunk_pos e id); [done|]. exists p. split; [done|]. apply co_free0. rewrite Hfc. left. }
    rewrite Hu. eexists _, _. split; [done|]. esimpl.
    destruct (end_page_free p - 1 == 0) eqn:El; cbn [negb]; do 3 (split; [done|]); (split; [lia|]); (split; [lia|]);
      rewrite Hfc; unfold free_chunks; esimpl; rewrite Es; cbn [app]; [|done].
    apply Z.eqb_eq in El. by rewrite El.
  - eexists c, (p <| slots := rest |>). split; [done|]. esimpl. do 5 (split; [done|]).
    unfold free_chunks. esimpl. by rewrite Es.
Qed.

(** The class gets a page when it has no chunk left. *)
Lemma room_ok e id p :
  slabs_ok e -> class_of e id p ->
  exists (b : bool) e1, (if (end_page_ptr p != 0) || negb (length (slots p) =? 0)%nat then ret true
      else do_slabs_newslab id) e = Done b e1 /\ slabs_ok e1 /\ slab_step e e1 /\ frees e e1 /\
    (b = true -> exists p', class_of e1 id p' /\ (slots p' <> [] \/ end_page_ptr p' <> 0)) /\
    (free_chunks p <> [] -> b = true).
Proof.
  intros Hok Hp. destruct (decide (end_page_ptr p = 0 /\ slots p = [])) as [[E1 E2]|Hne].
  - rewrite E1, E2. cbn [negb orb length Nat.eqb Z.eqb].
    destruct (do_slabs_newslab_ok e id p Hok Hp E1 E2) as (b & e1 & -> & Hok1 & Hst & Hfr & Hb).
    exists b, e1. split; [done|]. split; [done|]. split; [done|]. split; [done|]. split.
    + intros Ht. destruct (Hb Ht) as (p' & ? & ? & ?). exists p'. auto.
    + intros []. by eapply free_chunks_empty; [apply (so_class e Hok id)| |].
  - exists true, e. assert (slots p <> [] \/ end_page_ptr p <> 0) as Hav.
    { destruct (decide (end_page_ptr p = 0)); [left; tauto|by right]. }
    split; [|split; [done|split; [apply slab_step_refl|split; [by left|split; [by exists p|done]]]]].
    destruct Hav as [Hs|Hs]; [destruct (slots p); [done|]; by rewrite orb_true_r|].
    by rewrite (proj2 (Z.eqb_neq _ _)).
Qed.

Lemma slabs_alloc_ok e n id :
  slabs_ok e ->
  exists r e', slabs_alloc n id e = Done r e' /\ allocated id e r e' /\
    (forall p, class_of e id p -> free_chunks p <> [] -> r <> 0).
Proof.
  intros Hok. unfold slabs_alloc. run.
  case_match eqn:Hid.
  { exists 0, e. split; [done|]. split; [|intros p [] ?; lia]. split; [done|]. split; [apply slab_step_refl|].
    by split; [left|]. }
  destruct (class_of_exists e id Hok) as [p Hp]; [lia|].
  erewrite bind_done by (by apply get_class_done).
  destruct (room_ok e id p Hok Hp) as (b & e1 & Hr & Hok1 & Hst & Hfr & Hb & Hb').
  erewrite bind_done by exact Hr. destruct b; cbn [negb].
  2: { run. cbn [negb Z.eqb]. exists 0, e1. split; [done|]. split; [done|].
       intros q Hq Hf. rewrite (class_of_unique e id q p Hq Hp) in Hf. by specialize (Hb' Hf). }
  destruct (Hb eq_refl) as (p1 & Hp1 & Hav).
  destruct (take_chunk_done e1 id p1 Hok1 Hp1 Hav) as (r & p2 & Ht & Hs2 & Hn2 & Hl2 & Hf2 & He2 & Hperm).
  destruct (take_chunk_ok e1 id p1 p2 r Hok1 Hp1 Hs2 Hn2 Hl2 Hf2 He2 Hperm)
    as (Hok2 & Hst2 & Hfr2 & Hch & Hnf & Hwas). set (e2 := put id p2 e1) in *.
  erewrite bind_done by exact Ht. pose proof (chunk_pos e2 id r Hok2 Hch).
  rewrite (proj2 (Z.eqb_neq _ _)) by lia. cbn [negb]. run.
  assert (class_of e2 id p2) as Hp2 by (apply (class_of_put e1 id p1); [done|]; by left).
  erewrite bind_done by (by apply get_class_done). erewrite bind_done by apply put_class_put.
  set (p3 := p2 <| requested := u64 (requested p2 + n) |>).
  destruct (put_same_ok e2 id p2 p3 Hok2 Hp2 eq_refl) as (Hok3 & Hst3 & _ & Hfr3).
  exists r. eexists. split; [done|]. split; [|lia]. split; [done|].
  split; [eapply slab_step_trans; [exact Hst|]; by eapply slab_step_trans|].
  split; [intros c ?%Hfr3%Hfr2; by apply Hfr|]. intros _.
  split; [by apply (st_chunks _ _ Hst3)|]. split; [by rewrite Hfr3|]. split; [by apply Hfr|].
  destruct (free_in_memory e1 r Hok1 Hwas) as (i & Hi & Hfl). exists i. split; [|done].
  by apply (st_mem _ _ Hst3), (st_mem _ _ Hst2).
Qed.

Lemma put_free_ok e id p p' c :
  slabs_ok e -> class_of e id p -> chunk_of e id c -> ~ is_free e c ->
  (forall i, e_mem e !! c = Some i -> slabs_clsid i = 0 /\ has_flag ITEM_LINKED i = false) ->
  (sc_size p', perslab p', slab_list p', end_page_ptr p', end_page_free p') =
    (sc_size p, perslab p, slab_list p, end_page_ptr p, end_page_free p) ->
  slots p' = c :: slots p ->
  let e' := put id p' e in
  slabs_ok e' /\ slab_step e e' /\ (forall x, is_free e' x -> is_free e x \/ x = c).
Proof.
  intros Hok Hp (q & Hq & Hc) Hnf Hi Heq Hsl e'. injection Heq as Hs Hn Hl Hep Hef.
  rewrite (class_of_unique e id q p Hq Hp) in Hc. pose proof (so_class e Hok _ _ Hp) as [].
  assert (free_chunks p' = c :: free_chunks p) as Hfc
    by (unfold free_chunks; by rewrite Hsl, Hep, Hef, Hs).
  split; [|split].
  - apply (slabs_ok_put _ _ p); rewrite ?Hn, ?Hep, ?Hef, ?Hfc; try done.
    + apply NoDup_cons. split; [|done]. intros ?. apply Hnf. by exists id, p.
    + intros x [->|Hx]%elem_of_cons; [done|]. split; [by apply co_free0|].
      intros i. by apply (so_free e Hok id p).
  - by apply (slab_step_put e id p).
  - intros x [Hx|(i & r & _ & Hr & Hx)]%(is_free_put e id p); [|by left; exists i, r|done].
    rewrite Hfc in Hx. apply elem_of_cons in Hx as [->|Hx]; [by right|]. left. by exists id, p.
Qed.

(** The last statements of [slabs_free]. *)
Lemma push_free_ok e id p c n :
  slabs_ok e -> class_of e id p -> chunk_of e id c -> ~ is_free e c ->
  (forall i, e_mem e !! c = Some i -> slabs_clsid i = 0 /\ has_flag ITEM_LINKED i = false) ->
  exists e', (p <- get_class id;;
      put_class id ((p <| slots := c :: slots p |>) <| requested := u64 (requested p - n) |>)) e =
      Done tt e' /\ slabs_ok e' /\ slab_step e e' /\
    e_mem e' = e_mem e /\ (forall x, is_free e' x -> is_free e x \/ x = c).
Proof.
  intros Hok Hp Hch Hnf Hi. erewrite bind_done by (by apply get_class_done).
  eexists. split; [apply put_class_put|].
  set (p' := (p <| slots := c :: slots p |>) <| requested := u64 (requested p - n) |>).
  destruct (put_free_ok e id p p' c Hok Hp Hch Hnf Hi eq_refl eq_refl) as (? & ? & ?). done.
Qed.

Lemma slabs_free_ok e id c n :
  slabs_ok e -> chunk_of e id c -> ~ is_free e c ->
  (forall i, e_mem e !! c = Some i -> slabs_clsid i = 0 /\ has_flag ITEM_LINKED i = false) ->
  exists e', slabs_free c n id e = Done tt e' /\ slabs_ok e' /\ slab_step e e' /\
    e_mem e' = e_mem e /\ (forall x, is_free e' x -> is_free e x \/ x = c).
Proof.
  intros Hok Hch Hnf Hi. destruct (Hch) as (p & Hp & Hc). unfold slabs_free. run.
  destruct (proj1 Hp) as [H1 H2]. rewrite (proj2 (Z.ltb_ge _ _) H1), (proj2 (Z.ltb_ge _ _) H2). cbn [orb].
  erewrite bind_done by (by apply get_class_done).
  case_match; run; [|cbn [negb]; by apply (push_free_ok e id p)].
  erewrite bind_done by apply granted_done.
  destruct (ask_ok e Hok) as [Hok1 Hst1]. set (e1 := e <| e_grants := tail (e_grants e) |>) in *.
  destruct (default false (head (e_grants e))); cbn [when]; run; cbn [negb].
  - set (p1 := p <| sl_total := if sl_total p != 0 then u32 (sl_total p * 2) else 16 |>).
    erewrite bind_done by apply put_class_put. run. cbn [negb].
    destruct (put_same_ok e1 id p p1 Hok1 Hp eq_refl) as (Hok2 & Hst2 & Hp2 & Hf2).
    set (e2 := put id p1 e1) in *.
    destruct (push_free_ok e2 id p1 c n Hok2 Hp2) as (e3 & He & Hok3 & Hst3 & Hm3 & Hf3).
    { by apply (st_chunks _ _ Hst2), (st_chunks _ _ Hst1). }
    { by rewrite Hf2. }
    { done. }
    exists e3. split; [done|]. split; [done|].
    split; [eapply slab_step_trans; [exact Hst1|]; by eapply slab_step_trans|]. split; [by rewrite Hm3|].
    intros x [Hx%Hf2|]%Hf3; [by left|by right].
  - exists e1. split; [done|]. split; [done|]. split; [done|]. by split; [|left].
Qed.

(** What is written to a chunk that is in use does not concern the
    allocator. *)
Lemma slabs_ok_mem e e' :
  slabs_ok e -> e_slabs e' = e_slabs e -> item_size_max (e_config e') = item_size_max (e_config e) -> e_pages e' = e_pages e ->
  (forall q, is_Some (e_mem e' !! q) <-> is_Some (e_mem e !! q)) ->
  (forall q, is_free e q -> (fun i => (slabs_clsid i, iflag i)) <$> e_mem e' !! q =
     (fun i => (slabs_clsid i, iflag i)) <$> e_mem e !! q) ->
  slabs_ok e'.
Proof.
  intros Hok Hs Hc Hg Hm Hf.
  assert (forall id p, class_of e' id p <-> class_of e id p) as Hcl
    by (intros; unfold class_of; by rewrite Hs).
  assert (reserve e' = reserve e) as Hr by (unfold reserve; by rewrite Hs, Hc, Hg).
  split; rewrite ?Hs, ?Hc, ?Hr.
  - apply (so_limit e Hok).
  - intros id p Hp%Hcl. by apply (so_class e Hok id p).
  - apply (so_len e Hok).
  - intros id p a id' p' a' Hp%Hcl Hp'%Hcl. by apply (so_pages e Hok).
  - apply (so_reserve e Hok).
  - intros r Hin. destruct (so_fresh e Hok r Hin) as (H1 & H2 & H3). split; [done|]. split.
    + intros a Ha. apply eq_None_not_Some. rewrite Hm. apply eq_None_not_Some. by apply H2.
    + intros id p a Hp%Hcl. by eapply H3.
  - intros id p c Hp%Hcl Hin. apply Hm. by eapply (so_chunks e Hok).
  - intros id p c i Hp%Hcl Hin Hi. specialize (Hf c ltac:(by exists id, p)). rewrite Hi in Hf.
    destruct (e_mem e !! c) as [j|] eqn:Hj; [|done]. injection Hf as -> Hfl. unfold has_flag. rewrite Hfl.
    by eapply (so_free e Hok).
Qed.

Lemma is_free_same e e' q : e_slabs e' = e_slabs e -> is_free e' q <-> is_free e q.
Proof. intros Hs. unfold is_free, class_of. by rewrite Hs. Qed.

Lemma chunk_of_same e e' id q : e_slabs e' = e_slabs e -> chunk_of e' id q <-> chunk_of e id q.
Proof. intros Hs. unfold chunk_of, class_of. by rewrite Hs. Qed.

(** ** Choosing a class *)

(** The first class with chunks of at least [n] bytes, 0 if there is none. *)
Definition first_fit (n : Z) (s : slabs) : Z :=
  match list_find (fun p => n <= sc_size p)
    (take (Z.to_nat (power_largest s)) (drop 1 (slabclass s))) with
  | Some (k, _) => Z.of_nat k + POWER_SMALLEST
  | None => 0
  end.

Lemma clsid_loop_spec s n fuel : forall res,
  power_largest s < Z.of_nat (length (slabclass s)) ->
  0 <= res <= power_largest s -> power_largest s - res < Z.of_nat fuel ->
  clsid_loop fuel s n res = Some
    match list_find (fun p => n <= sc_size p)
      (take (Z.to_nat (power_largest s - res + 1)) (drop (Z.to_nat res) (slabclass s))) with
    | Some (k, _) => Z.of_nat k + res
    | None => 0
    end.
Proof.
  induction fuel as [|fuel IH]; intros res Hlen Hres Hf; [lia|]. cbn [clsid_loop].
  destruct (lookup_lt_is_Some_2 (slabclass s) (Z.to_nat res)) as [p Hp]; [lia|].
  rewrite Hp. cbn [mbind option_bind]. rewrite (drop_S _ _ _ Hp).
  replace (Z.to_nat (power_largest s - res + 1)) with (S (Z.to_nat (power_largest s - res))) by lia.
  cbn [take list_find]. destruct (Z.ltb_spec (sc_size p) n).
  - rewrite decide_False by lia. destruct (Z.eqb_spec res (power_largest s)) as [->|].
    + by replace (Z.to_nat (power_largest s - power_largest s)) with 0%nat by lia.
    + rewrite IH by lia. replace (power_largest s - (res + 1) + 1) with (power_largest s - res) by lia.
      replace (Z.to_nat (res + 1)) with (S (Z.to_nat res)) by lia.
      destruct (list_find _ _) as [[k q]|]; cbn [fmap option_fmap option_map prod_map fst]; f_equal; lia.
  - by rewrite decide_True by lia.
Qed.

Lemma slabs_clsid_done e n :
  slabs_ok e -> POWER_SMALLEST <= power_largest (e_slabs e) <= POWER_LARGEST ->
  slabs_clsid_of n e = Done (if n == 0 then 0 else first_fit n (e_slabs e)) e.
Proof.
  intros Hok Hl. unfold slabs_clsid_of. destruct (n == 0); [done|]. run.
  unfold POWER_LARGEST, POWER_SMALLEST, MAX_NUMBER_OF_SLAB_CLASSES in *.
  rewrite clsid_loop_spec; [|apply (so_len e Hok)|lia|unfold POWER_LARGEST; lia].
  unfold first_fit, POWER_SMALLEST. by rewrite Z.sub_add.
Qed.

Lemma first_fit_spec n s id p :
  first_fit n s = id -> id <> 0 -> slabclass s !! Z.to_nat id = Some p ->
  POWER_SMALLEST <= id <= power_largest s /\ n <= sc_size p /\
  forall j q, POWER_SMALLEST <= j < id -> slabclass s !! Z.to_nat j = Some q -> sc_size q < n.
Proof.
  unfold first_fit, POWER_SMALLEST. intros <- Hne Hp.
  destruct (list_find _ _) as [[k q]|] eqn:E; [|done]. apply list_find_Some in E as (Hk & Hq & Hmin).
  apply lookup_take_Some in Hk as [Hd Hlt]. rewrite lookup_drop in Hd.
  replace (Z.to_nat (Z.of_nat k + 1)) with (1 + k)%nat in Hp by lia.
  assert (q = p) as -> by congruence. split; [lia|]. split; [done|].
  intros j r Hj Hr. apply Z.nle_gt. eapply (Hmin (Z.to_nat (j - 1)) r); [|lia].
  apply lookup_take_Some. split; [|lia]. rewrite lookup_drop. by replace (1 + Z.to_nat (j - 1))%nat with (Z.to_nat j) by lia.
Qed.

(** ** The classes of a new engine *)

(** Sensible settings: items of at most 2 GB, the maximum a multiple of the
    alignment, and a growth factor between 1 and 1000. *)
Record config_ok (c : config) : Prop := {
  cf_max : 0 < item_size_max c < 2147483648;
  cf_aligned : item_size_max c mod CHUNK_ALIGN_BYTES = 0;
  cf_chunk : 0 <= chunk_size c < 2147483648;
  cf_den : 0 < factor_den c;
  cf_factor : factor_den c <= factor_num c <= 1000 * factor_den c;
}.

Definition fresh_class (n per : Z) : slabclass_t := mk_slabclass n per [] 0 0 0 [] 0 0.

Lemma align_aligned n : align n mod CHUNK_ALIGN_BYTES = 0.
Proof.
  unfold align, CHUNK_ALIGN_BYTES. destruct (n mod 8 == 0) eqn:E; cbn [negb]; [lia|].
  rewrite Z.add_sub_assoc, Z.add_comm, <- Z.add_sub_assoc.
  pose proof (Z_div_mod_eq_full n 8). replace (8 + (n - n mod 8)) with ((1 + n / 8) * 8) by lia. apply Z.mod_mul. lia.
Qed.

Lemma align_le n m : 0 <= n <= m -> m mod CHUNK_ALIGN_BYTES = 0 -> align n <= m.
Proof.
  intros Hn Hm. pose proof (align_bounds n ltac:(lia)) as Hb. pose proof (align_aligned n) as Ha.
  unfold CHUNK_ALIGN_BYTES in *. pose proof (Z_div_mod_eq_full m 8). pose proof (Z_div_mod_eq_full (align n) 8). lia.
Qed.

(** What the comparison of the loop says of the size. *)
Lemma size_fits c n :
  config_ok c -> double_leb (double_of_int n) (double_div (double_of_int (item_size_max c)) (growth c)) = true ->
  n <= item_size_max c /\ n * factor_num c <= item_size_max c * factor_den c + factor_num c.
Proof.
  intros [Hmax _ _ Hden Hf] H. unfold double_leb, double_div, double_of_int, growth in H. cbn [fst snd] in H.
  rewrite Z.mul_1_l, Z.mul_1_r in H. apply Z.leb_le in H. set (p := item_size_max c * factor_den c) in *. set (q := factor_num c) in *.
  assert (0 < q /\ p < q * 2 ^ 52) as (H2 & H3) by (subst p; split; [lia|nia]).
  pose proof (nearest_den p q H2 H3) as Hd.
  assert (forall m, p <= m * q -> n <= m) as Hle.
  { intros m Hm. pose proof (nearest_le p q H2 H3 m Hm). nia. }
  split; [apply Hle; subst p; nia|].
  pose proof (Z_div_mod_eq_full p q). pose proof (Z.mod_pos_bound p q H2).
  pose proof (Hle (p / q + 1) ltac:(nia)). nia.
Qed.

(** The next size is not smaller, and can be converted. *)
Lemma size_grows c m :
  config_ok c -> 0 <= m -> m * factor_num c <= 4294967295 * factor_den c ->
  m <= u32 (truncate (double_mul (double_of_int m) (growth c))).
Proof.
  intros [Hmax _ _ Hden Hf] Hm Hs. unfold double_mul, truncate, double_of_int, growth. cbn [fst snd]. rewrite Z.mul_1_l.
  set (p := m * factor_num c) in *. set (q := factor_den c) in *.
  assert (0 < q /\ p < q * 2 ^ 52) as (H2 & H3) by (subst p; split; [lia|nia]).
  pose proof (nearest_den p q H2 H3) as Hd. pose proof (nearest_le p q H2 H3 4294967295 ltac:(lia)) as Hu.
  pose proof (nearest_ge p q H2 H3 m ltac:(subst p; nia)) as Hl.
  destruct (nearest p q) as [a b]. cbn [fst snd] in *. assert (m <= a / b) by (apply Z.div_le_lower_bound; lia).
  rewrite u32_small; [done|]. split; [lia|]. apply Z.div_lt_upper_bound; lia.
Qed.

Lemma next_size c n :
  config_ok c -> 0 < n ->
  double_leb (double_of_int n) (double_div (double_of_int (item_size_max c)) (growth c)) = true ->
  let m := u32 (align n) in
  n <= m <= item_size_max c /\ m mod CHUNK_ALIGN_BYTES = 0 /\
  m <= u32 (truncate (double_mul (double_of_int m) (growth c))).
Proof.
  intros Hc Hn Hfit m. destruct (size_fits c n Hc Hfit) as [Hle Hle']. pose proof Hc as [Hmax Hal Hch Hden Hf].
  pose proof (align_bounds n ltac:(lia)) as Hb. pose proof (align_le n (item_size_max c) ltac:(lia) Hal).
  assert (m = align n) as Hm by (apply u32_small; lia). rewrite Hm.
  split; [lia|]. split; [apply align_aligned|]. unfold CHUNK_ALIGN_BYTES in Hb.
  apply (size_grows c); [done|lia|nia].
Qed.

(** The sizes of the classes do not decrease. *)
Lemma init_classes_ok c fuel : forall i n cs,
  config_ok c -> 0 < n -> POWER_SMALLEST <= i <= POWER_LARGEST ->
  POWER_LARGEST - i < Z.of_nat fuel -> POWER_LARGEST < Z.of_nat (length cs) ->
  exists l cs', init_classes fuel c i n cs = Some (l, cs') /\ i <= l <= POWER_LARGEST /\
    length cs' = length cs /\
    (forall k, 0 <= k < i \/ l <= k -> cs' !! Z.to_nat k = cs !! Z.to_nat k) /\
    (forall k, i <= k < l -> exists m, cs' !! Z.to_nat k = Some (fresh_class m (item_size_max c / m)) /\
       n <= m <= item_size_max c /\ m mod CHUNK_ALIGN_BYTES = 0 /\
       forall k' p', k < k' < l -> cs' !! Z.to_nat k' = Some p' -> m <= sc_size p').
Proof.
  induction fuel as [|fuel IH]; intros i n cs Hc Hn Hi Hf Hlen; [lia|]. cbn [init_classes].
  unfold POWER_SMALLEST, POWER_LARGEST in *.
  case_match eqn:Hcond; [|exists i, cs; split; [done|]; split; [lia|]; split; [done|]; by split; [|intros; lia]].
  apply andb_prop in Hcond as [Hlt Hcond]. apply Z.ltb_lt in Hlt.
  destruct (next_size c n Hc Hn Hcond) as (Hm & Hal & Hnx). set (m := u32 (align n)) in *.
  set (p := mk_slabclass m (u32 (item_size_max c) / m) [] 0 0 0 [] 0 0).
  destruct (IH (i + 1) (u32 (truncate (double_mul (double_of_int m) (growth c)))) (<[Z.to_nat i := p]> cs) Hc)
    as (l & cs' & -> & Hl & Hlen' & Hout & Hin); [lia|lia|lia|by rewrite length_insert|].
  rewrite length_insert in Hlen'. exists l, cs'. split; [done|]. split; [lia|]. split; [done|]. split.
  - intros k Hk. rewrite Hout by lia. apply list_lookup_insert_ne. lia.
  - intros k Hk. destruct (decide (k = i)) as [->|Hne].
    + exists m. rewrite Hout, list_lookup_insert_eq by lia. unfold p.
      rewrite u32_small by (destruct Hc; lia). split; [done|]. split; [lia|]. split; [done|].
      intros k' p' Hk' Hp'. destruct (Hin k') as (m' & Hm' & ? & _); [lia|].
      rewrite Hp' in Hm'. injection Hm' as ->. cbn. lia.
    + destruct (Hin k) as (m' & ? & ? & ? & ?); [lia|]. exists m'. split; [done|]. split; [lia|]. done.
Qed.

(** The memory a new engine may get: blocks that do not overlap.  The first
    one is as large as all pages together when it is allocated at once. *)
Definition init_blocks (limit : Z) (prealloc : bool) (e : default_engine) : list (Z * Z) :=
  if prealloc then
    malloc_blocks limit (take 1 (e_pages e)) ++
    malloc_blocks (item_size_max (e_config e)) (drop 1 (e_pages e))
  else malloc_blocks (item_size_max (e_config e)) (e_pages e).

Record slabs_new (limit : Z) (prealloc : bool) (e : default_engine) : Prop := {
  sn_config : config_ok (e_config e);
  sn_slabs : exists cs, e_slabs e = mk_slabs cs 0 0 0 0 0 0 [] 0;
  sn_mem : e_mem e = ∅;
  sn_limit : 0 <= limit;
  sn_apart : all_apart (init_blocks limit prealloc e);
  sn_pos : forall r, r ∈ init_blocks limit prealloc e -> 0 < r.1;
}.

(** The classes of a new engine: chunk sizes do not decrease, and the chunks
    of the last class take the largest items. *)
Definition classes_new (e : default_engine) : Prop :=
  POWER_SMALLEST <= power_largest (e_slabs e) <= POWER_LARGEST /\
  length (slabclass (e_slabs e)) = Z.to_nat MAX_NUMBER_OF_SLAB_CLASSES /\
  (exists per, slabclass (e_slabs e) !! Z.to_nat (power_largest (e_slabs e)) =
     Some (fresh_class (item_size_max (e_config e)) per)) /\
  forall id p, class_of e id p -> exists per, p = fresh_class (sc_size p) per /\
    0 < sc_size p /\ 0 < per /\ sc_size p * per <= item_size_max (e_config e) /\
    forall id' p', id <= id' -> class_of e id' p' -> sc_size p <= sc_size p'.

Lemma classes_new_ok e :
  0 < item_size_max (e_config e) < 2147483648 -> e_mem e = ∅ -> classes_new e ->
  all_apart (reserve e) -> (forall r, r ∈ reserve e -> 0 < r.1 /\ 0 <= r.2) ->
  slabs_ok e /\ forall c, ~ is_free e c.
Proof.
  intros Hmax Hm (Hl & Hlen & _ & Hc) Ha Hr.
  assert (forall id p, class_of e id p -> slab_list p = [] /\ free_chunks p = []) as Hnil.
  { intros id p Hp. destruct (Hc id p Hp) as (per & -> & _). by split. }
  split; [|intros c (id & p & Hp & Hc')].
  2: { rewrite (proj2 (Hnil id p Hp)) in Hc'. by apply not_elem_of_nil in Hc'. }
  assert (forall id p a, class_of e id p -> a ∉ slab_list p) as Hno.
  { intros id p a Hp. rewrite (proj1 (Hnil id p Hp)). apply not_elem_of_nil. }
  split; try done.
  - intros id p Hp. destruct (Hnil id p Hp) as [Hn Hf]. destruct (Hc id p Hp) as (per & E & H1 & H2 & H3 & _).
    split; rewrite ?Hf, ?Hn; try first [done|by apply NoDup_nil|by intros ? ?%not_elem_of_nil];
      rewrite E; unfold page_len; cbn; by try lia.
  - unfold MAX_NUMBER_OF_SLAB_CLASSES, POWER_LARGEST in *. lia.
  - intros id p a id' p' a' Hp Hp' Hin. by apply (Hno id) in Hin.
  - intros r Hin. split; [by apply Hr|]. rewrite Hm. split; [done|]. intros id p a Hp Hin'. by apply (Hno id) in Hin'.
  - intros id p c Hp Hin. unfold class_chunks in Hin. rewrite (proj1 (Hnil id p Hp)) in Hin.
    by apply not_elem_of_nil in Hin.
  - intros id p c i Hp Hin. rewrite (proj2 (Hnil id p Hp)) in Hin. by apply not_elem_of_nil in Hin.
Qed.

(** The classes [slabs_init] sets up. *)
Lemma init_classes_new c e l cs :
  config_ok c ->
  init_classes (Z.to_nat POWER_LARGEST) c POWER_SMALLEST (u32 (SIZEOF_HASH_ITEM + chunk_size c))
    (replicate (Z.to_nat MAX_NUMBER_OF_SLAB_CLASSES) no_class) = Some (l, cs) ->
  e_config e = c -> power_largest (e_slabs e) = l ->
  slabclass (e_slabs e) = <[Z.to_nat l := fresh_class (u32 (item_size_max c)) 1]> cs ->
  classes_new e.
Proof.
  intros Hc Hi <- <- Hs. set (c := e_config e) in *. pose proof Hc as [Hmax _ Hch _ _].
  assert (0 < u32 (SIZEOF_HASH_ITEM + chunk_size c)) as Hpos.
  { unfold SIZEOF_HASH_ITEM. rewrite u32_small; lia. }
  destruct (init_classes_ok c (Z.to_nat POWER_LARGEST) POWER_SMALLEST (u32 (SIZEOF_HASH_ITEM + chunk_size c))
    (replicate (Z.to_nat MAX_NUMBER_OF_SLAB_CLASSES) no_class) Hc Hpos) as (l & cs' & Hi' & Hl & Hlen & _ & Hin);
    [by cbn|by cbn|by cbn|].
  rewrite Hi' in Hi. injection Hi as -> ->. rewrite u32_small in Hs by lia.
  rewrite length_replicate in Hlen. unfold POWER_SMALLEST, POWER_LARGEST in Hl.
  assert (slabclass (e_slabs e) !! Z.to_nat (power_largest (e_slabs e)) = Some (fresh_class (item_size_max c) 1)) as Hlast.
  { rewrite Hs, list_lookup_insert_eq; [done|]. rewrite Hlen. unfold MAX_NUMBER_OF_SLAB_CLASSES, POWER_LARGEST. lia. }
  assert (forall k, 1 <= k < power_largest (e_slabs e) -> slabclass (e_slabs e) !! Z.to_nat k = cs !! Z.to_nat k) as Hk.
  { intros k ?. rewrite Hs. apply list_lookup_insert_ne. lia. }
  assert (forall id p, class_of e id p -> sc_size p <= item_size_max c) as Hle.
  { intros id p [Hid Hp]. unfold POWER_SMALLEST in Hid. destruct (decide (id = power_largest (e_slabs e))) as [->|].
    - rewrite Hlast in Hp. by injection Hp as <-.
    - rewrite Hk in Hp by lia. destruct (Hin id) as (m & Hm & ? & _); [unfold POWER_SMALLEST; lia|].
      rewrite Hp in Hm. injection Hm as ->. cbn. lia. }
  split; [done|]. split; [by rewrite Hs, length_insert|]. split; [by exists 1|].
  intros id p Hcl. pose proof Hcl as [Hid Hp]. unfold POWER_SMALLEST in Hid.
  destruct (decide (id = power_largest (e_slabs e))) as [->|Hne].
  - rewrite Hlast in Hp. injection Hp as <-. exists 1. cbn [sc_size fresh_class]. split; [done|].
    split; [lia|]. split; [lia|]. split; [fold c; lia|].
    intros id' p' Hid' Hp'. assert (id' = power_largest (e_slabs e)) as -> by (destruct Hp'; lia).
    by rewrite (class_of_unique _ _ _ _ Hp' Hcl).
  - rewrite Hk in Hp by lia. destruct (Hin id) as (m & Hm & ? & _ & Hmon); [unfold POWER_SMALLEST; lia|].
    rewrite Hp in Hm. injection Hm as ->. exists (item_size_max c / m). cbn [sc_size fresh_class].
    split; [done|]. split; [lia|]. split; [apply Z.div_str_pos; lia|]. split; [apply Z.mul_div_le; lia|].
    intros id' p' Hid' Hp'. pose proof Hp' as [Hr Hq].
    destruct (decide (id' = power_largest (e_slabs e))) as [->|].
    + rewrite Hlast in Hq. injection Hq as <-. cbn. lia.
    + destruct (decide (id' = id)) as [->|]; [by rewrite (class_of_unique _ _ _ _ Hp' Hcl)|].
      rewrite Hk in Hq by lia. apply (Hmon id' p'); [lia|done].
Qed.

(** The class of the largest items. *)
Definition largest_class (c : config) : option Z :=
  fst <$> init_classes (Z.to_nat POWER_LARGEST) c POWER_SMALLEST (u32 (SIZEOF_HASH_ITEM + chunk_size c))
            (replicate (Z.to_nat MAX_NUMBER_OF_SLAB_CLASSES) no_class).

(** [slabs_init] after the memory was allocated. *)
Lemma init_rest_ok t e :
  config_ok (e_config e) -> e_mem e = ∅ -> all_apart (reserve e) ->
  (forall r, r ∈ reserve e -> 0 < r.1 /\ 0 <= r.2) ->
  exists e', (r <- must (init_classes (Z.to_nat POWER_LARGEST) (e_config e) POWER_SMALLEST
                (u32 (SIZEOF_HASH_ITEM + chunk_size (e_config e)))
                (replicate (Z.to_nat MAX_NUMBER_OF_SLAB_CLASSES) no_class));;
    let '(largest, cs) := r in
    let cs := <[Z.to_nat largest :=
      mk_slabclass (u32 (item_size_max (e_config e))) 1 [] 0 0 0 [] 0 0]> cs in
    set_slabs (fun s => (s <| slabclass := cs |>) <| power_largest := largest |>);;
    match t with
    | Some n => set_slabs (fun s => s <| mem_malloced := u64 n |>)
    | None => ret tt
    end;;
    ret ENGINE_SUCCESS) e = Done ENGINE_SUCCESS e' /\
  slabs_ok e' /\ classes_new e' /\ (forall c, ~ is_free e' c) /\
  beside_slabs e' = beside_slabs e /\ e_mem e' = e_mem e /\ (block_ok (e_slabs e) -> backed e') /\
  largest_class (e_config e) = Some (power_largest (e_slabs e')).
Proof.
  intros Hc Hm Ha Hr. pose proof (cf_chunk _ Hc).
  destruct (init_classes_ok (e_config e) (Z.to_nat POWER_LARGEST) POWER_SMALLEST
    (u32 (SIZEOF_HASH_ITEM + chunk_size (e_config e)))
    (replicate (Z.to_nat MAX_NUMBER_OF_SLAB_CLASSES) no_class) Hc)
    as (l & cs & Hi & _); [unfold SIZEOF_HASH_ITEM; rewrite u32_small; lia|by cbn|by cbn|by cbn|].
  assert (forall e', alike (e <| e_slabs := ((e_slabs e) <| slabclass :=
      <[Z.to_nat l := mk_slabclass (u32 (item_size_max (e_config e))) 1 [] 0 0 0 [] 0 0]> cs |>)
      <| power_largest := l |> |>) e' -> e_pages e' = e_pages e ->
    (block_ok (e_slabs e) -> block_ok (e_slabs e')) ->
    slabs_ok e' /\ classes_new e' /\ (forall c, ~ is_free e' c) /\
    beside_slabs e' = beside_slabs e /\ e_mem e' = e_mem e /\ (block_ok (e_slabs e) -> backed e') /\
    largest_class (e_config e) = Some (power_largest (e_slabs e'))) as Hok.
  { intros e' (Hb & Hm' & Hs & Hl & Hp) Hg Hbk. assert (e_config e' = e_config e) as Hc' by (by apply beside_slabs_config in Hb).
    assert (reserve e' = reserve e) as Hr' by (unfold reserve; rewrite Hp, Hg, Hc'; done).
    assert (classes_new e') as Hn by (by apply (init_classes_new (e_config e) e' l cs)).
    destruct (classes_new_ok e') as [? ?]; [rewrite Hc'; apply Hc|by rewrite Hm'|done|by rewrite Hr'|by rewrite Hr'|].
    split_and!; try done; [|by unfold largest_class; rewrite Hi, Hl]. intros Hbo. split; [by apply Hbk|].
    intros id p q Hp'. destruct (proj2 (proj2 (proj2 Hn)) id p Hp') as (per & -> & _). by intros ?%not_elem_of_nil. }
  rewrite Hi. run. unfold set_slabs. run. destruct t as [n|]; run.
  - eexists. split; [done|]. by apply Hok.
  - eexists. split; [done|]. by apply Hok.
Qed.

(** Whether the allocator gets its list of blocks and the first one. *)
Definition first_block (e : default_engine) : bool :=
  default false (head (e_grants e)) && (default 0 (head (e_pages e)) != 0).

Lemma my_allocate_first n e :
  allocs_ptrs (e_slabs e) = [] -> allocs_size (e_slabs e) = 0 ->
  exists e', my_allocate n e = Done (if first_block e then default 0 (head (e_pages e)) else 0) e'.
Proof.
  intros Hp Hs. unfold my_allocate, first_block. run. rewrite Hp, Hs. cbn [length Z.of_nat Z.eqb]. run.
  erewrite bind_done by apply granted_done. unfold set_slabs. run.
  destruct (default false (head (e_grants e))); cbn [negb andb]; [|by eexists].
  erewrite bind_done by apply cb_malloc_page_done. run. esimpl.
  destruct (Z.eqb_spec (default 0 (head (e_pages e))) 0) as [E|E]; cbn [negb]; [|by eexists]. rewrite E. by eexists.
Qed.

Lemma slabs_init_ok t limit prealloc e :
  slabs_new limit prealloc e ->
  exists r e', slabs_init t limit prealloc e = Done r e' /\
    ((r = ENGINE_ENOMEM /\ prealloc && negb (first_block e) = true) \/
     (r = ENGINE_SUCCESS /\ slabs_ok e' /\ classes_new e' /\ (forall c, ~ is_free e' c) /\
      beside_slabs e' = beside_slabs e /\ e_mem e' = e_mem e /\ backed e' /\
      prealloc && negb (first_block e) = false /\ largest_class (e_config e) = Some (power_largest (e_slabs e')))).
Proof.
  intros [Hc [cs Hs] Hm Hlim Ha Hpos]. unfold slabs_init, set_slabs. run.
  set (e1 := e <| e_slabs := (e_slabs e) <| mem_limit := limit |> |>).
  destruct prealloc.
  - run. destruct (my_allocate_done limit e1) as (base & e2 & Hma & (Hb & Hm2 & Hs2 & Hl2 & _) & Hbf & _ & Hr).
    erewrite bind_done by exact Hma. run. pose proof (beside_slabs_config _ _ Hb) as Hc2.
    assert (base = if first_block e then default 0 (head (e_pages e)) else 0) as Hfirst.
    { destruct (my_allocate_first limit e1) as (e'' & E''); [by unfold e1; esimpl; rewrite Hs..|].
      rewrite Hma in E''. by injection E''. }
    destruct (base == 0) eqn:E0; cbn [negb]; run.
    { eexists _, _. split; [done|]. left. split; [done|]. apply Z.eqb_eq in E0. rewrite E0 in Hfirst.
      unfold first_block in *. destruct (default false _); [|done]. by destruct (Z.eqb_spec (default 0 (head (e_pages e))) 0). }
    cbn [negb]. apply Z.eqb_neq in E0. destruct Hr as [[-> _]|Hg]; [done|].
    change (e_pages e1) with (e_pages e) in Hg. change (e_config e1) with (e_config e) in Hc2.
    unfold init_blocks in *. rewrite Hg in Ha, Hpos. cbn [take drop] in Ha, Hpos. rewrite malloc_blocks_cons, decide_False in Ha, Hpos by done.
    match goal with |- context [bind (must _) _ ?s] => set (e3 := s) end.
    assert (e_config e3 = e_config e) as Hc3 by exact Hc2.
    assert (reserve e3 = preallocated (e_slabs e3) ++ malloc_blocks (item_size_max (e_config e)) (e_pages e2)) as Hres
      by (unfold reserve; by rewrite Hc3).
    assert (preallocated (e_slabs e3) = if limit == 0 then [] else [(base, limit)]) as Hpre.
    { unfold preallocated, e3. esimpl. cbn beta. esimpl. by rewrite (proj2 (Z.eqb_neq _ _)) by done. }
    destruct (init_rest_ok t e3) as (e' & He & Hok & Hnew & Hfr & Hb' & Hm' & Hbk & Hlc).
    { by rewrite Hc3. }
    { unfold e3. esimpl. by rewrite Hm2. }
    { rewrite Hres, Hpre. destruct (limit == 0); [by destruct Ha|done]. }
    { rewrite Hres, Hpre. intros r Hin.
      assert (r ∈ (base, limit) :: malloc_blocks (item_size_max (e_config e)) (e_pages e2)) as Hin'
        by (destruct (limit == 0); [by right|done]).
      split; [by apply Hpos|]. apply elem_of_cons in Hin' as [->|Hin']; [done|].
      apply list_elem_of_fmap in Hin' as (? & -> & _). cbn. destruct Hc. lia. }
    rewrite Hc3 in He. eexists _, e'. split; [exact He|]. right. split; [done|]. split; [done|]. split; [done|].
    split; [done|]. split; [by rewrite Hb'|]. split; [by rewrite Hm'; unfold e3; esimpl|]. split; [|split].
    { apply Hbk. unfold block_ok, e3. esimpl. cbn beta. esimpl. injection Hbf as Hbf _ _ _ _. rewrite Hbf. cbn. lia. }
    { cbn. destruct (first_block e); [done|]. by rewrite Hfirst in E0. }
    { by rewrite <- Hc3. }
  - run. cbn [negb]. destruct (init_rest_ok t e1 Hc Hm) as (e' & He & H1 & H2 & H3 & H4 & H5 & Hbk & Hlc).
    { unfold reserve, preallocated. unfold e1. esimpl. rewrite Hs. exact Ha. }
    { unfold reserve, preallocated. unfold e1. esimpl. rewrite Hs. cbn [mem_base orb app Z.eqb mem_avail].
      intros r Hin. split; [by apply Hpos|]. apply list_elem_of_fmap in Hin as (? & -> & _). cbn. destruct Hc. lia. }
    eexists _, e'. split; [exact He|]. right. split_and!; try done. apply Hbk.
    unfold block_ok, e1. esimpl. rewrite Hs. by cbn.
Qed.

(** ** The allocator at work *)

(** An object: its address, its class and its size. *)
Definition object : Type := Z * Z * Z.

(** What an engine may do with the allocator: get memory, write to it, mark
    it unused and free it. *)
Inductive slab_trace : default_engine -> list object -> Prop :=
| trace_init t limit prealloc e e' :
    slabs_new limit prealloc e -> slabs_init t limit prealloc e = Done ENGINE_SUCCESS e' ->
    slab_trace e' []
| trace_alloc n id r e e' U :
    slab_trace e U -> 0 <= n -> slabs_clsid_of n e = Done id e -> slabs_alloc n id e = Done r e' ->
    slab_trace e' (if r == 0 then U else (r, id, n) :: U)
| trace_write c id n i e U :
    slab_trace e U -> (c, id, n) ∈ U -> slab_trace (e <| e_mem := <[c := i]> (e_mem e) |>) U
| trace_free c id n i e e' U1 U2 :
    slab_trace e (U1 ++ (c, id, n) :: U2) -> e_mem e !! c = Some i ->
    slabs_clsid i = 0 -> has_flag ITEM_LINKED i = false ->
    slabs_free c n id e = Done tt e' -> slab_trace e' (U1 ++ U2).

(** Objects have chunks of their class, large enough and not free. *)
Record objects_ok (e : default_engine) (U : list object) : Prop := {
  oo_slabs : slabs_ok e;
  oo_largest : POWER_SMALLEST <= power_largest (e_slabs e) <= POWER_LARGEST;
  oo_nodup : NoDup (U.*1.*1);
  oo_chunk : forall c id n, (c, id, n) ∈ U -> chunk_of e id c /\ ~ is_free e c;
  oo_size : forall c id n, (c, id, n) ∈ U ->
    exists m, (sc_size <$> slabclass (e_slabs e)) !! Z.to_nat id = Some m /\ 0 <= n <= m;
  oo_backed : backed e;
}.

Lemma objects_step e e' U U' :
  objects_ok e U -> slabs_ok e' -> slab_step e e' -> (forall u, u ∈ U' -> u ∈ U) -> NoDup (U'.*1.*1) ->
  (forall c id n, (c, id, n) ∈ U' -> is_free e' c -> is_free e c) -> objects_ok e' U'.
Proof.
  intros [Hok Hl Hnd Hch Hsz Hbk] Hok' Hst Hsub Hnd' Hfr. split; [done| |done| | |by apply (st_backed _ _ Hst)].
  - by rewrite (st_largest _ _ Hst).
  - intros c id n Hin. destruct (Hch c id n (Hsub _ Hin)) as [H1 H2].
    split; [by apply (st_chunks _ _ Hst)|]. intros Hf. by eapply H2, Hfr.
  - intros c id n Hin%Hsub. rewrite (st_size _ _ Hst). by eapply Hsz.
Qed.

Lemma objects_alloc e e' U r id n :
  objects_ok e U -> allocated id e r e' -> r <> 0 -> 0 <= n ->
  (exists m, (sc_size <$> slabclass (e_slabs e)) !! Z.to_nat id = Some m /\ n <= m) ->
  objects_ok e' ((r, id, n) :: U).
Proof.
  intros Ho (Hok' & Hst & Hfr & Hr) Hne Hn (m & Hm & Hle). destruct (Hr Hne) as (Hch & Hnf & Hwas & _).
  assert (forall c i k, (c, i, k) ∈ U -> is_free e' c -> is_free e c) as Hold.
  { intros c i k Hin [?|HN]%Hfr; [done|]. destruct (oo_chunk _ _ Ho c i k Hin) as [(p & Hp & Hc) _].
    destruct (so_chunks e (oo_slabs _ _ Ho) i p c Hp Hc) as [x Hx]. congruence. }
  assert (r ∉ U.*1.*1) as Hnin.
  { intros Hin. apply list_elem_of_fmap in Hin as ([c i] & -> & ([[c' i'] k] & [= -> ->] & Hin)%list_elem_of_fmap).
    destruct (oo_chunk _ _ Ho c' i' k Hin) as [(p & Hp & Hc) HNf]. destruct Hwas as [|HN]; [done|]. cbn in HN.
    destruct (so_chunks e (oo_slabs _ _ Ho) i' p c' Hp Hc) as [x Hx]. congruence. }
  destruct (objects_step e e' U U Ho Hok' Hst ltac:(done) (oo_nodup _ _ Ho) Hold) as [? ? Hnd Hc Hs Hbk].
  split; [done|done| | | |done].
  - cbn. by apply NoDup_cons.
  - intros c i k [[= -> -> ->]|Hin]%elem_of_cons; [done|]. by eapply Hc.
  - intros c i k [[= -> -> ->]|Hin]%elem_of_cons; [|by eapply Hs].
    exists m. split; [by rewrite (st_size _ _ Hst)|done].
Qed.

Lemma first_fit_class n s :
  first_fit n s <> 0 -> exists p, slabclass s !! Z.to_nat (first_fit n s) = Some p.
Proof.
  unfold first_fit, POWER_SMALLEST. destruct (list_find _ _) as [[k p]|] eqn:E; [|done]. intros _.
  apply list_find_Some in E as (Hk & _ & _). apply lookup_take_Some in Hk as [Hk _]. rewrite lookup_drop in Hk.
  exists p. by replace (Z.to_nat (Z.of_nat k + 1)) with (1 + k)%nat by lia.
Qed.

Lemma clsid_fits e n id :
  slabs_ok e -> POWER_SMALLEST <= power_largest (e_slabs e) <= POWER_LARGEST ->
  slabs_clsid_of n e = Done id e -> id <> 0 ->
  exists m, (sc_size <$> slabclass (e_slabs e)) !! Z.to_nat id = Some m /\ n <= m.
Proof.
  intros Hok Hl Hid Hne. rewrite slabs_clsid_done in Hid by done. injection Hid as Hid.
  destruct (n == 0); [by subst|]. pose proof (so_len e Hok).
  destruct (first_fit_class n (e_slabs e)) as [p Hp]; [by rewrite Hid|]. rewrite Hid in Hp.
  destruct (first_fit_spec n _ id p Hid Hne Hp) as (_ & Hle & _).
  exists (sc_size p). by rewrite list_lookup_fmap, Hp.
Qed.

Lemma objects_memory e U c id n :
  objects_ok e U -> (c, id, n) ∈ U -> is_Some (e_mem e !! c).
Proof.
  intros Ho Hin. destruct (oo_chunk _ _ Ho c id n Hin) as [(p & Hp & Hc) _].
  by apply (so_chunks e (oo_slabs _ _ Ho) id p c).
Qed.

Lemma objects_alloc_step e e' U n id r :
  objects_ok e U -> 0 <= n -> slabs_clsid_of n e = Done id e -> slabs_alloc n id e = Done r e' ->
  objects_ok e' (if r == 0 then U else (r, id, n) :: U).
Proof.
  intros Ho Hn Hid Ha. destruct (slabs_alloc_ok e n id (oo_slabs _ _ Ho)) as (r' & e2 & Ha' & Hal & _).
  rewrite Ha in Ha'. injection Ha' as <- <-. destruct (r == 0) eqn:Er.
  - destruct Hal as (Hok & Hst & Hfr & _). apply (objects_step e e' U U); try done; [apply (oo_nodup _ _ Ho)|].
    intros c i k Hin [?|HN]%Hfr; [done|]. destruct (objects_memory _ _ _ _ _ Ho Hin). congruence.
  - apply Z.eqb_neq in Er. apply (objects_alloc e); try done.
    apply clsid_fits; [apply (oo_slabs _ _ Ho)|apply (oo_largest _ _ Ho)|done|]. intros ->.
    unfold slabs_alloc in Ha. cbn in Ha. by injection Ha as <-.
Qed.

Lemma objects_write e U c id n i :
  objects_ok e U -> (c, id, n) ∈ U -> objects_ok (e <| e_mem := <[c := i]> (e_mem e) |>) U.
Proof.
  intros Ho Hin. set (e' := e <| e_mem := <[c := i]> (e_mem e) |>).
  destruct (oo_chunk _ _ Ho c id n Hin) as [_ Hnf]. destruct (objects_memory _ _ _ _ _ Ho Hin) as [x Hx].
  assert (slabs_ok e') as Hok'; [|by destruct Ho; split].
  apply (slabs_ok_mem e); try done; [apply (oo_slabs _ _ Ho)| |]; intros q; unfold e'; esimpl; cbn beta.
  - destruct (decide (q = c)) as [->|]; [rewrite lookup_insert_eq, Hx; split; eauto|by rewrite lookup_insert_ne].
  - intros Hq. rewrite lookup_insert_ne; [done|]. by intros ->.
Qed.

Lemma objects_free e e' U1 U2 c id n i :
  objects_ok e (U1 ++ (c, id, n) :: U2) -> e_mem e !! c = Some i ->
  slabs_clsid i = 0 -> has_flag ITEM_LINKED i = false -> slabs_free c n id e = Done tt e' ->
  objects_ok e' (U1 ++ U2).
Proof.
  intros Ho Hc Hz Hl Hf. destruct (oo_chunk _ _ Ho c id n) as [Hch Hnf]; [set_solver|].
  destruct (slabs_free_ok e id c n (oo_slabs _ _ Ho) Hch Hnf) as (e2 & Hf' & Hok & Hst & _ & Hfr).
  { intros j Hj. rewrite Hc in Hj. by injection Hj as <-. }
  rewrite Hf in Hf'. injection Hf' as <-. pose proof (oo_nodup _ _ Ho) as Hnd.
  rewrite !fmap_app, !fmap_cons in Hnd. apply NoDup_app in Hnd as (Hn1 & Hd & Hn2).
  apply NoDup_cons in Hn2 as [Hnin Hn2].
  assert (c ∉ (U1 ++ U2).*1.*1) as Hc0.
  { rewrite !fmap_app, elem_of_app. intros [HC|HC]; [|done]. apply (Hd c HC). left. }
  apply (objects_step e _ _ _ Ho Hok Hst).
  - set_solver.
  - rewrite !fmap_app. apply NoDup_app. split; [done|]. split; [|done]. intros x Hx Hx2. apply (Hd x Hx). by right.
  - intros c' i' k Hin [?| ->]%Hfr; [done|]. destruct Hc0.
    apply list_elem_of_fmap. exists (c, i'). split; [done|]. apply list_elem_of_fmap. by exists (c, i', k).
Qed.

Lemma slab_trace_ok e U : slab_trace e U -> objects_ok e U.
Proof.
  induction 1 as [t limit pre e e' Hn Hi|n id r e e' U _ IH Hn Hid Ha|c id n i e U _ IH Hin|c id n i e e' U1 U2 _ IH Hc Hz Hl Hf].
  - destruct (slabs_init_ok t limit pre e Hn) as (r & e2 & Hi' & [[-> _]|(-> & Hok & Hnew & _ & _ & _ & Hbk & _)]);
      rewrite Hi in Hi'; [done|]. injection Hi' as <-. split; [done|by destruct Hnew|constructor| | |done];
      by intros ? ? ? ?%not_elem_of_nil.
  - by apply (objects_alloc_step e).
  - by eapply objects_write.
  - by eapply objects_free.
Qed.

Lemma objects_apart e U : objects_ok e U -> all_apart ((fun u : object => (u.1.1, u.2)) <$> U).
Proof.
  intros Ho. assert (forall V, (forall u, u ∈ V -> u ∈ U) -> NoDup (V.*1.*1) ->
    all_apart ((fun u : object => (u.1.1, u.2)) <$> V)) as H; [|by apply H; [|apply (oo_nodup _ _ Ho)]].
  induction V as [|[[c id] n] V IH]; cbn; intros Hsub Hnd; [done|]. apply NoDup_cons in Hnd as [Hnin Hnd].
  split; [|apply IH; [set_solver|done]]. apply Forall_fmap, Forall_forall. intros [[c' id'] n'] Hin. cbn.
  destruct (oo_chunk _ _ Ho c id n) as [(p & Hp & Hc) _]; [apply Hsub; left|].
  destruct (oo_chunk _ _ Ho c' id' n') as [(p' & Hp' & Hc') _]; [apply Hsub; by right|].
  destruct (oo_size _ _ Ho c id n) as (m & Hm & Hn); [apply Hsub; left|].
  destruct (oo_size _ _ Ho c' id' n') as (m' & Hm' & Hn'); [apply Hsub; by right|].
  rewrite list_lookup_fmap, (proj2 Hp) in Hm. rewrite list_lookup_fmap, (proj2 Hp') in Hm'.
  injection Hm as <-. injection Hm' as <-.
  destruct (chunks_apart e id p c id' p' c' (oo_slabs _ _ Ho) Hp Hp' Hc Hc') as [[_ <-]|Ha].
  - destruct Hnin. apply list_elem_of_fmap. exists (c, id'). split; [done|].
    apply list_elem_of_fmap. by exists (c, id', n').
  - unfold apart in *. cbn in *. lia.
Qed.

(** An object lies in a page of its class, and the page in memory the allocator
    owns. *)
Lemma objects_in_page e U c id n :
  objects_ok e U -> (c, id, n) ∈ U ->
  exists p a, class_of e id p /\ a ∈ slab_list p /\ a <= c /\ c + n <= a + page_len p /\
    owned (e_slabs e) (a, page_len p).
Proof.
  intros Ho Hin. destruct (oo_chunk _ _ Ho c id n Hin) as [(p & Hp & Hc) _].
  destruct (oo_size _ _ Ho c id n Hin) as (m & Hm & Hn). rewrite list_lookup_fmap, (proj2 Hp) in Hm. injection Hm as <-.
  apply list_elem_of_bind in Hc as (a & (i & Hi & ->)%elem_of_chunks_at & Ha).
  pose proof (so_class e (oo_slabs _ _ Ho) _ _ Hp) as []. exists p, a. split; [done|]. split; [done|].
  split; [nia|]. split; [unfold page_len; nia|]. by apply (proj2 (oo_backed _ _ Ho) id).
Qed.


(** C38: the search for a slab class finds the first class with chunks that are
    large enough, and none if there is no such class: the chunks of the classes
    before it are smaller than what is asked for. *)
Theorem slabs_clsid_first_fit e U n :
  slab_trace e U -> 0 < n ->
  slabs_clsid_of n e = Done (first_fit n (e_slabs e)) e /\
  forall j p, POWER_SMALLEST <= j -> slabclass (e_slabs e) !! Z.to_nat j = Some p ->
    (j < first_fit n (e_slabs e) -> sc_size p < n) /\
    (j = first_fit n (e_slabs e) -> n <= sc_size p).
Proof.
  intros Ho%slab_trace_ok Hn. rewrite slabs_clsid_done by apply Ho.
  rewrite (proj2 (Z.eqb_neq n 0)) by lia. split; [done|]. unfold POWER_SMALLEST. intros j p Hj Hp.
  destruct (decide (first_fit n (e_slabs e) = 0)) as [->|Hne]; [lia|].
  destruct (first_fit_class n (e_slabs e) Hne) as [q Hq].
  destruct (first_fit_spec n _ _ q eq_refl Hne Hq) as (_ & Hle & Hlt). split.
  - intros ?. by apply (Hlt j p).
  - intros ->. by rewrite Hp in Hq; injection Hq as <-.
Qed.

(** ** Examples *)

Definition no_items : items := mk_items (replicate 200 0) (replicate 200 0)
  (replicate 200 (mk_itemstats 0 0 0 0 0 0)) (replicate 200 0).

(** An engine as [cb_calloc] returns it, with a hash table of four buckets. *)
Definition engine_with (c : config) (pages : list Z) (grants : list bool) : default_engine :=
  mk_engine ∅ (mk_assoc 2 (replicate 4 0) [] 0 false 0) (mk_slabs [] 0 0 0 0 0 0 [] 0) no_items c
    (mk_engine_stats 0 0 0 0 0) (mk_scrubber 0 0 0 0 false false) (fun _ => 0) 1 0 0 pages grants [].

(** The state after a call that returns. *)
Definition after {A} (m : E A) (e : default_engine) : default_engine :=
  match m e with Done _ e' | Throw e' => e' | Crash => e end.

Definition small_config : config := mk_config true 0 true 0 false 5 4 48 4096 false true 0 None.
Definition small_engine : default_engine :=
  engine_with small_config [65536; 131072; 196608] (replicate 20 true).

Lemma small_engine_new : slabs_new 1048576 false small_engine.
Proof.
  split; [by split; cbn| by exists []|done|done| |].
  - repeat split; repeat constructor; unfold apart; cbn; lia.
  - change (init_blocks 1048576 false small_engine) with [(65536, 4096); (131072, 4096); (196608, 4096)].
    intros r Hr. repeat (apply elem_of_cons in Hr as [->|Hr]; [done|]). by apply not_elem_of_nil in Hr.
Qed.

Definition small_init : default_engine := after (slabs_init None 1048576 false) small_engine.

Lemma small_init_trace : slab_trace small_init [].
Proof. by apply (trace_init None 1048576 false small_engine _ small_engine_new). Qed.


Lemma slabs_clsid_first_fit_witness :
  slabs_clsid_of 121 small_init = Done 3 small_init /\
  forall j p, 1 <= j -> slabclass (e_slabs small_init) !! Z.to_nat j = Some p ->
    (j < 3 -> sc_size p < 121) /\ (j = 3 -> 121 <= sc_size p).
Proof.
  assert (first_fit 121 (e_slabs small_init) = 3) as Hf by (by vm_compute).
  destruct (slabs_clsid_first_fit small_init [] 121 small_init_trace ltac:(lia)) as [H1 H2].
  rewrite Hf in H1, H2. by split.
Defined.

(** With a maximum that is not a multiple of the alignment the chunks of a
    class can be larger than a page of it. *)
Definition tight_config : config := mk_config true 0 true 0 false 8556380 8388608 48 100 false true 0 None.
Definition tight_engine : default_engine := engine_with tight_config [65536] (replicate 20 true).

(** With an item size of at most 100 bytes and a growth factor of 1.02 (the
    [float] is 8556380 / 2^23) a
    slab class has pages of no chunks: the page it gets has no byte, and both
    chunks it hands out lie outside of it. *)
Theorem slabs_chunk_outside :
  exists e1 e2 e3 p, slabs_init None 1048576 false tight_engine = Done ENGINE_SUCCESS e1 /\
    slabs_clsid_of 100 e1 = Done 2 e1 /\
    slabs_alloc 100 2 e1 = Done 65536 e2 /\ slabs_alloc 100 2 e2 = Done 65640 e3 /\
    slabclass (e_slabs e3) !! 2%nat = Some p /\ slab_list p = [65536] /\ page_len p = 0.
Proof.
  set (e1 := after (slabs_init None 1048576 false) tight_engine).
  set (e2 := after (slabs_alloc 100 2) e1). exists e1, e2, (after (slabs_alloc 100 2) e2).
  eexists. repeat (split; [by vm_compute|]). by vm_compute.
Qed.
