(* ===== verification/Items.v ===== *)
(** * Items of the default engine

    [engines/default_engine/items.c]: items are allocated from the slabs,
    linked into the hash table and into the queue of their slab class, most
    recently used first, and found, replaced, updated, evicted, scrubbed and
    walked there.  A key is the bucket's number, four bytes, and the client's
    key.  The functions that take the lock of the items are atomic.

    A cursor is a node of a queue that is no item: it belongs to a walker.  It
    lives in memory like an item; its [i_key] stands for the bytes behind the
    cursor which the code takes for a key's length. *)

From S2P Require Import Prelude Numbers RecordUpdate StateMonad Protocol EngineApi EngineState Assoc Slabs.

Definition ITEM_UPDATE_INTERVAL : Z := 60.
Definition search_items : nat := 50.

Definition the_engine : E default_engine := gets id.

(** ** Keys *)

(** [hash_key_create]: the bytes that are hashed and compared; the length has
    16 bits.  A long key is copied to the heap. *)
Definition hash_key_create (key : bytes) : E (option bytes) :=
  e <- the_engine;;
  ok <- (if 128 <? Z.of_nat (length key) then granted else ret true);;
  ret (if ok : bool then
         Some (take (Z.to_nat (u16 (4 + Z.of_nat (length key)))) (le_store 4 (bucket_id e) ++ key))
       else None).

Definition hash_key_get_client_key (key : bytes) : bytes := drop 4 key.

Definition hash_key_get_alloc_size (key : bytes) : Z :=
  OFFSETOF_KEY_STORAGE + Z.of_nat (length key).

(** ** Fields of items *)

Definition item_get_cas (i : hash_item) : Z := if has_flag ITEM_WITH_CAS i then i_cas i else 0.

Definition item_set_cas (it val : Z) : E unit :=
  write_item it (fun i => if has_flag ITEM_WITH_CAS i then i <| i_cas := val |> else i).

Definition item_ntotal (cfg : config) (nkey nbytes : Z) : Z :=
  u64 (SIZEOF_HASH_ITEM + (OFFSETOF_KEY_STORAGE + nkey) + nbytes + (if use_cas cfg then 8 else 0)).

Definition ITEM_ntotal (cfg : config) (i : hash_item) : Z :=
  item_ntotal cfg (Z.of_nat (length (i_key i))) (i_nbytes i).

(** The counter is a static variable. *)
Definition get_cas_id : E Z :=
  modify (fun e => e <| cas_id := u64 (cas_id e + 1) |>);; gets cas_id.

(** ** Queues *)

Definition set_items (f : items -> items) : E unit :=
  modify (fun e => e <| e_items := f (e_items e) |>).

Definition set_stats (f : engine_stats -> engine_stats) : E unit :=
  modify (fun e => e <| e_stats := f (e_stats e) |>).

Definition get_head (id : Z) : E Z := s <- gets e_items;; must (heads s !! Z.to_nat id).
Definition get_tail (id : Z) : E Z := s <- gets e_items;; must (tails s !! Z.to_nat id).

Definition set_head (id p : Z) : E unit :=
  set_items (fun s => s <| heads := <[Z.to_nat id := p]> (heads s) |>).
Definition set_tail (id p : Z) : E unit :=
  set_items (fun s => s <| tails := <[Z.to_nat id := p]> (tails s) |>).

(** [engine->items.sizes[id] += d] *)
Definition count_items (id d : Z) : E unit :=
  set_items (fun s => s <| sizes := alter (fun n => u32 (n + d)) (Z.to_nat id) (sizes s) |>).

Definition item_stat (id : Z) (f : itemstats_t -> itemstats_t) : E unit :=
  set_items (fun s => s <| itemstats := alter f (Z.to_nat id) (itemstats s) |>).

Definition item_link_q (it : Z) : E unit :=
  i <- deref it;;
  cb_assert (slabs_clsid i <? POWER_LARGEST);;
  cb_assert (negb (has_flag ITEM_SLABBED i));;
  let id := slabs_clsid i in
  head <- get_head id;;
  tail <- get_tail id;;
  cb_assert (it != head);;
  cb_assert ((head != 0) && (tail != 0) || (head == 0) && (tail == 0));;
  write_item it (fun i => i <| i_prev := 0 |>);;
  write_item it (fun i => i <| i_next := head |>);;
  when (head != 0) (write_item head (fun i => i <| i_prev := it |>));;
  set_head id it;;
  when (tail == 0) (set_tail id it);;
  count_items id 1.

(** The nodes around a node that is removed are linked to each other. *)
Definition join_nodes (prev next : Z) : E unit :=
  when (next != 0) (write_item next (fun n => n <| i_prev := prev |>));;
  when (prev != 0) (write_item prev (fun n => n <| i_next := next |>)).

Definition item_unlink_q (it : Z) : E unit :=
  i <- deref it;;
  cb_assert (slabs_clsid i <? POWER_LARGEST);;
  let id := slabs_clsid i in
  head <- get_head id;;
  tail <- get_tail id;;
  when (head == it) (cb_assert (i_prev i == 0);; set_head id (i_next i));;
  when (tail == it) (cb_assert (i_next i == 0);; set_tail id (i_prev i));;
  cb_assert (i_next i != it);;
  cb_assert (i_prev i != it);;
  join_nodes (i_prev i) (i_next i);;
  count_items id (-1).

(** ** Items *)

Definition item_free (it : Z) : E unit :=
  i <- deref it;;
  e <- the_engine;;
  let ntotal := ITEM_ntotal (e_config e) i in
  cb_assert (negb (has_flag ITEM_LINKED i));;
  head <- get_head (slabs_clsid i);;
  cb_assert (it != head);;
  tail <- get_tail (slabs_clsid i);;
  cb_assert (it != tail);;
  cb_assert ((i_refcount i == 0) || force_delete (e_scrubber e));;
  write_item it (fun i => i <| slabs_clsid := 0 |>);;
  write_item it (fun i => i <| iflag := Z.lor (iflag i) ITEM_SLABBED |>);;
  slabs_free it ntotal (slabs_clsid i).

Section Items.

(** [crc32c] of the platform library, and what the memory of a new item holds:
    the bytes where its CAS value and its data will be (cut or extended to the
    size of the data). *)
Context (crc32c : bytes -> Z) (uninit : hash_item -> nat -> Z * bytes).

Definition do_item_link (it : Z) : E Z :=
  i <- deref it;;
  cb_assert (negb (has_flag ITEM_LINKED i) && negb (has_flag ITEM_SLABBED i));;
  write_item it (fun i => i <| iflag := Z.lor (iflag i) ITEM_LINKED |>);;
  now <- gets e_now;;
  write_item it (fun i => i <| i_time := now |>);;
  assoc_insert (crc32c (i_key i)) it;;
  c <- gets e_config;;
  set_stats (fun s => s <| curr_bytes := u64 (curr_bytes s + ITEM_ntotal c i) |>);;
  set_stats (fun s => s <| curr_items := u64 (curr_items s + 1) |>);;
  set_stats (fun s => s <| total_items := u64 (total_items s + 1) |>);;
  cas <- get_cas_id;;
  item_set_cas it cas;;
  item_link_q it;;
  ret 1.

Definition do_item_unlink (it : Z) : E unit :=
  i <- deref it;;
  when (has_flag ITEM_LINKED i)
    (write_item it (fun i => i <| iflag := Z.land (iflag i) (Z.lnot ITEM_LINKED) |>);;
     c <- gets e_config;;
     set_stats (fun s => s <| curr_bytes := u64 (curr_bytes s - ITEM_ntotal c i) |>);;
     set_stats (fun s => s <| curr_items := u64 (curr_items s - 1) |>);;
     assoc_delete (crc32c (i_key i)) (i_key i);;
     item_unlink_q it;;
     i <- deref it;;
     s <- gets e_scrubber;;
     when ((i_refcount i == 0) || force_delete s) (item_free it)).

Definition do_item_release (it : Z) : E unit :=
  i <- deref it;;
  when (i_refcount i != 0) (write_item it (fun i => i <| i_refcount := i_refcount i - 1 |>));;
  i <- deref it;;
  when ((i_refcount i == 0) && negb (has_flag ITEM_LINKED i)) (item_free it).

Definition do_item_update (it : Z) : E unit :=
  now <- gets e_now;;
  i <- deref it;;
  when (i_time i <? u32 (now - ITEM_UPDATE_INTERVAL))
    (cb_assert (negb (has_flag ITEM_SLABBED i));;
     when (has_flag ITEM_LINKED i)
       (item_unlink_q it;;
        write_item it (fun i => i <| i_time := now |>);;
        item_link_q it)).

Definition do_item_replace (it new_it : Z) : E Z :=
  i <- deref it;;
  cb_assert (negb (has_flag ITEM_SLABBED i));;
  do_item_unlink it;;
  do_item_link new_it.

(** ** Allocation *)

(** From [search] back to the head of its queue: the first of at most [tries]
    items with a property. *)
Fixpoint search_back (tries : nat) (search : Z) (p : hash_item -> bool) : E Z :=
  match tries with
  | O => ret 0
  | S tries =>
      if search == 0 then ret 0 else
      i <- deref search;;
      if p i then ret search else search_back tries (i_prev i) p
  end.

(** The loops over the end of a queue. *)
Definition search_tail (id : Z) (p : hash_item -> bool) : E Z :=
  tail <- get_tail id;; search_back search_items tail p.

(** A dead item is taken over. *)
Definition reclaim_item (id ntotal it : Z) : E unit :=
  set_stats (fun s => s <| st_reclaimed := u64 (st_reclaimed s + 1) |>);;
  item_stat id (fun s => s <| reclaimed := u32 (reclaimed s + 1) |>);;
  write_item it (fun i => i <| i_refcount := 1 |>);;
  i <- deref it;;
  c <- gets e_config;;
  slabs_adjust_mem_requested (slabs_clsid i) (ITEM_ntotal c i) ntotal;;
  do_item_unlink it;;
  write_item it (fun i => i <| slabs_clsid := 0 |>);;
  write_item it (fun i => i <| i_refcount := 0 |>).

(** The item at the tail that is taken over because it is dead, 0 for none. *)
Definition reclaim_dead (id ntotal : Z) : E Z :=
  e <- the_engine;;
  it <- search_tail id (fun i =>
    (i_refcount i == 0) && ((i_time i <? oldest_live (e_config e)) ||
      ((i_exptime i != 0) && (i_exptime i <? e_now e))));;
  when (it != 0) (reclaim_item id ntotal it);;
  ret it.

(** The counters of an item that is thrown out. *)
Definition evict_stats (id : Z) (i : hash_item) : E unit :=
  now <- gets e_now;;
  if (i_exptime i == 0) || (now <? i_exptime i) then
    item_stat id (fun s => s <| evicted := u32 (evicted s + 1) |>);;
    item_stat id (fun s => s <| evicted_time := u32 (now - i_time i) |>);;
    when (i_exptime i != 0)
      (item_stat id (fun s => s <| evicted_nonzero := u32 (evicted_nonzero s + 1) |>));;
    set_stats (fun s => s <| st_evictions := u64 (st_evictions s + 1) |>);;
    modify (fun e => e <| e_evicting :=
      e_evicting e ++ [hash_key_get_client_key (i_key i)] |>)
  else
    item_stat id (fun s => s <| reclaimed := u32 (reclaimed s + 1) |>);;
    set_stats (fun s => s <| st_reclaimed := u64 (st_reclaimed s + 1) |>).

(** An item nobody uses is unlinked to make room. *)
Definition evict_one (id : Z) : E unit :=
  it <- search_tail id (fun i => i_refcount i == 0);;
  when (it != 0) (i <- deref it;; evict_stats id i;; do_item_unlink it).

(** An item that was in use for too long is freed anyway. *)
Definition repair_tail (id : Z) : E unit :=
  now <- gets e_now;;
  it <- search_tail id (fun i =>
    (i_refcount i != 0) && (u32 (i_time i + TAIL_REPAIR_TIME) <? now));;
  when (it != 0)
    (item_stat id (fun s => s <| tailrepairs := u32 (tailrepairs s + 1) |>);;
     write_item it (fun i => i <| i_refcount := 0 |>);;
     do_item_unlink it).

(** The memory of a new item: a dead item's, a free chunk, or what can be
    freed; 0 for none. *)
Definition item_memory (id ntotal : Z) : E Z :=
  it <- reclaim_dead id ntotal;;
  if it != 0 then ret it else
  it <- slabs_alloc ntotal id;;
  if it != 0 then ret it else
  c <- gets e_config;;
  if negb (evict_to_free c) then
    item_stat id (fun s => s <| outofmemory := u32 (outofmemory s + 1) |>);; ret 0 else
  tail <- get_tail id;;
  if tail == 0 then
    item_stat id (fun s => s <| outofmemory := u32 (outofmemory s + 1) |>);; ret 0 else
  evict_one id;;
  it <- slabs_alloc ntotal id;;
  if it != 0 then ret it else
  item_stat id (fun s => s <| outofmemory := u32 (outofmemory s + 1) |>);;
  repair_tail id;;
  slabs_alloc ntotal id.

Definition do_item_alloc (key : bytes) (flags exptime nbytes datatype : Z) : E Z :=
  c <- gets e_config;;
  let ntotal := item_ntotal c (Z.of_nat (length key)) nbytes in
  id <- slabs_clsid_of ntotal;;
  if id == 0 then ret 0 else
  it <- item_memory id ntotal;;
  if it == 0 then ret 0 else
  i <- deref it;;
  cb_assert (slabs_clsid i == 0);;
  write_item it (fun i => i <| slabs_clsid := u8 id |>);;
  head <- get_head (u8 id);;
  cb_assert (it != head);;
  let '(cas, data) := uninit i (Z.to_nat (u32 nbytes)) in
  write_item it (fun _ => mk_item 0 0 0 (i_time i) (u32 exptime) (u32 nbytes) (u32 flags)
    (if use_cas c then ITEM_WITH_CAS else 0) 1 (u8 id) (u8 datatype) cas key (resize (Z.to_nat (u32 nbytes)) Byte.x00 data));;
  ret it.

(** ** Access *)

(** The item with a key, as a reference; expired items are removed. *)
Definition do_item_get (key : bytes) : E Z :=
  now <- gets e_now;;
  it <- assoc_find (crc32c key) key;;
  if it == 0 then ret 0 else
  c <- gets e_config;;
  i <- deref it;;
  if (oldest_live c != 0) && (oldest_live c <=? now) && (i_time i <=? oldest_live c) then
    do_item_unlink it;; ret 0
  else if (i_exptime i != 0) && (i_exptime i <=? now) then
    do_item_unlink it;; ret 0
  else
    write_item it (fun i => i <| i_refcount := u16 (i_refcount i + 1) |>);;
    do_item_update it;;
    ret it.

Definition do_store_item (it : Z) (operation : ENGINE_STORE_OPERATION)
    : E (ENGINE_ERROR_CODE * Z) :=
  i <- deref it;;
  old_it <- do_item_get (i_key i);;
  r <- (if (old_it != 0) && bool_decide (operation = OPERATION_ADD) then
          do_item_update old_it;; ret ENGINE_NOT_STORED
        else if (old_it == 0) && bool_decide (operation = OPERATION_REPLACE) then
          ret ENGINE_NOT_STORED
        else if bool_decide (operation = OPERATION_CAS) then
          if old_it == 0 then ret ENGINE_KEY_ENOENT else
          new <- deref it;;
          old <- deref old_it;;
          if item_get_cas new == item_get_cas old then
            do_item_replace old_it it;; ret ENGINE_SUCCESS
          else ret ENGINE_KEY_EEXISTS
        else
          (if old_it != 0 then do_item_replace old_it it else do_item_link it);;
          ret ENGINE_SUCCESS);;
  when (old_it != 0) (do_item_release old_it);;
  ret (r, if bool_decide (r = ENGINE_SUCCESS) then it else 0).

(** The new number: an increment wraps around, a decrement stops at 0. *)
Definition add_delta (incr : bool) (delta value : Z) : Z :=
  if incr then u64 (value + delta) else if value <? delta then 0 else value - delta.

(** The outcome, the resulting item and the new number. *)
Definition do_add_delta (it : Z) (incr : bool) (delta : Z) : E (ENGINE_ERROR_CODE * Z * Z) :=
  i <- deref it;;
  if 79 <=? i_nbytes i then ret (ENGINE_EINVAL, 0, 0) else
  match safe_strtoull (c_string (take (Z.to_nat (i_nbytes i)) (i_data i))) with
  | None => ret (ENGINE_EINVAL, 0, 0)
  | Some value =>
      let value := add_delta incr delta value in
      let buf := print_u64 value in
      let res := Z.of_nat (length buf) in
      if (i_refcount i == 1) && (res <=? i_nbytes i) then
        write_item it (fun i => i <| i_data :=
          buf ++ replicate (Z.to_nat (i_nbytes i - res)) SPACE |>);;
        cas <- get_cas_id;;
        item_set_cas it cas;;
        ret (ENGINE_SUCCESS, it, value)
      else
        new_it <- do_item_alloc (i_key i) (i_flags i) (i_exptime i) res (i_datatype i);;
        if new_it == 0 then do_item_unlink it;; ret (ENGINE_ENOMEM, 0, value) else
        write_item new_it (fun i => i <| i_data := buf |>);;
        do_item_replace it new_it;;
        ret (ENGINE_SUCCESS, new_it, value)
  end.

Definition do_arithmetic (key : bytes) (increment create : bool)
    (delta initial exptime datatype : Z) : E (ENGINE_ERROR_CODE * Z * Z) :=
  item <- do_item_get key;;
  if item == 0 then
    if negb create then ret (ENGINE_KEY_ENOENT, 0, 0) else
    let buffer := print_u64 initial in
    item <- do_item_alloc key 0 exptime (Z.of_nat (length buffer)) datatype;;
    if item == 0 then ret (ENGINE_ENOMEM, 0, 0) else
    write_item item (fun i => i <| i_data := buffer |>);;
    r <- do_store_item item OPERATION_ADD;;
    let '(code, stored) := r in
    if bool_decide (code = ENGINE_SUCCESS) then ret (code, stored, initial)
    else do_item_release item;; ret (code, 0, 0)
  else do_add_delta item increment delta.

Definition do_touch_item (key : bytes) (exptime : Z) : E Z :=
  item <- do_item_get key;;
  when (item != 0) (write_item item (fun i => i <| i_exptime := exptime |>));;
  ret item.

(** ** Functions that take the lock *)

Definition with_key {A} (key : bytes) (fail : A) (f : bytes -> E A) : E A :=
  k <- hash_key_create key;;
  match k with Some k => f k | None => ret fail end.

Definition item_alloc (key : bytes) (flags exptime nbytes datatype : Z) : E Z :=
  with_key key 0 (fun k => do_item_alloc k flags exptime nbytes datatype).

Definition item_get (key : bytes) : E Z := with_key key 0 do_item_get.

Definition item_release : Z -> E unit := do_item_release.
Definition item_unlink : Z -> E unit := do_item_unlink.

Definition arithmetic (key : bytes) (increment create : bool)
    (delta initial exptime datatype : Z) : E (ENGINE_ERROR_CODE * Z * Z) :=
  with_key key (ENGINE_ENOMEM, 0, 0)
    (fun k => do_arithmetic k increment create delta initial exptime datatype).

(** The outcome and the new CAS value. *)
Definition store_item (item : Z) (operation : ENGINE_STORE_OPERATION)
    : E (ENGINE_ERROR_CODE * option Z) :=
  r <- do_store_item item operation;;
  let '(ret_code, stored_item) := r in
  if bool_decide (ret_code = ENGINE_SUCCESS) then
    i <- deref stored_item;; ret (ret_code, Some (item_get_cas i))
  else ret (ret_code, None).

Definition touch_item (key : bytes) (exptime : Z) : E Z :=
  with_key key 0 (fun k => do_touch_item k exptime).

(** The items of a queue, from the head on, that are new enough. *)
Fixpoint flush_queue (fuel : nat) (live iter : Z) : E unit :=
  match fuel with
  | O => crash
  | S fuel =>
      if iter == 0 then ret tt else
      i <- deref iter;;
      if live <=? i_time i then
        when (negb (has_flag ITEM_SLABBED i)) (do_item_unlink iter);;
        flush_queue fuel live (i_next i)
      else ret tt
  end.

Fixpoint for_classes (ids : list Z) (f : Z -> E unit) : E unit :=
  match ids with
  | [] => ret tt
  | id :: ids => f id;; for_classes ids f
  end.

(** The indexes of the queues. *)
Definition classes : list Z := Z.of_nat <$> seq 0 (Z.to_nat POWER_LARGEST).

Definition item_flush_expired : E unit :=
  now <- gets e_now;;
  c <- gets e_config;;
  when (oldest_live c <? now)
    (modify (fun e => e <| e_config := (e_config e) <| oldest_live := now - 1 |> |>));;
  c <- gets e_config;;
  for_classes classes (fun ii =>
    m <- gets e_mem;;
    head <- get_head ii;;
    flush_queue (S (size m)) (oldest_live c) head).

Definition item_stats_reset : E unit :=
  set_items (fun s => s <| itemstats := (fun _ => mk_itemstats 0 0 0 0 0 0) <$> itemstats s |>).

(** ** Statistics *)

(** What [add_statistics] sends: the name is made of a prefix, the number of a
    class and a key; text that does not fit 80 bytes is dropped. *)
Definition add_statistics (prefix : option string) (num : Z) (key : string) (val : Z)
    : list (bytes * bytes) :=
  let v := print_u64 val in
  let name := match prefix with Some p => text p ++ text ":" | None => [] end ++
    (if num == -1 then [] else print_i64 num ++ text ":") ++ text key in
  if (length v <? 80)%nat && (length name <? 80)%nat then [(name, v)] else [].

Definition class_stats (i : Z) (p : slabclass_t) : list (bytes * bytes) :=
  if (length (slab_list p) =? 0)%nat then [] else
  let slabs := u32 (Z.of_nat (length (slab_list p))) in
  let curr := Z.of_nat (length (slots p)) in
  add_statistics None i "chunk_size" (sc_size p) ++
  add_statistics None i "chunks_per_page" (perslab p) ++
  add_statistics None i "total_pages" slabs ++
  add_statistics None i "total_chunks" (u32 (slabs * perslab p)) ++
  add_statistics None i "used_chunks" (u32 (slabs * perslab p - curr - end_page_free p)) ++
  add_statistics None i "free_chunks" curr ++
  add_statistics None i "free_chunks_end" (end_page_free p) ++
  add_statistics None i "mem_requested" (requested p).

Definition slabs_stats : E (list (bytes * bytes)) :=
  s <- gets e_slabs;;
  let cs := take (Z.to_nat (power_largest s)) (drop 1 (slabclass s)) in
  ret (concat (imap (fun k p => class_stats (Z.of_nat k + 1) p) cs) ++
       add_statistics None (-1) "active_slabs"
         (Z.of_nat (length (filter (fun p => slab_list p <> []) cs))) ++
       add_statistics None (-1) "total_malloced" (mem_malloced s)).

(** Dead items at the tail of a queue are removed before it is reported. *)
Fixpoint purge_tail (search : nat) (id : Z) : E unit :=
  match search with
  | O => ret tt
  | S search =>
      e <- the_engine;;
      let live := oldest_live (e_config e) in
      tail <- get_tail id;;
      if tail == 0 then ret tt else
      i <- deref tail;;
      if ((live != 0) && (live <=? e_now e) && (i_time i <=? live)) ||
         ((i_exptime i != 0) && (i_exptime i <? e_now e)) then
        if i_refcount i == 0 then do_item_unlink tail;; purge_tail search id else ret tt
      else ret tt
  end.

Definition queue_stats (id : Z) : E (list (bytes * bytes)) :=
  tail <- get_tail id;;
  if tail == 0 then ret [] else
  purge_tail search_items id;;
  tail <- get_tail id;;
  if tail == 0 then ret [] else
  i <- deref tail;;
  s <- gets e_items;;
  n <- must (sizes s !! Z.to_nat id);;
  st <- must (itemstats s !! Z.to_nat id);;
  let add := add_statistics (Some "items"%string) id in
  ret (add "number"%string n ++ add "age"%string (i_time i) ++
       add "evicted"%string (evicted st) ++ add "evicted_nonzero"%string (evicted_nonzero st) ++
       add "evicted_time"%string (evicted_time st) ++ add "outofmemory"%string (outofmemory st) ++
       add "tailrepairs"%string (tailrepairs st) ++ add "reclaimed"%string (reclaimed st)).

Fixpoint item_stats_from (ids : list Z) : E (list (bytes * bytes)) :=
  match ids with
  | [] => ret []
  | id :: ids => s <- queue_stats id;; t <- item_stats_from ids;; ret (s ++ t)
  end.

Definition item_stats : E (list (bytes * bytes)) := item_stats_from classes.

(** ** Cursors *)

Definition do_item_link_cursor (cursor ii : Z) : E unit :=
  write_item cursor (fun i => i <| slabs_clsid := u8 ii |>);;
  write_item cursor (fun i => i <| i_next := 0 |>);;
  tail <- get_tail ii;;
  write_item cursor (fun i => i <| i_prev := tail |>);;
  write_item tail (fun i => i <| i_next := cursor |>);;
  set_tail ii cursor;;
  count_items ii 1.

(** The result, the error of the function that is called for each item, and
    its data. *)
Fixpoint do_item_walk_cursor {A} (fuel : nat) (cursor : Z) (steps : nat)
    (itemfunc : Z -> A -> E (ENGINE_ERROR_CODE * A)) (itemdata : A)
    : E (bool * ENGINE_ERROR_CODE * A) :=
  match fuel with
  | O => crash
  | S fuel =>
      c <- deref cursor;;
      if (i_prev c == 0) || (steps =? 0)%nat
      then ret (i_prev c != 0, ENGINE_SUCCESS, itemdata) else
      let ptr := i_prev c in
      item_unlink_q cursor;;
      head <- get_head (slabs_clsid c);;
      p <- deref ptr;;
      (if ptr == head then write_item cursor (fun i => i <| i_prev := 0 |>)
       else
         write_item cursor (fun i => i <| i_next := ptr |>);;
         write_item cursor (fun i => i <| i_prev := i_prev p |>);;
         write_item (i_prev p) (fun i => i <| i_next := cursor |>);;
         write_item ptr (fun i => i <| i_prev := cursor |>));;
      if (length (i_key p) =? 0)%nat && (i_nbytes p == 0) then
        if ptr == head then ret (false, ENGINE_SUCCESS, itemdata)
        else do_item_walk_cursor fuel cursor steps itemfunc itemdata
      else
        r <- itemfunc ptr itemdata;;
        let '(err, itemdata) := r in
        if negb (bool_decide (err = ENGINE_SUCCESS)) || (ptr == head)
        then ret (false, err, itemdata)
        else do_item_walk_cursor fuel cursor (steps - 1) itemfunc itemdata
  end.

Definition item_scrub (item : Z) (cookie : unit) : E (ENGINE_ERROR_CODE * unit) :=
  modify (fun e => e <| e_scrubber := (e_scrubber e) <| visited := u64 (visited (e_scrubber e) + 1) |> |>);;
  e <- the_engine;;
  i <- deref item;;
  when (force_delete (e_scrubber e) || ((i_refcount i == 0) && ((i_exptime i != 0) && (i_exptime i <? e_now e))))
    (do_item_unlink item;;
     modify (fun e => e <| e_scrubber := (e_scrubber e) <| cleaned := u64 (cleaned (e_scrubber e) + 1) |> |>));;
  ret (ENGINE_SUCCESS, cookie).

(** A turn of [item_scrub_class] is one call that holds the lock. *)
Definition walk_fuel : E nat := m <- gets e_mem;; ret (S (size m)).

Fixpoint item_scrub_class (fuel : nat) (cursor : Z) : E unit :=
  match fuel with
  | O => crash
  | S fuel =>
      n <- walk_fuel;;
      r <- do_item_walk_cursor n cursor 200 item_scrub tt;;
      let '(more, err, _) := r in
      if (more : bool) && bool_decide (err = ENGINE_SUCCESS)
      then item_scrub_class fuel cursor else ret tt
  end.

(** The scrubber's cursor is a local variable at address [cursor], with the
    bytes [behind] it in memory. *)
Definition item_scrubber_main (cursor : Z) (behind : bytes) (time_null : Z) : E unit :=
  modify (fun e => e <| e_mem := <[cursor :=
    mk_item 0 0 0 0 0 0 0 0 1 0 0 0 behind []]> (e_mem e) |>);;
  for_classes classes (fun ii =>
    head <- get_head ii;;
    if head == 0 then ret tt else
    do_item_link_cursor cursor ii;;
    n <- walk_fuel;;
    item_scrub_class n cursor);;
  modify (fun e => e <| e_scrubber :=
    ((e_scrubber e) <| scrub_stopped := time_null |>) <| scrub_running := false |> |>).

(** Whether the engine is handed to the scrubber. *)
Definition item_start_scrub (time_null : Z) : E bool :=
  s <- gets e_scrubber;;
  if scrub_running s then ret false else
  modify (fun e => e <| e_scrubber :=
    ((e_scrubber e) <| scrub_started := time_null |>) <| scrub_stopped := 0 |>
      <| visited := 0 |> <| cleaned := 0 |> <| scrub_running := true |> |>);;
  ret true.

(** *** Walkers of TAP and DCP connections *)

(** [item_tap_iterfunc], [item_dcp_iterfunc]: the walker's item is a reference. *)
Definition walker_iterfunc (item it : Z) : E (ENGINE_ERROR_CODE * Z) :=
  write_item item (fun i => i <| i_refcount := u16 (i_refcount i + 1) |>);;
  ret (ENGINE_SUCCESS, item).

(** The first queue from [ii] on that is not empty gets the cursor. *)
Fixpoint link_next (n : nat) (cursor ii : Z) : E bool :=
  match n with
  | O => ret false
  | S n =>
      if POWER_LARGEST <=? ii then ret false else
      head <- get_head ii;;
      if head != 0 then do_item_link_cursor cursor ii;; ret true
      else link_next n cursor (ii + 1)
  end.

(** [initialize_item_tap_walker], [link_dcp_walker]: a new cursor is linked. *)
Definition link_walker (cursor : Z) : E bool :=
  write_item cursor (fun i => i <| i_refcount := 1 |>);;
  link_next (Z.to_nat POWER_LARGEST) cursor 0.

(** The loop of both walkers, as long as there is no item: the next item, 0 at
    the end.  A turn finds an item or enters the next queue, so that there are
    at most as many turns as queues, and one. *)
Fixpoint walk_to_item (fuel : nat) (cursor it : Z) : E Z :=
  match fuel with
  | O => crash
  | S fuel =>
      n <- walk_fuel;;
      r <- do_item_walk_cursor n cursor 1 walker_iterfunc it;;
      let '(more, _, it) := r in
      linked <- (if more : bool then ret true else
                 c <- deref cursor;;
                 link_next (Z.to_nat POWER_LARGEST) cursor (slabs_clsid c + 1));;
      if negb linked then ret it else
      if it == 0 then walk_to_item fuel cursor it else ret it
  end.

Definition walk_turns : nat := Z.to_nat (POWER_LARGEST + 1).

(** [do_item_tap_walker] of a client with a cursor; 0 is [TAP_DISCONNECT], an
    item is [TAP_MUTATION]. *)
Definition do_item_tap_walker (client : option Z) : E Z :=
  match client with
  | None => ret 0
  | Some cursor => walk_to_item walk_turns cursor 0
  end.

(** The answers of the producers for an item. *)
Record dcp_message_producers := mk_producers {
  expiration : hash_item -> ENGINE_ERROR_CODE;
  mutation : hash_item -> ENGINE_ERROR_CODE;
}.

(** [do_item_dcp_step] of a connection with a cursor that is at an item, 0 for
    none: the outcome and where the connection is then. *)
Definition do_item_dcp_step (producers : dcp_message_producers) (cursor it : Z)
    : E (ENGINE_ERROR_CODE * Z) :=
  it <- (if it == 0 then walk_to_item walk_turns cursor 0 else ret it);;
  if it == 0 then ret (ENGINE_DISCONNECT, 0) else
  now <- gets e_now;;
  i <- deref it;;
  r <- (if (i_exptime i != 0) && (i_exptime i <? now) then
          let r := expiration producers i in
          when (bool_decide (r = ENGINE_SUCCESS)) (do_item_unlink it;; do_item_release it);;
          ret r
        else ret (mutation producers i));;
  ret (r, if bool_decide (r = ENGINE_SUCCESS) then 0 else it).

(** ** Sizes of items *)

(** The sizes of the items of a queue, in steps of 32 bytes. *)
Fixpoint queue_sizes (fuel : nat) (iter : Z) : E (list Z) :=
  match fuel with
  | O => crash
  | S fuel =>
      if iter == 0 then ret [] else
      c <- gets e_config;;
      i <- deref iter;;
      let ntotal := ITEM_ntotal c i in
      l <- queue_sizes fuel (i_next i);;
      ret (ntotal / 32 + (if ntotal mod 32 == 0 then 0 else 1) :: l)
  end.

Fixpoint all_sizes (ids : list Z) : E (list Z) :=
  match ids with
  | [] => ret []
  | id :: ids =>
      head <- get_head id;;
      n <- walk_fuel;;
      l <- queue_sizes n head;;
      l' <- all_sizes ids;;
      ret (l ++ l')
  end.

Definition num_buckets : nat := Z.to_nat 32768.

Definition item_stats_sizes : E (list (bytes * bytes)) :=
  ok <- granted;;
  if negb ok then ret [] else
  l <- all_sizes classes;;
  ret (omap (fun k => let n := length (filter (fun b => b = Z.of_nat k) l) in
    if (n =? 0)%nat then None
    else Some (print_u64 (Z.of_nat k * 32), print_u64 (Z.of_nat n))) (seq 0 num_buckets)).
End Items.
