(* ===== verification/ItemQueues.v ===== *)
(** * The queues of items

    What [item_link_q] and [item_unlink_q] do to the doubly linked queue of a
    slab class: the queue is a list of addresses, and linking and unlinking
    are insertion at its head and deletion. *)

From S2P Require Import Prelude RecordUpdate StateMonad EngineState Assoc Slabs Items.

Definition first (l : list Z) (after : Z) : Z := hd after l.
Definition final (before : Z) (l : list Z) : Z := default before (last l).

(** A part of a queue: [l] lies between [before] and [after]. *)
Fixpoint dseg (m : gmap Z hash_item) (before : Z) (l : list Z) (after : Z) : Prop :=
  match l with
  | [] => True
  | p :: l => p <> 0 /\
      (exists i, m !! p = Some i /\ i_prev i = before /\ i_next i = first l after) /\ dseg m p l after
  end.

(** The queue of class [id] holds the items [l]. *)
Record queue (m : gmap Z hash_item) (s : items) (id : Z) (l : list Z) : Prop := {
  q_head : heads s !! Z.to_nat id = Some (first l 0);
  q_tail : tails s !! Z.to_nat id = Some (final 0 l);
  q_seg : dseg m 0 l 0;
  q_nodup : NoDup l;
}.

Lemma final_cons b p l : final b (p :: l) = final p l.
Proof. unfold final. rewrite last_cons. by destruct (last l). Qed.

Lemma final_app b l1 l2 : final b (l1 ++ l2) = final (final b l1) l2.
Proof. unfold final. rewrite last_app. by destruct (last l2). Qed.

Lemma first_app l1 l2 a : first (l1 ++ l2) a = first l1 (first l2 a).
Proof. by destruct l1. Qed.

Lemma first_in l a : first l a = a \/ first l a ∈ l.
Proof. destruct l; [by left|right; left]. Qed.

Lemma final_in b l : final b l = b \/ final b l ∈ l.
Proof. unfold final. destruct (last l) eqn:E; [right; by apply last_Some_elem_of|by left]. Qed.

Lemma dseg_app m b l1 l2 a :
  dseg m b (l1 ++ l2) a <-> dseg m b l1 (first l2 a) /\ dseg m (final b l1) l2 a.
Proof.
  revert b. induction l1 as [|p l1 IH]; intros b; cbn [dseg app]; [tauto|].
  rewrite IH, final_cons, first_app. tauto.
Qed.

(** The links of the nodes are all that matters. *)
Definition links (i : hash_item) : Z * Z := (i_prev i, i_next i).

Lemma dseg_frame m m' b l a :
  (forall p, p ∈ l -> links <$> m !! p = links <$> m' !! p) -> dseg m b l a -> dseg m' b l a.
Proof.
  revert b. induction l as [|p l IH]; intros b Hf; cbn [dseg]; [done|].
  intros (Hp & (i & Hi & Hb & Ha) & Hl). split; [done|]. split; [|by apply IH; [set_solver|]].
  specialize (Hf p ltac:(left)). rewrite Hi in Hf. destruct (m' !! p) as [j|]; [|done].
  injection Hf as H1 H2. exists j. split; [done|]. split; congruence.
Qed.

Lemma dseg_dom m b l a p : dseg m b l a -> p ∈ l -> p <> 0 /\ exists i, m !! p = Some i.
Proof.
  revert b. induction l as [|q l IH]; intros b; [by intros _ ?%not_elem_of_nil|].
  intros (Hq & (i & Hi & _) & Hl) [->|Hin]%elem_of_cons; [by split; [|exists i]|by eapply IH].
Qed.

Lemma dseg_insert m b l a p i : p ∉ l -> dseg m b l a -> dseg (<[p := i]> m) b l a.
Proof. intros Hp. apply dseg_frame. intros q Hq. rewrite lookup_insert_ne; [done|]. set_solver. Qed.

(** The neighbours of a node. *)
Lemma dseg_node m b l1 p l2 a i :
  dseg m b (l1 ++ p :: l2) a -> m !! p = Some i ->
  i_prev i = final b l1 /\ i_next i = first l2 a.
Proof. intros [_ (_ & (j & Hj & ? & ?) & _)]%dseg_app Hi. rewrite Hi in Hj. by injection Hj as ->. Qed.

(** The first and the last node get other neighbours. *)
Lemma dseg_set_before m b b' p l a i :
  NoDup (p :: l) -> m !! p = Some i -> dseg m b (p :: l) a ->
  dseg (<[p := i <| i_prev := b' |>]> m) b' (p :: l) a.
Proof.
  intros [Hp _]%NoDup_cons Hi (Hne & (j & Hj & _ & Hn) & Hl). rewrite Hi in Hj. injection Hj as <-.
  split; [done|]. split; [|by apply dseg_insert].
  exists (i <| i_prev := b' |>). rewrite lookup_insert_eq. by esimpl.
Qed.

Lemma dseg_set_after m b l p a a' i :
  NoDup (l ++ [p]) -> m !! p = Some i -> dseg m b (l ++ [p]) a ->
  dseg (<[p := i <| i_next := a' |>]> m) b (l ++ [p]) a'.
Proof.
  intros Hnd Hi [Hl (Hne & (j & Hj & Hb & _) & _)]%dseg_app.
  rewrite Hi in Hj. injection Hj as <-. apply NoDup_app in Hnd as (_ & Hd & _).
  apply dseg_app. split; [apply dseg_insert; [|done]; intros Hp; apply (Hd p Hp); left|].
  split; [done|]. split; [|done]. exists (i <| i_next := a' |>). rewrite lookup_insert_eq. by esimpl.
Qed.

(** The links of the nodes around a removed node. *)
Definition relink (m : gmap Z hash_item) (p n : Z) : gmap Z hash_item :=
  let m1 := if n == 0 then m else alter (fun i => i <| i_prev := p |>) n m in
  if p == 0 then m1 else alter (fun i => i <| i_next := n |>) p m1.

Lemma alter_insert_eq {V} (f : V -> V) (m : gmap Z V) p i :
  m !! p = Some i -> alter f p m = <[p := f i]> m.
Proof.
  intros Hi. apply map_eq. intros q. destruct (decide (q = p)) as [->|].
  - by rewrite lookup_alter_eq, lookup_insert_eq, Hi.
  - by rewrite lookup_alter_ne, lookup_insert_ne.
Qed.

Lemma dseg_remove m l1 p l2 :
  NoDup (l1 ++ p :: l2) -> dseg m 0 (l1 ++ p :: l2) 0 ->
  dseg (relink m (final 0 l1) (first l2 0)) 0 (l1 ++ l2) 0.
Proof.
  intros Hnd [H1 (_ & _ & H2)]%dseg_app.
  apply NoDup_app in Hnd as (Hn1 & Hd & [Hp Hn2]%NoDup_cons).
  assert (forall q, q ∈ l1 -> q ∉ l2) as Hdis by (intros q Hq Hq2; apply (Hd q Hq); by right).
  set (m1 := if first l2 0 == 0 then m else alter (fun i => i <| i_prev := final 0 l1 |>) (first l2 0) m).
  assert (dseg m1 (final 0 l1) l2 0 /\ dseg m1 0 l1 p) as [H2' H1'].
  { unfold m1. destruct l2 as [|q l2]; [by split|]. cbn [first hd].
    pose proof (proj1 H2) as Hq. rewrite (proj2 (Z.eqb_neq q 0)) by done.
    destruct (dseg_dom _ _ _ _ q H2) as (_ & i & Hi); [left|]. rewrite (alter_insert_eq _ _ _ _ Hi).
    split; [by eapply dseg_set_before|]. apply dseg_insert; [|done]. intros HC. apply (Hdis q HC). left. }
  unfold relink. fold m1. apply dseg_app.
  destruct (decide (l1 = [])) as [->|Hne]; [by split|].
  destruct (exists_last Hne) as (l & q & ->). unfold final in *. rewrite last_snoc in *. cbn [default from_option] in *.
  destruct (dseg_dom _ _ _ _ q H1') as (Hq & i & Hi); [set_solver|]. cbn [id].
  rewrite (proj2 (Z.eqb_neq q 0)), (alter_insert_eq _ _ _ _ Hi) by done. split.
  - by eapply dseg_set_after.
  - apply dseg_insert; [|done]. apply Hdis. set_solver.
Qed.

(** ** Linking and unlinking *)

Definition unqueue (i : hash_item) : hash_item := (i <| i_next := 0 |>) <| i_prev := 0 |>.

Definition beside_queues (e : default_engine) :=
  (e_assoc e, e_slabs e, e_config e, e_stats e, e_scrubber e, vbucket_infos e, bucket_id e,
   cas_id e, e_now e, e_pages e, e_grants e, e_evicting e).

(** Only the queue of class [id] and the links of [nodes] change. *)
Record queue_step (id d : Z) (nodes : list Z) (e e' : default_engine) : Prop := {
  qs_beside : beside_queues e' = beside_queues e;
  qs_mem : same_items unqueue (e_mem e) (e_mem e');
  qs_nodes : forall q, q ∉ nodes -> e_mem e' !! q = e_mem e !! q;
  qs_heads : forall k, k <> Z.to_nat id -> heads (e_items e') !! k = heads (e_items e) !! k;
  qs_tails : forall k, k <> Z.to_nat id -> tails (e_items e') !! k = tails (e_items e) !! k;
  qs_sizes : sizes (e_items e') = alter (fun n => u32 (n + d)) (Z.to_nat id) (sizes (e_items e));
  qs_stats : itemstats (e_items e') = itemstats (e_items e);
}.

Lemma queue_frame m m' s s' id l :
  queue m s id l -> heads s' !! Z.to_nat id = heads s !! Z.to_nat id ->
  tails s' !! Z.to_nat id = tails s !! Z.to_nat id ->
  (forall p, p ∈ l -> links <$> m !! p = links <$> m' !! p) -> queue m' s' id l.
Proof.
  intros [Hh Ht Hs Hn] Hh' Ht' Hf. split; [congruence|congruence|by eapply dseg_frame|done].
Qed.

Lemma get_head_done id h e : heads (e_items e) !! Z.to_nat id = Some h -> get_head id e = Done h e.
Proof. intros H. unfold get_head. run. by rewrite H. Qed.

Lemma get_tail_done id h e : tails (e_items e) !! Z.to_nat id = Some h -> get_tail id e = Done h e.
Proof. intros H. unfold get_tail. run. by rewrite H. Qed.

Lemma unqueue_next i p : unqueue (i <| i_next := p |>) = unqueue i.
Proof. done. Qed.

Lemma unqueue_prev i p : unqueue (i <| i_prev := p |>) = unqueue i.
Proof. done. Qed.

Lemma same_unqueue_insert m p i i' :
  m !! p = Some i -> unqueue i = unqueue i' -> same_items unqueue m (<[p := i']> m).
Proof. apply same_items_insert. Qed.

(** The state after [item_link_q]. *)
Definition linked_q (it : Z) (i : hash_item) (id : Z) (l : list Z) (e : default_engine) : default_engine :=
  let m := <[it := (i <| i_prev := 0 |>) <| i_next := first l 0 |>]> (e_mem e) in
  let m := match l with h :: _ => alter (fun i => i <| i_prev := it |>) h m | [] => m end in
  let s := e_items e in
  e <| e_mem := m |>
    <| e_items := mk_items (<[Z.to_nat id := it]> (heads s))
         (match l with [] => <[Z.to_nat id := it]> (tails s) | _ => tails s end)
         (itemstats s) (alter (fun n => u32 (n + 1)) (Z.to_nat id) (sizes s)) |>.

Lemma item_link_q_done it i id l e :
  queue (e_mem e) (e_items e) id l -> e_mem e !! it = Some i -> slabs_clsid i = id ->
  id < POWER_LARGEST -> has_flag ITEM_SLABBED i = false -> it <> 0 -> it ∉ l ->
  item_link_q it e = Done tt (linked_q it i id l e).
Proof.
  intros [Hh Ht Hs Hn] Hi Hid Hlt Hsl Hne Hin. unfold item_link_q.
  erewrite bind_done by (by apply deref_done). rewrite Hid, Hsl, (proj2 (Z.ltb_lt _ _) Hlt). cbn [negb]. run.
  erewrite bind_done by (apply get_head_done; exact Hh). erewrite bind_done by (apply get_tail_done; exact Ht).
  assert (it <> first l 0) as Hf by (destruct (first_in l 0) as [->|?]; [done|congruence]).
  rewrite (proj2 (Z.eqb_neq _ _) Hf). cbn [negb]. run.
  destruct l as [|h l].
  - cbn [first hd final last default from_option Datatypes.id Z.eqb negb andb orb]. run.
    erewrite bind_done by (apply write_item_done; exact Hi).
    erewrite bind_done by (apply write_item_done; esimpl; apply lookup_insert_eq).
    unfold set_head, set_tail, count_items, set_items. run. unfold linked_q. esimpl. cbn [first hd].
    rewrite insert_insert_eq. done.
  - cbn [first hd]. pose proof (proj1 Hs) as Hh0.
    assert (final 0 (h :: l) <> 0) as Hf0.
    { destruct (final_in 0 (h :: l)) as [E|Hl]; [|by eapply dseg_dom in Hl as [? _]].
      rewrite final_cons in E. destruct (final_in h l) as [E'|Hl]; [congruence|].
      destruct Hs as (_ & _ & Hs). by eapply dseg_dom in Hl as [? _]. }
    rewrite (proj2 (Z.eqb_neq _ _) Hh0), (proj2 (Z.eqb_neq _ _) Hf0). cbn [negb andb orb]. run.
    destruct (dseg_dom _ _ _ _ h Hs) as (_ & j & Hj); [left|].
    assert (it <> h) as Hih by set_solver.
    erewrite bind_done by (apply write_item_done; exact Hi).
    erewrite bind_done by (apply write_item_done; esimpl; apply lookup_insert_eq).
    erewrite bind_done by (apply write_item_done; esimpl; rewrite !lookup_insert_ne by done; exact Hj).
    unfold set_head, set_tail, count_items, set_items. run. unfold linked_q. esimpl. cbn [first hd].
    rewrite insert_insert_eq. erewrite (alter_insert_eq _ _ h) by (rewrite lookup_insert_ne by done; exact Hj).
    done.
Qed.

(** The state after [item_unlink_q] of the item between [l1] and [l2]. *)
Definition unlinked_q (id : Z) (l1 l2 : list Z) (e : default_engine) : default_engine :=
  let s := e_items e in
  e <| e_mem := relink (e_mem e) (final 0 l1) (first l2 0) |>
    <| e_items := mk_items
         (match l1 with [] => <[Z.to_nat id := first l2 0]> (heads s) | _ => heads s end)
         (match l2 with [] => <[Z.to_nat id := final 0 l1]> (tails s) | _ => tails s end)
         (itemstats s) (alter (fun n => u32 (n + -1)) (Z.to_nat id) (sizes s)) |>.

Lemma first_ne l1 p l2 : p ∉ l1 -> first (l1 ++ p :: l2) 0 = p <-> l1 = [].
Proof.
  intros Hp. destruct l1 as [|q l1]; [done|]. cbn. split; [intros ->; set_solver|done].
Qed.

Lemma final_ne l1 p l2 : p ∉ l2 -> final 0 (l1 ++ p :: l2) = p <-> l2 = [].
Proof.
  intros Hp. rewrite final_app, final_cons. destruct l2 as [|q l2]; [done|]. rewrite final_cons.
  split; [|done]. intros E. destruct Hp. destruct (final_in q l2) as [E'|Hin]; [|right; congruence].
  rewrite <- E, E'. left.
Qed.

Lemma join_nodes_done p n (e : default_engine) :
  (n <> 0 -> is_Some (e_mem e !! n)) -> (p <> 0 -> is_Some (e_mem e !! p)) ->
  join_nodes p n e = Done tt (e <| e_mem := relink (e_mem e) p n |>).
Proof.
  intros Hn Hp. unfold join_nodes, relink.
  destruct (Z.eqb_spec n 0) as [->|Hn0]; cbn [negb]; run.
  - destruct (Z.eqb_spec p 0) as [->|Hp0]; cbn [negb when]; [by destruct e|].
    destruct (Hp Hp0) as [j Hj]. rewrite (alter_insert_eq _ _ _ _ Hj). by apply write_item_done.
  - destruct (Hn Hn0) as [i Hi]. rewrite (alter_insert_eq _ _ _ _ Hi).
    erewrite bind_done by (apply write_item_done; exact Hi).
    destruct (Z.eqb_spec p 0) as [->|Hp0]; cbn [negb when]; [done|].
    assert (is_Some (<[n := i <| i_prev := p |>]> (e_mem e) !! p)) as [j Hj].
    { destruct (decide (p = n)) as [->|]; [rewrite lookup_insert_eq; eauto|rewrite lookup_insert_ne; eauto]. }
    rewrite (alter_insert_eq _ _ _ _ Hj). erewrite write_item_done by (esimpl; exact Hj). done.
Qed.

Lemma item_unlink_q_done it i id l1 l2 e :
  queue (e_mem e) (e_items e) id (l1 ++ it :: l2) -> e_mem e !! it = Some i ->
  slabs_clsid i = id -> id < POWER_LARGEST ->
  item_unlink_q it e = Done tt (unlinked_q id l1 l2 e).
Proof.
  intros [Hh Ht Hs Hn] Hi Hid Hlt. pose proof (dseg_node _ _ _ _ _ _ _ Hs Hi) as [Hp Hnx].
  pose proof Hn as (Hn1 & Hd & [Hi2 Hn2]%NoDup_cons)%NoDup_app.
  assert (it ∉ l1) as Hi1 by (intros HC; apply (Hd it HC); left).
  assert (it <> 0) as Hne by (eapply dseg_dom; [exact Hs|set_solver]).
  unfold item_unlink_q. erewrite bind_done by (by apply deref_done).
  rewrite Hid, Hp, Hnx, (proj2 (Z.ltb_lt _ _) Hlt). run.
  erewrite bind_done by (apply get_head_done; exact Hh). erewrite bind_done by (apply get_tail_done; exact Ht).
  assert (first l2 0 <> it) as Hf2 by (destruct (first_in l2 0) as [->|?]; [done|congruence]).
  assert (final 0 l1 <> it) as Hf1 by (destruct (final_in 0 l1) as [->|?]; [done|congruence]).
  rewrite (proj2 (Z.eqb_neq _ _) Hf1), (proj2 (Z.eqb_neq _ _) Hf2). cbn [negb].
  assert (forall e1, e_mem e1 = e_mem e -> join_nodes (final 0 l1) (first l2 0) e1 =
    Done tt (e1 <| e_mem := relink (e_mem e1) (final 0 l1) (first l2 0) |>)) as Hre.
  { intros e1 He1. apply join_nodes_done; rewrite He1; intros Hz.
    - destruct (first_in l2 0) as [?|Hin]; [done|]. by eapply dseg_dom in Hs as [_ ?]; [|apply elem_of_app; right; right].
    - destruct (final_in 0 l1) as [?|Hin]; [done|]. by eapply dseg_dom in Hs as [_ ?]; [|apply elem_of_app; left]. }
  assert ((first (l1 ++ it :: l2) 0 == it) = match l1 with [] => true | _ => false end) as ->.
  { destruct l1 as [|q l1]; [apply Z.eqb_refl|]. apply Z.eqb_neq. intros ?%first_ne; done. }
  assert ((final 0 (l1 ++ it :: l2) == it) = match l2 with [] => true | _ => false end) as ->.
  { destruct l2 as [|q l2]; [by apply Z.eqb_eq, final_ne|]. apply Z.eqb_neq. intros ?%final_ne; done. }
  unfold set_head, set_tail, count_items, set_items, unlinked_q.
  destruct l1 as [|q1 l1], l2 as [|q2 l2]; run;
    (erewrite bind_done by (by apply Hre)); destruct e as [? ? ? []]; done.
Qed.

Lemma same_unqueue_alter m p f :
  (forall i, unqueue (f i) = unqueue i) -> same_items unqueue m (alter f p m).
Proof.
  intros Hf q. destruct (decide (q = p)) as [->|].
  - rewrite lookup_alter_eq. destruct (m !! p); cbn; [by rewrite Hf|done].
  - by rewrite lookup_alter_ne.
Qed.

Lemma same_unqueue_relink m p n : same_items unqueue m (relink m p n).
Proof.
  unfold relink. set (m1 := if n == 0 then m else alter (fun i => i <| i_prev := p |>) n m).
  apply (same_items_trans _ _ m1).
  - unfold m1. destruct (n == 0); [apply same_items_refl|by apply same_unqueue_alter].
  - destruct (p == 0); [apply same_items_refl|by apply same_unqueue_alter].
Qed.

Lemma relink_other m p n q : q <> p -> q <> n -> relink m p n !! q = m !! q.
Proof. intros. unfold relink. by destruct (n == 0), (p == 0); rewrite ?lookup_alter_ne. Qed.

Lemma item_link_q_ok it i id l e :
  queue (e_mem e) (e_items e) id l -> e_mem e !! it = Some i -> slabs_clsid i = id ->
  id < POWER_LARGEST -> has_flag ITEM_SLABBED i = false -> it <> 0 -> it ∉ l ->
  exists e', item_link_q it e = Done tt e' /\ queue_step id 1 (it :: l) e e' /\
    queue (e_mem e') (e_items e') id (it :: l).
Proof.
  intros Hq Hi Hid Hlt Hsl Hne Hin. exists (linked_q it i id l e).
  split; [by apply item_link_q_done|]. destruct Hq as [Hh Ht Hs Hn].
  set (i' := (i <| i_prev := 0 |>) <| i_next := first l 0 |>).
  set (m1 := <[it := i']> (e_mem e)).
  assert (e_mem (linked_q it i id l e) =
    match l with h :: _ => alter (fun i => i <| i_prev := it |>) h m1 | [] => m1 end) as Hm by done.
  assert (m1 !! it = Some i') as Hit by apply lookup_insert_eq.
  split; [split|split]; try done; try rewrite Hm.
  - eapply same_items_trans; [by eapply (same_unqueue_insert _ it i i')|]. fold m1.
    destruct l as [|h l]; [apply same_items_refl|by apply same_unqueue_alter].
  - intros q Hq. apply not_elem_of_cons in Hq as [Hq1 Hq2]. fold m1.
    destruct l as [|h l]; [by apply lookup_insert_ne|]. apply not_elem_of_cons in Hq2 as [? ?].
    rewrite lookup_alter_ne by done. by apply lookup_insert_ne.
  - intros k Hk. by apply list_lookup_insert_ne.
  - intros k Hk. cbn. destruct l; [by apply list_lookup_insert_ne|done].
  - apply list_lookup_insert_eq. by eapply lookup_lt_Some.
  - cbn. destruct l as [|h l]; [|by rewrite !final_cons in *].
    apply list_lookup_insert_eq. by eapply lookup_lt_Some.
  - split; [done|]. destruct l as [|h l]; [by split; [exists i'|]|].
    assert (it <> h) by set_solver. pose proof (proj1 Hs).
    destruct (dseg_dom _ _ _ _ h Hs) as (_ & j & Hj); [left|].
    assert (m1 !! h = Some j) as Hj1 by (by rewrite <- Hj; apply lookup_insert_ne).
    rewrite (alter_insert_eq _ _ _ _ Hj1). split.
    + exists i'. by rewrite lookup_insert_ne.
    + eapply dseg_set_before; [done|done|]. by apply dseg_insert.
  - by apply NoDup_cons.
Qed.

Lemma item_unlink_q_ok it i id l1 l2 e :
  queue (e_mem e) (e_items e) id (l1 ++ it :: l2) -> e_mem e !! it = Some i ->
  slabs_clsid i = id -> id < POWER_LARGEST ->
  exists e', item_unlink_q it e = Done tt e' /\ queue_step id (-1) (l1 ++ l2) e e' /\
    e_mem e' !! it = Some i /\
    queue (e_mem e') (e_items e') id (l1 ++ l2).
Proof.
  intros Hq Hi Hid Hlt. exists (unlinked_q id l1 l2 e).
  split; [by eapply item_unlink_q_done|]. destruct Hq as [Hh Ht Hs Hn].
  assert (e_mem (unlinked_q id l1 l2 e) = relink (e_mem e) (final 0 l1) (first l2 0)) as Hm by done.
  pose proof Hn as (Hn1 & Hd & [Hi2 Hn2]%NoDup_cons)%NoDup_app.
  assert (it <> 0) as Hne by (eapply dseg_dom; [exact Hs|set_solver]).
  assert (forall q, q ∉ l1 ++ l2 -> q <> 0 -> relink (e_mem e) (final 0 l1) (first l2 0) !! q = e_mem e !! q) as Hot.
  { intros q Hq Hq0. apply relink_other; intros ->; apply Hq, elem_of_app.
    - left. by destruct (final_in 0 l1).
    - right. by destruct (first_in l2 0). }
  split; [split|split; [|split]]; try done; try rewrite Hm.
  - apply same_unqueue_relink.
  - intros q Hq. destruct (decide (q = 0)) as [->|]; [|by apply Hot].
    unfold relink. destruct (first l2 0 == 0) eqn:E1, (final 0 l1 == 0) eqn:E2; rewrite ?lookup_alter_ne; try done; lia.
  - intros k Hk. cbn. destruct l1; [by apply list_lookup_insert_ne|done].
  - intros k Hk. cbn. destruct l2; [by apply list_lookup_insert_ne|done].
  - rewrite Hot; [done| |done]. rewrite elem_of_app. intros [HC|HC]; [apply (Hd it HC); left|done].
  - cbn. destruct l1 as [|q l1]; [|done]. apply list_lookup_insert_eq. by eapply lookup_lt_Some.
  - cbn. rewrite final_app in *. destruct l2 as [|q l2].
    + apply list_lookup_insert_eq. by eapply lookup_lt_Some.
    + by rewrite !final_cons in *.
  - by apply (dseg_remove _ _ it).
  - apply NoDup_app. split; [done|]. split; [|done]. intros x Hx Hx2. apply (Hd x Hx). by right.
Qed.
