(* ===== verification/Cache.v ===== *)
(** * The cache: items, table and queues together

    The invariant of the default engine, and that the functions of [items.c]
    keep it.  [M] maps keys to the addresses of items: the hash table, which
    all engines of a process share.  [L] gives the queue of every slab class.
    The items of this engine are those whose keys start with its bucket's
    number; they are chunks of its slabs, are in the queue of their class, and
    are marked as linked. *)

From S2P Require Import Prelude Numbers RecordUpdate StateMonad Protocol EngineApi EngineState Assoc Slabs.
From S2P Require Import Items ItemQueues.

Definition own (e : default_engine) (k : bytes) : Prop := take 4 k = le_store 4 (bucket_id e).

#[export] Instance own_dec e k : Decision (own e k).
Proof. unfold own. apply _. Defined.

(** The entries of the table that belong to the engine. *)
Definition own_items (e : default_engine) (M : gmap bytes Z) : gmap bytes Z :=
  filter (fun kv => own e kv.1) M.

Lemma own_items_same e e' M : bucket_id e' = bucket_id e -> own_items e' M = own_items e M.
Proof. intros Hb. apply map_filter_ext. intros k p _. unfold own. cbn. by rewrite Hb. Qed.

(** An item that is in the cache. *)
Definition linked_item (e : default_engine) (id p : Z) (i : hash_item) : Prop :=
  e_mem e !! p = Some i /\ slabs_clsid i = id /\ has_flag ITEM_LINKED i = true /\
  has_flag ITEM_SLABBED i = false /\ chunk_of e id p /\ own e (i_key i).

(** What the operations on items do not change. *)
Definition beside_items (e : default_engine) :=
  (e_config e, e_scrubber e, vbucket_infos e, bucket_id e, e_now e).

Definition bare (i : hash_item) : hash_item :=
  ((i <| i_next := 0 |>) <| i_prev := 0 |>) <| h_next := 0 |>.

(** A step that may change the items in [S]; of the others only the links
    change, and they are not freed. *)
Record item_step (S : Z -> Prop) (e e' : default_engine) : Prop := {
  is_beside : beside_items e' = beside_items e;
  is_largest : power_largest (e_slabs e') = power_largest (e_slabs e);
  is_size : sc_size <$> slabclass (e_slabs e') = sc_size <$> slabclass (e_slabs e);
  is_chunk : forall id c, chunk_of e id c -> chunk_of e' id c;
  is_mem : forall p i, e_mem e !! p = Some i ->
    S p \/ exists i', e_mem e' !! p = Some i' /\ bare i' = bare i;
  is_dom : forall p, is_Some (e_mem e !! p) -> is_Some (e_mem e' !! p);
  is_unfree : forall p, is_Some (e_mem e !! p) -> is_free e' p -> is_free e p \/ S p;
}.

Lemma item_step_trans (S1 S2 S : Z -> Prop) e1 e2 e3 :
  item_step S1 e1 e2 -> item_step S2 e2 e3 -> (forall p, S1 p -> S p) ->
  (forall p, is_Some (e_mem e1 !! p) -> S2 p -> S p) -> item_step S e1 e3.
Proof.
  intros H1 H2 Hs1 Hs2. split.
  - by rewrite (is_beside _ _ _ H2), (is_beside _ _ _ H1).
  - by rewrite (is_largest _ _ _ H2), (is_largest _ _ _ H1).
  - by rewrite (is_size _ _ _ H2), (is_size _ _ _ H1).
  - intros id c Hc. by apply (is_chunk _ _ _ H2), (is_chunk _ _ _ H1).
  - intros p i Hi. destruct (is_mem _ _ _ H1 p i Hi) as [?|(i1 & Hi1 & Hb1)]; [by left; auto|].
    destruct (is_mem _ _ _ H2 p i1 Hi1) as [?|(i2 & Hi2 & Hb2)]; [left; eauto|].
    right. exists i2. split; [done|congruence].
  - intros p Hp. by apply (is_dom _ _ _ H2), (is_dom _ _ _ H1).
  - intros p Hp Hf. destruct (is_unfree _ _ _ H2 p) as [Hf1|?]; [by apply (is_dom _ _ _ H1)|done| |by right; auto].
    destruct (is_unfree _ _ _ H1 p Hp Hf1) as [?|?]; [by left|right; auto].
Qed.

Lemma item_step_refl S e : item_step S e e.
Proof. split; try done; [intros p i Hi; right; by exists i|by left]. Qed.

Lemma item_step_weaken (S S' : Z -> Prop) e e' :
  item_step S e e' -> (forall p, S p -> S' p) -> item_step S' e e'.
Proof. intros H Hs. eapply item_step_trans; [exact H|apply (item_step_refl (fun _ => False))|done|done]. Qed.

(** The times of last access do not increase from the head of a queue on. *)
Fixpoint aged (m : gmap Z hash_item) (t : Z) (l : list Z) : Prop :=
  match l with
  | [] => True
  | p :: l => exists i, m !! p = Some i /\ 0 <= i_time i <= t /\ aged m (i_time i) l
  end.

Lemma aged_frame m m' t l :
  aged m t l -> (forall p, p ∈ l -> i_time <$> m' !! p = i_time <$> m !! p) -> aged m' t l.
Proof.
  revert t. induction l as [|p l IH]; intros t; cbn; [done|]. intros (i & Hi & Ht & Hl) Hf.
  pose proof (Hf p ltac:(left)) as Hp. rewrite Hi in Hp. destruct (m' !! p) as [i'|] eqn:Hi'; [|done].
  injection Hp as E. exists i'. rewrite E. split; [done|]. split; [done|]. apply IH; [done|]. intros q Hq. apply Hf. by right.
Qed.

Lemma aged_weaken m t t' l : aged m t l -> t <= t' -> aged m t' l.
Proof. destruct l as [|p l]; cbn; [done|]. intros (i & ? & ? & ?) ?. exists i. split; [done|]. split; [lia|done]. Qed.

Lemma aged_remove m t l1 p l2 : aged m t (l1 ++ p :: l2) -> aged m t (l1 ++ l2).
Proof.
  revert t. induction l1 as [|q l1 IH]; intros t; cbn.
  - intros (i & _ & [_ ?] & Hl). by eapply aged_weaken.
  - intros (i & ? & ? & H). exists i. split; [done|]. split; [done|]. by apply IH.
Qed.

Lemma aged_filter m t (P : Z -> Prop) `{!forall p, Decision (P p)} l : aged m t l -> aged m t (filter P l).
Proof.
  revert t. induction l as [|p l IH]; intros t; [done|]. intros (i & Hi & Ht & Hl). rewrite filter_cons.
  case_decide; [|eapply aged_weaken; [by apply IH|lia]]. exists i. split; [done|]. split; [done|]. by apply IH.
Qed.

Lemma aged_elem m t l p i : aged m t l -> p ∈ l -> m !! p = Some i -> 0 <= i_time i <= t.
Proof.
  revert t. induction l as [|q l IH]; intros t; cbn; [by intros _ ?%not_elem_of_nil|].
  intros (j & Hj & Ht & Hl) [->|Hp]%elem_of_cons Hi; [congruence|]. specialize (IH _ Hl Hp Hi). lia.
Qed.

Section Cache.

Context (crc32c : bytes -> Z).

(** How far the counters of the queues' lengths are off. *)
Context (drift : Z -> Z).

Record items_ok (e : default_engine) (M : gmap bytes Z) (L : Z -> list Z) : Prop := {
  io_table : represents crc32c e M;
  io_slabs : slabs_ok e;
  io_largest : POWER_SMALLEST <= power_largest (e_slabs e) < POWER_LARGEST;
  io_queue : forall id, 0 <= id < POWER_LARGEST -> queue (e_mem e) (e_items e) id (L id);
  io_sizes : forall id, 0 <= id < POWER_LARGEST ->
    sizes (e_items e) !! Z.to_nat id = Some (u32 (Z.of_nat (length (L id)) + drift id));
  io_stats : length (itemstats (e_items e)) = Z.to_nat POWER_LARGEST;
  io_now : 0 <= e_now e;
  io_times : forall id, aged (e_mem e) (e_now e) (L id);
  io_item : forall id p, p ∈ L id -> exists i, linked_item e id p i /\ M !! i_key i = Some p;
  io_own : forall k p, M !! k = Some p -> own e k -> exists id, p ∈ L id;
  io_foreign : forall k p id, M !! k = Some p -> ~ own e k -> ~ chunk_of e id p;
  io_count : curr_items (e_stats e) = u64 (Z.of_nat (size (own_items e M)));
}.

(** An item that is allocated and not in the cache. *)
Definition held (e : default_engine) (p : Z) (i : hash_item) : Prop :=
  e_mem e !! p = Some i /\ has_flag ITEM_LINKED i = false /\ has_flag ITEM_SLABBED i = false /\
  chunk_of e (slabs_clsid i) p /\ ~ is_free e p /\ own e (i_key i).

Lemma class_range e M L id p :
  items_ok e M L -> chunk_of e id p -> 1 <= id < POWER_LARGEST.
Proof.
  intros Hok (q & [Hid _] & _). pose proof (io_largest _ _ _ Hok). unfold POWER_SMALLEST in *. lia.
Qed.

Lemma linked_range e M L id p : items_ok e M L -> p ∈ L id -> 1 <= id < POWER_LARGEST.
Proof.
  intros Hok Hp. destruct (io_item _ _ _ Hok id p Hp) as (i & (_ & _ & _ & _ & Hc & _) & _).
  by eapply class_range.
Qed.

Lemma linked_not_free e M L id p : items_ok e M L -> p ∈ L id -> ~ is_free e p.
Proof.
  intros Hok Hp Hf. destruct (io_item _ _ _ Hok id p Hp) as (i & (Hi & _ & Hl & _) & _).
  destruct (free_in_memory e p (io_slabs _ _ _ Hok) Hf) as (j & Hj & _ & Hn). congruence.
Qed.

Lemma queues_disjoint e M L id id' p : items_ok e M L -> p ∈ L id -> p ∈ L id' -> id = id'.
Proof.
  intros Hok H1 H2. destruct (io_item _ _ _ Hok id p H1) as (i & (Hi & <- & _) & _).
  destruct (io_item _ _ _ Hok id' p H2) as (i' & (Hi' & <- & _) & _). congruence.
Qed.

Lemma held_not_linked e M L id p i : items_ok e M L -> held e p i -> p ∉ L id.
Proof.
  intros Hok (Hi & Hl & _) Hp. destruct (io_item _ _ _ Hok id p Hp) as (j & (Hj & _ & Hl' & _) & _).
  congruence.
Qed.

(** Whose item is it. *)
Lemma table_item e M L k p :
  items_ok e M L -> M !! k = Some p -> exists i, e_mem e !! p = Some i /\ i_key i = k.
Proof.
  intros Hok Hk. destruct (io_table _ _ _ Hok) as [C HC]. destruct (to_map _ _ _ _ _ HC k p Hk) as (i & ? & ? & _).
  by exists i.
Qed.

Lemma item_place e M L k p :
  items_ok e M L -> M !! k = Some p -> own e k ->
  exists id i, 1 <= id < POWER_LARGEST /\ p ∈ L id /\ linked_item e id p i /\ i_key i = k.
Proof.
  intros Hok Hk Ho. destruct (io_own _ _ _ Hok k p Hk Ho) as (id & Hp).
  destruct (io_item _ _ _ Hok id p Hp) as (i & Hl & Hm). exists id, i.
  split; [by eapply linked_range|]. split; [done|]. split; [done|].
  destruct (table_item _ _ _ _ _ Hok Hk) as (j & Hj & <-). destruct Hl as (Hi & _). congruence.
Qed.


(** ** Writing to an item *)

(** What the structures are made of. *)
Definition skeleton (i : hash_item) := (i_next i, i_prev i, h_next i, slabs_clsid i, iflag i, i_key i, i_time i).

Lemma linked_item_same e e' id p i i' :
  linked_item e id p i -> e_mem e' !! p = Some i' -> slabs_clsid i' = slabs_clsid i ->
  iflag i' = iflag i -> i_key i' = i_key i -> bucket_id e' = bucket_id e ->
  (forall id c, chunk_of e id c -> chunk_of e' id c) -> linked_item e' id p i'.
Proof.
  intros (Hi & Hid & Hl & Hs & Hc & Ho) Hi' Ec Ef Ek Eb Hch.
  unfold linked_item, has_flag, own in *. rewrite Ec, Ef, Ek, Eb. repeat split; auto.
Qed.

(** Memory in which every item has the skeleton it had. *)
Lemma items_ok_mem e e' M L :
  items_ok e M L -> beside_items e' = beside_items e -> e_assoc e' = e_assoc e ->
  e_slabs e' = e_slabs e -> e_items e' = e_items e -> e_pages e' = e_pages e ->
  e_stats e' = e_stats e -> same_items skeleton (e_mem e) (e_mem e') -> items_ok e' M L.
Proof.
  intros Hok Hb Ha Hs Hq Hp Hst Hm.
  assert (bucket_id e' = bucket_id e) as Hbu by (unfold beside_items in Hb; congruence).
  assert (e_config e' = e_config e) as Hcf by (unfold beside_items in Hb; congruence).
  assert (forall k, own e' k <-> own e k) as Hown by (intros; unfold own; by rewrite Hbu).
  assert (forall id c, chunk_of e' id c <-> chunk_of e id c) as Hch by (intros; by apply chunk_of_same).
  split; rewrite ?Hq, ?Hs, ?Hst.
  - destruct (io_table _ _ _ Hok) as [C HC]. exists C. rewrite Ha. eapply table_frame; [|exact HC].
    intros k p _. specialize (Hm p). unfold skeleton in Hm.
    destruct (e_mem e !! p), (e_mem e' !! p); cbn in *; congruence.
  - apply (slabs_ok_mem e); try done; [apply (io_slabs _ _ _ Hok)|by rewrite Hcf| |].
    + intros q. specialize (Hm q). destruct (e_mem e !! q), (e_mem e' !! q); cbn in Hm; try done.
    + intros q _. specialize (Hm q). unfold skeleton in Hm.
      destruct (e_mem e !! q), (e_mem e' !! q); cbn in *; congruence.
  - apply (io_largest _ _ _ Hok).
  - intros id Hid. eapply queue_frame; [by apply (io_queue _ _ _ Hok)|done|done|].
    intros p _. specialize (Hm p). unfold skeleton, links in *.
    destruct (e_mem e !! p), (e_mem e' !! p); cbn in *; congruence.
  - apply (io_sizes _ _ _ Hok).
  - apply (io_stats _ _ _ Hok).
  - assert (e_now e' = e_now e) as -> by (unfold beside_items in Hb; congruence). apply (io_now _ _ _ Hok).
  - intros id. assert (e_now e' = e_now e) as -> by (unfold beside_items in Hb; congruence).
    eapply aged_frame; [apply (io_times _ _ _ Hok)|]. intros p _. specialize (Hm p). unfold skeleton in Hm.
    destruct (e_mem e !! p), (e_mem e' !! p); cbn in *; congruence.
  - intros id p Hin. destruct (io_item _ _ _ Hok id p Hin) as (i & Hl & Hk).
    destruct (same_items_lookup _ _ _ p i Hm (proj1 Hl)) as (i' & Hi' & Hsk). injection Hsk as _ _ _ E1 E2 E3 _.
    exists i'. split; [|by rewrite <- E3]. apply (linked_item_same e e' id p i i'); try done.
    intros id0 c. apply Hch.
  - intros k p Hk Ho%Hown. by eapply (io_own _ _ _ Hok).
  - intros k p id Hk Ho. rewrite Hch. eapply (io_foreign _ _ _ Hok); [done|]. by rewrite <- Hown.
  - rewrite (io_count _ _ _ Hok). by rewrite (own_items_same e e').
Qed.

Lemma item_step_mem (S : Z -> Prop) e e' :
  beside_items e' = beside_items e -> e_slabs e' = e_slabs e ->
  (forall p i, e_mem e !! p = Some i -> exists i', e_mem e' !! p = Some i' /\ (S p \/ bare i' = bare i)) ->
  item_step S e e'.
Proof.
  intros Hb Hs Hm. split; rewrite ?Hs; try done.
  - intros id c. by apply chunk_of_same.
  - intros p i Hi. destruct (Hm p i Hi) as (i' & ? & [?|?]); eauto.
  - intros p [i Hi]. destruct (Hm p i Hi) as (i' & ? & _). eauto.
  - intros p _ Hf. left. by apply (is_free_same e' e).
Qed.

(** A field that belongs to no structure is written. *)
Lemma items_ok_write e M L p i i' :
  items_ok e M L -> e_mem e !! p = Some i -> skeleton i' = skeleton i ->
  let e' := e <| e_mem := <[p := i']> (e_mem e) |> in
  items_ok e' M L /\ item_step (eq p) e e'.
Proof.
  intros Hok Hi Hsk e'. split.
  - apply (items_ok_mem e); try done. by apply (same_items_insert _ _ _ i).
  - apply item_step_mem; [done|done|]. intros q j Hj. unfold e'. esimpl. cbn beta.
    destruct (decide (q = p)) as [->|]; [exists i'; rewrite lookup_insert_eq; auto|].
    exists j. rewrite lookup_insert_ne by done. auto.
Qed.

(** ** Linking *)

(** The fields of an item that are no links. *)
Definition fields_of (i : hash_item) :=
  (i_time i, i_exptime i, i_nbytes i, i_flags i, iflag i, i_refcount i, slabs_clsid i,
   i_datatype i, i_cas i, i_key i, i_data i).

Lemma bare_fields i i' : bare i' = bare i -> fields_of i' = fields_of i.
Proof. exact (f_equal fields_of (x := bare i') (y := bare i)). Qed.

Lemma bare_shape i i' : bare i' = bare i ->
  slabs_clsid i' = slabs_clsid i /\ iflag i' = iflag i /\ i_key i' = i_key i /\ i_refcount i' = i_refcount i.
Proof. intros H%bare_fields. by injection H. Qed.

(** Items move between states with the same slabs; [p] is not free. *)
Lemma slabs_ok_bare e e' p i' :
  slabs_ok e -> ~ is_free e p -> is_Some (e_mem e !! p) ->
  e_slabs e' = e_slabs e -> e_config e' = e_config e -> e_pages e' = e_pages e ->
  same_items bare (<[p := i']> (e_mem e)) (e_mem e') -> slabs_ok e'.
Proof.
  intros Hok Hp [i Hi] Hs Hc Hg Hm. apply (slabs_ok_mem e); try done; [by rewrite Hc|..]; intros q; specialize (Hm q).
  - destruct (decide (q = p)) as [->|].
    + rewrite lookup_insert_eq in Hm. destruct (e_mem e' !! p); [|done]. rewrite Hi. split; eauto.
    + rewrite lookup_insert_ne in Hm by done. by destruct (e_mem e !! q), (e_mem e' !! q).
  - intros Hq. rewrite lookup_insert_ne in Hm by (by intros ->).
    destruct (e_mem e !! q), (e_mem e' !! q); cbn in *; try done.
    apply (inj Some), bare_shape in Hm as (H1 & H2 & _). by rewrite H1, H2.
Qed.

Definition upd_queue (L : Z -> list Z) (id : Z) (l : list Z) : Z -> list Z :=
  fun id' => if decide (id' = id) then l else L id'.

Lemma upd_queue_eq L id l : upd_queue L id l id = l.
Proof. unfold upd_queue. by rewrite decide_True. Qed.

Lemma upd_queue_ne L id l id' : id' <> id -> upd_queue L id l id' = L id'.
Proof. intros. unfold upd_queue. by rewrite decide_False. Qed.

Lemma step_bare e e' p i' :
  beside_items e' = beside_items e -> e_slabs e' = e_slabs e -> is_Some (e_mem e !! p) ->
  same_items bare (<[p := i']> (e_mem e)) (e_mem e') -> item_step (eq p) e e'.
Proof.
  intros Hb Hs [i Hi] Hm. apply item_step_mem; [done|done|]. intros q j Hj. specialize (Hm q).
  destruct (decide (q = p)) as [->|].
  - rewrite lookup_insert_eq in Hm. destruct (e_mem e' !! p) as [x|]; [|done]. exists x. auto.
  - rewrite lookup_insert_ne, Hj in Hm by done. destruct (e_mem e' !! q) as [x|]; [|done].
    exists x. split; [done|]. right. by apply (inj Some) in Hm.
Qed.

(** The table does not mind what happens to an item that is not in it. *)
Lemma represents_write e M p i :
  represents crc32c e M -> (forall k, M !! k <> Some p) ->
  represents crc32c (e <| e_mem := <[p := i]> (e_mem e) |>) M.
Proof.
  intros [C HC] Hp. exists C. eapply table_frame; [|exact HC]. intros k q Hk. esimpl. cbn beta.
  rewrite lookup_insert_ne; [done|]. intros ->. by apply (Hp k).
Qed.

Lemma represents_frame e e' M :
  represents crc32c e M -> e_assoc e' = e_assoc e ->
  same_items (fun i => (i_key i, h_next i)) (e_mem e) (e_mem e') -> represents crc32c e' M.
Proof.
  intros [C HC] Ha Hm. exists C. rewrite Ha. eapply table_frame; [|exact HC]. intros k p _. apply Hm.
Qed.

Lemma same_items_weaken {A B} (f : hash_item -> A) (g : hash_item -> B) m m' :
  (forall i i', f i = f i' -> g i = g i') -> same_items f m m' -> same_items g m m'.
Proof.
  intros Hfg H p. specialize (H p). destruct (m !! p), (m' !! p); cbn in *; try done.
  f_equal. apply Hfg. congruence.
Qed.

Lemma own_items_insert e M k p :
  own e k -> M !! k = None -> size (own_items e (<[k := p]> M)) = S (size (own_items e M)).
Proof.
  intros Ho Hk. unfold own_items. rewrite map_filter_insert_True by done. apply map_size_insert_None.
  rewrite map_lookup_filter_None. by left.
Qed.

Lemma own_items_delete e M k p :
  own e k -> M !! k = Some p -> size (own_items e M) = S (size (own_items e (delete k M))).
Proof.
  intros Ho Hk. rewrite <- (insert_delete_id M k p Hk) at 1.
  apply own_items_insert; [done|]. apply lookup_delete_eq.
Qed.

(** Flags. *)
Lemma flag_set f g i n :
  Z.land g f = 0 -> iflag n = Z.lor (iflag i) g -> has_flag f n = has_flag f i.
Proof. intros Hd Hn. unfold has_flag. by rewrite Hn, Z.land_lor_distr_l, Hd, Z.lor_0_r. Qed.

Lemma flag_set_eq f i n : f <> 0 -> iflag n = Z.lor (iflag i) f -> has_flag f n = true.
Proof.
  intros Hf Hn. unfold has_flag. rewrite Hn, Z.land_lor_distr_l, Z.land_diag.
  destruct (Z.eqb_spec (Z.lor (Z.land (iflag i) f) f) 0) as [E|]; [|done].
  apply Z.lor_eq_0_iff in E as [_ ?]. done.
Qed.

Lemma flag_clear_eq f i n : iflag n = Z.land (iflag i) (Z.lnot f) -> has_flag f n = false.
Proof.
  intros Hn. unfold has_flag. rewrite Hn, <- Z.land_assoc, (Z.land_comm (Z.lnot f)), Z.land_lnot_diag.
  by rewrite Z.land_0_r.
Qed.

Lemma flag_clear f g i n :
  Z.land (Z.lnot g) f = f -> iflag n = Z.land (iflag i) (Z.lnot g) -> has_flag f n = has_flag f i.
Proof. intros Hd Hn. unfold has_flag. by rewrite Hn, <- Z.land_assoc, Hd. Qed.

(** The item after it was linked. *)
Definition link_item (e : default_engine) (i : hash_item) : hash_item :=
  let i := (i <| iflag := Z.lor (iflag i) ITEM_LINKED |>) <| i_time := e_now e |> in
  if has_flag ITEM_WITH_CAS i then i <| i_cas := u64 (cas_id e + 1) |> else i.

Lemma link_item_fields e i :
  iflag (link_item e i) = Z.lor (iflag i) ITEM_LINKED /\ slabs_clsid (link_item e i) = slabs_clsid i /\
  i_key (link_item e i) = i_key i /\ links (link_item e i) = links i /\
  i_refcount (link_item e i) = i_refcount i /\ h_next (link_item e i) = h_next i.
Proof. unfold link_item. by destruct (has_flag _ _). Qed.

Lemma link_item_time e i : i_time (link_item e i) = e_now e.
Proof. unfold link_item. by destruct (has_flag _ _). Qed.

Lemma held_not_in_table e M L p i k : items_ok e M L -> held e p i -> M !! k <> Some p.
Proof.
  intros Hok Hh Hk. destruct (decide (own e k)) as [Ho|Ho].
  - destruct (io_own _ _ _ Hok k p Hk Ho) as (id & Hp). by eapply held_not_linked.
  - destruct Hh as (_ & _ & _ & Hc & _). by eapply (io_foreign _ _ _ Hok).
Qed.

Lemma item_set_cas_done p i v e :
  e_mem e !! p = Some i ->
  item_set_cas p v e = Done tt (e <| e_mem := <[p := if has_flag ITEM_WITH_CAS i then i <| i_cas := v |> else i]> (e_mem e) |>).
Proof. intros Hi. unfold item_set_cas. by erewrite write_item_done. Qed.

(** What linking does to the engine around the items. *)
Definition link_frame (e e' : default_engine) : Prop :=
  beside_items e' = beside_items e /\ e_slabs e' = e_slabs e /\ e_pages e' = e_pages e /\
  e_evicting e' = e_evicting e.

Lemma do_item_link_run e M L p i :
  items_ok e M L -> held e p i -> M !! i_key i = None ->
  exists e4 e', do_item_link crc32c p e = Done 1 e' /\
    represents crc32c e4 (<[i_key i := p]> M) /\ link_frame e e4 /\ e_items e4 = e_items e /\
    same_items unhash (<[p := link_item e i]> (e_mem e)) (e_mem e4) /\
    cas_id e4 = u64 (cas_id e + 1) /\
    curr_items (e_stats e4) = u64 (curr_items (e_stats e) + 1) /\
    queue_step (slabs_clsid i) 1 (p :: L (slabs_clsid i)) e4 e' /\
    queue (e_mem e') (e_items e') (slabs_clsid i) (p :: L (slabs_clsid i)).
Proof.
  intros Hok Hh Hk. pose proof Hh as (Hi & Hl & Hs & Hc & Hf & Ho).
  pose proof (chunk_pos e _ _ (io_slabs _ _ _ Hok) Hc) as Hp0.
  unfold do_item_link. erewrite bind_done by (by apply deref_done). rewrite Hl, Hs. cbn [negb andb]. run.
  erewrite bind_done by (apply write_item_done; exact Hi). run.
  erewrite bind_done by (apply write_item_done; esimpl; apply lookup_insert_eq). esimpl. cbn beta.
  rewrite insert_insert_eq.
  set (i2 := (i <| iflag := Z.lor (iflag i) ITEM_LINKED |>) <| i_time := e_now e |>).
  match goal with |- context [bind (assoc_insert _ _) _ ?s] => set (e2 := s) end.
  assert (e_mem e2 !! p = Some i2) as Hi2 by apply lookup_insert_eq.
  assert (represents crc32c e2 M) as Hr2.
  { apply (represents_frame (e <| e_mem := <[p := i2]> (e_mem e) |>)); [|done|apply same_items_refl].
    apply represents_write; [apply (io_table _ _ _ Hok)|]. intros k. by eapply held_not_in_table. }
  destruct (assoc_insert_ok crc32c e2 M p i2 Hr2 Hi2) as (e3 & Ha & Hr3 & Hb3 & Hm3); [done|lia|].
  erewrite bind_done by exact Ha. unfold set_stats, get_cas_id. run.
  destruct (same_items_lookup _ _ _ p i2 Hm3 Hi2) as (i3 & Hi3 & Hu3).
  erewrite bind_done by (apply item_set_cas_done; exact Hi3).
  match goal with |- context [bind (item_link_q p) _ ?s] => set (e4 := s) end.
  change (beside_table e3 = beside_table e) in Hb3.
  set (i4 := if has_flag ITEM_WITH_CAS i3 then i3 <| i_cas := u64 (cas_id e3 + 1) |> else i3).
  assert (e_mem e4 !! p = Some i4) as Hi4 by apply lookup_insert_eq.
  assert (cas_id e3 = cas_id e /\ e_items e3 = e_items e) as [Hcas Hit]
    by (unfold beside_table in Hb3; split; congruence).
  assert (unhash (link_item e i) = unhash i4) as Hu4.
  { unfold link_item, i4. fold i2. rewrite Hcas.
    assert (has_flag ITEM_WITH_CAS i3 = has_flag ITEM_WITH_CAS i2) as ->
      by (unfold has_flag; by rewrite <- (f_equal iflag Hu3 : iflag i2 = iflag i3)).
    destruct (has_flag ITEM_WITH_CAS i2); [|exact Hu3].
    exact (f_equal (fun x => x <| i_cas := u64 (cas_id e + 1) |>) Hu3). }
  assert (same_items unhash (<[p := link_item e i]> (e_mem e)) (e_mem e4)) as Hm4.
  { intros q. destruct (decide (q = p)) as [->|]; [by rewrite Hi4, lookup_insert_eq; cbn; rewrite Hu4|].
    rewrite lookup_insert_ne by done. change (e_mem e4) with (<[p := i4]> (e_mem e3)).
    rewrite lookup_insert_ne by done. rewrite <- (Hm3 q). unfold e2. esimpl. cbn beta. by rewrite lookup_insert_ne. }
  assert (p ∉ L (slabs_clsid i)) as Hnin by (by eapply held_not_linked).
  pose proof (class_range _ _ _ _ _ Hok Hc) as Hrange.
  assert (iflag i4 = Z.lor (iflag i) ITEM_LINKED /\ slabs_clsid i4 = slabs_clsid i) as [Hfl4 Hcl4].
  { destruct (link_item_fields e i) as (<- & <- & _). split;
      [exact (eq_sym (f_equal iflag Hu4))|exact (eq_sym (f_equal slabs_clsid Hu4))]. }
  destruct (item_link_q_ok p i4 (slabs_clsid i) (L (slabs_clsid i)) e4) as (e5 & Hq & Hst & Hqu); try done; [|lia| |lia|].
  { eapply queue_frame; [apply (io_queue _ _ _ Hok); lia| | |]; [change (e_items e4) with (e_items e3); by rewrite Hit..|].
    intros q Hq. specialize (Hm4 q). rewrite lookup_insert_ne in Hm4 by (by intros ->).
    destruct (e_mem e !! q), (e_mem e4 !! q); cbn in Hm4 |- *; try done. apply (inj Some) in Hm4.
    f_equal. exact (f_equal links Hm4). }
  { by rewrite (flag_set ITEM_SLABBED ITEM_LINKED i i4). }
  erewrite bind_done by exact Hq. exists e4, e5. split; [done|].
  split; [apply (represents_frame e3); [done|done|]|].
  { apply (same_items_insert _ _ _ i3); [done|]. unfold i4. by destruct (has_flag ITEM_WITH_CAS i3). }
  assert (link_frame e e3) as Hlf by (unfold beside_table in Hb3; unfold link_frame, beside_items; split_and!; congruence).
  split; [exact Hlf|].
  split; [done|]. split; [done|]. split; [by change (cas_id e4) with (u64 (cas_id e3 + 1)); rewrite Hcas|].
  split; [|done]. change (curr_items (e_stats e4)) with (u64 (curr_items (e_stats e3) + 1)).
  by replace (e_stats e3) with (e_stats e) by (unfold beside_table in Hb3; congruence).
Qed.

Lemma unhash_bare m m' : same_items unhash m m' -> same_items bare m m'.
Proof. apply same_items_weaken. intros i i' H. exact (f_equal bare H). Qed.

Lemma unqueue_bare m m' : same_items unqueue m m' -> same_items bare m m'.
Proof. apply same_items_weaken. intros i i' H. exact (f_equal bare H). Qed.

Lemma unhash_links m m' : same_items unhash m m' -> same_items links m m'.
Proof. apply same_items_weaken. intros i i' H. exact (f_equal links H). Qed.

Lemma unqueue_table m m' : same_items unqueue m m' -> same_items (fun i => (i_key i, h_next i)) m m'.
Proof. apply same_items_weaken. intros i i' H. exact (f_equal (fun i => (i_key i, h_next i)) H). Qed.

Lemma wrap_add_l w a b : wrap w (wrap w a + b) = wrap w (a + b).
Proof. unfold wrap. by rewrite Zplus_mod_idemp_l. Qed.

(** Queues after one of them changed. *)
Lemma queues_step e e4 e' M L id d l nodes :
  items_ok e M L -> queue_step id d nodes e4 e' -> 0 <= id < POWER_LARGEST ->
  e_items e4 = e_items e ->
  (forall id' q, id' <> id -> q ∈ L id' -> (q ∉ nodes) /\ (links <$> e_mem e4 !! q) = (links <$> e_mem e !! q)) ->
  queue (e_mem e') (e_items e') id l ->
  Z.of_nat (length l) = Z.of_nat (length (L id)) + d ->
  (forall id', 0 <= id' < POWER_LARGEST -> queue (e_mem e') (e_items e') id' (upd_queue L id l id')) /\
  (forall id', 0 <= id' < POWER_LARGEST -> sizes (e_items e') !! Z.to_nat id' =
     Some (u32 (Z.of_nat (length (upd_queue L id l id')) + drift id'))).
Proof.
  intros Hok Hst Hid Hit Hnodes Hq Hlen. split; intros id' Hid'.
  - destruct (decide (id' = id)) as [->|Hne]; [by rewrite upd_queue_eq|]. rewrite upd_queue_ne by done.
    eapply queue_frame; [by apply (io_queue _ _ _ Hok)| | |].
    + rewrite (qs_heads _ _ _ _ _ Hst) by lia. by rewrite Hit.
    + rewrite (qs_tails _ _ _ _ _ Hst) by lia. by rewrite Hit.
    + intros q Hin. destruct (Hnodes id' q Hne Hin) as [Hn Hl].
      by rewrite (qs_nodes _ _ _ _ _ Hst q Hn), Hl.
  - rewrite (qs_sizes _ _ _ _ _ Hst), Hit. pose proof (io_sizes _ _ _ Hok id' Hid') as Hs.
    destruct (decide (id' = id)) as [->|Hne].
    + rewrite list_lookup_alter, decide_True, Hs, upd_queue_eq by done. cbn. f_equal. rewrite wrap_add_l. f_equal. lia.
    + rewrite list_lookup_alter_ne, upd_queue_ne by lia. done.
Qed.

(** Item [p] becomes [i'] and moves; everything else stays, up to links. *)
Record moved (p : Z) (i' : hash_item) (e e' : default_engine) : Prop := {
  mv_frame : link_frame e e';
  mv_mem : same_items bare (<[p := i']> (e_mem e)) (e_mem e');
}.

Lemma moved_intro p i' id d nodes e e4 e' :
  link_frame e e4 -> same_items unhash (<[p := i']> (e_mem e)) (e_mem e4) ->
  queue_step id d nodes e4 e' ->
  moved p i' e e' /\ e_stats e' = e_stats e4 /\ cas_id e' = cas_id e4 /\ e_assoc e' = e_assoc e4.
Proof.
  intros (Hb & Hs & Hp & Hv) Hm Hst. pose proof (qs_beside _ _ _ _ _ Hst) as Hbq. unfold beside_queues in Hbq.
  split; [split|split_and!; congruence].
  - unfold link_frame, beside_items in *. split_and!; congruence.
  - eapply same_items_trans; [by apply unhash_bare|]. apply unqueue_bare, (qs_mem _ _ _ _ _ Hst).
Qed.

Section Moved.
Context (p : Z) (i' : hash_item) (e e' : default_engine).
Hypothesis (Hmv : moved p i' e e').

Lemma moved_bucket : bucket_id e' = bucket_id e.
Proof. destruct (mv_frame _ _ _ _ Hmv) as (Hb & _). unfold beside_items in Hb. congruence. Qed.

Lemma moved_own k : own e' k <-> own e k.
Proof. unfold own. by rewrite moved_bucket. Qed.

Lemma moved_chunk id c : chunk_of e' id c <-> chunk_of e id c.
Proof. apply chunk_of_same, (mv_frame _ _ _ _ Hmv). Qed.

Lemma moved_free c : is_free e' c <-> is_free e c.
Proof. apply is_free_same, (mv_frame _ _ _ _ Hmv). Qed.

Lemma moved_item : exists j, e_mem e' !! p = Some j /\ bare j = bare i'.
Proof.
  destruct (same_items_lookup bare _ _ p i' (mv_mem _ _ _ _ Hmv)) as (j & ? & ?); [apply lookup_insert_eq|].
  by exists j.
Qed.

Lemma moved_other q j :
  q <> p -> e_mem e !! q = Some j -> exists j', e_mem e' !! q = Some j' /\ bare j' = bare j.
Proof.
  intros Hne Hj. destruct (same_items_lookup bare _ _ q j (mv_mem _ _ _ _ Hmv)) as (j' & ? & ?);
    [by rewrite lookup_insert_ne|]. by exists j'.
Qed.

Lemma moved_slabs : slabs_ok e -> ~ is_free e p -> is_Some (e_mem e !! p) -> slabs_ok e'.
Proof.
  intros Hok Hf Hp. destruct (mv_frame _ _ _ _ Hmv) as (Hb & Hs & Hg & _).
  eapply (slabs_ok_bare e e' p i'); try done; [unfold beside_items in Hb; congruence|]. apply (mv_mem _ _ _ _ Hmv).
Qed.

Lemma moved_step : is_Some (e_mem e !! p) -> item_step (eq p) e e'.
Proof.
  intros Hp. destruct (mv_frame _ _ _ _ Hmv) as (Hb & Hs & _ & _).
  apply (step_bare e e' p i'); try done. apply (mv_mem _ _ _ _ Hmv).
Qed.

(** Items other than [p] stay in the cache. *)
Lemma moved_linked id q j :
  q <> p -> linked_item e id q j -> exists j', linked_item e' id q j' /\ i_key j' = i_key j.
Proof.
  intros Hne Hj. destruct (moved_other q j Hne (proj1 Hj)) as (j' & Hj' & (E1 & E2 & E3 & _)%bare_shape).
  exists j'. split; [|done]. eapply linked_item_same; try done; [apply moved_bucket|].
  intros ? ?. apply moved_chunk.
Qed.
End Moved.

(** The invariant after a move, from what the move did to table and queues. *)
Lemma items_ok_moved e e' M M' L L' p i' :
  items_ok e M L -> moved p i' e e' -> is_Some (e_mem e !! p) -> ~ is_free e p ->
  represents crc32c e' M' ->
  (forall id, 0 <= id < POWER_LARGEST -> queue (e_mem e') (e_items e') id (L' id)) ->
  (forall id, 0 <= id < POWER_LARGEST -> sizes (e_items e') !! Z.to_nat id =
     Some (u32 (Z.of_nat (length (L' id)) + drift id))) ->
  itemstats (e_items e') = itemstats (e_items e) ->
  (forall id, aged (<[p := i']> (e_mem e)) (e_now e) (L' id)) ->
  (forall id q j, q ∈ L' id -> q <> p -> e_mem e !! q = Some j ->
     q ∈ L id /\ (M !! i_key j = Some q -> M' !! i_key j = Some q)) ->
  (forall id q, q ∈ L' id -> is_Some (e_mem e !! q)) ->
  (forall id, p ∈ L' id -> exists j, linked_item e' id p j /\ M' !! i_key j = Some p) ->
  (forall k q, M' !! k = Some q -> own e k -> exists id, q ∈ L' id) ->
  (forall k q, M' !! k = Some q -> ~ own e k -> M !! k = Some q) ->
  curr_items (e_stats e') = u64 (Z.of_nat (size (own_items e M'))) ->
  items_ok e' M' L'.
Proof.
  intros Hok Hmv Hp Hf Hr Hq Hs Hst Hti Hold Hmem Hnew Hown Hfor Hcur. split; try done.
  - apply (moved_slabs _ _ _ _ Hmv); [apply (io_slabs _ _ _ Hok)|done|done].
  - destruct (mv_frame _ _ _ _ Hmv) as (_ & -> & _). apply (io_largest _ _ _ Hok).
  - rewrite Hst. apply (io_stats _ _ _ Hok).
  - destruct (mv_frame _ _ _ _ Hmv) as (Hb & _).
    assert (e_now e' = e_now e) as -> by (unfold beside_items in Hb; congruence). apply (io_now _ _ _ Hok).
  - intros id. destruct (mv_frame _ _ _ _ Hmv) as (Hb & _).
    assert (e_now e' = e_now e) as -> by (unfold beside_items in Hb; congruence). eapply aged_frame; [apply Hti|].
    intros q _. pose proof (mv_mem _ _ _ _ Hmv q) as Hq'.
    destruct (<[p := i']> (e_mem e) !! q) as [x|], (e_mem e' !! q) as [y|]; cbn in Hq'; try done.
    apply (inj Some) in Hq'. cbn. f_equal. symmetry. exact (f_equal i_time Hq').
  - intros id q Hin. destruct (decide (q = p)) as [->|Hne]; [by apply Hnew|].
    destruct (Hmem id q Hin) as [j Hj]. destruct (Hold id q j Hin Hne Hj) as [Hin' HM].
    destruct (io_item _ _ _ Hok id q Hin') as (j' & Hj' & HMj). assert (j' = j) as -> by (destruct Hj'; congruence).
    destruct (moved_linked _ _ _ _ Hmv id q j Hne Hj') as (j' & ? & Ek). exists j'. rewrite Ek. auto.
  - intros k q HM Ho%(moved_own _ _ _ _ Hmv). by eapply Hown.
  - intros k q x HM Ho. rewrite (moved_own _ _ _ _ Hmv) in Ho. rewrite (moved_chunk _ _ _ _ Hmv).
    eapply (io_foreign _ _ _ Hok); [|done]. by apply Hfor.
  - by rewrite Hcur, (own_items_same e e' _ (moved_bucket _ _ _ _ Hmv)).
Qed.

Lemma do_item_link_ok e M L p i :
  items_ok e M L -> held e p i -> M !! i_key i = None ->
  exists e' i', do_item_link crc32c p e = Done 1 e' /\
    items_ok e' (<[i_key i := p]> M) (upd_queue L (slabs_clsid i) (p :: L (slabs_clsid i))) /\
    item_step (eq p) e e' /\ e_mem e' !! p = Some i' /\ bare i' = bare (link_item e i) /\
    cas_id e' = u64 (cas_id e + 1) /\ e_evicting e' = e_evicting e /\
    (forall c, is_free e' c <-> is_free e c).
Proof.
  intros Hok Hh Hk. pose proof Hh as (Hi & Hl & Hs & Hc & Hf & Ho).
  destruct (do_item_link_run e M L p i Hok Hh Hk)
    as (e4 & e' & Hrun & Hr & Hfr & Hit & Hm4 & Hcas & Hcur & Hst & Hq).
  pose proof (class_range _ _ _ _ _ Hok Hc) as Hid. set (id := slabs_clsid i) in *.
  destruct (moved_intro _ _ _ _ _ _ _ _ Hfr Hm4 Hst) as (Hmv & Hst' & Hca' & Has').
  destruct (moved_item _ _ _ _ Hmv) as (i' & Hi' & Hbi'). destruct (link_item_fields e i) as (Lf & Lc & Lk & _ & _).
  pose proof (bare_shape _ _ Hbi') as (E1 & E2 & E3 & _).
  assert (forall id', p ∉ L id') as Hnin by (intros id'; by eapply held_not_linked).
  exists e', i'. split; [done|]. split; [|split; [by apply (moved_step _ _ _ _ Hmv); eexists|]; split; [done|];
    split; [done|]; split; [congruence|]; split; [apply (mv_frame _ _ _ _ Hmv)|apply (moved_free _ _ _ _ Hmv)]].
  destruct (queues_step e e4 e' M L id 1 (p :: L id) (p :: L id) Hok Hst) as [Hqs Hss]; try done; [lia| |cbn; lia|].
  { intros id' q Hne Hin. split.
    - apply not_elem_of_cons. split; [intros ->; by apply (Hnin id')|]. intros HC. by eapply Hne, queues_disjoint.
    - rewrite <- (unhash_links _ _ Hm4 q), lookup_insert_ne; [done|]. intros ->; by apply (Hnin id'). }
  apply (items_ok_moved e e' M _ L _ p (link_item e i) Hok Hmv (mk_is_Some _ _ Hi) Hf); try done.
  - apply (represents_frame e4); [done|done|]. apply unqueue_table, (qs_mem _ _ _ _ _ Hst).
  - by rewrite (qs_stats _ _ _ _ _ Hst), Hit.
  - intros id'. assert (aged (<[p := link_item e i]> (e_mem e)) (e_now e) (L id')) as Ha.
    { eapply aged_frame; [apply (io_times _ _ _ Hok)|]. intros q Hq'. rewrite lookup_insert_ne; [done|]. intros ->. by apply (Hnin id'). }
    unfold upd_queue. case_decide as E; [subst id'|done]. exists (link_item e i). split; [apply lookup_insert_eq|].
    rewrite link_item_time. pose proof (io_now _ _ _ Hok). split; [lia|done].
  - intros id' q j Hin Hne Hj. split; [unfold upd_queue in Hin; case_decide; [subst|]; set_solver|].
    intros HM. rewrite lookup_insert_ne; [done|]. congruence.
  - intros id' q Hin. destruct (decide (q = p)) as [->|Hne]; [by eexists|].
    assert (q ∈ L id') as Hin' by (unfold upd_queue in Hin; case_decide; [subst|]; set_solver).
    destruct (io_item _ _ _ Hok id' q Hin') as (j & (Hj & _) & _). by eexists.
  - intros id' Hin. assert (id' = id) as ->.
    { destruct (decide (id' = id)); [done|]. rewrite upd_queue_ne in Hin by done. by destruct (Hnin id'). }
    exists i'. split; [|by rewrite E3, Lk, lookup_insert_eq]. split; [done|]. split; [by rewrite E1|].
    split; [eapply flag_set_eq; [done|]; by rewrite E2|]. split; [rewrite <- Hs; eapply flag_set; [|by rewrite E2]; done|].
    split; [by apply (moved_chunk _ _ _ _ Hmv)|]. apply (moved_own _ _ _ _ Hmv). by rewrite E3, Lk.
  - intros k q HM Hk'. destruct (decide (k = i_key i)) as [->|Hne].
    + rewrite lookup_insert_eq in HM. injection HM as <-. exists id. rewrite upd_queue_eq. left.
    + rewrite lookup_insert_ne in HM by done. destruct (io_own _ _ _ Hok k q HM Hk') as (id' & Hin).
      exists id'. unfold upd_queue. case_decide as E; [subst id'; by right|done].
  - intros k q HM Hk'. rewrite lookup_insert_ne in HM; [done|]. congruence.
  - rewrite Hst', Hcur, (io_count _ _ _ Hok), own_items_insert by done. rewrite wrap_add_l. f_equal. lia.
Qed.

(** ** Freeing *)

Lemma beside_slabs_items e e' :
  beside_slabs e' = beside_slabs e ->
  beside_items e' = beside_items e /\ e_assoc e' = e_assoc e /\ e_items e' = e_items e /\
  e_stats e' = e_stats e /\ cas_id e' = cas_id e /\ e_evicting e' = e_evicting e /\
  bucket_id e' = bucket_id e.
Proof. intros H. unfold beside_slabs in H. unfold beside_items. split_and!; congruence. Qed.

(** The allocator works beside the items. *)
Lemma items_ok_slab e e' M L :
  items_ok e M L -> slabs_ok e' -> slab_step e e' -> items_ok e' M L.
Proof.
  intros Hok Hs' Hst. destruct (beside_slabs_items _ _ (st_beside _ _ Hst)) as (Hb & Ha & Hq & Hss & _ & _ & Hbu).
  assert (forall k, own e' k <-> own e k) as Hown by (intros; unfold own; by rewrite Hbu).
  split; rewrite ?Hq, ?Hss, ?(st_largest _ _ Hst).
  - destruct (io_table _ _ _ Hok) as [C HC]. exists C. rewrite Ha. eapply table_frame; [|exact HC].
    intros k p Hk. destruct (table_item _ _ _ _ _ Hok Hk) as (i & Hi & _).
    by rewrite Hi, (st_mem _ _ Hst p i Hi).
  - done.
  - apply (io_largest _ _ _ Hok).
  - intros id Hid. eapply queue_frame; [by apply (io_queue _ _ _ Hok)|done|done|].
    intros p Hp. destruct (io_item _ _ _ Hok id p Hp) as (i & (Hi & _) & _).
    by rewrite Hi, (st_mem _ _ Hst p i Hi).
  - apply (io_sizes _ _ _ Hok).
  - apply (io_stats _ _ _ Hok).
  - assert (e_now e' = e_now e) as -> by (unfold beside_items in Hb; congruence). apply (io_now _ _ _ Hok).
  - intros id. assert (e_now e' = e_now e) as -> by (unfold beside_items in Hb; congruence).
    eapply aged_frame; [apply (io_times _ _ _ Hok)|]. intros p Hp.
    destruct (io_item _ _ _ Hok id p Hp) as (i & (Hi & _) & _). by rewrite Hi, (st_mem _ _ Hst p i Hi).
  - intros id p Hp. destruct (io_item _ _ _ Hok id p Hp) as (i & Hl & Hk). exists i. split; [|done].
    eapply linked_item_same; try done; [by apply (st_mem _ _ Hst), (proj1 Hl)|apply (st_chunks _ _ Hst)].
  - intros k p Hk Ho%Hown. by eapply (io_own _ _ _ Hok).
  - intros k p id Hk Ho Hc. destruct (table_item _ _ _ _ _ Hok Hk) as (i & Hi & _).
    apply (st_new _ _ Hst) in Hc as [Hc|Hn]; [|congruence].
    eapply (io_foreign _ _ _ Hok); [done| |done]. by rewrite <- Hown.
  - by rewrite (own_items_same e e'), (io_count _ _ _ Hok).
Qed.

Lemma item_step_slab (S : Z -> Prop) e e' :
  slab_step e e' -> (forall p, is_Some (e_mem e !! p) -> is_free e' p -> is_free e p \/ S p) -> item_step S e e'.
Proof.
  intros Hst Hf. split; try done.
  - by apply beside_slabs_items, (st_beside _ _ Hst).
  - apply (st_largest _ _ Hst).
  - apply (st_size _ _ Hst).
  - apply (st_chunks _ _ Hst).
  - intros p i Hi. right. exists i. split; [by apply (st_mem _ _ Hst)|done].
  - intros p [i Hi]. exists i. by apply (st_mem _ _ Hst).
Qed.

(** Memory that is neither free nor in the cache. *)
Definition loose (e : default_engine) (M : gmap bytes Z) (L : Z -> list Z) (p : Z) : Prop :=
  is_Some (e_mem e !! p) /\ ~ is_free e p /\ (forall id, p ∉ L id) /\ (forall k, M !! k <> Some p).

Lemma held_loose e M L p i : items_ok e M L -> held e p i -> loose e M L p.
Proof.
  intros Hok Hh. pose proof Hh as (Hi & _ & _ & _ & Hf & _). split; [by eexists|]. split; [done|].
  split; [intros id; by eapply held_not_linked|intros k; by eapply held_not_in_table].
Qed.

Lemma items_ok_loose e M L p i' :
  items_ok e M L -> loose e M L p ->
  let e' := e <| e_mem := <[p := i']> (e_mem e) |> in
  items_ok e' M L /\ item_step (eq p) e e'.
Proof.
  intros Hok (Hi & Hf & Hn & Ht) e'.
  assert (same_items bare (<[p := i']> (e_mem e)) (e_mem e')) as Hm by apply same_items_refl.
  split; [|by apply (step_bare e e' p i')].
  assert (forall id q, q ∈ L id -> e_mem e' !! q = e_mem e !! q) as Hl.
  { intros id q Hq. apply lookup_insert_ne. intros ->. by apply (Hn id). }
  split; try apply Hok.
  - by apply represents_write; [apply (io_table _ _ _ Hok)|].
  - by eapply (slabs_ok_bare e e' p i'); [apply (io_slabs _ _ _ Hok)|..].
  - intros id Hid. eapply queue_frame; [by apply (io_queue _ _ _ Hok)|done|done|].
    intros q Hq. by rewrite (Hl id q Hq).
  - intros id. eapply aged_frame; [apply (io_times _ _ _ Hok)|]. intros q Hq. by rewrite (Hl id q Hq).
  - intros id q Hq. destruct (io_item _ _ _ Hok id q Hq) as (j & Hj & Hk). exists j. split; [|done].
    eapply linked_item_same; try done. rewrite (Hl id q Hq). apply Hj.
Qed.

(** Heads and tails are in the queues. *)
Lemma queue_ends e M L id p :
  items_ok e M L -> 0 <= id < POWER_LARGEST -> p <> 0 -> (forall id, p ∉ L id) ->
  exists h t, get_head id e = Done h e /\ get_tail id e = Done t e /\ p <> h /\ p <> t.
Proof.
  intros Hok Hid Hp Hn. destruct (io_queue _ _ _ Hok id Hid) as [Hh Ht _ _].
  exists (first (L id) 0), (final 0 (L id)). split; [by apply get_head_done|]. split; [by apply get_tail_done|].
  split; intros ->; apply (Hn id).
  - by destruct (first_in (L id) 0) as [E|].
  - by destruct (final_in 0 (L id)) as [E|].
Qed.

Definition free_item (i : hash_item) : hash_item :=
  (i <| slabs_clsid := 0 |>) <| iflag := Z.lor (iflag i) ITEM_SLABBED |>.

Lemma item_free_ok e M L p i :
  items_ok e M L -> held e p i -> i_refcount i = 0 ->
  exists e', item_free p e = Done tt e' /\ items_ok e' M L /\ item_step (eq p) e e' /\
    e_mem e' !! p = Some (free_item i) /\ cas_id e' = cas_id e /\ e_evicting e' = e_evicting e /\
    (forall c, is_free e' c -> is_free e c \/ c = p).
Proof.
  intros Hok Hh Hr. pose proof Hh as (Hi & Hl & Hs & Hc & Hf & Ho).
  pose proof (chunk_pos e _ _ (io_slabs _ _ _ Hok) Hc) as Hp0.
  pose proof (class_range _ _ _ _ _ Hok Hc) as Hid.
  destruct (queue_ends e M L (slabs_clsid i) p Hok) as (h & t & Hh1 & Ht1 & Hne1 & Hne2);
    [lia|lia|intros id; by eapply held_not_linked|].
  unfold item_free. erewrite bind_done by (by apply deref_done). unfold the_engine. run. rewrite Hl, Hr. cbn [negb Z.eqb orb].
  run. erewrite bind_done by exact Hh1. rewrite (proj2 (Z.eqb_neq _ _) Hne1). cbn [negb]. run.
  erewrite bind_done by exact Ht1. rewrite (proj2 (Z.eqb_neq _ _) Hne2). cbn [negb]. run.
  erewrite bind_done by (apply write_item_done; exact Hi).
  erewrite bind_done by (apply write_item_done; esimpl; apply lookup_insert_eq). esimpl. cbn beta.
  rewrite insert_insert_eq. destruct (items_ok_loose e M L p (free_item i) Hok (held_loose _ _ _ _ _ Hok Hh)) as [Hok2 Hst2].
  set (e2 := e <| e_mem := <[p := free_item i]> (e_mem e) |>) in *.
  match goal with |- context [slabs_free p ?n _ ?s] => change s with e2; set (nt := n) end.
  destruct (slabs_free_ok e2 (slabs_clsid i) p nt (io_slabs _ _ _ Hok2)) as (e' & Hfr & Hs' & Hst' & Hm' & Hfree).
  { by apply (chunk_of_same e e2). }
  { by rewrite (is_free_same e e2). }
  { intros j Hj. change (<[p := free_item i]> (e_mem e) !! p = Some j) in Hj. rewrite lookup_insert_eq in Hj.
    injection Hj as <-. split; [done|]. rewrite <- Hl. by apply (flag_set ITEM_LINKED ITEM_SLABBED i). }
  destruct (beside_slabs_items _ _ (st_beside _ _ Hst')) as (_ & _ & _ & _ & Hca & Hev & _).
  exists e'. split; [exact Hfr|]. split; [by apply (items_ok_slab e2)|]. split.
  { eapply item_step_trans; [exact Hst2|apply (item_step_slab (eq p) e2 e' Hst')|done|done].
    intros q _ Hq. destruct (Hfree q Hq) as [?| ->]; [by left|by right]. }
  split; [by rewrite Hm'; apply lookup_insert_eq|]. split; [done|]. split; [done|].
  intros c [Hc'| ->]%Hfree; [|by right]. left. by apply (is_free_same e e2).
Qed.

(** ** Unlinking *)

Definition unlink_item (i : hash_item) : hash_item :=
  i <| iflag := Z.land (iflag i) (Z.lnot ITEM_LINKED) |>.

(** The statements of [do_item_unlink] before the item is freed. *)
Lemma do_item_unlink_run e M L id p i l1 l2 :
  items_ok e M L -> linked_item e id p i -> L id = l1 ++ p :: l2 ->
  exists e3 e4 i4, do_item_unlink crc32c p e =
      (when ((i_refcount i == 0) || force_delete (e_scrubber e)) (item_free p)) e4 /\
    represents crc32c e3 (delete (i_key i) M) /\ link_frame e e3 /\ e_items e3 = e_items e /\
    same_items unhash (<[p := unlink_item i]> (e_mem e)) (e_mem e3) /\
    cas_id e3 = cas_id e /\ curr_items (e_stats e3) = u64 (curr_items (e_stats e) - 1) /\
    queue_step id (-1) (l1 ++ l2) e3 e4 /\ e_mem e4 !! p = Some i4 /\ unhash i4 = unhash (unlink_item i) /\
    queue (e_mem e4) (e_items e4) id (l1 ++ l2).
Proof.
  intros Hok (Hi & Hid & Hl & Hs & Hc & Ho) HL.
  assert (p ∈ L id) as Hin by (rewrite HL; set_solver). pose proof (linked_range _ _ _ _ _ Hok Hin) as Hrange.
  assert (M !! i_key i = Some p) as Hk.
  { destruct (io_item _ _ _ Hok id p Hin) as (j & (Hj & _) & Hk). congruence. }
  unfold do_item_unlink. erewrite bind_done by (by apply deref_done). rewrite Hl. cbn [when].
  erewrite bind_done by (apply write_item_done; exact Hi). unfold set_stats. run.
  match goal with |- context [bind (assoc_delete _ _) _ ?s] => set (e2 := s) end.
  assert (represents crc32c e2 M) as Hr2.
  { apply (represents_frame e); [apply (io_table _ _ _ Hok)|done|]. by apply (same_items_insert _ _ _ i). }
  destruct (assoc_delete_ok crc32c e2 M (i_key i) p Hr2 Hk) as (e3 & Hd & Hr3 & Hb3 & Hm3).
  erewrite bind_done by exact Hd.
  assert (same_items unhash (<[p := unlink_item i]> (e_mem e)) (e_mem e3)) as Hm by exact Hm3.
  change (beside_table e3 = beside_table e2) in Hb3.
  destruct (same_items_lookup unhash _ _ p (unlink_item i) Hm) as (i3 & Hi3 & Hu3); [apply lookup_insert_eq|].
  assert (e_items e3 = e_items e) as Hit by (by injection Hb3).
  destruct (item_unlink_q_ok p i3 id l1 l2 e3) as (e4 & Hu & Hst & Hi4 & Hq); [|done| |lia|].
  { eapply queue_frame; [rewrite <- HL; apply (io_queue _ _ _ Hok); lia|by rewrite Hit|by rewrite Hit|].
    intros q Hq. rewrite <- (unhash_links _ _ Hm q). destruct (decide (q = p)) as [->|];
      [by rewrite lookup_insert_eq, Hi|by rewrite lookup_insert_ne]. }
  { rewrite <- Hid. exact (eq_sym (f_equal slabs_clsid Hu3)). }
  erewrite bind_done by exact Hu. erewrite bind_done by (apply deref_done; exact Hi4). run.
  pose proof (qs_beside _ _ _ _ _ Hst) as Hbq. injection Hb3 as E1 E2 E3 E4 E5 E6 E7 E8 E9 E10 E11.
  exists e3, e4, i3. split.
  { replace (e_scrubber e4) with (e_scrubber e); [|unfold beside_queues in Hbq; congruence].
    by rewrite <- (f_equal i_refcount Hu3 : i_refcount i = i_refcount i3). }
  split; [done|]. split; [unfold link_frame, beside_items; split_and!; congruence|]. split; [done|]. split; [done|].
  split; [done|]. split; [by rewrite E4|]. done.
Qed.

Lemma unlinked_ok e M L id p i l1 l2 :
  items_ok e M L -> linked_item e id p i -> L id = l1 ++ p :: l2 ->
  exists e' i', do_item_unlink crc32c p e =
      (when ((i_refcount i == 0) || force_delete (e_scrubber e)) (item_free p)) e' /\
    items_ok e' (delete (i_key i) M) (upd_queue L id (l1 ++ l2)) /\ moved p (unlink_item i) e e' /\
    held e' p i' /\ bare i' = bare (unlink_item i) /\ cas_id e' = cas_id e.
Proof.
  intros Hok Hli HL. pose proof Hli as (Hi & Hid & Hl & Hs & Hc & Ho).
  destruct (do_item_unlink_run e M L id p i l1 l2 Hok Hli HL)
    as (e3 & e' & i' & Hrun & Hr & Hfr & Hit & Hm & Hcas & Hcur & Hst & Hi' & Hu & Hq).
  assert (p ∈ L id) as Hin by (rewrite HL; set_solver). pose proof (linked_range _ _ _ _ _ Hok Hin) as Hrange.
  assert (~ is_free e p) as Hf by (by eapply linked_not_free).
  destruct (moved_intro _ _ _ _ _ _ _ _ Hfr Hm Hst) as (Hmv & Hst' & Hca' & Has').
  assert (bare i' = bare (unlink_item i)) as Hbi' by exact (f_equal bare Hu).
  pose proof (bare_shape _ _ Hbi') as (E1 & E2 & E3 & _).
  assert (M !! i_key i = Some p) as Hk.
  { destruct (io_item _ _ _ Hok id p Hin) as (j & (Hj & _) & Hk). congruence. }
  destruct (io_queue _ _ _ Hok id) as [_ _ _ Hnd]; [lia|]. rewrite HL in Hnd.
  assert (forall id' q, q ∈ upd_queue L id (l1 ++ l2) id' -> q <> p /\ q ∈ L id') as Hsub.
  { intros id' q Hq'. unfold upd_queue in Hq'. case_decide as E.
    - subst id'. rewrite HL. apply NoDup_app in Hnd as (_ & Hd & [Hp2 _]%NoDup_cons). split; [|set_solver].
      intros ->. apply elem_of_app in Hq' as [HC|HC]; [apply (Hd p HC); left|done].
    - split; [|done]. intros ->. by eapply E, queues_disjoint. }
  exists e', i'. split; [done|]. split; [|split; [done|split; [|split; [done|congruence]]]].
  2: { split; [done|]. split; [exact (flag_clear_eq ITEM_LINKED i i' E2)|].
       split; [rewrite <- Hs; exact (flag_clear ITEM_SLABBED ITEM_LINKED i i' eq_refl E2)|].
       rewrite (moved_chunk _ _ _ _ Hmv), (moved_free _ _ _ _ Hmv), (moved_own _ _ _ _ Hmv), E1, E3.
       change (slabs_clsid (unlink_item i)) with (slabs_clsid i). by rewrite Hid. }
  destruct (queues_step e e3 e' M L id (-1) (l1 ++ l2) (l1 ++ l2) Hok Hst) as [Hqs Hss]; try done; [lia| | |].
  { intros id' q Hne Hq'. split.
    - intros HC. apply Hne. eapply queues_disjoint; [done|done|]. rewrite HL. set_solver.
    - rewrite <- (unhash_links _ _ Hm q), lookup_insert_ne; [done|]. intros ->. by eapply Hne, queues_disjoint. }
  { rewrite HL, !length_app. cbn. lia. }
  apply (items_ok_moved e e' M _ L _ p (unlink_item i) Hok Hmv (mk_is_Some _ _ Hi) Hf); try done.
  - apply (represents_frame e3); [done|done|]. apply unqueue_table, (qs_mem _ _ _ _ _ Hst).
  - by rewrite (qs_stats _ _ _ _ _ Hst), Hit.
  - intros id'. eapply aged_frame.
    + instantiate (1 := e_mem e). pose proof (io_times _ _ _ Hok id') as Ha. unfold upd_queue.
      case_decide as E; [subst id'|done]. rewrite HL in Ha. by eapply aged_remove.
    + intros q [Hne _]%Hsub. by rewrite lookup_insert_ne.
  - intros id' q j [_ Hq']%Hsub Hne Hj. split; [done|]. intros HM. rewrite lookup_delete_ne; [done|]. congruence.
  - intros id' q [_ Hq']%Hsub. destruct (io_item _ _ _ Hok id' q Hq') as (j & (Hj & _) & _). by eexists.
  - intros id' [? _]%Hsub. done.
  - intros k q [Hne HM]%lookup_delete_Some Hk'.
    destruct (io_own _ _ _ Hok k q HM Hk') as (id' & Hin'). exists id'. unfold upd_queue. case_decide as E; [|done].
    subst id'. rewrite HL in Hin'. apply elem_of_app in Hin' as [?|[->|?]%elem_of_cons]; [set_solver| |set_solver].
    destruct (table_item _ _ _ _ _ Hok HM) as (j & Hj & <-). congruence.
  - intros k q [Hne HM]%lookup_delete_Some _. done.
  - rewrite Hst', Hcur, (io_count _ _ _ Hok), (own_items_delete e M (i_key i) p Ho Hk).
    unfold Z.sub. rewrite wrap_add_l. f_equal. lia.
Qed.

(** Removing an item from the cache: nobody uses it, and it is freed. *)
Lemma do_item_unlink_free e M L id p i :
  items_ok e M L -> linked_item e id p i -> p ∈ L id -> force_delete (e_scrubber e) = false ->
  i_refcount i = 0 ->
  exists e' l1 l2, L id = l1 ++ p :: l2 /\ do_item_unlink crc32c p e = Done tt e' /\
    items_ok e' (delete (i_key i) M) (upd_queue L id (l1 ++ l2)) /\ item_step (eq p) e e' /\
    (exists i', e_mem e' !! p = Some i' /\ slabs_clsid i' = 0) /\
    cas_id e' = cas_id e /\ e_evicting e' = e_evicting e /\ (forall c, is_free e' c -> is_free e c \/ c = p).
Proof.
  intros Hok Hli Hin Hfd Hr. apply list_elem_of_split in Hin as (l1 & l2 & HL).
  destruct (unlinked_ok e M L id p i l1 l2 Hok Hli HL) as (e1 & i1 & Hrun & Hok1 & Hmv & Hh & Hb & Hca).
  rewrite Hr in Hrun. cbn [Z.eqb orb when] in Hrun.
  assert (i_refcount i1 = 0) as Hr1 by (apply bare_shape in Hb as (_ & _ & _ & E); by rewrite E).
  destruct (item_free_ok e1 _ _ p i1 Hok1 Hh Hr1) as (e' & Hf & Hok' & Hst & Hm & Hca' & Hev' & Hfr).
  exists e', l1, l2. split; [done|]. split; [congruence|]. split; [done|].
  pose proof (mv_frame _ _ _ _ Hmv) as (_ & _ & _ & Hev).
  split; [eapply item_step_trans; [by apply (moved_step _ _ _ _ Hmv); destruct Hli; eexists|exact Hst|done|done]|].
  split; [by eexists|]. split; [congruence|]. split; [congruence|].
  intros c [Hc| ->]%Hfr; [|by right]. left. by apply (moved_free _ _ _ _ Hmv).
Qed.

(** Somebody uses it: it is not in the cache any more. *)
Lemma do_item_unlink_held e M L id p i :
  items_ok e M L -> linked_item e id p i -> p ∈ L id -> force_delete (e_scrubber e) = false ->
  i_refcount i <> 0 ->
  exists e' i' l1 l2, L id = l1 ++ p :: l2 /\ do_item_unlink crc32c p e = Done tt e' /\
    items_ok e' (delete (i_key i) M) (upd_queue L id (l1 ++ l2)) /\ item_step (eq p) e e' /\
    held e' p i' /\ bare i' = bare (unlink_item i) /\
    cas_id e' = cas_id e /\ e_evicting e' = e_evicting e /\ (forall c, is_free e' c <-> is_free e c).
Proof.
  intros Hok Hli Hin Hfd Hr. apply list_elem_of_split in Hin as (l1 & l2 & HL).
  destruct (unlinked_ok e M L id p i l1 l2 Hok Hli HL) as (e' & i' & Hrun & Hok1 & Hmv & Hh & Hb & Hca).
  rewrite (proj2 (Z.eqb_neq _ _) Hr), Hfd in Hrun. cbn [orb when] in Hrun.
  exists e', i', l1, l2. split; [done|]. split; [done|]. split; [done|].
  split; [by apply (moved_step _ _ _ _ Hmv); destruct Hli; eexists|]. split; [done|]. split; [done|].
  split; [done|]. split; [apply (mv_frame _ _ _ _ Hmv)|apply (moved_free _ _ _ _ Hmv)].
Qed.

(** ** Releasing and updating *)

Definition drop_ref (i : hash_item) : hash_item :=
  if i_refcount i == 0 then i else i <| i_refcount := i_refcount i - 1 |>.

Lemma drop_ref_skeleton i : skeleton (drop_ref i) = skeleton i.
Proof. unfold drop_ref. by destruct (_ == 0). Qed.

(** The reference is given back; the item is freed when it was the last one
    and the item is not in the cache. *)
Lemma do_item_release_run e M L p i :
  items_ok e M L -> e_mem e !! p = Some i ->
  exists e', do_item_release p e =
      (when ((i_refcount (drop_ref i) == 0) && negb (has_flag ITEM_LINKED i)) (item_free p)) e' /\
    items_ok e' M L /\ item_step (eq p) e e' /\ e_mem e' !! p = Some (drop_ref i) /\
    e_slabs e' = e_slabs e /\ cas_id e' = cas_id e /\ e_evicting e' = e_evicting e.
Proof.
  intros Hok Hi. unfold do_item_release. erewrite bind_done by (by apply deref_done). run.
  unfold drop_ref. destruct (i_refcount i == 0) eqn:Er; cbn [negb].
  - exists e. erewrite bind_done by (by apply deref_done). rewrite Er.
    split; [done|]. split; [done|]. split; [apply item_step_refl|]. done.
  - erewrite bind_done by (apply write_item_done; exact Hi).
    set (i1 := i <| i_refcount := i_refcount i - 1 |>).
    destruct (items_ok_write e M L p i i1 Hok Hi eq_refl) as [Hok1 Hst1].
    eexists. erewrite bind_done by (apply deref_done; esimpl; apply lookup_insert_eq).
    split; [done|]. split; [exact Hok1|]. split; [exact Hst1|]. split; [apply lookup_insert_eq|done].
Qed.

Lemma do_item_release_linked e M L id p i :
  items_ok e M L -> linked_item e id p i ->
  exists e', do_item_release p e = Done tt e' /\ items_ok e' M L /\ item_step (eq p) e e' /\
    e_mem e' !! p = Some (drop_ref i) /\ cas_id e' = cas_id e /\ e_evicting e' = e_evicting e /\
    (forall c, is_free e' c <-> is_free e c).
Proof.
  intros Hok (Hi & _ & Hl & _). destruct (do_item_release_run e M L p i Hok Hi) as (e' & Hr & ? & ? & ? & Hs & ? & ?).
  exists e'. rewrite Hr, Hl, andb_false_r. split_and!; try done. intros c. by apply is_free_same.
Qed.

Lemma held_drop_ref e e' p i :
  held e p i -> e_mem e' !! p = Some (drop_ref i) -> e_slabs e' = e_slabs e -> bucket_id e' = bucket_id e ->
  held e' p (drop_ref i).
Proof.
  intros (Hi & Hl & Hs & Hc & Hf & Ho) Hm Hsl Hb. injection (drop_ref_skeleton i) as _ _ _ E1 E2 E3 _.
  unfold held, has_flag, own in *. rewrite E1, E2, E3, (chunk_of_same e e'), (is_free_same e e'), Hb by done.
  by split_and!.
Qed.

Lemma do_item_release_held e M L p i :
  items_ok e M L -> held e p i ->
  exists e', do_item_release p e = Done tt e' /\ items_ok e' M L /\ item_step (eq p) e e' /\
    cas_id e' = cas_id e /\ e_evicting e' = e_evicting e /\
    if decide (i_refcount (drop_ref i) = 0) then forall c, is_free e' c -> is_free e c \/ c = p
    else held e' p (drop_ref i) /\ forall c, is_free e' c <-> is_free e c.
Proof.
  intros Hok Hh. pose proof Hh as (Hi & Hl & _).
  destruct (do_item_release_run e M L p i Hok Hi) as (e1 & Hr & Hok1 & Hst1 & Hm & Hs & Hca & Hev).
  rewrite Hl in Hr. cbn [negb] in Hr. rewrite andb_true_r in Hr.
  assert (held e1 p (drop_ref i)) as Hh1.
  { apply (held_drop_ref e); try done. pose proof (is_beside _ _ _ Hst1) as Hb. unfold beside_items in Hb. congruence. }
  destruct (decide (i_refcount (drop_ref i) = 0)) as [E|E].
  - rewrite E in Hr. cbn [Z.eqb when] in Hr.
    destruct (item_free_ok e1 M L p _ Hok1 Hh1 E) as (e' & Hf & Hok' & Hst' & _ & Hca' & Hev' & Hfr).
    exists e'. split; [congruence|]. split; [done|]. split; [by eapply item_step_trans|].
    split; [congruence|]. split; [congruence|].
    intros c [Hc| ->]%Hfr; [|by right]. left. by apply (is_free_same e e1).
  - rewrite (proj2 (Z.eqb_neq _ _) E) in Hr. cbn [when] in Hr. exists e1.
    split_and!; try done. intros c. by apply is_free_same.
Qed.

(** Whether an item is moved to the head of its queue. *)
Definition is_old (e : default_engine) (i : hash_item) : bool :=
  i_time i <? u32 (e_now e - ITEM_UPDATE_INTERVAL).

Definition update_item (e : default_engine) (i : hash_item) : hash_item :=
  if is_old e i then i <| i_time := e_now e |> else i.

(** A queue after an item was moved to its head. *)
Definition to_head (p : Z) (l : list Z) : list Z := p :: filter (fun q => q <> p) l.

Lemma to_head_elem p l q : p ∈ l -> q ∈ to_head p l <-> q ∈ l.
Proof.
  intros Hp. unfold to_head. rewrite elem_of_cons, list_elem_of_filter.
  destruct (decide (q = p)) as [->|]; tauto.
Qed.

Lemma filter_absent p (l : list Z) : p ∉ l -> filter (fun q => q <> p) l = l.
Proof.
  induction l as [|q l IH]; [done|]. intros Hp. rewrite filter_cons_True by set_solver.
  f_equal. apply IH. set_solver.
Qed.

Lemma to_head_split p l1 l2 : NoDup (l1 ++ p :: l2) -> to_head p (l1 ++ p :: l2) = p :: l1 ++ l2.
Proof.
  intros (_ & Hd & [Hp _]%NoDup_cons)%NoDup_app. unfold to_head. f_equal.
  rewrite filter_app, filter_cons_False by auto. rewrite !filter_absent; [done|done|].
  intros HC. apply (Hd p HC). left.
Qed.

Lemma do_item_update_run e M L id p i l1 l2 :
  items_ok e M L -> linked_item e id p i -> L id = l1 ++ p :: l2 -> is_old e i = true ->
  exists e1 e2 e3 i2, do_item_update p e = Done tt e3 /\
    queue_step id (-1) (l1 ++ l2) e e1 /\
    e2 = e1 <| e_mem := <[p := i <| i_time := e_now e |>]> (e_mem e1) |> /\ e_mem e1 !! p = Some i /\
    queue_step id 1 (p :: l1 ++ l2) e2 e3 /\ e_mem e3 !! p = Some i2 /\
    queue (e_mem e3) (e_items e3) id (p :: l1 ++ l2).
Proof.
  intros Hok (Hi & Hid & Hl & Hs & Hc & Ho) HL Hold.
  assert (p ∈ L id) as Hin by (rewrite HL; set_solver). pose proof (linked_range _ _ _ _ _ Hok Hin) as Hrange.
  pose proof (io_queue _ _ _ Hok id ltac:(lia)) as Hq. rewrite HL in Hq.
  unfold do_item_update. run. erewrite bind_done by (by apply deref_done).
  unfold is_old in Hold. rewrite Hold. cbn [when]. rewrite Hs, Hl. cbn [negb when]. run.
  destruct (item_unlink_q_ok p i id l1 l2 e Hq Hi Hid) as (e1 & Hu & Hst1 & Hi1 & Hq1); [lia|].
  erewrite bind_done by exact Hu. erewrite bind_done by (apply write_item_done; exact Hi1).
  set (i2 := i <| i_time := e_now e |>). set (e2 := e1 <| e_mem := <[p := i2]> (e_mem e1) |>).
  assert (p ∉ l1 ++ l2) as Hnin.
  { destruct Hq as [_ _ _ (_ & Hd & [Hp _]%NoDup_cons)%NoDup_app]. rewrite elem_of_app.
    intros [HC|HC]; [apply (Hd p HC); left|done]. }
  destruct (item_link_q_ok p i2 id (l1 ++ l2) e2) as (e3 & Hlq & Hst3 & Hq3); try done; [|apply lookup_insert_eq|lia| |].
  { eapply queue_frame; [exact Hq1|done|done|]. intros q Hq'. unfold e2. esimpl. cbn beta.
    by rewrite lookup_insert_ne by (by intros ->). }
  { pose proof (chunk_pos e _ _ (io_slabs _ _ _ Hok) Hc). lia. }
  destruct (same_items_lookup _ _ _ p i2 (qs_mem _ _ _ _ _ Hst3)) as (i3 & Hi3 & _); [apply lookup_insert_eq|].
  exists e1, e2, e3, i3. split; [exact Hlq|]. done.
Qed.

Lemma same_items_insert_both {A} (f : hash_item -> A) m m' p i :
  same_items f m m' -> same_items f (<[p := i]> m) (<[p := i]> m').
Proof.
  intros H q. destruct (decide (q = p)) as [->|]; [by rewrite !lookup_insert_eq|].
  rewrite !lookup_insert_ne by done. apply H.
Qed.

(** The queues after an item was moved to the head of its queue. *)
Lemma update_queues e e1 e2 e3 M L id p i l1 l2 :
  items_ok e M L -> L id = l1 ++ p :: l2 -> queue_step id (-1) (l1 ++ l2) e e1 ->
  e2 = e1 <| e_mem := <[p := i <| i_time := e_now e |>]> (e_mem e1) |> ->
  queue_step id 1 (p :: l1 ++ l2) e2 e3 -> queue (e_mem e3) (e_items e3) id (p :: l1 ++ l2) ->
  1 <= id < POWER_LARGEST ->
  (forall id', 0 <= id' < POWER_LARGEST ->
     queue (e_mem e3) (e_items e3) id' (upd_queue L id (to_head p (L id)) id')) /\
  (forall id', 0 <= id' < POWER_LARGEST -> sizes (e_items e3) !! Z.to_nat id' =
     Some (u32 (Z.of_nat (length (upd_queue L id (to_head p (L id)) id')) + drift id'))).
Proof.
  intros Hok HL Hst1 He2 Hst3 Hq3 Hrange.
  pose proof (io_queue _ _ _ Hok id ltac:(lia)) as [_ _ _ Hnd]. rewrite HL in Hnd.
  assert (to_head p (L id) = p :: l1 ++ l2) as Hth by (rewrite HL; by apply to_head_split).
  assert (p ∈ L id) as Hin by (rewrite HL; set_solver). split; intros id' Hid'.
  - destruct (decide (id' = id)) as [->|Hne]; [by rewrite upd_queue_eq, Hth|].
    rewrite upd_queue_ne by done. eapply queue_frame; [by apply (io_queue _ _ _ Hok)| | |].
    + rewrite (qs_heads _ _ _ _ _ Hst3), He2 by lia. esimpl. apply (qs_heads _ _ _ _ _ Hst1). lia.
    + rewrite (qs_tails _ _ _ _ _ Hst3), He2 by lia. esimpl. apply (qs_tails _ _ _ _ _ Hst1). lia.
    + intros q Hq. assert (q ∉ p :: l1 ++ l2) as Hnq.
      { rewrite <- Hth, to_head_elem by done. intros HC. by eapply Hne, queues_disjoint. }
      rewrite (qs_nodes _ _ _ _ _ Hst3 q Hnq), He2. esimpl. cbn beta.
      apply not_elem_of_cons in Hnq as [Hn1 Hn2]. by rewrite lookup_insert_ne, (qs_nodes _ _ _ _ _ Hst1 q Hn2) by done.
  - rewrite (qs_sizes _ _ _ _ _ Hst3), He2. esimpl. rewrite (qs_sizes _ _ _ _ _ Hst1).
    pose proof (io_sizes _ _ _ Hok id' Hid') as Hsz. destruct (decide (id' = id)) as [->|Hne].
    + rewrite !list_lookup_alter, !decide_True, Hsz, upd_queue_eq, Hth, HL by done. cbn.
      rewrite !length_app. cbn. f_equal. rewrite wrap_add_l, <- Z.add_assoc, wrap_add_l. f_equal. lia.
    + rewrite !list_lookup_alter_ne, upd_queue_ne by lia. done.
Qed.

Lemma aged_to_head m now L id id' p i' :
  aged m now (L id') -> 0 <= now -> i_time i' = now -> (id' <> id -> p ∉ L id') ->
  aged (<[p := i']> m) now (upd_queue L id (to_head p (L id)) id').
Proof.
  intros Ha Hnow Ht Hp. assert (forall l, aged m now l -> p ∉ l -> aged (<[p := i']> m) now l) as Hf.
  { intros l Hl Hn. eapply aged_frame; [exact Hl|]. intros q Hq. rewrite lookup_insert_ne; [done|]. by intros ->. }
  unfold upd_queue. case_decide as E; [subst id'|by apply Hf; auto]. exists i'. rewrite Ht. split; [apply lookup_insert_eq|].
  split; [lia|]. apply Hf; [by apply aged_filter|]. rewrite list_elem_of_filter. by intros [? _].
Qed.

Lemma do_item_update_ok e M L id p i :
  items_ok e M L -> linked_item e id p i -> p ∈ L id ->
  exists e' i', do_item_update p e = Done tt e' /\
    items_ok e' M (if is_old e i then upd_queue L id (to_head p (L id)) else L) /\
    item_step (eq p) e e' /\ e_mem e' !! p = Some i' /\ bare i' = bare (update_item e i) /\
    linked_item e' id p i' /\ cas_id e' = cas_id e /\ e_evicting e' = e_evicting e /\
    (forall c, is_free e' c <-> is_free e c).
Proof.
  intros Hok Hli Hin. unfold update_item. destruct (is_old e i) eqn:Hold.
  2: { exists e, i. unfold do_item_update. run. erewrite bind_done by (apply deref_done, Hli).
       unfold is_old in Hold. rewrite Hold. split; [done|]. split; [done|]. split; [apply item_step_refl|].
       split; [apply Hli|]. by split_and!. }
  pose proof (linked_range _ _ _ _ _ Hok Hin) as Hrange. pose proof Hin as (l1 & l2 & HL)%list_elem_of_split.
  pose proof Hli as (Hi & Hid & Hl & Hs & Hc & Ho).
  destruct (do_item_update_run e M L id p i l1 l2 Hok Hli HL Hold)
    as (e1 & e2 & e3 & i3 & Hrun & Hst1 & He2 & Hi1 & Hst3 & Hi3 & Hq3).
  set (i2 := i <| i_time := e_now e |>) in *.
  pose proof (qs_beside _ _ _ _ _ Hst1) as Hb1. pose proof (qs_beside _ _ _ _ _ Hst3) as Hb3.
  assert (beside_queues e3 = beside_queues e) as Hb by (rewrite Hb3, He2; exact Hb1).
  assert (moved p i2 e e3) as Hmv.
  { split; [unfold beside_queues in Hb; unfold link_frame, beside_items; split_and!; congruence|].
    eapply same_items_trans; [|apply unqueue_bare, (qs_mem _ _ _ _ _ Hst3)]. rewrite He2. esimpl. cbn beta.
    apply same_items_insert_both, unqueue_bare, (qs_mem _ _ _ _ _ Hst1). }
  assert (bare i3 = bare i2) as Hbi by (destruct (moved_item _ _ _ _ Hmv) as (j & Hj & ?); congruence).
  pose proof (bare_shape _ _ Hbi) as (E1 & E2 & E3 & _).
  assert (linked_item e3 id p i3) as Hli3.
  { eapply linked_item_same; try done; [apply (moved_bucket _ _ _ _ Hmv)|]. intros ? ?. apply (moved_chunk _ _ _ _ Hmv). }
  exists e3, i3. split; [done|]. split; [|split; [by apply (moved_step _ _ _ _ Hmv); eexists|]; split; [done|];
    split; [done|]; split; [done|]; unfold beside_queues in Hb; split; [congruence|]; split; [congruence|];
    apply (moved_free _ _ _ _ Hmv)].
  assert (forall id' q, q ∈ upd_queue L id (to_head p (L id)) id' <-> q ∈ L id') as Hel.
  { intros id' q. unfold upd_queue. case_decide as E; [subst; by apply to_head_elem|done]. }
  destruct (update_queues e e1 e2 e3 M L id p i l1 l2 Hok HL Hst1 He2 Hst3 Hq3 Hrange) as [Hqs Hss].
  apply (items_ok_moved e e3 M M L _ p i2 Hok Hmv (mk_is_Some _ _ Hi) (linked_not_free _ _ _ _ _ Hok Hin)); try done.
  - apply (represents_frame e); [apply (io_table _ _ _ Hok)|unfold beside_queues in Hb; congruence|].
    eapply same_items_trans; [|apply unqueue_table, (qs_mem _ _ _ _ _ Hst3)]. rewrite He2. esimpl. cbn beta.
    eapply same_items_trans; [apply unqueue_table, (qs_mem _ _ _ _ _ Hst1)|]. by apply (same_items_insert _ _ _ i).
  - rewrite (qs_stats _ _ _ _ _ Hst3), He2. esimpl. by rewrite (qs_stats _ _ _ _ _ Hst1).
  - intros id'. eapply aged_to_head; [apply (io_times _ _ _ Hok)|apply (io_now _ _ _ Hok)|done|]. intros Hne Hp. by eapply Hne, queues_disjoint.
  - intros id' q j Hq%Hel _ _. done.
  - intros id' q Hq%Hel. destruct (io_item _ _ _ Hok id' q Hq) as (j & (Hj & _) & _). by eexists.
  - intros id' Hq%Hel. assert (id' = id) as -> by (by eapply queues_disjoint). exists i3. split; [done|].
    rewrite E3. destruct (io_item _ _ _ Hok id p Hin) as (j & (Hj & _) & HMj).
    assert (j = i) as -> by congruence. exact HMj.
  - intros k q HM Hk'. destruct (io_own _ _ _ Hok k q HM Hk') as (id' & Hin'). exists id'. by apply Hel.
  - rewrite <- (io_count _ _ _ Hok). f_equal. unfold beside_queues in Hb. congruence.
Qed.

End Cache.
