(* ===== verification/CacheOps.v ===== *)
(** * Operations on the cache

    Allocation, access, storing, counters and flushing in terms of the
    invariant of the cache. *)

From S2P Require Import Prelude Numbers RecordUpdate StateMonad Protocol EngineApi EngineState Assoc Slabs.
From S2P Require Import Items ItemQueues Cache.

(** ** Searching a queue *)

Lemma search_back_ok tries pr l1 l2 : forall e,
  dseg (e_mem e) 0 (l1 ++ l2) 0 ->
  exists r, search_back tries (final 0 l1) pr e = Done r e /\
    ((r = 0 /\ ((length l1 <= tries)%nat -> forall q i, q ∈ l1 -> e_mem e !! q = Some i -> pr i = false)) \/
     (r <> 0 /\ r ∈ l1 /\ exists i, e_mem e !! r = Some i /\ pr i = true)).
Proof.
  revert l1 l2. induction tries as [|tries IH]; intros l1 l2 e Hs; cbn [search_back].
  { exists 0. split; [done|]. left. split; [done|]. intros Hl q i Hq. destruct l1; [by apply not_elem_of_nil in Hq|cbn in Hl; lia]. }
  destruct l1 as [|q l1 _] using rev_ind.
  { exists 0. split; [done|]. left. split; [done|]. intros _ ? ? []%not_elem_of_nil. }
  rewrite final_app. cbn. rewrite <- app_assoc in Hs. cbn in Hs.
  destruct (dseg_dom _ _ _ _ q Hs) as (Hq & i & Hi); [set_solver|].
  destruct (dseg_node _ _ _ _ _ _ _ Hs Hi) as [Hp _].
  rewrite (proj2 (Z.eqb_neq q 0)) by done. erewrite bind_done by (by apply deref_done).
  destruct (pr i) eqn:Epr.
  - exists q. split; [done|]. right. split; [done|]. split; [set_solver|]. by exists i.
  - rewrite Hp. destruct (IH l1 (q :: l2) e Hs) as (r & Hr & Hcase). exists r. split; [done|].
    destruct Hcase as [[-> Hno]|(H1 & H2 & H3)].
    + left. split; [done|]. rewrite length_app. cbn. intros Hl q' i' [Hq'|Hq']%elem_of_app Hi'; [eapply Hno; [lia|done|done]|].
      apply list_elem_of_singleton in Hq' as ->. congruence.
    + right. split; [done|]. split; [set_solver|done].
Qed.

(** ** Making room *)

(** An item that may be thrown out: nobody uses it, or it is in use for so
    long that the reference must be lost. *)
Definition overdue (e : default_engine) (i : hash_item) : Prop :=
  u32 (i_time i + TAIL_REPAIR_TIME) < e_now e.

Definition spare (e : default_engine) (i : hash_item) : Prop := i_refcount i = 0 \/ overdue e i.

(** Memory that may become a new item. *)
Definition takeable (e : default_engine) (p : Z) : Prop :=
  is_free e p \/ exists i, e_mem e !! p = Some i /\ has_flag ITEM_LINKED i = true /\ spare e i.

(** The same, and it is not in the cache any more. *)
Definition gone (e : default_engine) (M' : gmap bytes Z) (p : Z) : Prop :=
  takeable e p /\ forall k, M' !! k <> Some p.

(** Only spare items of the engine leave the cache. *)
Definition shrinks (e : default_engine) (M M' : gmap bytes Z) : Prop :=
  M' ⊆ M /\ forall k p, M !! k = Some p ->
    M' !! k = Some p \/ (own e k /\ exists i, e_mem e !! p = Some i /\ spare e i).

Lemma same_fields_spare e e' i i' :
  bare i' = bare i -> e_now e' = e_now e -> spare e' i' -> spare e i.
Proof. intros H%bare_fields Hn. injection H as E1 _ _ _ _ E2 _ _ _ _ _. unfold spare, overdue. by rewrite Hn, E1, E2. Qed.

Lemma step_now S e e' : item_step S e e' -> e_now e' = e_now e /\ bucket_id e' = bucket_id e /\
  e_config e' = e_config e /\ e_scrubber e' = e_scrubber e.
Proof. intros H. pose proof (is_beside _ _ _ H) as Hb. unfold beside_items in Hb. split_and!; congruence. Qed.

Lemma takeable_back e e' M' p :
  item_step (gone e M') e e' -> is_Some (e_mem e !! p) -> takeable e' p -> takeable e p.
Proof.
  intros Hst [i Hi] [Hf|(i' & Hi' & Hl & Hs)].
  - by destruct (is_unfree _ _ _ Hst p (mk_is_Some _ _ Hi) Hf) as [?|[? _]]; [left|].
  - destruct (is_mem _ _ _ Hst p i Hi) as [[? _]|(j & Hj & Hb)]; [done|]. right. exists i.
    assert (j = i') as -> by congruence. split; [done|].
    split; [|eapply same_fields_spare; [done|apply (step_now _ _ _ Hst)|done]].
    apply bare_shape in Hb as (_ & E & _). unfold has_flag in *. by rewrite <- E.
Qed.

Section Room.
Context (crc32c : bytes -> Z) (uninit : hash_item -> nat -> Z * bytes) (drift : Z -> Z).
Abbreviation items_ok := (items_ok crc32c drift).

Record room (e : default_engine) (M : gmap bytes Z) (e' : default_engine) (M' : gmap bytes Z) : Prop := {
  rm_ok : exists L', items_ok e' M' L';
  rm_step : item_step (gone e M') e e';
  rm_shrinks : shrinks e M M';
  rm_cas : cas_id e' = cas_id e;
}.

Lemma room_refl e M L : items_ok e M L -> room e M e M.
Proof.
  intros Hok. split; [by exists L|apply item_step_refl| |done]. split; [done|]. intros k p Hk. by left.
Qed.

Lemma room_trans e M L e1 M1 e2 M2 :
  items_ok e M L -> room e M e1 M1 -> room e1 M1 e2 M2 -> room e M e2 M2.
Proof.
  intros Hok [Hok1 Hst1 [Hs1 Hk1] Hc1] [Hok2 Hst2 [Hs2 Hk2] Hc2]. split; [done| | |congruence].
  - eapply item_step_trans; [exact Hst1|exact Hst2| |].
    + intros p [? Hn]. split; [done|]. intros k Hk. by eapply (Hn k), lookup_weaken.
    + intros p Hp [Ht ?]. split; [by eapply takeable_back|done].
  - split; [by transitivity M1|]. intros k p Hk. destruct (Hk1 k p Hk) as [Hk'|?]; [|by right].
    destruct (Hk2 k p Hk') as [?|[Ho (i1 & Hi1 & Hsp)]]; [by left|]. right.
    assert (own e k) as Ho' by (unfold own in *; by rewrite <- (proj1 (proj2 (step_now _ _ _ Hst1)))).
    split; [done|]. destruct (item_place _ _ _ _ _ _ _ Hok Hk Ho') as (id & i & _ & Hin & Hli & _).
    exists i. split; [apply Hli|]. destruct (is_mem _ _ _ Hst1 p i (proj1 Hli)) as [[[Hf|(j & Hj & _ & Hsj)] _]|(j & Hj & Hb)].
    + by destruct (linked_not_free _ _ _ _ _ _ _ Hok Hin).
    + destruct Hli as (Hi & _). congruence.
    + assert (j = i1) as -> by congruence. eapply same_fields_spare; [done|apply (step_now _ _ _ Hst1)|done].
Qed.

(** Counters have nothing to do with it. *)
(** What is beside the items may change; time does not go back. *)
Lemma items_ok_beside e e' M L :
  items_ok e M L -> e_mem e' = e_mem e -> e_assoc e' = e_assoc e -> e_slabs e' = e_slabs e ->
  e_pages e' = e_pages e -> bucket_id e' = bucket_id e ->
  item_size_max (e_config e') = item_size_max (e_config e) -> e_now e <= e_now e' ->
  (heads (e_items e'), tails (e_items e'), sizes (e_items e'), length (itemstats (e_items e'))) =
    (heads (e_items e), tails (e_items e), sizes (e_items e), length (itemstats (e_items e))) ->
  curr_items (e_stats e') = curr_items (e_stats e) -> items_ok e' M L.
Proof.
  intros Hok Hm Ha Hs Hp Hbu Hcf Hn Hq Hc. injection Hq as Q1 Q2 Q3 Q4. split.
  - apply (represents_frame crc32c e); [apply (io_table _ _ _ _ _ Hok)|done|]. rewrite Hm. apply same_items_refl.
  - apply (slabs_ok_mem e); try done; rewrite ?Hm; [apply (io_slabs _ _ _ _ _ Hok)|done|done].
  - rewrite Hs. apply (io_largest _ _ _ _ _ Hok).
  - intros id Hid. rewrite Hm. eapply queue_frame; [by apply (io_queue _ _ _ _ _ Hok)|by rewrite Q1|by rewrite Q2|done].
  - intros id Hid. rewrite Q3. by apply (io_sizes _ _ _ _ _ Hok).
  - rewrite Q4. apply (io_stats _ _ _ _ _ Hok).
  - pose proof (io_now _ _ _ _ _ Hok). lia.
  - intros id. rewrite Hm. eapply aged_weaken; [apply (io_times _ _ _ _ _ Hok)|done].
  - intros id p Hin. destruct (io_item _ _ _ _ _ Hok id p Hin) as (i & Hl & HM). exists i. split; [|done].
    eapply linked_item_same; try done; [rewrite Hm; apply Hl|]. intros ? ?. by apply chunk_of_same.
  - intros k p HM Ho. unfold own in Ho. rewrite Hbu in Ho. by eapply (io_own _ _ _ _ _ Hok).
  - intros k p id HM Ho. unfold own in Ho. rewrite Hbu in Ho. rewrite (chunk_of_same e e' id p Hs).
    by eapply (io_foreign _ _ _ _ _ Hok).
  - by rewrite Hc, (own_items_same e e'), (io_count _ _ _ _ _ Hok).
Qed.

Lemma items_ok_counters e e' M L :
  items_ok e M L -> e_mem e' = e_mem e -> e_assoc e' = e_assoc e -> e_slabs e' = e_slabs e ->
  e_pages e' = e_pages e -> beside_items e' = beside_items e ->
  (heads (e_items e'), tails (e_items e'), sizes (e_items e'), length (itemstats (e_items e'))) =
    (heads (e_items e), tails (e_items e), sizes (e_items e), length (itemstats (e_items e))) ->
  curr_items (e_stats e') = curr_items (e_stats e) -> items_ok e' M L.
Proof.
  intros Hok Hm Ha Hs Hp Hb. unfold beside_items in Hb.
  assert (e_config e' = e_config e) as Hc by congruence. assert (e_now e' = e_now e) as Hn by congruence.
  apply items_ok_beside; [done|done|done|done|done|congruence|by rewrite Hc|lia].
Qed.

Lemma item_step_counters S e e' :
  beside_items e' = beside_items e -> e_mem e' = e_mem e -> e_slabs e' = e_slabs e -> item_step S e e'.
Proof. intros Hb Hm Hs. apply item_step_mem; [done|done|]. intros p i Hi. exists i. rewrite Hm. auto. Qed.

(** Memory that was taken and is not yet an item. *)
Definition raw (e : default_engine) (id r : Z) : Prop :=
  r <> 0 /\ chunk_of e id r /\ ~ is_free e r /\
  exists i, e_mem e !! r = Some i /\ slabs_clsid i = 0 /\ has_flag ITEM_LINKED i = false.

(** The memory that was found, if any. *)
Definition got (e : default_engine) (id r : Z) (e' : default_engine) : Prop :=
  r <> 0 -> raw e' id r /\ (is_Some (e_mem e !! r) -> takeable e r).

Lemma raw_loose e M L id r : items_ok e M L -> raw e id r -> loose e M L r.
Proof.
  intros Hok (_ & Hc & Hf & i & Hi & _ & Hl).
  assert (forall id, r ∉ L id) as Hn.
  { intros id' Hin. destruct (io_item _ _ _ _ _ Hok id' r Hin) as (j & (Hj & _ & Hl' & _) & _). congruence. }
  split; [by eexists|]. split; [done|]. split; [done|]. intros k HM.
  destruct (decide (own e k)) as [Ho|Ho].
  - destruct (io_own _ _ _ _ _ Hok k r HM Ho) as (id' & Hin). by apply (Hn id').
  - by eapply (io_foreign _ _ _ _ _ Hok).
Qed.

Lemma slabs_adjust_done e id p old n :
  class_of e id p ->
  slabs_adjust_mem_requested id old n e =
    Done tt (put id (p <| requested := u64 (requested p - old + n) |>) e).
Proof.
  intros Hp. destruct (proj1 Hp) as [H1 H2]. unfold slabs_adjust_mem_requested. run.
  rewrite (proj2 (Z.ltb_ge _ _) H1), (proj2 (Z.ltb_ge _ _) H2). cbn [orb negb]. run.
  by erewrite bind_done by (by apply get_class_done).
Qed.

(** A class of items. *)
Definition item_class (e : default_engine) (id : Z) : Prop :=
  POWER_SMALLEST <= id <= power_largest (e_slabs e).

Lemma class_queue e M L id :
  items_ok e M L -> item_class e id -> queue (e_mem e) (e_items e) id (L id).
Proof.
  intros Hok Hid. apply (io_queue _ _ _ _ _ Hok). pose proof (io_largest _ _ _ _ _ Hok).
  unfold item_class, POWER_SMALLEST in *. lia.
Qed.

(** The search from the tail of a class. *)
Lemma search_tail_ok e M L id pr :
  items_ok e M L -> item_class e id ->
  exists r, search_tail id pr e = Done r e /\
    ((r = 0 /\ ((length (L id) <= search_items)%nat ->
        forall q i, q ∈ L id -> e_mem e !! q = Some i -> pr i = false)) \/
     (r <> 0 /\ exists i, r ∈ L id /\ linked_item e id r i /\ M !! i_key i = Some r /\ pr i = true)).
Proof.
  intros Hok Hid. destruct (class_queue e M L id Hok Hid) as [_ Ht Hs _]. unfold search_tail.
  erewrite bind_done by (apply get_tail_done; exact Ht).
  destruct (search_back_ok search_items pr (L id) [] e) as (r & Hr & Hcase); [by rewrite app_nil_r|].
  exists r. split; [done|]. destruct Hcase as [?|(Hne & Hin & i & Hi & Hpr)]; [by left|]. right. split; [done|].
  destruct (io_item _ _ _ _ _ Hok id r Hin) as (j & Hj & HM). assert (j = i) as -> by (destruct Hj; congruence).
  by exists i.
Qed.

(** An item is thrown out. *)
Lemma shrinks_delete e M L id p i :
  items_ok e M L -> linked_item e id p i -> p ∈ L id -> spare e i -> shrinks e M (delete (i_key i) M).
Proof.
  intros Hok Hli Hin Hsp. split; [apply delete_subseteq|]. intros k q Hk.
  destruct (decide (k = i_key i)) as [->|]; [|left; by rewrite lookup_delete_ne].
  destruct (io_item _ _ _ _ _ Hok id p Hin) as (j & Hj & HM). assert (j = i) as -> by (destruct Hj, Hli; congruence).
  right. destruct Hli as (Hi & _ & _ & _ & _ & Ho). split; [done|]. exists i. split; [congruence|done].
Qed.

Lemma linked_takeable e id p i : linked_item e id p i -> spare e i -> forall q, p = q -> takeable e q.
Proof. intros (Hi & _ & Hl & _) Hsp q <-. right. by exists i. Qed.

Lemma linked_gone e M L id p i :
  items_ok e M L -> linked_item e id p i -> spare e i -> forall q, p = q -> gone e (delete (i_key i) M) q.
Proof.
  intros Hok Hli Hsp q <-. split; [by apply (linked_takeable e id p i)|]. intros k [Hne Hk]%lookup_delete_Some.
  destruct (table_item _ _ _ _ _ _ _ Hok Hk) as (j & Hj & Ej). rewrite (proj1 Hli) in Hj. apply (inj Some) in Hj as <-. done.
Qed.

Lemma reclaim_item_ok e M L id n p i :
  items_ok e M L -> linked_item e id p i -> p ∈ L id -> force_delete (e_scrubber e) = false ->
  i_refcount i = 0 ->
  exists e', reclaim_item crc32c id n p e = Done tt e' /\ room e M e' (delete (i_key i) M) /\ raw e' id p.
Proof.
  intros Hok Hli Hin Hfd Hr. pose proof Hli as (Hi & Hid & Hl & Hs & Hc & Ho).
  unfold reclaim_item, set_stats, item_stat, set_items. run.
  match goal with |- context [bind (write_item p _) _ ?s] => set (e1 := s) end.
  assert (items_ok e1 M L) as Hok1.
  { apply (items_ok_counters e); try done. unfold e1. esimpl. cbn beta. esimpl. by rewrite length_alter. }
  assert (item_step (gone e (delete (i_key i) M)) e e1) as Hst1 by (by apply item_step_counters).
  erewrite bind_done by (apply write_item_done; exact Hi).
  set (i2 := i <| i_refcount := 1 |>). set (e2 := e1 <| e_mem := <[p := i2]> (e_mem e1) |>).
  assert (e_mem e2 !! p = Some i2) as Hi2 by apply lookup_insert_eq.
  destruct (items_ok_write crc32c drift e1 M L p i i2 Hok1 Hi eq_refl) as [Hok2 Hst2]. fold e2 in Hok2, Hst2.
  erewrite bind_done by (by apply deref_done). run.
  destruct (Hc) as (c & Hcl & _). assert (class_of e2 id c) as Hcl2 by exact Hcl.
  change (slabs_clsid i2) with (slabs_clsid i). rewrite Hid.
  erewrite bind_done by (by apply slabs_adjust_done).
  set (c' := c <| requested := u64 (requested c - ITEM_ntotal (e_config e) i2 + n) |>).
  destruct (put_same_ok e2 id c c' (io_slabs _ _ _ _ _ Hok2) Hcl2 eq_refl) as (Hs3 & Hst3 & _ & Hf3).
  set (e3 := put id c' e2) in *. pose proof (items_ok_slab crc32c drift e2 e3 M L Hok2 Hs3 Hst3) as Hok3.
  assert (linked_item e3 id p i2) as Hli3.
  { apply (linked_item_same e e3 id p i i2); try done. intros x q Hq. apply (st_chunks _ _ Hst3). exact Hq. }
  destruct (do_item_unlink_held crc32c drift e3 M L id p i2 Hok3 Hli3 Hin Hfd)
    as (e4 & i4 & l1 & l2 & _ & Hu & Hok4 & Hst4 & Hh4 & Hb4 & Hca & _ & Hf4); [done|].
  erewrite bind_done by exact Hu. pose proof Hh4 as (Hi4 & Hl4 & _ & Hc4 & Hnf4 & _).
  erewrite bind_done by (apply write_item_done; exact Hi4).
  erewrite write_item_done by (esimpl; apply lookup_insert_eq). esimpl. cbn beta. rewrite insert_insert_eq.
  set (i5 := (i4 <| slabs_clsid := 0 |>) <| i_refcount := 0 |>).
  destruct (items_ok_loose crc32c drift e4 _ _ p i5 Hok4 (held_loose _ _ _ _ _ _ _ Hok4 Hh4)) as [Hok5 Hst5].
  set (e5 := e4 <| e_mem := <[p := i5]> (e_mem e4) |>) in *.
  assert (forall q, p = q -> gone e (delete (i_key i) M) q) as Htk by (apply (linked_gone e M L id p i Hok Hli); by left).
  exists e5. split; [done|]. split.
  - split; [by eexists| |by eapply shrinks_delete; [..|left]|exact Hca].
    eapply item_step_trans; [exact Hst1| |done|]; [|intros q _ Hq; exact Hq].
    eapply item_step_trans; [exact Hst2| |exact Htk|]; [|intros q _ Hq; exact Hq].
    eapply item_step_trans; [apply (item_step_slab (fun _ => False) e2 e3 Hst3)| |done|];
      [intros q _ Hq; left; by apply Hf3| |intros q _ Hq; exact Hq].
    eapply item_step_trans; [exact Hst4|exact Hst5|exact Htk|]. intros q _. apply Htk.
  - split; [pose proof (chunk_pos e _ _ (io_slabs _ _ _ _ _ Hok) Hc); lia|].
    assert (slabs_clsid i4 = id) as Hc4' by (apply bare_shape in Hb4 as (E & _); by rewrite E).
    split; [by apply (chunk_of_same e4 e5); [|rewrite <- Hc4']|]. split; [by rewrite (is_free_same e4 e5)|].
    exists i5. split; [apply lookup_insert_eq|]. split; [done|]. exact Hl4.
Qed.

Lemma reclaim_dead_ok e M L id n :
  items_ok e M L -> item_class e id -> force_delete (e_scrubber e) = false ->
  exists r e' M', reclaim_dead crc32c id n e = Done r e' /\ room e M e' M' /\ got e id r e'.
Proof.
  intros Hok Hid Hfd. unfold reclaim_dead, the_engine. run.
  match goal with |- context [search_tail id ?p] => destruct (search_tail_ok e M L id p Hok Hid) as (r & Hr & Hcase) end.
  erewrite bind_done by exact Hr. run. destruct Hcase as [[-> _]|(Hne & i & Hin & Hli & HM & Hp)].
  - exists 0, e, M. split; [done|]. split; [by eapply room_refl|done].
  - rewrite (proj2 (Z.eqb_neq _ _) Hne). cbn [negb].
    destruct (reclaim_item_ok e M L id n r i Hok Hli Hin Hfd) as (e' & Hre & Hro & Hra); [lia|].
    erewrite bind_done by exact Hre. exists r, e', (delete (i_key i) M). split; [done|]. split; [done|].
    intros _. split; [done|]. intros _. apply (linked_takeable e id r i Hli); [left; lia|done].
Qed.

(** An item is thrown out, and its memory is free or lost. *)
Lemma unlink_spare S e0 e M L id p i :
  items_ok e M L -> linked_item e id p i -> p ∈ L id -> force_delete (e_scrubber e) = false ->
  i_refcount i = 0 -> item_step S e0 e -> (forall q, p = q -> S q) ->
  exists e', do_item_unlink crc32c p e = Done tt e' /\ (exists L', items_ok e' (delete (i_key i) M) L') /\
    item_step S e0 e' /\ cas_id e' = cas_id e.
Proof.
  intros Hok Hli Hin Hfd Hr Hst Htk.
  destruct (do_item_unlink_free crc32c drift e M L id p i Hok Hli Hin Hfd Hr)
    as (e' & l1 & l2 & _ & Hu & Hok' & Hst' & _ & Hca & _ & _).
  exists e'. split; [done|]. split; [by eexists|]. split; [|done].
  eapply item_step_trans; [exact Hst|exact Hst'|done|]. intros q _. apply Htk.
Qed.

(** Counting. *)
Lemma evict_stats_ok id i e M L :
  items_ok e M L -> exists e', evict_stats id i e = Done tt e' /\ items_ok e' M L /\
    e_mem e' = e_mem e /\ e_slabs e' = e_slabs e /\ beside_items e' = beside_items e /\ cas_id e' = cas_id e.
Proof.
  intros Hok. unfold evict_stats, item_stat, set_stats, set_items. run.
  destruct ((i_exptime i == 0) || (e_now e <? i_exptime i)); run;
    [destruct (i_exptime i == 0); cbn [negb]|]; eexists; (split; [done|]); (split; [|done]);
    (apply (items_ok_counters e); try done; esimpl; cbn beta; esimpl; by rewrite !length_alter).
Qed.

Lemma linked_item_counters e e' id p i :
  linked_item e id p i -> e_mem e' = e_mem e -> e_slabs e' = e_slabs e ->
  beside_items e' = beside_items e -> linked_item e' id p i.
Proof.
  intros Hl Hm Hs Hb. apply (linked_item_same e e' id p i i); try done; [rewrite Hm; apply Hl| |].
  - unfold beside_items in Hb. congruence.
  - intros ? ?. by apply chunk_of_same.
Qed.

Lemma evict_one_ok e M L id :
  items_ok e M L -> item_class e id -> force_delete (e_scrubber e) = false ->
  exists e' M', evict_one crc32c id e = Done tt e' /\ room e M e' M'.
Proof.
  intros Hok Hid Hfd. unfold evict_one.
  match goal with |- context [search_tail id ?p] => destruct (search_tail_ok e M L id p Hok Hid) as (r & Hr & Hcase) end.
  erewrite bind_done by exact Hr. destruct Hcase as [[-> _]|(Hne & i & Hin & Hli & HM & Hp)].
  - exists e, M. split; [done|]. by eapply room_refl.
  - rewrite (proj2 (Z.eqb_neq _ _) Hne). cbn [negb when]. erewrite bind_done by (apply deref_done, Hli).
    destruct (evict_stats_ok id i e M L Hok) as (e1 & He & Hok1 & Hm1 & Hs1 & Hb1 & Hc1).
    erewrite bind_done by exact He. apply Z.eqb_eq in Hp.
    destruct (unlink_spare (gone e (delete (i_key i) M)) e e1 M L id r i) as (e' & Hu & Hok' & Hst & Hca); try done.
    + by eapply linked_item_counters.
    + unfold beside_items in Hb1. congruence.
    + by apply item_step_counters.
    + apply (linked_gone e M L id r i Hok Hli). by left.
    + exists e', (delete (i_key i) M). split; [done|]. split; [done|done| |congruence].
      eapply shrinks_delete; try done. by left.
Qed.

Lemma repair_tail_ok e M L id :
  items_ok e M L -> item_class e id -> force_delete (e_scrubber e) = false ->
  exists e' M', repair_tail crc32c id e = Done tt e' /\ room e M e' M'.
Proof.
  intros Hok Hid Hfd. unfold repair_tail. run.
  match goal with |- context [search_tail id ?p] => destruct (search_tail_ok e M L id p Hok Hid) as (r & Hr & Hcase) end.
  erewrite bind_done by exact Hr. destruct Hcase as [[-> _]|(Hne & i & Hin & Hli & HM & Hp)].
  - exists e, M. split; [done|]. by eapply room_refl.
  - rewrite (proj2 (Z.eqb_neq _ _) Hne). cbn [negb when]. unfold item_stat, set_items. run.
    match goal with |- context [bind (write_item r _) _ ?s] => set (e1 := s) end.
    assert (items_ok e1 M L) as Hok1.
    { apply (items_ok_counters e); try done. unfold e1. esimpl. cbn beta. esimpl. by rewrite length_alter. }
    pose proof Hli as (Hi & _). erewrite bind_done by (apply write_item_done; exact Hi).
    set (i2 := i <| i_refcount := 0 |>).
    destruct (items_ok_write crc32c drift e1 M L r i i2 Hok1 Hi eq_refl) as [Hok2 Hst2].
    set (e2 := e1 <| e_mem := <[r := i2]> (e_mem e1) |>) in *.
    assert (spare e i) as Hsp by (right; unfold overdue; lia).
    assert (forall q, r = q -> gone e (delete (i_key i) M) q) as Htk by by apply (linked_gone e M L id r i Hok Hli).
    destruct (unlink_spare (gone e (delete (i_key i) M)) e e2 M L id r i2) as (e' & Hu & Hok' & Hst & Hca); try done.
    + apply (linked_item_same e e2 id r i i2); try done. apply lookup_insert_eq.
    + eapply item_step_trans; [by apply (item_step_counters _ e e1)|exact Hst2|done|]. intros q _. apply Htk.
    + exists e', (delete (i_key i) M). split; [done|]. split; [done|done| |exact Hca].
      by eapply shrinks_delete.
Qed.

Lemma slabs_alloc_room e M L n id :
  items_ok e M L ->
  exists r e', slabs_alloc n id e = Done r e' /\ room e M e' M /\ got e id r e'.
Proof.
  intros Hok. destruct (slabs_alloc_ok e n id (io_slabs _ _ _ _ _ Hok)) as (r & e' & Ha & (Hs' & Hst & Hf & Hr) & _).
  exists r, e'. split; [done|]. split.
  - split; [exists L; by apply (items_ok_slab crc32c drift e)| | |].
    + apply item_step_slab; [done|]. intros p [i Hi] [?|Hn]%Hf; [by left|congruence].
    + split; [done|]. intros k p Hk. by left.
    + apply beside_slabs_items, (st_beside _ _ Hst).
  - intros Hne. destruct (Hr Hne) as (H1 & H2 & H3 & H4). split; [done|].
    intros [i Hi]. destruct H3 as [?|?]; [by left|congruence].
Qed.

Lemma room_class e M e' M' id : room e M e' M' -> item_class e id -> item_class e' id.
Proof. intros Hr. unfold item_class. by rewrite (is_largest _ _ _ (rm_step _ _ _ _ Hr)). Qed.

Lemma room_scrubber e M e' M' :
  room e M e' M' -> force_delete (e_scrubber e) = false -> force_delete (e_scrubber e') = false.
Proof. intros Hr. by rewrite (proj2 (proj2 (proj2 (step_now _ _ _ (rm_step _ _ _ _ Hr))))). Qed.

Lemma outofmemory_room e M L id :
  items_ok e M L ->
  exists e', item_stat id (fun s => s <| outofmemory := u32 (outofmemory s + 1) |>) e = Done tt e' /\
    room e M e' M.
Proof.
  intros Hok. eexists. split; [done|]. split; [exists L|by apply item_step_counters| |done].
  - apply (items_ok_counters e); try done. esimpl. cbn beta. esimpl. by rewrite length_alter.
  - split; [done|]. intros k p Hk. by left.
Qed.

(** Room is made in several steps. *)
Lemma got_trans e M L e1 M1 id r e2 :
  items_ok e M L -> room e M e1 M1 -> got e1 id r e2 -> got e id r e2.
Proof.
  intros Hok Hro Hg Hne. destruct (Hg Hne) as [Hra Htk]. split; [done|]. intros Hs.
  eapply takeable_back; [apply Hro|done|]. apply Htk. by apply (is_dom _ _ _ (rm_step _ _ _ _ Hro)).
Qed.

Definition obtains (id : Z) (e : default_engine) (M : gmap bytes Z) (o : outcome default_engine Z) : Prop :=
  exists r e' M', o = Done r e' /\ room e M e' M' /\ got e id r e'.

Lemma obtains_trans e M L e1 M1 id o :
  items_ok e M L -> room e M e1 M1 -> obtains id e1 M1 o -> obtains id e M o.
Proof.
  intros Hok Hro (r & e' & M' & Ho & Hro' & Hg). exists r, e', M'. split; [done|].
  split; [by eapply room_trans|by eapply got_trans].
Qed.

Lemma obtains_null id e M L : items_ok e M L -> obtains id e M (Done 0 e).
Proof. intros Hok. exists 0, e, M. split; [done|]. by split; [eapply room_refl|]. Qed.

Lemma slabs_alloc_obtains e M L n id :
  items_ok e M L -> obtains id e M (slabs_alloc n id e).
Proof.
  intros Hok. destruct (slabs_alloc_room e M L n id Hok) as (r & e' & -> & ? & ?). by exists r, e', M.
Qed.

Lemma obtains_or id e M L (m k : E Z) :
  items_ok e M L -> obtains id e M (m e) ->
  (forall e1 M1, room e M e1 M1 -> obtains id e1 M1 (k e1)) ->
  obtains id e M ((it <- m;; if it != 0 then ret it else k) e).
Proof.
  intros Hok (r & e1 & M1 & Hm & Hro & Hg) Hk. erewrite bind_done by exact Hm.
  destruct (Z.eqb_spec r 0) as [->|Hne]; cbn [negb]; [by eapply obtains_trans; eauto|]. by exists r, e1, M1.
Qed.

Lemma evict_obtains e M L id n :
  items_ok e M L -> item_class e id -> force_delete (e_scrubber e) = false ->
  obtains id e M ((evict_one crc32c id;;
    it <- slabs_alloc n id;;
    if it != 0 then ret it else
    item_stat id (fun s => s <| outofmemory := u32 (outofmemory s + 1) |>);;
    repair_tail crc32c id;;
    slabs_alloc n id) e).
Proof.
  intros Hok Hid Hfd. destruct (evict_one_ok e M L id Hok Hid Hfd) as (e1 & M1 & He & Hro1).
  erewrite bind_done by exact He. destruct (rm_ok _ _ _ _ Hro1) as [L1 Hok1].
  eapply obtains_trans; [done|exact Hro1|]. eapply obtains_or; [done|by eapply slabs_alloc_obtains|].
  intros e2 M2 Hro2. destruct (rm_ok _ _ _ _ Hro2) as [L2 Hok2].
  destruct (outofmemory_room e2 M2 L2 id Hok2) as (e3 & Ho & Hro3). erewrite bind_done by exact Ho.
  eapply obtains_trans; [done|exact Hro3|]. destruct (rm_ok _ _ _ _ Hro3) as [L3 Hok3].
  destruct (repair_tail_ok e3 M2 L3 id Hok3) as (e4 & M4 & Hre & Hro4).
  { eauto using room_class. }
  { eauto using room_scrubber. }
  erewrite bind_done by exact Hre. eapply obtains_trans; [done|exact Hro4|].
  destruct (rm_ok _ _ _ _ Hro4) as [L4 Hok4]. by eapply slabs_alloc_obtains.
Qed.

Lemma item_memory_ok e M L id n :
  items_ok e M L -> item_class e id -> force_delete (e_scrubber e) = false ->
  obtains id e M (item_memory crc32c id n e).
Proof.
  intros Hok Hid Hfd. unfold item_memory. eapply obtains_or; [done| |].
  { destruct (reclaim_dead_ok e M L id n Hok Hid Hfd) as (r & e1 & M1 & -> & ? & ?). by exists r, e1, M1. }
  intros e1 M1 Hro1. destruct (rm_ok _ _ _ _ Hro1) as [L1 Hok1].
  eapply obtains_or; [done|by eapply slabs_alloc_obtains|].
  intros e2 M2 Hro2. destruct (rm_ok _ _ _ _ Hro2) as [L2 Hok2]. run.
  assert (item_class e2 id) as Hid2 by eauto using room_class.
  assert (obtains id e2 M2 ((item_stat id (fun s => s <| outofmemory := u32 (outofmemory s + 1) |>);; ret 0) e2)) as Hoom.
  { destruct (outofmemory_room e2 M2 L2 id Hok2) as (e3 & Ho & Hro3). erewrite bind_done by exact Ho.
    eapply obtains_trans; [done|exact Hro3|]. destruct (rm_ok _ _ _ _ Hro3). by eapply obtains_null. }
  destruct (evict_to_free (e_config e2)); cbn [negb]; [|exact Hoom].
  destruct (class_queue e2 M2 L2 id Hok2 Hid2) as [_ Ht _ _].
  erewrite bind_done by (apply get_tail_done; exact Ht). case_match; [exact Hoom|].
  eapply evict_obtains; [done|done|eauto using room_scrubber].
Qed.

(** A new item: the caller holds the only reference. *)
Definition fresh_item (c : config) (key : bytes) (flags exptime nbytes datatype : Z) (i : hash_item) : Prop :=
  i_key i = key /\ i_flags i = u32 flags /\ i_exptime i = u32 exptime /\ i_nbytes i = u32 nbytes /\
  i_datatype i = u8 datatype /\ i_refcount i = 1 /\ iflag i = (if use_cas c then ITEM_WITH_CAS else 0) /\
  length (i_data i) = Z.to_nat (u32 nbytes).

Lemma clsid_class e M L n id :
  items_ok e M L -> slabs_clsid_of n e = Done id e -> id <> 0 -> item_class e id.
Proof.
  intros Hok Hid Hne. pose proof (io_largest _ _ _ _ _ Hok) as Hl.
  rewrite slabs_clsid_done in Hid; [|apply (io_slabs _ _ _ _ _ Hok)|unfold POWER_SMALLEST in *; lia].
  injection Hid as Hid. destruct (n == 0); [by subst|].
  destruct (first_fit_class n (e_slabs e)) as [p Hp]; [by rewrite Hid|]. rewrite Hid in Hp.
  by destruct (first_fit_spec n (e_slabs e) id p Hid Hne Hp) as (? & _).
Qed.

(** The new item is filled in. *)
Lemma fill_item_ok e M L id r c key flags exptime nbytes datatype :
  items_ok e M L -> raw e id r -> item_class e id -> own e key ->
  exists e', (i <- deref r;;
      cb_assert (slabs_clsid i == 0);;
      write_item r (fun i => i <| slabs_clsid := u8 id |>);;
      head <- get_head (u8 id);;
      cb_assert (r != head);;
      let '(cas, data) := uninit i (Z.to_nat (u32 nbytes)) in
      write_item r (fun _ => mk_item 0 0 0 (i_time i) (u32 exptime) (u32 nbytes) (u32 flags)
        (if use_cas c then ITEM_WITH_CAS else 0) 1 (u8 id) (u8 datatype) cas key (resize (Z.to_nat (u32 nbytes)) Byte.x00 data));;
      ret r) e = Done r e' /\ items_ok e' M L /\ item_step (eq r) e e' /\ cas_id e' = cas_id e /\
    exists i, held e' r i /\ fresh_item c key flags exptime nbytes datatype i.
Proof.
  intros Hok Hra Hid Ho. pose proof Hra as (Hne & Hc & Hf & i & Hi & Hz & Hl).
  pose proof (raw_loose e M L id r Hok Hra) as Hlo. pose proof (class_range _ _ _ _ _ _ _ Hok Hc) as Hrange.
  assert (u8 id = id) as Hu by (apply wrap_small; unfold POWER_LARGEST in Hrange; lia).
  destruct (queue_ends crc32c drift e M L id r Hok) as (h & t & Hh & _ & Hnh & _); [lia|done|apply Hlo|].
  erewrite bind_done by (by apply deref_done). rewrite Hz. cbn [Z.eqb]. run.
  erewrite bind_done by (apply write_item_done; exact Hi). rewrite Hu.
  match goal with |- context [bind (get_head id) _ ?s] => set (e1 := s) end.
  assert (get_head id e1 = Done h e1) as Hh1 by (apply get_head_done; unfold get_head in Hh; unfold gets, bind, must in Hh;
    change (e_items e1) with (e_items e); by destruct (heads (e_items e) !! Z.to_nat id); [injection Hh as ->|]).
  erewrite bind_done by exact Hh1. rewrite (proj2 (Z.eqb_neq _ _) Hnh). cbn [negb]. run.
  destruct (uninit i (Z.to_nat (u32 nbytes))) as [cas data].
  erewrite bind_done by (apply write_item_done; unfold e1; esimpl; apply lookup_insert_eq).
  unfold e1. esimpl. cbn beta. rewrite insert_insert_eq.
  match goal with |- context [<[r := ?x]> (e_mem e)] => set (i' := x) end.
  destruct (items_ok_loose crc32c drift e M L r i' Hok Hlo) as [Hok' Hst'].
  set (e' := e <| e_mem := <[r := i']> (e_mem e) |>) in *.
  exists e'. split; [done|]. split; [done|]. split; [done|]. split; [done|].
  exists i'. split; [|split_and!; try done; apply length_resize].
  assert (has_flag ITEM_LINKED i' = false /\ has_flag ITEM_SLABBED i' = false) as [? ?]
    by (unfold has_flag, i'; cbn [iflag]; by destruct (use_cas c)).
  split; [apply lookup_insert_eq|]. split; [done|]. split; [done|].
  split; [by apply (chunk_of_same e e')|]. split; [by rewrite (is_free_same e e')|done].
Qed.

Lemma do_item_alloc_ok e M L key flags exptime nbytes datatype :
  items_ok e M L -> own e key -> force_delete (e_scrubber e) = false ->
  exists r e' M', do_item_alloc crc32c uninit key flags exptime nbytes datatype e = Done r e' /\
    room e M e' M' /\
    (r <> 0 -> (is_Some (e_mem e !! r) -> takeable e r) /\
       exists i, held e' r i /\ fresh_item (e_config e) key flags exptime nbytes datatype i).
Proof.
  intros Hok Ho Hfd. unfold do_item_alloc. run. pose proof (io_largest _ _ _ _ _ Hok) as Hl.
  set (n := item_ntotal (e_config e) (Z.of_nat (length key)) nbytes).
  assert (exists id, slabs_clsid_of n e = Done id e) as [id Hid].
  { eexists. apply slabs_clsid_done; [apply (io_slabs _ _ _ _ _ Hok)|]. unfold POWER_SMALLEST in *. lia. }
  erewrite bind_done by exact Hid. destruct (Z.eqb_spec id 0) as [->|Hne].
  { exists 0, e, M. split; [done|]. by split; [eapply room_refl|]. }
  pose proof (clsid_class e M L n id Hok Hid Hne) as Hcl.
  destruct (item_memory_ok e M L id n Hok Hcl Hfd) as (r & e1 & M1 & Hm & Hro & Hg).
  erewrite bind_done by exact Hm. destruct (Z.eqb_spec r 0) as [->|Hr].
  { exists 0, e1, M1. by split. }
  destruct (Hg Hr) as [Hra Htk]. pose proof Hro as [[L1 Hok1] Hst1 Hsh Hca].
  destruct (fill_item_ok e1 M1 L1 id r (e_config e) key flags exptime nbytes datatype Hok1 Hra)
    as (e2 & Hfill & Hok2 & Hst2 & Hca2 & i & Hh & Hfi).
  { eauto using room_class. }
  { unfold own in *. by rewrite (proj1 (proj2 (step_now _ _ _ Hst1))). }
  exists r, e2, M1. split; [exact Hfill|]. split; [|intros _; split; [done|by exists i]].
  split; [by exists L1| |done|congruence].
  eapply item_step_trans; [exact Hst1|exact Hst2|done|]. intros q Hq <-. split; [auto|].
  apply (raw_loose e1 M1 L1 id r Hok1 Hra).
Qed.

(** ** Access *)

(** Items that are dead: flushed or expired. *)
Definition flushed (e : default_engine) (i : hash_item) : bool :=
  (oldest_live (e_config e) != 0) && (oldest_live (e_config e) <=? e_now e) &&
  (i_time i <=? oldest_live (e_config e)).

Definition expired (e : default_engine) (i : hash_item) : bool :=
  (i_exptime i != 0) && (i_exptime i <=? e_now e).

Definition dead (e : default_engine) (i : hash_item) : bool := flushed e i || expired e i.

(** What a holder of a reference relies on. *)
Definition payload (i : hash_item) :=
  (i_nbytes i, i_flags i, i_datatype i, i_key i, i_data i, slabs_clsid i, has_flag ITEM_WITH_CAS i).

Definition in_use (e : default_engine) (M : gmap bytes Z) (p : Z) (i : hash_item) : Prop :=
  e_mem e !! p = Some i /\ chunk_of e (slabs_clsid i) p /\ ~ is_free e p /\ own e (i_key i) /\
  has_flag ITEM_SLABBED i = false /\ i_refcount i <> 0 /\
  (has_flag ITEM_LINKED i = true -> M !! i_key i = Some p).

(** An item that was removed from the cache: freed, or kept for its users. *)
Definition removed (p : Z) (i : hash_item) (e' : default_engine) : Prop :=
  if decide (i_refcount i = 0) then True
  else exists i', held e' p i' /\ bare i' = bare (unlink_item i).

Lemma do_item_unlink_ok e M L id p i :
  items_ok e M L -> linked_item e id p i -> p ∈ L id -> force_delete (e_scrubber e) = false ->
  exists e' L', do_item_unlink crc32c p e = Done tt e' /\ items_ok e' (delete (i_key i) M) L' /\
    item_step (eq p) e e' /\ removed p i e' /\ cas_id e' = cas_id e /\ e_evicting e' = e_evicting e.
Proof.
  intros Hok Hli Hin Hfd. unfold removed. destruct (decide (i_refcount i = 0)) as [Hr|Hr].
  - destruct (do_item_unlink_free crc32c drift e M L id p i Hok Hli Hin Hfd Hr)
      as (e' & l1 & l2 & _ & ? & ? & ? & _ & ? & ? & _). by eexists e', _.
  - destruct (do_item_unlink_held crc32c drift e M L id p i Hok Hli Hin Hfd Hr)
      as (e' & i' & l1 & l2 & _ & ? & ? & ? & ? & ? & ? & ? & _). eexists e', _.
    split; [done|]. split; [done|]. split; [done|]. split; [by exists i'|done].
Qed.

(** The item a successful access returns: one more reference. *)
Definition get_ref (e : default_engine) (i : hash_item) : hash_item :=
  update_item e (i <| i_refcount := u16 (i_refcount i + 1) |>).

Lemma do_item_get_ok e M L k :
  items_ok e M L -> own e k -> force_delete (e_scrubber e) = false ->
  match M !! k with
  | None => do_item_get crc32c k e = Done 0 e
  | Some p => exists id i, p <> 0 /\ linked_item e id p i /\ i_key i = k /\
      if dead e i then
        exists e' L', do_item_get crc32c k e = Done 0 e' /\ items_ok e' (delete k M) L' /\
          item_step (eq p) e e' /\ removed p i e' /\ cas_id e' = cas_id e
      else
        exists e' i' L', do_item_get crc32c k e = Done p e' /\ items_ok e' M L' /\
          item_step (eq p) e e' /\ linked_item e' id p i' /\ bare i' = bare (get_ref e i) /\
          p ∈ L' id /\ cas_id e' = cas_id e
  end.
Proof.
  intros Hok Ho Hfd. unfold do_item_get. run.
  erewrite bind_done by (apply assoc_find_ok, (io_table _ _ _ _ _ Hok)).
  destruct (M !! k) as [p|] eqn:HM; cbn [default from_option]; [|done]. unfold Datatypes.id.
  destruct (item_place _ _ _ _ _ _ _ Hok HM Ho) as (id & i & Hrange & Hin & Hli & Hk).
  assert (p <> 0) as Hp0 by (destruct (dseg_dom _ _ _ _ p (q_seg _ _ _ _ (io_queue _ _ _ _ _ Hok id ltac:(lia))) Hin); done).
  exists id, i. split; [done|]. split; [done|]. split; [done|].
  rewrite (proj2 (Z.eqb_neq _ _) Hp0). run. erewrite bind_done by (apply deref_done, Hli).
  destruct (do_item_unlink_ok e M L id p i Hok Hli Hin Hfd) as (e1 & L1 & Hu & Hok1 & Hst1 & Hrm & Hca & _).
  rewrite Hk in Hok1. unfold dead. fold (flushed e i). destruct (flushed e i); cbn [orb].
  { erewrite bind_done by exact Hu. by exists e1, L1. }
  fold (expired e i). destruct (expired e i).
  { erewrite bind_done by exact Hu. by exists e1, L1. }
  erewrite bind_done by (apply write_item_done, Hli).
  set (i2 := i <| i_refcount := u16 (i_refcount i + 1) |>).
  destruct (items_ok_write crc32c drift e M L p i i2 Hok (proj1 Hli) eq_refl) as [Hok2 Hst2].
  set (e2 := e <| e_mem := <[p := i2]> (e_mem e) |>) in *.
  assert (linked_item e2 id p i2) as Hli2 by (apply (linked_item_same e e2 id p i i2); try done; apply lookup_insert_eq).
  destruct (do_item_update_ok crc32c drift e2 M L id p i2 Hok2 Hli2 Hin)
    as (e3 & i3 & Hup & Hok3 & Hst3 & Hi3 & Hb3 & Hli3 & Hca3 & _ & _).
  erewrite bind_done by exact Hup. exists e3, i3. eexists. split; [done|]. split; [exact Hok3|].
  split; [by eapply item_step_trans|]. split; [done|]. split; [exact Hb3|]. split; [|exact Hca3].
  destruct (is_old e2 i2); [|done]. rewrite upd_queue_eq. by apply to_head_elem.
Qed.

(** ** Storing *)

Lemma held_step S e e' p i :
  held e p i -> item_step S e e' -> ~ S p -> exists i', held e' p i' /\ bare i' = bare i.
Proof.
  intros (Hi & Hl & Hs & Hc & Hf & Ho) Hst Hn. destruct (is_mem _ _ _ Hst p i Hi) as [?|(i' & Hi' & Hb)]; [done|].
  exists i'. split; [|done]. pose proof (bare_shape _ _ Hb) as (E1 & E2 & E3 & _).
  unfold held, has_flag, own. rewrite E1, E2, E3, (proj1 (proj2 (step_now _ _ _ Hst))).
  split; [done|]. split; [done|]. split; [done|]. split; [by apply (is_chunk _ _ _ Hst)|]. split; [|done].
  intros HC. by destruct (is_unfree _ _ _ Hst p (mk_is_Some _ _ Hi) HC).
Qed.

Lemma linked_step S e e' id p i :
  linked_item e id p i -> item_step S e e' -> ~ S p -> exists i', linked_item e' id p i' /\ bare i' = bare i.
Proof.
  intros Hli Hst Hn. destruct (is_mem _ _ _ Hst p i (proj1 Hli)) as [?|(i' & Hi' & Hb)]; [done|].
  exists i'. split; [|done]. pose proof (bare_shape _ _ Hb) as (E1 & E2 & E3 & _).
  eapply linked_item_same; try done; [apply (step_now _ _ _ Hst)|apply (is_chunk _ _ _ Hst)].
Qed.

Lemma bare_link e e' i i' :
  bare i' = bare i -> e_now e' = e_now e -> cas_id e' = cas_id e -> bare (link_item e' i') = bare (link_item e i).
Proof.
  intros Hb En Ec. assert (forall e i, bare (link_item e i) = link_item e (bare i)) as E.
  { intros. unfold link_item, has_flag. cbn. by destruct (negb _). }
  rewrite !E, Hb. unfold link_item. by rewrite En, Ec.
Qed.

Lemma bare_drop i i' : bare i' = bare i -> bare (drop_ref i') = bare (drop_ref i).
Proof.
  intros Hb. assert (forall i, bare (drop_ref i) = drop_ref (bare i)) as E.
  { intros. unfold drop_ref. cbn. by destruct (_ == 0). }
  by rewrite !E, Hb.
Qed.

(** The old item, which is in use, leaves the cache and the new one takes its
    place. *)
Lemma do_item_replace_ok e M L id p j it i :
  items_ok e M L -> linked_item e id p j -> p ∈ L id -> held e it i -> i_key i = i_key j ->
  force_delete (e_scrubber e) = false -> i_refcount j <> 0 ->
  exists e' L' i' j', do_item_replace crc32c p it e = Done 1 e' /\
    items_ok e' (<[i_key i := it]> M) L' /\ item_step (fun q => q = p \/ q = it) e e' /\
    e_mem e' !! it = Some i' /\ bare i' = bare (link_item e i) /\ cas_id e' = u64 (cas_id e + 1) /\
    held e' p j' /\ bare j' = bare (unlink_item j).
Proof.
  intros Hok Hli Hin Hh Hk Hfd Hr. pose proof Hli as (Hj & Hid & Hl & Hs & Hc & Ho).
  assert (it <> p) as Hne by (intros ->; destruct Hh as (? & ? & _); congruence).
  unfold do_item_replace. run. erewrite bind_done by (by apply deref_done). rewrite Hs. cbn [negb]. run.
  destruct (do_item_unlink_held crc32c drift e M L id p j Hok Hli Hin Hfd Hr)
    as (e1 & j1 & l1 & l2 & _ & Hu & Hok1 & Hst1 & Hh1 & Hb1 & Hca1 & _).
  erewrite bind_done by exact Hu.
  destruct (held_step _ _ _ it i Hh Hst1) as (i1 & Hhi1 & Hbi1); [congruence|].
  pose proof (bare_shape _ _ Hbi1) as (Ei1 & Ei2 & Ei3 & Ei4).
  destruct (do_item_link_ok crc32c drift e1 _ _ it i1 Hok1 Hhi1)
    as (e2 & i2 & Hlk & Hok2 & Hst2 & Hi2 & Hbi2 & Hca2 & _); [by rewrite Ei3, Hk, lookup_delete_eq|].
  rewrite Ei3, Hk, insert_delete_eq in Hok2.
  destruct (held_step _ _ _ p j1 Hh1 Hst2) as (j2 & Hh2 & Hbj2); [congruence|].
  exists e2. eexists. exists i2, j2. split; [exact Hlk|]. split; [rewrite Hk; exact Hok2|]. split.
  { eapply item_step_trans; [exact Hst1|exact Hst2|intros q <-; by left|intros q _ <-; by right]. }
  split; [done|]. split; [rewrite Hbi2; apply bare_link; [done|apply (step_now _ _ _ Hst1)|done]|].
  split; [congruence|]. split; [done|congruence].
Qed.

(** The old item is replaced, and the reference to it is given back. *)
Lemma replace_ok e M L id p j it i :
  items_ok e M L -> linked_item e id p j -> p ∈ L id -> held e it i -> i_key i = i_key j ->
  force_delete (e_scrubber e) = false -> 0 < i_refcount j ->
  exists e' L' i', (do_item_replace crc32c p it;; do_item_release p) e = Done tt e' /\
    items_ok e' (<[i_key i := it]> M) L' /\ item_step (fun q => q = p \/ q = it) e e' /\
    e_mem e' !! it = Some i' /\ bare i' = bare (link_item e i) /\ cas_id e' = u64 (cas_id e + 1) /\
    (1 < i_refcount j -> exists j', held e' p j' /\ bare j' = bare (drop_ref (unlink_item j))).
Proof.
  intros Hok Hli Hin Hh Hk Hfd Hr.
  assert (it <> p) as Hne by (intros ->; destruct Hh as (? & ? & _), Hli as (? & _ & ? & _); congruence).
  destruct (do_item_replace_ok e M L id p j it i Hok Hli Hin Hh Hk Hfd)
    as (e2 & L2 & i2 & j2 & Hrep & Hok2 & Hst2 & Hi2 & Hb2 & Hca2 & Hh2 & Hbj2); [lia|].
  erewrite bind_done by exact Hrep.
  destruct (do_item_release_held crc32c drift e2 _ _ p j2 Hok2 Hh2) as (e3 & Hrel & Hok3 & Hst3 & Hca3 & _ & Hcase).
  destruct (is_mem _ _ _ Hst3 it i2 Hi2) as [?|(i3 & Hi3 & Hbi3)]; [congruence|].
  assert (i_refcount j2 = i_refcount j) as Hrj by (by apply bare_shape in Hbj2 as (_ & _ & _ & ->)).
  exists e3, L2, i3. split; [done|]. split; [done|]. split.
  { eapply item_step_trans; [exact Hst2|exact Hst3|done|intros q _ <-; by left]. }
  split; [done|]. split; [congruence|]. split; [congruence|].
  intros Hr1. assert (i_refcount (drop_ref j2) = i_refcount j - 1) as Hd.
  { unfold drop_ref. rewrite Hrj, (proj2 (Z.eqb_neq _ _)) by lia. done. }
  rewrite decide_False in Hcase by lia. exists (drop_ref j2). split; [apply Hcase|by apply bare_drop].
Qed.

(** An item but its links and the time of the last access. *)
Definition content (i : hash_item) : hash_item := (bare i) <| i_time := 0 |>.

(** The item of a key that an access finds. *)
Definition live (e : default_engine) (M : gmap bytes Z) (k : bytes) : option hash_item :=
  p ← M !! k; i ← e_mem e !! p; if dead e i then None else Some i.

(** The references to the item of a key fit its counter, with one to spare. *)
Definition counted (e : default_engine) (M : gmap bytes Z) (k : bytes) : Prop :=
  forall p i, M !! k = Some p -> e_mem e !! p = Some i -> 0 <= i_refcount i < 65535.

Lemma own_time e M L k p i :
  items_ok e M L -> M !! k = Some p -> own e k -> e_mem e !! p = Some i -> 0 <= i_time i <= e_now e.
Proof.
  intros Hok HM Ho Hi. destruct (item_place _ _ _ _ _ _ _ Hok HM Ho) as (id & _ & _ & Hin & _).
  by eapply aged_elem; [apply (io_times _ _ _ _ _ Hok)| |].
Qed.

(** The users of an item keep it, with their references. *)
Definition kept (M' : gmap bytes Z) (p : Z) (i : hash_item) (e' : default_engine) : Prop :=
  i_refcount i <> 0 -> exists i', in_use e' M' p i' /\ payload i' = payload i /\ i_refcount i <= i_refcount i' /\
    (i_time i' = i_time i \/ i_time i' = e_now e').

Definition store_outcome (operation : ENGINE_STORE_OPERATION) (old : option hash_item) (i : hash_item)
    : ENGINE_ERROR_CODE :=
  match operation, old with
  | OPERATION_ADD, Some _ => ENGINE_NOT_STORED
  | OPERATION_REPLACE, None => ENGINE_NOT_STORED
  | OPERATION_CAS, None => ENGINE_KEY_ENOENT
  | OPERATION_CAS, Some o => if item_get_cas i == item_get_cas o then ENGINE_SUCCESS else ENGINE_KEY_EEXISTS
  | _, _ => ENGINE_SUCCESS
  end.

Lemma held_in_use e M p i : held e p i -> i_refcount i <> 0 -> in_use e M p i.
Proof. intros (? & ? & ? & ? & ? & ?) ?. split_and!; try done. congruence. Qed.

Lemma bare_body i i' : bare i' = bare i -> payload i' = payload i.
Proof. exact (f_equal payload (x := bare i') (y := bare i)). Qed.

Lemma unlink_body i : payload (unlink_item i) = payload i.
Proof.
  unfold payload, unlink_item, has_flag. cbn. rewrite <- Z.land_assoc. by change (Z.land (Z.lnot ITEM_LINKED) ITEM_WITH_CAS) with ITEM_WITH_CAS.
Qed.

Lemma removed_kept M' p i e' : removed p i e' -> kept M' p i e'.
Proof.
  unfold removed, kept. intros H Hr. rewrite decide_False in H by done. destruct H as (i' & Hh & Hb).
  pose proof (bare_shape _ _ Hb) as (_ & _ & _ & Er). exists i'. split; [|split; [|split]].
  - apply held_in_use; [done|]. by rewrite Er.
  - rewrite (bare_body _ _ Hb). apply unlink_body.
  - rewrite Er. done.
  - left. exact (f_equal i_time Hb).
Qed.

Lemma drop_ref_body i : payload (drop_ref i) = payload i.
Proof. unfold drop_ref. by destruct (_ == 0). Qed.

Lemma drop_ref_time i : i_time (drop_ref i) = i_time i.
Proof. unfold drop_ref. by destruct (_ == 0). Qed.

Lemma get_ref_body e i : payload (get_ref e i) = payload i.
Proof. unfold get_ref, update_item. by destruct (is_old _ _). Qed.

(** A reference taken and given back. *)
Lemma get_drop_content e i :
  0 <= i_refcount i < 65535 -> content (drop_ref (get_ref e i)) = content i.
Proof.
  intros Hr. unfold drop_ref, get_ref. rewrite wrap_small by (simpl; lia).
  destruct i. cbn in Hr. unfold update_item. destruct (is_old _ _); cbn;
    rewrite (proj2 (Z.eqb_neq _ _)) by lia; unfold content, bare; by rewrite Z.add_simpl_r.
Qed.

Lemma get_ref_count e i : 0 <= i_refcount i < 65535 -> i_refcount (get_ref e i) = i_refcount i + 1.
Proof.
  intros Hr. assert (u16 (i_refcount i + 1) = i_refcount i + 1) as E by (apply wrap_small; simpl; lia).
  unfold get_ref, update_item. destruct (is_old _ _); cbn; apply E.
Qed.

Lemma get_ref_time e i : i_time (get_ref e i) = i_time i \/ i_time (get_ref e i) = e_now e.
Proof. unfold get_ref, update_item. destruct (is_old _ _); [by right|by left]. Qed.

Lemma bare_content i i' : bare i' = bare i -> content i' = content i.
Proof. unfold content. by intros ->. Qed.

Lemma linked_in_use e M L id p i :
  items_ok e M L -> p ∈ L id -> linked_item e id p i -> i_refcount i <> 0 -> in_use e M p i.
Proof.
  intros Hok Hin (Hi & <- & Hl & Hs & Hc & Ho) Hr. assert (~ is_free e p) by (by eapply linked_not_free).
  split_and!; try done. intros _.
  destruct (io_item _ _ _ _ _ Hok _ _ Hin) as (j & (Hj & _) & Hk). rewrite Hi in Hj. by apply (inj Some) in Hj as <-.
Qed.

(** What [do_item_get] does, by what the key holds. *)
Lemma access_ok e M L k :
  items_ok e M L -> own e k -> force_delete (e_scrubber e) = false ->
  match live e M k with
  | None => exists e' L', do_item_get crc32c k e = Done 0 e' /\ items_ok e' (delete k M) L' /\
      item_step (fun q => M !! k = Some q) e e' /\ cas_id e' = cas_id e /\
      (forall p i, M !! k = Some p -> e_mem e !! p = Some i -> kept (delete k M) p i e')
  | Some i => exists p id e' i' L', p <> 0 /\ M !! k = Some p /\ linked_item e id p i /\ i_key i = k /\
      do_item_get crc32c k e = Done p e' /\ items_ok e' M L' /\
      item_step (fun q => M !! k = Some q) e e' /\ linked_item e' id p i' /\ bare i' = bare (get_ref e i) /\
      p ∈ L' id /\ cas_id e' = cas_id e
  end.
Proof.
  intros Hok Ho Hfd. pose proof (do_item_get_ok e M L k Hok Ho Hfd) as H. unfold live.
  destruct (M !! k) as [p|] eqn:HM; cbn [mbind option_bind].
  2: { exists e, L. rewrite delete_id by done. split; [done|]. split; [done|]. by split; [apply item_step_refl|]. }
  destruct H as (id & i & Hp0 & Hli & Hk & H). rewrite (proj1 Hli). cbn [mbind option_bind].
  destruct (dead e i).
  - destruct H as (e' & L' & ? & ? & Hst & Hr & ?). exists e', L'. split; [done|]. split; [done|].
    split; [eapply item_step_weaken; [exact Hst|congruence]|]. split; [done|].
    intros q j [= <-] Hj. rewrite (proj1 Hli) in Hj. apply (inj Some) in Hj as <-. by apply removed_kept.
  - destruct H as (e' & i' & L' & ? & ? & Hst & ? & ? & ? & ?). exists p, id, e', i', L'.
    split_and!; try done. eapply item_step_weaken; [exact Hst|congruence].
Qed.

Lemma linked_kept e M L id p i j :
  items_ok e M L -> p ∈ L id -> linked_item e id p j -> payload j = payload i -> 0 <= i_refcount i <= i_refcount j ->
  i_time j = i_time i \/ i_time j = e_now e -> kept M p i e.
Proof.
  intros Hok Hin Hli Hb Hr Ht Hn. exists j. split; [|split_and!; [done|lia|done]].
  eapply linked_in_use; [done|done|done|lia].
Qed.

(** The item is new to the cache. *)
Definition store_done (e : default_engine) (M : gmap bytes Z) (it : Z) (i : hash_item) (e' : default_engine) : Prop :=
  (exists L', items_ok e' (<[i_key i := it]> M) L') /\
  item_step (fun q => M !! i_key i = Some q \/ q = it) e e' /\ cas_id e' = u64 (cas_id e + 1) /\
  (exists i', e_mem e' !! it = Some i' /\ bare i' = bare (link_item e i)) /\
  (forall p j, M !! i_key i = Some p -> e_mem e !! p = Some j -> kept (<[i_key i := it]> M) p j e').

(** The cache holds what it held, but for an item that was dead. *)
Definition store_refused (e : default_engine) (M : gmap bytes Z) (k : bytes) (e' : default_engine) : Prop :=
  item_step (fun q => M !! k = Some q) e e' /\ cas_id e' = cas_id e /\
  (forall p j, M !! k = Some p -> e_mem e !! p = Some j ->
    kept (match live e M k with None => delete k M | _ => M end) p j e') /\
  match live e M k with
  | None => exists L', items_ok e' (delete k M) L'
  | Some i => (exists L', items_ok e' M L') /\ exists i', live e' M k = Some i' /\ content i' = content i
  end.

Lemma kept_step S e e' M M' p i :
  kept M p i e -> item_step S e e' -> ~ S p -> (forall k, M !! k = Some p -> M' !! k = Some p) -> kept M' p i e'.
Proof.
  intros Hk Hst Hn HM Hr. destruct (Hk Hr) as (i1 & (Hi & Hc & Hf & Ho & Hs & Hr1 & Hl) & Hb & Er & Ht).
  destruct (is_mem _ _ _ Hst p i1 Hi) as [?|(i2 & Hi2 & Hb2)]; [done|].
  pose proof (bare_shape _ _ Hb2) as (E1 & E2 & E3 & E4). pose proof (step_now _ _ _ Hst) as (En & Eb & _). exists i2.
  split; [|split; [by rewrite (bare_body _ _ Hb2)|split; [lia|]]].
  - unfold in_use, has_flag, own. rewrite E1, E2, E3, E4, Eb. split; [done|]. split; [by apply (is_chunk _ _ _ Hst)|].
    split; [intros HC; by destruct (is_unfree _ _ _ Hst p (mk_is_Some _ _ Hi) HC)|]. split_and!; try done. auto.
  - assert (i_time i2 = i_time i1) as -> by exact (f_equal i_time Hb2). by rewrite En.
Qed.

(** The key holds nothing. *)
Lemma store_new e M L e1 L1 it i :
  items_ok e M L -> held e it i -> live e M (i_key i) = None ->
  items_ok e1 (delete (i_key i) M) L1 -> item_step (fun q => M !! i_key i = Some q) e e1 -> cas_id e1 = cas_id e ->
  (forall p j, M !! i_key i = Some p -> e_mem e !! p = Some j -> kept (delete (i_key i) M) p j e1) ->
  exists e', do_item_link crc32c it e1 = Done 1 e' /\ store_done e M it i e'.
Proof.
  intros Hok Hh Hl Hok1 Hst1 Hca1 Hk1.
  destruct (held_step _ _ _ it i Hh Hst1) as (i1 & Hhi1 & Hbi1); [by eapply held_not_in_table|].
  pose proof (bare_shape _ _ Hbi1) as (_ & _ & Ek & _).
  destruct (do_item_link_ok crc32c drift e1 _ _ it i1 Hok1 Hhi1)
    as (e2 & i2 & Hlk & Hok2 & Hst2 & Hi2 & Hbi2 & Hca2 & _); [by rewrite Ek, lookup_delete_eq|].
  rewrite Ek, insert_delete_eq in Hok2. exists e2. split; [done|]. split; [by eexists|]. split.
  { eapply item_step_trans; [exact Hst1|exact Hst2|by left|]. intros q _ <-. by right. }
  split; [congruence|]. split.
  { exists i2. split; [done|]. rewrite Hbi2. apply bare_link; [done|apply (step_now _ _ _ Hst1)|done]. }
  intros p j Hp Hj. eapply kept_step; [by apply Hk1|exact Hst2| |].
  - intros ->. by eapply (held_not_in_table crc32c drift e M L).
  - intros k' (? & Hk')%lookup_delete_Some. by rewrite lookup_insert_ne.
Qed.

(** The key holds an item, to which [do_item_get] took a reference. *)
Lemma store_over e M L id p j e1 L1 j1 it i :
  items_ok e M L -> held e it i -> M !! i_key i = Some p -> linked_item e id p j -> i_key j = i_key i ->
  0 <= i_refcount j < 65535 -> force_delete (e_scrubber e) = false ->
  items_ok e1 M L1 -> item_step (fun q => M !! i_key i = Some q) e e1 -> linked_item e1 id p j1 ->
  bare j1 = bare (get_ref e j) -> p ∈ L1 id -> cas_id e1 = cas_id e ->
  exists e', (do_item_replace crc32c p it;; do_item_release p) e1 = Done tt e' /\ store_done e M it i e'.
Proof.
  intros Hok Hh HM Hli Hk Hr Hfd Hok1 Hst1 Hli1 Hb1 Hin Hca1.
  assert (M !! i_key i <> Some it) as Hne by (by eapply (held_not_in_table crc32c drift e M L)).
  destruct (held_step _ _ _ it i Hh Hst1) as (i1 & Hhi1 & Hbi1); [done|].
  pose proof (bare_shape _ _ Hbi1) as (_ & _ & Ek & _). pose proof (bare_shape _ _ Hb1) as (_ & _ & Ekj & Erj).
  rewrite get_ref_count in Erj by done.
  assert (i_key (get_ref e j) = i_key j) as Ekg by (unfold get_ref, update_item; by destruct (is_old _ _)).
  destruct (replace_ok e1 M L1 id p j1 it i1 Hok1 Hli1 Hin Hhi1)
    as (e2 & L2 & i2 & Hrun & Hok2 & Hst2 & Hi2 & Hb2 & Hca2 & Hkeep); [congruence|by rewrite (proj2 (proj2 (proj2 (step_now _ _ _ Hst1))))|lia|].
  rewrite Ek in Hok2. exists e2. split; [done|]. split; [by eexists|]. split.
  { eapply item_step_trans; [exact Hst1|exact Hst2|by left|]. intros q _ [->| ->]; [by left|by right]. }
  split; [congruence|]. split.
  { exists i2. split; [done|]. rewrite Hb2. apply bare_link; [done|apply (step_now _ _ _ Hst1)|done]. }
  intros q j' Hq Hj'. replace q with p in * by congruence. rewrite (proj1 Hli) in Hj'. apply (inj Some) in Hj' as <-.
  intros Hnz. destruct Hkeep as (j2 & Hh2 & Hbj2); [lia|]. exists j2.
  assert (i_refcount j2 = i_refcount j) as E.
  { apply bare_shape in Hbj2 as (_ & _ & _ & ->). unfold drop_ref. cbn. rewrite Erj, (proj2 (Z.eqb_neq _ _)) by lia. cbn. lia. }
  split; [apply held_in_use; [done|congruence]|]. split; [|split; [lia|]].
  - by rewrite (bare_body _ _ Hbj2), drop_ref_body, unlink_body, (bare_body _ _ Hb1), get_ref_body.
  - rewrite (proj1 (step_now _ _ _ Hst2)), (proj1 (step_now _ _ _ Hst1)).
    assert (i_time j2 = i_time (get_ref e j)) as ->; [|apply get_ref_time].
    transitivity (i_time j1); [|exact (f_equal i_time Hb1)].
    transitivity (i_time (drop_ref (unlink_item j1))); [exact (f_equal i_time Hbj2)|by rewrite drop_ref_time].
Qed.

(** An access does not make an item dead. *)
Lemma accessed_live e e' i i' :
  dead e i = false -> i_time i <= e_now e -> e_now e' = e_now e -> e_config e' = e_config e ->
  i_exptime i' = i_exptime i -> i_time i' = i_time i \/ i_time i' = e_now e -> dead e' i' = false.
Proof.
  intros Hd Hnow En Ec Ee Ht. unfold dead, flushed, expired in *. rewrite En, Ec, Ee.
  destruct Ht as [-> | ->]; [done|]. apply orb_false_iff in Hd as [Hd ->]. rewrite orb_false_r.
  destruct (oldest_live (e_config e) != 0), (Z.leb_spec (oldest_live (e_config e)) (e_now e)); try done.
  cbn [andb] in *. apply Z.leb_gt in Hd. apply Z.leb_gt. lia.
Qed.

(** The key holds an item that stays; the reference is given back. *)
Lemma store_kept e M id p j e1 L1 j1 k :
  M !! k = Some p -> linked_item e id p j -> 0 <= i_refcount j -> i_time j <= e_now e -> live e M k = Some j ->
  items_ok e1 M L1 -> item_step (fun q => M !! k = Some q) e e1 -> linked_item e1 id p j1 ->
  content (drop_ref j1) = content j -> i_time j1 = i_time j \/ i_time j1 = e_now e -> p ∈ L1 id -> cas_id e1 = cas_id e ->
  exists e', do_item_release p e1 = Done tt e' /\ store_refused e M k e'.
Proof.
  intros HM Hli Hr Hnow Hlive Hok1 Hst1 Hli1 Hc1 Ht Hin Hca.
  destruct (do_item_release_linked crc32c drift e1 M L1 id p j1 Hok1 Hli1) as (e2 & Hrel & Hok2 & Hst2 & Hm2 & Hca2 & _).
  assert (item_step (fun q => M !! k = Some q) e e2) as Hst by (eapply item_step_trans; [exact Hst1|exact Hst2|done|congruence]).
  exists e2. split; [done|]. split; [done|]. split; [congruence|]. split.
  - intros q j' Hq Hj'. replace q with p in * by congruence. rewrite (proj1 Hli) in Hj'. apply (inj Some) in Hj' as <-.
    rewrite Hlive. apply (linked_kept e2 M L1 id p j (drop_ref j1) Hok2 Hin).
    + eapply linked_item_same; [exact Hli1|done|..].
      all: try (unfold drop_ref; by destruct (_ == 0)).
      * apply (step_now _ _ _ Hst2).
      * apply (is_chunk _ _ _ Hst2).
    + exact (f_equal payload Hc1).
    + assert (i_refcount (drop_ref j1) = i_refcount j) as -> by exact (f_equal i_refcount Hc1). lia.
    + rewrite drop_ref_time, (proj1 (step_now _ _ _ Hst)). done.
  - rewrite Hlive. split; [by eexists|]. exists (drop_ref j1). split; [|done]. unfold live in *. rewrite HM in *.
    cbn [mbind option_bind] in *. rewrite Hm2. rewrite (proj1 Hli) in Hlive. cbn [mbind option_bind] in *.
    assert (dead e j = false) as Hd by (by destruct (dead e j)).
    assert (dead e2 (drop_ref j1) = false) as ->; [|done].
    pose proof (step_now _ _ _ Hst) as (En & _ & Ecf & _).
    apply (accessed_live e e2 j); [done|done|done|done|exact (f_equal i_exptime Hc1)|by rewrite drop_ref_time].
Qed.


(** A second update of the item changes its access time at most. *)
Lemma update_again e M id p j e1 L1 j1 k :
  items_ok e1 M L1 -> item_step (fun q => M !! k = Some q) e e1 -> M !! k = Some p -> linked_item e1 id p j1 ->
  content (drop_ref j1) = content j -> i_time j1 = i_time j \/ i_time j1 = e_now e -> p ∈ L1 id ->
  exists e2 L2 j2, do_item_update p e1 = Done tt e2 /\ items_ok e2 M L2 /\
    item_step (fun q => M !! k = Some q) e e2 /\ linked_item e2 id p j2 /\ content (drop_ref j2) = content j /\
    (i_time j2 = i_time j \/ i_time j2 = e_now e) /\ p ∈ L2 id /\ cas_id e2 = cas_id e1.
Proof.
  intros Hok1 Hst1 HM Hli1 Hc1 Ht Hin.
  destruct (do_item_update_ok crc32c drift e1 M L1 id p j1 Hok1 Hli1 Hin)
    as (e2 & j2 & Hup & Hok2 & Hst2 & Hi2 & Hb2 & Hli2 & Hca2 & _ & _).
  exists e2. eexists. exists j2. split; [done|]. split; [exact Hok2|].
  split; [eapply item_step_trans; [exact Hst1|exact Hst2|done|congruence]|]. split; [done|].
  assert (i_time j2 = i_time (update_item e1 j1)) as -> by exact (f_equal i_time Hb2).
  split; [|split; [|split; [|done]]].
  - rewrite (bare_content _ _ (bare_drop _ _ Hb2)), <- Hc1. unfold update_item, drop_ref, content.
    destruct (is_old e1 j1); [|done]. cbn. by destruct (i_refcount j1 == 0).
  - unfold update_item. destruct (is_old e1 j1); [|done]. right. cbn. apply (step_now _ _ _ Hst1).
  - destruct (is_old e1 j1); [|done]. rewrite upd_queue_eq. by apply to_head_elem.
Qed.

(** Comparisons of constants. *)
Ltac decide_closed := repeat match goal with |- context [bool_decide ?P] =>
  first [rewrite (bool_decide_eq_true_2 P) by done | rewrite (bool_decide_eq_false_2 P) by done] end.

Lemma do_store_item_ok e M L it i operation :
  items_ok e M L -> held e it i -> force_delete (e_scrubber e) = false -> counted e M (i_key i) ->
  exists e', let r := store_outcome operation (live e M (i_key i)) i in
    do_store_item crc32c it operation e = Done (r, if bool_decide (r = ENGINE_SUCCESS) then it else 0) e' /\
    if bool_decide (r = ENGINE_SUCCESS) then store_done e M it i e' else store_refused e M (i_key i) e'.
Proof.
  intros Hok Hh Hfd Hcnt. pose proof Hh as (Hi & _ & _ & _ & _ & Ho).
  unfold do_store_item. run. erewrite bind_done by (by apply deref_done).
  pose proof (access_ok e M L (i_key i) Hok Ho Hfd) as Hget.
  destruct (live e M (i_key i)) as [j|] eqn:Hlive.
  - destruct Hget as (p & id & e1 & j1 & L1 & Hp0 & HM & Hli & Hkj & Hg & Hok1 & Hst1 & Hli1 & Hb1 & Hin & Hca1).
    erewrite bind_done by exact Hg. rewrite (proj2 (Z.eqb_neq _ _) Hp0). cbn [negb andb].
    pose proof (Hcnt p j HM (proj1 Hli)) as Hr. pose proof (own_time e M L _ p j Hok HM Ho (proj1 Hli)) as Hnow.
    assert (content (drop_ref j1) = content j) as Hc1.
    { rewrite (bare_content _ _ (bare_drop _ _ Hb1)). by apply get_drop_content. }
    assert (i_time j1 = i_time j \/ i_time j1 = e_now e) as Ht1.
    { assert (i_time j1 = i_time (get_ref e j)) as -> by exact (f_equal i_time Hb1). apply get_ref_time. }
    destruct (store_over e M L id p j e1 L1 j1 it i) as (e2 & Hrep & Hdone); try done.
    destruct (store_kept e M id p j e1 L1 j1 (i_key i)) as (e3 & Hrel & Hkept); try done; try lia.
    assert (M !! i_key i <> Some it) as Hne by (by eapply (held_not_in_table crc32c drift e M L)).
    destruct (held_step _ _ _ it i Hh Hst1 Hne) as (i1 & (Hi1 & _) & Hbi1).
    destruct (bind_inv _ _ _ _ _ Hrep) as (x & e2' & Hrep1 & Hrep2). destruct operation; cbn [store_outcome]; decide_closed.
    + destruct (update_again e M id p j e1 L1 j1 (i_key i)) as (e4 & L4 & j4 & Hup & Hok4 & Hst4 & Hli4 & Hc4 & Ht4 & Hin4 & Hca4); try done.
      destruct (store_kept e M id p j e4 L4 j4 (i_key i)) as (e5 & Hrel5 & Hkept5); try done; try lia.
      exists e5. run. erewrite bind_done by exact Hup. run. erewrite bind_done by exact Hrel5. run. by decide_closed.
    + exists e2. run. erewrite bind_done by exact Hrep1. run. erewrite bind_done by exact Hrep2. run. by decide_closed.
    + exists e2. run. erewrite bind_done by exact Hrep1. run. erewrite bind_done by exact Hrep2. run. by decide_closed.
    + assert (item_get_cas i1 = item_get_cas i) as E1 by exact (f_equal item_get_cas Hbi1).
      assert (item_get_cas j1 = item_get_cas j) as E2.
      { transitivity (item_get_cas (get_ref e j)); [exact (f_equal item_get_cas Hb1)|]. unfold get_ref, update_item. by destruct (is_old _ _). }
      run. erewrite bind_done by (by apply deref_done). run. erewrite bind_done by (apply deref_done, Hli1).
      rewrite E1, E2. destruct (item_get_cas i == item_get_cas j); run; decide_closed.
      * exists e2. erewrite bind_done by exact Hrep1. run. erewrite bind_done by exact Hrep2. run. by decide_closed.
      * exists e3. erewrite bind_done by exact Hrel. run. by decide_closed.
  - destruct Hget as (e1 & L1 & Hg & Hok1 & Hst1 & Hca1 & Hk1). erewrite bind_done by exact Hg. cbn [Z.eqb negb andb].
    destruct (store_new e M L e1 L1 it i) as (e2 & Hlk & Hdone); try done.
    assert (store_refused e M (i_key i) e1) as Href.
    { split; [done|]. split; [done|]. rewrite Hlive. split; [done|]. by eexists. }
    destruct operation; cbn [store_outcome]; decide_closed; run; decide_closed; [exists e2|exists e2|by exists e1|by exists e1].
    all: erewrite bind_done by exact Hlk; run; by decide_closed.
Qed.

End Room.
