(* ===== verification/CacheCalls.v ===== *)
(** * Calls on the cache

    What the calls of the engine do to the cache as a whole: the items in use
    stay as they are, and the values of the keys change as the call says. *)

From S2P Require Import Prelude Numbers RecordUpdate StateMonad Protocol EngineApi EngineState Assoc Slabs.
From S2P Require Import Items ItemQueues Cache CacheOps.

Section Calls.
Context (crc32c : bytes -> Z) (uninit : hash_item -> nat -> Z * bytes) (drift : Z -> Z).
Abbreviation items_ok := (items_ok crc32c drift).

(** Every item in use stays in use as it is, unless it is in use for so long
    that the reference counts as lost. *)
Definition keeps (e : default_engine) (M : gmap bytes Z) (e' : default_engine) (M' : gmap bytes Z) : Prop :=
  forall p i, in_use e M p i -> ~ overdue e i -> kept M' p i e'.

(** The clock is far from its end. *)
Definition early (e : default_engine) : Prop := 0 <= e_now e /\ e_now e + TAIL_REPAIR_TIME < 2 ^ 32.

Lemma in_use_kept e M p i : in_use e M p i -> kept M p i e.
Proof. intros H _. exists i. split_and!; [done|done|lia|by left]. Qed.

Lemma keeps_refl e M : keeps e M e M.
Proof. intros p i H _. by apply in_use_kept. Qed.

Lemma keeps_step S e M e' M' :
  item_step S e e' ->
  (forall p i, in_use e M p i -> ~ overdue e i ->
     (~ S p /\ forall k, M !! k = Some p -> M' !! k = Some p) \/ kept M' p i e') ->
  keeps e M e' M'.
Proof.
  intros Hst H p i Hu Ho. destruct (H p i Hu Ho) as [[Hn HM]|?]; [|done].
  eapply kept_step; [by apply in_use_kept|exact Hst|done|done].
Qed.

Lemma kept_trans S S' e e1 M1 e2 M2 p i :
  early e -> item_step S e e1 -> item_step S' e1 e2 -> ~ overdue e i -> kept M1 p i e1 ->
  (forall i1, in_use e1 M1 p i1 -> ~ overdue e1 i1 -> i_refcount i <= i_refcount i1 -> kept M2 p i1 e2) -> kept M2 p i e2.
Proof.
  intros [He1 He2] Hst Hst' Ho H1 H2 Hr. destruct (H1 Hr) as (i1 & Hu1 & Hb1 & Hr1 & Ht1).
  pose proof (proj1 (step_now _ _ _ Hst)) as En. assert (~ overdue e1 i1) as Ho1.
  { unfold overdue in *. rewrite En in *. destruct Ht1 as [->| ->]; [done|]. rewrite u32_small by (unfold TAIL_REPAIR_TIME in *; lia).
    unfold TAIL_REPAIR_TIME. lia. }
  pose proof Hu1 as (_ & _ & _ & _ & _ & Hnz & _).
  destruct (H2 i1 Hu1 Ho1 Hr1 Hnz) as (i2 & Hu2 & Hb2 & Hr2 & Ht2). exists i2. split_and!; [done|congruence|lia|].
  destruct Ht2 as [->|?]; [|by right]. destruct Ht1 as [->|E]; [by left|]. right. by rewrite (proj1 (step_now _ _ _ Hst')).
Qed.

Lemma keeps_trans S S' e M e1 M1 e2 M2 :
  early e -> item_step S e e1 -> item_step S' e1 e2 -> keeps e M e1 M1 -> keeps e1 M1 e2 M2 -> keeps e M e2 M2.
Proof. intros He Hst Hst' H1 H2 p i Hu Ho. eapply kept_trans; [done|exact Hst|exact Hst'|done|by apply H1|auto]. Qed.

(** The items in use are not among those an allocation may take. *)
Lemma in_use_fixed e M p i : in_use e M p i -> ~ overdue e i -> ~ takeable e p.
Proof.
  intros (Hi & _ & Hf & _ & _ & Hr & _) Ho [?|(j & Hj & _ & Hs)]; [done|].
  rewrite Hi in Hj. apply (inj Some) in Hj as <-. by destruct Hs.
Qed.

Lemma room_keeps e M e' M' : room crc32c drift e M e' M' -> keeps e M e' M'.
Proof.
  intros [_ Hst [_ Hsh] _]. eapply keeps_step; [exact Hst|]. intros p i Hu Ho. left. split; [intros [? _]; by eapply in_use_fixed|].
  intros k Hk. destruct (Hsh k p Hk) as [?|(_ & j & Hj & Hs)]; [done|]. destruct Hu as (Hi & _ & _ & _ & _ & Hr & _).
  rewrite Hi in Hj. apply (inj Some) in Hj as <-. by destruct Hs.
Qed.

(** Only the item of the key [k] changes. *)
Lemma key_keeps k e M e' M' :
  item_step (fun q => M !! k = Some q) e e' -> (forall k', k' <> k -> M' !! k' = M !! k') ->
  (forall p i, M !! k = Some p -> e_mem e !! p = Some i -> kept M' p i e') -> keeps e M e' M'.
Proof.
  intros Hst HM Hk. eapply keeps_step; [exact Hst|]. intros p i Hu _.
  destruct (decide (M !! k = Some p)) as [E|E]; [right; by apply Hk; [|apply Hu]|left]. split; [done|].
  intros k' Hk'. rewrite HM; [done|]. congruence.
Qed.

Lemma access_keeps e M L k :
  items_ok e M L -> own e k -> force_delete (e_scrubber e) = false -> counted e M k ->
  match live e M k with
  | None => exists e' L', do_item_get crc32c k e = Done 0 e' /\ items_ok e' (delete k M) L' /\
      item_step (fun q => M !! k = Some q) e e' /\ cas_id e' = cas_id e /\ keeps e M e' (delete k M)
  | Some i => exists p id e' i' L', p <> 0 /\ M !! k = Some p /\ linked_item e id p i /\ i_key i = k /\
      do_item_get crc32c k e = Done p e' /\ items_ok e' M L' /\
      item_step (fun q => M !! k = Some q) e e' /\ linked_item e' id p i' /\ bare i' = bare (get_ref e i) /\
      p ∈ L' id /\ cas_id e' = cas_id e /\ keeps e M e' M
  end.
Proof.
  intros Hok Ho Hfd Hcnt. pose proof (access_ok crc32c drift e M L k Hok Ho Hfd) as H.
  destruct (live e M k) as [i|] eqn:Hlive.
  - destruct H as (p & id & e' & i' & L' & Hp & HM & Hli & Hk & Hg & Hok' & Hst & Hli' & Hb & Hin & Hca).
    exists p, id, e', i', L'. do 11 (split; [done|]). eapply key_keeps; [exact Hst|done|]. intros q j Hq Hj.
    rewrite HM in Hq. apply (inj Some) in Hq as <-. rewrite (proj1 Hli) in Hj. apply (inj Some) in Hj as <-.
    pose proof (Hcnt p i HM (proj1 Hli)) as Hr. pose proof (bare_shape _ _ Hb) as (_ & _ & _ & Er).
    rewrite get_ref_count in Er by done. eapply linked_kept; [exact Hok'|exact Hin|exact Hli'| |lia|].
    + by rewrite (bare_body _ _ Hb), get_ref_body.
    + assert (i_time i' = i_time (get_ref e i)) as -> by exact (f_equal i_time Hb).
      rewrite (proj1 (step_now _ _ _ Hst)). apply get_ref_time.
  - destruct H as (e' & L' & Hg & Hok' & Hst & Hca & Hk). exists e', L'. do 4 (split; [done|]).
    eapply key_keeps; [exact Hst| |exact Hk]. intros k' Hn. by rewrite lookup_delete_ne.
Qed.

Lemma link_item_body e i : payload (link_item e i) = payload i.
Proof.
  assert (forall i', iflag i' = Z.lor (iflag i) ITEM_LINKED -> has_flag ITEM_WITH_CAS i' = has_flag ITEM_WITH_CAS i) as E.
  { intros i' E. unfold has_flag. rewrite E, Z.land_lor_distr_l. change (Z.land ITEM_LINKED ITEM_WITH_CAS) with 0. by rewrite Z.lor_0_r. }
  unfold payload. rewrite (E (link_item e i)) by apply link_item_fields. unfold link_item.
  by match goal with |- context [if ?b then _ else _] => destruct b end.
Qed.

(** The user of an item that was put into the cache keeps it. *)
Lemma stored_kept S e M it i e' L' i' :
  held e it i -> items_ok e' (<[i_key i := it]> M) L' -> item_step S e e' ->
  e_mem e' !! it = Some i' -> bare i' = bare (link_item e i) -> kept (<[i_key i := it]> M) it i e'.
Proof.
  intros (Hi & _ & _ & _ & _ & Ho) Hok' Hst Hi' Hb Hnz. pose proof (step_now _ _ _ Hst) as (En & Eb & _).
  destruct (item_place _ _ _ _ _ (i_key i) it Hok') as (id & i2 & _ & Hin & Hli & _);
    [apply lookup_insert_eq|unfold own in *; congruence|].
  pose proof (proj1 Hli) as E2. rewrite Hi' in E2. apply (inj Some) in E2 as <-.
  pose proof (bare_shape _ _ Hb) as (_ & _ & _ & Er). destruct (link_item_fields e i) as (_ & _ & _ & _ & Er' & _).
  exists i'. split; [eapply linked_in_use; [exact Hok'|exact Hin|exact Hli|congruence]|]. split; [|split; [lia|right]].
  - by rewrite (bare_body _ _ Hb), link_item_body.
  - rewrite En. transitivity (i_time (link_item e i)); [exact (f_equal i_time Hb)|apply link_item_time].
Qed.

(** A key gets a new item; the old one stays for its users. *)
Lemma insert_keeps e M L it i e' L' i' :
  items_ok e M L -> held e it i -> items_ok e' (<[i_key i := it]> M) L' ->
  item_step (fun q => M !! i_key i = Some q \/ q = it) e e' ->
  e_mem e' !! it = Some i' -> bare i' = bare (link_item e i) ->
  (forall p j, M !! i_key i = Some p -> e_mem e !! p = Some j -> kept (<[i_key i := it]> M) p j e') ->
  keeps e M e' (<[i_key i := it]> M).
Proof.
  intros Hok Hh Hok' Hst Hi' Hb Hk.
  assert (M !! i_key i <> Some it) as Hne by (by eapply (held_not_in_table crc32c drift e M L)).
  eapply keeps_step; [exact Hst|]. intros p j Hu _. destruct (decide (M !! i_key i = Some p)) as [E|E].
  { right. apply Hk; [done|apply Hu]. }
  destruct (decide (p = it)) as [->|Hn].
  - right. destruct Hu as (Hj & _). rewrite (proj1 Hh) in Hj. apply (inj Some) in Hj as <-. by eapply stored_kept.
  - left. split; [by intros [?|?]|]. intros k Hp. rewrite lookup_insert_ne; [done|]. congruence.
Qed.

Lemma store_done_keeps e M it i e' L :
  items_ok e M L -> held e it i -> store_done crc32c drift e M it i e' -> keeps e M e' (<[i_key i := it]> M).
Proof. intros Hok Hh ((L' & Hok') & Hst & _ & (i' & Hi' & Hb) & Hk). by eapply insert_keeps. Qed.

Lemma unlink_keeps e M p i e' :
  e_mem e !! p = Some i -> M !! i_key i = Some p -> item_step (eq p) e e' -> removed p i e' ->
  keeps e M e' (delete (i_key i) M).
Proof.
  intros Hi HM Hst Hrm. apply (key_keeps (i_key i)).
  - eapply item_step_weaken; [exact Hst|congruence].
  - intros k' Hn. by apply lookup_delete_ne.
  - intros q j Hq Hj. replace q with p in * by congruence. rewrite Hi in Hj. apply (inj Some) in Hj as <-. by apply removed_kept.
Qed.

(** The keys after a store that was refused. *)
Definition swept (e : default_engine) (M : gmap bytes Z) (k : bytes) : gmap bytes Z :=
  match live e M k with None => delete k M | _ => M end.

Lemma swept_ne e M k k' : k' <> k -> swept e M k !! k' = M !! k'.
Proof. intros Hn. unfold swept. destruct (live e M k); [done|by apply lookup_delete_ne]. Qed.

Lemma store_refused_keeps e M k e' : store_refused crc32c drift e M k e' -> keeps e M e' (swept e M k).
Proof.
  intros (Hst & _ & Hk & _). eapply key_keeps; [exact Hst|by apply swept_ne|exact Hk].
Qed.

(** ** Touching *)

(** A write to an item of the cache that keeps its place. *)
Lemma linked_write e M L id p i i' :
  items_ok e M L -> linked_item e id p i -> p ∈ L id -> skeleton i' = skeleton i ->
  let e' := e <| e_mem := <[p := i']> (e_mem e) |> in
  items_ok e' M L /\ item_step (eq p) e e' /\ linked_item e' id p i'.
Proof.
  intros Hok Hli Hin Hsk e'. destruct (items_ok_write crc32c drift e M L p i i' Hok (proj1 Hli) Hsk) as [? ?].
  split; [done|]. split; [done|]. injection Hsk as _ _ _ E1 E2 E3 _.
  apply (linked_item_same e e' id p i i'); try done. apply lookup_insert_eq.
Qed.

(** The same for the items in use, when the write keeps their contents. *)
Lemma write_keeps e M L id p i i' :
  items_ok e M L -> linked_item e id p i -> p ∈ L id -> skeleton i' = skeleton i ->
  (i_refcount i <> 0 -> payload i' = payload i /\ i_refcount i' = i_refcount i) -> i_time i' = i_time i -> 0 <= i_refcount i ->
  keeps e M (e <| e_mem := <[p := i']> (e_mem e) |>) M.
Proof.
  intros Hok Hli Hin Hsk Hb Ht Hpos. destruct (linked_write e M L id p i i' Hok Hli Hin Hsk) as (Hok' & Hst & Hli').
  eapply keeps_step; [exact Hst|]. intros q j Hu _. destruct (decide (p = q)) as [<-|]; [|by left]. right.
  destruct Hu as (Hj & _ & _ & _ & _ & Hr & _). rewrite (proj1 Hli) in Hj. apply (inj Some) in Hj as <-.
  destruct (Hb Hr) as [? ?]. eapply linked_kept; [exact Hok'|exact Hin|exact Hli'|done|lia|by left].
Qed.

Lemma do_touch_item_ok e M L k exptime :
  items_ok e M L -> own e k -> force_delete (e_scrubber e) = false -> counted e M k -> early e ->
  exists e', item_step (fun q => M !! k = Some q) e e' /\ cas_id e' = cas_id e /\ keeps e M e' (swept e M k) /\
  match live e M k with
  | None => do_touch_item crc32c k exptime e = Done 0 e' /\ exists L', items_ok e' (delete k M) L'
  | Some i => exists p i', do_touch_item crc32c k exptime e = Done p e' /\ (exists L', items_ok e' M L') /\
      p <> 0 /\ M !! k = Some p /\ e_mem e' !! p = Some i' /\ bare i' = bare ((get_ref e i) <| i_exptime := exptime |>)
  end.
Proof.
  intros Hok Ho Hfd Hcnt He. pose proof (access_keeps e M L k Hok Ho Hfd Hcnt) as H. unfold do_touch_item, swept.
  destruct (live e M k) as [i|] eqn:Hlive.
  2: { destruct H as (e1 & L1 & Hg & Hok1 & Hst1 & Hca & Hk). exists e1. split; [done|]. split; [done|]. split; [done|].
       erewrite bind_done by exact Hg. split; [done|by eexists]. }
  destruct H as (p & id & e1 & i1 & L1 & Hp & HM & Hli & Hki & Hg & Hok1 & Hst1 & Hli1 & Hb & Hin & Hca & Hk).
  set (i2 := i1 <| i_exptime := exptime |>).
  destruct (linked_write e1 M L1 id p i1 i2 Hok1 Hli1 Hin eq_refl) as (Hok2 & Hst2 & Hli2).
  assert (keeps e1 M (e1 <| e_mem := <[p := i2]> (e_mem e1) |>) M) as Hk2.
  { eapply write_keeps; try done. pose proof (Hcnt p i HM (proj1 Hli)) as Hr.
    pose proof (bare_shape _ _ Hb) as (_ & _ & _ & ->). rewrite get_ref_count by done. lia. }
  set (e2 := e1 <| e_mem := <[p := i2]> (e_mem e1) |>) in *. exists e2.
  split; [eapply item_step_trans; [exact Hst1|exact Hst2|done|congruence]|]. split; [done|].
  split; [by eapply keeps_trans|]. exists p, i2. erewrite bind_done by exact Hg.
  rewrite (proj2 (Z.eqb_neq _ _) Hp). cbn [negb]. run. erewrite bind_done by (apply write_item_done, Hli1).
  split; [done|]. split; [by eexists|]. split; [done|]. split; [done|]. split; [apply Hli2|].
  exact (f_equal (fun x => x <| i_exptime := exptime |>) Hb).
Qed.

(** ** Counters *)

(** The number an item holds. *)
Definition counter_of (i : hash_item) : option Z :=
  if 79 <=? i_nbytes i then None
  else safe_strtoull (c_string (take (Z.to_nat (i_nbytes i)) (i_data i))).

Lemma counter_of_range i v : counter_of i = Some v -> 0 <= v < 2 ^ 64.
Proof. unfold counter_of. destruct (_ <=? _); [done|]. apply safe_strtoull_range. Qed.

Lemma add_delta_range incr delta v :
  0 <= v < 2 ^ 64 -> 0 <= delta -> 0 <= add_delta incr delta v < 2 ^ 64.
Proof.
  intros Hv Hd. unfold add_delta. destruct incr; [by apply wrap_range|]. destruct (Z.ltb_spec v delta); lia.
Qed.

Lemma counter_of_text i v n :
  0 <= v < 2 ^ 64 -> i_data i = print_u64 v ++ replicate n SPACE -> i_nbytes i = Z.of_nat (length (i_data i)) ->
  i_nbytes i < 79 -> counter_of i = Some v.
Proof.
  intros Hv Hd Hn Hs. unfold counter_of. rewrite (proj2 (Z.leb_gt _ _)) by done.
  rewrite Hn, Nat2Z.id, take_ge, Hd by done. by rewrite counter_c_string, counter_roundtrip.
Qed.

(** No flush is to come. *)
Definition flush_past (e : default_engine) : Prop :=
  oldest_live (e_config e) = 0 \/ oldest_live (e_config e) < e_now e.

Lemma new_not_flushed e i : flush_past e -> i_time i = e_now e -> flushed e i = false.
Proof.
  unfold flushed. intros Hf ->. destruct Hf as [->|Hlt]; [done|]. rewrite (proj2 (Z.leb_gt (e_now e) _)) by done. by rewrite andb_false_r.
Qed.

Lemma flush_past_step S e e' : item_step S e e' -> flush_past e -> flush_past e'.
Proof. intros Hst. unfold flush_past. destruct (step_now _ _ _ Hst) as (-> & _ & -> & _). done. Qed.

(** An item of the cache with the number [v]. *)
Definition counts (e' : default_engine) (key : bytes) (flags exptime datatype : Z) (i' : hash_item) (v : Z) : Prop :=
  counter_of i' = Some v /\ i_key i' = key /\ u32 (i_flags i') = u32 flags /\ u32 (i_exptime i') = u32 exptime /\
  u8 (i_datatype i') = u8 datatype /\ flushed e' i' = false /\ (has_flag ITEM_WITH_CAS i' = true -> i_cas i' = cas_id e').

(** The item is changed in place. *)
Lemma add_in_place_ok e M L id p i v :
  items_ok e M L -> linked_item e id p i -> p ∈ L id -> 0 <= v < 2 ^ 64 -> flushed e i = false ->
  Z.of_nat (length (print_u64 v)) <= i_nbytes i < 79 ->
  exists e' i', (write_item p (fun i => i <| i_data :=
          print_u64 v ++ replicate (Z.to_nat (i_nbytes i - Z.of_nat (length (print_u64 v)))) SPACE |>);;
        cas <- get_cas_id;;
        item_set_cas p cas;;
        ret (ENGINE_SUCCESS, p, v)) e = Done (ENGINE_SUCCESS, p, v) e' /\
    items_ok e' M L /\ item_step (eq p) e e' /\ cas_id e' = u64 (cas_id e + 1) /\ e_mem e' !! p = Some i' /\ counts e' (i_key i) (i_flags i) (i_exptime i) (i_datatype i) i' v.
Proof.
  intros Hok Hli Hin Hv Hfl Hn. unfold get_cas_id, item_set_cas. run.
  erewrite bind_done by apply write_item_done, Hli. run.
  set (data := print_u64 v ++ _). set (i1 := i <| i_data := data |>).
  destruct (linked_write e M L id p i i1 Hok Hli Hin eq_refl) as (Hok1 & Hst1 & Hli1).
  set (e1 := e <| e_mem := <[p := i1]> (e_mem e) |>) in *.
  set (e2 := e1 <| cas_id := u64 (cas_id e1 + 1) |>).
  assert (items_ok e2 M L) as Hok2 by (apply (items_ok_counters crc32c drift e1 e2 M L Hok1); done).
  assert (linked_item e2 id p i1) as Hli2 by exact Hli1.
  erewrite bind_done by apply write_item_done, Hli2.
  set (i3 := if has_flag ITEM_WITH_CAS i1 then i1 <| i_cas := cas_id e2 |> else i1).
  assert (skeleton i3 = skeleton i1) as Hsk by (unfold i3; by destruct (has_flag _ _)).
  destruct (linked_write e2 M L id p i1 i3 Hok2 Hli2 Hin Hsk) as (Hok3 & Hst3 & Hli3).
  set (e3 := e2 <| e_mem := <[p := i3]> (e_mem e2) |>) in *.
  exists e3, i3. split; [done|]. split; [done|]. split.
  { eapply item_step_trans; [exact Hst1| |done|intros q _ Hq; exact Hq].
    eapply (item_step_trans (eq p) _ _ e1 e2); [by apply item_step_counters|exact Hst3|done|done]. }
  split; [done|]. split; [apply Hli3|].
  assert (counter_of i1 = Some v) as Hc.
  { eapply counter_of_text; [done|reflexivity| |]; change (i_nbytes i1) with (i_nbytes i); [|lia].
    change (i_data i1) with data. unfold data. rewrite length_app, length_replicate. lia. }
  unfold counts, i3. destruct (has_flag ITEM_WITH_CAS i1) eqn:Hf; split_and!; try done; try exact Hc; congruence.
Qed.

(** The keys but [k] lose items at most. *)
Definition others (k : bytes) (M M' : gmap bytes Z) : Prop :=
  forall k', k' <> k -> M' !! k' = M !! k' \/ M' !! k' = None.

Lemma shrinks_others k e M M' : shrinks e M M' -> others k M M'.
Proof.
  intros [Hs _] k' _. destruct (M' !! k') as [p|] eqn:E; [left|by right]. symmetry. by eapply lookup_weaken.
Qed.

(** Memory that may become the new item of the key [k]; no other key holds it. *)
Definition taken (e : default_engine) (k : bytes) (M' : gmap bytes Z) (p : Z) : Prop :=
  takeable e p /\ forall k', k' <> k -> M' !! k' <> Some p.

(** An item in use survives an allocation. *)
Lemma room_linked e M L id p i e' M' :
  items_ok e M L -> linked_item e id p i -> p ∈ L id -> i_refcount i <> 0 -> ~ overdue e i ->
  room crc32c drift e M e' M' ->
  exists i' L', items_ok e' M' L' /\ linked_item e' id p i' /\ bare i' = bare i /\ p ∈ L' id /\
    M' !! i_key i = Some p /\ ~ takeable e p.
Proof.
  intros Hok Hli Hin Hr Ho [[L' Hok'] Hst [_ Hsh] _].
  assert (in_use e M p i) as Hu by (by eapply linked_in_use). assert (~ takeable e p) as Ht by (by eapply in_use_fixed).
  destruct Hu as (Hi & _ & Hf & _ & _ & _ & HM). pose proof Hli as (_ & _ & Hl & _ & _ & Hown). specialize (HM Hl).
  destruct (linked_step _ _ _ id p i Hli Hst) as (i' & Hli' & Hb); [by intros [? _]|]. exists i', L'.
  assert (M' !! i_key i = Some p) as HM'.
  { destruct (Hsh _ p HM) as [?|(_ & j & Hj & Hs)]; [done|]. rewrite Hi in Hj. apply (inj Some) in Hj as <-. by destruct Hs. }
  split_and!; try done. destruct (item_place _ _ _ _ _ (i_key i) p Hok' HM') as (id' & j & _ & Hin' & Hlj & _).
  { unfold own in *. by rewrite (proj1 (proj2 (step_now _ _ _ Hst))). }
  destruct Hli' as (Hi' & <- & _). destruct Hlj as (Hj & <- & _). rewrite Hi' in Hj. by apply (inj Some) in Hj as <-.
Qed.

(** New memory that is filled in. *)
Lemma held_write e M L p i i' :
  items_ok e M L -> held e p i -> (iflag i', slabs_clsid i', i_key i') = (iflag i, slabs_clsid i, i_key i) ->
  let e' := e <| e_mem := <[p := i']> (e_mem e) |> in
  items_ok e' M L /\ item_step (eq p) e e' /\ held e' p i'.
Proof.
  intros Hok Hh Hf e'. destruct (items_ok_loose crc32c drift e M L p i' Hok (held_loose _ _ _ _ _ _ _ Hok Hh)) as [Hok' Hst].
  split; [done|]. split; [done|]. destruct Hh as (Hi & Hl & Hs & Hc & Hfr & Ho). injection Hf as E1 E2 E3.
  unfold held, has_flag, own in *. rewrite E1, E2, E3, (chunk_of_same e e'), (is_free_same e e') by done.
  split_and!; try done. apply lookup_insert_eq.
Qed.

Lemma link_item_cas e i : has_flag ITEM_WITH_CAS (link_item e i) = true -> i_cas (link_item e i) = u64 (cas_id e + 1).
Proof.
  unfold link_item. match goal with |- context [if ?b then _ else _] => destruct b eqn:E end; [done|]. intros E'. by rewrite E in E'.
Qed.

Lemma kept_bare M' p i i' e' : bare i' = bare i -> kept M' p i' e' -> kept M' p i e'.
Proof.
  intros Hb Hk. unfold kept in *. pose proof (bare_shape _ _ Hb) as (_ & _ & _ & Er).
  rewrite (bare_body _ _ Hb), Er in Hk.
  assert (i_time i' = i_time i) as E by exact (f_equal i_time Hb). by rewrite E in Hk.
Qed.

Lemma fresh_filled c key flags exptime datatype n v :
  0 <= v < 2 ^ 64 -> fresh_item c key flags exptime (Z.of_nat (length (print_u64 v))) datatype n ->
  fresh_item c key flags exptime (Z.of_nat (length (print_u64 v))) datatype (n <| i_data := print_u64 v |>).
Proof.
  intros Hv (? & ? & ? & ? & ? & ? & ? & _). destruct (print_u64_spec v Hv) as (_ & _ & Hlen & _).
  split_and!; try done. change (i_data _) with (print_u64 v). by rewrite u32_small, Nat2Z.id by lia.
Qed.

(** A new item with the text of a number, once it is in the cache. *)
Lemma linked_counts e e' c key flags exptime datatype n i' v :
  0 <= v < 2 ^ 64 -> i_data n = print_u64 v -> bare i' = bare (link_item e n) -> cas_id e' = u64 (cas_id e + 1) ->
  flush_past e' -> e_now e' = e_now e -> fresh_item c key flags exptime (Z.of_nat (length (print_u64 v))) datatype n ->
  counts e' key flags exptime datatype i' v.
Proof.
  intros Hv Hd Hb Hca Hfp Hnow (Fk & Ff & Fe & Fn & Ft & _). destruct (print_u64_spec v Hv) as (_ & _ & Hlen & _).
  rewrite u32_small in Fn by lia. assert (forall {A} (f : hash_item -> A), (forall x, f (bare x) = f x) ->
    (forall x, f (link_item e x) = f x) -> f i' = f n) as Hf.
  { intros A f H1 H2. by rewrite <- H1, Hb, H1, H2. }
  assert (forall {A} (f : hash_item -> A), (forall x y z, f (x <| iflag := y |> <| i_time := z |>) = f x) ->
    (forall x y, f (x <| i_cas := y |>) = f x) -> forall x, f (link_item e x) = f x) as Hl.
  { intros A f H1 H2 x. unfold link_item. by destruct (has_flag _ _); rewrite ?H2, H1. }
  unfold counts. rewrite (Hf _ i_flags), (Hf _ i_exptime), (Hf _ i_datatype), (Hf _ i_key), (Hf _ counter_of)
    by (done || by apply Hl). rewrite Ff, Fe, Ft, Fk, !wrap_idem, Hca. split_and!; try done.
  - eapply (counter_of_text _ _ 0); [done|by rewrite app_nil_r|by rewrite Hd|lia].
  - apply new_not_flushed; [done|]. rewrite Hnow.
    transitivity (i_time (link_item e n)); [exact (f_equal i_time Hb)|apply link_item_time].
  - intros Hc. transitivity (i_cas (link_item e n)); [exact (f_equal i_cas Hb)|]. apply link_item_cas.
    rewrite <- Hc. symmetry. exact (f_equal (has_flag ITEM_WITH_CAS) Hb).
Qed.

(** The new item is filled in and takes the place of the old one. *)
Lemma fill_replace_ok e M L id p i j r n c v :
  items_ok e M L -> linked_item e id p i -> p ∈ L id -> force_delete (e_scrubber e) = false ->
  i_refcount i <> 0 -> held e r n -> i_key j = i_key i -> 0 <= v < 2 ^ 64 -> flush_past e ->
  fresh_item c (i_key j) (i_flags j) (i_exptime j) (Z.of_nat (length (print_u64 v))) (i_datatype j) n ->
  exists e' i', (write_item r (fun i => i <| i_data := print_u64 v |>);;
      do_item_replace crc32c p r;; ret (ENGINE_SUCCESS, r, v)) e = Done (ENGINE_SUCCESS, r, v) e' /\
    (exists L', items_ok e' (<[i_key i := r]> M) L') /\ item_step (fun q => q = p \/ q = r) e e' /\
    cas_id e' = u64 (cas_id e + 1) /\ e_mem e' !! r = Some i' /\ counts e' (i_key j) (i_flags j) (i_exptime j) (i_datatype j) i' v /\
    (forall q x, in_use e M q x -> q <> r -> kept (<[i_key i := r]> M) q x e').
Proof.
  intros Hok Hli Hin Hfd Hr Hh Hkj Hv Hfp Hfi. pose proof (proj1 Hfi) as Fk. rewrite Hkj in Fk.
  erewrite bind_done by apply write_item_done, Hh. set (n2 := n <| i_data := print_u64 v |>).
  destruct (held_write e M L r n n2 Hok Hh eq_refl) as (Hok2 & Hst2 & Hh2).
  set (e2 := e <| e_mem := <[r := n2]> (e_mem e) |>) in *.
  assert (r <> p) as Hne by (intros ->; destruct Hh as (? & ? & _), Hli as (? & _ & ? & _); congruence).
  destruct (linked_step _ _ _ id p i Hli Hst2 Hne) as (j2 & Hlj2 & Hbj2).
  pose proof (bare_shape _ _ Hbj2) as (_ & _ & Ek & Er).
  destruct (do_item_replace_ok crc32c drift e2 M L id p j2 r n2 Hok2 Hlj2 Hin Hh2)
    as (e3 & L3 & i3 & j3 & Hrep & Hok3 & Hst3 & Hi3 & Hbi3 & Hca3 & Hh3 & Hbj3); [by rewrite Ek|done|congruence|].
  change (i_key n2) with (i_key n) in Hok3. rewrite Fk in Hok3. erewrite bind_done by exact Hrep. exists e3, i3.
  assert (item_step (fun q => q = p \/ q = r) e e3) as Hst.
  { eapply item_step_trans; [exact Hst2|exact Hst3|intros q <-; by right|done]. }
  split; [done|]. split; [by eexists|]. split; [done|]. split; [done|]. split; [done|]. split.
  - eapply (linked_counts e2 e3 c); [done| |exact Hbi3|done|by eapply flush_past_step|apply (step_now _ _ _ Hst3)|by apply fresh_filled]. done.
  - intros q x Hu Hq. destruct (decide (q = p)) as [->|Hqp].
    + destruct Hu as (Hx & _). rewrite (proj1 Hli) in Hx. apply (inj Some) in Hx as <-. apply (kept_bare _ p i j2 e3 Hbj2), removed_kept.
      unfold removed. rewrite decide_False by congruence. by exists j3.
    + assert (M !! i_key i = Some p) as HM by (by eapply (linked_in_use crc32c drift e M L id p i); [| | | |apply Hli]).
      eapply kept_step; [by apply in_use_kept|exact Hst|by intros [?|?]|].
      intros k Hk. rewrite lookup_insert_ne; congruence.
Qed.

Lemma add_new_ok e M L id p i v :
  items_ok e M L -> linked_item e id p i -> p ∈ L id -> force_delete (e_scrubber e) = false ->
  0 < i_refcount i -> ~ overdue e i -> 0 <= v < 2 ^ 64 -> early e -> flush_past e ->
  exists r e' M', (new_it <- do_item_alloc crc32c uninit (i_key i) (i_flags i) (i_exptime i)
          (Z.of_nat (length (print_u64 v))) (i_datatype i);;
        if new_it == 0 then do_item_unlink crc32c p;; ret (ENGINE_ENOMEM, 0, v) else
        write_item new_it (fun i => i <| i_data := print_u64 v |>);;
        do_item_replace crc32c p new_it;;
        ret (ENGINE_SUCCESS, new_it, v)) e = Done r e' /\
    (exists L', items_ok e' M' L') /\ item_step (fun q => p = q \/ taken e (i_key i) M' q) e e' /\ keeps e M e' M' /\
    others (i_key i) M M' /\
    ((r = (ENGINE_ENOMEM, 0, v) /\ M' !! i_key i = None /\ cas_id e' = cas_id e) \/
     (exists q i', r = (ENGINE_SUCCESS, q, v) /\ M' !! i_key i = Some q /\ e_mem e' !! q = Some i' /\ counts e' (i_key i) (i_flags i) (i_exptime i) (i_datatype i) i' v /\
        cas_id e' = u64 (cas_id e + 1))).
Proof.
  intros Hok Hli Hin Hfd Hr Ho Hv He Hfp. pose proof Hli as (_ & _ & _ & _ & _ & Hown).
  destruct (do_item_alloc_ok crc32c uninit drift e M L (i_key i) (i_flags i) (i_exptime i) (Z.of_nat (length (print_u64 v)))
    (i_datatype i) Hok Hown Hfd) as (r & e1 & M1 & Hal & Hro & Hnew).
  erewrite bind_done by exact Hal.
  destruct (room_linked e M L id p i e1 M1 Hok Hli Hin ltac:(lia) Ho Hro) as (i1 & L1 & Hok1 & Hli1 & Hb1 & Hin1 & HM1 & Hnt).
  pose proof (room_keeps _ _ _ _ Hro) as Hk1. pose proof Hro as [_ Hst1 Hsh Hca1].
  pose proof (shrinks_others (i_key i) _ _ _ Hsh) as Hot. pose proof (step_now _ _ _ Hst1) as (En & Eb & Ec & Es).
  pose proof (bare_shape _ _ Hb1) as (_ & _ & Ek & Er). rewrite <- Es in Hfd.
  destruct (Z.eqb_spec r 0) as [->|Hr0].
  - destruct (do_item_unlink_ok crc32c drift e1 M1 L1 id p i1 Hok1 Hli1 Hin1 Hfd)
      as (e2 & L2 & Hu & Hok2 & Hst2 & Hrm & Hca2 & _). run. erewrite bind_done by exact Hu.
    rewrite Ek in Hok2. eexists _, e2, _. split; [done|]. split; [by eexists|].
    assert (item_step (fun q => p = q \/ taken e (i_key i) (delete (i_key i) M1) q) e e2) as Hst.
    { eapply item_step_trans; [exact Hst1|exact Hst2| |by left]. intros q [? Hn]. right. split; [done|].
      intros k Hk. rewrite lookup_delete_ne by done. apply Hn. }
    split; [done|]. split.
    { eapply (keeps_trans _ _ e M e1 M1); [done|exact Hst1|exact Hst2|done|]. rewrite <- Ek.
      eapply unlink_keeps; [apply Hli1|congruence|done|done]. }
    split; [intros k' Hk'; rewrite lookup_delete_ne by done; by apply Hot|].
    left. split; [done|]. split; [apply lookup_delete_eq|congruence].
  - destruct (Hnew Hr0) as (Htk & n & Hh & Hfi). run.
    destruct (fill_replace_ok e1 M1 L1 id p i1 i r n (e_config e) v Hok1 Hli1 Hin1 Hfd ltac:(lia) Hh (eq_sym Ek) Hv (flush_past_step _ _ _ Hst1 Hfp) Hfi)
      as (e2 & i2 & Hrun & [L2 Hok2] & Hst2 & Hca2 & Hi2 & Hcnt & Hk2).
    rewrite Ek in Hok2, Hk2. eexists _, e2, _. split; [exact Hrun|]. split; [by exists L2|].
    assert (forall k, M1 !! k <> Some r) as Hnr by (intros k; by eapply (held_not_in_table crc32c drift e1 M1 L1)).
    split.
    { eapply item_step_trans; [exact Hst1|exact Hst2| |].
      - intros q [? Hn]. right. split; [done|]. intros k Hk. rewrite lookup_insert_ne by done. apply Hn.
      - intros q Hq [->| ->]; [by left|right]. split; [by apply Htk|]. intros k Hk. rewrite lookup_insert_ne by done. apply Hnr. }
    split; [|split].
    + intros q j Hu Hov. eapply (kept_trans _ _ e e1 M1); [done|exact Hst1|exact Hst2|done|by apply Hk1|].
      intros j1 Hu1 _ _. apply Hk2; [done|]. intros ->.
      apply (in_use_fixed _ _ _ _ Hu Hov), Htk. by eexists; apply Hu.
    + intros k' Hk'. rewrite lookup_insert_ne by done. by apply Hot.
    + right. exists r, i2. split; [done|]. split; [apply lookup_insert_eq|]. split; [done|]. split; [done|congruence].
Qed.

Lemma do_add_delta_ok e M L id p i incr delta :
  items_ok e M L -> linked_item e id p i -> p ∈ L id -> force_delete (e_scrubber e) = false ->
  0 < i_refcount i -> ~ overdue e i -> 0 <= delta -> early e -> flush_past e -> flushed e i = false ->
  exists r e' M', do_add_delta crc32c uninit p incr delta e = Done r e' /\
    (exists L', items_ok e' M' L') /\ item_step (fun q => p = q \/ taken e (i_key i) M' q) e e' /\
    (forall q j, in_use e M q j -> ~ overdue e j -> (q = p -> i_refcount j <> 1) -> kept M' q j e') /\
    others (i_key i) M M' /\
    match counter_of i with
    | None => r = (ENGINE_EINVAL, 0, 0) /\ e' = e /\ M' = M
    | Some v => let v := add_delta incr delta v in
        (r = (ENGINE_ENOMEM, 0, v) /\ M' !! i_key i = None) \/
        (exists q i', r = (ENGINE_SUCCESS, q, v) /\ M' !! i_key i = Some q /\ e_mem e' !! q = Some i' /\
           counts e' (i_key i) (i_flags i) (i_exptime i) (i_datatype i) i' v)
    end.
Proof.
  intros Hok Hli Hin Hfd Hr Ho Hd He Hfp Hfl. unfold do_add_delta. erewrite bind_done by apply deref_done, Hli.
  assert (exists e' M', Done (ENGINE_EINVAL, 0, 0) e = Done (ENGINE_EINVAL, 0, 0) e' /\ (exists L', items_ok e' M' L') /\
    item_step (fun q => p = q \/ taken e (i_key i) M' q) e e' /\
    (forall q j, in_use e M q j -> ~ overdue e j -> (q = p -> i_refcount j <> 1) -> kept M' q j e') /\
    others (i_key i) M M' /\ e' = e /\ M' = M) as (e0 & M0 & E0 & HL0 & Hst0 & Hk0 & Ho0 & -> & ->).
  { exists e, M. split_and!; try done; [by exists L|apply item_step_refl| |by left]. intros q j Hu _ _. by apply in_use_kept. }
  unfold counter_of. destruct (Z.leb_spec 79 (i_nbytes i)) as [Hn|Hn]; [by eexists _, e, M|].
  destruct (safe_strtoull _) as [v|] eqn:Hv; [|by eexists _, e, M]. apply safe_strtoull_range in Hv.
  pose proof (add_delta_range incr delta v Hv Hd) as Hv'. set (v' := add_delta incr delta v) in *. cbn zeta.
  destruct (Z.eqb_spec (i_refcount i) 1) as [Hr1|Hr1]; cbn [andb].
  1: destruct (Z.leb_spec (Z.of_nat (length (print_u64 v'))) (i_nbytes i)) as [Hl|Hl].
  { destruct (add_in_place_ok e M L id p i v' Hok Hli Hin Hv' Hfl ltac:(lia)) as (e' & i' & Hrun & Hok' & Hst & Hca & Hi' & Hc).
    eexists _, e', M. split; [exact Hrun|]. split; [by exists L|]. split; [by eapply item_step_weaken; [exact Hst|left]|].
    split; [|split; [by left|right; exists p, i'; split_and!; try done]].
    - intros q j Hu _ Hq. destruct (decide (p = q)) as [<-|Hn']; [|by eapply kept_step; [by apply in_use_kept|exact Hst|done|done]].
      destruct Hu as (Hj & _). rewrite (proj1 Hli) in Hj. apply (inj Some) in Hj as <-. by destruct Hq.
    - by eapply (linked_in_use crc32c drift e M L id p i); [done|done|done|lia|apply Hli]. }
  all: destruct (add_new_ok e M L id p i v' Hok Hli Hin Hfd Hr Ho Hv' He Hfp) as (r & e' & M' & Hrun & HL & Hst & Hk & Hot & Hres).
  all: exists r, e', M'; split; [exact Hrun|]; split; [done|]; split; [done|]; split; [by intros; apply Hk|]; split; [done|].
  all: destruct Hres as [(? & ? & _)|(q & i' & ? & ? & ? & ? & _)]; [by left|right; by exists q, i'].
Qed.

(** A new item with the text of a number is added to the cache. *)
Lemma fill_add_ok e M L r n c key exptime datatype v :
  items_ok e M L -> held e r n -> force_delete (e_scrubber e) = false -> M !! key = None -> 0 <= v < 2 ^ 64 -> flush_past e ->
  fresh_item c key 0 exptime (Z.of_nat (length (print_u64 v))) datatype n ->
  exists e' i', (write_item r (fun i => i <| i_data := print_u64 v |>);;
      x <- do_store_item crc32c r OPERATION_ADD;;
      let '(code, stored) := x in
      if bool_decide (code = ENGINE_SUCCESS) then ret (code, stored, v)
      else do_item_release r;; ret (code, 0, 0)) e = Done (ENGINE_SUCCESS, r, v) e' /\
    (exists L', items_ok e' (<[key := r]> M) L') /\ item_step (eq r) e e' /\
    e_mem e' !! r = Some i' /\ counts e' key 0 exptime datatype i' v /\
    (forall q x, in_use e M q x -> q <> r -> kept (<[key := r]> M) q x e').
Proof.
  intros Hok Hh Hfd HM Hv Hfp Hfi. pose proof (proj1 Hfi) as Fk.
  erewrite bind_done by apply write_item_done, Hh. set (n2 := n <| i_data := print_u64 v |>).
  destruct (held_write e M L r n n2 Hok Hh eq_refl) as (Hok2 & Hst2 & Hh2).
  set (e2 := e <| e_mem := <[r := n2]> (e_mem e) |>) in *.
  assert (i_key n2 = key) as Ek by exact Fk.
  destruct (do_store_item_ok crc32c drift e2 M L r n2 OPERATION_ADD Hok2 Hh2 Hfd) as (e3 & Hs & Hd).
  { intros p j Hp. congruence. }
  assert (live e2 M (i_key n2) = None) as Hl by (unfold live; by rewrite Ek, HM). rewrite Hl in Hs, Hd.
  cbn [store_outcome] in Hs, Hd. rewrite bool_decide_eq_true_2 in Hs, Hd by done. erewrite bind_done by exact Hs.
  cbn beta iota. rewrite bool_decide_eq_true_2 by done.
  destruct Hd as ([L3 Hok3] & Hst3 & Hca3 & (i3 & Hi3 & Hb3) & _). rewrite Ek in *.
  assert (item_step (eq r) e e3) as Hst.
  { eapply item_step_trans; [exact Hst2|exact Hst3|done|]. intros q _ [?|?]; congruence. }
  exists e3, i3. split; [done|]. split; [by exists L3|]. split; [done|]. split; [done|].
  split; [eapply (linked_counts e2 e3 c _ _ _ _ n2); [done|done|exact Hb3|exact Hca3|by eapply flush_past_step|apply (step_now _ _ _ Hst3)|by apply fresh_filled]|]. intros q x Hu Hq.
  eapply kept_step; [by apply in_use_kept|exact Hst|done|]. intros k Hk. rewrite lookup_insert_ne; [done|]. congruence.
Qed.

Lemma takeable_step S e e' q :
  item_step S e e' -> is_Some (e_mem e !! q) -> ~ S q -> takeable e' q -> takeable e q.
Proof.
  intros Hst [i Hi] Hn [Hf|(j & Hj & Hl & Hs)].
  - by destruct (is_unfree _ _ _ Hst q (mk_is_Some _ _ Hi) Hf) as [?|?]; [left|].
  - destruct (is_mem _ _ _ Hst q i Hi) as [?|(i' & Hi' & Hb)]; [done|]. right. exists i.
    assert (i' = j) as -> by congruence. split; [done|].
    split; [|eapply same_fields_spare; [done|apply (step_now _ _ _ Hst)|done]].
    apply bare_shape in Hb as (_ & E & _). unfold has_flag in *. by rewrite <- E.
Qed.

(** A step on the item of a key, and one that may take memory. *)
Lemma step_takes (k : bytes) (M M' : gmap bytes Z) e e1 e2 (S : Z -> Prop) :
  item_step (fun q => M !! k = Some q) e e1 -> item_step S e1 e2 ->
  (forall q, is_Some (e_mem e1 !! q) -> S q -> M !! k = Some q \/ taken e1 k M' q) ->
  item_step (fun q => M !! k = Some q \/ taken e k M' q) e e2.
Proof.
  intros H1 H2 HS. eapply item_step_trans; [exact H1|exact H2|by left|]. intros q Hq Hs.
  destruct (decide (M !! k = Some q)) as [?|Hn]; [by left|]. right. destruct (HS q) as [?|[Ht ?]]; [|done|done|].
  - destruct Hq as [i Hi]. by destruct (is_mem _ _ _ H1 q i Hi) as [?|(j & Hj & _)]; [|eexists].
  - split; [by eapply takeable_step|done].
Qed.

(** An item that was just accessed is not overdue. *)
Lemma get_ref_due e e1 i i1 :
  early e -> i_time i <= e_now e -> e_now e1 = e_now e -> bare i1 = bare (get_ref e i) -> ~ overdue e1 i1.
Proof.
  intros [H1 H2] Ht En Hb. unfold overdue. assert (i_time i1 = i_time (get_ref e i)) as -> by exact (f_equal i_time Hb). rewrite En.
  assert (e_now e - 60 <= i_time (get_ref e i) <= e_now e /\ 0 <= i_time (get_ref e i)) as Hr.
  { unfold get_ref, update_item, is_old, ITEM_UPDATE_INTERVAL.
    destruct (Z.ltb_spec (i_time (i <| i_refcount := u16 (i_refcount i + 1) |>)) (u32 (e_now e - 60))) as [H|H]; cbn in *; [lia|].
    destruct (decide (60 <= e_now e)) as [Hn|Hn]; [rewrite u32_small in H by (unfold TAIL_REPAIR_TIME in *; lia); lia|].
    assert (u32 (e_now e - 60) = e_now e - 60 + 2 ^ 32) as E; [|unfold TAIL_REPAIR_TIME in *; lia].
    symmetry. apply (Z.mod_unique_pos _ _ (-1)); lia. }
  rewrite u32_small; unfold TAIL_REPAIR_TIME in *; lia.
Qed.

Definition arithmetic_result (e : default_engine) (M : gmap bytes Z) (k : bytes) (incr create : bool)
    (delta initial exptime datatype : Z) (r : ENGINE_ERROR_CODE * Z * Z) (e' : default_engine) (M' : gmap bytes Z) : Prop :=
  match live e M k with
  | None =>
      if create then
        (r = (ENGINE_ENOMEM, 0, 0) /\ M' !! k = None) \/
        (exists q i', r = (ENGINE_SUCCESS, q, initial) /\ M' !! k = Some q /\ e_mem e' !! q = Some i' /\
           counts e' k 0 exptime datatype i' initial)
      else r = (ENGINE_KEY_ENOENT, 0, 0) /\ M' !! k = None
  | Some i =>
      match counter_of i with
      | None => r = (ENGINE_EINVAL, 0, 0) /\ M' !! k = M !! k /\
          exists q i', M !! k = Some q /\ e_mem e' !! q = Some i' /\ bare i' = bare (get_ref e i)
      | Some v => let v := add_delta incr delta v in
          (r = (ENGINE_ENOMEM, 0, v) /\ M' !! k = None) \/
          (exists q i', r = (ENGINE_SUCCESS, q, v) /\ M' !! k = Some q /\ e_mem e' !! q = Some i' /\
             counts e' k (i_flags i) (i_exptime i) (i_datatype i) i' v)
      end
  end.

Definition arithmetic_ends e M k incr create delta initial exptime datatype (o : outcome default_engine (ENGINE_ERROR_CODE * Z * Z)) : Prop :=
  exists r e' M', o = Done r e' /\ (exists L', items_ok e' M' L') /\
    item_step (fun q => M !! k = Some q \/ taken e k M' q) e e' /\ keeps e M e' M' /\ others k M M' /\
    arithmetic_result e M k incr create delta initial exptime datatype r e' M'.

(** The key holds nothing. *)
Lemma arithmetic_create e M e1 L1 k incr create delta initial exptime datatype :
  live e M k = None -> own e k -> force_delete (e_scrubber e) = false -> early e -> 0 <= initial < 2 ^ 64 -> flush_past e ->
  items_ok e1 (delete k M) L1 -> item_step (fun q => M !! k = Some q) e e1 -> keeps e M e1 (delete k M) ->
  arithmetic_ends e M k incr create delta initial exptime datatype
    ((if negb create then ret (ENGINE_KEY_ENOENT, 0, 0) else
      item <- do_item_alloc crc32c uninit k 0 exptime (Z.of_nat (length (print_u64 initial))) datatype;;
      if item == 0 then ret (ENGINE_ENOMEM, 0, 0) else
      write_item item (fun i => i <| i_data := print_u64 initial |>);;
      r <- do_store_item crc32c item OPERATION_ADD;;
      let '(code, stored) := r in
      if bool_decide (code = ENGINE_SUCCESS) then ret (code, stored, initial)
      else do_item_release item;; ret (code, 0, 0)) e1).
Proof.
  intros Hl Ho Hfd He Hv Hfp Hok1 Hst1 Hk1. pose proof (step_now _ _ _ Hst1) as (En & Eb & Ec & Es).
  assert (own e1 k) as Ho1 by (unfold own in *; by rewrite Eb). rewrite <- Es in Hfd.
  unfold arithmetic_ends, arithmetic_result. rewrite Hl. destruct create; cbn [negb].
  2: { eexists _, e1, _. split; [done|]. split; [by eexists|]. split; [by eapply item_step_weaken; [exact Hst1|left]|].
       split; [done|]. split; [intros k' Hk'; left; by apply lookup_delete_ne|]. split; [done|apply lookup_delete_eq]. }
  destruct (do_item_alloc_ok crc32c uninit drift e1 _ L1 k 0 exptime (Z.of_nat (length (print_u64 initial))) datatype Hok1 Ho1 Hfd)
    as (r & e2 & M2 & Hal & Hro & Hnew). erewrite bind_done by exact Hal.
  pose proof (room_keeps _ _ _ _ Hro) as Hk2. pose proof Hro as [[L2 Hok2] Hst2 Hsh Hca2].
  assert (M2 !! k = None) as HM2.
  { destruct (M2 !! k) as [q|] eqn:E; [|done]. pose proof (lookup_weaken _ _ _ _ E (proj1 Hsh)) as E'. by rewrite lookup_delete_eq in E'. }
  assert (others k M M2) as Hot.
  { intros k' Hk'. destruct (shrinks_others k _ _ _ Hsh k' Hk') as [->|?]; [left|by right]. by apply lookup_delete_ne. }
  assert (keeps e M e2 M2) as Hk12 by (by eapply keeps_trans). destruct (Z.eqb_spec r 0) as [->|Hr0].
  { eexists _, e2, M2. split; [done|]. split; [by exists L2|]. split; [|by split_and!; [..|left]].
    eapply step_takes; [exact Hst1|exact Hst2|]. intros q _ [? Hn]. right. by split. }
  destruct (Hnew Hr0) as (Htk & n & Hh & Hfi). rewrite <- (proj2 (proj2 (proj2 (step_now _ _ _ Hst2)))) in Hfd.
  destruct (fill_add_ok e2 M2 L2 r n _ k exptime datatype initial Hok2 Hh Hfd HM2 Hv (flush_past_step _ _ _ Hst2 (flush_past_step _ _ _ Hst1 Hfp)) Hfi)
    as (e3 & i3 & Hrun & HL3 & Hst3 & Hi3 & Hc3 & Hk3).
  assert (item_step (taken e1 k (<[k := r]> M2)) e1 e3) as Hst13.
  { eapply item_step_trans; [exact Hst2|exact Hst3|intros q [? Hn]; split; [done|]|intros q Hq <-; split; [by apply Htk|]];
      intros k' Hk'; rewrite lookup_insert_ne by done; [apply Hn|]. by eapply (held_not_in_table crc32c drift e2 M2 L2). }
  eexists _, e3, _. split; [exact Hrun|]. split; [done|].
  split; [eapply step_takes; [exact Hst1|exact Hst13|by right]|]. split; [|split].
  - eapply (keeps_trans _ _ e M e1); [done|exact Hst1|exact Hst13|done|]. intros q j Hu Hov.
    eapply (kept_trans _ _ e1 e2 M2); [unfold early in *; by rewrite En|exact Hst2|exact Hst3|done|by apply Hk2|].
    intros j1 Hu1 _ _. apply Hk3; [done|]. intros ->.
    apply (in_use_fixed _ _ _ _ Hu Hov), Htk. by eexists; apply Hu.
  - intros k' Hk'. rewrite lookup_insert_ne by done. by apply Hot.
  - right. exists r, i3. split; [done|]. split; [apply lookup_insert_eq|done].
Qed.

Lemma accessed_not_flushed e e1 i i1 :
  dead e i = false -> i_time i <= e_now e -> e_now e1 = e_now e -> e_config e1 = e_config e ->
  bare i1 = bare (get_ref e i) -> flushed e1 i1 = false.
Proof.
  intros Hd Ht En Ec Hb. assert (dead e1 i1 = false) as H; [|by apply orb_false_iff in H as [-> _]].
  apply (accessed_live e e1 i); try done.
  - transitivity (i_exptime (get_ref e i)); [exact (f_equal i_exptime Hb)|]. unfold get_ref, update_item. by destruct (is_old _ _).
  - assert (i_time i1 = i_time (get_ref e i)) as -> by exact (f_equal i_time Hb). apply get_ref_time.
Qed.

Lemma live_item e M k p i : M !! k = Some p -> e_mem e !! p = Some i -> live e M k = Some i -> dead e i = false.
Proof. unfold live. intros -> Hi. cbn [mbind option_bind]. rewrite Hi. cbn [mbind option_bind]. by destruct (dead e i). Qed.

Lemma do_arithmetic_ok e M L k incr create delta initial exptime datatype :
  items_ok e M L -> own e k -> force_delete (e_scrubber e) = false -> counted e M k -> early e ->
  0 <= delta -> 0 <= initial < 2 ^ 64 -> flush_past e ->
  arithmetic_ends e M k incr create delta initial exptime datatype
    (do_arithmetic crc32c uninit k incr create delta initial exptime datatype e).
Proof.
  intros Hok Ho Hfd Hcnt He Hd Hv Hfp. unfold do_arithmetic.
  pose proof (access_keeps e M L k Hok Ho Hfd Hcnt) as H. destruct (live e M k) as [i|] eqn:Hlive.
  2: { destruct H as (e1 & L1 & Hg & Hok1 & Hst1 & Hca & Hk). erewrite bind_done by exact Hg. cbn [Z.eqb]. by eapply arithmetic_create. }
  destruct H as (p & id & e1 & i1 & L1 & Hp & HM & Hli & Hki & Hg & Hok1 & Hst1 & Hli1 & Hb & Hin & Hca & Hk).
  erewrite bind_done by exact Hg. rewrite (proj2 (Z.eqb_neq _ _) Hp).
  pose proof (Hcnt p i HM (proj1 Hli)) as Hr. pose proof (own_time _ _ e M L _ p i Hok HM Ho (proj1 Hli)) as Ht. pose proof (step_now _ _ _ Hst1) as (En & Eb & Ec & Es).
  pose proof (bare_shape _ _ Hb) as (_ & _ & _ & Er). rewrite get_ref_count in Er by done.
  assert (forall {A} (f : hash_item -> A), (forall x, f (bare x) = f x) -> (forall x y, f (x <| i_refcount := y |>) = f x) ->
    (forall x y, f (x <| i_time := y |>) = f x) -> f i1 = f i) as Hf.
  { intros A f H1 H2 H3. rewrite <- H1, Hb, H1. unfold get_ref, update_item. destruct (is_old _ _); by rewrite ?H3, H2. }
  destruct (do_add_delta_ok e1 M L1 id p i1 incr delta Hok1 Hli1 Hin)
    as (r & e2 & M2 & Hrun & HL2 & Hst2 & Hk2 & Hot & Hres); [congruence|lia|eapply get_ref_due; [done|apply Ht|done|done]|done|unfold early in *; by rewrite En|by eapply flush_past_step|eapply accessed_not_flushed; [by eapply live_item; [| |exact Hlive]; [|apply Hli]|apply Ht|done|done|done]|].
  rewrite (Hf _ i_key), Hki in Hot, Hres, Hst2 by done. rewrite (Hf _ counter_of), (Hf _ i_flags), (Hf _ i_exptime), (Hf _ i_datatype) in Hres by done.
  exists r, e2, M2. split; [exact Hrun|]. split; [done|]. split; [eapply step_takes; [exact Hst1|exact Hst2|]|].
  { intros q _ [<-|?]; [by left|by right]. }
  split; [|split; [done|]].
  - intros q j Hu Hov. eapply (kept_trans _ _ e e1 M); [done|exact Hst1|exact Hst2|done|by apply Hk|].
    intros j1 Hu1 Ho1 _. apply Hk2; [done|done|]. intros ->. destruct Hu as (Hj & _ & _ & _ & _ & Hnz & _).
    destruct Hu1 as (Hj1 & _). rewrite (proj1 Hli) in Hj. apply (inj Some) in Hj as <-.
    rewrite (proj1 Hli1) in Hj1. apply (inj Some) in Hj1 as <-. lia.
  - unfold arithmetic_result. rewrite Hlive. destruct (counter_of i); [done|]. destruct Hres as (-> & -> & ->).
    split; [done|]. split; [done|]. exists p, i1. split; [done|]. split; [apply Hli1|done].
Qed.

(** ** Flushing *)

Lemma length_dom {A} (m : gmap Z A) (l : list Z) :
  NoDup l -> (forall p, p ∈ l -> is_Some (m !! p)) -> (length l <= size m)%nat.
Proof.
  intros Hnd Hl. rewrite <- size_dom, <- (size_list_to_set (C := gset Z) l) by done.
  apply subseteq_size. intros p Hp%elem_of_list_to_set. by apply elem_of_dom, Hl.
Qed.

(** The head of a queue leaves the cache. *)
Lemma unlink_head_ok e M L id p l i :
  items_ok e M L -> force_delete (e_scrubber e) = false -> L id = p :: l -> linked_item e id p i ->
  exists e', do_item_unlink crc32c p e = Done tt e' /\ items_ok e' (delete (i_key i) M) (upd_queue L id l) /\
    item_step (eq p) e e' /\ keeps e M e' (delete (i_key i) M) /\ M !! i_key i = Some p.
Proof.
  intros Hok Hfd HL Hli. assert (p ∈ L id) as Hin by (rewrite HL; left).
  assert (M !! i_key i = Some p) as HM.
  { destruct (io_item _ _ _ _ _ Hok id p Hin) as (j & (Hj & _) & HM). rewrite (proj1 Hli) in Hj. by apply (inj Some) in Hj as <-. }
  assert (forall l1 l2, L id = l1 ++ p :: l2 -> l1 ++ l2 = l) as Hsp.
  { intros l1 l2 E. pose proof (linked_range _ _ _ _ _ _ _ Hok Hin) as Hr.
    destruct (io_queue _ _ _ _ _ Hok id) as [_ _ _ Hnd]; [lia|]. rewrite HL in E, Hnd. apply NoDup_cons in Hnd as [Hnp _].
    destruct l1 as [|q l1]; [by injection E as ->|]. injection E as <- E. destruct Hnp. rewrite E. set_solver. }
  destruct (decide (i_refcount i = 0)) as [Hr|Hr].
  - destruct (do_item_unlink_free crc32c drift e M L id p i Hok Hli Hin Hfd Hr)
      as (e' & l1 & l2 & E & Hu & Hok' & Hst & _). rewrite (Hsp _ _ E) in Hok'. exists e'.
    split; [done|]. split; [done|]. split; [done|]. split; [|done]. eapply unlink_keeps; try done; [apply Hli|].
    unfold removed. by rewrite decide_True.
  - destruct (do_item_unlink_held crc32c drift e M L id p i Hok Hli Hin Hfd Hr)
      as (e' & i' & l1 & l2 & E & Hu & Hok' & Hst & Hh & Hb & _). rewrite (Hsp _ _ E) in Hok'. exists e'.
    split; [done|]. split; [done|]. split; [done|]. split; [|done]. eapply unlink_keeps; try done; [apply Hli|].
    unfold removed. rewrite decide_False by done. by exists i'.
Qed.

(** Keys of the engine that are removed. *)
Definition drops (e : default_engine) (M M' : gmap bytes Z) : Prop :=
  forall k, M' !! k = M !! k \/ (own e k /\ M' !! k = None).

Lemma drops_trans e e1 M M1 M2 :
  bucket_id e1 = bucket_id e -> drops e M M1 -> drops e1 M1 M2 -> drops e M M2.
Proof.
  intros Hb H1 H2 k. destruct (H2 k) as [->|[Ho ?]]; [apply H1|right]. split; [|done]. unfold own in *. by rewrite <- Hb.
Qed.

Lemma flush_queue_ok live id l : forall fuel e M L,
  items_ok e M L -> force_delete (e_scrubber e) = false -> early e -> L id = l -> (length l < fuel)%nat ->
  exists e' M' L', flush_queue crc32c fuel live (first l 0) e = Done tt e' /\
    items_ok e' M' L' /\ item_step (fun q => q ∈ l) e e' /\ keeps e M e' M' /\ drops e M M' /\
    (forall id', id' <> id -> L' id' = L id') /\
    (forall q i, q ∈ L' id -> e_mem e' !! q = Some i -> i_time i < live).
Proof.
  induction l as [|p l IH]; intros [|fuel] e M L Hok Hfd He HL Hfu; cbn in Hfu; try lia; cbn [flush_queue first hd].
  { exists e, M, L. split; [done|]. split; [done|]. split; [apply item_step_refl|]. split; [apply keeps_refl|].
    split; [by left|]. split; [done|]. rewrite HL. intros q i []%not_elem_of_nil. }
  assert (p ∈ L id) as Hin by (rewrite HL; left). pose proof (linked_range _ _ _ _ _ _ _ Hok Hin) as Hrange.
  destruct (io_item _ _ _ _ _ Hok id p Hin) as (i & Hli & HM). pose proof Hli as (Hi & Hid & Hl & Hs & Hc & Ho).
  destruct (io_queue _ _ _ _ _ Hok id) as [_ _ Hseg Hnd]; [lia|]. rewrite HL in Hseg. pose proof (proj1 Hseg) as Hp0.
  destruct (dseg_node _ _ [] p l _ i Hseg Hi) as [_ Hnext].
  rewrite (proj2 (Z.eqb_neq _ _) Hp0). erewrite bind_done by (by apply deref_done).
  destruct (Z.leb_spec live (i_time i)) as [Ht|Ht].
  - destruct (unlink_head_ok e M L id p l i Hok Hfd HL Hli) as (e1 & Hu & Hok1 & Hst1 & Hk1 & _).
    rewrite Hs. cbn [negb]. run. erewrite bind_done by exact Hu. pose proof (step_now _ _ _ Hst1) as (En & Eb & Ec & Es).
    destruct (IH fuel e1 _ _ Hok1) as (e2 & M2 & L2 & Hf & Hok2 & Hst2 & Hk2 & Hd2 & HL2 & Hold);
      [congruence|unfold early in *; by rewrite En|apply upd_queue_eq|lia|].
    rewrite Hnext. exists e2, M2, L2. split; [exact Hf|]. split; [done|]. split.
    { eapply item_step_trans; [exact Hst1|exact Hst2|intros q <-; left|intros q _ Hq; by right]. }
    split; [by eapply keeps_trans|]. split.
    { eapply drops_trans; [exact Eb| |exact Hd2]. intros k. destruct (decide (k = i_key i)) as [->|Hne];
        [right; by rewrite lookup_delete_eq|left; by apply lookup_delete_ne]. }
    split; [|done]. intros id' Hne. by rewrite HL2, upd_queue_ne.
  - exists e, M, L. split; [done|]. split; [done|]. split; [apply item_step_refl|]. split; [apply keeps_refl|].
    split; [by left|]. split; [done|]. rewrite HL. intros q j Hq Hj.
    pose proof (io_times _ _ _ _ _ Hok id) as Ha. rewrite HL in Ha. destruct Ha as (i0 & Hi0 & _ & Ha).
    rewrite Hi in Hi0. apply (inj Some) in Hi0 as <-. apply elem_of_cons in Hq as [->|Hq]; [congruence|].
    pose proof (aged_elem _ _ _ _ _ Ha Hq Hj). lia.
Qed.

(** The queues of the classes [ids] are flushed. *)
Lemma flush_classes_ok live ids : forall e M L,
  items_ok e M L -> force_delete (e_scrubber e) = false -> early e -> NoDup ids ->
  (forall id, id ∈ ids -> 0 <= id < POWER_LARGEST) ->
  exists e' M' L', for_classes ids (fun ii =>
      m <- gets e_mem;;
      head <- get_head ii;;
      flush_queue crc32c (S (size m)) live head) e = Done tt e' /\
    items_ok e' M' L' /\ item_step (fun q => exists id, id ∈ ids /\ q ∈ L id) e e' /\ keeps e M e' M' /\ drops e M M' /\
    (forall id, id ∉ ids -> L' id = L id) /\
    (forall id q i, id ∈ ids -> q ∈ L' id -> e_mem e' !! q = Some i -> i_time i < live).
Proof.
  induction ids as [|id ids IH]; intros e M L Hok Hfd He Hnd Hids; cbn [for_classes].
  { exists e, M, L. split; [done|]. split; [done|]. split; [apply item_step_refl|]. split; [apply keeps_refl|].
    split; [by left|]. split; [done|]. intros id q i []%not_elem_of_nil. }
  apply NoDup_cons in Hnd as [Hid Hnd]. pose proof (Hids id ltac:(left)) as Hr.
  destruct (io_queue _ _ _ _ _ Hok id Hr) as [Hh _ Hseg Hndl]. run.
  erewrite bind_done by (by apply get_head_done).
  assert (length (L id) < S (size (e_mem e)))%nat as Hlen.
  { apply Nat.lt_succ_r, length_dom; [done|]. intros p Hp. by destruct (dseg_dom _ _ _ _ p Hseg Hp) as [_ ?]. }
  destruct (flush_queue_ok live id (L id) _ e M L Hok Hfd He eq_refl Hlen)
    as (e1 & M1 & L1 & Hf & Hok1 & Hst1 & Hk1 & Hd1 & HL1 & Hold1). erewrite bind_done by exact Hf.
  pose proof (step_now _ _ _ Hst1) as (En & Eb & Ec & Es).
  destruct (IH e1 M1 L1 Hok1) as (e2 & M2 & L2 & Hf2 & Hok2 & Hst2 & Hk2 & Hd2 & HL2 & Hold2);
    [congruence|unfold early in *; by rewrite En|done|intros; apply Hids; by right|].
  exists e2, M2, L2. split; [done|]. split; [done|]. split.
  { eapply item_step_trans; [exact Hst1|exact Hst2|intros q Hq; exists id; split; [left|done]|].
    intros q _ (id' & Hid' & Hq). exists id'. split; [by right|]. rewrite <- HL1; [done|]. by intros ->. }
  split; [by eapply keeps_trans|]. split; [by eapply drops_trans|]. split.
  - intros id' [Hne Hn]%not_elem_of_cons. by rewrite HL2, HL1.
  - intros id' q i [->|Hin]%elem_of_cons Hq Hi; [|by eapply Hold2]. rewrite HL2 in Hq by done.
    destruct (io_item _ _ _ _ _ Hok1 id q Hq) as (j & (Hj & _) & _).
    destruct (is_mem _ _ _ Hst2 q j Hj) as [(id' & Hin' & Hq')|(i' & Hi' & Hb)].
    + by replace id' with id in * by (eapply (queues_disjoint _ _ _ _ _ _ _ _ Hok1); done).
    + rewrite Hi in Hi'. apply (inj Some) in Hi' as <-.
      assert (i_time i = i_time j) as -> by exact (f_equal i_time Hb). by eapply Hold1.
Qed.

Lemma classes_spec id : id ∈ classes <-> 0 <= id < POWER_LARGEST.
Proof.
  unfold classes. rewrite list_elem_of_fmap. split.
  - intros (n & -> & Hn%elem_of_seq). unfold POWER_LARGEST in *. lia.
  - intros Hid. exists (Z.to_nat id). rewrite elem_of_seq. unfold POWER_LARGEST in *. lia.
Qed.

(** All queues are flushed. *)
Lemma flush_all_ok e M L :
  items_ok e M L -> force_delete (e_scrubber e) = false -> early e -> oldest_live (e_config e) <= e_now e ->
  exists e' M' L', for_classes classes (fun ii =>
      m <- gets e_mem;;
      head <- get_head ii;;
      flush_queue crc32c (S (size m)) (oldest_live (e_config e)) head) e = Done tt e' /\
    items_ok e' M' L' /\ keeps e M e' M' /\ drops e M M' /\ (forall k, own e k -> live e' M' k = None) /\
    beside_items e' = beside_items e.
Proof.
  intros Hok Hfd He Hol. destruct (flush_classes_ok (oldest_live (e_config e)) classes e M L Hok Hfd He)
    as (e' & M' & L' & Hf & Hok' & Hst & Hk & Hd & _ & Hold); [|apply classes_spec|].
  { unfold classes. apply NoDup_fmap_2; [apply _|apply NoDup_seq]. }
  exists e', M', L'. split; [done|]. split; [done|]. split; [done|]. split; [done|]. split; [|apply (is_beside _ _ _ Hst)].
  intros k Ho. unfold live. destruct (M' !! k) as [p|] eqn:HM; [|done]. pose proof (step_now _ _ _ Hst) as (En & Eb & Ec & _).
  assert (own e' k) as Ho' by (unfold own in *; by rewrite Eb).
  destruct (item_place _ _ _ _ _ _ _ Hok' HM Ho') as (id & i & Hr & Hin & (Hi & _) & _). cbn [mbind option_bind]. rewrite Hi.
  cbn [mbind option_bind]. assert (i_time i < oldest_live (e_config e)) as Hlt by (apply (Hold id p i); [apply classes_spec; lia|done|done]).
  pose proof (own_time _ _ _ _ _ _ _ _ Hok' HM Ho' Hi) as Ht. assert (dead e' i = true) as ->; [|done].
  unfold dead, flushed. rewrite En, Ec, (proj2 (Z.leb_le _ _) Hol), (proj2 (Z.leb_le _ _)) by lia.
  rewrite (proj2 (Z.eqb_neq _ _)) by lia. done.
Qed.

(** A flush leaves no item of the engine that an access finds, and touches no
    item of another engine. *)
Lemma item_flush_expired_ok e M L :
  items_ok e M L -> force_delete (e_scrubber e) = false -> early e -> flush_past e ->
  exists e' M' L', item_flush_expired crc32c e = Done tt e' /\ items_ok e' M' L' /\ keeps e M e' M' /\ drops e M M' /\
    (forall k, own e k -> live e' M' k = None) /\ e_now e' = e_now e /\ bucket_id e' = bucket_id e /\
    e_scrubber e' = e_scrubber e /\ flush_past e'.
Proof.
  intros Hok Hfd He Hfp. unfold item_flush_expired. run. pose proof (io_now _ _ _ _ _ Hok) as Hn.
  destruct (Z.ltb_spec (oldest_live (e_config e)) (e_now e)) as [Hlt|Hge].
  - match goal with |- context [for_classes _ _ ?s] => set (e1 := s) end.
    assert (items_ok e1 M L) as Hok1 by (by apply (items_ok_beside crc32c drift e)).
    destruct (flush_all_ok e1 M L Hok1 Hfd He) as (e2 & M2 & L2 & Hf & Hok2 & Hk2 & Hd2 & Hl2 & Hb);
      [change (e_now e - 1 <= e_now e); lia|].
    exists e2, M2, L2. split; [exact Hf|]. split; [done|]. split; [exact Hk2|]. split; [exact Hd2|]. split; [exact Hl2|].
    unfold beside_items, flush_past in *. injection Hb as -> -> _ -> ->. do 3 (split; [done|]). right. change (e_now e - 1 < e_now e). lia.
  - destruct (flush_all_ok e M L Hok Hfd He) as (e2 & M2 & L2 & Hf & Hok2 & Hk2 & Hd2 & Hl2 & Hb); [destruct Hfp; lia|].
    exists e2, M2, L2. split; [exact Hf|]. split; [done|]. split; [exact Hk2|]. split; [exact Hd2|]. split; [exact Hl2|].
    unfold beside_items, flush_past in *. injection Hb as -> -> _ -> ->. done.
Qed.

(** ** Deleting and releasing *)

(** The item of a key, to which [do_item_get] took a reference, leaves the
    cache and the reference is given back. *)
Lemma delete_ok e M id p i e1 L1 i1 k :
  M !! k = Some p -> linked_item e id p i -> i_key i = k -> 0 <= i_refcount i < 65535 -> force_delete (e_scrubber e) = false ->
  items_ok e1 M L1 -> item_step (fun q => M !! k = Some q) e e1 -> linked_item e1 id p i1 ->
  bare i1 = bare (get_ref e i) -> p ∈ L1 id -> cas_id e1 = cas_id e ->
  exists e' L', (do_item_unlink crc32c p;; do_item_release p) e1 = Done tt e' /\ items_ok e' (delete k M) L' /\
    item_step (fun q => M !! k = Some q) e e' /\ keeps e M e' (delete k M) /\ cas_id e' = cas_id e.
Proof.
  intros HM Hli Hk Hr Hfd Hok1 Hst1 Hli1 Hb1 Hin Hca1. pose proof (bare_shape _ _ Hb1) as (_ & _ & Ek & Er).
  rewrite get_ref_count in Er by done. assert (i_key (get_ref e i) = k) as Ekg by (rewrite <- Hk; unfold get_ref, update_item; by destruct (is_old _ _)).
  destruct (do_item_unlink_held crc32c drift e1 M L1 id p i1 Hok1 Hli1 Hin)
    as (e2 & i2 & l1 & l2 & _ & Hu & Hok2 & Hst2 & Hh2 & Hb2 & Hca2 & _);
    [by rewrite (proj2 (proj2 (proj2 (step_now _ _ _ Hst1))))|lia|].
  erewrite bind_done by exact Hu. rewrite Ek, Ekg in Hok2.
  destruct (do_item_release_held crc32c drift e2 _ _ p i2 Hok2 Hh2) as (e3 & Hrel & Hok3 & Hst3 & Hca3 & _ & Hcase).
  assert (item_step (fun q => M !! k = Some q) e e3) as Hst.
  { eapply item_step_trans; [exact Hst1| |done|intros q _ Hq; exact Hq].
    eapply item_step_trans; [exact Hst2|exact Hst3|intros q <-; done|intros q _ <-; done]. }
  exists e3. eexists. split; [exact Hrel|]. split; [exact Hok3|]. split; [done|]. split; [|congruence].
  apply (key_keeps k); [done|intros k' Hk'; by apply lookup_delete_ne|].
  intros q j Hq Hj. replace q with p in * by congruence. rewrite (proj1 Hli) in Hj. apply (inj Some) in Hj as <-. intros Hnz.
  pose proof (bare_shape _ _ Hb2) as (_ & _ & _ & Er2). change (i_refcount (unlink_item i1)) with (i_refcount i1) in Er2.
  assert (i_refcount (drop_ref i2) = i_refcount i) as Ed.
  { unfold drop_ref. rewrite Er2, Er, (proj2 (Z.eqb_neq _ _)) by lia. cbn. lia. }
  rewrite decide_False in Hcase by congruence. destruct Hcase as [Hh3 _]. exists (drop_ref i2).
  split; [apply held_in_use; [done|congruence]|]. split; [|split; [lia|]].
  - by rewrite drop_ref_body, (bare_body _ _ Hb2), unlink_body, (bare_body _ _ Hb1), get_ref_body.
  - rewrite drop_ref_time, (proj1 (step_now _ _ _ Hst)).
    assert (i_time i2 = i_time (get_ref e i)) as ->; [|apply get_ref_time].
    transitivity (i_time i1); [exact (f_equal i_time Hb2)|exact (f_equal i_time Hb1)].
Qed.

(** One reference to an item is given back. *)
Lemma release_ok e M L p i :
  items_ok e M L -> in_use e M p i -> 0 <= i_refcount i ->
  exists e', do_item_release p e = Done tt e' /\ (exists L', items_ok e' M L') /\ item_step (eq p) e e' /\ cas_id e' = cas_id e /\
    (forall q j, in_use e M q j -> q <> p -> kept M q j e') /\
    (1 < i_refcount i -> exists i', in_use e' M p i' /\ payload i' = payload i /\ i_refcount i' = i_refcount i - 1) /\
    (forall k, M !! k = Some p -> exists i', e_mem e' !! p = Some i' /\ i' = drop_ref i).
Proof.
  intros Hok Hu Hpos. pose proof Hu as (Hi & Hc & Hf & Ho & Hs & Hr & HM).
  assert (forall e', item_step (eq p) e e' -> forall q j, in_use e M q j -> q <> p -> kept M q j e') as Hoth.
  { intros e' Hst q j Hq Hne. eapply kept_step; [by apply in_use_kept|exact Hst|congruence|done]. }
  assert (i_refcount (drop_ref i) = i_refcount i - 1) as Hd by (unfold drop_ref; by rewrite (proj2 (Z.eqb_neq _ _))).
  destruct (has_flag ITEM_LINKED i) eqn:Hl.
  - destruct (item_place _ _ _ _ _ _ _ Hok (HM eq_refl) Ho) as (id & j & _ & Hin & Hli & _).
    rewrite (proj1 Hli) in Hi. apply (inj Some) in Hi as ->.
    destruct (do_item_release_linked crc32c drift e M L id p i Hok Hli) as (e' & Hrel & Hok' & Hst & Hm & Hca & _).
    exists e'. split; [done|]. split; [by exists L|]. split; [done|]. split; [done|]. split; [by apply Hoth|]. split; [|eauto].
    intros H1. exists (drop_ref i). split; [|by rewrite drop_ref_body].
    assert (linked_item e' id p (drop_ref i)) as Hli'.
    { injection (drop_ref_skeleton i) as _ _ _ E1 E2 E3 _. eapply linked_item_same; [exact Hli|done|done|done|done|apply (step_now _ _ _ Hst)|apply (is_chunk _ _ _ Hst)]. }
    eapply linked_in_use; [exact Hok'|exact Hin|done|lia].
  - assert (held e p i) as Hh by done.
    destruct (do_item_release_held crc32c drift e M L p i Hok Hh) as (e' & Hrel & Hok' & Hst & Hca & _ & Hcase).
    exists e'. split; [done|]. split; [by exists L|]. split; [done|]. split; [done|]. split; [by apply Hoth|]. split.
    + intros H1. rewrite decide_False in Hcase by lia. exists (drop_ref i). split; [|by rewrite drop_ref_body].
      apply held_in_use; [apply Hcase|lia].
    + intros k Hk. by destruct (held_not_in_table crc32c drift e M L p i k Hok Hh).
Qed.

End Calls.
