(* ===== verification/DefaultEngine.v ===== *)
(** * The default engine

    The interface of the engine ([engines/default_engine/default_engine.c]):
    virtual buckets, the calls that the server makes, statistics and the
    commands the engine handles itself. *)

From S2P Require Import Prelude Memory Numbers RecordUpdate StateMonad Protocol Packet EngineApi EngineState Assoc Slabs.
From S2P Require Import Items ItemQueues Cache CacheOps CacheCalls.

(** ** Virtual buckets *)

Definition vbucket_state_active : Z := 1.
Definition vbucket_state_replica : Z := 2.
Definition vbucket_state_pending : Z := 3.
Definition vbucket_state_dead : Z := 4.

Definition valid_vbucket_state (state : Z) : bool :=
  (state == vbucket_state_active) || (state == vbucket_state_replica) ||
  (state == vbucket_state_pending) || (state == vbucket_state_dead).

(** The state is a signed bit-field of two bits in the low bits of a byte. *)
Definition set_vbucket_state (vbid to : Z) : E unit :=
  modify (fun e => e <| vbucket_infos := fun v =>
    if v == vbid then Z.lor (Z.land (vbucket_infos e v) (Z.lnot 3)) (Z.land to 3)
    else vbucket_infos e v |>).

(** The bit-field is widened to the type of the state. *)
Definition vbucket_state (e : default_engine) (vbid : Z) : Z := u32 (swrap 2 (vbucket_infos e vbid)).

Definition get_vbucket_state (vbid : Z) : E Z := gets (fun e => vbucket_state e vbid).

Definition handled_vbucket (e : default_engine) (vbid : Z) : bool :=
  ignore_vbucket (e_config e) || (vbucket_state e vbid == vbucket_state_active).

(** [VBUCKET_GUARD] *)
Definition vbucket_guard {A} (vbid : Z) (bad : ENGINE_ERROR_CODE -> A) (m : E A) : E A :=
  e <- the_engine;;
  if negb (handled_vbucket e vbid) then ret (bad ENGINE_NOT_MY_VBUCKET) else m.

(** ** Setting up *)

(** [default_engine_constructor]: the fields of the engine; table, memory, CAS
    counter, clock and allocator are the process's. *)
Definition default_engine_constructor (id : Z) : E unit :=
  modify (fun e => mk_engine (e_mem e) (e_assoc e)
    (mk_slabs (replicate (Z.to_nat MAX_NUMBER_OF_SLAB_CLASSES) (mk_slabclass 0 0 [] 0 0 0 [] 0 0))
       0 0 0 0 0 0 [] 0)
    (mk_items (replicate (Z.to_nat POWER_LARGEST) 0) (replicate (Z.to_nat POWER_LARGEST) 0)
       (replicate (Z.to_nat POWER_LARGEST) (mk_itemstats 0 0 0 0 0 0))
       (replicate (Z.to_nat POWER_LARGEST) 0))
    (mk_config true 0 true (64 * 1024 * 1024) false 5 4 48 (1024 * 1024) false false 0 None)
    (mk_engine_stats 0 0 0 0 0) (mk_scrubber 0 0 0 0 false false) (fun _ => 0) id
    (cas_id e) (e_now e) (e_pages e) (e_grants e) (e_evicting e)).

Section Engine.
Context (crc32c : bytes -> Z) (uninit : hash_item -> nat -> Z * bytes).

(** The server's [realtime] and [parse_config]; the parser gets the
    configuration it changes and returns 0, 1 or -1. *)
Context (realtime : Z -> Z) (parse_config : bytes -> config -> Z * config).

(** The parser's outcome as an error code; -1 is none of them. *)
Definition error_code_of (r : Z) : option ENGINE_ERROR_CODE :=
  if r == 0 then Some ENGINE_SUCCESS else if r == 1 then Some ENGINE_KEY_ENOENT else None.

Definition initalize_configuration (cfg_str : option bytes) : E (option ENGINE_ERROR_CODE) :=
  modify (fun e => e <| e_config := (e_config e) <| vb0 := true |> |>);;
  r <- (match cfg_str with
        | Some s =>
            c <- gets e_config;;
            modify (fun e => e <| e_config := (parse_config s c).2 |>);;
            ret (error_code_of (parse_config s c).1)
        | None => ret (Some ENGINE_SUCCESS)
        end);;
  c <- gets e_config;;
  when (vb0 c) (set_vbucket_state 0 vbucket_state_active);;
  ret r.

(** [global_assoc] and [initial_malloc] are the table of the process and its
    environment variable. *)
Definition default_initialize (global_assoc : option assoc) (initial_malloc : option Z)
    (cfg_str : option bytes) : E (option ENGINE_ERROR_CODE) :=
  r <- initalize_configuration cfg_str;;
  if negb (bool_decide (r = Some ENGINE_SUCCESS)) then ret r else
  g <- assoc_init global_assoc;;
  if negb (bool_decide (g.1 = ENGINE_SUCCESS)) then ret (Some g.1) else
  c <- gets e_config;;
  r <- slabs_init initial_malloc (maxbytes c) (preallocate c);;
  ret (Some r).

(** ** Items *)

Definition default_item_allocate (key : bytes) (nbytes flags exptime datatype : Z)
    : E (ENGINE_ERROR_CODE * Z) :=
  c <- gets e_config;;
  let ntotal := u64 (SIZEOF_HASH_ITEM + Z.of_nat (length key) + nbytes +
    (if use_cas c then 8 else 0)) in
  id <- slabs_clsid_of ntotal;;
  if id == 0 then ret (ENGINE_E2BIG, 0) else
  if item_size_max c <? nbytes then ret (ENGINE_E2BIG, 0) else
  it <- item_alloc crc32c uninit key flags (realtime exptime) (u32 nbytes) datatype;;
  ret (if it != 0 then (ENGINE_SUCCESS, it) else (ENGINE_ENOMEM, 0)).

Definition default_item_delete (key : bytes) (cas vbucket : Z) : E ENGINE_ERROR_CODE :=
  vbucket_guard vbucket (fun r => r) (
    it <- item_get crc32c key;;
    if it == 0 then ret ENGINE_KEY_ENOENT else
    i <- deref it;;
    if (cas == 0) || (cas == item_get_cas i) then
      item_unlink crc32c it;; item_release it;; ret ENGINE_SUCCESS
    else
      item_release it;; ret ENGINE_KEY_EEXISTS).

Definition default_item_release (it : Z) : E unit := item_release it.

Definition default_get (key : bytes) (vbucket : Z) : E (ENGINE_ERROR_CODE * Z) :=
  vbucket_guard vbucket (fun r => (r, 0)) (
    it <- item_get crc32c key;;
    ret (if it != 0 then (ENGINE_SUCCESS, it) else (ENGINE_KEY_ENOENT, 0))).

Definition default_store (item : Z) (operation : ENGINE_STORE_OPERATION) (vbucket : Z)
    : E (ENGINE_ERROR_CODE * option Z) :=
  vbucket_guard vbucket (fun r => (r, None)) (store_item crc32c item operation).

Definition default_arithmetic (key : bytes) (increment create : bool)
    (delta initial exptime datatype vbucket : Z) : E (ENGINE_ERROR_CODE * Z * Z) :=
  vbucket_guard vbucket (fun r => (r, 0, 0))
    (arithmetic crc32c uninit key increment create delta initial (realtime exptime) datatype).

Definition default_flush : E ENGINE_ERROR_CODE :=
  item_flush_expired crc32c;; ret ENGINE_SUCCESS.

Definition default_reset_stats : E unit :=
  item_stats_reset;;
  modify (fun e => e <| e_stats :=
    (((e_stats e) <| st_evictions := 0 |>) <| st_reclaimed := 0 |>) <| total_items := 0 |> |>).

(** ** Statistics *)

(** [strncmp(stat_key, prefix, n) == 0] for the [n] characters of the prefix. *)
Definition starts_with (prefix : string) (stat_key : bytes) : bool :=
  bool_decide (take (String.length prefix) (c_string stat_key) = text prefix).

Definition scrub_stats (s : engine_scrubber) : list (bytes * bytes) :=
  [(text "scrubber:status", text (if scrub_running s then "running" else "stopped"))] ++
  (if scrub_started s != 0 then
     (if scrub_stopped s != 0 then
        [(text "scrubber:last_run", print_u64 (u64 (scrub_started s - scrub_stopped s)))]
      else []) ++
     [(text "scrubber:visited", print_u64 (visited s)); (text "scrubber:cleaned", print_u64 (cleaned s))]
   else []).

(** The outcome and what is passed to [add_stat]. *)
Definition default_get_stats (stat_key : option bytes) : E (ENGINE_ERROR_CODE * list (bytes * bytes)) :=
  e <- the_engine;;
  match stat_key with
  | None => ret (ENGINE_SUCCESS,
      [(text "evictions", print_u64 (st_evictions (e_stats e)));
       (text "curr_items", print_u64 (curr_items (e_stats e)));
       (text "total_items", print_u64 (total_items (e_stats e)));
       (text "bytes", print_u64 (curr_bytes (e_stats e)));
       (text "reclaimed", print_u64 (st_reclaimed (e_stats e)));
       (text "engine_maxbytes", print_u64 (maxbytes (e_config e)))])
  | Some k =>
      if starts_with "slabs" k then s <- slabs_stats;; ret (ENGINE_SUCCESS, s)
      else if starts_with "items" k then s <- item_stats crc32c;; ret (ENGINE_SUCCESS, s)
      else if starts_with "sizes" k then s <- item_stats_sizes;; ret (ENGINE_SUCCESS, s)
      else if starts_with "uuid" k then
        ret (ENGINE_SUCCESS, [(text "uuid", match uuid (e_config e) with Some u => u | None => [] end)])
      else if starts_with "scrub" k then ret (ENGINE_SUCCESS, scrub_stats (e_scrubber e))
      else ret (ENGINE_KEY_ENOENT, [])
  end.

(** ** Commands *)

(** What is passed to [response]; the data is always [PROTOCOL_BINARY_RAW_BYTES]. *)
Record reply := mk_reply {
  rp_ext : bytes;
  rp_body : bytes;
  rp_status : protocol_binary_response_status;
  rp_cas : Z;
}.

Definition status_reply (status : protocol_binary_response_status) : reply := mk_reply [] [] status 0.

(** A state as the bytes of a [vbucket_state_t] in host order. *)
Definition state_bytes (state : Z) : bytes := le_store 4 state.

Definition set_vbucket (req : packet) : E reply :=
  let bodylen := u64 (nbody req - nkey req) in
  if bodylen != 4 then
    ret (mk_reply [] (text "Incorrect packet format") PROTOCOL_BINARY_RESPONSE_EINVAL 0) else
  state <- must (load_int 4 0 (body req));;
  let state := ntohl state in
  if negb (valid_vbucket_state state) then
    ret (mk_reply [] (text "Invalid vbucket state") PROTOCOL_BINARY_RESPONSE_EINVAL 0) else
  set_vbucket_state (ntohs (vbucket (header req))) state;;
  ret (mk_reply [] (state_bytes state) PROTOCOL_BINARY_RESPONSE_SUCCESS 0).

Definition get_vbucket (req : packet) : E reply :=
  state <- get_vbucket_state (ntohs (vbucket (header req)));;
  ret (mk_reply [] (state_bytes (ntohl state)) PROTOCOL_BINARY_RESPONSE_SUCCESS 0).

Definition rm_vbucket (req : packet) : E reply :=
  set_vbucket_state (ntohs (vbucket (header req))) vbucket_state_dead;;
  ret (status_reply PROTOCOL_BINARY_RESPONSE_SUCCESS).

(** [now] is [time(NULL)]. *)
Definition scrub_cmd (now : Z) : E reply :=
  ok <- item_start_scrub now;;
  ret (status_reply (if ok : bool then PROTOCOL_BINARY_RESPONSE_SUCCESS else PROTOCOL_BINARY_RESPONSE_EBUSY)).

(** No reply for [GATQ] when there is no item. *)
Definition touch (req : packet) : E (option reply) :=
  let h := header req in
  if (extlen h != 4) || (keylen h == 0) then ret (Some (status_reply PROTOCOL_BINARY_RESPONSE_EINVAL)) else
  key <- must (load (Z.to_nat (nkey req)) 4 (body req));;
  exptime <- must (load_int 4 0 (body req));;
  item <- touch_item crc32c key (realtime (ntohl exptime));;
  if item == 0 then
    ret (if opcode h == cmd_value PROTOCOL_BINARY_CMD_GATQ then None
         else Some (status_reply PROTOCOL_BINARY_RESPONSE_KEY_ENOENT))
  else
    i <- deref item;;
    item_release item;;
    ret (Some (if opcode h == cmd_value PROTOCOL_BINARY_CMD_TOUCH
               then status_reply PROTOCOL_BINARY_RESPONSE_SUCCESS
               else mk_reply (le_store 4 (i_flags i)) (take (Z.to_nat (i_nbytes i)) (i_data i))
                      PROTOCOL_BINARY_RESPONSE_SUCCESS (item_get_cas i))).

(** [sent] is what the server's [response] returns. *)
Definition default_unknown_command (now : Z) (sent : reply -> bool) (req : packet)
    : E (ENGINE_ERROR_CODE * option reply) :=
  r <- (if opcode (header req) == cmd_value PROTOCOL_BINARY_CMD_SCRUB then
          r <- scrub_cmd now;; ret (Some r)
        else if opcode (header req) == cmd_value PROTOCOL_BINARY_CMD_DEL_VBUCKET then
          r <- rm_vbucket req;; ret (Some r)
        else if opcode (header req) == cmd_value PROTOCOL_BINARY_CMD_SET_VBUCKET then
          r <- set_vbucket req;; ret (Some r)
        else if opcode (header req) == cmd_value PROTOCOL_BINARY_CMD_GET_VBUCKET then
          r <- get_vbucket req;; ret (Some r)
        else if (opcode (header req) == cmd_value PROTOCOL_BINARY_CMD_TOUCH) ||
                (opcode (header req) == cmd_value PROTOCOL_BINARY_CMD_GAT) ||
                (opcode (header req) == cmd_value PROTOCOL_BINARY_CMD_GATQ) then touch req
        else ret (Some (status_reply PROTOCOL_BINARY_RESPONSE_UNKNOWN_COMMAND)));;
  ret (if match r with Some r => sent r | None => true end then ENGINE_SUCCESS else ENGINE_FAILED, r).

(** ** Information on items *)

(** Where the parts of an item are: behind it come the CAS value, if there is
    one, and the key with its header, and then the data. *)
Definition key_storage (it : Z) (i : hash_item) : Z :=
  it + SIZEOF_HASH_ITEM + (if has_flag ITEM_WITH_CAS i then 8 else 0) + OFFSETOF_KEY_STORAGE.

Definition item_get_data (it : Z) (i : hash_item) : Z := key_storage it i + Z.of_nat (length (i_key i)).

Definition info_of (it : Z) (i : hash_item) : item_info :=
  mk_item_info (item_get_cas i) (mk_mutation 0 0) (i_exptime i) (i_nbytes i) (i_flags i) (slabs_clsid i) (i_datatype i)
    (key_storage it i + 4, hash_key_get_client_key (i_key i))
    [(item_get_data it i, take (Z.to_nat (i_nbytes i)) (i_data i))].

Definition get_item_info (it nvalue : Z) : E (option item_info) :=
  i <- deref it;; ret (if nvalue <? 1 then None else Some (info_of it i)).

Definition set_item_info (it datatype : Z) : E bool :=
  if it == 0 then ret false else
  write_item it (fun i => i <| i_datatype := datatype |>);; ret true.

(** ** The interface *)

(** [memcpy] into the data of an item. *)
Definition write_value (it off : Z) (data : bytes) : E unit :=
  i <- deref it;;
  if (0 <=? off) && (off + size data <=? i_nbytes i) && (i_nbytes i <=? size (i_data i))
  then write_item it (fun i => i <| i_data := blit off data (i_data i) |>) else crash.

(** The members of the interface; what is not written is as the caller left
    it. *)
Definition default_engine_v1 : EngineV1 default_engine := {|
  engine_allocate := default_item_allocate;
  engine_remove key cas vb := r <- default_item_delete key cas vb;; ret (r, cas, mk_mutation 0 0);
  engine_release := default_item_release;
  engine_get := default_get;
  engine_store it cas op vb := r <- default_store it op vb;; ret (r.1, default cas r.2);
  engine_arithmetic := default_arithmetic;
  engine_flush := default_flush;
  engine_item_set_cas := item_set_cas;
  engine_get_item_info := get_item_info;
  engine_set_item_info := set_item_info;
  copy_value := write_value;
|}.
End Engine.

(** ** Keys *)

(** The key under which the items of an engine are kept. *)
Definition full_key (e : default_engine) (key : bytes) : bytes := le_store 4 (bucket_id e) ++ key.

(** A key that fits the length field; a long one is copied to the heap. *)
Definition key_ok (e : default_engine) (key : bytes) : Prop :=
  Z.of_nat (length key) < 65532 /\ (128 < Z.of_nat (length key) -> head (e_grants e) = Some true).

Definition after_key (e : default_engine) (key : bytes) : default_engine :=
  if 128 <? Z.of_nat (length key) then e <| e_grants := tail (e_grants e) |> else e.

Lemma with_key_ok {A} key (fail : A) f e :
  key_ok e key -> with_key key fail f e = f (full_key e key) (after_key e key).
Proof.
  intros [Hl Hg]. unfold with_key, hash_key_create, the_engine, after_key. run. change (Datatypes.id e) with e.
  assert (take (Z.to_nat (u16 (4 + Z.of_nat (length key)))) (le_store 4 (bucket_id e) ++ key) = full_key e key) as Ht.
  { unfold full_key. rewrite take_ge; [done|]. rewrite wrap_small, length_app, le_store_length by lia. lia. }
  destruct (Z.ltb_spec 128 (Z.of_nat (length key))) as [H|H].
  - unfold granted. run. rewrite (Hg H). cbn [default from_option]. by rewrite Ht.
  - by rewrite Ht.
Qed.

(** Nothing but the allocator's answers changes. *)
Lemma after_key_spec e key :
  exists g, after_key e key = e <| e_grants := g |>.
Proof. unfold after_key. destruct (_ <? _); [by eexists|]. exists (e_grants e). by destruct e. Qed.

Lemma own_full_key e key : own e (full_key e key).
Proof. unfold own, full_key. rewrite take_app_le, take_ge; rewrite ?le_store_length; done. Qed.

(** ** The cache as its clients see it *)

(** What the cache holds for a key. *)
Record entry := mk_entry {
  en_flags : Z;
  en_exptime : Z;
  en_datatype : Z;
  en_data : bytes;
  en_cas : Z;
  en_nbytes : Z;
}.

Definition entry_of (i : hash_item) : entry :=
  mk_entry (i_flags i) (i_exptime i) (i_datatype i) (take (Z.to_nat (i_nbytes i)) (i_data i)) (item_get_cas i)
    (i_nbytes i).

Definition acache : Type := bytes -> option entry.

(** What the engine holds. *)
Definition view (e : default_engine) (M : gmap bytes Z) : acache :=
  fun key => entry_of <$> live e M (full_key e key).

(** An entry that has expired is not seen. *)
Definition shown (now : Z) (en : entry) : option entry :=
  if (en_exptime en != 0) && (en_exptime en <=? now) then None else Some en.

(** All keys but [key] hold what they held; some may have been thrown out. *)
Definition unchanged (key : bytes) (s s' : acache) : Prop := forall k, k <> key -> s' k = s k.
Definition evicted_but (key : bytes) (s s' : acache) : Prop := forall k, k <> key -> s' k = s k \/ s' k = None.

Lemma bare_entry i i' : bare i' = bare i -> entry_of i' = entry_of i.
Proof. exact (f_equal entry_of (x := bare i') (y := bare i)). Qed.

Lemma bare_dead e e' i i' :
  bare i' = bare i -> e_now e' = e_now e -> e_config e' = e_config e -> dead e' i' = dead e i.
Proof.
  intros Hb En Ec. unfold dead, flushed, expired. rewrite En, Ec.
  assert (i_time i' = i_time i) as -> by exact (f_equal i_time Hb).
  by assert (i_exptime i' = i_exptime i) as -> by exact (f_equal i_exptime Hb).
Qed.

Section View.
Context (crc32c : bytes -> Z) (uninit : hash_item -> nat -> Z * bytes) (drift : Z -> Z).
Abbreviation items_ok := (items_ok crc32c drift).

(** A key whose item no step touched. *)
Lemma live_same S e e' M M' L k :
  items_ok e M L -> item_step S e e' -> M' !! k = M !! k -> (forall p, M !! k = Some p -> ~ S p) ->
  entry_of <$> live e' M' k = entry_of <$> live e M k.
Proof.
  intros Hok Hst HM Hn. unfold live. rewrite HM. destruct (M !! k) as [p|] eqn:Hp; [|done]. cbn [mbind option_bind].
  destruct (table_item _ _ _ _ _ _ _ Hok Hp) as (i & Hi & _). rewrite Hi.
  destruct (is_mem _ _ _ Hst p i Hi) as [?|(i' & Hi' & Hb)]; [by destruct (Hn p)|]. rewrite Hi'. cbn [mbind option_bind].
  pose proof (step_now _ _ _ Hst) as (En & _ & Ec & _). rewrite (bare_dead e e' i i') by done.
  destruct (dead e i); [done|]. cbn. f_equal. by apply bare_entry.
Qed.

Lemma full_key_inj e k k' : full_key e k = full_key e k' -> k = k'.
Proof. unfold full_key. apply app_inv_head. Qed.

Lemma full_key_same e e' k : bucket_id e' = bucket_id e -> full_key e' k = full_key e k.
Proof. unfold full_key. by intros ->. Qed.

(** Steps that touch the items of one key. *)
Lemma view_but S e e' M M' L key :
  items_ok e M L -> item_step S e e' -> (forall q k', S q -> M !! k' = Some q -> k' = full_key e key) ->
  (forall k', k' <> full_key e key -> M' !! k' = M !! k') -> unchanged key (view e M) (view e' M').
Proof.
  intros Hok Hst HS HM k Hne. unfold view. pose proof (step_now _ _ _ Hst) as (_ & Eb & _). rewrite (full_key_same e e') by done.
  assert (full_key e k <> full_key e key) as Hnk by (by intros ?%full_key_inj).
  eapply live_same; [exact Hok|exact Hst|by apply HM|]. intros p Hp Hq. by eapply Hnk, HS.
Qed.

Lemma key_of_item e M L p k k' : items_ok e M L -> M !! k = Some p -> M !! k' = Some p -> k' = k.
Proof.
  intros Hok Hp Hq. destruct (table_item _ _ _ _ _ _ _ Hok Hp) as (i & Hi & E).
  destruct (table_item _ _ _ _ _ _ _ Hok Hq) as (j & Hj & E'). congruence.
Qed.

Lemma view_unchanged e e' M M' L key :
  items_ok e M L -> item_step (fun q => M !! full_key e key = Some q) e e' ->
  (forall k', k' <> full_key e key -> M' !! k' = M !! k') -> unchanged key (view e M) (view e' M').
Proof. intros Hok Hst HM. eapply view_but; [exact Hok|exact Hst| |done]. intros q k' Hq Hk'. exact (key_of_item _ _ _ _ _ _ Hok Hq Hk'). Qed.

(** Steps on one key that may take the memory of others. *)
Lemma view_evicted e e' M M' L key :
  items_ok e M L -> item_step (fun q => M !! full_key e key = Some q \/ taken e (full_key e key) M' q) e e' ->
  others (full_key e key) M M' -> evicted_but key (view e M) (view e' M').
Proof.
  intros Hok Hst Hot k Hne. unfold view. pose proof (step_now _ _ _ Hst) as (_ & Eb & _). rewrite (full_key_same e e') by done.
  assert (full_key e k <> full_key e key) as Hnk by (by intros ?%full_key_inj).
  destruct (Hot _ Hnk) as [HM|HM]; [left|right; unfold live; by rewrite HM].
  eapply live_same; [exact Hok|exact Hst|done|]. intros p Hp [Hq|[_ Hq]]; [|eapply Hq; [done|congruence]].
  apply Hnk. exact (key_of_item _ _ _ _ _ _ Hok Hq Hp).
Qed.
End View.

Section Spec.
Context (crc32c : bytes -> Z) (uninit : hash_item -> nat -> Z * bytes) (realtime : Z -> Z) (drift : Z -> Z).
Abbreviation items_ok := (items_ok crc32c drift).

(** The engine between two calls; [M] are the items in the cache. *)
Record engine_ok (e : default_engine) (M : gmap bytes Z) : Prop := {
  eo_items : exists L, items_ok e M L;
  eo_force : force_delete (e_scrubber e) = false;
  eo_early : early e;
  eo_flush : flush_past e;
}.

(** After a call: the invariant, at the same time. *)
Definition engine_next (now : Z) (e' : default_engine) (M' : gmap bytes Z) : Prop :=
  engine_ok e' M' /\ e_now e' = now.

Lemma engine_ok_step S e e' M M' now :
  engine_ok e M -> item_step S e e' -> (exists L', items_ok e' M' L') -> e_now e = now -> engine_next now e' M'.
Proof.
  intros [_ Hf He Ho] Hst HL <-. pose proof (step_now _ _ _ Hst) as (En & _ & Ec & Es).
  split; [|done]. split; [done|by rewrite Es|unfold early in *; by rewrite En|by eapply flush_past_step].
Qed.

(** The state in which the key is built. *)
Lemma engine_ok_key e M key :
  engine_ok e M -> engine_ok (after_key e key) M /\ (exists L, items_ok (after_key e key) M L).
Proof.
  intros [[L Hok] Hf He Ho]. destruct (after_key_spec e key) as [g ->].
  assert (items_ok (e <| e_grants := g |>) M L) as Hok' by (by apply (items_ok_beside crc32c drift e)).
  split; [|by exists L]. split; [by exists L|done|done|done].
Qed.

(** An item accessed just now is seen unless it has expired. *)
Lemma live_shown e M k p i :
  engine_ok e M -> M !! k = Some p -> e_mem e !! p = Some i -> i_time i = e_now e ->
  entry_of <$> live e M k = shown (e_now e) (entry_of i).
Proof.
  intros [_ _ _ Hfl] HM Hi Ht. unfold live. rewrite HM. cbn [mbind option_bind]. rewrite Hi. cbn [mbind option_bind].
  pose proof (new_not_flushed e i Hfl Ht) as Hf.
  unfold dead, shown. rewrite Hf. unfold expired. cbn. by destruct (_ && _).
Qed.

(** A function that is given the full key. *)
Lemma with_key_start {A} e M key (fail : A) f :
  engine_ok e M -> key_ok e key ->
  exists g L, let e0 := e <| e_grants := g |> in
    with_key key fail f e = f (full_key e key) e0 /\ engine_ok e0 M /\ items_ok e0 M L.
Proof.
  intros Ho Hk. destruct (engine_ok_key e M key Ho) as [Ho0 [L Hok]]. destruct (after_key_spec e key) as [g Hg].
  exists g, L. rewrite Hg in *. split; [|done]. by rewrite with_key_ok, Hg.
Qed.

Lemma with_key_enter {A B} e M key (fail : A) f (h : A -> E B) :
  engine_ok e M -> key_ok e key ->
  exists g L, let e0 := e <| e_grants := g |> in
    bind (with_key key fail f) h e = bind (f (full_key e key)) h e0 /\ engine_ok e0 M /\ items_ok e0 M L.
Proof.
  intros Ho Hk. destruct (with_key_start e M key fail f Ho Hk) as (g & L & E & H). exists g, L. split; [|done].
  unfold bind. by rewrite E.
Qed.

Lemma guard_passes {A} e vb (bad : ENGINE_ERROR_CODE -> A) m :
  handled_vbucket e vb = true -> vbucket_guard vb bad m e = m e.
Proof. intros H. unfold vbucket_guard, the_engine. run. change (Datatypes.id e) with e. by rewrite H. Qed.

(** *** Getting *)

(** An access shows what it showed. *)
Lemma view_accessed e M L k p i i' e' S :
  items_ok e M L -> own e k -> live e M k = Some i -> M !! k = Some p -> item_step S e e' ->
  e_mem e' !! p = Some i' -> bare i' = bare (get_ref e i) ->
  entry_of <$> live e' M k = Some (entry_of i).
Proof.
  intros Hok Hown Hl HM Hst Hi' Hb. unfold live in *. rewrite HM in *. cbn [mbind option_bind] in *. rewrite Hi'.
  destruct (e_mem e !! p) as [j|] eqn:Hj; [|done]. cbn [mbind option_bind] in *.
  destruct (dead e j) eqn:Hd; [done|]. apply (inj Some) in Hl as ->.
  pose proof (step_now _ _ _ Hst) as (En & _ & Ec & _). pose proof (own_time _ _ e M L k p i Hok HM Hown Hj) as Ht.
  rewrite (accessed_live e e' i i'); try done; [..|].
  - cbn. f_equal. rewrite (bare_entry _ _ Hb). unfold get_ref, update_item. by destruct (is_old _ _).
  - apply Ht.
  - transitivity (i_exptime (get_ref e i)); [exact (f_equal i_exptime Hb)|]. unfold get_ref, update_item. by destruct (is_old _ _).
  - assert (i_time i' = i_time (get_ref e i)) as -> by exact (f_equal i_time Hb). apply get_ref_time.
Qed.

Lemma get_spec e M key vb :
  engine_ok e M -> key_ok e key -> counted e M (full_key e key) -> handled_vbucket e vb = true ->
  exists p e' M', default_get crc32c key vb e =
      Done (match view e M key with Some _ => (ENGINE_SUCCESS, p) | None => (ENGINE_KEY_ENOENT, 0) end) e' /\
    engine_next (e_now e) e' M' /\ keeps e M e' M' /\ (forall k, view e' M' k = view e M k) /\
    (forall en, view e M key = Some en -> p <> 0 /\ exists i, in_use e' M' p i /\ entry_of i = en /\
       exists i0, M !! full_key e key = Some p /\ e_mem e !! p = Some i0 /\ i_key i0 = full_key e key /\ payload i = payload i0).
Proof.
  intros Ho Hk Hcnt Hvb. unfold default_get. rewrite guard_passes by done. unfold item_get.
  destruct (with_key_enter e M key 0 (do_item_get crc32c)
    (fun it => ret (if it != 0 then (ENGINE_SUCCESS, it) else (ENGINE_KEY_ENOENT, 0))) Ho Hk) as (g & L & Hrun & Ho0 & Hok0).
  rewrite Hrun. set (e0 := e <| e_grants := g |>) in *. set (k := full_key e key) in *.
  assert (own e0 k) as Hown by exact (own_full_key e key).
  pose proof (access_keeps crc32c drift e0 M L k Hok0 Hown (eo_force _ _ Ho0) Hcnt) as H.
  change (view e M key) with (entry_of <$> live e0 M k). destruct (live e0 M k) as [i|] eqn:Hl.
  - destruct H as (p & id & e1 & i1 & L1 & Hp & HM & Hli & Hki & Hg & Hok1 & Hst1 & Hli1 & Hb & Hin & Hca & Hkp).
    exists p, e1, M. erewrite bind_done by exact Hg. rewrite (proj2 (Z.eqb_neq _ _) Hp). cbn [negb fmap option_fmap option_map].
    split; [done|]. split; [by eapply engine_ok_step; [exact Ho0|exact Hst1|exists L1|done]|]. split; [exact Hkp|]. split.
    + intros k'. destruct (decide (k' = key)) as [->|Hne]; [|by apply (view_unchanged crc32c drift e0 e1 M M L key Hok0 Hst1)].
      unfold view. rewrite (full_key_same e0 e1) by apply (step_now _ _ _ Hst1). change (full_key e0 key) with k.
      change (entry_of <$> live e1 M k = entry_of <$> live e0 M k). rewrite Hl. by eapply (view_accessed e0 M L k p i i1); [..|apply Hli1|].
    + intros en [= <-]. split; [done|]. exists i1. split.
      * eapply linked_in_use; [exact Hok1|exact Hin|done|]. apply bare_shape in Hb as (_ & _ & _ & ->).
        pose proof (Hcnt p i HM (proj1 Hli)). rewrite get_ref_count; lia.
      * split; [rewrite (bare_entry _ _ Hb); unfold get_ref, update_item; by destruct (is_old _ _)|].
        exists i. split; [done|]. split; [apply Hli|]. split; [done|]. by rewrite (bare_body _ _ Hb), get_ref_body.
  - destruct H as (e1 & L1 & Hg & Hok1 & Hst1 & Hca & Hkp). exists 0, e1, (delete k M).
    erewrite bind_done by exact Hg. split; [done|]. split; [by eapply engine_ok_step; [exact Ho0|exact Hst1|exists L1|done]|].
    split; [exact Hkp|]. split; [|done]. intros k'. destruct (decide (k' = key)) as [->|Hne].
    + change (view e M key) with (entry_of <$> live e0 M k). rewrite Hl. unfold view.
      rewrite (full_key_same e0 e1) by apply (step_now _ _ _ Hst1). change (full_key e0 key) with k. unfold live. by rewrite lookup_delete_eq.
    + apply (view_unchanged crc32c drift e0 e1 M (delete k M) L key Hok0 Hst1); [|done]. intros x Hx. by apply lookup_delete_ne.
Qed.

(** *** Storing *)

(** When a value is stored, by what the key holds. *)
Definition cache_store (operation : ENGINE_STORE_OPERATION) (old : option entry) (cas : Z) : ENGINE_ERROR_CODE :=
  match operation, old with
  | OPERATION_ADD, Some _ => ENGINE_NOT_STORED
  | OPERATION_REPLACE, None => ENGINE_NOT_STORED
  | OPERATION_CAS, None => ENGINE_KEY_ENOENT
  | OPERATION_CAS, Some en => if cas == en_cas en then ENGINE_SUCCESS else ENGINE_KEY_EEXISTS
  | _, _ => ENGINE_SUCCESS
  end.

Lemma cache_store_outcome operation old i :
  store_outcome operation old i = cache_store operation (entry_of <$> old) (item_get_cas i).
Proof. by destruct operation, old. Qed.

(** The entry that is stored, with its new CAS value. *)
Definition new_cas (e : default_engine) (i : hash_item) : Z :=
  if has_flag ITEM_WITH_CAS i then u64 (cas_id e + 1) else 0.

Definition stored_entry (e : default_engine) (i : hash_item) : entry :=
  mk_entry (i_flags i) (i_exptime i) (i_datatype i) (take (Z.to_nat (i_nbytes i)) (i_data i)) (new_cas e i)
    (i_nbytes i).

Lemma link_item_with_cas e i : has_flag ITEM_WITH_CAS (link_item e i) = has_flag ITEM_WITH_CAS i.
Proof. pose proof (link_item_body e i) as E. by injection E. Qed.

Lemma link_item_get_cas e i : item_get_cas (link_item e i) = new_cas e i.
Proof.
  unfold item_get_cas, new_cas. rewrite link_item_with_cas. destruct (has_flag ITEM_WITH_CAS i) eqn:H; [|done].
  apply link_item_cas. by rewrite link_item_with_cas.
Qed.

Lemma link_item_entry e i : entry_of (link_item e i) = stored_entry e i.
Proof.
  unfold entry_of. rewrite link_item_get_cas. unfold stored_entry, link_item.
  match goal with |- context [if ?b then _ else _] => by destruct b end.
Qed.

Lemma store_spec e M it i key operation vb :
  engine_ok e M -> held e it i -> i_key i = full_key e key -> counted e M (full_key e key) -> handled_vbucket e vb = true ->
  exists e' M', let r := cache_store operation (view e M key) (item_get_cas i) in
    default_store crc32c it operation vb e =
      Done (r, if bool_decide (r = ENGINE_SUCCESS) then Some (new_cas e i) else None) e' /\
    engine_next (e_now e) e' M' /\ keeps e M e' M' /\ unchanged key (view e M) (view e' M') /\
    view e' M' key = (if bool_decide (r = ENGINE_SUCCESS) then shown (e_now e) (stored_entry e i) else view e M key) /\
    kept M' it i e'.
Proof.
  intros Ho Hh Hk Hcnt Hvb. destruct (eo_items _ _ Ho) as [L Hok]. unfold default_store. rewrite guard_passes by done. unfold store_item.
  rewrite <- Hk in Hcnt. destruct (do_store_item_ok crc32c drift e M L it i operation Hok Hh (eo_force _ _ Ho) Hcnt) as (e' & Hs & Hd).
  rewrite cache_store_outcome, Hk in Hs, Hd. fold (view e M key) in Hs, Hd. cbn zeta in Hs. erewrite bind_done by exact Hs. cbn beta iota zeta.
  set (r := cache_store operation (view e M key) (item_get_cas i)) in *. destruct (bool_decide (r = ENGINE_SUCCESS)) eqn:Er.
  - pose proof (store_done_keeps crc32c drift e M it i e' L Hok Hh Hd) as Hkp.
    destruct Hd as (HL & Hst & Hca & (i' & Hi' & Hb) & _). exists e', (<[i_key i := it]> M).
    assert (engine_next (e_now e) e' (<[i_key i := it]> M)) as Ho' by (by eapply engine_ok_step).
    erewrite bind_done by (by apply deref_done). split.
    { cbn. do 3 f_equal. transitivity (item_get_cas (link_item e i)); [exact (f_equal item_get_cas Hb)|apply link_item_get_cas]. }
    split; [done|]. split; [done|]. split.
    + eapply view_but; [exact Hok|exact Hst| |].
      * intros q k' [Hq| ->] Hk'; [rewrite Hk in Hq; exact (key_of_item _ _ _ _ _ _ _ _ Hok Hq Hk')|]. by destruct (held_not_in_table crc32c drift e M L it i k' Hok Hh).
      * intros k' Hk'. rewrite Hk. by apply lookup_insert_ne.
    + destruct HL as [L' Hok']. split; [|by eapply stored_kept].
      unfold view. pose proof (step_now _ _ _ Hst) as (En & Eb & _). rewrite (full_key_same e e'), <- Hk by done.
      rewrite (live_shown e' _ _ it i'); [|apply Ho'|apply lookup_insert_eq|done|].
      * rewrite En, (bare_entry _ _ Hb). by rewrite link_item_entry.
      * rewrite En. transitivity (i_time (link_item e i)); [exact (f_equal i_time Hb)|apply link_item_time].
  - pose proof (store_refused_keeps crc32c drift e M _ e' Hd) as Hkp. destruct Hd as (Hst & Hca & _ & Hcase).
    exists e', (swept e M (full_key e key)). split; [done|]. split.
    { eapply engine_ok_step; [done|exact Hst| |done]. unfold swept. destruct (live e M _); [apply Hcase|done]. }
    split; [done|]. split; [eapply view_unchanged; [exact Hok|exact Hst|]; intros; by apply swept_ne|]. split.
    2: { pose proof (fun k => held_not_in_table crc32c drift e M L it i k Hok Hh) as Hno. intros Hr.
         apply (kept_step _ e e' M _ it i (in_use_kept e M it i (held_in_use e M it i Hh Hr)) Hst); [apply Hno| |done].
         intros k Hk'. by destruct (Hno k). }
    unfold view. rewrite (full_key_same e e') by apply (step_now _ _ _ Hst). unfold swept.
    destruct (live e M (full_key e key)) as [j|] eqn:Hl.
    + destruct Hcase as (_ & j' & -> & Hc). cbn. f_equal. exact (f_equal entry_of Hc).
    + unfold live. by rewrite lookup_delete_eq.
Qed.

(** *** Deleting *)

Definition cache_delete (old : option entry) (cas : Z) : ENGINE_ERROR_CODE :=
  match old with
  | None => ENGINE_KEY_ENOENT
  | Some en => if (cas == 0) || (cas == en_cas en) then ENGINE_SUCCESS else ENGINE_KEY_EEXISTS
  end.

Lemma delete_spec e M key cas vb :
  engine_ok e M -> key_ok e key -> counted e M (full_key e key) -> handled_vbucket e vb = true ->
  exists e' M', let r := cache_delete (view e M key) cas in
    default_item_delete crc32c key cas vb e = Done r e' /\ engine_next (e_now e) e' M' /\ keeps e M e' M' /\
    unchanged key (view e M) (view e' M') /\
    view e' M' key = (if bool_decide (r = ENGINE_SUCCESS) then None else view e M key).
Proof.
  intros Ho Hk Hcnt Hvb. unfold default_item_delete. rewrite guard_passes by done. unfold item_get.
  edestruct (with_key_enter (B := ENGINE_ERROR_CODE) e M key 0 (do_item_get crc32c)) as (g & L & Hrun & Ho0 & Hok0); [done|done|].
  rewrite Hrun. clear Hrun. set (e0 := e <| e_grants := g |>) in *. set (k := full_key e key) in *.
  assert (own e0 k) as Hown by exact (own_full_key e key).
  pose proof (access_keeps crc32c drift e0 M L k Hok0 Hown (eo_force _ _ Ho0) Hcnt) as H.
  change (view e M key) with (entry_of <$> live e0 M k). destruct (live e0 M k) as [i|] eqn:Hl.
  2: { destruct H as (e1 & L1 & Hg & Hok1 & Hst1 & Hca & Hkp). exists e1, (delete k M).
       erewrite bind_done by exact Hg. split; [done|]. split; [by eapply engine_ok_step; [exact Ho0|exact Hst1|exists L1|done]|].
       split; [exact Hkp|]. split; [apply (view_unchanged crc32c drift e0 e1 M (delete k M) L key Hok0 Hst1); intros x Hx; by apply lookup_delete_ne|].
       unfold view. rewrite (full_key_same e0 e1) by apply (step_now _ _ _ Hst1). change (full_key e0 key) with k. unfold live. by rewrite lookup_delete_eq. }
  destruct H as (p & id & e1 & i1 & L1 & Hp & HM & Hli & Hki & Hg & Hok1 & Hst1 & Hli1 & Hb & Hin & Hca & Hkp).
  erewrite bind_done by exact Hg. rewrite (proj2 (Z.eqb_neq _ _) Hp). erewrite bind_done by (apply deref_done, Hli1).
  assert (item_get_cas i1 = item_get_cas i) as Ecas.
  { transitivity (item_get_cas (get_ref e0 i)); [exact (f_equal item_get_cas Hb)|]. unfold get_ref, update_item. by destruct (is_old _ _). }
  pose proof (Hcnt p i HM (proj1 Hli)) as Hr. rewrite Ecas. cbn [fmap option_fmap option_map cache_delete entry_of en_cas].
  unfold item_unlink, item_release. destruct ((cas == 0) || (cas == item_get_cas i)).
  - destruct (delete_ok crc32c drift e0 M id p i e1 L1 i1 k) as (e2 & L2 & Hd & Hok2 & Hst2 & Hk2 & Hca2); try done; [apply Ho0|].
    destruct (bind_inv _ _ _ _ _ Hd) as ([] & e2' & Hd1 & Hd2). exists e2, (delete k M).
    erewrite bind_done by exact Hd1. erewrite bind_done by exact Hd2. split; [done|].
    split; [by eapply engine_ok_step; [exact Ho0|exact Hst2|exists L2|done]|]. split; [exact Hk2|].
    split; [apply (view_unchanged crc32c drift e0 e2 M (delete k M) L key Hok0 Hst2); intros x Hx; by apply lookup_delete_ne|].
    rewrite bool_decide_eq_true_2 by done. unfold view. rewrite (full_key_same e0 e2) by apply (step_now _ _ _ Hst2). unfold live.
    change (full_key e0 key) with k. by rewrite lookup_delete_eq.
  - destruct (store_kept crc32c drift e0 M id p i e1 L1 i1 k) as (e2 & Hrel & Hst2 & Hca2 & Hk2 & Hcase); try done; try lia.
    + apply (own_time _ _ e0 M L k p i Hok0 HM Hown (proj1 Hli)).
    + rewrite (bare_content _ _ (bare_drop _ _ Hb)). by apply get_drop_content.
    + assert (i_time i1 = i_time (get_ref e0 i)) as -> by exact (f_equal i_time Hb). apply get_ref_time.
    + rewrite Hl in Hk2, Hcase. destruct Hcase as ([L2 Hok2] & i2 & Hl2 & Hc2). exists e2, M. erewrite bind_done by exact Hrel.
      split; [done|]. split; [by eapply engine_ok_step; [exact Ho0|exact Hst2|exists L2|done]|].
      split; [by apply (key_keeps k e0 M e2 M)|]. split; [by apply (view_unchanged crc32c drift e0 e2 M M L key Hok0 Hst2)|].
      rewrite bool_decide_eq_false_2 by done. unfold view. rewrite (full_key_same e0 e2) by apply (step_now _ _ _ Hst2).
      change (full_key e0 key) with k. rewrite Hl2. cbn. f_equal. exact (f_equal entry_of Hc2).
Qed.

(** *** Counters *)

Definition entry_counter (en : entry) : option Z :=
  if 79 <=? en_nbytes en then None else safe_strtoull (c_string (en_data en)).

(** The entry of a counter. *)
Definition counter_entry (flags exptime datatype v : Z) (en : entry) : Prop :=
  entry_counter en = Some v /\ u32 (en_flags en) = u32 flags /\ u32 (en_exptime en) = u32 exptime /\
  u8 (en_datatype en) = u8 datatype.

(** What a counter becomes. *)
Definition cache_arithmetic (old : option entry) (incr create : bool) (delta initial exptime datatype now : Z)
    (r : ENGINE_ERROR_CODE * Z * Z) (new : option entry) : Prop :=
  let counts flags exptime datatype v :=
    (r = (ENGINE_ENOMEM, 0, match old with Some _ => v | None => 0 end) /\ new = None) \/
    (exists q en, r = (ENGINE_SUCCESS, q, v) /\ new = shown now en /\ counter_entry flags exptime datatype v en) in
  match old with
  | None => if create then counts 0 exptime datatype initial else r = (ENGINE_KEY_ENOENT, 0, 0) /\ new = None
  | Some en =>
      match entry_counter en with
      | None => r = (ENGINE_EINVAL, 0, 0) /\ new = old
      | Some v => counts (en_flags en) (en_exptime en) (en_datatype en) (add_delta incr delta v)
      end
  end.

Lemma counts_shown e M k q i flags exptime datatype v :
  M !! k = Some q -> e_mem e !! q = Some i -> counts e k flags exptime datatype i v ->
  entry_of <$> live e M k = shown (e_now e) (entry_of i) /\ counter_entry flags exptime datatype v (entry_of i).
Proof.
  intros HM Hi (Hc & _ & ? & ? & ? & Hf & _). split; [|done]. unfold live. rewrite HM. cbn [mbind option_bind]. rewrite Hi.
  cbn [mbind option_bind]. unfold dead, shown. rewrite Hf. unfold expired. cbn. by destruct (_ && _).
Qed.

Lemma arithmetic_spec e M key incr create delta initial exptime datatype vb :
  engine_ok e M -> key_ok e key -> counted e M (full_key e key) -> handled_vbucket e vb = true ->
  0 <= delta -> 0 <= initial < 2 ^ 64 ->
  exists r e' M', default_arithmetic crc32c uninit realtime key incr create delta initial exptime datatype vb e = Done r e' /\
    engine_next (e_now e) e' M' /\ keeps e M e' M' /\ evicted_but key (view e M) (view e' M') /\
    cache_arithmetic (view e M key) incr create delta initial (realtime exptime) datatype (e_now e) r (view e' M' key).
Proof.
  intros Ho Hk Hcnt Hvb Hd Hv. unfold default_arithmetic. rewrite guard_passes by done. unfold arithmetic.
  match goal with |- context [with_key key ?x ?f e] => destruct (with_key_start e M key x f Ho Hk) as (g & L & Hrun & Ho0 & Hok0) end.
  rewrite Hrun. clear Hrun. set (e0 := e <| e_grants := g |>) in *. set (k := full_key e key) in *.
  assert (own e0 k) as Hown by exact (own_full_key e key).
  destruct (do_arithmetic_ok crc32c uninit drift e0 M L k incr create delta initial (realtime exptime) datatype Hok0 Hown)
    as (r & e' & M' & Hrun & HL & Hst & Hkp & Hot & Hres); try done; [apply Ho0..|].
  exists r, e', M'. split; [exact Hrun|]. split; [by eapply engine_ok_step|]. split; [exact Hkp|].
  split; [exact (view_evicted crc32c drift e0 e' M M' L key Hok0 Hst Hot)|].
  pose proof (step_now _ _ _ Hst) as (En & Eb & _). change (e_now e) with (e_now e0). rewrite <- En.
  change (view e M key) with (entry_of <$> live e0 M k). unfold view. rewrite (full_key_same e0 e') by done.
  change (full_key e0 key) with k. unfold arithmetic_result in Hres. unfold cache_arithmetic.
  destruct (live e0 M k) as [i|] eqn:Hl; cbn [fmap option_fmap option_map].
  - change (entry_counter (entry_of i)) with (counter_of i). destruct (counter_of i) as [v|].
    + destruct Hres as [[-> HM]|(q & i' & -> & HM & Hi' & Hc)]; [left; unfold live; by rewrite HM|right].
      destruct (counts_shown e' M' k q i' _ _ _ _ HM Hi' Hc) as [-> ?]. by exists q, (entry_of i').
    + destruct Hres as (-> & HM & q & i' & Hq & Hi' & Hb). split; [done|].
      pose proof (view_accessed e0 M L k q i i' e' _ Hok0 Hown Hl Hq Hst Hi' Hb) as <-. unfold live. by rewrite HM.
  - destruct create.
    + destruct Hres as [[-> HM]|(q & i' & -> & HM & Hi' & Hc)]; [left; unfold live; by rewrite HM|right].
      destruct (counts_shown e' M' k q i' _ _ _ _ HM Hi' Hc) as [-> ?]. by exists q, (entry_of i').
    + destruct Hres as [-> HM]. unfold live. by rewrite HM.
Qed.

(** *** Allocating, releasing and flushing *)

(** Some entries may have been thrown out. *)
Definition evicted_some (s s' : acache) : Prop := forall k, s' k = s k \/ s' k = None.

Lemma view_room e M L e' M' :
  items_ok e M L -> room crc32c drift e M e' M' -> evicted_some (view e M) (view e' M').
Proof.
  intros Hok [_ Hst [Hsub _] _] k. unfold view. rewrite (full_key_same e e') by apply (step_now _ _ _ Hst).
  destruct (M' !! full_key e k) as [p|] eqn:HM; [left|right; unfold live; by rewrite HM].
  pose proof (lookup_weaken _ _ _ _ HM Hsub) as HM0. eapply live_same; [exact Hok|exact Hst|congruence|].
  intros q Hq [_ Hn]. apply (Hn (full_key e k)). congruence.
Qed.

Lemma room_counted e M L e' M' k :
  items_ok e M L -> room crc32c drift e M e' M' -> counted e M k -> counted e' M' k.
Proof.
  intros Hok [_ Hst [Hsub _] _] Hc p i' HM Hi'. pose proof (lookup_weaken _ _ _ _ HM Hsub) as HM0.
  destruct (table_item _ _ _ _ _ _ _ Hok HM0) as (i & Hi & _). pose proof (Hc p i HM0 Hi) as Hr.
  destruct (is_mem _ _ _ Hst p i Hi) as [[_ Hn]|(i2 & Hi2 & Hb)]; [by destruct (Hn k)|].
  rewrite Hi' in Hi2. apply (inj Some) in Hi2 as <-. by apply bare_shape in Hb as (_ & _ & _ & ->).
Qed.

(** What a call leaves of the engine's setup. *)
Definition same_setup (e e' : default_engine) : Prop :=
  bucket_id e' = bucket_id e /\ e_config e' = e_config e /\ vbucket_infos e' = vbucket_infos e.

Lemma step_setup S e e' : item_step S e e' -> same_setup e e'.
Proof. intros Hst. pose proof (is_beside _ _ _ Hst) as Hb. unfold beside_items in Hb. unfold same_setup. split_and!; congruence. Qed.

(** New memory is filled in: the cache stays as it is. *)
Definition refilled (e : default_engine) (M : gmap bytes Z) (it : Z) (i' : hash_item) (e' : default_engine) : Prop :=
  engine_next (e_now e) e' M /\ (forall k, view e' M k = view e M k) /\ held e' it i' /\ same_setup e e' /\
  (forall k, counted e M k -> counted e' M k).

Lemma held_filled e M it i i' :
  engine_ok e M -> held e it i -> (iflag i', slabs_clsid i', i_key i') = (iflag i, slabs_clsid i, i_key i) ->
  refilled e M it i' (e <| e_mem := <[it := i']> (e_mem e) |>).
Proof.
  intros Ho Hh Hf. set (e' := e <| e_mem := _ |>). destruct (eo_items _ _ Ho) as [L Hok].
  destruct (held_write crc32c drift e M L it i i' Hok Hh Hf) as (Hok' & Hst & Hh'). fold e' in Hok', Hst, Hh'.
  assert (forall k, M !! k <> Some it) as Hno by (intros k; by eapply (held_not_in_table crc32c drift e M L)).
  split; [by eapply engine_ok_step; [exact Ho|exact Hst|exists L|]|]. split; [|split; [done|split; [by eapply step_setup|]]].
  - intros k. unfold view. rewrite (full_key_same e e') by done. eapply live_same; [exact Hok|exact Hst|done|].
    intros p HM <-. by destruct (Hno (full_key e k)).
  - intros k Hc p j HM Hj. apply (Hc p j HM). cbn in Hj. by rewrite lookup_insert_ne in Hj by (intros <-; by destruct (Hno k)).
Qed.

Lemma refilled_trans e M it i1 e1 i2 e2 : refilled e M it i1 e1 -> refilled e1 M it i2 e2 -> refilled e M it i2 e2.
Proof.
  intros ([_ N1] & V1 & _ & (B1 & C1 & I1) & K1) ([O2 N2] & V2 & H2 & (B2 & C2 & I2) & K2).
  split; [split; [done|congruence]|]. split; [intros k; by rewrite V2|]. split; [done|]. split; [split_and!; congruence|]. auto.
Qed.

(** The size by which the interface judges an item. *)
Definition judged_size (e : default_engine) (key : bytes) (nbytes : Z) : Z :=
  u64 (SIZEOF_HASH_ITEM + Z.of_nat (length key) + nbytes + (if use_cas (e_config e) then 8 else 0)).

Definition class_for (n : Z) (s : slabs) : Z := if n == 0 then 0 else first_fit n s.

Definition too_big (e : default_engine) (key : bytes) (nbytes : Z) : bool :=
  (class_for (judged_size e key nbytes) (e_slabs e) == 0) || (item_size_max (e_config e) <? nbytes).

Lemma allocate_spec e M key nbytes flags exptime datatype :
  engine_ok e M -> key_ok e key ->
  exists r e' M', default_item_allocate crc32c uninit realtime key nbytes flags exptime datatype e = Done r e' /\
    engine_next (e_now e) e' M' /\ keeps e M e' M' /\ evicted_some (view e M) (view e' M') /\
    same_setup e e' /\ (forall k, counted e M k -> counted e' M' k) /\
    if too_big e key nbytes then r = (ENGINE_E2BIG, 0) /\ e' = e /\ M' = M
    else r = (ENGINE_ENOMEM, 0) \/
      exists it i, r = (ENGINE_SUCCESS, it) /\ it <> 0 /\ held e' it i /\
        fresh_item (e_config e) (full_key e key) flags (realtime exptime) (u32 nbytes) datatype i /\
        (forall j, in_use e M it j -> overdue e j).
Proof.
  intros Ho Hk. destruct (eo_items _ _ Ho) as [L Hok]. unfold default_item_allocate. run.
  fold (judged_size e key nbytes). set (n := judged_size e key nbytes).
  pose proof (io_largest _ _ _ _ _ Hok) as Hl.
  assert (slabs_clsid_of n e = Done (class_for n (e_slabs e)) e) as Hc.
  { apply slabs_clsid_done; [apply (io_slabs _ _ _ _ _ Hok)|]. unfold POWER_SMALLEST in *. lia. }
  erewrite bind_done by exact Hc. unfold too_big. fold n.
  assert (forall r, r = (ENGINE_E2BIG, 0) -> exists r0 e' M', Done r e = Done r0 e' /\ engine_next (e_now e) e' M' /\ keeps e M e' M' /\
    evicted_some (view e M) (view e' M') /\ same_setup e e' /\ (forall k, counted e M k -> counted e' M' k) /\ r0 = (ENGINE_E2BIG, 0) /\ e' = e /\ M' = M) as Hbig.
  { intros r ->. exists (ENGINE_E2BIG, 0), e, M. split; [done|]. split; [by split|]. split; [apply keeps_refl|]. split; [by left|done]. }
  destruct (class_for n (e_slabs e) == 0); cbn [orb]; [by apply Hbig|].
  destruct (item_size_max (e_config e) <? nbytes); [by apply Hbig|]. unfold item_alloc.
  edestruct (with_key_enter (A := Z) (B := ENGINE_ERROR_CODE * Z) e M key) as (g & L0 & Hrun & Ho0 & Hok0); [done|done|].
  rewrite Hrun. clear Hrun Hbig. set (e0 := e <| e_grants := g |>) in *.
  destruct (do_item_alloc_ok crc32c uninit drift e0 M L0 (full_key e key) flags (realtime exptime) (u32 nbytes) datatype Hok0)
    as (r & e' & M' & Ha & Hro & Hnew); [exact (own_full_key e key)|apply Ho0|].
  erewrite bind_done by exact Ha. pose proof Hro as [HL' Hst _ _].
  eexists _, e', M'. split; [done|]. split; [by eapply engine_ok_step|].
  split; [exact (room_keeps crc32c drift e0 M e' M' Hro)|]. split; [exact (view_room e0 M L0 e' M' Hok0 Hro)|].
  split; [exact (step_setup _ e0 e' Hst)|]. split; [exact (fun k => room_counted e0 M L0 e' M' k Hok0 Hro)|].
  destruct (Z.eqb_spec r 0) as [->|Hr0]; [by left|right]. destruct (Hnew Hr0) as (Htk & i & Hh & Hf).
  exists r, i. split; [done|]. split; [done|]. split; [done|]. split; [exact Hf|]. intros j Hu.
  unfold overdue. destruct (decide (u32 (i_time j + TAIL_REPAIR_TIME) < e_now e)) as [?|Hno]; [done|].
  destruct (in_use_fixed e0 M r j Hu Hno). apply Htk. by eexists; apply Hu.
Qed.

Lemma release_spec e M p i :
  engine_ok e M -> in_use e M p i -> 0 <= i_refcount i ->
  exists e', default_item_release p e = Done tt e' /\ engine_next (e_now e) e' M /\ (forall k, view e' M k = view e M k) /\
    (forall q j, in_use e M q j -> q <> p -> kept M q j e') /\
    (1 < i_refcount i -> exists i', in_use e' M p i' /\ payload i' = payload i /\ i_refcount i' = i_refcount i - 1).
Proof.
  intros Ho Hu Hr. destruct (eo_items _ _ Ho) as [L Hok].
  destruct (release_ok crc32c drift e M L p i Hok Hu Hr) as (e' & Hrel & HL' & Hst & Hca & Hoth & Hself & Hp).
  exists e'. split; [done|]. split; [by eapply engine_ok_step|]. split; [|done]. intros k. unfold view.
  rewrite (full_key_same e e') by apply (step_now _ _ _ Hst). destruct (decide (M !! full_key e k = Some p)) as [HM|HM].
  - destruct (Hp _ HM) as (i' & Hi' & ->). unfold live. rewrite HM. cbn [mbind option_bind]. rewrite Hi', (proj1 Hu).
    cbn [mbind option_bind]. pose proof (step_now _ _ _ Hst) as (En & _ & Ec & _).
    assert (dead e' (drop_ref i) = dead e i) as ->; [|unfold drop_ref; by destruct (dead e i), (i_refcount i == 0)].
    unfold dead, flushed, expired. rewrite En, Ec. unfold drop_ref. by destruct (i_refcount i == 0).
  - eapply live_same; [exact Hok|exact Hst|done|]. congruence.
Qed.

Lemma flush_spec e M :
  engine_ok e M ->
  exists e' M', default_flush crc32c e = Done ENGINE_SUCCESS e' /\ engine_next (e_now e) e' M' /\ keeps e M e' M' /\
    drops e M M' /\ (forall k, view e' M' k = None).
Proof.
  intros [[L Hok] Hf He Hfp].
  destruct (item_flush_expired_ok crc32c uninit drift e M L Hok Hf He Hfp) as (e' & M' & L' & Hrun & Hok' & Hk & Hd & Hl & En & Eb & Es & Hfp').
  exists e', M'. unfold default_flush. erewrite bind_done by exact Hrun. split; [done|]. split.
  { split; [|done]. split; [by exists L'|by rewrite Es|unfold early in *; by rewrite En|done]. }
  split; [done|]. split; [done|]. intros k. unfold view. rewrite (full_key_same e e'), Hl by (done || apply own_full_key). done.
Qed.
End Spec.

(** ** A new engine *)

Definition default_config : config :=
  mk_config true 0 true (64 * 1024 * 1024) false 5 4 48 (1024 * 1024) false true 0 None.

Section Start.
Context (crc32c : bytes -> Z) (parse_config : bytes -> config -> Z * config).

(** The configuration after the parser ran. *)
Definition configuration (cfg_str : option bytes) : Z * config :=
  match cfg_str with Some s => parse_config s default_config | None => (0, default_config) end.

(** The engine before its table and its memory are set up. *)
Definition blank (id : Z) (c : config) (e : default_engine) : default_engine :=
  mk_engine (e_mem e) (e_assoc e)
    (mk_slabs (replicate (Z.to_nat MAX_NUMBER_OF_SLAB_CLASSES) no_class) 0 0 0 0 0 0 [] 0)
    no_items c (mk_engine_stats 0 0 0 0 0) (mk_scrubber 0 0 0 0 false false)
    (if vb0 c then fun v => if v == 0 then 1 else 0 else fun _ => 0) id
    (cas_id e) (e_now e) (e_pages e) (e_grants e) (e_evicting e).

Lemma items_ok_new e :
  represents crc32c e ∅ -> slabs_ok e -> POWER_SMALLEST <= power_largest (e_slabs e) < POWER_LARGEST -> e_items e = no_items ->
  0 <= e_now e -> curr_items (e_stats e) = 0 -> items_ok crc32c (fun _ => 0) e ∅ (fun _ => []).
Proof.
  intros Ht Hs Hl Hi Hn Hc. assert (forall id, 0 <= id < POWER_LARGEST -> (Z.to_nat id < 200)%nat) as Hid by (unfold POWER_LARGEST; lia).
  split; rewrite ?Hi; try done.
  - intros id H%Hid. split; cbn [no_items heads tails]; rewrite ?lookup_replicate_2 by done; done || apply NoDup_nil_2.
  - intros id H%Hid. cbn [no_items sizes]. by rewrite lookup_replicate_2.
  - by intros id p ?%not_elem_of_nil.
Qed.

Lemma represents_table e e' :
  represents crc32c e ∅ -> e_assoc e' = e_assoc e -> e_mem e' = e_mem e -> represents crc32c e' ∅.
Proof. intros Ht Ha Hm. apply (represents_frame crc32c e); [done|done|]. rewrite Hm. apply same_items_refl. Qed.

Lemma configure_run id cfg_str e :
  (default_engine_constructor id;; initalize_configuration parse_config cfg_str) e =
  Done (error_code_of (configuration cfg_str).1) (blank id (configuration cfg_str).2 e).
Proof.
  unfold default_engine_constructor, initalize_configuration, set_vbucket_state, configuration. run.
  destruct cfg_str as [s|]; run; [|done]. esimpl.
  match goal with |- context [parse_config s ?x] => change x with default_config end.
  unfold blank. destruct (vb0 (parse_config s default_config).2) eqn:E; [|done].
  done.
Qed.

Lemma done_state {S A} (a b : A) (s s' : S) : Done a s = Done b s' -> s = s'.
Proof. congruence. Qed.

(** A new table changes nothing else. *)
Lemma assoc_init_frame e r g e' :
  assoc_init None e = Done (r, g) e' ->
  exists a, e' = mk_engine (e_mem e) a (e_slabs e) (e_items e) (e_config e) (e_stats e) (e_scrubber e)
    (vbucket_infos e) (bucket_id e) (cas_id e) (e_now e) (e_pages e)
    (if default false (head (e_grants e)) then tail (tail (e_grants e)) else tail (e_grants e)) (e_evicting e).
Proof.
  unfold assoc_init, assoc_consruct, granted. run. destruct (default false (head (e_grants e))); cbn [negb]; run.
  - esimpl. destruct (default false (head (tail (e_grants e)))); unfold set_assoc; run; intros <-%done_state; by eexists.
  - intros <-%done_state. by eexists.
Qed.

(** The result of the initialisation: the error of the configuration, if there
    is one; out of memory when the table, its buckets, or the block that is
    allocated at the start cannot be had; otherwise success. *)
Definition start_result (cfg_str : option bytes) (e : default_engine) : option ENGINE_ERROR_CODE :=
  let '(err, c) := configuration cfg_str in
  if negb (bool_decide (error_code_of err = Some ENGINE_SUCCESS)) then error_code_of err else
  if negb (table_granted e) then Some ENGINE_ENOMEM else
  if preallocate c && negb (first_block (e <| e_grants := tail (tail (e_grants e)) |>)) then Some ENGINE_ENOMEM
  else Some ENGINE_SUCCESS.

(** C22: the first engine of the process, constructed and initialised with
    whatever configuration the parser yields (one that [config_ok] accepts, with
    the system's memory not yet in use), comes up exactly when the configuration
    was read and the memory for the hash table, its buckets and, if it is to be
    allocated at once, the cache can be had, and reports the error otherwise; it
    never crashes.  When it comes up, and the slab classes do not use up all
    numbers (chunk sizes must grow: see class_beyond_queues), the invariant of
    the engine holds and the cache is empty. *)
Theorem engine_starts id t cfg_str e :
  let c := (configuration cfg_str).2 in
  slabs_new (maxbytes c) (preallocate c) (blank id c e) -> early e -> oldest_live c = 0 ->
  exists e', (default_engine_constructor id;; default_initialize parse_config None t cfg_str) e =
      Done (start_result cfg_str e) e' /\
    (start_result cfg_str e = Some ENGINE_SUCCESS ->
     (exists l, largest_class c = Some l /\ l < POWER_LARGEST) ->
       engine_ok crc32c (fun _ => 0) e' ∅ /\ (forall k, view e' ∅ k = None)).
Proof.
  intros c Hnew He Hol. unfold default_initialize, start_result.
  destruct (bind_inv _ _ _ _ _ (configure_run id cfg_str e)) as ([] & e0 & Hc & Hcf).
  erewrite bind_done by exact Hc. erewrite bind_done by exact Hcf. fold c. set (e1 := blank id c e) in *.
  rewrite (surjective_pairing (configuration cfg_str)). fold c.
  destruct (decide (error_code_of (configuration cfg_str).1 = Some ENGINE_SUCCESS)) as [E|E];
    [rewrite !(bool_decide_eq_true_2 _ E)|rewrite !(bool_decide_eq_false_2 _ E)]; cbn [negb]; [|exists e1; split; [done|congruence]].
  destruct (assoc_init_ok crc32c e1) as (g & e2 & Ha & Hrep). erewrite bind_done by exact Ha. cbn [fst].
  change (table_granted e1) with (table_granted e) in *. destruct (table_granted e) eqn:Etg; cbn [negb].
  2: { rewrite bool_decide_eq_false_2 by done. cbn [negb]. by eexists e2. }
  rewrite bool_decide_eq_true_2 by done. cbn [negb]. run. destruct (assoc_init_frame _ _ _ _ Ha) as (a & He2).
  unfold table_granted in Etg. apply andb_prop in Etg as [Eg _]. change (e_grants e1) with (e_grants e) in He2. rewrite Eg in He2.
  assert (e_config e2 = c) as Ec by (by rewrite He2). rewrite Ec.
  assert (slabs_new (maxbytes c) (preallocate c) e2) as Hnew2.
  { rewrite He2. destruct Hnew as [H1 H2 H3 H4 H5 H6]. by split. }
  destruct (slabs_init_ok t _ _ e2 Hnew2) as (r & e3 & Hs & Hcase). erewrite bind_done by exact Hs. exists e3.
  replace (first_block (e <| e_grants := tail (tail (e_grants e)) |>)) with (first_block e2) by (by rewrite He2).
  destruct Hcase as [[-> ->]|(-> & Hok & Hcl & _ & Hb & Hm & _ & -> & Hlc)]; [done|]. split; [done|].
  intros _ (l & Hl & Hlt). rewrite Ec, Hl in Hlc. injection Hlc as ->.
  unfold beside_slabs in Hb. injection Hb as B1 B2 B3 B4 B5 _ B7 _ B9 _.
  assert (items_ok crc32c (fun _ => 0) e3 ∅ (fun _ => [])) as Hit.
  { apply items_ok_new; [by eapply represents_table|done| | | |].
    - destruct Hcl as [[? _] _]. lia.
    - by rewrite B2, He2.
    - rewrite B9, He2. apply He.
    - by rewrite B4, He2. }
  split; [|intros k; unfold view, live; by rewrite lookup_empty].
  split; [by eexists|by rewrite B5, He2|unfold early; rewrite B9, He2; exact He|left; by rewrite B3, Ec].
Qed.
End Start.

Lemma engine_starts_witness :
  let e := engine_with default_config [0x100000; 0x400000] (replicate 20 true) in
  exists e', (default_engine_constructor 1;; default_initialize (fun _ c => (0, c)) None None None) e =
      Done (Some ENGINE_SUCCESS) e' /\
    engine_ok toy_crc (fun _ => 0) e' ∅ /\ (forall k, view e' ∅ k = None).
Proof.
  intros e. destruct (engine_starts toy_crc (fun _ c => (0, c)) 1 None None e) as (e' & E & H); [|done|done|].
  - split; [by split; cbn|by eexists|done|done| |].
    + repeat split; repeat constructor; unfold apart; cbn; lia.
    + intros r Hr. repeat (apply elem_of_cons in Hr as [->|Hr]; [done|]). by apply not_elem_of_nil in Hr.
  - exists e'. split; [exact E|]. apply H; [reflexivity|]. exists 42. split; [vm_compute; reflexivity|reflexivity].
Defined.

(** ** States of virtual buckets *)

(** The two low bits of the byte are replaced. *)
Lemma bit_field_stored a to : wrap 2 (Z.lor (Z.land a (Z.lnot 3)) (Z.land to 3)) = wrap 2 to.
Proof.
  unfold wrap. rewrite <- !Z.land_ones by done. apply Z.bits_inj'. intros n Hn.
  rewrite !Z.land_spec, Z.lor_spec, !Z.land_spec, Z.lnot_spec by done. change 3 with (Z.ones 2).
  destruct (Z.testbit (Z.ones 2) n), (Z.testbit a n), (Z.testbit to n); done.
Qed.

Lemma swrap_wrap w z : swrap w (wrap w z) = swrap w z.
Proof. unfold swrap, wrap. by rewrite Zplus_mod_idemp_l. Qed.

Lemma valid_states to :
  valid_vbucket_state to = true ->
  to = vbucket_state_active \/ to = vbucket_state_replica \/ to = vbucket_state_pending \/ to = vbucket_state_dead.
Proof. unfold valid_vbucket_state. rewrite !orb_true_iff, !Z.eqb_eq. tauto. Qed.

Lemma set_vbucket_run v to e :
  exists e', set_vbucket_state v to e = Done tt e' /\ e_config e' = e_config e /\
    forall w, vbucket_state e' w = if w == v then u32 (swrap 2 to) else vbucket_state e w.
Proof.
  eexists. split; [done|]. split; [done|]. intros w. unfold vbucket_state. esimpl.
  destruct (w == v); [|done]. rewrite <- swrap_wrap, bit_field_stored. by rewrite swrap_wrap.
Qed.

(** Setting the state of a virtual bucket opens or closes exactly that
    virtual bucket: afterwards it is handled if and only if the state is
    active, and every other one as before. *)
Theorem vbucket_access v to e :
  ignore_vbucket (e_config e) = false -> valid_vbucket_state to = true ->
  exists e', set_vbucket_state v to e = Done tt e' /\
    forall w, handled_vbucket e' w = if w == v then to == vbucket_state_active else handled_vbucket e w.
Proof.
  intros Hi Hv. destruct (set_vbucket_run v to e) as (e' & Hrun & Hc & Hst). exists e'. split; [done|]. intros w.
  unfold handled_vbucket. rewrite Hc, Hi, Hst. cbn [orb]. destruct (w == v); [|done].
  by destruct (valid_states to Hv) as [->|[->|[->| ->]]].
Qed.

Lemma vbucket_access_witness :
  exists e', set_vbucket_state 7 vbucket_state_active small_engine = Done tt e' /\
    forall w, handled_vbucket e' w = if w == 7 then vbucket_state_active == vbucket_state_active else handled_vbucket small_engine w.
Proof. by apply (vbucket_access 7 vbucket_state_active small_engine). Defined.

(** A client that asks for the state of a virtual bucket is told the truth
    about active ones only: the state is kept in two signed bits, so a replica
    reads as 0xfffffffe, a pending one as 0xffffffff and a dead one as 0. *)
Theorem get_vbucket_state_wrong v to e :
  valid_vbucket_state to = true ->
  exists e', set_vbucket_state v to e = Done tt e' /\
    get_vbucket_state v e' =
      Done (if to == vbucket_state_active then vbucket_state_active
            else if to == vbucket_state_replica then 0xfffffffe
            else if to == vbucket_state_pending then 0xffffffff else 0) e'.
Proof.
  intros Hv. destruct (set_vbucket_run v to e) as (e' & Hrun & _ & Hst). exists e'. split; [done|].
  unfold get_vbucket_state, gets. rewrite Hst, Z.eqb_refl.
  by destruct (valid_states to Hv) as [->|[->|[->| ->]]].
Qed.

Lemma get_vbucket_state_wrong_witness :
  exists e', set_vbucket_state 7 vbucket_state_dead small_engine = Done tt e' /\ get_vbucket_state 7 e' = Done 0 e'.
Proof. by apply (get_vbucket_state_wrong 7 vbucket_state_dead small_engine). Defined.
