(* ===== verification/EngineSpec.v ===== *)
(** * The default engine as a cache

    The calls that the server makes on the engine, and the cache they
    implement: a map from keys to entries from which entries may be thrown
    out when memory is wanted.  References to items stay valid. *)

From S2P Require Import Prelude Numbers RecordUpdate StateMonad Protocol Packet EngineApi EngineState Assoc Slabs.
From S2P Require Import Items ItemQueues Cache CacheOps CacheCalls DefaultEngine.

(** ** Calls and the cache *)

Inductive call :=
| Allocate (key : bytes) (nbytes flags exptime datatype : Z)
| Get (key : bytes)
| Store (it : Z) (operation : ENGINE_STORE_OPERATION)
| Delete (key : bytes) (cas : Z)
| Arithmetic (key : bytes) (increment create : bool) (delta initial exptime datatype : Z)
| Release (it : Z)
| Flush.

Inductive answer :=
| Item (r : ENGINE_ERROR_CODE) (it : Z)
| Stored (r : ENGINE_ERROR_CODE) (cas : option Z)
| Code (r : ENGINE_ERROR_CODE)
| Counter (r : ENGINE_ERROR_CODE * Z * Z)
| Nothing.

(** What a call asks of the cache, in terms of keys and entries. *)
Inductive demand :=
| Room
| Look (key : bytes)
| Put (key : bytes) (en : entry) (operation : ENGINE_STORE_OPERATION)
| Remove (key : bytes) (cas : Z)
| Count (key : bytes) (increment create : bool) (delta initial exptime datatype : Z)
| Idle
| Clear
| Pass (t : Z).

(** The cache: how it answers, and what it holds then. *)
Definition cache_step (now : Z) (s : acache) (d : demand) (a : answer) (s' : acache) : Prop :=
  match d, a with
  | Room, Item _ _ => evicted_some s s'
  | Look key, Item r it =>
      (forall k, s' k = s k) /\ r = (match s key with Some _ => ENGINE_SUCCESS | None => ENGINE_KEY_ENOENT end) /\
      (it = 0 <-> s key = None)
  | Put key en operation, Stored r cas =>
      r = cache_store operation (s key) (en_cas en) /\ unchanged key s s' /\
      match cas with
      | Some c => r = ENGINE_SUCCESS /\ s' key = shown now (mk_entry (en_flags en) (en_exptime en) (en_datatype en) (en_data en) c (en_nbytes en))
      | None => r <> ENGINE_SUCCESS /\ s' key = s key
      end
  | Remove key cas, Code r =>
      r = cache_delete (s key) cas /\ unchanged key s s' /\
      s' key = (if bool_decide (r = ENGINE_SUCCESS) then None else s key)
  | Count key incr create delta initial exptime datatype, Counter r =>
      evicted_but key s s' /\ cache_arithmetic (s key) incr create delta initial exptime datatype now r (s' key)
  | Pass t, Nothing => forall k, s' k = s k ≫= shown t
  | Idle, Nothing => forall k, s' k = s k
  | Clear, Code r => r = ENGINE_SUCCESS /\ forall k, s' k = None
  | _, _ => False
  end.

Section Calls.
Context (crc32c : bytes -> Z) (uninit : hash_item -> nat -> Z * bytes) (realtime : Z -> Z) (drift : Z -> Z).
Abbreviation engine_ok := (engine_ok crc32c drift).

Definition run_call (vb : Z) (c : call) : E answer :=
  match c with
  | Allocate key nbytes flags exptime datatype =>
      r <- default_item_allocate crc32c uninit realtime key nbytes flags exptime datatype;; ret (Item r.1 r.2)
  | Get key => r <- default_get crc32c key vb;; ret (Item r.1 r.2)
  | Store it operation => r <- default_store crc32c it operation vb;; ret (Stored r.1 r.2)
  | Delete key cas => r <- default_item_delete crc32c key cas vb;; ret (Code r)
  | Arithmetic key incr create delta initial exptime datatype =>
      r <- default_arithmetic crc32c uninit realtime key incr create delta initial exptime datatype vb;; ret (Counter r)
  | Release it => default_item_release it;; ret Nothing
  | Flush => r <- default_flush crc32c;; ret (Code r)
  end.

(** The demand of a call; the item that is stored is in memory. *)
Definition demand_of (e : default_engine) (c : call) : demand :=
  match c with
  | Allocate _ _ _ _ _ => Room
  | Get key => Look key
  | Store it operation =>
      match e_mem e !! it with
      | Some i => Put (hash_key_get_client_key (i_key i)) (entry_of i) operation
      | None => Idle
      end
  | Delete key cas => Remove key cas
  | Arithmetic key incr create delta initial exptime datatype =>
      Count key incr create delta initial (realtime exptime) datatype
  | Release _ => Idle
  | Flush => Clear
  end.

(** What a client may ask: keys fit, an item that is stored is its own and not
    in the cache, one that is released is in use, and counters of references
    do not overflow. *)
Definition legal (e : default_engine) (M : gmap bytes Z) (c : call) : Prop :=
  match c with
  | Allocate key _ _ _ _ => key_ok e key
  | Get key | Delete key _ => key_ok e key /\ counted e M (full_key e key)
  | Store it _ => exists i, held e it i /\ counted e M (i_key i)
  | Arithmetic key _ _ delta initial _ _ =>
      key_ok e key /\ counted e M (full_key e key) /\ 0 <= delta /\ 0 <= initial < 2 ^ 64
  | Release it => exists i, in_use e M it i /\ 0 <= i_refcount i
  | Flush => True
  end.

(** An item that is given out is in use and holds what it should. *)
Definition given_out (e : default_engine) (M : gmap bytes Z) (c : call) (a : answer) (e' : default_engine) (M' : gmap bytes Z) : Prop :=
  match c, a with
  | Get key, Item ENGINE_SUCCESS it => exists i, in_use e' M' it i /\ view e M key = Some (entry_of i)
  | Allocate key nbytes flags exptime datatype, Item ENGINE_SUCCESS it =>
      exists i, held e' it i /\ fresh_item (e_config e) (full_key e key) flags (realtime exptime) (u32 nbytes) datatype i /\
        forall j, in_use e M it j -> overdue e j
  | _, _ => True
  end.

(** The items in use stay as they are; who gives back one of several
    references leaves the others. *)
Definition refs_kept (e : default_engine) (M : gmap bytes Z) (c : call) (e' : default_engine) (M' : gmap bytes Z) : Prop :=
  match c with
  | Release it => (forall p i, in_use e M p i -> p <> it -> kept M' p i e') /\
      (forall i, in_use e M it i -> 1 < i_refcount i ->
         exists i', in_use e' M' it i' /\ payload i' = payload i /\ i_refcount i' = i_refcount i - 1)
  | _ => keeps e M e' M'
  end.

Lemma client_key_full e k : own e k -> full_key e (hash_key_get_client_key k) = k.
Proof. unfold own, full_key, hash_key_get_client_key. intros <-. apply take_drop. Qed.

Lemma call_ok e M vb c :
  engine_ok e M -> legal e M c -> handled_vbucket e vb = true ->
  exists a e' M', run_call vb c e = Done a e' /\ engine_next crc32c drift (e_now e) e' M' /\
    cache_step (e_now e) (view e M) (demand_of e c) a (view e' M') /\ given_out e M c a e' M' /\ refs_kept e M c e' M'.
Proof.
  intros Ho Hl Hvb. destruct c as [key nbytes flags exptime datatype|key|it op|key cas|key incr create delta initial exptime datatype|it|];
    cbn [run_call legal demand_of] in *.
  - destruct (allocate_spec crc32c uninit realtime drift e M key nbytes flags exptime datatype Ho Hl) as (r & e' & M' & Hrun & Ho' & Hk & Hv & _ & _ & Hr).
    eexists _, e', M'. erewrite bind_done by exact Hrun. split; [done|]. split; [done|]. split; [done|]. split; [|done].
    destruct (too_big e key nbytes); [by destruct Hr as (-> & _)|]. destruct Hr as [->|(it & i & -> & _ & Hh & Hf & Hn)]; [done|]. by exists i.
  - destruct Hl as [Hk Hcnt]. destruct (get_spec crc32c drift e M key vb Ho Hk Hcnt Hvb) as (p & e' & M' & Hrun & Ho' & Hkp & Hv & Hp).
    eexists _, e', M'. erewrite bind_done by exact Hrun. split; [done|]. split; [done|]. cbn [cache_step given_out refs_kept].
    destruct (view e M key) as [en|] eqn:Ev; cbn [fst snd].
    + destruct (Hp en eq_refl) as (Hp0 & i & Hu & He & _). split; [|split; [|done]; exists i; by rewrite He].
      split; [done|]. split; [done|]. split; [by intros|done].
    + split; [|done]. by split.
  - destruct Hl as (i & Hh & Hcnt). pose proof Hh as (Hi & _ & _ & _ & _ & Hown). rewrite Hi.
    set (key := hash_key_get_client_key (i_key i)). pose proof (client_key_full e _ Hown) as Hkey. fold key in Hkey.
    rewrite <- Hkey in Hcnt. destruct (store_spec crc32c drift e M it i key op vb Ho Hh (eq_sym Hkey) Hcnt Hvb)
      as (e' & M' & Hrun & Ho' & Hkp & Hv & Hkey' & _). eexists _, e', M'. erewrite bind_done by exact Hrun.
    split; [done|]. split; [done|]. split; [|done]. cbn [cache_step fst snd entry_of en_cas]. split; [done|]. split; [done|].
    destruct (bool_decide _) eqn:E; [apply bool_decide_eq_true_1 in E|apply bool_decide_eq_false_1 in E]; by split.
  - destruct Hl as [Hk Hcnt]. destruct (delete_spec crc32c drift e M key cas vb Ho Hk Hcnt Hvb) as (e' & M' & Hrun & Ho' & Hkp & Hv & Hv').
    eexists _, e', M'. erewrite bind_done by exact Hrun. by split_and!.
  - destruct Hl as (Hk & Hcnt & Hd & Hi).
    destruct (arithmetic_spec crc32c uninit realtime drift e M key incr create delta initial exptime datatype vb Ho Hk Hcnt Hvb Hd Hi)
      as (r & e' & M' & Hrun & Ho' & Hkp & Hv & Hr). eexists _, e', M'. erewrite bind_done by exact Hrun. by split_and!.
  - destruct Hl as (i & Hu & Hr). destruct (release_spec crc32c drift e M it i Ho Hu Hr) as (e' & Hrun & Ho' & Hv & Hoth & Hself).
    eexists _, e', M. erewrite bind_done by exact Hrun. split; [done|]. split; [done|]. split; [done|]. split; [done|]. split; [done|].
    intros j Hj Hr'. pose proof (proj1 Hj) as E. rewrite (proj1 Hu) in E. apply (inj Some) in E as <-. by apply Hself.
  - destruct (flush_spec crc32c uninit drift e M Ho) as (e' & M' & Hrun & Ho' & Hk & Hd & Hv).
    eexists _, e', M'. erewrite bind_done by exact Hrun. by split_and!.
Qed.

(** ** Runs

    Besides the calls, time passes and clients fill the items they were
    given. *)
Inductive event :=
| Request (vb : Z) (c : call)
| Tick (t : Z)
| Fill (it : Z) (data : bytes).

Definition occurs (ev : event) : E answer :=
  match ev with
  | Request vb c => run_call vb c
  | Tick t => modify (fun e => e <| e_now := t |>);; ret Nothing
  | Fill it data => write_item it (fun i => i <| i_data := data |>);; ret Nothing
  end.

Definition allowed (e : default_engine) (M : gmap bytes Z) (ev : event) : Prop :=
  match ev with
  | Request vb c => legal e M c /\ handled_vbucket e vb = true
  | Tick t => e_now e <= t /\ t + TAIL_REPAIR_TIME < 2 ^ 32
  | Fill it data => exists i, held e it i /\ length data = length (i_data i)
  end.

Definition event_demand (e : default_engine) (ev : event) : demand :=
  match ev with Request _ c => demand_of e c | Tick t => Pass t | Fill _ _ => Idle end.

(** The run of some events, with what was asked and answered at each. *)
Fixpoint exec (evs : list event) : E (list (Z * demand * answer)) :=
  match evs with
  | [] => ret []
  | ev :: evs =>
      e <- the_engine;;
      a <- occurs ev;;
      l <- exec evs;;
      ret ((e_now e, event_demand e ev, a) :: l)
  end.

(** Every event is allowed when it comes. *)
Fixpoint admissible (evs : list event) (e : default_engine) : Prop :=
  match evs with
  | [] => True
  | ev :: evs =>
      (exists M, engine_ok e M /\ allowed e M ev) /\ forall a e', occurs ev e = Done a e' -> admissible evs e'
  end.

Fixpoint cache_run (s : acache) (l : list (Z * demand * answer)) (s' : acache) : Prop :=
  match l with
  | [] => forall k, s' k = s k
  | (now, d, a) :: l => exists s1, cache_step now s d a s1 /\ cache_run s1 l s'
  end.

(** The event neither gives back nor fills the item. *)
Definition spares (p : Z) (ev : event) : Prop :=
  match ev with Request _ (Release it) | Fill it _ => it <> p | _ => True end.

Definition event_time (e : default_engine) (ev : event) : Z := match ev with Tick t => t | _ => e_now e end.

Lemma tick_ok e M t :
  engine_ok e M -> e_now e <= t -> t + TAIL_REPAIR_TIME < 2 ^ 32 ->
  let e' := e <| e_now := t |> in
  engine_ok e' M /\ (forall k, view e' M k = view e M k ≫= shown t) /\ keeps e M e' M.
Proof.
  intros [[L Hok] Hf [He1 He2] Hfp] Ht Hr e'. split; [|split].
  - split; [exists L|done|split; [cbn; lia|done]|].
    + by apply (items_ok_beside crc32c drift e).
    + unfold flush_past in *. cbn. lia.
  - intros k. unfold view. change (full_key e' k) with (full_key e k). unfold live.
    destruct (M !! full_key e k) as [p|] eqn:HM; [|done]. cbn [mbind option_bind]. change (e_mem e') with (e_mem e).
    destruct (table_item _ _ _ _ _ _ _ Hok HM) as (i & -> & _). cbn [mbind option_bind].
    assert (flushed e' i = flushed e i) as E.
    { unfold flushed. cbn. unfold flush_past in Hfp. destruct Hfp as [->|Hlt]; [done|].
      by rewrite (proj2 (Z.leb_le _ (e_now e))), (proj2 (Z.leb_le _ t)) by lia. }
    unfold dead. rewrite E. destruct (flushed e i); [done|]. cbn [orb]. unfold expired, shown. change (e_now e') with t.
    destruct (i_exptime i == 0) eqn:E0; cbn [negb andb mbind option_bind fmap option_fmap option_map entry_of en_exptime]; [by rewrite E0|].
    destruct (Z.leb_spec (i_exptime i) (e_now e)); [by rewrite (proj2 (Z.leb_le _ t)) by lia|].
    cbn [mbind option_bind fmap option_fmap option_map entry_of en_exptime]. rewrite E0. by destruct (_ <=? t).
  - intros p i Hu _ _. exists i. split; [exact Hu|]. split; [done|]. split; [lia|by left].
Qed.

Lemma fill_ok e M it i data :
  engine_ok e M -> held e it i ->
  let e' := e <| e_mem := <[it := i <| i_data := data |>]> (e_mem e) |> in
  engine_ok e' M /\ (forall k, view e' M k = view e M k) /\ (forall p j, p <> it -> in_use e M p j -> kept M p j e').
Proof.
  intros Ho Hh. set (i' := i <| i_data := data |>). intros e'.
  destruct (held_filled crc32c drift e M it i i' Ho Hh) as ([Ho' _] & Hv & _); [done|]. split; [done|]. split; [done|].
  intros p j Hne Hu _. exists j. split; [|split; [done|split; [lia|by left]]]. unfold in_use in *.
  unfold own in *. rewrite (chunk_of_same e e'), (is_free_same e e') by done. cbn. by rewrite lookup_insert_ne.
Qed.

Lemma event_ok e M ev :
  engine_ok e M -> allowed e M ev ->
  exists a e' M', occurs ev e = Done a e' /\ engine_next crc32c drift (event_time e ev) e' M' /\
    cache_step (e_now e) (view e M) (event_demand e ev) a (view e' M') /\
    forall p i, spares p ev -> in_use e M p i -> ~ overdue e i -> kept M' p i e'.
Proof.
  intros Ho Ha. destruct ev as [vb c|t|it data]; cbn [occurs allowed event_demand event_time] in *.
  - destruct (call_ok e M vb c Ho (proj1 Ha) (proj2 Ha)) as (a & e' & M' & Hrun & Hn & Hs & _ & Hk).
    exists a, e', M'. split; [done|]. split; [done|]. split; [done|]. intros p i Hsp Hu Hod.
    destruct c; try exact (Hk p i Hu Hod). cbn in Hsp. apply Hk; [done|congruence].
  - destruct (tick_ok e M t Ho (proj1 Ha) (proj2 Ha)) as (Ho' & Hv & Hk). eexists _, _, M. split; [done|].
    split; [by split|]. split; [done|]. intros p i _. apply Hk.
  - destruct Ha as (i & Hh & _). destruct (fill_ok e M it i data Ho Hh) as (Ho' & Hv & Hk). eexists _, _, M.
    erewrite bind_done by (apply write_item_done, Hh). split; [done|]. split; [by split|]. split; [done|].
    intros p j Hsp Hu _. apply Hk; [congruence|done].
Qed.

Lemma exec_cons ev evs e a e1 :
  occurs ev e = Done a e1 -> exec (ev :: evs) e = bind (exec evs) (fun l => ret ((e_now e, event_demand e ev, a) :: l)) e1.
Proof. intros H. cbn [exec]. unfold the_engine. run. change (Datatypes.id e) with e. by erewrite bind_done by exact H. Qed.

Lemma engine_map e M M' : engine_ok e M -> engine_ok e M' -> M = M'.
Proof.
  intros H H'. destruct (eo_items _ _ _ _ H) as [L HL], (eo_items _ _ _ _ H') as [L' HL'].
  eapply represents_unique; [apply (io_table _ _ _ _ _ HL)|apply (io_table _ _ _ _ _ HL')].
Qed.

(** C3: Every run of the engine is a run of a cache. Started in a state that
    satisfies the invariant, whatever sequence of allocations, reads, stores,
    deletions, arithmetic, releases and flushes clients make, with time passing
    and items being filled in between, every call returns, the invariant holds
    at the end, and each answer and the contents afterwards are those of a map
    from keys to entries in which allocations may throw entries out. *)
Theorem default_engine_refines e M evs :
  engine_ok e M -> admissible evs e ->
  exists l e' M', exec evs e = Done l e' /\ length l = length evs /\ engine_ok e' M' /\ cache_run (view e M) l (view e' M').
Proof.
  revert e M. induction evs as [|ev evs IH]; intros e M Ho Hadm; [by exists [], e, M|].
  destruct Hadm as [(M1 & Ho1 & Hal) Hnext]. rewrite (engine_map e M1 M) in Hal by done.
  destruct (event_ok e M ev Ho Hal) as (a & e1 & M1' & Hoc & [Ho' _] & Hs & _).
  destruct (IH e1 M1' Ho' (Hnext a e1 Hoc)) as (l & e2 & M2 & Hex & Hlen & Ho2 & Hr).
  eexists _, e2, M2. rewrite (exec_cons _ _ _ _ _ Hoc). erewrite bind_done by exact Hex. split; [done|].
  split; [by cbn; f_equal|]. split; [done|]. by eexists.
Qed.

Lemma event_time_mono e M ev : allowed e M ev -> e_now e <= event_time e ev.
Proof. destruct ev; cbn; [done|intros []|done]. lia. Qed.

(** A run of several events is the first event and the rest. *)
Lemma exec_inv e M ev evs l e' :
  engine_ok e M -> admissible (ev :: evs) e -> exec (ev :: evs) e = Done l e' ->
  exists e1 M1 l', engine_next crc32c drift (event_time e ev) e1 M1 /\ e_now e <= e_now e1 /\ admissible evs e1 /\
    exec evs e1 = Done l' e' /\ forall p i, spares p ev -> in_use e M p i -> ~ overdue e i -> kept M1 p i e1.
Proof.
  intros Ho [(M1 & Ho1 & Hal) Hnext] Hex. rewrite (engine_map e M1 M) in Hal by done.
  destruct (event_ok e M ev Ho Hal) as (a & e1 & M1' & Hoc & Hn & _ & Hk).
  rewrite (exec_cons _ _ _ _ _ Hoc) in Hex. apply bind_inv in Hex as (l' & e2 & Hex & Hret). injection Hret as _ <-.
  exists e1, M1', l'. split; [done|]. split; [rewrite (proj2 Hn); by eapply event_time_mono|]. by eauto.
Qed.

Lemma exec_time e M evs l e' : engine_ok e M -> admissible evs e -> exec evs e = Done l e' -> e_now e <= e_now e'.
Proof.
  revert e M l. induction evs as [|ev evs IH]; intros e M l Ho Hadm Hex; [by injection Hex as _ <-|].
  destruct (exec_inv e M ev evs l e' Ho Hadm Hex) as (e1 & M1 & l' & [Ho1 _] & Ht & Hadm1 & Hex1 & _).
  etransitivity; [exact Ht|by eapply IH].
Qed.

Lemma not_overdue e i : early e -> 0 <= i_time i <= e_now e -> e_now e <= i_time i + TAIL_REPAIR_TIME -> ~ overdue e i.
Proof. intros [_ He] Ht Hl. unfold overdue, TAIL_REPAIR_TIME in *. rewrite u32_small; lia. Qed.

(** C4: A reference stays valid until it is given back. An item that is in use
    is, at the end of any run in which it is neither released nor filled and
    in which fewer than three hours pass, still in its memory with the value,
    flags, data type and key it had; no other call frees or reuses it, even
    when the key is deleted, replaced or evicted. *)
Theorem references_safe e M evs p i l e' :
  engine_ok e M -> admissible evs e -> in_use e M p i -> 0 < i_refcount i -> 0 <= i_time i <= e_now e -> Forall (spares p) evs ->
  exec evs e = Done l e' -> e_now e' <= i_time i + TAIL_REPAIR_TIME ->
  exists M' i', engine_ok e' M' /\ in_use e' M' p i' /\ payload i' = payload i /\ i_refcount i <= i_refcount i'.
Proof.
  revert e M i l. induction evs as [|ev evs IH]; intros e M i l Ho Hadm Hu Hr Ht Hsp Hex Hlate.
  { injection Hex as <- <-. by exists M, i. }
  apply Forall_cons in Hsp as [Hsp Hsps]. pose proof (exec_time e M _ l e' Ho Hadm Hex) as Hend.
  destruct (exec_inv e M ev evs l e' Ho Hadm Hex) as (e1 & M1 & l' & [Ho1 _] & Ht1 & Hadm1 & Hex1 & Hk).
  destruct (Hk p i Hsp Hu) as (i1 & Hu1 & Hp1 & Hr1 & Htime); [|lia|].
  { apply not_overdue; [apply Ho|done|lia]. }
  pose proof (exec_time e1 M1 _ l' e' Ho1 Hadm1 Hex1). pose proof (proj1 (eo_early _ _ _ _ Ho1)).
  destruct (IH e1 M1 i1 l' Ho1 Hadm1 Hu1) as (M' & i' & Ho' & Hu' & Hp' & Hr'); try done; try lia.
  exists M', i'. split; [done|]. split; [done|]. split; [congruence|lia].
Qed.
End Calls.

(** ** A small engine

    An engine with pages of 4 KB in which a key is stored, read and deleted. *)

Definition cache_config : config := mk_config true 0 true 0 false 5 4 48 4096 true true 0 None.
Definition cache_engine : default_engine :=
  after (slabs_init None 1048576 false) (engine_with cache_config [65536; 131072; 196608] (replicate 20 true)).

Definition no_uninit (i : hash_item) (n : nat) : Z * bytes := (0, replicate n Byte.x00).
Definition same_time (t : Z) : Z := t.
Abbreviation toy_ok := (engine_ok toy_crc (fun _ => 0)).
Abbreviation toy_occurs := (occurs toy_crc no_uninit same_time).
Abbreviation toy_exec := (exec toy_crc no_uninit same_time).
Abbreviation toy_admissible := (admissible toy_crc no_uninit same_time (fun _ => 0)).

Lemma cache_engine_new : slabs_new 1048576 false (engine_with cache_config [65536; 131072; 196608] (replicate 20 true)).
Proof.
  split; [by split; cbn| by exists []|done|done| |].
  - repeat split; repeat constructor; unfold apart; cbn; lia.
  - intros r Hr. repeat (apply elem_of_cons in Hr as [->|Hr]; [done|]). by apply not_elem_of_nil in Hr.
Qed.

Lemma cache_engine_ok : toy_ok cache_engine ∅.
Proof.
  assert (slabs_ok cache_engine) as Hs.
  { destruct (slabs_init_ok None 1048576 false _ cache_engine_new) as (r & e' & Hrun & [[_ ?]|(_ & Hok & _)]); [done|].
    unfold cache_engine, after. by rewrite Hrun. }
  split; [exists (fun _ => [])|done|done|by left].
  apply items_ok_new; [by apply (represents_new _ _ 2)|exact Hs|by vm_compute|done|done|done].
Qed.

Definition toy_key : bytes := text "k".

(** The references to a key can be counted in the memory. *)
Lemma counted_found crc32c drift e M k q :
  DefaultEngine.engine_ok crc32c drift e M -> assoc_find (crc32c k) k e = Done q e ->
  from_option (fun i => (0 <=? i_refcount i) && (i_refcount i <? 65535)) true (e_mem e !! q) = true -> counted e M k.
Proof.
  intros Ho Hf Hr p i HM Hi. destruct (eo_items _ _ _ _ Ho) as [L Hok].
  rewrite (assoc_find_ok crc32c e M k (io_table _ _ _ _ _ Hok)), HM in Hf. injection Hf as <-. rewrite Hi in Hr. cbn in Hr. lia.
Qed.

Lemma admissible_cons e M ev evs :
  toy_ok e M -> allowed e M ev ->
  (forall M', toy_ok (after (toy_occurs ev) e) M' -> toy_admissible evs (after (toy_occurs ev) e)) ->
  toy_admissible (ev :: evs) e.
Proof.
  intros Ho Hal Hnext. split; [by exists M|]. intros a e' Hoc.
  destruct (event_ok toy_crc no_uninit same_time (fun _ => 0) e M ev Ho Hal) as (a1 & e1 & M1 & Hoc1 & [Ho1 _] & _).
  unfold after in Hnext. rewrite Hoc in Hoc1, Hnext. injection Hoc1 as <- <-. by eapply Hnext.
Qed.

(** The engine after an item was allocated in it. *)
Definition toy_alloc : default_engine := after (toy_occurs (Request 0 (Allocate toy_key 1 0 0 0))) cache_engine.
Definition toy_item : Z := 65536.
Definition toy_events : list event :=
  [Request 0 (Store toy_item OPERATION_SET); Request 0 (Get toy_key); Tick 5; Request 0 (Delete toy_key 0); Request 0 Flush].

Definition answer_of {A} (r : outcome default_engine A) : option A := match r with Done a _ => Some a | _ => None end.

(** What an allocation that succeeds leaves behind. *)
Lemma allocated e M key nbytes it :
  toy_ok e M -> key_ok e key -> handled_vbucket e 0 = true ->
  answer_of (toy_occurs (Request 0 (Allocate key nbytes 0 0 0)) e) = Some (Item ENGINE_SUCCESS it) ->
  let e' := after (toy_occurs (Request 0 (Allocate key nbytes 0 0 0))) e in
  exists M' i, toy_ok e' M' /\ held e' it i /\ i_key i = full_key e key /\ i_refcount i = 1.
Proof.
  intros Ho Hk Hvb Ha. destruct (call_ok toy_crc no_uninit same_time (fun _ => 0) e M 0 (Allocate key nbytes 0 0 0) Ho Hk Hvb)
    as (a & e1 & M1 & Hrun & [Ho1 _] & _ & Hg & _).
  cbn [occurs] in *. unfold after. rewrite Hrun in Ha |- *. injection Ha as ->.
  destruct Hg as (i & Hh & (Hki & _ & _ & _ & _ & Hr & _) & _). by exists M1, i.
Qed.

Lemma toy_key_ok e : key_ok e toy_key.
Proof. split; [by vm_compute|intros H; by vm_compute in H]. Qed.

Lemma toy_alloc_ok :
  exists M i, toy_ok toy_alloc M /\ held toy_alloc toy_item i /\ i_key i = full_key cache_engine toy_key /\ i_refcount i = 1.
Proof. exact (allocated cache_engine ∅ toy_key 1 toy_item cache_engine_ok (toy_key_ok _) ltac:(by vm_compute) ltac:(by vm_compute)). Qed.

Lemma toy_admissible_events : toy_admissible toy_events toy_alloc.
Proof.
  destruct toy_alloc_ok as (M & i & Ho & Hh & Hk & _).
  apply (admissible_cons _ M); [done|split; [|by vm_compute]|].
  { exists i. split; [done|]. rewrite Hk. by apply (counted_found toy_crc (fun _ => 0) _ _ _ 0); [done|vm_compute|vm_compute]. }
  set (e1 := after _ toy_alloc). intros M1 Ho1. apply (admissible_cons _ M1); [done|split; [split|by vm_compute]|].
  { apply toy_key_ok. }
  { by apply (counted_found toy_crc (fun _ => 0) _ _ _ toy_item); [done|vm_compute|vm_compute]. }
  set (e2 := after _ e1). intros M2 Ho2. apply (admissible_cons _ M2); [done|by vm_compute|].
  set (e3 := after _ e2). intros M3 Ho3. apply (admissible_cons _ M3); [done|split; [split|by vm_compute]|].
  { apply toy_key_ok. }
  { by apply (counted_found toy_crc (fun _ => 0) _ _ _ toy_item); [done|vm_compute|vm_compute]. }
  set (e4 := after _ e3). intros M4 Ho4. by apply (admissible_cons _ M4); [done|split; [|vm_compute]|].
Qed.

Lemma default_engine_refines_witness :
  exists M l e' M', toy_exec toy_events toy_alloc = Done l e' /\ length l = length toy_events /\ toy_ok e' M' /\
    cache_run (view toy_alloc M) l (view e' M').
Proof.
  destruct toy_alloc_ok as (M & i & Ho & _). exists M.
  exact (default_engine_refines toy_crc no_uninit same_time (fun _ => 0) toy_alloc M toy_events Ho toy_admissible_events).
Defined.

Definition toy_end : default_engine := after (toy_exec toy_events) toy_alloc.

Lemma run_ends {A} (m : E A) e : bool_decide (is_Some (answer_of (m e))) = true -> exists a, m e = Done a (after m e).
Proof. unfold after. destruct (m e) as [a e'| |]; [by exists a|done|done]. Qed.

Lemma toy_run_ends : exists l, toy_exec toy_events toy_alloc = Done l toy_end.
Proof. exact (run_ends (toy_exec toy_events) toy_alloc ltac:(by vm_compute)). Qed.

Lemma toy_times : 0 <= 0 <= e_now toy_alloc.
Proof. split; [done|]. by apply Z.leb_le; vm_compute. Qed.

Lemma toy_late : e_now toy_end <= 0 + TAIL_REPAIR_TIME.
Proof. by apply Z.leb_le; vm_compute. Qed.

(** The item that was allocated outlives its key. *)
Lemma references_safe_witness :
  exists M' i', toy_ok toy_end M' /\ in_use toy_end M' toy_item i' /\ 1 <= i_refcount i'.
Proof.
  destruct toy_alloc_ok as (M & i & Ho & Hh & _ & Hr), toy_run_ends as [l Hl].
  assert (i_time i = 0) as Ht.
  { pose proof (proj1 Hh) as Hi. assert (i_time <$> e_mem toy_alloc !! toy_item = Some 0) as E by (by vm_compute).
    rewrite Hi in E. by injection E. }
  destruct (references_safe toy_crc no_uninit same_time (fun _ => 0) toy_alloc M toy_events toy_item i l toy_end Ho toy_admissible_events)
    as (M' & i' & Ho' & Hu' & _ & Hr').
  - apply held_in_use; [done|lia].
  - lia.
  - rewrite Ht. exact toy_times.
  - by repeat constructor.
  - exact Hl.
  - rewrite Ht. exact toy_late.
  - exists M', i'. rewrite Hr in Hr'. exact (conj Ho' (conj Hu' Hr')).
Defined.
