(* ===== verification/EngineFindings.v ===== *)
(** * Virtual buckets, and what the default engine does not do

    Access to virtual buckets, and behaviours of the engine that differ from
    what its interface suggests, on the small engine of [EngineSpec]. *)

From S2P Require Import Prelude Memory Numbers RecordUpdate StateMonad Protocol Packet EngineApi EngineState Assoc Slabs.
From S2P Require Import Items ItemQueues Cache CacheOps CacheCalls DefaultEngine EngineSpec.

(** ** Virtual buckets *)

(** The answer to a call on a virtual bucket that is not active. *)
Definition refusal (c : call) : option answer :=
  match c with
  | Get _ => Some (Item ENGINE_NOT_MY_VBUCKET 0)
  | Store _ _ => Some (Stored ENGINE_NOT_MY_VBUCKET None)
  | Delete _ _ => Some (Code ENGINE_NOT_MY_VBUCKET)
  | Arithmetic _ _ _ _ _ _ _ => Some (Counter (ENGINE_NOT_MY_VBUCKET, 0, 0))
  | _ => None
  end.

Lemma guard_refuses {A} vb (bad : ENGINE_ERROR_CODE -> A) m e :
  handled_vbucket e vb = false -> vbucket_guard vb bad m e = Done (bad ENGINE_NOT_MY_VBUCKET) e.
Proof. intros H. unfold vbucket_guard, the_engine. run. change (Datatypes.id e) with e. by rewrite H. Qed.

(** A request for another virtual bucket. *)
Definition in_vbucket (vb : Z) (req : packet) : packet :=
  let h := header req in
  mk_packet (mk_request_header (magic h) (opcode h) (keylen h) (extlen h) (datatype h) (htons vb) (bodylen h)
    (opaque h) (cas h)) (body req).

(** The commands that change an expiry time. *)
Definition touches (req : packet) : bool :=
  existsb (fun c => opcode (header req) == cmd_value c)
    [PROTOCOL_BINARY_CMD_TOUCH; PROTOCOL_BINARY_CMD_GAT; PROTOCOL_BINARY_CMD_GATQ].

Lemma touch_run crc32c realtime now sent req :
  touches req = true ->
  default_unknown_command crc32c realtime now sent req =
    (r <- touch crc32c realtime req;;
     ret (if match r with Some r => sent r | None => true end then ENGINE_SUCCESS else ENGINE_FAILED, r)).
Proof.
  unfold touches, default_unknown_command. cbn [existsb]. rewrite orb_false_r, !orb_true_iff, !Z.eqb_eq.
  by intros [->|[->| ->]].
Qed.

(** The commands of an administrator: a virtual bucket gets a state, or is
    removed. *)
Definition vb_request (change : Z * option Z) : packet :=
  match change with
  | (vb, Some to) =>
      mk_packet (mk_request_header PROTOCOL_BINARY_REQ (cmd_value PROTOCOL_BINARY_CMD_SET_VBUCKET) 0 0 0 (htons vb) (htonl 4) 0 0)
        (be_store 4 to)
  | (vb, None) =>
      mk_packet (mk_request_header PROTOCOL_BINARY_REQ (cmd_value PROTOCOL_BINARY_CMD_DEL_VBUCKET) 0 0 0 (htons vb) 0 0 0) []
  end.

Definition change_ok (change : Z * option Z) : Prop :=
  0 <= change.1 < 2 ^ 16 /\ match change.2 with Some to => valid_vbucket_state to = true | None => True end.

Fixpoint administer (crc32c : bytes -> Z) (realtime : Z -> Z) (now : Z) (sent : reply -> bool) (l : list (Z * option Z)) : E unit :=
  match l with
  | [] => ret tt
  | change :: l => default_unknown_command crc32c realtime now sent (vb_request change);; administer crc32c realtime now sent l
  end.

(** Whether a virtual bucket is active after the commands: what the last one
    that names it says. *)
Definition active_after (l : list (Z * option Z)) (vb : Z) (before : bool) : bool :=
  fold_left (fun a change =>
    if vb == change.1 then match change.2 with Some to => to == vbucket_state_active | None => false end else a) l before.

Lemma vb_request_run crc32c realtime now sent change e :
  change_ok change ->
  exists r, default_unknown_command crc32c realtime now sent (vb_request change) e =
    match set_vbucket_state change.1 (default vbucket_state_dead change.2) e with
    | Done _ e' => Done r e'
    | Throw e' => Throw e'
    | Crash => Crash
    end.
Proof.
  destruct change as [vb [to|]]; cbn [change_ok fst snd default]; intros [Hvb Hto].
  - assert (ntohs (htons vb) = vb) as Evb by (by apply (bswap_involutive 2)).
    destruct (valid_states to Hto) as [->|[->|[->| ->]]]; eexists; unfold default_unknown_command, set_vbucket, bind;
      cbn -[set_vbucket_state htons ntohs]; by rewrite Evb.
  - assert (ntohs (htons vb) = vb) as Evb by (by apply (bswap_involutive 2)).
    eexists. unfold default_unknown_command, rm_vbucket, bind. cbn -[set_vbucket_state htons ntohs]. by rewrite Evb.
Qed.

Lemma administer_run crc32c realtime now sent l e :
  ignore_vbucket (e_config e) = false -> Forall change_ok l ->
  exists e', administer crc32c realtime now sent l e = Done tt e' /\
    forall vb, handled_vbucket e' vb = active_after l vb (handled_vbucket e vb).
Proof.
  intros Hi Hl. revert e Hi. induction Hl as [|change l Hc _ IH]; intros e Hi; [by exists e|]. cbn [administer].
  destruct (vb_request_run crc32c realtime now sent change e Hc) as [r Hr].
  destruct (set_vbucket_run change.1 (default vbucket_state_dead change.2) e) as (e1 & H1 & Hc1 & Hs1). rewrite H1 in Hr.
  destruct (IH e1) as (e' & H2 & Hv); [by rewrite Hc1|]. exists e'. erewrite bind_done by exact Hr. split; [exact H2|].
  intros vb. rewrite Hv. unfold active_after. cbn [fold_left]. f_equal. unfold handled_vbucket. rewrite Hc1, Hi, Hs1. cbn [orb].
  destruct (vb == change.1); [|done]. destruct Hc as [_ Hc]. destruct change.2 as [to|]; [|done]. cbn [default].
  by destruct (valid_states to Hc) as [->|[->|[->| ->]]].
Qed.


(** An engine that looks at the state of its virtual buckets; one is opened and
    closed again, another opened. *)
Definition guarded_engine : default_engine :=
  toy_alloc <| e_config := small_config |>.

Definition guarded_changes : list (Z * option Z) := [(7, Some vbucket_state_active); (8, Some vbucket_state_active); (7, None)].


(** ** Behaviours that surprise *)

(** A text that is no number is stored and the allocation's reference given
    back; then a client counts. *)
Definition leak_events : list event :=
  [Request 0 (Store toy_item OPERATION_SET); Request 0 (Release toy_item);
   Request 0 (Arithmetic toy_key true false 1 0 0 0)].

(** Arithmetic on an item that holds no number answers ENGINE_EINVAL but
    never gives back the reference it took: nobody holds the item, yet its
    count is one, so it is never freed when its key is deleted. *)
Theorem arithmetic_leaks_reference :
  exists l e', toy_exec leak_events toy_alloc = Done l e' /\ last l.*2 = Some (Counter (ENGINE_EINVAL, 0, 0)) /\
    i_refcount <$> e_mem e' !! toy_item = Some 1 /\
    i_refcount <$> e_mem (after (toy_exec (take 2 leak_events)) toy_alloc) !! toy_item = Some 0.
Proof.
  destruct (run_ends (toy_exec leak_events) toy_alloc ltac:(by vm_compute)) as [l Hl].
  exists l, (after (toy_exec leak_events) toy_alloc). split; [exact Hl|].
  assert (answer_of (toy_exec leak_events toy_alloc) = Some l) as Ha by (by rewrite Hl).
  split; [|split; by vm_compute].
  assert ((fun l => last l.*2) <$> answer_of (toy_exec leak_events toy_alloc) = Some (Some (Counter (ENGINE_EINVAL, 0, 0)))) as Hv
    by (by vm_compute).
  rewrite Ha in Hv. by apply (inj Some) in Hv.
Qed.

(** Classes whose size grows by one percent (the [float] is 8472494 / 2^23). *)
Definition slow_config : config := mk_config true 0 true 0 false 8472494 8388608 48 4096 true true 0 None.
Definition slow_engine : default_engine :=
  after (slabs_init None 1048576 false) (engine_with slow_config [65536; 131072; 196608] (replicate 20 true)).

(** With a growth factor of 1.01 the rounded chunk size never grows, all
    classes are used up and the last one has number 200; the queues of items
    have 200 entries, so allocating an item that needs this class reads behind
    them. *)
Theorem class_beyond_queues :
  power_largest (e_slabs slow_engine) = POWER_LARGEST /\ length (heads (e_items slow_engine)) = Z.to_nat POWER_LARGEST /\
  toy_occurs (Request 0 (Allocate toy_key 200 0 0 0)) slow_engine = Crash.
Proof. split_and!; by vm_compute. Qed.

(** The size that default_item_allocate judges leaves out the internal
    key: a value that fills the largest class is answered with ENGINE_ENOMEM,
    as if memory had run out, although it can never be stored. *)
Theorem allocate_too_big_enomem :
  answer_of (toy_occurs (Request 0 (Allocate toy_key 4028 0 0 0)) cache_engine) = Some (Item ENGINE_ENOMEM 0).
Proof. by vm_compute. Qed.

(** The count of references has 16 bits: when 65535 references to an item are
    held, the next read makes it look unused. *)
Theorem references_wrap :
  i_refcount <$> e_mem (after (
    toy_occurs (Request 0 (Store toy_item OPERATION_SET));;
    write_item toy_item (fun i => i <| i_refcount := 65535 |>);;
    toy_occurs (Request 0 (Get toy_key))) toy_alloc) !! toy_item = Some 0.
Proof. by vm_compute. Qed.

(** A scrubber that ran for some time is reported to have run for almost 2^64
    seconds: the time it stopped is subtracted from the time it started. *)
Theorem scrub_last_run_negative started ran visited cleaned running force :
  0 < started -> 0 < ran < 2 ^ 64 -> started + ran < 2 ^ 64 ->
  (text "scrubber:last_run", print_u64 (2 ^ 64 - ran))
    ∈ scrub_stats (mk_scrubber visited cleaned started (started + ran) running force).
Proof.
  intros Hs Hr Hb. unfold scrub_stats. cbn [scrub_started scrub_stopped scrub_running EngineState.visited EngineState.cleaned].
  rewrite (proj2 (Z.eqb_neq started 0)), (proj2 (Z.eqb_neq (started + ran) 0)) by lia. cbn [negb app].
  replace (u64 (started - (started + ran))) with (2 ^ 64 - ran); [set_solver|].
  replace (started - (started + ran)) with (- ran) by lia. unfold wrap. symmetry.
  symmetry. apply (Zmod_unique _ _ (-1)); lia.
Qed.

(** A request to set the expiry time of [toy_key] in virtual bucket 7. *)
Definition touch_request : packet :=
  mk_packet (mk_request_header PROTOCOL_BINARY_REQ PROTOCOL_BINARY_CMD_TOUCH (htons 1) 4 0 (htons 7) (htonl 5) 0 0)
    (be_store 4 100 ++ toy_key).

(** The engine in which [toy_key] was stored, checking virtual buckets. *)
Definition touched_engine : default_engine :=
  (after (toy_exec (take 1 toy_events)) toy_alloc) <| e_config := small_config |>.

(** TOUCH, GAT and GATQ do not look at the virtual bucket: the expiry time
    of an item is changed through a virtual bucket that the engine does not
    handle, where every other access is refused. *)
Theorem touch_unguarded :
  handled_vbucket touched_engine 7 = false /\
  answer_of (default_unknown_command toy_crc same_time 0 (fun _ => true) touch_request touched_engine) =
    Some (ENGINE_SUCCESS, Some (status_reply PROTOCOL_BINARY_RESPONSE_SUCCESS)) /\
  i_exptime <$> e_mem touched_engine !! toy_item = Some 0 /\
  i_exptime <$> e_mem (after (default_unknown_command toy_crc same_time 0 (fun _ => true) touch_request) touched_engine) !! toy_item
    = Some 100.
Proof. split_and!; by vm_compute. Qed.
