(* ===== verification/Service.v ===== *)
(** * The server with the default engine

    Requests in the read buffer of a connection, executed on the default
    engine: what is sent back, and what the cache holds then. *)

From S2P Require Import Prelude Memory Numbers Protocol Packet Input Output Buffers DynamicBuffer RecordUpdate StateMonad.
From S2P Require Import Connection Response Validators Privileges Dispatch EngineApi Executors ExecutorSpec.
From S2P Require Import EngineState Assoc Slabs Items ItemQueues Cache CacheOps CacheCalls DefaultEngine EngineSpec.

(** ** Requests that are executed *)

(** A request that passes the checks, on a connection that can respond. *)
Record accepted `{System} `{Engine} `{Bucket} (p : packet) (cm : protocol_binary_command) (c : connection) : Prop := {
  ac_request : request_in_buffer p c;
  ac_opcode : opcode (header p) = cmd_value cm;
  ac_cmd : cmd c = cmd_value cm;
  ac_access : access cm c = Ok;
  ac_fits : nkey p + extlen (header p) <= nbody p;
  ac_format : exists fm, command_format cm = Some fm /\ conforms fm p = true;
  ac_aiostat : aiostat c = ENGINE_SUCCESS;
  ac_respond : can_respond c;
  ac_buffer : 0 < buf (write c);
}.

(** The reply to a request for a key that holds an entry. *)
Definition entry_reply (c : connection) (key : bytes) (en : entry) : bytes :=
  let body := le_store 4 (en_flags en) ++ (if wants_key (cmd c) then key else []) ++ en_data en in
  response_wire (opcode (bheader c)) (if wants_key (cmd c) then size key else 0) 4
    (if supports_datatype c then en_datatype en else PROTOCOL_BINARY_RAW_BYTES) 0 (size body)
    (opaque (bheader c)) (en_cas en) ++ body.

(** The memory that a response to a read shows. *)
Definition item_regions (it : Z) (i : hash_item) : list (Z * bytes) :=
  inf_key (info_of it i) :: inf_value (info_of it i).

(** All the data of an entry is there. *)
Definition full_entry (en : entry) : Prop := size (en_data en) = en_nbytes en.

Lemma info_reply c key it i : hit_reply c key (info_of it i) = entry_reply c key (entry_of i).
Proof. unfold hit_reply, entry_reply, get_body. cbn. by rewrite app_nil_r. Qed.

Lemma info_describes key it i e :
  i_key i = full_key e key -> full_entry (entry_of i) -> describes key (info_of it i).
Proof.
  intros Hk Hf. split; cbn; [rewrite Hk; apply drop_app_length'; by rewrite le_store_length|].
  rewrite app_nil_r. by symmetry.
Qed.

Lemma item_regions_payload it i i' : payload i' = payload i -> item_regions it i' = item_regions it i.
Proof.
  unfold payload. intros [= E1 E2 E3 E4 E5 E6 E7]. unfold item_regions, info_of, item_get_data, key_storage. cbn.
  by rewrite E1, E4, E5, E7.
Qed.

(** Key and data follow each other. *)
Lemma item_regions_apart it i e key : i_key i = full_key e key -> regions_apart (item_regions it i).
Proof.
  intros Hk. unfold item_regions. cbn. split; [|done]. constructor; [|done]. right. cbn.
  unfold item_get_data, hash_key_get_client_key, full_key in *. rewrite Hk, drop_app_length' by (by rewrite le_store_length).
  unfold size. rewrite length_app, le_store_length. lia.
Qed.

Section Service.
Context (crc32c : bytes -> Z) (uninit : hash_item -> nat -> Z * bytes) (realtime : Z -> Z) (drift : Z -> Z).
Context `{System} `{Engine} `{Bucket} `{Services}.
Context (Hmax : 1 <= iov_max) (Hm : memory_available).
#[local] Instance engine_v1 : EngineV1 default_engine := default_engine_v1 crc32c uninit realtime.
Abbreviation engine_ok := (engine_ok crc32c drift).
Abbreviation engine_next := (engine_next crc32c drift).

(** The executor of the command runs. *)
Lemma accepted_runs p cm c x e ex m :
  accepted p cm c -> executors (cmd_value cm) = Some ex ->
  run_executor_of ex (bytes_of_packet p) = Some m -> process_packet (mk_world c x e) = m (mk_world c x e).
Proof.
  intros [Hr Hop _ Ha Hf (fm & Hfm & Hc) _ _ _] Hex Hm'. unfold process_packet.
  pose proof (choose_executor_spec p cm fm c Hr Hop Hfm) as E.
  rewrite Ha, (proj2 (Z.leb_le _ _) Hf), Hc, Hex in E. next E. cbn beta iota. by rewrite Hm'.
Qed.

Definition is_get (cm : protocol_binary_command) : bool :=
  match cm with
  | PROTOCOL_BINARY_CMD_GET | PROTOCOL_BINARY_CMD_GETQ | PROTOCOL_BINARY_CMD_GETK | PROTOCOL_BINARY_CMD_GETKQ => true
  | _ => false
  end.

Definition quiet_get (cm : protocol_binary_command) : bool :=
  match cm with PROTOCOL_BINARY_CMD_GETQ | PROTOCOL_BINARY_CMD_GETKQ => true | _ => false end.

(** ** Reading *)

Lemma get_runs p cm c x e :
  accepted p cm c -> is_get cm = true ->
  process_packet (mk_world c x e) = process_bin_get (mk_world (c <| noreply := quiet_get cm |>) x e).
Proof.
  intros Hac Hg. rewrite (accepted_runs p cm c x e Dispatch.get_executor Executors.get_executor Hac); [|by destruct cm|done].
  unfold Executors.get_executor. run. rewrite (ac_cmd _ _ _ Hac). by destruct cm.
Qed.

Lemma get_key p cm c b :
  accepted p cm c -> is_get cm = true ->
  binary_get_key (c <| noreply := b |>) = Done (body p) (c <| noreply := b |>).
Proof.
  intros Hac Hg. set (c1 := c <| noreply := b |>). destruct (ac_format _ _ _ Hac) as (fm & Hfm & Hc).
  assert (request_in_buffer p c1) as Hr.
  { destruct (ac_request _ _ _ Hac) as [Hb Hh Hp]. split; [|done|done]. unfold packet_bytes in *.
    change (bheader c1) with (bheader c). change (inp c1) with (inp c). by destruct (load _ _ _); [injection Hb as ->|]. }
  assert (extlen (header p) = 0 /\ nvalue p = 0) as [He Hv].
  { unfold conforms in Hc. destruct cm; try done; injection Hfm as <-; cbn [fm_extras fm_value existsb present] in Hc; lia. }
  rewrite (binary_get_key_ok p c1 Hr); [by rewrite He|]. unfold no_value, nvalue in *. lia.
Qed.

(** C5: A read over the wire. A request for a key (GET, GETQ, GETK or GETKQ)
    that passes the checks is answered from the default engine: if the cache
    holds an entry under the key, the bytes sent are the header with the status
    of success, the lengths, the CAS value and the datatype of the entry, its
    flags, the key if it was asked for and the data; the connection keeps a
    reference to the item, which holds this entry, until all was sent. If not,
    a quiet request is not answered, and others are told so. The contents of
    the cache stay as they are, as do the items others use. *)
Theorem get_served p cm c x e M :
  let key := body p in
  accepted p cm c -> is_get cm = true -> map_engine_quiet -> text_in_memory PROTOCOL_BINARY_RESPONSE_KEY_ENOENT c ->
  engine_ok e M -> key_ok e key -> counted e M (full_key e key) -> handled_vbucket e (vbucket (bheader c)) = true ->
  (forall en, view e M key = Some en -> full_entry en /\ (supports_datatype c = true \/ is_compressed (en_datatype en) = false)) ->
  (forall it i, M !! full_key e key = Some it -> e_mem e !! it = Some i -> Forall (apart_from (buf (write c)) 28) (item_regions it i)) ->
  let c0 := c <| noreply := quiet_get cm |> in
  exists c' e' M', process_packet (mk_world c x e) = Done tt (mk_world c' x e') /\
    engine_next (e_now e) e' M' /\ keeps e M e' M' /\ (forall k, view e' M' k = view e M k) /\
    match view e M key with
    | Some en => exists it i, get_sent it (entry_reply c0 key en) c0 c' /\ in_use e' M' it i /\ entry_of i = en
    | None => answered (miss_reply c0 key) c0 c'
    end.
Proof.
  intros key Hac Hg Hq Ht Ho Hk Hcnt Hvb Hen Hap c0. rewrite (get_runs p cm) by done. fold c0.
  pose proof (get_key p cm c (quiet_get cm) Hac Hg) as Hkey. fold c0 key in Hkey.
  assert (can_respond c0) as Hc0 by (by destruct (ac_respond _ _ _ Hac); split).
  destruct (get_spec crc32c drift e M key (vbucket (bheader c)) Ho Hk Hcnt Hvb) as (it & e' & M' & Hrun & Hn & Hkp & Hv & Hp).
  pose proof (ac_buffer _ _ _ Hac) as Hb. pose proof (ac_aiostat _ _ _ Hac) as Ha.
  change (engine_get key (vbucket (bheader c0)) e = Done (match view e M key with Some _ => (ENGINE_SUCCESS, it) | None => (ENGINE_KEY_ENOENT, 0) end) e') in Hrun.
  destruct (view e M key) as [en|] eqn:Ev.
  - destruct (Hp en eq_refl) as (Hit & i & Hu & <- & i0 & HM & Hi0 & Hk0 & Hpl). destruct (Hen _ eq_refl) as [Hf Hs].
    assert (i_key i = full_key e key) as Hki by (rewrite <- Hk0; exact (f_equal (fun '(_, _, _, k, _, _, _) => k) Hpl)).
    assert (engine_get_item_info it iov_max e' = Done (Some (info_of it i)) e') as Ei.
    { cbn. unfold get_item_info. erewrite bind_done by (apply deref_done, Hu). by rewrite (proj2 (Z.ltb_ge _ _)) by lia. }
    pose proof (Hap it i0 HM Hi0) as Hap0. rewrite <- (item_regions_payload it i0 i Hpl) in Hap0.
    destruct (process_bin_get_hit Hmax Hm c0 x e key it (info_of it i) e' e' Hkey Ha Hc0 Hb Hrun Ei
      (info_describes key it i e Hki Hf) (item_regions_apart it i e key Hki) Hap0 Hs) as (c' & E & Hsent).
    exists c', e', M'. rewrite info_reply in Hsent. by eauto 10.
  - destruct (process_bin_get_miss Hmax Hm c0 x e key 0 e' Hkey Ha Hc0 Hb Hq Ht Hrun) as (c' & E & Hans). by eauto 10.
Qed.

(** ** Storing *)

(** The datatype a new value gets: that of the request, or JSON where the
    client does not know about datatypes and the value is JSON. *)
Definition value_datatype (c : connection) (p : packet) : Z :=
  if supports_datatype c then u8 (datatype (header p))
  else match json_validate (set_value p) with
       | Some true => PROTOCOL_BINARY_DATATYPE_JSON
       | _ => u8 (datatype (header p))
       end.

(** The entry a request asks to store; its CAS value is that of the request. *)
Definition new_entry (e : default_engine) (c : connection) (p : packet) : entry :=
  mk_entry (u32 (set_flags p)) (u32 (realtime (set_expiration p))) (value_datatype c p) (set_value p)
    (if use_cas (e_config e) then ntohll (cas (header p)) else 0) (size (set_value p)).

Lemma blit_all (bs m : bytes) : length m = length bs -> blit 0 bs m = bs.
Proof. intros Hl. unfold blit. cbn. rewrite drop_ge by (unfold size; lia). by rewrite app_nil_r. Qed.

(** The item that is filled for the request. *)
Definition filled_item (c : connection) (p : packet) (i : hash_item) : hash_item :=
  (if has_flag ITEM_WITH_CAS i then i <| i_cas := ntohll (cas (header p)) |> else i)
    <| i_data := set_value p |> <| i_datatype := value_datatype c p |>.

Lemma filled_entry e c p i exptime :
  fresh_item (e_config e) (full_key e (set_key p)) (set_flags p) exptime (u32 (size (set_value p))) (datatype (header p)) i ->
  size (set_value p) < 2 ^ 32 -> exptime = realtime (set_expiration p) ->
  entry_of (filled_item c p i) = new_entry e c p /\ i_key (filled_item c p i) = full_key e (set_key p) /\
  i_refcount (filled_item c p i) = 1.
Proof.
  intros (Fk & Ff & Fe & Fn & Fd & Fr & Fl & _) Hs ->. pose proof (size_nonneg (set_value p)) as Hp.
  rewrite wrap_idem, u32_small in Fn by lia.
  assert (has_flag ITEM_WITH_CAS i = use_cas (e_config e)) as Hc by (unfold has_flag; rewrite Fl; by destruct (use_cas _)).
  unfold filled_item, entry_of, new_entry, item_get_cas. rewrite Hc.
  destruct (use_cas (e_config e)) eqn:Eu; cbn [i_flags i_exptime i_datatype i_nbytes i_data i_cas i_key i_refcount set_field];
    (split; [|done]); unfold has_flag; cbn; rewrite ?Fl, ?Ff, ?Fe, ?Fn; f_equal; apply take_ge; unfold size; lia.
Qed.

(** The datatype is marked where it must be. *)
Lemma mark_item c p e M it i :
  engine_ok e M -> it <> 0 -> held e it i -> i_datatype i = u8 (datatype (header p)) ->
  supports_datatype c = true \/ json_validate (set_value p) <> None ->
  exists e', marked c it (set_value p) e e' /\ refilled crc32c drift e M it (i <| i_datatype := value_datatype c p |>) e'.
Proof.
  intros Ho Hne Hh Hd Hj. unfold marked, value_datatype.
  assert (refilled crc32c drift e M it (i <| i_datatype := u8 (datatype (header p)) |>) e) as Hsame.
  { rewrite <- Hd. replace (i <| i_datatype := i_datatype i |>) with i by (by destruct i). by split_and!. }
  destruct (supports_datatype c); [by exists e|]. destruct (json_validate (set_value p)) as [json|]; [|by destruct Hj].
  destruct json; [|exists e; split; [by exists false|done]].
  eexists. split; [exists true; split; [done|]; exists true|by apply (held_filled crc32c drift e M it i)].
  cbn. unfold set_item_info. rewrite (proj2 (Z.eqb_neq _ _) Hne). by erewrite bind_done by (apply write_item_done, Hh).
Qed.

Lemma prepare_item c p e M it i :
  engine_ok e M -> it <> 0 -> held e it i ->
  i_nbytes i = size (set_value p) -> length (i_data i) = length (set_value p) -> i_datatype i = u8 (datatype (header p)) ->
  supports_datatype c = true \/ json_validate (set_value p) <> None ->
  exists i2 e2 e4 e5, item_set_cas it (ntohll (cas (header p))) e = Done tt e2 /\
    get_item_info it 1 e2 = Done (Some (info_of it i2)) e2 /\ payload i2 = payload i /\
    write_value it 0 (set_value p) e2 = Done tt e4 /\ marked c it (set_value p) e4 e5 /\
    refilled crc32c drift e M it (filled_item c p i) e5.
Proof.
  intros Ho Hne Hh Hn Hl Hd Hj.
  set (i2 := if has_flag ITEM_WITH_CAS i then i <| i_cas := ntohll (cas (header p)) |> else i).
  set (e2 := e <| e_mem := <[it := i2]> (e_mem e) |>).
  assert (refilled crc32c drift e M it i2 e2) as R2 by (apply (held_filled crc32c drift e M it i); [done|done|by subst i2; destruct (has_flag _ _)]).
  pose proof R2 as ([Ho2 _] & _ & Hh2 & _). set (i4 := i2 <| i_data := set_value p |>).
  set (e4 := e2 <| e_mem := <[it := i4]> (e_mem e2) |>).
  assert (refilled crc32c drift e2 M it i4 e4) as R4 by (by apply (held_filled crc32c drift e2 M it i2)).
  pose proof R4 as ([Ho4 _] & _ & Hh4 & _).
  assert (i_nbytes i2 = size (set_value p) /\ length (i_data i2) = length (set_value p) /\ i_datatype i2 = u8 (datatype (header p)))
    as (En & El & Ed) by (subst i2; by destruct (has_flag _ _)).
  assert (write_value it 0 (set_value p) e2 = Done tt e4) as Ew.
  { unfold write_value. erewrite bind_done by (apply deref_done, Hh2). rewrite En.
    rewrite (proj2 (Z.leb_le (size (set_value p)) (size (i_data i2)))) by (unfold size; lia).
    rewrite (proj2 (Z.leb_le (0 + size (set_value p)) (size (set_value p)))) by lia. cbn [Z.leb Z.compare andb].
    erewrite write_item_done by apply Hh2. by rewrite blit_all. }
  destruct (mark_item c p e4 M it i4 Ho4 Hne Hh4 Ed Hj) as (e5 & Hk & R5). exists i2, e2, e4, e5.
  split; [by apply item_set_cas_done, Hh|].
  split; [unfold get_item_info; by erewrite bind_done by (apply deref_done, Hh2)|].
  split; [subst i2; by destruct (has_flag _ _)|]. split; [exact Ew|]. split; [exact Hk|].
  eapply refilled_trans; [exact R2|]. eapply refilled_trans; [exact R4|exact R5].
Qed.

Definition recas (en : entry) (cas : Z) : entry :=
  mk_entry (en_flags en) (en_exptime en) (en_datatype en) (en_data en) cas (en_nbytes en).

(** The mutation in the response; the engine has none. *)
Definition set_extras (c : connection) : bytes := extras_of c (mk_mutation 0 0).

(** A cache [s] was asked to store an entry: what it holds then, and the
    reply. *)
Definition store_answered (now : Z) (s : acache) (key : bytes) (en : entry) (op : ENGINE_STORE_OPERATION)
    (s' : acache) (c c' : connection) : Prop :=
  let r := cache_store op (s key) (en_cas en) in
  unchanged key s s' /\
  if bool_decide (r = ENGINE_SUCCESS) then
    exists cas, s' key = shown now (recas en cas) /\
      answered (success_reply c cas (set_extras c)) (c <| response_cas := cas |>) c'
  else s' key = s key /\ answered (error_reply c (store_status op r)) c c'.

(** An item overlaps no static text. *)
Definition spares_texts (it : Z) (i : hash_item) : Prop :=
  forall err, Forall (apart_from (status_text err) (Z.of_nat (String.length (memcached_status_2_text err)))) (item_regions it i).

Lemma cache_store_told op old cas :
  cache_store op old cas = ENGINE_SUCCESS \/ told (cache_store op old cas).
Proof. destruct op, old; cbn; try case_match; (by left) || (by right). Qed.

(** The reply to a store, and the item that is there then. *)
Lemma store_replied p op c c2 x e0 e M it i r :
  map_engine_quiet -> can_respond c2 -> 0 < buf (write c2) -> item c2 = it ->
  in_use e M it i -> i_key i = full_key e0 (set_key p) ->
  r = ENGINE_SUCCESS \/ (told r /\ text_in_memory (store_status op r) c2) ->
  (noreply c2, cmd c2, bheader c2, supports_mutation_extras c2) = (noreply c, cmd c, bheader c, supports_mutation_extras c) ->
  (r <> ENGINE_SUCCESS -> response_cas c2 = response_cas c) ->
  exists c', respond_store op r (mk_world c2 x e) = Done true (mk_world c' x e) /\
    answered (if bool_decide (r = ENGINE_SUCCESS) then success_reply c (response_cas c2) (set_extras c)
              else error_reply c (store_status op r)) c2 c'.
Proof.
  intros Hq Hc Hw Hit Hu Hk Hr [= E1 E2 E3 E4] Ecas. unfold success_reply, error_reply, set_extras, extras_of. rewrite <- E1, <- E2, <- E3, <- E4.
  destruct Hr as [->|[Ht Htx]].
  - rewrite bool_decide_eq_true_2 by done. destruct (supports_mutation_extras c2) eqn:Ex; [|by apply respond_success].
    apply (respond_mutation Hmax Hm op c2 x e (info_of it i) e Hc Hw Ex); [|by eapply item_regions_apart].
    rewrite Hit. cbn. unfold get_item_info. by erewrite bind_done by (apply deref_done, Hu).
  - rewrite bool_decide_eq_false_2 by apply Ht. rewrite <- Ecas by apply Ht. by apply respond_error.
Qed.

Lemma texts_kept it i h c c1 :
  texts_in_memory c -> spares_texts it i -> memory c1 = h -> write c1 = write c ->
  (forall a n, Forall (apart_from a n) (item_regions it i) -> fetch h a n = fetch (memory c) a n) -> texts_in_memory c1.
Proof.
  intros Ht Hs Em Ew Hh err. destruct (Ht err) as [H1' H2']. unfold text_in_memory. rewrite Em, Ew. split; [|done].
  by rewrite Hh.
Qed.

(** A request whose value is to be stored, on a connection without an item. *)
Record storing (p : packet) (c : connection) : Prop := {
  so_complete : packet_complete p;
  so_extlen : extlen (header p) = 8;
  so_fits : nkey p + 8 <= nbody p;
  so_aiostat : aiostat c = ENGINE_SUCCESS;
  so_item : item c = 0;
  so_respond : can_respond c;
  so_buffer : 0 < buf (write c);
  so_texts : texts_in_memory c;
  so_json : supports_datatype c = true \/ json_validate (set_value p) <> None;
}.

(** The engine after the allocation for the request. *)
Record item_allocated (p : packet) (e : default_engine) (e1 : default_engine) (M1 : gmap bytes Z) (it : Z) (i : hash_item) : Prop := {
  al_run : default_item_allocate crc32c uninit realtime (set_key p) (size (set_value p)) (set_flags p) (set_expiration p)
      (datatype (header p)) e = Done (ENGINE_SUCCESS, it) e1;
  al_ok : engine_ok e1 M1;
  al_null : it <> 0;
  al_held : held e1 it i;
  al_setup : same_setup e e1;
  al_fresh : fresh_item (e_config e) (full_key e (set_key p)) (set_flags p) (realtime (set_expiration p))
      (u32 (size (set_value p))) (datatype (header p)) i;
  al_texts : spares_texts it i;
}.

Lemma set_prepared p c x e e1 M1 it i :
  storing p c -> item_allocated p e e1 M1 it i ->
  exists h t e5 i5, allocate_item ENGINE_SUCCESS (header p) (bytes_of_packet p) (mk_world c x e) =
      Done (Some ENGINE_SUCCESS) (mk_world (with_item it h t c) x e5) /\
    refilled crc32c drift e1 M1 it i5 e5 /\ entry_of i5 = new_entry e c p /\ i_key i5 = full_key e (set_key p) /\
    i_refcount i5 = 1 /\ texts_in_memory (with_item it h t c).
Proof.
  intros [Hp He Hf Ha Hi Hc Hw Htx Hj] [Hal Ho1 Hne Hh Hset Hfr Hsp].
  assert (size (set_value p) < 2 ^ 32) as Hsz.
  { pose proof (pc_body p Hp). pose proof (nbody_range p). unfold size, set_value. rewrite length_drop. lia. }
  pose proof (size_nonneg (set_value p)) as Hnn.
  pose proof Hfr as (Fk & _ & _ & Fn & Fd & _ & _ & Fl). rewrite wrap_idem, u32_small in Fn by lia.
  rewrite wrap_idem, u32_small in Fl by lia. unfold size in Fl at 1. rewrite Nat2Z.id in Fl.
  destruct (filled_entry e c p i _ Hfr Hsz eq_refl) as (Een & Eki & Erc).
  destruct (prepare_item c p e1 M1 it i Ho1 Hne Hh Fn Fl Fd Hj) as (i2 & e2 & e4 & e5 & E2 & Ei & Hpl & E4 & Hk & Hre).
  assert (i_key i2 = i_key i) as Ek2 by exact (f_equal (fun '(_, _, _, k, _, _, _) => k) Hpl).
  destruct (allocate_item_ok (H := engine_v1) p c x e it (info_of it i2) (item_get_data it i2, take (Z.to_nat (i_nbytes i2)) (i_data i2))
    e1 e2 e2 e4 e5 Hp He Hf Hal E2 Ei) as (h & t & Eal & Hh'); [|done| |exact E4|exact Hk|].
  { eapply item_regions_apart. by rewrite Ek2. }
  { assert (i_nbytes i2 = i_nbytes i /\ i_data i2 = i_data i) as [-> ->] by (unfold payload in Hpl; by injection Hpl).
    cbn [snd]. rewrite Fn. unfold size. rewrite length_take. lia. }
  exists h, t, e5, (filled_item c p i). do 5 (split; [done|]).
  eapply texts_kept; [exact Htx|exact Hsp|done|done|]. intros a n. rewrite <- (item_regions_payload it i i2 Hpl). apply Hh'.
Qed.

(** With a new item, the value is stored and answered. *)
Lemma set_stored p op c x e e1 M1 it i :
  let key := set_key p in
  storing p c -> item_allocated p e e1 M1 it i -> map_engine_quiet -> ewouldblock c = false ->
  counted e1 M1 (full_key e key) -> handled_vbucket e (ntohs (vbucket (header p))) = true ->
  exists c' e' M', add_set_replace_executor op (bytes_of_packet p) (mk_world c x e) = Done tt (mk_world c' x e') /\
    engine_next (e_now e1) e' M' /\ item c' = 0 /\
    store_answered (e_now e1) (view e1 M1) key (new_entry e c p) (operation_of p op) (view e' M') c c'.
Proof.
  intros key Hst Hal Hq Hew Hcnt Hvb. pose proof (al_setup _ _ _ _ _ _ Hal) as (Eb & Ecf & Evb).
  destruct (set_prepared p c x e e1 M1 it i Hst Hal) as (h & t & e5 & i5 & Eal & Hre & Een & Eki & Erc & Htx).
  destruct Hre as ([Ho5 En5] & Hv5 & Hh5 & (Eb5 & Ecf5 & Evb5) & Hcnt5).
  assert (forall k, full_key e5 k = full_key e k) as Efk by (intros k; unfold full_key; by rewrite Eb5, Eb).
  assert (handled_vbucket e5 (ntohs (vbucket (header p))) = true) as Hvb5.
  { unfold handled_vbucket, vbucket_state in *. by rewrite Ecf5, Ecf, Evb5, Evb. }
  destruct (store_spec crc32c drift e5 M1 it i5 key (operation_of p op) (ntohs (vbucket (header p))) Ho5 Hh5)
    as (e6 & M6 & Est & [Ho6 En6] & _ & Hun & Hky & Hkept); [by rewrite Efk|rewrite Efk; by apply Hcnt5|done|]. cbv zeta in Est, Hky.
  change (item_get_cas i5) with (en_cas (entry_of i5)) in Est, Hky. rewrite Een, Hv5 in Est, Hky.
  set (r := cache_store (operation_of p op) (view e1 M1 key) (en_cas (new_entry e c p))) in *.
  destruct (Hkept ltac:(lia)) as (i6 & Hu6 & Hpl6 & Hr6 & _). set (cas := if bool_decide (r = ENGINE_SUCCESS) then new_cas e5 i5 else response_cas c).
  assert (i_key i6 = full_key e (set_key p)) as Ek6.
  { rewrite <- Eki. exact (f_equal (fun '(_, _, _, k, _, _, _) => k) Hpl6). }
  set (c1 := with_item it h t c) in *. set (c2 := if bool_decide (r = ENGINE_SUCCESS) then c1 <| response_cas := cas |> else c1).
  destruct (release_spec crc32c drift e6 M6 it i6 Ho6 Hu6 ltac:(lia)) as (e7 & Erl & [Ho7 En7] & Hv7 & _).
  destruct Hst as [Hp He Hf Ha Hi Hc Hw _ _].
  assert (can_respond c2) as Hc2 by (destruct Hc; subst c2 c1; by destruct (bool_decide _); split).
  destruct (store_replied p (operation_of p op) c c2 x e e6 M6 it i6 r) as (c3 & Ers & Hans); try done.
  { subst c2 c1. by destruct (bool_decide _). }
  { subst c2 c1. by destruct (bool_decide _). }
  { destruct (cache_store_told (operation_of p op) (view e1 M1 key) (en_cas (new_entry e c p))) as [E|E]; [by left|right].
    split; [done|]. subst c2. rewrite bool_decide_eq_false_2 by apply E. apply Htx. }
  { subst c2 c1. by destruct (bool_decide _). }
  { intros Hr. subst c2. by rewrite bool_decide_eq_false_2. }
  assert (engine_store it (response_cas c) (operation_of p op) (ntohs (vbucket (header p))) e5 = Done (r, cas) e6) as Est'.
  { cbn. erewrite bind_done by exact Est. cbn. unfold cas. by destruct (bool_decide _). }
  destruct (store_item_done p op c x e it h t r cas e5 e6 e6 e7 _ Hp He Hf Ha Hew Hi Eal Est' (ex_intro _ c3 (conj Ers Hans)) Erl)
    as (c' & Erun & Hit & Han).
  exists c', e7, M6. split; [exact Erun|]. split; [split; [done|congruence]|]. split; [done|].
  unfold store_answered. fold r. split; [intros k Hk; rewrite Hv7, <- Hv5; by apply Hun|]. rewrite Hv7, Hky.
  subst c2. destruct (bool_decide (r = ENGINE_SUCCESS)) eqn:Er.
  - exists cas. split; [unfold cas; rewrite <- Een; by rewrite En5|]. eapply answered_from; [|..|exact Han]; [|done].
    unfold beside. cbn. by rewrite Hi.
  - split; [done|]. eapply answered_from; [|..|exact Han]; [|done]. unfold beside. cbn. by rewrite Hi.
Qed.

Definition store_command (cm : protocol_binary_command) : option (bool * ENGINE_STORE_OPERATION) :=
  match cm with
  | PROTOCOL_BINARY_CMD_SET => Some (false, OPERATION_SET)
  | PROTOCOL_BINARY_CMD_SETQ => Some (true, OPERATION_SET)
  | PROTOCOL_BINARY_CMD_ADD => Some (false, OPERATION_ADD)
  | PROTOCOL_BINARY_CMD_ADDQ => Some (true, OPERATION_ADD)
  | PROTOCOL_BINARY_CMD_REPLACE => Some (false, OPERATION_REPLACE)
  | PROTOCOL_BINARY_CMD_REPLACEQ => Some (true, OPERATION_REPLACE)
  | _ => None
  end.

Lemma set_runs p cm q op c x e :
  accepted p cm c -> store_command cm = Some (q, op) ->
  process_packet (mk_world c x e) = add_set_replace_executor op (bytes_of_packet p) (mk_world (c <| noreply := q |>) x e).
Proof.
  intros Hac Hs.
  assert (exists ex, executors (cmd_value cm) = Some ex /\
    run_executor_of ex (bytes_of_packet p) = Some (store_executor q op (bytes_of_packet p))) as (ex & Hex & Hr)
    by (destruct cm; try done; injection Hs as <- <-; by eexists).
  by rewrite (accepted_runs p cm c x e ex _ Hac Hex Hr).
Qed.

Lemma set_storing p cm c q op :
  accepted p cm c -> store_command cm = Some (q, op) -> item c = 0 -> texts_in_memory c ->
  supports_datatype c = true \/ json_validate (set_value p) <> None -> storing p (c <| noreply := q |>).
Proof.
  intros Hac Hs Hi Ht Hj. destruct (ac_format _ _ _ Hac) as (fm & Hfm & Hc).
  assert (extlen (header p) = 8) as He.
  { unfold conforms in Hc. destruct cm; try done; injection Hfm as <-; cbn [fm_extras existsb] in Hc; lia. }
  pose proof (ac_fits _ _ _ Hac). destruct (ac_respond _ _ _ Hac).
  split; try done; [apply (ac_request _ _ _ Hac)|lia|apply (ac_aiostat _ _ _ Hac)|apply (ac_buffer _ _ _ Hac)].
Qed.

(** C6: A write over the wire. A request to set, add or replace a value that
    passes the checks is answered from the default engine. Either there is no
    item for it and the client is told that the value is too large or that
    memory is short; or the value is stored, or refused, as the operation, the
    CAS value of the request and the entry under the key demand: then the key
    holds the value with its flags, expiration and datatype and a new CAS value,
    which the reply carries, or what it held, and the reply has the status of
    the refusal. Other keys keep their entries but those thrown out for the
    item, and the connection gives its reference back. *)
Theorem set_served p cm q op c x e M :
  let key := set_key p in
  accepted p cm c -> store_command cm = Some (q, op) -> map_engine_quiet -> texts_in_memory c ->
  item c = 0 -> ewouldblock c = false -> supports_datatype c = true \/ json_validate (set_value p) <> None ->
  engine_ok e M -> key_ok e key -> counted e M (full_key e key) -> handled_vbucket e (ntohs (vbucket (header p))) = true ->
  (forall it i e1, default_item_allocate crc32c uninit realtime key (size (set_value p)) (set_flags p) (set_expiration p)
     (datatype (header p)) e = Done (ENGINE_SUCCESS, it) e1 -> e_mem e1 !! it = Some i -> spares_texts it i) ->
  let c0 := c <| noreply := q |> in
  exists c' e' M' s, process_packet (mk_world c x e) = Done tt (mk_world c' x e') /\
    engine_next (e_now e) e' M' /\ item c' = 0 /\ evicted_some (view e M) s /\
    ((exists r, r = (if too_big e key (size (set_value p)) then ENGINE_E2BIG else ENGINE_ENOMEM) /\
       s = view e' M' /\ answered (error_reply c0 (engine_error_2_mcbp_protocol_error r)) c0 c') \/
     store_answered (e_now e) s key (new_entry e c p) (operation_of p op) (view e' M') c0 c').
Proof.
  intros key Hac Hs Hq Ht Hi Hew Hj Ho Hk Hcnt Hvb Hsp c0. rewrite (set_runs p cm q op c x e Hac Hs). fold c0.
  pose proof (set_storing p cm c q op Hac Hs Hi Ht Hj) as Hst. fold c0 in Hst.
  destruct (allocate_spec crc32c uninit realtime drift e M key (size (set_value p)) (set_flags p) (set_expiration p) (datatype (header p)) Ho Hk)
    as (r & e1 & M1 & Hal & [Ho1 En1] & _ & Hev & Hset & Hcnt1 & Hr).
  assert (forall err, r = (err, 0) -> told err -> exists c', add_set_replace_executor op (bytes_of_packet p) (mk_world c0 x e) =
    Done tt (mk_world c' x e1) /\ item c' = 0 /\ answered (error_reply c0 (engine_error_2_mcbp_protocol_error err)) c0 c') as Hno.
  { intros err -> Htd. pose proof Hst as [Hp He Hf Ha _ Hc Hw Htx _].
    destruct (store_refused_alloc (H := engine_v1) Hmax Hm p op c0 x e err 0 e1 Hp He Hf Ha Hew Hi Hq Hc Htd (Htx _) Hal) as (c' & E & Han).
    exists c'. split; [done|]. split; [|done]. pose proof (an_beside _ _ _ Han) as Hb. unfold beside in Hb. injection Hb as _ _ _ _ _ _ _ _ B _ _.
    by rewrite B. }
  destruct (too_big e key (size (set_value p))); [|destruct Hr as [Hr|(it & i & -> & Hne & Hh & Hfr & _)]].
  - destruct (Hno ENGINE_E2BIG (proj1 Hr)) as (c' & E & Hit & Han); [by split_and!|].
    exists c', e1, M1, (view e1 M1). do 4 (split; [done|]). left. by eauto.
  - destruct (Hno ENGINE_ENOMEM Hr) as (c' & E & Hit & Han); [by split_and!|].
    exists c', e1, M1, (view e1 M1). do 4 (split; [done|]). left. by eauto.
  - destruct (set_stored p op c0 x e e1 M1 it i Hst) as (c' & e' & M' & E & Hn & Hit & Han); try done; [|by apply Hcnt1|].
    { split; try done. eapply Hsp; [exact Hal|apply Hh]. }
    rewrite En1 in Hn, Han. exists c', e', M', (view e1 M1). do 4 (split; [done|]). by right.
Qed.

(** ** Deleting *)

Definition delete_command (cm : protocol_binary_command) : option bool :=
  match cm with PROTOCOL_BINARY_CMD_DELETE => Some false | PROTOCOL_BINARY_CMD_DELETEQ => Some true | _ => None end.

(** The key of a request with neither extras nor value. *)
Lemma bare_key p cm c c1 :
  accepted p cm c -> extlen (header p) = 0 -> nvalue p = 0 -> inp c1 = inp c ->
  binary_get_request c1 = Done (header p) c1 /\ binary_get_key c1 = Done (body p) c1.
Proof.
  intros Hac He Hv Hi.
  assert (request_in_buffer p c1) as Hr.
  { destruct (ac_request _ _ _ Hac) as [Hb Hh Hp]. split; [|by unfold bheader in *; rewrite Hi|done].
    unfold packet_bytes, bheader in *. rewrite Hi. by destruct (load _ _ _); [injection Hb as ->|]. }
  assert (no_value p) as Hn by (unfold no_value, nvalue in *; lia).
  split; [by apply binary_get_request_ok|]. by rewrite (binary_get_key_ok p c1 Hr Hn), He.
Qed.

(** How a deletion is answered. *)
Definition delete_answered (s : acache) (key : bytes) (cas : Z) (s' : acache) (c c' : connection) : Prop :=
  let r := cache_delete (s key) cas in
  unchanged key s s' /\
  if bool_decide (r = ENGINE_SUCCESS) then
    s' key = None /\ answered (success_reply c cas (set_extras c)) (c <| response_cas := cas |>) c'
  else s' key = s key /\ answered (error_reply c (engine_error_2_mcbp_protocol_error r)) c c'.

(** The executor makes the connection quiet by itself. *)
Lemma delete_noreply cm q c x e :
  delete_command cm = Some q -> cmd c = cmd_value cm -> noreply c = false ->
  Executors.delete_executor (mk_world c x e) = Executors.delete_executor (mk_world (c <| noreply := q |>) x e).
Proof.
  intros Hd Hcmd Hn. destruct cm; try done; injection Hd as <-.
  - replace (c <| noreply := false |>) with c; [done|]. by destruct c; cbn in *; subst.
  - unfold Executors.delete_executor. rewrite !bind_conn_gets. change (cmd (c <| noreply := true |>)) with (cmd c). by rewrite Hcmd.
Qed.

(** C7: A deletion over the wire. A request to delete a key that passes the
    checks is answered from the default engine: the key is removed if it holds
    an entry, with the CAS value of the request if that is not zero; otherwise
    everything stays, and the client is told why. *)
Theorem delete_served p cm q c x e M :
  let key := body p in
  accepted p cm c -> delete_command cm = Some q -> map_engine_quiet -> texts_in_memory c -> noreply c = false -> ewouldblock c = false ->
  engine_ok e M -> key_ok e key -> counted e M (full_key e key) -> handled_vbucket e (vbucket (bheader c)) = true ->
  let c0 := c <| noreply := q |> in
  exists c' e' M', process_packet (mk_world c x e) = Done tt (mk_world c' x e') /\ engine_next (e_now e) e' M' /\ keeps e M e' M' /\
    delete_answered (view e M) key (ntohll (cas (header p))) (view e' M') c0 c'.
Proof.
  intros key Hac Hd Hq Ht Hnr Hew Ho Hk Hcnt Hvb c0.
  rewrite (accepted_runs p cm c x e Dispatch.delete_executor Executors.delete_executor Hac); [|by destruct cm|done].
  destruct (ac_format _ _ _ Hac) as (fm & Hfm & Hcf).
  assert (extlen (header p) = 0 /\ nvalue p = 0) as [He Hv].
  { unfold conforms in Hcf. destruct cm; try done; injection Hfm as <-; cbn [fm_extras fm_value existsb present] in Hcf; lia. }
  destruct (bare_key p cm c c0 Hac He Hv eq_refl) as [Erq Eky]. fold key in Eky. set (cs := ntohll (cas (header p))).
  destruct (delete_spec crc32c drift e M key cs (vbucket (bheader c)) Ho Hk Hcnt Hvb) as (e' & M' & Hrun & Hn & Hkp & Hun & Hky).
  cbv zeta in Hrun, Hky. unfold delete_answered. set (r := cache_delete (view e M key) cs) in *.
  assert (engine_remove key cs (vbucket (bheader c0)) e = Done (r, cs, mk_mutation 0 0) e') as Erm.
  { cbn. by erewrite bind_done by exact Hrun. }
  assert (r = ENGINE_SUCCESS \/ r = ENGINE_KEY_ENOENT \/ r = ENGINE_KEY_EEXISTS) as Hr.
  { subst r. unfold cache_delete. repeat case_match; auto. }
  destruct (delete_executor_ok Hmax Hm p key c0 x e r cs (mk_mutation 0 0) e' Erq Eky (ac_aiostat _ _ _ Hac) Hew) as (c' & E & Han); try done.
  { intros Ec. change (cmd c0) with (cmd c) in Ec. rewrite (ac_cmd _ _ _ Hac) in Ec. by destruct cm; try done; injection Hd as <-. }
  { by destruct (ac_respond _ _ _ Hac); split. }
  { apply (ac_buffer _ _ _ Hac). }
  { apply Ht. }
  { by destruct Hr as [->|[->| ->]]. }
  { by destruct Hr as [->|[->| ->]]. }
  exists c', e', M'. split; [|split; [done|split; [done|]]].
  - rewrite <- E. apply (delete_noreply cm q); [done|apply (ac_cmd _ _ _ Hac)|done].
  - split; [done|]. rewrite Hky. destruct (bool_decide (r = ENGINE_SUCCESS)) eqn:Er; [done|]. split; [done|].
    destruct Hr as [Hr|[Hr|Hr]]; rewrite Hr in *; done.
Qed.
End Service.

(** ** A small server

    The engine of [EngineSpec] behind a connection; static texts lie at
    1000000 and above, items at 65536. *)

Definition serving (p : packet) : connection :=
  let n := size (bytes_of_packet p) in
  (with_input (mk_input (mk_net_buf (bytes_of_packet p) n 0) n 0 (host_header (header p))) static_texts) <| cmd := opcode (header p) |>.

Definition get_k : packet :=
  mk_packet (mk_request_header PROTOCOL_BINARY_REQ PROTOCOL_BINARY_CMD_GET (htons 1) 0 0 0 (htonl 1) 7 0) toy_key.
Definition delete_k : packet :=
  mk_packet (mk_request_header PROTOCOL_BINARY_REQ PROTOCOL_BINARY_CMD_DELETE (htons 1) 0 0 0 (htonl 1) 7 0) toy_key.
Definition set_k : packet :=
  mk_packet (mk_request_header PROTOCOL_BINARY_REQ PROTOCOL_BINARY_CMD_SET (htons 1) 8 0 0 (htonl 10) 7 0)
    (replicate 8 Byte.x00 ++ toy_key ++ text "v").

Abbreviation small_accepted := (@accepted text_system plain_engine demo_bucket).

Lemma serving_request p : packet_complete p -> request_in_buffer p (serving p).
Proof.
  intros Hp. pose proof (packet_size p Hp) as Hs. pose proof (nbody_range p). split; [|done|done].
  unfold packet_bytes. change (bodylen (bheader (serving p))) with (nbody p).
  change (mem (read (inp (serving p)))) with (bytes_of_packet p).
  replace (getPacket (inp (serving p))) with 0.
  - rewrite load_in by (unfold HEADER_SIZE; lia). change (Z.to_nat 0) with 0%nat. rewrite drop_0, take_ge; [done|].
    unfold size, HEADER_SIZE in *. lia.
  - unfold getPacket. change (curr (read (inp (serving p)))) with (size (bytes_of_packet p)).
    change (bodylen (binary_header (inp (serving p)))) with (nbody p). unfold HEADER_SIZE. lia.
Qed.

Lemma serving_accepted p cm :
  packet_complete p -> opcode (header p) = cmd_value cm ->
  opcode_privileges false (cmd_value cm) ≫= (fun ps => Some (first_refusal (checkPrivilege false false) ps)) = Some Ok ->
  nkey p + extlen (header p) <= nbody p -> (exists fm, command_format cm = Some fm /\ conforms fm p = true) ->
  small_accepted p cm (serving p).
Proof.
  intros Hp Hop Hac Hf Hfm. split; [by apply serving_request|done|done| |done|done|done|by split; [cbn; lia|..]|done].
  unfold access. change (testing) with false. change (admin (serving p)) with false.
  destruct (opcode_privileges false (cmd_value cm)); [by injection Hac|done].
Qed.

Ltac accept := apply serving_accepted; [split; [by constructor|done]|done|by vm_compute|by vm_compute|eexists; split; [done|by vm_compute]].

Lemma get_k_accepted : small_accepted get_k PROTOCOL_BINARY_CMD_GET (serving get_k).
Proof. accept. Qed.

Lemma delete_k_accepted : small_accepted delete_k PROTOCOL_BINARY_CMD_DELETE (serving delete_k).
Proof. accept. Qed.

Lemma set_k_accepted : small_accepted set_k PROTOCOL_BINARY_CMD_SET (serving set_k).
Proof. accept. Qed.

Lemma small_texts p : @texts_in_memory text_system (serving p).
Proof. intros err. destruct err; (split; [vm_compute; reflexivity|right; vm_compute; discriminate]). Qed.

Lemma small_memory : @memory_available text_system.
Proof. by split. Qed.

(** Small items below 999000 spare the texts. *)
Lemma spares_low it i :
  it <= 999000 -> (length (i_key i) <= 100)%nat -> i_nbytes i <= 100 -> @spares_texts text_system it i.
Proof.
  intros Hit Hk Hn err. assert (0 <= status_value err) as Hs by (by destruct err).
  assert (key_storage it i <= 999200) as Ha by (unfold key_storage, SIZEOF_HASH_ITEM, OFFSETOF_KEY_STORAGE; case_match; lia).
  assert (1000000 <= @status_text text_system err) as Ht by (cbn; lia).
  apply Forall_cons; split; [|apply Forall_cons; split; [|done]]; left; unfold size; cbn [fst snd info_of inf_key inf_value]; unfold item_get_data, hash_key_get_client_key;
    rewrite ?length_take, ?length_drop; lia.
Qed.

Lemma set_k_spares it i e1 :
  default_item_allocate toy_crc no_uninit same_time (set_key set_k) (size (set_value set_k)) (set_flags set_k) (set_expiration set_k)
    (datatype (header set_k)) cache_engine = Done (ENGINE_SUCCESS, it) e1 ->
  e_mem e1 !! it = Some i -> @spares_texts text_system it i.
Proof.
  intros Hrun Hi. destruct (allocate_spec toy_crc no_uninit same_time (fun _ => 0) cache_engine ∅ (set_key set_k) (size (set_value set_k))
    (set_flags set_k) (set_expiration set_k) (datatype (header set_k)) cache_engine_ok (toy_key_ok _))
    as (r & e' & M' & Hrun' & _ & _ & _ & _ & _ & Hr).
  assert (answer_of (default_item_allocate toy_crc no_uninit same_time (set_key set_k) (size (set_value set_k)) (set_flags set_k)
    (set_expiration set_k) (datatype (header set_k)) cache_engine) = Some (ENGINE_SUCCESS, toy_item)) as Ha by (by vm_compute).
  rewrite Hrun in Ha, Hrun'. injection Ha as ->. injection Hrun' as <- <-.
  destruct (too_big _ _ _); [by destruct Hr|]. destruct Hr as [?|(it & j & [= <-] & _ & Hh & (Fk & _ & _ & Fn & _) & _)]; [done|].
  rewrite (proj1 Hh) in Hi. apply (inj Some) in Hi as <-. apply spares_low; [done| |rewrite Fn; by vm_compute].
  rewrite Fk. unfold full_key. rewrite length_app, le_store_length. change (length (set_key set_k)) with 1%nat. lia.
Qed.

Lemma counted_empty e k : counted e ∅ k.
Proof. intros p i Hp. by rewrite lookup_empty in Hp. Qed.

Lemma small_bound : 1 <= @iov_max text_system.
Proof. done. Qed.

Lemma small_vbucket vb : handled_vbucket cache_engine vb = true.
Proof. unfold handled_vbucket. by assert (ignore_vbucket (e_config cache_engine) = true) as -> by (by vm_compute). Qed.

Abbreviation small_server := (@process_packet default_engine (default_engine_v1 toy_crc no_uninit same_time) text_system plain_engine
  demo_bucket small_services).

Lemma set_served_witness :
  exists c' e' M', small_server (mk_world (serving set_k) None cache_engine) = Done tt (mk_world c' None e') /\ toy_ok e' M' /\ item c' = 0.
Proof.
  pose proof (@set_served toy_crc no_uninit same_time (fun _ => 0) text_system plain_engine demo_bucket small_services small_bound small_memory
    set_k PROTOCOL_BINARY_CMD_SET false OPERATION_SET (serving set_k) None cache_engine ∅ set_k_accepted eq_refl plain_quiet
    (small_texts _) eq_refl eq_refl) as W.
  destruct (W ltac:(by right) cache_engine_ok (toy_key_ok _) (counted_empty _ _) (small_vbucket _) set_k_spares)
    as (c' & e' & M' & s & Hrun & [Ho _] & Hi & _). exists c', e', M'. exact (conj Hrun (conj Ho Hi)).
Defined.

Lemma delete_served_witness :
  exists c' e' M', small_server (mk_world (serving delete_k) None cache_engine) = Done tt (mk_world c' None e') /\ toy_ok e' M'.
Proof.
  destruct (@delete_served toy_crc no_uninit same_time (fun _ => 0) text_system plain_engine demo_bucket small_services small_bound small_memory
    delete_k PROTOCOL_BINARY_CMD_DELETE false (serving delete_k) None cache_engine ∅ delete_k_accepted eq_refl plain_quiet
    (small_texts _) eq_refl eq_refl cache_engine_ok (toy_key_ok _) (counted_empty _ _) (small_vbucket _))
    as (c' & e' & M' & Hrun & [Ho _] & _). exists c', e', M'. exact (conj Hrun Ho).
Defined.

(** The engine once the item is stored. *)
Definition toy_stored : default_engine := after (toy_occurs (Request 0 (Store toy_item OPERATION_SET))) toy_alloc.

Lemma toy_stored_ok : exists M, toy_ok toy_stored M.
Proof.
  destruct toy_alloc_ok as (M & i & Ho & Hh & Hk & _).
  destruct (event_ok toy_crc no_uninit same_time (fun _ => 0) toy_alloc M (Request 0 (Store toy_item OPERATION_SET)) Ho)
    as (a & e1 & M1 & Hrun & [Ho1 _] & _).
  { split; [|by vm_compute]. exists i. split; [done|]. rewrite Hk. by apply (counted_found toy_crc (fun _ => 0) _ _ _ 0); [done|vm_compute|vm_compute]. }
  exists M1. unfold toy_stored, after. by rewrite Hrun.
Qed.

(** What is found under a key can be checked in the memory. *)
Lemma found crc32c drift e M k q p :
  DefaultEngine.engine_ok crc32c drift e M -> assoc_find (crc32c k) k e = Done q e -> M !! k = Some p -> p = q.
Proof.
  intros Ho Hf HM. destruct (eo_items _ _ _ _ Ho) as [L Hok].
  rewrite (assoc_find_ok crc32c e M k (io_table _ _ _ _ _ Hok)), HM in Hf. by injection Hf.
Qed.

Lemma entry_found crc32c drift e M key q en (P : hash_item -> bool) :
  DefaultEngine.engine_ok crc32c drift e M -> assoc_find (crc32c (full_key e key)) (full_key e key) e = Done q e ->
  from_option P true (e_mem e !! q) = true -> view e M key = Some en -> exists i, en = entry_of i /\ P i = true.
Proof.
  intros Ho Hf HP Hv. unfold view, live in Hv. destruct (M !! full_key e key) as [p|] eqn:HM; [|done].
  rewrite (found crc32c drift e M _ q p Ho Hf HM) in Hv. cbn [mbind option_bind] in Hv.
  destruct (e_mem e !! q) as [i|]; [|done]. cbn [mbind option_bind] in Hv. destruct (dead e i); [done|].
  exists i. split; [by injection Hv|done].
Qed.

Lemma get_served_witness :
  exists c' e' M', small_server (mk_world (serving get_k) None toy_stored) = Done tt (mk_world c' None e') /\ toy_ok e' M'.
Proof.
  destruct toy_stored_ok as [M Ho].
  assert (assoc_find (toy_crc (full_key toy_stored toy_key)) (full_key toy_stored toy_key) toy_stored = Done toy_item toy_stored) as Hf
    by (by vm_compute).
  destruct (@get_served toy_crc no_uninit same_time (fun _ => 0) text_system plain_engine demo_bucket small_services small_bound small_memory
    get_k PROTOCOL_BINARY_CMD_GET (serving get_k) None toy_stored M get_k_accepted eq_refl plain_quiet (small_texts _ _) Ho (toy_key_ok _))
    as (c' & e' & M' & Hrun & [Ho' _] & _).
  - by apply (counted_found toy_crc (fun _ => 0) _ _ _ toy_item Ho Hf); vm_compute.
  - by vm_compute.
  - intros en Hen. destruct (entry_found toy_crc (fun _ => 0) toy_stored M toy_key toy_item en
      (fun i => (size (take (Z.to_nat (i_nbytes i)) (i_data i)) =? i_nbytes i) && negb (is_compressed (i_datatype i))) Ho Hf) as (i & -> & HP);
      [by vm_compute|done|]. apply andb_true_iff in HP as [HP1 HP2]. split; [by apply Z.eqb_eq in HP1|right; by apply negb_true_iff].
  - intros it i HM _. rewrite (found toy_crc (fun _ => 0) toy_stored M _ toy_item it Ho Hf HM).
    apply Forall_cons; split; [|apply Forall_cons; split; [|done]]; right; cbn [fst info_of inf_key inf_value];
      unfold item_get_data, key_storage, toy_item, SIZEOF_HASH_ITEM, OFFSETOF_KEY_STORAGE; cbn [buf serving]; case_match; cbn; lia.
  - exists c', e', M'. exact (conj Hrun Ho').
Defined.
